(* ===== verification/_CoqProject ===== *)
-Q . S2P
Prelude.v
GoStrings.v
Base64.v
Names.v
Messages.v
Wire.v
Codecs.v
Registry.v
RateLimit.v
Metrics.v
ServeMux.v
StreamDeadline.v
Session.v
Connection.v
ControlPlaneClient.v
Routing.v
ClientIP.v
Config.v
WebSocket.v
Tunnels.v
Ring.v
RequestLog.v
Gateway.v
Management.v
Stores.v
TokenStore.v
Tokens.v
AdminTokens.v
Reserved.v
Password.v
Access.v
CustomDomains.v
AuditEvents.v
ControlPlane.v
Admin.v
ControlPlaneConfig.v
Operator.v
ControlServer.v
AgentConfig.v
AgentForward.v
Reconnect.v
AgentHandlers.v
AgentStreams.v
AgentRunner.v
Handshake.v
EndToEnd.v
Sql.v
Migrations.v
PgTokens.v
PgStores.v
PgLogs.v
UrlQuery.v
Flags.v
Cli.v
CliAdmin.v
CliGateway.v
CliHistory.v
CliExport.v
CliMain.v
CliEndToEnd.v
Lifecycle.v
Processes.v
