(* ===== verification/Prelude.v ===== *)
(** * Porthook: a verification library of the tunnel server

    Porthook publishes local services under public names.  An agent beside the
    service dials the gateway and registers a tunnel; the gateway takes public
    HTTP and WebSocket requests, finds the tunnel by host name, and exchanges
    each request with the agent over the agent's connection; the control plane
    keeps what both rely on (the tokens of agents and operators, reserved
    subdomains, access policies and custom domains) and lets operators look at
    the gateway.  This library translates the Go code under src/protocol,
    src/server and src/agent into Rocq functions, state machines and records
    under the names the code uses, and proves what makes each part correct and
    what the parts do together.

    ** Files, parts and sources

    Shared ground
    - [Prelude]: errors and [errors.Is], [(T, error)] results, 64-bit
      integers, time; the tactics and the hint database of the library.
    - [GoStrings]: the functions of strings, strconv, fmt and net the code
      calls, on byte strings (UTF-8 white space included); the Unicode tables
      behind case mapping are the class [GoUnicode], net/url and durations
      [GoURL] and [GoDuration].
    - [Base64]: encoding/base64 without padding, with its round trip.
    - [ServeMux]: net/http's request mux and path escapes.

    src/protocol
    - [Names] (names/subdomain.go), [Messages] (messages/messages.go and
      binary.go: envelopes, versions, capabilities, the binary body frame byte
      by byte), [Wire] (httpwire, wsproxy, wswire: header rewriting, payloads,
      what is read from and written to a connection).  encoding/json is the
      class [JSONCodec]; [Codecs] adds the class of codecs that never fail and
      instances for every payload.

    src/server/gateway
    - [Registry] (registry.go): tunnels by id and by subdomain.
    - [RateLimit] (ratelimit.go, auth_throttle.go): token buckets and the
      throttle of failed logins; the arithmetic is a class of floats, with IEEE
      binary64 and exact rationals as instances.
    - [StreamDeadline] (streamdeadline.go): request, idle and lifetime timers
      as a machine of events, with callbacks that run late.
    - [Session] (session.go, wsstream.go): one agent's streams: slots,
      mailboxes, both round trips, WebSocket streams, in a state monad over the
      calls made on the connection and the writes to the public client.  [None]
      is a computation blocked in a select.
    - [Connection] (session.go): the goroutines of one agent connection, which
      share [sendMu], the channels of the streams and the read loop; who waits
      for whom.
    - [ControlPlaneClient] (token_validator.go, custom_domain_resolver.go):
      the record [Backends] of the four questions the gateway asks, with the
      static, failing and HTTP implementations, and the cache of domains.
    - [Routing], [Tunnels], [Gateway] (server.go): host to route; admission of
      agents, registration and the session table; the public handler as a
      whole with its log record, counters and error pages.
    - [Management] (server.go, metrics.go, parts of session.go): the server as
      it is built from its configuration, the management API behind its token,
      recording and pruning of request logs, keepalive, closing of sessions.
    - [WebSocket] (websocket.go): the relay of an upgraded connection.
    - [RequestLog] (request_log.go): the request log and its paging, on the
      ring buffer of [Ring] that the audit log shares.
    - [Config] (config.go, config_validation.go).

    src/server/internal
    - [ClientIP] (clientip and requestid); net/netip is the class [GoNetip].
    - [Metrics] (metrics): samples and the latency histogram, whose atomic
      additions interleave.

    src/server/control-plane
    - [Stores]: what the packages share: random secrets, hashes, scopes, and
      the invariant [indexed] of a store with two indexes.
    - [TokenStore], [Tokens], [AdminTokens] (tokens, admintokens): the
      interface [TokenStore] with its laws, the memory store that satisfies
      them, and the two services proved against the interface.
    - [Reserved], [Password], [Access], [CustomDomains]: services and memory
      stores; argon2 is the class [Argon2], DNS an argument.
    - [AuditEvents] (controlplane/audit_events.go): the audit log, on [Ring];
      the iteration order of Go maps is an argument.
    - [ControlPlane] (controlplane/server.go): who may call, what is audited,
      and the four handlers that answer a gateway.
    - [Admin] (controlplane/server.go): the admin handlers, and the server as a
      system of steps.
    - [ControlPlaneConfig] (config.go, config_validation.go, and
      src/server/internal/healthcheck).
    - [Operator] (gateway_management.go): the proxy to the gateway's
      management API, composed with [Management].
    - [ControlServer] (server.go, metrics.go): the control plane as one HTTP
      handler: construction, routes, body decoding, metrics, retention.

    src/agent/internal/agent
    - [AgentConfig] (config.go, config_file.go): defaults, environment, stored
      credentials; the file system is an argument.
    - [AgentForward] (forward.go): the exchange with the local service, whole
      or streamed, with its limits.
    - [Reconnect] (reconnect.go, Run): which errors end the agent and how long
      it waits before the next attempt, on 64-bit durations.
    - [AgentHandlers] (runner.go, wsforward.go): the handlers of one stream.
    - [AgentStreams] (runner.go): the read loop and the table of active
      streams as a machine over a heap of shared stream objects.
    - [AgentRunner] (runner.go): handshake, one connection, keepalive.

    src/agent/cmd/porthook
    - [UrlQuery], [Flags]: net/url's queries and the flag package.
    - [Cli], [CliAdmin], [CliGateway], [CliHistory], [CliExport], [CliMain]
      (main.go, tokens.go, admin.go, reserved.go, access.go, domains.go,
      tunnels.go, doctor.go, history.go, export.go): every command as a
      function of its arguments, the environment and the answers it gets, to
      the requests it makes and the rows and lines it prints.

    The Postgres stores (postgres_store.go and schema.go of each package)
    - [Sql]: the statements the code sends, as data with their SQL text; tables
      with their constraints and a server that executes the statements.  The
      class [Database] is what a store is given, [DatabaseLaws] that it answers
      as this server does (texts ordered by their bytes, times kept to the
      microsecond, failures at any call).
    - [Migrations]: the embedded migrations and [Migrate]; what the SQL of a
      migration does is the class [MigrationDB].
    - [PgTokens], [PgStores], [PgLogs]: the seven stores.

    Processes
    - [Lifecycle]: [Run] of both servers, the DNS resolver, the process log of
      public requests, the agent's waits.
    - [Processes]: main.go of both servers, telemetry and dashboard, and what
      starts of the two processes make of a database they share.

    Compositions
    - [CliEndToEnd]: the command line against the control plane.
    - [Handshake]: the agent's handshake against the gateway's.
    - [EndToEnd]: a public request through gateway, wire and agent to the local
      service and back.

    ** State and effects

    Go maps are [gmap], pointers to records that may be nil are options, and a
    method that changes its receiver returns it.  What the outside does is an
    argument: the outcome of each connection write, the readings of the clock,
    the draws of crypto/rand, the events a select sees, the answers of DNS and
    of HTTP clients.  Concurrent parts are step relations over the shared state
    ([Session]'s slots, [Tunnels]' session table, [StreamDeadline]'s events,
    [Metrics]' observers, [AgentStreams]' heap, the stores of the control plane
    and the control plane as a whole), and their invariants are proved for
    every reachable state.  Values that Go clones before sharing are plain
    values here.  A durable store is an interface where the code has one
    ([Management]'s [requestLogStore]); interfaces of Go that a value may or
    may not implement are optional fields.  A library that the code only calls
    (encoding/json, argon2, net/netip, the database, OpenTelemetry) is a class
    or an argument, with its documented behaviour as a class of laws where a
    theorem relies on it; every such theorem has a witness with an instance.

    ** What the theorems show

    - The tunnel as a whole ([EndToEnd], [Handshake]): agent and gateway end a
      handshake with the same outcome; a public request reaches the local
      service complete and its answer comes back; a stream is always answered.
    - The agent ([AgentStreams], [AgentForward], [Reconnect], [AgentConfig]):
      the stream table holds only live streams, each stream is handed over in
      order, both ways of forwarding agree, reconnection backs off and stops
      where it must.
    - Public requests ([Gateway], [Routing], [ClientIP]): an agent is reached
      only past every guard; each finished request is counted and logged once
      with the status the client saw; forwarded headers are clean; routing and
      the client's address cannot be chosen by the client.
    - Tunnels ([Tunnels], [Registry]): admission requires a valid token,
      version and capabilities; registration is all or nothing; a subdomain's
      session is the one that registered it, in every interleaving.
    - Streams ([Session], [Connection], [WebSocket], [StreamDeadline]): slots are
      bounded and returned, failures cancel once, bodies and messages are
      relayed in order and within limits, a deadline fires only for its reason,
      and a read loop that cannot deliver goes on with its stream or, if that
      stream has returned, only by the end of the session.
    - Limits ([RateLimit]) and the logs ([RequestLog], [AuditEvents]): bounds
      over any window, a bounded table, a ring that refines a list, paging that
      lists everything once.
    - Operators ([Management], [Operator], [Metrics]): without the token the
      gateway's state cannot be told from the answers; summaries say exactly
      what the log says; the control plane proxies only for authorized
      operators and then faithfully; the histogram counts right under any
      interleaving.
    - Wire formats ([Messages], [Wire], [Password]): decode after encode, and
      encode after decode where the format is canonical.
    - The control plane ([Tokens], [Reserved], [Access], [CustomDomains],
      [ControlPlane], [Admin], [ControlServer]): revocation is final, issued
      tokens work, a reservation has one owner, a policy check is exactly its
      policy and survives the upgrade of a legacy hash, a domain is active only
      by DNS proof, lookups and evaluations compose these, admin calls need a
      live scope and leave an audit event of every change, every reachable
      server keeps the invariants of its stores, and any sequence of HTTP
      requests is answered and stays within those states.
    - The command line ([CliMain], [CliHistory], [CliEndToEnd]): a login makes
      the next command work without a token, the filters of a history command
      arrive at the server as they were given, and tokens issued, listed and
      revoked from the command line are those the control plane accepts.
    - The database ([PgTokens], [PgStores], [PgLogs], [Processes]): the Postgres
      stores answer as the memory stores do, call by call; access decisions
      agree; a log is paged completely; every statement is well typed for the
      tables it names; and starts of both processes, in any order and with
      failures, apply the migrations in order, each once.
    - Logs and ends ([Lifecycle]): queries, cookies and credentials do not reach
      the logs, and a server that is told to end closes its sessions.

    ** Fuel and bounds

    Loops of the code are structural recursions over the data they consume
    (bytes, events, reads, attempts, ticks), so no theorem depends on fuel
    except [Ring.fetch_all], which follows cursors; one step more than the
    number of entries is proved to be enough.  Machine integers wrap through
    [int64] and [uint64] where the code can reach the bounds.

    ** What is not modelled

    - Goroutine scheduling below the granularity of the step relations, and
      time inside a blocked call: that a write or a ping ends is a step, when
      it does is not said.
    - The process log of the agent and of the control plane, except the audit
      events and the request lines; [Stats] of the connection pools; the help
      texts of the commands, which are named and not spelled out.
    - What runs in libraries: listeners and signals, TLS and dialling,
      otelhttp's wrappers and the exporters, the file server and the files of
      the dashboard, DNS, and the meaning of the SQL of a migration beyond the
      tables it leaves ([Migrations.porthook_schema]).
    - [readLimitedBody] and [requestContentLength] of gateway/server.go, which
      nothing calls, and the servers for tests under scripts/testdata. *)
From Stdlib Require Import ZArith Lia List String Ascii Bool.
From stdpp Require Import base gmap strings list sorting.

Open Scope Z_scope.

(** * Errors and results

    A Go [error] value: an error made by [errors.New]/[fmt.Errorf] without
    [%w], a package-level error variable (compared by identity, so it carries
    the variable's name), an error that wraps another one with [%w], before
    or after text of its own, or a struct type around an error that only marks
    it. *)
Inductive error : Type :=
| Errorf (msg : string)
| Sentinel (name msg : string)
| Wrap (msg : string) (inner : error)        (* "msg: %w" *)
| Suffix (inner : error) (detail : string)   (* "%w detail" *)
| Typed (kind : string) (inner : error).     (* a struct type around an error *)

#[export] Instance error_eq_dec : EqDecision error.
Proof. solve_decision. Defined.

(** [errors.Is err target]: walk the [Unwrap] chain looking for [target]. *)
Fixpoint errors_Is (e target : error) : bool :=
  bool_decide (e = target) ||
  match e with
  | Wrap _ inner | Suffix inner _ | Typed _ inner => errors_Is inner target
  | _ => false
  end.

(** [err.Error()] *)
Fixpoint error_message (e : error) : string :=
  match e with
  | Errorf m => m
  | Sentinel _ m => m
  | Wrap m inner => m +:+ ": " +:+ error_message inner
  | Suffix inner detail => error_message inner +:+ detail
  | Typed _ inner => error_message inner
  end.

(** [errors.As err target]: an error of a struct type is in the chain. *)
Fixpoint errors_As (e : error) (kind : string) : bool :=
  match e with
  | Errorf _ | Sentinel _ _ => false
  | Wrap _ inner | Suffix inner _ => errors_As inner kind
  | Typed k inner => String.eqb k kind || errors_As inner kind
  end.

(** [io.EOF], what a reader returns at its end. *)
Definition EOF : error := Sentinel "io.EOF" "EOF".

(** [(T, error)] results: [Err] is a non-nil error. *)
Inductive result (A : Type) : Type :=
| Ok (a : A)
| Err (e : error).
Arguments Ok {A} a.
Arguments Err {A} e.

#[export] Instance result_eq_dec {A} `{EqDecision A} : EqDecision (result A).
Proof. solve_decision. Defined.

Definition rbind {A B} (r : result A) (f : A -> result B) : result B :=
  match r with Ok a => f a | Err e => Err e end.

Declare Scope go_scope.
Delimit Scope go_scope with go.
Notation "'try' x <- r ; k" := (rbind r (fun x => k))
  (at level 100, x pattern, r at level 99, right associativity) : go_scope.
Open Scope go_scope.

Definition is_ok {A} (r : result A) : bool :=
  match r with Ok _ => true | Err _ => false end.

(** * Machine integers

    Go's [int], [int64] and [time.Duration] are 64-bit two's complement. *)
Definition min_int64 : Z := - 2 ^ 63.
Definition max_int64 : Z := 2 ^ 63 - 1.
Definition int64 (z : Z) : Z := (z + 2 ^ 63) mod 2 ^ 64 - 2 ^ 63.
Definition in_int64 (z : Z) : bool := (min_int64 <=? z) && (z <=? max_int64).

Lemma int64_id z : min_int64 <= z <= max_int64 -> int64 z = z.
Proof.
  unfold int64, min_int64, max_int64. intros H.
  rewrite Z.mod_small by lia. lia.
Qed.

(** * Time

    A [time.Time] is the number of nanoseconds since Go's zero time, a
    [time.Duration] a number of nanoseconds. *)
Abbreviation Time := Z (only parsing).
Abbreviation Duration := Z (only parsing).
Definition IsZero (t : Time) : bool := t =? 0.
Definition second : Duration := 1000000000.

(** [t.Sub(u)] saturates at the bounds of a [Duration]. *)
Definition time_Sub (t u : Time) : Duration :=
  Z.max min_int64 (Z.min max_int64 (t - u)).

(** * Automation *)
Create HintDb porthook discriminated.
#[export] Hint Constructors Forall Exists : porthook.

(** Case analysis on the scrutinee of a [match] or [if] of the goal or of a
    hypothesis, keeping the equation. *)
Ltac case_goal :=
  match goal with
  | |- context [match ?x with _ => _ end] => destruct x eqn:?
  end.
Ltac case_hyp :=
  match goal with
  | H : context [match ?x with _ => _ end] |- _ => destruct x eqn:?
  end.

(** Turn boolean tests of the code into propositions. *)
Ltac to_prop :=
  repeat match goal with
  | H : _ && _ = true |- _ => apply andb_true_iff in H; destruct H
  | H : _ || _ = false |- _ => apply orb_false_iff in H; destruct H
  | H : negb _ = true |- _ => apply negb_true_iff in H
  | H : negb _ = false |- _ => apply negb_false_iff in H
  | H : bool_decide _ = true |- _ => apply bool_decide_eq_true in H
  | H : bool_decide _ = false |- _ => apply bool_decide_eq_false in H
  | H : Z.eqb _ _ = true |- _ => apply Z.eqb_eq in H
  | H : Z.eqb _ _ = false |- _ => apply Z.eqb_neq in H
  | H : Z.leb _ _ = true |- _ => apply Z.leb_le in H
  | H : Z.leb _ _ = false |- _ => apply Z.leb_gt in H
  | H : Z.ltb _ _ = true |- _ => apply Z.ltb_lt in H
  | H : Z.ltb _ _ = false |- _ => apply Z.ltb_ge in H
  | H : String.eqb _ _ = true |- _ => apply String.eqb_eq in H
  | H : String.eqb _ _ = false |- _ => apply String.eqb_neq in H
  end.

Lemma rbind_ok {A B} (r : result A) (f : A -> result B) b :
  rbind r f = Ok b -> exists a, r = Ok a /\ f a = Ok b.
Proof. destruct r; simpl; [eauto | discriminate]. Qed.

Lemma errors_Is_refl e : errors_Is e e = true.
Proof. destruct e; simpl; rewrite bool_decide_true by done; done. Qed.
#[export] Hint Resolve errors_Is_refl : porthook.
