(* ===== verification/GoStrings.v ===== *)
(** Go's [strings], [strconv] and [net.SplitHostPort] as far as the program
    uses them.  A Go string is a sequence of bytes, here Rocq's [string] whose
    [ascii] characters are 8-bit.  [TrimSpace] removes the UTF-8 encodings of
    exactly the runes [unicode.IsSpace] accepts; [ToLower]/[ToUpper] follow
    the library's ASCII fast path, and the Unicode case tables that the slow
    path consults are the class [GoUnicode]. *)
From S2P Require Import Prelude.
From Stdlib Require Import ZArith Lia List String Ascii Bool.
From stdpp Require Import base gmap strings list sorting.

Open Scope Z_scope.

(** The Unicode case mapping of a string that has a non-ASCII byte. *)
Class GoUnicode : Type := {
  lower_nonascii : string -> string;
  upper_nonascii : string -> string;
}.

(** [time.ParseDuration]. *)
Class GoDuration : Type := { ParseDuration : string -> option Duration }.

(** [net/url]: the fields of a URL the code reads or sets ([User] is the
    userinfo with its at sign, empty for nil), the others
    ([Opaque], [RawPath], [ForceQuery], ...) carried along as [url_Other]. *)
Record URL := mkURL {
  Scheme : string; User : string; url_Host : string;
  url_Path : string; RawQuery : string; Fragment : string; url_Other : string;
}.
Class GoURL : Type := { url_Parse : string -> result URL; url_String : URL -> string }.

Abbreviation bytes := (list ascii) (only parsing).
Abbreviation to_bytes := list_ascii_of_string (only parsing).
Abbreviation of_bytes := string_of_list_ascii (only parsing).

Definition byte (c : ascii) : Z := Z.of_N (N_of_ascii c).
Definition chr (z : Z) : ascii := ascii_of_N (Z.to_N z).
Definition len (s : string) : Z := Z.of_nat (String.length s).

Definition in_range (lo hi z : Z) : bool := (lo <=? z) && (z <=? hi).

(** ** ASCII case *)
Definition is_upper_ascii (c : ascii) : bool := in_range 65 90 (byte c).
Definition is_lower_ascii (c : ascii) : bool := in_range 97 122 (byte c).
Definition is_digit (c : ascii) : bool := in_range 48 57 (byte c).
Definition lower_ascii (c : ascii) : ascii :=
  if is_upper_ascii c then chr (byte c + 32) else c.
Definition upper_ascii (c : ascii) : ascii :=
  if is_lower_ascii c then chr (byte c - 32) else c.

Definition smap (f : ascii -> ascii) (s : string) : string :=
  of_bytes (map f (to_bytes s)).
Definition sforall (p : ascii -> bool) (s : string) : bool :=
  forallb p (to_bytes s).

Definition is_ascii (s : string) : bool := sforall (fun c => byte c <? 128) s.

Definition ToLower {U : GoUnicode} (s : string) : string :=
  if is_ascii s then smap lower_ascii s else lower_nonascii s.
Definition ToUpper {U : GoUnicode} (s : string) : string :=
  if is_ascii s then smap upper_ascii s else upper_nonascii s.

(** ** [strings.TrimSpace] *)
Definition space1 (a : ascii) : bool :=
  in_range 9 13 (byte a) || (byte a =? 32).
Definition space2 (a b : ascii) : bool :=
  (byte a =? 0xC2) && ((byte b =? 0x85) || (byte b =? 0xA0)).
Definition space3 (a b c : ascii) : bool :=
  ((byte a =? 0xE1) && (byte b =? 0x9A) && (byte c =? 0x80)) ||
  ((byte a =? 0xE2) && (byte b =? 0x80) &&
     (in_range 0x80 0x8A (byte c) || (byte c =? 0xA8) || (byte c =? 0xA9) ||
      (byte c =? 0xAF))) ||
  ((byte a =? 0xE2) && (byte b =? 0x81) && (byte c =? 0x9F)) ||
  ((byte a =? 0xE3) && (byte b =? 0x80) && (byte c =? 0x80)).

Section trim.
Variables (p1 : ascii -> bool) (p2 : ascii -> ascii -> bool)
  (p3 : ascii -> ascii -> ascii -> bool).

Fixpoint trim_front (l : bytes) : bytes :=
  match l with
  | [] => []
  | a :: l1 =>
      if p1 a then trim_front l1 else
      match l1 with
      | [] => l
      | b :: l2 =>
          if p2 a b then trim_front l2 else
          match l2 with
          | [] => l
          | c :: l3 => if p3 a b c then trim_front l3 else l
          end
      end
  end.
End trim.

Definition trim_left (l : bytes) : bytes := trim_front space1 space2 space3 l.
Definition trim_right (l : bytes) : bytes :=
  rev (trim_front space1 (fun b a => space2 a b) (fun c b a => space3 a b c) (rev l)).

Definition TrimSpace (s : string) : string :=
  of_bytes (trim_right (trim_left (to_bytes s))).

(** ** Prefixes, suffixes, substrings *)
Definition HasPrefix (s p : string) : bool := String.prefix p s.
Definition bytes_HasSuffix (l p : bytes) : bool :=
  bool_decide (drop (length l - length p) l = p).
Definition HasSuffix (s p : string) : bool :=
  (len p <=? len s) && bytes_HasSuffix (to_bytes s) (to_bytes p).
Definition TrimPrefix (s p : string) : string :=
  if HasPrefix s p then of_bytes (drop (String.length p) (to_bytes s)) else s.
Definition TrimSuffix (s p : string) : string :=
  if HasSuffix s p
  then of_bytes (take (String.length s - String.length p) (to_bytes s)) else s.

(** [strings.CutPrefix]: the rest and whether the prefix was there. *)
Definition CutPrefix (s p : string) : string * bool :=
  if HasPrefix s p then (TrimPrefix s p, true) else (s, false).

Fixpoint Contains (s sub : string) : bool :=
  String.prefix sub s ||
  match s with
  | EmptyString => false
  | String _ s' => Contains s' sub
  end.

Definition bytes_mem (c : ascii) (l : bytes) : bool := existsb (Ascii.eqb c) l.
Definition ContainsAny (s chars : string) : bool :=
  existsb (fun c => bytes_mem c (to_bytes chars)) (to_bytes s).

(** ** [strings.Split] with a one-byte separator, [SplitN(s, sep, 2)], [Join] *)
Fixpoint split_bytes (sep : ascii) (l : bytes) : list bytes :=
  match l with
  | [] => [[]]
  | c :: l' =>
      if Ascii.eqb c sep then [] :: split_bytes sep l' else
      match split_bytes sep l' with
      | [] => [[c]]
      | w :: ws => (c :: w) :: ws
      end
  end.

Definition Split (s : string) (sep : ascii) : list string :=
  map string_of_list_ascii (split_bytes sep (to_bytes s)).

Fixpoint cut_bytes (sep : ascii) (l : bytes) : option (bytes * bytes) :=
  match l with
  | [] => None
  | c :: l' =>
      if Ascii.eqb c sep then Some ([], l') else
      match cut_bytes sep l' with
      | Some (a, b) => Some (c :: a, b)
      | None => None
      end
  end.
(** [strings.Cut] *)
Definition Cut (s : string) (sep : ascii) : string * string * bool :=
  match cut_bytes sep (to_bytes s) with
  | Some (a, b) => (of_bytes a, of_bytes b, true)
  | None => (s, ""%string, false)
  end.

Definition SplitN2 (s : string) (sep : ascii) : list string :=
  match cut_bytes sep (to_bytes s) with
  | Some (a, b) => [of_bytes a; of_bytes b]
  | None => [s]
  end.

Fixpoint Join (l : list string) (sep : string) : string :=
  match l with
  | [] => ""
  | [x] => x
  | x :: xs => x +:+ sep +:+ Join xs sep
  end.

(** ** [strings.EqualFold(s, t)] for an ASCII [t]

    Simple case folding equates exactly two non-ASCII runes with an ASCII
    letter: U+212A (Kelvin sign) with [k] and U+017F (long s) with [s]. *)
Fixpoint fold_bytes (l : bytes) : bytes :=
  match l with
  | [] => []
  | a :: l1 =>
      match l1 with
      | b :: l2 =>
          if (byte a =? 0xC5) && (byte b =? 0xBF) then "s"%char :: fold_bytes l2
          else match l2 with
               | c :: l3 =>
                   if (byte a =? 0xE2) && (byte b =? 0x84) && (byte c =? 0xAA)
                   then "k"%char :: fold_bytes l3
                   else lower_ascii a :: fold_bytes l1
               | [] => lower_ascii a :: fold_bytes l1
               end
      | [] => [lower_ascii a]
      end
  end.
Definition EqualFold (s t : string) : bool :=
  bool_decide (fold_bytes (to_bytes s) = fold_bytes (to_bytes t)).

(** ** [strconv.Atoi] and [strconv.Itoa] *)
Fixpoint parse_digits (acc : Z) (l : bytes) : option Z :=
  match l with
  | [] => Some acc
  | c :: l' => if is_digit c then parse_digits (acc * 10 + (byte c - 48)) l' else None
  end.

Definition parse_unsigned (l : bytes) : option Z :=
  match l with [] => None | _ => parse_digits 0 l end.

Definition Atoi (s : string) : option Z :=
  let unsigned neg l :=
    match parse_unsigned l with
    | Some n => let v := if (neg : bool) then - n else n in
                if in_int64 v then Some v else None
    | None => None
    end in
  match to_bytes s with
  | "-"%char :: l => unsigned true l
  | "+"%char :: l => unsigned false l
  | l => unsigned false l
  end.

Fixpoint digits (fuel : nat) (n : Z) (acc : bytes) : bytes :=
  match fuel with
  | O => acc
  | S f =>
      let acc' := chr (48 + n mod 10) :: acc in
      if n <? 10 then acc' else digits f (n / 10) acc'
  end.

(** Decimal digits of a natural number below [10 ^ 20], which covers [uint64]. *)
Definition Itoa (n : Z) : string :=
  if n <? 0 then "-" +:+ of_bytes (digits 20 (- n) []) else of_bytes (digits 20 n []).

(** ** [fmt.Sprintf] with the verbs [%s], [%d], [%v] (the argument as text) and
    [%q] (quoted, with the quote, backslash and ASCII control characters escaped) *)
Definition dq : ascii := chr 34.
Definition bs : ascii := chr 92.
Definition hex_digit (z : Z) : ascii := if z <? 10 then chr (48 + z) else chr (87 + z).
Definition quote_byte (c : ascii) : bytes :=
  if Ascii.eqb c dq || Ascii.eqb c bs then [bs; c]
  else if byte c =? 10 then [bs; "n"%char]
  else if byte c =? 9 then [bs; "t"%char]
  else if byte c =? 13 then [bs; "r"%char]
  else if (byte c <? 32) || (byte c =? 127)
  then [bs; "x"%char; hex_digit (byte c / 16); hex_digit (byte c mod 16)]
  else [c].
Definition Quote (s : string) : string :=
  of_bytes (dq :: (to_bytes s ≫= quote_byte) ++ [dq]).

Fixpoint sprintf_bytes (fmt : bytes) (args : list string) : bytes :=
  match fmt with
  | [] => []
  | "%"%char :: verb :: fmt' =>
      match args with
      | [] => "%"%char :: verb :: sprintf_bytes fmt' []
      | a :: args' =>
          to_bytes (if Ascii.eqb verb "q" then Quote a else a) ++ sprintf_bytes fmt' args'
      end
  | c :: fmt' => c :: sprintf_bytes fmt' args
  end.
Definition Sprintf (fmt : string) (args : list string) : string :=
  of_bytes (sprintf_bytes (to_bytes fmt) args).

(** ** [net.SplitHostPort] and [net.JoinHostPort] *)
Definition index_byte (c : ascii) (l : bytes) : option nat :=
  fst <$> list_find (fun x => Ascii.eqb x c = true) l.
Definition last_index_byte (c : ascii) (l : bytes) : option nat :=
  match index_byte c (rev l) with
  | Some i => Some (length l - 1 - i)%nat
  | None => None
  end.

Definition first_byte_is (c : ascii) (l : bytes) : bool :=
  match l with a :: _ => Ascii.eqb a c | [] => false end.

Definition split_host_port (l : bytes) : option (bytes * bytes) :=
  match last_index_byte ":" l with
  | None => None
  | Some i =>
      let finish (j k : nat) (host : bytes) :=
        if bytes_mem "[" (drop j l) || bytes_mem "]" (drop k l) then None
        else Some (host, drop (S i) l) in
      if first_byte_is "[" l then
        match index_byte "]" l with
        | None => None
        | Some e =>
            if Nat.eqb (S e) i then finish 1%nat (S e) (drop 1 (take e l)) else None
        end
      else
        let host := take i l in
        if bytes_mem ":" host then None else finish 0%nat 0%nat host
  end.

Definition SplitHostPort (hostport : string) : option (string * string) :=
  match split_host_port (to_bytes hostport) with
  | Some (h, p) => Some (of_bytes h, of_bytes p)
  | None => None
  end.

Definition JoinHostPort (host port : string) : string :=
  if Contains host ":" || Contains host "%"
  then "[" +:+ host +:+ "]:" +:+ port
  else host +:+ ":" +:+ port.

(** * Lemmas *)

Lemma byte_range c : 0 <= byte c < 256.
Proof. unfold byte. pose proof (N_ascii_bounded c). lia. Qed.

Lemma chr_byte c : chr (byte c) = c.
Proof. unfold chr, byte. rewrite N2Z.id. apply ascii_N_embedding. Qed.

Lemma byte_chr z : 0 <= z < 256 -> byte (chr z) = z.
Proof. intros H. unfold chr, byte. rewrite N_ascii_embedding by lia. lia. Qed.

Lemma byte_inj a b : byte a = byte b -> a = b.
Proof. intros H. rewrite <- (chr_byte a), <- (chr_byte b). by rewrite H. Qed.

Lemma of_to_bytes s : of_bytes (to_bytes s) = s.
Proof. apply string_of_list_ascii_of_string. Qed.

Lemma to_of_bytes l : to_bytes (of_bytes l) = l.
Proof. apply list_ascii_of_string_of_list_ascii. Qed.

Lemma to_bytes_inj s t : to_bytes s = to_bytes t -> s = t.
Proof. intros H. rewrite <- (of_to_bytes s), <- (of_to_bytes t). by rewrite H. Qed.

Lemma string_cons_app a s t : String a s +:+ t = String a (s +:+ t).
Proof. reflexivity. Qed.

Lemma to_bytes_app s t : to_bytes (s +:+ t) = to_bytes s ++ to_bytes t.
Proof. induction s; simpl; [done | by f_equal]. Qed.

Lemma of_bytes_app l k : of_bytes (l ++ k) = of_bytes l +:+ of_bytes k.
Proof. apply to_bytes_inj. by rewrite to_bytes_app, !to_of_bytes. Qed.

Lemma length_to_bytes s : length (to_bytes s) = String.length s.
Proof. induction s; simpl; congruence. Qed.

Lemma length_of_bytes l : String.length (of_bytes l) = length l.
Proof. by rewrite <- length_to_bytes, to_of_bytes. Qed.

Lemma len_app s t : len (s +:+ t) = len s + len t.
Proof.
  unfold len. rewrite <- !length_to_bytes, to_bytes_app, length_app. lia.
Qed.

Lemma len_nonneg s : 0 <= len s.
Proof. unfold len. lia. Qed.

Lemma len_zero s : len s = 0 -> s = "".
Proof. unfold len. destruct s; simpl; [done | lia]. Qed.

Create Rewrite HintDb gobytes.
#[export] Hint Rewrite of_to_bytes to_of_bytes to_bytes_app length_to_bytes
  length_of_bytes @length_app : gobytes.

Lemma sforall_spec p s : sforall p s = true <-> Forall (fun c => p c = true) (to_bytes s).
Proof. unfold sforall. by rewrite forallb_forall, List.Forall_forall. Qed.

Lemma sforall_app p s t : sforall p (s +:+ t) = sforall p s && sforall p t.
Proof. unfold sforall. by rewrite to_bytes_app, forallb_app. Qed.

Lemma sforall_impl (p q : ascii -> bool) s :
  (forall c, p c = true -> q c = true) -> sforall p s = true -> sforall q s = true.
Proof.
  intros Hpq H. apply sforall_spec. apply sforall_spec in H.
  eapply List.Forall_impl; [|exact H]. auto.
Qed.

(** The visible ASCII characters: no space, no control character. *)
Definition visible (c : ascii) : bool := in_range 33 126 (byte c).

Lemma visible_space1 c : visible c = true -> space1 c = false.
Proof.
  unfold visible, space1, in_range. intros H. to_prop.
  apply orb_false_iff; split; [apply andb_false_iff; right|]; lia.
Qed.

Lemma trim_front_id p1 p2 p3 l :
  Forall (fun c => p1 c = false) l ->
  (forall a b, In a l -> In b l -> p2 a b = false) ->
  (forall a b c, In a l -> In b l -> In c l -> p3 a b c = false) ->
  trim_front p1 p2 p3 l = l.
Proof.
  intros H1 H2 H3. destruct l as [|a [|b [|c l]]]; simpl; [done|..];
    inv H1; try (inv H5); repeat match goal with H : p1 _ = false |- _ => rewrite H end;
    rewrite ?H2, ?H3 by (simpl; tauto); done.
Qed.

Lemma TrimSpace_visible s : sforall visible s = true -> TrimSpace s = s.
Proof.
  intros H. apply sforall_spec in H. unfold TrimSpace, trim_right, trim_left.
  assert (Hv : forall l, Forall (fun c => visible c = true) l ->
    Forall (fun c => space1 c = false) l /\
    (forall a b, In a l -> space2 a b = false) /\
    (forall a b c, In a l -> space3 a b c = false)).
  { intros l Hl. split; [|split].
    - eapply List.Forall_impl; [|exact Hl]. intros; by apply visible_space1.
    - intros a b Ha. rewrite List.Forall_forall in Hl. specialize (Hl a Ha).
      unfold visible, in_range in Hl. to_prop. unfold space2.
      apply andb_false_iff. left. lia.
    - intros a b c Ha. rewrite List.Forall_forall in Hl. specialize (Hl a Ha).
      unfold visible, in_range in Hl. to_prop. unfold space3.
      rewrite !orb_false_iff, !andb_false_iff. repeat split; left; try left; lia. }
  destruct (Hv _ H) as (A & B & C).
  rewrite (trim_front_id space1 space2 space3) by eauto.
  rewrite trim_front_id.
  - by rewrite rev_involutive, of_to_bytes.
  - apply List.Forall_rev. done.
  - intros a b Ha Hb. apply B. by apply in_rev.
  - intros a b c Ha Hb Hc. apply C. by apply in_rev.
Qed.

(** ** Trimming twice is trimming once *)
Section trim_idem.
Context (p1 : ascii -> bool) (p2 : ascii -> ascii -> bool) (p3 : ascii -> ascii -> ascii -> bool).

(** [l] starts with something [trim_front] removes. *)
Definition starts (l : bytes) : bool :=
  match l with
  | [] => false
  | a :: l1 =>
      p1 a || match l1 with
              | [] => false
              | b :: l2 => p2 a b || match l2 with [] => false | c :: _ => p3 a b c end
              end
  end.

Lemma trim_front_stops l : starts l = false -> trim_front p1 p2 p3 l = l.
Proof.
  destruct l as [|a [|b [|c l]]]; cbn; [done| | |];
    rewrite ?orb_false_r, ?orb_false_iff; [by intros ->|intros [-> ->]; done|intros (-> & -> & ->); done].
Qed.

Lemma trim_front_spec l :
  starts (trim_front p1 p2 p3 l) = false /\ exists k, l = k ++ trim_front p1 p2 p3 l.
Proof.
  induction l as [l IH] using (induction_ltof1 _ (@length ascii)). unfold ltof in IH.
  destruct (starts l) eqn:E; [|by rewrite trim_front_stops; [split; [|exists []]|]].
  destruct l as [|a l1]; [done|]. cbn [trim_front starts] in *.
  destruct (p1 a) eqn:E1; cbn [orb] in E.
  { destruct (IH l1) as (H & k & Ek); [cbn; lia|]. split; [done|]. exists (a :: k). cbn. by rewrite <- Ek. }
  destruct l1 as [|b l2]; [done|]. destruct (p2 a b) eqn:E2; cbn [orb] in E.
  { destruct (IH l2) as (H & k & Ek); [cbn; lia|]. split; [done|]. exists (a :: b :: k). cbn. by rewrite <- Ek. }
  destruct l2 as [|c l3]; [done|]. rewrite E.
  destruct (IH l3) as (H & k & Ek); [cbn; lia|]. split; [done|]. exists (a :: b :: c :: k). cbn. by rewrite <- Ek.
Qed.

Lemma starts_app l k : starts (l ++ k) = false -> starts l = false.
Proof.
  destruct l as [|a [|b [|c l]]]; cbn; [done| | |]; rewrite ?orb_false_iff; [by intros [-> _]| |tauto].
  intros (-> & -> & _). done.
Qed.
End trim_idem.

Lemma TrimSpace_idem s : TrimSpace (TrimSpace s) = TrimSpace s.
Proof.
  unfold TrimSpace. rewrite to_of_bytes. f_equal.
  destruct (trim_front_spec space1 space2 space3 (to_bytes s)) as [Hl _]. fold (trim_left (to_bytes s)) in Hl.
  set (x := trim_left (to_bytes s)) in *. unfold trim_right.
  set (f := trim_front space1 (fun b a => space2 a b) (fun c b a => space3 a b c)).
  destruct (trim_front_spec space1 (fun b a => space2 a b) (fun c b a => space3 a b c) (rev x)) as [Hr [k Hk]].
  fold f in Hr, Hk. assert (Hx : x = rev (f (rev x)) ++ rev k) by (by rewrite <- rev_app_distr, <- Hk, rev_involutive).
  assert (Hleft : trim_left (rev (f (rev x))) = rev (f (rev x))).
  { apply trim_front_stops. apply (starts_app _ _ _ _ (rev k)). by rewrite <- Hx. }
  rewrite Hleft, rev_involutive. f_equal. by apply trim_front_stops.
Qed.

Lemma smap_id f s : (forall c, In c (to_bytes s) -> f c = c) -> smap f s = s.
Proof.
  intros H. unfold smap. rewrite <- (of_to_bytes s) at 2. f_equal.
  rewrite <- (List.map_id (to_bytes s)) at 2. apply map_ext_in. auto.
Qed.

(** A string of ASCII characters none of which is upper case is unchanged. *)
Definition lower_stable (c : ascii) : bool := (byte c <? 128) && negb (is_upper_ascii c).

Lemma ToLower_stable {U : GoUnicode} s : sforall lower_stable s = true -> ToLower s = s.
Proof.
  intros H. unfold ToLower.
  assert (is_ascii s = true) as ->.
  { eapply sforall_impl; [|exact H]. unfold lower_stable. intros c Hc. to_prop. by apply Z.ltb_lt. }
  apply smap_id. intros c Hc. apply sforall_spec in H.
  rewrite List.Forall_forall in H. specialize (H c Hc). unfold lower_stable in H.
  to_prop. unfold lower_ascii. by rewrite H0.
Qed.

Lemma prefix_spec p s : String.prefix p s = true <-> exists t, s = p +:+ t.
Proof.
  revert s. induction p as [|a p IH]; intros s.
  - split; [intros _; by exists s | by destruct s].
  - destruct s as [|b s]; [split; [done | intros [t Ht]; done]|].
    simpl. destruct (ascii_dec a b) as [->|Hne].
    + rewrite IH. split; intros [t Ht]; exists t; rewrite string_cons_app in *; congruence.
    + split; [done | intros [t Ht]; rewrite string_cons_app in Ht; congruence].
Qed.

Lemma HasSuffix_app s t : HasSuffix (s +:+ t) t = true.
Proof.
  unfold HasSuffix. rewrite len_app. apply andb_true_iff. split.
  - apply Z.leb_le. pose proof (len_nonneg s). lia.
  - unfold bytes_HasSuffix. apply bool_decide_eq_true.
    rewrite to_bytes_app, length_app.
    replace (_ + _ - _)%nat with (length (to_bytes s)) by lia.
    by rewrite drop_app_length.
Qed.

Lemma TrimSuffix_app s t : TrimSuffix (s +:+ t) t = s.
Proof.
  unfold TrimSuffix. rewrite HasSuffix_app.
  rewrite <- !length_to_bytes, to_bytes_app, length_app.
  replace (_ + _ - _)%nat with (length (to_bytes s)) by lia.
  by rewrite take_app_length, of_to_bytes.
Qed.

Lemma HasSuffix_spec s t : HasSuffix s t = true -> s = TrimSuffix s t +:+ t.
Proof.
  intros H. unfold TrimSuffix. rewrite H. unfold HasSuffix, bytes_HasSuffix in H.
  to_prop. apply to_bytes_inj. rewrite to_bytes_app, to_of_bytes.
  rewrite <- H0 . rewrite <- !length_to_bytes. by rewrite take_drop.
Qed.

Lemma bytes_mem_spec c l : bytes_mem c l = true <-> In c l.
Proof.
  unfold bytes_mem. rewrite existsb_exists. split.
  - intros (x & Hx & He). apply Ascii.eqb_eq in He. by subst.
  - intros H. exists c. split; [done | apply Ascii.eqb_refl].
Qed.

Lemma bytes_mem_false c l : bytes_mem c l = false <-> ~ In c l.
Proof. rewrite <- bytes_mem_spec. destruct (bytes_mem c l); intuition congruence. Qed.

Lemma Contains_char c s : Contains s (String c "") = true <-> In c (to_bytes s).
Proof.
  induction s as [|a s IH]; simpl; [intuition congruence|].
  destruct (ascii_dec c a) as [->|Hne]; simpl.
  - destruct s; simpl; intuition.
  - rewrite IH. intuition congruence.
Qed.

Lemma Contains_char_false c s : Contains s (String c "") = false <-> ~ In c (to_bytes s).
Proof. rewrite <- Contains_char. destruct (Contains _ _); intuition congruence. Qed.

Lemma index_byte_None c l : ~ In c l -> index_byte c l = None.
Proof.
  intros H. unfold index_byte. destruct (list_find _ l) as [[i x]|] eqn:E; [|done].
  apply list_find_Some in E as (Hx & He & _). apply Ascii.eqb_eq in He. subst.
  exfalso. apply H. apply list_elem_of_In. by eapply list_elem_of_lookup_2.
Qed.

Lemma index_byte_app c l k : ~ In c l -> index_byte c (l ++ c :: k) = Some (length l).
Proof.
  intros H. unfold index_byte.
  assert (list_find (fun x => Ascii.eqb x c = true) (l ++ c :: k) = Some (length l, c)) as ->; [|done].
  apply list_find_Some. split; [|split].
  - by rewrite lookup_app_r, Nat.sub_diag.
  - apply Ascii.eqb_refl.
  - intros j y Hy Hj He. apply Ascii.eqb_eq in He. subst.
    rewrite lookup_app_l in Hy by done. apply H, list_elem_of_In.
    by eapply list_elem_of_lookup_2.
Qed.

Lemma last_index_byte_app c l k :
  ~ In c k -> last_index_byte c (l ++ c :: k) = Some (length l).
Proof.
  intros H. unfold last_index_byte. rewrite rev_app_distr. simpl. rewrite <- app_assoc. simpl.
  rewrite index_byte_app by (by rewrite <- in_rev).
  f_equal. rewrite length_app, length_rev. simpl. lia.
Qed.

Lemma last_index_byte_None c l : ~ In c l -> last_index_byte c l = None.
Proof.
  intros H. unfold last_index_byte. rewrite index_byte_None; [done|]. by rewrite <- in_rev.
Qed.

(** [host:port] splits back when neither part has a colon or a bracket. *)
Lemma SplitHostPort_app host port :
  sforall (fun c => negb (bytes_mem c (to_bytes ":[]"))) host = true ->
  sforall (fun c => negb (bytes_mem c (to_bytes ":[]"))) port = true ->
  SplitHostPort (host +:+ ":" +:+ port) = Some (host, port).
Proof.
  intros Hh Hp. apply sforall_spec in Hh, Hp. rewrite List.Forall_forall in Hh, Hp.
  assert (Hn : forall l c, (forall x, In x l -> negb (bytes_mem x (to_bytes ":[]")) = true) ->
    In c (to_bytes ":[]") -> ~ In c l).
  { intros l c Hl Hc Hin. specialize (Hl c Hin). apply negb_true_iff, bytes_mem_false in Hl. done. }
  unfold SplitHostPort, split_host_port. rewrite !to_bytes_app.
  change (to_bytes ":" ++ to_bytes port) with (":"%char :: to_bytes port).
  rewrite last_index_byte_app by (apply Hn; simpl; tauto).
  set (l := to_bytes host ++ _).
  assert (Hl : forall c, c = "["%char \/ c = "]"%char -> ~ In c l).
  { intros c Hc Hin. apply in_app_or in Hin as [Hin|Hin].
    - revert Hin. apply Hn; [done|]. simpl. destruct Hc; subst; tauto.
    - destruct Hin as [Hin|Hin]; [destruct Hc; subst; discriminate|].
      revert Hin. apply Hn; [done|]. simpl. destruct Hc; subst; tauto. }
  assert (Hgo : (let h := take (length (to_bytes host)) l in
     if bytes_mem ":" h then None
     else if bytes_mem "[" (drop 0 l) || bytes_mem "]" (drop 0 l) then None
          else Some (h, drop (S (length (to_bytes host))) l))
     = Some (to_bytes host, to_bytes port)).
  { cbv zeta. rewrite !drop_0.
    assert (take (length (to_bytes host)) l = to_bytes host) as ->
      by (unfold l; apply take_app_length).
    assert (bytes_mem ":" (to_bytes host) = false) as ->
      by (apply bytes_mem_false, Hn; simpl; tauto).
    assert (bytes_mem "[" l = false) as -> by (apply bytes_mem_false, Hl; tauto).
    assert (bytes_mem "]" l = false) as -> by (apply bytes_mem_false, Hl; tauto).
    simpl. f_equal. f_equal. unfold l.
    rewrite (cons_middle ":"%char), app_assoc.
    replace (S (length (to_bytes host))) with (length (to_bytes host ++ [":"%char]))
      by (rewrite length_app; simpl; lia).
    apply drop_app_length. }
  assert (first_byte_is "[" l = false) as ->.
  { destruct l as [|a l']; [done|]. apply Ascii.eqb_neq. intros ->.
    apply (Hl "["%char); [tauto | by left]. }
  cbv zeta in Hgo |- *. rewrite Hgo. by rewrite !of_to_bytes.
Qed.

Lemma SplitHostPort_no_colon host :
  ~ In ":"%char (to_bytes host) -> SplitHostPort host = None.
Proof.
  intros H. unfold SplitHostPort, split_host_port. by rewrite last_index_byte_None.
Qed.

(** ** Decimal text *)
Lemma parse_digits_app a b acc :
  parse_digits acc (a ++ b) = (parse_digits acc a ≫= fun v => parse_digits v b).
Proof.
  revert acc. induction a as [|c a IH]; intros acc; simpl; [done|].
  destruct (is_digit c); [apply IH | done].
Qed.

Lemma digit_chr d : 0 <= d < 10 -> is_digit (chr (48 + d)) = true /\ byte (chr (48 + d)) = 48 + d.
Proof.
  intros H. assert (byte (chr (48 + d)) = 48 + d) as E by (apply byte_chr; lia).
  unfold is_digit, in_range. rewrite E. split; [apply andb_true_iff; lia | done].
Qed.

Lemma digits_spec fuel n l :
  0 <= n < 10 ^ Z.of_nat fuel -> (0 < fuel)%nat ->
  exists pre, digits fuel n l = pre ++ l /\ pre <> [] /\
    Forall (fun c => is_digit c = true) pre /\ parse_digits 0 pre = Some n.
Proof.
  revert n l. induction fuel as [|fuel IH]; intros n l Hn Hf; [lia|]. simpl.
  destruct (digit_chr (n mod 10)) as [Hd Hb]; [apply Z.mod_pos_bound; lia|].
  destruct (Z.ltb_spec n 10) as [H10|H10].
  - exists [chr (48 + n mod 10)]. split; [done|]. split; [done|]. split; [by repeat constructor|].
    unfold parse_digits. rewrite Hd, Hb, Z.mod_small by lia. f_equal. lia.
  - assert (0 < fuel)%nat as Hf' by
      (destruct fuel; [change (10 ^ Z.of_nat 1) with 10 in Hn; lia | lia]).
    rewrite Nat2Z.inj_succ, Z.pow_succ_r in Hn by lia.
    destruct (IH (n / 10) (chr (48 + n mod 10) :: l)) as (pre & E & Hne & HF & Hp).
    { split; [apply Z.div_pos; lia | apply Z.div_lt_upper_bound; lia]. }
    { done. }
    exists (pre ++ [chr (48 + n mod 10)]). split; [by rewrite E, <- app_assoc|].
    split; [by destruct pre|]. split; [apply Forall_app; split; [done | by repeat constructor]|].
    rewrite parse_digits_app, Hp. cbn [mbind option_bind]. unfold parse_digits.
    rewrite Hd, Hb. f_equal. pose proof (Z.div_mod n 10 ltac:(lia)). lia.
Qed.

Lemma is_digit_not_sign c : is_digit c = true -> c <> "-"%char /\ c <> "+"%char /\ c <> "."%char.
Proof. intros H. repeat split; intros ->; discriminate. Qed.

Lemma Itoa_digits n :
  0 <= n <= max_int64 ->
  exists c l, to_bytes (Itoa n) = c :: l /\ Forall (fun c => is_digit c = true) (c :: l) /\
    parse_digits 0 (c :: l) = Some n.
Proof.
  intros Hn. unfold Itoa, max_int64 in *. destruct (Z.ltb_spec n 0); [lia|].
  destruct (digits_spec 20 n []) as (pre & -> & Hne & HF & Hp).
  { change (10 ^ Z.of_nat 20) with 100000000000000000000. lia. }
  { lia. }
  rewrite app_nil_r, to_of_bytes. destruct pre as [|c l]; [done|]. eauto.
Qed.

Lemma Atoi_digits s c l :
  to_bytes s = c :: l -> is_digit c = true ->
  Atoi s = match parse_digits 0 (c :: l) with
           | Some n => if in_int64 n then Some n else None
           | None => None
           end.
Proof.
  intros E Hd. unfold Atoi. rewrite E. destruct (is_digit_not_sign c Hd) as (H1 & H2 & _).
  destruct c as [[] [] [] [] [] [] [] []]; try reflexivity; by exfalso.
Qed.

Lemma Atoi_Itoa n : 0 <= n <= max_int64 -> Atoi (Itoa n) = Some n.
Proof.
  intros Hn. destruct (Itoa_digits n Hn) as (c & l & E & HF & Hp).
  rewrite (Atoi_digits _ c l E) by (by inv HF). rewrite Hp.
  unfold in_int64. rewrite (proj2 (Z.leb_le min_int64 n)), (proj2 (Z.leb_le n _)); [done|lia|].
  unfold min_int64. lia.
Qed.

Lemma cut_bytes_none c l : ~ In c l -> cut_bytes c l = None.
Proof.
  induction l as [|x l IH]; [done|]. cbn. intros Hn. destruct (Ascii.eqb_spec x c); [tauto|]. by rewrite IH by tauto.
Qed.
Lemma cut_bytes_app sep a b :
  ~ In sep a -> cut_bytes sep (a ++ sep :: b) = Some (a, b).
Proof.
  induction a as [|c a IH]; intros H; simpl.
  - by rewrite Ascii.eqb_refl.
  - destruct (Ascii.eqb_spec c sep) as [->|]; [exfalso; apply H; by left|].
    rewrite IH; [done|]. intros Hin. apply H. by right.
Qed.

(** ** Splitting and prefixes *)
Lemma split_bytes_app sep a b :
  ~ In sep a -> split_bytes sep (a ++ sep :: b) = a :: split_bytes sep b.
Proof.
  induction a as [|c a IH]; intros H; cbn; [by rewrite Ascii.eqb_refl|].
  destruct (Ascii.eqb_spec c sep) as [->|]; [destruct H; by left|].
  rewrite IH; [done|]. intros Hin. apply H. by right.
Qed.
Lemma split_bytes_none sep a : ~ In sep a -> split_bytes sep a = [a].
Proof.
  induction a as [|c a IH]; intros H; cbn; [done|].
  destruct (Ascii.eqb_spec c sep) as [->|]; [destruct H; by left|].
  rewrite IH; [done|]. intros Hin. apply H. by right.
Qed.
Lemma Split_app s t sep :
  ~ In sep (to_bytes s) -> Split (s +:+ String sep t) sep = s :: Split t sep.
Proof.
  intros H. unfold Split. rewrite to_bytes_app. cbn [to_bytes list_ascii_of_string].
  rewrite split_bytes_app by done. cbn [map]. f_equal. apply of_to_bytes.
Qed.
Lemma Split_none s sep : ~ In sep (to_bytes s) -> Split s sep = [s].
Proof. intros H. unfold Split. rewrite split_bytes_none by done. cbn. f_equal. apply of_to_bytes. Qed.
(** Pieces without the separator survive being joined and split. *)
Lemma Split_Join sep l :
  l <> [] -> Forall (fun s => ~ In sep (to_bytes s)) l -> Split (GoStrings.Join l (String sep "")) sep = l.
Proof.
  unfold Split. induction l as [|s l IH]; [done|]. intros _ [Hs Hl]%Forall_cons. destruct l as [|t l].
  - cbn [GoStrings.Join]. rewrite split_bytes_none by done. cbn. by rewrite of_to_bytes.
  - change (GoStrings.Join (s :: t :: l) (String sep "")) with (s +:+ String sep "" +:+ GoStrings.Join (t :: l) (String sep "")).
    rewrite !to_bytes_app. cbn [list_ascii_of_string app].
    rewrite split_bytes_app by done. cbn [map]. rewrite of_to_bytes. f_equal. by apply IH.
Qed.
Lemma HasPrefix_app p s : HasPrefix (p +:+ s) p = true.
Proof. apply prefix_spec. by exists s. Qed.
Lemma TrimPrefix_app p s : TrimPrefix (p +:+ s) p = s.
Proof.
  unfold TrimPrefix. rewrite HasPrefix_app.
  rewrite to_bytes_app, drop_app_length' by (by rewrite length_to_bytes). apply of_to_bytes.
Qed.
Lemma CutPrefix_app p s : CutPrefix (p +:+ s) p = (s, true).
Proof.
  unfold CutPrefix, TrimPrefix, HasPrefix. rewrite (proj2 (prefix_spec p (p +:+ s))) by eauto.
  by rewrite to_bytes_app, <- length_to_bytes, drop_app_length, of_to_bytes.
Qed.
