(* ===== verification/Base64.v ===== *)
(** Go's [encoding/base64] without padding, as the program uses it for page
    cursors ([RawURLEncoding]), secrets and password hashes
    ([RawStdEncoding]): encoder, decoder, and their round trip. *)
From S2P Require Import Prelude GoStrings.
From Stdlib Require Import ZArith Lia List String Ascii Bool.
From stdpp Require Import base list strings.

Open Scope Z_scope.

(** An encoding is its alphabet of 64 bytes. *)
Definition encodeURL : string :=
  "ABCDEFGHIJKLMNOPQRSTUVWXYZabcdefghijklmnopqrstuvwxyz0123456789-_".
Definition encodeStd : string :=
  "ABCDEFGHIJKLMNOPQRSTUVWXYZabcdefghijklmnopqrstuvwxyz0123456789+/".

Section base64.
Variable alphabet : string.

Definition sextet_char (v : Z) : ascii := nth (Z.to_nat v) (to_bytes alphabet) zero.

Fixpoint char_index (c : ascii) (l : bytes) (i : Z) : option Z :=
  match l with
  | [] => None
  | x :: l' => if Ascii.eqb c x then Some i else char_index c l' (i + 1)
  end.
Definition char_sextet (c : ascii) : option Z := char_index c (to_bytes alphabet) 0.

(** Groups of three bytes make four characters; a last group of one or two
    bytes makes two or three. *)
Fixpoint encode_bytes (l : bytes) : bytes :=
  match l with
  | [] => []
  | a :: l1 =>
      match l1 with
      | [] => map sextet_char [byte a / 4; byte a mod 4 * 16]
      | b :: l2 =>
          match l2 with
          | [] => map sextet_char
                    [byte a / 4; byte a mod 4 * 16 + byte b / 16; byte b mod 16 * 4]
          | c :: l3 =>
              map sextet_char
                [byte a / 4; byte a mod 4 * 16 + byte b / 16;
                 byte b mod 16 * 4 + byte c / 64; byte c mod 64] ++ encode_bytes l3
          end
      end
  end.
Definition EncodeToString (l : bytes) : string := of_bytes (encode_bytes l).

(** The quanta of four sextets; a single trailing character is corrupt, and
    the unused low bits of a short quantum are ignored. *)
Fixpoint decode_sextets (l : list Z) : option bytes :=
  match l with
  | [] => Some []
  | a :: l1 =>
      match l1 with
      | [] => None
      | b :: l2 =>
          match l2 with
          | [] => Some [chr (a * 4 + b / 16)]
          | c :: l3 =>
              match l3 with
              | [] => Some [chr (a * 4 + b / 16); chr (b mod 16 * 16 + c / 4)]
              | d :: l4 =>
                  rest ← decode_sextets l4;
                  Some (chr (a * 4 + b / 16) :: chr (b mod 16 * 16 + c / 4) ::
                        chr (c mod 4 * 64 + d) :: rest)
              end
          end
      end
  end.

(** Carriage returns and newlines are skipped; any other byte outside the
    alphabet is corrupt. *)
Definition is_newline (c : ascii) : bool := (byte c =? 10) || (byte c =? 13).
Definition DecodeString (s : string) : option bytes :=
  sextets ← mapM char_sextet (List.filter (fun c => negb (is_newline c)) (to_bytes s));
  decode_sextets sextets.

Hypothesis alphabet_ok :
  forallb (fun v => let v := Z.of_nat v in
    bool_decide (char_sextet (sextet_char v) = Some v) && negb (is_newline (sextet_char v)))
    (seq 0 64) = true.

Lemma alphabet_at v :
  0 <= v < 64 -> char_sextet (sextet_char v) = Some v /\ is_newline (sextet_char v) = false.
Proof.
  intros H. rewrite forallb_forall in alphabet_ok.
  specialize (alphabet_ok (Z.to_nat v)). cbv zeta in alphabet_ok.
  rewrite Z2Nat.id in alphabet_ok by lia.
  assert (Hin : In (Z.to_nat v) (seq 0 64)) by (apply in_seq; lia).
  specialize (alphabet_ok Hin). to_prop. done.
Qed.

(** A list of sextets reads back from its characters. *)
Lemma decode_chars vs :
  Forall (fun v => 0 <= v < 64) vs ->
  mapM char_sextet (List.filter (fun c => negb (is_newline c)) (map sextet_char vs)) = Some vs.
Proof.
  induction 1 as [|v vs Hv _ IH]; [done|]. destruct (alphabet_at v Hv) as [E1 E2].
  simpl. rewrite E2. simpl. by rewrite E1, IH.
Qed.

(** The sextets the encoder looks up. *)
Fixpoint sextets (l : bytes) : list Z :=
  match l with
  | [] => []
  | [a] => [byte a / 4; byte a mod 4 * 16]
  | [a; b] => [byte a / 4; byte a mod 4 * 16 + byte b / 16; byte b mod 16 * 4]
  | a :: b :: c :: l3 =>
      byte a / 4 :: byte a mod 4 * 16 + byte b / 16 ::
      byte b mod 16 * 4 + byte c / 64 :: byte c mod 64 :: sextets l3
  end.

(** Induction three bytes at a time. *)
Lemma triple_ind (P : bytes -> Prop) :
  P [] -> (forall a, P [a]) -> (forall a b, P [a; b]) ->
  (forall a b c l, P l -> P (a :: b :: c :: l)) -> forall l, P l.
Proof.
  intros H0 H1 H2 H3 l. assert (H : P l /\ (forall a, P (a :: l)) /\ (forall a b, P (a :: b :: l)));
    [|tauto]. induction l as [|x l (I1 & I2 & I3)]; auto.
Qed.

Lemma encode_sextets l : encode_bytes l = map sextet_char (sextets l).
Proof. induction l as [| | |a b c l IH] using triple_ind; try done. simpl. by rewrite IH. Qed.

Lemma sextets_range l : Forall (fun v => 0 <= v < 64) (sextets l).
Proof.
  induction l as [|a|a b|a b c l IH] using triple_ind; simpl; repeat constructor; try done;
    try pose proof (byte_range a); try pose proof (byte_range b); try pose proof (byte_range c);
    Z.div_mod_to_equations; lia.
Qed.

Lemma chr_eq a z : z = byte a -> chr z = a.
Proof. intros ->. apply chr_byte. Qed.

Lemma decode_sextets_of l : decode_sextets (sextets l) = Some l.
Proof.
  induction l as [|a|a b|a b c l IH] using triple_ind; simpl; try done; try rewrite IH; simpl;
    repeat f_equal; apply chr_eq;
    try pose proof (byte_range a); try pose proof (byte_range b); try pose proof (byte_range c);
    Z.div_mod_to_equations; lia.
Qed.

Lemma base64_decode_encode l : DecodeString (EncodeToString l) = Some l.
Proof.
  unfold DecodeString, EncodeToString. rewrite to_of_bytes, encode_sextets.
  rewrite decode_chars by apply sextets_range. apply decode_sextets_of.
Qed.
End base64.

Definition RawURLEncode : bytes -> string := EncodeToString encodeURL.
Definition RawURLDecode : string -> option bytes := DecodeString encodeURL.
Definition RawStdEncode : bytes -> string := EncodeToString encodeStd.
Definition RawStdDecode : string -> option bytes := DecodeString encodeStd.

Lemma RawURL_roundtrip l : RawURLDecode (RawURLEncode l) = Some l.
Proof. by apply base64_decode_encode. Qed.
Lemma RawStd_roundtrip l : RawStdDecode (RawStdEncode l) = Some l.
Proof. by apply base64_decode_encode. Qed.
#[export] Hint Resolve RawURL_roundtrip RawStd_roundtrip : porthook.

(** Encoded text is made of the alphabet: printable ASCII without a slash. *)
Lemma RawURLEncode_chars (P : ascii -> Prop) l :
  Forall P (to_bytes encodeURL) -> Forall P (to_bytes (RawURLEncode l)).
Proof.
  intros Ha. unfold RawURLEncode, EncodeToString. rewrite to_of_bytes, encode_sextets.
  apply Forall_map. eapply Forall_impl; [apply sextets_range|]. intros v Hv. cbv beta in Hv. unfold sextet_char.
  rewrite Forall_forall in Ha. apply Ha. apply list_elem_of_In, nth_In.
  replace (length (to_bytes encodeURL)) with 64%nat by reflexivity. rewrite <- (Nat2Z.id 64). apply Z2Nat.inj_lt; lia.
Qed.
Lemma RawURLEncode_visible l : sforall visible (RawURLEncode l) = true.
Proof. apply sforall_spec, RawURLEncode_chars. by repeat constructor. Qed.
Lemma RawURLEncode_no_slash l : ~ In "/"%char (to_bytes (RawURLEncode l)).
Proof.
  assert (H : Forall (fun c => c <> "/"%char) (to_bytes (RawURLEncode l)))
    by (apply RawURLEncode_chars; by repeat constructor).
  rewrite Forall_forall in H. intros Hin. by apply (H "/"%char), eq_refl; apply list_elem_of_In.
Qed.
