(* ===== verification/Names.v ===== *)
(** protocol/names/subdomain.go: the subdomain names tunnels are served under. *)
From S2P Require Import Prelude GoStrings.
From Stdlib Require Import ZArith Lia List String Ascii Bool.
From stdpp Require Import base gmap strings list.

Open Scope Z_scope.

Definition MaxSubdomainLength : Z := 63.
Definition randomAlphabet : string := "abcdefghijklmnopqrstuvwxyz0123456789".

(** The accepting cases of the [switch] over the characters of a name. *)
Definition name_char (c : ascii) : bool :=
  is_lower_ascii c || is_digit c || Ascii.eqb c "-".

Definition first_is (c : ascii) (s : string) : bool :=
  match s with String a _ => Ascii.eqb a c | EmptyString => false end.
Definition last_is (c : ascii) (s : string) : bool :=
  match rev (to_bytes s) with a :: _ => Ascii.eqb a c | [] => false end.

(** A [range] over the runes of a name fails on every non-ASCII byte, as the
    byte-wise test does: such a byte decodes to a rune outside the three cases. *)
Definition ValidateSubdomain (name : string) : result unit :=
  if String.eqb name "" then Err (Errorf "subdomain is required")
  else if MaxSubdomainLength <? len name
  then Err (Errorf (Sprintf "subdomain must be at most %d characters" [Itoa MaxSubdomainLength]))
  else if first_is "-" name || last_is "-" name
  then Err (Errorf "subdomain cannot start or end with hyphen")
  else if sforall name_char name then Ok tt
  else Err (Errorf "subdomain can contain only lowercase ASCII letters, numbers, and hyphens").

(** [rand.Int(rand.Reader, big.NewInt(n))]: one draw per call, [None] when the
    reader fails.  The reader is the sequence of its draws. *)
Abbreviation randReader := (list (option Z)) (only parsing).
Definition rand_Int (r : randReader) (n : Z) : result Z * randReader :=
  match r with
  | Some d :: r' => (Ok (d mod n), r')
  | None :: r' => (Err (Errorf "rand: read failed"), r')
  | [] => (Err (Errorf "rand: reader exhausted"), [])
  end.

Fixpoint random_bytes (n : nat) (r : randReader) : result bytes * randReader :=
  match n with
  | O => (Ok [], r)
  | S n' =>
      match rand_Int r (len randomAlphabet) with
      | (Err e, r') => (Err (Wrap "generate random subdomain" e), r')
      | (Ok d, r') =>
          match random_bytes n' r' with
          | (Ok out, r'') =>
              (Ok (default "a"%char (to_bytes randomAlphabet !! Z.to_nat d) :: out), r'')
          | (Err e, r'') => (Err e, r'')
          end
      end
  end.

Definition RandomSubdomain (length : Z) (r : randReader) : result string * randReader :=
  if (length <=? 0) || (MaxSubdomainLength <? length)
  then (Err (Errorf (Sprintf "random subdomain length must be between 1 and %d"
                       [Itoa MaxSubdomainLength])), r)
  else
    match random_bytes (Z.to_nat length) r with
    | (Ok out, r') => (Ok (of_bytes out), r')
    | (Err e, r') => (Err e, r')
    end.

(** * What the names promise *)

(** A DNS label in the lower-case LDH form. *)
Definition valid_subdomain (s : string) : Prop :=
  1 <= len s <= MaxSubdomainLength /\
  Forall (fun c => name_char c = true) (to_bytes s) /\
  head (to_bytes s) <> Some "-"%char /\ last (to_bytes s) <> Some "-"%char.

Lemma first_is_head c s : first_is c s = true <-> head (to_bytes s) = Some c.
Proof.
  destruct s as [|a s]; simpl; [split; discriminate|].
  rewrite Ascii.eqb_eq. split; congruence.
Qed.

Lemma last_is_last c s : last_is c s = true <-> last (to_bytes s) = Some c.
Proof.
  unfold last_is. rewrite <- (rev_involutive (to_bytes s)) at 2.
  destruct (rev (to_bytes s)) as [|a l]; simpl; [split; discriminate|].
  rewrite last_snoc, Ascii.eqb_eq. split; congruence.
Qed.

Lemma ValidateSubdomain_valid s : ValidateSubdomain s = Ok tt <-> valid_subdomain s.
Proof.
  unfold ValidateSubdomain, valid_subdomain.
  destruct (String.eqb_spec s "") as [->|Hne].
  { split; [discriminate|]. intros [H _]. unfold len in H. simpl in H. lia. }
  assert (0 < len s) by (pose proof (len_nonneg s); destruct (Z.eq_dec (len s) 0);
    [by apply len_zero in e | lia]).
  destruct (Z.ltb_spec MaxSubdomainLength (len s)) as [Hl|Hl].
  { split; [discriminate | intros [? _]; lia]. }
  rewrite <- sforall_spec, <- first_is_head, <- last_is_last.
  destruct (first_is "-" s); simpl; [split; [discriminate | intros (_ & _ & ? & _); congruence]|].
  destruct (last_is "-" s); simpl; [split; [discriminate | intros (_ & _ & _ & ?); congruence]|].
  destruct (sforall name_char s); split; try discriminate.
  - intros _. repeat split; try lia; congruence.
  - done.
  - intros (_ & ? & _); discriminate.
Qed.

Lemma name_char_cases c :
  name_char c = true -> 97 <= byte c <= 122 \/ 48 <= byte c <= 57 \/ byte c = 45.
Proof.
  unfold name_char, is_lower_ascii, is_digit, in_range. intros H.
  apply orb_true_iff in H as [H|H]; [apply orb_true_iff in H as [H|H]|]; to_prop; [lia..|].
  apply Ascii.eqb_eq in H. subst. right; right. reflexivity.
Qed.

Lemma name_char_visible c : name_char c = true -> visible c = true.
Proof.
  intros H%name_char_cases. unfold visible, in_range. apply andb_true_iff. lia.
Qed.

Lemma name_char_lower_stable c : name_char c = true -> lower_stable c = true.
Proof.
  intros H%name_char_cases. unfold lower_stable, is_upper_ascii, in_range.
  apply andb_true_iff. split; [lia|]. apply negb_true_iff, andb_false_iff. lia.
Qed.

Lemma valid_subdomain_chars s : valid_subdomain s -> sforall name_char s = true.
Proof. intros (_ & H & _). by apply sforall_spec. Qed.

Lemma valid_subdomain_nonempty s : valid_subdomain s -> s <> "".
Proof. intros [H _] ->. unfold len in H. simpl in H. lia. Qed.

Lemma valid_subdomain_TrimSpace s : valid_subdomain s -> TrimSpace s = s.
Proof.
  intros H. apply TrimSpace_visible. eapply sforall_impl; [|by apply valid_subdomain_chars].
  apply name_char_visible.
Qed.

Lemma valid_subdomain_ToLower {U : GoUnicode} s : valid_subdomain s -> ToLower s = s.
Proof.
  intros H. apply ToLower_stable. eapply sforall_impl; [|by apply valid_subdomain_chars].
  apply name_char_lower_stable.
Qed.

Lemma valid_subdomain_no_char c s :
  valid_subdomain s -> name_char c = false -> ~ In c (to_bytes s).
Proof.
  intros (_ & H & _) Hc Hin. rewrite List.Forall_forall in H.
  specialize (H c Hin). congruence.
Qed.

#[export] Hint Resolve valid_subdomain_TrimSpace valid_subdomain_nonempty
  valid_subdomain_chars : porthook.

Definition random_char (c : ascii) : bool := is_lower_ascii c || is_digit c.

Lemma alphabet_char i c :
  to_bytes randomAlphabet !! i = Some c -> random_char c = true.
Proof.
  intros H.
  assert (Forall (fun c => random_char c = true) (to_bytes randomAlphabet)) as HF
    by (apply List.Forall_forall; intros x Hx; simpl in Hx;
        repeat destruct Hx as [<-|Hx]; try reflexivity; done).
  by eapply Forall_lookup_1 in HF.
Qed.

(** The draw is always an index of the alphabet, so the [default] above is
    never taken: Go's [randomAlphabet[n.Int64()]] does not panic. *)
Lemma random_index_in_range d :
  is_Some (to_bytes randomAlphabet !! Z.to_nat (d mod len randomAlphabet)).
Proof.
  apply lookup_lt_is_Some_2. pose proof (Z.mod_pos_bound d 36 ltac:(lia)).
  change (len randomAlphabet) with 36. change (length _) with 36%nat. lia.
Qed.

Lemma random_bytes_ok n r out r' :
  random_bytes n r = (Ok out, r') ->
  length out = n /\ Forall (fun c => random_char c = true) out.
Proof.
  revert r out r'. induction n as [|n IH]; intros r out r' H; simpl in H.
  - inv H. split; [done | constructor].
  - destruct r as [|[d|] r1]; simpl in H; try discriminate.
    destruct (random_bytes n r1) as [[o|e] r2] eqn:E; inv H.
    destruct (IH _ _ _ E) as [<- HF]. split; [done|]. constructor; [|done].
    destruct (random_index_in_range d) as [c Hc].
    change (random_char (default "a"%char
      (to_bytes randomAlphabet !! Z.to_nat (d mod len randomAlphabet))) = true).
    rewrite Hc. exact (alphabet_char _ _ Hc).
Qed.

Lemma random_char_name c : random_char c = true -> name_char c = true.
Proof. unfold random_char, name_char. intros ->. done. Qed.

Lemma random_char_not_hyphen c : random_char c = true -> c <> "-"%char.
Proof. intros H ->. discriminate. Qed.

Lemma RandomSubdomain_ok n r s r' :
  RandomSubdomain n r = (Ok s, r') ->
  len s = n /\ sforall random_char s = true /\ valid_subdomain s.
Proof.
  unfold RandomSubdomain.
  destruct ((n <=? 0) || (MaxSubdomainLength <? n)) eqn:B; [discriminate|]. to_prop.
  destruct (random_bytes (Z.to_nat n) r) as [[out|e] r1] eqn:E; intros Heq; inv Heq.
  apply random_bytes_ok in E as [Hlen HF].
  assert (len (of_bytes out) = n) as Hn by (unfold len; rewrite length_of_bytes; lia).
  split; [done|]. split; [by apply sforall_spec; rewrite to_of_bytes|].
  split; [lia|]. rewrite to_of_bytes. split; [|split].
  - eapply List.Forall_impl; [|exact HF]. apply random_char_name.
  - destruct out as [|a out]; [done|]. simpl. inv HF. intros [= ->]. done.
  - intros Hl. apply last_Some_elem_of in Hl.
    rewrite Forall_forall in HF. apply HF in Hl. done.
Qed.
