(* ===== verification/Messages.v ===== *)
(** protocol/messages: the control envelopes exchanged by gateway and agent
    (messages.go), protocol negotiation, and the binary body frames
    (binary.go).  JSON text is produced and read by a codec per payload type,
    the class [JSONCodec]; the frame bytes are built and parsed here. *)
From S2P Require Import Prelude GoStrings.
From Stdlib Require Import ZArith Lia List String Ascii Bool.
From stdpp Require Import base gmap strings list sorting.

Open Scope Z_scope.

(** [json.Marshal] and [json.Unmarshal] at one payload type. *)
Class JSONCodec (T : Type) : Type := {
  Marshal : T -> result bytes;
  Unmarshal : bytes -> result T;
}.

(** What the wire relies on: a marshalled value is never empty text and
    unmarshals to itself. *)
Class JSONLaws (T : Type) {J : JSONCodec T} : Prop := {
  unmarshal_marshal : forall (t : T) raw, Marshal t = Ok raw -> Unmarshal raw = Ok t;
  marshal_nonempty : forall (t : T) raw, Marshal t = Ok raw -> raw <> [];
}.

(** A codec that satisfies the laws: the bits of stdpp's injective code.  It
    instantiates the parameter in concrete examples. *)
Fixpoint pos_bits (p : positive) : bytes :=
  match p with
  | xH => ["1"%char]
  | xO p => "0"%char :: pos_bits p
  | xI p => "1"%char :: pos_bits p
  end.
Fixpoint bits_pos (l : bytes) : option positive :=
  match l with
  | [] => None
  | [_] => Some xH
  | c :: l' => p ← bits_pos l'; Some (if Ascii.eqb c "0" then xO p else xI p)
  end.
Lemma bits_pos_bits p : bits_pos (pos_bits p) = Some p.
Proof.
  induction p as [p IH|p IH|]; [..|done]; simpl; (destruct (pos_bits p) eqn:E; [by destruct p|]);
    by rewrite IH.
Qed.

Definition countable_codec {T} `{Countable T} : JSONCodec T := {|
  Marshal t := Ok (pos_bits (encode t));
  Unmarshal raw :=
    match bits_pos raw ≫= decode with
    | Some t => Ok t
    | None => Err (Errorf "invalid")
    end;
|}.
#[export] Instance countable_codec_laws {T} `{Countable T} : @JSONLaws T countable_codec.
Proof.
  split; simpl; intros t raw E; injection E as <-.
  - rewrite bits_pos_bits. simpl. by rewrite decode_encode.
  - by destruct (encode t).
Qed.

(** * Message types *)
Definition Type_ : Type := string.
Definition TypeAuthRequest : Type_ := "auth.request".
Definition TypeAuthOK : Type_ := "auth.ok".
Definition TypeAuthError : Type_ := "auth.error".
Definition TypeTunnelRegister : Type_ := "tunnel.register".
Definition TypeTunnelRegistered : Type_ := "tunnel.registered".
Definition TypeTunnelError : Type_ := "tunnel.error".
Definition TypePing : Type_ := "ping".
Definition TypePong : Type_ := "pong".
Definition TypeHTTPRequest : Type_ := "http.request".
Definition TypeHTTPRequestStart : Type_ := "http.request.start".
Definition TypeHTTPRequestBody : Type_ := "http.request.body".
Definition TypeHTTPRequestEnd : Type_ := "http.request.end".
Definition TypeHTTPResponse : Type_ := "http.response".
Definition TypeHTTPResponseStart : Type_ := "http.response.start".
Definition TypeHTTPResponseBody : Type_ := "http.response.body".
Definition TypeHTTPResponseEnd : Type_ := "http.response.end".
Definition TypeHTTPStreamError : Type_ := "http.stream.error".
Definition TypeHTTPStreamCancel : Type_ := "http.stream.cancel".
Definition TypeWSOpen : Type_ := "ws.open".
Definition TypeWSAccept : Type_ := "ws.accept".
Definition TypeWSError : Type_ := "ws.error".
Definition TypeWSClose : Type_ := "ws.close".
Definition TypeWSCancel : Type_ := "ws.cancel".
Definition TypeWSMessageText : Type_ := "ws.message.text".
Definition TypeWSMessageBinary : Type_ := "ws.message.binary".

(** * Protocol version and capabilities *)
Definition ProtocolVersion : string := "0.3".
Definition MinSupportedProtocolVersion : string := "0.2".
Definition CapabilityStreamStartEnd : string := "stream_start_end".
Definition CapabilityBinaryBodyFrame : string := "binary_body_frames".
Definition CapabilityStreamCancel : string := "stream_cancel".
Definition CapabilityWebSocketTunnel : string := "websocket_tunnel".

Definition RequiredProtocolCapabilities : list string :=
  [CapabilityStreamStartEnd; CapabilityBinaryBodyFrame; CapabilityStreamCancel].
Definition DefaultProtocolCapabilities : list string :=
  RequiredProtocolCapabilities ++ [CapabilityWebSocketTunnel].

Record Envelope := mkEnvelope {
  env_Type : Type_;
  env_StreamID : string;
  env_TunnelID : string;
  env_Payload : bytes;
}.

Record AuthRequest := mkAuthRequest {
  ar_Token : string;
  ar_AgentVersion : string;
  ar_ProtocolVersion : string;
  ar_Capabilities : list string;
}.
Record AuthOK := mkAuthOK {
  ao_ProtocolVersion : string;
  ao_Capabilities : list string;
}.
Record ErrorPayload := mkErrorPayload { ep_Code : string; ep_Message : string }.
Record TunnelRegister := mkTunnelRegister {
  tr_Protocol : string;
  tr_LocalTarget : string;
  tr_RequestedSubdomain : string;
}.
Record TunnelRegistered := mkTunnelRegistered {
  td_TunnelID : string;
  td_PublicURL : string;
  td_Subdomain : string;
}.
Record StreamCancel := mkStreamCancel { sc_Reason : string }.

(** [parseProtocolVersion]: [None] is [ok = false]. *)
Definition parseProtocolVersion (version : string) : option (Z * Z) :=
  match SplitN2 version "." with
  | [a; b] =>
      match Atoi a, Atoi b with
      | Some major, Some minor =>
          if (major <? 0) || (minor <? 0) then None else Some (major, minor)
      | _, _ => None
      end
  | _ => None
  end.

Definition IsProtocolVersionSupported (version : string) : bool :=
  match parseProtocolVersion version with
  | None => false
  | Some (major, minor) =>
      let '(minMajor, minMinor) :=
        default (0, 0) (parseProtocolVersion MinSupportedProtocolVersion) in
      if negb (major =? minMajor) then minMajor <? major else minMinor <=? minor
  end.

(** Byte-wise string order, the order of [sort.Strings]. *)
Definition string_le (a b : string) : Prop := String.leb a b = true.
#[export] Instance string_le_dec : RelDecision string_le.
Proof. intros a b. unfold string_le. apply _. Defined.

Definition MissingRequiredCapabilities (capabilities required : list string) : list string :=
  match required with
  | [] => []
  | _ =>
      let missingMap := foldl (fun (m : gset string) c => {[c]} ∪ m) ∅ required in
      let missingMap := foldl (fun (m : gset string) c => m ∖ {[c]}) missingMap capabilities in
      merge_sort string_le (elements missingMap)
  end.

(** * Envelopes *)

(** [marshalPayload]: a nil payload becomes the empty object. *)
Definition marshalPayload {T} `{JSONCodec T} (payload : option T) : result bytes :=
  match payload with
  | None => Ok (to_bytes "{}")
  | Some p =>
      match Marshal p with
      | Ok raw => Ok raw
      | Err e => Err (Wrap "encode payload" e)
      end
  end.

Definition NewStream {T} `{JSONCodec T} (typ : Type_) (streamID tunnelID : string)
    (payload : option T) : result Envelope :=
  if String.eqb typ "" then Err (Errorf "message type is required")
  else try raw <- marshalPayload payload;
       Ok (mkEnvelope typ streamID tunnelID raw).

Definition New {T} `{JSONCodec T} (typ : Type_) (payload : option T) : result Envelope :=
  NewStream typ "" "" payload.

Definition DecodePayload (T : Type) `{JSONCodec T} (env : Envelope) : result T :=
  match env_Payload env with
  | [] => Err (Errorf "payload is required")
  | raw =>
      match Unmarshal raw with
      | Ok payload => Ok payload
      | Err e => Err (Wrap ("decode " +:+ env_Type env +:+ " payload") e)
      end
  end.

(** * Binary body frames *)
Definition binaryBodyMagic : string := "PHB1".
Definition binaryBodyHeader : Z := len binaryBodyMagic + 1 + 2 + 2.
Definition binaryRequestBody : Z := 1.
Definition binaryResponseBody : Z := 2.
Definition binaryWSMessageText : Z := 3.
Definition binaryWSMessageBinary : Z := 4.

Record BinaryBodyFrame := mkBinaryBodyFrame {
  bf_Type : Type_;
  bf_StreamID : string;
  bf_TunnelID : string;
  bf_Data : bytes;
}.

Definition binaryBodyFrameType (typ : Type_) : result Z :=
  if String.eqb typ TypeHTTPRequestBody then Ok binaryRequestBody
  else if String.eqb typ TypeHTTPResponseBody then Ok binaryResponseBody
  else if String.eqb typ TypeWSMessageText then Ok binaryWSMessageText
  else if String.eqb typ TypeWSMessageBinary then Ok binaryWSMessageBinary
  else Err (Errorf (Sprintf "unsupported binary body message type %s" [typ])).

Definition binaryBodyMessageType (typ : Z) : result Type_ :=
  if typ =? binaryRequestBody then Ok TypeHTTPRequestBody
  else if typ =? binaryResponseBody then Ok TypeHTTPResponseBody
  else if typ =? binaryWSMessageText then Ok TypeWSMessageText
  else if typ =? binaryWSMessageBinary then Ok TypeWSMessageBinary
  else Err (Errorf (Sprintf "unsupported binary body frame type %d" [Itoa typ])).

(** Slices of Go.  [slice b lo hi] is [b[lo:hi]], [None] when Go panics;
    [copy_at dst off src] is [copy(dst[off:], src)]. *)
Definition slice (b : bytes) (lo hi : Z) : option bytes :=
  if (0 <=? lo) && (lo <=? hi) && (hi <=? Z.of_nat (length b))
  then Some (take (Z.to_nat (hi - lo)) (drop (Z.to_nat lo) b)) else None.
Definition copy_at (dst : bytes) (off : Z) (src : bytes) : bytes :=
  let o := Z.to_nat off in
  take o dst ++ take (length dst - o) src ++ drop (o + length src) dst.

Definition uint16_bytes (v : Z) : bytes :=
  [chr (Z.land (Z.shiftr v 8) 255); chr (Z.land v 255)].
Definition PutUint16 (b : bytes) (off v : Z) : bytes := copy_at b off (uint16_bytes v).
(** [binary.BigEndian.Uint16(b[off:])]; [None] when fewer than two bytes are left. *)
Definition Uint16 (b : bytes) (off : Z) : option Z :=
  hi ← b !! Z.to_nat off;
  lo ← b !! Z.to_nat (off + 1);
  Some (Z.lor (Z.shiftl (byte hi) 8) (byte lo)).

(** [uint16(len(s))] keeps the low 16 bits. *)
Definition uint16 (z : Z) : Z := z mod 2 ^ 16.

Definition NewBinaryBodyFrame (typ : Type_) (streamID tunnelID : string) (data : bytes)
    : result bytes :=
  try frameType <- binaryBodyFrameType typ;
  if String.eqb streamID "" then Err (Errorf "stream id is required")
  else if 65535 <? len streamID then Err (Errorf "stream id is too long")
  else if 65535 <? len tunnelID then Err (Errorf "tunnel id is too long")
  else
    let magicLen := len binaryBodyMagic in
    let size := binaryBodyHeader + len streamID + len tunnelID + Z.of_nat (length data) in
    let frame := replicate (Z.to_nat size) (chr 0) in
    let frame := copy_at frame 0 (to_bytes binaryBodyMagic) in
    let frame := <[Z.to_nat magicLen := chr frameType]> frame in
    let frame := PutUint16 frame (magicLen + 1) (uint16 (len streamID)) in
    let frame := PutUint16 frame (magicLen + 3) (uint16 (len tunnelID)) in
    let offset := binaryBodyHeader in
    let frame := copy_at frame offset (to_bytes streamID) in
    let offset := offset + len streamID in
    let frame := copy_at frame offset (to_bytes tunnelID) in
    let offset := offset + len tunnelID in
    let frame := copy_at frame offset data in
    Ok frame.

(** [DecodeBinaryBodyFrame]: [None] would be a run-time panic on an index or
    slice expression. *)
Definition DecodeBinaryBodyFrame (frame : bytes) : option (result BinaryBodyFrame) :=
  let magicLen := len binaryBodyMagic in
  let flen := Z.of_nat (length frame) in
  if flen <? binaryBodyHeader then Some (Err (Errorf "binary body frame is too short"))
  else
    magic ← slice frame 0 magicLen;
    if negb (String.eqb (of_bytes magic) binaryBodyMagic)
    then Some (Err (Errorf "invalid binary body frame magic"))
    else
      tb ← frame !! Z.to_nat magicLen;
      match binaryBodyMessageType (byte tb) with
      | Err e => Some (Err e)
      | Ok typ =>
          streamLen ← Uint16 frame (magicLen + 1);
          tunnelLen ← Uint16 frame (magicLen + 3);
          if flen <? binaryBodyHeader + streamLen + tunnelLen
          then Some (Err (Errorf "binary body frame has truncated stream metadata"))
          else
            let offset := binaryBodyHeader in
            streamID ← slice frame offset (offset + streamLen);
            let offset := offset + streamLen in
            tunnelID ← slice frame offset (offset + tunnelLen);
            let offset := offset + tunnelLen in
            if String.eqb (of_bytes streamID) "" then Some (Err (Errorf "stream id is required"))
            else
              data ← slice frame offset flen;
              Some (Ok (mkBinaryBodyFrame typ (of_bytes streamID) (of_bytes tunnelID) data))
      end.

(** * Frame layout *)

Lemma slice_ok b lo hi :
  0 <= lo <= hi -> hi <= Z.of_nat (length b) ->
  slice b lo hi = Some (take (Z.to_nat (hi - lo)) (drop (Z.to_nat lo) b)).
Proof.
  intros H1 H2. unfold slice.
  rewrite (proj2 (Z.leb_le 0 lo)), (proj2 (Z.leb_le lo hi)), (proj2 (Z.leb_le hi _)) by lia.
  done.
Qed.

Lemma copy_at_block a b c src off :
  off = Z.of_nat (length a) -> length b = length src ->
  copy_at (a ++ b ++ c) off src = a ++ src ++ c.
Proof.
  intros -> Hb. unfold copy_at. rewrite Nat2Z.id, !length_app, take_app_length.
  f_equal. rewrite take_ge by lia. f_equal.
  rewrite <- Hb. rewrite app_assoc. rewrite drop_app_ge by (rewrite length_app; lia).
  rewrite length_app. by replace (_ - _)%nat with 0%nat by lia.
Qed.

Lemma copy_at_front b c src :
  length b = length src -> copy_at (b ++ c) 0 src = src ++ c.
Proof. intros H. by apply (copy_at_block []). Qed.

Lemma insert_block {A} (a c : list A) x y i :
  i = length a -> <[i := y]> (a ++ x :: c) = a ++ y :: c.
Proof. intros ->. by rewrite insert_app_r_alt, Nat.sub_diag by lia. Qed.

(** The bytes of a frame, written as the concatenation of its fields. *)
Definition frame_layout (ft : Z) (streamID tunnelID : string) (data : bytes) : bytes :=
  to_bytes binaryBodyMagic ++ chr ft :: uint16_bytes (len streamID) ++
  uint16_bytes (len tunnelID) ++ to_bytes streamID ++ to_bytes tunnelID ++ data.

Lemma uint16_small z : 0 <= z <= 65535 -> uint16 z = z.
Proof. intros H. unfold uint16. apply Z.mod_small. lia. Qed.

(** The in-place construction writes exactly [frame_layout]. *)
Lemma NewBinaryBodyFrame_layout typ sid tid data :
  NewBinaryBodyFrame typ sid tid data =
  (try ft <- binaryBodyFrameType typ;
   if String.eqb sid "" then Err (Errorf "stream id is required")
   else if 65535 <? len sid then Err (Errorf "stream id is too long")
   else if 65535 <? len tid then Err (Errorf "tunnel id is too long")
   else Ok (frame_layout ft sid tid data)).
Proof.
  unfold NewBinaryBodyFrame. destruct (binaryBodyFrameType typ) as [ft|e]; [simpl|done].
  destruct (String.eqb sid ""); [done|].
  destruct (Z.ltb_spec 65535 (len sid)) as [|Hs]; [done|].
  destruct (Z.ltb_spec 65535 (len tid)) as [|Ht]; [done|]. f_equal.
  pose proof (len_nonneg sid). pose proof (len_nonneg tid).
  set (z := chr 0).
  assert (replicate (Z.to_nat (binaryBodyHeader + len sid + len tid + Z.of_nat (length data))) z
    = replicate 4 z ++ replicate 1 z ++ replicate 2 z ++ replicate 2 z ++
      replicate (length (to_bytes sid)) z ++ replicate (length (to_bytes tid)) z ++
      replicate (length data) z) as ->.
  { rewrite <- !replicate_add. f_equal. rewrite !length_to_bytes. unfold binaryBodyHeader, len in *.
    simpl. lia. }
  rewrite !uint16_small by lia. unfold frame_layout, PutUint16.
  rewrite copy_at_front by reflexivity.
  change (replicate 1 z ++ ?x) with (z :: x).
  rewrite (insert_block (to_bytes binaryBodyMagic)) by reflexivity.
  rewrite (cons_middle (chr ft)), (app_assoc (to_bytes binaryBodyMagic)).
  rewrite copy_at_block by reflexivity.
  rewrite (app_assoc _ (uint16_bytes (len sid))).
  rewrite copy_at_block by reflexivity.
  rewrite (app_assoc _ (uint16_bytes (len tid))).
  rewrite copy_at_block by (rewrite ?length_replicate; reflexivity).
  rewrite (app_assoc _ (to_bytes sid)).
  rewrite copy_at_block by
    (rewrite ?length_replicate, ?length_app, ?length_to_bytes; try reflexivity;
     unfold binaryBodyHeader, len; simpl; lia).
  rewrite (app_assoc _ (to_bytes tid)).
  rewrite <- (app_nil_r (replicate (length data) z)).
  rewrite copy_at_block by
    (rewrite ?length_replicate, ?length_app, ?length_to_bytes; try reflexivity;
     unfold binaryBodyHeader, len; simpl; lia).
  rewrite app_nil_r. by rewrite <- !app_assoc.
Qed.

Lemma frame_layout_length ft sid tid data :
  Z.of_nat (length (frame_layout ft sid tid data)) =
  binaryBodyHeader + len sid + len tid + Z.of_nat (length data).
Proof.
  unfold frame_layout. rewrite !length_app. cbn [length]. rewrite !length_app, !length_to_bytes.
  unfold binaryBodyHeader, len. simpl. lia.
Qed.

Definition u16 (hi lo : ascii) : Z := Z.lor (Z.shiftl (byte hi) 8) (byte lo).

Lemma u16_eq hi lo : u16 hi lo = 256 * byte hi + byte lo.
Proof.
  unfold u16. pose proof (byte_range hi). pose proof (byte_range lo).
  rewrite Z.shiftl_mul_pow2 by lia.
  pose proof (Z.add_lor_land (byte hi * 2 ^ 8) (byte lo)) as E.
  enough (Z.land (byte hi * 2 ^ 8) (byte lo) = 0) by lia. clear E.
  apply Z.bits_inj'. intros n Hn. rewrite Z.land_spec, Z.bits_0.
  destruct (Z.ltb_spec n 8).
  - rewrite <- Z.shiftl_mul_pow2, Z.shiftl_spec_low by lia. done.
  - assert (Z.testbit (byte lo) n = false) as ->; [|apply andb_false_r].
    rewrite <- (Z.mod_small (byte lo) (2 ^ 8)) by lia.
    apply Z.mod_pow2_bits_high. lia.
Qed.

Lemma u16_range hi lo : 0 <= u16 hi lo < 65536.
Proof. rewrite u16_eq. pose proof (byte_range hi). pose proof (byte_range lo). lia. Qed.

Lemma uint16_bytes_u16 hi lo : uint16_bytes (u16 hi lo) = [hi; lo].
Proof.
  unfold uint16_bytes. rewrite u16_eq. pose proof (byte_range hi). pose proof (byte_range lo).
  rewrite Z.shiftr_div_pow2 by lia. change 255 with (Z.ones 8).
  rewrite !Z.land_ones by lia. change (2 ^ 8) with 256.
  replace ((256 * byte hi + byte lo) / 256) with (byte hi) by
    (rewrite (Z.mul_comm 256), Z.div_add_l, Z.div_small; lia).
  replace ((256 * byte hi + byte lo) mod 256) with (byte lo) by
    (rewrite (Z.add_comm (256 * _)), (Z.mul_comm 256), Z.mod_add, Z.mod_small; lia).
  rewrite Z.mod_small by lia. by rewrite !chr_byte.
Qed.

Lemma u16_uint16_bytes v :
  0 <= v < 65536 ->
  u16 (chr (Z.land (Z.shiftr v 8) 255)) (chr (Z.land v 255)) = v.
Proof.
  intros H. rewrite u16_eq. change 255 with (Z.ones 8).
  rewrite !Z.land_ones, Z.shiftr_div_pow2 by lia. change (2 ^ 8) with 256.
  pose proof (Z.mod_pos_bound v 256 ltac:(lia)).
  pose proof (Z.mod_pos_bound (v / 256) 256 ltac:(lia)).
  rewrite !byte_chr by lia.
  rewrite (Z.mod_small (v / 256)) by (split; [apply Z.div_pos | apply Z.div_lt_upper_bound]; lia).
  symmetry. apply Z.div_mod. lia.
Qed.

(** Decoding a frame of nine or more bytes, without the bounds checks. *)
Definition decode_fields (m0 m1 m2 m3 tb s1 s0 t1 t0 : ascii) (rest : bytes)
    : result BinaryBodyFrame :=
  if negb (String.eqb (of_bytes [m0; m1; m2; m3]) binaryBodyMagic)
  then Err (Errorf "invalid binary body frame magic")
  else
    try typ <- binaryBodyMessageType (byte tb);
    let sl := Z.to_nat (u16 s1 s0) in
    let tl := Z.to_nat (u16 t1 t0) in
    if Nat.ltb (length rest) (sl + tl)
    then Err (Errorf "binary body frame has truncated stream metadata")
    else if Nat.eqb sl 0 then Err (Errorf "stream id is required")
    else Ok (mkBinaryBodyFrame typ (of_bytes (take sl rest))
               (of_bytes (take tl (drop sl rest))) (drop (sl + tl) rest)).

Lemma Decode_fields m0 m1 m2 m3 tb s1 s0 t1 t0 rest :
  DecodeBinaryBodyFrame (m0 :: m1 :: m2 :: m3 :: tb :: s1 :: s0 :: t1 :: t0 :: rest) =
  Some (decode_fields m0 m1 m2 m3 tb s1 s0 t1 t0 rest).
Proof.
  set (frame := _ :: _). unfold DecodeBinaryBodyFrame, decode_fields.
  change (len binaryBodyMagic) with 4. change binaryBodyHeader with 9.
  assert (Z.of_nat (length frame) = 9 + Z.of_nat (length rest)) as Hlen
    by (unfold frame; simpl length; lia).
  destruct (Z.ltb_spec (Z.of_nat (length frame)) 9); [lia|].
  rewrite (slice_ok frame 0 4) by lia. cbn [mbind option_bind].
  change (take (Z.to_nat (4 - 0)) (drop (Z.to_nat 0) frame)) with [m0; m1; m2; m3].
  destruct (negb _); [done|].
  change (frame !! Z.to_nat 4) with (Some tb). cbn [mbind option_bind].
  destruct (binaryBodyMessageType (byte tb)) as [typ|e]; [|done].
  change (Uint16 frame (4 + 1)) with (Some (u16 s1 s0)).
  change (Uint16 frame (4 + 3)) with (Some (u16 t1 t0)).
  cbn [mbind option_bind rbind]. cbv zeta.
  pose proof (u16_range s1 s0). pose proof (u16_range t1 t0).
  set (sl := u16 s1 s0) in *. set (tl := u16 t1 t0) in *.
  destruct (Z.ltb_spec (Z.of_nat (length frame)) (9 + sl + tl));
    destruct (Nat.ltb_spec (length rest) (Z.to_nat sl + Z.to_nat tl)); try lia; [done|].
  rewrite (slice_ok frame 9) by lia. cbn [mbind option_bind].
  replace (Z.to_nat (9 + sl - 9)) with (Z.to_nat sl) by lia.
  change (drop (Z.to_nat 9) frame) with rest.
  rewrite (slice_ok frame (9 + sl)) by lia. cbn [mbind option_bind].
  replace (Z.to_nat (9 + sl + tl - (9 + sl))) with (Z.to_nat tl) by lia.
  replace (Z.to_nat (9 + sl)) with (9 + Z.to_nat sl)%nat by lia.
  rewrite <- (drop_drop frame). change (drop 9 frame) with rest.
  assert (String.eqb (of_bytes (take (Z.to_nat sl) rest)) "" = Nat.eqb (Z.to_nat sl) 0) as ->.
  { destruct (Z.to_nat sl) as [|n] eqn:En; [done|]. destruct rest; [simpl in *; lia | done]. }
  destruct (Nat.eqb (Z.to_nat sl) 0); [done|].
  rewrite (slice_ok frame (9 + sl + tl)) by lia. cbn [mbind option_bind].
  do 3 f_equal. replace (Z.to_nat (9 + sl + tl)) with (9 + (Z.to_nat sl + Z.to_nat tl))%nat by lia.
  rewrite <- (drop_drop frame). change (drop 9 frame) with rest.
  apply take_ge. rewrite length_drop. lia.
Qed.

Lemma nine_bytes (frame : bytes) :
  (9 <= length frame)%nat ->
  exists m0 m1 m2 m3 tb s1 s0 t1 t0 rest,
    frame = m0 :: m1 :: m2 :: m3 :: tb :: s1 :: s0 :: t1 :: t0 :: rest.
Proof.
  intros H. do 9 (destruct frame as [|? frame]; [simpl in H; lia|]). by repeat eexists.
Qed.

Lemma Decode_cases frame :
  (Z.of_nat (length frame) < binaryBodyHeader /\
   DecodeBinaryBodyFrame frame = Some (Err (Errorf "binary body frame is too short"))) \/
  exists m0 m1 m2 m3 tb s1 s0 t1 t0 rest,
    frame = m0 :: m1 :: m2 :: m3 :: tb :: s1 :: s0 :: t1 :: t0 :: rest /\
    DecodeBinaryBodyFrame frame = Some (decode_fields m0 m1 m2 m3 tb s1 s0 t1 t0 rest).
Proof.
  destruct (Z.ltb_spec (Z.of_nat (length frame)) binaryBodyHeader) as [H|H].
  - left. split; [done|]. unfold DecodeBinaryBodyFrame.
    destruct (Z.ltb_spec (Z.of_nat (length frame)) binaryBodyHeader); [done|lia].
  - right. change binaryBodyHeader with 9 in H.
    destruct (nine_bytes frame ltac:(lia)) as (m0&m1&m2&m3&tb&s1&s0&t1&t0&rest&->).
    do 10 eexists. split; [done|]. apply Decode_fields.
Qed.

Lemma binaryBodyType_inverse typ ft :
  binaryBodyFrameType typ = Ok ft ->
  0 <= ft < 256 /\ binaryBodyMessageType ft = Ok typ.
Proof.
  unfold binaryBodyFrameType. intros H.
  repeat case_hyp; inv H; to_prop; subst; (split; [by cbv | done]).
Qed.

Lemma binaryBodyMessageType_inverse b typ :
  binaryBodyMessageType b = Ok typ -> binaryBodyFrameType typ = Ok b.
Proof.
  unfold binaryBodyMessageType. intros H. repeat case_hyp; inv H; to_prop; subst; done.
Qed.

(** * Round trips and negotiation *)

Lemma Decode_layout ft typ sid tid data :
  binaryBodyMessageType ft = Ok typ -> 0 <= ft < 256 ->
  0 < len sid <= 65535 -> len tid <= 65535 ->
  DecodeBinaryBodyFrame (frame_layout ft sid tid data) =
  Some (Ok (mkBinaryBodyFrame typ sid tid data)).
Proof.
  intros Hty Hft Hs Ht. pose proof (len_nonneg tid).
  unfold frame_layout, uint16_bytes.
  change (to_bytes binaryBodyMagic) with (["P"; "H"; "B"; "1"]%char).
  cbn [app]. rewrite Decode_fields. unfold decode_fields.
  change (negb _) with false. cbv iota. rewrite byte_chr, Hty by lia. cbn [rbind].
  rewrite !u16_uint16_bytes by lia. cbv zeta.
  assert (Z.to_nat (len sid) = length (to_bytes sid)) as -> by (rewrite length_to_bytes; unfold len; lia).
  assert (Z.to_nat (len tid) = length (to_bytes tid)) as -> by (rewrite length_to_bytes; unfold len; lia).
  destruct (Nat.ltb_spec (length (to_bytes sid ++ to_bytes tid ++ data))
              (length (to_bytes sid) + length (to_bytes tid))) as [Hl|_].
  { rewrite !length_app in Hl. lia. }
  destruct (Nat.eqb_spec (length (to_bytes sid)) 0) as [H0|_].
  { rewrite length_to_bytes in H0. unfold len in Hs. lia. }
  rewrite take_app_length, drop_app_length, take_app_length, !of_to_bytes.
  do 3 f_equal. rewrite app_assoc, <- length_app. apply drop_app_length.
Qed.

Lemma frame_size typ sid tid data f :
  NewBinaryBodyFrame typ sid tid data = Ok f ->
  Z.of_nat (length f) = binaryBodyHeader + len sid + len tid + Z.of_nat (length data) /\
  0 < len sid <= 65535 /\ len tid <= 65535 /\
  exists ft, binaryBodyFrameType typ = Ok ft /\ f = frame_layout ft sid tid data.
Proof.
  rewrite NewBinaryBodyFrame_layout. intros (ft & Hft & H)%rbind_ok.
  destruct (String.eqb_spec sid "") as [|Hne]; [done|].
  destruct (Z.ltb_spec 65535 (len sid)); [done|].
  destruct (Z.ltb_spec 65535 (len tid)); [done|]. injection H as <-.
  rewrite frame_layout_length. repeat split; eauto.
  pose proof (len_nonneg sid). destruct (Z.eq_dec (len sid) 0) as [E|]; [by apply len_zero in E|lia].
Qed.

(** Encoding a body frame and decoding it gives back the message type,
    stream id, tunnel id and data that were encoded. *)
Lemma frame_roundtrip typ sid tid data f :
  NewBinaryBodyFrame typ sid tid data = Ok f ->
  DecodeBinaryBodyFrame f = Some (Ok (mkBinaryBodyFrame typ sid tid data)).
Proof.
  intros (_ & Hs & Ht & ft & Hft & ->)%frame_size.
  apply binaryBodyType_inverse in Hft as [Hr Hm]. by apply Decode_layout.
Qed.

Lemma frame_roundtrip_witness :
  exists f, NewBinaryBodyFrame TypeWSMessageText "str_1" "tun_1" (to_bytes "hi") = Ok f /\
  DecodeBinaryBodyFrame f = Some (Ok (mkBinaryBodyFrame TypeWSMessageText "str_1" "tun_1" (to_bytes "hi"))).
Proof.
  eexists. split; [vm_compute; reflexivity|].
  apply (frame_roundtrip TypeWSMessageText "str_1" "tun_1" (to_bytes "hi")).
  vm_compute. reflexivity.
Defined.

(** A frame the decoder accepts is the one the encoder produces for the
    decoded fields: frames have a single encoding, and nothing of an accepted
    frame is ignored. *)
Lemma frame_canonical f b :
  DecodeBinaryBodyFrame f = Some (Ok b) ->
  NewBinaryBodyFrame (bf_Type b) (bf_StreamID b) (bf_TunnelID b) (bf_Data b) = Ok f.
Proof.
  intros H. destruct (Decode_cases f) as [[_ E]|(m0&m1&m2&m3&tb&s1&s0&t1&t0&rest&->&E)];
    rewrite E in H; [done|]. injection H as H. clear E. unfold decode_fields in H.
  destruct (String.eqb_spec (of_bytes [m0; m1; m2; m3]) binaryBodyMagic) as [Em|]; [|done].
  cbn [negb] in H. apply rbind_ok in H as (typ & Hty & H). cbv zeta in H.
  pose proof (u16_range s1 s0). pose proof (u16_range t1 t0).
  destruct (Nat.ltb_spec (length rest) (Z.to_nat (u16 s1 s0) + Z.to_nat (u16 t1 t0))); [done|].
  destruct (Nat.eqb_spec (Z.to_nat (u16 s1 s0)) 0); [done|]. injection H as <-. simpl.
  rewrite NewBinaryBodyFrame_layout, (binaryBodyMessageType_inverse _ _ Hty). cbn [rbind].
  set (sid := of_bytes (take _ rest)). set (tid := of_bytes (take _ (drop _ _))).
  assert (len sid = u16 s1 s0) as Hs
    by (unfold sid, len; rewrite length_of_bytes, length_take; lia).
  assert (len tid = u16 t1 t0) as Ht
    by (unfold tid, len; rewrite length_of_bytes, length_take, length_drop; lia).
  destruct (String.eqb_spec sid "") as [Es|_]; [rewrite Es in Hs; unfold len in Hs; simpl in Hs; lia|].
  rewrite Hs, Ht, (proj2 (Z.ltb_ge 65535 (u16 s1 s0))), (proj2 (Z.ltb_ge 65535 (u16 t1 t0))) by lia.
  f_equal.
  unfold frame_layout. rewrite Hs, Ht, !uint16_bytes_u16, chr_byte, <- Em, !to_of_bytes.
  cbn [app]. do 9 f_equal. unfold sid, tid. rewrite !to_of_bytes.
  rewrite <- drop_drop, take_drop. apply take_drop.
Qed.

Lemma frame_canonical_witness :
  DecodeBinaryBodyFrame (to_bytes "PHB1" ++ [chr 1; chr 0; chr 1; chr 0; chr 0; "s"; "x"]%char) =
    Some (Ok (mkBinaryBodyFrame TypeHTTPRequestBody "s" "" ["x"%char])) /\
  NewBinaryBodyFrame TypeHTTPRequestBody "s" "" ["x"%char] =
    Ok (to_bytes "PHB1" ++ [chr 1; chr 0; chr 1; chr 0; chr 0; "s"; "x"]%char).
Proof.
  split; [reflexivity|].
  apply (frame_canonical _ (mkBinaryBodyFrame TypeHTTPRequestBody "s" "" ["x"%char])).
  reflexivity.
Defined.

(** Decoding is total on arbitrary network bytes: no index or slice
    expression of the decoder is out of range, whatever the lengths a frame
    claims. *)
Theorem frame_decode_total f : exists r, DecodeBinaryBodyFrame f = Some r.
Proof.
  destruct (Decode_cases f) as [[_ E]|(?&?&?&?&?&?&?&?&?&?&_&E)]; rewrite E; eauto.
Qed.

Lemma parse_version_Itoa a b :
  0 <= a <= max_int64 -> 0 <= b <= max_int64 ->
  parseProtocolVersion (Itoa a +:+ "." +:+ Itoa b) = Some (a, b).
Proof.
  intros Ha Hb. unfold parseProtocolVersion, SplitN2.
  destruct (Itoa_digits a Ha) as (c & l & Ea & HF & _).
  rewrite !to_bytes_app. change (to_bytes "." ++ ?x) with ("."%char :: x).
  rewrite cut_bytes_app.
  - rewrite !of_to_bytes, !Atoi_Itoa by done.
    destruct (Z.ltb_spec a 0); [lia|]. destruct (Z.ltb_spec b 0); [lia|]. done.
  - rewrite Ea. intros Hin. rewrite Forall_forall in HF.
    assert (is_digit "."%char = true) as D by (apply HF, list_elem_of_In, Hin). discriminate.
Qed.

(** A version text [major.minor] is supported exactly when it is at least
    0.2 in the lexicographic order, so 0.10 and 1.0 are newer than 0.9 and no
    upper bound is imposed. *)
Theorem version_supported_iff a b :
  0 <= a <= max_int64 -> 0 <= b <= max_int64 ->
  IsProtocolVersionSupported (Itoa a +:+ "." +:+ Itoa b) = true <->
  a > 0 \/ (a = 0 /\ b >= 2).
Proof.
  intros Ha Hb. unfold IsProtocolVersionSupported. rewrite parse_version_Itoa by done.
  change (default (0, 0) (parseProtocolVersion MinSupportedProtocolVersion)) with (0, 2).
  cbv beta iota. destruct (Z.eqb_spec a 0) as [->|]; cbn [negb].
  - rewrite Z.leb_le. lia.
  - rewrite Z.ltb_lt. lia.
Qed.

Lemma version_supported_iff_witness :
  IsProtocolVersionSupported "0.10" = true /\ IsProtocolVersionSupported "0.1" = false.
Proof.
  split.
  - apply (version_supported_iff 0 10); [by vm_compute..|]. right. by vm_compute.
  - pose proof (version_supported_iff 0 1 ltac:(by vm_compute) ltac:(by vm_compute)) as H.
    apply not_true_iff_false. intros E. apply H in E. lia.
Defined.

#[export] Instance string_le_total : Total string_le.
Proof.
  intros a b. unfold string_le. destruct (String.leb_total a b); tauto.
Qed.

Lemma foldl_union_elem (l : list string) (m : gset string) c :
  c ∈ foldl (fun (m : gset string) c => {[c]} ∪ m) m l <-> c ∈ l \/ c ∈ m.
Proof.
  revert m. induction l as [|x l IH]; intros m; simpl; [set_solver|]. rewrite IH. set_solver.
Qed.

Lemma foldl_difference_elem (l : list string) (m : gset string) c :
  c ∈ foldl (fun (m : gset string) c => m ∖ {[c]}) m l <-> c ∈ m /\ c ∉ l.
Proof.
  revert m. induction l as [|x l IH]; intros m; simpl; [set_solver|]. rewrite IH. set_solver.
Qed.

Lemma MissingRequiredCapabilities_elem caps req c :
  c ∈ MissingRequiredCapabilities caps req <-> c ∈ req /\ c ∉ caps.
Proof.
  unfold MissingRequiredCapabilities. destruct req as [|r req]; [set_solver|].
  rewrite (merge_sort_Permutation string_le).
  rewrite elem_of_elements, foldl_difference_elem, foldl_union_elem. set_solver.
Qed.

(** The reported missing capabilities are exactly the required ones the
    peer did not declare, each once and in sorted order; the peer is
    compatible (empty report) exactly when it declares every required one. *)
Theorem missing_capabilities_spec caps req :
  (forall c, c ∈ MissingRequiredCapabilities caps req <-> c ∈ req /\ c ∉ caps) /\
  NoDup (MissingRequiredCapabilities caps req) /\
  Sorted string_le (MissingRequiredCapabilities caps req) /\
  (MissingRequiredCapabilities caps req = [] <-> (forall c, c ∈ req -> c ∈ caps)).
Proof.
  split; [intros c; apply MissingRequiredCapabilities_elem|].
  split; [|split].
  - unfold MissingRequiredCapabilities. destruct req; [constructor|].
    rewrite (merge_sort_Permutation string_le). apply NoDup_elements.
  - unfold MissingRequiredCapabilities. destruct req; [constructor|].
    apply Sorted_merge_sort, _.
  - split.
    + intros E c Hc. destruct (decide (c ∈ caps)) as [|Hn]; [done|].
      assert (c ∈ MissingRequiredCapabilities caps req) as Hm
        by (by apply MissingRequiredCapabilities_elem). rewrite E in Hm. set_solver.
    + intros H. destruct (MissingRequiredCapabilities caps req) as [|c l] eqn:E; [done|].
      assert (c ∈ MissingRequiredCapabilities caps req) as Hm by (rewrite E; by left).
      apply MissingRequiredCapabilities_elem in Hm as [? ?]. exfalso. auto.
Qed.
