(* ===== verification/Wire.v ===== *)
(** protocol/httpwire, protocol/wsproxy and protocol/wswire: the HTTP payloads
    relayed through a tunnel, the header rewriting at each hop, and the framing
    of messages over the agent WebSocket connection. *)
From S2P Require Import Prelude GoStrings Messages.
From Stdlib Require Import ZArith Lia List String Ascii Bool.
From stdpp Require Import base gmap strings list.

Open Scope Z_scope.

(** * net/http.Header: a map from header keys to their values *)
Abbreviation Header := (gmap string (list string)).

(** [textproto]'s token bytes. *)
Definition validHeaderFieldByte (c : ascii) : bool :=
  is_upper_ascii c || is_lower_ascii c || is_digit c ||
  bytes_mem c (to_bytes "!#$%&'*+-.^_`|~").

Fixpoint canonical_bytes (upper : bool) (l : bytes) : bytes :=
  match l with
  | [] => []
  | c :: l' => (if upper then upper_ascii c else lower_ascii c) ::
               canonical_bytes (Ascii.eqb c "-") l'
  end.

(** [http.CanonicalHeaderKey]: a key with a byte that is not a token byte is
    left unchanged. *)
Definition CanonicalHeaderKey (s : string) : string :=
  if sforall validHeaderFieldByte s then of_bytes (canonical_bytes true (to_bytes s)) else s.

Definition Header_Values (h : Header) (key : string) : list string :=
  default [] (h !! CanonicalHeaderKey key).
Definition Header_Get (h : Header) (key : string) : string :=
  match Header_Values h key with v :: _ => v | [] => "" end.
Definition Header_Set (h : Header) (key value : string) : Header :=
  <[CanonicalHeaderKey key := [value]]> h.
Definition Header_Add (h : Header) (key value : string) : Header :=
  <[CanonicalHeaderKey key := Header_Values h key ++ [value]]> h.
Definition Header_Del (h : Header) (key : string) : Header :=
  delete (CanonicalHeaderKey key) h.

(** * httpwire/headers.go *)
Definition hopByHopHeaders : list string :=
  ["Connection"; "Keep-Alive"; "Proxy-Authenticate"; "Proxy-Authorization"; "TE";
   "Trailer"; "Transfer-Encoding"; "Upgrade"].

(** The tokens the [Connection] header names, in the order of the two loops. *)
Definition connection_tokens (header : Header) : list string :=
  Header_Values header "Connection" ≫= fun value =>
  Split value "," ≫= fun token =>
  let token := TrimSpace token in if String.eqb token "" then [] else [token].

Definition StripHopByHopHeaders (header : Header) : Header :=
  let cleaned := foldl Header_Del header (connection_tokens header) in
  foldl Header_Del cleaned hopByHopHeaders.

Definition set_if (header : Header) (key value : string) : Header :=
  if String.eqb value "" then header else Header_Set header key value.

Definition AddForwardedHeaders (header : Header)
    (tunnelID originalHost proto remoteAddr : string) : Header :=
  let forwarded := set_if header "X-Forwarded-For" remoteAddr in
  let forwarded := set_if forwarded "X-Forwarded-Host" originalHost in
  let forwarded := set_if forwarded "X-Forwarded-Proto" proto in
  set_if forwarded "X-Porthook-Tunnel-ID" tunnelID.

(** * httpwire/payload.go and wsproxy/payload.go *)
Record Request := mkRequest {
  rq_Method : string; rq_Path : string; rq_Query : string;
  rq_Header : Header; rq_Body : bytes;
}.
Record RequestStart := mkRequestStart {
  rs_Method : string; rs_Path : string; rs_Query : string;
  rs_Header : Header; rs_ContentLength : Z;
}.
Record Response := mkResponse { rp_Status : Z; rp_Header : Header; rp_Body : bytes }.
Record ResponseStart := mkResponseStart { rps_Status : Z; rps_Header : Header }.
Record BodyChunk := mkBodyChunk { bc_Data : bytes }.

Record Open := mkOpen {
  op_Path : string; op_Query : string; op_Header : Header; op_Subprotocols : list string;
}.
Record Accept := mkAccept { ac_Subprotocol : string }.
Record Close := mkClose { cl_Code : Z; cl_Reason : string }.

(** * wswire/message.go *)
Record Message := mkMessage {
  msg_Envelope : Envelope;
  msg_Body : bytes;
  msg_BinaryBody : bool;
}.

Definition ReadLimitForChunkBytes (chunkBytes : Z) : Z :=
  let chunkBytes := if chunkBytes <=? 0 then Z.shiftl 32 10 else chunkBytes in
  int64 (int64 (chunkBytes * 2) + Z.shiftl 16 10).

Inductive MessageType := MessageText | MessageBinary | MessageOther.

(** A payload type whose value is always nil ([NewStream(..., nil)]). *)
#[export] Instance unit_codec : JSONCodec unit :=
  {| Marshal _ := Ok (to_bytes "{}"); Unmarshal _ := Ok tt |}.

Section wire.
Context {JE : JSONCodec Envelope}.

(** [wswire.Read] on what [conn.Read] returned; [None] would be a panic. *)
Definition Read (received : result (MessageType * bytes)) : option (result Message) :=
  match received with
  | Err e => Some (Err e)
  | Ok (MessageText, data) =>
      match Unmarshal data with
      | Err e => Some (Err (Wrap "decode websocket json message" e))
      | Ok env => Some (Ok (mkMessage env [] false))
      end
  | Ok (MessageBinary, data) =>
      match DecodeBinaryBodyFrame data with
      | None => None
      | Some (Err e) => Some (Err (Wrap "decode websocket binary body frame" e))
      | Some (Ok frame) =>
          match NewStream (T := unit) (bf_Type frame) (bf_StreamID frame) (bf_TunnelID frame) None with
          | Err e => Some (Err e)
          | Ok env => Some (Ok (mkMessage env (bf_Data frame) true))
          end
      end
  | Ok (MessageOther, _) => Some (Err (Errorf "unsupported websocket message type"))
  end.

(** The WebSocket message [WriteEnvelope] and [WriteBinaryBody] hand to
    [conn.Write]. *)
Definition WriteEnvelope (env : Envelope) : result (MessageType * bytes) :=
  match Marshal env with
  | Err e => Err (Wrap "encode websocket json message" e)
  | Ok data => Ok (MessageText, data)
  end.

Definition WriteBinaryBody (typ : Type_) (streamID tunnelID : string) (data : bytes)
    : result (MessageType * bytes) :=
  try frame <- NewBinaryBodyFrame typ streamID tunnelID data;
  Ok (MessageBinary, frame).
End wire.

(** * Header rewriting *)

Lemma foldl_Del_lookup (keys : list string) (h : Header) k :
  foldl Header_Del h keys !! k =
  if bool_decide (k ∈ map CanonicalHeaderKey keys) then None else h !! k.
Proof.
  revert h. induction keys as [|x keys IH]; intros h; cbn [foldl map].
  - rewrite bool_decide_false by set_solver. done.
  - rewrite IH. unfold Header_Del.
    destruct (decide (k = CanonicalHeaderKey x)) as [->|Hne].
    + rewrite lookup_delete_eq. rewrite (bool_decide_true (_ ∈ _ :: _)) by by left.
      by case_bool_decide.
    + rewrite lookup_delete_ne by done. repeat case_bool_decide; set_solver.
Qed.

(** The keys removed from [header]: the hop-by-hop set and what [Connection] names. *)
Definition hop_keys (header : Header) : list string :=
  map CanonicalHeaderKey (connection_tokens header) ++ map CanonicalHeaderKey hopByHopHeaders.

(** Stripping removes exactly the hop-by-hop headers and those the
    [Connection] header nominates, under their canonical names, and leaves the
    values of every other header untouched. *)
Lemma strip_hop_by_hop_spec h k :
  StripHopByHopHeaders h !! k = if bool_decide (k ∈ hop_keys h) then None else h !! k.
Proof.
  unfold StripHopByHopHeaders, hop_keys. rewrite !foldl_Del_lookup.
  repeat case_bool_decide; set_solver.
Qed.

Lemma strip_no_connection_tokens h : connection_tokens (StripHopByHopHeaders h) = [].
Proof.
  unfold connection_tokens, Header_Values, StripHopByHopHeaders at 1.
  rewrite foldl_Del_lookup, bool_decide_true; [done|]. by left.
Qed.

(** Stripping is idempotent, so the gateway and the agent may both apply
    it to a message that passes through the two of them. *)
Theorem strip_hop_by_hop_idempotent h :
  StripHopByHopHeaders (StripHopByHopHeaders h) = StripHopByHopHeaders h.
Proof.
  apply map_eq. intros k. unfold StripHopByHopHeaders at 1.
  rewrite strip_no_connection_tokens. simpl foldl at 2. rewrite foldl_Del_lookup.
  case_bool_decide as Hk; [|done]. unfold StripHopByHopHeaders. rewrite foldl_Del_lookup.
  by rewrite bool_decide_true.
Qed.

(** A frame whose data respects the chunk size fits in the read limit the
    peer derives from the same chunk size, provided the two identifiers stay
    below 16 KiB together: a well-behaved sender never trips the peer's limit. *)
Theorem body_frame_within_read_limit typ sid tid data f chunk :
  NewBinaryBodyFrame typ sid tid data = Ok f ->
  0 < chunk <= 2 ^ 61 -> Z.of_nat (length data) <= chunk ->
  len sid + len tid <= 16000 ->
  Z.of_nat (length f) <= ReadLimitForChunkBytes chunk.
Proof.
  intros (E & _)%frame_size Hc Hd Hids. rewrite E. unfold ReadLimitForChunkBytes.
  destruct (Z.leb_spec chunk 0); [lia|].
  change (Z.shiftl 16 10) with 16384. change binaryBodyHeader with 9.
  rewrite (int64_id (chunk * 2)) by (unfold min_int64, max_int64; lia).
  rewrite int64_id by (unfold min_int64, max_int64; lia). lia.
Qed.

Lemma body_frame_within_read_limit_witness :
  exists f, NewBinaryBodyFrame TypeHTTPRequestBody "str_a" "tun_a" (to_bytes "body") = Ok f /\
  Z.of_nat (length f) <= ReadLimitForChunkBytes 4.
Proof.
  eexists. split; [vm_compute; reflexivity|].
  apply (body_frame_within_read_limit TypeHTTPRequestBody "str_a" "tun_a" (to_bytes "body") _ 4);
    [vm_compute; reflexivity | by vm_compute..].
Defined.

(** A body chunk written by one side is read by the other as a binary-body
    message with the same type, stream id, tunnel id and bytes. *)
Theorem binary_body_over_the_wire {JE : JSONCodec Envelope} typ sid tid data mt raw :
  WriteBinaryBody typ sid tid data = Ok (mt, raw) ->
  Read (Ok (mt, raw)) =
    Some (Ok (mkMessage (mkEnvelope typ sid tid (to_bytes "{}")) data true)).
Proof.
  unfold WriteBinaryBody. intros (f & Hf & H)%rbind_ok. injection H as <- <-.
  pose proof (frame_size _ _ _ _ _ Hf) as (_ & Hs & Ht & ft & Hft & ->).
  pose proof (binaryBodyType_inverse _ _ Hft) as [Hr Hm].
  simpl. rewrite (Decode_layout ft typ) by done. simpl. unfold NewStream.
  assert (String.eqb typ "" = false) as ->; [|done].
  apply String.eqb_neq. intros ->. discriminate.
Qed.

Lemma binary_body_over_the_wire_witness :
  exists JE raw, WriteBinaryBody TypeHTTPResponseBody "s" "t" (to_bytes "x") = Ok (MessageBinary, raw) /\
  @Read JE (Ok (MessageBinary, raw)) =
    Some (Ok (mkMessage (mkEnvelope TypeHTTPResponseBody "s" "t" (to_bytes "{}")) (to_bytes "x") true)).
Proof.
  exists {| Marshal _ := Ok []; Unmarshal _ := Err (Errorf "x") |}.
  eexists. split; [vm_compute; reflexivity|].
  apply (binary_body_over_the_wire (JE := {| Marshal _ := Ok []; Unmarshal _ := Err (Errorf "x") |})).
  vm_compute. reflexivity.
Defined.
