(* ===== verification/Codecs.v ===== *)
(** JSON codecs for concrete runs of the protocol.  The payload types are
    countable, so stdpp's injective codes give each of them a codec that
    satisfies what the development assumes of [encoding/json]: the laws of
    [JSONLaws], and that marshalling does not fail on these payloads. *)
From S2P Require Import Prelude GoStrings Messages Wire.
From Stdlib Require Import ZArith List String Ascii.
From stdpp Require Import base gmap strings list countable.

(** [json.Marshal] does not fail on the payloads of the protocol, which hold
    strings, numbers and maps of them only. *)
Class JSONTotal (T : Type) {J : JSONCodec T} : Prop :=
  marshal_total : forall t : T, exists raw, Marshal t = Ok raw.
#[export] Instance countable_codec_total {T} `{Countable T} : @JSONTotal T countable_codec.
Proof. intros t. by eexists. Qed.

(** An envelope made on one side decodes to the same payload on the other. *)
Lemma NewStream_total {T} {J : JSONCodec T} `{!JSONLaws T} `{!JSONTotal T} typ sid tid (p : T) : typ <> ""%string ->
  exists env, NewStream typ sid tid (Some p) = Ok env /\ env_Type env = typ /\ env_StreamID env = sid /\
    env_TunnelID env = tid /\ DecodePayload T env = Ok p.
Proof.
  intros Ht. destruct (marshal_total p) as [raw Hr]. exists (mkEnvelope typ sid tid raw).
  unfold NewStream, marshalPayload. rewrite (proj2 (String.eqb_neq _ _) Ht), Hr. cbn.
  split_and!; [done..|]. unfold DecodePayload. cbn [env_Payload].
  destruct raw; [by destruct (marshal_nonempty p [] Hr)|]. by rewrite (unmarshal_marshal p _ Hr).
Qed.

Lemma New_total {T} {J : JSONCodec T} `{!JSONLaws T} `{!JSONTotal T} typ (p : T) : typ <> ""%string ->
  exists env, Messages.New typ (Some p) = Ok env /\ env_Type env = typ /\ DecodePayload T env = Ok p.
Proof. intros Ht. destruct (NewStream_total typ "" "" p Ht) as (env & ? & ? & _ & _ & ?). eauto. Qed.

(** * Countable payloads *)
#[export] Instance Envelope_eq : EqDecision Envelope.
Proof. solve_decision. Defined.
#[export] Program Instance Envelope_countable : Countable Envelope :=
  inj_countable' (fun e => (env_Type e, env_StreamID e, env_TunnelID e, env_Payload e))
    (fun '(a, b, c, d) => mkEnvelope a b c d) _.
Next Obligation. by intros []. Qed.

#[export] Instance AuthRequest_eq : EqDecision AuthRequest.
Proof. solve_decision. Defined.
#[export] Program Instance AuthRequest_countable : Countable AuthRequest :=
  inj_countable' (fun e => (ar_Token e, ar_AgentVersion e, ar_ProtocolVersion e, ar_Capabilities e))
    (fun '(a, b, c, d) => mkAuthRequest a b c d) _.
Next Obligation. by intros []. Qed.

#[export] Instance AuthOK_eq : EqDecision AuthOK.
Proof. solve_decision. Defined.
#[export] Program Instance AuthOK_countable : Countable AuthOK :=
  inj_countable' (fun e => (ao_ProtocolVersion e, ao_Capabilities e)) (fun '(a, b) => mkAuthOK a b) _.
Next Obligation. by intros []. Qed.

#[export] Instance ErrorPayload_eq : EqDecision ErrorPayload.
Proof. solve_decision. Defined.
#[export] Program Instance ErrorPayload_countable : Countable ErrorPayload :=
  inj_countable' (fun e => (ep_Code e, ep_Message e)) (fun '(a, b) => mkErrorPayload a b) _.
Next Obligation. by intros []. Qed.

#[export] Instance TunnelRegister_eq : EqDecision TunnelRegister.
Proof. solve_decision. Defined.
#[export] Program Instance TunnelRegister_countable : Countable TunnelRegister :=
  inj_countable' (fun e => (tr_Protocol e, tr_LocalTarget e, tr_RequestedSubdomain e))
    (fun '(a, b, c) => mkTunnelRegister a b c) _.
Next Obligation. by intros []. Qed.

#[export] Instance TunnelRegistered_eq : EqDecision TunnelRegistered.
Proof. solve_decision. Defined.
#[export] Program Instance TunnelRegistered_countable : Countable TunnelRegistered :=
  inj_countable' (fun e => (td_TunnelID e, td_PublicURL e, td_Subdomain e))
    (fun '(a, b, c) => mkTunnelRegistered a b c) _.
Next Obligation. by intros []. Qed.

#[export] Instance StreamCancel_eq : EqDecision StreamCancel.
Proof. solve_decision. Defined.
#[export] Program Instance StreamCancel_countable : Countable StreamCancel :=
  inj_countable' sc_Reason mkStreamCancel _.
Next Obligation. by intros []. Qed.

#[export] Instance RequestStart_eq : EqDecision RequestStart.
Proof. solve_decision. Defined.
#[export] Program Instance RequestStart_countable : Countable RequestStart :=
  inj_countable' (fun e => (rs_Method e, rs_Path e, rs_Query e, rs_Header e, rs_ContentLength e))
    (fun '(a, b, c, d, e) => mkRequestStart a b c d e) _.
Next Obligation. by intros []. Qed.

#[export] Instance ResponseStart_eq : EqDecision ResponseStart.
Proof. solve_decision. Defined.
#[export] Program Instance ResponseStart_countable : Countable ResponseStart :=
  inj_countable' (fun e => (rps_Status e, rps_Header e)) (fun '(a, b) => mkResponseStart a b) _.
Next Obligation. by intros []. Qed.

#[export] Instance BodyChunk_eq : EqDecision BodyChunk.
Proof. solve_decision. Defined.
#[export] Program Instance BodyChunk_countable : Countable BodyChunk :=
  inj_countable' bc_Data mkBodyChunk _.
Next Obligation. by intros []. Qed.
