(* ===== verification/Registry.v ===== *)
(** server/gateway/internal/registry: the tunnels a gateway serves, indexed by
    tunnel id and by subdomain under one lock.  Every method is one atomic
    step; a sequence of calls is a path of [step]. *)
From S2P Require Import Prelude GoStrings.
From Stdlib Require Import ZArith Lia List String Ascii Bool.
From stdpp Require Import base gmap strings list relations.

Open Scope Z_scope.

Definition ErrTunnelIDAlreadyRegistered : error :=
  Sentinel "registry.ErrTunnelIDAlreadyRegistered" "tunnel id already registered".
Definition ErrSubdomainAlreadyRegistered : error :=
  Sentinel "registry.ErrSubdomainAlreadyRegistered" "subdomain already registered".

Record Session := mkSession {
  TunnelID : string;
  Subdomain : string;
  PublicURL : string;
  LocalTarget : string;
  Protocol : string;
  AgentVersion : string;
  s_ProtocolVersion : string;
  Capabilities : list string;
  CreatedAt : Time;
}.
#[export] Instance Session_eq_dec : EqDecision Session.
Proof. solve_decision. Defined.

(** A nil receiver has no capability. *)
Definition HasCapability (s : option Session) (capability : string) : bool :=
  match s with
  | None => false
  | Some s => existsb (String.eqb capability) (Capabilities s)
  end.

Record Registry := mkRegistry {
  byTunnelID : gmap string Session;
  bySubdomain : gmap string Session;
}.

Definition New : Registry := mkRegistry ∅ ∅.

Definition Register (r : Registry) (session : option Session) : result unit * Registry :=
  match session with
  | None => (Err (Errorf "session is required"), r)
  | Some s =>
      if String.eqb (TunnelID s) "" then (Err (Errorf "tunnel id is required"), r)
      else if String.eqb (Subdomain s) "" then (Err (Errorf "subdomain is required"), r)
      else if bool_decide (is_Some (byTunnelID r !! TunnelID s))
      then (Err ErrTunnelIDAlreadyRegistered, r)
      else if bool_decide (is_Some (bySubdomain r !! Subdomain s))
      then (Err ErrSubdomainAlreadyRegistered, r)
      else (Ok tt, mkRegistry (<[TunnelID s := s]> (byTunnelID r))
                              (<[Subdomain s := s]> (bySubdomain r)))
  end.

Definition LookupByTunnelID (r : Registry) (tunnelID : string) : option Session :=
  byTunnelID r !! tunnelID.
Definition LookupBySubdomain (r : Registry) (subdomain : string) : option Session :=
  bySubdomain r !! subdomain.

Definition Unregister (r : Registry) (tunnelID : string) : Registry :=
  match byTunnelID r !! tunnelID with
  | None => r
  | Some s => mkRegistry (delete tunnelID (byTunnelID r)) (delete (Subdomain s) (bySubdomain r))
  end.

Definition Count (r : Registry) : Z := Z.of_nat (size (byTunnelID r)).
Definition List_ (r : Registry) : list Session := (map_to_list (byTunnelID r)).*2.

(** One call that changes the registry. *)
Inductive step : Registry -> Registry -> Prop :=
| step_register r s : step r (snd (Register r s))
| step_unregister r id : step r (Unregister r id).

Definition reachable (r : Registry) : Prop := rtc step New r.

(** * The invariant *)

(** The two indexes hold the same sessions, each under its own non-empty keys. *)
Record consistent (r : Registry) : Prop := {
  by_tunnel : forall t s, byTunnelID r !! t = Some s ->
    TunnelID s = t /\ t <> "" /\ bySubdomain r !! Subdomain s = Some s;
  by_subdomain : forall d s, bySubdomain r !! d = Some s ->
    Subdomain s = d /\ d <> "" /\ byTunnelID r !! TunnelID s = Some s;
}.

Lemma New_consistent : consistent New.
Proof. split; intros ? ? H; simpl in H; rewrite lookup_empty in H; discriminate. Qed.

Lemma Register_ok r s :
  fst (Register r (Some s)) = Ok tt <->
  TunnelID s <> "" /\ Subdomain s <> "" /\
  byTunnelID r !! TunnelID s = None /\ bySubdomain r !! Subdomain s = None.
Proof.
  unfold Register. destruct (String.eqb_spec (TunnelID s) "") as [|H1].
  { split; [discriminate | tauto]. }
  destruct (String.eqb_spec (Subdomain s) "") as [|H2].
  { split; [discriminate | tauto]. }
  case_bool_decide as H3.
  { split; [discriminate|]. intros (_ & _ & E & _). rewrite E in H3. destruct H3; discriminate. }
  case_bool_decide as H4.
  { split; [discriminate|]. intros (_ & _ & _ & E). rewrite E in H4. destruct H4; discriminate. }
  rewrite <- !eq_None_not_Some in *. simpl. tauto.
Qed.

Lemma Register_cases r s :
  (fst (Register r s) <> Ok tt /\ snd (Register r s) = r) \/
  (exists v, s = Some v /\ TunnelID v <> "" /\ Subdomain v <> "" /\
    byTunnelID r !! TunnelID v = None /\ bySubdomain r !! Subdomain v = None /\
    Register r s = (Ok tt, mkRegistry (<[TunnelID v := v]> (byTunnelID r))
                                      (<[Subdomain v := v]> (bySubdomain r)))).
Proof.
  destruct s as [s|]; [|by left].
  destruct (decide (fst (Register r (Some s)) = Ok tt)) as [H|H].
  - right. exists s. pose proof (proj1 (Register_ok r s) H) as (? & ? & E1 & E2).
    repeat split; try done. unfold Register in *. repeat case_match; simpl in H; try discriminate. done.
  - left. split; [done|]. unfold Register in *. repeat case_match; simpl in *; done.
Qed.

Lemma Register_consistent r s : consistent r -> consistent (snd (Register r s)).
Proof.
  intros [HT HS]. destruct (Register_cases r s) as [[_ ->]|(v & -> & Ht & Hd & Et & Ed & ->)];
    [by split|]. simpl. split; simpl.
  - intros t x. rewrite lookup_insert_Some. intros [[<- <-]|[Hne Hx]].
    + by rewrite lookup_insert_eq.
    + destruct (HT _ _ Hx) as (-> & ? & Hx'). repeat split; [done|].
      rewrite lookup_insert_ne; [done|]. intros E. congruence.
  - intros d x. rewrite lookup_insert_Some. intros [[<- <-]|[Hne Hx]].
    + by rewrite lookup_insert_eq.
    + destruct (HS _ _ Hx) as (-> & ? & Hx'). repeat split; [done|].
      rewrite lookup_insert_ne; [done|]. intros E. congruence.
Qed.

Lemma Unregister_consistent r id : consistent r -> consistent (Unregister r id).
Proof.
  intros [HT HS]. unfold Unregister. destruct (byTunnelID r !! id) as [s|] eqn:E; [|by split].
  destruct (HT _ _ E) as (Et & _ & Es). split; simpl.
  - intros t x [Hne Hx]%lookup_delete_Some. destruct (HT _ _ Hx) as (<- & ? & Hx').
    repeat split; [done|]. rewrite lookup_delete_ne; [done|]. intros Hd. congruence.
  - intros d x [Hne Hx]%lookup_delete_Some. destruct (HS _ _ Hx) as (<- & ? & Hx').
    repeat split; [done|]. rewrite lookup_delete_ne; [done|]. intros Hd. congruence.
Qed.

Lemma reachable_consistent r : reachable r -> consistent r.
Proof.
  apply (rtc_ind_r consistent New New_consistent). intros y z _ Hstep IH.
  inv Hstep; auto using Register_consistent, Unregister_consistent.
Qed.

(** In every registry reached by any sequence of [Register] and
    [Unregister] calls, the tunnel-id index and the subdomain index hold the
    same sessions, so a subdomain is served by at most one tunnel and a tunnel
    owns exactly the subdomain it registered. *)
Lemma registry_indexes_agree r d t s :
  reachable r ->
  LookupBySubdomain r d = Some s /\ TunnelID s = t <->
  LookupByTunnelID r t = Some s /\ Subdomain s = d.
Proof.
  intros Hr%reachable_consistent. destruct Hr as [HT HS]. unfold LookupBySubdomain, LookupByTunnelID.
  split.
  - intros [H <-]. destruct (HS _ _ H) as (? & _ & ?). done.
  - intros [H <-]. destruct (HT _ _ H) as (? & _ & ?). done.
Qed.

Lemma registry_indexes_agree_witness :
  let s := mkSession "tun_1" "demo" "http://demo.x" "http://l" "http" "" "0.3" [] 1 in
  LookupByTunnelID (snd (Register New (Some s))) "tun_1" = Some s /\ Subdomain s = "demo".
Proof.
  intros s. apply (registry_indexes_agree _ "demo" "tun_1").
  - apply rtc_once. apply step_register.
  - split; reflexivity.
Defined.

(** Releasing a tunnel frees its subdomain: after [Unregister] neither
    index resolves to it, every other tunnel is still found, and the same
    subdomain can be registered again under a fresh tunnel id. *)
Theorem unregister_releases r id s s' :
  reachable r -> LookupByTunnelID r id = Some s ->
  TunnelID s' <> "" -> Subdomain s' = Subdomain s -> LookupByTunnelID r (TunnelID s') = None ->
  let r' := Unregister r id in
  LookupByTunnelID r' id = None /\ LookupBySubdomain r' (Subdomain s) = None /\
  (forall d x, d <> Subdomain s -> LookupBySubdomain r d = Some x -> LookupBySubdomain r' d = Some x) /\
  fst (Register r' (Some s')) = Ok tt.
Proof.
  intros Hr%reachable_consistent H Hid Hsub Hfree. unfold LookupByTunnelID, LookupBySubdomain in *.
  destruct Hr as [HT HS]. destruct (HT _ _ H) as (Hts & _ & Hs). destruct (HS _ _ Hs) as (_ & Hne & _).
  cbv zeta. rewrite Register_ok. unfold Unregister. rewrite H. simpl.
  rewrite !lookup_delete_eq, Hsub, lookup_delete_eq. repeat split; try done.
  - intros d x Hd Hx. by rewrite lookup_delete_ne.
  - rewrite lookup_delete_None. by right.
Qed.

Lemma unregister_releases_witness :
  let s := mkSession "tun_1" "demo" "u" "l" "http" "" "0.3" [] 1 in
  let s' := mkSession "tun_2" "demo" "u" "l" "http" "" "0.3" [] 2 in
  let r := snd (Register New (Some s)) in
  fst (Register r (Some s')) = Err ErrSubdomainAlreadyRegistered /\
  fst (Register (Unregister r "tun_1") (Some s')) = Ok tt.
Proof.
  intros s s' r. split; [reflexivity|].
  refine (proj2 (proj2 (proj2 (unregister_releases r "tun_1" s s' _ _ _ _ _)))).
  - apply rtc_once. apply step_register.
  - reflexivity.
  - discriminate.
  - reflexivity.
  - reflexivity.
Defined.
