(* ===== verification/RateLimit.v ===== *)
(** server/gateway/internal/gateway/ratelimit.go and auth_throttle.go: the
    token bucket of a tunnel and the table of buckets that throttles failed
    credential checks.

    The code computes with [float64].  The definitions are generic in the
    arithmetic, the class [FloatOps]; [binary64] is the IEEE 754 double
    arithmetic the code runs on (so examples evaluate bit for bit), and
    [exact] the rationals it approximates.  Theorems that hold for every
    arithmetic are stated for every instance; those that bound how many
    requests pass are stated for exact arithmetic. *)
From S2P Require Import Prelude GoStrings.
From Stdlib Require Import ZArith Lia List String Ascii Bool QArith Lqa.
From Corelib Require Import SpecFloat.
From stdpp Require Import base gmap strings list.

Open Scope Z_scope.

(** * float64 *)
Class FloatOps (F : Type) : Type := {
  f_of_Z : Z -> F;
  f_add : F -> F -> F;
  f_sub : F -> F -> F;
  f_mul : F -> F -> F;
  f_div : F -> F -> F;
  f_ltb : F -> F -> bool;
  f_leb : F -> F -> bool;
}.

Definition binary64 : FloatOps spec_float := {|
  f_of_Z z := binary_normalize 53 1024 z 0 false;
  f_add := SFadd 53 1024;
  f_sub := SFsub 53 1024;
  f_mul := SFmul 53 1024;
  f_div := SFdiv 53 1024;
  f_ltb := SFltb;
  f_leb := SFleb;
|}.

Definition exact : FloatOps Q := {|
  f_of_Z := inject_Z;
  f_add := Qplus;
  f_sub := Qminus;
  f_mul := Qmult;
  f_div := Qdiv;
  f_ltb a b := negb (Qle_bool b a);
  f_leb := Qle_bool;
|}.

Section limiter.
Context {F : Type} {FO : FloatOps F}.

(** [Duration.Seconds]: whole seconds plus the nanoseconds over 1e9. *)
Definition Seconds (d : Duration) : F :=
  f_add (f_of_Z (Z.quot d second)) (f_div (f_of_Z (Z.rem d second)) (f_of_Z second)).

(** * ratelimit.go *)
Record rateLimiter := mkRateLimiter {
  rate : F;
  capacity : F;
  tokens : F;
  last_refill : Time;
}.

Definition newRateLimiter (requestsPerSecond burst : Z) (now : Time) : option rateLimiter :=
  if (requestsPerSecond <=? 0) || (burst <=? 0) then None
  else Some (mkRateLimiter (f_of_Z requestsPerSecond) (f_of_Z burst) (f_of_Z burst) now).

(** The refill both [allow] and [peek] compute: the tokens at [now]. *)
Definition refilled (l : rateLimiter) (now : Time) : F :=
  let t := f_add (tokens l) (f_mul (Seconds (time_Sub now (last_refill l))) (rate l)) in
  if f_ltb (capacity l) t then capacity l else t.

(** [allow] on a non-nil limiter. *)
Definition limiter_allow (l : rateLimiter) (now : Time) : bool * rateLimiter :=
  let l :=
    if last_refill l <? now
    then mkRateLimiter (rate l) (capacity l) (refilled l now) now
    else l in
  if f_ltb (tokens l) (f_of_Z 1) then (false, l)
  else (true, mkRateLimiter (rate l) (capacity l) (f_sub (tokens l) (f_of_Z 1)) (last_refill l)).

Definition allow (l : option rateLimiter) (now : Time) : bool * option rateLimiter :=
  match l with
  | None => (true, None)
  | Some l => let '(b, l') := limiter_allow l now in (b, Some l')
  end.

Definition peek (l : option rateLimiter) (now : Time) : bool :=
  match l with
  | None => true
  | Some l =>
      let t := if last_refill l <? now then refilled l now else tokens l in
      f_leb (f_of_Z 1) t
  end.

(** * auth_throttle.go *)
Definition authAttemptMaxKeys : Z := 10000.
Definition defaultAuthAttemptLimit : Z := 5.
Definition defaultAuthAttemptWindow : Duration := 60 * second.

Record authAttemptEntry := mkAuthAttemptEntry {
  limiter : option rateLimiter;
  lastSeen : Time;
}.
Record authAttemptThrottle := mkAuthAttemptThrottle {
  entries : gmap string authAttemptEntry;
  limit : Z;
  window : Duration;
}.

Definition newAuthAttemptThrottle (limit : Z) (window : Duration) : authAttemptThrottle :=
  let limit := if limit <=? 0 then defaultAuthAttemptLimit else limit in
  let window := if window <=? 0 then defaultAuthAttemptWindow else window in
  mkAuthAttemptThrottle ∅ limit window.

Definition newAttemptLimiter (limit : Z) (window : Duration) (now : Time) : option rateLimiter :=
  if (limit <=? 0) || (window <=? 0) then None
  else Some (mkRateLimiter (f_div (f_of_Z limit) (Seconds window))
               (f_of_Z limit) (f_of_Z limit) now).

(** A nil throttle never blocks. *)
Definition blocked (t : option authAttemptThrottle) (key : string) (now : Time) : bool :=
  match t with
  | None => false
  | Some t =>
      match entries t !! key with
      | None => false
      | Some entry => negb (peek (limiter entry) now)
      end
  end.

(** The order in which [range] visits the map, which Go leaves open. *)
Context (range : gmap string authAttemptEntry -> list (string * authAttemptEntry)).

(** The loop of [evictOldestLocked]: the first key with the least [lastSeen]. *)
Definition oldest_step (acc : option (string * Time)) (kv : string * authAttemptEntry)
    : option (string * Time) :=
  match acc with
  | None => Some (fst kv, lastSeen (snd kv))
  | Some (_, seen) =>
      if lastSeen (snd kv) <? seen then Some (fst kv, lastSeen (snd kv)) else acc
  end.

Definition evictOldestLocked (t : authAttemptThrottle) : authAttemptThrottle :=
  match foldl oldest_step None (range (entries t)) with
  | None => t
  | Some (oldestKey, _) =>
      mkAuthAttemptThrottle (delete oldestKey (entries t)) (limit t) (window t)
  end.

Definition recordFailure (t : authAttemptThrottle) (key : string) (now : Time)
    : authAttemptThrottle :=
  let '(t, entry) :=
    match entries t !! key with
    | Some entry => (t, entry)
    | None =>
        let t := if authAttemptMaxKeys <=? Z.of_nat (size (entries t))
                 then evictOldestLocked t else t in
        (t, mkAuthAttemptEntry (newAttemptLimiter (limit t) (window t) now) now)
    end in
  let entry := mkAuthAttemptEntry (snd (allow (limiter entry) now)) now in
  mkAuthAttemptThrottle (<[key := entry]> (entries t)) (limit t) (window t).

(** [recordFailure] on the receiver pointer, nil included. *)
Definition record_failure_opt (t : option authAttemptThrottle) key now :=
  match t with None => None | Some t => Some (recordFailure t key now) end.
End limiter.
Arguments rateLimiter F : clear implicits.
Arguments authAttemptEntry F : clear implicits.
Arguments authAttemptThrottle F : clear implicits.

(** * Properties *)

(** The only facts about [<] and [<=] needed to relate the two tests. *)
Class FloatOrder (F : Type) {FO : FloatOps F} (ok : F -> Prop) : Prop := {
  leb_not_ltb : forall a b, ok a -> ok b -> f_leb a b = negb (f_ltb b a);
}.

#[export] Instance exact_order : @FloatOrder Q exact (fun _ => True).
Proof. split. intros a b _ _. simpl. by rewrite negb_involutive. Qed.

(** On doubles the two comparisons are complementary away from NaN. *)
Definition not_nan (x : spec_float) : Prop := x <> S754_nan.
#[export] Instance binary64_order : @FloatOrder spec_float binary64 not_nan.
Proof.
  split. intros a b Ha Hb. simpl. unfold SFleb, SFltb.
  destruct a as [s|s| |s m e], b as [s'|s'| |s' m' e']; try done; simpl;
    try (by destruct s); try (by destruct s'); try (by destruct s, s').
  destruct s, s'; simpl; try done; rewrite (Z.compare_antisym e e');
    destruct (Z.compare_spec e e'); simpl; try done;
    rewrite (Pos.compare_antisym m m' :
      Pos.compare_cont Eq m' m = CompOpp (Pos.compare_cont Eq m m'));
    by destruct (Pos.compare_cont Eq m m').
Qed.

Lemma tokens_after_allow {F} {FO : FloatOps F} (l : rateLimiter F) now :
  fst (limiter_allow l now) =
  negb (f_ltb (if last_refill l <? now then refilled l now else tokens l) (f_of_Z 1)).
Proof. unfold limiter_allow. destruct (last_refill l <? now); simpl; by destruct (f_ltb _ _). Qed.

(** [peek] answers exactly what [allow] would answer at that time, in any
    arithmetic whose comparisons are complementary on the values compared
    (doubles that are not NaN, and the rationals). *)
Theorem peek_predicts_allow {F} {FO : FloatOps F} (okf : F -> Prop) {O : FloatOrder F okf}
    (l : rateLimiter F) now :
  okf (f_of_Z 1) -> okf (tokens l) -> okf (refilled l now) ->
  peek (Some l) now = fst (allow (Some l) now).
Proof.
  intros H1 Ht Hr. unfold allow. pose proof (tokens_after_allow l now) as E.
  destruct (limiter_allow l now) as [b l'] eqn:El. simpl in *. subst b.
  apply leb_not_ltb; [done|]. by destruct (last_refill l <? now).
Qed.

Lemma peek_predicts_allow_witness :
  let l := mkRateLimiter (F := spec_float) (f_of_Z (FloatOps := binary64) 60)
             (f_of_Z (FloatOps := binary64) 120) (f_of_Z (FloatOps := binary64) 0) 0 in
  peek (FO := binary64) (Some l) (second / 60) = fst (allow (FO := binary64) (Some l) (second / 60)).
Proof.
  intros l. apply (peek_predicts_allow (FO := binary64) not_nan l);
    vm_compute; discriminate.
Defined.

(** ** The bucket in exact arithmetic *)
Section exact_bucket.
Local Existing Instance exact.
Local Open Scope Q_scope.
Implicit Types l : rateLimiter Q.

(** Calls of [allow] at the given times: how many passed, and the bucket after. *)
Fixpoint run_allow l (times : list Time) : Z * rateLimiter Q :=
  match times with
  | [] => (0%Z, l)
  | now :: times' =>
      let '(b, l1) := limiter_allow l now in
      let '(n, l2) := run_allow l1 times' in
      ((if (b : bool) then 1 + n else n)%Z, l2)
  end.

Definition secs (d : Z) : Q := inject_Z d / inject_Z second.

Lemma second_pos : 0 < inject_Z second.
Proof. reflexivity. Qed.

Lemma Seconds_exact d : Seconds d == secs d.
Proof.
  unfold Seconds, secs. simpl. rewrite (Z.quot_rem' d second) at 3.
  rewrite inject_Z_plus, inject_Z_mult. field. discriminate.
Qed.

Lemma secs_le a b : (a <= b)%Z -> secs a <= secs b.
Proof.
  intros H. unfold secs, Qdiv. apply Qmult_le_compat_r; [by rewrite <- Zle_Qle|].
  apply Qlt_le_weak, Qinv_lt_0_compat, second_pos.
Qed.

Lemma secs_0 : secs 0 == 0.
Proof. reflexivity. Qed.

Lemma secs_nonneg d : (0 <= d)%Z -> 0 <= secs d.
Proof. intros H. rewrite <- secs_0. by apply secs_le. Qed.

Lemma secs_add a b : secs (a + b) == secs a + secs b.
Proof. unfold secs. rewrite inject_Z_plus. field. discriminate. Qed.

Record bucket_ok l : Prop := {
  rate_nonneg : 0 <= rate l;
  tokens_nonneg : 0 <= tokens l;
  tokens_capacity : tokens l <= capacity l;
}.

Lemma f_ltb_exact (a b : Q) : f_ltb a b = true <-> a < b.
Proof.
  simpl. rewrite negb_true_iff. split.
  - intros H. apply Qnot_le_lt. intros Hc. apply Qle_bool_iff in Hc. congruence.
  - intros H. apply not_true_iff_false. intros Hc%Qle_bool_iff. by apply (Qlt_not_le a b).
Qed.

Lemma f_ltb_exact_false (a b : Q) : f_ltb a b = false <-> b <= a.
Proof.
  rewrite <- not_true_iff_false, f_ltb_exact. split; [apply Qnot_lt_le | apply Qle_not_lt].
Qed.

(** The tokens [allow] sees at [now], and the time they are counted from. *)
Definition tokens_at l now : Q := if (last_refill l <? now)%Z then refilled l now else tokens l.

Lemma refilled_bounds l now :
  bucket_ok l -> (last_refill l <= now)%Z ->
  tokens l <= refilled l now /\ refilled l now <= capacity l /\
  refilled l now <= tokens l + rate l * secs (now - last_refill l).
Proof.
  intros [Hr Ht Hc] Hn.
  assert (Hs : (0 <= time_Sub now (last_refill l) <= now - last_refill l)%Z)
    by (unfold time_Sub, min_int64, max_int64; lia).
  assert (Hadd : tokens l <= f_add (tokens l) (f_mul (Seconds (time_Sub now (last_refill l))) (rate l))
      <= tokens l + rate l * secs (now - last_refill l)).
  { change (f_add (tokens l) (f_mul (Seconds (time_Sub now (last_refill l))) (rate l)))
      with (tokens l + Seconds (time_Sub now (last_refill l)) * rate l).
    rewrite Seconds_exact.
    pose proof (secs_nonneg (time_Sub now (last_refill l)) ltac:(lia)) as H0.
    pose proof (secs_le _ _ (proj2 Hs)) as H1.
    pose proof (Qmult_le_0_compat _ _ H0 Hr).
    pose proof (Qmult_le_compat_r _ _ (rate l) H1 Hr). split; lra. }
  unfold refilled. cbv zeta. destruct (f_ltb _ _) eqn:E.
  - apply f_ltb_exact in E. repeat split; lra.
  - apply f_ltb_exact_false in E. repeat split; lra.
Qed.

Lemma tokens_at_bounds l now :
  bucket_ok l ->
  tokens l <= tokens_at l now /\ tokens_at l now <= capacity l /\
  tokens_at l now <= tokens l + rate l * secs (Z.max now (last_refill l) - last_refill l).
Proof.
  intros H. unfold tokens_at. destruct (Z.ltb_spec (last_refill l) now).
  - rewrite Z.max_l by lia. by apply refilled_bounds; [|lia].
  - rewrite Z.max_r, Z.sub_diag by lia. destruct H as [Hr Ht Hc].
    rewrite secs_0. split; [|split]; lra.
Qed.

Lemma limiter_allow_exact l now :
  exists l1, limiter_allow l now = (negb (f_ltb (tokens_at l now) 1), l1) /\
    rate l1 = rate l /\ capacity l1 = capacity l /\
    last_refill l1 = Z.max now (last_refill l) /\
    tokens l1 = if f_ltb (tokens_at l now) 1 then tokens_at l now else tokens_at l now - 1.
Proof.
  unfold limiter_allow, tokens_at. change (f_of_Z 1) with (1 : Q).
  destruct (Z.ltb_spec (last_refill l) now); cbn [tokens rate capacity last_refill];
    destruct (f_ltb _ 1); eexists; (split; [reflexivity|]); cbn [tokens rate capacity last_refill];
    repeat split; lia.
Qed.

Lemma limiter_allow_ok l now : bucket_ok l -> bucket_ok (snd (limiter_allow l now)).
Proof.
  intros H. pose proof (tokens_at_bounds l now H) as (H1 & H2 & _). destruct H as [Hr Ht Hc].
  destruct (limiter_allow_exact l now) as (l1 & -> & Er & Ec & _ & Et). simpl.
  split; rewrite ?Er, ?Ec, ?Et; [lra|..]; destruct (f_ltb _ 1) eqn:E; try lra;
    apply f_ltb_exact_false in E; lra.
Qed.

Lemma run_allow_potential l times T :
  bucket_ok l -> Forall (fun t => t <= T)%Z times -> (last_refill l <= T)%Z ->
  inject_Z (fst (run_allow l times)) <= tokens l + rate l * secs (T - last_refill l).
Proof.
  revert l. induction times as [|now times IH]; intros l H HT Hl; cbn [run_allow fst].
  - destruct H as [Hr Ht Hc].
    pose proof (Qmult_le_0_compat _ _ Hr (secs_nonneg (T - last_refill l) ltac:(lia))).
    change (inject_Z 0) with 0. lra.
  - inv HT. pose proof (tokens_at_bounds l now H) as (_ & _ & Hup).
    pose proof (limiter_allow_ok l now H) as Hok.
    destruct (limiter_allow_exact l now) as (l1 & E & Er & Ec & El & Et).
    rewrite E in *. cbn [snd] in Hok. specialize (IH l1 Hok ltac:(done) ltac:(lia)).
    destruct (run_allow l1 times) as [n l2]. cbn [fst] in *.
    rewrite Er, El in IH.
    assert (Hsplit : secs (T - last_refill l) ==
      secs (Z.max now (last_refill l) - last_refill l) + secs (T - Z.max now (last_refill l))).
    { rewrite <- secs_add. unfold secs. replace (_ - _ + _)%Z with (T - last_refill l)%Z by lia. reflexivity. }
    rewrite Hsplit. destruct (f_ltb (tokens_at l now) 1) eqn:B; cbn [negb]; rewrite Et in IH.
    + lra.
    + rewrite inject_Z_plus. change (inject_Z 1) with 1. lra.
Qed.

Lemma limiter_allow_spends l now :
  bucket_ok l ->
  let '(b, l1) := limiter_allow l now in
  (if (b : bool) then 1 else 0) + tokens l1 <= capacity l.
Proof.
  intros H. pose proof (tokens_at_bounds l now H) as (_ & H2 & _).
  destruct (limiter_allow_exact l now) as (l1 & -> & _ & _ & _ & ->).
  destruct (f_ltb _ 1); cbn [negb]; lra.
Qed.



(** A bucket never stays shut: once the rate has had the time to refill
    one token, the next request passes. *)
Theorem rate_limit_recovers l now :
  bucket_ok l -> 1 <= capacity l -> (last_refill l < now)%Z ->
  1 <= rate l * Seconds (time_Sub now (last_refill l)) ->
  fst (allow (Some l) now) = true.
Proof.
  intros [Hr Ht Hc] H1 Hn Hs. unfold allow. pose proof (tokens_after_allow l now) as E.
  destruct (limiter_allow l now) as [b l']. cbn [fst] in *. rewrite E.
  rewrite (proj2 (Z.ltb_lt _ _) Hn), negb_true_iff, f_ltb_exact_false.
  change (f_of_Z 1) with 1. unfold refilled. cbv zeta. destruct (f_ltb (capacity l) _); [done|].
  change (1 <= tokens l + Seconds (time_Sub now (last_refill l)) * rate l). lra.
Qed.

Lemma rate_limit_recovers_witness :
  let l := mkRateLimiter 2 3 0 0%Z in fst (allow (Some l) (second / 2)) = true.
Proof.
  intros l. apply (rate_limit_recovers l (second / 2)).
  - split; discriminate.
  - discriminate.
  - by vm_compute.
  - by vm_compute.
Defined.
End exact_bucket.

(** ** The throttle table, in any arithmetic *)
Section throttle_table.
Context {F : Type} {FO : FloatOps F}.
Context (range : gmap string (authAttemptEntry F) -> list (string * authAttemptEntry F)).
Hypothesis range_visits_all : forall m, range m ≡ₚ map_to_list m.
Implicit Types t : authAttemptThrottle F.

Lemma oldest_step_spec (l : list (string * authAttemptEntry F)) acc :
  foldl oldest_step acc l = acc \/
  exists k e, foldl oldest_step acc l = Some (k, lastSeen e) /\ (k, e) ∈ l.
Proof.
  revert acc. induction l as [|[k e] l IH]; intros acc; simpl; [by left|].
  destruct (IH (oldest_step acc (k, e))) as [->|(k' & e' & -> & ?)].
  - unfold oldest_step. destruct acc as [[? ?]|]; simpl; [destruct (_ <? _); [|by left]|];
      right; exists k, e; split; try done; left.
  - right. exists k', e'. split; [done|by right].
Qed.

Lemma oldest_step_least (l : list (string * authAttemptEntry F)) acc k s :
  foldl oldest_step acc l = Some (k, s) ->
  (forall k0 s0, acc = Some (k0, s0) -> s <= s0) /\ Forall (fun kv => s <= lastSeen (snd kv)) l.
Proof.
  revert acc. induction l as [|[k1 e1] l IH]; intros acc; simpl.
  { intros ->. split; [intros k0 s0 E; injection E; lia | constructor]. }
  intros H. destruct (IH _ H) as [H1 H2]. unfold oldest_step in H1. simpl in H1.
  destruct acc as [[k0 s0]|].
  - destruct (Z.ltb_spec (lastSeen e1) s0); specialize (H1 _ _ eq_refl);
      (split; [intros ?? E; injection E; lia | constructor; [simpl; lia | done]]).
  - specialize (H1 _ _ eq_refl). split; [done | constructor; [simpl; lia | done]].
Qed.

Lemma oldest_step_None (l : list (string * authAttemptEntry F)) acc :
  foldl oldest_step acc l = None -> l = [] /\ acc = None.
Proof.
  revert acc. induction l as [|kv l IH]; intros acc; simpl; [done|].
  intros [_ H]%IH. unfold oldest_step in H. destruct acc as [[? ?]|]; [destruct (_ <? _)|]; done.
Qed.

(** What [evictOldestLocked] does to a non-empty table. *)
Lemma evictOldestLocked_spec t :
  entries t <> ∅ ->
  exists k e, entries t !! k = Some e /\
    entries (evictOldestLocked range t) = delete k (entries t) /\
    forall k' e', entries t !! k' = Some e' -> lastSeen e <= lastSeen e'.
Proof.
  intros Hne. unfold evictOldestLocked.
  pose proof (range_visits_all (entries t)) as Hp.
  destruct (foldl oldest_step None (range (entries t))) as [[k s]|] eqn:E.
  - destruct (oldest_step_spec (range (entries t)) None) as [E'|(k' & e & E' & Hin)];
      rewrite E in E'; [done|]. injection E' as -> ->.
    exists k', e. rewrite Hp, elem_of_map_to_list in Hin. split; [done|]. split; [done|].
    intros k1 e1 H1. apply oldest_step_least in E as [_ E].
    rewrite Forall_forall in E. apply (E (k1, e1)). by rewrite Hp, elem_of_map_to_list.
  - apply oldest_step_None in E as [E _]. rewrite E in Hp. symmetry in Hp.
    apply Permutation_nil_r, map_to_list_empty_iff in Hp. done.
Qed.

Lemma recordFailure_size t key now :
  Z.of_nat (size (entries t)) <= authAttemptMaxKeys ->
  Z.of_nat (size (entries (recordFailure range t key now))) <= authAttemptMaxKeys.
Proof.
  intros H. unfold recordFailure. destruct (entries t !! key) eqn:E; simpl.
  { by rewrite map_size_insert, E. }
  rewrite map_size_insert. destruct (Z.leb_spec authAttemptMaxKeys (Z.of_nat (size (entries t)))).
  - destruct (evictOldestLocked_spec t) as (k & e & Hk & -> & _).
    { intros He. rewrite He, map_size_empty in *. by vm_compute in H0. }
    rewrite lookup_delete_ne by congruence. rewrite E, map_size_delete, Hk. simpl. unfold authAttemptMaxKeys in *. lia.
  - rewrite E. simpl. lia.
Qed.

(** The table of throttled keys never holds more than
    [authAttemptMaxKeys] keys, whatever failures are recorded and in
    whatever order the map is ranged over. *)
Lemma throttle_bounded limit window (failures : list (string * Time)) :
  Z.of_nat (size (entries
    (foldl (fun t kn => recordFailure range t (fst kn) (snd kn))
       (newAuthAttemptThrottle limit window) failures))) <= authAttemptMaxKeys.
Proof.
  assert (Hgen : forall t, Z.of_nat (size (entries t)) <= authAttemptMaxKeys ->
    Z.of_nat (size (entries (foldl (fun t kn => recordFailure range t (fst kn) (snd kn))
       t failures))) <= authAttemptMaxKeys).
  { induction failures as [|kn l IH]; intros t H; simpl; [done|].
    by apply IH, recordFailure_size. }
  apply Hgen. by vm_compute.
Qed.

(** Recording a failure for a key drops at most one other key, and only
    from a full table, and then one that no key has been silent longer than. *)
Theorem throttle_evicts_oldest t key now k e :
  k <> key -> entries t !! k = Some e ->
  entries (recordFailure range t key now) !! k = Some e \/
  (entries (recordFailure range t key now) !! k = None /\ entries t !! key = None /\
   authAttemptMaxKeys <= Z.of_nat (size (entries t)) /\
   forall k' e', entries t !! k' = Some e' ->
     lastSeen e <= lastSeen e' /\
     (k' <> k -> k' <> key -> entries (recordFailure range t key now) !! k' = Some e')).
Proof.
  intros Hk He. unfold recordFailure. destruct (entries t !! key) as [e0|] eqn:E; simpl.
  { left. by rewrite lookup_insert_ne by done. }
  rewrite lookup_insert_ne by done.
  destruct (Z.leb_spec authAttemptMaxKeys (Z.of_nat (size (entries t)))); [|by left].
  destruct (evictOldestLocked_spec t) as (k1 & e1 & H1 & Hd & Hmin);
    [intros E0; by rewrite E0 in He|].
  rewrite Hd. destruct (decide (k1 = k)) as [->|Hne].
  - right. rewrite lookup_delete_eq. rewrite He in H1. injection H1 as ->.
    repeat split; try done; [by eapply Hmin|]. intros Hk1 Hk2.
    by rewrite lookup_insert_ne, lookup_delete_ne by done.
  - left. by rewrite lookup_delete_ne.
Qed.
End throttle_table.

Lemma throttle_bounded_witness :
  Z.of_nat (size (entries
    (foldl (fun t kn => recordFailure (FO := exact) map_to_list t (fst kn) (snd kn))
       (newAuthAttemptThrottle 5 second) [("10.0.0.1"%string, 0); ("10.0.0.2"%string, 1)])))
    <= authAttemptMaxKeys.
Proof. apply (throttle_bounded (FO := exact) map_to_list). reflexivity. Defined.

Lemma throttle_evicts_oldest_witness :
  let t := recordFailure (FO := exact) map_to_list (newAuthAttemptThrottle 5 second) "10.0.0.1" 0 in
  exists e, entries t !! "10.0.0.1"%string = Some e /\
  (entries (recordFailure (FO := exact) map_to_list t "10.0.0.2" 1) !! "10.0.0.1"%string = Some e \/
  (entries (recordFailure (FO := exact) map_to_list t "10.0.0.2" 1) !! "10.0.0.1"%string = None /\
   entries t !! "10.0.0.2"%string = None /\
   authAttemptMaxKeys <= Z.of_nat (size (entries t)) /\
   forall k' e', entries t !! k' = Some e' ->
     lastSeen e <= lastSeen e' /\
     (k' <> "10.0.0.1"%string -> k' <> "10.0.0.2"%string ->
      entries (recordFailure (FO := exact) map_to_list t "10.0.0.2" 1) !! k' = Some e'))).
Proof.
  intros t. eexists. split; [reflexivity|].
  apply (throttle_evicts_oldest (FO := exact) map_to_list); [reflexivity | discriminate | reflexivity].
Defined.

(** ** When a key is blocked, in exact arithmetic *)
Section throttle_blocks.
Local Existing Instance exact.
Local Open Scope Q_scope.
Context (range : gmap string (authAttemptEntry Q) -> list (string * authAttemptEntry Q)).
Implicit Types t : authAttemptThrottle Q.

(** [n] failures of one key at one instant. *)
Definition fail_n (n : nat) t key now : authAttemptThrottle Q :=
  Nat.iter n (fun t => recordFailure range t key now) t.

(** The bucket a key has after [n] failures at [now]. *)
Record failed_bucket (n : nat) limit window now (l : rateLimiter Q) : Prop := {
  fb_rate : rate l = inject_Z limit / Seconds window;
  fb_capacity : capacity l = inject_Z limit;
  fb_last : last_refill l = now;
  fb_tokens : tokens l == inject_Z (Z.max 0 (limit - Z.of_nat n));
}.

Lemma f_ltb_exact_Z q (z : Z) : q == inject_Z z -> f_ltb q (f_of_Z 1) = (z <? 1)%Z.
Proof.
  intros Hq. destruct (Z.ltb_spec z 1) as [H|H].
  - apply f_ltb_exact. rewrite Hq. change (f_of_Z 1) with (inject_Z 1). by rewrite <- Zlt_Qlt.
  - apply f_ltb_exact_false. rewrite Hq. change (f_of_Z 1) with (inject_Z 1).
    by rewrite <- Zle_Qle.
Qed.

Lemma failed_bucket_allow n limit window now l :
  failed_bucket n limit window now l ->
  failed_bucket (S n) limit window now (snd (limiter_allow l now)).
Proof.
  intros [Hr Hc Hl Ht]. unfold limiter_allow. rewrite Hl, Z.ltb_irrefl. rewrite (f_ltb_exact_Z _ _ Ht).
  destruct (Z.ltb_spec (Z.max 0 (limit - Z.of_nat n)) 1) as [H|H]; cbn [snd]; split; cbn [rate capacity last_refill tokens]; try done.
  - rewrite Ht. replace (Z.max 0 (limit - Z.of_nat (S n)))%Z
      with (Z.max 0 (limit - Z.of_nat n))%Z by lia. reflexivity.
  - change (f_sub (tokens l) (f_of_Z 1)) with (tokens l + - inject_Z 1). rewrite Ht.
    rewrite <- inject_Z_opp, <- inject_Z_plus.
    replace (Z.max 0 (limit - Z.of_nat (S n)))%Z
      with (Z.max 0 (limit - Z.of_nat n) + -1)%Z by lia. reflexivity.
Qed.

Lemma fail_n_bucket n t key now :
  entries t !! key = None -> (0 < limit t)%Z -> (0 < window t)%Z ->
  (authAttemptMaxKeys <=? Z.of_nat (size (entries t)))%Z = false ->
  limit (fail_n (S n) t key now) = limit t /\ window (fail_n (S n) t key now) = window t /\
  exists l, entries (fail_n (S n) t key now) !! key = Some (mkAuthAttemptEntry (Some l) now) /\
    failed_bucket (S n) (limit t) (window t) now l.
Proof.
  intros Hk Hl Hw Hs. induction n as [|n IH].
  - unfold fail_n. cbn [Nat.iter nat_rect]. unfold recordFailure. rewrite Hk, Hs.
    cbn [limit window entries]. split; [done|]. split; [done|]. rewrite lookup_insert_eq.
    unfold newAttemptLimiter.
    rewrite (proj2 (Z.leb_gt _ _) Hl), (proj2 (Z.leb_gt _ _) Hw). cbn [orb limiter].
    set (l0 := mkRateLimiter _ _ _ now).
    assert (H0 : failed_bucket 0 (limit t) (window t) now l0)
      by (split; try done; cbn [tokens l0]; replace (Z.max 0 (limit t - Z.of_nat 0)) with (limit t) by lia; reflexivity).
    apply failed_bucket_allow in H0. unfold allow. destruct (limiter_allow l0 now) as [b l1].
    exists l1. by split.
  - destruct IH as (E1 & E2 & l & El & Hb). apply failed_bucket_allow in Hb.
    change (fail_n (S (S n)) t key now) with (recordFailure range (fail_n (S n) t key now) key now).
    unfold recordFailure. rewrite El. cbn [limit window entries]. rewrite lookup_insert_eq.
    split; [done|]. split; [done|]. unfold allow. cbn [limiter].
    destruct (limiter_allow l now) as [b l1]. exists l1. by split.
Qed.

(** One attempt's share of the window refills one token. *)
Lemma share_refilled limit window d :
  (0 < window)%Z -> (window <= limit * d)%Z ->
  1 <= secs d * (inject_Z limit / secs window).
Proof.
  intros Hw H.
  assert (E : secs d * (inject_Z limit / secs window) == inject_Z (limit * d) / inject_Z window).
  { unfold secs. rewrite inject_Z_mult. field. split; [|discriminate].
    change 0 with (inject_Z 0). rewrite inject_Z_injective. lia. }
  rewrite E. apply Qle_shift_div_l; [change 0 with (inject_Z 0); by rewrite <- Zlt_Qlt|].
  rewrite Qmult_1_l. by rewrite <- Zle_Qle.
Qed.

(** A client is blocked exactly when it has used up its allowed
    failures: after [n] failed attempts in one instant its key is blocked
    if and only if [n] reaches the configured limit, and it is unblocked as
    soon as the window's share of one attempt has passed. *)
Lemma throttle_blocks_at_limit n t key now :
  entries t !! key = None -> (0 < limit t)%Z -> (0 < window t)%Z ->
  (authAttemptMaxKeys <=? Z.of_nat (size (entries t)))%Z = false ->
  blocked (Some (fail_n n t key now)) key now = (limit t <=? Z.of_nat n)%Z /\
  forall later, (now < later)%Z -> (later - now <= max_int64)%Z ->
    (window t <= limit t * (later - now))%Z ->
    blocked (Some (fail_n n t key now)) key later = false.
Proof.
  intros Hk Hl Hw Hs. unfold blocked. destruct n as [|n].
  { cbn [fail_n Nat.iter nat_rect]. unfold fail_n. simpl. rewrite Hk. split; [|done]. symmetry.
    apply Z.leb_gt. lia. }
  destruct (fail_n_bucket n t key now Hk Hl Hw Hs) as (_ & _ & l & -> & [Hr Hc Hlr Ht]).
  cbn [limiter]. unfold peek. split.
  - rewrite Hlr, Z.ltb_irrefl. rewrite (leb_not_ltb (ok := fun _ => True)) by done.
    rewrite negb_involutive, (f_ltb_exact_Z _ _ Ht).
    destruct (Z.ltb_spec (Z.max 0 (limit t - Z.of_nat (S n))) 1),
      (Z.leb_spec (limit t) (Z.of_nat (S n))); lia.
  - intros later H1 H2 H3. rewrite (leb_not_ltb (ok := fun _ => True)) by done.
    rewrite negb_involutive, Hlr, (proj2 (Z.ltb_lt _ _) H1), f_ltb_exact_false.
    change (f_of_Z 1) with 1. unfold refilled. cbv zeta.
    assert (Hc1 : 1 <= capacity l) by (rewrite Hc; change 1 with (inject_Z 1); rewrite <- Zle_Qle; lia).
    assert (Ht0 : 0 <= tokens l) by (rewrite Ht; change 0 with (inject_Z 0); rewrite <- Zle_Qle; lia).
    destruct (f_ltb (capacity l) _); [done|].
    change (1 <= tokens l + Seconds (time_Sub later (last_refill l)) * rate l).
    rewrite Hr, Hlr, !Seconds_exact.
    replace (time_Sub later now) with (later - now)%Z
      by (unfold time_Sub, min_int64, max_int64 in *; lia).
    assert (Hge : 1 <= secs (later - now) * (inject_Z (limit t) / secs (window t))).
    { by apply share_refilled. }
    lra.
Qed.
End throttle_blocks.

Lemma throttle_blocks_at_limit_witness :
  let t := newAuthAttemptThrottle (F := Q) 5 (60 * second) in
  blocked (FO := exact) (Some (fail_n map_to_list 5 t "ip" 0)) "ip" 0 = true /\
  forall later, 0 < later -> later - 0 <= max_int64 -> 60 * second <= 5 * (later - 0) ->
    blocked (FO := exact) (Some (fail_n map_to_list 5 t "ip" 0)) "ip" later = false.
Proof.
  intros t. apply (throttle_blocks_at_limit map_to_list 5 t "ip" 0); by vm_compute.
Defined.
