(* ===== verification/Metrics.v ===== *)
(** server/internal/metrics/metrics.go: samples in the Prometheus text format
    and the latency histogram both servers keep.

    [Observe] is a sequence of atomic additions, and requests observe
    concurrently: the additions of one observation are a program
    ([observe_adds]), several programs run as a step relation, and a reader is
    not atomic either.  [strconv.FormatFloat] and the conversion of a float to
    an integer are fields of [FloatText]. *)
From S2P Require Import Prelude GoStrings RateLimit.
From Stdlib Require Import ZArith Lia List String Ascii Bool Permutation QArith.
From Corelib Require Import SpecFloat.
From stdpp Require Import base list strings relations.

Open Scope Z_scope.

Class FloatText (F : Type) : Type := {
  FormatFloat : F -> string;   (* strconv.FormatFloat(v, 'f', -1, 64) *)
  f_trunc : F -> Z;            (* int64(v), uint64(v): truncation *)
}.

(** * Samples *)
Definition newline : string := String (chr 10) "".
Definition writeSample (name help metricType : string) (value : Z) : list string :=
  [Sprintf "# HELP %s %s" [name; help] +:+ newline;
   Sprintf "# TYPE %s %s" [name; metricType] +:+ newline;
   Sprintf "%s %d" [name; Itoa value] +:+ newline].
Definition WriteGauge (name help : string) (value : Z) : list string := writeSample name help "gauge" value.
Definition WriteCounter (name help : string) (value : Z) : list string := writeSample name help "counter" value.

(** What the runtime reports: [fds] is [None] where /proc/self/fd cannot be
    listed. *)
Record runtimeStats := mkRuntimeStats {
  NumGoroutine : Z; HeapAlloc : Z; HeapSys : Z; proc_self_fd : option (list string);
}.
Definition openFileDescriptorCount (rt : runtimeStats) : option Z :=
  (fun entries => Z.of_nat (length entries)) <$> proc_self_fd rt.
Definition WriteRuntimeStats (prefix : string) (rt : runtimeStats) : list string :=
  WriteGauge (prefix +:+ "_goroutines") "Current number of goroutines." (NumGoroutine rt) ++
  WriteGauge (prefix +:+ "_heap_alloc_bytes") "Bytes of allocated, reachable heap objects." (HeapAlloc rt) ++
  WriteGauge (prefix +:+ "_heap_sys_bytes") "Bytes of heap memory obtained from the OS." (HeapSys rt) ++
  match openFileDescriptorCount rt with
  | Some fds => WriteGauge (prefix +:+ "_open_fds") "Current number of open file descriptors." fds
  | None => []
  end.

Record DBStats := mkDBStats { OpenConnections : Z; InUse : Z; Idle : Z; WaitCount : Z }.
Definition WriteDBPoolStats (prefix : string) (stats : DBStats) : list string :=
  WriteGauge (prefix +:+ "_db_open_connections") "Current number of established database connections."
    (OpenConnections stats) ++
  WriteGauge (prefix +:+ "_db_in_use_connections") "Current number of database connections in use." (InUse stats) ++
  WriteGauge (prefix +:+ "_db_idle_connections") "Current number of idle database connections." (Idle stats) ++
  WriteCounter (prefix +:+ "_db_wait_count_total")
    "Total database connections waited for because the pool was at its limit." (WaitCount stats).

(** * The histogram *)
Definition uint64 (z : Z) : Z := z mod 2 ^ 64.

Section histogram.
Context {F : Type} {FO : FloatOps F}.

Record Histogram := mkHistogram {
  bounds : list F;
  buckets : list Z;
  h_count : Z;
  sumNanos : Z;
}.

Definition NewHistogram (bounds : list F) : Histogram :=
  mkHistogram bounds (replicate (length bounds) 0) 0 0.

(** One atomic addition. *)
Inductive increment : Type :=
| BucketAdd (i : nat)
| CountAdd
| SumAdd (n : Z).

Definition apply_increment (h : Histogram) (a : increment) : Histogram :=
  match a with
  | BucketAdd i => mkHistogram (bounds h) (alter (fun n => uint64 (n + 1)) i (buckets h)) (h_count h) (sumNanos h)
  | CountAdd => mkHistogram (bounds h) (buckets h) (uint64 (h_count h + 1)) (sumNanos h)
  | SumAdd n => mkHistogram (bounds h) (buckets h) (h_count h) (uint64 (sumNanos h + n))
  end.

(** The loop over the bounds, from index [i]. *)
Fixpoint bucket_adds (seconds : F) (i : nat) (bs : list F) : list increment :=
  match bs with
  | [] => []
  | bound :: bs =>
      (if f_leb seconds bound then [BucketAdd i] else []) ++ bucket_adds seconds (S i) bs
  end.

Definition observe_adds (bs : list F) (d : Duration) : list increment :=
  bucket_adds (Seconds d) 0 bs ++ [CountAdd] ++ (if 0 <? d then [SumAdd d] else []).

Definition Observe (h : Histogram) (d : Duration) : Histogram :=
  foldl apply_increment h (observe_adds (bounds h) d).

Context {FT : FloatText F}.

Definition bucket_line (name : string) (bound : F) (n : Z) : string :=
  name +:+ "_bucket{le=" +:+ Quote (FormatFloat bound) +:+ "} " +:+ Itoa n +:+ newline.

(** [WriteTo]: the values are loaded one after another, [loads] first, then
    the count and the sum. *)
Definition write_histogram (name help : string) (bs : list F) (loads : list Z) (count sum : Z) : list string :=
  [Sprintf "# HELP %s %s" [name; help] +:+ newline;
   Sprintf "# TYPE %s histogram" [name] +:+ newline] ++
  zip_with (bucket_line name) bs loads ++
  [name +:+ "_bucket{le=" +:+ Quote "+Inf" +:+ "} " +:+ Itoa count +:+ newline;
   Sprintf "%s_sum %s" [name; FormatFloat (f_div (f_of_Z sum) (f_of_Z second))] +:+ newline;
   Sprintf "%s_count %d" [name; Itoa count] +:+ newline].
Definition WriteTo (h : Histogram) (name help : string) : list string :=
  write_histogram name help (bounds h) (buckets h) (h_count h) (sumNanos h).
End histogram.
Arguments Histogram F : clear implicits.

(** [DefaultLatencyBuckets], in thousandths of a second. *)
Definition DefaultLatencyBuckets {F} {FO : FloatOps F} : list F :=
  (fun ms => f_div (f_of_Z ms) (f_of_Z 1000)) <$>
    [5; 10; 25; 50; 100; 250; 500; 1000; 2500; 5000; 10000; 30000].

(** * Concurrent observers *)
Section observers.
Context {F : Type}.

(** Each observer still has a list of additions to make; a step is the first
    one of any of them. *)
Inductive observe_step : Histogram F * list (list increment) -> Histogram F * list (list increment) -> Prop :=
| do_add h pre a rest post :
    observe_step (h, pre ++ (a :: rest) :: post) (apply_increment h a, pre ++ rest :: post).

(** A state in which nothing is left to add. *)
Definition idle (progs : list (list increment)) : Prop := Forall (fun p => p = []) progs.
End observers.

(** * Properties *)
Lemma join_cons {A} (x : list A) xs : mjoin (x :: xs) = x ++ mjoin xs.
Proof. done. Qed.

Section increments.
Context {F : Type}.
Implicit Types h : Histogram F.

Lemma apply_comm h a b :
  apply_increment (apply_increment h a) b = apply_increment (apply_increment h b) a.
Proof.
  destruct a as [i| |n], b as [j| |m]; try done; unfold apply_increment; cbn.
  - f_equal. destruct (decide (i = j)) as [->|]; [done|]. by apply list_alter_alter_ne.
  - f_equal. unfold uint64. rewrite !Zplus_mod_idemp_l. f_equal. lia.
Qed.

Lemma fold_perm l l' h : l ≡ₚ l' -> foldl apply_increment h l = foldl apply_increment h l'.
Proof.
  intros HP. revert h. induction HP; intros h0; cbn; [done|done| |congruence].
  f_equal. apply apply_comm.
Qed.

(** What the histogram will be when every observer is done. *)
Definition flushed (st : Histogram F * list (list increment)) : Histogram F :=
  foldl apply_increment st.1 (mjoin st.2).

Lemma observe_step_flushed st st' : observe_step st st' -> flushed st = flushed st'.
Proof.
  intros [h pre a rest post]. unfold flushed. cbn [fst snd].
  change (apply_increment h a) with (foldl apply_increment h [a]).
  rewrite <- foldl_app. apply fold_perm.
  rewrite !join_app. cbn. solve_Permutation.
Qed.

Lemma observe_steps_flushed st st' : rtc observe_step st st' -> flushed st = flushed st'.
Proof. induction 1 as [|a b c Hs _ IH]; [done|]. by rewrite (observe_step_flushed a b Hs). Qed.

Lemma bounds_apply h l : bounds (foldl apply_increment h l) = bounds h.
Proof. revert h. induction l as [|[] l IH]; intros h; cbn; by rewrite ?IH. Qed.
End increments.

(** ** What the values mean *)
Section meaning.
Context {F : Type} {FO : FloatOps F}.
Implicit Types h : Histogram F.

Definition within (bound : F) (d : Duration) : bool := f_leb (Seconds d) bound.
Definition observed_within (bound : F) (ds : list Duration) : Z :=
  Z.of_nat (length (List.filter (within bound) ds)).
Definition total_nanos (ds : list Duration) : Z := foldr (fun d n => Z.max 0 d + n) 0 ds.

(** How often a program adds to bucket [i]. *)
Definition hits (i : nat) (l : list increment) : Z :=
  Z.of_nat (length (List.filter (fun a => match a with BucketAdd j => Nat.eqb i j | _ => false end) l)).
Definition counts (l : list increment) : Z :=
  Z.of_nat (length (List.filter (fun a => match a with CountAdd => true | _ => false end) l)).
Definition nanos (l : list increment) : Z :=
  foldr (fun a n => match a with SumAdd m => m + n | _ => n end) 0 l.

Lemma uint64_add a b : uint64 (uint64 a + b) = uint64 (a + b).
Proof. apply Zplus_mod_idemp_l. Qed.

Lemma fold_buckets h l i n :
  buckets h !! i = Some (uint64 n) ->
  buckets (foldl apply_increment h l) !! i = Some (uint64 (n + hits i l)).
Proof.
  revert h n. induction l as [|a l IH]; intros h n Hi; cbn [foldl].
  { by rewrite Hi, Z.add_0_r. }
  destruct a as [j| |m]; [|by apply IH..].
  unfold hits. cbn [List.filter]. destruct (Nat.eqb_spec i j) as [->|Hne].
  - rewrite (IH _ (n + 1)).
    + f_equal. f_equal. unfold hits. cbn [length]. lia.
    + cbn. rewrite list_lookup_alter_eq, Hi. cbn. by rewrite uint64_add.
  - apply IH. cbn. by rewrite list_lookup_alter_ne by done.
Qed.

Lemma fold_count h l n :
  h_count h = uint64 n -> h_count (foldl apply_increment h l) = uint64 (n + counts l).
Proof.
  revert h n. induction l as [|a l IH]; intros h n Hc; cbn [foldl].
  { by rewrite Hc, Z.add_0_r. }
  destruct a as [j| |m]; [by apply IH| |by apply IH].
  rewrite (IH _ (n + 1)); [|cbn; by rewrite Hc, uint64_add].
  f_equal. unfold counts. cbn. lia.
Qed.

Lemma fold_sum h l n :
  sumNanos h = uint64 n -> sumNanos (foldl apply_increment h l) = uint64 (n + nanos l).
Proof.
  revert h n. induction l as [|a l IH]; intros h n Hc; cbn [foldl].
  { by rewrite Hc, Z.add_0_r. }
  destruct a as [j| |m]; [by apply IH..|].
  rewrite (IH _ (n + m)); [|cbn; by rewrite Hc, uint64_add].
  f_equal. unfold nanos. cbn. lia.
Qed.

Lemma hits_app i l l' : hits i (l ++ l') = hits i l + hits i l'.
Proof. unfold hits. rewrite List.filter_app, length_app. lia. Qed.
Lemma counts_app l l' : counts (l ++ l') = counts l + counts l'.
Proof. unfold counts. rewrite List.filter_app, length_app. lia. Qed.
Lemma nanos_app l l' : nanos (l ++ l') = nanos l + nanos l'.
Proof. unfold nanos. induction l as [|[] l IH]; cbn in *; lia. Qed.

Lemma bucket_adds_hits i seconds k bs bound :
  bs !! i = Some bound ->
  hits (k + i) (bucket_adds seconds k bs) = if f_leb seconds bound then 1 else 0.
Proof.
  revert i k. induction bs as [|b bs IH]; intros i k Hi; [done|]. cbn [bucket_adds]. rewrite hits_app.
  destruct i as [|i]; cbn in Hi.
  - injection Hi as ->. rewrite Nat.add_0_r.
    assert (Hlater : forall k' bs', (k < k')%nat -> hits k (bucket_adds seconds k' bs') = 0).
    { intros k' bs'. revert k'. induction bs' as [|b' bs' IH']; intros k' Hk; [done|].
      cbn [bucket_adds]. rewrite hits_app, IH' by lia. destruct (f_leb seconds b'); [|done].
      unfold hits. cbn. destruct (Nat.eqb_spec k k'); [lia|done]. }
    rewrite Hlater by lia. destruct (f_leb seconds bound); [|done].
    unfold hits. cbn. by rewrite Nat.eqb_refl.
  - replace (k + S i)%nat with (S k + i)%nat by lia. rewrite (IH i (S k) Hi).
    destruct (f_leb seconds b); [|done].
    unfold hits. cbn [List.filter]. destruct (Nat.eqb_spec (S k + i) k); [lia|done].
Qed.

Lemma bucket_adds_only seconds k bs : counts (bucket_adds seconds k bs) = 0 /\ nanos (bucket_adds seconds k bs) = 0.
Proof.
  revert k. induction bs as [|b bs IH]; intros k; [done|]. cbn [bucket_adds].
  rewrite counts_app, nanos_app. destruct (IH (S k)) as [-> ->]. by destruct (f_leb seconds b).
Qed.

Lemma observe_adds_values i bs bound d :
  bs !! i = Some bound ->
  hits i (observe_adds bs d) = if within bound d then 1 else 0.
Proof.
  intros Hi. unfold observe_adds. rewrite !hits_app.
  rewrite (bucket_adds_hits i (Seconds d) 0 bs bound Hi : hits i _ = _).
  unfold within. by destruct (f_leb _ _), (0 <? d).
Qed.
Lemma observe_adds_count bs d : counts (observe_adds bs d) = 1 /\ nanos (observe_adds bs d) = Z.max 0 d.
Proof.
  unfold observe_adds. rewrite !counts_app, !nanos_app.
  destruct (bucket_adds_only (Seconds d) 0 bs) as [-> ->].
  destruct (Z.ltb_spec 0 d); unfold counts, nanos; cbn; lia.
Qed.

Lemma programs_values i bs bound ds :
  bs !! i = Some bound ->
  hits i (mjoin (observe_adds bs <$> ds)) = observed_within bound ds.
Proof.
  intros Hi. induction ds as [|d ds IH]; [done|]. rewrite fmap_cons, join_cons.
  rewrite hits_app, IH, (observe_adds_values i bs bound d Hi). unfold observed_within. cbn [List.filter].
  destruct (within bound d); cbn [length]; lia.
Qed.
Lemma programs_count bs ds :
  counts (mjoin (observe_adds bs <$> ds)) = Z.of_nat (length ds) /\
  nanos (mjoin (observe_adds bs <$> ds)) = total_nanos ds.
Proof.
  induction ds as [|d ds [IH1 IH2]]; [done|]. rewrite fmap_cons, join_cons.
  rewrite counts_app, nanos_app, IH1, IH2. destruct (observe_adds_count bs d) as [-> ->].
  cbn [length total_nanos foldr]. fold (total_nanos ds). lia.
Qed.
End meaning.

(** An arithmetic whose [<=] is transitive, so that ascending bounds mean what
    they say.  Both instances satisfy it. *)
Class LebTrans (F : Type) {FO : FloatOps F} : Prop :=
  leb_trans : forall a b c : F, f_leb a b = true -> f_leb b c = true -> f_leb a c = true.

#[export] Instance exact_leb_trans : @LebTrans Q exact.
Proof.
  intros a b c. cbn. rewrite !Qle_bool_iff. apply Qle_trans.
Qed.

Lemma SFleb_trans a b c : SFleb a b = true -> SFleb b c = true -> SFleb a c = true.
Proof.
  unfold SFleb. destruct a as [sa|sa| |sa ma ea], b as [sb|sb| |sb mb eb], c as [sc|sc| |sc mc ec];
    try destruct sa; try destruct sb; try destruct sc; cbn; try done;
    change (Pos.compare_cont Eq) with Pos.compare;
    repeat (match goal with |- context [?x ?= ?y] => destruct (Z.compare_spec x y) end; subst; cbn; try done; try lia);
    repeat (match goal with |- context [(?x ?= ?y)%positive] => destruct (Pos.compare_spec x y) end; subst; cbn; try done; try lia).
Qed.
#[export] Instance binary64_leb_trans : @LebTrans spec_float binary64.
Proof. exact SFleb_trans. Qed.

Section theorems.
Context {F : Type} {FO : FloatOps F} {LT : LebTrans F}.

Lemma filter_mono {A} (p q : A -> bool) l :
  (forall x, p x = true -> q x = true) -> (length (List.filter p l) <= length (List.filter q l))%nat.
Proof.
  intros Hpq. induction l as [|x l IH]; [done|]. cbn.
  destruct (p x) eqn:Hp; [rewrite (Hpq x Hp); cbn; lia|]. destruct (q x); cbn; lia.
Qed.

Lemma observed_mono a b ds : f_leb a b = true -> observed_within a ds <= observed_within b ds.
Proof.
  intros Hab. unfold observed_within. apply inj_le, filter_mono.
  intros d Hd. exact (leb_trans _ _ _ Hd Hab).
Qed.
Lemma observed_le b ds : observed_within b ds <= Z.of_nat (length ds).
Proof. unfold observed_within. pose proof (List.filter_length_le (within b) ds). lia. Qed.

Lemma run_Observe bs h ds :
  bounds h = bs -> foldl Observe h ds = foldl apply_increment h (mjoin (observe_adds bs <$> ds)).
Proof.
  revert h. induction ds as [|d ds IH]; intros h Hb; [done|].
  rewrite fmap_cons, join_cons, foldl_app. cbn [foldl]. unfold Observe at 2. rewrite Hb.
  apply IH. by rewrite bounds_apply.
Qed.

(** When any number of requests have observed their durations, however
    their atomic additions were interleaved, the histogram is the one the same
    observations leave one after another: bucket [i] counts the observations
    within bound [i], the count all of them and the sum their positive
    durations, all modulo 2^64; and while fewer than 2^64 were made, a bucket
    with a larger bound counts at least as much and none exceeds the count. *)
Lemma histogram_concurrent bs ds h progs :
  rtc observe_step (NewHistogram bs, observe_adds bs <$> ds) (h, progs) -> idle progs ->
  h = foldl Observe (NewHistogram bs) ds /\
  h_count h = uint64 (Z.of_nat (length ds)) /\
  sumNanos h = uint64 (total_nanos ds) /\
  (forall i a, bs !! i = Some a -> buckets h !! i = Some (uint64 (observed_within a ds))) /\
  (Z.of_nat (length ds) < 2 ^ 64 -> forall i j a b,
     bs !! i = Some a -> bs !! j = Some b -> f_leb a b = true ->
     exists n m, buckets h !! i = Some n /\ buckets h !! j = Some m /\ n <= m <= h_count h).
Proof.
  intros Hrun Hidle.
  assert (Hh : h = foldl apply_increment (NewHistogram bs) (mjoin (observe_adds bs <$> ds))).
  { pose proof (observe_steps_flushed _ _ Hrun) as Hf. unfold flushed in Hf. cbn [fst snd] in Hf.
    by rewrite Hf, (join_nil_2 progs Hidle). }
  destruct (programs_count bs ds) as [Hc Hn].
  assert (Hcount : h_count h = uint64 (Z.of_nat (length ds))).
  { rewrite Hh, (fold_count (NewHistogram bs) _ 0) by done. by rewrite Hc. }
  assert (Hb : forall i a, bs !! i = Some a -> buckets h !! i = Some (uint64 (observed_within a ds))).
  { intros i a Hi. rewrite Hh, (fold_buckets _ _ i 0); [by rewrite (programs_values i bs a ds Hi)|].
    cbn [NewHistogram buckets]. by apply lookup_replicate_2, (lookup_lt_Some bs i a). }
  split; [by rewrite (run_Observe bs)|]. split; [done|]. split.
  { rewrite Hh, (fold_sum (NewHistogram bs) _ 0) by done. by rewrite Hn. }
  split; [done|]. intros Hlt i j a b Hi Hj Hab.
  exists (uint64 (observed_within a ds)), (uint64 (observed_within b ds)).
  split; [by apply Hb|]. split; [by apply Hb|]. rewrite Hcount.
  pose proof (observed_mono a b ds Hab). pose proof (observed_le b ds).
  assert (0 <= observed_within a ds) by (unfold observed_within; lia).
  unfold uint64. rewrite !Z.mod_small by lia. lia.
Qed.
End theorems.

(** The observers of the test of the package: 50ms, 300ms and 2s against the
    bounds 0.1s, 0.5s and 1s, the second one running first. *)
Definition sample_bounds : list Q := [(1 # 10)%Q; (1 # 2)%Q; 1%Q].
Definition sample_durations : list Duration := [50000000; 300000000; 2000000000].
#[local] Existing Instance exact.

Lemma histogram_concurrent_witness :
  buckets (foldl Observe (NewHistogram sample_bounds) sample_durations) = [1; 2; 2] /\
  (exists n m, buckets (foldl Observe (NewHistogram sample_bounds) sample_durations) !! 0%nat = Some n /\
     buckets (foldl Observe (NewHistogram sample_bounds) sample_durations) !! 1%nat = Some m /\
     n <= m <= h_count (foldl Observe (NewHistogram sample_bounds) sample_durations)).
Proof.
  split; [by vm_compute|].
  assert (Hrun : rtc observe_step (NewHistogram sample_bounds, observe_adds sample_bounds <$> sample_durations)
            (foldl Observe (NewHistogram sample_bounds) sample_durations, [[]; []; []])).
  { eapply rtc_l; [apply (do_add _ [[BucketAdd 0; BucketAdd 1; BucketAdd 2; CountAdd; SumAdd 50000000]]
      (BucketAdd 1) [BucketAdd 2; CountAdd; SumAdd 300000000] [[CountAdd; SumAdd 2000000000]])|].
    do 5 (eapply rtc_l; [apply (do_add _ [])|cbn [app]]).
    do 3 (eapply rtc_l; [apply (do_add _ [[]])|cbn [app]]).
    do 2 (eapply rtc_l; [apply (do_add _ [[]; []])|cbn [app]]).
    vm_compute. apply rtc_refl. }
  destruct (histogram_concurrent _ _ _ _ Hrun ltac:(repeat constructor)) as (_ & _ & _ & _ & Hmono).
  apply (Hmono ltac:(done) 0%nat 1%nat (1 # 10)%Q (1 # 2)%Q); by vm_compute.
Defined.

(** A reader is not atomic: between the additions of one observation a bucket
    is ahead of the count, which [WriteTo] also prints as the +Inf bucket. *)
Lemma bucket_ahead_of_count :
  exists h progs, rtc observe_step (NewHistogram sample_bounds, [observe_adds sample_bounds 50000000]) (h, progs) /\
    buckets h !! 0%nat = Some 1 /\ h_count h = 0.
Proof.
  eexists _, _. split; [eapply rtc_l; [apply (do_add _ [] (BucketAdd 0))|apply rtc_refl]|]. by vm_compute.
Qed.
