(* ===== verification/ServeMux.v ===== *)
(** net/http's [ServeMux] as both servers use it, and [url.PathUnescape]:
    patterns are paths, one that ends in a slash names a subtree, the most
    specific pattern wins, and a path that is not clean is redirected.

    Matching is on the decoded path; a request whose escaped path hides a
    slash or a dot behind a percent sign is matched segment by segment by
    net/http and is not covered. *)
From S2P Require Import Prelude GoStrings.
From Stdlib Require Import ZArith Lia List String Ascii Bool.
From stdpp Require Import base list strings.

Open Scope Z_scope.

(** * [url.PathUnescape] *)
Definition unhex (c : ascii) : option Z :=
  let b := byte c in
  if in_range 48 57 b then Some (b - 48)
  else if in_range 97 102 b then Some (b - 87)
  else if in_range 65 70 b then Some (b - 55)
  else None.

Fixpoint unescape_bytes (l : bytes) : option bytes :=
  match l with
  | [] => Some []
  | "%"%char :: l =>
      match l with
      | a :: b :: rest =>
          x ← unhex a; y ← unhex b; out ← unescape_bytes rest; Some (chr (16 * x + y) :: out)
      | _ => None
      end
  | c :: rest => out ← unescape_bytes rest; Some (c :: out)
  end.
Definition PathUnescape (s : string) : option string := of_bytes <$> unescape_bytes (to_bytes s).

(** [url.PathEscape]: what is not a letter, digit or one of [-_.~$&+=:@] is
    written as a percent sign and two upper-case digits. *)
Definition upper_hex (z : Z) : ascii := if z <? 10 then chr (48 + z) else chr (55 + z).
Definition path_safe (c : ascii) : bool :=
  is_upper_ascii c || is_lower_ascii c || is_digit c || bytes_mem c (to_bytes "-_.~$&+=:@").
Definition escape_byte (c : ascii) : bytes :=
  if path_safe c then [c] else ["%"%char; upper_hex (byte c / 16); upper_hex (byte c mod 16)].
Definition PathEscape (s : string) : string := of_bytes (to_bytes s ≫= escape_byte).

(** * Clean paths *)
(** The segments of [path.Clean] on a rooted path, the last one first. *)
Definition clean_segment (stack : list string) (seg : string) : list string :=
  if String.eqb seg "" || String.eqb seg "." then stack
  else if String.eqb seg ".." then tail stack
  else seg :: stack.
Definition path_Clean (p : string) : string :=
  "/" +:+ GoStrings.Join (rev (foldl clean_segment [] (Split p "/"%char))) "/".

Definition cleanPath (p : string) : string :=
  if String.eqb p "" then "/" else
  let p := if HasPrefix p "/" then p else "/" +:+ p in
  let np := path_Clean p in
  if HasSuffix p "/" && negb (String.eqb np "/") then np +:+ "/" else np.

(** * Patterns *)
Section mux.
Context {H : Type}.
Implicit Types routes : list (string * H).

Definition exact_match routes (path : string) : option H :=
  snd <$> List.find (fun r => String.eqb (fst r) path) routes.

(** The longest pattern ending in a slash that is a prefix of the path. *)
Definition longer (best : option (string * H)) (r : string * H) : option (string * H) :=
  match best with
  | Some b => if len (fst b) <? len (fst r) then Some r else best
  | None => Some r
  end.
Definition subtree_match routes (path : string) : option H :=
  snd <$> foldl (fun best r => if HasSuffix (fst r) "/" && HasPrefix path (fst r) then longer best r else best)
            None routes.

Inductive mux_answer : Type :=
| Serve (h : H)
| RedirectTo (path : string)
| NotFoundPage.

Definition mux_lookup routes (path : string) : mux_answer :=
  let clean := cleanPath path in
  match exact_match routes clean with
  | Some h => if String.eqb clean path then Serve h else RedirectTo clean
  | None =>
      if negb (HasSuffix clean "/") && bool_decide (is_Some (exact_match routes (clean +:+ "/")))
      then RedirectTo (clean +:+ "/")
      else match subtree_match routes clean with
           | Some h => if String.eqb clean path then Serve h else RedirectTo clean
           | None => if String.eqb clean path then NotFoundPage else RedirectTo clean
           end
  end.
End mux.
Arguments mux_answer H : clear implicits.

(** * Properties *)
Lemma unhex_upper z : 0 <= z < 16 -> unhex (upper_hex z) = Some z.
Proof.
  intros Hz.
  assert (Hall : forallb (fun n => bool_decide (unhex (upper_hex (Z.of_nat n)) = Some (Z.of_nat n))) (seq 0 16) = true)
    by by vm_compute.
  rewrite forallb_forall in Hall. specialize (Hall (Z.to_nat z)).
  rewrite in_seq, Z2Nat.id in Hall by lia. apply bool_decide_eq_true in Hall; [done|lia].
Qed.

Lemma unescape_escape_byte c l :
  unescape_bytes (escape_byte c ++ l) = (c ::.) <$> unescape_bytes l.
Proof.
  unfold escape_byte. destruct (path_safe c) eqn:Hs.
  - cbn [app unescape_bytes]. destruct (ascii_dec c "%"%char) as [->|Hne]; [by vm_compute in Hs|].
    destruct (unescape_bytes l); by destruct c as [[] [] [] [] [] [] [] []].
  - pose proof (byte_range c) as Hb. cbn [app unescape_bytes].
    rewrite !unhex_upper by (try apply Z.mod_pos_bound; try split; try apply Z.div_pos; try apply Z.div_lt_upper_bound; lia).
    cbn [mbind option_bind]. rewrite <- Z.div_mod by lia. rewrite chr_byte.
    by destruct (unescape_bytes l).
Qed.

(** A path segment survives being escaped and read back. *)
Lemma PathUnescape_PathEscape s : PathUnescape (PathEscape s) = Some s.
Proof.
  unfold PathUnescape, PathEscape. rewrite to_of_bytes.
  assert (Hl : forall l, unescape_bytes (l ≫= escape_byte) = Some l).
  { induction l as [|c l IH]; [done|]. cbn. by rewrite unescape_escape_byte, IH. }
  rewrite Hl. cbn. by rewrite of_to_bytes.
Qed.

Lemma last_slash p s : s <> ""%string -> HasSuffix (p +:+ s) "/" = true -> In "/"%char (to_bytes s).
Proof.
  unfold HasSuffix, bytes_HasSuffix. rewrite andb_true_iff, bool_decide_eq_true, to_bytes_app, length_app.
  intros Hne [_ E]. assert (0 < length (to_bytes s))%nat by (destruct s; [done|cbn; lia]).
  cbn [list_ascii_of_string length] in E. rewrite drop_app_ge in E by lia.
  rewrite <- (take_drop (length (to_bytes p) + length (to_bytes s) - 1 - length (to_bytes p)) (to_bytes s)), E.
  apply in_or_app. right. by left.
Qed.

(** A fixed path that ends in a slash, with a segment [id] after it that is
    neither empty nor dots, is clean. *)
Ltac segment_clean :=
  lazymatch goal with
  | |- ?id <> ""%string -> ~ In _ _ -> _ -> _ -> cleanPath (?p +:+ ?id) = _ =>
      intros Hne Hs H1 H2; unfold cleanPath;
      change ((p +:+ id =? "")%string) with false; cbv iota zeta;
      change (HasPrefix (p +:+ id) "/") with true; cbv iota zeta;
      let Hc := fresh "Hc" in
      assert (Hc : path_Clean (p +:+ id) = p +:+ id);
      [unfold path_Clean, Split; rewrite to_bytes_app; cbn [list_ascii_of_string app split_bytes Ascii.eqb Bool.eqb];
       rewrite (split_bytes_none _ (to_bytes id) Hs); cbn [map]; rewrite of_to_bytes; cbn [string_of_list_ascii foldl];
       unfold clean_segment at 1;
       destruct (String.eqb_spec id ""), (String.eqb_spec id "."), (String.eqb_spec id ".."); try done
      |rewrite Hc; destruct (HasSuffix (p +:+ id) "/") eqn:?E; [|done];
       by destruct (Hs (last_slash _ _ Hne E))]
  end.
