(* ===== verification/StreamDeadline.v ===== *)
(** server/gateway/internal/gateway/streamdeadline.go: the request, idle and
    lifetime timers of one public stream.

    A [time.AfterFunc] timer is armed for an instant; when it expires its
    callback starts in a goroutine of its own and runs some time later, so a
    callback that has started may still run after [Stop].  The state keeps
    the callbacks in flight; [event] lists everything that can happen to a
    deadline, method calls and the runtime's own steps alike. *)
From S2P Require Import Prelude.
From Stdlib Require Import ZArith Lia List String Bool.
From stdpp Require Import base list strings.

Open Scope Z_scope.

Definition ErrStreamRequestTimeout : error :=
  Sentinel "ErrStreamRequestTimeout" "gateway timed out waiting for the first response byte".
Definition ErrStreamIdleTimeout : error :=
  Sentinel "ErrStreamIdleTimeout" "gateway stream idle timeout exceeded".
Definition ErrStreamMaxLifetimeExceeded : error :=
  Sentinel "ErrStreamMaxLifetimeExceeded" "gateway stream exceeded its maximum lifetime".
Definition Canceled : error := Sentinel "context.Canceled" "context canceled".
Definition DeadlineExceeded : error :=
  Sentinel "context.DeadlineExceeded" "context deadline exceeded".

Record streamDeadlinePolicy := mkPolicy {
  RequestTimeout : Duration;
  IdleTimeout : Duration;
  MaxLifetime : Duration;
}.

(** A timer made by [AfterFunc]: when it expires, if it is armed, and the
    cause its callback cancels with. *)
Record timer := mkTimer { armed : option Time; fires_with : error }.

Record streamDeadline := mkDeadline {
  policy : streamDeadlinePolicy;
  phase : option timer;
  max : option timer;
  stopped : bool;
  cause : option error;      (* the cause of the cancelled context *)
  in_flight : list error;    (* callbacks that have started and not run yet *)
}.

Definition AfterFunc (now : Time) (d : Duration) (e : error) : timer := mkTimer (Some (now + d)) e.
Definition timer_Stop (t : timer) : timer := mkTimer None (fires_with t).
Definition timer_Reset (t : timer) (now : Time) (d : Duration) : timer :=
  mkTimer (Some (now + d)) (fires_with t).

(** [CancelCauseFunc]: only the first call sets the cause; [None] is nil, for
    which the cause is [Canceled]. *)
Definition cancel (d : streamDeadline) (e : option error) : streamDeadline :=
  match cause d with
  | Some _ => d
  | None => mkDeadline (policy d) (phase d) (max d) (stopped d)
              (Some (default Canceled e)) (in_flight d)
  end.

Definition set_phase (d : streamDeadline) (t : option timer) : streamDeadline :=
  mkDeadline (policy d) t (max d) (stopped d) (cause d) (in_flight d).

Definition newStreamDeadline (now : Time) (parent : option error) (p : streamDeadlinePolicy)
    : streamDeadline :=
  mkDeadline p
    (if 0 <? RequestTimeout p
     then Some (AfterFunc now (RequestTimeout p) ErrStreamRequestTimeout) else None)
    (if 0 <? MaxLifetime p
     then Some (AfterFunc now (MaxLifetime p) ErrStreamMaxLifetimeExceeded) else None)
    false parent [].

Definition MarkResponseStarted (now : Time) (d : streamDeadline) : streamDeadline :=
  if stopped d then d else
  let d := match phase d with Some _ => set_phase d None | None => d end in
  if 0 <? IdleTimeout (policy d)
  then set_phase d (Some (AfterFunc now (IdleTimeout (policy d)) ErrStreamIdleTimeout))
  else d.

Definition Touch (now : Time) (d : streamDeadline) : streamDeadline :=
  if stopped d then d else
  match phase d with
  | None => d
  | Some t => set_phase d (Some (timer_Reset t now (IdleTimeout (policy d))))
  end.

Definition Stop (d : streamDeadline) : streamDeadline :=
  if stopped d then d else
  cancel (mkDeadline (policy d) (timer_Stop <$> phase d) (timer_Stop <$> max d) true
            (cause d) (in_flight d)) None.

(** ** What can happen *)
Inductive event : Type :=
| EMark
| ETouch
| EStop
| EExpirePhase                    (* the runtime starts the callback of an expired timer *)
| EExpireMax
| ERun (n : nat)                  (* the [n]-th callback in flight runs *)
| EParent (e : error).            (* the parent context is cancelled *)

Definition due (now : Time) (t : timer) : bool :=
  match armed t with Some at_ => at_ <=? now | None => false end.

Definition handle (now : Time) (d : streamDeadline) (ev : event) : streamDeadline :=
  match ev with
  | EMark => MarkResponseStarted now d
  | ETouch => Touch now d
  | EStop => Stop d
  | EExpirePhase =>
      match phase d with
      | Some t =>
          if due now t
          then mkDeadline (policy d) (Some (timer_Stop t)) (max d) (stopped d) (cause d)
                 (in_flight d ++ [fires_with t])
          else d
      | None => d
      end
  | EExpireMax =>
      match max d with
      | Some t =>
          if due now t
          then mkDeadline (policy d) (phase d) (Some (timer_Stop t)) (stopped d) (cause d)
                 (in_flight d ++ [fires_with t])
          else d
      | None => d
      end
  | ERun n =>
      match in_flight d !! n with
      | Some e =>
          cancel (mkDeadline (policy d) (phase d) (max d) (stopped d) (cause d)
                    (delete n (in_flight d))) (Some e)
      | None => d
      end
  | EParent e => cancel d (Some e)
  end.

(** A run: events at instants that do not go back. *)
Inductive run (start : Time) (parent : option error) (p : streamDeadlinePolicy)
    : Time -> list (Time * event) -> streamDeadline -> Prop :=
| run_start : run start parent p start [] (newStreamDeadline start parent p)
| run_event now evs d now' ev :
    run start parent p now evs d -> now <= now' ->
    run start parent p now' (evs ++ [(now', ev)]) (handle now' d ev).

(** The executable form, for concrete runs. *)
Definition handle_all (d : streamDeadline) (evs : list (Time * event)) : streamDeadline :=
  foldl (fun d te => handle (fst te) d (snd te)) d evs.

(** * Properties *)
Definition activity (ev : event) : bool :=
  match ev with EMark | ETouch => true | _ => false end.
Definition is_mark (ev : event) : bool := match ev with EMark => true | _ => false end.
Definition is_touch (ev : event) : bool := match ev with ETouch => true | _ => false end.
Definition none_of (q : event -> bool) (evs : list (Time * event)) : Prop :=
  Forall (fun te => q (snd te) = false) evs.

(** An error the deadline itself does not produce. *)
Definition foreign (e : error) : Prop :=
  e <> ErrStreamRequestTimeout /\ e <> ErrStreamIdleTimeout /\ e <> ErrStreamMaxLifetimeExceeded.
Definition foreign_event (te : Time * event) : Prop :=
  match snd te with EParent e => foreign e | _ => True end.

Section run_invariant.
Context (start : Time) (parent : option error) (p : streamDeadlinePolicy).

(** No response began before the timer that was set at the start expired. *)
Definition request_gap (evs : list (Time * event)) : Prop :=
  exists pre b post, evs = pre ++ (b, EExpirePhase) :: post /\ none_of is_mark pre /\
    (none_of is_touch pre -> start + RequestTimeout p <= b).

(** Activity at [a], then none until the idle timer expired at [b]. *)
Definition idle_gap (evs : list (Time * event)) : Prop :=
  exists pre a ev mid b post,
    evs = pre ++ (a, ev) :: mid ++ (b, EExpirePhase) :: post /\
    activity ev = true /\ none_of activity mid /\ a + IdleTimeout p <= b.

Definition explained (now : Time) (evs : list (Time * event)) (e : error) : Prop :=
  (e = ErrStreamRequestTimeout -> request_gap evs) /\
  (e = ErrStreamIdleTimeout -> idle_gap evs) /\
  (e = ErrStreamMaxLifetimeExceeded -> start + MaxLifetime p <= now).

(** What an armed phase timer stands for. *)
Definition phase_ok (evs : list (Time * event)) (t : timer) (at_ : Time) : Prop :=
  (fires_with t = ErrStreamRequestTimeout /\ none_of is_mark evs /\
   (none_of is_touch evs -> at_ = start + RequestTimeout p)) \/
  (fires_with t = ErrStreamIdleTimeout /\
   exists pre a ev mid, evs = pre ++ (a, ev) :: mid /\ activity ev = true /\
     none_of activity mid /\ at_ = a + IdleTimeout p).

Definition max_ok (d : streamDeadline) (t : timer) : Prop :=
  fires_with t = ErrStreamMaxLifetimeExceeded /\
  (armed t = Some (start + MaxLifetime p) \/
   armed t = None /\ (in_flight d <> [] \/ cause d <> None)).

Record inv (now : Time) (evs : list (Time * event)) (d : streamDeadline) : Prop := {
  inv_policy : policy d = p;
  inv_time : start <= now;
  inv_phase : forall t at_, phase d = Some t -> armed t = Some at_ ->
    stopped d = false /\ phase_ok evs t at_;
  inv_kind : forall t, phase d = Some t -> stopped d = false ->
    fires_with t = ErrStreamRequestTimeout /\ none_of is_mark evs \/
    fires_with t = ErrStreamIdleTimeout;
  inv_max_some : 0 < MaxLifetime p -> exists t, max d = Some t /\ max_ok d t;
  inv_max : forall t, max d = Some t -> max_ok d t;
  inv_stopped : stopped d = true -> cause d <> None /\ (armed <$> max d = Some None \/ max d = None);
  inv_flight : Forall (explained now evs) (in_flight d);
  inv_cause : forall e, cause d = Some e -> explained now evs e;
}.

Lemma foreign_explained now evs e : foreign e -> explained now evs e.
Proof. intros (? & ? & ?). by repeat split. Qed.

Lemma explained_mono now now' evs ev e :
  now <= now' -> explained now evs e -> explained now' (evs ++ [ev]) e.
Proof.
  intros Ht (H1 & H2 & H3). split; [|split].
  - intros E. destruct (H1 E) as (pre & b & post & -> & ?). exists pre, b, (post ++ [ev]).
    by rewrite <- app_assoc.
  - intros E. destruct (H2 E) as (pre & a & e0 & mid & b & post & -> & ?).
    exists pre, a, e0, mid, b, (post ++ [ev]).
    split; [|done]. by rewrite <- !app_assoc; simpl; rewrite <- app_assoc.
  - intros E. specialize (H3 E). lia.
Qed.

Lemma none_of_app q evs ev : none_of q (evs ++ [ev]) <-> none_of q evs /\ q (snd ev) = false.
Proof. unfold none_of. rewrite Forall_app, Forall_singleton. done. Qed.

(** Events that are not activity keep the meaning of the phase timer. *)
Lemma phase_ok_quiet evs now ev t at_ :
  activity ev = false -> phase_ok evs t at_ -> phase_ok (evs ++ [(now, ev)]) t at_.
Proof.
  intros Hq [(E & Hm & Ht)|(E & pre & a & e0 & mid & -> & Ha & Hmid & ->)].
  - left. rewrite !none_of_app. simpl. repeat split; try done; [by destruct ev|].
    intros [? _]. by apply Ht.
  - right. split; [done|]. exists pre, a, e0, (mid ++ [(now, ev)]). rewrite none_of_app.
    split; [by rewrite <- app_assoc|]. done.
Qed.

(** An expired phase timer explains the cause it cancels with. *)
Lemma expire_explained now evs t at_ :
  phase_ok evs t at_ -> at_ <= now -> explained now (evs ++ [(now, EExpirePhase)]) (fires_with t).
Proof.
  intros [(E & Hm & Ht)|(E & pre & a & ev & mid & -> & Ha & Hmid & ->)] Hd;
    rewrite E; (split; [|split]); try done; intros _.
  - exists evs, now, []. split; [done|]. split; [done|]. intros Hn. rewrite <- Ht by done. done.
  - exists pre, a, ev, mid, now, []. by rewrite <- app_assoc.
Qed.

Lemma cancel_same d e :
  policy (cancel d e) = policy d /\ phase (cancel d e) = phase d /\ max (cancel d e) = max d /\
  stopped (cancel d e) = stopped d /\ in_flight (cancel d e) = in_flight d /\
  cause (cancel d e) <> None /\
  (forall c, cause (cancel d e) = Some c -> cause d = Some c \/ (cause d = None /\ c = default Canceled e)).
Proof.
  unfold cancel. destruct (cause d) eqn:E; simpl; rewrite ?E; repeat split; try done; auto.
  intros c [= <-]. auto.
Qed.

(** Time passes and an event is recorded that the phase timer outlives. *)
Lemma inv_mono now now' evs ev d :
  inv now evs d -> now <= now' -> (activity ev = false \/ stopped d = true \/ phase d = None) ->
  inv now' (evs ++ [(now', ev)]) d.
Proof.
  intros [] Ht Hq. split; try done; try lia.
  - intros t at_ Hp Ha. destruct (inv_phase0 t at_ Hp Ha) as [Hs Hok]. split; [done|].
    destruct Hq as [Hq|[Hq|Hq]]; [by apply phase_ok_quiet|congruence|congruence].
  - intros t Hp Hs. destruct (inv_kind0 t Hp Hs) as [[? ?]|?]; [left|by right].
    rewrite none_of_app. destruct Hq as [Hq|[Hq|Hq]]; [by destruct ev|congruence|congruence].
  - apply (Forall_impl _ _ _ inv_flight0). intros e. by apply (explained_mono now).
  - intros e He. by apply (explained_mono now), inv_cause0.
Qed.

Lemma max_ok_weaken d d' t :
  max_ok d t -> (in_flight d <> [] \/ cause d <> None -> in_flight d' <> [] \/ cause d' <> None) ->
  max_ok d' t.
Proof. intros [E [H|[H1 H2]]] Hw; split; auto. Qed.

Lemma inv_cancel now evs d e :
  inv now evs d -> explained now evs (default Canceled e) -> inv now evs (cancel d e).
Proof.
  intros [] He. destruct (cancel_same d e) as (E1 & E2 & E3 & E4 & E5 & E6 & E7).
  assert (Hm : forall t, max_ok d t -> max_ok (cancel d e) t)
    by (intros t H; apply (max_ok_weaken d); auto).
  split; rewrite ?E1, ?E2, ?E3, ?E4, ?E5; try done.
  - intros H. destruct (inv_max_some0 H) as (t & ? & ?). eauto.
  - auto.
  - intros H. split; [done|]. by apply inv_stopped0.
  - intros c Hc. destruct (E7 c Hc) as [?|[_ ->]]; auto.
Qed.

Lemma canceled_foreign : foreign Canceled.
Proof. by repeat split. Qed.

Lemma inv_start :
  (forall e, parent = Some e -> foreign e) -> inv start [] (newStreamDeadline start parent p).
Proof.
  intros Hf. unfold newStreamDeadline. split; simpl; try done; try lia.
  - intros t at_ E Ha. destruct (0 <? RequestTimeout p); [|done]. injection E as <-.
    injection Ha as <-. split; [done|]. left. repeat split; constructor.
  - intros t E _. destruct (0 <? RequestTimeout p); [|done]. injection E as <-. left.
    split; [done|constructor].
  - intros H. rewrite (proj2 (Z.ltb_lt _ _) H). eexists. split; [done|]. split; [done|]. by left.
  - intros t E. destruct (0 <? MaxLifetime p); [|done]. injection E as <-. split; [done|]. by left.
  - intros e E. by apply foreign_explained, Hf.
Qed.

Lemma activity_last evs now ev at_ t :
  activity ev = true -> fires_with t = ErrStreamIdleTimeout -> at_ = now + IdleTimeout p ->
  phase_ok (evs ++ [(now, ev)]) t at_.
Proof. intros Ha Hf ->. right. split; [done|]. exists evs, now, ev, []. repeat split; (done || constructor). Qed.

(** Replacing the phase timer by one whose meaning is known. *)
Lemma inv_set_phase now now' evs ev d ph :
  inv now evs d -> now <= now' -> stopped d = false ->
  (forall t at_, ph = Some t -> armed t = Some at_ -> phase_ok (evs ++ [(now', ev)]) t at_) ->
  (forall t, ph = Some t -> fires_with t = ErrStreamRequestTimeout /\
      none_of is_mark (evs ++ [(now', ev)]) \/ fires_with t = ErrStreamIdleTimeout) ->
  inv now' (evs ++ [(now', ev)]) (set_phase d ph).
Proof.
  intros H Ht Hs Hp Hk. pose proof (inv_mono now now' evs EStop d H Ht (or_introl eq_refl)) as [].
  destruct H. split; simpl; try done.
  - intros t at_ E Ha. split; [done|]. eauto.
  - auto.
  - apply (Forall_impl _ _ _ inv_flight1). intros e. by apply (explained_mono now).
  - intros e He. by apply (explained_mono now), inv_cause1.
Qed.

Lemma inv_mark now now' evs d :
  inv now evs d -> now <= now' ->
  inv now' (evs ++ [(now', EMark)]) (MarkResponseStarted now' d).
Proof.
  intros H Ht. unfold MarkResponseStarted. destruct (stopped d) eqn:Hs.
  { apply (inv_mono now); auto. }
  destruct (phase d) as [t|] eqn:Hp; simpl; rewrite (inv_policy _ _ _ H);
    destruct (0 <? IdleTimeout p).
  - change (set_phase (set_phase d None) ?x) with (set_phase d x).
    apply (inv_set_phase now); auto; [intros t' at_ [= <-] [= <-]; by apply activity_last|].
    intros t' [= <-]. by right.
  - by apply (inv_set_phase now).
  - apply (inv_set_phase now); auto; [intros t' at_ [= <-] [= <-]; by apply activity_last|].
    intros t' [= <-]. by right.
  - apply (inv_mono now); auto.
Qed.

Lemma inv_touch now now' evs d :
  inv now evs d -> now <= now' -> inv now' (evs ++ [(now', ETouch)]) (Touch now' d).
Proof.
  intros H Ht. unfold Touch. destruct (stopped d) eqn:Hs; [apply (inv_mono now); auto|].
  destruct (phase d) as [t|] eqn:Hp; [|apply (inv_mono now); auto].
  destruct (inv_kind _ _ _ H t Hp Hs) as [[Hf Hm]|Hf];
    (apply (inv_set_phase now); auto; [intros t' at_ [= <-] [= <-]|intros t' [= <-]]).
  - left. rewrite !none_of_app. repeat split; try done. by intros [_ ?].
  - left. rewrite none_of_app. by repeat split.
  - apply activity_last; [done|done|]. by rewrite (inv_policy _ _ _ H).
  - by right.
Qed.

Lemma inv_stop now now' evs d :
  inv now evs d -> now <= now' -> inv now' (evs ++ [(now', EStop)]) (Stop d).
Proof.
  intros H Ht. unfold Stop. destruct (stopped d) eqn:Hs; [apply (inv_mono now); auto|].
  apply (inv_mono now now' evs EStop) in H as []; [|done|by left].
  set (d1 := mkDeadline _ _ _ _ _ _). destruct (cancel_same d1 None) as (E1 & E2 & E3 & E4 & E5 & E6 & E7).
  assert (Hm : forall t, max_ok d t -> max_ok (cancel d1 None) (timer_Stop t))
    by (intros t [E _]; split; [done|]; right; split; [done|by right]).
  split; rewrite ?E1, ?E2, ?E3, ?E4, ?E5; simpl; try done.
  - intros t at_ E Ha. destruct (phase d); [|done]. by injection E as <-.
  - intros Hp. destruct (inv_max_some0 Hp) as (t & -> & Hok). eexists. split; [done|auto].
  - intros t E. destruct (max d) as [t0|]; [|done]. injection E as <-. auto.
  - intros _. split; [done|]. destruct (max d); simpl; auto.
  - intros e He. destruct (E7 e He) as [Hc|[_ ->]]; [by apply inv_cause0|].
    apply foreign_explained, canceled_foreign.
Qed.

Lemma inv_expire_phase now now' evs d :
  inv now evs d -> now <= now' ->
  inv now' (evs ++ [(now', EExpirePhase)]) (handle now' d EExpirePhase).
Proof.
  intros H Ht. simpl. destruct (phase d) as [t|] eqn:Hp; [|apply (inv_mono now); auto].
  destruct (due now' t) eqn:Hd; [|apply (inv_mono now); auto].
  unfold due in Hd. destruct (armed t) as [at_|] eqn:Ha; [|done]. to_prop.
  destruct (inv_phase _ _ _ H t at_ Hp Ha) as [Hs Hok].
  pose proof (expire_explained now' evs t at_ Hok Hd) as Hex.
  apply (inv_mono now now' evs EExpirePhase) in H as []; [|done|by left].
  split; simpl; try done.
  - intros t' at' [= <-] Ha'. done.
  - intros t' [= <-] _. destruct (inv_kind0 t Hp Hs) as [?|?]; auto.
  - intros Hm. destruct (inv_max_some0 Hm) as (t0 & E & Hok0). exists t0. split; [done|].
    apply (max_ok_weaken d); [done|]. simpl. left. by destruct (in_flight d).
  - intros t0 E. apply (max_ok_weaken d); [auto|]. simpl. left. by destruct (in_flight d).
  - apply Forall_app. split; [done|]. by constructor.
Qed.

Lemma inv_expire_max now now' evs d :
  inv now evs d -> now <= now' ->
  inv now' (evs ++ [(now', EExpireMax)]) (handle now' d EExpireMax).
Proof.
  intros H Ht. simpl. destruct (max d) as [t|] eqn:Hp; [|apply (inv_mono now); auto].
  destruct (due now' t) eqn:Hd; [|apply (inv_mono now); auto].
  unfold due in Hd. destruct (armed t) as [at_|] eqn:Ha; [|done]. to_prop.
  destruct (inv_max _ _ _ H t Hp) as [Hf Harm].
  assert (at_ = start + MaxLifetime p) as -> by (destruct Harm as [E|[E _]]; congruence).
  apply (inv_mono now now' evs EExpireMax) in H as []; [|done|by left].
  assert (Hmx : max_ok (mkDeadline (policy d) (phase d) (Some (timer_Stop t)) (stopped d) (cause d)
      (in_flight d ++ [fires_with t])) (timer_Stop t)).
  { split; [done|]. right. split; [done|]. left. simpl. by destruct (in_flight d). }
  split; simpl; try done.
  - intros _. by eexists.
  - intros t' [= <-]. done.
  - intros Hs. split; [by apply inv_stopped0|by left].
  - apply Forall_app. split; [done|]. constructor; [|done]. rewrite Hf. by repeat split.
Qed.

Lemma inv_run now now' evs d n :
  inv now evs d -> now <= now' ->
  inv now' (evs ++ [(now', ERun n)]) (handle now' d (ERun n)).
Proof.
  intros H Ht. simpl. apply (inv_mono now now' evs (ERun n)) in H; [|done|by left].
  destruct (in_flight d !! n) as [e|] eqn:E; [|done].
  pose proof (Forall_lookup_1 _ _ _ _ (inv_flight _ _ _ H) E) as Hex.
  set (d1 := mkDeadline _ _ _ _ _ _). destruct (cancel_same d1 (Some e)) as (E1 & E2 & E3 & E4 & E5 & E6 & E7).
  destruct H. assert (Hm : forall t, max_ok d t -> max_ok (cancel d1 (Some e)) t)
    by (intros t Hok; apply (max_ok_weaken d); auto).
  split; rewrite ?E1, ?E2, ?E3, ?E4, ?E5; simpl; try done.
  - intros Hp. destruct (inv_max_some0 Hp) as (t & -> & Hok). eauto.
  - auto.
  - intros Hs. split; [done|]. by apply inv_stopped0.
  - by apply Forall_delete.
  - intros c Hc. destruct (E7 c Hc) as [Hc'|[_ ->]]; auto.
Qed.

Lemma run_inv now evs d :
  run start parent p now evs d ->
  (forall e, parent = Some e -> foreign e) -> Forall foreign_event evs ->
  inv now evs d.
Proof.
  induction 1 as [|now evs d now' ev Hr IH Ht]; intros Hp HF; [by apply inv_start|].
  apply Forall_app in HF as [HF Hev]. specialize (IH Hp HF).
  destruct ev; [by apply (inv_mark now)|by apply (inv_touch now)|by apply (inv_stop now)|
    by apply (inv_expire_phase now)|by apply (inv_expire_max now)|by apply (inv_run now)|].
  simpl. apply inv_cancel; [apply (inv_mono now); auto|]. simpl. inv Hev.
  by apply foreign_explained.
Qed.
End run_invariant.

(** A stream is never cut for a reason that did not happen: the request
    timeout only if no response had started when the timer expired, the idle
    timeout only after a full idle period without activity, the lifetime only
    once it has passed. *)
Lemma deadline_cause_explained start parent p now evs d e :
  run start parent p now evs d ->
  (forall e, parent = Some e -> foreign e) -> Forall foreign_event evs ->
  cause d = Some e -> explained start p now evs e.
Proof. intros Hr Hp HF Hc. by apply (inv_cause _ _ _ _ _ (run_inv _ _ _ _ _ _ Hr Hp HF)). Qed.

Lemma deadline_cause_explained_witness :
  let p := mkPolicy 30 60 3600 in
  let d := handle 95 (handle 95 (handle 35 (handle 10 (newStreamDeadline 0 None p) EMark) ETouch)
             EExpirePhase) (ERun 0) in
  explained 0 p 95 ([] ++ [(10, EMark)] ++ [(35, ETouch)] ++ [(95, EExpirePhase)] ++ [(95, ERun 0)])
    ErrStreamIdleTimeout.
Proof.
  intros p d. apply (deadline_cause_explained 0 None p 95 _ d).
  - rewrite !app_assoc. repeat eapply run_event; [apply run_start|by cbv..].
  - discriminate.
  - repeat constructor.
  - reflexivity.
Defined.

Lemma run_first_in_flight now d : in_flight d <> [] -> cause (handle now d (ERun 0)) <> None.
Proof.
  intros H. simpl. destruct (in_flight d) as [|e l] eqn:E; [done|]. simpl.
  apply cancel_same.
Qed.

Lemma cause_sticky now d ev : cause d <> None -> cause (handle now d ev) = cause d.
Proof.
  intros H. assert (Hc : forall d' e, cause d' = cause d -> cause (cancel d' e) = cause d).
  { intros d' e E. unfold cancel. rewrite E. by destruct (cause d) eqn:?. }
  destruct ev; simpl; unfold MarkResponseStarted, Touch, Stop, set_phase;
    repeat case_match; simpl; try done; by apply Hc.
Qed.

(** Activity never extends a stream beyond its maximum lifetime: whatever
    happened, once the lifetime has passed the expiry of its timer and the run
    of a callback leave the stream's context cancelled. *)
Lemma deadline_lifetime_enforced start parent p now evs d :
  run start parent p now evs d ->
  (forall e, parent = Some e -> foreign e) -> Forall foreign_event evs ->
  0 < MaxLifetime p -> start + MaxLifetime p <= now ->
  cause (handle_all d [(now, EExpireMax); (now, ERun 0)]) <> None.
Proof.
  intros Hr Hp HF Hm Hn. pose proof (run_inv _ _ _ _ _ _ Hr Hp HF) as H.
  unfold handle_all. cbn [foldl fst snd].
  destruct (inv_max_some _ _ _ _ _ H Hm) as (t & Et & Hf & [Ha|[Ha [Hi|Hi]]]).
  - apply run_first_in_flight. simpl. rewrite Et. unfold due. rewrite Ha.
    rewrite (proj2 (Z.leb_le _ _) Hn). simpl. by destruct (in_flight d).
  - apply run_first_in_flight. simpl. rewrite Et. unfold due. by rewrite Ha.
  - rewrite !cause_sticky; [done|done|]. by rewrite cause_sticky.
Qed.

Lemma deadline_lifetime_enforced_witness :
  let p := mkPolicy 30 60 100 in
  let d := handle 100 (handle 80 (handle 20 (newStreamDeadline 0 None p) EMark) ETouch) ETouch in
  cause (handle_all d [(100, EExpireMax); (100, ERun 0)]) <> None.
Proof.
  intros p d. apply (deadline_lifetime_enforced 0 None p 100
    ([] ++ [(20, EMark)] ++ [(80, ETouch)] ++ [(100, ETouch)]) d).
  - rewrite !app_assoc. repeat eapply run_event; [apply run_start|by cbv..].
  - discriminate.
  - repeat constructor.
  - reflexivity.
  - by cbv.
Defined.

(** Nothing is armed. *)
Definition quiescent (d : streamDeadline) : Prop :=
  stopped d = true /\ cause d <> None /\
  (forall t, phase d = Some t -> armed t = None) /\ (forall t, max d = Some t -> armed t = None).

Lemma quiescent_step now d ev :
  quiescent d -> quiescent (handle now d ev) /\
  (length (in_flight (handle now d ev)) <= length (in_flight d))%nat.
Proof.
  intros Hq. pose proof Hq as (Hs & Hc & Hp & Hm).
  assert (Hcan : forall d' e, stopped d' = true -> phase d' = phase d -> max d' = max d ->
    quiescent (cancel d' e)).
  { intros d' e E1 E2 E3. destruct (cancel_same d' e) as (_ & E4 & E5 & E6 & _ & E7 & _).
    repeat split; rewrite ?E4, ?E5, ?E6, ?E2, ?E3; auto. }
  destruct ev; simpl; unfold MarkResponseStarted, Touch, Stop, due; rewrite ?Hs;
    try (split; [exact Hq|lia]).
  - destruct (phase d) as [t|] eqn:E; [rewrite (Hp t) by done|]; by split; [exact Hq|].
  - destruct (max d) as [t|] eqn:E; [rewrite (Hm t) by done|]; by split; [exact Hq|].
  - destruct (in_flight d !! n) as [e|] eqn:E; [|by split; [exact Hq|]].
    split; [by apply Hcan|].
    match goal with |- context [cancel ?d1 (Some e)] =>
      destruct (cancel_same d1 (Some e)) as (_ & _ & _ & _ & -> & _) end. simpl.
    apply lookup_lt_Some in E. rewrite length_delete by (by apply lookup_lt_is_Some). lia.
  - split; [by apply Hcan|]. by destruct (cancel_same d (Some e)) as (_ & _ & _ & _ & -> & _).
Qed.

Lemma stopped_quiescent start p now evs d :
  inv start p now evs d -> stopped d = true -> quiescent d.
Proof.
  intros H Hs. destruct (inv_stopped _ _ _ _ _ H Hs) as [Hc Hm]. repeat split; try done.
  - intros t Hp. destruct (armed t) as [at_|] eqn:Ha; [|done].
    destruct (inv_phase _ _ _ _ _ H t at_ Hp Ha) as [? _]. congruence.
  - intros t Et. destruct Hm as [Hm|Hm]; rewrite Et in Hm; [|done]. by injection Hm.
Qed.

(** [Stop] is final: after it no timer is armed, whatever is called or
    happens later starts no callback, and the cause of the context stays. *)
Theorem deadline_stop_final start parent p now evs d later :
  run start parent p now evs d ->
  (forall e, parent = Some e -> foreign e) -> Forall foreign_event evs ->
  stopped d = true ->
  cause (handle_all d later) = cause d /\ cause d <> None /\
  (length (in_flight (handle_all d later)) <= length (in_flight d))%nat /\
  forall t, phase (handle_all d later) = Some t \/ max (handle_all d later) = Some t ->
    armed t = None.
Proof.
  intros Hr Hp HF Hs.
  pose proof (stopped_quiescent start p now evs d (run_inv _ _ _ _ _ _ Hr Hp HF) Hs) as Hq.
  clear Hr Hs. unfold handle_all. revert d Hq. induction later as [|[t ev] later IH]; intros d Hq; simpl.
  - destruct Hq as (_ & Hc & Hph & Hm). repeat split; auto. intros t [?|?]; auto.
  - destruct (quiescent_step t d ev Hq) as [Hq' Hl]. destruct (IH _ Hq') as (E1 & E2 & E3 & E4).
    rewrite cause_sticky in E1, E2 by apply Hq. repeat split; auto. lia.
Qed.

Lemma deadline_stop_final_witness :
  let p := mkPolicy 30 60 3600 in
  let d := handle 40 (handle 40 (handle 10 (newStreamDeadline 0 None p) EMark) EExpirePhase) EStop in
  let later := [(50, ETouch); (200, EExpirePhase); (4000, EExpireMax)] in
  cause (handle_all d later) = cause d /\ cause d <> None /\
  (length (in_flight (handle_all d later)) <= length (in_flight d))%nat /\
  forall t, phase (handle_all d later) = Some t \/ max (handle_all d later) = Some t ->
    armed t = None.
Proof.
  intros p d later. apply (deadline_stop_final 0 None p 40
    ([] ++ [(10, EMark)] ++ [(40, EExpirePhase)] ++ [(40, EStop)]) d later).
  - rewrite !app_assoc. repeat eapply run_event; [apply run_start|by cbv..].
  - discriminate.
  - repeat constructor.
  - reflexivity.
Defined.

(** [Touch] before the response has started is not a no-op: it moves the
    request timer to the idle timeout, which fires at once when idle
    detection is off. *)
Lemma touch_before_response_rearms start parent p now :
  0 < RequestTimeout p ->
  phase (Touch now (newStreamDeadline start parent p)) =
  Some (mkTimer (Some (now + IdleTimeout p)) ErrStreamRequestTimeout).
Proof. intros H. unfold newStreamDeadline. by rewrite (proj2 (Z.ltb_lt _ _) H). Qed.
