(* ===== verification/Session.v ===== *)
(** server/gateway/internal/gateway/session.go and wsstream.go: the gateway's
    end of one agent connection.  It limits concurrent streams, remembers
    which stream waits for which messages, and carries a public request to
    the agent and its response back.

    What the code cannot decide is scripted: the outcome of every
    [conn.Write] ([conn_Write]), the public request body as the results of its
    [Read] calls, the messages and signals each [select] sees, and the outcome
    of the public response writes.  A [select] with nothing left to see blocks:
    the run has no result ([None]) and keeps what it holds. *)
From S2P Require Import Prelude GoStrings Messages Wire StreamDeadline.
From Stdlib Require Import ZArith Lia List String Ascii Bool.
From stdpp Require Import base gmap strings list.

Open Scope Z_scope.

Definition ErrStreamLimitExceeded : error :=
  Sentinel "ErrStreamLimitExceeded" "tunnel stream limit exceeded".
Definition ErrRequestBodyTooLarge : error :=
  Sentinel "ErrRequestBodyTooLarge" "request body too large".
Definition ErrShortWrite : error := Sentinel "io.ErrShortWrite" "short write".
Definition agent_disconnected : error := Errorf "agent disconnected".

Definition defaultMaxBodyBytes : Z := Z.shiftl 1 20.
Definition defaultStreamChunkBytes : Z := Z.shiftl 32 10.
Definition StatusOK : Z := 200.
Definition StatusBadGateway : Z := 502.

Record streamRoundTripResult := mkResult {
  res_Status : Z;
  res_RequestBytes : Z;
  res_ResponseBytes : Z;
}.
Definition set_Status (r : streamRoundTripResult) (v : Z) : streamRoundTripResult :=
  mkResult v (res_RequestBytes r) (res_ResponseBytes r).
Definition set_RequestBytes (r : streamRoundTripResult) (v : Z) : streamRoundTripResult :=
  mkResult (res_Status r) v (res_ResponseBytes r).
Definition add_ResponseBytes (r : streamRoundTripResult) (n : Z) : streamRoundTripResult :=
  mkResult (res_Status r) (res_RequestBytes r) (res_ResponseBytes r + n).

(** A stream's mailbox: a buffered channel. *)
Record mailbox := mkMailbox { mb_cap : Z; mb_queue : list Message }.

(** [streams] is the semaphore channel, [None] when nil: its capacity and how
    many slots are taken. *)
Record agentSession := mkAgentSession {
  tunnelID : string;
  done : bool;
  streams : option (Z * Z);
  pending : gmap string mailbox;
}.

Definition newAgentSession (tunnelID : string) (maxConcurrentStreams : Z) : agentSession :=
  mkAgentSession tunnelID false
    (if 0 <? maxConcurrentStreams then Some (maxConcurrentStreams, 0) else None) ∅.

Definition set_streams (s : agentSession) (v : option (Z * Z)) : agentSession :=
  mkAgentSession (tunnelID s) (done s) v (pending s).
Definition set_pending (s : agentSession) (v : gmap string mailbox) : agentSession :=
  mkAgentSession (tunnelID s) (done s) (streams s) v.

Definition acquireStream (s : agentSession) : result unit * agentSession :=
  if done s then (Err agent_disconnected, s) else
  match streams s with
  | None => (Ok tt, s)
  | Some (cap, used) =>
      if used <? cap then (Ok tt, set_streams s (Some (cap, used + 1)))
      else (Err ErrStreamLimitExceeded, s)
  end.

Definition releaseStream (s : agentSession) : agentSession :=
  match streams s with
  | None => s
  | Some (cap, used) => if 0 <? used then set_streams s (Some (cap, used - 1)) else s
  end.

Definition activeStreams (s : agentSession) : Z :=
  match streams s with None => 0 | Some (_, used) => used end.
Definition streamCapacity (s : agentSession) : Z :=
  match streams s with None => 0 | Some (cap, _) => cap end.

Definition addPending (streamID : string) (ch : mailbox) (s : agentSession) : agentSession :=
  set_pending s (<[streamID := ch]> (pending s)).
Definition removePending (streamID : string) (s : agentSession) : agentSession :=
  set_pending s (delete streamID (pending s)).
Definition closeDone (s : agentSession) : agentSession :=
  mkAgentSession (tunnelID s) true (streams s) (pending s).

(** [deliver]: what the [select] does when it can proceed: put the message in
    the mailbox, which needs room, or give up because [ctx] or the session is
    done.  [None] when that choice is not enabled. *)
Inductive delivery := Put | GiveUp.
Definition deliver (ctx_done : bool) (choice : delivery) (msg : Message) (s : agentSession)
    : option (bool * agentSession) :=
  match pending s !! env_StreamID (msg_Envelope msg) with
  | None => Some (false, s)
  | Some ch =>
      match choice with
      | Put =>
          if Z.of_nat (length (mb_queue ch)) <? mb_cap ch
          then Some (true, addPending (env_StreamID (msg_Envelope msg))
                             (mkMailbox (mb_cap ch) (mb_queue ch ++ [msg])) s)
          else None
      | GiveUp => if ctx_done || done s then Some (true, s) else None
      end
  end.

(** * Errors and the reasons sent to the agent *)
Definition isStreamContextDoneCause (err : error) : bool :=
  errors_Is err Canceled || errors_Is err DeadlineExceeded ||
  errors_Is err ErrStreamRequestTimeout || errors_Is err ErrStreamIdleTimeout ||
  errors_Is err ErrStreamMaxLifetimeExceeded.

Definition streamCancelReason (err : error) : string :=
  if errors_Is err ErrStreamRequestTimeout then "gateway timed out waiting for a response"
  else if errors_Is err ErrStreamIdleTimeout then "gateway stream idle timeout"
  else if errors_Is err ErrStreamMaxLifetimeExceeded
  then "gateway stream exceeded its maximum lifetime"
  else if errors_Is err DeadlineExceeded then "gateway stream timeout"
  else if errors_Is err Canceled then "public request canceled"
  else "gateway stream canceled".

Definition streamCancelReasonForError (err : error) : string :=
  if errors_Is err ErrRequestBodyTooLarge then "public request body too large"
  else if errors_Is err DeadlineExceeded || errors_Is err Canceled then streamCancelReason err
  else "gateway stream failed".

(** * Running one stream *)

(** Calls of [write] and [writeBinaryBody], with what they returned. *)
Inductive call : Type :=
| WriteEnv (env : Envelope)
| WriteBody (typ : Type_) (streamID tunnelID : string) (data : bytes).

(** What the public client gets. *)
Inductive public_write : Type :=
| ResponseHead (resp : ResponseStart)
| ResponseData (data : bytes) (n : Z)
| SocketMessage (typ : MessageType) (data : bytes)      (* an upgraded connection *)
| SocketClose (code : Z) (reason : string).

Record St := mkSt {
  sess : agentSession;
  calls : list (call * result unit);
  conn_writes : nat;
  public : list public_write;
}.

(** [None]: blocked in a [select]. *)
Definition M (A : Type) : Type := St -> option A * St.
Definition ret {A} (a : A) : M A := fun s => (Some a, s).
Definition bindM {A B} (m : M A) (k : A -> M B) : M B :=
  fun s => match m s with
           | (Some a, s') => k a s'
           | (None, s') => (None, s')
           end.
Declare Scope run_scope.
Delimit Scope run_scope with run.
Notation "x <- m ;; k" := (bindM m (fun x => k))
  (at level 100, m at level 99, right associativity) : run_scope.
Notation "m ;;; k" := (bindM m (fun _ => k)) (at level 100, right associativity) : run_scope.
Open Scope run_scope.

Definition on_session (f : agentSession -> agentSession) : M unit :=
  fun s => (Some tt, mkSt (f (sess s)) (calls s) (conn_writes s) (public s)).
Definition emit (p : public_write) : M unit :=
  fun s => (Some tt, mkSt (sess s) (calls s) (conn_writes s) (public s ++ [p])).
(** [defer]: the clean-up runs when the function returns. *)
Definition deferring {A} (cleanup : agentSession -> agentSession) (m : M A) : M A :=
  r <- m ;; on_session cleanup ;;; ret r.

(** What a [select] sees. *)
Inductive signal : Type :=
| CtxDone (cause : error)      (* ctx.Done(), with context.Cause(ctx) *)
| SessionDone                  (* s.done *)
| Received (msg : Message).

Definition ctx_Err (cause : error) : error :=
  if bool_decide (cause = DeadlineExceeded) then DeadlineExceeded else Canceled.

Section streams.
Context {JE : JSONCodec Envelope} {JReq : JSONCodec Request} {JStart : JSONCodec RequestStart}
  {JResp : JSONCodec Response} {JRespStart : JSONCodec ResponseStart}
  {JChunk : JSONCodec BodyChunk} {JErr : JSONCodec ErrorPayload}
  {JCancel : JSONCodec StreamCancel} {JOpen : JSONCodec Open} {JAccept : JSONCodec Accept}
  {JClose : JSONCodec Close}.
Context (conn_Write : nat -> MessageType * bytes -> option error).
Context (writeResponseBody : nat -> bytes -> Z * option error).

(** A frame handed to the connection. *)
Definition send (c : call) (frame : result (MessageType * bytes)) : M (result unit) := fun s =>
  match frame with
  | Err e => (Some (Err e), mkSt (sess s) (calls s ++ [(c, Err e)]) (conn_writes s) (public s))
  | Ok f =>
      let r := match conn_Write (conn_writes s) f with Some e => Err e | None => Ok tt end in
      (Some r, mkSt (sess s) (calls s ++ [(c, r)]) (S (conn_writes s)) (public s))
  end.
Definition write (env : Envelope) : M (result unit) := send (WriteEnv env) (WriteEnvelope env).
Definition writeBinaryBody (typ : Type_) (streamID : string) (body : bytes) : M (result unit) :=
  fun s => send (WriteBody typ streamID (tunnelID (sess s)) body)
             (WriteBinaryBody typ streamID (tunnelID (sess s)) body) s.

Definition tunnel_id : M string := fun s => (Some (tunnelID (sess s)), s).

Definition cancelStream (streamID reason : string) : M (result unit) :=
  tid <- tunnel_id ;;
  match NewStream TypeHTTPStreamCancel streamID tid (Some (mkStreamCancel reason)) with
  | Err e => ret (Err e)
  | Ok env => write env
  end.

(** The request body, one element per [Read]; past the end the reader is at EOF. *)
Definition reader : Type := list (bytes * option error).

Fixpoint body_loop (streamID : string) (maxBodyBytes : Z) (body : reader) (sent : Z)
    : M (Z * option error) :=
  match body with
  | [] => ret (sent, None)      (* Read returns 0, io.EOF *)
  | (data, readErr) :: rest =>
      let after (sent : Z) : M (Z * option error) :=
        match readErr with
        | Some e =>
            if errors_Is e EOF then ret (sent, None)
            else ret (sent, Some (Wrap "read public request body" e))
        | None => body_loop streamID maxBodyBytes rest sent
        end in
      let n := Z.of_nat (length data) in
      if 0 <? n then
        let sent := int64 (sent + n) in
        if maxBodyBytes <? sent then ret (sent, Some ErrRequestBodyTooLarge)
        else
          r <- writeBinaryBody TypeHTTPRequestBody streamID data ;;
          match r with
          | Err e => ret (sent, Some (Wrap "write request body" e))
          | Ok _ => after sent
          end
      else after sent
  end.

Definition writeRequestBody (streamID : string) (body : option reader) (maxBodyBytes : Z)
    : M (Z * option error) :=
  match body with
  | None => ret (0, None)
  | Some body =>
      let maxBodyBytes := if maxBodyBytes <=? 0 then defaultMaxBodyBytes else maxBodyBytes in
      body_loop streamID maxBodyBytes body 0
  end.

Definition responseBodyChunk (msg : Message) (chunkBytes : Z) : result bytes :=
  try chunk <-
    (if msg_BinaryBody msg then Ok (msg_Body msg)
     else try payload <- DecodePayload BodyChunk (msg_Envelope msg); Ok (bc_Data payload));
  if chunkBytes <? Z.of_nat (length chunk)
  then Err (Errorf ("response chunk exceeds " +:+ Itoa chunkBytes +:+ " bytes"))
  else Ok chunk.

Definition writeResponseStart (resp : ResponseStart) : M unit := emit (ResponseHead resp).
(** The public write; how many were made before selects its outcome. *)
Definition is_data (p : public_write) : bool :=
  match p with ResponseData _ _ => true | _ => false end.
Definition write_public (data : bytes) : M (Z * option error) := fun s =>
  let '(n, err) := writeResponseBody (length (List.filter is_data (public s))) data in
  (Some (n, err), mkSt (sess s) (calls s) (conn_writes s) (public s ++ [ResponseData data n])).

Definition handleWholeResponse (respEnv : Envelope) (result : streamRoundTripResult)
    : M (streamRoundTripResult * option error) :=
  match DecodePayload Response respEnv with
  | Err e => ret (result, Some e)
  | Ok resp =>
      let status := if rp_Status resp <=? 0 then StatusBadGateway else rp_Status resp in
      let result := set_Status result status in
      writeResponseStart (mkResponseStart status (rp_Header resp)) ;;;
      match rp_Body resp with
      | [] => ret (result, None)
      | body =>
          r <- write_public body ;;
          let '(n, err) := r in
          let result := add_ResponseBytes result n in
          match err with
          | Some e => ret (result, Some e)
          | None =>
              if negb (n =? Z.of_nat (length body)) then ret (result, Some ErrShortWrite)
              else ret (result, None)
          end
      end
  end.

Fixpoint response_loop (streamID : string) (chunkBytes : Z) (signals : list signal)
    (responseStarted : bool) (result : streamRoundTripResult)
    : M (streamRoundTripResult * option error) :=
  match signals with
  | [] => fun s => (None, s)
  | CtxDone cause :: _ =>
      _ <- cancelStream streamID (streamCancelReason cause) ;;
      ret (result, Some cause)
  | SessionDone :: _ => ret (result, Some agent_disconnected)
  | Received msg :: rest =>
      let respEnv := msg_Envelope msg in
      let typ := env_Type respEnv in
      if String.eqb typ TypeHTTPResponseStart then
        match DecodePayload ResponseStart respEnv with
        | Err e => ret (result, Some e)
        | Ok resp =>
            let status := if rps_Status resp <=? 0 then StatusBadGateway else rps_Status resp in
            writeResponseStart (mkResponseStart status (rps_Header resp)) ;;;
            response_loop streamID chunkBytes rest true (set_Status result status)
        end
      else if String.eqb typ TypeHTTPResponseBody then
        if negb responseStarted
        then ret (result, Some (Errorf "response body received before response start"))
        else
          match responseBodyChunk msg chunkBytes with
          | Err e => ret (result, Some e)
          | Ok chunk =>
              r <- write_public chunk ;;
              let '(n, err) := r in
              let result := add_ResponseBytes result n in
              match err with
              | Some e => ret (result, Some e)
              | None =>
                  if negb (n =? Z.of_nat (length chunk)) then ret (result, Some ErrShortWrite)
                  else response_loop streamID chunkBytes rest responseStarted result
              end
          end
      else if String.eqb typ TypeHTTPResponseEnd then
        if negb responseStarted
        then
          writeResponseStart (mkResponseStart StatusOK ∅) ;;;
          ret (set_Status result StatusOK, None)
        else ret (result, None)
      else if String.eqb typ TypeHTTPResponse then handleWholeResponse respEnv result
      else if String.eqb typ TypeHTTPStreamError then
        match DecodePayload ErrorPayload respEnv with
        | Err e => ret (result, Some e)
        | Ok payload => ret (result, Some (Errorf (ep_Message payload)))
        end
      else ret (result, Some (Errorf ("unexpected response message " +:+ typ)))
  end.

Definition readStreamResponse (streamID : string) (signals : list signal) (chunkBytes : Z)
    (result : streamRoundTripResult) : M (streamRoundTripResult * option error) :=
  let chunkBytes := if chunkBytes <=? 0 then defaultStreamChunkBytes else chunkBytes in
  response_loop streamID chunkBytes signals false result.

Definition zero_result : streamRoundTripResult := mkResult 0 0 0.

(** [acquireStream] on the shared session. *)
Definition acquire : M (result unit) := fun s =>
  let '(r, s') := acquireStream (sess s) in
  (Some r, mkSt s' (calls s) (conn_writes s) (public s)).

(** The body of [streamRoundTrip] between acquiring and releasing. *)
Definition stream_exchange (streamID : string) (req : RequestStart) (body : option reader)
    (maxBodyBytes chunkBytes : Z) (signals : list signal)
    : M (streamRoundTripResult * option error) :=
  tid <- tunnel_id ;;
  match NewStream TypeHTTPRequestStart streamID tid (Some req) with
  | Err e => ret (zero_result, Some e)
  | Ok start =>
      r <- write start ;;
      match r with
      | Err e => ret (zero_result, Some (Wrap "write request start" e))
      | Ok _ =>
          b <- writeRequestBody streamID body maxBodyBytes ;;
          let '(sent, err) := b in
          let result := set_RequestBytes zero_result sent in
          match err with
          | Some e =>
              _ <- cancelStream streamID (streamCancelReasonForError e) ;;
              ret (result, Some e)
          | None =>
              match NewStream (T := unit) TypeHTTPRequestEnd streamID tid None with
              | Err e => ret (result, Some e)
              | Ok end_ =>
                  r <- write end_ ;;
                  match r with
                  | Err e => ret (result, Some (Wrap "write request end" e))
                  | Ok _ =>
                      out <- readStreamResponse streamID signals chunkBytes result ;;
                      let '(result, err) := out in
                      match err with
                      | Some e =>
                          if isStreamContextDoneCause e then ret (result, Some e)
                          else
                            _ <- cancelStream streamID (streamCancelReasonForError e) ;;
                            ret (result, Some e)
                      | None => ret (result, None)
                      end
                  end
              end
          end
      end
  end.

Definition streamRoundTrip (streamID : string) (req : RequestStart) (body : option reader)
    (maxBodyBytes chunkBytes : Z) (signals : list signal)
    : M (streamRoundTripResult * option error) :=
  a <- acquire ;;
  match a with
  | Err e => ret (zero_result, Some e)
  | Ok _ =>
      deferring releaseStream
        (on_session (addPending streamID (mkMailbox 32 [])) ;;;
         deferring (removePending streamID)
           (stream_exchange streamID req body maxBodyBytes chunkBytes signals))
  end.

(** [roundTrip], the whole-message exchange. *)
Definition whole_exchange (streamID : string) (req : Request) (signals : list signal)
    : M (result Response) :=
  tid <- tunnel_id ;;
  match NewStream TypeHTTPRequest streamID tid (Some req) with
  | Err e => ret (Err e)
  | Ok env =>
      r <- write env ;;
      match r with
      | Err e => ret (Err (Wrap "write tunnel request" e))
      | Ok _ =>
          match signals with
          | [] => fun s => (None, s)
          | CtxDone cause :: _ =>
              _ <- cancelStream streamID (streamCancelReason (ctx_Err cause)) ;;
              ret (Err (ctx_Err cause))
          | SessionDone :: _ => ret (Err agent_disconnected)
          | Received msg :: _ =>
              let respEnv := msg_Envelope msg in
              if String.eqb (env_Type respEnv) TypeHTTPResponse
              then ret (DecodePayload Response respEnv)
              else if String.eqb (env_Type respEnv) TypeHTTPStreamError then
                match DecodePayload ErrorPayload respEnv with
                | Err e => ret (Err e)
                | Ok payload => ret (Err (Errorf (ep_Message payload)))
                end
              else ret (Err (Errorf ("unexpected response message " +:+ env_Type respEnv)))
          end
      end
  end.

Definition roundTrip (streamID : string) (req : Request) (signals : list signal)
    : M (result Response) :=
  a <- acquire ;;
  match a with
  | Err e => ret (Err e)
  | Ok _ =>
      deferring releaseStream
        (on_session (addPending streamID (mkMailbox 1 [])) ;;;
         deferring (removePending streamID) (whole_exchange streamID req signals))
  end.

(** * wsstream.go *)
Definition wsStreamPendingBuffer : Z := 64.

(** An accepted stream is its id; [closed] is its [closeOnce]. *)
Record wsStream := mkWSStream { ws_streamID : string; ws_closed : bool }.

Definition ws_cleanup (streamID : string) (s : agentSession) : agentSession :=
  releaseStream (removePending streamID s).

Definition openWSStream (streamID : string) (open : Open) (signals : list signal)
    : M (result (Accept * wsStream)) :=
  a <- acquire ;;
  match a with
  | Err e => ret (Err e)
  | Ok _ =>
      on_session (addPending streamID (mkMailbox wsStreamPendingBuffer [])) ;;;
      let failed (e : error) : M (result (Accept * wsStream)) :=
        on_session (ws_cleanup streamID) ;;; ret (Err e) in
      tid <- tunnel_id ;;
      match NewStream TypeWSOpen streamID tid (Some open) with
      | Err e => failed e
      | Ok env =>
          r <- write env ;;
          match r with
          | Err e => failed (Wrap "write ws open" e)
          | Ok _ =>
              match signals with
              | [] => fun s => (None, s)
              | CtxDone cause :: _ => failed cause
              | SessionDone :: _ => failed agent_disconnected
              | Received msg :: _ =>
                  let typ := env_Type (msg_Envelope msg) in
                  if String.eqb typ TypeWSAccept then
                    match DecodePayload Accept (msg_Envelope msg) with
                    | Err e => failed e
                    | Ok accept => ret (Ok (accept, mkWSStream streamID false))
                    end
                  else if String.eqb typ TypeWSError then
                    match DecodePayload ErrorPayload (msg_Envelope msg) with
                    | Err e => failed e
                    | Ok payload => failed (Errorf (ep_Message payload))
                    end
                  else failed (Errorf ("unexpected ws open response " +:+ typ))
              end
          end
      end
  end.

Definition SendMessage (w : wsStream) (typ : Type_) (data : bytes) : M (result unit) :=
  writeBinaryBody typ (ws_streamID w) data.
Definition SendClose (w : wsStream) (code : Z) (reason : string) : M (result unit) :=
  tid <- tunnel_id ;;
  match NewStream TypeWSClose (ws_streamID w) tid (Some (mkClose code reason)) with
  | Err e => ret (Err e)
  | Ok env => write env
  end.
Definition SendCancel (w : wsStream) (reason : string) : M (result unit) :=
  tid <- tunnel_id ;;
  match NewStream TypeWSCancel (ws_streamID w) tid (Some (mkStreamCancel reason)) with
  | Err e => ret (Err e)
  | Ok env => write env
  end.
Definition ws_Close (w : wsStream) : M wsStream :=
  if ws_closed w then ret w
  else on_session (ws_cleanup (ws_streamID w)) ;;; ret (mkWSStream (ws_streamID w) true).

(** [readLoop]: each element is what [wswire.Read] returned, with what the
    [select] of [deliver] does if the message is delivered.  The loop ends
    when reading fails, and then the session is done. *)
Definition delivered_types : list Type_ :=
  [TypeHTTPResponse; TypeHTTPResponseStart; TypeHTTPResponseBody; TypeHTTPResponseEnd;
   TypeHTTPStreamError; TypeWSAccept; TypeWSError; TypeWSMessageText; TypeWSMessageBinary;
   TypeWSClose; TypeWSCancel].

Definition deliver_or_block (ctx_done : bool) (choice : delivery) (msg : Message) : M bool :=
  fun s =>
    match deliver ctx_done choice msg (sess s) with
    | None => (None, s)
    | Some (ok, s') => (Some ok, mkSt s' (calls s) (conn_writes s) (public s))
    end.

Fixpoint readLoop (received : list (result Message * bool * delivery)) : M unit :=
  match received with
  | [] => fun s => (None, s)
  | (Err _, _, _) :: _ => on_session closeDone
  | (Ok msg, ctx_done, choice) :: rest =>
      let typ := env_Type (msg_Envelope msg) in
      if String.eqb typ TypePing then
        match New (T := unit) TypePong None with
        | Err _ => readLoop rest
        | Ok pong =>
            r <- write pong ;;
            match r with
            | Err _ => on_session closeDone
            | Ok _ => readLoop rest
            end
        end
      else if existsb (String.eqb typ) delivered_types then
        _ <- deliver_or_block ctx_done choice msg ;; readLoop rest
      else readLoop rest
  end.
End streams.

(** * What the session keeps *)
Section preserved.
Context {JE : JSONCodec Envelope} {JReq : JSONCodec Request} {JStart : JSONCodec RequestStart}
  {JResp : JSONCodec Response} {JRespStart : JSONCodec ResponseStart}
  {JChunk : JSONCodec BodyChunk} {JErr : JSONCodec ErrorPayload}
  {JCancel : JSONCodec StreamCancel} {JOpen : JSONCodec Open} {JAccept : JSONCodec Accept}
  {JClose : JSONCodec Close}.
Context (conn_Write : nat -> MessageType * bytes -> option error).
Context (writeResponseBody : nat -> bytes -> Z * option error).

(** [m] leaves the session as it is. *)
Definition keeps {A} (m : M A) : Prop := forall s, sess (snd (m s)) = sess s.

Lemma keeps_ret {A} (a : A) : keeps (ret a).
Proof. done. Qed.
Lemma keeps_blocked {A} : keeps (fun s : St => (@None A, s)).
Proof. done. Qed.
Lemma keeps_bind {A B} (m : M A) (k : A -> M B) :
  keeps m -> (forall a, keeps (k a)) -> keeps (bindM m k).
Proof.
  intros Hm Hk s. unfold bindM. specialize (Hm s). destruct (m s) as [[a|] s']; simpl in *; [|done].
  by rewrite Hk.
Qed.
Lemma keeps_send c f : keeps (send conn_Write c f).
Proof. intros s. unfold send. by destruct f. Qed.
Lemma keeps_write env : keeps (write conn_Write env).
Proof. apply keeps_send. Qed.
Lemma keeps_writeBinaryBody typ sid b : keeps (writeBinaryBody conn_Write typ sid b).
Proof. intros s. apply (keeps_send (WriteBody typ sid (tunnelID (sess s)) b)). Qed.
Lemma keeps_tunnel_id : keeps tunnel_id.
Proof. done. Qed.
Lemma keeps_write_public d : keeps (write_public writeResponseBody d).
Proof. intros s. unfold write_public. by destruct (writeResponseBody _ d). Qed.
Lemma keeps_head r : keeps (writeResponseStart r).
Proof. done. Qed.

Create HintDb keeps discriminated.
Local Hint Resolve keeps_ret keeps_blocked keeps_send keeps_write keeps_writeBinaryBody
  keeps_tunnel_id keeps_write_public keeps_head : keeps.

Ltac keeps :=
  repeat (eauto with keeps; intros;
    first [ apply keeps_bind | progress case_match | done ]).

Lemma keeps_cancelStream sid reason : keeps (cancelStream conn_Write sid reason).
Proof. unfold cancelStream. keeps. Qed.
Local Hint Resolve keeps_cancelStream : keeps.

Lemma keeps_body_loop sid max body sent : keeps (body_loop conn_Write sid max body sent).
Proof.
  revert sent. induction body as [|[data readErr] body IH]; intros sent; cbn [body_loop]; keeps.
Qed.
Local Hint Resolve keeps_body_loop : keeps.

Lemma keeps_response_loop sid chunk signals started r :
  keeps (response_loop conn_Write writeResponseBody sid chunk signals started r).
Proof.
  revert started r. induction signals as [|sig signals IH]; intros started r;
    cbn [response_loop]; unfold handleWholeResponse; keeps.
Qed.
Local Hint Resolve keeps_response_loop : keeps.

Lemma keeps_stream_exchange sid req body max chunk signals :
  keeps (stream_exchange conn_Write writeResponseBody sid req body max chunk signals).
Proof. unfold stream_exchange, writeRequestBody, readStreamResponse. keeps. Qed.
Lemma keeps_whole_exchange sid req signals : keeps (whole_exchange conn_Write sid req signals).
Proof. unfold whole_exchange. keeps. Qed.

(** A session whose counter of taken slots makes sense. *)
Definition slots_ok (s : agentSession) : Prop :=
  match streams s with None => True | Some (cap, used) => 0 <= used <= cap end.

Lemma agentSession_eta s : mkAgentSession (tunnelID s) (done s) (streams s) (pending s) = s.
Proof. by destruct s. Qed.

(** Taking a slot and a mailbox, then giving both back. *)
Lemma release_after_acquire s sid ch :
  slots_ok s -> pending s !! sid = None -> fst (acquireStream s) = Ok tt ->
  releaseStream (removePending sid (addPending sid ch (snd (acquireStream s)))) = s /\
  slots_ok (addPending sid ch (snd (acquireStream s))).
Proof.
  unfold acquireStream, slots_ok. intros Hs Hp. destruct (done s); [done|].
  destruct (streams s) as [[cap used]|] eqn:E; simpl.
  - destruct (Z.ltb_spec used cap); simpl; [|done]. intros _.
    unfold releaseStream, removePending, addPending, set_pending, set_streams. simpl.
    destruct (Z.ltb_spec 0 (used + 1)); [|lia]. simpl. rewrite delete_insert_id by done.
    split; [|lia]. rewrite <- agentSession_eta, E. f_equal. f_equal. f_equal. lia.
  - intros _. unfold releaseStream, removePending, addPending, set_pending. simpl. rewrite E.
    rewrite delete_insert_id by done. split; [|done]. rewrite <- E. apply agentSession_eta.
Qed.

Lemma acquire_spec s :
  acquire s = (Some (fst (acquireStream (sess s))),
               mkSt (snd (acquireStream (sess s))) (calls s) (conn_writes s) (public s)).
Proof. unfold acquire. by destruct (acquireStream (sess s)). Qed.

Lemma acquire_fails s e : fst (acquireStream s) = Err e -> snd (acquireStream s) = s.
Proof. unfold acquireStream. by repeat case_match. Qed.

(** A function that takes a slot and a mailbox, runs [m] and gives them back
    on the way out leaves the session as it found it. *)
Lemma bracket_keeps {A} (fail : error -> A) (m : M A) sid ch s r s' :
  slots_ok (sess s) -> pending (sess s) !! sid = None -> keeps m ->
  (a <- acquire ;;
   match a with
   | Err e => ret (fail e)
   | Ok _ =>
       deferring releaseStream
         (on_session (addPending sid ch) ;;; deferring (removePending sid) m)
   end) s = (Some r, s') ->
  sess s' = sess s.
Proof.
  intros Hs Hp Hm. unfold bindM at 1. rewrite acquire_spec.
  destruct (fst (acquireStream (sess s))) as [[]|e] eqn:E.
  - destruct (release_after_acquire _ sid ch Hs Hp E) as [Hr _].
    unfold deferring, on_session, bindM, ret. simpl.
    match goal with |- context [m ?st] => pose proof (Hm st) as Hk; destruct (m st) as [[a|] s1] end;
      simpl in *; [|done].
    intros [= <- <-]. simpl. by rewrite Hk.
  - intros [= <- <-]. simpl. by apply acquire_fails in E.
Qed.

Lemma openWSStream_session sid open signals s r s' :
  slots_ok (sess s) -> pending (sess s) !! sid = None ->
  openWSStream conn_Write sid open signals s = (Some r, s') ->
  match r with
  | Err _ => sess s' = sess s
  | Ok (_, w) => w = mkWSStream sid false /\ ws_cleanup sid (sess s') = sess s
  end.
Proof.
  intros Hs Hp. unfold openWSStream. unfold bindM at 1. rewrite acquire_spec.
  destruct (fst (acquireStream (sess s))) as [[]|e] eqn:E.
  2:{ intros [= <- <-]. simpl. by apply acquire_fails in E. }
  destruct (release_after_acquire _ sid (mkMailbox wsStreamPendingBuffer []) Hs Hp E) as [Hr _].
  set (s1 := addPending _ _ _) in Hr. fold (ws_cleanup sid s1) in Hr.
  unfold bindM, on_session, tunnel_id, ret. cbn [sess].
  destruct (NewStream _ _ _ (Some open)) as [env|e]; [|by intros [= <- <-]].
  match goal with |- context [write conn_Write env ?st] =>
    pose proof (keeps_write env st) as Hk; destruct (write conn_Write env st) as [[[[]|e]|] s2] end;
    cbn [snd sess] in Hk; try done; [|intros [= <- <-]; simpl; by rewrite Hk].
  destruct signals as [|[cause| |msg] signals]; try done;
    try (intros [= <- <-]; simpl; by rewrite Hk).
  destruct (String.eqb _ TypeWSAccept).
  - destruct (DecodePayload Accept _); intros [= <- <-]; simpl; rewrite Hk; [|done].
    by split.
  - destruct (String.eqb _ TypeWSError); [destruct (DecodePayload ErrorPayload _)|];
      intros [= <- <-]; simpl; by rewrite Hk.
Qed.

(** C27: every way out of a stream gives its slot and its mailbox back:
    whatever the agent, the connection and the public client do, when
    [roundTrip] or [streamRoundTrip] return, and when [openWSStream] fails or
    its stream is closed (once or twice), the session is as it was. *)
Theorem streams_release s sid :
  slots_ok (sess s) -> pending (sess s) !! sid = None ->
  (forall req signals r s',
     roundTrip conn_Write sid req signals s = (Some r, s') -> sess s' = sess s) /\
  (forall req body max chunk signals r s',
     streamRoundTrip conn_Write writeResponseBody sid req body max chunk signals s = (Some r, s') ->
     sess s' = sess s) /\
  (forall open signals e s',
     openWSStream conn_Write sid open signals s = (Some (Err e), s') -> sess s' = sess s) /\
  (forall open signals a w s',
     openWSStream conn_Write sid open signals s = (Some (Ok (a, w)), s') ->
     sess (snd (ws_Close w s')) = sess s /\
     sess (snd (bindM (ws_Close w) ws_Close s')) = sess s).
Proof.
  intros Hs Hp. split; [|split; [|split]].
  - intros req signals r s' H.
    apply (bracket_keeps (fun e => Err e) _ sid (mkMailbox 1 []) s r s' Hs Hp
      (keeps_whole_exchange sid req signals) H).
  - intros req body max chunk signals r s' H.
    apply (bracket_keeps (fun e => (zero_result, Some e)) _ sid (mkMailbox 32 []) s r s' Hs Hp
      (keeps_stream_exchange sid req body max chunk signals) H).
  - intros open signals e s' H. by apply openWSStream_session in H.
  - intros open signals a w s' H. apply openWSStream_session in H as (-> & H); [|done..].
    by split.
Qed.

(** * Cancelling *)
Definition is_cancel (c : call * result unit) : bool :=
  match c with
  | (WriteEnv env, _) => String.eqb (env_Type env) TypeHTTPStreamCancel
  | _ => false
  end.
Definition cancels (s : St) : nat := length (List.filter is_cancel (calls s)).

Definition adds_cancels {A} (n : nat) (m : M A) : Prop :=
  forall s, cancels (snd (m s)) = (n + cancels s)%nat.

Lemma cancels_send c f n :
  (forall r, is_cancel (c, r) = (n =? 1)%nat) -> (n <= 1)%nat -> adds_cancels n (send conn_Write c f).
Proof.
  intros Hc Hn s. unfold send, cancels.
  destruct f; cbn [snd calls]; rewrite List.filter_app, length_app; cbn [List.filter];
    rewrite Hc;
    destruct n as [|[|n]]; simpl; lia.
Qed.

Lemma NewStream_type {T} {J : JSONCodec T} typ sid tid (p : option T) env :
  NewStream typ sid tid p = Ok env -> env_Type env = typ.
Proof.
  unfold NewStream. destruct (String.eqb typ ""); [done|].
  destruct (marshalPayload p); simpl; [|done]. by intros [= <-].
Qed.

Lemma cancels_write env :
  String.eqb (env_Type env) TypeHTTPStreamCancel = false -> adds_cancels 0 (write conn_Write env).
Proof. intros H. apply cancels_send; [|lia]. intros r. simpl. by rewrite H. Qed.

Lemma cancels_body sid b : adds_cancels 0 (writeBinaryBody conn_Write TypeHTTPRequestBody sid b).
Proof. intros s. by apply (cancels_send (WriteBody _ sid (tunnelID (sess s)) b) _ 0); [|lia]. Qed.

Lemma cancels_public d : adds_cancels 0 (write_public writeResponseBody d).
Proof. intros s. unfold write_public. by destruct (writeResponseBody _ d). Qed.
Lemma cancels_head r : adds_cancels 0 (writeResponseStart r).
Proof. done. Qed.

(** Marshalling a cancel message never fails in [encoding/json]. *)
Hypothesis cancel_marshals : forall c : StreamCancel, is_ok (Marshal c) = true.

Lemma cancels_cancelStream sid reason : adds_cancels 1 (cancelStream conn_Write sid reason).
Proof.
  intros s. unfold cancelStream, bindM, tunnel_id.
  destruct (NewStream _ _ _ _) as [env|e] eqn:E.
  - apply NewStream_type in E. apply cancels_send; [|lia]. intros r. simpl. by rewrite E.
  - unfold NewStream in E. simpl in E. pose proof (cancel_marshals (mkStreamCancel reason)).
    by destruct (Marshal (mkStreamCancel reason)).
Qed.

(** [m] sends [n] cancels and returns [a] with [P a n]. *)
Definition cancels_post {A} (P : A -> nat -> Prop) (m : M A) : Prop :=
  forall s, match m s with
            | (Some a, s') => exists n, cancels s' = (n + cancels s)%nat /\ P a n
            | (None, s') => cancels s' = cancels s
            end.

Lemma cancels_ret {A} (P : A -> nat -> Prop) a : P a 0%nat -> cancels_post P (ret a).
Proof. intros H s. by exists 0%nat. Qed.
Lemma cancels_blocked {A} (P : A -> nat -> Prop) : cancels_post P (fun s => (@None A, s)).
Proof. done. Qed.
Lemma cancels_bind {A B} (P : B -> nat -> Prop) (m : M A) (k : A -> M B) :
  adds_cancels 0 m -> (forall a, cancels_post P (k a)) -> cancels_post P (bindM m k).
Proof.
  intros Hm Hk s. unfold bindM. specialize (Hm s). destruct (m s) as [[a|] s']; simpl in *; [|done].
  specialize (Hk a s'). by rewrite Hm in Hk.
Qed.
Lemma cancels_cancel {A} (P : A -> nat -> Prop) sid reason a :
  P a 1%nat -> cancels_post P (_ <- cancelStream conn_Write sid reason ;; ret a).
Proof.
  intros H s. unfold bindM. pose proof (cancels_cancelStream sid reason s) as Hc.
  destruct (cancelStream conn_Write sid reason s) as [[r|] s'] eqn:E; simpl in *; [by exists 1%nat|].
  revert E. unfold cancelStream, bindM, tunnel_id, ret, write, send. by repeat case_match.
Qed.

(** Errors that end a stream without being the end of its context. *)
Definition plain (e : error) : Prop := isStreamContextDoneCause e = false.
Definition plain_errors (T : Type) {J : JSONCodec T} : Prop :=
  forall raw e, Unmarshal raw = Err e -> plain e.

Lemma plain_Errorf msg : plain (Errorf msg).
Proof. done. Qed.
Lemma plain_Wrap msg e : plain e -> plain (Wrap msg e).
Proof. by unfold plain, isStreamContextDoneCause. Qed.

Lemma DecodePayload_plain (T : Type) {J : JSONCodec T} env e :
  plain_errors T -> DecodePayload T env = Err e -> plain e.
Proof.
  intros HJ. unfold DecodePayload. destruct (env_Payload env) as [|c l]; [by intros [= <-]|].
  destruct (Unmarshal (c :: l)) as [t|e'] eqn:E; [done|]. intros [= <-]. by eapply plain_Wrap, HJ.
Qed.

Hypothesis start_plain : plain_errors ResponseStart.
Hypothesis resp_plain : plain_errors Response.
Hypothesis chunk_plain : plain_errors BodyChunk.
Hypothesis err_plain : plain_errors ErrorPayload.
Hypothesis public_plain : forall n d e, snd (writeResponseBody n d) = Some e -> plain e.

(** How many cancels the reading side sent, given what it returns. *)
Definition read_post (out : streamRoundTripResult * option error) (n : nat) : Prop :=
  match snd out with
  | None => n = 0%nat
  | Some e => n = (if isStreamContextDoneCause e then 1 else 0)%nat
  end.

Lemma read_post_plain r e : plain e -> read_post (r, Some e) 0.
Proof. unfold plain, read_post. simpl. by intros ->. Qed.

(** A public write that fails or is short. *)
Lemma cancels_write_public d (k : Z * option error -> M (streamRoundTripResult * option error)) :
  (forall n, cancels_post read_post (k (n, None))) ->
  (forall n e, plain e -> cancels_post read_post (k (n, Some e))) ->
  cancels_post read_post (bindM (write_public writeResponseBody d) k).
Proof.
  intros Hok Herr s. unfold bindM. pose proof (cancels_public d s) as Hc.
  unfold write_public in *. set (i := length _) in *.
  pose proof (public_plain i d) as Hp. destruct (writeResponseBody i d) as [n [e|]]; simpl in *.
  - specialize (Herr n e (Hp e eq_refl)). match goal with |- context [k _ ?st] => specialize (Herr st) end.
    by rewrite Hc in Herr.
  - specialize (Hok n). match goal with |- context [k _ ?st] => specialize (Hok st) end.
    by rewrite Hc in Hok.
Qed.

Lemma cancels_whole env r : cancels_post read_post (handleWholeResponse writeResponseBody env r).
Proof.
  unfold handleWholeResponse. destruct (DecodePayload Response env) as [resp|e] eqn:E.
  - apply cancels_bind; [done|]. intros _. destruct (rp_Body resp) as [|c l]; [by apply cancels_ret|].
    apply cancels_write_public; intros n; [|intros e He; by apply cancels_ret, read_post_plain].
    destruct (negb _); by apply cancels_ret.
  - apply cancels_ret, read_post_plain. by apply DecodePayload_plain in E.
Qed.

Lemma responseBodyChunk_plain msg chunk e : responseBodyChunk msg chunk = Err e -> plain e.
Proof.
  unfold responseBodyChunk. destruct (msg_BinaryBody msg); simpl.
  - destruct (_ <? _); [by intros [= <-]|done].
  - destruct (DecodePayload BodyChunk _) as [p|e'] eqn:E; simpl.
    + destruct (_ <? _); [by intros [= <-]|done].
    + intros [= <-]. by apply DecodePayload_plain in E.
Qed.

Definition ctx_signal (sig : signal) : Prop :=
  match sig with CtxDone c => isStreamContextDoneCause c = true | _ => True end.

Lemma cancels_response_loop sid chunk signals started r :
  Forall ctx_signal signals ->
  cancels_post read_post (response_loop conn_Write writeResponseBody sid chunk signals started r).
Proof.
  intros HF. revert started r. induction HF as [|sig signals Hsig HF IH]; intros started r;
    cbn [response_loop]; [apply cancels_blocked|].
  destruct sig as [cause| |msg]; cbn [ctx_signal] in Hsig;
    [apply cancels_cancel; unfold read_post; cbn [snd]; by rewrite Hsig|
     apply cancels_ret, read_post_plain, plain_Errorf|].
  destruct (String.eqb _ TypeHTTPResponseStart).
  { destruct (DecodePayload ResponseStart _) eqn:E; [apply cancels_bind; [done|]; intros _; apply IH|].
    apply cancels_ret, read_post_plain. by apply DecodePayload_plain in E. }
  destruct (String.eqb _ TypeHTTPResponseBody).
  { destruct started; cbn [negb]; [|apply cancels_ret, read_post_plain, plain_Errorf].
    destruct (responseBodyChunk msg chunk) as [d|e] eqn:E.
    - apply cancels_write_public; intros n; [|intros e He; by apply cancels_ret, read_post_plain].
      destruct (negb _); [by apply cancels_ret|apply IH].
    - apply cancels_ret, read_post_plain. by eapply responseBodyChunk_plain. }
  destruct (String.eqb _ TypeHTTPResponseEnd).
  { destruct started; simpl; [by apply cancels_ret|].
    apply cancels_bind; [done|]. intros _. by apply cancels_ret. }
  destruct (String.eqb _ TypeHTTPResponse); [apply cancels_whole|].
  destruct (String.eqb _ TypeHTTPStreamError); [|by apply cancels_ret].
  destruct (DecodePayload ErrorPayload _) eqn:E; [by apply cancels_ret|].
  apply cancels_ret, read_post_plain. by apply DecodePayload_plain in E.
Qed.

Lemma cancels_body_loop sid max body sent : adds_cancels 0 (body_loop conn_Write sid max body sent).
Proof.
  revert sent. induction body as [|[data readErr] body IH]; intros sent s; cbn [body_loop]; [done|].
  assert (Hafter : forall sent s, cancels (snd (match readErr with
      | Some e => if errors_Is e EOF then ret (sent, None)
                  else ret (sent, Some (Wrap "read public request body" e))
      | None => body_loop conn_Write sid max body sent end s)) = cancels s).
  { intros sent' s'. destruct readErr as [e|]; [by destruct (errors_Is e EOF)|apply IH]. }
  destruct (0 <? _); [|apply Hafter]. destruct (max <? _); [done|].
  unfold bindM. pose proof (cancels_body sid data s) as Hb.
  destruct (writeBinaryBody conn_Write TypeHTTPRequestBody sid data s) as [[[[]|e]|] s'];
    simpl in *; [|done..]. by rewrite Hafter.
Qed.

(** The errors after which the agent was never told to start, or could not be
    told to end. *)
Definition unsent (e : error) : Prop :=
  exists x, e = Wrap "write request start" x \/ e = Wrap "write request end" x.

(** What a finished exchange says about the cancels it sent. *)
Definition exchange_post (out : streamRoundTripResult * option error) (n : nat) : Prop :=
  match snd out with
  | None => n = 0%nat
  | Some e => n = 1%nat \/ (n = 0%nat /\ unsent e)
  end.

Hypothesis request_marshals : forall r : RequestStart, is_ok (Marshal r) = true.

Lemma cancels_stream_exchange sid req body max chunk signals :
  Forall ctx_signal signals ->
  cancels_post exchange_post
    (stream_exchange conn_Write writeResponseBody sid req body max chunk signals).
Proof.
  intros HF. unfold stream_exchange. apply cancels_bind; [done|]. intros tid.
  destruct (NewStream TypeHTTPRequestStart sid tid (Some req)) as [start|e] eqn:Es.
  2:{ unfold NewStream in Es. simpl in Es. pose proof (request_marshals req).
      by destruct (Marshal req). }
  apply NewStream_type in Es. apply cancels_bind; [by apply cancels_write; rewrite Es|].
  intros [[]|e]; [|apply cancels_ret; right; split; [done|]; exists e; by left].
  apply cancels_bind.
  { unfold writeRequestBody. destruct body; [apply cancels_body_loop|done]. }
  intros [sent [e|]]; [apply cancels_cancel; by left|].
  cbn [NewStream]. change (NewStream TypeHTTPRequestEnd sid tid None)
    with (Ok (mkEnvelope TypeHTTPRequestEnd sid tid (to_bytes "{}"))). cbv iota.
  apply cancels_bind; [by apply cancels_write|].
  intros [[]|e]; [|apply cancels_ret; right; split; [done|]; exists e; by right].
  unfold readStreamResponse. intros s. unfold bindM at 1.
  pose proof (cancels_response_loop sid (if chunk <=? 0 then defaultStreamChunkBytes else chunk)
    signals false (set_RequestBytes zero_result sent) HF s) as Hread.
  destruct (response_loop _ _ _ _ _ _ _ s) as [[[r' [e|]]|] s']; [| |done].
  - destruct Hread as (n & Hn & Hp). unfold read_post in Hp. cbn [snd] in Hp.
    destruct (isStreamContextDoneCause e); subst n; [by exists 1%nat; split; [|left]|].
    pose proof (cancels_cancel exchange_post sid (streamCancelReasonForError e) (r', Some e)
      (or_introl eq_refl) s') as Hc.
    destruct (bindM _ _ s') as [[out|] s'']; [|by rewrite Hc].
    destruct Hc as (n & Hn' & Hp). exists n. split; [lia|done].
  - destruct Hread as (n & Hn & Hp). by exists n.
Qed.

(** The agent is told exactly once that a stream it has started was
    given up: a request relayed with success sends no cancel, every failure
    after the request start was written sends exactly one, and never two. *)
Lemma stream_cancelled_once sid req body max chunk signals s res err s' :
  Forall ctx_signal signals ->
  streamRoundTrip conn_Write writeResponseBody sid req body max chunk signals s
    = (Some (res, err), s') ->
  match err with
  | None => cancels s' = cancels s
  | Some e =>
      cancels s' = S (cancels s) \/
      (cancels s' = cancels s /\ (fst (acquireStream (sess s)) = Err e \/ unsent e))
  end.
Proof.
  intros HF. unfold streamRoundTrip, bindM at 1. rewrite acquire_spec.
  destruct (fst (acquireStream (sess s))) as [[]|e0]; [|intros [= <- <- <-]; right; auto].
  unfold deferring, on_session, ret, bindM. cbn [sess calls conn_writes public].
  match goal with |- context [stream_exchange ?a ?b ?c ?d ?e ?f ?g ?h ?st] =>
    pose proof (cancels_stream_exchange c d e f g h HF st) as Hx;
    destruct (stream_exchange a b c d e f g h st) as [[out|] s1] end; [|done].
  intros [= -> <-]. destruct Hx as (n & Hn & Hp). unfold exchange_post in Hp.
  unfold cancels in *. cbn [calls snd] in *. destruct err as [e|]; [|by subst n].
  destruct Hp as [->|[-> Hu]]; [by left|right; auto].
Qed.
End preserved.

(** * What is relayed *)
Section relayed.
Context {JE : JSONCodec Envelope} {JReq : JSONCodec Request} {JStart : JSONCodec RequestStart}
  {JResp : JSONCodec Response} {JRespStart : JSONCodec ResponseStart}
  {JChunk : JSONCodec BodyChunk} {JErr : JSONCodec ErrorPayload}
  {JCancel : JSONCodec StreamCancel}.
Context (conn_Write : nat -> MessageType * bytes -> option error).
Context (writeResponseBody : nat -> bytes -> Z * option error).

(** The bytes a reader gives before its first error. *)
Fixpoint body_bytes (body : reader) : bytes :=
  match body with
  | [] => []
  | (data, Some _) :: _ => data
  | (data, None) :: rest => data ++ body_bytes rest
  end.

(** The bytes of the body frames that were written. *)
Definition forwarded_data (c : call * result unit) : bytes :=
  match c with (WriteBody _ _ _ data, Ok _) => data | _ => [] end.
Definition forwarded (cs : list (call * result unit)) : bytes := concat (map forwarded_data cs).

Definition body_frame (sid tid : string) (chunkBytes : Z) (c : call * result unit) : Prop :=
  exists d, fst c = WriteBody TypeHTTPRequestBody sid tid d /\ 0 < Z.of_nat (length d) <= chunkBytes.

Lemma writeBinaryBody_spec typ sid data s :
  exists r s', writeBinaryBody conn_Write typ sid data s = (Some r, s') /\
    sess s' = sess s /\ public s' = public s /\
    calls s' = calls s ++ [(WriteBody typ sid (tunnelID (sess s)) data, r)].
Proof. unfold writeBinaryBody, send. destruct (WriteBinaryBody _ _ _ _); eauto 10. Qed.

Lemma body_loop_spec sid maxB chunk body sent s :
  0 <= sent <= maxB -> maxB + chunk <= max_int64 ->
  Forall (fun rd => Z.of_nat (length (fst rd)) <= chunk) body ->
  exists sent' err s' cs,
    body_loop conn_Write sid maxB body sent s = (Some (sent', err), s') /\
    calls s' = calls s ++ cs /\ Forall (body_frame sid (tunnelID (sess s)) chunk) cs /\
    sent + Z.of_nat (length (forwarded cs)) <= maxB /\
    forwarded cs `prefix_of` body_bytes body /\
    (err = None -> forwarded cs = body_bytes body /\ sent' = sent + Z.of_nat (length (body_bytes body))).
Proof.
  intros Hs Hm HF. revert sent s Hs. induction HF as [|[data readErr] body Hd HF IH]; intros sent s Hs;
    cbn [body_loop].
  { exists sent, None, s, []. rewrite app_nil_r. repeat split; try done; simpl; lia. }
  simpl in Hd. set (n := Z.of_nat (length data)) in *.
  (* what follows once [sent'] bytes are out *)
  set (after := fun sent => match readErr with
      | Some e => if errors_Is e EOF then ret (sent, None)
                  else ret (sent, Some (Wrap "read public request body" e))
      | None => body_loop conn_Write sid maxB body sent end).
  assert (Hafter : forall sent0 s0, 0 <= sent0 <= maxB -> exists sent' err s' cs,
    after sent0 s0 = (Some (sent', err), s') /\ calls s' = calls s0 ++ cs /\
    Forall (body_frame sid (tunnelID (sess s0)) chunk) cs /\
    sent0 + Z.of_nat (length (forwarded cs)) <= maxB /\
    forwarded cs `prefix_of` (match readErr with None => body_bytes body | Some _ => [] end) /\
    (err = None -> forwarded cs = (match readErr with None => body_bytes body | Some _ => [] end) /\
       sent' = sent0 + Z.of_nat (length (forwarded cs)))).
  { intros sent0 s0 H0. unfold after. destruct readErr as [e|].
    - exists sent0, (if errors_Is e EOF then None else Some (Wrap "read public request body" e)), s0, [].
      rewrite app_nil_r. destruct (errors_Is e EOF); repeat split; try done; simpl; lia.
    - destruct (IH sent0 s0 H0) as (sent' & err & s' & cs & E1 & E2 & E3 & E4 & E5 & E6).
      exists sent', err, s', cs. repeat split; try done; destruct (E6 ltac:(done)) as [E7 E8];
        [done|]. by rewrite E7. }
  assert (Hbytes : body_bytes ((data, readErr) :: body) =
    data ++ match readErr with None => body_bytes body | Some _ => [] end).
  { simpl. by destruct readErr; rewrite ?app_nil_r. }
  rewrite Hbytes. destruct (Z.ltb_spec 0 n) as [Hn|Hn].
  2:{ assert (data = []) as -> by (destruct data; simpl in *; [done|unfold n in *; lia]).
      destruct (Hafter sent s Hs) as (sent' & err & s' & cs & E1 & E2 & E3 & E4 & E5 & E6).
      exists sent', err, s', cs. repeat split; try done; destruct (E6 ltac:(done)) as [E7 E8]; [done|].
      simpl. by rewrite <- E7. }
  rewrite int64_id by (unfold min_int64, n in *; lia).
  destruct (Z.ltb_spec maxB (sent + n)) as [Hbig|Hfit].
  { exists (sent + n), (Some ErrRequestBodyTooLarge), s, []. rewrite app_nil_r.
    repeat split; try done; simpl; try lia. apply prefix_nil. }
  unfold bindM. destruct (writeBinaryBody_spec TypeHTTPRequestBody sid data s)
    as (r & s1 & -> & Hsess & _ & Hcalls).
  assert (Hframe : body_frame sid (tunnelID (sess s)) chunk
    (WriteBody TypeHTTPRequestBody sid (tunnelID (sess s)) data, r)) by (exists data; unfold n in *; auto).
  destruct r as [[]|e].
  - destruct (Hafter (sent + n) s1 ltac:(lia)) as (sent' & err & s' & cs & E1 & E2 & E3 & E4 & E5 & E6).
    exists sent', err, s', ((WriteBody TypeHTTPRequestBody sid (tunnelID (sess s)) data, Ok tt) :: cs).
    rewrite Hsess in E3. unfold forwarded in *. simpl. rewrite length_app. fold n.
    repeat split; try done; [by rewrite E2, Hcalls, <- app_assoc|by constructor|unfold n in *; lia|
      by apply prefix_app|..]; destruct (E6 ltac:(done)) as [E7 E8]; [by rewrite E7|].
    rewrite length_app, <- E7. unfold n in *. lia.
  - exists (sent + n), (Some (Wrap "write request body" e)), s1,
      [(WriteBody TypeHTTPRequestBody sid (tunnelID (sess s)) data, Err e)].
    repeat split; try done; [by constructor|simpl; lia|apply prefix_nil].
Qed.

(** The request body reaches the agent intact and bounded: the frames
    written are at most one chunk each, carry a prefix of the body and never
    more than the configured maximum, and when the upload succeeds they carry
    all of it, in order, and the byte count is its length. *)
Lemma request_body_relayed sid body maxBodyBytes chunk s :
  0 < maxBodyBytes -> maxBodyBytes + chunk <= max_int64 ->
  Forall (fun rd => Z.of_nat (length (fst rd)) <= chunk) body ->
  exists sent err s' cs,
    writeRequestBody conn_Write sid (Some body) maxBodyBytes s = (Some (sent, err), s') /\
    calls s' = calls s ++ cs /\ Forall (body_frame sid (tunnelID (sess s)) chunk) cs /\
    Z.of_nat (length (forwarded cs)) <= maxBodyBytes /\
    forwarded cs `prefix_of` body_bytes body /\
    (err = None -> forwarded cs = body_bytes body /\ sent = Z.of_nat (length (body_bytes body))).
Proof.
  intros Hm Hb HF. unfold writeRequestBody. destruct (Z.leb_spec maxBodyBytes 0); [lia|].
  apply (body_loop_spec sid maxBodyBytes chunk body 0 s); [lia|done|done].
Qed.

(** ** The response *)
(** Every body write comes after a response head. *)
Fixpoint headed (started : bool) (out : list public_write) : bool :=
  match out with
  | [] => true
  | ResponseHead _ :: out' => headed true out'
  | ResponseData _ _ :: out' => started && headed started out'
  | _ :: out' => headed started out'
  end.
Definition written (p : public_write) : Z := match p with ResponseData _ n => n | _ => 0 end.
Definition bytes_written (out : list public_write) : Z := foldr (fun p n => written p + n) 0 out.
(** The status of the last head, [st] without one. *)
Fixpoint last_status (st : Z) (out : list public_write) : Z :=
  match out with
  | [] => st
  | ResponseHead r :: out' => last_status (rps_Status r) out'
  | _ :: out' => last_status st out'
  end.
Definition has_head (out : list public_write) : bool :=
  existsb (fun p => match p with ResponseHead _ => true | _ => false end) out.

(** [m], run with [started] and result [r], writes a well-formed response and
    accounts for it. *)
Definition responds (started : bool) (r : streamRoundTripResult)
    (m : M (streamRoundTripResult * option error)) : Prop :=
  forall s res err s', m s = (Some (res, err), s') ->
  exists out, public s' = public s ++ out /\ headed started out = true /\
    res_ResponseBytes res = res_ResponseBytes r + bytes_written out /\
    res_Status res = last_status (res_Status r) out /\
    res_RequestBytes res = res_RequestBytes r /\
    (err = None -> started || has_head out = true).

Lemma responds_ret_err started r e : responds started r (ret (r, Some e)).
Proof.
  intros s res err s' [= <- <- <-]. exists []. rewrite app_nil_r. repeat split; try done. simpl. lia.
Qed.

Lemma responds_ok r : responds true r (ret (r, None)).
Proof.
  intros s res err s' [= <- <- <-]. exists []. rewrite app_nil_r. repeat split; try done. simpl. lia.
Qed.

Lemma responds_head started r st h m :
  responds true (set_Status r st) m ->
  responds started r (writeResponseStart (mkResponseStart st h) ;;; m).
Proof.
  intros Hm s res err s' E. unfold bindM, writeResponseStart, emit in E.
  apply Hm in E as (out & E1 & E2 & E3 & E4 & E5 & E6). simpl in *.
  exists (ResponseHead (mkResponseStart st h) :: out). rewrite E1, <- app_assoc.
  repeat split; try done. intros _. by rewrite orb_true_r.
Qed.

Lemma responds_data r d k :
  (forall n e, responds true (add_ResponseBytes r n) (k (n, e))) ->
  responds true r (bindM (write_public writeResponseBody d) k).
Proof.
  intros Hk s res err s' E. unfold bindM, write_public in E.
  destruct (writeResponseBody _ d) as [n e].
  apply Hk in E as (out & E1 & E2 & E3 & E4 & E5 & E6). simpl in *.
  exists (ResponseData d n :: out). rewrite E1, <- app_assoc. simpl.
  repeat split; try done. lia.
Qed.

Lemma responds_cancel started r sid reason e :
  responds started r (_ <- cancelStream conn_Write sid reason ;; ret (r, Some e)).
Proof.
  intros s res err s' E. unfold bindM, ret in E.
  destruct (cancelStream conn_Write sid reason s) as [[x|] s1] eqn:Ec; [|done].
  injection E as <- <- <-. exists []. rewrite app_nil_r.
  assert (public s1 = public s) as ->.
  { revert Ec. unfold cancelStream, bindM, tunnel_id, ret, write, send.
    repeat case_match; by intros [= <- <-]. }
  repeat split; try done. simpl. lia.
Qed.

Lemma responds_whole started env r :
  responds started r (handleWholeResponse writeResponseBody env r).
Proof.
  unfold handleWholeResponse. destruct (DecodePayload Response env); [|apply responds_ret_err].
  apply responds_head. destruct (rp_Body a) as [|c l]; [apply responds_ok|].
  apply responds_data. intros n [e|]; [apply responds_ret_err|].
  destruct (negb _); [apply responds_ret_err|apply responds_ok].
Qed.

Lemma responds_loop sid chunk signals started r :
  responds started r (response_loop conn_Write writeResponseBody sid chunk signals started r).
Proof.
  revert started r. induction signals as [|sig signals IH]; intros started r; cbn [response_loop].
  { by intros s res err s' E. }
  destruct sig as [cause| |msg]; [apply responds_cancel|apply responds_ret_err|].
  destruct (String.eqb _ TypeHTTPResponseStart).
  { destruct (DecodePayload ResponseStart _); [apply responds_head, IH|apply responds_ret_err]. }
  destruct (String.eqb _ TypeHTTPResponseBody).
  { destruct started; [|apply responds_ret_err]. cbn [negb].
    destruct (responseBodyChunk msg chunk) as [d|e]; [|apply responds_ret_err].
    apply responds_data. intros n [e|]; [apply responds_ret_err|].
    destruct (negb _); [apply responds_ret_err|apply IH]. }
  destruct (String.eqb _ TypeHTTPResponseEnd).
  { destruct started; [apply responds_ok|]. apply responds_head, responds_ok. }
  destruct (String.eqb _ TypeHTTPResponse); [apply responds_whole|].
  destruct (String.eqb _ TypeHTTPStreamError); [|apply responds_ret_err].
  destruct (DecodePayload ErrorPayload _); apply responds_ret_err.
Qed.

(** C28: whatever the agent sends, the public client never gets body bytes
    before a response head, the status and byte count reported for the stream
    are those of what was written, and a success is reported only when a
    response was sent. *)
Theorem response_well_formed sid signals chunkBytes r s res err s' :
  readStreamResponse conn_Write writeResponseBody sid signals chunkBytes r s
    = (Some (res, err), s') ->
  exists out, public s' = public s ++ out /\ headed false out = true /\
    res_ResponseBytes res = res_ResponseBytes r + bytes_written out /\
    res_Status res = last_status (res_Status r) out /\
    res_RequestBytes res = res_RequestBytes r /\
    (err = None -> has_head out = true).
Proof. apply responds_loop. Qed.

(** Decide the comparisons of message types that are constants. *)
Ltac decide_types :=
  repeat match goal with
  | |- context [String.eqb ?a ?b] =>
      let r := eval vm_compute in (String.eqb a b) in
      lazymatch r with true => idtac | false => idtac end;
      change (String.eqb a b) with r
  end; cbv iota.

(** The messages of a streamed response. *)
Definition chunk_message (sid tid : string) (d : bytes) : Message :=
  mkMessage (mkEnvelope TypeHTTPResponseBody sid tid (to_bytes "{}")) d true.
Definition end_message (sid tid : string) : Message :=
  mkMessage (mkEnvelope TypeHTTPResponseEnd sid tid (to_bytes "{}")) [] false.

(** A complete streamed response reaches the public client as it is:
    its status and headers, then every chunk in order, and the stream ends
    with success and the exact byte count. *)
Lemma response_relayed sid tid chunkBytes start resp chunks r s :
  (forall n d, writeResponseBody n d = (Z.of_nat (length d), None)) ->
  0 < chunkBytes ->
  env_Type (msg_Envelope start) = TypeHTTPResponseStart ->
  DecodePayload ResponseStart (msg_Envelope start) = Ok resp -> 0 < rps_Status resp ->
  Forall (fun d => Z.of_nat (length d) <= chunkBytes) chunks ->
  let signals := Received start ::
    map (fun d => Received (chunk_message sid tid d)) chunks ++ [Received (end_message sid tid)] in
  readStreamResponse conn_Write writeResponseBody sid signals chunkBytes r s =
  (Some (mkResult (rps_Status resp) (res_RequestBytes r)
           (res_ResponseBytes r + Z.of_nat (length (concat chunks))), None),
   mkSt (sess s) (calls s) (conn_writes s)
     (public s ++ ResponseHead resp ::
        map (fun d => ResponseData d (Z.of_nat (length d))) chunks)).
Proof.
  intros Hw Hc Ht Hd Hst HF. unfold readStreamResponse. destruct (Z.leb_spec chunkBytes 0); [lia|].
  cbn [response_loop]. rewrite Ht, Hd. decide_types. destruct (Z.leb_spec (rps_Status resp) 0); [lia|].
  unfold bindM at 1. cbn [writeResponseStart emit].
  assert (Hloop : forall r0 s0, 
    response_loop conn_Write writeResponseBody sid chunkBytes
      (map (fun d => Received (chunk_message sid tid d)) chunks ++ [Received (end_message sid tid)])
      true r0 s0 =
    (Some (mkResult (res_Status r0) (res_RequestBytes r0)
       (res_ResponseBytes r0 + Z.of_nat (length (concat chunks))), None),
     mkSt (sess s0) (calls s0) (conn_writes s0)
       (public s0 ++ map (fun d => ResponseData d (Z.of_nat (length d))) chunks))).
  { clear -Hw HF Hc. induction HF as [|d chunks Hd HF IH]; intros r0 s0; cbn [map app response_loop concat].
    - simpl. rewrite app_nil_r, Z.add_0_r. by destruct r0, s0.
    - cbn [chunk_message msg_Envelope env_Type]. decide_types. cbn [negb].
      unfold responseBodyChunk. cbn [msg_BinaryBody msg_Body chunk_message rbind].
      destruct (Z.ltb_spec chunkBytes (Z.of_nat (length d))); [lia|].
      unfold bindM at 1. unfold write_public. rewrite Hw. cbn [fst snd]. rewrite Z.eqb_refl. cbn [negb].
      rewrite IH. cbn [public sess calls conn_writes]. rewrite <- app_assoc. simpl.
      rewrite length_app. f_equal. f_equal. f_equal. unfold add_ResponseBytes. simpl. f_equal. lia. }
  rewrite Hloop. cbn [public sess calls conn_writes set_Status res_Status res_RequestBytes res_ResponseBytes].
  rewrite <- app_assoc. by destruct resp.
Qed.
End relayed.

(** * Concurrent streams
    The streams of a session run concurrently; each takes a slot, registers a
    mailbox, unregisters it and gives the slot back, in this order, and every
    one of these calls is atomic; [Connection] has the finer steps of a
    delivery.  [holding] are the streams that have a slot,
    [waiting] those that have a mailbox. *)
Record world := mkWorld { w_sess : agentSession; holding : gset string; waiting : gset string }.

Inductive sstep : world -> world -> Prop :=
| step_acquire w sid s' :
    sid ∉ holding w -> acquireStream (w_sess w) = (Ok tt, s') ->
    sstep w (mkWorld s' ({[sid]} ∪ holding w) (waiting w))
| step_register w sid cap :
    sid ∈ holding w -> sid ∉ waiting w ->
    sstep w (mkWorld (addPending sid (mkMailbox cap []) (w_sess w)) (holding w) ({[sid]} ∪ waiting w))
| step_unregister w sid :
    sid ∈ waiting w ->
    sstep w (mkWorld (removePending sid (w_sess w)) (holding w) (waiting w ∖ {[sid]}))
| step_release w sid :
    sid ∈ holding w -> sid ∉ waiting w ->
    sstep w (mkWorld (releaseStream (w_sess w)) (holding w ∖ {[sid]}) (waiting w))
| step_deliver w ctx_done choice msg ok s' :
    deliver ctx_done choice msg (w_sess w) = Some (ok, s') ->
    sstep w (mkWorld s' (holding w) (waiting w))
| step_close w : sstep w (mkWorld (closeDone (w_sess w)) (holding w) (waiting w)).

Record slots_inv (limit : Z) (w : world) : Prop := {
  si_streams : streams (w_sess w) = Some (limit, Z.of_nat (size (holding w)));
  si_bound : Z.of_nat (size (holding w)) <= limit;
  si_pending : dom (pending (w_sess w)) = waiting w;
  si_sub : waiting w ⊆ holding w;
  si_mail : map_Forall (fun _ ch => 0 <= mb_cap ch -> Z.of_nat (length (mb_queue ch)) <= mb_cap ch)
              (pending (w_sess w));
}.

Lemma slots_inv_step limit w w' : slots_inv limit w -> sstep w w' -> slots_inv limit w'.
Proof.
  intros [Hs Hb Hp Hsub Hmail] Hstep. destruct Hstep as [w sid s' Hnew Ha|w sid cap Hin Hnot|w sid Hin|
    w sid Hin Hnot|w cd choice msg ok s' Hd|w]; simpl.
  - unfold acquireStream in Ha. destruct (done _); [done|]. rewrite Hs in Ha.
    destruct (Z.ltb_spec (Z.of_nat (size (holding w))) limit); [|done]. injection Ha as <-.
    assert (E : size ({[sid]} ∪ holding w) = S (size (holding w)))
      by (rewrite size_union by set_solver; by rewrite size_singleton).
    split; simpl; rewrite ?E; try done; [f_equal; f_equal; lia|lia|set_solver].
  - split; simpl; try done; [by rewrite dom_insert_L, Hp|set_solver|].
    apply map_Forall_insert_2; [simpl; lia|done].
  - split; simpl; try done; [by rewrite dom_delete_L, Hp|set_solver|]. by apply map_Forall_delete.
  - assert (E : size (holding w) = S (size (holding w ∖ {[sid]}))).
    { rewrite size_difference by set_solver. rewrite size_singleton.
      assert (size (holding w) <> 0%nat) by (apply size_non_empty_iff; set_solver). lia. }
    unfold releaseStream. rewrite Hs. destruct (Z.ltb_spec 0 (Z.of_nat (size (holding w)))); [|lia].
    split; simpl; try done; [f_equal; f_equal; lia|lia|set_solver].
  - unfold deliver in Hd. destruct (pending (w_sess w) !! _) as [ch|] eqn:E; [|by injection Hd as <- <-].
    destruct choice; [|destruct (_ || _); [by injection Hd as <- <-|done]].
    destruct (Z.ltb_spec (Z.of_nat (length (mb_queue ch))) (mb_cap ch)); [|done].
    injection Hd as <- <-. split; simpl; try done.
    + rewrite dom_insert_L, Hp. apply elem_of_dom_2 in E. set_solver.
    + apply map_Forall_insert_2; [|done]. simpl. rewrite length_app. simpl. lia.
  - by split.
Qed.

(** In every interleaving of streams, deliveries and closing, no more
    streams than the configured maximum hold a slot at once, the counter is
    exactly their number, mailboxes exist exactly for the streams that wait,
    and no mailbox holds more than its capacity. *)
Lemma concurrent_streams_bounded tid limit w :
  0 < limit -> rtc sstep (mkWorld (newAgentSession tid limit) ∅ ∅) w ->
  activeStreams (w_sess w) = Z.of_nat (size (holding w)) /\
  activeStreams (w_sess w) <= streamCapacity (w_sess w) /\ streamCapacity (w_sess w) = limit /\
  (forall sid, is_Some (pending (w_sess w) !! sid) <-> sid ∈ waiting w) /\
  (forall sid ch, pending (w_sess w) !! sid = Some ch -> 0 <= mb_cap ch ->
     Z.of_nat (length (mb_queue ch)) <= mb_cap ch).
Proof.
  intros Hl Hr. assert (Hinv : slots_inv limit w).
  { assert (Hgen : forall w1 w2, rtc sstep w1 w2 -> slots_inv limit w1 -> slots_inv limit w2).
    { induction 1 as [|w1 w2 w3 H1 _ IH]; intros H; [done|]. by eapply IH, slots_inv_step. }
    apply (Hgen _ _ Hr). unfold newAgentSession. rewrite (proj2 (Z.ltb_lt _ _) Hl).
    split; cbn [w_sess holding waiting streams pending];
      [done|rewrite size_empty; lia|apply dom_empty_L|done|apply map_Forall_empty]. }
  destruct Hinv as [Hs Hb Hp Hsub Hmail]. unfold activeStreams, streamCapacity. rewrite Hs.
  split; [done|]. split; [done|]. split; [done|]. split.
  - intros sid. by rewrite <- elem_of_dom, Hp.
  - intros sid ch E. by apply (Hmail sid ch E).
Qed.

Lemma concurrent_streams_bounded_witness :
  let s1 := newAgentSession "tun_1" 2 in
  let s2 := snd (acquireStream s1) in
  let w := mkWorld (addPending "str_1" (mkMailbox 32 []) s2) ({["str_1"]} ∪ ∅) ({["str_1"]} ∪ ∅) in
  activeStreams (w_sess w) = Z.of_nat (size (holding w)) /\
  activeStreams (w_sess w) <= streamCapacity (w_sess w) /\ streamCapacity (w_sess w) = 2 /\
  (forall sid, is_Some (pending (w_sess w) !! sid) <-> sid ∈ waiting w) /\
  (forall sid ch, pending (w_sess w) !! sid = Some ch -> 0 <= mb_cap ch ->
     Z.of_nat (length (mb_queue ch)) <= mb_cap ch).
Proof.
  intros s1 s2 w. apply (concurrent_streams_bounded "tun_1" 2 w); [reflexivity|].
  eapply rtc_l; [apply (step_acquire (mkWorld s1 ∅ ∅) "str_1" s2); [set_solver|reflexivity]|].
  eapply rtc_l; [apply (step_register _ "str_1" 32); [set_solver|set_solver]|].
  apply rtc_refl.
Defined.

(** * Witnesses *)
Module Witness.
(** Codecs for concrete runs: every payload decodes to a fixed value. *)
Definition const_codec {T} (t : T) : JSONCodec T :=
  {| Marshal _ := Ok (to_bytes "{}"); Unmarshal _ := Ok t |}.
#[local] Instance je : JSONCodec Envelope := const_codec (mkEnvelope TypePing "" "" []).
#[local] Instance jreq : JSONCodec Request := const_codec (mkRequest "GET" "/" "" ∅ []).
#[local] Instance jstart : JSONCodec RequestStart := const_codec (mkRequestStart "GET" "/" "" ∅ 0).
#[local] Instance jresp : JSONCodec Response := const_codec (mkResponse 200 ∅ []).
#[local] Instance jrs : JSONCodec ResponseStart := const_codec (mkResponseStart 201 ∅).
#[local] Instance jchunk : JSONCodec BodyChunk := const_codec (mkBodyChunk []).
#[local] Instance jerr : JSONCodec ErrorPayload := const_codec (mkErrorPayload "" "").
#[local] Instance jcancel : JSONCodec StreamCancel := const_codec (mkStreamCancel "").
#[local] Instance jopen : JSONCodec Open := const_codec (mkOpen "/" "" ∅ []).
#[local] Instance jaccept : JSONCodec Accept := const_codec (mkAccept "").
#[local] Instance jclose : JSONCodec Close := const_codec (mkClose 1000 "").

Definition conn_ok : nat -> MessageType * bytes -> option error := fun _ _ => None.
Definition writer_ok : nat -> bytes -> Z * option error := fun _ d => (Z.of_nat (length d), None).
Definition st0 : St := mkSt (newAgentSession "tun_1" 2) [] 0 [].
Definition body : reader := [(to_bytes "hello ", None); (to_bytes "world", Some EOF)].
Definition req : RequestStart := mkRequestStart "POST" "/up" "" ∅ 11.
Definition start : Message :=
  mkMessage (mkEnvelope TypeHTTPResponseStart "str_1" "tun_1" (to_bytes "{}")) [] false.
Definition signals : list signal :=
  Received start :: map (fun d => Received (chunk_message "str_1" "tun_1" d))
    [to_bytes "ab"; to_bytes "cd"] ++ [Received (end_message "str_1" "tun_1")].

Lemma streams_release_witness :
  sess (snd (streamRoundTrip conn_ok writer_ok "str_1" req (Some body) 100 16 signals st0)) = sess st0.
Proof.
  destruct (streams_release conn_ok writer_ok st0 "str_1") as (_ & H & _).
  - by vm_compute.
  - reflexivity.
  - apply (H req (Some body) 100 16 signals (mkResult 201 11 4, None)). vm_compute. reflexivity.
Defined.

Lemma stream_cancelled_once_witness :
  match streamRoundTrip conn_ok writer_ok "str_1" req (Some body) 8 16 [CtxDone Canceled] st0 with
  | (Some (_, Some e), s') =>
      cancels s' = 1%nat \/
      (cancels s' = 0%nat /\ (fst (acquireStream (sess st0)) = Err e \/ unsent e))
  | _ => False
  end.
Proof.
  apply (stream_cancelled_once (JE := je) (JStart := jstart) (JResp := jresp) (JRespStart := jrs)
    (JChunk := jchunk) (JErr := jerr) (JCancel := jcancel) conn_ok writer_ok (fun _ => eq_refl)
    ltac:(done) ltac:(done) ltac:(done) ltac:(done) ltac:(done) (fun _ => eq_refl)
    "str_1" req (Some body) 8 16 [CtxDone Canceled] st0
    (mkResult 0 11 0) (Some ErrRequestBodyTooLarge)).
  - by repeat constructor.
  - reflexivity.
Defined.

Lemma request_body_relayed_witness :
  exists sent err s' cs,
    writeRequestBody conn_ok "str_1" (Some body) 100 st0 = (Some (sent, err), s') /\
    calls s' = calls st0 ++ cs /\ Forall (body_frame "str_1" (tunnelID (sess st0)) 16) cs /\
    Z.of_nat (length (forwarded cs)) <= 100 /\
    forwarded cs `prefix_of` body_bytes body /\
    (err = None -> forwarded cs = body_bytes body /\ sent = Z.of_nat (length (body_bytes body))).
Proof.
  apply (request_body_relayed conn_ok "str_1" body 100 16 st0); [by cbv|by cbv|].
  repeat constructor; by cbv.
Defined.

Lemma response_well_formed_witness :
  exists out, public (snd (readStreamResponse conn_ok writer_ok "str_1" signals 16 zero_result st0))
      = public st0 ++ out /\ headed false out = true /\
    4 = 0 + bytes_written out /\ 201 = last_status 0 out /\ 0 = 0 /\
    (@None error = None -> has_head out = true).
Proof.
  apply (response_well_formed conn_ok writer_ok "str_1" signals 16 zero_result st0
    (mkResult 201 0 4) None). reflexivity.
Defined.

Lemma response_relayed_witness :
  readStreamResponse conn_ok writer_ok "str_1" signals 16 zero_result st0 =
  (Some (mkResult 201 0 (0 + 4), None),
   mkSt (sess st0) (calls st0) (conn_writes st0)
     (public st0 ++ ResponseHead (mkResponseStart 201 ∅) ::
        map (fun d => ResponseData d (Z.of_nat (length d))) [to_bytes "ab"; to_bytes "cd"])).
Proof.
  apply (response_relayed conn_ok writer_ok "str_1" "tun_1" 16 start (mkResponseStart 201 ∅)
    [to_bytes "ab"; to_bytes "cd"] zero_result st0); try reflexivity.
  repeat constructor; by cbv.
Defined.
End Witness.
