(* ===== verification/Connection.v ===== *)
(** The one WebSocket connection of an agent session, at the gateway
    (server/gateway/internal/gateway/session.go): the read loop, the stream
    goroutines, the keepalive and the lock [sendMu] they share.

    [Session] follows one stream with the outcome of its calls; this file
    follows who waits for whom.  [deliver] looks the channel of a stream up and
    then sends to that channel, so channels live in a heap and the loop keeps
    the address it found, also when the stream is removed meanwhile.  A
    goroutine that cannot proceed has no step: [step] is [None]. *)
From S2P Require Import Prelude GoStrings Messages Wire.
From S2P Require Session.
From Stdlib Require Import ZArith Lia List String Ascii Bool.
From stdpp Require Import base gmap strings list relations.

Open Scope Z_scope.

(** * The state *)
(** What the agent's connection carries: the answer to a WebSocket ping, or a
    message. *)
Inductive frame : Type := PongFrame | Data (msg : Message).
(** The channel of a stream: its capacity, and what is in it. *)
Record channel := mkChannel { ch_cap : nat; ch_queue : list Message }.
(** The stream that waits on a channel: [roundTrip], [streamRoundTrip] or
    [openWSStream]. *)
Inductive stream_kind : Type := WholeStream | ChunkedStream | WebSocketStream.
Definition wsStreamPendingBuffer : nat := 64.
Definition buffer (k : stream_kind) : nat :=
  match k with WholeStream => 1 | ChunkedStream => 32 | WebSocketStream => wsStreamPendingBuffer end.

(** Where a stream's goroutine is: away from the connection or in its own
    select, before [sendMu] in a write, or writing. *)
Inductive task : Type := Elsewhere | WriteWaits | Writes.
Record stream := mkStream { st_id : string; st_task : task }.
(** Where the read loop is: in [wswire.Read], in the select of [deliver] with
    the channel it found, before [sendMu] to answer a ping, writing that
    answer, or returned. *)
Inductive reader_state : Type := Reading | Sending (c : nat) (msg : Message) | PongWaits | PongWrites | ReaderEnded.
Inductive keepalive_state : Type := Ticking | PingWaits | Pinging | KeepaliveEnded.
Inductive owner : Type := ByStream (c : nat) | ByReader | ByKeepalive.

Record conn := mkConn {
  inbound : list frame;              (* sent by the agent and not read *)
  reader : reader_state;
  channels : gmap nat channel;
  pending : gmap string nat;
  streams : gmap nat stream;         (* the goroutines, by the channel they receive from *)
  sendMu : option owner;
  keepalive : keepalive_state;
  done : bool;
  next_chan : nat;
}.
Definition set_inbound (w : conn) (v : list frame) : conn :=
  mkConn v (reader w) (channels w) (pending w) (streams w) (sendMu w) (keepalive w) (done w) (next_chan w).
Definition set_reader (w : conn) (v : reader_state) : conn :=
  mkConn (inbound w) v (channels w) (pending w) (streams w) (sendMu w) (keepalive w) (done w) (next_chan w).
Definition set_channels (w : conn) (v : gmap nat channel) : conn :=
  mkConn (inbound w) (reader w) v (pending w) (streams w) (sendMu w) (keepalive w) (done w) (next_chan w).
Definition set_streams (w : conn) (v : gmap nat stream) : conn :=
  mkConn (inbound w) (reader w) (channels w) (pending w) v (sendMu w) (keepalive w) (done w) (next_chan w).
Definition set_sendMu (w : conn) (v : option owner) : conn :=
  mkConn (inbound w) (reader w) (channels w) (pending w) (streams w) v (keepalive w) (done w) (next_chan w).
Definition set_keepalive (w : conn) (v : keepalive_state) : conn :=
  mkConn (inbound w) (reader w) (channels w) (pending w) (streams w) (sendMu w) v (done w) (next_chan w).
Definition set_done (w : conn) : conn :=
  mkConn (inbound w) (reader w) (channels w) (pending w) (streams w) (sendMu w) (keepalive w) true (next_chan w).

(** [newAgentSession] with its keepalive started. *)
Definition newConn (interval : Duration) : conn :=
  mkConn [] Reading ∅ ∅ ∅ None (if interval <=? 0 then KeepaliveEnded else Ticking) false 0.

(** * The operations *)
Definition addPending (streamID : string) (k : stream_kind) (w : conn) : conn :=
  let c := next_chan w in
  mkConn (inbound w) (reader w) (<[c := mkChannel (buffer k) []]> (channels w)) (<[streamID := c]> (pending w))
    (<[c := mkStream streamID Elsewhere]> (streams w)) (sendMu w) (keepalive w) (done w) (S c).
(** The goroutine returns; its channel is left as it is. *)
Definition removePending (c : nat) (w : conn) : conn :=
  match streams w !! c with
  | None => w
  | Some s =>
      mkConn (inbound w) (reader w) (channels w) (delete (st_id s) (pending w)) (delete c (streams w)) (sendMu w)
        (keepalive w) (done w) (next_chan w)
  end.
(** [sendMu.Lock()] *)
Definition lock (o : owner) (w : conn) : option conn :=
  match sendMu w with None => Some (set_sendMu w (Some o)) | Some _ => None end.
(** The lookup of [deliver]. *)
Definition deliver_lookup (msg : Message) (w : conn) : conn :=
  match pending w !! env_StreamID (msg_Envelope msg) with
  | None => w
  | Some c => set_reader w (Sending c msg)
  end.
(** The select of [deliver]: the send, which needs room, or the end of the
    session (its context ends with it). *)
Definition deliver_put (w : conn) : option conn :=
  match reader w with
  | Sending c msg =>
      ch ← channels w !! c;
      if bool_decide (length (ch_queue ch) < ch_cap ch)%nat
      then Some (set_reader (set_channels w (<[c := mkChannel (ch_cap ch) (ch_queue ch ++ [msg])]> (channels w))) Reading)
      else None
  | _ => None
  end.
Definition deliver_give_up (w : conn) : option conn :=
  match reader w with Sending _ _ => if done w then Some (set_reader w Reading) else None | _ => None end.
(** One turn of [readLoop] up to where it may wait.  A pong is taken by
    [wswire.Read] itself and ends the [ping] that waits for it. *)
Definition readLoop_turn (w : conn) : option conn :=
  match reader w, inbound w with
  | Reading, PongFrame :: rest =>
      let w := set_inbound w rest in
      Some (match keepalive w with Pinging => set_sendMu (set_keepalive w Ticking) None | _ => w end)
  | Reading, Data msg :: rest =>
      let w := set_inbound w rest in
      let typ := env_Type (msg_Envelope msg) in
      Some (if String.eqb typ TypePing then set_reader w PongWaits
            else if existsb (String.eqb typ) Session.delivered_types then deliver_lookup msg w
            else w)
  | _, _ => None
  end.
(** [wswire.Read] fails, as it does once the connection is closed. *)
Definition readLoop_end (w : conn) : option conn :=
  match reader w with Reading => Some (set_done (set_reader w ReaderEnded)) | _ => None end.
(** [write] for the answer to a ping: it succeeds, or fails and ends the loop. *)
Definition pong_written (ok : bool) (w : conn) : option conn :=
  match reader w with
  | PongWrites => Some (if ok then set_sendMu (set_reader w Reading) None else set_done (set_sendMu (set_reader w ReaderEnded) None))
  | _ => None
  end.
(** [write] and [writeBinaryBody] of a stream. *)
Definition set_task (c : nat) (from to : task) (w : conn) : option conn :=
  s ← streams w !! c;
  match st_task s, from with
  | Elsewhere, Elsewhere | WriteWaits, WriteWaits | Writes, Writes => Some (set_streams w (<[c := mkStream (st_id s) to]> (streams w)))
  | _, _ => None
  end.
(** [ping] waits for [sendMu] and then, holding it, for the pong. *)
Definition ping_fails (w : conn) : option conn :=
  match keepalive w with
  | Pinging => Some (set_done (set_sendMu (set_keepalive w KeepaliveEnded) None))      (* s.close *)
  | _ => None
  end.

(** [sendMu] in the answer to a ping, and in [write] and [writeBinaryBody]
    of a stream: taken, and released when the write has ended. *)
Definition pong_lock (w : conn) : option conn :=
  match reader w with PongWaits => w ← lock ByReader w; Some (set_reader w PongWrites) | _ => None end.
Definition write_lock (c : nat) (w : conn) : option conn :=
  w ← lock (ByStream c) w; set_task c WriteWaits Writes w.
Definition write_done (c : nat) (w : conn) : option conn :=
  w ← set_task c Writes Elsewhere w; Some (set_sendMu w None).
(** A stream receives from its channel, and returns. *)
Definition take_message (c : nat) (w : conn) : option conn :=
  match streams w !! c, channels w !! c with
  | Some (mkStream _ Elsewhere), Some (mkChannel cap (_ :: q)) => Some (set_channels w (<[c := mkChannel cap q]> (channels w)))
  | _, _ => None
  end.
Definition finish_stream (c : nat) (w : conn) : option conn :=
  match streams w !! c with Some (mkStream _ Elsewhere) => Some (removePending c w) | _ => None end.
(** The goroutine of [startKeepalive]: a tick calls [ping], which takes
    [sendMu]; the keepalive is stopped when the read loop has returned. *)
Definition keepalive_tick (w : conn) : option conn :=
  match keepalive w with Ticking => Some (set_keepalive w PingWaits) | _ => None end.
Definition ping_lock (w : conn) : option conn :=
  match keepalive w with PingWaits => w ← lock ByKeepalive w; Some (set_keepalive w Pinging) | _ => None end.
Definition stop_keepalive (w : conn) : option conn :=
  match reader w, keepalive w with ReaderEnded, Ticking => Some (set_keepalive w KeepaliveEnded) | _, _ => None end.

Inductive event : Type :=
| Arrive (f : frame) | ReadTurn | ReadFails | Put | GiveUp | PongLock | PongWritten (ok : bool)
| OpenStream (streamID : string) (k : stream_kind) | StartWrite (c : nat) | WriteLock (c : nat) | WriteDone (c : nat)
| Take (c : nat) | FinishStream (c : nat)
| Tick | PingLock | PingFails | StopKeepalive | Close.

(** One step of one of the goroutines, of the agent or of who closes the
    session. *)
Definition step (ev : event) (w : conn) : option conn :=
  match ev with
  | Arrive f => Some (set_inbound w (inbound w ++ [f]))
  | ReadTurn => readLoop_turn w
  | ReadFails => readLoop_end w
  | Put => deliver_put w
  | GiveUp => deliver_give_up w
  | PongLock => pong_lock w
  | PongWritten ok => pong_written ok w
  | OpenStream id k => if done w then None else Some (addPending id k w)
  | StartWrite c => set_task c Elsewhere WriteWaits w
  | WriteLock c => write_lock c w
  | WriteDone c => write_done c w
  | Take c => take_message c w
  | FinishStream c => finish_stream c w
  | Tick => keepalive_tick w
  | PingLock => ping_lock w
  | PingFails => ping_fails w
  | StopKeepalive => stop_keepalive w
  | Close => Some (set_done w)
  end.
Fixpoint run (evs : list event) (w : conn) : option conn :=
  match evs with [] => Some w | ev :: evs => w' ← step ev w; run evs w' end.

(** * Properties *)
Ltac open_step := cbn [step]; 
  unfold pong_lock, write_lock, write_done, take_message, finish_stream, keepalive_tick, ping_lock, stop_keepalive.
Ltac open_step_in H := cbn [step] in H;
  unfold pong_lock, write_lock, write_done, take_message, finish_stream, keepalive_tick, ping_lock, stop_keepalive in H.
Section properties.
Context (interval : Duration).

Definition steps (w w' : conn) : Prop := exists ev, step ev w = Some w'.
Definition reachable (w : conn) : Prop := rtc steps (newConn interval) w.

(** Who holds [sendMu] is at the place in the code that holds it, and nobody
    else is. *)
Record lock_ok (w : conn) : Prop := {
  ok_stream : forall c s, streams w !! c = Some s -> (st_task s = Writes <-> sendMu w = Some (ByStream c));
  ok_gone : forall c, sendMu w = Some (ByStream c) -> c ∈ dom (streams w);
  ok_reader : reader w = PongWrites <-> sendMu w = Some ByReader;
  ok_keepalive : keepalive w = Pinging <-> sendMu w = Some ByKeepalive;
  ok_running : 0 < interval -> done w = false -> keepalive w <> KeepaliveEnded /\ reader w <> ReaderEnded;
}.
(** Channels stay within their capacity and are never forgotten. *)
Record chans_ok (w : conn) : Prop := {
  ok_cap : map_Forall (fun _ ch => (0 < ch_cap ch)%nat /\ (length (ch_queue ch) <= ch_cap ch)%nat) (channels w);
  ok_pending : forall id c, pending w !! id = Some c -> c ∈ dom (channels w);
  ok_streams : dom (streams w) ⊆ dom (channels w);
  ok_sending : forall c m, reader w = Sending c m -> c ∈ dom (channels w);
  ok_next : forall c, c ∈ dom (channels w) -> (c < next_chan w)%nat;
}.

Lemma newConn_ok : lock_ok (newConn interval) /\ chans_ok (newConn interval).
Proof.
  unfold newConn. split; split; cbn; try done.
  - destruct (interval <=? 0); done.
  - intros Hi _. destruct (Z.leb_spec interval 0); [lia|done].
Qed.

Lemma lock_some o w w' : lock o w = Some w' -> sendMu w = None /\ w' = set_sendMu w (Some o).
Proof. unfold lock. destruct (sendMu w); [done|]. by intros [= <-]. Qed.
Lemma set_task_some c from to w w' : set_task c from to w = Some w' ->
  exists s, streams w !! c = Some s /\ st_task s = from /\ w' = set_streams w (<[c := mkStream (st_id s) to]> (streams w)).
Proof.
  unfold set_task. destruct (streams w !! c) as [s|]; [|done]. cbn. intros H. exists s.
  destruct (st_task s), from; try done; by injection H as <-.
Qed.

(** ** The heap of channels *)
(** A step that keeps the channels and adds no reference to one. *)
Lemma chans_keep w w' : chans_ok w -> channels w' = channels w -> next_chan w' = next_chan w ->
  (forall id c, pending w' !! id = Some c -> exists id', pending w !! id' = Some c) ->
  dom (streams w') ⊆ dom (streams w) ->
  (forall c m, reader w' = Sending c m -> reader w = Sending c m \/ exists id, pending w !! id = Some c) -> chans_ok w'.
Proof.
  intros [Hc Hp Hs Hr Hn] Ec En Hp' Hs' Hr'. split; rewrite Ec, ?En; try done.
  - intros id c Hid. destruct (Hp' _ _ Hid) as [id' H]. by eapply Hp.
  - by etransitivity.
  - intros c m Hm. destruct (Hr' _ _ Hm) as [H|[id H]]; [by eapply Hr|by eapply Hp].
Qed.
(** A channel gets other contents. *)
Lemma chans_insert w c ch : chans_ok w -> c ∈ dom (channels w) -> (0 < ch_cap ch)%nat -> (length (ch_queue ch) <= ch_cap ch)%nat ->
  chans_ok (set_channels w (<[c := ch]> (channels w))).
Proof.
  intros [Hc Hp Hs Hr Hn] Hd H1 H2. assert (E : dom (<[c := ch]> (channels w)) = dom (channels w)) by (rewrite dom_insert_L; set_solver).
  split; cbn; rewrite ?E; try done. apply map_Forall_insert_2; [done|exact Hc].
Qed.
Lemma buffer_pos k : (0 < buffer k)%nat.
Proof. destruct k; cbn; unfold wsStreamPendingBuffer; lia. Qed.
Lemma chans_open w id k : chans_ok w -> chans_ok (addPending id k w).
Proof.
  intros [Hc Hp Hs Hr Hn]. unfold addPending. split; cbn; rewrite ?dom_insert_L.
  - apply map_Forall_insert_2; [cbn; pose proof (buffer_pos k); lia|exact Hc].
  - intros id' c [[-> <-]|[_ H]]%lookup_insert_Some; [set_solver|]. specialize (Hp _ _ H). set_solver.
  - set_solver.
  - intros c m H. specialize (Hr _ _ H). set_solver.
  - intros c [->%elem_of_singleton|H]%elem_of_union; [lia|]. specialize (Hn _ H). lia.
Qed.

Ltac keep := eapply chans_keep; [eassumption|reflexivity|reflexivity|cbn; eauto|cbn; try done|cbn; try discriminate; eauto].
Lemma step_chans ev w w' : chans_ok w -> step ev w = Some w' -> chans_ok w'.
Proof.
  intros Hw. destruct ev; open_step.
  - intros [= <-]. keep.
  - unfold readLoop_turn. destruct (reader w) eqn:Er; try done. destruct (inbound w) as [|[|msg] rest]; try done;
      intros H; apply (inj Some) in H as <-; cbv zeta.
    + destruct (keepalive _); keep.
    + destruct (String.eqb _ _); [keep|]. destruct (existsb _ _); [|keep].
      unfold deliver_lookup. cbn [pending set_inbound]. destruct (pending w !! _) eqn:Ep; [|keep].
      keep. intros c m [= <- <-]. eauto.
  - unfold readLoop_end. destruct (reader w); try done. intros [= <-]. keep.
  - unfold deliver_put. destruct (reader w) as [|c m| | |] eqn:Er; try done. destruct (channels w !! c) as [ch|] eqn:Ec; [|done]. cbn.
    case_bool_decide; [|done]. intros [= <-].
    eapply (chans_keep (set_channels w _)); [apply chans_insert|..]; eauto; cbn; try done.
    + by apply elem_of_dom.
    + apply (ok_cap _ Hw c ch Ec).
    + rewrite length_app. cbn. lia.
  - unfold deliver_give_up. destruct (reader w); try done. destruct (done w); [|done]. intros [= <-]. keep.
  - destruct (reader w); try done. destruct (lock _ _) eqn:El; [|done]. cbn. apply lock_some in El as [_ ->].
    intros [= <-]. keep.
  - unfold pong_written. destruct (reader w); try done. intros [= <-]. destruct ok; keep.
  - destruct (done w); [done|]. intros [= <-]. by apply chans_open.
  - intros (st & Hs & _ & ->)%set_task_some. keep. cbn. rewrite dom_insert_L. apply elem_of_dom_2 in Hs. set_solver.
  - destruct (lock _ _) eqn:El; [|done]. cbn. apply lock_some in El as [_ ->]. intros (st & Hs & _ & ->)%set_task_some.
    cbn in *. keep. rewrite dom_insert_L. apply elem_of_dom_2 in Hs. set_solver.
  - destruct (set_task _ _ _ _) eqn:El; [|done]. cbn. apply set_task_some in El as (st & Hs & _ & ->). intros [= <-].
    cbn in *. keep. rewrite dom_insert_L. apply elem_of_dom_2 in Hs. set_solver.
  - destruct (streams w !! c) as [[id []]|]; try done. destruct (channels w !! c) as [[cap [|m q]]|] eqn:Ec; try done.
    intros [= <-]. pose proof (ok_cap _ Hw c _ Ec) as [H1 H2]. cbn in *. apply chans_insert; cbn; [done|by apply elem_of_dom|done|lia].
  - destruct (streams w !! c) as [[id []]|] eqn:Es; try done. intros [= <-]. unfold removePending. rewrite Es.
    keep; [|rewrite dom_delete_L; set_solver]. intros id' c' [_ H]%lookup_delete_Some. eauto.
  - destruct (keepalive w); try done. intros [= <-]. keep.
  - destruct (keepalive w); try done. destruct (lock _ _) eqn:El; [|done]. cbn. apply lock_some in El as [_ ->].
    intros [= <-]. keep.
  - unfold ping_fails. destruct (keepalive w); try done. intros [= <-]. keep.
  - destruct (reader w); try done. destruct (keepalive w); try done. intros [= <-]. keep.
  - intros [= <-]. keep.
Qed.

(** ** The lock *)
(** A step that neither locks nor unlocks. *)
Lemma lock_keep w w' : lock_ok w -> sendMu w' = sendMu w ->
  (forall c s, streams w' !! c = Some s -> exists s0, streams w !! c = Some s0 /\ (st_task s = Writes <-> st_task s0 = Writes)) ->
  (forall c s, streams w !! c = Some s -> st_task s = Writes -> c ∈ dom (streams w')) ->
  (reader w' = PongWrites <-> reader w = PongWrites) -> (keepalive w' = Pinging <-> keepalive w = Pinging) ->
  (done w' = false -> done w = false /\ (keepalive w' = KeepaliveEnded -> keepalive w = KeepaliveEnded \/ reader w = ReaderEnded) /\
     (reader w' = ReaderEnded -> reader w = ReaderEnded)) -> lock_ok w'.
Proof.
  intros [H1 H2 H3 H4 H5] Em Hs Hg Hr Hk Hd. split; rewrite ?Em; try tauto.
  - intros c st Hc. destruct (Hs _ _ Hc) as (s0 & H0 & ->). by apply H1.
  - intros c Hc. apply H2 in Hc as Hc'. apply elem_of_dom in Hc' as [s0 H0]. eapply Hg; [exact H0|]. by apply (H1 c s0).
Qed.
(** [sendMu] is taken by one goroutine and then released by it. *)
Lemma lock_ok_stream w c s to : lock_ok w -> sendMu w = None -> streams w !! c = Some s -> to = Writes ->
  lock_ok (set_streams (set_sendMu w (Some (ByStream c))) (<[c := mkStream (st_id s) to]> (streams w))).
Proof.
  intros [H1 H2 H3 H4 H5] Hm Hc ->. rewrite Hm in *. split; cbn; try done.
  - intros c' s' [[<- <-]|[Hne H]]%lookup_insert_Some; [done|]. rewrite (H1 _ _ H). split; [done|]. by intros [= ->].
  - intros c' [= <-]. apply elem_of_dom. by rewrite lookup_insert_eq.
  - rewrite H3. done.
  - rewrite H4. done.
Qed.
Lemma unlock_ok_stream w c s : lock_ok w -> streams w !! c = Some s -> st_task s = Writes ->
  lock_ok (set_sendMu (set_streams w (<[c := mkStream (st_id s) Elsewhere]> (streams w))) None).
Proof.
  intros [H1 H2 H3 H4 H5] Hc Ht. apply (H1 c s Hc) in Ht. rewrite Ht in *. split; cbn; try done.
  - intros c' s' [[<- <-]|[Hne H]]%lookup_insert_Some; [done|]. rewrite (H1 _ _ H). split; [by intros [= ->]|done].
  - rewrite H3. done.
  - rewrite H4. done.
Qed.
Lemma lock_ok_reader w : lock_ok w -> sendMu w = None -> reader w = PongWaits ->
  lock_ok (set_reader (set_sendMu w (Some ByReader)) PongWrites).
Proof.
  intros [H1 H2 H3 H4 H5] Hm Hr. rewrite Hm in *. split; cbn; try done.
  - intros c s Hc. by rewrite (H1 _ _ Hc).
  - rewrite H4. done.
  - intros Hi Hd. split; [apply (H5 Hi Hd)|done].
Qed.
Lemma unlock_ok_reader w r : lock_ok w -> reader w = PongWrites -> r <> PongWrites -> (r = ReaderEnded -> done w = true) ->
  lock_ok (set_sendMu (set_reader w r) None).
Proof.
  intros [H1 H2 H3 H4 H5] Hr Hp He. pose proof (proj1 H3 Hr) as Hm. rewrite Hm in *. split; cbn; try done.
  - intros c s Hc. by rewrite (H1 _ _ Hc).
  - rewrite H4. done.
  - intros Hi Hd. specialize (H5 Hi Hd). split; [tauto|]. intros E. rewrite (He E) in Hd. done.
Qed.
Lemma lock_ok_keepalive w : lock_ok w -> sendMu w = None -> keepalive w = PingWaits ->
  lock_ok (set_keepalive (set_sendMu w (Some ByKeepalive)) Pinging).
Proof.
  intros [H1 H2 H3 H4 H5] Hm Hr. rewrite Hm in *. split; cbn; try done.
  - intros c s Hc. by rewrite (H1 _ _ Hc).
  - rewrite H3. done.
  - intros Hi Hd. split; [done|apply (H5 Hi Hd)].
Qed.
Lemma unlock_ok_keepalive w k : lock_ok w -> keepalive w = Pinging -> k <> Pinging -> (k = KeepaliveEnded -> done w = true) ->
  lock_ok (set_sendMu (set_keepalive w k) None).
Proof.
  intros [H1 H2 H3 H4 H5] Hr Hp He. pose proof (proj1 H4 Hr) as Hm. rewrite Hm in *. split; cbn; try done.
  - intros c s Hc. by rewrite (H1 _ _ Hc).
  - rewrite H3. done.
  - intros Hi Hd. specialize (H5 Hi Hd). split; [|tauto]. intros E. rewrite (He E) in Hd. done.
Qed.

Ltac same :=
  eapply lock_keep;
  [eassumption|reflexivity|cbn; try (by eauto)|cbn; try (by intros; apply elem_of_dom; eauto)
  |cbn; try (split; (done || congruence))|cbn; try (split; (done || congruence))
  |cbn; try done; try (intros ?; split_and!; (done || congruence || tauto))].

Lemma lock_ok_open w id k : chans_ok w -> lock_ok w -> lock_ok (addPending id k w).
Proof.
  intros Hch [H1 H2 H3 H4 H5].
  assert (Hnew : next_chan w ∉ dom (streams w)).
  { intros Hin. apply (ok_streams _ Hch), (ok_next _ Hch) in Hin. lia. }
  split; cbn; try done.
  - intros c s [[<- <-]|[_ H]]%lookup_insert_Some; [|by apply H1]. cbn. split; [done|]. intros Hm. by destruct Hnew; apply H2.
  - intros c Hm. apply H2 in Hm. rewrite dom_insert_L. set_solver.
Qed.
Lemma lock_ok_task w c s : lock_ok w -> streams w !! c = Some s -> st_task s = Elsewhere ->
  lock_ok (set_streams w (<[c := mkStream (st_id s) WriteWaits]> (streams w))).
Proof.
  intros Hw Hc Ht. same; cbn.
  - intros c' s' [[<- <-]|[_ H]]%lookup_insert_Some; [|by eauto]. exists s. rewrite Ht. done.
  - intros c' s' H _. rewrite dom_insert_L. apply elem_of_dom_2 in H. set_solver.
Qed.
Lemma lock_ok_gone w c id p : lock_ok w -> streams w !! c = Some (mkStream id Elsewhere) ->
  lock_ok (mkConn (inbound w) (reader w) (channels w) p (delete c (streams w)) (sendMu w) (keepalive w) (done w) (next_chan w)).
Proof.
  intros Hw Hc. same; cbn.
  - intros c' s' [_ H]%lookup_delete_Some. eauto.
  - intros c' s' H Ht. apply elem_of_dom. rewrite lookup_delete_ne; [eauto|]. intros <-. rewrite Hc in H. by injection H as <-.
Qed.

Lemma step_lock ev w w' : chans_ok w -> lock_ok w -> step ev w = Some w' -> lock_ok w'.
Proof.
  intros Hch Hw. destruct ev; open_step.
  - intros [= <-]. same.
  - unfold readLoop_turn. destruct (reader w) eqn:Er; try done. destruct (inbound w) as [|[|msg] rest]; try done;
      intros H; apply (inj Some) in H as <-; cbv zeta.
    + destruct (keepalive (set_inbound w rest)) eqn:Ek; try same. apply unlock_ok_keepalive; [same|done..].
    + destruct (String.eqb _ _); [same|]. destruct (existsb _ _); [|same].
      unfold deliver_lookup. cbn [pending set_inbound]. destruct (pending w !! _); same.
  - unfold readLoop_end. destruct (reader w) eqn:Er; try done. intros [= <-]. same.
  - unfold deliver_put. destruct (reader w) as [|c m| | |] eqn:Er; try done. destruct (channels w !! c); [|done]. cbn.
    case_bool_decide; [|done]. intros [= <-]. same.
  - unfold deliver_give_up. destruct (reader w) eqn:Er; try done. destruct (done w) eqn:Ed; [|done]. intros [= <-]. same.
  - destruct (reader w) eqn:Er; try done. destruct (lock _ _) eqn:El; [|done]. cbn. apply lock_some in El as [Hm ->].
    intros [= <-]. by apply lock_ok_reader.
  - unfold pong_written. destruct (reader w) eqn:Er; try done. intros [= <-]. destruct ok.
    + by apply unlock_ok_reader.
    + apply (unlock_ok_reader (set_done w)); [same|done..].
  - destruct (done w) eqn:Ed; [done|]. intros [= <-]. by apply lock_ok_open.
  - intros (st & Hs & Ht & ->)%set_task_some. by apply lock_ok_task.
  - destruct (lock _ _) eqn:El; [|done]. cbn. apply lock_some in El as [Hm ->]. intros (st & Hs & _ & ->)%set_task_some.
    exact (lock_ok_stream w c st Writes Hw Hm Hs eq_refl).
  - destruct (set_task _ _ _ _) eqn:El; [|done]. cbn. apply set_task_some in El as (st & Hs & Ht & ->). intros [= <-].
    by apply unlock_ok_stream.
  - destruct (streams w !! c) as [[id []]|]; try done. destruct (channels w !! c) as [[cap [|m q]]|]; try done. intros [= <-]. same.
  - destruct (streams w !! c) as [[id []]|] eqn:Es; try done. intros [= <-]. unfold removePending. rewrite Es. by eapply lock_ok_gone.
  - destruct (keepalive w) eqn:Ek; try done. intros [= <-]. same.
  - destruct (keepalive w) eqn:Ek; try done. destruct (lock _ _) eqn:El; [|done]. cbn. apply lock_some in El as [Hm ->].
    intros [= <-]. by apply lock_ok_keepalive.
  - unfold ping_fails. destruct (keepalive w) eqn:Ek; try done. intros [= <-]. apply (unlock_ok_keepalive (set_done w)); [same|done..].
  - destruct (reader w) eqn:Er; try done. destruct (keepalive w) eqn:Ek; try done. intros [= <-]. same.
  - intros [= <-]. same.
Qed.

Lemma conn_reachable_ok w : reachable w -> chans_ok w /\ lock_ok w.
Proof.
  intros H. unfold reachable in H. destruct newConn_ok as [Hl Hc]. revert Hl Hc. generalize (newConn interval) H. clear H.
  induction 1 as [|w1 w2 w3 [ev Hs] _ IH]; [done|]. intros Hl Hc. apply IH; [by eapply step_lock|by eapply step_chans].
Qed.

(** ** A read loop that nobody can release *)
(** The loop sends to a full channel whose stream has returned. *)
Definition abandoned (c : nat) (msg : Message) (w : conn) : Prop :=
  reader w = Sending c msg /\ streams w !! c = None /\
  exists ch, channels w !! c = Some ch /\ length (ch_queue ch) = ch_cap ch.
(** No channel got a message. *)
Definition dry (w w' : conn) : Prop :=
  forall c ch', channels w' !! c = Some ch' -> ch_queue ch' `suffix_of` default [] (ch_queue <$> channels w !! c).
#[export] Instance dry_preorder : PreOrder dry.
Proof.
  split; [intros w c ch' H; by rewrite H|]. intros w1 w2 w3 H12 H23 c ch3 H3. specialize (H23 _ _ H3).
  destruct (channels w2 !! c) as [ch2|] eqn:E2; cbn in H23; [by etransitivity; [|by apply H12]|].
  apply suffix_nil_inv in H23 as ->. apply suffix_nil.
Qed.
Lemma dry_same w w' : channels w' = channels w -> dry w w'.
Proof. intros E c ch' H. rewrite E in H. by rewrite H. Qed.

Lemma step_done ev w w' : step ev w = Some w' -> done w = true -> done w' = true.
Proof.
  intros Hs Hd. enough (done w' = done w \/ done w' = true) as [->|] by done.
  destruct ev; open_step_in Hs;
    unfold readLoop_turn, readLoop_end, deliver_put, deliver_give_up, pong_written, ping_fails, lock, set_task, removePending, deliver_lookup in Hs;
    repeat first [progress simplify_option_eq | case_match]; try (by left); by right.
Qed.

Lemma stream_other w (f : stream -> stream) c c' s : streams w !! c = None -> streams w !! c' = Some s ->
  <[c' := f s]> (streams w) !! c = None.
Proof. intros Hc Hc'. rewrite lookup_insert_ne; [done|]. intros ->. by rewrite Hc in Hc'. Qed.

(** Unless the session is done, a step leaves the loop where it is. *)
Lemma abandoned_step c m ev w w' : chans_ok w -> abandoned c m w -> step ev w = Some w' -> done w = false ->
  abandoned c m w' /\ inbound w `prefix_of` inbound w' /\ dry w w'.
Proof.
  intros Hch (Hr & Hn & ch & Hc & Hf) Hs Hd. unfold abandoned.
  assert (Hkeep : forall w1, reader w1 = reader w -> streams w1 !! c = None -> channels w1 = channels w -> inbound w1 = inbound w ->
    (reader w1 = Sending c m /\ streams w1 !! c = None /\ exists ch, channels w1 !! c = Some ch /\ length (ch_queue ch) = ch_cap ch) /\
    inbound w `prefix_of` inbound w1 /\ dry w w1).
  { intros w1 -> H1 E ->. rewrite E. split; [eauto|]. split; [done|by apply dry_same]. }
  destruct ev; open_step_in Hs;
    unfold readLoop_turn, readLoop_end, deliver_put, deliver_give_up, pong_written, ping_fails in Hs;
    rewrite ?Hr, ?Hd in Hs; try done.
  - injection Hs as <-. cbn. split; [eauto|]. split; [by apply prefix_app_r|by apply dry_same].
  - rewrite Hc in Hs. cbn in Hs. rewrite bool_decide_false in Hs by lia. done.
  - injection Hs as <-. cbn. assert (Hne : c <> next_chan w) by (apply elem_of_dom_2, (ok_next _ Hch) in Hc; lia).
    rewrite !lookup_insert_ne by done. split; [eauto|]. split; [done|].
    intros c' ch' H. cbn in H. apply lookup_insert_Some in H as [[<- <-]|[_ H]]; [apply suffix_nil|by rewrite H].
  - apply set_task_some in Hs as (s & Hs & _ & ->). apply Hkeep; try done. by apply (stream_other w (fun s => mkStream (st_id s) WriteWaits)).
  - destruct (lock _ _) eqn:El; [|done]. cbn in Hs. apply lock_some in El as [_ ->]. apply set_task_some in Hs as (s & Hs & _ & ->).
    apply Hkeep; try done. by apply (stream_other w (fun s => mkStream (st_id s) Writes)).
  - destruct (set_task _ _ _ _) eqn:El; [|done]. injection Hs as <-. apply set_task_some in El as (s & Hs & _ & ->).
    apply Hkeep; try done. by apply (stream_other w (fun s => mkStream (st_id s) Elsewhere)).
  - destruct (streams w !! c0) as [[id []]|] eqn:E0; try done. destruct (channels w !! c0) as [[cap [|x q]]|] eqn:Ec; try done.
    injection Hs as <-. cbn. assert (c <> c0) by (intros ->; by rewrite Hn in E0). rewrite lookup_insert_ne by done.
    split; [eauto|]. split; [done|]. intros c' ch' H1. cbn in H1.
    apply lookup_insert_Some in H1 as [[<- <-]|[_ H1]]; [|by rewrite H1].
    rewrite Ec. cbn. apply suffix_cons_r. done.
  - destruct (streams w !! c0) as [[id []]|] eqn:E0; try done. injection Hs as <-. unfold removePending. rewrite E0.
    apply Hkeep; try done. cbn. by rewrite lookup_delete_None; right.
  - destruct (keepalive w); try done. injection Hs as <-. by apply Hkeep.
  - destruct (keepalive w); try done. destruct (lock _ _) eqn:El; [|done]. injection Hs as <-. apply lock_some in El as [_ ->]. by apply Hkeep.
  - destruct (keepalive w); try done. injection Hs as <-. by apply Hkeep.
  - injection Hs as <-. by apply Hkeep.
Qed.
Lemma steps_done w w' : rtc steps w w' -> done w' = false -> done w = false.
Proof.
  induction 1 as [|w w1 w2 [ev Hs] _ IH]; [done|]. intros Hd. specialize (IH Hd).
  destruct (done w) eqn:E; [|done]. by rewrite (step_done _ _ _ Hs E) in IH.
Qed.
Lemma abandoned_stays c m w w' : chans_ok w -> abandoned c m w -> rtc steps w w' -> done w' = false ->
  abandoned c m w' /\ inbound w `prefix_of` inbound w' /\ dry w w'.
Proof.
  intros Hch Ha H. revert Hch Ha. induction H as [w|w w1 w2 [ev Hs] H1 IH]; intros Hch Ha Hd; [done|].
  destruct (abandoned_step c m ev w w1) as (Ha1 & Hp1 & Hd1); try done.
  { eapply steps_done; [|exact Hd]. eapply rtc_l; [by exists ev|done]. }
  destruct IH as (Ha2 & Hp2 & Hd2); try done; [by eapply step_chans|]. split; [done|]. split; by etransitivity.
Qed.

(** ** What ends a wait *)
(** Steps the goroutines make by themselves: a write ends, [sendMu] is taken, a
    stream takes a message and the loop sends one, a tick comes and the time of
    a ping runs out. *)
Definition own (ev : event) : bool :=
  match ev with Put | WriteLock _ | WriteDone _ | Take _ | Tick | PingLock | PingFails => true | _ => false end.
Definition own_steps (w w' : conn) : Prop := exists ev, own ev = true /\ step ev w = Some w'.
Lemma own_step ev w w' : own ev = true -> step ev w = Some w' -> own_steps w w'.
Proof. by exists ev. Qed.

Lemma own_steps_ok w w' : rtc own_steps w w' -> chans_ok w -> lock_ok w -> chans_ok w' /\ lock_ok w'.
Proof.
  induction 1 as [|w w1 w2 (ev & _ & Hs) _ IH]; [done|]. intros Hch Hlk. apply IH; [by eapply step_chans|by eapply step_lock].
Qed.

(** [sendMu] becomes free, or the session ends with a ping. *)
Lemma sendMu_freed w c m : lock_ok w -> reader w = Sending c m ->
  (exists w', rtc own_steps w w' /\ done w' = true) \/
  exists w', rtc own_steps w w' /\ sendMu w' = None /\ reader w' = Sending c m /\ channels w' = channels w /\
    keepalive w' = keepalive w /\ done w' = done w /\
    (is_Some (streams w !! c) -> is_Some (streams w' !! c)).
Proof.
  intros Hw Hr. destruct (sendMu w) as [[c'| |]|] eqn:Em.
  - right. pose proof (ok_gone _ Hw c' Em) as [s Hs]%elem_of_dom. pose proof (proj2 (ok_stream _ Hw c' s Hs) Em) as Ht.
    assert (H : step (WriteDone c') w = Some (set_sendMu (set_streams w (<[c' := mkStream (st_id s) Elsewhere]> (streams w))) None))
      by (open_step; unfold set_task; rewrite Hs; cbn; by rewrite Ht).
    eexists. split; [apply rtc_once, (own_step _ _ _ (eq_refl : own (WriteDone c') = true) H)|]. cbn.
    do 5 (split; [done|]). intros H0. apply lookup_insert_is_Some'. by right.
  - by apply (ok_reader _ Hw) in Em; rewrite Hr in Em.
  - left. apply (ok_keepalive _ Hw) in Em.
    assert (H : step PingFails w = Some (set_done (set_sendMu (set_keepalive w KeepaliveEnded) None)))
      by (open_step; unfold ping_fails; by rewrite Em).
    eexists. split; [apply rtc_once, (own_step _ _ _ (eq_refl : own PingFails = true) H)|done].
  - right. exists w. by repeat (split; [done|]).
Qed.

(** One more ping ends the session, once [sendMu] is free. *)
Lemma ping_ends w : keepalive w = PingWaits -> sendMu w = None -> exists w', rtc own_steps w w' /\ done w' = true.
Proof.
  intros Hk Hm. set (w1 := set_keepalive (set_sendMu w (Some ByKeepalive)) Pinging).
  exists (set_done (set_sendMu (set_keepalive w1 KeepaliveEnded) None)). split; [|done].
  apply (rtc_l _ _ w1); [|apply rtc_once; by exists PingFails]. exists PingLock. split; [done|]. open_step. unfold lock. by rewrite Hk, Hm.
Qed.
Lemma keepalive_ends w : lock_ok w -> sendMu w = None -> keepalive w <> KeepaliveEnded -> exists w', rtc own_steps w w' /\ done w' = true.
Proof.
  intros Hw Hm Hk. destruct (keepalive w) eqn:Ek; [|by apply ping_ends| |done].
  - destruct (ping_ends (set_keepalive w PingWaits) eq_refl Hm) as (w' & Hr & Hd). exists w'. split; [|done].
    eapply rtc_l; [|exact Hr]. exists Tick. split; [done|]. open_step. by rewrite Ek.
  - apply (ok_keepalive _ Hw) in Ek. congruence.
Qed.

(** A stream that is running takes a message and the loop goes on. *)
Lemma take_put w c m s ch : reader w = Sending c m -> streams w !! c = Some s -> st_task s = Elsewhere ->
  channels w !! c = Some ch -> (0 < ch_cap ch)%nat -> (length (ch_queue ch) <= ch_cap ch)%nat ->
  exists w', rtc own_steps w w' /\ reader w' = Reading.
Proof.
  intros Hr Hs Ht Hc Hp Hl. destruct s as [id t]. cbn in Ht. subst t. destruct ch as [cap q]. cbn in *.
  assert (Hput : forall w q, reader w = Sending c m -> channels w !! c = Some (mkChannel cap q) -> (length q < cap)%nat ->
    exists w', rtc own_steps w w' /\ reader w' = Reading).
  { intros w1 q1 H1 H2 H3. eexists. split; [apply rtc_once; exists Put; split; [done|]|].
    - open_step. unfold deliver_put. rewrite H1, H2. cbn. by rewrite bool_decide_true.
    - done. }
  destruct (decide (length q < cap)%nat); [by eapply Hput|]. destruct q as [|x q]; [cbn in *; lia|].
  destruct (Hput (set_channels w (<[c := mkChannel cap q]> (channels w))) q) as (w' & Hw' & H');
    [done|cbn; by rewrite lookup_insert_eq|cbn in *; lia|].
  exists w'. split; [|done]. eapply rtc_l; [|exact Hw']. exists (Take c). split; [done|]. open_step. by rewrite Hs, Hc.
Qed.
Lemma stream_released w c m s : chans_ok w -> reader w = Sending c m -> streams w !! c = Some s -> st_task s <> Writes ->
  sendMu w = None -> exists w', rtc own_steps w w' /\ reader w' = Reading.
Proof.
  intros Hch Hr Hs Ht Hm. pose proof (ok_sending _ Hch c m Hr) as [ch Hc]%elem_of_dom.
  destruct (ok_cap _ Hch c ch Hc) as [Hp Hl]. destruct (st_task s) eqn:Et; [by eapply take_put| |done].
  set (w1 := set_streams (set_sendMu w (Some (ByStream c))) (<[c := mkStream (st_id s) Writes]> (streams w))).
  set (w2 := set_sendMu (set_streams w1 (<[c := mkStream (st_id s) Elsewhere]> (streams w1))) None).
  assert (H1 : step (WriteLock c) w = Some w1) by (open_step; unfold lock, set_task; rewrite Hm; cbn; rewrite Hs; cbn; by rewrite Et).
  assert (H2 : step (WriteDone c) w1 = Some w2) by (open_step; unfold set_task; cbn; by rewrite lookup_insert_eq).
  destruct (take_put w2 c m (mkStream (st_id s) Elsewhere) ch) as (w' & Hw' & H'); try done; [cbn; by rewrite lookup_insert_eq|].
  exists w'. split; [|done]. eapply rtc_l; [by eapply own_step, H1|]. eapply rtc_l; [by eapply own_step, H2|done].
Qed.

End properties.

Lemma run_steps evs w w' : run evs w = Some w' -> rtc steps w w'.
Proof.
  revert w. induction evs as [|ev evs IH]; intros w; cbn [run]; [by intros [= <-]|].
  intros (w1 & Hs & H)%bind_Some. eapply rtc_l; [by exists ev|by apply IH].
Qed.

(** ** Witness *)
Module Witness_connection.
(** A visitor leaves a download of which 32 chunks wait for it: the chunk the
    loop was about to deliver keeps it, and a response for another stream and
    the pong of the next ping stay unread. *)
Definition message (typ : Type_) (id : string) : Message := mkMessage (mkEnvelope typ id "tun_1" []) [] true.
Definition chunk : Message := message TypeHTTPResponseBody "str_1".
Definition download : list event :=
  [OpenStream "str_1" ChunkedStream; OpenStream "str_2" ChunkedStream] ++
  concat (repeat [Arrive (Data chunk); ReadTurn; Put] 32) ++
  [Arrive (Data chunk); ReadTurn; FinishStream 0; Arrive (Data (message TypeHTTPResponseEnd "str_2")); Tick; PingLock; Arrive PongFrame].
Definition blocked : conn := default (newConn 0) (run download (newConn 15000000000)).


(** A visitor that is only slow: while its stream does not come back to take a
    message, the pong of a healthy agent is not read, no stream can write, and
    the ping fails by its timeout and ends the session. *)
Definition slow_download : list event :=
  [OpenStream "str_1" ChunkedStream; OpenStream "str_2" ChunkedStream] ++
  concat (repeat [Arrive (Data chunk); ReadTurn; Put] 32) ++
  [Arrive (Data chunk); ReadTurn; Tick; PingLock; Arrive PongFrame; StartWrite 1].
Definition slow : conn := default (newConn 0) (run slow_download (newConn 15000000000)).
Lemma slow_visitor_fails_ping :
  inbound slow = [PongFrame] /\ step ReadTurn slow = None /\ step Put slow = None /\ step (WriteLock 1) slow = None /\
  (done <$> step PingFails slow) = Some true.
Proof. vm_compute. done. Qed.
End Witness_connection.
