(* ===== verification/ControlPlaneClient.v ===== *)
(** server/gateway/internal/gateway/token_validator.go and
    custom_domain_resolver.go: what the gateway asks its control plane, the
    answers it gives itself without one, and the cache of custom domains.

    [Backends] is the interface the rest of the gateway is written against:
    one operation per Go interface ([agentTokenValidator],
    [reservedSubdomainAuthorizer], [accessPolicyEvaluator],
    [customDomainResolver]).  The HTTP exchange with the control plane is the
    parameter [http_Post]; SHA-256 and [net/url] are classes. *)
From S2P Require Import Prelude GoStrings Messages.
From Stdlib Require Import ZArith Lia List String Ascii Bool.
From stdpp Require Import base gmap strings list.

Open Scope Z_scope.

Class SHA256 : Type := { Sum256 : string -> bytes }.

Definition scopeRegisterTunnel : string := "register_tunnel".

(** * The questions and answers *)
Record agentTokenValidation := mkTokenValidation { Valid : bool; TokenID : string }.
Record reservedSubdomainAuthorization := mkAuthorization { az_Allowed : bool; az_Reason : string }.
Record accessPolicyEvaluationRequest := mkEvaluationRequest {
  ev_Subdomain : string; ev_RemoteIP : string;
  ev_BasicUsername : string; ev_BasicPassword : string; ev_BearerToken : string;
}.
Record accessPolicyEvaluation := mkEvaluation { Allowed : bool; Mode : string; Reason : string }.
Record customDomainResolution := mkResolution {
  Found : bool; cd_Reason : string; Hostname : string; CustomDomainID : string;
  ReservedSubdomainID : string; cd_Subdomain : string; cd_Status : string;
}.
#[export] Instance customDomainResolution_eq_dec : EqDecision customDomainResolution.
Proof. solve_decision. Defined.

Record Backends := mkBackends {
  ValidateAgentToken : string -> result agentTokenValidation;
  AuthorizeReservedSubdomain : string -> string -> result reservedSubdomainAuthorization;
  EvaluateAccessPolicy : accessPolicyEvaluationRequest -> result accessPolicyEvaluation;
  ResolveCustomDomain : string -> result customDomainResolution;
}.

Definition secretEqual {H : SHA256} (got want : string) : bool :=
  if String.eqb got "" || String.eqb want "" then false
  else bool_decide (Sum256 got = Sum256 want).

(** * Without a control plane, and when its configuration is broken *)
Definition static_ValidateAgentToken {H : SHA256} (configured token : string)
    : result agentTokenValidation :=
  Ok (mkTokenValidation (secretEqual token configured) "").
Definition static_AuthorizeReservedSubdomain (_ _ : string) : result reservedSubdomainAuthorization :=
  Ok (mkAuthorization true "").
Definition static_EvaluateAccessPolicy (_ : accessPolicyEvaluationRequest)
    : result accessPolicyEvaluation :=
  Ok (mkEvaluation true "public" "no_control_plane").
Definition static_ResolveCustomDomain (_ : string) : result customDomainResolution :=
  Ok (mkResolution false "no_control_plane" "" "" "" "" "").
Definition static_backends {H : SHA256} (token : string) : Backends :=
  mkBackends (static_ValidateAgentToken token) static_AuthorizeReservedSubdomain
    static_EvaluateAccessPolicy static_ResolveCustomDomain.
Definition error_backends (err : error) : Backends :=
  mkBackends (fun _ => Err err) (fun _ _ => Err err) (fun _ => Err err) (fun _ => Err err).

(** * The client of the control plane *)
Record validateTokenRequest := mkValidateTokenRequest { vt_Token : string; vt_Scope : string }.
Record validateTokenResponse := mkValidateTokenResponse { vr_Valid : bool; vr_TokenID : string }.
Record authorizeReservedSubdomainRequest :=
  mkAuthorizeRequest { aq_TokenID : string; aq_Subdomain : string }.
Record lookupCustomDomainRequest := mkLookupRequest { lq_Hostname : string }.

Definition joinURLPath (basePath requestPath : string) : string :=
  if String.eqb basePath "" || String.eqb basePath "/" then requestPath
  else if HasSuffix basePath "/" && HasPrefix requestPath "/"
  then basePath +:+ TrimPrefix requestPath "/"
  else if negb (HasSuffix basePath "/") && negb (HasPrefix requestPath "/")
  then basePath +:+ "/" +:+ requestPath
  else basePath +:+ requestPath.

Definition controlPlaneEndpoint {GU : GoURL} (base : URL) (path : string) : string :=
  url_String (mkURL (Scheme base) (User base) (url_Host base)
                (joinURLPath (url_Path base) path) "" "" (url_Other base)).

Record controlPlaneClient := mkClient {
  tokenValidationEndpoint : string;
  reservedSubdomainAuthzEndpoint : string;
  accessPolicyEvaluationEndpoint : string;
  customDomainLookupEndpoint : string;
  bearerToken : string;
}.

(** [newControlPlaneClient], from the URL and the token of the configuration. *)
Definition newControlPlaneClient {GU : GoURL} (ControlPlaneURL ControlPlaneToken : string)
    : result controlPlaneClient :=
  let controlPlaneToken := TrimSpace ControlPlaneToken in
  if String.eqb controlPlaneToken ""
  then Err (Errorf "control plane token is required when control plane URL is configured") else
  match url_Parse ControlPlaneURL with
  | Err e => Err (Wrap "parse control plane URL" e)
  | Ok parsed =>
      if String.eqb (Scheme parsed) "" || String.eqb (url_Host parsed) ""
      then Err (Errorf "control plane URL must include scheme and host")
      else Ok {|
        tokenValidationEndpoint := controlPlaneEndpoint parsed "/api/v1/tokens/validate";
        reservedSubdomainAuthzEndpoint :=
          controlPlaneEndpoint parsed "/api/v1/reserved-subdomains/authorize";
        accessPolicyEvaluationEndpoint :=
          controlPlaneEndpoint parsed "/api/v1/access-policies/evaluate";
        customDomainLookupEndpoint := controlPlaneEndpoint parsed "/api/v1/custom-domains/lookup";
        bearerToken := controlPlaneToken;
      |}
  end.

Section client.
Context {JVT : JSONCodec validateTokenRequest} {JVR : JSONCodec validateTokenResponse}
  {JAQ : JSONCodec authorizeReservedSubdomainRequest}
  {JAR : JSONCodec reservedSubdomainAuthorization}
  {JEQ : JSONCodec accessPolicyEvaluationRequest} {JER : JSONCodec accessPolicyEvaluation}
  {JLQ : JSONCodec lookupCustomDomainRequest} {JLR : JSONCodec customDomainResolution}.

(** [http_Post endpoint bearer body]: the answer's status and body, or why
    there is none. *)
Context (http_Post : string -> string -> bytes -> result (Z * bytes)).

(** The exchange the four methods share: encode, post, check the status,
    decode. *)
Definition exchange {Q R} `{JSONCodec Q} `{JSONCodec R} (endpoint token what answer : string) (q : Q)
    : result R :=
  try body <- Marshal q;
  match http_Post endpoint token body with
  | Err e => Err (Wrap what e)
  | Ok (status, raw) =>
      if negb (status =? 200)
      then Err (Errorf (what +:+ " returned status " +:+ Itoa status))
      else match Unmarshal raw with
           | Err e => Err (Wrap ("decode " +:+ answer) e)
           | Ok r => Ok r
           end
  end.

Definition client_ResolveCustomDomain (v : controlPlaneClient) (hostname : string)
    : result customDomainResolution :=
  exchange (customDomainLookupEndpoint v) (bearerToken v) "lookup custom domain" "custom domain lookup"
    (mkLookupRequest hostname).
Definition client_EvaluateAccessPolicy (v : controlPlaneClient)
    (evaluation : accessPolicyEvaluationRequest) : result accessPolicyEvaluation :=
  exchange (accessPolicyEvaluationEndpoint v) (bearerToken v) "evaluate access policy"
    "access policy evaluation" evaluation.
Definition client_ValidateAgentToken (v : controlPlaneClient) (token : string)
    : result agentTokenValidation :=
  try r <- exchange (R := validateTokenResponse) (tokenValidationEndpoint v) (bearerToken v)
             "validate token" "token validation" (mkValidateTokenRequest token scopeRegisterTunnel);
  Ok (mkTokenValidation (vr_Valid r) (vr_TokenID r)).
Definition client_AuthorizeReservedSubdomain (v : controlPlaneClient) (tokenID subdomain : string)
    : result reservedSubdomainAuthorization :=
  if String.eqb (TrimSpace tokenID) ""
  then Err (Errorf "control plane token validation did not return token_id; upgrade the control plane or omit requested subdomain")
  else exchange (reservedSubdomainAuthzEndpoint v) (bearerToken v) "authorize reserved subdomain"
         "reserved subdomain authorization" (mkAuthorizeRequest tokenID subdomain).

Definition client_backends (v : controlPlaneClient) : Backends :=
  mkBackends (client_ValidateAgentToken v) (client_AuthorizeReservedSubdomain v)
    (client_EvaluateAccessPolicy v) (client_ResolveCustomDomain v).

(** The backends of a server, from its configuration (the constructors of
    token_validator.go and the fallbacks of [newServerWithRequestLogWriter]);
    custom domains go through the cache below when TTLs are configured. *)
Definition new_backends {H : SHA256} {GU : GoURL}
    (ControlPlaneURL ControlPlaneToken StaticToken : string) : Backends :=
  if String.eqb (TrimSpace ControlPlaneURL) "" then static_backends StaticToken
  else match newControlPlaneClient ControlPlaneURL ControlPlaneToken with
       | Ok client => client_backends client
       | Err e => error_backends e
       end.
End client.

(** * custom_domain_resolver.go *)
Definition defaultCustomDomainCacheTTL : Duration := 30 * second.
Definition defaultCustomDomainMissTTL : Duration := 5 * second.

Record customDomainCacheEntry := mkCacheEntry { ce_result : customDomainResolution; expires : Time }.
Record cachedCustomDomainResolver := mkCachedResolver {
  hitTTL : Duration;
  missTTL : Duration;
  cache : gmap string customDomainCacheEntry;
}.

(** [None]: no cache, the next resolver is used as it is. *)
Definition newCachedCustomDomainResolver (hitTTL missTTL : Duration)
    : option cachedCustomDomainResolver :=
  if (hitTTL =? 0) && (missTTL =? 0) then None
  else Some (mkCachedResolver
         (if hitTTL <? 0 then defaultCustomDomainCacheTTL else hitTTL)
         (if missTTL <? 0 then defaultCustomDomainMissTTL else missTTL) ∅).

Section resolver_cache.
Context {U : GoUnicode}.

Definition cache_key (hostname : string) : string := ToLower (TrimSpace hostname).
Definition ttl_for (r : cachedCustomDomainResolver) (result : customDomainResolution) : Duration :=
  if negb (Found result) then missTTL r else hitTTL r.

(** [next] is what the next resolver answers to this call. *)
Definition cached_ResolveCustomDomain (r : cachedCustomDomainResolver)
    (next : string -> result customDomainResolution) (now : Time) (hostname : string)
    : result customDomainResolution * cachedCustomDomainResolver :=
  let key := cache_key hostname in
  if String.eqb key "" then (next hostname, r) else
  let hit :=
    match cache r !! key with
    | Some entry => if now <? expires entry then Some entry else None
    | None => None
    end in
  match hit with
  | Some entry => (Ok (ce_result entry), r)
  | None =>
      match next hostname with
      | Err e => (Err e, r)
      | Ok result =>
          let ttl := ttl_for r result in
          if ttl <=? 0 then (Ok result, r)
          else (Ok result, mkCachedResolver (hitTTL r) (missTTL r)
                  (<[key := mkCacheEntry result (now + ttl)]> (cache r)))
      end
  end.

(** * Properties *)
Context (next : Time -> string -> result customDomainResolution).

(** The calls made so far, with their times, and what they answered. *)
Inductive resolver_run (start : cachedCustomDomainResolver)
    : Time -> list (Time * string * result customDomainResolution) ->
      cachedCustomDomainResolver -> Prop :=
| resolver_start now : resolver_run start now [] start
| resolver_call now now' h trace r :
    resolver_run start now trace r -> now <= now' ->
    resolver_run start now'
      (trace ++ [(now', h, fst (cached_ResolveCustomDomain r (next now') now' h))])
      (snd (cached_ResolveCustomDomain r (next now') now' h)).

(** [res] is what the next resolver said of this name at some time [t], not
    longer ago than the entry may live. *)
Definition fresh_answer (hit miss : Duration) (now : Time) (h : string)
    (res : customDomainResolution) : Prop :=
  exists t h', cache_key h' = cache_key h /\ next t h' = Ok res /\ t <= now /\
    (t = now \/ now < t + (if negb (Found res) then miss else hit)).

Record cache_ok (hit miss : Duration) (now : Time) (r : cachedCustomDomainResolver) : Prop := {
  co_hit : hitTTL r = hit;
  co_miss : missTTL r = miss;
  co_entries : map_Forall (fun key e => exists t h, cache_key h = key /\ next t h = Ok (ce_result e) /\
    t <= now /\ expires e = t + (if negb (Found (ce_result e)) then miss else hit)) (cache r);
}.

Lemma cached_step hit miss now r h :
  cache_ok hit miss now r ->
  cache_ok hit miss now (snd (cached_ResolveCustomDomain r (next now) now h)) /\
  match fst (cached_ResolveCustomDomain r (next now) now h) with
  | Ok res => fresh_answer hit miss now h res
  | Err e => next now h = Err e
  end.
Proof.
  intros Hok. pose proof Hok as [Hh Hm He]. unfold cached_ResolveCustomDomain.
  destruct (String.eqb (cache_key h) ""); simpl.
  { split; [done|]. destruct (next now h) eqn:E; [|done]. exists now, h. repeat split; auto. lia. }
  destruct (cache r !! cache_key h) as [entry|] eqn:El;
    [destruct (Z.ltb_spec now (expires entry)) as [Hlt|Hge]|]; simpl.
  { split; [done|]. destruct (He _ _ El) as (t & h' & E1 & E2 & E3 & E4).
    exists t, h'. repeat split; auto. right. lia. }
  all: destruct (next now h) as [res|e] eqn:E; simpl; [|done].
  all: assert (Hf : fresh_answer hit miss now h res) by (exists now, h; repeat split; auto; lia).
  all: destruct (Z.leb_spec (ttl_for r res) 0); simpl; [done|].
  all: split; [|done]; split; simpl; try done; apply map_Forall_insert_2; [|done].
  all: exists now, h; repeat split; auto; [lia|]; simpl; unfold ttl_for; by rewrite Hh, Hm.
Qed.

Lemma cache_ok_later hit miss now now' r : now <= now' -> cache_ok hit miss now r -> cache_ok hit miss now' r.
Proof.
  intros Ht [Hh Hm He]. split; try done. intros k e El. destruct (He k e El) as (t & h & ? & ? & ? & ?).
  exists t, h. repeat split; auto. lia.
Qed.

(** The cache never invents or outlives an answer: every answer is what
    the control plane gave for that hostname, no longer ago than the entry's
    time to live (30 s for a hit, 5 s for a miss by default), and an error is
    only ever the control plane's own at that moment. *)
Lemma domain_cache_sound hit miss now trace r :
  (hit =? 0) && (miss =? 0) = false ->
  forall start, newCachedCustomDomainResolver hit miss = Some start ->
  resolver_run start now trace r ->
  Forall (fun '(t, h, ans) =>
    match ans with
    | Ok res => fresh_answer (hitTTL start) (missTTL start) t h res
    | Err e => next t h = Err e
    end) trace.
Proof.
  intros Hz start Hs. unfold newCachedCustomDomainResolver in Hs. rewrite Hz in Hs.
  injection Hs as <-. set (start := mkCachedResolver _ _ ∅). intros Hr.
  assert (H : cache_ok (hitTTL start) (missTTL start) now r /\ Forall (fun '(t, h, ans) =>
    match ans with
    | Ok res => fresh_answer (hitTTL start) (missTTL start) t h res
    | Err e => next t h = Err e
    end) trace); [|by destruct H].
  induction Hr as [now|now now' h trace r Hr [IH1 IH2] Ht].
  - split; [|constructor]. by split.
  - apply (cache_ok_later _ _ _ now') in IH1; [|done].
    destruct (cached_step _ _ now' r h IH1) as [H1 H2]. split; [done|].
    apply Forall_app. split; [done|]. by apply Forall_singleton.
Qed.

(** The cache never drops an entry, expired or not. *)
Lemma cache_never_evicts r now h :
  dom (cache r) ⊆ dom (cache (snd (cached_ResolveCustomDomain r (next now) now h))).
Proof.
  unfold cached_ResolveCustomDomain. repeat case_match; simpl; try done; rewrite dom_insert; set_solver.
Qed.
End resolver_cache.

Lemma domain_cache_sound_witness :
  let U : GoUnicode := {| lower_nonascii s := s; upper_nonascii s := s |} in
  let found := mkResolution true "" "app.example.org" "cd_1" "rs_1" "demo" "active" in
  let next := fun (t : Time) (_ : string) =>
    if t <? 10 * second then Ok found else Err (Errorf "control plane down") in
  let r0 := mkCachedResolver (30 * second) (5 * second) ∅ in
  let r1 := snd (cached_ResolveCustomDomain r0 (next 0) 0 "app.example.org") in
  Forall (fun '(t, h, ans) =>
    match ans with
    | Ok res => fresh_answer next (hitTTL r0) (missTTL r0) t h res
    | Err e => next t h = Err e
    end)
    (([] ++ [(0, "app.example.org"%string, fst (cached_ResolveCustomDomain r0 (next 0) 0 "app.example.org"))])
     ++ [(20 * second, "APP.example.org"%string,
          fst (cached_ResolveCustomDomain r1 (next (20 * second)) (20 * second) "APP.example.org"))]).
Proof.
  intros U found next r0 r1.
  apply (domain_cache_sound next (30 * second) (5 * second) (20 * second) _
    (snd (cached_ResolveCustomDomain r1 (next (20 * second)) (20 * second) "APP.example.org")));
    [reflexivity|reflexivity|].
  apply (resolver_call _ _ 0); [|by vm_compute].
  apply (resolver_call _ _ 0); [|by vm_compute]. apply resolver_start.
Defined.
