(* ===== verification/Routing.v ===== *)
(** server/gateway/internal/gateway/server.go, host routing: from the [Host]
    of a public request to the subdomain of a tunnel, by name under the root
    domain or by a custom domain the control plane knows.

    The counters are [uint64]; they are kept as integers, since no run makes
    2^64 lookups. *)
From S2P Require Import Prelude GoStrings Names ControlPlaneClient.
From Stdlib Require Import ZArith Lia List String Ascii Bool.
From stdpp Require Import base gmap strings list.

Open Scope Z_scope.

Record hostRoute := mkRoute { route_Subdomain : string; route_CustomDomain : string; MissReason : string }.
Definition no_route : hostRoute := mkRoute "" "" "".

(** The counters [routeForHost] updates. *)
Record lookupMetrics := mkLookupMetrics {
  customDomainLookupsTotal : Z;
  customDomainLookupHitsTotal : Z;
  customDomainLookupMissesTotal : Z;
  customDomainLookupErrorsTotal : Z;
}.
Definition count_lookup (m : lookupMetrics) : lookupMetrics :=
  mkLookupMetrics (customDomainLookupsTotal m + 1) (customDomainLookupHitsTotal m)
    (customDomainLookupMissesTotal m) (customDomainLookupErrorsTotal m).
Definition count_hit (m : lookupMetrics) : lookupMetrics :=
  mkLookupMetrics (customDomainLookupsTotal m) (customDomainLookupHitsTotal m + 1)
    (customDomainLookupMissesTotal m) (customDomainLookupErrorsTotal m).
Definition count_miss (m : lookupMetrics) : lookupMetrics :=
  mkLookupMetrics (customDomainLookupsTotal m) (customDomainLookupHitsTotal m)
    (customDomainLookupMissesTotal m + 1) (customDomainLookupErrorsTotal m).
Definition count_error (m : lookupMetrics) : lookupMetrics :=
  mkLookupMetrics (customDomainLookupsTotal m) (customDomainLookupHitsTotal m)
    (customDomainLookupMissesTotal m) (customDomainLookupErrorsTotal m + 1).

Section routing.
Context {U : GoUnicode}.

Definition subdomainFromHost (RootDomain hostport : string) : option string :=
  let host := ToLower (TrimSpace hostport) in
  if String.eqb host "" then None else
  let host := match SplitHostPort host with Some (h, _) => h | None => host end in
  let suffix := "." +:+ ToLower (TrimSpace RootDomain) in
  if negb (HasSuffix host suffix) then None else
  let subdomain := TrimSuffix host suffix in
  if String.eqb subdomain "" || Contains subdomain "." then None else
  match ValidateSubdomain subdomain with
  | Err _ => None
  | Ok _ => Some subdomain
  end.

(** The label loop of [customDomainLookupHostname]. *)
Definition lookup_label (label : string) : bool :=
  negb (String.eqb label "" || (MaxSubdomainLength <? len label)
        || first_is "-" label || last_is "-" label)
  && sforall name_char label.

Definition customDomainLookupHostname (hostport : string) : option string :=
  let host := ToLower (TrimSpace hostport) in
  if String.eqb host "" then None else
  let split :=
    match SplitHostPort host with
    | Some (h, _) => Some h
    | None => if Contains host ":" then None else Some host
    end in
  match split with
  | None => None
  | Some host =>
      let host := TrimSuffix host "." in
      if negb (Contains host ".") then None
      else if ContainsAny host "*/_" then None
      else if forallb lookup_label (Split host ".") then Some host else None
  end.

Definition sameHostname (left right : string) : bool :=
  let left := TrimSuffix (ToLower (TrimSpace left)) "." in
  let right := TrimSuffix (ToLower (TrimSpace right)) "." in
  negb (String.eqb left "") && String.eqb left right.

Definition customDomainStatusMissReason (status : string) : string :=
  let status := TrimSpace status in
  if String.eqb status "pending_verification" then "not_verified"
  else if String.eqb status "verification_failed" then "verification_failed"
  else "not_found".

Definition customDomainMissReason (reason : string) : string :=
  let reason := TrimSpace reason in
  if String.eqb reason "" then "not_found" else reason.

Definition customDomainMissOutcome (reason : string) : string :=
  let reason := TrimSpace reason in
  if String.eqb reason "not_verified" then "custom_domain_not_verified"
  else if String.eqb reason "verification_failed" then "custom_domain_verification_failed"
  else if String.eqb reason "no_control_plane" then "custom_domain_no_control_plane"
  else if String.eqb reason "not_found" || String.eqb reason "" then "custom_domain_not_found"
  else "custom_domain_lookup_miss".

Definition customDomainMissMessage (reason : string) : string :=
  let reason := TrimSpace reason in
  if String.eqb reason "not_verified" then "custom domain is pending verification"
  else if String.eqb reason "verification_failed" then "custom domain verification failed"
  else if String.eqb reason "no_control_plane" then "custom domains require a control plane"
  else "custom domain was not found".

(** [routeForHost]: the route, whether there is one, or an error; and the
    counters after. *)
Definition routeForHost (RootDomain : string)
    (resolve : string -> result customDomainResolution) (hostport : string) (m : lookupMetrics)
    : result (hostRoute * bool) * lookupMetrics :=
  match subdomainFromHost RootDomain hostport with
  | Some subdomain => (Ok (mkRoute subdomain "" "", true), m)
  | None =>
      match customDomainLookupHostname hostport with
      | None => (Ok (no_route, false), m)
      | Some hostname =>
          if sameHostname hostname RootDomain then (Ok (no_route, false), m) else
          let m := count_lookup m in
          match resolve hostname with
          | Err e => (Err e, count_error m)
          | Ok result =>
              let resultHostname := TrimSpace (Hostname result) in
              let resultHostname :=
                if String.eqb resultHostname "" then hostname else resultHostname in
              if negb (Found result) then
                (Ok (mkRoute "" resultHostname (customDomainMissReason (cd_Reason result)), false),
                 count_miss m)
              else if negb (String.eqb (cd_Status result) "")
                      && negb (String.eqb (cd_Status result) "active") then
                (Ok (mkRoute "" resultHostname (customDomainStatusMissReason (cd_Status result)), false),
                 count_miss m)
              else
                let subdomain := ToLower (TrimSpace (cd_Subdomain result)) in
                if String.eqb subdomain "" then
                  (Err (Errorf ("custom domain " +:+ Quote hostname +:+ " did not resolve to a subdomain")),
                   count_error m)
                else
                  match ValidateSubdomain subdomain with
                  | Err e =>
                      (Err (Wrap ("custom domain " +:+ Quote hostname +:+
                         " resolved to invalid subdomain " +:+ Quote (cd_Subdomain result)) e),
                       count_error m)
                  | Ok _ => (Ok (mkRoute subdomain resultHostname "", true), count_hit m)
                  end
          end
      end
  end.

(** * Properties *)

(** Characters of a lower-case host name. *)
Definition host_char (c : ascii) : bool := name_char c || Ascii.eqb c ".".
Definition plain_host (s : string) : Prop := sforall host_char s = true.

Lemma host_char_visible c : host_char c = true -> visible c = true.
Proof.
  unfold host_char. intros [H|H]%orb_true_iff; [by apply name_char_visible|].
  by apply Ascii.eqb_eq in H as ->.
Qed.
Lemma host_char_lower c : host_char c = true -> lower_stable c = true.
Proof.
  unfold host_char. intros [H|H]%orb_true_iff; [by apply name_char_lower_stable|].
  by apply Ascii.eqb_eq in H as ->.
Qed.
Lemma host_char_not_colon c : host_char c = true -> negb (bytes_mem c (to_bytes ":[]")) = true.
Proof.
  unfold host_char. intros [H|H]%orb_true_iff.
  - apply name_char_cases in H. apply negb_true_iff, bytes_mem_false. simpl.
    intros [<-|[<-|[<-|[]]]]; unfold byte in H; simpl in H; lia.
  - by apply Ascii.eqb_eq in H as ->.
Qed.

Lemma plain_host_normal s : plain_host s -> ToLower (TrimSpace s) = s.
Proof.
  intros H. rewrite TrimSpace_visible by (eapply sforall_impl; [apply host_char_visible|done]).
  apply ToLower_stable. eapply sforall_impl; [apply host_char_lower|done].
Qed.

Lemma valid_plain_host s : valid_subdomain s -> plain_host s.
Proof.
  intros H. apply valid_subdomain_chars in H. eapply sforall_impl; [|exact H].
  intros c Hc. unfold host_char. by rewrite Hc.
Qed.

Lemma plain_host_app s t : plain_host s -> plain_host t -> plain_host (s +:+ t).
Proof. unfold plain_host. intros H1 H2. by rewrite sforall_app, H1, H2. Qed.

Lemma plain_host_no_colon s : plain_host s -> ~ In ":"%char (to_bytes s).
Proof.
  intros H Hin. apply sforall_spec in H. rewrite List.Forall_forall in H.
  specialize (H _ Hin). by vm_compute in H.
Qed.

(** A port: digits. *)
Definition is_port (p : string) : Prop := sforall is_digit p = true.

Lemma digit_host_char c : is_digit c = true -> host_char c = true.
Proof. intros H. unfold host_char, name_char. rewrite H. by rewrite orb_true_r. Qed.
Lemma port_plain p : is_port p -> plain_host p.
Proof. intros H. eapply sforall_impl; [apply digit_host_char|exact H]. Qed.

Lemma plain_split s :
  plain_host s -> sforall (fun c => negb (bytes_mem c (to_bytes ":[]"))) s = true.
Proof. intros H. eapply sforall_impl; [apply host_char_not_colon|exact H]. Qed.

(** What is left once the host part is known. *)
Lemma subdomain_of_parts sub root :
  valid_subdomain sub ->
  (if negb (HasSuffix (sub +:+ ("." +:+ root)) ("." +:+ root)) then None else
   let subdomain := TrimSuffix (sub +:+ ("." +:+ root)) ("." +:+ root) in
   if String.eqb subdomain "" || Contains subdomain "." then None else
   match ValidateSubdomain subdomain with Err _ => None | Ok _ => Some subdomain end) = Some sub.
Proof.
  intros H. rewrite HasSuffix_app, TrimSuffix_app. cbn [negb].
  rewrite (proj2 (String.eqb_neq sub "")) by (by apply valid_subdomain_nonempty).
  rewrite (proj2 (Contains_char_false "." sub)) by (by apply valid_subdomain_no_char).
  cbn [orb]. apply ValidateSubdomain_valid in H. by rewrite H.
Qed.

Lemma nonempty_app s t : s <> "" -> String.eqb (s +:+ t) "" = false.
Proof. intros H. apply String.eqb_neq. by destruct s. Qed.

(** A tunnel is reached under its name: for every valid subdomain and
    root domain, the host [subdomain.root], with or without a port and in any
    case the client writes it, routes to that subdomain and asks no one. *)
Theorem route_by_subdomain sub root host resolve m :
  valid_subdomain sub -> plain_host root ->
  (ToLower (TrimSpace host) = sub +:+ "." +:+ root \/
   exists port, is_port port /\ ToLower (TrimSpace host) = (sub +:+ "." +:+ root) +:+ ":" +:+ port) ->
  routeForHost root resolve host m = (Ok (mkRoute sub "" "", true), m).
Proof.
  intros Hsub Hroot Hhost. unfold routeForHost.
  assert (Hp : plain_host (sub +:+ "." +:+ root)).
  { apply plain_host_app; [by apply valid_plain_host|by apply (plain_host_app ".")]. }
  assert (E : subdomainFromHost root host = Some sub); [|by rewrite E].
  unfold subdomainFromHost. rewrite (plain_host_normal root) by done.
  pose proof (valid_subdomain_nonempty sub Hsub) as Hne.
  destruct Hhost as [->|(port & Hport & ->)].
  - rewrite nonempty_app, SplitHostPort_no_colon by (done || by apply plain_host_no_colon).
    by apply subdomain_of_parts.
  - rewrite nonempty_app by (by destruct sub).
    rewrite SplitHostPort_app by (apply plain_split; (done || by apply port_plain)).
    by apply subdomain_of_parts.
Qed.

(** A host reaches a subdomain only by its own name: a host that routes
    to a subdomain without the control plane is that valid subdomain followed
    by the root domain, up to a port. *)
Lemma subdomain_route_exact root host sub :
  subdomainFromHost root host = Some sub ->
  valid_subdomain sub /\
  (ToLower (TrimSpace host) = sub +:+ "." +:+ ToLower (TrimSpace root) \/
   exists port, SplitHostPort (ToLower (TrimSpace host))
                = Some (sub +:+ "." +:+ ToLower (TrimSpace root), port)).
Proof.
  unfold subdomainFromHost. destruct (String.eqb (ToLower (TrimSpace host)) ""); [done|].
  set (suffix := "." +:+ ToLower (TrimSpace root)).
  assert (Hgen : forall h, (if negb (HasSuffix h suffix) then None else
      let subdomain := TrimSuffix h suffix in
      if String.eqb subdomain "" || Contains subdomain "." then None else
      match ValidateSubdomain subdomain with Err _ => None | Ok _ => Some subdomain end) = Some sub ->
    valid_subdomain sub /\ h = sub +:+ suffix).
  { intros h. destruct (HasSuffix h suffix) eqn:Hs; [|done]. cbn [negb].
    apply HasSuffix_spec in Hs. cbv zeta. destruct (_ || _); [done|].
    destruct (ValidateSubdomain (TrimSuffix h suffix)) as [[]|] eqn:Ev; [|done].
    intros [= <-]. by apply ValidateSubdomain_valid in Ev. }
  destruct (SplitHostPort (ToLower (TrimSpace host))) as [[h port]|] eqn:E; intros H;
    apply Hgen in H as [Hv He]; split; try done.
  - right. exists port. by rewrite He.
  - left. done.
Qed.

(** Routing only ever yields valid tunnel names, and every custom domain
    lookup is counted once, as a hit, a miss or an error. *)
Lemma route_sound root resolve host m :
  let '(r, m') := routeForHost root resolve host m in
  (forall route, r = Ok (route, true) -> valid_subdomain (route_Subdomain route)) /\
  (customDomainLookupsTotal m = customDomainLookupHitsTotal m + customDomainLookupMissesTotal m
     + customDomainLookupErrorsTotal m ->
   customDomainLookupsTotal m' = customDomainLookupHitsTotal m' + customDomainLookupMissesTotal m'
     + customDomainLookupErrorsTotal m').
Proof.
  unfold routeForHost. destruct (subdomainFromHost root host) as [sub|] eqn:Es.
  - split; [|done]. intros route [= <-]. simpl. revert Es. unfold subdomainFromHost.
    repeat case_match; try done; intros [= <-];
      match goal with H : ValidateSubdomain _ = Ok ?x |- _ =>
        destruct x; by apply ValidateSubdomain_valid in H end.
  - repeat case_match; simplify_eq; simpl; (split; [try done|intros; simpl in *; lia]).
    all: intros route [= <-]; cbn [route_Subdomain];
      match goal with H : ValidateSubdomain _ = Ok ?x |- _ =>
        destruct x; by apply ValidateSubdomain_valid in H end.
Qed.
End routing.

Lemma valid_demo : valid_subdomain "demo".
Proof. by apply ValidateSubdomain_valid. Qed.

Lemma route_by_subdomain_witness :
  let U : GoUnicode := {| lower_nonascii s := s; upper_nonascii s := s |} in
  let m := mkLookupMetrics 0 0 0 0 in
  routeForHost "example.test" (fun _ => Err (Errorf "unused")) "Demo.Example.test:8080" m
  = (Ok (mkRoute "demo" "" "", true), m).
Proof.
  intros U m. apply (route_by_subdomain "demo" "example.test" "Demo.Example.test:8080");
    [apply valid_demo|reflexivity|].
  right. exists "8080"%string. by split.
Defined.

Lemma subdomain_route_exact_witness :
  let U : GoUnicode := {| lower_nonascii s := s; upper_nonascii s := s |} in
  valid_subdomain "demo" /\
  (ToLower (TrimSpace "demo.Example.test:80") = "demo" +:+ "." +:+ ToLower (TrimSpace "example.test") \/
   exists port, SplitHostPort (ToLower (TrimSpace "demo.Example.test:80"))
                = Some ("demo" +:+ "." +:+ ToLower (TrimSpace "example.test"), port)).
Proof. intros U. apply subdomain_route_exact. reflexivity. Defined.
