(* ===== verification/ClientIP.v ===== *)
(** server/internal/clientip/clientip.go and server/internal/requestid: who a
    request comes from, behind proxies the operator trusts, and the id it is
    logged under.

    Addresses are those of [net/netip], a class: their parsing and printing
    are the library's, the algorithm that chooses one is the program's. *)
From S2P Require Import Prelude GoStrings Base64 Wire.
From Stdlib Require Import ZArith Lia List String Ascii Bool.
From stdpp Require Import base gmap strings list.

Open Scope Z_scope.

(** [net/netip]: addresses, prefixes, and what the program calls on them. *)
Class GoNetip : Type := {
  Addr : Type;
  Prefix : Type;
  ParseAddr : string -> option Addr;
  ParsePrefix : string -> result Prefix;
  ParseAddrPort : string -> option Addr;       (* the address part *)
  Unmap : Addr -> Addr;
  BitLen : Addr -> Z;
  PrefixFrom : Addr -> Z -> Prefix;
  Masked : Prefix -> Prefix;
  prefix_Contains : Prefix -> Addr -> bool;
  Addr_String : Addr -> string;
  Prefix_String : Prefix -> string;
  Addr_eqb : Addr -> Addr -> bool;             (* == on addresses *)
}.

Section clientip.
Context {NI : GoNetip}.

Record Resolver := mkResolver { trusted : list Prefix }.

Definition New (trusted : list Prefix) : Resolver := mkResolver (map Masked trusted).

(** [strings.FieldsFunc]: the maximal runs of bytes outside [sep]. *)
Fixpoint fields_func (sep : ascii -> bool) (cur : bytes) (l : bytes) : list bytes :=
  match l with
  | [] => match cur with [] => [] | _ => [cur] end
  | c :: l' =>
      if sep c then match cur with [] => fields_func sep [] l' | _ => cur :: fields_func sep [] l' end
      else fields_func sep (cur ++ [c]) l'
  end.
Definition proxy_sep (c : ascii) : bool :=
  Ascii.eqb c "," || Ascii.eqb c " " || (byte c =? 9) || (byte c =? 10).
Definition FieldsFunc (sep : ascii -> bool) (s : string) : list string :=
  map string_of_list_ascii (fields_func sep [] (to_bytes s)).

Fixpoint parse_proxies (fields : list string) : result (list Prefix) :=
  match fields with
  | [] => Ok []
  | field :: rest =>
      try p <-
        match ParsePrefix field with
        | Ok p => Ok p
        | Err err =>
            match ParseAddr field with
            | None => Err (Wrap ("parse trusted proxy " +:+ Quote field) err)
            | Some addr => Ok (PrefixFrom (Unmap addr) (BitLen (Unmap addr)))
            end
        end;
      try ps <- parse_proxies rest; Ok (Masked p :: ps)
  end.
Definition ParseTrustedProxies (raw : string) : result (list Prefix) :=
  parse_proxies (FieldsFunc proxy_sep raw).

Definition isTrusted (r : Resolver) (addr : Addr) : bool :=
  existsb (fun prefix => prefix_Contains prefix addr) (trusted r).

(** The addresses of a list of parts, or nothing if one does not parse. *)
Definition parse_part (part : string) : option Addr := Unmap <$> ParseAddr (TrimSpace part).

(** [forwardedChain]: [None] is [ok = false]. *)
Definition forwardedChain (header : Header) : option (list Addr) :=
  match Header_Values header "X-Forwarded-For" with
  | [] =>
      let value := TrimSpace (Header_Get header "X-Real-IP") in
      if negb (String.eqb value "") then
        match ParseAddr value with
        | None => None
        | Some addr => Some [Unmap addr]
        end
      else Some []
  | values => mapM parse_part (concat (map (fun value => Split value ",") values))
  end.

(** [strings.Trim(value, cutset)] *)
Fixpoint trim_cutset (cutset l : bytes) : bytes :=
  match l with
  | c :: l' => if bytes_mem c cutset then trim_cutset cutset l' else l
  | [] => []
  end.
Definition Trim (s cutset : string) : string :=
  let cut := to_bytes cutset in
  of_bytes (rev (trim_cutset cut (rev (trim_cutset cut (to_bytes s))))).

Definition parseRemoteAddr (value : string) : option Addr :=
  match ParseAddrPort value with
  | Some addr => Some (Unmap addr)
  | None =>
      let value := match SplitHostPort value with Some (host, _) => host | None => value end in
      Unmap <$> ParseAddr (Trim value "[]")
  end.

(** The loop from the right of the chain: the nearest untrusted hop. *)
Fixpoint last_untrusted (r : Resolver) (rev_chain : list Addr) : option Addr :=
  match rev_chain with
  | [] => None
  | a :: rest => if negb (isTrusted r a) then Some a else last_untrusted r rest
  end.

(** [Resolve]: [None] is the invalid zero address. *)
Definition Resolve (r : Resolver) (RemoteAddr : string) (header : Header) : option Addr :=
  match parseRemoteAddr RemoteAddr with
  | None => None
  | Some peer =>
      if negb (isTrusted r peer) then Some peer else
      match forwardedChain header with
      | None => Some peer
      | Some [] => Some peer
      | Some (first :: rest) =>
          match last_untrusted r (rev (first :: rest)) with
          | Some a => Some a
          | None => Some first
          end
      end
  end.

Definition ResolveString (r : Resolver) (RemoteAddr : string) (header : Header) : string :=
  match Resolve r RemoteAddr header with None => "" | Some addr => Addr_String addr end.

(** * Properties *)
Lemma last_untrusted_app r ts a pre :
  Forall (fun t => isTrusted r t = true) ts -> isTrusted r a = false ->
  last_untrusted r (rev (pre ++ a :: ts)) = Some a.
Proof.
  intros HF Ha. rewrite rev_app_distr. simpl. rewrite <- app_assoc.
  assert (Forall (fun t => isTrusted r t = true) (rev ts)) as HF' by (by apply Forall_rev).
  clear HF. induction HF' as [|t l Ht _ IH]; simpl; [by rewrite Ha|]. by rewrite Ht.
Qed.

End clientip.

(** A concrete [netip] for examples: an address is its text. *)
Definition text_netip : GoNetip := {|
  Addr := string; Prefix := string;
  ParseAddr s := if String.eqb s "" then None else Some s;
  ParsePrefix s := Err (Errorf "no prefix"); ParseAddrPort s := fst <$> SplitHostPort s;
  Unmap a := a; BitLen _ := 32; PrefixFrom a _ := a; Masked p := p;
  prefix_Contains p a := String.eqb p a; Addr_String a := a;
  Prefix_String p := p; Addr_eqb := String.eqb |}.


(** * requestid *)
Definition id_Header : string := "X-Request-ID".

Definition clean (value : string) : string :=
  let value := TrimSpace value in
  if String.eqb value "" || (128 <? len value) then ""
  else if sforall (fun c => in_range 33 126 (byte c)) value then value else "".

Definition inbound (header : Header) : string :=
  let first := clean (Header_Get header id_Header) in
  if negb (String.eqb first "") then first else clean (Header_Get header "X-Correlation-ID").

(** [New] with the 16 random bytes, [None] when the reader fails. *)
Definition New_id (random : option bytes) : string :=
  match random with None => "" | Some data => "req_" +:+ RawURLEncode data end.

(** The id the middleware puts in the request's context and answers with. *)
Definition Middleware_id (header : Header) (random : option bytes) : string :=
  let id := inbound header in if String.eqb id "" then New_id random else id.

(** [FromRequest] on a request whose context holds [ctx_id] ("" for none). *)
Definition FromRequest (ctx_id : string) (header : Header) : string :=
  if negb (String.eqb ctx_id "") then ctx_id else inbound header.
