(* ===== verification/Config.v ===== *)
(** server/gateway/internal/gateway/config.go and config_validation.go: the
    gateway's settings, read from the environment, completed with defaults
    and checked before a start.

    [Getenv] is the environment; [time.ParseDuration] and [net/url] are
    classes, and the parser of trusted proxies is the one of [ClientIP].
    [EqualFold] is the folding of ASCII host names. *)
From S2P Require Import Prelude GoStrings ControlPlaneClient ClientIP.
From Stdlib Require Import ZArith Lia List String Ascii Bool.
From stdpp Require Import base strings list.

Open Scope Z_scope.

Definition defaultPublicAddr : string := ":8080".
Definition defaultAgentAddr : string := ":8081".
Definition defaultManagementAddr : string := ":8082".
Definition defaultRootDomain : string := "localhost".
Definition defaultPublicURL : string := "http://localhost:8080".
Definition defaultStaticToken : string := "dev-token".
Definition defaultControlPlaneTimeout : Z := 5 * second.
Definition defaultCustomDomainCacheTTL : Z := 30 * second.
Definition defaultCustomDomainMissTTL : Z := 5 * second.
Definition defaultMaxBodyBytes : Z := Z.shiftl 1 20.
Definition defaultWSMessageMaxBytes : Z := Z.shiftl 1 20.
Definition defaultMaxConcurrentStreams : Z := 64.
Definition defaultRateLimitRPS : Z := 60.
Definition defaultRateLimitBurst : Z := 120.
Definition defaultAuthAttemptLimit : Z := 5.
Definition defaultAuthAttemptWindow : Z := (60 * second).
Definition defaultStreamChunkBytes : Z := Z.shiftl 32 10.
Definition defaultReadHeaderTimeout : Z := 5 * second.
Definition defaultReadTimeout : Z := 30 * second.
Definition defaultWriteTimeout : Z := 35 * second.
Definition defaultIdleTimeout : Z := 120 * second.
Definition defaultHandshakeTimeout : Z := 10 * second.
Definition defaultStreamRequestTimeout : Z := 30 * second.
Definition defaultStreamIdleTimeout : Z := 60 * second.
Definition defaultStreamMaxLifetime : Z := (3600 * second).
Definition defaultWebSocketWriteTimeout : Z := 10 * second.
Definition defaultWebSocketPingInterval : Z := 15 * second.
Definition defaultWebSocketPongTimeout : Z := 5 * second.
Definition defaultShutdownTimeout : Z := 5 * second.
Definition defaultRequestLogLimit : Z := 500.
Definition defaultRequestLogWriteTimeout : Z := 1 * second.
Definition defaultRequestLogRetention : Z := 30 * 24 * (3600 * second).
Definition defaultRequestLogPruneInterval : Z := (3600 * second).
Definition defaultDBMaxOpenConns : Z := 20.
Definition defaultDBMaxIdleConns : Z := 5.
Definition defaultDBConnMaxLifetime : Z := 30 * (60 * second).
Definition defaultDBConnMaxIdleTime : Z := 5 * (60 * second).

Record Config := mkConfig {
  PublicAddr : string;
  AgentAddr : string;
  ManagementAddr : string;
  ManagementToken : string;
  TrustedProxies : string;
  RootDomain : string;
  PublicURL : string;
  StaticToken : string;
  ControlPlaneURL : string;
  ControlPlaneToken : string;
  ControlPlaneTimeout : Duration;
  CustomDomainCacheTTL : Duration;
  CustomDomainMissTTL : Duration;
  MaxBodyBytes : Z;
  WSMessageMaxBytes : Z;
  MaxConcurrentStreams : Z;
  RateLimitRequestsPerSecond : Z;
  RateLimitBurst : Z;
  AuthAttemptLimit : Z;
  AuthAttemptWindow : Duration;
  StreamChunkBytes : Z;
  ReadHeaderTimeout : Duration;
  ReadTimeout : Duration;
  WriteTimeout : Duration;
  IdleTimeout : Duration;
  HandshakeTimeout : Duration;
  StreamRequestTimeout : Duration;
  StreamIdleTimeout : Duration;
  StreamMaxLifetime : Duration;
  WebSocketWriteTimeout : Duration;
  WebSocketPingInterval : Duration;
  WebSocketPongTimeout : Duration;
  ShutdownTimeout : Duration;
  RequestLogLimit : Z;
  RequestLogDatabaseURL : string;
  RequestLogWriteTimeout : Duration;
  RequestLogRetention : Duration;
  RequestLogPruneInterval : Duration;
  DBMaxOpenConns : Z;
  DBMaxIdleConns : Z;
  DBConnMaxLifetime : Duration;
  DBConnMaxIdleTime : Duration;
}.

(** ** Reading the environment *)
Section config.
Context {U : GoUnicode} {D : GoDuration}.

Definition envString (Getenv : string -> string) (name fallback : string) : string :=
  let value := Getenv name in if String.eqb value "" then fallback else value.

(** [strconv.ParseInt(value, 10, 64)] and [strconv.Atoi] agree on 64-bit. *)
Definition envInt (Getenv : string -> string) (name : string) (fallback : Z) : Z :=
  let value := Getenv name in
  if String.eqb value "" then fallback else
  match Atoi value with
  | None => fallback
  | Some parsed => if parsed <=? 0 then fallback else parsed
  end.
Definition envInt64 := envInt.

Definition envDuration (Getenv : string -> string) (name : string) (fallback : Duration) : Duration :=
  let value := Getenv name in
  if String.eqb value "" then fallback else
  match ParseDuration value with
  | None => fallback
  | Some parsed => if parsed <? 0 then fallback else parsed
  end.

Definition normalizeConfig (cfg : Config) : Config := {|
  PublicAddr := if String.eqb (PublicAddr cfg) "" then defaultPublicAddr else PublicAddr cfg;
  AgentAddr := if String.eqb (AgentAddr cfg) "" then defaultAgentAddr else AgentAddr cfg;
  ManagementAddr := if String.eqb (ManagementAddr cfg) "" then defaultManagementAddr else ManagementAddr cfg;
  ManagementToken := ManagementToken cfg;
  TrustedProxies := TrustedProxies cfg;
  RootDomain := if String.eqb (RootDomain cfg) "" then defaultRootDomain else RootDomain cfg;
  PublicURL := if String.eqb (PublicURL cfg) "" then defaultPublicURL else PublicURL cfg;
  StaticToken := if String.eqb (StaticToken cfg) "" then defaultStaticToken else StaticToken cfg;
  ControlPlaneURL := ControlPlaneURL cfg;
  ControlPlaneToken := ControlPlaneToken cfg;
  ControlPlaneTimeout := if ControlPlaneTimeout cfg <=? 0 then defaultControlPlaneTimeout else ControlPlaneTimeout cfg;
  CustomDomainCacheTTL := if CustomDomainCacheTTL cfg <? 0 then defaultCustomDomainCacheTTL else CustomDomainCacheTTL cfg;
  CustomDomainMissTTL := if CustomDomainMissTTL cfg <? 0 then defaultCustomDomainMissTTL else CustomDomainMissTTL cfg;
  MaxBodyBytes := if MaxBodyBytes cfg <=? 0 then defaultMaxBodyBytes else MaxBodyBytes cfg;
  WSMessageMaxBytes := if WSMessageMaxBytes cfg <=? 0 then defaultWSMessageMaxBytes else WSMessageMaxBytes cfg;
  MaxConcurrentStreams := if MaxConcurrentStreams cfg <=? 0 then defaultMaxConcurrentStreams else MaxConcurrentStreams cfg;
  RateLimitRequestsPerSecond := if RateLimitRequestsPerSecond cfg <=? 0 then defaultRateLimitRPS else RateLimitRequestsPerSecond cfg;
  RateLimitBurst := if RateLimitBurst cfg <=? 0 then defaultRateLimitBurst else RateLimitBurst cfg;
  AuthAttemptLimit := if AuthAttemptLimit cfg <=? 0 then defaultAuthAttemptLimit else AuthAttemptLimit cfg;
  AuthAttemptWindow := if AuthAttemptWindow cfg <=? 0 then defaultAuthAttemptWindow else AuthAttemptWindow cfg;
  StreamChunkBytes := if StreamChunkBytes cfg <=? 0 then defaultStreamChunkBytes else StreamChunkBytes cfg;
  ReadHeaderTimeout := if ReadHeaderTimeout cfg <=? 0 then defaultReadHeaderTimeout else ReadHeaderTimeout cfg;
  ReadTimeout := if ReadTimeout cfg <=? 0 then defaultReadTimeout else ReadTimeout cfg;
  WriteTimeout := if WriteTimeout cfg <=? 0 then defaultWriteTimeout else WriteTimeout cfg;
  IdleTimeout := if IdleTimeout cfg <=? 0 then defaultIdleTimeout else IdleTimeout cfg;
  HandshakeTimeout := if HandshakeTimeout cfg <=? 0 then defaultHandshakeTimeout else HandshakeTimeout cfg;
  StreamRequestTimeout := if StreamRequestTimeout cfg <=? 0 then defaultStreamRequestTimeout else StreamRequestTimeout cfg;
  StreamIdleTimeout := if StreamIdleTimeout cfg <? 0 then defaultStreamIdleTimeout else StreamIdleTimeout cfg;
  StreamMaxLifetime := if StreamMaxLifetime cfg <=? 0 then defaultStreamMaxLifetime else StreamMaxLifetime cfg;
  WebSocketWriteTimeout := if WebSocketWriteTimeout cfg <=? 0 then defaultWebSocketWriteTimeout else WebSocketWriteTimeout cfg;
  WebSocketPingInterval := if WebSocketPingInterval cfg <=? 0 then defaultWebSocketPingInterval else WebSocketPingInterval cfg;
  WebSocketPongTimeout := if WebSocketPongTimeout cfg <=? 0 then defaultWebSocketPongTimeout else WebSocketPongTimeout cfg;
  ShutdownTimeout := if ShutdownTimeout cfg <=? 0 then defaultShutdownTimeout else ShutdownTimeout cfg;
  RequestLogLimit := if RequestLogLimit cfg <? 0 then defaultRequestLogLimit else RequestLogLimit cfg;
  RequestLogDatabaseURL := RequestLogDatabaseURL cfg;
  RequestLogWriteTimeout := if RequestLogWriteTimeout cfg <=? 0 then defaultRequestLogWriteTimeout else RequestLogWriteTimeout cfg;
  RequestLogRetention := if RequestLogRetention cfg <? 0 then defaultRequestLogRetention else RequestLogRetention cfg;
  RequestLogPruneInterval := if RequestLogPruneInterval cfg <? 0 then defaultRequestLogPruneInterval else RequestLogPruneInterval cfg;
  DBMaxOpenConns := if DBMaxOpenConns cfg <=? 0 then defaultDBMaxOpenConns else DBMaxOpenConns cfg;
  DBMaxIdleConns := if DBMaxIdleConns cfg <? 0 then defaultDBMaxIdleConns else DBMaxIdleConns cfg;
  DBConnMaxLifetime := if DBConnMaxLifetime cfg <? 0 then defaultDBConnMaxLifetime else DBConnMaxLifetime cfg;
  DBConnMaxIdleTime := if DBConnMaxIdleTime cfg <? 0 then defaultDBConnMaxIdleTime else DBConnMaxIdleTime cfg;
|}.

Definition ConfigFromEnv (Getenv : string -> string) : Config := normalizeConfig {|
  PublicAddr := envString Getenv "PORTHOOK_ADDR" defaultPublicAddr;
  AgentAddr := envString Getenv "PORTHOOK_AGENT_ADDR" defaultAgentAddr;
  ManagementAddr := envString Getenv "PORTHOOK_MANAGEMENT_ADDR" defaultManagementAddr;
  ManagementToken := envString Getenv "PORTHOOK_MANAGEMENT_TOKEN" "";
  TrustedProxies := envString Getenv "PORTHOOK_TRUSTED_PROXIES" "";
  RootDomain := envString Getenv "PORTHOOK_ROOT_DOMAIN" defaultRootDomain;
  PublicURL := envString Getenv "PORTHOOK_PUBLIC_URL" defaultPublicURL;
  StaticToken := envString Getenv "PORTHOOK_STATIC_TOKEN" defaultStaticToken;
  ControlPlaneURL := envString Getenv "PORTHOOK_CONTROL_PLANE_URL" "";
  ControlPlaneToken := envString Getenv "PORTHOOK_CONTROL_PLANE_TOKEN" "";
  ControlPlaneTimeout := envDuration Getenv "PORTHOOK_CONTROL_PLANE_TIMEOUT" defaultControlPlaneTimeout;
  CustomDomainCacheTTL := envDuration Getenv "PORTHOOK_CUSTOM_DOMAIN_CACHE_TTL" defaultCustomDomainCacheTTL;
  CustomDomainMissTTL := envDuration Getenv "PORTHOOK_CUSTOM_DOMAIN_MISS_TTL" defaultCustomDomainMissTTL;
  MaxBodyBytes := envInt64 Getenv "PORTHOOK_MAX_BODY_BYTES" defaultMaxBodyBytes;
  WSMessageMaxBytes := envInt64 Getenv "PORTHOOK_WS_MESSAGE_MAX_BYTES" defaultWSMessageMaxBytes;
  MaxConcurrentStreams := envInt Getenv "PORTHOOK_MAX_CONCURRENT_STREAMS" defaultMaxConcurrentStreams;
  RateLimitRequestsPerSecond := envInt Getenv "PORTHOOK_RATE_LIMIT_RPS" defaultRateLimitRPS;
  RateLimitBurst := envInt Getenv "PORTHOOK_RATE_LIMIT_BURST" defaultRateLimitBurst;
  AuthAttemptLimit := envInt Getenv "PORTHOOK_AUTH_ATTEMPT_LIMIT" defaultAuthAttemptLimit;
  AuthAttemptWindow := envDuration Getenv "PORTHOOK_AUTH_ATTEMPT_WINDOW" defaultAuthAttemptWindow;
  StreamChunkBytes := envInt Getenv "PORTHOOK_STREAM_CHUNK_BYTES" defaultStreamChunkBytes;
  ReadHeaderTimeout := envDuration Getenv "PORTHOOK_READ_HEADER_TIMEOUT" defaultReadHeaderTimeout;
  ReadTimeout := envDuration Getenv "PORTHOOK_READ_TIMEOUT" defaultReadTimeout;
  WriteTimeout := envDuration Getenv "PORTHOOK_WRITE_TIMEOUT" defaultWriteTimeout;
  IdleTimeout := envDuration Getenv "PORTHOOK_IDLE_TIMEOUT" defaultIdleTimeout;
  HandshakeTimeout := envDuration Getenv "PORTHOOK_HANDSHAKE_TIMEOUT" defaultHandshakeTimeout;
  StreamRequestTimeout := envDuration Getenv "PORTHOOK_STREAM_REQUEST_TIMEOUT" defaultStreamRequestTimeout;
  StreamIdleTimeout := envDuration Getenv "PORTHOOK_STREAM_IDLE_TIMEOUT" defaultStreamIdleTimeout;
  StreamMaxLifetime := envDuration Getenv "PORTHOOK_STREAM_MAX_LIFETIME" defaultStreamMaxLifetime;
  WebSocketWriteTimeout := envDuration Getenv "PORTHOOK_WS_WRITE_TIMEOUT" defaultWebSocketWriteTimeout;
  WebSocketPingInterval := envDuration Getenv "PORTHOOK_WS_PING_INTERVAL" defaultWebSocketPingInterval;
  WebSocketPongTimeout := envDuration Getenv "PORTHOOK_WS_PONG_TIMEOUT" defaultWebSocketPongTimeout;
  ShutdownTimeout := envDuration Getenv "PORTHOOK_SHUTDOWN_TIMEOUT" defaultShutdownTimeout;
  RequestLogLimit := envInt Getenv "PORTHOOK_REQUEST_LOG_LIMIT" defaultRequestLogLimit;
  RequestLogDatabaseURL := envString Getenv "PORTHOOK_REQUEST_LOG_DATABASE_URL" "";
  RequestLogWriteTimeout := envDuration Getenv "PORTHOOK_REQUEST_LOG_WRITE_TIMEOUT" defaultRequestLogWriteTimeout;
  RequestLogRetention := envDuration Getenv "PORTHOOK_REQUEST_LOG_RETENTION" defaultRequestLogRetention;
  RequestLogPruneInterval := envDuration Getenv "PORTHOOK_REQUEST_LOG_PRUNE_INTERVAL" defaultRequestLogPruneInterval;
  DBMaxOpenConns := envInt Getenv "PORTHOOK_DB_MAX_OPEN_CONNS" defaultDBMaxOpenConns;
  DBMaxIdleConns := envInt Getenv "PORTHOOK_DB_MAX_IDLE_CONNS" defaultDBMaxIdleConns;
  DBConnMaxLifetime := envDuration Getenv "PORTHOOK_DB_CONN_MAX_LIFETIME" defaultDBConnMaxLifetime;
  DBConnMaxIdleTime := envDuration Getenv "PORTHOOK_DB_CONN_MAX_IDLE_TIME" defaultDBConnMaxIdleTime;
|}.

(** ** Validation *)
Record ConfigValidationProblem := mkProblem { Field : string; Message : string }.
Record ConfigValidationReport := mkReport {
  Errors : list ConfigValidationProblem;
  Warnings : list ConfigValidationProblem;
}.
Definition HasErrors (r : ConfigValidationReport) : bool := negb (bool_decide (length (Errors r) = 0%nat)).

Definition validateListenAddr (value : string) : option string :=
  if String.eqb (TrimSpace value) "" then Some "must not be empty" else
  match SplitHostPort value with
  | None => Some "must be a listen address such as :8080 or 127.0.0.1:8080"
  | Some (_, port) =>
      match Atoi port with
      | None => Some "must include a TCP port between 1 and 65535"
      | Some parsed =>
          if (parsed <=? 0) || (65535 <? parsed)
          then Some "must include a TCP port between 1 and 65535" else None
      end
  end.

Definition validateRootDomain (value : string) : option string :=
  let value := TrimSpace value in
  if String.eqb value "" then Some "must not be empty"
  else if Contains value "://" || ContainsAny value "/:" then Some "must be a hostname, not a URL"
  else if HasPrefix value "*." then Some "must omit the wildcard prefix"
  else None.

Context {GU : GoURL}.

Definition validateHTTPURL (field value : string) (requireHTTPS : bool) : option string :=
  match url_Parse (TrimSpace value) with
  | Err e => Some ("must be a valid URL: " +:+ error_message e)
  | Ok parsed =>
      if String.eqb (Scheme parsed) "" || String.eqb (url_Host parsed) ""
      then Some "must include scheme and host"
      else if negb (String.eqb (Scheme parsed) "http") && negb (String.eqb (Scheme parsed) "https")
      then Some "must use http or https"
      else if requireHTTPS && negb (String.eqb (Scheme parsed) "https")
      then Some (field +:+ " must use https in production mode")
      else None
  end.

Definition hostnameWithoutPort (rawURL : string) : option string :=
  match url_Parse (TrimSpace rawURL) with
  | Err _ => None
  | Ok parsed =>
      if String.eqb (url_Host parsed) "" then None else
      match SplitHostPort (url_Host parsed) with
      | Some (host, _) => Some host
      | None => Some (url_Host parsed)
      end
  end.

Definition looksLikePlaceholderSecret (value : string) : bool :=
  let value := ToLower (TrimSpace value) in
  String.eqb value "" || Contains value "change-me" || Contains value "changeme"
  || Contains value "dev-token".

Context {NI : GoNetip}.

(** A problem added when a condition holds. *)
Definition check (b : bool) (field message : string) : list ConfigValidationProblem :=
  if b then [mkProblem field message] else [].
Definition check_opt (e : option string) (field : string) : list ConfigValidationProblem :=
  match e with Some m => [mkProblem field m] | None => [] end.

(** The range checks of [ValidateConfig], lines 106 to 198 but for the
    warnings. *)
Definition range_errors (cfg : Config) : list ConfigValidationProblem :=
  check (ControlPlaneTimeout cfg <=? 0) "PORTHOOK_CONTROL_PLANE_TIMEOUT" "must be positive" ++
  check (MaxBodyBytes cfg <=? 0) "PORTHOOK_MAX_BODY_BYTES" "must be positive" ++
  check (WSMessageMaxBytes cfg <=? 0) "PORTHOOK_WS_MESSAGE_MAX_BYTES" "must be positive" ++
  check (MaxConcurrentStreams cfg <=? 0) "PORTHOOK_MAX_CONCURRENT_STREAMS" "must be positive" ++
  check (RateLimitRequestsPerSecond cfg <=? 0) "PORTHOOK_RATE_LIMIT_RPS" "must be positive" ++
  check (RateLimitBurst cfg <=? 0) "PORTHOOK_RATE_LIMIT_BURST" "must be positive" ++
  check (AuthAttemptLimit cfg <=? 0) "PORTHOOK_AUTH_ATTEMPT_LIMIT" "must be positive" ++
  check (AuthAttemptWindow cfg <=? 0) "PORTHOOK_AUTH_ATTEMPT_WINDOW" "must be positive" ++
  check (StreamChunkBytes cfg <=? 0) "PORTHOOK_STREAM_CHUNK_BYTES" "must be positive" ++
  check (ReadHeaderTimeout cfg <=? 0) "PORTHOOK_READ_HEADER_TIMEOUT" "must be positive" ++
  check (ReadTimeout cfg <=? 0) "PORTHOOK_READ_TIMEOUT" "must be positive" ++
  check (WriteTimeout cfg <=? 0) "PORTHOOK_WRITE_TIMEOUT" "must be positive" ++
  check (IdleTimeout cfg <=? 0) "PORTHOOK_IDLE_TIMEOUT" "must be positive" ++
  check (HandshakeTimeout cfg <=? 0) "PORTHOOK_HANDSHAKE_TIMEOUT" "must be positive" ++
  check (StreamRequestTimeout cfg <=? 0) "PORTHOOK_STREAM_REQUEST_TIMEOUT" "must be positive" ++
  check (StreamIdleTimeout cfg <? 0) "PORTHOOK_STREAM_IDLE_TIMEOUT" "must not be negative" ++
  check (StreamMaxLifetime cfg <=? 0) "PORTHOOK_STREAM_MAX_LIFETIME" "must be positive" ++
  check (WebSocketWriteTimeout cfg <=? 0) "PORTHOOK_WS_WRITE_TIMEOUT" "must be positive" ++
  check (WebSocketPingInterval cfg <=? 0) "PORTHOOK_WS_PING_INTERVAL" "must be positive" ++
  check (WebSocketPongTimeout cfg <=? 0) "PORTHOOK_WS_PONG_TIMEOUT" "must be positive" ++
  check (ShutdownTimeout cfg <=? 0) "PORTHOOK_SHUTDOWN_TIMEOUT" "must be positive" ++
  check (RequestLogLimit cfg <? 0) "PORTHOOK_REQUEST_LOG_LIMIT" "must not be negative" ++
  check (RequestLogWriteTimeout cfg <=? 0) "PORTHOOK_REQUEST_LOG_WRITE_TIMEOUT" "must be positive" ++
  check (RequestLogRetention cfg <? 0) "PORTHOOK_REQUEST_LOG_RETENTION" "must not be negative" ++
  check (RequestLogPruneInterval cfg <? 0) "PORTHOOK_REQUEST_LOG_PRUNE_INTERVAL" "must not be negative" ++
  check (DBMaxOpenConns cfg <=? 0) "PORTHOOK_DB_MAX_OPEN_CONNS" "must be positive" ++
  check (DBMaxIdleConns cfg <? 0) "PORTHOOK_DB_MAX_IDLE_CONNS" "must not be negative" ++
  check (DBConnMaxLifetime cfg <? 0) "PORTHOOK_DB_CONN_MAX_LIFETIME" "must not be negative" ++
  check (DBConnMaxIdleTime cfg <? 0) "PORTHOOK_DB_CONN_MAX_IDLE_TIME" "must not be negative".

Definition ValidateConfig (cfg : Config) (production : bool) : ConfigValidationReport :=
  let cfg := normalizeConfig cfg in
  let rootDomainErr := validateRootDomain (RootDomain cfg) in
  let publicURLErr := validateHTTPURL "PORTHOOK_PUBLIC_URL" (PublicURL cfg) production in
  let controlPlaneConfigured := negb (String.eqb (TrimSpace (ControlPlaneURL cfg)) "") in
  {|
    Errors :=
      check_opt (validateListenAddr (PublicAddr cfg)) "PORTHOOK_ADDR" ++
      check_opt (validateListenAddr (AgentAddr cfg)) "PORTHOOK_AGENT_ADDR" ++
      check_opt (validateListenAddr (ManagementAddr cfg)) "PORTHOOK_MANAGEMENT_ADDR" ++
      match ParseTrustedProxies (TrustedProxies cfg) with
      | Err e => [mkProblem "PORTHOOK_TRUSTED_PROXIES" (error_message e)]
      | Ok _ => check (production && String.eqb (TrimSpace (TrustedProxies cfg)) "")
                  "PORTHOOK_TRUSTED_PROXIES" "is required in production mode"
      end ++
      (if String.eqb (TrimSpace (ManagementToken cfg)) ""
       then check production "PORTHOOK_MANAGEMENT_TOKEN" "is required in production mode"
       else check (production && looksLikePlaceholderSecret (ManagementToken cfg))
              "PORTHOOK_MANAGEMENT_TOKEN"
              "must be replaced with a generated secret in production mode") ++
      match rootDomainErr with
      | Some e => [mkProblem "PORTHOOK_ROOT_DOMAIN" e]
      | None => check (production && EqualFold (RootDomain cfg) "localhost")
                  "PORTHOOK_ROOT_DOMAIN" "must not be localhost in production mode"
      end ++
      check_opt publicURLErr "PORTHOOK_PUBLIC_URL" ++
      (if controlPlaneConfigured
       then
         check_opt (validateHTTPURL "PORTHOOK_CONTROL_PLANE_URL" (ControlPlaneURL cfg) false)
           "PORTHOOK_CONTROL_PLANE_URL" ++
         (if String.eqb (TrimSpace (ControlPlaneToken cfg)) ""
          then [mkProblem "PORTHOOK_CONTROL_PLANE_TOKEN"
                  "is required when PORTHOOK_CONTROL_PLANE_URL is configured"]
          else check (production && looksLikePlaceholderSecret (ControlPlaneToken cfg))
                 "PORTHOOK_CONTROL_PLANE_TOKEN"
                 "must be replaced with a generated secret in production mode")
       else
         check production "PORTHOOK_CONTROL_PLANE_URL" "is required in production mode" ++
         (if String.eqb (TrimSpace (StaticToken cfg)) ""
          then [mkProblem "PORTHOOK_STATIC_TOKEN" "is required when no control plane is configured"]
          else check (String.eqb (StaticToken cfg) defaultStaticToken && production)
                 "PORTHOOK_STATIC_TOKEN"
                 "must not use the default development token in production mode")) ++
      range_errors cfg;
    Warnings :=
      match rootDomainErr, publicURLErr with
      | None, None =>
          match hostnameWithoutPort (PublicURL cfg) with
          | Some publicHost =>
              check (negb (EqualFold publicHost (RootDomain cfg))) "PORTHOOK_PUBLIC_URL"
                ("host " +:+ Quote publicHost +:+ " does not match PORTHOOK_ROOT_DOMAIN " +:+
                 Quote (RootDomain cfg) +:+ "; the gateway announces tunnel URLs on PORTHOOK_ROOT_DOMAIN and only reuses PORTHOOK_PUBLIC_URL's scheme and port, so this host is likely a misconfiguration")
          | None => []
          end
      | _, _ => []
      end ++
      check (negb controlPlaneConfigured && negb (String.eqb (TrimSpace (StaticToken cfg)) "")
             && String.eqb (StaticToken cfg) defaultStaticToken && negb production)
        "PORTHOOK_STATIC_TOKEN" "uses the default development token" ++
      check (production && String.eqb (TrimSpace (RequestLogDatabaseURL cfg)) "")
        "PORTHOOK_REQUEST_LOG_DATABASE_URL"
        "is not configured; gateway request logs will be in-memory only" ++
      check ((0 <? DBMaxOpenConns cfg) && (DBMaxOpenConns cfg <? DBMaxIdleConns cfg))
        "PORTHOOK_DB_MAX_IDLE_CONNS"
        "exceeds PORTHOOK_DB_MAX_OPEN_CONNS; database/sql will reduce it to match, so the configured value has no effect";
  |}.


(** * Properties *)

(** The ranges the running gateway relies on. *)
Definition config_ok (cfg : Config) : Prop :=
  0 < MaxBodyBytes cfg /\ 0 < WSMessageMaxBytes cfg /\ 0 < MaxConcurrentStreams cfg /\
  0 < RateLimitRequestsPerSecond cfg /\ 0 < RateLimitBurst cfg /\
  0 < AuthAttemptLimit cfg /\ 0 < AuthAttemptWindow cfg /\ 0 < StreamChunkBytes cfg /\
  0 < StreamRequestTimeout cfg /\ 0 <= StreamIdleTimeout cfg /\ 0 < StreamMaxLifetime cfg /\
  0 < WebSocketWriteTimeout cfg /\ 0 < WebSocketPingInterval cfg /\ 0 < WebSocketPongTimeout cfg /\
  0 <= RequestLogLimit cfg /\ 0 <= CustomDomainCacheTTL cfg /\ 0 <= CustomDomainMissTTL cfg /\
  RootDomain cfg <> "" /\ StaticToken cfg <> "".

Lemma positive_default v d : 0 < d -> 0 < (if v <=? 0 then d else v).
Proof. intros H. destruct (Z.leb_spec v 0); lia. Qed.
Lemma nonneg_default v d : 0 <= d -> 0 <= (if v <? 0 then d else v).
Proof. intros H. destruct (Z.ltb_spec v 0); lia. Qed.
Lemma string_default v d : d <> "" -> (if String.eqb v "" then d else v) <> "".
Proof. intros H. by destruct (String.eqb_spec v ""). Qed.

Lemma normalize_ok cfg : config_ok (normalizeConfig cfg).
Proof.
  unfold config_ok, normalizeConfig; cbn -[Z.shiftl second Z.mul Z.leb Z.ltb].
  repeat split; first [apply positive_default; by vm_compute | apply nonneg_default; by vm_compute |
    by apply string_default].
Qed.

Lemma normalize_idem cfg : normalizeConfig (normalizeConfig cfg) = normalizeConfig cfg.
Proof.
  assert (Hp : forall v d, 0 < d -> (if (if v <=? 0 then d else v) <=? 0 then d
      else if v <=? 0 then d else v) = if v <=? 0 then d else v).
  { intros v d H. destruct (Z.leb_spec v 0); [by destruct (Z.leb_spec d 0)|].
    destruct (Z.leb_spec v 0); [lia|done]. }
  assert (Hn : forall v d, 0 <= d -> (if (if v <? 0 then d else v) <? 0 then d
      else if v <? 0 then d else v) = if v <? 0 then d else v).
  { intros v d H. destruct (Z.ltb_spec v 0); [by destruct (Z.ltb_spec d 0)|].
    destruct (Z.ltb_spec v 0); [lia|done]. }
  assert (Hs : forall v d, (if String.eqb (if String.eqb v "" then d else v) "" then d
      else if String.eqb v "" then d else v) = if String.eqb v "" then d else v).
  { intros v d. destruct (String.eqb_spec v "") as [->|]; [by destruct (String.eqb d "")|].
    by rewrite (proj2 (String.eqb_neq v "")). }
  unfold normalizeConfig at 1. unfold normalizeConfig.
  f_equal; cbn -[Z.shiftl second Z.mul Z.leb Z.ltb];
    first [done | apply Hs | apply Hp; by vm_compute | apply Hn; by vm_compute].
Qed.

(** Whatever the environment holds, the configuration the gateway runs
    with satisfies every range its components rely on, and completing it once
    more changes nothing. *)
Lemma config_from_env_ok Getenv :
  config_ok (ConfigFromEnv Getenv) /\
  normalizeConfig (ConfigFromEnv Getenv) = ConfigFromEnv Getenv.
Proof. split; [apply normalize_ok|apply normalize_idem]. Qed.

(** The request log cannot be switched off from the environment: a limit of
    zero is read as the default. *)
Lemma request_log_limit_never_zero Getenv : 0 < RequestLogLimit (ConfigFromEnv Getenv).
Proof.
  unfold ConfigFromEnv, normalizeConfig. cbn [RequestLogLimit].
  assert (H : 0 < envInt Getenv "PORTHOOK_REQUEST_LOG_LIMIT" defaultRequestLogLimit).
  { unfold envInt. destruct (String.eqb _ ""); [by vm_compute|].
    destruct (Atoi _) as [v|]; [|by vm_compute]. destruct (Z.leb_spec v 0); [by vm_compute|lia]. }
  destruct (Z.ltb_spec (envInt Getenv "PORTHOOK_REQUEST_LOG_LIMIT" defaultRequestLogLimit) 0); lia.
Qed.

(** The range checks of the validator are never reached: it completes the
    configuration before it looks at it. *)
Lemma validate_ranges_unreachable cfg : range_errors (normalizeConfig cfg) = [].
Proof.
  unfold range_errors. set (n := normalizeConfig cfg).
  assert (Hpos : forall v d f m, 0 < d -> check ((if v <=? 0 then d else v) <=? 0) f m = []).
  { intros v d f m H. pose proof (positive_default v d H). unfold check.
    by destruct (Z.leb_spec (if v <=? 0 then d else v) 0); [lia|]. }
  assert (Hnon : forall v d f m, 0 <= d -> check ((if v <? 0 then d else v) <? 0) f m = []).
  { intros v d f m H. pose proof (nonneg_default v d H). unfold check.
    by destruct (Z.ltb_spec (if v <? 0 then d else v) 0); [lia|]. }
  unfold n, normalizeConfig. cbn -[Z.shiftl second Z.mul Z.leb Z.ltb check app].
  repeat first [rewrite Hpos by (by vm_compute) | rewrite Hnon by (by vm_compute)]. done.
Qed.
End config.
