(* ===== verification/WebSocket.v ===== *)
(** server/gateway/internal/gateway/websocket.go: tunneling a public WebSocket.

    The public connection is scripted like the agent's: what each [Read]
    returns, what each [Write] answers, and what the relay's [select] sees.
    The two pumps of a relay run in goroutines of their own; each is given
    here as the function it runs, and [relayPublicWebSocket] combines their
    outcomes in the order they finish. *)
From S2P Require Import Prelude GoStrings Messages Wire StreamDeadline Session.
From Stdlib Require Import ZArith Lia List String Ascii Bool.
From stdpp Require Import base gmap strings list.

Open Scope Z_scope.
Open Scope run_scope.

Definition webSocketHandshakeHeaders : list string :=
  ["Sec-WebSocket-Key"; "Sec-WebSocket-Version"; "Sec-WebSocket-Extensions";
   "Sec-WebSocket-Accept"; "Sec-WebSocket-Protocol"].

Definition headerContainsToken (value token : string) : bool :=
  existsb (fun part => EqualFold (TrimSpace part) token) (Split value ",").

Definition isWebSocketUpgradeRequest (header : Header) : bool :=
  headerContainsToken (Header_Get header "Upgrade") "websocket" &&
  headerContainsToken (Header_Get header "Connection") "upgrade".

Definition requestedWebSocketSubprotocols (header : Header) : list string :=
  let raw := Header_Get header "Sec-WebSocket-Protocol" in
  if String.eqb (TrimSpace raw) "" then []
  else List.filter (fun part => negb (String.eqb part "")) (map TrimSpace (Split raw ",")).

Definition buildWSOpen (path rawQuery : string) (header : Header) (stripAuthorization : bool) : Open :=
  let cleaned := StripHopByHopHeaders header in
  let cleaned := foldl Header_Del cleaned webSocketHandshakeHeaders in
  let cleaned := if stripAuthorization then Header_Del cleaned "Authorization" else cleaned in
  mkOpen path rawQuery cleaned (requestedWebSocketSubprotocols header).

Definition relayOutcome (first second : option error) : option error :=
  match first, second with
  | None, _ | _, None => None
  | Some e, Some _ => Some e
  end.

(** What [publicConn.Read] returns: a message, or an error with
    [websocket.CloseStatus(err)] and, when the relay's context is done,
    [context.Cause(ctx)]. *)
Inductive public_read : Type :=
| ReadMessage (typ : MessageType) (data : bytes)
| ReadError (err : error) (closeStatus : Z) (ctx_cause : option error).

Section relay.
Context {JE : JSONCodec Envelope} {JErr : JSONCodec ErrorPayload} {JCancel : JSONCodec StreamCancel}
  {JOpen : JSONCodec Open} {JAccept : JSONCodec Accept} {JClose : JSONCodec Close}.
Context (conn_Write : nat -> MessageType * bytes -> option error).
(** [publicConn.Write] of the n-th message. *)
Context (public_Write : nat -> MessageType * bytes -> option error).

Definition closeOrCancelForReadError (stream : wsStream) (err : error) (closeStatus : Z)
    : M (option error) :=
  if negb (closeStatus =? -1) then
    _ <- SendClose conn_Write stream closeStatus "" ;; ret None
  else
    _ <- SendCancel conn_Write stream "public websocket connection failed" ;; ret (Some err).

(** Returns the bytes counted and the error it ends with. *)
Fixpoint pumpPublicToAgent (stream : wsStream) (reads : list public_read) (byteCount : Z)
    : M (Z * option error) :=
  match reads with
  | [] => fun s => (None, s)
  | ReadError err closeStatus ctx_cause :: _ =>
      match ctx_cause with
      | Some cause => ret (byteCount, Some cause)
      | None => r <- closeOrCancelForReadError stream err closeStatus ;; ret (byteCount, r)
      end
  | ReadMessage typ data :: rest =>
      let byteCount := byteCount + Z.of_nat (length data) in
      let frameType := match typ with MessageText => TypeWSMessageText | _ => TypeWSMessageBinary end in
      sent <- SendMessage conn_Write stream frameType data ;;
      match sent with
      | Err e => ret (byteCount, Some e)
      | Ok _ => pumpPublicToAgent stream rest byteCount
      end
  end.

Definition is_socket (p : public_write) : bool :=
  match p with SocketMessage _ _ => true | _ => false end.
Definition write_socket (typ : MessageType) (data : bytes) : M (option error) := fun s =>
  let n := length (List.filter is_socket (public s)) in
  (Some (public_Write n (typ, data)),
   mkSt (sess s) (calls s) (conn_writes s) (public s ++ [SocketMessage typ data])).

(** The relay's [select] sees its context or a message for the stream. *)
Fixpoint pumpAgentToPublic (signals : list signal) (byteCount : Z) : M (Z * option error) :=
  match signals with
  | [] => fun s => (None, s)
  | CtxDone cause :: _ => ret (byteCount, Some cause)
  | SessionDone :: rest => pumpAgentToPublic rest byteCount    (* s.done is not selected on *)
  | Received msg :: rest =>
      let typ := env_Type (msg_Envelope msg) in
      if String.eqb typ TypeWSMessageText || String.eqb typ TypeWSMessageBinary then
        let byteCount := byteCount + Z.of_nat (length (msg_Body msg)) in
        let wsType := if String.eqb typ TypeWSMessageText then MessageText else MessageBinary in
        err <- write_socket wsType (msg_Body msg) ;;
        match err with
        | Some e => ret (byteCount, Some e)
        | None => pumpAgentToPublic rest byteCount
        end
      else if String.eqb typ TypeWSClose then
        match DecodePayload Close (msg_Envelope msg) with
        | Err e => ret (byteCount, Some e)
        | Ok payload =>
            emit (SocketClose (cl_Code payload) (cl_Reason payload)) ;;; ret (byteCount, None)
        end
      else if String.eqb typ TypeWSCancel then
        let reason := match DecodePayload StreamCancel (msg_Envelope msg) with
                      | Ok payload => sc_Reason payload | Err _ => "" end in
        ret (byteCount, Some (Errorf ("agent canceled the websocket stream: " +:+ reason)))
      else ret (byteCount, Some (Errorf ("unexpected websocket relay message " +:+ typ)))
  end.

(** Which pump ends first. *)
Inductive finisher := PublicFirst | AgentFirst.

(** The end of [relayPublicWebSocket], once both pumps have returned. *)
Definition relay_end (stream : wsStream) (order : finisher)
    (fromPublic fromAgent : Z * option error) : M (Z * Z * option error) :=
  let outcome :=
    match order with
    | PublicFirst => relayOutcome (snd fromPublic) (snd fromAgent)
    | AgentFirst => relayOutcome (snd fromAgent) (snd fromPublic)
    end in
  match outcome with
  | Some e =>
      if isStreamContextDoneCause e then
        _ <- SendCancel conn_Write stream (streamCancelReason e) ;;
        ret (fst fromPublic, fst fromAgent, outcome)
      else ret (fst fromPublic, fst fromAgent, outcome)
  | None => ret (fst fromPublic, fst fromAgent, outcome)
  end.

(** The relay, for an interleaving in which one pump's effects precede the
    other's. *)
Definition relayPublicWebSocket (stream : wsStream) (reads : list public_read)
    (signals : list signal) (order : finisher) : M (Z * Z * option error) :=
  match order with
  | PublicFirst =>
      p <- pumpPublicToAgent stream reads 0 ;;
      a <- pumpAgentToPublic signals 0 ;;
      relay_end stream order p a
  | AgentFirst =>
      a <- pumpAgentToPublic signals 0 ;;
      p <- pumpPublicToAgent stream reads 0 ;;
      relay_end stream order p a
  end.
End relay.

(** * Properties *)

(** The messages of the public client that were written to the agent. *)
Definition relayed_message (c : call * result unit) : list (MessageType * bytes) :=
  match c with
  | (WriteBody typ _ _ data, Ok _) =>
      [(if String.eqb typ TypeWSMessageText then MessageText else MessageBinary, data)]
  | _ => []
  end.

Definition text_or_binary (r : public_read) : Prop :=
  match r with ReadMessage MessageOther _ => False | _ => True end.

(** What the client sent before its connection ended. *)
Fixpoint before_error (reads : list public_read) : list (MessageType * bytes) :=
  match reads with
  | ReadMessage typ data :: rest => (typ, data) :: before_error rest
  | _ => []
  end.

Section relay_properties.
Context {JE : JSONCodec Envelope} {JErr : JSONCodec ErrorPayload} {JCancel : JSONCodec StreamCancel}
  {JOpen : JSONCodec Open} {JAccept : JSONCodec Accept} {JClose : JSONCodec Close}.
Context (conn_Write : nat -> MessageType * bytes -> option error).
Context (public_Write : nat -> MessageType * bytes -> option error).

Definition data_bytes (l : list (MessageType * bytes)) : Z :=
  foldr (fun m n => Z.of_nat (length (snd m)) + n) 0 l.

Definition relayed (cs : list (call * result unit)) : list (MessageType * bytes) :=
  concat (map relayed_message cs).
Definition all_written (cs : list (call * result unit)) : Prop := Forall (fun c => snd c = Ok tt) cs.

(** Telling the agent how the public side ended adds no message. *)
Lemma close_or_cancel_calls stream err status s r s' :
  closeOrCancelForReadError conn_Write stream err status s = (Some r, s') ->
  exists cs, calls s' = calls s ++ cs /\ relayed cs = [].
Proof.
  unfold closeOrCancelForReadError, SendClose, SendCancel, bindM, tunnel_id, ret, write, send.
  repeat case_match; intros [= <- <-]; simplify_eq; simpl;
    first [by eexists | by exists []; rewrite app_nil_r].
Qed.

(** WebSocket messages are relayed to the agent as they are: whatever
    fails, the frames written carry, in order and each with its text or binary
    kind, a prefix of what the public client sent before its connection ended;
    when every write succeeds they carry all of it, and the byte count is
    exact. *)
Lemma public_messages_relayed stream reads count s n err s' :
  Forall text_or_binary reads ->
  pumpPublicToAgent conn_Write stream reads count s = (Some (n, err), s') ->
  exists cs, calls s' = calls s ++ cs /\
    relayed cs `prefix_of` before_error reads /\
    (all_written cs -> relayed cs = before_error reads /\ n = count + data_bytes (before_error reads)).
Proof.
  intros HF. revert count s. induction HF as [|r reads Hr HF IH]; intros count s;
    cbn [pumpPublicToAgent]; [done|]. destruct r as [typ data|e status [cause|]].
  - unfold bindM, SendMessage. set (ft := match typ with MessageText => _ | _ => _ end).
    destruct (writeBinaryBody_spec conn_Write ft (ws_streamID stream) data s)
      as (r & s1 & -> & _ & _ & Hc).
    assert (Hk : (if String.eqb ft TypeWSMessageText then MessageText else MessageBinary) = typ)
      by (by destruct typ).
    destruct r as [[]|e].
    + intros H. apply IH in H as (cs & E1 & E2 & E3).
      exists ((WriteBody ft (ws_streamID stream) (tunnelID (sess s)) data, Ok tt) :: cs).
      unfold relayed in *. cbn [map concat relayed_message before_error data_bytes foldr snd app].
      rewrite E1, Hc, <- app_assoc, Hk. split; [done|]. split; [by apply prefix_cons|].
      intros Hall. inv Hall. destruct (E3 ltac:(done)) as [-> ->]. split; [done|].
      unfold data_bytes. lia.
    + intros [= <- <- <-]. eexists. split; [exact Hc|]. split; [apply prefix_nil|].
      intros Hall. by inv Hall.
  - intros [= <- <- <-]. exists []. rewrite app_nil_r. split; [done|]. split; [done|].
    intros _. split; [done|]. simpl. lia.
  - unfold bindM at 1. destruct (closeOrCancelForReadError conn_Write stream e status s) as [[r|] s1] eqn:E;
      [|done]. intros [= <- <- <-]. apply close_or_cancel_calls in E as (cs & Ec & Er).
    exists cs. rewrite Er. split; [done|]. split; [done|]. intros _. split; [done|]. simpl. lia.
Qed.
End relay_properties.

(** What is forwarded to the local service of an upgrade request never carries
    a handshake header of the public leg. *)
Lemma foldl_Del_get h keys k :
  In k keys -> foldl Header_Del h keys !! CanonicalHeaderKey k = None.
Proof.
  intros H. rewrite foldl_Del_lookup, bool_decide_true; [done|].
  apply list_elem_of_In, in_map_iff. by exists k.
Qed.

(** The open request sent to the agent carries no hop-by-hop and no
    WebSocket handshake header of the public connection, and no credentials
    the gateway has consumed. *)
Lemma ws_open_headers path query header strip k :
  In k webSocketHandshakeHeaders \/ In k hopByHopHeaders \/ (strip = true /\ k = "Authorization"%string) ->
  op_Header (buildWSOpen path query header strip) !! CanonicalHeaderKey k = None.
Proof.
  intros H. unfold buildWSOpen. cbn [op_Header].
  set (h1 := foldl Header_Del (StripHopByHopHeaders header) webSocketHandshakeHeaders).
  assert (Hmono : forall h x, h !! CanonicalHeaderKey k = None ->
    Header_Del h x !! CanonicalHeaderKey k = None).
  { intros h x Hn. unfold Header_Del. destruct (decide (CanonicalHeaderKey x = CanonicalHeaderKey k)) as [->|];
      [apply lookup_delete_eq|by rewrite lookup_delete_ne]. }
  destruct H as [H|[H|[-> ->]]].
  - assert (h1 !! CanonicalHeaderKey k = None) by (by apply foldl_Del_get). destruct strip; auto.
  - assert (Hs : StripHopByHopHeaders header !! CanonicalHeaderKey k = None)
      by (unfold StripHopByHopHeaders; by apply foldl_Del_get).
    assert (h1 !! CanonicalHeaderKey k = None).
    { unfold h1. rewrite foldl_Del_lookup. by case_bool_decide. }
    destruct strip; auto.
  - unfold Header_Del. apply lookup_delete_eq.
Qed.

Lemma ws_open_headers_witness :
  op_Header (buildWSOpen "/ws" "" (Header_Set ∅ "Sec-WebSocket-Key" "x") true)
    !! CanonicalHeaderKey "Sec-WebSocket-Key" = None.
Proof. apply ws_open_headers. left. by left. Defined.

Lemma public_messages_relayed_witness :
  let JE : JSONCodec Envelope := Witness.const_codec (mkEnvelope TypePing "" "" []) in
  let JCancel : JSONCodec StreamCancel := Witness.const_codec (mkStreamCancel "") in
  let JClose : JSONCodec Close := Witness.const_codec (mkClose 1000 "") in
  let reads := [ReadMessage MessageText (to_bytes "hi"); ReadMessage MessageBinary (to_bytes "xyz");
                ReadError EOF 1000 None] in
  exists cs,
    calls (snd (pumpPublicToAgent Witness.conn_ok (mkWSStream "str_1" false) reads 0 Witness.st0))
      = calls Witness.st0 ++ cs /\
    relayed cs `prefix_of` before_error reads /\
    (all_written cs -> relayed cs = before_error reads /\ 5 = 0 + data_bytes (before_error reads)).
Proof.
  intros JE JCancel JClose reads.
  apply (public_messages_relayed (JE := JE) (JCancel := JCancel) (JClose := JClose)
    Witness.conn_ok (mkWSStream "str_1" false) reads 0 Witness.st0 5 None).
  - by repeat constructor.
  - reflexivity.
Defined.
