(* ===== verification/Tunnels.v ===== *)
(** server/gateway/internal/gateway/server.go, the agent's side: handshake,
    tunnel registration, and the table of live sessions.

    A handshake reads at most two envelopes; [wsjson.Read] is what it was
    given, [wsjson.Write] the parameter [conn_write], and the envelopes it
    tried to write are returned.  The generators of names and ids are the
    sequences of their results. *)
From S2P Require Import Prelude GoStrings Names Messages Wire Registry Session ControlPlaneClient Config.
From Stdlib Require Import ZArith Lia List String Ascii Bool.
From stdpp Require Import base gmap strings list.

Open Scope Z_scope.

Definition randomSubdomainLength : Z := 8.
Definition randomSubdomainAttempts : nat := 8.

Record agentIdentity := mkIdentity {
  id_Valid : bool;
  id_TokenID : string;
  id_AgentVersion : string;
  id_ProtocolVersion : string;
  id_Capabilities : list string;
}.

(** The counters of the handshake. *)
Record agentMetrics := mkAgentMetrics {
  tokenValidationsTotal : Z;
  tokenValidationErrorsTotal : Z;
  authFailuresTotal : Z;
  tunnelRegistrationsTotal : Z;
  tunnelRegistrationFailuresTotal : Z;
}.

(** ** Names and ids *)
Definition newTunnelID (r : list (option Z)) : result string * list (option Z) :=
  match RandomSubdomain 20 r with
  | (Ok suffix, r') => (Ok ("tun_" +:+ suffix), r')
  | (Err e, r') => (Err e, r')
  end.
Definition newStreamID (r : list (option Z)) : result string * list (option Z) :=
  match RandomSubdomain 20 r with
  | (Ok suffix, r') => (Ok ("str_" +:+ suffix), r')
  | (Err e, r') => (Err e, r')
  end.

Definition reservedSubdomainDeniedError (subdomain reason : string) : string * string :=
  if String.eqb reason "not_reserved" then
    ("subdomain_not_reserved", "subdomain " +:+ Quote subdomain +:+ " is not reserved for this token; reserve it first or omit --subdomain for a random subdomain")
  else if String.eqb reason "reserved_for_another_token" then
    ("subdomain_reserved", "subdomain " +:+ Quote subdomain +:+ " is reserved for another token; choose another name or omit --subdomain for a random subdomain")
  else if String.eqb reason "missing_token_id" then
    ("subdomain_authorization_unavailable", "control plane did not identify the agent token; omit --subdomain or upgrade the control plane")
  else
    let reason := if String.eqb (TrimSpace reason) "" then "not allowed" else reason in
    ("subdomain_not_allowed", "subdomain " +:+ Quote subdomain +:+ " is not allowed: " +:+ reason).

Section tunnels.
Context {GU : GoURL} {JAuth : JSONCodec AuthRequest} {JOK : JSONCodec AuthOK}
  {JErr : JSONCodec ErrorPayload} {JReg : JSONCodec TunnelRegister}
  {JRegd : JSONCodec TunnelRegistered}.
Context (cfg : Config) (B : Backends).
Context (conn_write : Envelope -> option error).

Definition publicURLForSubdomain (subdomain : string) : string :=
  let plain := "http://" +:+ subdomain +:+ "." +:+ RootDomain cfg in
  match url_Parse (PublicURL cfg) with
  | Err _ => plain
  | Ok parsed =>
      if String.eqb (Scheme parsed) "" then plain else
      let name := subdomain +:+ "." +:+ RootDomain cfg in
      let host :=
        match SplitHostPort (url_Host parsed) with
        | Some (_, port) => if negb (String.eqb port "") then JoinHostPort name port else name
        | None => name
        end in
      url_String (mkURL (Scheme parsed) (User parsed) host "" "" "" (url_Other parsed))
  end.

(** ** Authentication *)
(** The error envelope; [New] cannot fail on it but for [json.Marshal], and
    then the code writes the zero envelope. *)
Definition auth_error (code message : string) : Envelope :=
  match Messages.New TypeAuthError (Some (mkErrorPayload code message)) with
  | Ok env => env
  | Err _ => mkEnvelope "" "" "" []
  end.

Definition count_validation (m : agentMetrics) (failed : bool) : agentMetrics :=
  mkAgentMetrics (tokenValidationsTotal m + 1)
    (tokenValidationErrorsTotal m + (if failed then 1 else 0))
    (authFailuresTotal m) (tunnelRegistrationsTotal m) (tunnelRegistrationFailuresTotal m).

Definition authenticateAgent (read : result Envelope) (m : agentMetrics)
    : result agentIdentity * list Envelope * agentMetrics :=
  match read with
  | Err e => (Err (Wrap "read auth request" e), [], m)
  | Ok env =>
      if negb (String.eqb (env_Type env) TypeAuthRequest)
      then (Err (Errorf ("expected " +:+ TypeAuthRequest +:+ ", got " +:+ env_Type env)), [], m)
      else
        match DecodePayload AuthRequest env with
        | Err e => (Err e, [], m)
        | Ok payload =>
            match ValidateAgentToken B (ar_Token payload) with
            | Err e =>
                (Err (Wrap "validate token" e),
                 [auth_error "auth_unavailable" "token validation failed"], count_validation m true)
            | Ok validation =>
                let m := count_validation m false in
                if negb (Valid validation) then
                  (Err (Errorf "invalid token"), [auth_error "invalid_token" "invalid token"], m)
                else if negb (IsProtocolVersionSupported (ar_ProtocolVersion payload)) then
                  (Err (Errorf ("unsupported protocol version " +:+ Quote (ar_ProtocolVersion payload))),
                   [auth_error "unsupported_protocol"
                      ("protocol version " +:+ Quote (ar_ProtocolVersion payload) +:+
                       " is not supported, minimum supported version is " +:+
                       Quote MinSupportedProtocolVersion)], m)
                else
                  let missing :=
                    MissingRequiredCapabilities (ar_Capabilities payload) RequiredProtocolCapabilities in
                  if negb (bool_decide (missing = [])) then
                    (Err (Errorf ("agent capabilities missing: " +:+ GoStrings.Join missing ", ")),
                     [auth_error "unsupported_protocol"
                        ("agent protocol is missing capabilities: " +:+ GoStrings.Join missing ", ")], m)
                  else
                    match Messages.New TypeAuthOK (Some (mkAuthOK ProtocolVersion DefaultProtocolCapabilities)) with
                    | Err e => (Err e, [], m)
                    | Ok authOK =>
                        match conn_write authOK with
                        | Some e => (Err e, [authOK], m)
                        | None =>
                            (Ok (mkIdentity true (TokenID validation) (ar_AgentVersion payload)
                                   (ar_ProtocolVersion payload) (ar_Capabilities payload)), [authOK], m)
                        end
                    end
            end
        end
  end.

(** ** Registration *)
Definition tunnel_error (code message : string) : list Envelope :=
  match Messages.New TypeTunnelError (Some (mkErrorPayload code message)) with
  | Ok env => [env]
  | Err _ => []
  end.

(** What a registration reads from its generators. *)
Record generators := mkGenerators {
  subdomains : list (result string);
  tunnelIDs : list (result string);
  clock : Time;
}.
Definition next_result (l : list (result string)) : result string * list (result string) :=
  match l with [] => (Err (Errorf "generator exhausted"), []) | r :: l' => (r, l') end.

Definition newTunnelSession (payload : TunnelRegister) (identity : agentIdentity) (subdomain : string)
    (g : generators) : result Registry.Session * generators :=
  let '(r, ids) := next_result (tunnelIDs g) in
  let g := mkGenerators (subdomains g) ids (clock g) in
  match r with
  | Err e => (Err e, g)
  | Ok tunnelID =>
      (Ok (mkSession tunnelID subdomain (publicURLForSubdomain subdomain) (tr_LocalTarget payload)
             (tr_Protocol payload) (id_AgentVersion identity) (id_ProtocolVersion identity)
             (id_Capabilities identity) (clock g)), g)
  end.

(** Result, envelopes written, registry after. *)
Abbreviation registration := (result Registry.Session * list Envelope * Registry * generators)%type.

Definition registerRequestedSubdomain (identity : agentIdentity) (payload : TunnelRegister)
    (reg : Registry) (g : generators) : registration :=
  let subdomain := tr_RequestedSubdomain payload in
  match ValidateSubdomain subdomain with
  | Err e =>
      let message := "invalid requested subdomain " +:+ Quote subdomain +:+ ": " +:+ error_message e in
      (Err (Errorf message), tunnel_error "invalid_subdomain" message, reg, g)
  | Ok _ =>
      match AuthorizeReservedSubdomain B (id_TokenID identity) subdomain with
      | Err e =>
          let message := "reserved subdomain authorization failed" in
          (Err (Wrap message e), tunnel_error "subdomain_authorization_unavailable" message, reg, g)
      | Ok authorization =>
          if negb (az_Allowed authorization) then
            let '(code, message) := reservedSubdomainDeniedError subdomain (az_Reason authorization) in
            (Err (Errorf message), tunnel_error code message, reg, g)
          else
            match newTunnelSession payload identity subdomain g with
            | (Err e, g) =>
                (Err e, tunnel_error "registration_failed" "failed to create tunnel session", reg, g)
            | (Ok tunnel, g) =>
                match Register reg (Some tunnel) with
                | (Ok _, reg') => (Ok tunnel, [], reg', g)
                | (Err e, reg') =>
                    if errors_Is e ErrSubdomainAlreadyRegistered then
                      (Err e, tunnel_error "subdomain_unavailable"
                         ("subdomain " +:+ Quote subdomain +:+ " is already in use; choose another name or omit --subdomain for a random subdomain"), reg', g)
                    else (Err e, tunnel_error "registration_failed" (error_message e), reg', g)
                end
            end
      end
  end.

(** The retry loop, [n] attempts left. *)
Fixpoint random_attempts (n : nat) (identity : agentIdentity) (payload : TunnelRegister)
    (lastErr : option error) (reg : Registry) (g : generators) : registration :=
  match n with
  | O =>
      let message := "could not assign a random subdomain; retry or request a subdomain with --subdomain" in
      (Err (match lastErr with Some e => Wrap message e | None => Errorf message end),
       tunnel_error "random_subdomain_exhausted" message, reg, g)
  | S n' =>
      let '(r, subs) := next_result (subdomains g) in
      let g := mkGenerators subs (tunnelIDs g) (clock g) in
      match r with
      | Err e =>
          (Err e, tunnel_error "registration_failed" "failed to generate random subdomain", reg, g)
      | Ok subdomain =>
          match ValidateSubdomain subdomain with
          | Err e => random_attempts n' identity payload (Some e) reg g
          | Ok _ =>
              match newTunnelSession payload identity subdomain g with
              | (Err e, g) =>
                  (Err e, tunnel_error "registration_failed" "failed to create tunnel session", reg, g)
              | (Ok tunnel, g) =>
                  match Register reg (Some tunnel) with
                  | (Ok _, reg') => (Ok tunnel, [], reg', g)
                  | (Err e, reg') =>
                      if errors_Is e ErrSubdomainAlreadyRegistered
                      then random_attempts n' identity payload (Some e) reg' g
                      else (Err e, tunnel_error "registration_failed" (error_message e), reg', g)
                  end
              end
          end
      end
  end.
Definition registerRandomSubdomain (identity : agentIdentity) (payload : TunnelRegister)
    (reg : Registry) (g : generators) : registration :=
  random_attempts randomSubdomainAttempts identity payload None reg g.

Definition registerTunnelSession (identity : agentIdentity) (payload : TunnelRegister)
    (reg : Registry) (g : generators) : registration :=
  if negb (String.eqb (tr_RequestedSubdomain payload) "")
  then registerRequestedSubdomain identity payload reg g
  else registerRandomSubdomain identity payload reg g.

Definition registerTunnel (identity : agentIdentity) (read : result Envelope)
    (reg : Registry) (g : generators) : registration :=
  match read with
  | Err e => (Err (Wrap "read tunnel registration" e), [], reg, g)
  | Ok env =>
      if negb (String.eqb (env_Type env) TypeTunnelRegister)
      then (Err (Errorf ("expected " +:+ TypeTunnelRegister +:+ ", got " +:+ env_Type env)), [], reg, g)
      else
        match DecodePayload TunnelRegister env with
        | Err e => (Err e, [], reg, g)
        | Ok payload =>
            if negb (String.eqb (tr_Protocol payload) "http") then
              let message := "unsupported tunnel protocol " +:+ Quote (tr_Protocol payload) in
              (Err (Errorf message), tunnel_error "unsupported_protocol" message, reg, g)
            else
              match registerTunnelSession identity payload reg g with
              | (Err e, sent, reg, g) => (Err e, sent, reg, g)
              | (Ok tunnel, sent, reg, g) =>
                  match Messages.New TypeTunnelRegistered
                          (Some (mkTunnelRegistered (Registry.TunnelID tunnel)
                                   (Registry.PublicURL tunnel) (Registry.Subdomain tunnel))) with
                  | Err e => (Err e, sent, Unregister reg (Registry.TunnelID tunnel), g)
                  | Ok registered =>
                      match conn_write registered with
                      | Some e =>
                          (Err (Wrap "write tunnel registered" e), sent ++ [registered],
                           Unregister reg (Registry.TunnelID tunnel), g)
                      | None => (Ok tunnel, sent ++ [registered], reg, g)
                      end
                  end
              end
        end
  end.

(** ** The session table *)
Record liveSession := mkLive { tunnel : Registry.Session; agent : agentSession }.
Record Server := mkServer { registry : Registry; sessions : gmap string liveSession }.

Definition sessionBySubdomain (s : Server) (subdomain : string) : option liveSession :=
  match LookupBySubdomain (registry s) subdomain with
  | None => None
  | Some t => sessions s !! Registry.TunnelID t
  end.
Definition sessionByTunnelID (s : Server) (tunnelID : string) : option liveSession :=
  sessions s !! tunnelID.
Definition addSession (s : Server) (session : liveSession) : Server :=
  mkServer (registry s) (<[Registry.TunnelID (tunnel session) := session]> (sessions s)).
Definition removeSession (s : Server) (tunnelID : string) : Server :=
  mkServer (Unregister (registry s) tunnelID) (delete tunnelID (sessions s)).
Definition streamStats (s : Server) : Z * Z :=
  map_fold (fun _ l acc => (activeStreams (agent l) + acc.1, streamCapacity (agent l) + acc.2))
    (0, 0) (sessions s).

(** [handleAgentWebSocket] up to the read loop: counters, table and what was
    written; [Some] is the session that was added, with which the read loop
    runs until [removeSession]. *)
Definition handleAgentWebSocket (authRead regRead : result Envelope) (s : Server) (m : agentMetrics)
    (g : generators) : option liveSession * list Envelope * Server * agentMetrics :=
  match authenticateAgent authRead m with
  | (Err _, sent, m) =>
      (None, sent, s, mkAgentMetrics (tokenValidationsTotal m) (tokenValidationErrorsTotal m)
         (authFailuresTotal m + 1) (tunnelRegistrationsTotal m) (tunnelRegistrationFailuresTotal m))
  | (Ok identity, sent, m) =>
      match registerTunnel identity regRead (registry s) g with
      | (Err _, sent', reg, _) =>
          (None, sent ++ sent', mkServer reg (sessions s),
           mkAgentMetrics (tokenValidationsTotal m) (tokenValidationErrorsTotal m) (authFailuresTotal m)
             (tunnelRegistrationsTotal m) (tunnelRegistrationFailuresTotal m + 1))
      | (Ok t, sent', reg, _) =>
          let live := mkLive t (newAgentSession (Registry.TunnelID t) (MaxConcurrentStreams cfg)) in
          (Some live, sent ++ sent', addSession (mkServer reg (sessions s)) live,
           mkAgentMetrics (tokenValidationsTotal m) (tokenValidationErrorsTotal m) (authFailuresTotal m)
             (tunnelRegistrationsTotal m + 1) (tunnelRegistrationFailuresTotal m))
      end
  end.
End tunnels.

(** * Properties *)
Section tunnels_properties.
Context {GU : GoURL} {JAuth : JSONCodec AuthRequest} {JOK : JSONCodec AuthOK}
  {JErr : JSONCodec ErrorPayload} {JReg : JSONCodec TunnelRegister}
  {JRegd : JSONCodec TunnelRegistered}.
Context (cfg : Config) (B : Backends).
Context (conn_write : Envelope -> option error).

(** What a registration may do to the registry. *)
Definition registered_in (reg reg' : Registry) (t : Registry.Session) : Prop :=
  valid_subdomain (Registry.Subdomain t) /\ Registry.TunnelID t <> "" /\
  byTunnelID reg !! Registry.TunnelID t = None /\ bySubdomain reg !! Registry.Subdomain t = None /\
  reg' = mkRegistry (<[Registry.TunnelID t := t]> (byTunnelID reg))
                    (<[Registry.Subdomain t := t]> (bySubdomain reg)).

Definition registration_ok (reg : Registry) (out : result Registry.Session * list Envelope * Registry * generators)
    : Prop :=
  match out with
  | (Ok t, _, reg', _) => registered_in reg reg' t
  | (Err _, _, reg', _) => reg' = reg
  end.

Lemma Registry_eta r : mkRegistry (byTunnelID r) (bySubdomain r) = r.
Proof. by destruct r. Qed.

Lemma registered_undo reg reg' t : registered_in reg reg' t -> Unregister reg' (Registry.TunnelID t) = reg.
Proof.
  intros (_ & _ & H1 & H2 & ->). unfold Unregister. simpl. rewrite lookup_insert_eq. simpl.
  rewrite !delete_insert_id by done. apply Registry_eta.
Qed.

Lemma register_new reg t e reg' :
  Register reg (Some t) = (e, reg') ->
  match e with
  | Ok _ => valid_subdomain (Registry.Subdomain t) -> registered_in reg reg' t
  | Err _ => reg' = reg
  end.
Proof.
  intros E. destruct (Register_cases reg (Some t)) as [[H1 H2]|(v & Hv & Hid & Hsub & H1 & H2 & H3)].
  - rewrite E in *. simpl in *. destruct e as [[]|e]; done.
  - injection Hv as <-. rewrite E in H3. injection H3 as -> ->. intros Hvalid. split; [done|].
    by repeat split.
Qed.

Lemma newTunnelSession_sub payload identity sub g t g' :
  newTunnelSession cfg payload identity sub g = (Ok t, g') -> Registry.Subdomain t = sub.
Proof.
  unfold newTunnelSession. destruct (next_result _) as [[id|e] ids]; [|done]. by intros [= <- <-].
Qed.

(** Registering a session under a valid name. *)
Lemma register_valid reg payload identity sub g t g' e reg' :
  newTunnelSession cfg payload identity sub g = (Ok t, g') -> ValidateSubdomain sub = Ok tt ->
  Register reg (Some t) = (e, reg') ->
  match e with Ok _ => registered_in reg reg' t | Err _ => reg' = reg end.
Proof.
  intros Hn%newTunnelSession_sub Hv%ValidateSubdomain_valid Hr%register_new.
  destruct e; [|done]. apply Hr. by rewrite Hn.
Qed.

Lemma requested_ok identity payload reg g :
  registration_ok reg (registerRequestedSubdomain cfg B identity payload reg g).
Proof.
  unfold registerRequestedSubdomain, registration_ok.
  destruct (ValidateSubdomain _) as [[]|e] eqn:Ev; [|done].
  destruct (AuthorizeReservedSubdomain B _ _) as [a|e]; [|done].
  destruct (az_Allowed a); cbn [negb]; [|by destruct (reservedSubdomainDeniedError _ _)].
  destruct (newTunnelSession _ _ _ _ _) as [[t|e] g'] eqn:En; [|done].
  destruct (Register reg (Some t)) as [e reg'] eqn:Er.
  pose proof (register_valid _ _ _ _ _ _ _ _ _ En Ev Er) as H.
  destruct e as [[]|e]; [done|]. by destruct (errors_Is e _).
Qed.

Lemma random_ok n identity payload lastErr reg g :
  registration_ok reg (random_attempts cfg n identity payload lastErr reg g).
Proof.
  revert lastErr reg g. induction n as [|n IH]; intros lastErr reg g; cbn [random_attempts]; [done|].
  destruct (next_result _) as [[sub|e] subs]; [|done].
  destruct (ValidateSubdomain sub) as [[]|e] eqn:Ev; [|apply IH].
  destruct (newTunnelSession _ _ _ _ _) as [[t|e] g'] eqn:En; [|done].
  destruct (Register reg (Some t)) as [e reg'] eqn:Er.
  pose proof (register_valid _ _ _ _ _ _ _ _ _ En Ev Er) as H.
  destruct e as [[]|e]; [done|]. subst reg'. destruct (errors_Is e _); [apply IH|done].
Qed.

Lemma registerTunnelSession_ok identity payload reg g :
  registration_ok reg (registerTunnelSession cfg B identity payload reg g).
Proof. unfold registerTunnelSession. destruct (negb _); [apply requested_ok|apply random_ok]. Qed.


Lemma missing_nil caps req :
  MissingRequiredCapabilities caps req = [] -> forall c, c ∈ req -> c ∈ caps.
Proof.
  intros E c Hc. destruct (decide (c ∈ caps)) as [|Hn]; [done|].
  assert (c ∈ MissingRequiredCapabilities caps req) as Hm
    by (by apply MissingRequiredCapabilities_elem). rewrite E in Hm. by apply elem_of_nil in Hm.
Qed.

(** C10: an agent is admitted only with a token the control plane accepts, a
    supported protocol version and every required capability; it is told so
    exactly once, and the identity is what it declared. *)
Theorem agent_admitted read m identity sent m' :
  authenticateAgent B conn_write read m = (Ok identity, sent, m') ->
  exists env payload v,
    read = Ok env /\ env_Type env = TypeAuthRequest /\ DecodePayload AuthRequest env = Ok payload /\
    ValidateAgentToken B (ar_Token payload) = Ok v /\ Valid v = true /\
    IsProtocolVersionSupported (ar_ProtocolVersion payload) = true /\
    (forall c, c ∈ RequiredProtocolCapabilities -> c ∈ ar_Capabilities payload) /\
    identity = mkIdentity true (TokenID v) (ar_AgentVersion payload) (ar_ProtocolVersion payload)
                 (ar_Capabilities payload) /\
    map env_Type sent = [TypeAuthOK] /\
    m' = count_validation m false.
Proof.
  unfold authenticateAgent. destruct read as [env|e]; [|done].
  destruct (String.eqb_spec (env_Type env) TypeAuthRequest) as [Ht|]; cbn [negb]; [|done].
  destruct (DecodePayload AuthRequest env) as [payload|e] eqn:Ed; [|done].
  destruct (ValidateAgentToken B (ar_Token payload)) as [v|e] eqn:Ev; [|done].
  destruct (Valid v) eqn:Hv; cbn [negb]; [|done].
  destruct (IsProtocolVersionSupported _) eqn:Hp; cbn [negb]; [|done].
  case_bool_decide as Hm; cbn [negb]; [|done].
  destruct (Messages.New TypeAuthOK _) as [ok|e] eqn:En; [|done].
  destruct (conn_write ok); [done|]. intros [= <- <- <-].
  exists env, payload, v. repeat split; try done; [by apply missing_nil|].
  unfold Messages.New in En. apply NewStream_type in En. simpl. by rewrite En.
Qed.

(** ** The table of live sessions *)
(** The registry and the table have locks of their own: a tunnel is in the
    registry before its session is in the table, and still there after. *)
Inductive server_step : Server -> Server -> Prop :=
| srv_register s t reg' :
    Register (registry s) (Some t) = (Ok tt, reg') -> server_step s (mkServer reg' (sessions s))
| srv_abandon s id :
    sessions s !! id = None -> server_step s (mkServer (Unregister (registry s) id) (sessions s))
| srv_add s live :
    byTunnelID (registry s) !! Registry.TunnelID (tunnel live) = Some (tunnel live) ->
    server_step s (addSession s live)
| srv_update s live agent' :
    sessions s !! Registry.TunnelID (tunnel live) = Some live ->
    server_step s (addSession s (mkLive (tunnel live) agent'))
| srv_drop s id : server_step s (mkServer (registry s) (delete id (sessions s)))
| srv_remove s id : server_step s (removeSession s id).

Definition server_ok (s : Server) : Prop :=
  consistent (registry s) /\
  map_Forall (fun id live => Registry.TunnelID (tunnel live) = id /\
    byTunnelID (registry s) !! id = Some (tunnel live)) (sessions s).

Lemma Unregister_other reg id id' :
  id <> id' -> byTunnelID (Unregister reg id) !! id' = byTunnelID reg !! id'.
Proof.
  intros Hne. unfold Unregister. destruct (byTunnelID reg !! id); [|done]. simpl.
  by rewrite lookup_delete_ne.
Qed.

Lemma server_step_ok s s' : server_ok s -> server_step s s' -> server_ok s'.
Proof.
  intros [Hc Hs] Hstep. destruct Hstep as [s t reg' E|s id E|s live E|s live agent' E|s id|s id]; simpl.
  - destruct (Register_cases (registry s) (Some t)) as [[H _]|(v & Hv & _ & _ & H1 & _ & H3)];
      [by rewrite E in H|].
    injection Hv as <-. split.
    + pose proof (Register_consistent (registry s) (Some t) Hc) as Hc'. by rewrite E in Hc'.
    + rewrite E in H3. injection H3 as ->. intros id live El. destruct (Hs id live El) as [H4 H5].
      split; [done|]. simpl. rewrite lookup_insert_ne; [done|]. intros <-. congruence.
  - split; [by apply Unregister_consistent|]. intros id' live El. destruct (Hs id' live El) as [H4 H5].
    split; [done|]. simpl. rewrite Unregister_other; [done|]. intros Heq. cbn [sessions] in El. rewrite <- Heq, E in El. done.
  - split; [done|]. simpl. apply map_Forall_insert_2; [done|]. done.
  - split; [done|]. simpl. apply map_Forall_insert_2; [|done]. simpl. split; [done|].
    by apply (Hs _ _ E).
  - split; [done|]. simpl. by apply map_Forall_delete.
  - split; [by apply Unregister_consistent|]. simpl. intros id' live [Hne El]%lookup_delete_Some.
    destruct (Hs id' live El) as [H4 H5]. split; [done|]. by rewrite Unregister_other.
Qed.

Definition server_reachable (s : Server) : Prop := rtc server_step (mkServer Registry.New ∅) s.

Lemma server_reachable_ok s : server_reachable s -> server_ok s.
Proof.
  apply (rtc_ind_r server_ok (mkServer Registry.New ∅)).
  - split; [apply New_consistent|apply map_Forall_empty].
  - intros y z _ H1 H2. by eapply server_step_ok.
Qed.

(** C9: a public request is never handed to another tunnel's agent: in every
    interleaving of connecting and disconnecting agents, the session found for
    a subdomain is the one whose tunnel owns that subdomain, and two
    subdomains never share a session. *)
Theorem session_owns_subdomain s sub live :
  server_reachable s -> sessionBySubdomain s sub = Some live ->
  Registry.Subdomain (tunnel live) = sub /\
  sessionByTunnelID s (Registry.TunnelID (tunnel live)) = Some live /\
  forall sub' live', sessionBySubdomain s sub' = Some live' ->
    Registry.TunnelID (tunnel live') = Registry.TunnelID (tunnel live) -> sub' = sub.
Proof.
  intros [Hc Hs]%server_reachable_ok. unfold sessionBySubdomain, sessionByTunnelID, LookupBySubdomain.
  assert (Hown : forall d l, match bySubdomain (registry s) !! d with
      | Some t => sessions s !! Registry.TunnelID t | None => None end = Some l ->
      Registry.Subdomain (tunnel l) = d /\ sessions s !! Registry.TunnelID (tunnel l) = Some l).
  { intros d l. destruct (bySubdomain (registry s) !! d) as [t|] eqn:E; [|done]. intros El.
    destruct (by_subdomain _ Hc _ _ E) as (Hd & _ & Ht). destruct (Hs _ _ El) as [H1 H2].
    rewrite Ht in H2. injection H2 as H2. split; [by rewrite <- H2|]. by rewrite H1. }
  intros H. destruct (Hown _ _ H) as [H1 H2]. split; [done|]. split; [done|].
  intros sub' live' H' Ht. destruct (Hown _ _ H') as [H3 H4].
  rewrite Ht, H2 in H4. injection H4 as <-. congruence.
Qed.
End tunnels_properties.

Module Witness_tunnels.
Definition cfg : Config := ConfigFromEnv (D := {| ParseDuration _ := None |}) (fun _ => ""%string).
#[local] Instance jauth : JSONCodec AuthRequest :=
  Witness.const_codec (mkAuthRequest "dev-token" "0.4.0" "0.3" DefaultProtocolCapabilities).
#[local] Instance jok : JSONCodec AuthOK := Witness.const_codec (mkAuthOK "0.3" []).
#[local] Instance jerr : JSONCodec ErrorPayload := Witness.const_codec (mkErrorPayload "" "").
#[local] Instance sha : SHA256 := {| Sum256 s := to_bytes s |}.
Definition read : result Envelope := Ok (mkEnvelope TypeAuthRequest "" "" (to_bytes "{}")).
Definition m0 : agentMetrics := mkAgentMetrics 0 0 0 0 0.

Lemma agent_admitted_witness :
  exists env payload v,
    read = Ok env /\ env_Type env = TypeAuthRequest /\ DecodePayload AuthRequest env = Ok payload /\
    ValidateAgentToken (static_backends "dev-token") (ar_Token payload) = Ok v /\ Valid v = true /\
    IsProtocolVersionSupported (ar_ProtocolVersion payload) = true /\
    (forall c, c ∈ RequiredProtocolCapabilities -> c ∈ ar_Capabilities payload) /\
    mkIdentity true "" "0.4.0" "0.3" DefaultProtocolCapabilities
      = mkIdentity true (TokenID v) (ar_AgentVersion payload) (ar_ProtocolVersion payload)
          (ar_Capabilities payload) /\
    map env_Type [mkEnvelope TypeAuthOK "" "" (to_bytes "{}")] = [TypeAuthOK] /\
    mkAgentMetrics 1 0 0 0 0 = count_validation m0 false.
Proof.
  apply (agent_admitted (JAuth := jauth) (JOK := jok) (JErr := jerr) (static_backends "dev-token")
    (fun _ => None) read m0). vm_compute. reflexivity.
Defined.

Definition t1 : Registry.Session := mkSession "tun_1" "demo" "u" "l" "http" "" "0.3" [] 1.
Lemma session_owns_subdomain_witness :
  let live := mkLive t1 (newAgentSession "tun_1" 4) in
  let s := addSession (mkServer (snd (Register Registry.New (Some t1))) ∅) live in
  Registry.Subdomain (tunnel live) = "demo"%string /\
  sessionByTunnelID s (Registry.TunnelID (tunnel live)) = Some live /\
  forall sub' live', sessionBySubdomain s sub' = Some live' ->
    Registry.TunnelID (tunnel live') = Registry.TunnelID (tunnel live) -> sub' = "demo"%string.
Proof.
  intros live s. apply (session_owns_subdomain s "demo" live); [|reflexivity].
  eapply rtc_l; [by apply (srv_register (mkServer Registry.New ∅) t1)|].
  eapply rtc_l; [by apply (srv_add _ live)|]. apply rtc_refl.
Defined.
End Witness_tunnels.
