(* ===== verification/Ring.v ===== *)
(** The ring buffer behind both logs of the server: the request log of the
    gateway (request_log.go, [requestLogBuffer]) and the audit log of the
    control plane (audit_events.go, [MemoryAuditEventStore]) repeat the same
    fields and loops over their own entry types.  The ring is written once,
    over the class of entries, and the two files instantiate it.

    The lemmas relate the ring to the plain list of what was logged:
    [contents] is that list, oldest first.  An index outside the slice is a
    panic, the [None] of the loops. *)
From S2P Require Import Prelude GoStrings Base64 Messages.
From Stdlib Require Import ZArith Lia List String Ascii Bool.
From stdpp Require Import base countable list strings sorting.

Open Scope Z_scope.

(** An entry of a log: its id, its time, and Go's zero value. *)
Class LogEntry (Entry : Type) := {
  ID : Entry -> Z;
  set_ID : Entry -> Z -> Entry;
  Stamp : Entry -> Time;
  zero_entry : Entry;
}.
Class LogEntryLaws (Entry : Type) {L : LogEntry Entry} : Prop := {
  ID_set : forall e i, ID (set_ID e i) = i;
  Stamp_set : forall e i, Stamp (set_ID e i) = Stamp e;
}.

(** A position in a listing: [requestLogCursor] and [auditEventCursor]. *)
Record logCursor := mkCursor { cursor_Time : Time; cursor_ID : Z }.
Definition no_cursor : logCursor := mkCursor 0 0.

Record ring (Entry : Type) := mkRing {
  entries : list Entry;
  next : Z;
  full : bool;
  nextID : Z;
}.
Arguments mkRing {Entry} _ _ _ _.
Arguments entries {Entry} _.
Arguments next {Entry} _.
Arguments full {Entry} _.
Arguments nextID {Entry} _.

Definition length_Z {A} (l : list A) : Z := Z.of_nat (length l).

(** * Operations *)
Section operations.
Context {Entry : Type} {LE : LogEntry Entry}.

Definition new_ring (limit : Z) : ring Entry :=
  if limit <=? 0 then mkRing [] 0 false 0
  else mkRing (replicate (Z.to_nat limit) zero_entry) 0 false 0.

(** [entries[i]], a panic outside the slice. *)
Definition at_index (l : list Entry) (i : Z) : option Entry :=
  if i <? 0 then None else l !! Z.to_nat i.

(** The slice store [entries[next] = entry] is in range in every well-formed
    ring ([wf] below, kept by every operation). *)
Definition ring_add (b : ring Entry) (entry : Entry) : ring Entry :=
  if bool_decide (length (entries b) = 0%nat) then b else
  let '(nextID', entry) :=
    if ID entry =? 0 then
      let id := int64 (nextID b + 1) in (id, set_ID entry id)
    else if nextID b <? ID entry then (ID entry, entry)
    else (nextID b, entry) in
  let entries' := <[Z.to_nat (next b) := entry]> (entries b) in
  let next' := (next b + 1) mod length_Z (entries b) in
  mkRing entries' next' (if next' =? 0 then true else full b) nextID'.

Definition stored (b : ring Entry) : Z :=
  if full b then length_Z (entries b) else next b.

(** The listing loop, newest entry first, with [n] iterations left of
    [stored b] and [i] done; [keep] is the filter of the listing. *)
Fixpoint list_loop (b : ring Entry) (keep : Entry -> bool) (limit : Z) (n : nat) (i : Z) (out : list Entry)
    : option (list Entry) :=
  match n with
  | O => Some out
  | S n' =>
      let index := next b - 1 - i in
      let index := if index <? 0 then index + length_Z (entries b) else index in
      if negb (full b) && (next b <=? index) then Some out else
      entry ← at_index (entries b) index;
      if keep entry then
        let out := out ++ [entry] in
        if limit <? length_Z out then Some out else list_loop b keep limit n' (i + 1) out
      else list_loop b keep limit n' (i + 1) out
  end.

(** The retention loop, oldest entry first. *)
Fixpoint prune_loop (b : ring Entry) (cutoff : Time) (n : nat) (i : Z) (retained : list Entry)
    : option (list Entry) :=
  match n with
  | O => Some retained
  | S n' =>
      let index := if full b then (next b + i) mod length_Z (entries b) else i in
      entry ← at_index (entries b) index;
      if negb (IsZero (Stamp entry)) && (Stamp entry <? cutoff)
      then prune_loop b cutoff n' (i + 1) retained
      else prune_loop b cutoff n' (i + 1) (retained ++ [entry])
  end.

(** [copy(dst, src)]. *)
Definition copy (dst src : list Entry) : list Entry :=
  take (length dst) src ++ drop (length src) dst.

(** Deleted entries counted, and the ring after; [None] is a panic. *)
Definition ring_prune (b : ring Entry) (cutoff : Time) : option (Z * ring Entry) :=
  if bool_decide (length (entries b) = 0%nat) || IsZero cutoff then Some (0, b) else
  retained ← prune_loop b cutoff (Z.to_nat (stored b)) 0 [];
  let cleared := replicate (length (entries b)) zero_entry in
  let entries' := copy cleared retained in
  let next' := length_Z retained in
  let full' := next' =? length_Z entries' in
  Some (stored b - length_Z retained,
        mkRing entries' (if full' then 0 else next') full' (nextID b)).

(** [opts.Cursor.ID > 0 && entry.ID >= opts.Cursor.ID]: the entry is not past
    the cursor. *)
Definition not_past (c : logCursor) (entry : Entry) : bool :=
  (0 <? cursor_ID c) && (cursor_ID c <=? ID entry).

Context {J : JSONCodec logCursor}.

Definition encode_cursor (entry : Entry) : string :=
  if (ID entry <=? 0) || IsZero (Stamp entry) then ""
  else match Marshal (mkCursor (Stamp entry) (ID entry)) with
       | Err _ => ""
       | Ok data => RawURLEncode data
       end.

Definition decode_cursor (raw : string) : result logCursor :=
  match RawURLDecode raw with
  | None => Err (Errorf "cursor is invalid")
  | Some data =>
      match Unmarshal data with
      | Err _ => Err (Errorf "cursor is invalid")
      | Ok cursor =>
          if (cursor_ID cursor <=? 0) || IsZero (cursor_Time cursor)
          then Err (Errorf "cursor is invalid") else Ok cursor
      end
  end.
End operations.

(** * The list a ring stores *)
Section contents.
Context {Entry : Type} {LE : LogEntry Entry}.

Record wf (b : ring Entry) : Prop := {
  wf_next : 0 <= next b;
  wf_bound : next b < length_Z (entries b) \/ (entries b = [] /\ next b = 0);
  wf_empty : entries b = [] -> full b = false;
}.

(** Oldest first. *)
Definition contents (b : ring Entry) : list Entry :=
  let k := Z.to_nat (next b) in
  if full b then drop k (entries b) ++ take k (entries b) else take k (entries b).
(** Newest first, the order listings use. *)
Definition newest (b : ring Entry) : list Entry := reverse (contents b).

Ltac wf_lengths H :=
  destruct H as [?Hnext ?Hbound ?Hempty]; unfold length_Z in *.

Lemma length_contents b : wf b -> length_Z (contents b) = stored b.
Proof.
  intros H. unfold contents, stored. wf_lengths H. destruct (full b).
  - rewrite length_app, length_drop, length_take. lia.
  - rewrite length_take. destruct Hbound as [?|[-> E]]; simpl; lia.
Qed.

Lemma new_wf limit : wf (new_ring limit).
Proof.
  unfold new_ring. destruct (Z.leb_spec limit 0); split; simpl; auto; try lia.
  left. unfold length_Z. simpl. rewrite length_replicate. lia.
Qed.

Lemma new_contents limit : contents (new_ring limit) = [].
Proof. unfold new_ring. by destruct (Z.leb_spec limit 0). Qed.

(** The [i]-th oldest entry, by the index the retention loop computes. *)
Lemma contents_lookup b i :
  wf b -> 0 <= i < stored b ->
  at_index (entries b) (if full b then (next b + i) mod length_Z (entries b) else i)
  = contents b !! Z.to_nat i.
Proof.
  intros H Hi. unfold at_index, contents, stored in *. wf_lengths H. destruct (full b).
  - set (L := Z.of_nat (length (entries b))) in *.
    assert (HL : 0 < L) by lia. assert (Hn : next b < L) by (destruct Hbound as [?|[E ?]]; lia).
    destruct (Z.ltb_spec ((next b + i) mod L) 0) as [Hneg|_].
    { pose proof (Z.mod_pos_bound (next b + i) L HL). lia. }
    destruct (Z.lt_ge_cases (next b + i) L).
    + rewrite Z.mod_small by lia. rewrite lookup_app_l by (rewrite length_drop; lia).
      rewrite lookup_drop. f_equal. lia.
    + rewrite (Z.mod_eq (next b + i) L) by lia.
      replace ((next b + i) / L) with 1 by (apply Z.div_unique with (next b + i - L); lia).
      rewrite lookup_app_r by (rewrite length_drop; lia).
      rewrite length_drop, lookup_take_lt by lia. f_equal. lia.
  - destruct (Z.ltb_spec i 0); [lia|]. by rewrite lookup_take_lt by lia.
Qed.

Lemma newest_lookup b i :
  wf b -> 0 <= i < stored b ->
  let index := next b - 1 - i in
  let index := if index <? 0 then index + length_Z (entries b) else index in
  at_index (entries b) index = newest b !! Z.to_nat i /\
  (negb (full b) && (next b <=? index)) = false.
Proof.
  intros H Hi. cbv zeta. pose proof (length_contents b H) as Hlen. unfold length_Z in Hlen.
  unfold newest. rewrite reverse_lookup by lia.
  replace (length (contents b) - S (Z.to_nat i))%nat with (Z.to_nat (stored b - 1 - i)) by lia.
  rewrite <- contents_lookup by (done || lia). unfold stored in *.
  destruct H as [Hn Hb He]. unfold length_Z in *. destruct (full b).
  - simpl. split; [|done]. f_equal. set (L := Z.of_nat (length (entries b))) in *.
    destruct Hb as [Hb|[E ?]]; [|by specialize (He E)].
    destruct (Z.ltb_spec (next b - 1 - i) 0); symmetry.
    + rewrite Z.mod_small by lia. lia.
    + replace (next b + (L - 1 - i)) with (next b - 1 - i + 1 * L) by lia.
      rewrite Z.mod_add, Z.mod_small by lia. lia.
  - destruct (Z.ltb_spec (next b - 1 - i) 0); [lia|]. split; [done|].
    simpl. apply Z.leb_gt. lia.
Qed.

(** * Adding *)
Definition lastn {A} (n : nat) (l : list A) : list A := drop (length l - n) l.

(** The entry as it is stored: an entry without an id gets the next one. *)
Definition stamped (b : ring Entry) (e : Entry) : Entry :=
  if ID e =? 0 then set_ID e (int64 (nextID b + 1)) else e.

Lemma add_unfold b e :
  entries b <> [] ->
  exists nid, ring_add b e = mkRing
    (<[Z.to_nat (next b) := stamped b e]> (entries b))
    ((next b + 1) mod length_Z (entries b))
    (if (next b + 1) mod length_Z (entries b) =? 0 then true else full b) nid /\
    nid = (if ID e =? 0 then int64 (nextID b + 1)
           else if nextID b <? ID e then ID e else nextID b).
Proof.
  intros H. unfold ring_add, stamped. rewrite bool_decide_eq_false_2 by (by destruct (entries b)).
  destruct (ID e =? 0); [eauto|]. destruct (nextID b <? ID e); eauto.
Qed.

Lemma take_insert_last {A} (l : list A) k x :
  (k < length l)%nat -> take (S k) (<[k := x]> l) = take k l ++ [x].
Proof.
  intros H. rewrite (take_S_r _ _ x) by (by apply list_lookup_insert_eq).
  by rewrite take_insert_ge by lia.
Qed.

Lemma mod_succ a n : 0 <= a < n -> (a + 1) mod n = if a + 1 =? n then 0 else a + 1.
Proof.
  intros H. destruct (Z.eqb_spec (a + 1) n) as [->|]; [apply Z_mod_same_full|].
  apply Z.mod_small. lia.
Qed.

(** A ring as its list: rotating the stored prefix past the rest. *)
Definition rotated {A} (full : bool) (k : nat) (l : list A) : list A :=
  (if full then drop k l else []) ++ take k l.

Lemma rotated_insert {A} (full : bool) k (l : list A) x :
  (k < length l)%nat ->
  rotated (if decide (S k = length l) then true else full)
    (if decide (S k = length l) then 0%nat else S k) (<[k := x]> l)
  = lastn (length l) (rotated full k l ++ [x]).
Proof.
  intros Hk. unfold rotated, lastn. rewrite <- app_assoc, !length_app, length_take.
  rewrite Nat.min_l by lia.
  destruct (decide (S k = length l)) as [E|E].
  - rewrite drop_0, take_0, app_nil_r.
    rewrite <- (take_ge (<[k:=x]> l) (S k)) by (rewrite length_insert; lia).
    rewrite take_insert_last by lia. destruct full; simpl.
    + rewrite length_drop. replace (_ - _)%nat with (length (drop k l)) by (rewrite length_drop; lia).
      by rewrite drop_app_length.
    + replace (_ - _)%nat with 0%nat by lia. by rewrite drop_0.
  - rewrite take_insert_last by lia. rewrite drop_insert_lt by lia. destruct full; simpl.
    + rewrite length_drop. replace (_ - _)%nat with 1%nat by lia.
      rewrite drop_app_le by (rewrite length_drop; lia). by rewrite drop_drop, Nat.add_1_r.
    + replace (_ - _)%nat with 0%nat by lia. by rewrite drop_0.
Qed.

Lemma contents_rotated b : contents b = rotated (full b) (Z.to_nat (next b)) (entries b).
Proof. unfold contents, rotated. by destruct (full b). Qed.

(** Logging a request appends it to the stored list, with the next id if
    it has none, and drops the oldest entries beyond the capacity; the buffer
    stays well-formed and never grows. *)
Lemma add_contents b e :
  wf b -> entries b <> [] ->
  let b' := ring_add b e in
  wf b' /\ length (entries b') = length (entries b) /\
    contents b' = lastn (length (entries b)) (contents b ++ [stamped b e]) /\
    nextID b' = (if ID e =? 0 then int64 (nextID b + 1)
                 else if nextID b <? ID e then ID e else nextID b).
Proof.
  intros [Hn [Hb|[? ?]] He] Hne; [|done]. destruct (add_unfold b e Hne) as (nid & E & Hnid).
  cbv zeta. rewrite E. clear E.
  unfold length_Z in *. rewrite mod_succ by lia.
  assert (Hsome : <[Z.to_nat (next b) := stamped b e]> (entries b) <> []).
  { intros E. apply (f_equal length) in E. rewrite length_insert in E. by destruct (entries b). }
  split; [clear Hnid; split; simpl; unfold length_Z; rewrite ?length_insert;
            try (case_match; to_prop; lia); by intros ?|].
  cbn [entries]. rewrite length_insert. split; [done|]. split; [|exact Hnid]. rewrite !contents_rotated.
  rewrite <- rotated_insert by lia. cbn [entries next full].
  destruct (decide (S (Z.to_nat (next b)) = length (entries b))), (Z.eqb_spec (next b + 1) (Z.of_nat (length (entries b))));
    try lia; simpl; [done|].
  replace (next b + 1 =? 0) with false by (symmetry; apply Z.eqb_neq; lia).
  by replace (Z.to_nat (next b + 1)) with (S (Z.to_nat (next b))) by lia.
Qed.

(** * Retention *)
Definition keep (cutoff : Time) (e : Entry) : bool :=
  negb (negb (IsZero (Stamp e)) && (Stamp e <? cutoff)).

Lemma prune_loop_spec b cutoff n i retained :
  wf b -> 0 <= i -> i + Z.of_nat n = stored b ->
  prune_loop b cutoff n i retained =
  Some (retained ++ List.filter (keep cutoff) (drop (Z.to_nat i) (contents b))).
Proof.
  intros H. revert i retained. induction n as [|n IH]; intros i retained Hi Hn; cbn [prune_loop].
  - pose proof (length_contents b H). unfold length_Z in *.
    rewrite drop_ge by lia. simpl. by rewrite app_nil_r.
  - rewrite contents_lookup by (done || lia).
    destruct (contents b !! Z.to_nat i) as [e|] eqn:E.
    2:{ apply lookup_ge_None in E. pose proof (length_contents b H). unfold length_Z in *. lia. }
    rewrite (drop_S _ e) by done. simpl. unfold keep at 1.
    replace (S (Z.to_nat i)) with (Z.to_nat (i + 1)) by lia.
    destruct (negb (IsZero (Stamp e)) && (Stamp e <? cutoff)); simpl;
      rewrite IH by lia; [done|]. by rewrite <- app_assoc.
Qed.

Lemma length_filter_le {A} (p : A -> bool) l : (length (List.filter p l) <= length l)%nat.
Proof. induction l as [|a l IH]; simpl; [lia|]. destruct (p a); simpl; lia. Qed.

Lemma length_contents_le b : wf b -> (length (contents b) <= length (entries b))%nat.
Proof.
  intros H. pose proof (length_contents b H) as E. destruct H as [? [?|[E' ?]] ?];
    unfold stored, length_Z in *; destruct (full b); lia.
Qed.

(** The buffer pruning leaves: the retained entries packed at the front. *)
Definition packed (r : list Entry) (L : nat) (nid : Z) : ring Entry :=
  mkRing (r ++ replicate (L - length r) zero_entry)
    (if Z.of_nat (length r) =? Z.of_nat L then 0 else Z.of_nat (length r))
    (Z.of_nat (length r) =? Z.of_nat L) nid.

Lemma packed_contents r L nid : (length r <= L)%nat -> contents (packed r L nid) = r.
Proof.
  intros Hr. rewrite contents_rotated. unfold rotated, packed. cbn [entries next full].
  destruct (Z.eqb_spec (Z.of_nat (length r)) (Z.of_nat L)).
  - simpl. rewrite take_0, app_nil_r, drop_0. replace (L - length r)%nat with 0%nat by lia.
    by rewrite app_nil_r.
  - simpl. by rewrite Nat2Z.id, take_app_length.
Qed.

Lemma packed_wf r L nid : (length r <= L)%nat -> (0 < L)%nat -> wf (packed r L nid).
Proof.
  intros Hr HL. split; cbn [packed entries next full]; unfold length_Z;
    rewrite ?length_app, ?length_replicate.
  - case_match; lia.
  - left. case_match; to_prop; lia.
  - intros E. apply (f_equal length) in E. rewrite length_app, length_replicate in E.
    simpl in E. lia.
Qed.

(** Pruning keeps, in order, exactly the entries without a time or not
    older than the cutoff, reports how many it removed, and leaves a
    well-formed buffer of the same capacity that logging continues on. *)
Lemma prune_contents b cutoff :
  wf b -> entries b <> [] -> IsZero cutoff = false ->
  exists b', ring_prune b cutoff
      = Some (length_Z (contents b) - length_Z (contents b'), b') /\
    wf b' /\ length (entries b') = length (entries b) /\ nextID b' = nextID b /\
    contents b' = List.filter (keep cutoff) (contents b).
Proof.
  intros H Hne Hc. unfold ring_prune. rewrite Hc, orb_false_r.
  assert (HL : (0 < length (entries b))%nat) by (destruct (entries b); simpl; [done | lia]).
  rewrite bool_decide_eq_false_2 by lia.
  pose proof (length_contents b H) as Hlen.
  rewrite (prune_loop_spec b cutoff) by (done || unfold length_Z in *; lia).
  rewrite drop_0, app_nil_l. simpl. set (r := List.filter (keep cutoff) (contents b)).
  assert (Hr : (length r <= length (entries b))%nat)
    by (etransitivity; [apply length_filter_le | by apply length_contents_le]).
  exists (packed r (length (entries b)) (nextID b)).
  rewrite packed_contents by done. split; [|split; [by apply packed_wf|split; [|done]]].
  - unfold copy. rewrite length_replicate, take_ge, drop_replicate by lia.
    unfold packed, length_Z in *. rewrite length_app, length_replicate, Hlen.
    by replace (length r + (length (entries b) - length r))%nat with (length (entries b)) by lia.
  - simpl. rewrite length_app, length_replicate. lia.
Qed.

(** * Listing *)

(** What a listing is about: the entries it keeps, newest first. *)
Definition selected (keep : Entry -> bool) (b : ring Entry) : list Entry := List.filter keep (newest b).

Lemma list_loop_spec b sel limit n i out :
  wf b -> 0 <= i -> i + Z.of_nat n = stored b -> length_Z out <= limit ->
  list_loop b sel limit n i out =
  Some (out ++ take (Z.to_nat limit + 1 - length out)
                (List.filter sel (drop (Z.to_nat i) (newest b)))).
Proof.
  intros H. revert i out. induction n as [|n IH]; intros i out Hi Hn Hout; cbn [list_loop].
  - pose proof (length_contents b H). unfold newest, length_Z in *.
    rewrite drop_ge by (rewrite length_reverse; lia). simpl. by rewrite take_nil, app_nil_r.
  - destruct (newest_lookup b i H ltac:(lia)) as [E ->]. cbv zeta. rewrite E.
    destruct (newest b !! Z.to_nat i) as [e|] eqn:El.
    2:{ apply lookup_ge_None in El. pose proof (length_contents b H).
        unfold newest, length_Z in *. rewrite length_reverse in El. lia. }
    rewrite (drop_S _ e) by done. replace (S (Z.to_nat i)) with (Z.to_nat (i + 1)) by lia.
    simpl. destruct (sel e); [|by apply IH; lia].
    unfold length_Z in *. rewrite length_app. simpl.
    replace (Z.to_nat limit + 1 - length out)%nat
      with (S (Z.to_nat limit - length out)) by lia. rewrite firstn_cons.
    destruct (Z.ltb_spec limit (Z.of_nat (length out + 1))).
    + replace (Z.to_nat limit - length out)%nat with 0%nat by lia. by rewrite take_0.
    + rewrite IH by (rewrite ?length_app; simpl; lia).
      rewrite <- app_assoc, length_app. simpl.
      by replace (Z.to_nat limit + 1 - (length out + 1))%nat
        with (Z.to_nat limit - length out)%nat by lia.
Qed.

Lemma list_loop_all b sel limit :
  wf b -> 0 <= limit ->
  list_loop b sel limit (Z.to_nat (stored b)) 0 [] = Some (take (Z.to_nat limit + 1) (selected sel b)).
Proof.
  intros H Hl. pose proof (length_contents b H). unfold length_Z in *.
  rewrite list_loop_spec; [|done|lia|lia|unfold length_Z; simpl; lia].
  by rewrite drop_0, Nat.sub_0_r.
Qed.

Context {J : JSONCodec logCursor}.

(** The page of at most [limit] entries that begins a selection, and where the
    next one starts. *)
Definition page_of (limit : Z) (sel : list Entry) : list Entry * string :=
  (take (Z.to_nat limit) sel,
   if length_Z sel <=? limit then ""%string
   else default ""%string (encode_cursor <$> last (take (Z.to_nat limit) sel))).

Lemma page_of_all limit sel : length_Z sel <= limit -> page_of limit sel = (sel, ""%string).
Proof.
  intros H. unfold page_of. rewrite (proj2 (Z.leb_le _ _) H). unfold length_Z in H.
  by rewrite take_ge by lia.
Qed.

Lemma page_of_more limit sel :
  0 < limit -> limit < length_Z sel ->
  exists e, last (take (Z.to_nat limit) sel) = Some e /\ snd (page_of limit sel) = encode_cursor e.
Proof.
  intros H1 H2. unfold page_of, length_Z in *. destruct (Z.leb_spec (Z.of_nat (length sel)) limit); [lia|].
  destruct (last (take (Z.to_nat limit) sel)) as [e|] eqn:E; [by exists e|].
  apply last_None in E. apply (f_equal length) in E. rewrite length_take in E. simpl in E. lia.
Qed.

(** A page built from one entry more than it may hold is the page of the whole
    selection. *)
Lemma page_of_take limit sel :
  0 < limit -> page_of limit (take (Z.to_nat limit + 1) sel) = page_of limit sel.
Proof.
  intros Hl. unfold page_of, length_Z. rewrite length_take, take_take, Nat.min_l by lia.
  f_equal. destruct (Z.leb_spec (Z.of_nat (length sel)) limit).
  - by rewrite (proj2 (Z.leb_le _ _)) by lia.
  - by rewrite (proj2 (Z.leb_gt _ _)) by lia.
Qed.

(** * The ring refines a bounded list *)
Inductive logOp : Type :=
| OpAdd (e : Entry)
| OpPrune (cutoff : Time).

(** The ring; [None] is a panic. *)
Definition ring_step (b : option (ring Entry)) (op : logOp) : option (ring Entry) :=
  b ← b;
  match op with
  | OpAdd e => Some (ring_add b e)
  | OpPrune cutoff => '(_, b') ← ring_prune b cutoff; Some b'
  end.

(** The specification: a list of at most [cap] entries and the last id. *)
Definition spec_step (cap : nat) (s : list Entry * Z) (op : logOp) : list Entry * Z :=
  let '(l, nid) := s in
  match op with
  | OpAdd e =>
      if ID e =? 0 then
        let id := int64 (nid + 1) in (lastn cap (l ++ [set_ID e id]), id)
      else (lastn cap (l ++ [e]), Z.max nid (ID e))
  | OpPrune cutoff => if IsZero cutoff then s else (List.filter (keep cutoff) l, nid)
  end.

Definition represents (b : ring Entry) (cap : nat) (s : list Entry * Z) : Prop :=
  wf b /\ length (entries b) = cap /\ (contents b, nextID b) = s.

Lemma new_represents limit : 0 < limit -> represents (new_ring limit) (Z.to_nat limit) ([], 0).
Proof.
  intros Hl. split; [apply new_wf|]. rewrite new_contents. unfold new_ring.
  destruct (Z.leb_spec limit 0); [lia|]. simpl. by rewrite length_replicate.
Qed.

Lemma ring_step_refines b cap s op :
  (0 < cap)%nat -> represents b cap s ->
  exists b', ring_step (Some b) op = Some b' /\ represents b' cap (spec_step cap s op).
Proof.
  intros Hcap (Hwf & Hlen & <-). assert (Hne : entries b <> [])
    by (intros E; rewrite E in Hlen; simpl in Hlen; lia).
  destruct op as [e|cutoff]; cbn [ring_step mbind option_bind].
  - destruct (add_contents b e Hwf Hne) as (Hw & Hl & Hc & Hn).
    eexists. split; [done|]. split; [done|]. split; [congruence|].
    simpl. rewrite Hc, Hn, Hlen. unfold stamped. destruct (ID e =? 0); [done|].
    f_equal. destruct (Z.ltb_spec (nextID b) (ID e)); lia.
  - destruct (IsZero cutoff) eqn:E.
    + exists b. unfold ring_prune. rewrite E, orb_true_r. split; [done|]. simpl. by rewrite E.
    + destruct (prune_contents b cutoff Hwf Hne E) as (b' & -> & Hw & Hl & Hn & Hc).
      exists b'. split; [done|]. split; [done|]. split; [congruence|]. simpl. by rewrite E, Hc, Hn.
Qed.

Lemma ring_run_refines limit ops :
  0 < limit ->
  exists b, foldl ring_step (Some (new_ring limit)) ops = Some b /\
    represents b (Z.to_nat limit) (foldl (spec_step (Z.to_nat limit)) ([], 0) ops).
Proof.
  intros Hl. generalize (new_represents limit Hl). generalize (new_ring limit) ([] : list Entry, 0).
  induction ops as [|op ops IH]; intros b s H; cbn [foldl]; [by exists b|].
  destruct (ring_step_refines b (Z.to_nat limit) s op ltac:(lia) H) as (b1 & -> & H1). by apply IH.
Qed.
End contents.

(** * Paging *)
Section paging.
Context {Entry : Type} {LE : LogEntry Entry} {LL : LogEntryLaws Entry}.
Context {J : JSONCodec logCursor} {JL : JSONLaws logCursor}.
Hypothesis cursor_marshals : forall c : logCursor, is_ok (Marshal c) = true.

(** Follow the cursors from page to page, as a client of a listing
    does; pages may be produced differently each time, so a listing also gets
    the number of pages left. *)
Fixpoint fetch_all (fuel : nat) (listing : nat -> logCursor -> option (list Entry * string)) (c : logCursor)
    : option (list Entry) :=
  match fuel with
  | O => None
  | S fuel' =>
      '(es, cursor) ← listing fuel' c;
      if (cursor =? "")%string then Some es else
      match decode_cursor cursor with
      | Err _ => None
      | Ok c =>
          rest ← fetch_all fuel' listing c;
          Some (es ++ rest)
      end
  end.

Definition newer (x y : Entry) : Prop := ID y < ID x.

(** Distinct positive ids, newest first, and a time on every entry. *)
Definition cursorable (b : ring Entry) : Prop :=
  StronglySorted newer (newest b) /\
  Forall (fun e => 0 < ID e /\ Stamp e <> 0) (newest b).

Lemma cursor_roundtrip e :
  0 < ID e -> Stamp e <> 0 ->
  (encode_cursor e =? "")%string = false /\
  decode_cursor (encode_cursor e) = Ok (mkCursor (Stamp e) (ID e)).
Proof.
  intros H1 H2. unfold encode_cursor, decode_cursor, IsZero.
  rewrite (proj2 (Z.leb_gt _ _) H1), (proj2 (Z.eqb_neq _ _) H2). cbn [orb].
  set (c := mkCursor (Stamp e) (ID e)). pose proof (cursor_marshals c) as Hm.
  destruct (Marshal c) as [data|err] eqn:E; [|done].
  rewrite RawURL_roundtrip, (unmarshal_marshal c data E). simpl.
  rewrite (proj2 (Z.leb_gt _ _) H1), (proj2 (Z.eqb_neq _ _) H2). split; [|done].
  apply String.eqb_neq. intros He. pose proof (RawURL_roundtrip data) as Hr. rewrite He in Hr.
  apply (marshal_nonempty c data E). by injection Hr.
Qed.

Lemma sorted_filter (p : Entry -> bool) l :
  StronglySorted newer l -> StronglySorted newer (List.filter p l).
Proof.
  induction 1 as [|x l Hs IH HF]; simpl; [constructor|]. destruct (p x); [|done].
  constructor; [done|]. rewrite Forall_forall in *. intros y Hy.
  apply HF. apply list_elem_of_In in Hy. apply filter_In in Hy as [Hy _]. by apply list_elem_of_In.
Qed.

(** In a sorted list the entries below the [n]-th are those after it. *)
Lemma sorted_below l n e :
  StronglySorted newer l -> last (take n l) = Some e ->
  List.filter (fun x => ID x <? ID e) l = drop n l.
Proof.
  intros Hs. revert n. induction Hs as [|x l Hs IH HF]; intros n Hl.
  { rewrite take_nil in Hl. done. }
  destruct n as [|n]; [done|]. simpl take in Hl. simpl drop.
  rewrite Forall_forall in HF. destruct (take n l) as [|y t] eqn:Et.
  - simpl in Hl. injection Hl as <-. simpl. rewrite Z.ltb_irrefl.
    assert (Hd : drop n l = l).
    { destruct n; [done|]. destruct l; [done|]. done. }
    rewrite Hd. clear -HF. assert (Hall : forall y, In y l -> (ID y <? ID x) = true)
      by (intros y Hy; apply Z.ltb_lt, (HF y); by apply list_elem_of_In).
    clear HF. induction l as [|y l IH]; [done|]. simpl. rewrite Hall by (by left).
    f_equal. apply IH. intros z Hz. apply Hall. by right.
  - rewrite last_cons_cons in Hl. rewrite <- Et in Hl.
    assert (Hin : e ∈ l) by (apply last_Some_elem_of in Hl; rewrite <- (take_drop n l); apply elem_of_app; by left).
    simpl. specialize (HF e Hin). unfold newer in HF.
    destruct (Z.ltb_spec (ID x) (ID e)); [lia|]. by apply IH.
Qed.

Lemma filter_filter (p q : Entry -> bool) l :
  List.filter p (List.filter q l) = List.filter (fun x => p x && q x) l.
Proof.
  induction l as [|x l IH]; [done|]. simpl.
  destruct (q x); simpl; destruct (p x); simpl; by rewrite IH.
Qed.

(** What a listing with a cursor and a filter keeps. *)
Definition selects (c : logCursor) (m : Entry -> bool) (e : Entry) : bool := negb (not_past c e) && m e.

Lemma selects_after c m e x :
  0 < ID e -> selects c m e = true ->
  selects (mkCursor (Stamp e) (ID e)) m x = (ID x <? ID e) && selects c m x.
Proof.
  unfold selects, not_past. cbn [cursor_ID]. intros He [Hs _]%andb_true_iff.
  rewrite (proj2 (Z.ltb_lt _ _) He). cbn [andb].
  destruct (Z.ltb_spec (ID x) (ID e)), (Z.leb_spec (ID e) (ID x)); try lia; try done.
  cbn [negb andb]. destruct (Z.ltb_spec 0 (cursor_ID c)), (Z.leb_spec (cursor_ID c) (ID x)),
    (Z.leb_spec (cursor_ID c) (ID e)); simpl in *; try done; lia.
Qed.

Lemma last_take_In (l : list Entry) n e : last (take n l) = Some e -> In e l.
Proof.
  intros Hl%last_Some_elem_of. apply list_elem_of_In. rewrite <- (take_drop n l).
  apply elem_of_app. by left.
Qed.

(** The selection after the cursor of an entry is what follows the entry. *)
Lemma selected_after b c m n e :
  cursorable b -> last (take n (selected (selects c m) b)) = Some e ->
  selected (selects (mkCursor (Stamp e) (ID e)) m) b = drop n (selected (selects c m) b).
Proof.
  intros [Hs Hpos] Hl. rewrite <- (sorted_below (selected (selects c m) b) n e (sorted_filter _ _ Hs) Hl).
  apply last_take_In, filter_In in Hl as [Hin Hsel]. rewrite Forall_forall in Hpos.
  destruct (Hpos e) as [He _]; [by apply list_elem_of_In|].
  unfold selected. rewrite filter_filter. apply List.filter_ext. intros x.
  by apply selects_after.
Qed.

Lemma last_take_cursor b keep n e :
  cursorable b -> last (take n (selected keep b)) = Some e -> 0 < ID e /\ Stamp e <> 0.
Proof.
  intros [_ Hpos] [Hin _]%last_take_In%filter_In. rewrite Forall_forall in Hpos.
  by apply Hpos, list_elem_of_In.
Qed.

(** When every page is the page of what is past its cursor, following the
    cursors ends and lists the whole selection once. *)
Lemma fetch_all_selected fuel b limit m listing c :
  cursorable b -> 0 < limit ->
  (forall k c, listing k c = Some (page_of limit (selected (selects c m) b))) ->
  (length (selected (selects c m) b) < fuel)%nat ->
  fetch_all fuel listing c = Some (selected (selects c m) b).
Proof.
  intros Hc Hl Hpage. revert c. induction fuel as [|fuel IH]; intros c Hf; [lia|].
  cbn [fetch_all]. rewrite Hpage. cbn [mbind option_bind]. set (sel := selected (selects c m) b) in *.
  destruct (Z.le_gt_cases (length_Z sel) limit) as [Hle|Hgt]; [by rewrite page_of_all|].
  destruct (page_of_more limit sel Hl Hgt) as (e & Elast & E). unfold page_of in E |- *. cbn [snd] in E. rewrite E.
  destruct (last_take_cursor b _ _ e Hc Elast) as [He1 He2].
  destruct (cursor_roundtrip e He1 He2) as [-> ->]. unfold length_Z in *.
  pose proof (selected_after b c m (Z.to_nat limit) e Hc Elast) as Ha. rewrite IH, Ha; fold sel.
  - simpl. by rewrite take_drop.
  - rewrite Ha, length_drop. fold sel. lia.
Qed.

(** Entries as they are logged, without ids, and the ids the ring gives them. *)
Definition logged (limit : Z) (es : list Entry) : ring Entry := foldl ring_add (new_ring limit) es.
Definition numbered (es : list Entry) : list Entry :=
  imap (fun i e => set_ID e (Z.of_nat i + 1)) es.

Lemma numbered_snoc es e :
  numbered (es ++ [e]) = numbered es ++ [set_ID e (Z.of_nat (length es) + 1)].
Proof. unfold numbered. rewrite imap_app. simpl. by rewrite Nat.add_0_r. Qed.

Lemma lastn_snoc {A} n (l : list A) x :
  lastn n (lastn n l ++ [x]) = lastn n (l ++ [x]).
Proof.
  unfold lastn. rewrite !length_app, length_drop. simpl.
  destruct (Nat.le_gt_cases (length l) n) as [H|H].
  - replace (length l - n)%nat with 0%nat by lia. by rewrite drop_0, Nat.sub_0_r.
  - rewrite <- (drop_app_le l [x] (length l - n)) by lia. rewrite drop_drop. f_equal. lia.
Qed.

Lemma logged_spec limit es :
  0 < limit -> Forall (fun e => ID e = 0) es -> Z.of_nat (length es) <= max_int64 ->
  let b := logged limit es in
  wf b /\ length (entries b) = Z.to_nat limit /\
    nextID b = Z.of_nat (length es) /\ contents b = lastn (Z.to_nat limit) (numbered es).
Proof.
  intros Hl. induction es as [|e es IH] using rev_ind; intros HF Hb; cbv zeta in *.
  - destruct (new_represents limit Hl) as (Hw & Hlen & [= Hc Hn]). unfold logged. cbn [foldl].
    by rewrite Hc, Hn.
  - apply Forall_app in HF as [HF He]. inv He. rewrite length_app in *. cbn [length] in *.
    destruct IH as (Hw & Hlen & Hn & Hc); [done|lia|].
    unfold logged in *. rewrite foldl_app. cbn [foldl].
    destruct (add_contents (foldl ring_add (new_ring limit) es) e Hw) as (Hw' & Hl' & Hc' & Hn').
    { intros E. rewrite E in Hlen. simpl in Hlen. lia. }
    split; [done|]. split; [congruence|]. unfold stamped in Hc'. rewrite H1 in *. cbn [Z.eqb] in *.
    rewrite Hn', Hc', Hn, Hc, Hlen, numbered_snoc, lastn_snoc.
    rewrite int64_id by (unfold min_int64, max_int64 in *; lia). split; [lia|done].
Qed.

Lemma numbered_sorted es :
  Forall (fun e => Stamp e <> 0) es ->
  StronglySorted newer (reverse (numbered es)) /\
  Forall (fun e => 0 < ID e <= Z.of_nat (length es) /\ Stamp e <> 0) (reverse (numbered es)).
Proof.
  induction es as [|e es IH] using rev_ind; intros HF; [split; constructor|].
  apply Forall_app in HF as [HF He]. inv He. destruct (IH HF) as [Hs Ha].
  rewrite numbered_snoc, reverse_snoc, length_app. simpl. split; constructor; try done.
  - apply (Forall_impl _ _ _ Ha). intros x [Hx _]. unfold newer. rewrite ID_set. lia.
  - rewrite ID_set, Stamp_set. split; [lia|done].
  - apply (Forall_impl _ _ _ Ha). intros x [Hx Ht]. split; [lia|done].
Qed.

Lemma numbered_cursorable limit es b :
  contents b = lastn limit (numbered es) -> Forall (fun e => Stamp e <> 0) es -> cursorable b.
Proof.
  intros Hc HF. unfold cursorable, newest. rewrite Hc. unfold lastn.
  destruct (numbered_sorted es HF) as [Hs Ha]. set (k := (length (numbered es) - limit)%nat).
  rewrite <- (take_drop k (numbered es)), reverse_app in Hs, Ha.
  apply StronglySorted_app_1_l in Hs. apply Forall_app in Ha as [Ha _]. split; [done|].
  apply (Forall_impl _ _ _ Ha). intros x [? ?]. split; [lia|done].
Qed.

(** Following the cursors over what a ring stores of a history lists every
    entry that matches, each exactly once and newest first. *)
Lemma fetch_all_logged limit es page m listing :
  0 < limit -> Forall (fun e => ID e = 0 /\ Stamp e <> 0) es -> Z.of_nat (length es) <= max_int64 ->
  0 < page ->
  (forall k c, listing k c = Some (page_of page (selected (selects c m) (logged limit es)))) ->
  fetch_all (S (length es)) listing no_cursor
  = Some (List.filter m (reverse (lastn (Z.to_nat limit) (numbered es)))).
Proof.
  intros Hl HF Hb Hp Hlisting. apply Forall_and in HF as [HF1 HF2].
  destruct (logged_spec limit es Hl HF1 Hb) as (Hw & Hlen & _ & Hc).
  assert (Hsel : selected (selects no_cursor m) (logged limit es)
                 = List.filter m (reverse (lastn (Z.to_nat limit) (numbered es)))).
  { unfold selected, newest. by rewrite Hc. }
  rewrite <- Hsel. apply (fetch_all_selected _ _ page); try done.
  - by apply (numbered_cursorable (Z.to_nat limit) es).
  - rewrite Hsel. eapply Nat.le_lt_trans; [apply length_filter_le|].
    unfold lastn, numbered. rewrite length_reverse, length_drop, length_imap. lia.
Qed.
End paging.

(** ** A codec for cursors *)
#[export] Instance logCursor_eq_dec : EqDecision logCursor.
Proof. solve_decision. Defined.
#[export] Program Instance logCursor_countable : Countable logCursor :=
  inj_countable' (fun c => (cursor_Time c, cursor_ID c)) (fun p => mkCursor p.1 p.2) _.
Next Obligation. by intros []. Qed.
