(* ===== verification/RequestLog.v ===== *)
(** server/gateway/internal/gateway/request_log.go: the in-memory request
    log, its filtered and paged listing, and the query parameters the listing
    endpoint accepts.  The buffer is the ring of [Ring] over the entries of
    this file; a nil buffer is [None]. *)
From S2P Require Import Prelude GoStrings Base64 Messages Ring.
From Stdlib Require Import ZArith Lia List String Ascii Bool.
From stdpp Require Import base countable list strings sorting.

Open Scope Z_scope.

Record requestLogEntry := mkEntry {
  entry_ID : Z;
  entry_Time : Time;
  entry_Method : string;
  entry_Host : string;
  entry_Path : string;
  QueryPresent : bool;
  RemoteIP : string;
  entry_RequestID : string;
  entry_Subdomain : string;
  CustomDomain : string;
  entry_TunnelID : string;
  entry_StreamID : string;
  entry_Status : Z;
  entry_Outcome : string;
  RequestBytes : Z;
  ResponseBytes : Z;
  DurationMS : Z;
  entry_Error : string;
}.
#[export] Instance requestLogEntry_eq_dec : EqDecision requestLogEntry.
Proof. solve_decision. Defined.

#[export] Instance requestLogEntry_log : LogEntry requestLogEntry := {|
  ID := entry_ID;
  set_ID e id :=
    mkEntry id (entry_Time e) (entry_Method e) (entry_Host e) (entry_Path e) (QueryPresent e)
      (RemoteIP e) (entry_RequestID e) (entry_Subdomain e) (CustomDomain e) (entry_TunnelID e)
      (entry_StreamID e) (entry_Status e) (entry_Outcome e) (RequestBytes e) (ResponseBytes e)
      (DurationMS e) (entry_Error e);
  Stamp := entry_Time;
  zero_entry := mkEntry 0 0 "" "" "" false "" "" "" "" "" "" 0 "" 0 0 0 "";
|}.
#[export] Instance requestLogEntry_laws : LogEntryLaws requestLogEntry.
Proof. by split. Qed.

Record requestLogFilter := mkFilter {
  Subdomain : string;
  Status : Z;
  Outcome : string;
  RequestID : string;
  Host : string;
  Method : string;
  Path : string;
  TunnelID : string;
  Since : Time;
  Until : Time;
}.
Definition no_filter : requestLogFilter := mkFilter "" 0 "" "" "" "" "" "" 0 0.

Definition requestLogCursor : Type := logCursor.

Record requestLogListOptions := mkListOptions {
  Limit : Z;
  Filter_ : requestLogFilter;
  Cursor : requestLogCursor;
}.
Record requestLogListPage := mkPage {
  RequestLogs : list requestLogEntry;
  NextCursor : string;
}.
Definition no_page : requestLogListPage := mkPage [] "".

Definition requestLogBuffer : Type := ring requestLogEntry.

Definition maxRequestLogLimit : Z := 1000.
Definition defaultRequestLogLimit : Z := 500.

Definition newRequestLogBuffer (limit : Z) : requestLogBuffer := new_ring limit.

Definition add (b : option requestLogBuffer) (entry : requestLogEntry) : option requestLogBuffer :=
  match b with
  | None => None
  | Some b => Some (ring_add b entry)
  end.

Definition count (b : option requestLogBuffer) : Z :=
  match b with
  | None => 0
  | Some b => if bool_decide (length (entries b) = 0%nat) then 0 else stored b
  end.
Definition capacity (b : option requestLogBuffer) : Z :=
  match b with None => 0 | Some b => length_Z (entries b) end.

Definition normalizedRequestLogLimit (limit : Z) : Z :=
  if limit <? 0 then defaultRequestLogLimit
  else if maxRequestLogLimit <? limit then maxRequestLogLimit
  else limit.

Section listing.
Context {U : GoUnicode} {J : JSONCodec logCursor}.

Definition matches (f : requestLogFilter) (entry : requestLogEntry) : bool :=
  if negb (Subdomain f =? "")%string
     && negb (ToLower (entry_Subdomain entry) =? Subdomain f)%string then false else
  if negb (Status f =? 0) && negb (entry_Status entry =? Status f) then false else
  if negb (Outcome f =? "")%string
     && negb (Contains (ToLower (entry_Outcome entry)) (Outcome f)) then false else
  if negb (RequestID f =? "")%string
     && negb (Contains (ToLower (entry_RequestID entry)) (RequestID f)) then false else
  if negb (Host f =? "")%string
     && negb (Contains (ToLower (entry_Host entry)) (Host f)) then false else
  if negb (Method f =? "")%string
     && negb (ToUpper (entry_Method entry) =? Method f)%string then false else
  if negb (Path f =? "")%string
     && negb (Contains (ToLower (entry_Path entry)) (Path f)) then false else
  if negb (TunnelID f =? "")%string
     && negb (Contains (ToLower (entry_TunnelID entry)) (TunnelID f)) then false else
  if negb (IsZero (Since f)) && (entry_Time entry <? Since f) then false else
  if negb (IsZero (Until f)) && (Until f <? entry_Time entry) then false else
  true.

Definition encodeRequestLogCursor (entry : requestLogEntry) : string := encode_cursor entry.
Definition decodeRequestLogCursor (raw : string) : result requestLogCursor := decode_cursor raw.

Definition requestLogPage (es : list requestLogEntry) (limit : Z) : requestLogListPage :=
  let limit := normalizedRequestLogLimit limit in
  if (limit <=? 0) || (length_Z es =? 0) then no_page else
  if length_Z es <=? limit then mkPage es "" else
  let logs := take (Z.to_nat limit) es in
  mkPage logs (match last logs with Some e => encodeRequestLogCursor e | None => "" end).

(** The filter of the listing loop: an entry not past the cursor is skipped,
    then one the filter does not match. *)
Definition listed (opts : requestLogListOptions) (entry : requestLogEntry) : bool :=
  if not_past (Cursor opts) entry then false else matches (Filter_ opts) entry.

Definition listPage (b : option requestLogBuffer) (opts : requestLogListOptions)
    : option requestLogListPage :=
  match b with
  | None => Some no_page
  | Some b =>
      if bool_decide (length (entries b) = 0%nat) then Some no_page else
      let limit := normalizedRequestLogLimit (Limit opts) in
      if limit <=? 0 then Some no_page else
      out ← list_loop b (listed opts) limit (Z.to_nat (stored b)) 0 [];
      Some (requestLogPage out limit)
  end.

Definition list_ (b : option requestLogBuffer) (limit : Z) : option (list requestLogEntry) :=
  page ← listPage b (mkListOptions limit no_filter no_cursor); Some (RequestLogs page).
Definition listFiltered (b : option requestLogBuffer) (limit : Z) (filter : requestLogFilter)
    : option (list requestLogEntry) :=
  page ← listPage b (mkListOptions limit filter no_cursor); Some (RequestLogs page).
End listing.

(** Deleted entries counted, and the buffer after; the outer [None] is a panic. *)
Definition PruneBefore (b : option requestLogBuffer) (cutoff : Time)
    : option (Z * option requestLogBuffer) :=
  match b with
  | None => Some (0, None)
  | Some b => '(n, b') ← ring_prune b cutoff; Some (n, Some b')
  end.

(** ** The listing endpoint's parameters.  [query] is [r.URL.Query().Get]. *)
Section query.
Context {U : GoUnicode} {J : JSONCodec logCursor}.
Variable time_Parse : string -> option Time.   (* time.Parse(time.RFC3339, _) *)
Variable query : string -> string.

Definition requestLogLimit (fallback : Z) : Z :=
  let raw := query "limit" in
  if (raw =? "")%string then normalizedRequestLogLimit fallback else
  match Atoi raw with
  | None => normalizedRequestLogLimit fallback
  | Some limit =>
      if limit <=? 0 then normalizedRequestLogLimit fallback else normalizedRequestLogLimit limit
  end.

Definition requestLogTimeFilter (raw name : string) : result Time :=
  let raw := TrimSpace raw in
  if (raw =? "")%string then Ok 0 else
  match time_Parse raw with
  | None => Err (Errorf (name +:+ " must be an RFC3339 timestamp"))
  | Some value => Ok value
  end.

Definition status_filter : result Z :=
  let rawStatus := TrimSpace (query "status") in
  if (rawStatus =? "")%string then Ok 0 else
  match Atoi rawStatus with
  | Some status =>
      if (status <? 100) || (599 <? status)
      then Err (Errorf "status must be an HTTP status code between 100 and 599")
      else Ok status
  | None => Err (Errorf "status must be an HTTP status code between 100 and 599")
  end.

Definition requestLogFilterFromRequest : result requestLogFilter :=
  try status <- status_filter;
  try since <- requestLogTimeFilter (query "since") "since";
  try until <- requestLogTimeFilter (query "until") "until";
  if negb (IsZero since) && negb (IsZero until) && (until <? since)
  then Err (Errorf "since must be before until")
  else Ok {|
    Subdomain := ToLower (TrimSpace (query "subdomain"));
    Status := status;
    Outcome := ToLower (TrimSpace (query "outcome"));
    RequestID := ToLower (TrimSpace (query "request_id"));
    Host := ToLower (TrimSpace (query "host"));
    Method := ToUpper (TrimSpace (query "method"));
    Path := ToLower (TrimSpace (query "path"));
    TunnelID := ToLower (TrimSpace (query "tunnel_id"));
    Since := since;
    Until := until;
  |}.

Definition requestLogListOptionsFromRequest (fallback : Z) : result requestLogListOptions :=
  try filter <- requestLogFilterFromRequest;
  let limit := requestLogLimit fallback in
  let raw := TrimSpace (query "cursor") in
  if (raw =? "")%string then Ok (mkListOptions limit filter no_cursor)
  else try cursor <- decodeRequestLogCursor raw; Ok (mkListOptions limit filter cursor).
End query.

(** * Listing *)
Section listing_spec.
Context {U : GoUnicode} {J : JSONCodec logCursor}.

Lemma listed_selects opts e : listed opts e = selects (Cursor opts) (matches (Filter_ opts)) e.
Proof. unfold listed, selects. by destruct (not_past _ _). Qed.

Lemma normalized_bounds limit : 0 <= normalizedRequestLogLimit limit <= maxRequestLogLimit.
Proof.
  unfold normalizedRequestLogLimit, defaultRequestLogLimit, maxRequestLogLimit.
  repeat case_match; to_prop; lia.
Qed.

Lemma normalized_idem limit :
  normalizedRequestLogLimit (normalizedRequestLogLimit limit) = normalizedRequestLogLimit limit.
Proof.
  pose proof (normalized_bounds limit). unfold normalizedRequestLogLimit at 1.
  repeat case_match; to_prop; lia.
Qed.

Lemma requestLogPage_spec limit sel :
  0 < normalizedRequestLogLimit limit ->
  requestLogPage sel (normalizedRequestLogLimit limit)
  = let '(logs, cursor) := page_of (normalizedRequestLogLimit limit) sel in mkPage logs cursor.
Proof.
  intros Hl. unfold requestLogPage, page_of. rewrite normalized_idem.
  set (n := normalizedRequestLogLimit limit) in *.
  destruct (Z.leb_spec n 0); [lia|]. simpl. destruct sel as [|e sel].
  { rewrite take_nil. by destruct (length_Z [] <=? n). }
  set (l := e :: sel). replace (length_Z l =? 0) with false by (symmetry; apply Z.eqb_neq; done).
  destruct (Z.leb_spec (length_Z l) n); unfold length_Z in *.
  - by rewrite take_ge by lia.
  - f_equal. by destruct (last _).
Qed.

Lemma listPage_page_of b opts :
  wf b -> entries b <> [] -> 0 < normalizedRequestLogLimit (Limit opts) ->
  listPage (Some b) opts =
  Some (let '(logs, cursor) := page_of (normalizedRequestLogLimit (Limit opts)) (selected (listed opts) b) in
        mkPage logs cursor).
Proof.
  intros H Hne Hl. unfold listPage.
  rewrite bool_decide_eq_false_2 by (by destruct (entries b)).
  destruct (Z.leb_spec (normalizedRequestLogLimit (Limit opts)) 0); [lia|].
  rewrite list_loop_all by (done || lia). cbn [mbind option_bind]. f_equal.
  rewrite requestLogPage_spec by done. by rewrite page_of_take.
Qed.

(** A listing returns the newest entries that match the filter and lie
    past the cursor, at most the limit of them, in order, and a cursor at its
    last entry exactly when entries are left; no index is out of range. *)
Lemma list_page_spec b opts :
  wf b -> entries b <> [] ->
  let limit := normalizedRequestLogLimit (Limit opts) in
  let sel := selected (listed opts) b in
  0 < limit ->
  exists page, listPage (Some b) opts = Some page /\
    RequestLogs page = take (Z.to_nat limit) sel /\
    (length_Z sel <= limit -> NextCursor page = "") /\
    (limit < length_Z sel ->
     exists e, last (RequestLogs page) = Some e /\ NextCursor page = encodeRequestLogCursor e).
Proof.
  intros H Hne limit sel Hl. eexists. split; [by apply listPage_page_of|]. fold limit sel.
  split; [done|]. split; [intros Hle; by rewrite page_of_all|by apply page_of_more].
Qed.
End listing_spec.

(** * The log refines a bounded list *)
Definition log_step (b : option requestLogBuffer) (op : logOp) : option requestLogBuffer :=
  match op with
  | OpAdd e => add b e
  | OpPrune cutoff => '(_, b') ← PruneBefore b cutoff; b'
  end.

Lemma log_step_ring b op : log_step (Some b) op = ring_step (Some b) op.
Proof. destruct op as [e|c]; [done|]. simpl. by destruct (ring_prune b c) as [[]|]. Qed.

Lemma log_run_ring limit ops :
  0 < limit ->
  foldl log_step (Some (newRequestLogBuffer limit)) ops = foldl ring_step (Some (new_ring limit)) ops.
Proof.
  intros Hl. unfold newRequestLogBuffer. generalize (new_represents limit Hl : represents (new_ring limit) _ _).
  generalize (new_ring limit : requestLogBuffer) ([] : list requestLogEntry, 0).
  induction ops as [|op ops IH]; intros b s H; [done|]. cbn [foldl]. rewrite log_step_ring.
  destruct (ring_step_refines b (Z.to_nat limit) s op ltac:(lia) H) as (b1 & E & H1).
  unfold requestLogBuffer in *. rewrite !E. by apply (IH b1 _ H1).
Qed.

(** C31: whatever requests are logged and however retention runs in between,
    the ring never panics and stores exactly what a plain list would: each
    request appended with its id, the oldest dropped beyond the capacity,
    pruned entries filtered out. *)
Theorem ring_refines_list limit ops :
  0 < limit ->
  exists b, foldl log_step (Some (newRequestLogBuffer limit)) ops = Some b /\
    wf b /\ capacity (Some b) = limit /\
    (contents b, nextID b) = foldl (spec_step (Z.to_nat limit)) ([], 0) ops /\
    count (Some b) = length_Z (contents b).
Proof.
  intros Hl. rewrite log_run_ring by done.
  destruct (ring_run_refines limit ops Hl) as (b & -> & Hw & Hlen & Hs).
  exists b. split; [done|]. split; [done|]. rewrite length_contents by done.
  unfold capacity, count, length_Z. rewrite bool_decide_eq_false_2 by lia.
  split; [lia|]. by split.
Qed.

Lemma ring_refines_list_witness :
  exists b, foldl log_step (Some (newRequestLogBuffer 2))
      [OpAdd (set_ID zero_entry 5); OpAdd zero_entry; OpPrune 3; OpAdd zero_entry] = Some b /\
    wf b /\ capacity (Some b) = 2 /\
    (contents b, nextID b) = foldl (spec_step 2) ([], 0)
      [OpAdd (set_ID zero_entry 5); OpAdd zero_entry; OpPrune 3; OpAdd zero_entry] /\
    count (Some b) = length_Z (contents b).
Proof. apply (ring_refines_list 2). reflexivity. Defined.

(** * Paging *)
Section paging.
Context {U : GoUnicode} {J : JSONCodec logCursor} {JL : JSONLaws logCursor}.
Hypothesis cursor_marshals : forall c : logCursor, is_ok (Marshal c) = true.

(** A page of the endpoint for a cursor. *)
Definition page_at (b : option requestLogBuffer) (limit : Z) (f : requestLogFilter) (c : logCursor)
    : option (list requestLogEntry * string) :=
  page ← listPage b (mkListOptions limit f c); Some (RequestLogs page, NextCursor page).

(** C32: following the cursors page by page ends, and lists every stored
    request that matches, each exactly once and newest first, whatever the
    page size. *)
Theorem paging_complete limit es page f :
  0 < limit -> Forall (fun e => entry_ID e = 0 /\ entry_Time e <> 0) es ->
  Z.of_nat (length es) <= max_int64 ->
  0 < normalizedRequestLogLimit page ->
  fetch_all (S (length es)) (fun _ => page_at (foldl add (Some (newRequestLogBuffer limit)) es) page f) no_cursor
  = Some (List.filter (matches f) (reverse (lastn (Z.to_nat limit) (numbered es)))).
Proof.
  intros Hl HF Hb Hp.
  assert (E : foldl add (Some (newRequestLogBuffer limit)) es = Some (logged limit es)).
  { clear. unfold logged, newRequestLogBuffer. generalize (new_ring limit : requestLogBuffer) as b.
    induction es as [|e es IH]; intros b; [done|]. apply (IH (ring_add b e)). }
  rewrite E. apply (fetch_all_logged cursor_marshals _ _ (normalizedRequestLogLimit page)); try done.
  intros _ c. apply Forall_and in HF as [HF _].
  destruct (logged_spec (LE := requestLogEntry_log) limit es Hl HF Hb) as (Hw & Hlen & _). unfold page_at.
  rewrite listPage_page_of; [|done| |done].
  - cbn [mbind option_bind Limit]. unfold page_of, selected. cbn [RequestLogs NextCursor].
    by rewrite (List.filter_ext _ _ (listed_selects (mkListOptions page f c))).
  - intros Hnil. rewrite Hnil in Hlen. simpl in Hlen. lia.
Qed.
End paging.

(** ** Witnesses *)
Definition ascii_case : GoUnicode := {| lower_nonascii s := s; upper_nonascii s := s |}.
Definition sample_entry (n : Z) : requestLogEntry :=
  mkEntry 0 n "GET" "demo.example.test" "/" false "203.0.113.9" "" "demo" "" "tun_1" "str_1"
    200 "ok" 0 0 0 "".

Lemma paging_complete_witness :
  let es := [sample_entry 1; sample_entry 2; sample_entry 3; sample_entry 4] in
  fetch_all (J := countable_codec) 5
    (fun _ => page_at (U := ascii_case) (J := countable_codec) (foldl add (Some (newRequestLogBuffer 3)) es) 1 no_filter)
    no_cursor
  = Some (List.filter (matches (U := ascii_case) no_filter) (reverse (lastn 3 (numbered es)))).
Proof.
  intros es.
  apply (paging_complete (U := ascii_case) (J := countable_codec) (JL := countable_codec_laws)
    (fun _ => eq_refl) 3 es 1 no_filter); try by vm_compute.
  repeat constructor; discriminate.
Defined.
