(* ===== verification/Gateway.v ===== *)
(** server/gateway/internal/gateway/server.go, the public side: what happens
    to one public request, from its [Host] to the agent and back, and what is
    logged and counted about it.

    The handler is composed of the components' own definitions: [routeForHost],
    the session table, the rate limiter, the throttle, [Backends], and
    [streamRoundTrip] or the WebSocket relay.  [net/http]'s parsing of Basic
    credentials is the parameter [BasicAuth].  The stream's deadline is
    modelled in [StreamDeadline]; here its expiry is one of the signals the
    stream sees. *)
From S2P Require Import Prelude GoStrings Names Messages Wire Registry RateLimit StreamDeadline.
From S2P Require Import Session ControlPlaneClient ClientIP Config Routing Tunnels WebSocket RequestLog.
From Stdlib Require Import ZArith Lia List String Ascii Bool SpecFloat.
From stdpp Require Import base gmap strings list.

Open Scope Z_scope.

(** ** The request and what the client is sent *)
Record HTTPRequest := mkHTTPRequest {
  r_Method : string;
  r_Host : string;
  r_Path : string;
  r_RawQuery : string;
  r_Header : Header;
  r_TLS : bool;
  r_ContentLength : Z;
  r_RemoteAddr : string;
  r_Body : reader;
  r_ContextID : string;          (* the id the middleware put in the context *)
}.

Inductive client_write : Type :=
| CError (message : string) (status : Z) (headers : list (string * string))
| CHead (status : Z) (header : Header)
| CData (data : bytes) (n : Z)
| CSocket (p : public_write).

(** ** Counters of public requests *)
Record publicMetrics := mkPublicMetrics {
  publicRequestsTotal : Z;
  publicRequestErrorsTotal : Z;
  publicRequestRateLimitedTotal : Z;
  publicRequestAuthAttemptsLimitedTotal : Z;
  publicRequestTimeoutsTotal : Z;
  publicRequestStreamIdleTimeoutsTotal : Z;
  publicRequestStreamMaxLifetimeTotal : Z;
  publicRequestBodyTooLargeTotal : Z;
  publicRequestClientCanceledTotal : Z;
  publicRequestNoActiveSessionTotal : Z;
  publicRequestAccessDeniedTotal : Z;
  publicRequestAccessPolicyErrorsTotal : Z;
}.

Definition no_session_outcomes : list string :=
  ["no_active_session"; "no_tunnel_for_host"; "custom_domain_not_found"; "custom_domain_not_verified";
   "custom_domain_verification_failed"; "custom_domain_no_control_plane"; "custom_domain_lookup_miss"].

Definition recordPublicRequestMetrics (m : publicMetrics) (status : Z) (outcome : string)
    : publicMetrics :=
  let one (b : bool) : Z := if b then 1 else 0 in
  let hit (o : string) : Z := one (String.eqb outcome o) in
  mkPublicMetrics
    (publicRequestsTotal m + 1)
    (publicRequestErrorsTotal m + one (500 <=? status))
    (publicRequestRateLimitedTotal m + hit "rate_limited")
    (publicRequestAuthAttemptsLimitedTotal m + hit "auth_attempts_limited")
    (publicRequestTimeoutsTotal m + hit "tunnel_timeout")
    (publicRequestStreamIdleTimeoutsTotal m + hit "stream_idle_timeout")
    (publicRequestStreamMaxLifetimeTotal m + hit "stream_max_lifetime_exceeded")
    (publicRequestBodyTooLargeTotal m + hit "request_body_too_large")
    (publicRequestClientCanceledTotal m + hit "client_canceled")
    (publicRequestNoActiveSessionTotal m + one (existsb (String.eqb outcome) no_session_outcomes))
    (publicRequestAccessDeniedTotal m + hit "access_denied")
    (publicRequestAccessPolicyErrorsTotal m + hit "access_policy_unavailable").

(** ** Access control *)
Definition request_bearerToken (header : Header) : string :=
  match CutPrefix (Header_Get header "Authorization") "Bearer " with
  | (token, true) => TrimSpace token
  | (_, false) => ""
  end.

Definition credential_mode (mode : string) : bool :=
  String.eqb mode "basic_auth" || String.eqb mode "bearer_token".
Definition accessDeniedStatus (result : accessPolicyEvaluation) : Z :=
  if credential_mode (Mode result) then 401 else 403.
Definition accessConsumesAuthorization (result : accessPolicyEvaluation) : bool :=
  Allowed result && credential_mode (Mode result).

Definition request_id (r : HTTPRequest) : string := FromRequest (r_ContextID r) (r_Header r).
Definition writePublicError (r : HTTPRequest) (message : string) (status : Z)
    (headers : list (string * string)) : client_write :=
  let id := request_id r in
  CError (if negb (String.eqb id "")
          then message +:+ String (chr 10) ("request_id: " +:+ id) else message) status headers.

Definition quote_char : string := String (chr 34) "".
Definition writeAccessDenied (r : HTTPRequest) (result : accessPolicyEvaluation) : client_write :=
  let realm scheme := scheme +:+ " realm=" +:+ quote_char +:+ "Porthook tunnel" +:+ quote_char in
  if String.eqb (Mode result) "basic_auth" then
    writePublicError r "authentication required" 401 [("WWW-Authenticate", realm "Basic")]
  else if String.eqb (Mode result) "bearer_token" then
    writePublicError r "bearer token required" 401 [("WWW-Authenticate", realm "Bearer")]
  else writePublicError r "access denied" 403 [].

Definition requestProto (r : HTTPRequest) : string :=
  if r_TLS r then "https" else
  let proto := TrimSpace (Header_Get (r_Header r) "X-Forwarded-Proto") in
  if negb (String.eqb proto "") then proto else "http".

Definition gateway_deadlinePolicy (cfg : Config) : StreamDeadline.streamDeadlinePolicy :=
  mkPolicy (StreamRequestTimeout cfg) (StreamIdleTimeout cfg) (StreamMaxLifetime cfg).

(** ** The handler's verdict *)
Record publicRequestLog := mkPublicRequestLog {
  Started : Time;
  log_Status : Z;
  log_Outcome : string;
  log_Subdomain : string;
  log_CustomDomain : string;
  log_TunnelID : string;
  log_StreamID : string;
  log_RequestBytes : Z;
  log_ResponseBytes : Z;
  log_Error : option error;
}.

Section gateway.
Context {U : GoUnicode} {NI : GoNetip} {F : Type} {FO : FloatOps F}.
Context {JE : JSONCodec Envelope} {JStart : JSONCodec RequestStart}
  {JResp : JSONCodec Response} {JRespStart : JSONCodec ResponseStart}
  {JChunk : JSONCodec BodyChunk} {JErr : JSONCodec ErrorPayload}
  {JCancel : JSONCodec StreamCancel} {JOpen : JSONCodec Open} {JAccept : JSONCodec Accept}
  {JClose : JSONCodec Close}.
Context (cfg : Config) (B : Backends) (clientIPs : Resolver).
Context (BasicAuth : Header -> string * string).
Context (range : gmap string (authAttemptEntry F) -> list (string * authAttemptEntry F)).

(** What one request meets: the outcomes of writes and the events of its
    stream, and for an upgrade the public socket. *)
Record surroundings := mkSurroundings {
  conn_Write : nat -> MessageType * bytes -> option error;
  body_Write : nat -> bytes -> Z * option error;
  socket_Write : nat -> MessageType * bytes -> option error;
  stream_signals : list signal;
  open_signals : list signal;
  socket_accept : option (error * Z);   (* a failed [websocket.Accept] and the status it answered with *)
  socket_reads : list public_read;
  socket_order : finisher;
  random_draws : list (option Z);
  started_at : Time;
  allowed_at : Time;
  finished_at : Time;
}.

(** The state a request can change.  The rate limiter of a session is kept
    by tunnel id. *)
Record PublicState := mkPublicState {
  srv : Server;
  limiters : gmap string (option (rateLimiter F));
  lookups : lookupMetrics;
  counters : publicMetrics;
  throttle : option (authAttemptThrottle F);
  request_logs : option requestLogBuffer;
}.

Definition client_IP (r : HTTPRequest) : string :=
  ResolveString clientIPs (r_RemoteAddr r) (r_Header r).

Definition requestLogEntryFromPublicRequest (r : HTTPRequest) (entry : publicRequestLog)
    (clientIP : string) (now : Time) : requestLogEntry :=
  mkEntry 0 (Started entry) (r_Method r) (r_Host r) (r_Path r)
    (negb (String.eqb (r_RawQuery r) "")) clientIP (request_id r) (log_Subdomain entry)
    (log_CustomDomain entry) (log_TunnelID entry) (log_StreamID entry) (log_Status entry)
    (log_Outcome entry) (log_RequestBytes entry) (log_ResponseBytes entry)
    (Z.quot (time_Sub now (Started entry)) 1000000)
    (match log_Error entry with Some e => error_message e | None => "" end).

Definition evaluatePublicAccess (r : HTTPRequest) (subdomain : string) : result accessPolicyEvaluation :=
  let '(username, password) := BasicAuth (r_Header r) in
  EvaluateAccessPolicy B
    (mkEvaluationRequest subdomain (client_IP r) username password (request_bearerToken (r_Header r))).

(** The request as the agent gets it. *)
Definition forwarded_request (r : HTTPRequest) (tunnelID : string) (access : accessPolicyEvaluation)
    : RequestStart :=
  let requestHeader := StripHopByHopHeaders (r_Header r) in
  let requestHeader :=
    if accessConsumesAuthorization access then Header_Del requestHeader "Authorization"
    else requestHeader in
  let requestHeader :=
    AddForwardedHeaders requestHeader tunnelID (r_Host r) (requestProto r) (client_IP r) in
  mkRequestStart (r_Method r) (r_Path r) (r_RawQuery r) requestHeader
    (if r_ContentLength r <? 0 then 0 else r_ContentLength r).

(** [writeResponseStart]'s correction of a status the agent left out. *)
Definition head_status (status : Z) : Z := if status <=? 0 then 502 else status.

(** What the writes of the stream are on the public connection. *)
Definition to_client (p : public_write) : client_write :=
  match p with
  | ResponseHead resp => CHead (head_status (rps_Status resp)) (StripHopByHopHeaders (rps_Header resp))
  | ResponseData data n => CData data n
  | other => CSocket other
  end.

(** The handler's [status] after the heads of [out]. *)
Definition started_status (out : list public_write) : Z :=
  foldl (fun status p => match p with ResponseHead resp => head_status (rps_Status resp) | _ => status end)
    0 out.

(** Status, outcome and error page for a stream that failed. *)
Definition stream_failure (r : HTTPRequest) (e : error) (responseStarted : bool) (status : Z)
    : Z * string * list client_write :=
  let late (code : Z) (outcome message : string) : Z * string * list client_write :=
    if responseStarted then (status, outcome, [])
    else (code, outcome, [writePublicError r message code []]) in
  if errors_Is e ErrStreamLimitExceeded then
    (503, "stream_limit_exceeded", [writePublicError r "tunnel overloaded" 503 []])
  else if errors_Is e ErrRequestBodyTooLarge then
    (413, "request_body_too_large", [writePublicError r "request body too large" 413 []])
  else if errors_Is e ErrStreamRequestTimeout || errors_Is e DeadlineExceeded then
    late 504 "tunnel_timeout" "tunnel request timed out"
  else if errors_Is e ErrStreamIdleTimeout then
    late 504 "stream_idle_timeout" "tunnel stream idle timeout"
  else if errors_Is e ErrStreamMaxLifetimeExceeded then
    late 504 "stream_max_lifetime_exceeded" "tunnel stream exceeded its maximum lifetime"
  else if errors_Is e Canceled then
    (if responseStarted then status else 499, "client_canceled", [])
  else late 502 "tunnel_error" "tunnel request failed".

(** What a request comes to: the log record (without its start), the writes to
    the client, and the calls made on the agent's connection. *)
Record handled := mkHandled {
  h_log : publicRequestLog;
  h_client : list client_write;
  h_agent : list (call * result unit);
}.

Definition verdict (env : surroundings) (status : Z) (outcome subdomain customDomain tunnelID streamID : string)
    (requestBytes responseBytes : Z) (err : option error) (writes : list client_write)
    (calls : list (call * result unit)) : handled :=
  mkHandled (mkPublicRequestLog (started_at env) status outcome subdomain customDomain tunnelID
               streamID requestBytes responseBytes err) writes calls.

(** The agent's session before and after a stream. *)
Definition run_on (live : liveSession) {A} (m : M A) : option A * St :=
  m (mkSt (agent live) [] 0 []).

(** The plain HTTP exchange. *)
Definition public_stream (env : surroundings) (r : HTTPRequest) (route : hostRoute) (live : liveSession)
    (access : accessPolicyEvaluation) (streamID : string) : option handled * St :=
  let tid := Registry.TunnelID (tunnel live) in
  let '(out, st) :=
    run_on live (streamRoundTrip (conn_Write env) (body_Write env) streamID
      (forwarded_request r tid access) (Some (r_Body r)) (MaxBodyBytes cfg) (StreamChunkBytes cfg)
      (stream_signals env)) in
  match out with
  | None => (None, st)
  | Some (result, err) =>
      let relayed := map to_client (public st) in
      let finish status outcome writes :=
        verdict env status outcome (route_Subdomain route) (route_CustomDomain route) tid streamID
          (res_RequestBytes result) (res_ResponseBytes result) err (relayed ++ writes) (calls st) in
      match err with
      | Some e =>
          let '(status, outcome, writes) :=
            stream_failure r e (has_head (public st)) (started_status (public st)) in
          (Some (finish status outcome writes), st)
      | None => (Some (finish (res_Status result) "completed" []), st)
      end
  end.

(** [handlePublicWebSocket].  [websocket.Accept] writes the response itself on
    all its errors. *)
Definition public_socket (env : surroundings) (r : HTTPRequest) (route : hostRoute) (live : liveSession)
    (access : accessPolicyEvaluation) (streamID : string) : option handled * St :=
  let tid := Registry.TunnelID (tunnel live) in
  let st0 := mkSt (agent live) [] 0 [] in
  let finish status outcome q p err writes st :=
    Some (verdict env status outcome (route_Subdomain route) (route_CustomDomain route) tid streamID
            q p err (map to_client (public st) ++ writes) (calls st)) in
  if negb (HasCapability (Some (tunnel live)) CapabilityWebSocketTunnel) then
    (finish 501 "websocket_unsupported" 0 0 None
       [writePublicError r "the connected agent does not support WebSocket tunneling" 501 []] st0, st0)
  else
    let open := buildWSOpen (r_Path r) (r_RawQuery r) (r_Header r) (accessConsumesAuthorization access) in
    match openWSStream (conn_Write env) streamID open (open_signals env) st0 with
    | (None, st) => (None, st)
    | (Some (Err e), st) =>
        if errors_Is e ErrStreamLimitExceeded then
          (finish 503 "stream_limit_exceeded" 0 0 (Some e) [writePublicError r "tunnel overloaded" 503 []] st, st)
        else if errors_Is e ErrStreamRequestTimeout || errors_Is e DeadlineExceeded then
          (finish 504 "tunnel_timeout" 0 0 (Some e) [writePublicError r "tunnel request timed out" 504 []] st, st)
        else if errors_Is e Canceled then
          (finish 499 "client_canceled" 0 0 (Some e) [] st, st)
        else
          (finish 502 "tunnel_error" 0 0 (Some e) [writePublicError r "websocket tunnel failed" 502 []] st, st)
    | (Some (Ok (accept, stream)), st) =>
        match socket_accept env with
        | Some (e, answered) =>
            let st := snd ((SendCancel (conn_Write env) stream "public websocket handshake failed") st) in
            let st := snd (ws_Close stream st) in
            (finish 0 "websocket_handshake_failed" 0 0 (Some e)
               [CError (error_message e) answered []] st, st)
        | None =>
            match relayPublicWebSocket (conn_Write env) (socket_Write env) stream (socket_reads env)
                    (stream_signals env) (socket_order env) st with
            | (None, st) => (None, st)
            | (Some (q, p, relayErr), st) =>
                let st := snd (ws_Close stream st) in
                match relayErr with
                | None => (finish 101 "completed" q p None [] st, st)
                | Some e =>
                    let outcome :=
                      if errors_Is e ErrStreamIdleTimeout then "stream_idle_timeout"
                      else if errors_Is e ErrStreamMaxLifetimeExceeded then "stream_max_lifetime_exceeded"
                      else if errors_Is e Canceled then "client_canceled"
                      else "websocket_error" in
                    (finish 101 outcome q p (Some e) [] st, st)
                end
            end
        end
    end.

Definition set_agent (s : Server) (live : liveSession) (a : agentSession) : Server :=
  mkServer (registry s) (<[Registry.TunnelID (tunnel live) := mkLive (tunnel live) a]> (sessions s)).

(** The part of [handlePublicRequest] that decides, with the state after it. *)
Definition decide_request (env : surroundings) (r : HTTPRequest) (st : PublicState)
    : option handled * PublicState :=
  let refuse status outcome subdomain customDomain tunnelID streamID err write :=
    Some (verdict env status outcome subdomain customDomain tunnelID streamID 0 0 err [write] []) in
  let '(route, m) := routeForHost (RootDomain cfg) (ResolveCustomDomain B) (r_Host r) (lookups st) in
  let st := mkPublicState (srv st) (limiters st) m (counters st) (throttle st) (request_logs st) in
  match route with
  | Err e =>
      (refuse 503 "custom_domain_lookup_failed" "" "" "" "" (Some e)
         (writePublicError r "custom domain lookup failed" 503 []), st)
  | Ok (route, false) =>
      if negb (String.eqb (MissReason route) "") then
        (refuse 404 (customDomainMissOutcome (MissReason route)) "" (route_CustomDomain route) "" "" None
           (writePublicError r (customDomainMissMessage (MissReason route)) 404 []), st)
      else
        (refuse 404 "no_tunnel_for_host" "" (route_CustomDomain route) "" "" None
           (writePublicError r ("no active tunnel for host " +:+ Quote (r_Host r)) 404 []), st)
  | Ok (route, true) =>
      let sub := route_Subdomain route in
      let cd := route_CustomDomain route in
      match sessionBySubdomain (srv st) sub with
      | None =>
          (refuse 404 "no_active_session" sub cd "" "" None
             (writePublicError r ("no active tunnel for host " +:+ Quote (r_Host r)) 404 []), st)
      | Some live =>
          let tid := Registry.TunnelID (tunnel live) in
          let '(ok, limiter) := allow (default None (limiters st !! tid)) (allowed_at env) in
          let st := mkPublicState (srv st) (<[tid := limiter]> (limiters st)) (lookups st)
                      (counters st) (throttle st) (request_logs st) in
          if negb ok then
            (refuse 429 "rate_limited" sub cd tid "" None
               (writePublicError r "tunnel rate limit exceeded" 429 [("Retry-After", "1")%string]), st)
          else
            let authAttemptKey := sub +:+ "|" +:+ client_IP r in
            if blocked (throttle st) authAttemptKey (started_at env) then
              (refuse 429 "auth_attempts_limited" sub cd tid "" None
                 (writePublicError r "too many authentication attempts" 429 [("Retry-After", "1")%string]), st)
            else
              match evaluatePublicAccess r sub with
              | Err e =>
                  (refuse 503 "access_policy_unavailable" sub cd tid "" (Some e)
                     (writePublicError r "access policy unavailable" 503 []), st)
              | Ok access =>
                  if negb (Allowed access) then
                    let throttle' :=
                      if credential_mode (Mode access)
                      then record_failure_opt range (throttle st) authAttemptKey (started_at env)
                      else throttle st in
                    (refuse (accessDeniedStatus access) "access_denied" sub cd tid "" None
                       (writeAccessDenied r access),
                     mkPublicState (srv st) (limiters st) (lookups st) (counters st) throttle'
                       (request_logs st))
                  else
                    match newStreamID (random_draws env) with
                    | (Err e, _) =>
                        (refuse 500 "stream_id_failed" sub cd tid "" (Some e)
                           (writePublicError r "failed to create stream" 500 []), st)
                    | (Ok streamID, _) =>
                        let '(out, after) :=
                          if isWebSocketUpgradeRequest (r_Header r)
                          then public_socket env r route live access streamID
                          else public_stream env r route live access streamID in
                        (out, mkPublicState (set_agent (srv st) live (sess after)) (limiters st)
                                (lookups st) (counters st) (throttle st) (request_logs st))
                    end
              end
      end
  end.

(** [handlePublicRequest]: the decision, then the deferred logging and
    counting. *)
Definition handlePublicRequest (env : surroundings) (r : HTTPRequest) (st : PublicState)
    : option handled * PublicState :=
  match decide_request env r st with
  | (None, st) => (None, st)
  | (Some h, st) =>
      let l := h_log h in
      let status := if log_Status l =? 0 then 500 else log_Status l in
      let l := mkPublicRequestLog (Started l) status (log_Outcome l) (log_Subdomain l)
                 (log_CustomDomain l) (log_TunnelID l) (log_StreamID l) (log_RequestBytes l)
                 (log_ResponseBytes l) (log_Error l) in
      let entry := requestLogEntryFromPublicRequest r l (client_IP r) (finished_at env) in
      (Some (mkHandled l (h_client h) (h_agent h)),
       mkPublicState (srv st) (limiters st) (lookups st)
         (recordPublicRequestMetrics (counters st) status (log_Outcome l)) (throttle st)
         (add (request_logs st) entry))
  end.
End gateway.

(** * Properties *)

(** ** Heads written to the client *)
Definition is_head (p : public_write) : bool := match p with ResponseHead _ => true | _ => false end.
Definition heads (out : list public_write) : list public_write := List.filter is_head out.

(** [m] writes no response head. *)
Definition headless {A} (m : M A) : Prop := forall s, heads (public (snd (m s))) = heads (public s).

Lemma heads_app a b : heads (a ++ b) = heads a ++ heads b.
Proof. apply List.filter_app. Qed.
Lemma has_head_heads out : has_head out = negb (bool_decide (heads out = [])).
Proof. induction out as [|[] out IH]; try done; exact IH. Qed.
Lemma last_status_heads st out : last_status st (heads out) = last_status st out.
Proof. revert st. induction out as [|[] out IH]; intros st; cbn; auto. Qed.

Lemma headless_ret {A} (a : A) : headless (ret a).
Proof. by intros s. Qed.
Lemma headless_blocked {A} : headless (fun s : St => (@None A, s)).
Proof. by intros s. Qed.
Lemma headless_on_session f : headless (on_session f).
Proof. by intros s. Qed.
Lemma headless_tunnel_id : headless tunnel_id.
Proof. by intros s. Qed.
Lemma headless_bind {A B} (m : M A) (k : A -> M B) :
  headless m -> (forall a, headless (k a)) -> headless (bindM m k).
Proof.
  intros Hm Hk s. unfold bindM. specialize (Hm s). destruct (m s) as [[a|] s1]; simpl in *; [|done].
  by rewrite Hk.
Qed.
Create HintDb headless.
#[export] Hint Resolve headless_ret headless_blocked headless_on_session headless_tunnel_id : headless.

(** Split on every decision of a computation, and close its leaves. *)
Ltac headless :=
  repeat first
    [ solve [auto with headless]
    | apply headless_bind; [solve [auto with headless]|intros]
    | match goal with |- headless (match ?x with _ => _ end) => destruct x end
    | progress cbv zeta ].

Section heads.
Context {JE : JSONCodec Envelope} {JStart : JSONCodec RequestStart}
  {JResp : JSONCodec Response} {JRespStart : JSONCodec ResponseStart}
  {JChunk : JSONCodec BodyChunk} {JErr : JSONCodec ErrorPayload}
  {JCancel : JSONCodec StreamCancel} {JOpen : JSONCodec Open} {JAccept : JSONCodec Accept}
  {JClose : JSONCodec Close}.
Context (conn_Write : nat -> MessageType * bytes -> option error).
Context (body_Write : nat -> bytes -> Z * option error).
Context (socket_Write : nat -> MessageType * bytes -> option error).

Lemma headless_send c f : headless (send conn_Write c f).
Proof. intros s. unfold send. by repeat case_match. Qed.
#[local] Hint Resolve headless_send : headless.
Lemma headless_write env : headless (write conn_Write env).
Proof. apply headless_send. Qed.
Lemma headless_writeBinaryBody typ sid b : headless (writeBinaryBody conn_Write typ sid b).
Proof. intros s. apply headless_send. Qed.
#[local] Hint Resolve headless_write headless_writeBinaryBody : headless.
Lemma headless_cancelStream sid reason : headless (cancelStream conn_Write sid reason).
Proof. unfold cancelStream. headless. Qed.
#[local] Hint Resolve headless_cancelStream : headless.
Lemma headless_acquire : headless acquire.
Proof. intros s. unfold acquire. by destruct (acquireStream (sess s)). Qed.
#[local] Hint Resolve headless_acquire : headless.
Lemma headless_body_loop sid max body sent : headless (body_loop conn_Write sid max body sent).
Proof. revert sent. induction body as [|[d e] body IH]; intros sent; cbn [body_loop]; headless. Qed.
#[local] Hint Resolve headless_body_loop : headless.
Lemma headless_writeRequestBody sid body max : headless (writeRequestBody conn_Write sid body max).
Proof. unfold writeRequestBody. headless. Qed.
#[local] Hint Resolve headless_writeRequestBody : headless.

Lemma headless_openWSStream sid open signals : headless (openWSStream conn_Write sid open signals).
Proof. unfold openWSStream. headless. Qed.
Lemma headless_SendClose w code reason : headless (SendClose conn_Write w code reason).
Proof. unfold SendClose. headless. Qed.
Lemma headless_SendCancel w reason : headless (SendCancel conn_Write w reason).
Proof. unfold SendCancel. headless. Qed.
Lemma headless_ws_Close w : headless (ws_Close w).
Proof. unfold ws_Close. headless. Qed.
#[local] Hint Resolve headless_SendClose headless_SendCancel : headless.
Lemma headless_closeOrCancel w e status : headless (closeOrCancelForReadError conn_Write w e status).
Proof. unfold closeOrCancelForReadError. headless. Qed.
#[local] Hint Resolve headless_closeOrCancel : headless.
Lemma headless_public_pump w reads n : headless (pumpPublicToAgent conn_Write w reads n).
Proof.
  revert n. induction reads as [|[typ d|e c x] reads IH]; intros n; cbn [pumpPublicToAgent];
    unfold SendMessage; headless.
Qed.
Lemma headless_agent_pump signals n : headless (pumpAgentToPublic socket_Write signals n).
Proof.
  assert (Hs : forall t d, headless (write_socket socket_Write t d)).
  { intros t d s. cbn. by rewrite heads_app, app_nil_r. }
  assert (He : forall c r, headless (emit (SocketClose c r))).
  { intros c r s. cbn. by rewrite heads_app, app_nil_r. }
  revert n. induction signals as [|[x| |msg] signals IH]; intros n; cbn [pumpAgentToPublic]; headless.
Qed.
#[local] Hint Resolve headless_public_pump headless_agent_pump : headless.
Lemma headless_relay w reads signals order :
  headless (relayPublicWebSocket conn_Write socket_Write w reads signals order).
Proof. unfold relayPublicWebSocket, relay_end. headless. Qed.
End heads.

(** ** What is logged is what was sent *)
Section reports.
Context {JE : JSONCodec Envelope} {JStart : JSONCodec RequestStart}
  {JResp : JSONCodec Response} {JRespStart : JSONCodec ResponseStart}
  {JChunk : JSONCodec BodyChunk} {JErr : JSONCodec ErrorPayload}
  {JCancel : JSONCodec StreamCancel}.
Context (conn_Write : nat -> MessageType * bytes -> option error).
Context (body_Write : nat -> bytes -> Z * option error).

(** From a client that has been sent no head, [m] reports the last status it
    writes, and success only with a head written. *)
Definition reports (m : M (streamRoundTripResult * option error)) : Prop :=
  forall s res err s', m s = (Some (res, err), s') -> heads (public s) = [] ->
  res_Status res = last_status 0 (public s') /\ (err = None -> has_head (public s') = true).

Lemma reports_fails r e : res_Status r = 0 -> reports (ret (r, Some e)).
Proof. intros Hr s res err s' [= <- <- <-] H. split; [|done]. by rewrite <- last_status_heads, H. Qed.

Lemma reports_bind {A} (m : M A) k : headless m -> (forall a, reports (k a)) -> reports (bindM m k).
Proof.
  intros Hm Hk s res err s' E H. unfold bindM in E. specialize (Hm s).
  destruct (m s) as [[a|] s1]; [|done]. simpl in Hm. apply (Hk _ _ _ _ _ E). by rewrite Hm.
Qed.

Lemma reports_then m k :
  reports m ->
  (forall r e s res err s', k (r, e) s = (Some (res, err), s') ->
     res = r /\ err = e /\ heads (public s') = heads (public s)) ->
  reports (bindM m k).
Proof.
  intros Hm Hk s res err s' E H. unfold bindM in E. destruct (m s) as [[[r e]|] s1] eqn:Em; [|done].
  apply Hk in E as (-> & -> & E). rewrite has_head_heads, E, <- has_head_heads.
  rewrite <- last_status_heads, E, last_status_heads. by apply (Hm s).
Qed.

Lemma reports_deferring f m : reports m -> reports (deferring f m).
Proof. intros Hm. apply reports_then; [done|]. by intros r e s res err s' [= <- <- <-]. Qed.

Lemma reports_response sid signals chunk r :
  res_Status r = 0 -> reports (readStreamResponse conn_Write body_Write sid signals chunk r).
Proof.
  intros Hr s res err s' E H. apply responds_loop in E as (out & Ep & _ & _ & Es & _ & Ee).
  rewrite Hr in Es. rewrite <- last_status_heads, has_head_heads, Ep, heads_app, H.
  simpl app. rewrite last_status_heads, <- has_head_heads. done.
Qed.

Lemma reports_exchange sid req body max chunk signals :
  reports (stream_exchange conn_Write body_Write sid req body max chunk signals).
Proof.
  unfold stream_exchange. apply reports_bind; [apply headless_tunnel_id|intros tid].
  destruct (NewStream _ _ _ _) as [start|e]; [|by apply reports_fails].
  apply reports_bind; [apply headless_write|intros [[]|e]; [|by apply reports_fails]].
  apply reports_bind; [apply headless_writeRequestBody|intros [sent [e|]]].
  { apply reports_bind; [apply headless_cancelStream|intros ?; by apply reports_fails]. }
  destruct (NewStream _ _ _ _) as [fin|e]; [|by apply reports_fails].
  apply reports_bind; [apply headless_write|intros [[]|e]; [|by apply reports_fails]].
  apply reports_then; [by apply reports_response|]. intros r [e|] s res err s' E.
  - destruct (isStreamContextDoneCause e); [by injection E as <- <- <-|].
    unfold bindM in E. pose proof (headless_cancelStream conn_Write sid (streamCancelReasonForError e) s) as Hc.
    destruct (cancelStream _ _ _ s) as [[x|] s1]; [|done]. by injection E as <- <- <-.
  - by injection E as <- <- <-.
Qed.

Lemma reports_streamRoundTrip sid req body max chunk signals :
  reports (streamRoundTrip conn_Write body_Write sid req body max chunk signals).
Proof.
  unfold streamRoundTrip. apply reports_bind; [apply headless_acquire|].
  intros [[]|e]; [|by apply reports_fails]. apply reports_deferring.
  apply reports_bind; [apply headless_on_session|intros _]. apply reports_deferring, reports_exchange.
Qed.
End reports.

(** The statuses of the response heads and error pages sent. *)
Definition status_of (w : client_write) : option Z :=
  match w with CError _ s _ | CHead s _ => Some s | _ => None end.
Definition statuses (ws : list client_write) : list Z := omap status_of ws.

Lemma statuses_app a b : statuses (a ++ b) = statuses a ++ statuses b.
Proof. apply omap_app. Qed.

Lemma statuses_relayed out :
  last (statuses (map to_client out)) = if has_head out then Some (started_status out) else None.
Proof.
  unfold started_status. rewrite <- (rev_involutive out). generalize (rev out). clear out.
  induction l as [|p l IH]; [done|]. cbn [rev]. rewrite map_app, statuses_app, foldl_app.
  unfold has_head. rewrite existsb_app. fold (has_head (rev l)).
  destruct p; cbn; rewrite ?app_nil_r, ?orb_false_r, ?IH; try done.
  by rewrite last_snoc, orb_true_r.
Qed.

Lemma started_last out : has_head out = true -> started_status out = head_status (last_status 0 out).
Proof.
  assert (Hgen : forall a b, head_status a = b \/ has_head out = true ->
    foldl (fun status p => match p with ResponseHead resp => head_status (rps_Status resp) | _ => status end)
      b out = head_status (last_status a out)).
  { induction out as [|p out IH]; intros a b [H|H]; cbn in *; subst; try done;
      destruct p; cbn in *; apply IH; auto. }
  intros H. apply Hgen. by right.
Qed.

Section gateway_properties.
Context {U : GoUnicode} {NI : GoNetip} {F : Type} {FO : FloatOps F}.
Context {JE : JSONCodec Envelope} {JStart : JSONCodec RequestStart}
  {JResp : JSONCodec Response} {JRespStart : JSONCodec ResponseStart}
  {JChunk : JSONCodec BodyChunk} {JErr : JSONCodec ErrorPayload}
  {JCancel : JSONCodec StreamCancel} {JOpen : JSONCodec Open} {JAccept : JSONCodec Accept}
  {JClose : JSONCodec Close}.
Context (cfg : Config) (B : Backends) (clientIPs : Resolver).
Context (BasicAuth : Header -> string * string).
Context (range : gmap string (authAttemptEntry F) -> list (string * authAttemptEntry F)).

(** The status kept for the log is the last one sent, or the agent left its
    status out, or the WebSocket library refused the handshake. *)
Definition consistent_status (h : handled) : Prop :=
  (log_Outcome (h_log h) = "websocket_handshake_failed"%string /\ log_Status (h_log h) = 0) \/
  forall sent, last (statuses (h_client h)) = Some sent ->
  0 < sent /\ (log_Status (h_log h) = sent \/ (sent = 502 /\ log_Status (h_log h) <= 0)).

Lemma consistent_relayed out status writes env outcome sub cd tid sid q p err calls :
  (statuses writes = [status] /\ 0 < status \/
   statuses writes = [] /\ (has_head out = true -> status = started_status out \/
                            (started_status out = 502 /\ status <= 0))) ->
  consistent_status (verdict env status outcome sub cd tid sid q p err (map to_client out ++ writes) calls).
Proof.
  intros H. right. intros sent. cbn [verdict h_client h_log log_Status]. rewrite statuses_app.
  destruct H as [[H Hp]|[H Hs]]; rewrite H.
  - rewrite last_snoc. intros [= <-]. auto.
  - rewrite app_nil_r, statuses_relayed. destruct (has_head out) eqn:Eh; [|done]. intros [= <-].
    split; [|destruct Hs as [->|[-> H2]]; auto].
    rewrite (started_last _ Eh). unfold head_status. destruct (Z.leb_spec (last_status 0 out) 0); lia.
Qed.

Lemma stream_failure_statuses r e started status code outcome writes :
  stream_failure r e started status = (code, outcome, writes) ->
  statuses writes = [code] /\ 0 < code \/ statuses writes = [] /\ (started = true -> code = status).
Proof.
  unfold stream_failure. cbv zeta. destruct started; repeat case_match; intros [= <- <- <-];
    first [by left|right; by split].
Qed.

Lemma public_stream_status env r route live access sid h s' :
  public_stream cfg clientIPs env r route live access sid = (Some h, s') -> consistent_status h.
Proof.
  unfold public_stream. cbv zeta. destruct (run_on live _) as [[[res err]|] s1] eqn:E; [|done].
  unfold run_on in E. destruct (reports_streamRoundTrip _ _ _ _ _ _ _ _ _ _ _ _ E) as [Es Eh]; [reflexivity|].
  destruct err as [e|].
  - destruct (stream_failure _ _ _ _) as [[status outcome] writes] eqn:Ef.
    intros [= <- <-]. apply consistent_relayed.
    apply stream_failure_statuses in Ef as [Ef|[Ef Hs]]; [by left|right]. split; [done|]. intros Hh. left. auto.
  - intros [= <- <-]. apply consistent_relayed. right. split; [done|]. intros Hh.
    rewrite (started_last _ Hh), Es. unfold head_status. destruct (Z.leb_spec (last_status 0 (public s1)) 0); auto.
Qed.

Lemma has_head_none s0 s : heads (public s) = heads (public s0) -> public s0 = [] -> has_head (public s) = false.
Proof. intros H H0. rewrite has_head_heads, H, H0. done. Qed.

Lemma public_socket_status env r route live access sid h s' :
  public_socket env r route live access sid = (Some h, s') -> consistent_status h.
Proof.
  unfold public_socket. cbv zeta.
  set (s0 := mkSt (agent live) [] 0 []).
  assert (Hw : forall s status outcome q p err writes,
    heads (public s) = heads (public s0) -> (statuses writes = [status] /\ 0 < status \/ statuses writes = []) ->
    consistent_status (verdict env status outcome (route_Subdomain route) (route_CustomDomain route)
      (Registry.TunnelID (tunnel live)) sid q p err (map to_client (public s) ++ writes) (calls s))).
  { intros s status outcome q p err writes Hs Hc. apply consistent_relayed.
    destruct Hc as [Hc|Hc]; [by left|right]. split; [done|]. by rewrite (has_head_none s0 s). }
  destruct (negb _). { intros [= <- <-]. apply (Hw s0); [done|]. by left. }
  pose proof (headless_openWSStream (env.(conn_Write)) sid
    (buildWSOpen (r_Path r) (r_RawQuery r) (r_Header r) (accessConsumesAuthorization access))
    (open_signals env) s0) as Ho.
  destruct (openWSStream _ _ _ _ s0) as [[[[accept stream]|e]|] s1]; [| |done]; cbn [snd] in Ho.
  2: { repeat case_match; intros [= <- <-]; (apply Hw; [done|]); first [by left|by right]. }
  destruct (socket_accept env) as [[e answered]|].
  { intros [= <- <-]. by left. }
  pose proof (headless_relay (env.(conn_Write)) (socket_Write env) stream (socket_reads env)
    (stream_signals env) (socket_order env) s1) as Hr.
  destruct (relayPublicWebSocket _ _ _ _ _ _ s1) as [[[[q p] [e|]]|] s2]; [| |done]; cbn [snd] in Hr;
    intros [= <- <-]; (apply Hw; [|auto]); by rewrite headless_ws_Close, Hr.
Qed.

(** The decision on the way to the agent, one step per guard. *)
Definition admitted (env : surroundings) (r : HTTPRequest) (st : PublicState)
    (route : hostRoute) (live : liveSession) (access : accessPolicyEvaluation) : Prop :=
  let tid := Registry.TunnelID (tunnel live) in
  fst (routeForHost (RootDomain cfg) (ResolveCustomDomain B) (r_Host r) (lookups st)) = Ok (route, true) /\
  sessionBySubdomain (srv st) (route_Subdomain route) = Some live /\
  fst (allow (default None (limiters st !! tid)) (allowed_at env)) = true /\
  blocked (throttle st) (route_Subdomain route +:+ "|" +:+ client_IP clientIPs r) (started_at env) = false /\
  evaluatePublicAccess B clientIPs BasicAuth r (route_Subdomain route) = Ok access /\
  Allowed access = true.

Ltac refused := intros [= <- <-]; do 2 (split; [done|]); left; eexists; repeat split; done.

(** Every request is refused with an error page of the status logged, before
    anything reaches an agent and with the sessions untouched, or is admitted. *)
Lemma decide_cases env r st out st' :
  decide_request cfg B clientIPs BasicAuth range env r st = (out, st') ->
  counters st' = counters st /\ request_logs st' = request_logs st /\
  ((exists h, out = Some h /\ h_agent h = [] /\ srv st' = srv st /\
      Started (h_log h) = started_at env /\
      statuses (h_client h) = [log_Status (h_log h)] /\ 400 <= log_Status (h_log h) < 600) \/
   (exists route live access sid s1,
      admitted env r st route live access /\ srv st' = set_agent (srv st) live (sess s1) /\
      (public_socket env r route live access sid = (out, s1) \/
       public_stream cfg clientIPs env r route live access sid = (out, s1)))).
Proof.
  unfold decide_request, admitted. cbv zeta.
  destruct (routeForHost _ _ _ _) as [[[route [|]]|e] m];
    [| |refused].
  2: { destruct (negb _); refused. }
  cbn [srv limiters throttle fst]. destruct (sessionBySubdomain (srv st) (route_Subdomain route)) as [live|] eqn:El;
    [|refused].
  destruct (allow _ _) as [[|] limiter] eqn:Ea; cbn [negb];
    [|refused].
  cbn [throttle]. destruct (blocked _ _ _) eqn:Eb;
    [refused|].
  destruct (evaluatePublicAccess _ _ _ _ _) as [access|e] eqn:Ee;
    [|refused].
  destruct (Allowed access) eqn:Eo; cbn [negb].
  2: { intros [= <- <-]. do 2 (split; [done|]). left. eexists. split; [done|].
       unfold writeAccessDenied, accessDeniedStatus, credential_mode.
       destruct (String.eqb (Mode access) "basic_auth"), (String.eqb (Mode access) "bearer_token");
         repeat split; done. }
  destruct (newStreamID (random_draws env)) as [[sid|e] g];
    [|refused].
  destruct (isWebSocketUpgradeRequest _).
  - destruct (public_socket _ _ _ _ _ _) as [o s1] eqn:Ep. intros [= <- <-].
    do 2 (split; [done|]). right. exists route, live, access, sid, s1. rewrite Ea. repeat split; auto.
  - destruct (public_stream _ _ _ _ _ _ _ _) as [o s1] eqn:Ep. intros [= <- <-].
    do 2 (split; [done|]). right. exists route, live, access, sid, s1. rewrite Ea. repeat split; auto.
Qed.

(** The log record of an admitted request names its route and tunnel. *)
Definition logged_route (env : surroundings) (route : hostRoute) (live : liveSession) (h : handled) : Prop :=
  Started (h_log h) = started_at env /\ log_Subdomain (h_log h) = route_Subdomain route /\
  log_CustomDomain (h_log h) = route_CustomDomain route /\
  log_TunnelID (h_log h) = Registry.TunnelID (tunnel live).

Lemma admitted_logged env r route live access sid h s1 :
  public_socket env r route live access sid = (Some h, s1) \/
  public_stream cfg clientIPs env r route live access sid = (Some h, s1) ->
  logged_route env route live h /\ consistent_status h.
Proof.
  intros H. split; [|destruct H; [by eapply public_socket_status|by eapply public_stream_status]].
  revert H. unfold public_socket, public_stream, logged_route. cbv zeta.
  intros [H|H]; revert H; repeat (case_match; try done); by intros [= <- <-].
Qed.

(** C6: the agent behind a tunnel is reached only by requests that passed every
    guard: the host routes to a subdomain, that subdomain has a live session,
    the tunnel's rate limiter admitted the request, the client is not locked
    out, and the access policy allowed it; the session used is the one found
    for that subdomain.  Any other request gets exactly one error page with
    the status that is logged, nothing is sent to an agent, and no session
    changes. *)
Theorem request_guarded env r st out st' :
  handlePublicRequest cfg B clientIPs BasicAuth range env r st = (out, st') ->
  (exists h, out = Some h /\ h_agent h = [] /\ srv st' = srv st /\
     statuses (h_client h) = [log_Status (h_log h)] /\ 400 <= log_Status (h_log h) < 600) \/
  (exists route live access a,
     admitted env r st route live access /\ srv st' = set_agent (srv st) live a /\
     forall h, out = Some h -> logged_route env route live h).
Proof.
  unfold handlePublicRequest. destruct (decide_request _ _ _ _ _ _ _ _) as [o s1] eqn:E.
  apply decide_cases in E as (_ & _ & [(h & -> & Ha & Hs & Ht & Hc & Hb)|(route & live & access & sid & s2 & Had & Hs & Hp)]).
  - intros [= <- <-]. left. eexists. split; [done|]. cbn [h_agent h_client h_log log_Status srv].
    destruct (Z.eqb_spec (log_Status (h_log h)) 0); [lia|]. done.
  - intros H. right. exists route, live, access, (sess s2). split; [done|].
    destruct o as [h|]; injection H as <- <-; split; try done. cbn [srv].
    apply admitted_logged in Hp as [(H1 & H2 & H3 & H4) _]. intros h' [= <-]. by repeat split.
Qed.


(** The keys the gateway sets, in canonical form. *)
Lemma set_if_lookup h key v ck k :
  CanonicalHeaderKey key = ck ->
  set_if h key v !! k = if bool_decide (k = ck /\ v <> ""%string) then Some [v] else h !! k.
Proof.
  intros <-. unfold set_if, Header_Set. destruct (String.eqb_spec v "") as [->|Hv].
  - by rewrite bool_decide_false by tauto.
  - destruct (decide (k = CanonicalHeaderKey key)) as [->|Hk].
    + by rewrite lookup_insert_eq, bool_decide_true.
    + by rewrite lookup_insert_ne, bool_decide_false by (intuition congruence).
Qed.

Lemma forwarded_lookup h tid host proto ip k :
  AddForwardedHeaders h tid host proto ip !! k =
  if bool_decide (k = "X-Porthook-Tunnel-Id" /\ tid <> "")%string then Some [tid]
  else if bool_decide (k = "X-Forwarded-Proto" /\ proto <> "")%string then Some [proto]
  else if bool_decide (k = "X-Forwarded-Host" /\ host <> "")%string then Some [host]
  else if bool_decide (k = "X-Forwarded-For" /\ ip <> "")%string then Some [ip] else h !! k.
Proof.
  unfold AddForwardedHeaders.
  rewrite (set_if_lookup _ _ _ "X-Porthook-Tunnel-Id"), (set_if_lookup _ _ _ "X-Forwarded-Proto"),
    (set_if_lookup _ _ _ "X-Forwarded-Host"), (set_if_lookup _ _ _ "X-Forwarded-For") by reflexivity.
  done.
Qed.

Definition forwarded_keys : list string :=
  ["X-Porthook-Tunnel-Id"; "X-Forwarded-Proto"; "X-Forwarded-Host"; "X-Forwarded-For"].
Lemma forwarded_other h tid host proto ip k :
  k ∉ forwarded_keys -> AddForwardedHeaders h tid host proto ip !! k = h !! k.
Proof.
  intros Hk. rewrite forwarded_lookup.
  rewrite !bool_decide_false by (intros [-> _]; apply Hk; vm_compute; set_solver). done.
Qed.

End gateway_properties.

(** ** A concrete request *)
Module Witness_gateway.
#[local] Instance unicode : GoUnicode := {| lower_nonascii s := s; upper_nonascii s := s |}.
#[local] Instance netip : GoNetip := text_netip.
#[local] Instance float : FloatOps spec_float := binary64.
#[local] Instance sha : SHA256 := {| Sum256 s := to_bytes s |}.
Import Session.Witness.
#[local] Existing Instances je jstart jresp jrs jchunk jerr jcancel jopen jaccept jclose.

Definition cfg : Config := ConfigFromEnv (D := {| ParseDuration _ := None |}) (fun _ => ""%string).
Definition B : Backends := static_backends "dev-token".
Definition noAuth (_ : Header) : string * string := ("", "")%string.
Definition range (m : gmap string (authAttemptEntry spec_float)) := map_to_list m.
Definition live : liveSession := mkLive Witness_tunnels.t1 (newAgentSession "tun_1" 4).
Definition srv0 : Server :=
  addSession (mkServer (snd (Register Registry.New (Some Witness_tunnels.t1))) ∅) live.
Definition state : PublicState (F := spec_float) :=
  mkPublicState srv0 ∅ (mkLookupMetrics 0 0 0 0) (mkPublicMetrics 0 0 0 0 0 0 0 0 0 0 0 0)
    None (Some (newRequestLogBuffer 10)).
Definition env : surroundings :=
  mkSurroundings conn_ok writer_ok (fun _ _ => None) signals [] None [] PublicFirst
    (repeat (Some 0) 20) 100 101 200.
Definition request (host : string) : HTTPRequest :=
  mkHTTPRequest "POST" host "/up" "" ∅ false 11 "192.0.2.7:1234" body "req_1".
Definition run (host : string) : option handled * PublicState (F := spec_float) :=
  handlePublicRequest cfg B (ClientIP.New []) noAuth range env (request host) state.

(** A request for the tunnel's subdomain is admitted. *)
Lemma request_guarded_witness :
  exists route live access a,
    admitted cfg B (ClientIP.New []) noAuth env (request "demo.localhost") state route live access /\
    srv (snd (run "demo.localhost")) = set_agent (srv state) live a.
Proof.
  destruct (run "demo.localhost") as [out st'] eqn:Er. assert (E := Er). unfold run in E.
  destruct (request_guarded cfg B (ClientIP.New []) noAuth range env (request "demo.localhost") state
    out st' E) as [(h & -> & Ha & _)|(route & l & access & a & H1 & H2 & _)].
  - exfalso. apply (f_equal fst) in Er. vm_compute in Er. injection Er as <-. done.
  - exists route, l, access, a. split; [exact H1|exact H2].
Defined.

End Witness_gateway.
