(* ===== verification/Management.v ===== *)
(** server/gateway/internal/gateway/server.go and metrics.go, the operator's
    side of the gateway: the server as it is built from its configuration, the
    management endpoints behind their token, what the request log records and
    how it is pruned, and how the sessions are closed at shutdown.

    The durable request log is an interface: [requestLogStore] has the two
    methods of requestLogWriter, and those of requestLogReader,
    requestLogPruner and dbStatser where the implementation has them (a type
    assertion that fails is [None]). *)
From S2P Require Import Prelude GoStrings Messages Wire Registry RateLimit Session ControlPlaneClient.
From S2P Require Import ClientIP Config Routing Tunnels WebSocket Ring RequestLog Gateway Metrics ServeMux.
From Stdlib Require Import ZArith Lia List String Ascii Bool QArith.
From stdpp Require Import base gmap strings list sorting.

Open Scope Z_scope.

Record requestLogStore (S : Type) := mkStore {
  store_Ping : S -> option error;
  store_Add : S -> requestLogEntry -> option error * S;
  store_List : option (S -> requestLogListOptions -> result requestLogListPage);
  store_PruneBefore : option (S -> Time -> result Z * S);
  store_Stats : option (S -> DBStats);
}.
Arguments store_Ping {S} r s.
Arguments store_Add {S} r s entry.
Arguments store_List {S} r.
Arguments store_PruneBefore {S} r.
Arguments store_Stats {S} r.

(** ** What the endpoints answer with *)
Record tunnelSummary := mkTunnelSummary {
  ts_TunnelID : string; ts_Subdomain : string; ts_PublicURL : string; ts_Protocol : string;
  ts_ConnectedAt : Time;
}.
Record tunnelRequestSummary := mkRequestSummary {
  rs_Count : Z;
  LastRequestAt : option Time;
  LastStatus : Z;
  LastOutcome : string;
  LastRequestID : string;
  ErrorCount : Z;
  CustomDomains : list string;
}.
Record tunnelDetail := mkTunnelDetail {
  td_TunnelID : string; td_Subdomain : string; td_PublicURL : string; td_Protocol : string;
  td_AgentVersion : string; td_ProtocolVersion : string; td_ConnectedAt : Time;
  ConnectedSeconds : Z; td_ActiveStreams : Z; td_StreamCapacity : Z;
  RecentRequests : tunnelRequestSummary;
}.
Record runtimeLimits := mkLimits {
  rl_MaxBodyBytes : Z; rl_MaxConcurrentStreams : Z; rl_RateLimitRequestsPerSecond : Z;
  rl_RateLimitBurst : Z; rl_AuthAttemptLimit : Z; rl_AuthAttemptWindowSeconds : Z; rl_StreamChunkBytes : Z;
}.
Record runtimeTimeouts := mkTimeouts {
  ControlPlaneTimeoutSeconds : Z; ReadHeaderTimeoutSeconds : Z; ReadTimeoutSeconds : Z;
  WriteTimeoutSeconds : Z; IdleTimeoutSeconds : Z; HandshakeTimeoutSeconds : Z;
  StreamRequestTimeoutSeconds : Z; StreamIdleTimeoutSeconds : Z; StreamMaxLifetimeSeconds : Z;
  WebSocketWriteTimeoutSeconds : Z; WebSocketPingIntervalSeconds : Z; WebSocketPongTimeoutSeconds : Z;
  ShutdownTimeoutSeconds : Z;
}.
(** The counters are copied from the three records that keep them. *)
Record runtimeCounters := mkCounters {
  rc_public : publicMetrics; rc_lookups : lookupMetrics; rc_agent : agentMetrics;
}.
Record runtimeSummary := mkRuntimeSummary {
  StartedAt : Time; UptimeSeconds : Z; rt_RootDomain : string; rt_PublicURL : string;
  ControlPlaneConfigured : bool; ActiveTunnels : Z; ActiveStreams : Z; StreamCapacity : Z;
  RequestLogEntries : Z; RequestLogCapacity : Z;
  Limits : runtimeLimits; Timeouts : runtimeTimeouts; Counters : runtimeCounters;
}.
Record requestLogFiltersResponse := mkFiltersResponse {
  fr_Limit : Z; fr_Subdomain : string; fr_Method : string; fr_Host : string; fr_Path : string;
  fr_Status : Z; fr_Outcome : string; fr_RequestID : string; fr_TunnelID : string;
  fr_Since : string; fr_Until : string; fr_Cursor : string;
}.
Record requestLogsResponse := mkLogsResponse {
  lr_RequestLogs : list requestLogEntry; lr_NextCursor : string; lr_Filters : requestLogFiltersResponse;
}.

Inductive management_reply : Type :=
| PlainText (body : string)
| HTTPError (status : Z) (message : string) (headers : list (string * string))
| NotAllowed (allow : string)
| TunnelList (l : list tunnelSummary)
| TunnelDetail (d : tunnelDetail)
| RuntimeSummary (s : runtimeSummary)
| RequestLogsPage (p : requestLogsResponse)
| MetricsText (lines : list string)
| Redirected (path : string)
| NotFound.

Inductive endpoint : Type := Healthz | Readyz | EpTunnelDetail | EpTunnelList | EpRuntime | EpRequestLogs | EpMetrics.
#[export] Instance endpoint_eq_dec : EqDecision endpoint.
Proof. solve_decision. Defined.

Definition management_routes : list (string * endpoint) :=
  [("/healthz", Healthz); ("/readyz", Readyz); ("/api/v1/tunnels/", EpTunnelDetail);
   ("/api/v1/tunnels", EpTunnelList); ("/api/v1/runtime", EpRuntime);
   ("/api/v1/request-logs", EpRequestLogs); ("/metrics", EpMetrics)].

(** Every route but the two probes is wrapped in [requireManagementAuth]. *)
Definition guarded (e : endpoint) : bool :=
  match e with Healthz | Readyz => false | _ => true end.

(** ** Closing sessions *)
(** [session.close] and [session.closeNow]: both close the done channel; what
    the connection answered is an argument. *)
Definition close_session (l : liveSession) : liveSession := mkLive (tunnel l) (closeDone (agent l)).

(** How the wait of [closeSessions] ends: every [close] returned, with the
    errors of some, or the context is done first, by when some had failed, and
    every session is closed hard. *)
Inductive close_outcome : Type :=
| AllClosed (close_errs : gmap string error)
| ContextDone (close_errs closeNow_errs : gmap string error).

Definition close_warnings (event : string) (errs : gmap string error) (ids : list string) : list (string * string) :=
  (fun id => (event, id)) <$> List.filter (fun id => bool_decide (is_Some (errs !! id))) ids.

(** The table after [closeSessions] and the warnings it logged. *)
Definition closeSessions (s : Server) (out : close_outcome) : Server * list (string * string) :=
  let ids := (map_to_list (sessions s)).*1 in
  if bool_decide (ids = []) then (s, []) else
  (mkServer (registry s) (close_session <$> sessions s),
   match out with
   | AllClosed errs => close_warnings "gateway.tunnel_close_failed" errs ids
   | ContextDone errs now_errs =>
       close_warnings "gateway.tunnel_close_failed" errs ids ++
       close_warnings "gateway.tunnel_force_close_failed" now_errs ids
   end).

(** [startKeepalive] of a session: nothing when the interval is not positive;
    otherwise a ping per tick until one fails, which closes the session, or the
    keepalive is cancelled. *)
Inductive keepalive_event : Type := Tick (ping : option error) | Cancelled.
Fixpoint keepalive_loop (events : list keepalive_event) (l : liveSession) : liveSession * option (Z * string) :=
  match events with
  | [] => (l, None)
  | Cancelled :: _ => (l, None)
  | Tick None :: events => keepalive_loop events l
  | Tick (Some _) :: _ => (close_session l, Some (1001, "websocket keepalive failed"))
  end.
Definition startKeepalive (interval : Duration) (events : list keepalive_event) (l : liveSession)
    : liveSession * option (Z * string) :=
  if interval <=? 0 then (l, None) else keepalive_loop events l.

(** * The management server *)
Section management.
Context {U : GoUnicode} {NI : GoNetip} {H256 : SHA256} {F : Type} {FO : FloatOps F} {FT : FloatText F}.
Context {J : JSONCodec logCursor}.
Context (time_Parse : string -> option Time) (time_Format : Time -> string).
Context {S : Type} (store : requestLogStore S).

Record GatewayServer := mkGateway {
  cfg : Config;
  public : PublicState (F := F);
  agent_counters : agentMetrics;
  publicRequestDuration : Histogram F;
  startedAt : Time;
  requestLogStore_ : option S;
}.
Definition set_public (g : GatewayServer) (st : PublicState) : GatewayServer :=
  mkGateway (cfg g) st (agent_counters g) (publicRequestDuration g) (startedAt g) (requestLogStore_ g).
Definition set_logs (g : GatewayServer) (b : option requestLogBuffer) : GatewayServer :=
  let st := public g in
  set_public g (mkPublicState (srv st) (limiters st) (lookups st) (counters st) (throttle st) b).
Definition set_store (g : GatewayServer) (s : S) : GatewayServer :=
  mkGateway (cfg g) (public g) (agent_counters g) (publicRequestDuration g) (startedAt g) (Some s).

(** ** The request log *)
(** [ready]: the store answers a ping. *)
Definition ready (g : GatewayServer) : option error :=
  match requestLogStore_ g with
  | None => None
  | Some s => Wrap "request log store" <$> store_Ping store s
  end.

(** [recordRequestLog], with the error it warns about. *)
Definition recordRequestLog (g : GatewayServer) (entry : requestLogEntry) : GatewayServer * option error :=
  let g := set_logs g (add (request_logs (public g)) entry) in
  match requestLogStore_ g with
  | None => (g, None)
  | Some s => let '(err, s') := store_Add store s entry in (set_store g s', err)
  end.

Definition listRequestLogs (g : GatewayServer) (opts : requestLogListOptions)
    : option (result requestLogListPage) :=
  match requestLogStore_ g, store_List store with
  | Some s, Some reader => Some (reader s opts)
  | _, _ => page ← listPage (request_logs (public g)) opts; Some (Ok page)
  end.

(** [pruneRequestLogs] with the pruner that [startRequestLogPruner] picks: the
    count it logs, or the error. *)
Definition pruneRequestLogs (g : GatewayServer) (now : Time) : option (result Z * GatewayServer) :=
  let cutoff := now - RequestLogRetention (cfg g) in
  match requestLogStore_ g, store_PruneBefore store with
  | Some s, Some prune => let '(r, s') := prune s cutoff in Some (r, set_store g s')
  | _, _ =>
      '(n, b) ← PruneBefore (request_logs (public g)) cutoff; Some (Ok n, set_logs g b)
  end.

Definition pruner_enabled (c : Config) : bool :=
  (0 <? RequestLogRetention c) && (0 <? RequestLogPruneInterval c).

(** The goroutine of [startRequestLogPruner]: once at the start, then at each
    tick. *)
Fixpoint pruner_run (ticks : list Time) (g : GatewayServer) : option GatewayServer :=
  match ticks with
  | [] => Some g
  | now :: ticks => '(_, g') ← pruneRequestLogs g now; pruner_run ticks g'
  end.
Definition startRequestLogPruner (ticks : list Time) (g : GatewayServer) : option GatewayServer :=
  if negb (pruner_enabled (cfg g)) then Some g else pruner_run ticks g.

(** ** Summaries *)
Definition whole_seconds (d : Duration) : Z := f_trunc (Seconds (F := F) d).

(** The loop over the listed entries, newest first; the set of domains is
    collected apart. *)
Definition summarize (tunnelID : string) (acc : tunnelRequestSummary * gset string) (entry : requestLogEntry)
    : tunnelRequestSummary * gset string :=
  let '(summary, customDomains) := acc in
  if negb (String.eqb (entry_TunnelID entry) tunnelID) then (summary, customDomains) else
  let first := match LastRequestAt summary with None => true | Some _ => false end in
  (mkRequestSummary (rs_Count summary + 1)
     (if first then Some (entry_Time entry) else LastRequestAt summary)
     (if first then entry_Status entry else LastStatus summary)
     (if first then entry_Outcome entry else LastOutcome summary)
     (if first then entry_RequestID entry else LastRequestID summary)
     (if 500 <=? entry_Status entry then ErrorCount summary + 1 else ErrorCount summary)
     (CustomDomains summary),
   if negb (String.eqb (CustomDomain entry) "") then {[CustomDomain entry]} ∪ customDomains else customDomains).

Definition no_requests : tunnelRequestSummary := mkRequestSummary 0 None 0 "" "" 0 [].

Definition tunnelRequestSummary_of (g : GatewayServer) (tunnelID : string) : option tunnelRequestSummary :=
  logs ← list_ (request_logs (public g)) (RequestLogLimit (cfg g));
  let '(summary, customDomains) := foldl (summarize tunnelID) (no_requests, ∅) logs in
  Some (mkRequestSummary (rs_Count summary) (LastRequestAt summary) (LastStatus summary) (LastOutcome summary)
          (LastRequestID summary) (ErrorCount summary) (merge_sort string_le (elements customDomains))).

Definition tunnelDetail_of (g : GatewayServer) (l : liveSession) (now : Time) : option tunnelDetail :=
  let t := tunnel l in
  recent ← tunnelRequestSummary_of g (Registry.TunnelID t);
  Some (mkTunnelDetail (Registry.TunnelID t) (Registry.Subdomain t) (Registry.PublicURL t) (Registry.Protocol t)
          (Registry.AgentVersion t) (s_ProtocolVersion t) (CreatedAt t)
          (whole_seconds (time_Sub now (CreatedAt t))) (activeStreams (agent l)) (streamCapacity (agent l)) recent).

Definition runtimeSummary_of (g : GatewayServer) (now : Time) : runtimeSummary :=
  let c := cfg g in
  let st := public g in
  let '(active, cap) := streamStats (srv st) in
  {| StartedAt := startedAt g;
     UptimeSeconds := whole_seconds (time_Sub now (startedAt g));
     rt_RootDomain := RootDomain c;
     rt_PublicURL := Config.PublicURL c;
     ControlPlaneConfigured := negb (String.eqb (ControlPlaneURL c) "");
     ActiveTunnels := Registry.Count (registry (srv st));
     ActiveStreams := active;
     StreamCapacity := cap;
     RequestLogEntries := RequestLog.count (request_logs st);
     RequestLogCapacity := RequestLog.capacity (request_logs st);
     Limits := mkLimits (MaxBodyBytes c) (MaxConcurrentStreams c) (RateLimitRequestsPerSecond c)
       (RateLimitBurst c) (AuthAttemptLimit c) (whole_seconds (AuthAttemptWindow c)) (StreamChunkBytes c);
     Timeouts := mkTimeouts (whole_seconds (ControlPlaneTimeout c)) (whole_seconds (ReadHeaderTimeout c))
       (whole_seconds (ReadTimeout c)) (whole_seconds (WriteTimeout c)) (whole_seconds (IdleTimeout c))
       (whole_seconds (HandshakeTimeout c)) (whole_seconds (StreamRequestTimeout c))
       (whole_seconds (StreamIdleTimeout c)) (whole_seconds (StreamMaxLifetime c))
       (whole_seconds (WebSocketWriteTimeout c)) (whole_seconds (WebSocketPingInterval c))
       (whole_seconds (WebSocketPongTimeout c)) (whole_seconds (ShutdownTimeout c));
     Counters := mkCounters (counters st) (lookups st) (agent_counters g) |}.

Definition requestLogFiltersForResponse (opts : requestLogListOptions) (cursor : string)
    : requestLogFiltersResponse :=
  let f := Filter_ opts in
  mkFiltersResponse (normalizedRequestLogLimit (Limit opts)) (RequestLog.Subdomain f) (RequestLog.Method f)
    (RequestLog.Host f) (RequestLog.Path f) (RequestLog.Status f) (RequestLog.Outcome f)
    (RequestLog.RequestID f) (RequestLog.TunnelID f)
    (if IsZero (Since f) then "" else time_Format (Since f))
    (if IsZero (Until f) then "" else time_Format (Until f)) cursor.

(** ** The handlers *)
Definition MethodGet : string := "GET".
Definition only_get (r : HTTPRequest) (k : option management_reply) : option management_reply :=
  if negb (String.eqb (r_Method r) MethodGet) then Some (NotAllowed MethodGet) else k.

Definition handleTunnelList (g : GatewayServer) (r : HTTPRequest) : option management_reply :=
  only_get r (Some (TunnelList
    ((fun t => mkTunnelSummary (Registry.TunnelID t) (Registry.Subdomain t) (Registry.PublicURL t)
                 (Registry.Protocol t) (CreatedAt t)) <$> List_ (registry (srv (public g)))))).

Definition handleTunnelDetail (g : GatewayServer) (r : HTTPRequest) (now : Time) : option management_reply :=
  only_get r (
    match PathUnescape (TrimPrefix (r_Path r) "/api/v1/tunnels/") with
    | None => Some (HTTPError 400 "tunnel id is required" [])
    | Some tunnelID =>
        if String.eqb tunnelID "" || Contains tunnelID "/"
        then Some (HTTPError 400 "tunnel id is required" [])
        else match sessionByTunnelID (srv (public g)) tunnelID with
             | None => Some (HTTPError 404 "tunnel not found" [])
             | Some l => d ← tunnelDetail_of g l now; Some (TunnelDetail d)
             end
    end).

Definition handleRuntimeSummary (g : GatewayServer) (r : HTTPRequest) (now : Time) : option management_reply :=
  only_get r (Some (RuntimeSummary (runtimeSummary_of g now))).

(** [query] is [r.URL.Query().Get]. *)
Definition handleRequestLogs (g : GatewayServer) (r : HTTPRequest) (query : string -> string)
    : option management_reply :=
  only_get r (
    match requestLogListOptionsFromRequest time_Parse query (RequestLogLimit (cfg g)) with
    | Err e => Some (HTTPError 400 (error_message e) [])
    | Ok opts =>
        listed ← listRequestLogs g opts;
        match listed with
        | Err e => Some (HTTPError 500 ("list request logs: " +:+ error_message e) [])
        | Ok page =>
            Some (RequestLogsPage (mkLogsResponse (RequestLogs page) (NextCursor page)
                    (requestLogFiltersForResponse opts (TrimSpace (query "cursor")))))
        end
    end).

(** ** metrics.go *)
Definition writeMetric (name help metricType : string) (value : Z) : list string :=
  writeSample name help metricType value.

Definition gateway_samples (g : GatewayServer) (now : Time) : list string :=
  let p := counters (public g) in
  let q := lookups (public g) in
  let a := agent_counters g in
  writeMetric "porthook_gateway_active_tunnels" "Current active tunnel sessions."
    "gauge" (Registry.Count (registry (srv (public g)))) ++
  writeMetric "porthook_gateway_uptime_seconds" "Gateway process uptime in seconds."
    "gauge" (whole_seconds (time_Sub now (startedAt g))) ++
  writeMetric "porthook_gateway_public_requests_total" "Public HTTP requests handled by the gateway."
    "counter" (publicRequestsTotal p) ++
  writeMetric "porthook_gateway_public_request_errors_total" "Public HTTP requests that returned status >= 500."
    "counter" (publicRequestErrorsTotal p) ++
  writeMetric "porthook_gateway_public_request_rate_limited_total" "Public HTTP requests rejected by per-tunnel rate limits."
    "counter" (publicRequestRateLimitedTotal p) ++
  writeMetric "porthook_gateway_public_request_auth_attempts_limited_total" "Public HTTP requests rejected by bounded authentication-attempt protection."
    "counter" (publicRequestAuthAttemptsLimitedTotal p) ++
  writeMetric "porthook_gateway_public_request_timeouts_total" "Public HTTP requests that timed out waiting for the tunnel."
    "counter" (publicRequestTimeoutsTotal p) ++
  writeMetric "porthook_gateway_public_request_stream_idle_timeouts_total" "Public HTTP streams closed for exceeding the idle timeout."
    "counter" (publicRequestStreamIdleTimeoutsTotal p) ++
  writeMetric "porthook_gateway_public_request_stream_max_lifetime_total" "Public HTTP streams closed for exceeding their maximum lifetime."
    "counter" (publicRequestStreamMaxLifetimeTotal p) ++
  writeMetric "porthook_gateway_public_request_body_too_large_total" "Public HTTP requests rejected because the request body was too large."
    "counter" (publicRequestBodyTooLargeTotal p) ++
  writeMetric "porthook_gateway_public_request_client_canceled_total" "Public HTTP requests canceled by the client before completion."
    "counter" (publicRequestClientCanceledTotal p) ++
  writeMetric "porthook_gateway_public_request_no_active_session_total" "Public HTTP requests for hosts without an active tunnel session."
    "counter" (publicRequestNoActiveSessionTotal p) ++
  writeMetric "porthook_gateway_public_request_access_denied_total" "Public HTTP requests rejected by tunnel access policy."
    "counter" (publicRequestAccessDeniedTotal p) ++
  writeMetric "porthook_gateway_public_request_access_policy_errors_total" "Public HTTP requests that could not evaluate tunnel access policy."
    "counter" (publicRequestAccessPolicyErrorsTotal p) ++
  writeMetric "porthook_gateway_custom_domain_lookups_total" "Custom domain lookups attempted by the gateway."
    "counter" (Routing.customDomainLookupsTotal q) ++
  writeMetric "porthook_gateway_custom_domain_lookup_hits_total" "Custom domain lookups that found a tunnel route."
    "counter" (Routing.customDomainLookupHitsTotal q) ++
  writeMetric "porthook_gateway_custom_domain_lookup_misses_total" "Custom domain lookups that did not find a tunnel route."
    "counter" (Routing.customDomainLookupMissesTotal q) ++
  writeMetric "porthook_gateway_custom_domain_lookup_errors_total" "Custom domain lookups that failed before producing a route."
    "counter" (Routing.customDomainLookupErrorsTotal q) ++
  writeMetric "porthook_gateway_token_validations_total" "Agent token validation attempts."
    "counter" (Tunnels.tokenValidationsTotal a) ++
  writeMetric "porthook_gateway_token_validation_errors_total" "Agent token validation attempts that failed before a valid/invalid result."
    "counter" (Tunnels.tokenValidationErrorsTotal a) ++
  writeMetric "porthook_gateway_auth_failures_total" "Agent authentication failures."
    "counter" (Tunnels.authFailuresTotal a) ++
  writeMetric "porthook_gateway_tunnel_registrations_total" "Successful tunnel registrations."
    "counter" (Tunnels.tunnelRegistrationsTotal a) ++
  writeMetric "porthook_gateway_tunnel_registration_failures_total" "Tunnel registration attempts that failed after agent authentication."
    "counter" (Tunnels.tunnelRegistrationFailuresTotal a).

Definition handleMetrics (g : GatewayServer) (r : HTTPRequest) (now : Time) (rt : runtimeStats)
    : option management_reply :=
  only_get r (Some (MetricsText (
    gateway_samples g now ++
    WriteTo (publicRequestDuration g) "porthook_gateway_public_request_duration_seconds"
      "Public HTTP request duration in seconds." ++
    WriteRuntimeStats "porthook_gateway" rt ++
    match requestLogStore_ g, store_Stats store with
    | Some s, Some stats => WriteDBPoolStats "porthook_gateway" (stats s)
    | _, _ => []
    end))).

(** [recordPublicRequestMetrics] as a whole: the counters and the duration. *)
Definition recordPublicRequest (g : GatewayServer) (status : Z) (outcome : string) (duration : Duration)
    : GatewayServer :=
  let st := public g in
  mkGateway (cfg g)
    (mkPublicState (srv st) (limiters st) (lookups st) (recordPublicRequestMetrics (counters st) status outcome)
       (throttle st) (request_logs st))
    (agent_counters g) (Observe (publicRequestDuration g) duration) (startedAt g) (requestLogStore_ g).

(** ** The handler *)
Definition requireManagementAuth (g : GatewayServer) (r : HTTPRequest) (next : option management_reply)
    : option management_reply :=
  if String.eqb (ManagementToken (cfg g)) "" then next
  else if negb (secretEqual (request_bearerToken (r_Header r)) (ManagementToken (cfg g)))
  then Some (HTTPError 401 "unauthorized"
         [("WWW-Authenticate", "Bearer realm=" +:+ quote_char +:+ "Porthook gateway management" +:+ quote_char)%string])
  else next.

(** What one management request meets: the clock, the runtime and the query. *)
Record visit := mkVisit { visit_now : Time; visit_runtime : runtimeStats; visit_query : string -> string }.

Definition serve (g : GatewayServer) (r : HTTPRequest) (v : visit) (e : endpoint) : option management_reply :=
  match e with
  | Healthz => Some (PlainText ("ok" +:+ newline))
  | Readyz =>
      match ready g with
      | Some e => Some (HTTPError 503 ("not ready: " +:+ error_message e) [])
      | None => Some (PlainText ("ready" +:+ newline))
      end
  | EpTunnelDetail => handleTunnelDetail g r (visit_now v)
  | EpTunnelList => handleTunnelList g r
  | EpRuntime => handleRuntimeSummary g r (visit_now v)
  | EpRequestLogs => handleRequestLogs g r (visit_query v)
  | EpMetrics => handleMetrics g r (visit_now v) (visit_runtime v)
  end.

Definition ManagementHandler (g : GatewayServer) (r : HTTPRequest) (v : visit) : option management_reply :=
  match mux_lookup management_routes (r_Path r) with
  | NotFoundPage => Some NotFound
  | RedirectTo path => Some (Redirected path)
  | Serve e => if guarded e then requireManagementAuth g r (serve g r v e) else serve g r v e
  end.
End management.

(** * Construction *)
Section construction.
Context {U : GoUnicode} {NI : GoNetip} {H256 : SHA256} {GU : GoURL} {F : Type} {FO : FloatOps F}.
Context {JVT : JSONCodec validateTokenRequest} {JVR : JSONCodec validateTokenResponse}
  {JAR : JSONCodec authorizeReservedSubdomainRequest} {JAZ : JSONCodec reservedSubdomainAuthorization}
  {JEQ : JSONCodec accessPolicyEvaluationRequest} {JER : JSONCodec accessPolicyEvaluation}
  {JLQ : JSONCodec lookupCustomDomainRequest} {JLR : JSONCodec customDomainResolution}.
Context (http_Post : string -> string -> bytes -> result (Z * bytes)).

(** [newServerWithRequestLogWriter]: the server, its backends and resolver,
    and the events of the warnings. *)
Definition newServerWithRequestLogWriter {S : Type} (c : Config) (requestLogStore : option S) (now : Time)
    : GatewayServer (F := F) (S := S) * Backends * Resolver * list string :=
  let c := normalizeConfig c in
  let B := new_backends http_Post (ControlPlaneURL c) (ControlPlaneToken c) (StaticToken c) in
  let client_events :=
    if String.eqb (TrimSpace (ControlPlaneURL c)) "" then []
    else match newControlPlaneClient (ControlPlaneURL c) (ControlPlaneToken c) with
         | Ok _ => []
         | Err _ => ["gateway.token_validator_config_failed"; "gateway.reserved_authorizer_config_failed";
                     "gateway.access_policy_evaluator_config_failed"; "gateway.custom_domain_resolver_config_failed"]
         end in
  let '(proxies, proxy_events) :=
    match ParseTrustedProxies (TrustedProxies c) with
    | Ok proxies => (proxies, [])
    | Err _ => ([], ["gateway.trusted_proxy_config_failed"%string])
    end in
  let st := mkPublicState (mkServer Registry.New ∅) ∅ (mkLookupMetrics 0 0 0 0)
              (mkPublicMetrics 0 0 0 0 0 0 0 0 0 0 0 0)
              (Some (newAuthAttemptThrottle (AuthAttemptLimit c) (AuthAttemptWindow c)))
              (Some (newRequestLogBuffer (RequestLogLimit c))) in
  (mkGateway c st (mkAgentMetrics 0 0 0 0 0) (NewHistogram DefaultLatencyBuckets) now requestLogStore,
   B, ClientIP.New proxies, client_events ++ proxy_events).

Definition NewServer (c : Config) (now : Time) :=
  newServerWithRequestLogWriter (S := Empty_set) c None now.
Definition NewServerWithRequestLogStore {S : Type} (c : Config) (requestLogStore : option S) (now : Time) :=
  match requestLogStore with
  | None => newServerWithRequestLogWriter (S := S) c None now
  | Some s => newServerWithRequestLogWriter c (Some s) now
  end.
End construction.

(** * Properties *)
Section management_token.
Context {U : GoUnicode} {NI : GoNetip} {H256 : SHA256} {F : Type} {FO : FloatOps F} {FT : FloatText F}.
Context {J : JSONCodec logCursor}.
Context (time_Parse : string -> option Time) (time_Format : Time -> string).
Context {S : Type} (store : requestLogStore S).
Abbreviation handler := (ManagementHandler time_Parse time_Format store).
Implicit Types g : GatewayServer (F := F) (S := S).

(** ** The token *)
Definition authorized g (r : HTTPRequest) : bool :=
  String.eqb (ManagementToken (cfg g)) "" ||
  secretEqual (request_bearerToken (r_Header r)) (ManagementToken (cfg g)).

Lemma requireManagementAuth_eq g r next :
  requireManagementAuth g r next =
  if authorized g r then next
  else Some (HTTPError 401 "unauthorized"
         [("WWW-Authenticate", "Bearer realm=" +:+ quote_char +:+ "Porthook gateway management" +:+ quote_char)%string]).
Proof.
  unfold requireManagementAuth, authorized.
  by destruct (ManagementToken (cfg g) =? "")%string, (secretEqual _ _).
Qed.

(** C18: the management API tells a caller without the configured token
    nothing about the gateway: two gateways with the same configuration and
    readiness give such a caller the same answer, whatever tunnels, streams,
    logs and counters they hold; with the token, or when none is configured,
    the endpoint of the path answers. *)
Theorem management_reveals_nothing g r v :
  (authorized g r = false ->
   forall g' v', cfg g' = cfg g -> ready store g' = ready store g -> handler g' r v' = handler g r v) /\
  (authorized g r = true ->
   forall e, mux_lookup management_routes (r_Path r) = Serve e ->
   handler g r v = serve time_Parse time_Format store g r v e).
Proof.
  unfold ManagementHandler. split.
  - intros Ha g' v' Hc Hr. destruct (mux_lookup _ _) as [e|p|]; [|done..].
    assert (Ha' : authorized g' r = false) by (unfold authorized in *; by rewrite Hc).
    rewrite !requireManagementAuth_eq, Ha, Ha'.
    destruct e; cbn [guarded serve]; [done|by rewrite Hr|done..].
  - intros Ha e ->. rewrite requireManagementAuth_eq, Ha. by destruct (guarded e).
Qed.

End management_token.

Section management_properties.
Context {U : GoUnicode} {F : Type} {FO : FloatOps F} {FT : FloatText F} {J : JSONCodec logCursor}.
Context {S : Type} (store : requestLogStore S).
Implicit Types g : GatewayServer (F := F) (S := S).

(** ** The summary of a tunnel's requests *)
Definition of_tunnel (id : string) (l : list requestLogEntry) : list requestLogEntry :=
  List.filter (fun e => String.eqb (entry_TunnelID e) id) l.
Definition failures (l : list requestLogEntry) : list requestLogEntry :=
  List.filter (fun e => 500 <=? entry_Status e) l.

Lemma domains_step d (D : gset string) e (mine : list requestLogEntry) :
  d ∈ (if negb (String.eqb (CustomDomain e) "") then {[CustomDomain e]} ∪ D else D) \/
    (d <> "" /\ exists x, x ∈ mine /\ CustomDomain x = d) <->
  d ∈ D \/ (d <> "" /\ exists x, x ∈ e :: mine /\ CustomDomain x = d).
Proof.
  setoid_rewrite elem_of_cons.
  destruct (String.eqb_spec (CustomDomain e) ""); cbn [negb]; [naive_solver|].
  rewrite elem_of_union, elem_of_singleton. naive_solver.
Qed.

Lemma summarize_spec id logs s D s' D' :
  foldl (summarize id) (s, D) logs = (s', D') ->
  let mine := of_tunnel id logs in
  let first {A} (field : requestLogEntry -> A) (old : A) :=
    match LastRequestAt s with Some _ => old | None => default old (field <$> head mine) end in
  rs_Count s' = rs_Count s + length_Z mine /\
  ErrorCount s' = ErrorCount s + length_Z (failures mine) /\
  LastRequestAt s' = first (fun e => Some (entry_Time e)) (LastRequestAt s) /\
  LastStatus s' = first entry_Status (LastStatus s) /\
  LastOutcome s' = first entry_Outcome (LastOutcome s) /\
  LastRequestID s' = first entry_RequestID (LastRequestID s) /\
  (forall d, d ∈ D' <-> d ∈ D \/ (d <> "" /\ exists e, e ∈ mine /\ CustomDomain e = d)).
Proof.
  revert s D. induction logs as [|e logs IH]; intros s D; cbn [foldl].
  { intros [= <- <-]. cbv zeta. unfold failures, of_tunnel, length_Z. cbn. destruct (LastRequestAt s); (split; [lia|]; split; [lia|]; do 4 (split; [done|]));
      intros d; setoid_rewrite elem_of_nil; naive_solver. }
  cbv zeta. unfold summarize at 2. unfold of_tunnel. cbn [List.filter].
  destruct (entry_TunnelID e =? id)%string; cbn [negb]; [|apply IH].
  intros (Hc & He & H1 & H2 & H3 & H4 & Hd)%IH. cbn [rs_Count ErrorCount LastRequestAt LastStatus LastOutcome LastRequestID] in *.
  unfold failures, length_Z. cbn [List.filter head fmap option_fmap option_map default from_option].
  split; [unfold length_Z, of_tunnel in *; cbn [length]; lia|].
  split; [unfold length_Z, of_tunnel, failures in *; destruct (500 <=? entry_Status e); cbn [length]; lia|].
  destruct (LastRequestAt s) as [t|] eqn:El; (split; [done|]); (split; [done|]); (split; [done|]); (split; [done|]);
    intros d; rewrite Hd; apply domains_step.
Qed.

Lemma list_newest b limit :
  wf b -> entries b <> [] -> 0 < limit ->
  list_ (Some b) limit = Some (take (Z.to_nat (normalizedRequestLogLimit limit)) (newest b)).
Proof.
  intros Hw Hne Hl. unfold list_.
  destruct (list_page_spec b (mkListOptions limit no_filter no_cursor) Hw Hne) as (page & -> & Hp & _).
  { unfold normalizedRequestLogLimit, defaultRequestLogLimit, maxRequestLogLimit. cbn [Limit].
    destruct (Z.ltb_spec limit 0), (Z.ltb_spec 1000 limit); lia. }
  cbn [mbind option_bind]. rewrite Hp. unfold selected. f_equal. f_equal.
  rewrite (List.filter_ext _ (fun _ => true)) by done. clear.
  induction (newest b) as [|e l IH]; [done|]. cbn. by rewrite IH.
Qed.

(** The recent requests of a tunnel's detail are exactly what the newest
    entries of the request log say about that tunnel: how many they are, the
    time, status, outcome and id of its latest one, how many ended in a server
    error, and its custom domains, each once and sorted. *)
Lemma tunnel_summary_exact g b id :
  request_logs (public g) = Some b -> wf b -> entries b <> [] -> 0 < RequestLogLimit (cfg g) ->
  let mine := of_tunnel id (take (Z.to_nat (normalizedRequestLogLimit (RequestLogLimit (cfg g)))) (newest b)) in
  exists s, tunnelRequestSummary_of g id = Some s /\
    rs_Count s = length_Z mine /\
    ErrorCount s = length_Z (failures mine) /\
    LastRequestAt s = entry_Time <$> head mine /\
    LastStatus s = default 0 (entry_Status <$> head mine) /\
    LastOutcome s = default ""%string (entry_Outcome <$> head mine) /\
    LastRequestID s = default ""%string (entry_RequestID <$> head mine) /\
    Sorted string_le (CustomDomains s) /\ NoDup (CustomDomains s) /\
    (forall d, d ∈ CustomDomains s <-> d <> ""%string /\ exists e, e ∈ mine /\ CustomDomain e = d).
Proof.
  intros Hb Hw Hne Hl mine. unfold tunnelRequestSummary_of. rewrite Hb, list_newest by done.
  cbn [mbind option_bind]. destruct (foldl _ _ _) as [s D] eqn:E.
  destruct (summarize_spec id _ _ _ _ _ E) as (Hc & He & H1 & H2 & H3 & H4 & Hd). fold mine in Hc, He, H1, H2, H3, H4, Hd.
  eexists. split; [done|]. cbn [rs_Count ErrorCount LastRequestAt LastStatus LastOutcome LastRequestID CustomDomains no_requests] in *.
  split; [lia|]. split; [lia|]. split; [rewrite H1; by destruct (head mine)|].
  do 3 (split; [done|]). split; [apply (Sorted_merge_sort string_le)|].
  split; [rewrite (merge_sort_Permutation string_le); apply NoDup_elements|].
  intros d. rewrite (merge_sort_Permutation string_le), elem_of_elements, Hd. set_solver.
Qed.

(** ** Lists, details and totals agree *)
Lemma stream_stats_bounds (s : Server) :
  map_Forall (fun _ l => slots_ok (agent l)) (sessions s) ->
  0 <= (streamStats s).1 <= (streamStats s).2.
Proof.
  unfold streamStats.
  apply (map_fold_weak_ind (fun r m => map_Forall (fun _ l => slots_ok (agent l)) m -> 0 <= r.1 <= r.2)); [done|].
  intros i l m [active cap] Hi IH [Hl Hm]%map_Forall_insert; [|done]. specialize (IH Hm). cbn [fst snd] in *.
  unfold slots_ok, activeStreams, streamCapacity in *. destruct (streams (agent l)) as [[c u]|]; lia.
Qed.

Definition summary_of (t : Registry.Session) : tunnelSummary :=
  mkTunnelSummary (Registry.TunnelID t) (Registry.Subdomain t) (Registry.PublicURL t) (Registry.Protocol t) (CreatedAt t).

Lemma listed_ids reg : consistent reg -> NoDup (ts_TunnelID <$> (summary_of <$> List_ reg)).
Proof.
  intros Hc. unfold List_. rewrite <- !list_fmap_compose.
  rewrite (list_fmap_ext (A := string * Registry.Session) _ fst); [apply NoDup_fst_map_to_list|].
  intros i [id t] Hi. cbn. apply (by_tunnel _ Hc).
  apply elem_of_map_to_list. by eapply list_elem_of_lookup_2.
Qed.

(** The management endpoints agree with each other in every reachable
    state of the session table: a tunnel is listed once, the runtime summary
    counts exactly the listed tunnels and never more streams than the sessions
    have slots for, and a tunnel whose detail is served is in the list with
    the same names and times. *)
Lemma management_agrees g r l now :
  server_reachable (srv (public g)) ->
  map_Forall (fun _ l => slots_ok (agent l)) (sessions (srv (public g))) ->
  handleTunnelList g r = Some (TunnelList l) ->
  NoDup (ts_TunnelID <$> l) /\
  ActiveTunnels (runtimeSummary_of g now) = length_Z l /\
  0 <= ActiveStreams (runtimeSummary_of g now) <= StreamCapacity (runtimeSummary_of g now) /\
  (forall r' d, handleTunnelDetail g r' now = Some (TunnelDetail d) ->
   exists s, s ∈ l /\ ts_TunnelID s = td_TunnelID d /\ ts_Subdomain s = td_Subdomain d /\
     ts_PublicURL s = td_PublicURL d /\ ts_Protocol s = td_Protocol d /\ ts_ConnectedAt s = td_ConnectedAt d).
Proof.
  intros [Hc Hs]%server_reachable_ok Hslots Hl. unfold handleTunnelList, only_get in Hl.
  destruct (negb _); [done|]. injection Hl as <-.
  change (fun t => mkTunnelSummary _ _ _ _ _) with summary_of.
  split; [by apply listed_ids|]. unfold runtimeSummary_of.
  pose proof (stream_stats_bounds _ Hslots) as Hb. destruct (streamStats _) as [active cap].
  cbn [ActiveTunnels ActiveStreams StreamCapacity fst snd] in *.
  split; [|split; [done|]].
  { unfold Registry.Count, List_, length_Z. by rewrite !length_fmap, length_map_to_list. }
  intros r' d. unfold handleTunnelDetail, only_get.
  destruct (negb _); [done|]. destruct (PathUnescape _) as [id|]; [|done].
  destruct (String.eqb id "" || Contains id "/")%bool; [done|].
  unfold sessionByTunnelID. destruct (sessions _ !! id) as [live|] eqn:E; [|done].
  destruct (Hs id live E) as [_ Hreg]. unfold tunnelDetail_of.
  destruct (tunnelRequestSummary_of g _) as [recent|]; [|done]. cbn [mbind option_bind]. intros [= <-].
  exists (summary_of (tunnel live)). split; [|done].
  apply list_elem_of_fmap_2. unfold List_. apply (list_elem_of_fmap_2 snd _ (id, tunnel live)).
  by apply elem_of_map_to_list.
Qed.

(** ** Retention and shutdown *)
(** Whatever the store answers, an entry is in memory once it is recorded. *)
Lemma recorded_in_memory g b entry :
  request_logs (public g) = Some b -> wf b -> entries b <> [] ->
  exists b', request_logs (public (recordRequestLog store g entry).1) = Some b' /\ wf b' /\
    last (contents b') = Some (stamped b entry).
Proof.
  intros Hb Hw Hne. destruct (add_contents b entry Hw Hne) as (Hw' & Hl & Hc & _).
  exists (ring_add b entry). split; [|split; [done|]].
  - unfold recordRequestLog. destruct (requestLogStore_ _); [destruct (store_Add _ _ _)|]; cbn; by rewrite Hb.
  - rewrite Hc. unfold lastn. rewrite length_app. cbn [length].
    destruct (entries b); [done|]. cbn [length]. rewrite drop_app_le by lia. apply last_snoc.
Qed.

(** With the log in memory, each run of the pruner leaves exactly the entries
    that are not older than the retention, in order. *)
Lemma pruner_keeps_recent g b now :
  request_logs (public g) = Some b -> wf b -> entries b <> [] -> requestLogStore_ g = None ->
  now <> RequestLogRetention (cfg g) ->
  exists n b', pruneRequestLogs store g now = Some (Ok n, set_logs g (Some b')) /\ wf b' /\
    contents b' = List.filter (keep (now - RequestLogRetention (cfg g))) (contents b) /\
    n = length_Z (contents b) - length_Z (contents b').
Proof.
  intros Hb Hw Hne Hs Hnow. unfold pruneRequestLogs. rewrite Hs, Hb. cbn [PruneBefore].
  destruct (prune_contents b (now - RequestLogRetention (cfg g)) Hw Hne) as (b' & -> & Hw' & _ & _ & Hc).
  { unfold IsZero. lia. }
  cbn [mbind option_bind]. by exists (length_Z (contents b) - length_Z (contents b')), b'.
Qed.

(** After a shutdown no session accepts another stream. *)
Lemma closed_sessions_refuse s out id l :
  sessions (closeSessions s out).1 !! id = Some l -> fst (acquireStream (agent l)) = Err agent_disconnected.
Proof.
  unfold closeSessions. destruct (bool_decide_reflect ((map_to_list (sessions s)).*1 = [])) as [E|_]; cbn [fst sessions].
  - apply fmap_nil_inv, map_to_list_empty_iff in E. by rewrite E.
  - rewrite lookup_fmap. intros (l0 & _ & ->)%fmap_Some. done.
Qed.
End management_properties.

(** * Witnesses *)
Module Witness_management.
#[local] Instance unicode : GoUnicode := ascii_case.
#[local] Instance netip : GoNetip := text_netip.
#[local] Instance float : FloatOps Q := exact.
#[local] Instance float_text : FloatText Q := {| FormatFloat _ := "0"; f_trunc q := Z.quot (Qnum q) (Zpos (Qden q)) |}.
#[local] Instance sha : SHA256 := {| Sum256 s := to_bytes s |}.
#[local] Instance cursor_codec : JSONCodec logCursor := countable_codec.
Definition no_store : requestLogStore unit :=
  mkStore unit (fun _ => None) (fun s _ => (None, s)) None None None.

Definition entry (n status : Z) (tunnel domain : string) : requestLogEntry :=
  mkEntry 0 n "GET" "demo.example.test" "/" false "203.0.113.9" (Itoa n) "demo" domain tunnel "str_1" status "ok" 0 0 0 "".
Definition log : requestLogBuffer :=
  foldl ring_add (newRequestLogBuffer 4)
    [entry 1 200 "tun_1" "old.test"; entry 2 502 "tun_1" "b.test"; entry 3 200 "tun_2" "c.test";
     entry 4 200 "tun_1" "a.test"; entry 5 200 "tun_1" "b.test"].
Definition live : liveSession := mkLive Witness_tunnels.t1 (newAgentSession "tun_1" 4).
Definition srv0 : Server :=
  addSession (mkServer (snd (Register Registry.New (Some Witness_tunnels.t1))) ∅) live.
Definition gateway (token : string) : GatewayServer (F := Q) (S := unit) :=
  let c := ConfigFromEnv (D := {| ParseDuration _ := None |})
             (fun name => if String.eqb name "PORTHOOK_MANAGEMENT_TOKEN" then token else "")%string in
  mkGateway c (mkPublicState srv0 ∅ (mkLookupMetrics 0 0 0 0) (mkPublicMetrics 5 1 0 0 0 0 0 0 0 0 0 0) None (Some log))
    (mkAgentMetrics 1 0 0 1 0) (NewHistogram DefaultLatencyBuckets) 1 None.
Definition get (path token : string) : HTTPRequest :=
  mkHTTPRequest "GET" "gateway" path "" (Header_Set ∅ "Authorization" ("Bearer " +:+ token)) false 0 "192.0.2.7:1" [] "".

Lemma log_wf : wf log /\ entries log <> [].
Proof.
  split; [|by vm_compute].
  apply (logged_spec (Entry := requestLogEntry) 4
    [entry 1 200 "tun_1" "old.test"; entry 2 502 "tun_1" "b.test"; entry 3 200 "tun_2" "c.test";
     entry 4 200 "tun_1" "a.test"; entry 5 200 "tun_1" "b.test"]); first [by vm_compute|by repeat constructor].
Qed.

(** The oldest entry has left the log of four, so its domain is not listed. *)
Lemma tunnel_summary_exact_witness :
  exists s, tunnelRequestSummary_of (gateway "t") "tun_1" = Some s /\
    rs_Count s = 3 /\ ErrorCount s = 1 /\ LastRequestAt s = Some 5 /\ CustomDomains s = ["a.test"; "b.test"]%string.
Proof.
  destruct (tunnel_summary_exact (gateway "t") log "tun_1" eq_refl (proj1 log_wf) (proj2 log_wf) ltac:(by vm_compute))
    as (s & Hs & Hc & He & H1 & _).
  exists s. split; [exact Hs|]. split; [rewrite Hc; by vm_compute|]. split; [rewrite He; by vm_compute|].
  split; [rewrite H1; by vm_compute|]. vm_compute in Hs. injection Hs as <-. done.
Defined.

Lemma management_agrees_witness :
  exists l, handleTunnelList (gateway "t") (get "/api/v1/tunnels" "t") = Some (TunnelList l) /\
    ActiveTunnels (runtimeSummary_of (gateway "t") 9) = length_Z l /\
    (forall d, handleTunnelDetail (gateway "t") (get "/api/v1/tunnels/tun%5F1" "t") 9 = Some (TunnelDetail d) ->
     exists s, s ∈ l /\ ts_TunnelID s = td_TunnelID d).
Proof.
  eexists. split; [reflexivity|].
  assert (Hr : server_reachable srv0).
  { eapply rtc_l; [by apply (srv_register (mkServer Registry.New ∅) Witness_tunnels.t1)|].
    eapply rtc_l; [by apply (srv_add _ live)|]. apply rtc_refl. }
  assert (Hs : map_Forall (fun _ l => slots_ok (agent l)) (sessions srv0)).
  { apply map_Forall_insert_2; [by vm_compute|apply map_Forall_empty]. }
  destruct (management_agrees (gateway "t") (get "/api/v1/tunnels" "t") _ 9 Hr Hs eq_refl) as (_ & H1 & _ & H2).
  split; [exact H1|]. intros d Hd. destruct (H2 _ d Hd) as (s & Hs' & Hid & _). exists s. split; [exact Hs'|exact Hid].
Defined.

(** Without the token the log is not shown; with it the tunnel is. *)
Lemma management_reveals_nothing_witness :
  (forall g', cfg g' = cfg (gateway "t") -> ready no_store g' = None -> forall v v',
   ManagementHandler (fun _ => None) Itoa no_store g' (get "/api/v1/request-logs" "x") v' =
   ManagementHandler (fun _ => None) Itoa no_store (gateway "t") (get "/api/v1/request-logs" "x") v) /\
  (forall v, ManagementHandler (fun _ => None) Itoa no_store (gateway "t") (get "/api/v1/tunnels/" "t") v =
   Some (HTTPError 400 "tunnel id is required" [])).
Proof.
  split.
  - intros g' Hc Hr v v'.
    apply (management_reveals_nothing (fun _ => None) Itoa no_store (gateway "t") (get "/api/v1/request-logs" "x") v);
      [by vm_compute|exact Hc|exact Hr].
  - intros v. rewrite (proj2 (management_reveals_nothing (fun _ => None) Itoa no_store (gateway "t")
      (get "/api/v1/tunnels/" "t") v) ltac:(by vm_compute) EpTunnelDetail ltac:(by vm_compute)). by vm_compute.
Defined.
End Witness_management.
