(* ===== verification/Stores.v ===== *)
(** What the control plane's packages share: the secrets they draw, the hashes
    they keep, the lists of scopes, and stores with two indexes.

    Every in-memory store of server/control-plane/internal keeps its records
    by id, and a second map from another key (a hash, a name, a hostname) to
    the id.  [indexed] is the invariant that ties the two maps together; its
    lemmas are used by the five stores. *)
From S2P Require Import Prelude GoStrings Base64 ControlPlaneClient.
From Stdlib Require Import ZArith Lia List String Ascii Bool.
From stdpp Require Import base gmap strings list.

Open Scope Z_scope.

(** * crypto/rand and encoding/hex *)

(** [rand.Read] of the process: one element per call, [None] when it fails. *)
Abbreviation secretReader := (list (option bytes)) (only parsing).
Definition rand_Read (n : nat) (r : secretReader) : result bytes * secretReader :=
  match r with
  | Some d :: r' => (Ok (take n (d ++ repeat zero n)), r')
  | None :: r' => (Err (Errorf "rand: read failed"), r')
  | [] => (Err (Errorf "rand: reader exhausted"), [])
  end.

Lemma rand_Read_length n r d r' : rand_Read n r = (Ok d, r') -> length d = n.
Proof.
  unfold rand_Read. destruct r as [|[x|] r]; [done| |done]. intros H. injection H as H _. subst d.
  rewrite length_take, length_app, repeat_length. lia.
Qed.

(** [prefix + base64.RawURLEncoding.EncodeToString(data)] of fresh bytes. *)
Definition random_secret (failure prefix : string) (bytesLen : nat) (r : secretReader)
    : result string * secretReader :=
  match rand_Read bytesLen r with
  | (Err e, r') => (Err (Wrap failure e), r')
  | (Ok data, r') => (Ok (prefix +:+ RawURLEncode data), r')
  end.

Definition hex_EncodeToString (l : bytes) : string :=
  of_bytes (concat (map (fun c => [hex_digit (byte c / 16); hex_digit (byte c mod 16)]) l)).
Definition sha256_hex {H : SHA256} (s : string) : string := hex_EncodeToString (Sum256 s).

(** * Lists of scopes *)

(** The loop both token packages run over requested scopes: trimmed, known,
    each kept once, in order. *)
Fixpoint scopes_loop (known : list string) (unsupported : string -> error)
    (seen scopes : list string) : result (list string) :=
  match scopes with
  | [] => Ok []
  | scope :: rest =>
      let scope := TrimSpace scope in
      if String.eqb scope "" then scopes_loop known unsupported seen rest
      else if negb (bool_decide (scope ∈ known)) then Err (unsupported scope)
      else if bool_decide (scope ∈ seen) then scopes_loop known unsupported seen rest
      else try out <- scopes_loop known unsupported (scope :: seen) rest; Ok (scope :: out)
  end.

(** Requested scopes that are legal. *)
Definition legal_scopes (known scopes : list string) : Prop :=
  NoDup scopes /\ Forall (fun s => s ∈ known /\ s <> ""%string) scopes.

Lemma scopes_loop_ok known unsupported seen scopes out :
  scopes_loop known unsupported seen scopes = Ok out ->
  legal_scopes known out /\ Forall (fun s => s ∉ seen) out.
Proof.
  revert seen out. induction scopes as [|scope scopes IH]; intros seen out; cbn [scopes_loop].
  { intros [= <-]. repeat split; constructor. }
  cbv zeta. destruct (String.eqb_spec (TrimSpace scope) "") as [|Hne]; [apply IH|].
  case_bool_decide as Hk; cbn [negb]; [|done].
  case_bool_decide as Hs; [apply IH|].
  intros H. apply rbind_ok in H as (rest & H & [= <-]). apply IH in H as [[Hn Hf] Hr].
  repeat split.
  - constructor; [|done]. intros Hin. rewrite Forall_forall in Hr. apply (Hr _ Hin). by left.
  - by constructor.
  - constructor; [done|]. eapply Forall_impl; [exact Hr|]. set_solver.
Qed.

(** Known scopes, given plainly, are accepted as they are. *)
Lemma scopes_loop_id known unsupported seen scopes :
  Forall (fun s => TrimSpace s = s) known -> legal_scopes known scopes ->
  Forall (fun s => s ∉ seen) scopes ->
  scopes_loop known unsupported seen scopes = Ok scopes.
Proof.
  intros Hk. revert seen. induction scopes as [|s scopes IH]; intros seen [Hn Hf] Hs; [done|].
  apply Forall_cons in Hf as [[Hin Hne] Hf]. apply Forall_cons in Hs as [Hs Hss].
  apply NoDup_cons in Hn as [Hn1 Hn]. cbn [scopes_loop]. cbv zeta.
  rewrite (proj1 (Forall_forall _ _) Hk s Hin).
  destruct (String.eqb_spec s ""); [done|]. rewrite (bool_decide_true (s ∈ known)) by done.
  cbn [negb]. rewrite bool_decide_false by done. rewrite IH; [done|by split|].
  rewrite Forall_forall in *. intros x Hx [->|Hx']%elem_of_cons; [done|]. by apply (Hss x).
Qed.

(** * Stores with two indexes *)
Section index.
Context {R : Type} (rid rkey : R -> string).

Record indexed (byID : gmap string R) (byKey : gmap string string) : Prop := {
  idx_id : forall i r, byID !! i = Some r -> rid r = i /\ byKey !! rkey r = Some i;
  idx_key : forall k i, byKey !! k = Some i -> exists r, byID !! i = Some r /\ rkey r = k;
}.

(** Looking a key up through both maps. *)
Definition find_by (byID : gmap string R) (byKey : gmap string string) (k : string) : option R :=
  match byKey !! k with
  | None => None
  | Some i => byID !! i
  end.

Lemma indexed_empty : indexed ∅ ∅.
Proof. split; intros ? ?; by rewrite lookup_empty. Qed.

Lemma find_by_spec byID byKey k r :
  indexed byID byKey -> find_by byID byKey k = Some r <-> byID !! rid r = Some r /\ rkey r = k.
Proof.
  intros [Hi Hk]. unfold find_by. split.
  - destruct (byKey !! k) as [i|] eqn:E; [|done]. intros Hr.
    destruct (Hk _ _ E) as (r' & Hr' & Hkey). rewrite Hr in Hr'. injection Hr' as <-.
    destruct (Hi _ _ Hr) as [-> _]. done.
  - intros [Hr <-]. destruct (Hi _ _ Hr) as [_ ->]. done.
Qed.

Lemma find_by_None byID byKey k :
  indexed byID byKey -> find_by byID byKey k = None <->
  forall i r, byID !! i = Some r -> rkey r <> k.
Proof.
  intros [Hi Hk]. unfold find_by. split.
  - intros H i r Hr <-. destruct (Hi _ _ Hr) as [_ E]. rewrite E in H. congruence.
  - intros H. destruct (byKey !! k) as [i|] eqn:E; [|done].
    destruct (Hk _ _ E) as (r & Hr & <-). by destruct (H _ _ Hr).
Qed.

Lemma indexed_insert byID byKey r :
  indexed byID byKey -> byID !! rid r = None -> byKey !! rkey r = None ->
  indexed (<[rid r := r]> byID) (<[rkey r := rid r]> byKey).
Proof.
  intros [Hi Hk] Hfi Hfk. split.
  - intros i x. rewrite lookup_insert_Some. intros [[<- <-]|[Hne Hx]]; [by rewrite lookup_insert_eq|].
    destruct (Hi _ _ Hx) as [<- E]. split; [done|]. rewrite lookup_insert_ne; [done|]. congruence.
  - intros k i. rewrite lookup_insert_Some. intros [[<- <-]|[Hne Hx]].
    + exists r. by rewrite lookup_insert_eq.
    + destruct (Hk _ _ Hx) as (x & Ex & <-). exists x. split; [|done].
      rewrite lookup_insert_ne; [done|]. congruence.
Qed.

(** Overwriting a record under its id and key. *)
Lemma indexed_update byID byKey old r :
  indexed byID byKey -> byID !! rid r = Some old -> rkey old = rkey r ->
  indexed (<[rid r := r]> byID) byKey.
Proof.
  intros [Hi Hk] Ho Hkey. destruct (Hi _ _ Ho) as [_ Eo]. split.
  - intros i x. rewrite lookup_insert_Some. intros [[<- <-]|[Hne Hx]]; [|by apply Hi].
    split; [done|]. by rewrite <- Hkey.
  - intros k i E. destruct (Hk _ _ E) as (x & Ex & <-). destruct (decide (rid r = i)) as [<-|Hne].
    + exists r. rewrite lookup_insert_eq. split; [done|]. congruence.
    + exists x. by rewrite lookup_insert_ne.
Qed.

(** The same, with the key written again. *)
Lemma indexed_rewrite byID byKey old r :
  indexed byID byKey -> byID !! rid r = Some old -> rkey old = rkey r ->
  indexed (<[rid r := r]> byID) (<[rkey r := rid r]> byKey).
Proof.
  intros H Ho Hkey. rewrite (insert_id byKey).
  - by eapply indexed_update.
  - destruct (idx_id _ _ H _ _ Ho) as [_ E]. by rewrite <- Hkey.
Qed.

Lemma indexed_delete byID byKey i r :
  indexed byID byKey -> byID !! i = Some r -> indexed (delete i byID) (delete (rkey r) byKey).
Proof.
  intros [Hi Hk] Hr. destruct (Hi _ _ Hr) as [_ Er]. split.
  - intros j x [Hne Hx]%lookup_delete_Some. destruct (Hi _ _ Hx) as [<- E]. split; [done|].
    rewrite lookup_delete_ne; [done|]. congruence.
  - intros k j [Hne Hx]%lookup_delete_Some. destruct (Hk _ _ Hx) as (x & Ex & <-). exists x.
    split; [|done]. rewrite lookup_delete_ne; [done|]. congruence.
Qed.

(** Moving a record to a key nobody holds. *)
Lemma indexed_rekey byID byKey old r :
  indexed byID byKey -> byID !! rid r = Some old -> byKey !! rkey r = None -> rkey old <> rkey r ->
  indexed (<[rid r := r]> byID) (<[rkey r := rid r]> (delete (rkey old) byKey)).
Proof.
  intros H Ho Hf Hne. pose proof (indexed_delete _ _ _ _ H Ho) as Hd.
  pose proof (indexed_insert _ _ r Hd) as Hi. rewrite insert_delete_eq in Hi.
  apply Hi; [apply lookup_delete_eq|]. by rewrite lookup_delete_ne.
Qed.
End index.
