(* ===== verification/TokenStore.v ===== *)
(** The token records of the control plane and where they are kept:
    tokens/token.go and tokens/memory_store.go, and their twins in
    admintokens.  The two packages declare the same record and the same store;
    they differ in the error a duplicate gives.

    [TokenStore] is the Go interface [Store]; [TokenStoreLaws] is what the
    services rely on, stated on the records a store holds by id; [keeps] is the
    precision of its times.  The memory
    store is an instance of both.  Records are values here, which is what the
    clones of the Go code make of them. *)
From S2P Require Import Prelude GoStrings ControlPlaneClient Stores.
From Stdlib Require Import ZArith Lia List String Ascii Bool.
From stdpp Require Import base gmap strings list sorting.

Open Scope Z_scope.

Record TokenRecord := mkTokenRecord {
  t_ID : string;
  t_Name : string;
  t_TokenHash : string;
  t_Scopes : list string;
  t_CreatedAt : Time;
  t_LastUsedAt : option Time;
  t_RevokedAt : option Time;
}.
Definition set_LastUsedAt (r : TokenRecord) (t : Time) : TokenRecord :=
  mkTokenRecord (t_ID r) (t_Name r) (t_TokenHash r) (t_Scopes r) (t_CreatedAt r) (Some t) (t_RevokedAt r).
Definition set_RevokedAt (r : TokenRecord) (t : Time) : TokenRecord :=
  mkTokenRecord (t_ID r) (t_Name r) (t_TokenHash r) (t_Scopes r) (t_CreatedAt r) (t_LastUsedAt r) (Some t).

(** * The interface *)
Class TokenStore (S : Type) : Type := {
  Ping : S -> option error;
  Create : S -> TokenRecord -> option error * S;
  List_ : S -> result (list TokenRecord);
  LookupByHash : S -> string -> result (option TokenRecord);
  LookupByID : S -> string -> result (option TokenRecord);
  MarkUsed : S -> string -> Time -> option error * S;
  Revoke : S -> string -> Time -> option error * S;
}.

(** Newest first, and by id among records of the same instant. *)
Definition newest_first (a b : TokenRecord) : Prop :=
  t_CreatedAt b < t_CreatedAt a \/
  (t_CreatedAt a = t_CreatedAt b /\ String.leb (t_ID a) (t_ID b) = true).
#[export] Instance newest_first_dec : RelDecision newest_first.
Proof. intros a b. unfold newest_first. apply _. Defined.

(** A record with what a store keeps of its times. *)
Definition kept_record (keeps : Time -> Time) (r : TokenRecord) : TokenRecord :=
  mkTokenRecord (t_ID r) (t_Name r) (t_TokenHash r) (t_Scopes r) (keeps (t_CreatedAt r))
    (keeps <$> t_LastUsedAt r) (keeps <$> t_RevokedAt r).
Lemma kept_record_id r : kept_record (fun t => t) r = r.
Proof. destruct r as [? ? ? ? ? l v]. unfold kept_record. cbn. by destruct l, v. Qed.

(** What an operation that failed or succeeded leaves in the store. *)
Definition stores (before : gmap string TokenRecord) (err : option error)
    (after : gmap string TokenRecord) (now : gmap string TokenRecord) : Prop :=
  match err with None => now = after | Some _ => now = before end.

Class TokenStoreLaws (S : Type) {TS : TokenStore S} : Type := {
  store_ok : S -> Prop;
  records : S -> gmap string TokenRecord;
  keeps : Time -> Time;                  (* what the store keeps of an instant *)
  records_id : forall s i r, store_ok s -> records s !! i = Some r -> t_ID r = i;
  Create_law : forall s r e s', store_ok s -> Create s r = (e, s') ->
    store_ok s' /\ stores (records s) e (<[t_ID r := kept_record keeps r]> (records s)) (records s') /\
    (e = None -> records s !! t_ID r = None /\
       forall i x, records s !! i = Some x -> t_TokenHash x <> t_TokenHash r);
  List_law : forall s l, store_ok s -> List_ s = Ok l ->
    l ≡ₚ (map_to_list (records s)).*2 /\ Sorted newest_first l;
  LookupByHash_law : forall s h o, store_ok s -> LookupByHash s h = Ok o ->
    match o with
    | Some r => records s !! t_ID r = Some r /\ t_TokenHash r = h
    | None => forall i r, records s !! i = Some r -> t_TokenHash r <> h
    end;
  LookupByID_law : forall s i o, store_ok s -> LookupByID s i = Ok o -> o = records s !! i;
  MarkUsed_law : forall s i t e s', store_ok s -> MarkUsed s i t = (e, s') ->
    store_ok s' /\
    stores (records s) e
      (alter (fun r => match t_RevokedAt r with None => set_LastUsedAt r (keeps t) | Some _ => r end) i (records s))
      (records s');
  Revoke_law : forall s i t e s', store_ok s -> Revoke s i t = (e, s') ->
    store_ok s' /\ stores (records s) e (alter (fun r => set_RevokedAt r (keeps t)) i (records s)) (records s');
}.

(** Two records of one store never share a hash. *)
Definition unique_hashes (m : gmap string TokenRecord) : Prop :=
  forall i j x y, m !! i = Some x -> m !! j = Some y -> t_TokenHash x = t_TokenHash y -> i = j.

(** A store whose operations always answer. *)
Class TokenStoreTotal (S : Type) {TS : TokenStore S} : Prop := {
  LookupByHash_total : forall s h, exists o, LookupByHash s h = Ok o;
  MarkUsed_total : forall s i t, fst (MarkUsed s i t) = None;
}.

(** * The memory store *)
Record MemoryStore := mkMemoryStore {
  byID : gmap string TokenRecord;
  byHash : gmap string string;
}.
Definition NewMemoryStore : MemoryStore := mkMemoryStore ∅ ∅.

Section memory.
Context (ErrTokenAlreadyExists : error).

Definition mem_Create (s : MemoryStore) (record : TokenRecord) : option error * MemoryStore :=
  if bool_decide (is_Some (byID s !! t_ID record)) then (Some ErrTokenAlreadyExists, s)
  else if bool_decide (is_Some (byHash s !! t_TokenHash record)) then (Some ErrTokenAlreadyExists, s)
  else (None, mkMemoryStore (<[t_ID record := record]> (byID s))
                (<[t_TokenHash record := t_ID record]> (byHash s))).

Definition mem_LookupByHash (s : MemoryStore) (tokenHash : string) : result (option TokenRecord) :=
  match byHash s !! tokenHash with
  | None => Ok None
  | Some id =>
      match byID s !! id with
      | None => Ok None
      | Some record => Ok (Some record)
      end
  end.

Definition mem_List (s : MemoryStore) : result (list TokenRecord) :=
  Ok (merge_sort newest_first (map_to_list (byID s)).*2).

Definition mem_LookupByID (s : MemoryStore) (id : string) : result (option TokenRecord) :=
  Ok (byID s !! id).

Definition mem_MarkUsed (s : MemoryStore) (id : string) (usedAt : Time) : option error * MemoryStore :=
  match byID s !! id with
  | None => (None, s)
  | Some record =>
      match t_RevokedAt record with
      | Some _ => (None, s)
      | None => (None, mkMemoryStore (<[id := set_LastUsedAt record usedAt]> (byID s)) (byHash s))
      end
  end.

Definition mem_Revoke (s : MemoryStore) (id : string) (revokedAt : Time) : option error * MemoryStore :=
  match byID s !! id with
  | None => (None, s)
  | Some record => (None, mkMemoryStore (<[id := set_RevokedAt record revokedAt]> (byID s)) (byHash s))
  end.

Definition memory_store : TokenStore MemoryStore := {|
  Ping _ := None;
  Create := mem_Create;
  List_ := mem_List;
  LookupByHash := mem_LookupByHash;
  LookupByID := mem_LookupByID;
  MarkUsed := mem_MarkUsed;
  Revoke := mem_Revoke;
|}.

(** ** It keeps the interface's promises *)
Definition memory_ok (s : MemoryStore) : Prop := indexed t_ID t_TokenHash (byID s) (byHash s).

Lemma mem_LookupByHash_find s h : mem_LookupByHash s h = Ok (find_by (byID s) (byHash s) h).
Proof. unfold mem_LookupByHash, find_by. by repeat case_match. Qed.

Lemma mem_Create_law s r e s' :
  memory_ok s -> mem_Create s r = (e, s') ->
  memory_ok s' /\ stores (byID s) e (<[t_ID r := r]> (byID s)) (byID s') /\
  (e = None -> byID s !! t_ID r = None /\
     forall i x, byID s !! i = Some x -> t_TokenHash x <> t_TokenHash r).
Proof.
  intros H. unfold mem_Create.
  case_bool_decide as H1; [by intros [= <- <-]|]. case_bool_decide as H2; [by intros [= <- <-]|].
  apply eq_None_not_Some in H1, H2. intros [= <- <-]. split; [by apply indexed_insert|].
  split; [done|]. intros _. split; [done|]. apply (find_by_None _ _ _ _ _ H).
  unfold find_by. by rewrite H2.
Qed.

(** Rewriting one record in place, keeping its id and hash. *)
Lemma mem_alter s i r f :
  memory_ok s -> byID s !! i = Some r -> t_ID (f r) = t_ID r -> t_TokenHash (f r) = t_TokenHash r ->
  memory_ok (mkMemoryStore (<[i := f r]> (byID s)) (byHash s)) /\ <[i := f r]> (byID s) = alter f i (byID s).
Proof.
  intros H Hr Hi Hh. destruct (idx_id _ _ _ _ H _ _ Hr) as [Ei _]. split.
  - unfold memory_ok. cbn [byID byHash]. rewrite <- Ei, <- Hi in *. eapply indexed_update; [done|done|congruence].
  - apply map_eq. intros j. destruct (decide (i = j)) as [<-|].
    + by rewrite lookup_insert_eq, lookup_alter_eq, Hr.
    + by rewrite lookup_insert_ne, lookup_alter_ne.
Qed.

Lemma alter_absent {A} (f : A -> A) (m : gmap string A) i : m !! i = None -> alter f i m = m.
Proof. intros H. apply map_eq. intros j. destruct (decide (i = j)) as [<-|]; [|by rewrite lookup_alter_ne].
  by rewrite lookup_alter_eq, H. Qed.

Lemma mem_MarkUsed_law s i t e s' :
  memory_ok s -> mem_MarkUsed s i t = (e, s') ->
  memory_ok s' /\
  stores (byID s) e
    (alter (fun r => match t_RevokedAt r with None => set_LastUsedAt r t | Some _ => r end) i (byID s)) (byID s').
Proof.
  intros H. unfold mem_MarkUsed. destruct (byID s !! i) as [r|] eqn:Er.
  - pose proof (mem_alter s i r
      (fun r => match t_RevokedAt r with None => set_LastUsedAt r t | Some _ => r end) H Er) as Ha.
    cbv beta in Ha. destruct (t_RevokedAt r) eqn:Ev; intros [= <- <-].
    + destruct Ha as [_ Ha]; [done|done|]. split; [done|]. simpl. rewrite <- Ha. by rewrite insert_id.
    + destruct Ha as [Ho Ha]; [done|done|]. by split.
  - intros [= <- <-]. split; [done|]. simpl. by rewrite alter_absent.
Qed.

Lemma mem_Revoke_law s i t e s' :
  memory_ok s -> mem_Revoke s i t = (e, s') ->
  memory_ok s' /\ stores (byID s) e (alter (fun r => set_RevokedAt r t) i (byID s)) (byID s').
Proof.
  intros H. unfold mem_Revoke. destruct (byID s !! i) as [r|] eqn:Er; intros [= <- <-].
  - destruct (mem_alter s i r (fun r => set_RevokedAt r t) H Er) as [Ho Ha]; [done|done|]. by split.
  - split; [done|]. simpl. by rewrite alter_absent.
Qed.
End memory.

(** The order of listings is total. *)
#[export] Instance newest_first_total : Total newest_first.
Proof.
  intros a b. unfold newest_first. destruct (Z.lt_trichotomy (t_CreatedAt a) (t_CreatedAt b)) as [|[E|]]; auto.
  rewrite E. destruct (String.leb_total (t_ID a) (t_ID b)); auto.
Qed.

#[export, program] Instance memory_laws (err : error) : TokenStoreLaws MemoryStore (TS := memory_store err) := {|
  store_ok := memory_ok;
  records := byID;
  keeps t := t;
|}.
Next Obligation. intros err s i r H Hr. by destruct (idx_id _ _ _ _ H _ _ Hr). Qed.
Next Obligation. intros err s r. rewrite kept_record_id. apply mem_Create_law. Qed.
Next Obligation.
  intros err s l _ [= <-]. split; [apply merge_sort_Permutation|apply Sorted_merge_sort, _].
Qed.
Next Obligation.
  intros err s h o H E. cbn in E. rewrite mem_LookupByHash_find in E. injection E as <-.
  destruct (find_by _ _ _) as [r|] eqn:Ef.
  - by apply (find_by_spec t_ID t_TokenHash) in Ef.
  - by apply (find_by_None t_ID t_TokenHash _ _ _ H).
Qed.
Next Obligation. intros err s i o _ [= <-]. done. Qed.
Next Obligation. intros err. apply mem_MarkUsed_law. Qed.
Next Obligation. intros err. apply mem_Revoke_law. Qed.

#[export] Instance memory_total err : TokenStoreTotal MemoryStore (TS := memory_store err).
Proof.
  split.
  - intros s h. cbn. rewrite mem_LookupByHash_find. eauto.
  - intros s i t. cbn. unfold mem_MarkUsed. by repeat case_match.
Qed.
Lemma NewMemoryStore_ok : memory_ok NewMemoryStore.
Proof. apply indexed_empty. Qed.
