(* ===== verification/Tokens.v ===== *)
(** server/control-plane/internal/tokens/service.go: the API tokens agents
    authenticate with, against any store that keeps the promises of
    [TokenStoreLaws].

    A service without a store ([s == nil || s.store == nil]) is [None].  The
    clock's reading and the process's random bytes are arguments. *)
From S2P Require Import Prelude GoStrings Base64 ControlPlaneClient Stores TokenStore.
From Stdlib Require Import ZArith Lia List String Ascii Bool.
From stdpp Require Import base gmap strings list relations.

Open Scope Z_scope.

Definition ScopeRegisterTunnel : string := "register_tunnel".
Definition ErrTokenAlreadyExists : error := Sentinel "tokens.ErrTokenAlreadyExists" "token already exists".
Definition ErrTokenNameRequired : error := Sentinel "tokens.ErrTokenNameRequired" "token name is required".
Definition ErrUnsupportedScope : error := Sentinel "tokens.ErrUnsupportedScope" "unsupported token scope".
Definition token_store_required : error := Errorf "token store is required".

Record CreateTokenRequest := mkCreateTokenRequest { cr_Name : string; cr_Scopes : list string }.
Record CreatedToken := mkCreatedToken {
  c_ID : string; c_Name : string; c_Token : string; c_Scopes : list string; c_CreatedAt : Time;
}.
Record TokenSummary := mkTokenSummary {
  s_ID : string; s_Name : string; s_Scopes : list string;
  s_CreatedAt : Time; s_LastUsedAt : option Time; s_RevokedAt : option Time;
}.
Record ValidationResult := mkValidationResult { v_Valid : bool; v_TokenID : string; v_Scopes : list string }.
Definition invalid : ValidationResult := mkValidationResult false "" [].

Definition knownScopes : list string := [ScopeRegisterTunnel].
Definition isKnownScope (scope : string) : bool := bool_decide (scope ∈ knownScopes).
Fixpoint hasScope (scopes : list string) (required : string) : bool :=
  match scopes with
  | [] => false
  | scope :: rest => if String.eqb scope required then true else hasScope rest required
  end.

Definition HashToken {H : SHA256} (token : string) : string := sha256_hex token.
Definition randomSecret (prefix : string) (bytesLen : nat) : secretReader -> result string * secretReader :=
  random_secret "generate token secret" prefix bytesLen.
Definition unsupported (scope : string) : error :=
  Suffix ErrUnsupportedScope (" " +:+ Quote scope).
Definition normalizeScopes (scopes : list string) : result (list string) :=
  scopes_loop knownScopes unsupported [] scopes.

Definition summaryFromRecord (r : TokenRecord) : TokenSummary :=
  mkTokenSummary (t_ID r) (t_Name r) (t_Scopes r) (t_CreatedAt r) (t_LastUsedAt r) (t_RevokedAt r).

Section service.
Context {H256 : SHA256} {S : Type} {TS : TokenStore S}.

Definition Ready (s : option S) : option error :=
  match s with None => Some token_store_required | Some store => Ping store end.

Definition CreateToken (s : option S) (req : CreateTokenRequest) (now : Time) (random : secretReader)
    : result CreatedToken * option S :=
  match s with
  | None => (Err token_store_required, s)
  | Some store =>
      let name := TrimSpace (cr_Name req) in
      if String.eqb name "" then (Err ErrTokenNameRequired, s)
      else
        match randomSecret "ph_" 32 random with
        | (Err e, _) => (Err e, s)
        | (Ok token, random) =>
            match randomSecret "tok_" 16 random with
            | (Err e, _) => (Err e, s)
            | (Ok id, _) =>
                match normalizeScopes (cr_Scopes req) with
                | Err e => (Err e, s)
                | Ok scopes =>
                    let scopes := match scopes with [] => [ScopeRegisterTunnel] | _ => scopes end in
                    let record := mkTokenRecord id name (HashToken token) scopes now None None in
                    match Create store record with
                    | (Some e, store') => (Err e, Some store')
                    | (None, store') => (Ok (mkCreatedToken id name token scopes now), Some store')
                    end
                end
            end
        end
  end.

Definition ValidateToken (s : option S) (token requiredScope : string) (now : Time)
    : result ValidationResult * option S :=
  match s with
  | None => (Err token_store_required, s)
  | Some store =>
      let token := TrimSpace token in
      if String.eqb token "" then (Ok invalid, s)
      else
        match LookupByHash store (HashToken token) with
        | Err e => (Err e, s)
        | Ok None => (Ok invalid, s)
        | Ok (Some record) =>
            match t_RevokedAt record with
            | Some _ => (Ok invalid, s)
            | None =>
                let requiredScope := TrimSpace requiredScope in
                if negb (String.eqb requiredScope "") && negb (isKnownScope requiredScope)
                then (Err (unsupported requiredScope), s)
                else if negb (String.eqb requiredScope "") && negb (hasScope (t_Scopes record) requiredScope)
                then (Ok invalid, s)
                else
                  match MarkUsed store (t_ID record) now with
                  | (Some e, store') => (Err e, Some store')
                  | (None, store') =>
                      (Ok (mkValidationResult true (t_ID record) (t_Scopes record)), Some store')
                  end
            end
        end
  end.

Definition ListTokens (s : option S) : result (list TokenSummary) :=
  match s with
  | None => Err token_store_required
  | Some store => try l <- List_ store; Ok (map summaryFromRecord l)
  end.

Definition GetToken (s : option S) (id : string) : result (option TokenSummary) :=
  match s with
  | None => Err token_store_required
  | Some store =>
      let id := TrimSpace id in
      if String.eqb id "" then Ok None
      else try o <- LookupByID store id; Ok (summaryFromRecord <$> o)
  end.

Definition RevokeToken (s : option S) (id : string) (now : Time) : option error * option S :=
  match s with
  | None => (Some token_store_required, s)
  | Some store =>
      let id := TrimSpace id in
      if String.eqb id "" then (None, s)
      else let '(e, store') := Revoke store id now in (e, Some store')
  end.

(** Any call on the service. *)
Inductive token_step : option S -> option S -> Prop :=
| step_create s req now random : token_step s (snd (CreateToken s req now random))
| step_validate s token scope now : token_step s (snd (ValidateToken s token scope now))
| step_revoke s id now : token_step s (snd (RevokeToken s id now)).
End service.

(** * Properties *)
Section properties.
Context {H256 : SHA256} {S : Type} {TS : TokenStore S} {TL : TokenStoreLaws S}.

Lemma hasScope_spec scopes required : hasScope scopes required = true <-> required ∈ scopes.
Proof.
  induction scopes as [|x l IH]; cbn; [set_solver|].
  destruct (String.eqb_spec x required) as [->|]; [set_solver|]. rewrite IH. set_solver.
Qed.

Definition service_ok (s : option S) : Prop :=
  match s with
  | None => True
  | Some store => store_ok store /\ unique_hashes (records store)
  end.
Definition holds (s : option S) (id : string) (r : TokenRecord) : Prop :=
  match s with None => False | Some store => records store !! id = Some r end.

(** Records only ever gain a use or a revocation. *)
Definition evolves (r r' : TokenRecord) : Prop :=
  t_ID r' = t_ID r /\ t_TokenHash r' = t_TokenHash r /\ t_Scopes r' = t_Scopes r /\
  (t_RevokedAt r <> None -> t_RevokedAt r' <> None).
#[local] Instance evolves_refl : Reflexive evolves.
Proof. by intros r. Qed.
#[local] Instance evolves_trans : Transitive evolves.
Proof. intros a b c (A1 & A2 & A3 & A4) (B1 & B2 & B3 & B4). repeat split; try congruence. auto. Qed.

(** One step on the records themselves. *)
Definition grows (m m' : gmap string TokenRecord) : Prop :=
  (forall i r, m !! i = Some r -> exists r', m' !! i = Some r' /\ evolves r r') /\
  (unique_hashes m -> unique_hashes m').

Lemma grows_refl m : grows m m.
Proof. split; [|done]. intros i r Hr. by exists r. Qed.

Lemma grows_alter m i f :
  (forall r, evolves r (f r)) -> grows m (alter f i m).
Proof.
  intros Hf.
  assert (Hback : forall j x, alter f i m !! j = Some x ->
    exists y, m !! j = Some y /\ t_TokenHash x = t_TokenHash y).
  { intros j x. destruct (decide (i = j)) as [<-|Hne].
    - rewrite lookup_alter_eq. destruct (m !! i) as [y|]; [|done]. intros [= <-]. exists y.
      by destruct (Hf y) as (_ & -> & _).
    - rewrite lookup_alter_ne by done. eauto. }
  split.
  - intros j r Hr. destruct (decide (i = j)) as [<-|Hne].
    + exists (f r). by rewrite lookup_alter_eq, Hr.
    + exists r. by rewrite lookup_alter_ne.
  - intros Hu j k x y Hx Hy E. apply Hback in Hx as (x' & Hx & Ex), Hy as (y' & Hy & Ey).
    apply (Hu _ _ _ _ Hx Hy). congruence.
Qed.

Lemma grows_insert m r :
  m !! t_ID r = None -> (forall i x, m !! i = Some x -> t_TokenHash x <> t_TokenHash r) ->
  grows m (<[t_ID r := r]> m).
Proof.
  intros Hf Hh. split.
  - intros i x Hx. exists x. rewrite lookup_insert_ne by congruence. done.
  - intros Hu i j x y Hx Hy E. rewrite lookup_insert_Some in Hx, Hy.
    destruct Hx as [[<- <-]|[_ Hx]], Hy as [[<- <-]|[_ Hy]]; [done| | |by apply (Hu _ _ _ _ Hx Hy)].
    + by destruct (Hh _ _ Hy).
    + by destruct (Hh _ _ Hx).
Qed.

Definition service_grows (s s' : option S) : Prop :=
  match s, s' with
  | None, None => True
  | Some a, Some b => (store_ok a -> store_ok b) /\ (store_ok a -> grows (records a) (records b))
  | _, _ => False
  end.

Lemma service_grows_refl s : service_grows s s.
Proof. destruct s; simpl; [|done]. split; [done|]. intros _. apply grows_refl. Qed.

Lemma service_grows_stores (a b : S) e m :
  (store_ok a -> store_ok b /\ stores (records a) e m (records b) /\ (e = None -> grows (records a) m)) ->
  service_grows (Some a) (Some b).
Proof.
  intros H. split; intros Ha; destruct (H Ha) as (Hb & Hs & Hg); [done|].
  unfold stores in Hs. destruct e; rewrite Hs; [apply grows_refl|auto].
Qed.

Lemma Create_grows a r e b : Create a r = (e, b) -> service_grows (Some a) (Some b).
Proof.
  intros E. apply (service_grows_stores a b e (<[t_ID r := kept_record keeps r]> (records a))). intros Ha.
  destruct (Create_law _ _ _ _ Ha E) as (Hb & Hs & Hn). split; [done|]. split; [done|].
  intros He. destruct (Hn He). by apply (grows_insert _ (kept_record keeps r)).
Qed.

Lemma Create_service_ok a r : service_ok (Some a) -> service_ok (Some (snd (Create a r))).
Proof.
  intros [Ha Hu]. destruct (Create_grows a r _ _ (surjective_pairing _)) as [Hb Hg].
  split; [auto|]. by apply (Hg Ha).
Qed.

Lemma MarkUsed_grows a i t e b : MarkUsed a i t = (e, b) -> service_grows (Some a) (Some b).
Proof.
  intros E. eapply service_grows_stores. intros Ha. destruct (MarkUsed_law _ _ _ _ _ Ha E) as [Hb Hs].
  split; [done|]. split; [exact Hs|]. intros _. apply grows_alter. intros r.
  destruct (t_RevokedAt r) eqn:Er; [done|]. by repeat split.
Qed.

Lemma Revoke_grows a i t e b : Revoke a i t = (e, b) -> service_grows (Some a) (Some b).
Proof.
  intros E. eapply service_grows_stores. intros Ha. destruct (Revoke_law _ _ _ _ _ Ha E) as [Hb Hs].
  split; [done|]. split; [exact Hs|]. intros _. apply grows_alter. by intros r.
Qed.

Lemma step_grows s s' : token_step s s' -> service_grows s s'.
Proof.
  intros Hstep. inv Hstep.
  - unfold CreateToken. cbv zeta. repeat (case_match; subst); try apply service_grows_refl; by eapply Create_grows.
  - unfold ValidateToken. cbv zeta. repeat (case_match; subst); try apply service_grows_refl; by eapply MarkUsed_grows.
  - unfold RevokeToken. cbv zeta. repeat (case_match; subst); try apply service_grows_refl; by eapply Revoke_grows.
Qed.

Lemma steps_grow s s' id r :
  rtc token_step s s' -> service_ok s -> holds s id r ->
  service_ok s' /\ exists r', holds s' id r' /\ evolves r r'.
Proof.
  intros Hsteps. revert r. induction Hsteps as [s|s1 s2 s3 Hstep _ IH]; intros r Hok Hr.
  { split; [done|]. by exists r. }
  apply step_grows in Hstep. destruct s1 as [a|]; [|done]. destruct s2 as [b|]; [|done].
  destruct Hok as [Ha Hu]. destruct Hstep as [Hb Hg]. destruct (Hg Ha) as [Hrec Huni].
  destruct (Hrec _ _ Hr) as (r1 & Hr1 & He). destruct (IH r1) as (Hok3 & r' & Hr' & He'); [|done|].
  { split; auto. }
  split; [done|]. exists r'. split; [done|]. by transitivity r1.
Qed.

Lemma validate_sound s token scope now v s' :
  service_ok s -> ValidateToken s token scope now = (Ok v, s') -> v_Valid v = true ->
  exists r, holds s (v_TokenID v) r /\ t_TokenHash r = HashToken (TrimSpace token) /\
    t_RevokedAt r = None /\ v_Scopes v = t_Scopes r /\
    (TrimSpace scope = ""%string \/ TrimSpace scope ∈ t_Scopes r).
Proof.
  unfold ValidateToken. destruct s as [a|]; [|done]. intros [Ha _]. cbv zeta.
  destruct (String.eqb_spec (TrimSpace token) ""); [by intros [= <- <-]|].
  destruct (LookupByHash a _) as [[r|]|] eqn:El; [|by intros [= <- <-]|done].
  apply (LookupByHash_law _ _ _ Ha) in El as [Hr Hh].
  destruct (t_RevokedAt r) eqn:Ev; [by intros [= <- <-]|].
  destruct (_ && negb (isKnownScope _)); [done|].
  destruct (_ && negb (hasScope _ _)) eqn:Es; [by intros [= <- <-]|].
  destruct (MarkUsed a _ _) as [[|] b] eqn:Em; [done|]. intros [= <- <-] _. exists r.
  repeat split; try done. destruct (String.eqb_spec (TrimSpace scope) ""); [by left|right].
  apply hasScope_spec. by apply negb_false_iff.
Qed.

(** C19: a token is accepted only while it is a live token of the store: its
    hash is that of a record that is not revoked and carries the scope asked
    for, and the answer names that record; and once a token has been revoked
    no sequence of further calls ever makes the service accept it again. *)
Theorem revoked_for_good s s' id r token scope now v s'' :
  service_ok s -> holds s id r -> t_RevokedAt r <> None -> rtc token_step s s' ->
  ValidateToken s' token scope now = (Ok v, s'') -> v_Valid v = true ->
  v_TokenID v <> id /\
  exists r', holds s' (v_TokenID v) r' /\ t_TokenHash r' = HashToken (TrimSpace token) /\
    t_RevokedAt r' = None /\ (TrimSpace scope = ""%string \/ TrimSpace scope ∈ t_Scopes r').
Proof.
  intros Hok Hr Hrev Hsteps Hv Hvalid.
  destruct (steps_grow _ _ _ _ Hsteps Hok Hr) as (Hok' & r1 & Hr1 & (_ & _ & _ & Hstays)).
  destruct (validate_sound _ _ _ _ _ _ Hok' Hv Hvalid) as (r' & Hr' & Hh & Hn & _ & Hsc).
  split; [|by exists r']. intros <-. destruct s' as [b|]; [|done].
  cbn in Hr1, Hr'. rewrite Hr1 in Hr'. injection Hr' as <-. by apply Hstays in Hrev.
Qed.

(** The token of a revoked record is refused after any further calls. *)
Lemma revoked_refused s s' id r token scope now v s'' :
  service_ok s -> holds s id r -> t_RevokedAt r <> None -> t_TokenHash r = HashToken (TrimSpace token) ->
  rtc token_step s s' -> ValidateToken s' token scope now = (Ok v, s'') -> v_Valid v = false.
Proof.
  intros Hok Hr Hrev Hh Hsteps Hv. destruct (v_Valid v) eqn:Hvalid; [exfalso|done].
  destruct (steps_grow _ _ _ _ Hsteps Hok Hr) as (Hok' & r1 & Hr1 & (_ & Hh1 & _ & Hstays)).
  destruct (validate_sound _ _ _ _ _ _ Hok' Hv Hvalid) as (r' & Hr' & Hh' & Hn & _ & _).
  destruct s' as [b|]; [|done]. destruct Hok' as [_ Hu]. cbn in Hr1, Hr'.
  assert (v_TokenID v = id) as E by (apply (Hu _ _ _ _ Hr' Hr1); congruence).
  rewrite E, Hr1 in Hr'. injection Hr' as ->. by apply Hstays.
Qed.

Lemma randomSecret_trim prefix n random token random' :
  sforall visible prefix = true -> prefix <> ""%string ->
  randomSecret prefix n random = (Ok token, random') ->
  TrimSpace token = token /\ token <> ""%string.
Proof.
  intros Hp Hne. unfold randomSecret, random_secret. destruct (rand_Read n random) as [[d|] r'] eqn:E; [|done].
  intros [= <- <-]. split.
  - apply TrimSpace_visible. rewrite sforall_app, Hp. apply RawURLEncode_visible.
  - destruct prefix; [done|]. rewrite string_cons_app. done.
Qed.

Lemma CreateToken_ok s req now random c s' :
  service_ok s -> CreateToken s req now random = (Ok c, s') ->
  exists r, holds s' (c_ID c) r /\ t_TokenHash r = HashToken (c_Token c) /\ t_RevokedAt r = None /\
    t_Scopes r = c_Scopes c /\ legal_scopes knownScopes (c_Scopes c) /\ c_Scopes c <> [] /\
    TrimSpace (c_Token c) = c_Token c /\ c_Token c <> ""%string /\ service_ok s'.
Proof.
  intros Hok E. assert (Hstep : token_step s s').
  { replace s' with (snd (CreateToken s req now random)) by by rewrite E. constructor. }
  apply step_grows in Hstep. revert E. unfold CreateToken. destruct s as [a|]; [|done]. cbv zeta.
  destruct (String.eqb _ _); [done|].
  destruct (randomSecret "ph_" 32 random) as [[token|] random1] eqn:Et; [|done].
  destruct (randomSecret "tok_" 16 random1) as [[id|] random2]; [|done].
  destruct (normalizeScopes (cr_Scopes req)) as [scopes|] eqn:En; [|done].
  destruct (Create a _) as [[|] b] eqn:Ec; [done|]. intros [= <- <-]. cbn [c_ID c_Token c_Scopes].
  destruct Hok as [Ha Hu]. destruct (Create_law _ _ _ _ Ha Ec) as (Hb & Hs & _). cbn in Hs.
  apply randomSecret_trim in Et as [Et1 Et2]; [|done|done].
  eexists. split; [cbn; rewrite Hs; apply lookup_insert_eq|]. cbn [t_TokenHash t_RevokedAt t_Scopes].
  split_and!; try done.
  - apply scopes_loop_ok in En as [Hl _]. destruct scopes; [|done].
    split; [apply NoDup_singleton|]. constructor; [|constructor]. split; [by left|done].
  - by destruct scopes.
  - split; [done|]. destruct Hstep as [_ Hg]. by apply (Hg Ha).
Qed.

(** A record that is live answers for its token under each of its scopes,
    when the store answers. *)
Lemma live_token_validates_at (b : S) id r token scope now :
  service_ok (Some b) -> records b !! id = Some r -> t_RevokedAt r = None -> t_TokenHash r = HashToken token ->
  TrimSpace token = token -> token <> ""%string -> legal_scopes knownScopes (t_Scopes r) ->
  TrimSpace scope = ""%string \/ TrimSpace scope ∈ t_Scopes r ->
  (exists o, LookupByHash b (HashToken token) = Ok o) -> fst (MarkUsed b id now) = None ->
  ValidateToken (Some b) token scope now = (Ok (mkValidationResult true id (t_Scopes r)), Some (snd (MarkUsed b id now))).
Proof.
  intros [Hb Hu] Hr Hl Hh Htrim Hne [_ Hleg] Hscope [o Eo] Hm. pose proof (records_id _ _ _ Hb Hr) as Hid.
  unfold ValidateToken. cbv zeta. rewrite Htrim. destruct (String.eqb_spec token ""); [done|]. rewrite Eo.
  apply (LookupByHash_law _ _ _ Hb) in Eo. destruct o as [r3|]; [|by destruct (Eo _ _ Hr)].
  destruct Eo as [Hr3 Hh3]. assert (E3 : t_ID r3 = id) by (apply (Hu _ _ _ _ Hr3 Hr); congruence).
  rewrite E3, Hr in Hr3. injection Hr3 as <-. rewrite Hl.
  assert (Hgood : negb (String.eqb (TrimSpace scope) "") && negb (isKnownScope (TrimSpace scope)) = false /\
    negb (String.eqb (TrimSpace scope) "") && negb (hasScope (t_Scopes r) (TrimSpace scope)) = false).
  { destruct Hscope as [->|Hin]; [done|]. rewrite (proj2 (hasScope_spec _ _) Hin).
    unfold isKnownScope. rewrite bool_decide_true by apply (proj1 (Forall_forall _ _) Hleg _ Hin).
    by rewrite !andb_false_r. }
  destruct Hgood as [-> ->]. rewrite Hid. destruct (MarkUsed b id now) as [e b']. cbn in Hm. by subst e.
Qed.

Lemma live_token_validates {TT : TokenStoreTotal S} s id r token scope now :
  service_ok s -> holds s id r -> t_RevokedAt r = None -> t_TokenHash r = HashToken token ->
  TrimSpace token = token -> token <> ""%string -> legal_scopes knownScopes (t_Scopes r) ->
  TrimSpace scope = ""%string \/ TrimSpace scope ∈ t_Scopes r ->
  exists s', ValidateToken s token scope now = (Ok (mkValidationResult true id (t_Scopes r)), s').
Proof.
  intros Hok Hr Hl Hh Htrim Hne Hleg Hscope. destruct s as [b|]; [|done]. eexists.
  apply live_token_validates_at; try done; [apply LookupByHash_total|apply MarkUsed_total].
Qed.

(** The id of an issued token is what it is revoked by. *)
Lemma CreateToken_id s req now random c s' :
  CreateToken s req now random = (Ok c, s') -> TrimSpace (c_ID c) = c_ID c /\ c_ID c <> ""%string.
Proof.
  unfold CreateToken. destruct s as [a|]; [|done]. cbv zeta. destruct (String.eqb _ _); [done|].
  destruct (randomSecret "ph_" 32 random) as [[token|] random1]; [|done].
  destruct (randomSecret "tok_" 16 random1) as [[id|] random2] eqn:Ei; [|done].
  destruct (normalizeScopes (cr_Scopes req)); [|done]. destruct (Create a _) as [[|] b]; [done|]. intros [= <- _].
  by apply randomSecret_trim in Ei.
Qed.

(** Revoking a record leaves it revoked. *)
Lemma RevokeToken_revokes s id r now s' :
  service_ok s -> holds s id r -> TrimSpace id = id -> id <> ""%string -> RevokeToken s id now = (None, s') ->
  service_ok s' /\ exists r', holds s' id r' /\ t_RevokedAt r' <> None /\ t_TokenHash r' = t_TokenHash r.
Proof.
  intros Hok Hr Ht Hne E. assert (Hstep : token_step s s').
  { replace s' with (snd (RevokeToken s id now)) by by rewrite E. constructor. }
  destruct (steps_grow _ _ _ _ (rtc_once _ _ Hstep) Hok Hr) as [Hok' _]. split; [done|]. revert E.
  unfold RevokeToken. destruct s as [a|]; [|done]. cbv zeta. rewrite Ht. destruct (String.eqb_spec id ""); [done|].
  destruct (Revoke a id now) as [e b] eqn:Er. intros [= -> <-]. destruct Hok as [Ha _].
  apply (Revoke_law _ _ _ _ _ Ha) in Er as [_ Hs]. cbn in Hs, Hr. exists (set_RevokedAt r (keeps now)).
  cbn. rewrite Hs, lookup_alter_eq, Hr. done.
Qed.

(** An issued token works: from the moment [CreateToken] returns it, and
    through any later calls, validating it names the issued id and scopes for
    every scope it was issued with, as long as it has not been revoked. *)
Lemma issued_token_works {TT : TokenStoreTotal S} s req now random c s1 s2 scope now' :
  service_ok s -> CreateToken s req now random = (Ok c, s1) -> rtc token_step s1 s2 ->
  (forall r, holds s2 (c_ID c) r -> t_RevokedAt r = None) ->
  TrimSpace scope = ""%string \/ TrimSpace scope ∈ c_Scopes c ->
  exists s3, ValidateToken s2 (c_Token c) scope now' =
    (Ok (mkValidationResult true (c_ID c) (c_Scopes c)), s3).
Proof.
  intros Hok Hc Hsteps Hlive Hscope.
  destruct (CreateToken_ok _ _ _ _ _ _ Hok Hc) as (r & Hr & Hh & _ & Hsc & Hleg & _ & Htrim & Hne & Hok1).
  destruct (steps_grow _ _ _ _ Hsteps Hok1 Hr) as (Hok2 & r2 & Hr2 & Eid & Eh & Esc & _).
  assert (Hs2 : t_Scopes r2 = c_Scopes c) by congruence. rewrite <- Hs2 in *.
  apply live_token_validates; try done; [by apply Hlive|congruence].
Qed.
End properties.

(** ** On the memory store *)
Module Witness_tokens.
#[local] Instance sha : SHA256 := {| Sum256 s := to_bytes s |}.
#[local] Instance store : TokenStore MemoryStore := memory_store ErrTokenAlreadyExists.
Definition s0 : option MemoryStore := Some NewMemoryStore.
Definition random : list (option bytes) := [Some (to_bytes "secret"); Some (to_bytes "id")].
Definition created := CreateToken s0 (mkCreateTokenRequest "ci" []) 10 random.
Lemma s0_ok : service_ok s0.
Proof. split; [apply NewMemoryStore_ok|]. intros i j x y Hx. exfalso; exact (lookup_empty_Some i x Hx). Qed.

Lemma issued_token_works_witness :
  exists c s3, fst created = Ok c /\
    ValidateToken (snd created) (c_Token c) "register_tunnel" 20 =
      (Ok (mkValidationResult true (c_ID c) ["register_tunnel"%string]), s3).
Proof.
  destruct created as [[c|e] s1] eqn:E; [|by vm_compute in E]. exists c.
  assert (Hc : c_Scopes c = ["register_tunnel"%string]) by (vm_compute in E; by injection E as <- _).
  destruct (issued_token_works s0 (mkCreateTokenRequest "ci" []) 10 random c s1 s1 "register_tunnel" 20)
    as [s3 H].
  - apply s0_ok.
  - exact E.
  - apply rtc_refl.
  - vm_compute in E. injection E as <- <-. intros r Hr. vm_compute in Hr. by injection Hr as <-.
  - right. rewrite Hc. vm_compute. by left.
  - rewrite Hc in H. exists s3. by split.
Defined.

(** A revoked token next to a live one. *)
Definition revoked : TokenRecord := mkTokenRecord "tok_old" "old" (HashToken "ph_old") ["register_tunnel"%string] 1 None (Some 5).
Definition live : TokenRecord := mkTokenRecord "tok_new" "new" (HashToken "ph_new") ["register_tunnel"%string] 2 None None.
Definition two : option MemoryStore :=
  Some (snd (Create (snd (Create NewMemoryStore revoked)) live)).
Lemma two_ok : service_ok two.
Proof. do 2 apply Create_service_ok. apply s0_ok. Qed.

Lemma revoked_for_good_witness :
  exists v s'', ValidateToken two " ph_new " "" 9 = (Ok v, s'') /\ v_TokenID v <> "tok_old"%string.
Proof.
  destruct (ValidateToken two " ph_new " "" 9) as [[v|e] s''] eqn:E; [|by vm_compute in E].
  exists v, s''. split; [done|].
  refine (proj1 (revoked_for_good two two "tok_old" revoked " ph_new " "" 9 v s'' two_ok _ _ _ E _)).
  - reflexivity.
  - discriminate.
  - apply rtc_refl.
  - vm_compute in E. by injection E as <- _.
Defined.
End Witness_tokens.
