(* ===== verification/AdminTokens.v ===== *)
(** server/control-plane/internal/admintokens/service.go: the tokens of
    operators, with scopes over the admin API.  The records and the store are
    those of [TokenStore]. *)
From S2P Require Import Prelude GoStrings Base64 ControlPlaneClient Stores TokenStore.
From Stdlib Require Import ZArith Lia List String Ascii Bool.
From stdpp Require Import base gmap strings list.

Open Scope Z_scope.

Definition ScopeAdminTokens : string := "admin_tokens".
Definition ScopeTokens : string := "tokens".
Definition ScopeReservations : string := "reservations".
Definition ScopeDomains : string := "domains".
Definition ScopeAccessPolicies : string := "access_policies".
Definition ScopeAuditHistory : string := "audit_history".
Definition ScopeRuntimeDiagnostics : string := "runtime_diagnostics".

Definition ErrTokenAlreadyExists : error :=
  Sentinel "admintokens.ErrTokenAlreadyExists" "admin token already exists".
Definition ErrTokenNameRequired : error :=
  Sentinel "admintokens.ErrTokenNameRequired" "admin token name is required".
Definition ErrUnsupportedScope : error :=
  Sentinel "admintokens.ErrUnsupportedScope" "unsupported admin token scope".
Definition token_store_required : error := Errorf "admin token store is required".

Record CreateTokenRequest := mkCreateTokenRequest { cr_Name : string; cr_Scopes : list string }.
Record CreatedToken := mkCreatedToken {
  c_ID : string; c_Name : string; c_Token : string; c_Scopes : list string; c_CreatedAt : Time;
}.
Record TokenSummary := mkTokenSummary {
  s_ID : string; s_Name : string; s_Scopes : list string;
  s_CreatedAt : Time; s_LastUsedAt : option Time; s_RevokedAt : option Time;
}.
Record ValidationResult := mkValidationResult {
  v_Valid : bool; v_TokenID : string; v_Name : string; v_Scopes : list string;
}.
Definition invalid : ValidationResult := mkValidationResult false "" "" [].

Definition knownScopes : list string :=
  [ScopeAdminTokens; ScopeTokens; ScopeReservations; ScopeDomains; ScopeAccessPolicies;
   ScopeAuditHistory; ScopeRuntimeDiagnostics].
Definition KnownScopes : list string := knownScopes.
Definition DefaultScopes : list string := KnownScopes.
Definition isKnownScope (scope : string) : bool := bool_decide (scope ∈ knownScopes).
Fixpoint hasScope (scopes : list string) (required : string) : bool :=
  match scopes with
  | [] => false
  | scope :: rest => if String.eqb scope required then true else hasScope rest required
  end.

Definition HashToken {H : SHA256} (token : string) : string := sha256_hex token.
Definition randomSecret (prefix : string) (bytesLen : nat) : secretReader -> result string * secretReader :=
  random_secret "generate admin token secret" prefix bytesLen.
Definition unsupported (scope : string) : error :=
  Suffix ErrUnsupportedScope (" " +:+ Quote scope).
Definition normalizeScopes (scopes : list string) : result (list string) :=
  scopes_loop knownScopes unsupported [] scopes.
Definition summaryFromRecord (r : TokenRecord) : TokenSummary :=
  mkTokenSummary (t_ID r) (t_Name r) (t_Scopes r) (t_CreatedAt r) (t_LastUsedAt r) (t_RevokedAt r).

(** The first required scope that is not one of the known ones. *)
Fixpoint first_unknown (scopes : list string) : option string :=
  match scopes with
  | [] => None
  | scope :: rest =>
      let scope := TrimSpace scope in
      if negb (String.eqb scope "") && negb (isKnownScope scope) then Some scope else first_unknown rest
  end.
(** The required scopes, none of them empty, are all granted. *)
Fixpoint has_all (granted required : list string) : bool :=
  match required with
  | [] => true
  | scope :: rest =>
      if String.eqb scope "" then has_all granted rest
      else if negb (hasScope granted scope) then false else has_all granted rest
  end.

Section service.
Context {H256 : SHA256} {S : Type} {TS : TokenStore S}.

Definition Ready (s : option S) : option error :=
  match s with None => Some token_store_required | Some store => Ping store end.

Definition CreateToken (s : option S) (req : CreateTokenRequest) (now : Time) (random : secretReader)
    : result CreatedToken * option S :=
  match s with
  | None => (Err token_store_required, s)
  | Some store =>
      let name := TrimSpace (cr_Name req) in
      if String.eqb name "" then (Err ErrTokenNameRequired, s)
      else
        match normalizeScopes (cr_Scopes req) with
        | Err e => (Err e, s)
        | Ok scopes =>
            let scopes := match scopes with [] => DefaultScopes | _ => scopes end in
            match randomSecret "pat_" 32 random with
            | (Err e, _) => (Err e, s)
            | (Ok token, random) =>
                match randomSecret "adm_" 16 random with
                | (Err e, _) => (Err e, s)
                | (Ok id, _) =>
                    let record := mkTokenRecord id name (HashToken token) scopes now None None in
                    match Create store record with
                    | (Some e, store') => (Err e, Some store')
                    | (None, store') => (Ok (mkCreatedToken id name token scopes now), Some store')
                    end
                end
            end
        end
  end.

Definition ValidateToken (s : option S) (token : string) (requiredScopes : list string) (now : Time)
    : result ValidationResult * option S :=
  match s with
  | None => (Err token_store_required, s)
  | Some store =>
      let token := TrimSpace token in
      if String.eqb token "" then (Ok invalid, s)
      else
        match first_unknown requiredScopes with
        | Some scope => (Err (unsupported scope), s)
        | None =>
            match LookupByHash store (HashToken token) with
            | Err e => (Err e, s)
            | Ok None => (Ok invalid, s)
            | Ok (Some record) =>
                match t_RevokedAt record with
                | Some _ => (Ok invalid, s)
                | None =>
                    if negb (has_all (t_Scopes record) requiredScopes) then (Ok invalid, s)
                    else
                      match MarkUsed store (t_ID record) now with
                      | (Some e, store') => (Err e, Some store')
                      | (None, store') =>
                          (Ok (mkValidationResult true (t_ID record) (t_Name record) (t_Scopes record)),
                           Some store')
                      end
                end
            end
        end
  end.

Definition ListTokens (s : option S) : result (list TokenSummary) :=
  match s with
  | None => Err token_store_required
  | Some store => try l <- List_ store; Ok (map summaryFromRecord l)
  end.

Definition GetToken (s : option S) (id : string) : result (option TokenSummary) :=
  match s with
  | None => Err token_store_required
  | Some store =>
      let id := TrimSpace id in
      if String.eqb id "" then Ok None
      else try o <- LookupByID store id; Ok (summaryFromRecord <$> o)
  end.

Definition RevokeToken (s : option S) (id : string) (now : Time) : option error * option S :=
  match s with
  | None => (Some token_store_required, s)
  | Some store =>
      let id := TrimSpace id in
      if String.eqb id "" then (None, s)
      else let '(e, store') := Revoke store id now in (e, Some store')
  end.

(** Any call on the service. *)
Inductive admin_token_step : option S -> option S -> Prop :=
| step_create s req now random : admin_token_step s (snd (CreateToken s req now random))
| step_validate s token scopes now : admin_token_step s (snd (ValidateToken s token scopes now))
| step_revoke s id now : admin_token_step s (snd (RevokeToken s id now)).
End service.

Section properties.
Context {H256 : SHA256} {S : Type} {TS : TokenStore S} {TL : TokenStoreLaws S}.

Lemma admin_hasScope_spec scopes required : hasScope scopes required = true <-> required ∈ scopes.
Proof.
  induction scopes as [|x l IH]; cbn; [set_solver|].
  destruct (String.eqb_spec x required) as [->|]; [set_solver|]. rewrite IH. set_solver.
Qed.

Lemma has_all_spec granted required :
  has_all granted required = true <-> forall s, s ∈ required -> s <> ""%string -> s ∈ granted.
Proof.
  induction required as [|x l IH]; cbn; [split; [set_solver|done]|].
  destruct (String.eqb_spec x "") as [->|Hx].
  - rewrite IH. split; [intros H s [->|Hs]%elem_of_cons; [done|auto]|intros H s Hs; apply H; by right].
  - pose proof (admin_hasScope_spec granted x) as Hh. destruct (hasScope granted x); cbn [negb].
    + rewrite IH. split; [intros H s [->|Hs]%elem_of_cons; [by rewrite <- Hh|auto]|intros H s Hs; apply H; by right].
    + split; [done|]. intros H. apply Hh, H; [by left|done].
Qed.

(** The store behind a service is well formed. *)
Definition admin_store_ok (s : option S) : Prop := match s with None => True | Some store => store_ok store end.

Lemma admin_token_step_ok s s' : admin_token_step s s' -> admin_store_ok s -> admin_store_ok s'.
Proof.
  intros [[a|] req now random|[a|] token scopes now|[a|] id now] H; try done; cbn in H;
    unfold CreateToken, ValidateToken, RevokeToken; cbv zeta; repeat case_match; try done; cbn; simplify_eq;
    match goal with
    | E : Create _ _ = _ |- _ => by apply Create_law in E as (? & _)
    | E : MarkUsed _ _ _ = _ |- _ => by apply MarkUsed_law in E as (? & _)
    | E : Revoke _ _ _ = _ |- _ => by apply Revoke_law in E as (? & _)
    end.
Qed.

(** A valid answer names a live record of the token with the scopes asked for. *)
Lemma admin_validate_sound (store : S) token required now v s' :
  store_ok store -> ValidateToken (Some store) token required now = (Ok v, s') -> v_Valid v = true ->
  exists r, records store !! v_TokenID v = Some r /\ t_TokenHash r = HashToken (TrimSpace token) /\
    t_RevokedAt r = None /\ v_Scopes v = t_Scopes r /\ v_Name v = t_Name r /\
    forall s, s ∈ required -> s <> ""%string -> s ∈ t_Scopes r.
Proof.
  intros Hok. unfold ValidateToken. cbv zeta.
  destruct (String.eqb _ ""); [by intros [= <- <-]|]. destruct (first_unknown required); [done|].
  destruct (LookupByHash store _) as [[r|]|] eqn:El; [|by intros [= <- <-]|done].
  apply (LookupByHash_law _ _ _ Hok) in El as [Hr Hh].
  destruct (t_RevokedAt r) eqn:Ev; [by intros [= <- <-]|].
  pose proof (has_all_spec (t_Scopes r) required) as Hs.
  destruct (has_all _ _); cbn [negb]; [|by intros [= <- <-]].
  destruct (MarkUsed store _ _) as [[|] b]; [done|]. intros [= <- <-] _. exists r.
  repeat split; try done. by apply Hs.
Qed.
End properties.
