(* ===== verification/Reserved.v ===== *)
(** server/control-plane/internal/reserved: subdomains reserved for a token.
    The service is written against the Go interface [Store]; its properties
    are those it has on the memory store. *)
From S2P Require Import Prelude GoStrings Names Base64 ControlPlaneClient Stores.
From Stdlib Require Import ZArith Lia List String Ascii Bool.
From stdpp Require Import base gmap strings list sorting relations.

Open Scope Z_scope.

Record ReservationRecord := mkReservation {
  r_ID : string; r_Name : string; r_TokenID : string; r_CreatedAt : Time;
}.
Record CreateReservationRequest := mkCreateReservation { rr_Name : string; rr_TokenID : string }.
Record AuthorizationResult := mkAuthorizationResult { ar_Allowed : bool; ar_Reason : string }.

Definition ErrReservationAlreadyExists : error :=
  Sentinel "reserved.ErrReservationAlreadyExists" "reserved subdomain already exists".
Definition ErrReservationNameRequired : error :=
  Sentinel "reserved.ErrReservationNameRequired" "reserved subdomain name is required".
Definition ErrReservationTokenIDRequired : error :=
  Sentinel "reserved.ErrReservationTokenIDRequired" "reserved subdomain token_id is required".
Definition ErrReservationNotFound : error :=
  Sentinel "reserved.ErrReservationNotFound" "reserved subdomain not found".
Definition reservation_store_required : error := Errorf "reserved subdomain store is required".

Class ReservationStore (S : Type) : Type := {
  res_Ping : S -> option error;
  res_Create : S -> ReservationRecord -> option error * S;
  res_List : S -> result (list ReservationRecord);
  res_LookupByID : S -> string -> result (option ReservationRecord);
  res_LookupByName : S -> string -> result (option ReservationRecord);
  res_Delete : S -> string -> option error * S;
}.

(** * The service *)
Definition NormalizeName {U : GoUnicode} (name : string) : result string :=
  let name := ToLower (TrimSpace name) in
  if String.eqb name "" then Err ErrReservationNameRequired
  else match ValidateSubdomain name with
       | Err e => Err (Wrap ("invalid reserved subdomain " +:+ Quote name) e)
       | Ok _ => Ok name
       end.

Definition randomReservationID : secretReader -> result string * secretReader :=
  random_secret "generate reserved subdomain id" "rs_" 16.

(** [summarize] copies the four fields; a summary is the record. *)
Definition summarize (record : ReservationRecord) : ReservationRecord :=
  mkReservation (r_ID record) (r_Name record) (r_TokenID record) (r_CreatedAt record).

Section service.
Context {U : GoUnicode} {S : Type} {RS : ReservationStore S}.

Definition res_Ready (s : option S) : option error :=
  match s with None => Some reservation_store_required | Some store => res_Ping store end.

Definition CreateReservation (s : option S) (req : CreateReservationRequest) (now : Time)
    (random : secretReader) : result ReservationRecord * option S :=
  match s with
  | None => (Err reservation_store_required, s)
  | Some store =>
      match NormalizeName (rr_Name req) with
      | Err e => (Err e, s)
      | Ok name =>
          let tokenID := TrimSpace (rr_TokenID req) in
          if String.eqb tokenID "" then (Err ErrReservationTokenIDRequired, s)
          else
            match randomReservationID random with
            | (Err e, _) => (Err e, s)
            | (Ok id, _) =>
                let record := mkReservation id name tokenID now in
                match res_Create store record with
                | (Some e, store') =>
                    (Err (if errors_Is e ErrReservationAlreadyExists then e
                          else Wrap "create reserved subdomain" e), Some store')
                | (None, store') => (Ok (mkReservation id name tokenID now), Some store')
                end
            end
      end
  end.

Definition ListReservations (s : option S) : result (list ReservationRecord) :=
  match s with
  | None => Err reservation_store_required
  | Some store => try l <- res_List store; Ok (map summarize l)
  end.

Definition GetReservation (s : option S) (id : string) : result (option ReservationRecord) :=
  match s with
  | None => Err reservation_store_required
  | Some store =>
      let id := TrimSpace id in
      if String.eqb id "" then Ok None
      else try o <- res_LookupByID store id; Ok (summarize <$> o)
  end.

Definition GetReservationByName (s : option S) (name : string) : result (option ReservationRecord) :=
  match s with
  | None => Err reservation_store_required
  | Some store =>
      try name <- NormalizeName name;
      try o <- res_LookupByName store name; Ok (summarize <$> o)
  end.

Definition DeleteReservation (s : option S) (id : string) : option error * option S :=
  match s with
  | None => (Some reservation_store_required, s)
  | Some store =>
      let id := TrimSpace id in
      if String.eqb id "" then (Some ErrReservationNotFound, s)
      else match res_LookupByID store id with
           | Err e => (Some e, s)
           | Ok None => (Some ErrReservationNotFound, s)
           | Ok (Some _) =>
               match res_Delete store id with
               | (Some e, store') => (Some (Wrap "delete reserved subdomain" e), Some store')
               | (None, store') => (None, Some store')
               end
           end
  end.

Definition Authorize (s : option S) (tokenID subdomain : string) : result AuthorizationResult :=
  match s with
  | None => Err reservation_store_required
  | Some store =>
      let tokenID := TrimSpace tokenID in
      if String.eqb tokenID "" then Ok (mkAuthorizationResult false "missing_token_id")
      else
        try name <- NormalizeName subdomain;
        try o <- res_LookupByName store name;
        match o with
        | None => Ok (mkAuthorizationResult false "not_reserved")
        | Some record =>
            if negb (String.eqb (r_TokenID record) tokenID)
            then Ok (mkAuthorizationResult false "reserved_for_another_token")
            else Ok (mkAuthorizationResult true "")
        end
  end.

Inductive reservation_step : option S -> option S -> Prop :=
| step_reserve s req now random : reservation_step s (snd (CreateReservation s req now random))
| step_unreserve s id : reservation_step s (snd (DeleteReservation s id)).
End service.

(** * The memory store *)
Record MemoryStore := mkMemoryStore {
  byID : gmap string ReservationRecord;
  byName : gmap string string;
}.
Definition NewMemoryStore : MemoryStore := mkMemoryStore ∅ ∅.

Definition by_name (a b : ReservationRecord) : Prop :=
  if String.eqb (r_Name a) (r_Name b) then String.leb (r_ID a) (r_ID b) = true
  else String.leb (r_Name a) (r_Name b) = true.
#[export] Instance by_name_dec : RelDecision by_name.
Proof. intros a b. unfold by_name. case_match; apply _. Defined.

Definition mem_Create (s : MemoryStore) (record : ReservationRecord) : option error * MemoryStore :=
  if bool_decide (is_Some (byID s !! r_ID record)) then (Some ErrReservationAlreadyExists, s)
  else if bool_decide (is_Some (byName s !! r_Name record)) then (Some ErrReservationAlreadyExists, s)
  else (None, mkMemoryStore (<[r_ID record := record]> (byID s))
                (<[r_Name record := r_ID record]> (byName s))).
Definition mem_List (s : MemoryStore) : result (list ReservationRecord) :=
  Ok (merge_sort by_name (map_to_list (byID s)).*2).
Definition mem_LookupByID (s : MemoryStore) (id : string) : result (option ReservationRecord) :=
  Ok (byID s !! id).
Definition mem_LookupByName (s : MemoryStore) (name : string) : result (option ReservationRecord) :=
  match byName s !! name with
  | None => Ok None
  | Some id => Ok (byID s !! id)
  end.
Definition mem_Delete (s : MemoryStore) (id : string) : option error * MemoryStore :=
  match byID s !! id with
  | None => (None, s)
  | Some record => (None, mkMemoryStore (delete id (byID s)) (delete (r_Name record) (byName s)))
  end.

#[export] Instance memory_store : ReservationStore MemoryStore := {|
  res_Ping _ := None;
  res_Create := mem_Create;
  res_List := mem_List;
  res_LookupByID := mem_LookupByID;
  res_LookupByName := mem_LookupByName;
  res_Delete := mem_Delete;
|}.

(** * Properties *)
Section properties.
Context {U : GoUnicode}.

(** Every reservation is for a valid name and a token, and no name is
    reserved twice. *)
Definition store_ok (s : MemoryStore) : Prop :=
  indexed r_ID r_Name (byID s) (byName s) /\
  forall i r, byID s !! i = Some r -> valid_subdomain (r_Name r) /\ r_TokenID r <> ""%string.
Definition service_ok (s : option MemoryStore) : Prop := match s with None => True | Some m => store_ok m end.

Lemma NormalizeName_ok name n : NormalizeName name = Ok n -> valid_subdomain n /\ n = ToLower (TrimSpace name).
Proof.
  unfold NormalizeName. cbv zeta. destruct (String.eqb _ _); [done|].
  destruct (ValidateSubdomain _) as [[]|] eqn:E; [|done]. intros [= <-].
  by rewrite <- ValidateSubdomain_valid.
Qed.
Lemma NormalizeName_valid n : valid_subdomain n -> NormalizeName n = Ok n.
Proof.
  intros H. unfold NormalizeName. rewrite valid_subdomain_TrimSpace, valid_subdomain_ToLower by done.
  destruct (String.eqb_spec n "") as [->|]; [by apply valid_subdomain_nonempty in H|].
  by rewrite (proj2 (ValidateSubdomain_valid n)).
Qed.

Lemma mem_LookupByName_find s n : mem_LookupByName s n = Ok (find_by (byID s) (byName s) n).
Proof. unfold mem_LookupByName, find_by. by case_match. Qed.

Lemma reserve_ok s r :
  store_ok s -> valid_subdomain (r_Name r) -> r_TokenID r <> ""%string -> store_ok (snd (mem_Create s r)).
Proof.
  intros [Hi Hv] Hn Ht. unfold mem_Create. case_bool_decide as H1; [done|]. case_bool_decide as H2; [done|].
  apply eq_None_not_Some in H1, H2. split; [by apply indexed_insert|].
  intros i x. cbn. rewrite lookup_insert_Some. intros [[<- <-]|[_ Hx]]; [done|by apply (Hv i)].
Qed.

Lemma unreserve_ok s id : store_ok s -> store_ok (snd (mem_Delete s id)).
Proof.
  intros [Hi Hv]. unfold mem_Delete. destruct (byID s !! id) as [r|] eqn:E; [|done].
  split; [by apply indexed_delete|]. cbn. intros i x [_ Hx]%lookup_delete_Some. by apply (Hv i).
Qed.

Lemma reservation_step_ok s s' : service_ok s -> reservation_step s s' -> service_ok s'.
Proof.
  intros Hok Hs. inv Hs; destruct s as [m|]; try done.
  - unfold CreateReservation. cbv zeta. destruct (NormalizeName _) as [n|] eqn:En; [|done].
    apply NormalizeName_ok in En as [En _]. destruct (String.eqb_spec (TrimSpace (rr_TokenID req)) ""); [done|].
    destruct (randomReservationID random) as [[id|] r']; [|done].
    cbn [res_Create memory_store].
    pose proof (reserve_ok m (mkReservation id n (TrimSpace (rr_TokenID req)) now) Hok En n0) as H.
    destruct (mem_Create _ _) as [[e|] m']; done.
  - unfold DeleteReservation. cbv zeta. destruct (String.eqb _ _); [done|].
    cbn [res_LookupByID res_Delete memory_store]. unfold mem_LookupByID.
    destruct (byID m !! _); [|done]. pose proof (unreserve_ok m (TrimSpace id) Hok) as H.
    destruct (mem_Delete _ _) as [[e|] m']; done.
Qed.

Definition reachable (s : option MemoryStore) : Prop := rtc reservation_step (Some NewMemoryStore) s.
Lemma reservations_ok s : reachable s -> service_ok s.
Proof.
  apply (rtc_ind_r service_ok); [|intros y z _ Hs IH; by eapply reservation_step_ok].
  split; [apply indexed_empty|]. intros i r Hr. exfalso. exact (lookup_empty_Some i r Hr).
Qed.

(** C21: a reserved subdomain belongs to one token: whatever reservations were
    made and deleted, [Authorize] allows a token exactly when the store holds
    a reservation of the normalised name for it, denies every other token, and
    an allowed name is a valid label. *)
Theorem reservation_exclusive m tokenID subdomain res :
  reachable (Some m) -> Authorize (Some m) tokenID subdomain = Ok res ->
  (ar_Allowed res = true <->
     exists name r, NormalizeName subdomain = Ok name /\ byID m !! r_ID r = Some r /\
       r_Name r = name /\ r_TokenID r = TrimSpace tokenID) /\
  (ar_Allowed res = true -> forall other res',
     Authorize (Some m) other subdomain = Ok res' -> ar_Allowed res' = true ->
     TrimSpace other = TrimSpace tokenID).
Proof.
  intros Hr HA. apply reservations_ok in Hr as [Hi Hv].
  assert (Hspec : forall tok res, Authorize (Some m) tok subdomain = Ok res ->
    (ar_Allowed res = true <->
     exists name r, NormalizeName subdomain = Ok name /\ byID m !! r_ID r = Some r /\
       r_Name r = name /\ r_TokenID r = TrimSpace tok)).
  { intros tok x. unfold Authorize. cbv zeta. destruct (String.eqb_spec (TrimSpace tok) "") as [E0|E0].
    { intros [= <-]. split; [done|]. intros (n & r & _ & H & _ & Ht). destruct (Hv _ _ H). congruence. }
    destruct (NormalizeName subdomain) as [n|] eqn:En; [|done]. cbn [rbind res_LookupByName memory_store].
    rewrite mem_LookupByName_find. cbn [rbind]. destruct (find_by _ _ n) as [r|] eqn:Ef.
    - apply (find_by_spec r_ID r_Name) in Ef as [Hr Hn]; [|done].
      destruct (String.eqb_spec (r_TokenID r) (TrimSpace tok)); intros [= <-]; cbn.
      + split; [|done]. intros _. by exists n, r.
      + split; [done|]. intros (n' & r' & [= <-] & Hr' & Hn' & Ht').
        destruct (idx_id _ _ _ _ Hi _ _ Hr) as [_ Hk]. destruct (idx_id _ _ _ _ Hi _ _ Hr') as [_ Hk'].
        rewrite Hn' in Hk'. rewrite Hn, Hk' in Hk. injection Hk as Hk. rewrite Hk, Hr in Hr'. congruence.
    - intros [= <-]. split; [done|]. intros (n' & r & [= <-] & Hr & Hn & _).
      by destruct (proj1 (find_by_None r_ID r_Name _ _ _ Hi) Ef _ _ Hr). }
  split; [by apply Hspec|]. intros Ha other res' HA' Ha'.
  apply (Hspec _ _ HA) in Ha as (n & r & En & Hr & Hn & Ht).
  apply (Hspec _ _ HA') in Ha' as (n' & r' & En' & Hr' & Hn' & Ht').
  rewrite En in En'. injection En' as <-.
  destruct (idx_id _ _ _ _ Hi _ _ Hr) as [_ Hk]. destruct (idx_id _ _ _ _ Hi _ _ Hr') as [_ Hk'].
  rewrite Hn in Hk. rewrite Hn', Hk in Hk'. injection Hk' as Hk'. rewrite Hk', Hr' in Hr. congruence.
Qed.
End properties.

Module Witness_reserved.
#[local] Instance unicode : GoUnicode := {| lower_nonascii s := s; upper_nonascii s := s |}.
Definition created :=
  CreateReservation (Some NewMemoryStore) (mkCreateReservation " Demo " "tok_1") 5 [Some (to_bytes "x")].
Lemma reservation_exclusive_witness :
  match snd created with
  | Some m =>
      Authorize (Some m) "tok_1" "demo" = Ok (mkAuthorizationResult true "") /\
      forall other res', Authorize (Some m) other "demo" = Ok res' -> ar_Allowed res' = true ->
        TrimSpace other = "tok_1"%string
  | None => False
  end.
Proof.
  destruct (snd created) as [m|] eqn:E; [|by vm_compute in E].
  assert (HA : Authorize (Some m) "tok_1" "demo" = Ok (mkAuthorizationResult true ""))
    by (vm_compute in E; injection E as <-; by vm_compute).
  split; [exact HA|].
  refine (proj2 (reservation_exclusive m "tok_1" "demo" _ _ HA) eq_refl).
  rewrite <- E. apply rtc_once. constructor.
Defined.
End Witness_reserved.
