(* ===== verification/Password.v ===== *)
(** server/control-plane/internal/access/password.go: passwords kept as
    Argon2id hashes in PHC text form.  The key derivation is the parameter
    [IDKey] of [golang.org/x/crypto/argon2]; the text form, its parser
    ([fmt.Sscanf] included) and the comparison are the program's. *)
From S2P Require Import Prelude GoStrings Base64 ControlPlaneClient Stores.
From Stdlib Require Import ZArith Lia List String Ascii Bool.
From stdpp Require Import base strings list.

Open Scope Z_scope.

(** [argon2.IDKey(password, salt, time, memory, threads, keyLen)]; it returns
    [keyLen] bytes. *)
Class Argon2 : Type := {
  IDKey : bytes -> bytes -> Z -> Z -> Z -> Z -> bytes;
  IDKey_length : forall password salt time memory threads keyLen,
    0 <= keyLen -> Z.of_nat (length (IDKey password salt time memory threads keyLen)) = keyLen;
}.
Definition argon2_Version : Z := 19.

Definition argon2idPrefix : string := "$argon2id$".
Definition argon2idMemoryKiB : Z := 19 * 1024.
Definition argon2idIterations : Z := 2.
Definition argon2idParallel : Z := 1.
Definition argon2idSaltBytes : nat := 16.
Definition argon2idKeyBytes : Z := 32.
Definition ErrPasswordHashMalformed : error :=
  Sentinel "access.ErrPasswordHashMalformed" "malformed argon2id password hash".

(** * [fmt.Sscanf] with literals and [%d] *)

(** A literal of the format. *)
Definition scan_literal (lit : string) (l : bytes) : option bytes :=
  if String.prefix lit (of_bytes l) then Some (drop (String.length lit) l) else None.

Fixpoint take_digits (l : bytes) : bytes * bytes :=
  match l with
  | c :: l' => if is_digit c then let '(d, rest) := take_digits l' in (c :: d, rest) else ([], l)
  | [] => ([], [])
  end.

(** [%d] into an integer between [lo] and [hi]: blanks that are not newlines,
    a sign if the type has one, digits. *)
Definition scan_d (signed : bool) (lo hi : Z) (l : bytes) : option (Z * bytes) :=
  let rest := trim_left l in
  let skipped := take (length l - length rest) l in
  if bytes_mem (chr 10) skipped then None
  else
    let '(sign, rest) :=
      match rest with
      | c :: r => if signed && Ascii.eqb c "-" then (-1, r)
                  else if signed && Ascii.eqb c "+" then (1, r) else (1, rest)
      | [] => (1, rest)
      end in
    let '(ds, rest) := take_digits rest in
    match ds with
    | [] => None
    | _ =>
        match parse_digits 0 ds with
        | Some n => let v := sign * n in
                    if (lo <=? v) && (v <=? hi) then Some (v, rest) else None
        | None => None
        end
    end.
Definition scan_int : bytes -> option (Z * bytes) := scan_d true min_int64 max_int64.
Definition scan_uint32 : bytes -> option (Z * bytes) := scan_d false 0 (2 ^ 32 - 1).
Definition scan_uint8 : bytes -> option (Z * bytes) := scan_d false 0 255.

(** * Hashing and parsing *)
Section password.
Context {A2 : Argon2}.

Definition format_hash (salt key : bytes) : string :=
  Sprintf "%sv=%d$m=%d,t=%d,p=%d$%s$%s"
    [argon2idPrefix; Itoa argon2_Version; Itoa argon2idMemoryKiB; Itoa argon2idIterations;
     Itoa argon2idParallel; RawStdEncode salt; RawStdEncode key].

Definition HashPassword (password : string) (random : secretReader) : result string * secretReader :=
  match rand_Read argon2idSaltBytes random with
  | (Err e, random') => (Err (Wrap "generate password salt" e), random')
  | (Ok salt, random') =>
      let key := IDKey (to_bytes password) salt argon2idIterations argon2idMemoryKiB
                   argon2idParallel argon2idKeyBytes in
      (Ok (format_hash salt key), random')
  end.

Definition IsPasswordHash (hash : string) : bool := HasPrefix hash argon2idPrefix.

Record argon2idHash := mkArgon2idHash {
  memoryKiB : Z; iterations : Z; parallel : Z; salt : bytes; key : bytes;
}.

Definition malformed (detail : string) : error :=
  Suffix ErrPasswordHashMalformed (": " +:+ detail).

Definition parse_version (field : string) : result Z :=
  match scan_literal "v=" (to_bytes field) with
  | None => Err (malformed "version")
  | Some rest => match scan_int rest with None => Err (malformed "version") | Some (v, _) => Ok v end
  end.

Definition parse_params (field : string) : result (Z * Z * Z) :=
  match scan_literal "m=" (to_bytes field) with
  | None => Err (malformed "parameters")
  | Some r1 =>
  match scan_uint32 r1 with
  | None => Err (malformed "parameters")
  | Some (m, r2) =>
  match scan_literal ",t=" r2 with
  | None => Err (malformed "parameters")
  | Some r3 =>
  match scan_uint32 r3 with
  | None => Err (malformed "parameters")
  | Some (t, r4) =>
  match scan_literal ",p=" r4 with
  | None => Err (malformed "parameters")
  | Some r5 =>
  match scan_uint8 r5 with
  | None => Err (malformed "parameters")
  | Some (p, _) => Ok (m, t, p)
  end end end end end end.

Definition decode_field (field : string) : result bytes :=
  match RawStdDecode field with None => Err (malformed "base64") | Some d => Ok d end.

Definition parseArgon2idHash (hash : string) : result argon2idHash :=
  if negb (HasPrefix hash argon2idPrefix) then Err ErrPasswordHashMalformed
  else
    match Split (TrimPrefix hash argon2idPrefix) "$" with
    | [f0; f1; f2; f3] =>
        try version <- parse_version f0;
        if negb (version =? argon2_Version) then Err (malformed ("unsupported version " +:+ Itoa version))
        else
          try params <- parse_params f1;
          try salt <- decode_field f2;
          try key <- decode_field f3;
          match salt, key with
          | [], _ | _, [] => Err ErrPasswordHashMalformed
          | _, _ => let '(m, t, p) := params in Ok (mkArgon2idHash m t p salt key)
          end
    | _ => Err ErrPasswordHashMalformed
    end.

Definition VerifyPassword (hash password : string) : result bool :=
  try h <- parseArgon2idHash hash;
  let candidate := IDKey (to_bytes password) (salt h) (iterations h) (memoryKiB h) (parallel h)
                     (Z.of_nat (length (key h)) mod 2 ^ 32) in
  Ok (bool_decide (candidate = key h)).
End password.

(** * A stored password verifies *)

Lemma base64_no_dollar l : ~ In "$"%char (to_bytes (RawStdEncode l)).
Proof.
  unfold RawStdEncode, EncodeToString. rewrite to_of_bytes, encode_sextets. intros H.
  apply in_map_iff in H as (v & Hv & Hin). pose proof (sextets_range l) as Hr.
  rewrite Forall_forall in Hr. specialize (Hr v (proj2 (list_elem_of_In _ _) Hin)). cbv beta in Hr.
  assert (Hall : Forall (fun c => c <> "$"%char) (to_bytes encodeStd)) by (by repeat constructor).
  rewrite Forall_forall in Hall. apply (Hall (sextet_char encodeStd v)); [|done].
  apply list_elem_of_In. unfold sextet_char. apply nth_In.
  replace (length (to_bytes encodeStd)) with 64%nat by reflexivity.
  rewrite <- (Nat2Z.id 64). apply Z2Nat.inj_lt; lia.
Qed.

Section verify.
Context {A2 : Argon2}.

Definition hash_params : string := "m=19456,t=2,p=1".
Lemma format_hash_eq salt key :
  format_hash salt key =
  argon2idPrefix +:+ "v=19" +:+ String "$" (hash_params +:+ String "$" (RawStdEncode salt +:+ String "$" (RawStdEncode key))).
Proof.
  unfold format_hash. generalize (RawStdEncode salt) as s, (RawStdEncode key) as k. intros s k.
  set (head := (argon2idPrefix +:+ "v=19$" +:+ hash_params +:+ "$")%string).
  apply to_bytes_inj. unfold Sprintf. rewrite to_of_bytes.
  transitivity (to_bytes head ++ to_bytes s ++ "$"%char :: to_bytes k ++ []); [reflexivity|].
  transitivity (to_bytes (head +:+ (s +:+ String "$" k))); [|reflexivity].
  by rewrite !to_bytes_app, app_nil_r.
Qed.

Lemma parse_format salt key :
  salt <> [] -> key <> [] ->
  parseArgon2idHash (format_hash salt key) =
  Ok (mkArgon2idHash argon2idMemoryKiB argon2idIterations argon2idParallel salt key).
Proof.
  intros Hs Hk. rewrite format_hash_eq. unfold parseArgon2idHash.
  assert (Hp : HasPrefix (argon2idPrefix +:+ "v=19" +:+ String "$" (hash_params +:+ String "$"
      (RawStdEncode salt +:+ String "$" (RawStdEncode key)))) argon2idPrefix = true)
    by (apply prefix_spec; eauto).
  rewrite Hp. cbn [negb]. rewrite TrimPrefix_app.
  rewrite Split_app by (vm_compute; intuition congruence).
  rewrite Split_app by (vm_compute; intuition congruence).
  rewrite Split_app by apply base64_no_dollar. rewrite Split_none by apply base64_no_dollar.
  assert (E0 : parse_version "v=19" = Ok argon2_Version) by reflexivity.
  assert (E1 : parse_params hash_params = Ok (argon2idMemoryKiB, argon2idIterations, argon2idParallel))
    by reflexivity.
  rewrite E0, E1. unfold decode_field. rewrite !RawStd_roundtrip.
  cbn [rbind]. destruct salt, key; done.
Qed.

Lemma HashPassword_ok password random hash random' :
  HashPassword password random = (Ok hash, random') ->
  exists s k, s <> [] /\ k <> [] /\ Z.of_nat (length k) = argon2idKeyBytes /\ hash = format_hash s k /\
    k = IDKey (to_bytes password) s argon2idIterations argon2idMemoryKiB argon2idParallel argon2idKeyBytes.
Proof.
  unfold HashPassword. destruct (rand_Read argon2idSaltBytes random) as [[s|] r'] eqn:Er; [|done].
  cbv zeta. set (k := IDKey _ _ _ _ _ _). intros [= <- <-].
  assert (Hlen : Z.of_nat (length k) = argon2idKeyBytes) by (by apply IDKey_length).
  exists s, k. split_and!; try done.
  - apply rand_Read_length in Er. by intros ->.
  - intros E. by rewrite E in Hlen.
Qed.

Lemma IsPasswordHash_format s k : IsPasswordHash (format_hash s k) = true.
Proof. unfold IsPasswordHash. rewrite format_hash_eq. apply prefix_spec. eauto. Qed.

Lemma VerifyPassword_format s k other :
  s <> [] -> k <> [] -> Z.of_nat (length k) = argon2idKeyBytes ->
  VerifyPassword (format_hash s k) other = Ok (bool_decide
    (IDKey (to_bytes other) s argon2idIterations argon2idMemoryKiB argon2idParallel argon2idKeyBytes = k)).
Proof.
  intros Hs Hk Hlen. unfold VerifyPassword. rewrite parse_format by done.
  cbn [rbind Password.salt Password.key iterations memoryKiB parallel]. rewrite Hlen. reflexivity.
Qed.

Lemma HashPassword_verifies password random hash random' :
  HashPassword password random = (Ok hash, random') ->
  IsPasswordHash hash = true /\ VerifyPassword hash password = Ok true.
Proof.
  intros (s & k & Hs & Hk & Hl & -> & E)%HashPassword_ok. split; [apply IsPasswordHash_format|].
  rewrite VerifyPassword_format by done. by rewrite bool_decide_true.
Qed.

(** C25: the hash stored for a password is recognised as an Argon2id hash and
    verifies that password; any other password verifies exactly when the key
    derived from it under the stored salt and parameters is the stored key. *)
Theorem password_roundtrip password random hash random' :
  HashPassword password random = (Ok hash, random') ->
  IsPasswordHash hash = true /\
  VerifyPassword hash password = Ok true /\
  exists stored_salt stored_key,
    parseArgon2idHash hash =
      Ok (mkArgon2idHash argon2idMemoryKiB argon2idIterations argon2idParallel stored_salt stored_key) /\
    forall other, VerifyPassword hash other = Ok (bool_decide
      (IDKey (to_bytes other) stored_salt argon2idIterations argon2idMemoryKiB argon2idParallel argon2idKeyBytes
         = stored_key)).
Proof.
  intros H. destruct (HashPassword_verifies _ _ _ _ H) as [H1 H2]. split; [done|]. split; [done|].
  apply HashPassword_ok in H as (s & k & Hs & Hk & Hl & -> & _). exists s, k.
  split; [by apply parse_format|]. intros other. by apply VerifyPassword_format.
Qed.
End verify.

(** A toy key derivation of the right length. *)
Definition toy_key (password salt : bytes) (keyLen : Z) : bytes :=
  take (Z.to_nat keyLen) (password ++ salt ++ repeat zero (Z.to_nat keyLen)).
Lemma toy_key_length password salt keyLen :
  0 <= keyLen -> Z.of_nat (length (toy_key password salt keyLen)) = keyLen.
Proof. intros H. unfold toy_key. rewrite length_take, !length_app, repeat_length. lia. Qed.
Definition toy_argon2 : Argon2 := {|
  IDKey password salt _ _ _ keyLen := toy_key password salt keyLen;
  IDKey_length password salt _ _ _ keyLen := toy_key_length password salt keyLen |}.

Lemma password_roundtrip_witness :
  let A2 := toy_argon2 in
  match HashPassword "hunter2" [Some (to_bytes "salt")] with
  | (Ok hash, _) => IsPasswordHash hash = true /\ VerifyPassword hash "hunter2" = Ok true /\
      VerifyPassword hash "hunter3" = Ok false
  | _ => False
  end.
Proof.
  intros A2. destruct (HashPassword "hunter2" [Some (to_bytes "salt")]) as [[hash|e] r] eqn:E;
    [|by vm_compute in E].
  destruct (password_roundtrip "hunter2" [Some (to_bytes "salt")] hash r E) as (H1 & H2 & _).
  split; [exact H1|]. split; [exact H2|]. vm_compute in E. injection E as <- _. by vm_compute.
Defined.
