(* ===== verification/Access.v ===== *)
(** server/control-plane/internal/access: who may reach a reserved subdomain.
    Policies, their service and memory store, and the check a public request
    is put to.  Passwords are in [Password]; addresses are those of
    [net/netip]. *)
From S2P Require Import Prelude GoStrings Base64 Wire ControlPlaneClient ClientIP Stores Password.
From Stdlib Require Import ZArith Lia List String Ascii Bool.
From stdpp Require Import base gmap strings list sorting relations.

Open Scope Z_scope.

(** [PolicyMode] is a string. *)
Definition ModePublic : string := "public".
Definition ModeBasicAuth : string := "basic_auth".
Definition ModeBearerToken : string := "bearer_token".
Definition ModeIPAllowlist : string := "ip_allowlist".
Definition supportedModes : list string := [ModePublic; ModeBasicAuth; ModeBearerToken; ModeIPAllowlist].

Record PolicyRecord := mkPolicyRecord {
  p_ID : string;
  p_ReservedSubdomainID : string;
  p_Mode : string;
  p_BasicUsername : string;
  p_SecretHash : string;
  p_IPAllowlist : list string;
  p_CreatedAt : Time;
  p_UpdatedAt : Time;
}.
Definition set_p_ID (r : PolicyRecord) (id : string) : PolicyRecord :=
  mkPolicyRecord id (p_ReservedSubdomainID r) (p_Mode r) (p_BasicUsername r) (p_SecretHash r)
    (p_IPAllowlist r) (p_CreatedAt r) (p_UpdatedAt r).
Definition set_SecretHash (r : PolicyRecord) (hash : string) : PolicyRecord :=
  mkPolicyRecord (p_ID r) (p_ReservedSubdomainID r) (p_Mode r) (p_BasicUsername r) hash
    (p_IPAllowlist r) (p_CreatedAt r) (p_UpdatedAt r).

Record CreatePolicyRequest := mkCreatePolicy {
  cp_ReservedSubdomainID : string; cp_Mode : string; cp_BasicUsername : string;
  cp_BasicPassword : string; cp_BearerToken : string; cp_IPAllowlist : list string;
}.
Record UpdatePolicyRequest := mkUpdatePolicy {
  up_Mode : string; up_BasicUsername : string;
  up_BasicPassword : string; up_BearerToken : string; up_IPAllowlist : list string;
}.
Record PolicySummary := mkPolicySummary {
  ps_ID : string; ps_ReservedSubdomainID : string; ps_Mode : string; ps_BasicUsername : string;
  ps_SecretConfigured : bool; ps_IPAllowlist : list string; ps_CreatedAt : Time; ps_UpdatedAt : Time;
}.
Record CheckPolicyRequest := mkCheckPolicy {
  ck_ReservedSubdomainID : string; ck_RemoteIP : string;
  ck_BasicUsername : string; ck_BasicPassword : string; ck_BearerToken : string;
}.
Record CheckPolicyResult := mkCheckResult { ck_Allowed : bool; ck_Mode : string; ck_Reason : string }.

Definition ErrPolicyAlreadyExists : error :=
  Sentinel "access.ErrPolicyAlreadyExists" "access policy already exists".
Definition ErrPolicyReservedSubdomainIDRequired : error :=
  Sentinel "access.ErrPolicyReservedSubdomainIDRequired" "reserved_subdomain_id is required".
Definition ErrPolicyModeRequired : error :=
  Sentinel "access.ErrPolicyModeRequired" "access policy mode is required".
Definition ErrPolicyModeUnsupported : error :=
  Sentinel "access.ErrPolicyModeUnsupported" "unsupported access policy mode".
Definition ErrPolicySecretRequired : error :=
  Sentinel "access.ErrPolicySecretRequired" "access policy secret is required".
Definition ErrPolicyBasicUsernameRequired : error :=
  Sentinel "access.ErrPolicyBasicUsernameRequired" "basic auth username is required".
Definition ErrPolicyIPAllowlistRequired : error :=
  Sentinel "access.ErrPolicyIPAllowlistRequired" "ip allowlist is required".
Definition ErrPolicyNotFound : error := Sentinel "access.ErrPolicyNotFound" "access policy not found".
Definition policy_store_required : error := Errorf "access policy store is required".

Class PolicyStore (S : Type) : Type := {
  pol_Ping : S -> option error;
  pol_Create : S -> PolicyRecord -> option error * S;
  pol_Update : S -> PolicyRecord -> option error * S;
  pol_List : S -> result (list PolicyRecord);
  pol_LookupByID : S -> string -> result (option PolicyRecord);
  pol_LookupByReservedSubdomainID : S -> string -> result (option PolicyRecord);
  pol_Delete : S -> string -> option error * S;
}.

(** * Secrets and modes *)
Definition HashSecret {H : SHA256} (secret : string) : string := sha256_hex secret.
Definition secretHashEqual (gotHash wantHash : string) : bool :=
  if String.eqb gotHash "" || String.eqb wantHash "" || negb (len gotHash =? len wantHash) then false
  else String.eqb gotHash wantHash.

Definition mode_unsupported (mode : string) : error :=
  Suffix ErrPolicyModeUnsupported (" " +:+ Quote mode).
Definition NormalizeMode {U : GoUnicode} (mode : string) : result string :=
  let mode := ToLower (TrimSpace mode) in
  if String.eqb mode "" then Err ErrPolicyModeRequired
  else if negb (bool_decide (mode ∈ supportedModes)) then Err (mode_unsupported mode)
  else Ok mode.

Definition randomPolicyID : secretReader -> result string * secretReader :=
  random_secret "generate access policy id" "ap_" 16.

Definition pol_summarize (r : PolicyRecord) : PolicySummary :=
  mkPolicySummary (p_ID r) (p_ReservedSubdomainID r) (p_Mode r) (p_BasicUsername r)
    (negb (String.eqb (p_SecretHash r) "")) (p_IPAllowlist r) (p_CreatedAt r) (p_UpdatedAt r).

(** * Address lists *)
Section addresses.
Context {NI : GoNetip}.

Definition normalizeIPAllowlistValue (value : string) : result string :=
  match ParsePrefix value with
  | Ok prefix => Ok (Prefix_String (Masked prefix))
  | Err _ =>
      match ParseAddr value with
      | None => Err (Errorf ("invalid ip allowlist entry " +:+ Quote value))
      | Some addr => Ok (Addr_String addr)
      end
  end.

Fixpoint allowlist_loop (seen values : list string) : result (list string) :=
  match values with
  | [] => Ok []
  | value :: rest =>
      let value := TrimSpace value in
      if String.eqb value "" then allowlist_loop seen rest
      else
        try normalized <- normalizeIPAllowlistValue value;
        if bool_decide (normalized ∈ seen) then allowlist_loop seen rest
        else try out <- allowlist_loop (normalized :: seen) rest; Ok (normalized :: out)
  end.
Definition NormalizeIPAllowlist (values : list string) : result (list string) :=
  try out <- allowlist_loop [] values;
  match out with [] => Err ErrPolicyIPAllowlistRequired | _ => Ok out end.

(** One entry of an allowlist admits [addr]. *)
Definition entry_allows (addr : Addr) (value : string) : bool :=
  match ParsePrefix value with
  | Ok prefix => prefix_Contains prefix addr
  | Err _ => match ParseAddr value with Some allowed => Addr_eqb allowed addr | None => false end
  end.
Definition ipAllowed (remoteIP : string) (allowlist : list string) : bool :=
  let remoteIP := TrimSpace remoteIP in
  if String.eqb remoteIP "" then false
  else match ParseAddr remoteIP with
       | None => false
       | Some addr => existsb (entry_allows addr) allowlist
       end.
End addresses.

(** * Records from requests *)
Section records.
Context {U : GoUnicode} {NI : GoNetip} {H256 : SHA256} {A2 : Argon2}.

Definition base_record (id reserved mode : string) (created now : Time) : PolicyRecord :=
  mkPolicyRecord id reserved mode "" "" [] created now.
Definition with_user (r : PolicyRecord) (username hash : string) : PolicyRecord :=
  mkPolicyRecord (p_ID r) (p_ReservedSubdomainID r) (p_Mode r) username hash [] (p_CreatedAt r) (p_UpdatedAt r).
Definition with_list (r : PolicyRecord) (l : list string) : PolicyRecord :=
  mkPolicyRecord (p_ID r) (p_ReservedSubdomainID r) (p_Mode r) "" "" l (p_CreatedAt r) (p_UpdatedAt r).

Definition newPolicyRecord (req : CreatePolicyRequest) (now : Time) (random : secretReader)
    : result PolicyRecord * secretReader :=
  let reserved := TrimSpace (cp_ReservedSubdomainID req) in
  if String.eqb reserved "" then (Err ErrPolicyReservedSubdomainIDRequired, random)
  else
    match NormalizeMode (cp_Mode req) with
    | Err e => (Err e, random)
    | Ok mode =>
        let record := base_record "" reserved mode now now in
        if String.eqb mode ModePublic then (Ok record, random)
        else if String.eqb mode ModeBasicAuth then
          let username := TrimSpace (cp_BasicUsername req) in
          if String.eqb username "" then (Err ErrPolicyBasicUsernameRequired, random)
          else
            let password := TrimSpace (cp_BasicPassword req) in
            if String.eqb password "" then (Err ErrPolicySecretRequired, random)
            else match HashPassword password random with
                 | (Err e, random') => (Err e, random')
                 | (Ok hash, random') => (Ok (with_user record username hash), random')
                 end
        else if String.eqb mode ModeBearerToken then
          let token := TrimSpace (cp_BearerToken req) in
          if String.eqb token "" then (Err ErrPolicySecretRequired, random)
          else (Ok (set_SecretHash record (HashSecret token)), random)
        else if String.eqb mode ModeIPAllowlist then
          match NormalizeIPAllowlist (cp_IPAllowlist req) with
          | Err e => (Err e, random)
          | Ok allowlist => (Ok (with_list record allowlist), random)
          end
        else (Err (mode_unsupported mode), random)
    end.

Definition updatedPolicyRecord (existing : PolicyRecord) (req : UpdatePolicyRequest) (now : Time)
    (random : secretReader) : result PolicyRecord :=
  let modeText := TrimSpace (up_Mode req) in
  let modeText := if String.eqb modeText "" then p_Mode existing else modeText in
  try mode <- NormalizeMode modeText;
  let record := base_record (p_ID existing) (p_ReservedSubdomainID existing) mode (p_CreatedAt existing) now in
  if String.eqb mode ModePublic then Ok record
  else if String.eqb mode ModeBasicAuth then
    let username := TrimSpace (up_BasicUsername req) in
    let username := if String.eqb username "" && String.eqb (p_Mode existing) ModeBasicAuth
                    then p_BasicUsername existing else username in
    if String.eqb username "" then Err ErrPolicyBasicUsernameRequired
    else
      let password := TrimSpace (up_BasicPassword req) in
      if negb (String.eqb password "") then
        try hash <- fst (HashPassword password random); Ok (with_user record username hash)
      else if String.eqb (p_Mode existing) ModeBasicAuth && negb (String.eqb (p_SecretHash existing) "")
      then Ok (with_user record username (p_SecretHash existing))
      else Err ErrPolicySecretRequired
  else if String.eqb mode ModeBearerToken then
    let token := TrimSpace (up_BearerToken req) in
    if negb (String.eqb token "") then Ok (set_SecretHash record (HashSecret token))
    else if String.eqb (p_Mode existing) ModeBearerToken && negb (String.eqb (p_SecretHash existing) "")
    then Ok (set_SecretHash record (p_SecretHash existing))
    else Err ErrPolicySecretRequired
  else if String.eqb mode ModeIPAllowlist then
    if bool_decide (up_IPAllowlist req = []) && String.eqb (p_Mode existing) ModeIPAllowlist &&
       negb (bool_decide (p_IPAllowlist existing = []))
    then Ok (with_list record (p_IPAllowlist existing))
    else try allowlist <- NormalizeIPAllowlist (up_IPAllowlist req); Ok (with_list record allowlist)
  else Err (mode_unsupported mode).

(** Whether the credentials match, and whether the stored hash is a legacy one. *)
Definition basicAuthMatches (record : PolicyRecord) (username password : string) : bool * bool :=
  let username := TrimSpace username in
  let password := TrimSpace password in
  if String.eqb username "" || String.eqb password "" ||
     String.eqb (p_BasicUsername record) "" || String.eqb (p_SecretHash record) "" then (false, false)
  else if negb (secretEqual username (p_BasicUsername record)) then (false, false)
  else if IsPasswordHash (p_SecretHash record) then
    (match VerifyPassword (p_SecretHash record) password with Ok ok => ok | Err _ => false end, false)
  else (secretHashEqual (HashSecret password) (p_SecretHash record), true).
End records.

(** * The service *)
Section service.
Context {U : GoUnicode} {NI : GoNetip} {H256 : SHA256} {A2 : Argon2} {S : Type} {PS : PolicyStore S}.

Definition pol_Ready (s : option S) : option error :=
  match s with None => Some policy_store_required | Some store => pol_Ping store end.

Definition CreatePolicy (s : option S) (req : CreatePolicyRequest) (now : Time) (random : secretReader)
    : result PolicySummary * option S :=
  match s with
  | None => (Err policy_store_required, s)
  | Some store =>
      match newPolicyRecord req now random with
      | (Err e, _) => (Err e, s)
      | (Ok record, random) =>
          match randomPolicyID random with
          | (Err e, _) => (Err e, s)
          | (Ok id, _) =>
              let record := set_p_ID record id in
              match pol_Create store record with
              | (Some e, store') => (Err e, Some store')
              | (None, store') => (Ok (pol_summarize record), Some store')
              end
          end
      end
  end.

Definition UpdatePolicy (s : option S) (id : string) (req : UpdatePolicyRequest) (now : Time)
    (random : secretReader) : result PolicySummary * option S :=
  match s with
  | None => (Err policy_store_required, s)
  | Some store =>
      let id := TrimSpace id in
      if String.eqb id "" then (Err ErrPolicyNotFound, s)
      else match pol_LookupByID store id with
           | Err e => (Err e, s)
           | Ok None => (Err ErrPolicyNotFound, s)
           | Ok (Some existing) =>
               match updatedPolicyRecord existing req now random with
               | Err e => (Err e, s)
               | Ok record =>
                   match pol_Update store record with
                   | (Some e, store') => (Err e, Some store')
                   | (None, store') => (Ok (pol_summarize record), Some store')
                   end
               end
           end
  end.

Definition ListPolicies (s : option S) : result (list PolicySummary) :=
  match s with
  | None => Err policy_store_required
  | Some store => try l <- pol_List store; Ok (map pol_summarize l)
  end.

Definition GetPolicy (s : option S) (id : string) : result (option PolicySummary) :=
  match s with
  | None => Err policy_store_required
  | Some store =>
      let id := TrimSpace id in
      if String.eqb id "" then Ok None
      else try o <- pol_LookupByID store id; Ok (pol_summarize <$> o)
  end.

Definition GetPolicyForReservedSubdomain (s : option S) (reservedSubdomainID : string)
    : result (option PolicySummary) :=
  match s with
  | None => Err policy_store_required
  | Some store =>
      let reservedSubdomainID := TrimSpace reservedSubdomainID in
      if String.eqb reservedSubdomainID "" then Ok None
      else try o <- pol_LookupByReservedSubdomainID store reservedSubdomainID; Ok (pol_summarize <$> o)
  end.

Definition DeletePolicy (s : option S) (id : string) : option error * option S :=
  match s with
  | None => (Some policy_store_required, s)
  | Some store =>
      let id := TrimSpace id in
      if String.eqb id "" then (Some ErrPolicyNotFound, s)
      else match pol_LookupByID store id with
           | Err e => (Some e, s)
           | Ok None => (Some ErrPolicyNotFound, s)
           | Ok (Some _) => let '(e, store') := pol_Delete store id in (e, Some store')
           end
  end.

(** Errors of the upgrade are dropped. *)
Definition upgradeBasicAuthHash (store : S) (record : PolicyRecord) (password : string)
    (random : secretReader) : S :=
  match HashPassword (TrimSpace password) random with
  | (Err _, _) => store
  | (Ok hash, _) => snd (pol_Update store (set_SecretHash record hash))
  end.

Definition CheckPolicy (s : option S) (req : CheckPolicyRequest) (random : secretReader)
    : result CheckPolicyResult * option S :=
  match s with
  | None => (Err policy_store_required, s)
  | Some store =>
      let reservedSubdomainID := TrimSpace (ck_ReservedSubdomainID req) in
      if String.eqb reservedSubdomainID "" then (Err ErrPolicyReservedSubdomainIDRequired, s)
      else
        match pol_LookupByReservedSubdomainID store reservedSubdomainID with
        | Err e => (Err e, s)
        | Ok None => (Ok (mkCheckResult true ModePublic "no_policy"), s)
        | Ok (Some record) =>
            let mode := p_Mode record in
            if String.eqb mode ModePublic then (Ok (mkCheckResult true mode "public"), s)
            else if String.eqb mode ModeBasicAuth then
              let '(matched, needsUpgrade) :=
                basicAuthMatches record (ck_BasicUsername req) (ck_BasicPassword req) in
              if negb matched then (Ok (mkCheckResult false mode "basic_auth_required"), s)
              else
                (Ok (mkCheckResult true mode ""),
                 if needsUpgrade
                 then Some (upgradeBasicAuthHash store record (ck_BasicPassword req) random) else s)
            else if String.eqb mode ModeBearerToken then
              if negb (secretHashEqual (HashSecret (TrimSpace (ck_BearerToken req))) (p_SecretHash record))
              then (Ok (mkCheckResult false mode "bearer_token_required"), s)
              else (Ok (mkCheckResult true mode ""), s)
            else if String.eqb mode ModeIPAllowlist then
              if negb (ipAllowed (ck_RemoteIP req) (p_IPAllowlist record))
              then (Ok (mkCheckResult false mode "ip_not_allowed"), s)
              else (Ok (mkCheckResult true mode ""), s)
            else (Ok (mkCheckResult false mode "unsupported_policy_mode"), s)
        end
  end.
End service.

(** * The memory store *)
Record MemoryStore := mkMemoryStore {
  byID : gmap string PolicyRecord;
  byReservation : gmap string string;
}.
Definition NewMemoryStore : MemoryStore := mkMemoryStore ∅ ∅.

Definition by_reservation (a b : PolicyRecord) : Prop :=
  if String.eqb (p_ReservedSubdomainID a) (p_ReservedSubdomainID b) then String.leb (p_ID a) (p_ID b) = true
  else String.leb (p_ReservedSubdomainID a) (p_ReservedSubdomainID b) = true.
#[export] Instance by_reservation_dec : RelDecision by_reservation.
Proof. intros a b. unfold by_reservation. case_match; apply _. Defined.

Definition mem_Create (s : MemoryStore) (record : PolicyRecord) : option error * MemoryStore :=
  if bool_decide (is_Some (byID s !! p_ID record)) then (Some ErrPolicyAlreadyExists, s)
  else if bool_decide (is_Some (byReservation s !! p_ReservedSubdomainID record))
  then (Some ErrPolicyAlreadyExists, s)
  else (None, mkMemoryStore (<[p_ID record := record]> (byID s))
                (<[p_ReservedSubdomainID record := p_ID record]> (byReservation s))).
Definition mem_Update (s : MemoryStore) (record : PolicyRecord) : option error * MemoryStore :=
  match byID s !! p_ID record with
  | None => (Some ErrPolicyNotFound, s)
  | Some existing =>
      if negb (String.eqb (p_ReservedSubdomainID existing) (p_ReservedSubdomainID record))
      then (Some ErrPolicyReservedSubdomainIDRequired, s)
      else (None, mkMemoryStore (<[p_ID record := record]> (byID s))
                    (<[p_ReservedSubdomainID record := p_ID record]> (byReservation s)))
  end.
Definition mem_List (s : MemoryStore) : result (list PolicyRecord) :=
  Ok (merge_sort by_reservation (map_to_list (byID s)).*2).
Definition mem_LookupByID (s : MemoryStore) (id : string) : result (option PolicyRecord) :=
  Ok (byID s !! id).
Definition mem_LookupByReservedSubdomainID (s : MemoryStore) (reservedSubdomainID : string)
    : result (option PolicyRecord) :=
  match byReservation s !! reservedSubdomainID with
  | None => Ok None
  | Some id => match byID s !! id with None => Ok None | Some record => Ok (Some record) end
  end.
Definition mem_Delete (s : MemoryStore) (id : string) : option error * MemoryStore :=
  match byID s !! id with
  | None => (None, s)
  | Some record =>
      (None, mkMemoryStore (delete id (byID s)) (delete (p_ReservedSubdomainID record) (byReservation s)))
  end.

#[export] Instance memory_store : PolicyStore MemoryStore := {|
  pol_Ping _ := None;
  pol_Create := mem_Create;
  pol_Update := mem_Update;
  pol_List := mem_List;
  pol_LookupByID := mem_LookupByID;
  pol_LookupByReservedSubdomainID := mem_LookupByReservedSubdomainID;
  pol_Delete := mem_Delete;
|}.

(** * Properties *)
Section properties.
Context {U : GoUnicode} {NI : GoNetip} {H256 : SHA256} {A2 : Argon2}.

Inductive policy_step : option MemoryStore -> option MemoryStore -> Prop :=
| step_create s req now random : policy_step s (snd (CreatePolicy s req now random))
| step_update s id req now random : policy_step s (snd (UpdatePolicy s id req now random))
| step_delete s id : policy_step s (snd (DeletePolicy s id))
| step_check s req random : policy_step s (snd (CheckPolicy s req random)).

Definition store_ok (s : MemoryStore) : Prop :=
  indexed p_ID p_ReservedSubdomainID (byID s) (byReservation s) /\
  forall i r, byID s !! i = Some r -> p_Mode r ∈ supportedModes.
Definition service_ok (s : option MemoryStore) : Prop := match s with None => True | Some m => store_ok m end.

(** The policy in force for a reservation. *)
Definition policy_of (m : MemoryStore) (reservation : string) : option PolicyRecord :=
  find_by (byID m) (byReservation m) reservation.

Lemma mem_LookupByReservedSubdomainID_find s k :
  mem_LookupByReservedSubdomainID s k = Ok (policy_of s k).
Proof. unfold mem_LookupByReservedSubdomainID, policy_of, find_by. by repeat case_match. Qed.

(** ** The invariant *)
Lemma NormalizeMode_ok mode m : NormalizeMode mode = Ok m -> m ∈ supportedModes.
Proof.
  unfold NormalizeMode. cbv zeta. destruct (String.eqb _ ""); [done|].
  case_bool_decide; cbn [negb]; [|done]. by intros [= <-].
Qed.

Lemma newPolicyRecord_mode req now random r random' :
  newPolicyRecord req now random = (Ok r, random') -> p_Mode r ∈ supportedModes.
Proof.
  unfold newPolicyRecord. cbv zeta. destruct (String.eqb _ ""); [done|].
  destruct (NormalizeMode (cp_Mode req)) as [mode|] eqn:E; [|done]. apply NormalizeMode_ok in E.
  repeat (case_match; try done); by intros [= <- <-].
Qed.

Lemma updatedPolicyRecord_ok existing req now random r :
  updatedPolicyRecord existing req now random = Ok r ->
  p_ID r = p_ID existing /\ p_ReservedSubdomainID r = p_ReservedSubdomainID existing /\
  p_Mode r ∈ supportedModes.
Proof.
  unfold updatedPolicyRecord. cbv zeta. intros (mode & E & H)%rbind_ok. apply NormalizeMode_ok in E.
  revert H. repeat (case_match; try done);
    first [by intros [= <-]|intros (x & _ & [= <-])%rbind_ok; done].
Qed.

Lemma policy_create_ok s r : store_ok s -> p_Mode r ∈ supportedModes -> store_ok (snd (mem_Create s r)).
Proof.
  intros [Hi Hv] Hm. unfold mem_Create. case_bool_decide as H1; [done|]. case_bool_decide as H2; [done|].
  apply eq_None_not_Some in H1, H2. split; [by apply indexed_insert|].
  intros i x. cbn. rewrite lookup_insert_Some. intros [[_ <-]|[_ Hx]]; [done|by apply (Hv i)].
Qed.

Lemma policy_update_ok s r : store_ok s -> p_Mode r ∈ supportedModes -> store_ok (snd (mem_Update s r)).
Proof.
  intros [Hi Hv] Hm. unfold mem_Update. destruct (byID s !! p_ID r) as [old|] eqn:E; [|done].
  destruct (String.eqb_spec (p_ReservedSubdomainID old) (p_ReservedSubdomainID r)); [|done].
  cbn [negb snd]. split; [by eapply indexed_rewrite|].
  intros i x. cbn. rewrite lookup_insert_Some. intros [[_ <-]|[_ Hx]]; [done|by apply (Hv i)].
Qed.

Lemma policy_delete_ok s id : store_ok s -> store_ok (snd (mem_Delete s id)).
Proof.
  intros [Hi Hv]. unfold mem_Delete. destruct (byID s !! id) as [r|] eqn:E; [|done].
  split; [by apply indexed_delete|]. cbn. intros i x [_ Hx]%lookup_delete_Some. by apply (Hv i).
Qed.

Lemma policy_of_spec m k r : store_ok m -> policy_of m k = Some r ->
  byID m !! p_ID r = Some r /\ p_ReservedSubdomainID r = k /\ p_Mode r ∈ supportedModes.
Proof.
  intros [Hi Hv] H. apply (find_by_spec p_ID p_ReservedSubdomainID) in H as [H <-]; [|done].
  repeat split; [done|]. by apply (Hv _ _ H).
Qed.

Lemma upgrade_ok m r k password random :
  store_ok m -> policy_of m k = Some r -> store_ok (upgradeBasicAuthHash m r password random).
Proof.
  intros Hok Hr. destruct (policy_of_spec _ _ _ Hok Hr) as (_ & _ & Hm). unfold upgradeBasicAuthHash.
  destruct (HashPassword _ _) as [[h|] ?]; [|done]. by apply policy_update_ok.
Qed.

Lemma CheckPolicy_ok m req random : store_ok m -> service_ok (snd (CheckPolicy (Some m) req random)).
Proof.
  intros Hok. unfold CheckPolicy. cbv zeta. destruct (String.eqb _ ""); [done|].
  cbn [pol_LookupByReservedSubdomainID memory_store]. rewrite mem_LookupByReservedSubdomainID_find.
  destruct (policy_of m _) as [r|] eqn:Er; [|done].
  repeat (case_match; try done). by eapply upgrade_ok.
Qed.

Lemma policy_step_ok s s' : service_ok s -> policy_step s s' -> service_ok s'.
Proof.
  intros Hok Hs. destruct s as [m|]; [|by inv Hs]. inv Hs.
  - unfold CreatePolicy. destruct (newPolicyRecord _ _ _) as [[r|] r1] eqn:En; [|done].
    destruct (randomPolicyID r1) as [[id|] r2]; [|done]. cbv zeta. cbn [pol_Create memory_store].
    pose proof (policy_create_ok m (set_p_ID r id) Hok (newPolicyRecord_mode _ _ _ _ _ En)) as H.
    destruct (mem_Create _ _) as [[e|] m']; done.
  - unfold UpdatePolicy. cbv zeta. destruct (String.eqb _ ""); [done|].
    cbn [pol_LookupByID pol_Update memory_store]. unfold mem_LookupByID.
    destruct (byID m !! _) as [old|]; [|done].
    destruct (updatedPolicyRecord _ _ _ _) as [r|] eqn:Eu; [|done].
    apply updatedPolicyRecord_ok in Eu as (_ & _ & Hm). pose proof (policy_update_ok m r Hok Hm) as H.
    destruct (mem_Update _ _) as [[e|] m']; done.
  - unfold DeletePolicy. cbv zeta. destruct (String.eqb _ ""); [done|].
    cbn [pol_LookupByID pol_Delete memory_store]. unfold mem_LookupByID.
    destruct (byID m !! _); [|done]. pose proof (policy_delete_ok m (TrimSpace id) Hok) as H.
    destruct (mem_Delete _ _) as [e m']; done.
  - by apply CheckPolicy_ok.
Qed.

Definition reachable (s : option MemoryStore) : Prop := rtc policy_step (Some NewMemoryStore) s.
Lemma policies_ok s : reachable s -> service_ok s.
Proof.
  apply (rtc_ind_r service_ok); [|intros y z _ Hs IH; by eapply policy_step_ok].
  split; [apply indexed_empty|]. intros i r Hr. exfalso. exact (lookup_empty_Some i r Hr).
Qed.

(** ** What a policy permits *)
Definition credentials_match (r : PolicyRecord) (username password : string) : Prop :=
  username <> ""%string /\ password <> ""%string /\ p_BasicUsername r <> ""%string /\
  Sum256 username = Sum256 (p_BasicUsername r) /\
  if IsPasswordHash (p_SecretHash r) then VerifyPassword (p_SecretHash r) password = Ok true
  else HashSecret password = p_SecretHash r /\ p_SecretHash r <> ""%string.

Definition permits (r : PolicyRecord) (req : CheckPolicyRequest) : Prop :=
  p_Mode r = ModePublic \/
  (p_Mode r = ModeBasicAuth /\
     credentials_match r (TrimSpace (ck_BasicUsername req)) (TrimSpace (ck_BasicPassword req))) \/
  (p_Mode r = ModeBearerToken /\
     HashSecret (TrimSpace (ck_BearerToken req)) = p_SecretHash r /\ p_SecretHash r <> ""%string) \/
  (p_Mode r = ModeIPAllowlist /\
     exists addr value, ParseAddr (TrimSpace (ck_RemoteIP req)) = Some addr /\
       TrimSpace (ck_RemoteIP req) <> ""%string /\
       value ∈ p_IPAllowlist r /\ entry_allows addr value = true).

Lemma secretHashEqual_spec a b : secretHashEqual a b = true <-> a = b /\ b <> ""%string.
Proof.
  unfold secretHashEqual. destruct (String.eqb_spec a ""), (String.eqb_spec b ""); subst; cbn [orb];
    try (split; [done|intros []; congruence]).
  destruct (Z.eqb_spec (len a) (len b)); cbn [negb].
  - rewrite String.eqb_eq. intuition.
  - split; [done|]. intros [-> _]. done.
Qed.

Lemma secretEqual_spec a b : secretEqual a b = true <-> a <> ""%string /\ b <> ""%string /\ Sum256 a = Sum256 b.
Proof.
  unfold secretEqual. destruct (String.eqb_spec a ""), (String.eqb_spec b ""); subst; cbn [orb];
    try (split; [done|intros (? & ? & ?); congruence]).
  rewrite bool_decide_eq_true. tauto.
Qed.

Lemma ipAllowed_spec ip l :
  ipAllowed ip l = true <->
  exists addr value, ParseAddr (TrimSpace ip) = Some addr /\ TrimSpace ip <> ""%string /\
    value ∈ l /\ entry_allows addr value = true.
Proof.
  unfold ipAllowed. cbv zeta. destruct (String.eqb_spec (TrimSpace ip) "") as [E|E].
  { split; [done|]. by intros (? & ? & _ & ? & _). }
  destruct (ParseAddr (TrimSpace ip)) as [a|]; [|split; [done|]; by intros (? & ? & ? & _)].
  rewrite existsb_exists. split.
  - intros (v & Hin & Hv). exists a, v. by rewrite list_elem_of_In.
  - intros (a' & v & [= <-] & _ & Hin & Hv). exists v. by rewrite <- list_elem_of_In.
Qed.

Lemma basicAuthMatches_spec r username password :
  fst (basicAuthMatches r username password) = true <->
  credentials_match r (TrimSpace username) (TrimSpace password).
Proof.
  unfold basicAuthMatches, credentials_match. cbv zeta.
  destruct (String.eqb_spec (TrimSpace username) "") as [|Hu]; [by split; [|intros (? & _)]|].
  destruct (String.eqb_spec (TrimSpace password) "") as [|Hp]; [by split; [|intros (_ & ? & _)]|].
  destruct (String.eqb_spec (p_BasicUsername r) "") as [|Hb]; [by split; [|intros (_ & _ & ? & _)]|].
  destruct (String.eqb_spec (p_SecretHash r) "") as [Es|Hs]; cbn [orb].
  { split; [done|]. rewrite Es. intros (_ & _ & _ & _ & _ & H). done. }
  pose proof (secretEqual_spec (TrimSpace username) (p_BasicUsername r)) as He.
  destruct (secretEqual _ _); cbn [negb].
  2: { split; [done|]. intros (_ & _ & _ & H & _). by destruct (proj2 He). }
  destruct (proj1 He eq_refl) as (_ & _ & Hsum).
  destruct (IsPasswordHash (p_SecretHash r)); cbn [fst].
  - destruct (VerifyPassword _ _) as [[|]|]; split; try done; by intros (_ & _ & _ & _ & ?).
  - rewrite secretHashEqual_spec. tauto.
Qed.

(** The answer to a check, and the store after it. *)
Lemma CheckPolicy_spec m req random :
  store_ok m -> TrimSpace (ck_ReservedSubdomainID req) <> ""%string ->
  exists res s', CheckPolicy (Some m) req random = (Ok res, s') /\
    (ck_Allowed res = true <->
       match policy_of m (TrimSpace (ck_ReservedSubdomainID req)) with None => True | Some r => permits r req end) /\
    ck_Reason res <> "unsupported_policy_mode"%string /\
    (s' = Some m \/
     exists r hash, policy_of m (TrimSpace (ck_ReservedSubdomainID req)) = Some r /\ permits r req /\
       p_Mode r = ModeBasicAuth /\ IsPasswordHash (p_SecretHash r) = false /\
       IsPasswordHash hash = true /\ VerifyPassword hash (TrimSpace (ck_BasicPassword req)) = Ok true /\
       s' = Some (snd (mem_Update m (set_SecretHash r hash)))).
Proof.
  intros Hok Hne. unfold CheckPolicy. cbv zeta.
  destruct (String.eqb_spec (TrimSpace (ck_ReservedSubdomainID req)) ""); [done|].
  cbn [pol_LookupByReservedSubdomainID memory_store]. rewrite mem_LookupByReservedSubdomainID_find.
  destruct (policy_of m _) as [r|] eqn:Er.
  2: { do 2 eexists. split; [done|]. by repeat split; auto. }
  destruct (policy_of_spec _ _ _ Hok Er) as (_ & _ & Hmode).
  unfold permits. apply list_elem_of_In in Hmode. cbn in Hmode.
  destruct Hmode as [E|[E|[E|[E|[]]]]]; rewrite <- E.
  - do 2 eexists. split; [done|]. split; [|by split; auto]. split; [by left|done].
  - change (String.eqb ModeBasicAuth ModePublic) with false.
    change (String.eqb ModeBasicAuth ModeBasicAuth) with true. cbv iota.
    pose proof (basicAuthMatches_spec r (ck_BasicUsername req) (ck_BasicPassword req)) as Hb.
    destruct (basicAuthMatches _ _ _) as [matched upgrade] eqn:Em. cbn [fst] in Hb.
    destruct matched; cbn [negb].
    + assert (Hc := proj1 Hb eq_refl). do 2 eexists. split; [done|].
      split; [split; [by right; left|done]|]. split; [done|].
      destruct upgrade; [|by left]. unfold upgradeBasicAuthHash.
      destruct (HashPassword _ _) as [[hash|] r1] eqn:Eh; [|by left]. right. exists r, hash.
      apply HashPassword_verifies in Eh as [Eh1 Eh2]. split_and!; try done; [by right; left|].
      revert Em. unfold basicAuthMatches. cbv zeta. by repeat (case_match; try done).
    + do 2 eexists. split; [done|]. split; [|by split; auto].
      split; [done|]. intros [H|[[_ H]|[[H _]|[H _]]]]; try discriminate H. by apply Hb in H.
  - change (String.eqb ModeBearerToken ModePublic) with false.
    change (String.eqb ModeBearerToken ModeBasicAuth) with false.
    change (String.eqb ModeBearerToken ModeBearerToken) with true. cbv iota.
    pose proof (secretHashEqual_spec (HashSecret (TrimSpace (ck_BearerToken req))) (p_SecretHash r)) as Hb.
    destruct (secretHashEqual _ _); cbn [negb]; do 2 eexists; (split; [done|]); (split; [|by split; auto]).
    + destruct (proj1 Hb eq_refl). split; [by right; right; left|done].
    + split; [done|]. intros [H|[[H _]|[[_ H]|[H _]]]]; try discriminate H. by apply Hb in H.
  - change (String.eqb ModeIPAllowlist ModePublic) with false.
    change (String.eqb ModeIPAllowlist ModeBasicAuth) with false.
    change (String.eqb ModeIPAllowlist ModeBearerToken) with false.
    change (String.eqb ModeIPAllowlist ModeIPAllowlist) with true. cbv iota.
    pose proof (ipAllowed_spec (ck_RemoteIP req) (p_IPAllowlist r)) as Hb.
    destruct (ipAllowed _ _); cbn [negb]; do 2 eexists; (split; [done|]); (split; [|by split; auto]).
    + split; [|done]. intros _. right; right; right. split; [done|]. by apply Hb.
    + split; [done|]. intros [H|[[H _]|[[H _]|[_ H]]]]; try discriminate H. by apply Hb in H.
Qed.

(** An upgraded record permits what it permitted. *)
Lemma policy_of_upgrade m k r hash :
  store_ok m -> policy_of m k = Some r ->
  policy_of (snd (mem_Update m (set_SecretHash r hash))) k = Some (set_SecretHash r hash).
Proof.
  intros Hok Hr. destruct (policy_of_spec _ _ _ Hok Hr) as (Hid & <- & Hm).
  unfold mem_Update. cbn [set_SecretHash p_ID p_ReservedSubdomainID]. rewrite Hid, String.eqb_refl.
  cbn [negb snd]. unfold policy_of, find_by. cbn [byID byReservation].
  by rewrite !lookup_insert_eq.
Qed.

Lemma permits_upgrade r req hash :
  permits r req -> p_Mode r = ModeBasicAuth -> IsPasswordHash hash = true ->
  VerifyPassword hash (TrimSpace (ck_BasicPassword req)) = Ok true ->
  permits (set_SecretHash r hash) req.
Proof.
  intros Hp Hm Hh Hv. right; left. split; [done|].
  destruct Hp as [H|[[_ H]|[[H _]|[H _]]]]; try (rewrite Hm in H; discriminate H).
  destruct H as (H1 & H2 & H3 & H4 & _). unfold credentials_match. cbn [set_SecretHash p_BasicUsername p_SecretHash].
  by rewrite Hh.
Qed.

End properties.

Module Witness_access.
#[local] Instance unicode : GoUnicode := {| lower_nonascii s := s; upper_nonascii s := s |}.
#[local] Instance netip : GoNetip := text_netip.
#[local] Instance sha : SHA256 := {| Sum256 s := to_bytes s |}.
#[local] Instance argon2 : Argon2 := toy_argon2.
Definition created :=
  CreatePolicy (Some NewMemoryStore) (mkCreatePolicy "rs_1" " Basic_Auth" "ada" "hunter2" "" []) 5
    [Some (to_bytes "salt"); Some (to_bytes "id")].
Definition check (password : string) : CheckPolicyRequest := mkCheckPolicy "rs_1" "" "ada" password "".

End Witness_access.
