(* ===== verification/CustomDomains.v ===== *)
(** server/control-plane/internal/customdomains: hostnames of the tunnels'
    owners, active once a DNS record proves who controls them.  The service is
    written against the Go interface [Store]; its properties are those it has
    on the memory store.  The DNS resolver is an argument of [VerifyDomain]. *)
From S2P Require Import Prelude GoStrings Names Base64 ControlPlaneClient Stores.
From Stdlib Require Import ZArith Lia List String Ascii Bool.
From stdpp Require Import base gmap strings list sorting relations.

Open Scope Z_scope.

Definition StatusPendingVerification : string := "pending_verification".
Definition StatusActive : string := "active".
Definition StatusVerificationFailed : string := "verification_failed".

Record DomainRecord := mkDomain {
  d_ID : string;
  d_Hostname : string;
  d_ReservedSubdomainID : string;
  d_Status : string;
  d_VerificationToken : string;
  d_VerifiedAt : option Time;
  d_CreatedAt : Time;
  d_UpdatedAt : Time;
}.
Record CreateDomainRequest := mkCreateDomain { dr_Hostname : string; dr_ReservedSubdomainID : string }.
Record DomainSummary := mkDomainSummary { ds_record : DomainRecord; ds_VerificationName : string }.

Definition ErrDomainAlreadyExists : error :=
  Sentinel "customdomains.ErrDomainAlreadyExists" "custom domain already exists".
Definition ErrDomainHostnameRequired : error :=
  Sentinel "customdomains.ErrDomainHostnameRequired" "custom domain hostname is required".
Definition ErrDomainReservedSubdomainIDRequired : error :=
  Sentinel "customdomains.ErrDomainReservedSubdomainIDRequired" "reserved_subdomain_id is required".
Definition ErrDomainInvalidHostname : error :=
  Sentinel "customdomains.ErrDomainInvalidHostname" "invalid custom domain hostname".
Definition ErrDomainNotFound : error :=
  Sentinel "customdomains.ErrDomainNotFound" "custom domain not found".
Definition domain_store_required : error := Errorf "custom domain store is required".

Class DomainStore (S : Type) : Type := {
  dom_Ping : S -> option error;
  dom_Create : S -> DomainRecord -> option error * S;
  dom_List : S -> result (list DomainRecord);
  dom_LookupByID : S -> string -> result (option DomainRecord);
  dom_LookupByHostname : S -> string -> result (option DomainRecord);
  dom_Update : S -> DomainRecord -> option error * S;
  dom_Delete : S -> string -> option error * S;
}.

(** * Hostnames *)
Definition validateHostnameLabel (label : string) : result unit :=
  if String.eqb label "" then Err (Errorf "hostname labels cannot be empty")
  else if 63 <? len label then Err (Errorf "hostname labels must be at most 63 characters")
  else if first_is "-" label || last_is "-" label
  then Err (Errorf "hostname labels cannot start or end with hyphen")
  else if negb (sforall name_char label)
  then Err (Errorf "hostname labels can contain only lowercase ASCII letters, numbers, and hyphens")
  else Ok tt.

Fixpoint validate_labels (labels : list string) : result unit :=
  match labels with
  | [] => Ok tt
  | label :: rest => try _ <- validateHostnameLabel label; validate_labels rest
  end.

Definition NormalizeHostname {U : GoUnicode} (hostname : string) : result string :=
  let hostname := TrimSuffix (ToLower (TrimSpace hostname)) "." in
  let bad (why : string) : result string :=
    Err (Suffix ErrDomainInvalidHostname (" " +:+ Quote hostname +:+ why)) in
  if String.eqb hostname "" then Err ErrDomainHostnameRequired
  else if Contains hostname ":" || Contains hostname "*" then bad ""
  else if 253 <? len hostname then bad ": hostname must be at most 253 characters"
  else if negb (Contains hostname ".") then bad ": hostname must contain at least one dot"
  else match validate_labels (Split hostname ".") with
       | Err e => bad (": " +:+ error_message e)
       | Ok _ => Ok hostname
       end.

Definition VerificationName {U : GoUnicode} (hostname : string) : string :=
  "_porthook." +:+ TrimSuffix (ToLower (TrimSpace hostname)) ".".

Fixpoint verificationTXTMatches (values : list string) (token : string) : bool :=
  match values with
  | [] => false
  | value :: rest =>
      let value := TrimSpace value in
      if String.eqb value token || String.eqb value ("porthook-domain-verification=" +:+ token)
      then true else verificationTXTMatches rest token
  end.

Definition randomDomainID : secretReader -> result string * secretReader :=
  random_secret "generate custom domain id" "cd_" 16.
Definition randomVerificationToken : secretReader -> result string * secretReader :=
  random_secret "generate custom domain verification token" "phdv_" 24.

(** * The service *)
Section service.
Context {U : GoUnicode} {S : Type} {DS : DomainStore S}.

Definition dom_summarize (record : DomainRecord) : DomainSummary :=
  mkDomainSummary record (VerificationName (d_Hostname record)).

Definition dom_Ready (s : option S) : option error :=
  match s with None => Some domain_store_required | Some store => dom_Ping store end.

Definition CreateDomain (s : option S) (req : CreateDomainRequest) (now : Time) (random : secretReader)
    : result DomainSummary * option S :=
  match s with
  | None => (Err domain_store_required, s)
  | Some store =>
      match NormalizeHostname (dr_Hostname req) with
      | Err e => (Err e, s)
      | Ok hostname =>
          let reservedSubdomainID := TrimSpace (dr_ReservedSubdomainID req) in
          if String.eqb reservedSubdomainID "" then (Err ErrDomainReservedSubdomainIDRequired, s)
          else
            match randomDomainID random with
            | (Err e, _) => (Err e, s)
            | (Ok id, random) =>
                match randomVerificationToken random with
                | (Err e, _) => (Err e, s)
                | (Ok verificationToken, _) =>
                    let record := mkDomain id hostname reservedSubdomainID StatusPendingVerification
                                    verificationToken None now now in
                    match dom_Create store record with
                    | (Some e, store') =>
                        (Err (if errors_Is e ErrDomainAlreadyExists then e
                              else Wrap "create custom domain" e), Some store')
                    | (None, store') => (Ok (dom_summarize record), Some store')
                    end
                end
            end
      end
  end.

Definition ListDomains (s : option S) : result (list DomainSummary) :=
  match s with
  | None => Err domain_store_required
  | Some store => try l <- dom_List store; Ok (map dom_summarize l)
  end.

(** [LookupTXT] answers the one query; [now] is read after it. *)
Definition VerifyDomain (s : option S) (LookupTXT : string -> result (list string)) (id : string) (now : Time)
    : result DomainSummary * option S :=
  match s with
  | None => (Err domain_store_required, s)
  | Some store =>
      let id := TrimSpace id in
      if String.eqb id "" then (Err ErrDomainNotFound, s)
      else
        match dom_LookupByID store id with
        | Err e => (Err e, s)
        | Ok None => (Err ErrDomainNotFound, s)
        | Ok (Some record) =>
            if String.eqb (d_Status record) StatusActive then (Ok (dom_summarize record), s)
            else if String.eqb (TrimSpace (d_VerificationToken record)) ""
            then (Err (Errorf "custom domain verification token is empty"), s)
            else
              let verified :=
                match LookupTXT (VerificationName (d_Hostname record)) with
                | Ok txtValues => verificationTXTMatches txtValues (d_VerificationToken record)
                | Err _ => false
                end in
              let record :=
                mkDomain (d_ID record) (d_Hostname record) (d_ReservedSubdomainID record)
                  (if verified then StatusActive else StatusVerificationFailed)
                  (d_VerificationToken record)
                  (if verified then Some now else d_VerifiedAt record)
                  (d_CreatedAt record) now in
              match dom_Update store record with
              | (Some e, store') => (Err (Wrap "verify custom domain" e), Some store')
              | (None, store') => (Ok (dom_summarize record), Some store')
              end
        end
  end.

Definition GetDomain (s : option S) (id : string) : result (option DomainSummary) :=
  match s with
  | None => Err domain_store_required
  | Some store =>
      let id := TrimSpace id in
      if String.eqb id "" then Ok None
      else try o <- dom_LookupByID store id; Ok (dom_summarize <$> o)
  end.

Definition GetDomainByHostname (s : option S) (hostname : string) : result (option DomainSummary) :=
  match s with
  | None => Err domain_store_required
  | Some store =>
      try hostname <- NormalizeHostname hostname;
      try o <- dom_LookupByHostname store hostname; Ok (dom_summarize <$> o)
  end.

Definition DeleteDomain (s : option S) (id : string) : option error * option S :=
  match s with
  | None => (Some domain_store_required, s)
  | Some store =>
      let id := TrimSpace id in
      if String.eqb id "" then (Some ErrDomainNotFound, s)
      else match dom_LookupByID store id with
           | Err e => (Some e, s)
           | Ok None => (Some ErrDomainNotFound, s)
           | Ok (Some _) =>
               match dom_Delete store id with
               | (Some e, store') => (Some (Wrap "delete custom domain" e), Some store')
               | (None, store') => (None, Some store')
               end
           end
  end.
End service.

(** * The memory store *)
Record MemoryStore := mkMemoryStore {
  byID : gmap string DomainRecord;
  byHostname : gmap string string;
}.
Definition NewMemoryStore : MemoryStore := mkMemoryStore ∅ ∅.

Definition by_hostname (a b : DomainRecord) : Prop :=
  if String.eqb (d_Hostname a) (d_Hostname b) then String.leb (d_ID a) (d_ID b) = true
  else String.leb (d_Hostname a) (d_Hostname b) = true.
#[export] Instance by_hostname_dec : RelDecision by_hostname.
Proof. intros a b. unfold by_hostname. case_match; apply _. Defined.

Definition mem_Create (s : MemoryStore) (record : DomainRecord) : option error * MemoryStore :=
  if bool_decide (is_Some (byID s !! d_ID record)) then (Some ErrDomainAlreadyExists, s)
  else if bool_decide (is_Some (byHostname s !! d_Hostname record)) then (Some ErrDomainAlreadyExists, s)
  else (None, mkMemoryStore (<[d_ID record := record]> (byID s))
                (<[d_Hostname record := d_ID record]> (byHostname s))).
Definition mem_List (s : MemoryStore) : result (list DomainRecord) :=
  Ok (merge_sort by_hostname (map_to_list (byID s)).*2).
Definition mem_LookupByID (s : MemoryStore) (id : string) : result (option DomainRecord) :=
  Ok (byID s !! id).
Definition mem_LookupByHostname (s : MemoryStore) (hostname : string) : result (option DomainRecord) :=
  match byHostname s !! hostname with
  | None => Ok None
  | Some id => Ok (byID s !! id)
  end.
Definition mem_Update (s : MemoryStore) (record : DomainRecord) : option error * MemoryStore :=
  match byID s !! d_ID record with
  | None => (Some ErrDomainNotFound, s)
  | Some existing =>
      let put (hostnames : gmap string string) : option error * MemoryStore :=
        (None, mkMemoryStore (<[d_ID record := record]> (byID s))
                 (<[d_Hostname record := d_ID record]> hostnames)) in
      if negb (String.eqb (d_Hostname existing) (d_Hostname record)) then
        match byHostname s !! d_Hostname record with
        | Some otherID =>
            if negb (String.eqb otherID (d_ID record)) then (Some ErrDomainAlreadyExists, s)
            else put (delete (d_Hostname existing) (byHostname s))
        | None => put (delete (d_Hostname existing) (byHostname s))
        end
      else put (byHostname s)
  end.
Definition mem_Delete (s : MemoryStore) (id : string) : option error * MemoryStore :=
  match byID s !! id with
  | None => (None, s)
  | Some record => (None, mkMemoryStore (delete id (byID s)) (delete (d_Hostname record) (byHostname s)))
  end.

#[export] Instance memory_store : DomainStore MemoryStore := {|
  dom_Ping _ := None;
  dom_Create := mem_Create;
  dom_List := mem_List;
  dom_LookupByID := mem_LookupByID;
  dom_LookupByHostname := mem_LookupByHostname;
  dom_Update := mem_Update;
  dom_Delete := mem_Delete;
|}.

(** Calls on the service, each verification with the DNS of its moment. *)
Inductive domain_step {U : GoUnicode} (dns : string -> result (list string))
    : option MemoryStore -> option MemoryStore -> Prop :=
| step_create s req now random : domain_step dns s (snd (CreateDomain s req now random))
| step_verify s id now : domain_step dns s (snd (VerifyDomain s dns id now))
| step_delete s id : domain_step dns s (snd (DeleteDomain s id)).

(** * Properties *)
Section properties.
Context {U : GoUnicode}.

Definition store_ok (s : MemoryStore) : Prop :=
  indexed d_ID d_Hostname (byID s) (byHostname s) /\
  forall i r, byID s !! i = Some r -> d_Status r = StatusActive -> d_VerifiedAt r <> None.
Definition service_ok (s : option MemoryStore) : Prop := match s with None => True | Some m => store_ok m end.
Definition record_at (s : option MemoryStore) (id : string) : option DomainRecord :=
  match s with None => None | Some m => byID m !! id end.

(** The TXT record that proves control of a hostname. *)
Definition proves (values : list string) (token : string) : Prop :=
  exists v, v ∈ values /\
    (TrimSpace v = token \/ TrimSpace v = "porthook-domain-verification=" +:+ token).

Lemma verificationTXTMatches_spec values token :
  verificationTXTMatches values token = true <-> proves values token.
Proof.
  unfold proves. induction values as [|v l IH]; cbn; [split; [done|set_solver]|].
  destruct (String.eqb_spec (TrimSpace v) token), (String.eqb_spec (TrimSpace v) ("porthook-domain-verification=" +:+ token));
    cbn [orb]; try (split; [intros _; exists v; split; [by left|auto]|done]).
  rewrite IH. split; intros (x & Hx & H); exists x; (split; [|done]).
  - by right.
  - apply elem_of_cons in Hx as [->|]; [|done]. by destruct H.
Qed.

(** What a step does to the record of [id]. *)
Definition changes (dns : string -> result (list string)) (old new : option DomainRecord) : Prop :=
  match old, new with
  | _, None => True
  | None, Some r => d_Status r = StatusPendingVerification
  | Some r, Some r' =>
      r' = r \/
      (d_ID r' = d_ID r /\ d_Hostname r' = d_Hostname r /\
       d_ReservedSubdomainID r' = d_ReservedSubdomainID r /\ d_VerificationToken r' = d_VerificationToken r /\
       d_Status r <> StatusActive /\
       (d_Status r' = StatusActive /\ d_VerifiedAt r' <> None /\
          (exists values, dns (VerificationName (d_Hostname r)) = Ok values /\
             proves values (d_VerificationToken r)) \/
        d_Status r' = StatusVerificationFailed))
  end.

Lemma changes_refl dns o : changes dns o o.
Proof. destruct o; simpl; auto. Qed.

Ltac unchanged := split; [done|]; intros ?; apply changes_refl.

Lemma mem_Update_same m r old :
  byID m !! d_ID r = Some old -> d_Hostname old = d_Hostname r ->
  mem_Update m r = (None, mkMemoryStore (<[d_ID r := r]> (byID m)) (<[d_Hostname r := d_ID r]> (byHostname m))).
Proof. intros H E. unfold mem_Update. by rewrite H, E, String.eqb_refl. Qed.

Lemma verify_changes dns m id now :
  store_ok m ->
  store_ok (default m (snd (VerifyDomain (Some m) dns id now))) /\
  forall i, changes dns (byID m !! i) (record_at (snd (VerifyDomain (Some m) dns id now)) i).
Proof.
  intros Hok. pose proof Hok as [Hi Hv]. unfold VerifyDomain. cbv zeta.
  destruct (String.eqb _ ""); [unchanged|].
  cbn [dom_LookupByID dom_Update memory_store]. unfold mem_LookupByID.
  destruct (byID m !! TrimSpace id) as [r|] eqn:Er; [|unchanged].
  destruct (String.eqb_spec (d_Status r) StatusActive); [unchanged|].
  destruct (String.eqb _ ""); [unchanged|].
  set (verified := match dns _ with Ok _ => _ | Err _ => _ end).
  destruct (idx_id _ _ _ _ Hi _ _ Er) as [Eid _].
  match goal with |- context [mem_Update m ?x] => set (r' := x) end.
  assert (Er' : byID m !! d_ID r' = Some r) by (by rewrite <- Er, <- Eid).
  rewrite (mem_Update_same m r' r Er' eq_refl). cbn [snd from_option Datatypes.id].
  split; [split; [by eapply indexed_rewrite|]|].
  - intros i x. cbn [byID Datatypes.id]. rewrite lookup_insert_Some. intros [[_ <-]|[_ Hx]]; [|by apply (Hv i)].
    unfold r'. cbn. destruct verified; done.
  - intros i. cbn [record_at byID]. destruct (decide (d_ID r' = i)) as [<-|Hne].
    + rewrite lookup_insert_eq, Er'. right. repeat split; [done|]. unfold r'. cbn.
      destruct verified eqn:Ev; [left|by right]. split; [done|]. split; [done|]. unfold verified in Ev.
      destruct (dns _) as [values|]; [|done]. exists values. split; [done|]. by apply verificationTXTMatches_spec.
    + rewrite lookup_insert_ne by done. apply changes_refl.
Qed.

Lemma create_changes dns m req now random :
  store_ok m ->
  store_ok (default m (snd (CreateDomain (Some m) req now random))) /\
  forall i, changes dns (byID m !! i) (record_at (snd (CreateDomain (Some m) req now random)) i).
Proof.
  intros Hok. pose proof Hok as [Hi Hv]. unfold CreateDomain. cbv zeta.
  destruct (NormalizeHostname _) as [h|]; [|unchanged].
  destruct (String.eqb _ ""); [unchanged|].
  destruct (randomDomainID random) as [[id|] r1]; [|unchanged].
  destruct (randomVerificationToken r1) as [[tok|] r2]; [|unchanged].
  cbn [dom_Create memory_store]. match goal with |- context [mem_Create m ?x] => set (r := x) end.
  unfold mem_Create. case_bool_decide as H1; [unchanged|].
  case_bool_decide as H2; [unchanged|].
  apply eq_None_not_Some in H1, H2. cbn [snd from_option Datatypes.id].
  split; [split; [by apply indexed_insert|]|].
  - intros i x. cbn [byID Datatypes.id]. rewrite lookup_insert_Some. intros [[_ <-]|[_ Hx]]; [done|by apply (Hv i)].
  - intros i. cbn [record_at byID]. destruct (decide (d_ID r = i)) as [<-|Hne].
    + by rewrite lookup_insert_eq, H1.
    + rewrite lookup_insert_ne by done. apply changes_refl.
Qed.

Lemma delete_changes dns m id :
  store_ok m ->
  store_ok (default m (snd (DeleteDomain (Some m) id))) /\
  forall i, changes dns (byID m !! i) (record_at (snd (DeleteDomain (Some m) id)) i).
Proof.
  intros Hok. pose proof Hok as [Hi Hv]. unfold DeleteDomain. cbv zeta.
  destruct (String.eqb _ ""); [unchanged|].
  cbn [dom_LookupByID dom_Delete memory_store]. unfold mem_LookupByID, mem_Delete.
  destruct (byID m !! TrimSpace id) as [r|] eqn:Er; [|unchanged].
  cbn [snd from_option Datatypes.id]. split; [split; [by apply indexed_delete|]|].
  - intros i x. cbn [byID Datatypes.id]. intros [_ Hx]%lookup_delete_Some. by apply (Hv i).
  - intros i. cbn [record_at byID]. destruct (decide (TrimSpace id = i)) as [<-|Hne].
    + rewrite lookup_delete_eq. by destruct (byID m !! TrimSpace id).
    + rewrite lookup_delete_ne by done. apply changes_refl.
Qed.

Lemma step_changes dns s s' :
  service_ok s -> domain_step dns s s' ->
  service_ok s' /\ forall i, changes dns (record_at s i) (record_at s' i).
Proof.
  intros Hok Hs. destruct s as [m|]; [|inv Hs; split; try done; intros i; apply changes_refl].
  assert (H : store_ok (default m s') /\ forall i, changes dns (byID m !! i) (record_at s' i)).
  { inv Hs; [by apply create_changes|by apply verify_changes|by apply delete_changes]. }
  destruct H as [H1 H2]. split; [|done]. destruct s'; done.
Qed.

Definition reachable (s : option MemoryStore) : Prop :=
  rtc (fun a b => exists dns, domain_step dns a b) (Some NewMemoryStore) s.
Lemma domains_ok s : reachable s -> service_ok s.
Proof.
  apply (rtc_ind_r service_ok); [|intros y z _ [dns Hs] IH; by apply (step_changes dns) in Hs as []].
  split; [apply indexed_empty|]. intros i r Hr. exfalso. exact (lookup_empty_Some i r Hr).
Qed.

(** C20: a custom domain becomes active only through DNS: whatever calls came
    before, a record that is active after a call was already active, or that
    very call looked up [_porthook.<hostname>] and found the domain's own
    verification token there; and an active record says when it was verified. *)
Theorem domain_activated_by_dns dns s s' id r' :
  reachable s -> domain_step dns s s' -> record_at s' id = Some r' -> d_Status r' = StatusActive ->
  d_VerifiedAt r' <> None /\
  (record_at s id = Some r' \/
   exists r values, record_at s id = Some r /\ d_Hostname r = d_Hostname r' /\
     d_ReservedSubdomainID r = d_ReservedSubdomainID r' /\
     dns (VerificationName (d_Hostname r')) = Ok values /\ proves values (d_VerificationToken r')).
Proof.
  intros Hr Hs Hid Ha. apply domains_ok in Hr. destruct (step_changes _ _ _ Hr Hs) as [Hok Hc].
  split; [destruct s' as [m|]; [|done]; by eapply (proj2 Hok)|].
  specialize (Hc id). rewrite Hid in Hc. unfold changes in Hc. destruct (record_at s id) as [r|].
  - destruct Hc as [->|(E1 & E2 & E3 & E4 & _ & [(_ & _ & values & Hd & Hp)|Hf])]; [by left| |].
    + right. exists r, values. by rewrite E2, E3, E4.
    + rewrite Hf in Ha. done.
  - rewrite Hc in Ha. done.
Qed.
End properties.

Module Witness_domains.
#[local] Instance unicode : GoUnicode := {| lower_nonascii s := s; upper_nonascii s := s |}.
Definition created :=
  CreateDomain (Some NewMemoryStore) (mkCreateDomain "App.Example.com." "rs_1") 5
    [Some (to_bytes "id"); Some (to_bytes "token")].
Definition pending : DomainRecord :=
  match fst created with Ok d => ds_record d | Err _ => mkDomain "" "" "" "" "" None 0 0 end.
Definition dns (name : string) : result (list string) :=
  if String.eqb name "_porthook.app.example.com"
  then Ok ["v=spf1"%string; " " +:+ d_VerificationToken pending]
  else Err (Errorf "no such host").
Definition verified := VerifyDomain (snd created) dns (d_ID pending) 9.

Lemma domain_activated_by_dns_witness :
  exists r', record_at (snd verified) (d_ID pending) = Some r' /\ d_Status r' = StatusActive /\
    d_VerifiedAt r' <> None /\
    exists r values, record_at (snd created) (d_ID pending) = Some r /\ d_Hostname r = d_Hostname r' /\
      d_ReservedSubdomainID r = d_ReservedSubdomainID r' /\
      dns (VerificationName (d_Hostname r')) = Ok values /\ proves values (d_VerificationToken r').
Proof.
  destruct (record_at (snd verified) (d_ID pending)) as [r'|] eqn:E; [|by vm_compute in E].
  assert (Ha : d_Status r' = StatusActive) by (vm_compute in E; by injection E as <-).
  exists r'. split; [done|]. split; [done|].
  destruct (domain_activated_by_dns dns (snd created) (snd verified) (d_ID pending) r') as [Hv [H|H]].
  - apply rtc_once. exists dns. constructor.
  - constructor.
  - exact E.
  - exact Ha.
  - exfalso. vm_compute in H. injection H as <-. by vm_compute in Ha.
  - by split.
Defined.
End Witness_domains.
