(* ===== verification/AuditEvents.v ===== *)
(** server/control-plane/internal/controlplane/audit_events.go: the audit log
    of the control plane, its filtered and paged listing, its retention and
    the query parameters the listing endpoint accepts.

    The memory store is the ring of [Ring] over audit events.  Go iterates
    over the map of an event's fields in an order of its own, possibly another
    one each time: [order] is that choice, an argument of the listing. *)
From S2P Require Import Prelude GoStrings Base64 Messages Ring.
From Stdlib Require Import ZArith Lia List String Ascii Bool.
From stdpp Require Import base countable gmap list strings sorting.

Open Scope Z_scope.

Record AuditEvent := mkEvent {
  ae_ID : Z;
  ae_Time : Time;
  ae_Level : string;
  ae_Message : string;
  ae_Event : string;
  ae_Method : string;
  ae_Path : string;
  ae_RemoteIP : string;
  ae_RequestID : string;
  ae_Fields : gmap string string;
}.
#[export] Instance AuditEvent_log : LogEntry AuditEvent := {|
  ID := ae_ID;
  set_ID e id := mkEvent id (ae_Time e) (ae_Level e) (ae_Message e) (ae_Event e) (ae_Method e)
                   (ae_Path e) (ae_RemoteIP e) (ae_RequestID e) (ae_Fields e);
  Stamp := ae_Time;
  zero_entry := mkEvent 0 0 "" "" "" "" "" "" "" ∅;
|}.
#[export] Instance AuditEvent_laws : LogEntryLaws AuditEvent.
Proof. by split. Qed.

Definition auditEventCursor : Type := logCursor.
Definition MemoryAuditEventStore : Type := ring AuditEvent.

Record AuditEventListOptions := mkEventOptions {
  o_Limit : Z;
  o_Event : string;
  o_Level : string;
  o_RequestID : string;
  o_RemoteIP : string;
  o_Field : string;
  o_Since : Time;
  o_Until : Time;
  o_Cursor : auditEventCursor;
}.
Record AuditEventListPage := mkEventPage { pg_Events : list AuditEvent; pg_NextCursor : string }.
Record auditEventFiltersResponse := mkFiltersResponse {
  f_Limit : Z; f_Event : string; f_Level : string; f_RequestID : string; f_RemoteIP : string;
  f_Field : string; f_Since : string; f_Until : string; f_Cursor : string;
}.

Definition maxAuditEventLimit : Z := 1000.
Definition defaultAuditEventLimit : Z := 500.

Definition NewMemoryAuditEventStore (limit : Z) : MemoryAuditEventStore := new_ring limit.

(** A nil store is [None]; both take the early return of an empty one. *)
Definition Add (s : option MemoryAuditEventStore) (entry : AuditEvent) : option MemoryAuditEventStore :=
  match s with None => None | Some s => Some (ring_add s entry) end.

(** Deleted events counted, and the store after; the outer [None] is a panic. *)
Definition PruneBefore (s : option MemoryAuditEventStore) (cutoff : Time)
    : option (Z * option MemoryAuditEventStore) :=
  match s with
  | None => Some (0, None)
  | Some s => '(n, s') ← ring_prune s cutoff; Some (n, Some s')
  end.

Definition normalizedAuditEventLimit (limit : Z) : Z :=
  if limit <=? 0 then defaultAuditEventLimit
  else if maxAuditEventLimit <? limit then maxAuditEventLimit
  else limit.

(** The iteration order of a range over a map. *)
Definition range_order : Type := gmap string string -> list (string * string).

Section listing.
Context {U : GoUnicode} {J : JSONCodec logCursor}.

Definition auditEventFieldsText (order : range_order) (fields : gmap string string) : string :=
  if bool_decide (size fields = 0%nat) then ""
  else GoStrings.Join (map (fun '(key, value) => key +:+ "=" +:+ value) (order fields)) " ".

(** [pattern != "" && !strings.Contains(strings.ToLower(text), strings.ToLower(pattern))]. *)
Definition lacks (pattern text : string) : bool :=
  negb (pattern =? "")%string && negb (Contains (ToLower text) (ToLower pattern)).

Definition auditEventMatches (order : range_order) (event : AuditEvent) (opts : AuditEventListOptions) : bool :=
  if not_past (o_Cursor opts) event then false else
  if negb (IsZero (o_Since opts)) && (ae_Time event <? o_Since opts) then false else
  if negb (IsZero (o_Until opts)) && (o_Until opts <? ae_Time event) then false else
  if lacks (o_Event opts) (ae_Event event) then false else
  if negb (o_Level opts =? "")%string && negb (ToUpper (ae_Level event) =? o_Level opts)%string then false else
  if lacks (o_RequestID opts) (ae_RequestID event) then false else
  if lacks (o_RemoteIP opts) (ae_RemoteIP event) then false else
  if lacks (o_Field opts) (auditEventFieldsText order (ae_Fields event)) then false else
  true.

Definition encodeAuditEventCursor (event : AuditEvent) : string := encode_cursor event.
Definition decodeAuditEventCursor (raw : string) : result auditEventCursor := decode_cursor raw.

Definition auditEventPage (events : list AuditEvent) (limit : Z) : AuditEventListPage :=
  let limit := normalizedAuditEventLimit limit in
  if length_Z events <=? limit then mkEventPage events "" else
  let events := take (Z.to_nat limit) events in
  mkEventPage events (match last events with Some e => encodeAuditEventCursor e | None => "" end).

(** [None] is a panic. *)
Definition List_ (s : option MemoryAuditEventStore) (order : range_order) (opts : AuditEventListOptions)
    : option AuditEventListPage :=
  match s with
  | None => Some (mkEventPage [] "")
  | Some s =>
      if bool_decide (length (entries s) = 0%nat) then Some (mkEventPage [] "") else
      let limit := normalizedAuditEventLimit (o_Limit opts) in
      out ← list_loop s (fun e => auditEventMatches order e opts) limit (Z.to_nat (stored s)) 0 [];
      Some (auditEventPage out limit)
  end.
End listing.

(** ** The listing endpoint's parameters.  [query] is [r.URL.Query().Get]. *)
Section query.
Context {U : GoUnicode} {J : JSONCodec logCursor}.
Variable time_Parse : string -> option Time.   (* time.Parse(time.RFC3339, _) *)
Variable time_Format : Time -> string.         (* Time.Format(time.RFC3339) *)
Variable query : string -> string.

Definition auditEventLimit (fallback : Z) : Z :=
  let raw := query "limit" in
  if (raw =? "")%string then normalizedAuditEventLimit fallback else
  match Atoi raw with
  | None => normalizedAuditEventLimit fallback
  | Some limit =>
      if limit <=? 0 then normalizedAuditEventLimit fallback else normalizedAuditEventLimit limit
  end.

(** A [since] or [until] parameter. *)
Definition time_parameter (name : string) : result Time :=
  let raw := TrimSpace (query name) in
  if (raw =? "")%string then Ok 0 else
  match time_Parse raw with
  | None => Err (Errorf (name +:+ " must be an RFC3339 timestamp"))
  | Some value => Ok value
  end.

Definition auditEventListOptionsFromRequest (fallback : Z) : result AuditEventListOptions :=
  let limit := auditEventLimit fallback in
  try since <- time_parameter "since";
  try until <- time_parameter "until";
  if negb (IsZero since) && negb (IsZero until) && (until <? since)
  then Err (Errorf "since must be before until") else
  let raw := TrimSpace (query "cursor") in
  try cursor <- (if (raw =? "")%string then Ok no_cursor else decodeAuditEventCursor raw);
  Ok {|
    o_Limit := limit;
    o_Event := TrimSpace (query "event");
    o_Level := ToUpper (TrimSpace (query "level"));
    o_RequestID := TrimSpace (query "request_id");
    o_RemoteIP := TrimSpace (query "remote_ip");
    o_Field := TrimSpace (query "field");
    o_Since := since;
    o_Until := until;
    o_Cursor := cursor;
  |}.

Definition auditEventFiltersForResponse (opts : AuditEventListOptions) (cursor : string)
    : auditEventFiltersResponse := {|
  f_Limit := normalizedAuditEventLimit (o_Limit opts);
  f_Event := o_Event opts;
  f_Level := o_Level opts;
  f_RequestID := o_RequestID opts;
  f_RemoteIP := o_RemoteIP opts;
  f_Field := o_Field opts;
  f_Since := if negb (IsZero (o_Since opts)) then time_Format (o_Since opts) else "";
  f_Until := if negb (IsZero (o_Until opts)) then time_Format (o_Until opts) else "";
  f_Cursor := cursor;
|}.
End query.

(** * Properties *)
Section properties.
Context {U : GoUnicode} {J : JSONCodec logCursor}.

Lemma normalizedAuditEventLimit_bounds limit :
  0 < normalizedAuditEventLimit limit <= maxAuditEventLimit.
Proof.
  unfold normalizedAuditEventLimit, defaultAuditEventLimit, maxAuditEventLimit.
  repeat case_match; to_prop; lia.
Qed.

Lemma normalizedAuditEventLimit_idem limit :
  normalizedAuditEventLimit (normalizedAuditEventLimit limit) = normalizedAuditEventLimit limit.
Proof.
  pose proof (normalizedAuditEventLimit_bounds limit). unfold normalizedAuditEventLimit at 1.
  repeat case_match; to_prop; lia.
Qed.

Lemma auditEventPage_spec limit sel :
  auditEventPage sel (normalizedAuditEventLimit limit)
  = let '(events, cursor) := page_of (normalizedAuditEventLimit limit) sel in mkEventPage events cursor.
Proof.
  unfold auditEventPage, page_of. rewrite normalizedAuditEventLimit_idem.
  destruct (Z.leb_spec (length_Z sel) (normalizedAuditEventLimit limit)); unfold length_Z in *.
  - by rewrite take_ge by lia.
  - f_equal. by destruct (last _).
Qed.

(** The filters of a listing besides the cursor. *)
Definition without_cursor (opts : AuditEventListOptions) : AuditEventListOptions :=
  mkEventOptions (o_Limit opts) (o_Event opts) (o_Level opts) (o_RequestID opts) (o_RemoteIP opts)
    (o_Field opts) (o_Since opts) (o_Until opts) no_cursor.
Definition with_cursor (opts : AuditEventListOptions) (c : logCursor) : AuditEventListOptions :=
  mkEventOptions (o_Limit opts) (o_Event opts) (o_Level opts) (o_RequestID opts) (o_RemoteIP opts)
    (o_Field opts) (o_Since opts) (o_Until opts) c.

Lemma auditEventMatches_selects order opts c e :
  auditEventMatches order e (with_cursor opts c)
  = selects c (fun e => auditEventMatches order e (without_cursor opts)) e.
Proof. unfold auditEventMatches, selects. cbn. by destruct (not_past c e). Qed.

(** Without a filter on the fields, the iteration order of the fields does not
    decide what is listed. *)
Lemma auditEventMatches_order opts o1 o2 e :
  o_Field opts = ""%string -> auditEventMatches o1 e opts = auditEventMatches o2 e opts.
Proof. intros H. unfold auditEventMatches. by rewrite H. Qed.

(** A listing is the page of the events it selects, newest first; no index is
    out of range. *)
Lemma List_page_of s order opts :
  wf s -> entries s <> [] ->
  List_ (Some s) order opts =
  Some (let '(events, cursor) := page_of (normalizedAuditEventLimit (o_Limit opts))
                                   (selected (fun e => auditEventMatches order e opts) s) in
        mkEventPage events cursor).
Proof.
  intros H Hne. unfold List_. pose proof (normalizedAuditEventLimit_bounds (o_Limit opts)).
  rewrite bool_decide_eq_false_2 by (by destruct (entries s)).
  rewrite list_loop_all by (done || lia). cbn [mbind option_bind]. f_equal.
  rewrite auditEventPage_spec. by rewrite page_of_take by lia.
Qed.

(** The store after a history of events. *)
Definition audited (limit : Z) (es : list AuditEvent) : option MemoryAuditEventStore :=
  foldl Add (Some (NewMemoryAuditEventStore limit)) es.

Lemma audited_logged limit es : audited limit es = Some (logged limit es).
Proof.
  unfold audited, logged, NewMemoryAuditEventStore. generalize (new_ring limit : MemoryAuditEventStore) as s.
  induction es as [|e es IH]; intros s; [done|]. apply (IH (ring_add s e)).
Qed.

(** A page of the endpoint for a cursor. *)
Definition events_at (s : option MemoryAuditEventStore) (opts : AuditEventListOptions) (order : range_order)
    (c : logCursor) : option (list AuditEvent * string) :=
  page ← List_ s order (with_cursor opts c); Some (pg_Events page, pg_NextCursor page).

Context {JL : JSONLaws logCursor}.
Hypothesis cursor_marshals : forall c : logCursor, is_ok (Marshal c) = true.

(** An operator who follows the cursors of the audit log reaches the end
    and sees every stored event that matches, each exactly once and newest
    first, whatever the page size and however Go orders the fields of an event
    on each page, as long as no field filter is set; the stored events are the
    newest ones up to the capacity, numbered in the order they were audited. *)
Lemma audit_paging_complete limit es opts (orders : nat -> range_order) order :
  0 < limit -> Forall (fun e => ae_ID e = 0 /\ ae_Time e <> 0) es ->
  Z.of_nat (length es) <= max_int64 -> o_Field opts = ""%string ->
  fetch_all (S (length es)) (fun k => events_at (audited limit es) opts (orders k)) no_cursor
  = Some (List.filter (fun e => auditEventMatches order e (without_cursor opts))
            (reverse (lastn (Z.to_nat limit) (numbered es)))).
Proof.
  intros Hl HF Hb Ho. pose proof (normalizedAuditEventLimit_bounds (o_Limit opts)).
  apply (fetch_all_logged cursor_marshals _ _ (normalizedAuditEventLimit (o_Limit opts))); try done; [lia|].
  intros k c. apply Forall_and in HF as [HF _]. rewrite audited_logged.
  destruct (logged_spec (LE := AuditEvent_log) limit es Hl HF Hb) as (Hw & Hlen & _). unfold events_at.
  rewrite List_page_of; [|done|].
  - cbn [mbind option_bind o_Limit with_cursor]. unfold page_of, selected. cbn [pg_Events pg_NextCursor].
    rewrite (List.filter_ext _ (selects c (fun e => auditEventMatches order e (without_cursor opts)))); [done|].
    intros e. rewrite auditEventMatches_selects. unfold selects. f_equal.
    by apply (auditEventMatches_order (without_cursor opts)).
  - intros Hnil. rewrite Hnil in Hlen. simpl in Hlen. lia.
Qed.
End properties.

(** Retention and logging in any order store what a bounded list would. *)
Definition audit_step (s : option MemoryAuditEventStore) (op : logOp) : option MemoryAuditEventStore :=
  match op with
  | OpAdd e => Add s e
  | OpPrune cutoff => '(_, s') ← PruneBefore s cutoff; s'
  end.

Lemma audit_step_ring s op : audit_step (Some s) op = ring_step (Some s) op.
Proof. destruct op as [e|c]; [done|]. simpl. by destruct (ring_prune s c) as [[]|]. Qed.

Lemma audit_refines_list limit ops :
  0 < limit ->
  exists s, foldl audit_step (Some (NewMemoryAuditEventStore limit)) ops = Some s /\
    represents s (Z.to_nat limit) (foldl (spec_step (Z.to_nat limit)) ([], 0) ops).
Proof.
  intros Hl. generalize (new_represents limit Hl : represents (NewMemoryAuditEventStore limit) _ _).
  generalize (NewMemoryAuditEventStore limit) ([] : list AuditEvent, 0).
  induction ops as [|op ops IH]; intros s l H; cbn [foldl]; [by exists s|]. rewrite audit_step_ring.
  destruct (ring_step_refines s (Z.to_nat limit) l op ltac:(lia) H) as (s1 & E & H1).
  unfold MemoryAuditEventStore in *. rewrite E. by apply IH.
Qed.

(** ** Witnesses *)
Module Witness_audit.
#[local] Instance unicode : GoUnicode := {| lower_nonascii s := s; upper_nonascii s := s |}.
#[local] Instance codec : JSONCodec logCursor := countable_codec.

Definition event (n : Z) : AuditEvent :=
  mkEvent 0 n "INFO" "control-plane tokens listed" "control_plane.tokens_listed" "GET" "/api/v1/tokens"
    "203.0.113.9" "" {[ "count" := Itoa n; "valid" := "true" ]}%string.
Definition options (field : string) : AuditEventListOptions :=
  mkEventOptions 1 "tokens" "INFO" "" "" field 0 0 no_cursor.
Definition forwards : range_order := map_to_list.
Definition backwards : range_order := fun m => reverse (map_to_list m).

Lemma audit_paging_complete_witness :
  let es := [event 1; event 2; event 3; event 4] in
  fetch_all 5 (fun k => events_at (audited 3 es) (options "") (if Nat.even k then forwards else backwards)) no_cursor
  = Some (List.filter (fun e => auditEventMatches forwards e (without_cursor (options "")))
            (reverse (lastn 3 (numbered es)))).
Proof.
  intros es.
  apply (audit_paging_complete (JL := countable_codec_laws) (fun _ => eq_refl) 3 es (options "")
    (fun k => if Nat.even k then forwards else backwards) forwards); try by vm_compute.
  repeat constructor; discriminate.
Defined.

(** A field filter that spans two fields is answered one way or the other by
    the order Go happens to iterate in. *)
Lemma field_filter_order_dependent :
  auditEventMatches forwards (event 1) (options "valid=true count=1")
  <> auditEventMatches backwards (event 1) (options "valid=true count=1").
Proof. by vm_compute. Qed.
End Witness_audit.
