(* ===== verification/ControlPlane.v ===== *)
(** server/control-plane/internal/controlplane/server.go: who may call the
    control plane, and the four questions a gateway asks it.

    The services are those of [Tokens], [AdminTokens], [Reserved], [Access] and
    [CustomDomains] on their memory stores.  The JSON decoder of a request is
    the argument [body], what [decodeJSON] returned; counters are kept by name
    and audit events in the store of [AuditEvents]. *)
From S2P Require Import Prelude GoStrings Names Base64 Wire Ring AuditEvents ControlPlaneClient ClientIP Stores TokenStore.
From S2P Require Import Password Tokens AdminTokens Reserved Access CustomDomains.
From Stdlib Require Import ZArith Lia List String Ascii Bool.
From stdpp Require Import base gmap strings list relations.

Open Scope Z_scope.

#[local] Instance token_store : TokenStore TokenStore.MemoryStore := TokenStore.memory_store Tokens.ErrTokenAlreadyExists.
Definition admin_store : TokenStore TokenStore.MemoryStore := TokenStore.memory_store AdminTokens.ErrTokenAlreadyExists.

(** What a handler answers. *)
Inductive reply (A : Type) : Type :=
| Failure (status : Z) (message : string)       (* http.Error *)
| MethodNotAllowed (allow : string)
| JSON (status : Z) (payload : A)
| NoContent.                                     (* status 204 *)
Arguments Failure {A} status message.
Arguments MethodNotAllowed {A} allow.
Arguments JSON {A} status payload.
Arguments NoContent {A}.

Definition Failed {A} (status : Z) (e : error) : reply A := Failure status (error_message e).

(** * The server's state *)
Section server.
Context {NI : GoNetip}.

Record Server := mkServer {
  AdminToken : string;
  ValidatorToken : string;
  service : option TokenStore.MemoryStore;
  reservations : option Reserved.MemoryStore;
  accessPolicies : option Access.MemoryStore;
  customDomains : option CustomDomains.MemoryStore;
  adminTokens : option TokenStore.MemoryStore;
  metrics : gmap string Z;
  auditEvents : option MemoryAuditEventStore;
  clientIPs : Resolver;
}.
Definition set_service (s : Server) (x : option TokenStore.MemoryStore) : Server :=
  mkServer (AdminToken s) (ValidatorToken s) x (reservations s) (accessPolicies s) (customDomains s)
    (adminTokens s) (metrics s) (auditEvents s) (clientIPs s).
Definition set_reservations (s : Server) (x : option Reserved.MemoryStore) : Server :=
  mkServer (AdminToken s) (ValidatorToken s) (service s) x (accessPolicies s) (customDomains s)
    (adminTokens s) (metrics s) (auditEvents s) (clientIPs s).
Definition set_accessPolicies (s : Server) (x : option Access.MemoryStore) : Server :=
  mkServer (AdminToken s) (ValidatorToken s) (service s) (reservations s) x (customDomains s)
    (adminTokens s) (metrics s) (auditEvents s) (clientIPs s).
Definition set_customDomains (s : Server) (x : option CustomDomains.MemoryStore) : Server :=
  mkServer (AdminToken s) (ValidatorToken s) (service s) (reservations s) (accessPolicies s) x
    (adminTokens s) (metrics s) (auditEvents s) (clientIPs s).
Definition set_adminTokens (s : Server) (x : option TokenStore.MemoryStore) : Server :=
  mkServer (AdminToken s) (ValidatorToken s) (service s) (reservations s) (accessPolicies s) (customDomains s)
    x (metrics s) (auditEvents s) (clientIPs s).
Definition set_auditEvents (s : Server) (x : option MemoryAuditEventStore) : Server :=
  mkServer (AdminToken s) (ValidatorToken s) (service s) (reservations s) (accessPolicies s) (customDomains s)
    (adminTokens s) (metrics s) x (clientIPs s).
(** [s.metrics.<name>.Add(1)]. *)
Definition count (name : string) (s : Server) : Server :=
  mkServer (AdminToken s) (ValidatorToken s) (service s) (reservations s) (accessPolicies s) (customDomains s)
    (adminTokens s) (<[name := default 0 (metrics s !! name) + 1]> (metrics s)) (auditEvents s) (clientIPs s).

(** A request as the handlers see it: [rq_ContextID] is the request id the
    middleware stored in its context. *)
Record request := mkRequest {
  rq_Method : string; rq_Path : string; rq_Header : Header; rq_RemoteAddr : string; rq_ContextID : string;
}.
Definition requestID (r : request) : string := FromRequest (rq_ContextID r) (rq_Header r).
Definition clientIP (s : Server) (r : request) : string :=
  ResolveString (clientIPs s) (rq_RemoteAddr r) (rq_Header r).

(** ** The audit log *)

(** The kinds of [slog.Value] the handlers build: the default case of
    [auditEventFieldValue], [fmt.Sprint], is reached with an error or with a
    slice of strings. *)
Inductive slogValue : Type :=
| VString (text : string)
| VBool (b : bool)
| VInt64 (n : Z)
| VError (e : error)
| VStrings (l : list string).
Definition slogAttr : Type := string * slogValue.

Definition auditEventFieldValue (value : slogValue) : string :=
  match value with
  | VString text => text
  | VBool b => if b then "true" else "false"
  | VInt64 n => Itoa n
  | VError e => error_message e
  | VStrings l => "[" +:+ GoStrings.Join l " " +:+ "]"
  end.

Definition auditEventFields (attrs : list slogAttr) : gmap string string :=
  foldl (fun fields '(key, value) =>
    if String.eqb key "" then fields else <[key := auditEventFieldValue value]> fields) ∅ attrs.

Definition LevelInfo : string := "INFO".
Definition LevelWarn : string := "WARN".

(** [logAudit], with the reading of the clock it stamps the event with.  The
    memory store never fails, and the line for the process log is not kept. *)
Definition auditEvent (s : Server) (r : request) (now : Time) (level msg event : string)
    (attrs : list slogAttr) : AuditEvent :=
  mkEvent 0 now level msg event (rq_Method r) (rq_Path r) (clientIP s r) (requestID r) (auditEventFields attrs).
Definition logAudit (r : request) (now : Time) (level msg event : string)
    (attrs : list slogAttr) (s : Server) : Server :=
  set_auditEvents s (AuditEvents.Add (auditEvents s) (auditEvent s r now level msg event attrs)).

(** * Authorization *)
Section authorization.
Context {H256 : SHA256}.

Definition bearerToken (header : Header) : string * bool :=
  let '(token, ok) := CutPrefix (Header_Get header "Authorization") "Bearer " in
  (TrimSpace token, ok && negb (String.eqb (TrimSpace token) "")).

Definition authorizedBearer (header : Header) (configuredToken : string) : bool :=
  if String.eqb configuredToken "" then false
  else let '(token, ok) := bearerToken header in ok && secretEqual token configuredToken.

Definition validatorAuthorized (s : Server) (header : Header) : bool :=
  authorizedBearer header (ValidatorToken s).

Record adminAuthorization := mkAuthz {
  Authenticated : bool; Authorized : bool; Source : string;
  az_TokenID : string; TokenName : string; az_Scopes : list string;
}.
Definition no_authorization : adminAuthorization := mkAuthz false false "" "" "" [].

Fixpoint adminAuthorizationHasScope (scopes : list string) (required : string) : bool :=
  match scopes with
  | [] => false
  | scope :: rest => if String.eqb scope required then true else adminAuthorizationHasScope rest required
  end.
Fixpoint scopes_granted (granted required : list string) : bool :=
  match required with
  | [] => true
  | scope :: rest =>
      if String.eqb scope "" then scopes_granted granted rest
      else if negb (adminAuthorizationHasScope granted scope) then false
      else scopes_granted granted rest
  end.

Definition authorizeAdmin (s : Server) (header : Header) (requiredScopes : list string) (now : Time)
    : result adminAuthorization * Server :=
  let '(token, ok) := bearerToken header in
  if negb ok then (Ok no_authorization, s)
  else if negb (String.eqb (AdminToken s) "") && secretEqual token (AdminToken s) then
    (Ok (mkAuthz true true "bootstrap" "" "" AdminTokens.DefaultScopes), s)
  else
    let '(res, store) := AdminTokens.ValidateToken (TS := admin_store) (adminTokens s) token [] now in
    let s := set_adminTokens s store in
    match res with
    | Err e => (Err e, s)
    | Ok v =>
        if negb (AdminTokens.v_Valid v) then (Ok no_authorization, s)
        else (Ok (mkAuthz true (scopes_granted (AdminTokens.v_Scopes v) requiredScopes) "admin_token"
                    (AdminTokens.v_TokenID v) (AdminTokens.v_Name v) (AdminTokens.v_Scopes v)), s)
    end.

(** The attributes every refused admin call is audited with. *)
Definition refused_attrs (s : Server) (reason : string) : list slogAttr :=
  [("surface", VString "admin"); ("reason", VString reason);
   ("bootstrap_token_configured", VBool (negb (String.eqb (AdminToken s) "")));
   ("admin_token_store_available", VBool (bool_decide (is_Some (adminTokens s))))]%string.

(** [authorizeAdminRequest]: the authorization, or the status and text of the
    refusal; [now] is the clock of the token check, [at_] that of the audit. *)
Definition authorizeAdminRequest (s : Server) (r : request) (requiredScopes : list string) (now at_ : Time)
    : (Z * string + adminAuthorization) * Server :=
  let '(res, s) := authorizeAdmin s (rq_Header r) requiredScopes now in
  let fail (attrs : list slogAttr) : Server :=
    logAudit r at_ LevelWarn "control-plane authorization failed" "control_plane.auth_failed" attrs
      (count "authFailuresTotal" s) in
  match res with
  | Err e =>
      (inl (500, "admin authorization failed"%string),
       fail (refused_attrs s "auth_store_error" ++
             [("required_scopes"%string, VStrings requiredScopes); ("error"%string, VError e)]))
  | Ok auth =>
      if negb (Authenticated auth) then
        (inl (401, "unauthorized"%string),
         fail (refused_attrs s "unauthorized" ++ [("required_scopes"%string, VStrings requiredScopes)]))
      else if negb (Authorized auth) then
        (inl (403, "forbidden: admin token is missing a required scope"%string),
         fail (refused_attrs s "insufficient_scope" ++
               [("auth_source"%string, VString (Source auth)); ("required_scopes"%string, VStrings requiredScopes);
                ("granted_scopes"%string, VStrings (az_Scopes auth))] ++
               (if negb (String.eqb (az_TokenID auth) "")
                then [("admin_token_id"%string, VString (az_TokenID auth))] else [])))
      else (inr auth, s)
  end.
End authorization.

(** * The questions of a gateway *)
Record lookupCustomDomainResponse := mkLookupResponse {
  lr_Found : bool; lr_Reason : string; lr_Hostname : string; lr_CustomDomainID : string;
  lr_ReservedSubdomainID : string; lr_Subdomain : string; lr_Status : string;
}.

Section questions.
Context {U : GoUnicode} {H256 : SHA256} {A2 : Argon2}.

Definition lookupCustomDomain (s : Server) (hostname : string) : result lookupCustomDomainResponse :=
  try o <- GetDomainByHostname (customDomains s) hostname;
  match o with
  | None =>
      try normalized <- NormalizeHostname hostname;
      Ok (mkLookupResponse false "not_found" normalized "" "" "" "")
  | Some d =>
      let domain := ds_record d in
      if negb (String.eqb (d_Status domain) StatusActive) then
        let reason := if String.eqb (d_Status domain) StatusVerificationFailed
                      then "verification_failed"%string else "not_verified"%string in
        Ok (mkLookupResponse false reason (d_Hostname domain) (d_ID domain)
              (d_ReservedSubdomainID domain) "" (d_Status domain))
      else
        try r <- GetReservation (reservations s) (d_ReservedSubdomainID domain);
        match r with
        | None =>
            Ok (mkLookupResponse false "reservation_not_found" (d_Hostname domain) (d_ID domain)
                  (d_ReservedSubdomainID domain) "" (d_Status domain))
        | Some reservation =>
            Ok (mkLookupResponse true "" (d_Hostname domain) (d_ID domain)
                  (d_ReservedSubdomainID domain) (r_Name reservation) (d_Status domain))
        end
  end.

Definition zero_reservation : ReservationRecord := mkReservation "" "" "" 0.

Definition evaluateAccessPolicy (s : Server) (req : accessPolicyEvaluationRequest) (random : list (option bytes))
    : result (CheckPolicyResult * ReservationRecord) * Server :=
  match GetReservationByName (reservations s) (ev_Subdomain req) with
  | Err e => (Err e, s)
  | Ok None => (Ok (mkCheckResult true ModePublic "not_reserved", zero_reservation), s)
  | Ok (Some reservation) =>
      let '(res, store) :=
        CheckPolicy (accessPolicies s)
          (mkCheckPolicy (r_ID reservation) (ev_RemoteIP req) (ev_BasicUsername req) (ev_BasicPassword req)
             (ev_BearerToken req)) random in
      let s := set_accessPolicies s store in
      match res with
      | Err e => (Err e, s)
      | Ok result => (Ok (result, reservation), s)
      end
  end.

(** ** The errors that are the caller's *)
Definition isReservationRequestError (e : error) : bool :=
  errors_Is e ErrReservationNameRequired || errors_Is e ErrReservationTokenIDRequired ||
  Contains (error_message e) "invalid reserved subdomain".
Definition isCustomDomainRequestError (e : error) : bool :=
  errors_Is e ErrDomainHostnameRequired || errors_Is e ErrDomainReservedSubdomainIDRequired ||
  errors_Is e ErrDomainInvalidHostname.

(** ** The handlers.  [now] is the clock of the service, [at_] that of the
    audit event. *)

(** The guard the four handlers share. *)
Definition validator_guard {A T} (s : Server) (r : request) (body : result T) (at_ : Time)
    (k : T -> Server -> reply A * Server) : reply A * Server :=
  if negb (String.eqb (rq_Method r) "POST") then (MethodNotAllowed "POST", s)
  else if negb (validatorAuthorized s (rq_Header r)) then
    (Failure 401 "unauthorized",
     logAudit r at_ LevelWarn "control-plane authorization failed" "control_plane.auth_failed"
       [("surface", VString "validator");
        ("token_configured", VBool (negb (String.eqb (ValidatorToken s) "")))]%string
       (count "authFailuresTotal" s))
  else match body with
       | Err e => (Failed 400 e, s)
       | Ok req => k req s
       end.

Definition handleValidateToken (s : Server) (r : request) (body : result validateTokenRequest) (now at_ : Time)
    : reply Tokens.ValidationResult * Server :=
  validator_guard s r body at_ (fun req s =>
    let s := count "tokenValidationsTotal" s in
    let '(res, store) := Tokens.ValidateToken (service s) (vt_Token req) (vt_Scope req) now in
    let s := set_service s store in
    match res with
    | Err e =>
        let status := if errors_Is e Tokens.ErrUnsupportedScope then 400 else 500 in
        (Failed status e,
         logAudit r at_ LevelWarn "control-plane token validation failed" "control_plane.token_validation_failed"
           [("scope"%string, VString (vt_Scope req)); ("status"%string, VInt64 status); ("error"%string, VError e)]
           (count "tokenValidationErrorsTotal" s))
    | Ok v =>
        (JSON 200 v,
         logAudit r at_ LevelInfo "control-plane token validated" "control_plane.token_validated"
           ([("scope"%string, VString (vt_Scope req)); ("valid"%string, VBool (Tokens.v_Valid v))] ++
            (if negb (String.eqb (Tokens.v_TokenID v) "") then [("token_id"%string, VString (Tokens.v_TokenID v))] else []))
           (count (if Tokens.v_Valid v then "tokenValidationValidTotal" else "tokenValidationInvalidTotal") s))
    end).

Definition handleAuthorizeReservedSubdomain (s : Server) (r : request)
    (body : result authorizeReservedSubdomainRequest) (at_ : Time) : reply AuthorizationResult * Server :=
  validator_guard s r body at_ (fun req s =>
    let s := count "reservationAuthorizationsTotal" s in
    let about := [("token_id"%string, VString (aq_TokenID req)); ("subdomain"%string, VString (aq_Subdomain req))] in
    match Authorize (reservations s) (aq_TokenID req) (aq_Subdomain req) with
    | Err e =>
        let status := if isReservationRequestError e then 400 else 500 in
        (Failed status e,
         logAudit r at_ LevelWarn "control-plane reserved subdomain authorization failed"
           "control_plane.reservation_authorization_failed"
           (about ++ [("status"%string, VInt64 status); ("error"%string, VError e)]) s)
    | Ok res =>
        (JSON 200 res,
         logAudit r at_ LevelInfo "control-plane reserved subdomain authorized" "control_plane.reservation_authorized"
           (about ++ [("allowed"%string, VBool (ar_Allowed res)); ("reason"%string, VString (ar_Reason res))])
           (count (if ar_Allowed res then "reservationAuthorizationAllowedTotal"
                   else "reservationAuthorizationDeniedTotal") s))
    end).

Definition handleEvaluateAccessPolicy (s : Server) (r : request)
    (body : result accessPolicyEvaluationRequest) (random : list (option bytes)) (at_ : Time)
    : reply CheckPolicyResult * Server :=
  validator_guard s r body at_ (fun req s =>
    let subdomain := TrimSpace (ev_Subdomain req) in
    if String.eqb subdomain "" then (Failure 400 "subdomain is required", s)
    else
      let remoteIP := if String.eqb (ev_RemoteIP req) ""
                      then clientIP s r else ev_RemoteIP req in
      let req := mkEvaluationRequest subdomain remoteIP (ev_BasicUsername req) (ev_BasicPassword req)
                   (ev_BearerToken req) in
      let s := count "accessPolicyEvaluationsTotal" s in
      match evaluateAccessPolicy s req random with
      | (Err e, s) =>
          let status := if isReservationRequestError e then 400 else 500 in
          (Failed status e,
           logAudit r at_ LevelWarn "control-plane access policy evaluation failed"
             "control_plane.access_policy_evaluation_failed"
             [("subdomain"%string, VString (subdomain)); ("status"%string, VInt64 status); ("error"%string, VError e)]
             (count "accessPolicyEvaluationErrorsTotal" s))
      | (Ok (res, reservation), s) =>
          (JSON 200 res,
           logAudit r at_ LevelInfo "control-plane access policy evaluated" "control_plane.access_policy_evaluated"
             ([("subdomain"%string, VString (subdomain)); ("mode"%string, VString (ck_Mode res));
               ("allowed"%string, VBool (ck_Allowed res)); ("reason"%string, VString (ck_Reason res))] ++
              (if negb (String.eqb (r_ID reservation) "") then [("reservation_id"%string, VString (r_ID reservation))] else []))
             (count (if ck_Allowed res then "accessPolicyEvaluationAllowedTotal"
                     else "accessPolicyEvaluationDeniedTotal") s))
      end).

Definition handleLookupCustomDomain (s : Server) (r : request) (body : result lookupCustomDomainRequest) (at_ : Time)
    : reply lookupCustomDomainResponse * Server :=
  validator_guard s r body at_ (fun req s =>
    let s := count "customDomainLookupsTotal" s in
    match lookupCustomDomain s (lq_Hostname req) with
    | Err e =>
        let status := if isCustomDomainRequestError e then 400 else 500 in
        (Failed status e,
         logAudit r at_ LevelWarn "control-plane custom domain lookup failed" "control_plane.custom_domain_lookup_failed"
           [("hostname"%string, VString (lq_Hostname req)); ("status"%string, VInt64 status); ("error"%string, VError e)]
           (count "customDomainLookupErrorsTotal" s))
    | Ok res =>
        (JSON 200 res,
         logAudit r at_ LevelInfo "control-plane custom domain looked up" "control_plane.custom_domain_lookup"
           [("hostname"%string, VString (lq_Hostname req)); ("found"%string, VBool (lr_Found res));
            ("reason"%string, VString (lr_Reason res)); ("custom_domain_id"%string, VString (lr_CustomDomainID res));
            ("subdomain"%string, VString (lr_Subdomain res))]
           (count (if lr_Found res then "customDomainLookupHitsTotal" else "customDomainLookupMissesTotal") s))
    end).
End questions.

(** * Properties *)
Section admin.
Context {H256 : SHA256}.

Definition admin_ok (s : Server) : Prop :=
  match adminTokens s with None => True | Some store => memory_ok store end.

Lemma scopes_granted_has_all granted required :
  scopes_granted granted required = AdminTokens.has_all granted required.
Proof.
  assert (Hs : forall l x, adminAuthorizationHasScope l x = AdminTokens.hasScope l x) by done.
  induction required as [|x l IH]; [done|]. cbn. rewrite Hs. by repeat case_match.
Qed.

(** A bearer token that authorizes [scopes]: the bootstrap token, or a live
    admin token that carries them. *)
Definition admin_token_for (s : Server) (token : string) (scopes : list string) : Prop :=
  (AdminToken s <> ""%string /\ Sum256 token = Sum256 (AdminToken s)) \/
  exists store i r, adminTokens s = Some store /\ TokenStore.byID store !! i = Some r /\
    t_TokenHash r = AdminTokens.HashToken token /\ t_RevokedAt r = None /\
    forall sc, sc ∈ scopes -> sc <> ""%string -> sc ∈ t_Scopes r.

Lemma TrimSpace_bearer header token : bearerToken header = (token, true) ->
  token <> ""%string /\ exists raw, CutPrefix (Header_Get header "Authorization") "Bearer " = (raw, true) /\
    token = TrimSpace raw.
Proof.
  unfold bearerToken. destruct (CutPrefix _ _) as [raw ok]. intros [= <- H].
  apply andb_true_iff in H as [-> H]. apply negb_true_iff, String.eqb_neq in H. eauto.
Qed.

(** The reason a refusal is audited with. *)
Definition refusal_reason (status : Z) : string :=
  if status =? 500 then "auth_store_error" else if status =? 401 then "unauthorized" else "insufficient_scope".

(** A refused admin call: the status, the counter, the audit event with its
    reason and the scopes that were required, and nothing else changed but the
    use mark of an admin token. *)
Definition refused (s : Server) (r : request) (scopes : list string) (at_ : Time) (status : Z) (s' : Server) : Prop :=
  status ∈ [401; 403; 500] /\
  metrics s' !! "authFailuresTotal"%string = Some (default 0 (metrics s !! "authFailuresTotal"%string) + 1) /\
  (exists attrs,
     auditEvents s' = AuditEvents.Add (auditEvents s)
       (auditEvent s r at_ LevelWarn "control-plane authorization failed" "control_plane.auth_failed" attrs) /\
     auditEventFields attrs !! "surface"%string = Some "admin"%string /\
     auditEventFields attrs !! "reason"%string = Some (refusal_reason status) /\
     auditEventFields attrs !! "required_scopes"%string = Some (auditEventFieldValue (VStrings scopes))) /\
  service s' = service s /\ reservations s' = reservations s /\
  accessPolicies s' = accessPolicies s /\ customDomains s' = customDomains s.

Lemma refused_intro s r scopes at_ status store s1 attrs :
  s1 = set_adminTokens s store -> status ∈ [401; 403; 500] ->
  auditEventFields attrs !! "surface"%string = Some "admin"%string ->
  auditEventFields attrs !! "reason"%string = Some (refusal_reason status) ->
  auditEventFields attrs !! "required_scopes"%string = Some (auditEventFieldValue (VStrings scopes)) ->
  refused s r scopes at_ status
    (logAudit r at_ LevelWarn "control-plane authorization failed" "control_plane.auth_failed" attrs
       (count "authFailuresTotal" s1)).
Proof.
  intros -> Hs H1 H2 H3. split; [done|]. split; [apply lookup_insert_eq|].
  split; [by exists attrs|done].
Qed.

(** An admin call goes through only with a bearer token that is the
    configured bootstrap token or a live admin token carrying every scope the
    call requires, and changes nothing but the use mark of that token; any
    other call is refused with 401, 403 or 500, counted as an authorization
    failure and recorded in the audit log under the reason of its status, with
    the address and path of the caller, and changes nothing else either. *)
Lemma authorizeAdminRequest_spec s r scopes now at_ :
  admin_ok s ->
  match authorizeAdminRequest s r scopes now at_ with
  | (inr _, s') =>
      (exists token, bearerToken (rq_Header r) = (token, true) /\ admin_token_for s token scopes) /\
      exists store, s' = set_adminTokens s store
  | (inl (status, _), s') => refused s r scopes at_ status s'
  end.
Proof.
  intros Hok. unfold authorizeAdminRequest, authorizeAdmin.
  assert (Hself : s = set_adminTokens s (adminTokens s)) by (by destruct s).
  destruct (bearerToken (rq_Header r)) as [token ok] eqn:Eb. destruct ok; cbn [negb].
  2: { cbn [Authenticated no_authorization negb]. by eapply refused_intro; [exact Hself|set_solver|..]. }
  destruct (TrimSpace_bearer _ _ Eb) as (Hne & raw & _ & Eraw).
  destruct (negb (String.eqb (AdminToken s) "") && secretEqual token (AdminToken s)) eqn:Ea.
  { apply andb_true_iff in Ea as [_ Ea]. apply secretEqual_spec in Ea as (_ & H1 & H2).
    split; [exists token; split; [done|by left]|by exists (adminTokens s)]. }
  destruct (AdminTokens.ValidateToken (adminTokens s) token [] now) as [[v|e] store] eqn:Ev.
  2: { by eapply refused_intro; [reflexivity|set_solver|..]. }
  destruct (AdminTokens.v_Valid v) eqn:Evv; cbn [negb].
  2: { cbn [Authenticated no_authorization negb]. by eapply refused_intro; [reflexivity|set_solver|..]. }
  cbn [Authenticated Authorized negb az_TokenID]. rewrite scopes_granted_has_all.
  destruct (AdminTokens.has_all _ _) eqn:Es; cbn [negb].
  2: { destruct (String.eqb (AdminTokens.v_TokenID v) ""); by eapply refused_intro; [reflexivity|set_solver|..]. }
  split; [|by exists store]. exists token. split; [done|]. right.
  unfold admin_ok in Hok. destruct (adminTokens s) as [m|] eqn:Em; [|done].
  apply (admin_validate_sound (TS := admin_store)) in Ev as (i & Hr & Hh & Hn & Hsc & _); [|done|done].
  rewrite Eraw, TrimSpace_idem, <- Eraw in Hh.
  exists m, (AdminTokens.v_TokenID v), i. split; [done|]. split; [exact Hr|]. split; [done|]. split; [done|].
  rewrite <- Hsc. by apply AdminTokens.has_all_spec.
Qed.
End admin.

Section answers.
Context {U : GoUnicode} {H256 : SHA256} {A2 : Argon2}.
Context (s : Server) (dm : CustomDomains.MemoryStore) (rm : Reserved.MemoryStore) (pm : Access.MemoryStore).
Hypothesis domains_at : customDomains s = Some dm.
Hypothesis reservations_at : reservations s = Some rm.
Hypothesis policies_at : accessPolicies s = Some pm.
Hypothesis domains_reached : CustomDomains.reachable (Some dm).
Hypothesis reservations_reached : Reserved.reachable (Some rm).
Hypothesis policies_reached : Access.reachable (Some pm).

(** The reservation [GetReservation] finds for an id. *)
Definition reservation_by_id (id : string) : option ReservationRecord :=
  if String.eqb (TrimSpace id) "" then None else Reserved.byID rm !! TrimSpace id.

Lemma GetReservation_eq id : GetReservation (reservations s) id = Ok (reservation_by_id id).
Proof.
  rewrite reservations_at. unfold GetReservation, reservation_by_id. cbv zeta.
  destruct (String.eqb _ ""); [done|]. cbn. unfold Reserved.mem_LookupByID. cbn.
  by destruct (Reserved.byID rm !! TrimSpace id) as [[]|].
Qed.

(** The domain registered for a hostname. *)
Definition domain_at (hostname : string) : option DomainRecord :=
  find_by (CustomDomains.byID dm) (byHostname dm) hostname.

Lemma domain_at_spec hostname d :
  domain_at hostname = Some d -> CustomDomains.byID dm !! d_ID d = Some d /\ d_Hostname d = hostname.
Proof.
  pose proof (domains_ok _ domains_reached) as [Hi _].
  apply (find_by_spec d_ID d_Hostname _ _ _ _ Hi).
Qed.

Lemma GetDomainByHostname_eq hostname :
  GetDomainByHostname (customDomains s) hostname =
  (try n <- NormalizeHostname hostname; Ok (dom_summarize <$> domain_at n)).
Proof.
  rewrite domains_at. unfold GetDomainByHostname. destruct (NormalizeHostname hostname) as [n|]; [|done].
  cbn [rbind dom_LookupByHostname CustomDomains.memory_store]. unfold CustomDomains.mem_LookupByHostname, domain_at, find_by.
  by destruct (byHostname dm !! n).
Qed.

(** The control plane sends a hostname's traffic to a subdomain exactly
    when the hostname, normalised, is a registered custom domain whose DNS
    verification succeeded and whose reservation still exists; the subdomain
    is that reservation's name, a valid label.  A hostname that does not
    normalise is refused and nothing else is. *)
Lemma custom_domain_lookup hostname :
  match lookupCustomDomain s hostname with
  | Err e => NormalizeHostname hostname = Err e
  | Ok resp =>
      exists n, NormalizeHostname hostname = Ok n /\ lr_Hostname resp = n /\
      (lr_Found resp = true <->
         exists d r, domain_at n = Some d /\ d_Status d = StatusActive /\
           reservation_by_id (d_ReservedSubdomainID d) = Some r /\ lr_Subdomain resp = r_Name r) /\
      (lr_Found resp = true ->
         valid_subdomain (lr_Subdomain resp) /\
         exists d, CustomDomains.byID dm !! lr_CustomDomainID resp = Some d /\ d_Hostname d = n /\
           d_VerifiedAt d <> None)
  end.
Proof.
  pose proof (domains_ok _ domains_reached) as [_ Hver].
  pose proof (reservations_ok _ reservations_reached) as [_ Hres].
  unfold lookupCustomDomain. rewrite GetDomainByHostname_eq.
  destruct (NormalizeHostname hostname) as [n|e]; [|done]. cbn [rbind].
  destruct (domain_at n) as [d|] eqn:Ed; cbn [fmap option_fmap option_map].
  2: { exists n. split; [done|]. split; [done|]. split; [|done]. split; [done|]. intros (d & r & H & _). congruence. }
  destruct (domain_at_spec _ _ Ed) as [Hd Hh]. cbn [dom_summarize ds_record].
  destruct (String.eqb_spec (d_Status d) StatusActive) as [Ha|Ha]; cbn [negb].
  2: { exists n. split; [done|]. split; [done|]. split; [|done]. split; [done|].
       intros (d' & r & H1 & H2 & _). congruence. }
  rewrite GetReservation_eq. cbn [rbind].
  destruct (reservation_by_id (d_ReservedSubdomainID d)) as [r|] eqn:Er.
  - exists n. split; [done|]. split; [done|]. cbn [lr_Found lr_Subdomain lr_CustomDomainID]. split.
    + split; [|done]. intros _. by exists d, r.
    + intros _. split; [|by exists d; eauto]. unfold reservation_by_id in Er.
      destruct (String.eqb _ ""); [done|]. by apply (Hres _ _ Er).
  - exists n. split; [done|]. split; [done|]. split; [|done]. split; [done|].
    intros (d' & r & H1 & _ & H2 & _). congruence.
Qed.

(** The reservation of a name. *)
Definition reservation_of (name : string) : option ReservationRecord :=
  find_by (Reserved.byID rm) (byName rm) name.

Lemma GetReservationByName_eq name :
  GetReservationByName (reservations s) name = (try n <- NormalizeName name; Ok (reservation_of n)).
Proof.
  rewrite reservations_at. unfold GetReservationByName. destruct (NormalizeName name) as [n|]; [|done].
  cbn [rbind res_LookupByName Reserved.memory_store]. rewrite Reserved.mem_LookupByName_find. cbn [rbind].
  unfold reservation_of. by destruct (find_by _ _ n) as [[]|].
Qed.

(** The check a request is put to. *)
Definition check_of (req : accessPolicyEvaluationRequest) (r : ReservationRecord) : CheckPolicyRequest :=
  mkCheckPolicy (r_ID r) (ev_RemoteIP req) (ev_BasicUsername req) (ev_BasicPassword req) (ev_BearerToken req).

(** C13: what a gateway is told about a request: it is allowed exactly when the
    subdomain is not reserved, or its reservation has no policy, or the policy
    of that very reservation permits the request's credentials or address; the
    only refusals to answer are a name that is not a subdomain and a
    reservation with a blank id. *)
Theorem access_evaluated req random :
  match evaluateAccessPolicy s req random with
  | (Err e, _) =>
      NormalizeName (ev_Subdomain req) = Err e \/
      exists n r, NormalizeName (ev_Subdomain req) = Ok n /\ reservation_of n = Some r /\
        TrimSpace (r_ID r) = ""%string
  | (Ok (res, _), _) =>
      exists n, NormalizeName (ev_Subdomain req) = Ok n /\
      (ck_Allowed res = true <->
         match reservation_of n with
         | None => True
         | Some r => match policy_of pm (TrimSpace (r_ID r)) with
                     | None => True
                     | Some p => permits p (check_of req r)
                     end
         end)
  end.
Proof.
  pose proof (policies_ok _ policies_reached) as Hok. unfold evaluateAccessPolicy.
  rewrite GetReservationByName_eq. destruct (NormalizeName (ev_Subdomain req)) as [n|e]; [|by left].
  cbn [rbind]. destruct (reservation_of n) as [r|] eqn:Er; [|by exists n; rewrite Er].
  fold (check_of req r). rewrite policies_at.
  destruct (decide (TrimSpace (r_ID r) = ""%string)) as [Eb|Eb].
  - unfold CheckPolicy. cbn [check_of ck_ReservedSubdomainID]. rewrite Eb. cbn. right. eauto.
  - destruct (CheckPolicy_spec pm (check_of req r) random Hok Eb) as (res & s' & E & Hiff & _).
    rewrite E. exists n. by rewrite Er.
Qed.
End answers.

End server.

(** ** A control plane with one reservation, one domain and one policy *)
Module Witness_control_plane.
#[local] Instance unicode : GoUnicode := {| lower_nonascii s := s; upper_nonascii s := s |}.
#[local] Instance netip : GoNetip := text_netip.
#[local] Instance sha : SHA256 := {| Sum256 s := to_bytes s |}.
#[local] Instance argon2 : Argon2 := toy_argon2.

Definition with_reservation :=
  CreateReservation (Some Reserved.NewMemoryStore) (mkCreateReservation "demo" "tok_1") 5 [Some (to_bytes "x")].
Definition reservation_id : string := match fst with_reservation with Ok r => r_ID r | Err _ => "" end.
Definition rm : Reserved.MemoryStore := default Reserved.NewMemoryStore (snd with_reservation).
Definition with_domain :=
  CreateDomain (Some CustomDomains.NewMemoryStore) (mkCreateDomain "app.example.com" reservation_id) 5
    [Some (to_bytes "id"); Some (to_bytes "token")].
Definition domain : DomainRecord :=
  match fst with_domain with Ok d => ds_record d | Err _ => mkDomain "" "" "" "" "" None 0 0 end.
Definition dns (_ : string) : result (list string) := Ok [d_VerificationToken domain].
Definition with_verified := VerifyDomain (snd with_domain) dns (d_ID domain) 9.
Definition dm : CustomDomains.MemoryStore := default CustomDomains.NewMemoryStore (snd with_verified).
Definition with_policy :=
  CreatePolicy (Some Access.NewMemoryStore) (mkCreatePolicy reservation_id "bearer_token" "" "" "s3cret" []) 5
    [Some (to_bytes "id")].
Definition pm : Access.MemoryStore := default Access.NewMemoryStore (snd with_policy).
Definition server : Server :=
  mkServer "root" "validator" (Some TokenStore.NewMemoryStore) (Some rm) (Some pm) (Some dm)
    (Some TokenStore.NewMemoryStore) ∅ (Some (NewMemoryAuditEventStore 100)) (ClientIP.New []).

Lemma rm_reached : Reserved.reachable (Some rm).
Proof. replace (Some rm) with (snd with_reservation) by reflexivity. apply rtc_once. constructor. Qed.
Lemma dm_reached : CustomDomains.reachable (Some dm).
Proof.
  replace (Some dm) with (snd with_verified) by reflexivity.
  eapply rtc_l; [exists dns; apply CustomDomains.step_create|]. apply rtc_once. exists dns. constructor.
Qed.
Lemma pm_reached : Access.reachable (Some pm).
Proof. replace (Some pm) with (snd with_policy) by reflexivity. apply rtc_once. constructor. Qed.

Lemma custom_domain_lookup_witness :
  exists resp, lookupCustomDomain server "App.Example.com." = Ok resp /\ lr_Found resp = true /\
    lr_Subdomain resp = "demo"%string /\ valid_subdomain (lr_Subdomain resp).
Proof.
  pose proof (custom_domain_lookup server dm rm eq_refl eq_refl dm_reached rm_reached "App.Example.com.") as H.
  destruct (lookupCustomDomain server "App.Example.com.") as [resp|e] eqn:E; [|by vm_compute in E].
  destruct H as (n & _ & _ & _ & Hv). exists resp. split; [done|].
  assert (Hf : lr_Found resp = true) by (vm_compute in E; by injection E as <-).
  split; [done|]. split; [|by apply Hv]. vm_compute in E. by injection E as <-.
Defined.

Lemma access_evaluated_witness :
  let req := mkEvaluationRequest "demo" "" "" "" " s3cret" in
  exists res resv s' r p, evaluateAccessPolicy server req [] = (Ok (res, resv), s') /\ ck_Allowed res = true /\
    reservation_of rm "demo" = Some r /\ policy_of pm (TrimSpace (r_ID r)) = Some p /\ permits p (check_of req r).
Proof.
  intros req. pose proof (access_evaluated server rm pm eq_refl eq_refl pm_reached req []) as H.
  destruct (evaluateAccessPolicy server req []) as [[[res resv]|e] s'] eqn:E; [|by vm_compute in E].
  exists res, resv, s'. destruct (reservation_of rm "demo") as [r|] eqn:Er; [|by vm_compute in Er].
  exists r. assert (Ha : ck_Allowed res = true) by (vm_compute in E; by injection E as <- _ _).
  destruct H as (n & Hn & Hiff). assert (n = "demo"%string) as -> by (vm_compute in Hn; by injection Hn as <-).
  rewrite Er in Hiff. destruct (policy_of pm (TrimSpace (r_ID r))) as [p|] eqn:Ep.
  - exists p. repeat split; try done. by apply Hiff.
  - exfalso. vm_compute in Er. injection Er as <-. by vm_compute in Ep.
Defined.
End Witness_control_plane.
