(* ===== verification/Admin.v ===== *)
(** server/control-plane/internal/controlplane/server.go: the handlers of the
    admin API (tokens, admin tokens, reservations, access policies, custom
    domains, audit events) and of readiness, on the server of [ControlPlane].

    A handler takes the decoded body of the request ([decodeJSON]'s answer),
    the draws of crypto/rand and three readings of the clock: of the token
    check, of the service and of the audit event.  The mux and the decoding of
    bodies are in [ControlServer]; JSON encoding and the process log are
    outside the model. *)
From S2P Require Import Prelude GoStrings Names Base64 Messages Wire Ring AuditEvents ControlPlaneClient ClientIP Stores TokenStore.
From S2P Require Import Password Tokens AdminTokens Reserved Access CustomDomains ControlPlane.
From Stdlib Require Import ZArith Lia List String Ascii Bool.
From stdpp Require Import base gmap strings list relations.

Open Scope Z_scope.

Record clock := mkClock { auth_at : Time; serve_at : Time; audit_at : Time }.

(** What the admin API answers with. *)
Record statusResponse := mkStatus { st_Status : string; st_Ready : bool; st_Version : string; st_Error : string }.
Record auditEventsResponse := mkEventsResponse {
  er_Events : list AuditEvent; er_NextCursor : string; er_Filters : auditEventFiltersResponse;
}.
Inductive payload : Type :=
| PTokens (l : list Tokens.TokenSummary)
| PTokenCreated (t : Tokens.CreatedToken)
| PAdminTokens (l : list AdminTokens.TokenSummary)
| PAdminTokenCreated (t : AdminTokens.CreatedToken)
| PReservations (l : list ReservationRecord)
| PReservation (r : ReservationRecord)
| PPolicies (l : list PolicySummary)
| PPolicy (p : PolicySummary)
| PDomains (l : list DomainSummary)
| PDomain (d : DomainSummary)
| PEvents (p : auditEventsResponse)
| PStatus (s : statusResponse).

#[local] Instance token_store : TokenStore TokenStore.MemoryStore := TokenStore.memory_store Tokens.ErrTokenAlreadyExists.

Definition NotFound {A} : reply A := Failure 404 "404 page not found".

(** ** The errors that are the caller's *)
Definition isTokenRequestError (e : error) : bool :=
  errors_Is e Tokens.ErrTokenNameRequired || errors_Is e Tokens.ErrUnsupportedScope.
Definition isAdminTokenRequestError (e : error) : bool :=
  errors_Is e AdminTokens.ErrTokenNameRequired || errors_Is e AdminTokens.ErrUnsupportedScope.
Definition isAccessPolicyRequestError (e : error) : bool :=
  errors_Is e ErrPolicyReservedSubdomainIDRequired || errors_Is e ErrPolicyModeRequired ||
  errors_Is e ErrPolicyModeUnsupported || errors_Is e ErrPolicySecretRequired ||
  errors_Is e ErrPolicyBasicUsernameRequired || errors_Is e ErrPolicyIPAllowlistRequired ||
  Contains (error_message e) "invalid ip allowlist".

Section handlers.
Context {U : GoUnicode} {NI : GoNetip} {H256 : SHA256} {A2 : Argon2}.

(** [if _, ok := s.authorizeAdminRequest(w, r, scope); !ok { return }]. *)
Definition admin_guard (s : Server) (r : request) (scope : string) (clk : clock)
    (k : Server -> reply payload * Server) : reply payload * Server :=
  match authorizeAdminRequest s r [scope] (auth_at clk) (audit_at clk) with
  | (inl (status, message), s) => (Failure status message, s)
  | (inr _, s) => k s
  end.

Definition get_or_post (r : request) : bool :=
  String.eqb (rq_Method r) "GET" || String.eqb (rq_Method r) "POST".

(** An id in a path: empty, a reserved word, or with a slash is no id. *)
Definition path_id (r : request) (prefix : string) (taken : list string) : option string :=
  let id := TrimPrefix (rq_Path r) prefix in
  if String.eqb id "" || existsb (String.eqb id) taken || Contains id "/" then None else Some id.

(** ** Admin tokens *)
Definition handleAdminTokens (s : Server) (r : request) (body : result AdminTokens.CreateTokenRequest)
    (random : secretReader) (clk : clock) : reply payload * Server :=
  if negb (String.eqb (rq_Path r) "/api/v1/admin-tokens") then (NotFound, s)
  else if negb (get_or_post r) then (MethodNotAllowed "GET, POST", s)
  else admin_guard s r ScopeAdminTokens clk (fun s =>
    if String.eqb (rq_Method r) "GET" then
      match AdminTokens.ListTokens (TS := admin_store) (adminTokens s) with
      | Err e => (Failed 500 e, s)
      | Ok listed =>
          (JSON 200 (PAdminTokens listed),
           logAudit r (audit_at clk) LevelInfo "control-plane admin tokens listed" "control_plane.admin_tokens_listed"
             [("count"%string, VInt64 (Z.of_nat (length listed)))] s)
      end
    else match body with
    | Err e => (Failed 400 e, s)
    | Ok req =>
        let '(res, store) := AdminTokens.CreateToken (TS := admin_store) (adminTokens s) req (serve_at clk) random in
        let s := set_adminTokens s store in
        match res with
        | Err e => (Failed (if isAdminTokenRequestError e then 400 else 500) e, s)
        | Ok created =>
            (JSON 201 (PAdminTokenCreated created),
             logAudit r (audit_at clk) LevelInfo "control-plane admin token created" "control_plane.admin_token_created"
               [("admin_token_id"%string, VString (AdminTokens.c_ID created));
                ("name"%string, VString (AdminTokens.c_Name created));
                ("scopes"%string, VStrings (AdminTokens.c_Scopes created))] s)
        end
    end).

Definition handleAdminTokenByID (s : Server) (r : request) (clk : clock) : reply payload * Server :=
  if negb (String.eqb (rq_Method r) "DELETE") then (MethodNotAllowed "DELETE", s)
  else admin_guard s r ScopeAdminTokens clk (fun s =>
    match path_id r "/api/v1/admin-tokens/" [] with
    | None => (NotFound, s)
    | Some id =>
        let '(err, store) := AdminTokens.RevokeToken (TS := admin_store) (adminTokens s) id (serve_at clk) in
        let s := set_adminTokens s store in
        match err with
        | Some e => (Failed 500 e, s)
        | None =>
            (NoContent,
             logAudit r (audit_at clk) LevelInfo "control-plane admin token revoked" "control_plane.admin_token_revoked"
               [("admin_token_id"%string, VString id)] s)
        end
    end).

(** ** Tokens *)
Definition handleTokens (s : Server) (r : request) (body : result Tokens.CreateTokenRequest)
    (random : secretReader) (clk : clock) : reply payload * Server :=
  if negb (String.eqb (rq_Path r) "/api/v1/tokens") then (NotFound, s)
  else if negb (get_or_post r) then (MethodNotAllowed "GET, POST", s)
  else admin_guard s r ScopeTokens clk (fun s =>
    if String.eqb (rq_Method r) "GET" then
      match Tokens.ListTokens (service s) with
      | Err e => (Failed 500 e, s)
      | Ok listed =>
          (JSON 200 (PTokens listed),
           logAudit r (audit_at clk) LevelInfo "control-plane tokens listed" "control_plane.tokens_listed"
             [("count"%string, VInt64 (Z.of_nat (length listed)))] (count "tokenAdminListsTotal" s))
      end
    else match body with
    | Err e => (Failed 400 e, s)
    | Ok req =>
        let '(res, store) := Tokens.CreateToken (service s) req (serve_at clk) random in
        let s := set_service s store in
        match res with
        | Err e => (Failed (if isTokenRequestError e then 400 else 500) e, s)
        | Ok created =>
            (JSON 201 (PTokenCreated created),
             logAudit r (audit_at clk) LevelInfo "control-plane token created" "control_plane.token_created"
               [("token_id"%string, VString (Tokens.c_ID created)); ("name"%string, VString (Tokens.c_Name created));
                ("scopes"%string, VStrings (Tokens.c_Scopes created))] (count "tokenAdminCreatesTotal" s))
        end
    end).

Definition handleTokenByID (s : Server) (r : request) (clk : clock) : reply payload * Server :=
  if negb (String.eqb (rq_Method r) "DELETE") then (MethodNotAllowed "DELETE", s)
  else admin_guard s r ScopeTokens clk (fun s =>
    match path_id r "/api/v1/tokens/" ["validate"%string] with
    | None => (NotFound, s)
    | Some id =>
        let '(err, store) := Tokens.RevokeToken (service s) id (serve_at clk) in
        let s := set_service s store in
        match err with
        | Some e => (Failed 500 e, s)
        | None =>
            (NoContent,
             logAudit r (audit_at clk) LevelInfo "control-plane token revoked" "control_plane.token_revoked"
               [("token_id"%string, VString id)] (count "tokenAdminRevokesTotal" s))
        end
    end).

(** ** Reserved subdomains *)
Definition handleReservedSubdomains (s : Server) (r : request) (body : result CreateReservationRequest)
    (random : secretReader) (clk : clock) : reply payload * Server :=
  if negb (String.eqb (rq_Path r) "/api/v1/reserved-subdomains") then (NotFound, s)
  else if negb (get_or_post r) then (MethodNotAllowed "GET, POST", s)
  else admin_guard s r ScopeReservations clk (fun s =>
    if String.eqb (rq_Method r) "GET" then
      match ListReservations (reservations s) with
      | Err e => (Failed 500 e, s)
      | Ok listed =>
          (JSON 200 (PReservations listed),
           logAudit r (audit_at clk) LevelInfo "control-plane reserved subdomains listed"
             "control_plane.reservations_listed"
             [("count"%string, VInt64 (Z.of_nat (length listed)))] (count "reservationAdminListsTotal" s))
      end
    else match body with
    | Err e => (Failed 400 e, s)
    | Ok req =>
        match Tokens.GetToken (service s) (rr_TokenID req) with
        | Err e => (Failed 500 e, s)
        | Ok None => (Failure 400 "token_id was not found", s)
        | Ok (Some token) =>
            if bool_decide (is_Some (Tokens.s_RevokedAt token))
            then (Failure 400 "token_id belongs to a revoked token", s)
            else
              let '(res, store) := CreateReservation (reservations s) req (serve_at clk) random in
              let s := set_reservations s store in
              match res with
              | Err e =>
                  (Failed (if errors_Is e ErrReservationAlreadyExists then 409
                           else if isReservationRequestError e then 400 else 500) e, s)
              | Ok created =>
                  (JSON 201 (PReservation created),
                   logAudit r (audit_at clk) LevelInfo "control-plane reserved subdomain created"
                     "control_plane.reservation_created"
                     [("reservation_id"%string, VString (r_ID created)); ("subdomain"%string, VString (r_Name created));
                      ("token_id"%string, VString (r_TokenID created))] (count "reservationAdminCreatesTotal" s))
              end
        end
    end).

Definition handleReservedSubdomainByID (s : Server) (r : request) (clk : clock) : reply payload * Server :=
  if negb (String.eqb (rq_Method r) "DELETE") then (MethodNotAllowed "DELETE", s)
  else admin_guard s r ScopeReservations clk (fun s =>
    match path_id r "/api/v1/reserved-subdomains/" ["authorize"%string] with
    | None => (NotFound, s)
    | Some id =>
        let '(err, store) := DeleteReservation (reservations s) id in
        let s := set_reservations s store in
        match err with
        | Some e => (Failed (if errors_Is e ErrReservationNotFound then 404 else 500) e, s)
        | None =>
            (NoContent,
             logAudit r (audit_at clk) LevelInfo "control-plane reserved subdomain deleted"
               "control_plane.reservation_deleted"
               [("reservation_id"%string, VString id)] (count "reservationAdminDeletesTotal" s))
        end
    end).

(** ** Access policies *)
Definition policy_attrs (p : PolicySummary) : list slogAttr :=
  [("access_policy_id", VString (ps_ID p)); ("reserved_subdomain_id", VString (ps_ReservedSubdomainID p));
   ("mode", VString (ps_Mode p))]%string.

Definition handleAccessPolicies (s : Server) (r : request) (body : result CreatePolicyRequest)
    (random : secretReader) (clk : clock) : reply payload * Server :=
  if negb (String.eqb (rq_Path r) "/api/v1/access-policies") then (NotFound, s)
  else if negb (get_or_post r) then (MethodNotAllowed "GET, POST", s)
  else admin_guard s r ScopeAccessPolicies clk (fun s =>
    if String.eqb (rq_Method r) "GET" then
      match ListPolicies (accessPolicies s) with
      | Err e => (Failed 500 e, s)
      | Ok listed =>
          (JSON 200 (PPolicies listed),
           logAudit r (audit_at clk) LevelInfo "control-plane access policies listed"
             "control_plane.access_policies_listed"
             [("count"%string, VInt64 (Z.of_nat (length listed)))] (count "accessPolicyAdminListsTotal" s))
      end
    else match body with
    | Err e => (Failed 400 e, s)
    | Ok req =>
        match GetReservation (reservations s) (cp_ReservedSubdomainID req) with
        | Err e => (Failed 500 e, s)
        | Ok None => (Failure 400 "reserved_subdomain_id was not found", s)
        | Ok (Some _) =>
            let '(res, store) := CreatePolicy (accessPolicies s) req (serve_at clk) random in
            let s := set_accessPolicies s store in
            match res with
            | Err e =>
                (Failed (if errors_Is e ErrPolicyAlreadyExists then 409
                         else if isAccessPolicyRequestError e then 400 else 500) e, s)
            | Ok created =>
                (JSON 201 (PPolicy created),
                 logAudit r (audit_at clk) LevelInfo "control-plane access policy created"
                   "control_plane.access_policy_created" (policy_attrs created)
                   (count "accessPolicyAdminCreatesTotal" s))
            end
        end
    end).

Definition handleAccessPolicyByID (s : Server) (r : request) (body : result UpdatePolicyRequest)
    (random : secretReader) (clk : clock) : reply payload * Server :=
  if negb (existsb (String.eqb (rq_Method r)) ["GET"; "PUT"; "DELETE"]%string)
  then (MethodNotAllowed "GET, PUT, DELETE", s)
  else admin_guard s r ScopeAccessPolicies clk (fun s =>
    match path_id r "/api/v1/access-policies/" ["evaluate"%string] with
    | None => (NotFound, s)
    | Some id =>
        if String.eqb (rq_Method r) "GET" then
          match GetPolicy (accessPolicies s) id with
          | Err e => (Failed 500 e, s)
          | Ok None => (Failed 404 ErrPolicyNotFound, s)
          | Ok (Some policy) => (JSON 200 (PPolicy policy), s)
          end
        else if String.eqb (rq_Method r) "PUT" then
          match body with
          | Err e => (Failed 400 e, s)
          | Ok req =>
              let '(res, store) := UpdatePolicy (accessPolicies s) id req (serve_at clk) random in
              let s := set_accessPolicies s store in
              match res with
              | Err e =>
                  (Failed (if errors_Is e ErrPolicyNotFound then 404
                           else if isAccessPolicyRequestError e then 400 else 500) e, s)
              | Ok updated =>
                  (JSON 200 (PPolicy updated),
                   logAudit r (audit_at clk) LevelInfo "control-plane access policy updated"
                     "control_plane.access_policy_updated" (policy_attrs updated)
                     (count "accessPolicyAdminUpdatesTotal" s))
              end
          end
        else
          let '(err, store) := DeletePolicy (accessPolicies s) id in
          let s := set_accessPolicies s store in
          match err with
          | Some e => (Failed (if errors_Is e ErrPolicyNotFound then 404 else 500) e, s)
          | None =>
              (NoContent,
               logAudit r (audit_at clk) LevelInfo "control-plane access policy deleted"
                 "control_plane.access_policy_deleted"
                 [("access_policy_id"%string, VString id)] (count "accessPolicyAdminDeletesTotal" s))
          end
    end).

(** ** Custom domains *)
Definition handleCustomDomains (s : Server) (r : request) (body : result CreateDomainRequest)
    (random : secretReader) (clk : clock) : reply payload * Server :=
  if negb (String.eqb (rq_Path r) "/api/v1/custom-domains") then (NotFound, s)
  else if negb (get_or_post r) then (MethodNotAllowed "GET, POST", s)
  else admin_guard s r ScopeDomains clk (fun s =>
    if String.eqb (rq_Method r) "GET" then
      match ListDomains (customDomains s) with
      | Err e => (Failed 500 e, s)
      | Ok listed =>
          (JSON 200 (PDomains listed),
           logAudit r (audit_at clk) LevelInfo "control-plane custom domains listed"
             "control_plane.custom_domains_listed"
             [("count"%string, VInt64 (Z.of_nat (length listed)))] (count "customDomainAdminListsTotal" s))
      end
    else match body with
    | Err e => (Failed 400 e, s)
    | Ok req =>
        match GetReservation (reservations s) (dr_ReservedSubdomainID req) with
        | Err e => (Failed 500 e, s)
        | Ok None => (Failure 400 "reserved_subdomain_id was not found", s)
        | Ok (Some _) =>
            let '(res, store) := CreateDomain (customDomains s) req (serve_at clk) random in
            let s := set_customDomains s store in
            match res with
            | Err e =>
                (Failed (if errors_Is e ErrDomainAlreadyExists then 409
                         else if isCustomDomainRequestError e then 400 else 500) e, s)
            | Ok created =>
                (JSON 201 (PDomain created),
                 logAudit r (audit_at clk) LevelInfo "control-plane custom domain created"
                   "control_plane.custom_domain_created"
                   [("custom_domain_id"%string, VString (d_ID (ds_record created)));
                    ("hostname"%string, VString (d_Hostname (ds_record created)));
                    ("reserved_subdomain_id"%string, VString (d_ReservedSubdomainID (ds_record created)));
                    ("status"%string, VString (d_Status (ds_record created)))]
                   (count "customDomainAdminCreatesTotal" s))
            end
        end
    end).

(** [LookupTXT] is the DNS resolver. *)
Definition handleCustomDomainByID (s : Server) (r : request) (LookupTXT : string -> result (list string))
    (clk : clock) : reply payload * Server :=
  if negb (existsb (String.eqb (rq_Method r)) ["GET"; "DELETE"; "POST"]%string)
  then (MethodNotAllowed "GET, DELETE, POST", s)
  else admin_guard s r ScopeDomains clk (fun s =>
    let id := TrimPrefix (rq_Path r) "/api/v1/custom-domains/" in
    let bad (id : string) := String.eqb id "" || String.eqb id "lookup" || Contains id "/" in
    if HasSuffix id "/verify" then
      let id := TrimSuffix id "/verify" in
      if negb (String.eqb (rq_Method r) "POST") then (MethodNotAllowed "POST", s)
      else if bad id then (NotFound, s)
      else
        let '(res, store) := VerifyDomain (customDomains s) LookupTXT id (serve_at clk) in
        let s := set_customDomains s store in
        match res with
        | Err e => (Failed (if errors_Is e ErrDomainNotFound then 404 else 500) e, s)
        | Ok verified =>
            (JSON 200 (PDomain verified),
             logAudit r (audit_at clk) LevelInfo "control-plane custom domain verification checked"
               "control_plane.custom_domain_verification_checked"
               [("custom_domain_id"%string, VString (d_ID (ds_record verified)));
                ("hostname"%string, VString (d_Hostname (ds_record verified)));
                ("status"%string, VString (d_Status (ds_record verified)))] s)
        end
    else if String.eqb (rq_Method r) "POST" then (MethodNotAllowed "GET, DELETE", s)
    else if bad id then (NotFound, s)
    else if String.eqb (rq_Method r) "GET" then
      match GetDomain (customDomains s) id with
      | Err e => (Failed 500 e, s)
      | Ok None => (Failed 404 ErrDomainNotFound, s)
      | Ok (Some domain) => (JSON 200 (PDomain domain), s)
      end
    else
      let '(err, store) := DeleteDomain (customDomains s) id in
      let s := set_customDomains s store in
      match err with
      | Some e => (Failed (if errors_Is e ErrDomainNotFound then 404 else 500) e, s)
      | None =>
          (NoContent,
           logAudit r (audit_at clk) LevelInfo "control-plane custom domain deleted"
             "control_plane.custom_domain_deleted"
             [("custom_domain_id"%string, VString id)] (count "customDomainAdminDeletesTotal" s))
      end).

(** ** Audit events.  [None] is a panic of the listing. *)
Section events.
Context {J : JSONCodec logCursor}.
Variable time_Parse : string -> option Time.
Variable time_Format : Time -> string.

Definition handleEvents (s : Server) (r : request) (query : string -> string) (order : range_order) (clk : clock)
    : option (reply payload * Server) :=
  if negb (String.eqb (rq_Method r) "GET") then Some (MethodNotAllowed "GET", s)
  else match authorizeAdminRequest s r [ScopeAuditHistory] (auth_at clk) (audit_at clk) with
  | (inl (status, message), s) => Some (Failure status message, s)
  | (inr _, s) =>
      match auditEventListOptionsFromRequest time_Parse query defaultAuditEventLimit with
      | Err e => Some (Failed 400 e, s)
      | Ok opts =>
          page ← AuditEvents.List_ (auditEvents s) order opts;
          Some (JSON 200 (PEvents (mkEventsResponse (pg_Events page) (pg_NextCursor page)
                  (auditEventFiltersForResponse time_Format opts (TrimSpace (query "cursor"))))),
                logAudit r (audit_at clk) LevelInfo "control-plane audit events listed"
                  "control_plane.audit_events_listed"
                  [("count"%string, VInt64 (length_Z (pg_Events page)))] s)
      end
  end.
End events.

(** ** Readiness *)
Definition ready (s : Server) : option error :=
  match Tokens.Ready (service s) with Some e => Some e | None =>
  match AdminTokens.Ready (TS := admin_store) (adminTokens s) with Some e => Some e | None =>
  match res_Ready (reservations s) with Some e => Some e | None =>
  match pol_Ready (accessPolicies s) with Some e => Some e | None =>
  match dom_Ready (customDomains s) with Some e => Some e | None => None
  end end end end end.

(** The body of a 200 or 503 answer, and the server after. *)
Definition handleReady (s : Server) (r : request) : reply string * Server :=
  if negb (String.eqb (rq_Method r) "GET") then (MethodNotAllowed "GET", s)
  else match ready s with
       | Some e => (Failure 503 ("not ready: " +:+ error_message e), count "readinessFailuresTotal" s)
       | None => (JSON 200 ("ready" +:+ String (chr 10) ""), s)
       end.

Definition handleStatus (s : Server) (r : request) (Version : string) : reply payload * Server :=
  if negb (String.eqb (rq_Method r) "GET") then (MethodNotAllowed "GET", s)
  else match ready s with
       | Some e => (JSON 503 (PStatus (mkStatus "not_ready" false Version (error_message e))), s)
       | None => (JSON 200 (PStatus (mkStatus "ready" true Version "")), s)
       end.
End handlers.

(** * Properties *)
Definition success {A} (rep : reply A) : bool :=
  match rep with JSON _ _ | NoContent => true | _ => false end.

Section properties.
Context {U : GoUnicode} {NI : GoNetip} {H256 : SHA256} {A2 : Argon2}.

(** ** A failed operation leaves its store as it was *)
Tactic Notation "same_store" reference(op) reference(mem) :=
  unfold op; cbv zeta; intros; repeat (case_match; simplify_eq; try done);
  match goal with
  | H : _ = (Some _, _) |- _ => cbn in H; unfold mem in H; repeat (case_match; simplify_eq; try done)
  end.

Lemma CreateToken_failed s req now random e s' :
  Tokens.CreateToken (S := TokenStore.MemoryStore) s req now random = (Err e, s') -> s' = s.
Proof. same_store Tokens.CreateToken TokenStore.mem_Create. Qed.
Lemma RevokeToken_failed s id now e s' :
  Tokens.RevokeToken (S := TokenStore.MemoryStore) s id now = (Some e, s') -> s' = s.
Proof. same_store Tokens.RevokeToken TokenStore.mem_Revoke. Qed.
Lemma admin_CreateToken_failed s req now random e s' :
  AdminTokens.CreateToken (TS := admin_store) s req now random = (Err e, s') -> s' = s.
Proof. same_store AdminTokens.CreateToken TokenStore.mem_Create. Qed.
Lemma admin_RevokeToken_failed s id now e s' :
  AdminTokens.RevokeToken (TS := admin_store) s id now = (Some e, s') -> s' = s.
Proof. same_store AdminTokens.RevokeToken TokenStore.mem_Revoke. Qed.
Lemma CreateReservation_failed (s : option Reserved.MemoryStore) req now random e s' :
  CreateReservation s req now random = (Err e, s') -> s' = s.
Proof. same_store CreateReservation Reserved.mem_Create. Qed.
Lemma DeleteReservation_failed (s : option Reserved.MemoryStore) id e s' :
  DeleteReservation s id = (Some e, s') -> s' = s.
Proof. same_store DeleteReservation Reserved.mem_Delete. Qed.
Lemma CreatePolicy_failed (s : option Access.MemoryStore) req now random e s' :
  CreatePolicy s req now random = (Err e, s') -> s' = s.
Proof. same_store CreatePolicy Access.mem_Create. Qed.
Lemma UpdatePolicy_failed (s : option Access.MemoryStore) id req now random e s' :
  UpdatePolicy s id req now random = (Err e, s') -> s' = s.
Proof. same_store UpdatePolicy Access.mem_Update. Qed.
Lemma DeletePolicy_failed (s : option Access.MemoryStore) id e s' :
  DeletePolicy s id = (Some e, s') -> s' = s.
Proof. same_store DeletePolicy Access.mem_Delete. Qed.
Lemma CreateDomain_failed (s : option CustomDomains.MemoryStore) req now random e s' :
  CreateDomain s req now random = (Err e, s') -> s' = s.
Proof. same_store CreateDomain CustomDomains.mem_Create. Qed.
Lemma VerifyDomain_failed (s : option CustomDomains.MemoryStore) dns id now e s' :
  VerifyDomain s dns id now = (Err e, s') -> s' = s.
Proof. same_store VerifyDomain CustomDomains.mem_Update. Qed.
Lemma DeleteDomain_failed (s : option CustomDomains.MemoryStore) id e s' :
  DeleteDomain s id = (Some e, s') -> s' = s.
Proof. same_store DeleteDomain CustomDomains.mem_Delete. Qed.

(** ** What an admin call does once it is authorized *)

(** The five stores. *)
Definition data (s : Server) :=
  (service s, adminTokens s, reservations s, accessPolicies s, customDomains s).

(** One event of this request was appended to the audit log. *)
Definition audited_once (s : Server) (r : request) (at_ : Time) (s' : Server) : Prop :=
  exists msg event attrs,
    auditEvents s' = AuditEvents.Add (auditEvents s) (auditEvent s r at_ LevelInfo msg event attrs).

(** A call changes the stores only when it succeeds, and then it is audited. *)
Definition accountable (s : Server) (r : request) (at_ : Time) (x : reply payload * Server) : Prop :=
  (success (fst x) = false -> data (snd x) = data s) /\
  (data (snd x) = data s \/ audited_once s r at_ (snd x)).

Lemma accountable_same s r at_ rep s' : data s' = data s -> accountable s r at_ (rep, s').
Proof. by split; [|left]. Qed.

Lemma accountable_logged s r at_ rep s1 msg event attrs :
  success rep = true -> auditEvents s1 = auditEvents s -> clientIPs s1 = clientIPs s ->
  accountable s r at_ (rep, logAudit r at_ LevelInfo msg event attrs s1).
Proof.
  intros Hs Ha Hc. split; [cbn [fst]; by rewrite Hs|]. right. exists msg, event, attrs. cbn.
  unfold auditEvent, clientIP. by rewrite Ha, Hc.
Qed.

(** The admin handlers, with the scope each of them requires. *)
Inductive admin_call (s : Server) (r : request) (clk : clock) : string -> reply payload * Server -> Prop :=
| call_admin_tokens body random : admin_call s r clk ScopeAdminTokens (handleAdminTokens s r body random clk)
| call_admin_token : admin_call s r clk ScopeAdminTokens (handleAdminTokenByID s r clk)
| call_tokens body random : admin_call s r clk ScopeTokens (handleTokens s r body random clk)
| call_token : admin_call s r clk ScopeTokens (handleTokenByID s r clk)
| call_reservations body random :
    admin_call s r clk ScopeReservations (handleReservedSubdomains s r body random clk)
| call_reservation : admin_call s r clk ScopeReservations (handleReservedSubdomainByID s r clk)
| call_policies body random : admin_call s r clk ScopeAccessPolicies (handleAccessPolicies s r body random clk)
| call_policy body random : admin_call s r clk ScopeAccessPolicies (handleAccessPolicyByID s r body random clk)
| call_domains body random : admin_call s r clk ScopeDomains (handleCustomDomains s r body random clk)
| call_domain dns : admin_call s r clk ScopeDomains (handleCustomDomainByID s r dns clk).

(** Every handler is a refusal that touches nothing, or its body behind the
    guard, and the body is accountable. *)
Ltac failed_same :=
  match goal with
  | E : Tokens.CreateToken _ _ _ _ = (Err _, _) |- _ => apply CreateToken_failed in E as ->
  | E : Tokens.RevokeToken _ _ _ = (Some _, _) |- _ => apply RevokeToken_failed in E as ->
  | E : AdminTokens.CreateToken _ _ _ _ = (Err _, _) |- _ => apply admin_CreateToken_failed in E as ->
  | E : AdminTokens.RevokeToken _ _ _ = (Some _, _) |- _ => apply admin_RevokeToken_failed in E as ->
  | E : CreateReservation _ _ _ _ = (Err _, _) |- _ => apply CreateReservation_failed in E as ->
  | E : DeleteReservation _ _ = (Some _, _) |- _ => apply DeleteReservation_failed in E as ->
  | E : CreatePolicy _ _ _ _ = (Err _, _) |- _ => apply CreatePolicy_failed in E as ->
  | E : UpdatePolicy _ _ _ _ _ = (Err _, _) |- _ => apply UpdatePolicy_failed in E as ->
  | E : DeletePolicy _ _ = (Some _, _) |- _ => apply DeletePolicy_failed in E as ->
  | E : CreateDomain _ _ _ _ = (Err _, _) |- _ => apply CreateDomain_failed in E as ->
  | E : VerifyDomain _ _ _ _ = (Err _, _) |- _ => apply VerifyDomain_failed in E as ->
  | E : DeleteDomain _ _ = (Some _, _) |- _ => apply DeleteDomain_failed in E as ->
  end.
Ltac account :=
  cbv zeta; repeat case_match; simplify_eq; try failed_same;
  first [by apply accountable_same | by apply accountable_logged].

Lemma admin_call_accountable s r clk scope x :
  admin_call s r clk scope x ->
  (success (fst x) = false /\ snd x = s) \/
  exists k, x = admin_guard s r scope clk k /\ forall s1, accountable s1 r (audit_at clk) (k s1).
Proof.
  intros [].
  all: unfold handleAdminTokens, handleAdminTokenByID, handleTokens, handleTokenByID, handleReservedSubdomains,
    handleReservedSubdomainByID, handleAccessPolicies, handleAccessPolicyByID, handleCustomDomains,
    handleCustomDomainByID.
  all: repeat match goal with |- context [if ?b then (?rep, ?t) else _] => destruct b; [by left|] end.
  all: right; eexists; split; [reflexivity|]; intros s1.
  all: account.
Qed.

(** The caller's token authorizes the scope. *)
Definition authorized_for (s : Server) (r : request) (scope : string) : Prop :=
  exists token, bearerToken (rq_Header r) = (token, true) /\ admin_token_for s token [scope].

(** The server after the token check of a call: at most the use of an admin
    token is marked. *)
Definition checked (s : Server) (r : request) (scope : string) (clk : clock) : Server :=
  snd (authorizeAdmin s (rq_Header r) [scope] (auth_at clk)).

Lemma authorizeAdmin_only_admin s header scopes now :
  exists store, snd (authorizeAdmin s header scopes now) = set_adminTokens s store.
Proof.
  unfold authorizeAdmin. assert (H : s = set_adminTokens s (adminTokens s)) by (by destruct s).
  repeat case_match; cbn; eauto.
Qed.

Lemma admin_guard_spec s r scope clk k :
  admin_ok s ->
  (success (fst (admin_guard s r scope clk k)) = false /\
   data (snd (admin_guard s r scope clk k)) = data (checked s r scope clk)) \/
  (authorized_for s r scope /\ admin_guard s r scope clk k = k (checked s r scope clk)).
Proof.
  intros Hok. unfold admin_guard, checked, authorized_for.
  pose proof (authorizeAdminRequest_spec s r [scope] (auth_at clk) (audit_at clk) Hok) as H.
  unfold authorizeAdminRequest in *.
  destruct (authorizeAdmin s (rq_Header r) [scope] (auth_at clk)) as [[auth|e] s1]; [|by left].
  destruct (Authenticated auth); cbn [negb] in *; [|by left].
  destruct (Authorized auth); cbn [negb] in *; [|by left]. right. by destruct H as [H _].
Qed.


(** ** The control plane as a system *)

(** [NewServerWithAdminTokens] without services, which start on memory stores;
    of the configuration the server keeps what the handlers read. *)
Definition NewServer (admin validator trustedProxies : string) : Server :=
  let ips := match ParseTrustedProxies trustedProxies with
             | Err _ => ClientIP.New []
             | Ok trusted => ClientIP.New trusted
             end in
  mkServer admin validator (Some TokenStore.NewMemoryStore) (Some Reserved.NewMemoryStore)
    (Some Access.NewMemoryStore) (Some CustomDomains.NewMemoryStore) (Some TokenStore.NewMemoryStore) ∅
    (Some (NewMemoryAuditEventStore defaultAuditEventLimit)) ips.

(** Whatever happens to the server: a call of the admin API, a listing of the
    audit log, the token check of a request for the gateway, a question of a
    gateway, a readiness probe, a retention run. *)
Inductive server_step {J : JSONCodec logCursor} : Server -> Server -> Prop :=
| srv_admin s r clk scope rep s' : admin_call s r clk scope (rep, s') -> server_step s s'
| srv_events s r parse format query order clk rep s' :
    handleEvents parse format s r query order clk = Some (rep, s') -> server_step s s'
| srv_operator s r scope clk :
    server_step s (snd (authorizeAdminRequest s r [scope] (auth_at clk) (audit_at clk)))
| srv_validate s r body now at_ : server_step s (snd (handleValidateToken s r body now at_))
| srv_authorize s r body at_ : server_step s (snd (handleAuthorizeReservedSubdomain s r body at_))
| srv_evaluate s r body random at_ : server_step s (snd (handleEvaluateAccessPolicy s r body random at_))
| srv_lookup s r body at_ : server_step s (snd (handleLookupCustomDomain s r body at_))
| srv_ready s r : server_step s (snd (handleReady s r))
| srv_prune s cutoff n store :
    AuditEvents.PruneBefore (auditEvents s) cutoff = Some (n, store) -> server_step s (set_auditEvents s store).

Definition admin_token_move : relation (option TokenStore.MemoryStore) := admin_token_step (TS := admin_store).
Definition domain_move (a b : option CustomDomains.MemoryStore) : Prop := exists dns, domain_step dns a b.
Definition audit_move (a b : option MemoryAuditEventStore) : Prop := exists op, b = audit_step a op.

(** Each store moved by calls of its own service, and the rest stayed. *)
Record moves (s s' : Server) : Prop := {
  mv_tokens : rtc token_step (service s) (service s');
  mv_admin : rtc admin_token_move (adminTokens s) (adminTokens s');
  mv_reservations : rtc reservation_step (reservations s) (reservations s');
  mv_policies : rtc policy_step (accessPolicies s) (accessPolicies s');
  mv_domains : rtc domain_move (customDomains s) (customDomains s');
  mv_audit : rtc audit_move (auditEvents s) (auditEvents s');
  mv_config : (AdminToken s', ValidatorToken s', clientIPs s') = (AdminToken s, ValidatorToken s, clientIPs s);
}.

#[local] Instance moves_refl : Reflexive moves.
Proof. by intros s. Qed.
#[local] Instance moves_trans : Transitive moves.
Proof. intros a b c [] []. split; etrans; eauto. Qed.

Lemma moves_count s s1 name : moves s s1 -> moves s (count name s1).
Proof. by intros []. Qed.
Lemma moves_log s s1 r at_ level msg event attrs :
  moves s s1 -> moves s (logAudit r at_ level msg event attrs s1).
Proof.
  intros H. etrans; [exact H|]. split; try done. cbn. apply rtc_once. by eexists (OpAdd _).
Qed.
Lemma moves_tokens s s1 x : moves s s1 -> token_step (service s1) x -> moves s (set_service s1 x).
Proof. intros H Hx. etrans; [exact H|]. split; try done. by apply rtc_once. Qed.
Lemma moves_admin s s1 x : moves s s1 -> admin_token_move (adminTokens s1) x -> moves s (set_adminTokens s1 x).
Proof. intros H Hx. etrans; [exact H|]. split; try done. by apply rtc_once. Qed.
Lemma moves_reservations s s1 x :
  moves s s1 -> reservation_step (reservations s1) x -> moves s (set_reservations s1 x).
Proof. intros H Hx. etrans; [exact H|]. split; try done. by apply rtc_once. Qed.
Lemma moves_policies s s1 x :
  moves s s1 -> policy_step (accessPolicies s1) x -> moves s (set_accessPolicies s1 x).
Proof. intros H Hx. etrans; [exact H|]. split; try done. by apply rtc_once. Qed.
Lemma moves_domains s s1 x : moves s s1 -> domain_move (customDomains s1) x -> moves s (set_customDomains s1 x).
Proof. intros H Hx. etrans; [exact H|]. split; try done. by apply rtc_once. Qed.

(** A result of a service call is a step of its store. *)
Ltac a_step :=
  match goal with
  | E : ?f = (_, ?x) |- ?R _ ?x => replace x with (snd f) by (by rewrite E); constructor
  end.
Ltac moved :=
  cbv zeta; repeat case_match; simplify_eq; cbn [fst snd];
  repeat first [apply moves_log | apply moves_count | apply moves_tokens; [|a_step] | apply moves_admin; [|a_step]
    | apply moves_reservations; [|a_step] | apply moves_policies; [|a_step]
    | apply moves_domains; [|first [exists (fun _ => Ok []); a_step | eexists; a_step]]]; try done.

Lemma authorizeAdmin_moves s header scopes now : moves s (snd (authorizeAdmin s header scopes now)).
Proof. unfold authorizeAdmin. moved. Qed.

Lemma authorizeAdminRequest_moves s r scopes now at_ : moves s (snd (authorizeAdminRequest s r scopes now at_)).
Proof.
  unfold authorizeAdminRequest. pose proof (authorizeAdmin_moves s (rq_Header r) scopes now) as H.
  destruct (authorizeAdmin s (rq_Header r) scopes now) as [res s1]. cbn in H. moved.
Qed.

Lemma admin_guard_moves s r scope clk k :
  (forall s1, moves s1 (snd (k s1))) -> moves s (snd (admin_guard s r scope clk k)).
Proof.
  intros Hk. unfold admin_guard.
  pose proof (authorizeAdminRequest_moves s r [scope] (auth_at clk) (audit_at clk)) as H.
  destruct (authorizeAdminRequest s r [scope] (auth_at clk) (audit_at clk)) as [[[status m]|auth] s1]; [done|].
  etrans; [exact H|apply Hk].
Qed.

Lemma admin_call_moves s r clk scope x : admin_call s r clk scope x -> moves s (snd x).
Proof.
  intros [].
  all: unfold handleAdminTokens, handleAdminTokenByID, handleTokens, handleTokenByID, handleReservedSubdomains,
    handleReservedSubdomainByID, handleAccessPolicies, handleAccessPolicyByID, handleCustomDomains,
    handleCustomDomainByID.
  all: repeat match goal with |- context [if ?b then (?rep, ?t) else _] => destruct b; [done|] end.
  all: apply admin_guard_moves; intros s1; moved.
Qed.

Lemma evaluateAccessPolicy_moves s req random : moves s (snd (evaluateAccessPolicy s req random)).
Proof. unfold evaluateAccessPolicy. moved. Qed.

Lemma server_step_moves {J : JSONCodec logCursor} s s' : server_step s s' -> moves s s'.
Proof.
  intros [s1 r clk scope rep s1' H%admin_call_moves|s1 r parse format query order clk rep s1' E| | | |s1 r body random at_| | |s1 cutoff n store E];
    [done|..].
  - unfold handleEvents in E. pose proof (authorizeAdminRequest_moves s1 r [ScopeAuditHistory] (auth_at clk) (audit_at clk)) as H.
    destruct (authorizeAdminRequest s1 r [ScopeAuditHistory] (auth_at clk) (audit_at clk)) as [[[status m]|auth] s2];
      repeat case_match; simplify_eq; try done.
    destruct (AuditEvents.List_ _ _ _); cbn in E; simplify_eq. by apply moves_log.
  - apply authorizeAdminRequest_moves.
  - unfold handleValidateToken, validator_guard. moved.
  - unfold handleAuthorizeReservedSubdomain, validator_guard. moved.
  - unfold handleEvaluateAccessPolicy, validator_guard. cbv zeta.
    repeat match goal with |- context [if ?b then (?rep, ?t) else _] => destruct b; [moved|] end.
    destruct body as [req|e]; [|done]. repeat match goal with |- context [if ?b then (?rep, ?t) else _] => destruct b; [done|] end.
    match goal with |- context [evaluateAccessPolicy ?a ?b ?c] =>
      pose proof (evaluateAccessPolicy_moves a b c) as H; destruct (evaluateAccessPolicy a b c) as [[[]|] ?] end;
      cbn [snd] in *; apply moves_log, moves_count; (etrans; [|exact H]); by apply moves_count.
  - unfold handleLookupCustomDomain, validator_guard. moved.
  - unfold handleReady. moved.
  - split; try done. cbn. destruct (auditEvents s1) as [b|]; cbn in E; simplify_eq; [|done].
    apply rtc_once. exists (OpPrune cutoff). cbn.
    destruct (ring_prune b cutoff) as [[]|]; cbn in *; by simplify_eq.
Qed.

Lemma system_moves {J : JSONCodec logCursor} s s' : rtc server_step s s' -> moves s s'.
Proof. induction 1 as [|a b c H _ IH]; [done|]. etrans; [by apply server_step_moves|done]. Qed.

(** A ring of the size of the audit log stays one. *)
Lemma audit_moves_wf a b cap :
  rtc audit_move a b -> (0 < cap)%nat ->
  (exists x, a = Some x /\ wf x /\ length (entries x) = cap) -> exists x, b = Some x /\ wf x /\ length (entries x) = cap.
Proof.
  intros H Hcap. induction H as [|a b c [op ->] _ IH]; [done|]. intros (x & -> & Hw & Hl). apply IH.
  rewrite audit_step_ring.
  destruct (ring_step_refines x cap (contents x, nextID x) op Hcap) as (x' & E & Hw' & Hl' & _); [done|].
  exists x'. unfold MemoryAuditEventStore in *. by rewrite E.
Qed.

(** A service that has a store keeps one. *)
Lemma tokens_stay (a b : option TokenStore.MemoryStore) : rtc token_step a b -> is_Some a -> is_Some b.
Proof.
  induction 1 as [|? ? ? [] _ IH]; [done|..]; intros [? ->]; apply IH;
    unfold Tokens.CreateToken, Tokens.ValidateToken, Tokens.RevokeToken; cbv zeta; repeat case_match; by eexists.
Qed.
Lemma admin_tokens_stay a b : rtc admin_token_move a b -> is_Some a -> is_Some b.
Proof.
  induction 1 as [|? ? ? [] _ IH]; [done|..]; intros [? ->]; apply IH;
    unfold AdminTokens.CreateToken, AdminTokens.ValidateToken, AdminTokens.RevokeToken; cbv zeta; repeat case_match; by eexists.
Qed.
Lemma reservations_stay (a b : option Reserved.MemoryStore) : rtc reservation_step a b -> is_Some a -> is_Some b.
Proof.
  induction 1 as [|? ? ? [] _ IH]; [done|..]; intros [? ->]; apply IH;
    unfold CreateReservation, DeleteReservation; cbv zeta; repeat case_match; by eexists.
Qed.
Lemma policies_stay (a b : option Access.MemoryStore) : rtc policy_step a b -> is_Some a -> is_Some b.
Proof.
  induction 1 as [|? ? ? [] _ IH]; [done|..]; intros [? ->]; apply IH;
    unfold CreatePolicy, UpdatePolicy, DeletePolicy, CheckPolicy; cbv zeta; repeat case_match; by eexists.
Qed.
Lemma domains_stay a b : rtc domain_move a b -> is_Some a -> is_Some b.
Proof.
  induction 1 as [|? ? ? [dns []] _ IH]; [done|..]; intros [? ->]; apply IH;
    unfold CreateDomain, VerifyDomain, DeleteDomain; cbv zeta; repeat case_match; by eexists.
Qed.

Lemma tokens_ok (a b : option TokenStore.MemoryStore) : rtc token_step a b -> Tokens.service_ok a -> Tokens.service_ok b.
Proof.
  induction 1 as [|a b c H%Tokens.step_grows _ IH]; [done|]. intros Hok. apply IH.
  destruct a as [a|], b as [b|]; try done. destruct H as [H1 H2], Hok as [Ho Hu].
  split; [by apply H1|]. by apply (H2 Ho).
Qed.

Lemma Tokens_start : Tokens.service_ok (Some TokenStore.NewMemoryStore).
Proof. split; [apply TokenStore.NewMemoryStore_ok|]. intros i j x y Hx. exfalso; exact (lookup_empty_Some i x Hx). Qed.

Lemma admin_moves_ok a b :
  rtc admin_token_move a b -> admin_store_ok (TS := admin_store) a -> admin_store_ok (TS := admin_store) b.
Proof. induction 1 as [|a b c H _ IH]; [done|]. intros Ha. apply IH. by eapply admin_token_step_ok. Qed.

Lemma ready_stores s :
  is_Some (service s) -> is_Some (adminTokens s) -> is_Some (reservations s) -> is_Some (accessPolicies s) ->
  is_Some (customDomains s) -> ready s = None.
Proof. unfold ready. by intros [? ->] [? ->] [? ->] [? ->] [? ->]. Qed.

(** The audit log of a started server stays a well-formed ring. *)
Lemma started_audit_log {J : JSONCodec logCursor} admin validator proxies s :
  rtc server_step (NewServer admin validator proxies) s ->
  exists b, auditEvents s = Some b /\ wf b /\ length_Z (entries b) = defaultAuditEventLimit.
Proof.
  intros [_ _ _ _ _ Hau _]%system_moves. unfold length_Z, defaultAuditEventLimit.
  destruct (audit_moves_wf _ _ 500 Hau) as (b & E & Hw & Hl); [lia| |exists b; split; [done|]; split; [done|lia]].
  exists (NewMemoryAuditEventStore defaultAuditEventLimit). split; [done|]. split; [apply new_wf|done].
Qed.

End properties.

(** ** Witnesses *)
Module Witness_admin.
Import Witness_control_plane.
#[local] Existing Instances unicode netip sha argon2.

Definition root_request (method path : string) : request :=
  mkRequest method path (Header_Set ∅ "Authorization" "Bearer root") "203.0.113.9:4711" "".
Definition clk : clock := mkClock 7 8 9.
Definition new_token : result Tokens.CreateTokenRequest := Ok (Tokens.mkCreateTokenRequest "ci" []).
Definition draws : list (option bytes) := [Some (to_bytes "secret"); Some (to_bytes "id")].
Definition started : Server := NewServer "root" "validator" "10.0.0.0/8".
Definition created := handleTokens started (root_request "POST" "/api/v1/tokens") new_token draws clk.

Lemma created_call : admin_call started (root_request "POST" "/api/v1/tokens") clk ScopeTokens (fst created, snd created).
Proof. rewrite <- surjective_pairing. apply call_tokens. Qed.
Lemma created_data : service (snd created) <> Some TokenStore.NewMemoryStore.
Proof. intros H. apply (f_equal (fun x => match x with Some m => size (TokenStore.byID m) | None => 0%nat end)) in H. by vm_compute in H. Qed.


End Witness_admin.
