(* ===== verification/ControlPlaneConfig.v ===== *)
(** server/control-plane/internal/controlplane/config.go and
    config_validation.go: the control plane's configuration, read from the
    environment and checked before a production start; and
    server/internal/healthcheck, the probe both binaries run against
    themselves.

    The configuration is a record of its own, in [Module CP]; what its source
    repeats from the gateway's package word for word ([envString], [envInt],
    [envDuration], [looksLikePlaceholderSecret]) is taken from [Config]. *)
From S2P Require Import Prelude GoStrings ClientIP Config Wire.
From Stdlib Require Import ZArith Lia List String Ascii Bool.
From stdpp Require Import base list strings.

Open Scope Z_scope.

Module CP.
Definition defaultAddr : string := ":8082".
Definition defaultGatewayManagementTimeout : Duration := 5 * second.
Definition defaultAuditEventRetention : Duration := 90 * 24 * (3600 * second).
Definition defaultAuditEventPruneInterval : Duration := 3600 * second.
Definition defaultShutdownTimeout : Duration := 5 * second.
Definition defaultDBMaxOpenConns : Z := 20.
Definition defaultDBMaxIdleConns : Z := 5.
Definition defaultDBConnMaxLifetime : Duration := 30 * (60 * second).
Definition defaultDBConnMaxIdleTime : Duration := 5 * (60 * second).

Record Config := mkConfig {
  Addr : string;
  AdminToken : string;
  ValidatorToken : string;
  GatewayManagementURL : string;
  GatewayManagementToken : string;
  GatewayManagementTimeout : Duration;
  TrustedProxies : string;
  DatabaseURL : string;
  Version : string;
  AuditEventRetention : Duration;
  AuditEventPruneInterval : Duration;
  DNSResolverAddr : string;
  ShutdownTimeout : Duration;
  DBMaxOpenConns : Z;
  DBMaxIdleConns : Z;
  DBConnMaxLifetime : Duration;
  DBConnMaxIdleTime : Duration;
}.

Section config.
Context {U : GoUnicode} {D : GoDuration}.

Definition cp_envString := Config.envString.
Definition cp_envInt := Config.envInt.
Definition cp_envDuration := Config.envDuration (D := D).

Definition positive (v d : Z) : Z := if v <=? 0 then d else v.
Definition nonnegative (v d : Z) : Z := if v <? 0 then d else v.

Definition ConfigFromEnv (Getenv : string -> string) : Config :=
  let addr := cp_envString Getenv "PORTHOOK_CONTROL_ADDR" defaultAddr in
  {| Addr := if String.eqb addr "" then defaultAddr else addr;
     AdminToken := Getenv "PORTHOOK_CONTROL_ADMIN_TOKEN";
     ValidatorToken := Getenv "PORTHOOK_CONTROL_VALIDATOR_TOKEN";
     GatewayManagementURL := Getenv "PORTHOOK_GATEWAY_MANAGEMENT_URL";
     GatewayManagementToken := Getenv "PORTHOOK_GATEWAY_MANAGEMENT_TOKEN";
     GatewayManagementTimeout :=
       cp_envDuration Getenv "PORTHOOK_GATEWAY_MANAGEMENT_TIMEOUT" defaultGatewayManagementTimeout;
     TrustedProxies := Getenv "PORTHOOK_TRUSTED_PROXIES";
     DatabaseURL := Getenv "PORTHOOK_DATABASE_URL";
     Version := "";
     AuditEventRetention := cp_envDuration Getenv "PORTHOOK_AUDIT_EVENT_RETENTION" defaultAuditEventRetention;
     AuditEventPruneInterval :=
       cp_envDuration Getenv "PORTHOOK_AUDIT_EVENT_PRUNE_INTERVAL" defaultAuditEventPruneInterval;
     DNSResolverAddr := Getenv "PORTHOOK_DNS_RESOLVER_ADDR";
     ShutdownTimeout :=
       positive (cp_envDuration Getenv "PORTHOOK_SHUTDOWN_TIMEOUT" defaultShutdownTimeout) defaultShutdownTimeout;
     DBMaxOpenConns :=
       positive (cp_envInt Getenv "PORTHOOK_DB_MAX_OPEN_CONNS" defaultDBMaxOpenConns) defaultDBMaxOpenConns;
     DBMaxIdleConns :=
       nonnegative (cp_envInt Getenv "PORTHOOK_DB_MAX_IDLE_CONNS" defaultDBMaxIdleConns) defaultDBMaxIdleConns;
     DBConnMaxLifetime :=
       nonnegative (cp_envDuration Getenv "PORTHOOK_DB_CONN_MAX_LIFETIME" defaultDBConnMaxLifetime)
         defaultDBConnMaxLifetime;
     DBConnMaxIdleTime :=
       nonnegative (cp_envDuration Getenv "PORTHOOK_DB_CONN_MAX_IDLE_TIME" defaultDBConnMaxIdleTime)
         defaultDBConnMaxIdleTime |}.

(** ** Validation *)
Definition tcp_port (port : string) : option string :=
  match Atoi port with
  | Some parsed =>
      if (parsed <=? 0) || (65535 <? parsed) then Some "must include a TCP port between 1 and 65535" else None
  | None => Some "must include a TCP port between 1 and 65535"
  end.
Definition validateListenAddr (value : string) : option string :=
  if String.eqb (TrimSpace value) "" then Some "must not be empty" else
  match SplitHostPort value with
  | None => Some "must be a listen address such as :8082 or 127.0.0.1:8082"
  | Some (_, port) => tcp_port port
  end.
Definition validateHostPortAddr (value : string) : option string :=
  match SplitHostPort value with
  | None => Some ("must be a " +:+ Quote "host:port" +:+ " address")
  | Some (_, port) => tcp_port port
  end.

Context {GU : GoURL} {NI : GoNetip}.

Definition validateHTTPURL (value : string) : option string :=
  match url_Parse (TrimSpace value) with
  | Err e => Some ("must be a valid URL: " +:+ error_message e)
  | Ok parsed =>
      if (negb (String.eqb (Scheme parsed) "http") && negb (String.eqb (Scheme parsed) "https"))
         || String.eqb (url_Host parsed) ""
      then Some "must use http or https and include a host"
      else if negb (String.eqb (User parsed) "") || negb (String.eqb (RawQuery parsed) "")
              || negb (String.eqb (Fragment parsed) "")
      then Some "must not include userinfo, query, or fragment"
      else None
  end.
Definition cp_looksLikePlaceholderSecret := Config.looksLikePlaceholderSecret.

Definition blank (s : string) : bool := String.eqb (TrimSpace s) "".

(** The secret checks both tokens share. *)
Definition secret_errors (production : bool) (field value : string) : list ConfigValidationProblem :=
  if blank value then check production field "is required in production mode"
  else check (production && cp_looksLikePlaceholderSecret value) field
         "must be replaced with a generated secret in production mode".

Definition ValidateConfig (cfg : Config) (production : bool) : ConfigValidationReport :=
  let addr := if String.eqb (Addr cfg) "" then defaultAddr else Addr cfg in
  let managed := negb (blank (GatewayManagementURL cfg)) in
  let managed_token := negb (blank (GatewayManagementToken cfg)) in
  let same_tokens := negb (String.eqb (AdminToken cfg) "") && String.eqb (AdminToken cfg) (ValidatorToken cfg) in
  {| Errors :=
      check_opt (validateListenAddr addr) "PORTHOOK_CONTROL_ADDR" ++
      match ParseTrustedProxies (TrustedProxies cfg) with
      | Err e => [mkProblem "PORTHOOK_TRUSTED_PROXIES" (error_message e)]
      | Ok _ => check (production && blank (TrustedProxies cfg)) "PORTHOOK_TRUSTED_PROXIES"
                  "is required in production mode"
      end ++
      secret_errors production "PORTHOOK_CONTROL_ADMIN_TOKEN" (AdminToken cfg) ++
      secret_errors production "PORTHOOK_CONTROL_VALIDATOR_TOKEN" (ValidatorToken cfg) ++
      check (same_tokens && production) "PORTHOOK_CONTROL_VALIDATOR_TOKEN"
        "must be different from PORTHOOK_CONTROL_ADMIN_TOKEN in production mode" ++
      (if negb managed then check production "PORTHOOK_GATEWAY_MANAGEMENT_URL" "is required in production mode"
       else check_opt (validateHTTPURL (GatewayManagementURL cfg)) "PORTHOOK_GATEWAY_MANAGEMENT_URL") ++
      (if negb managed_token then
         check (managed || production) "PORTHOOK_GATEWAY_MANAGEMENT_TOKEN"
           "is required when gateway management is configured"
       else check (production && cp_looksLikePlaceholderSecret (GatewayManagementToken cfg))
              "PORTHOOK_GATEWAY_MANAGEMENT_TOKEN" "must be replaced with a generated secret in production mode") ++
      check (production && managed_token &&
             (String.eqb (GatewayManagementToken cfg) (AdminToken cfg)
              || String.eqb (GatewayManagementToken cfg) (ValidatorToken cfg)))
        "PORTHOOK_GATEWAY_MANAGEMENT_TOKEN"
        "must be different from control-plane admin and validator tokens in production mode" ++
      check (GatewayManagementTimeout cfg <=? 0) "PORTHOOK_GATEWAY_MANAGEMENT_TIMEOUT" "must be positive" ++
      check (blank (DatabaseURL cfg) && production) "PORTHOOK_DATABASE_URL" "is required in production mode" ++
      check (AuditEventRetention cfg <? 0) "PORTHOOK_AUDIT_EVENT_RETENTION" "must not be negative" ++
      check (AuditEventPruneInterval cfg <? 0) "PORTHOOK_AUDIT_EVENT_PRUNE_INTERVAL" "must not be negative" ++
      (if blank (DNSResolverAddr cfg) then []
       else check_opt (validateHostPortAddr (TrimSpace (DNSResolverAddr cfg))) "PORTHOOK_DNS_RESOLVER_ADDR") ++
      check (ShutdownTimeout cfg <=? 0) "PORTHOOK_SHUTDOWN_TIMEOUT" "must be positive" ++
      check (DBMaxOpenConns cfg <=? 0) "PORTHOOK_DB_MAX_OPEN_CONNS" "must be positive" ++
      check (DBMaxIdleConns cfg <? 0) "PORTHOOK_DB_MAX_IDLE_CONNS" "must not be negative" ++
      check (DBConnMaxLifetime cfg <? 0) "PORTHOOK_DB_CONN_MAX_LIFETIME" "must not be negative" ++
      check (DBConnMaxIdleTime cfg <? 0) "PORTHOOK_DB_CONN_MAX_IDLE_TIME" "must not be negative";
    Warnings :=
      check (blank (AdminToken cfg) && negb production) "PORTHOOK_CONTROL_ADMIN_TOKEN"
        "is not configured; admin token APIs will be disabled" ++
      check (production && negb (blank (AdminToken cfg))) "PORTHOOK_CONTROL_ADMIN_TOKEN"
        "is a full-scope bootstrap/recovery token; create scoped admin tokens for routine operations and keep this value offline" ++
      check (blank (ValidatorToken cfg) && negb production) "PORTHOOK_CONTROL_VALIDATOR_TOKEN"
        "is not configured; gateway token validation will be disabled" ++
      check (same_tokens && negb production) "PORTHOOK_CONTROL_VALIDATOR_TOKEN"
        "matches PORTHOOK_CONTROL_ADMIN_TOKEN" ++
      check (negb managed && negb production) "PORTHOOK_GATEWAY_MANAGEMENT_URL"
        "is not configured; gateway operator APIs will be disabled" ++
      check (blank (DatabaseURL cfg) && negb production) "PORTHOOK_DATABASE_URL"
        "is not configured; control-plane data will be in-memory only" ++
      check ((0 <? DBMaxOpenConns cfg) && (DBMaxOpenConns cfg <? DBMaxIdleConns cfg)) "PORTHOOK_DB_MAX_IDLE_CONNS"
        "exceeds PORTHOOK_DB_MAX_OPEN_CONNS; database/sql will reduce it to match, so the configured value has no effect" |}.
End config.
End CP.

(** * server/internal/healthcheck *)
Module Health.
Definition defaultTimeout : Duration := 2 * second.

Section health.
Context {D : GoDuration} {GU : GoURL}.
Context (StatusText : Z -> string).   (* http.StatusText *)

Definition TimeoutFromEnv (Getenv : string -> string) : Duration :=
  let value := TrimSpace (Getenv "PORTHOOK_HEALTHCHECK_TIMEOUT") in
  if String.eqb value "" then defaultTimeout else
  match ParseDuration value with
  | Some parsed => if parsed <=? 0 then defaultTimeout else parsed
  | None => defaultTimeout
  end.

Definition unspecified : list string := [""; "0.0.0.0"; "::"; "[::]"].

(** The reason [net.SplitHostPort] gives is left out of the error text. *)
Definition URLForListenAddr (listenAddr path : string) : result string :=
  match SplitHostPort (TrimSpace listenAddr) with
  | None => Err (Errorf ("invalid listen address " +:+ Quote listenAddr))
  | Some (host, port) =>
      if String.eqb port "" then Err (Errorf ("invalid listen address " +:+ Quote listenAddr +:+ ": port is required"))
      else
        let host := if existsb (String.eqb host) unspecified then "127.0.0.1" else host in
        let host := if HasPrefix host "[" && HasSuffix host "]" then TrimPrefix (TrimSuffix host "]") "[" else host in
        Ok (url_String (mkURL "http" "" (JoinHostPort host port) path "" "" ""))
  end.

Definition URLFromEnvOrListenAddr (Getenv : string -> string) (listenAddr path : string) : result string :=
  let rawURL := TrimSpace (Getenv "PORTHOOK_HEALTHCHECK_URL") in
  if negb (String.eqb rawURL "") then
    match url_Parse rawURL with
    | Err e => Err (Wrap ("invalid PORTHOOK_HEALTHCHECK_URL " +:+ Quote rawURL) e)
    | Ok parsed =>
        if String.eqb (Scheme parsed) "" || String.eqb (url_Host parsed) ""
        then Err (Errorf ("invalid PORTHOOK_HEALTHCHECK_URL " +:+ Quote rawURL +:+ ": scheme and host are required"))
        else Ok rawURL
    end
  else URLForListenAddr listenAddr path.

(** [strings.Fields]: the runs between white space. *)
Definition end_field (cur : bytes) : list bytes := match cur with [] => [] | _ => [rev cur] end.
Fixpoint fields_loop (cur l : bytes) : list bytes :=
  match l with
  | [] => end_field cur
  | a :: l1 =>
      if space1 a then end_field cur ++ fields_loop [] l1
      else match l1 with
           | b :: l2 =>
               if space2 a b then end_field cur ++ fields_loop [] l2
               else match l2 with
                    | c :: l3 => if space3 a b c then end_field cur ++ fields_loop [] l3 else fields_loop (a :: cur) l1
                    | [] => fields_loop (a :: cur) l1
                    end
           | [] => fields_loop (a :: cur) l1
           end
  end.
Definition Fields (s : string) : list string := of_bytes <$> fields_loop [] (to_bytes s).

(** [HTTP]: [newRequest] is the error of building the request and [Do] the
    answer of the client under the timeout: status and body. *)
Definition HTTP (newRequest : option error) (Do : Duration -> result (Z * bytes)) (timeout : Duration)
    : option error :=
  let timeout := if timeout <=? 0 then defaultTimeout else timeout in
  match newRequest with
  | Some e => Some (Wrap "build healthcheck request" e)
  | None =>
      match Do timeout with
      | Err e => Some (Wrap "healthcheck request failed" e)
      | Ok (status, body) =>
          if (status <? 200) || (300 <=? status) then
            let message := GoStrings.Join (Fields (of_bytes (take 1024 body))) " " in
            let message := if String.eqb message "" then StatusText status else message in
            Some (Errorf ("healthcheck returned " +:+ Itoa status +:+ ": " +:+ message))
          else None
      end
  end.
End health.
End Health.

(** * Properties *)
Section config_properties.
Context {U : GoUnicode} {D : GoDuration} {GU : GoURL} {NI : GoNetip}.
Import CP.

Lemma check_nil b field message : check b field message = [] -> b = false.
Proof. by destruct b. Qed.
Lemma check_opt_nil e field : check_opt e field = [] -> e = None.
Proof. by destruct e. Qed.
Lemma secret_errors_nil field value :
  secret_errors true field value = [] -> blank value = false /\ cp_looksLikePlaceholderSecret value = false.
Proof. unfold secret_errors. destruct (blank value); [done|]. by intros H%check_nil. Qed.

(** What a production configuration without errors guarantees. *)
Record production_ready (cfg : Config) : Prop := {
  pr_admin : blank (AdminToken cfg) = false /\ cp_looksLikePlaceholderSecret (AdminToken cfg) = false;
  pr_validator : blank (ValidatorToken cfg) = false /\ cp_looksLikePlaceholderSecret (ValidatorToken cfg) = false;
  pr_management : blank (GatewayManagementToken cfg) = false /\
    cp_looksLikePlaceholderSecret (GatewayManagementToken cfg) = false;
  pr_distinct : NoDup [AdminToken cfg; ValidatorToken cfg; GatewayManagementToken cfg];
  pr_url : exists u, url_Parse (TrimSpace (GatewayManagementURL cfg)) = Ok u /\
    (Scheme u = "http" \/ Scheme u = "https")%string /\ url_Host u <> ""%string /\
    User u = ""%string /\ RawQuery u = ""%string /\ Fragment u = ""%string;
  pr_database : blank (DatabaseURL cfg) = false;
  pr_proxies : exists trusted, ParseTrustedProxies (TrustedProxies cfg) = Ok trusted;
  pr_timeouts : 0 < GatewayManagementTimeout cfg /\ 0 < ShutdownTimeout cfg /\ 0 < DBMaxOpenConns cfg /\
    0 <= DBMaxIdleConns cfg /\ 0 <= AuditEventRetention cfg /\ 0 <= AuditEventPruneInterval cfg;
}.

Lemma validateHTTPURL_ok value :
  validateHTTPURL value = None ->
  exists u, url_Parse (TrimSpace value) = Ok u /\ (Scheme u = "http" \/ Scheme u = "https")%string /\
    url_Host u <> ""%string /\ User u = ""%string /\ RawQuery u = ""%string /\ Fragment u = ""%string.
Proof.
  unfold validateHTTPURL. destruct (url_Parse _) as [u|e]; [|done]. intros H. exists u. split; [done|].
  destruct (String.eqb_spec (Scheme u) "http"), (String.eqb_spec (Scheme u) "https"), (String.eqb_spec (url_Host u) ""),
    (String.eqb_spec (User u) ""), (String.eqb_spec (RawQuery u) ""), (String.eqb_spec (Fragment u) ""); try done; tauto.
Qed.

Lemma blank_token_nonempty s : blank s = false -> s <> ""%string.
Proof. by intros H ->. Qed.

(** A configuration of the control plane that a production check accepts
    is fit for production: the admin, validator and gateway tokens are set,
    none is a placeholder and no two are the same, the gateway's URL is a
    plain http(s) URL with a host, a database is named, the trusted proxies
    parse, and every limit is in range. *)
Lemma production_config_safe cfg :
  HasErrors (ValidateConfig cfg true) = false -> production_ready cfg.
Proof.
  unfold HasErrors. rewrite negb_false_iff, bool_decide_eq_true, length_zero_iff_nil. cbn [ValidateConfig Errors].
  rewrite !app_nil.
  intros (_ & Hprox & Hadm & Hval & Hsame & Hurl & Htok & Hdist & Hto & Hdb & Hret & Hint & _ & Hsd & Hopen & Hidle & _).
  apply secret_errors_nil in Hadm, Hval. apply check_nil in Hsame, Hdist, Hto, Hdb, Hret, Hint, Hsd, Hopen, Hidle.
  destruct (blank (GatewayManagementURL cfg)); cbn [negb] in *; [done|]. apply check_opt_nil, validateHTTPURL_ok in Hurl.
  destruct (blank (GatewayManagementToken cfg)) eqn:Hb; cbn [negb] in *; [done|]. apply check_nil in Htok.
  pose proof (blank_token_nonempty _ (proj1 Hadm)) as Hne.
  destruct (String.eqb_spec (AdminToken cfg) ""); [done|].
  destruct (String.eqb_spec (AdminToken cfg) (ValidatorToken cfg)); [done|].
  destruct (String.eqb_spec (GatewayManagementToken cfg) (AdminToken cfg)); [done|].
  destruct (String.eqb_spec (GatewayManagementToken cfg) (ValidatorToken cfg)); [done|].
  split; [done..| | | | |]; [|done| | |lia].
  - apply NoDup_cons. split; [rewrite !not_elem_of_cons; split; [done|]; split; [congruence|apply not_elem_of_nil]|].
    apply NoDup_cons. split; [rewrite not_elem_of_cons; split; [congruence|apply not_elem_of_nil]|apply NoDup_singleton].
  - by destruct (blank (DatabaseURL cfg)).
  - destruct (ParseTrustedProxies _) as [trusted|e]; [by exists trusted|done].
Qed.
End config_properties.

Module Witness_cp_config.
#[local] Instance unicode : GoUnicode := {| lower_nonascii s := s; upper_nonascii s := s |}.
#[local] Instance durations : GoDuration := {| ParseDuration _ := None |}.
#[local] Instance netip : GoNetip := text_netip.
#[local] Instance urls : GoURL :=
  {| url_Parse _ := Ok (mkURL "http" "" "gateway:8081" "" "" "" ""); url_String u := "http://" +:+ url_Host u |}.
Definition env (name : string) : string :=
  if String.eqb name "PORTHOOK_CONTROL_ADMIN_TOKEN" then "admin-secret"
  else if String.eqb name "PORTHOOK_CONTROL_VALIDATOR_TOKEN" then "validator-secret"
  else if String.eqb name "PORTHOOK_GATEWAY_MANAGEMENT_TOKEN" then "management-secret"
  else if String.eqb name "PORTHOOK_GATEWAY_MANAGEMENT_URL" then "http://gateway:8081"
  else if String.eqb name "PORTHOOK_DATABASE_URL" then "postgres://db"
  else if String.eqb name "PORTHOOK_TRUSTED_PROXIES" then "10.0.0.1" else "".
Lemma production_config_safe_witness :
  NoDup [CP.AdminToken (CP.ConfigFromEnv env); CP.ValidatorToken (CP.ConfigFromEnv env);
         CP.GatewayManagementToken (CP.ConfigFromEnv env)] /\
  0 < CP.GatewayManagementTimeout (CP.ConfigFromEnv env).
Proof.
  pose proof (production_config_safe (CP.ConfigFromEnv env) ltac:(by vm_compute)) as [_ _ _ Hd _ _ _ Ht].
  split; [exact Hd|exact (proj1 Ht)].
Defined.
End Witness_cp_config.

(** ** The health check *)
Section health_properties.
Context {D : GoDuration} {GU : GoURL}.
Import Health.

(** The probe succeeds exactly on an answer in the 200s. *)
Lemma healthcheck_passes StatusText newRequest Do timeout :
  HTTP StatusText newRequest Do timeout = None <->
  newRequest = None /\ exists status body,
    Do (if timeout <=? 0 then defaultTimeout else timeout) = Ok (status, body) /\ 200 <= status < 300.
Proof.
  unfold HTTP. destruct newRequest as [e|]; [naive_solver|].
  destruct (Do _) as [[status body]|e]; [|naive_solver].
  destruct (Z.ltb_spec status 200), (Z.leb_spec 300 status); cbn [orb]; split; intros Hx; try done;
    first [split; [done|]; by exists status, body | destruct Hx as (_ & st & b & [= <- <-] & Hst); lia].
Qed.

(** A server that listens on every address is probed on the loopback. *)
Lemma healthcheck_loopback listenAddr path host port :
  SplitHostPort (TrimSpace listenAddr) = Some (host, port) -> In host unspecified -> port <> ""%string ->
  URLForListenAddr listenAddr path = Ok (url_String (mkURL "http" "" (JoinHostPort "127.0.0.1" port) path "" "" "")).
Proof.
  intros Hs Hin Hp. unfold URLForListenAddr. rewrite Hs.
  destruct (String.eqb_spec port ""); [done|].
  replace (existsb (String.eqb host) unspecified) with true; [done|].
  symmetry. apply existsb_exists. exists host. split; [done|apply String.eqb_refl].
Qed.
End health_properties.
