(* ===== verification/Operator.v ===== *)
(** server/control-plane/internal/controlplane/gateway_management.go: the
    operator's view of the gateway through the control plane.  An admin's
    request is checked here and repeated to the gateway's management API with
    the gateway's own token; [Management] is the other end.

    The HTTP client is the parameter [Do], which answers a GET of a URL with
    the given headers; [newRequest] is the error of building the request. *)
From S2P Require Import Prelude GoStrings Messages Wire RateLimit Session ControlPlaneClient ClientIP Config Registry.
From S2P Require Import Tunnels Ring RequestLog Gateway Metrics ServeMux Management Stores TokenStore AdminTokens.
From S2P Require Import ControlPlane ControlPlaneConfig Admin.
From Stdlib Require Import ZArith Lia List String Ascii Bool.
From stdpp Require Import base gmap strings list.

Open Scope Z_scope.

Definition gatewayOperatorPrefix : string := "/api/v1/gateway".

(** [strings.TrimRight(s, "/")]. *)
Fixpoint drop_slashes (l : bytes) : bytes :=
  match l with "/"%char :: l => drop_slashes l | _ => l end.
Definition TrimRight_slash (s : string) : string := of_bytes (rev (drop_slashes (rev (to_bytes s)))).

(** The path on the gateway and the scope an operator needs for it. *)
Definition gatewayOperatorRoute (path : string) : option (string * string) :=
  let suffix := TrimPrefix path gatewayOperatorPrefix in
  if existsb (String.eqb suffix) ["/healthz"; "/readyz"; "/metrics"]%string
  then Some (suffix, ScopeRuntimeDiagnostics)
  else if existsb (String.eqb suffix) ["/runtime"; "/tunnels"]%string
  then Some ("/api/v1" +:+ suffix, ScopeRuntimeDiagnostics)
  else if String.eqb suffix "/request-logs" then Some ("/api/v1/request-logs"%string, ScopeAuditHistory)
  else
    let tunnelID := TrimPrefix suffix "/tunnels/" in
    if HasPrefix suffix "/tunnels/" && negb (String.eqb tunnelID "") && negb (Contains tunnelID "/")
    then Some ("/api/v1" +:+ suffix, ScopeRuntimeDiagnostics)
    else None.

Definition copied_headers : list string := ["Content-Type"; "Cache-Control"; "ETag"; "Last-Modified"].
Definition copy_header (src dst : Header) (name : string) : Header :=
  let value := Header_Get src name in
  if negb (String.eqb value "") then Header_Set dst name value else dst.
Definition copyGatewayResponseHeader (dst src : Header) : Header := foldl (copy_header src) dst copied_headers.

Inductive operator_reply : Type :=
| OpFailure (status : Z) (message : string)
| OpMethodNotAllowed (allow : string)
| OpRelayed (status : Z) (header : Header) (body : bytes).

Section operator.
Context {NI : GoNetip} {H256 : SHA256} {GU : GoURL}.
Context (newRequest : string -> option error).
Context (Do : string -> Header -> result (Z * Header * bytes)).

(** The headers of the request to the gateway. *)
Definition operator_header (token : string) (caller : Header) : Header :=
  let h := Header_Set ∅ "Authorization" ("Bearer " +:+ token) in
  let h := copy_header caller h "Accept" in
  copy_header caller h "X-Request-ID".

(** The URL of the request to the gateway. *)
Definition operator_url (cfg : CP.Config) (upstreamPath rawQuery : string) : result string :=
  try u <- url_Parse (TrimRight_slash (CP.GatewayManagementURL cfg) +:+ upstreamPath);
  Ok (url_String (mkURL (Scheme u) (User u) (url_Host u) (url_Path u) rawQuery (Fragment u) (url_Other u))).

Definition handleGatewayOperator (cfg : CP.Config) (s : Server) (r : request) (rawQuery : string) (clk : clock)
    : operator_reply * Server :=
  if negb (String.eqb (rq_Method r) "GET") then (OpMethodNotAllowed "GET", s)
  else match gatewayOperatorRoute (rq_Path r) with
  | None => (OpFailure 404 "404 page not found", s)
  | Some (upstreamPath, requiredScope) =>
      match authorizeAdminRequest s r [requiredScope] (auth_at clk) (audit_at clk) with
      | (inl (status, message), s) => (OpFailure status message, s)
      | (inr _, s) =>
          if CP.blank (CP.GatewayManagementURL cfg) || CP.blank (CP.GatewayManagementToken cfg)
          then (OpFailure 503 "gateway management is not configured", s)
          else match operator_url cfg upstreamPath rawQuery with
          | Err _ => (OpFailure 503 "gateway management is not configured", s)
          | Ok url =>
              match newRequest url with
              | Some _ => (OpFailure 500 "create gateway management request", s)
              | None =>
                  match Do url (operator_header (CP.GatewayManagementToken cfg) (rq_Header r)) with
                  | Err _ => (OpFailure 502 "gateway management request failed", s)
                  | Ok (status, header, body) =>
                      (OpRelayed status (copyGatewayResponseHeader ∅ header) body, s)
                  end
              end
          end
      end
  end.
End operator.

(** * Properties *)
Lemma copy_header_lookup src dst name k :
  copy_header src dst name !! k =
  if bool_decide (CanonicalHeaderKey name = k) && negb (String.eqb (Header_Get src name) "")
  then Some [Header_Get src name] else dst !! k.
Proof.
  unfold copy_header. destruct (Header_Get src name =? "")%string; cbn [negb].
  - by rewrite andb_false_r.
  - rewrite andb_true_r. unfold Header_Set. case_bool_decide as E.
    + subst k. apply lookup_insert_eq.
    + by apply lookup_insert_ne.
Qed.

(** What the gateway is told: its token, and of the caller's headers only
    these two. *)
Lemma operator_header_spec token caller k :
  operator_header token caller !! k =
  if bool_decide (k = "Authorization"%string) then Some ["Bearer " +:+ token]
  else if bool_decide (k = "Accept"%string) && negb (String.eqb (Header_Get caller "Accept") "")
  then Some [Header_Get caller "Accept"]
  else if bool_decide (k = "X-Request-Id"%string) && negb (String.eqb (Header_Get caller "X-Request-ID") "")
  then Some [Header_Get caller "X-Request-ID"] else None.
Proof.
  unfold operator_header. rewrite !copy_header_lookup.
  change (CanonicalHeaderKey "X-Request-ID") with "X-Request-Id"%string.
  change (CanonicalHeaderKey "Accept") with "Accept"%string.
  unfold Header_Set. change (CanonicalHeaderKey "Authorization") with "Authorization"%string.
  destruct (decide (k = "Authorization"%string)) as [->|Ha].
  { rewrite (bool_decide_eq_true_2 ("Authorization"%string = _)) by done. by rewrite lookup_insert_eq. }
  rewrite (bool_decide_eq_false_2 (k = "Authorization"%string)) by done.
  rewrite lookup_insert_ne, lookup_empty by done.
  repeat case_bool_decide; subst; cbn [andb]; try done; by repeat case_match.
Qed.

Lemma operator_header_only token caller k :
  operator_header token caller !! k <> None -> In k ["Authorization"; "Accept"; "X-Request-Id"]%string.
Proof. rewrite operator_header_spec. cbn [In]. repeat case_bool_decide; subst; cbn [andb]; tauto. Qed.

Lemma copied_only src k :
  copyGatewayResponseHeader ∅ src !! k <> None -> In k (CanonicalHeaderKey <$> copied_headers).
Proof.
  unfold copyGatewayResponseHeader, copied_headers. cbn [foldl]. rewrite !copy_header_lookup, lookup_empty.
  cbn [fmap list_fmap In]. repeat case_bool_decide; tauto.
Qed.

Lemma authorizeAdminRequest_checked {NI : GoNetip} {H256 : SHA256} s r scope clk auth s' :
  authorizeAdminRequest s r [scope] (auth_at clk) (audit_at clk) = (inr auth, s') -> s' = checked s r scope clk.
Proof.
  unfold authorizeAdminRequest, checked. destruct (authorizeAdmin _ _ _ _) as [[a|e] s1]; [|done].
  destruct (negb (Authenticated a)); [done|]. destruct (negb (Authorized a)); [done|]. by intros [= <- <-].
Qed.

Section operator_properties.
Context {NI : GoNetip} {H256 : SHA256} {GU : GoURL}.
Context (newRequest : string -> option error).

(** The control plane asks the gateway only on behalf of an operator.  A
    caller whose token does not carry the scope of the route gets an answer
    that does not depend on the gateway; an answer that was relayed was asked
    for with GET on one of the listed routes by a caller authorized for its
    scope, the gateway was shown its own token and never the caller's, with no
    other header of the caller than Accept and X-Request-ID, and of the
    gateway's headers only four come back. *)
Lemma operator_guarded cfg s r rawQuery clk :
  admin_ok s ->
  (forall up scope, gatewayOperatorRoute (rq_Path r) = Some (up, scope) -> ~ authorized_for s r scope ->
   forall Do Do', handleGatewayOperator newRequest Do cfg s r rawQuery clk
     = handleGatewayOperator newRequest Do' cfg s r rawQuery clk) /\
  (forall Do status header body s',
   handleGatewayOperator newRequest Do cfg s r rawQuery clk = (OpRelayed status header body, s') ->
   exists up scope url shown answered,
     rq_Method r = "GET"%string /\ gatewayOperatorRoute (rq_Path r) = Some (up, scope) /\
     authorized_for s r scope /\ operator_url cfg up rawQuery = Ok url /\
     Do url shown = Ok (status, answered, body) /\
     shown !! "Authorization"%string = Some ["Bearer " +:+ CP.GatewayManagementToken cfg] /\
     (forall k, shown !! k <> None -> In k ["Authorization"; "Accept"; "X-Request-Id"]%string) /\
     (forall k, header !! k <> None -> In k (CanonicalHeaderKey <$> copied_headers)) /\
     data s' = data (checked s r scope clk)).
Proof.
  intros Hok. unfold handleGatewayOperator. split.
  - intros up scope -> Hna Do Do'. destruct (negb _); [done|].
    pose proof (authorizeAdminRequest_spec s r [scope] (auth_at clk) (audit_at clk) Hok) as H.
    destruct (authorizeAdminRequest _ _ _ _ _) as [[[status message]|auth] s1]; [done|].
    destruct H as [H _]. by destruct Hna.
  - intros Do status header body s'.
    destruct (String.eqb_spec (rq_Method r) "GET") as [Hm|]; cbn [negb]; [|done].
    destruct (gatewayOperatorRoute (rq_Path r)) as [[up scope]|]; [|done].
    pose proof (authorizeAdminRequest_spec s r [scope] (auth_at clk) (audit_at clk) Hok) as H.
    destruct (authorizeAdminRequest _ _ _ _ _) as [[[status1 message]|auth] s1] eqn:Ea; [done|].
    apply authorizeAdminRequest_checked in Ea as ->. destruct H as [H _].
    destruct (_ || _); [done|]. destruct (operator_url cfg up rawQuery) as [url|] eqn:Eu; [|done].
    destruct (newRequest url); [done|]. destruct (Do _ _) as [[[st h] b]|] eqn:Ed; [|done]. intros [= <- <- <- <-].
    exists up, scope, url, (operator_header (CP.GatewayManagementToken cfg) (rq_Header r)), h.
    do 5 (split; [done|]). split; [by rewrite operator_header_spec|]. split; [apply operator_header_only|].
    split; [|done]. intros k. by apply copied_only.
Qed.
End operator_properties.

(** * The operator and the gateway *)
(** A tunnel's path is clean when its id is a segment other than a dot or two. *)
Lemma tunnel_path_clean id :
  id <> ""%string -> ~ In "/"%char (to_bytes id) -> id <> "."%string -> id <> ".."%string ->
  cleanPath ("/api/v1/tunnels/" +:+ id) = "/api/v1/tunnels/" +:+ id.
Proof. segment_clean. Qed.

(** Every route the operator may ask for is one the gateway serves. *)
Lemma operator_route_served path up scope :
  gatewayOperatorRoute path = Some (up, scope) ->
  (forall id, In id ["."; ".."]%string -> up <> "/api/v1/tunnels/" +:+ id) ->
  exists e, mux_lookup management_routes up = Serve e.
Proof.
  unfold gatewayOperatorRoute. set (suffix := TrimPrefix path gatewayOperatorPrefix). intros H Hdots.
  destruct (existsb (String.eqb suffix) ["/healthz"; "/readyz"; "/metrics"]%string) eqn:E1.
  { injection H as <- <-. apply existsb_exists in E1 as (x & Hx & ->%String.eqb_eq).
    destruct Hx as [<-|[<-|[<-|[]]]]; by eexists. }
  destruct (existsb (String.eqb suffix) ["/runtime"; "/tunnels"]%string) eqn:E2.
  { injection H as <- <-. apply existsb_exists in E2 as (x & Hx & ->%String.eqb_eq).
    destruct Hx as [<-|[<-|[]]]; by eexists. }
  destruct (suffix =? "/request-logs")%string; [injection H as <- <-; by eexists|].
  destruct (HasPrefix suffix "/tunnels/") eqn:Hp; cbn [andb] in H; [|done].
  unfold TrimPrefix in H. rewrite Hp in H.
  apply prefix_spec in Hp as [id Hid]. rewrite Hid in H. clear -H Hdots Hid.
  rewrite to_bytes_app, drop_app_length', of_to_bytes in H by done.
  destruct (String.eqb_spec id "") as [|Hne]; cbn [negb andb] in H; [done|].
  destruct (Contains id "/") eqn:Hs; cbn [negb andb] in H; [done|].
  apply Contains_char_false in Hs. injection H as <- <-.
  change ("/api/v1" +:+ ("/tunnels/" +:+ id)) with ("/api/v1/tunnels/" +:+ id) in *.
  exists EpTunnelDetail. unfold mux_lookup.
  rewrite tunnel_path_clean; [|done|done|intros ->; apply (Hdots "."%string); [by left|done]|
    intros ->; apply (Hdots ".."%string); [by right; left|done]].
  rewrite String.eqb_refl.
  destruct id as [|c id]; [done|]. cbn. by destruct (negb _).
Qed.

Lemma operator_bearer token caller :
  request_bearerToken (operator_header token caller) = TrimSpace token.
Proof.
  unfold request_bearerToken, Header_Get, Header_Values.
  change (CanonicalHeaderKey "Authorization") with "Authorization"%string.
  rewrite operator_header_spec, bool_decide_eq_true_2 by done.
  change (match CutPrefix ("Bearer " +:+ token) "Bearer " with
          | (token, true) => TrimSpace token | (_, false) => ""%string end = TrimSpace token).
  by rewrite CutPrefix_app.
Qed.

Section composition.
Context {U : GoUnicode} {NI : GoNetip} {H256 : SHA256} {GU : GoURL}.
Context {F : Type} {FO : FloatOps F} {FT : FloatText F} {J : JSONCodec logCursor}.
Context (time_Parse : string -> option Time) (time_Format : Time -> string).
Context {S : Type} (store : requestLogStore S) (g : GatewayServer (F := F) (S := S)) (v : visit).
(** How net/http writes a reply. *)
Context (render : management_reply -> Z * Header * bytes).

(** The request the gateway sees, and what comes back to the client. *)
Definition operator_request (path rawQuery : string) (h : Header) : HTTPRequest :=
  mkHTTPRequest "GET" "" path rawQuery h false 0 "" [] "".
Definition gateway_answer (path rawQuery : string) (h : Header) : result (Z * Header * bytes) :=
  match ManagementHandler time_Parse time_Format store g (operator_request path rawQuery h) v with
  | Some rep => Ok (render rep)
  | None => Err (Errorf "connection closed")
  end.

(** The client reaches this gateway under the URL of a route. *)
Definition reaches (newRequest : string -> option error) (Do : string -> Header -> result (Z * Header * bytes))
    (up rawQuery url : string) : Prop :=
  newRequest url = None /\ forall h, Do url h = gateway_answer up rawQuery h.


(** A management token with white space around it locks everyone out: the
    bearer token of a request is trimmed, the configured one is not. *)
Lemma padded_token_locks_out (q : HTTPRequest) :
  (forall a b, Sum256 a = Sum256 b -> a = b) ->
  TrimSpace (ManagementToken (cfg g)) <> ManagementToken (cfg g) -> authorized g q = false.
Proof.
  intros Hinj Hpad. unfold authorized. destruct (String.eqb_spec (ManagementToken (cfg g)) "") as [E|_].
  { by rewrite E in Hpad. }
  cbn [orb]. unfold secretEqual. destruct (_ || _); [done|]. apply bool_decide_eq_false. intros E%Hinj.
  apply Hpad. rewrite <- E. unfold request_bearerToken. destruct (CutPrefix _ _) as [t []]; [apply TrimSpace_idem|done].
Qed.
End composition.

(** * Witnesses *)
Module Witness_operator.
#[local] Instance unicode : GoUnicode := ascii_case.
#[local] Instance netip : GoNetip := text_netip.
#[local] Instance sha : SHA256 := {| Sum256 s := to_bytes s |}.
#[local] Instance urls : GoURL :=
  {| url_Parse s := Ok (mkURL "http" "" "gateway:8081" s "" "" ""); url_String u := url_Path u +:+ "?" +:+ RawQuery u |}.
#[local] Instance codec : JSONCodec logCursor := countable_codec.
#[local] Existing Instances Witness_management.float Witness_management.float_text.

Definition env (name : string) : string :=
  if String.eqb name "PORTHOOK_GATEWAY_MANAGEMENT_TOKEN" then "t"
  else if String.eqb name "PORTHOOK_GATEWAY_MANAGEMENT_URL" then "http://gateway:8081/" else "".
Definition config : CP.Config := CP.ConfigFromEnv (D := {| ParseDuration _ := None |}) env.
Definition server : Server := Admin.NewServer "admin-secret" "validator-secret" "".
Definition ask (token : string) : request :=
  mkRequest "GET" "/api/v1/gateway/tunnels/tun_1"
    (Header_Set (Header_Set ∅ "Authorization" ("Bearer " +:+ token)) "Cookie" "c=1") "192.0.2.7:1" "".
Definition clk : clock := mkClock 1 2 3.
Definition v : visit := mkVisit 9 (mkRuntimeStats 1 2 3 None) (fun _ => "").
Definition render (rep : management_reply) : Z * Header * bytes :=
  match rep with
  | TunnelDetail d => (200, Header_Set (Header_Set ∅ "Content-Type" "application/json") "Set-Cookie" "x", to_bytes (td_TunnelID d))
  | HTTPError status m _ => (status, ∅, to_bytes m)
  | _ => (500, ∅, [])
  end.
Definition Do (url : string) (h : Header) : result (Z * Header * bytes) :=
  gateway_answer (fun _ => None) Itoa Witness_management.no_store (Witness_management.gateway "t") v render
    "/api/v1/tunnels/tun_1" "" h.


Lemma operator_guarded_witness :
  handleGatewayOperator (fun _ => None) Do config server (ask "x") "" clk =
  handleGatewayOperator (fun _ => None) (fun _ _ => Err EOF) config server (ask "x") "" clk.
Proof.
  assert (Hok : admin_ok server) by apply NewMemoryStore_ok.
  apply (operator_guarded (fun _ => None) config server (ask "x") "" clk Hok) with
    (up := "/api/v1/tunnels/tun_1"%string) (scope := ScopeRuntimeDiagnostics); [by vm_compute|].
  intros (token & Hb & H). vm_compute in Hb. injection Hb as <-.
  destruct H as [[_ H]|(st & i & rec & Hst & Hrec & _)]; [by vm_compute in H|].
  injection Hst as <-. cbn in Hrec. by rewrite lookup_empty in Hrec.
Defined.
End Witness_operator.
