(* ===== verification/ControlServer.v ===== *)
(** server/control-plane/internal/controlplane/server.go and metrics.go: the
    control plane as one HTTP handler.  A request is matched by the mux,
    its body decoded by [decodeJSON], handed to the handler of [ControlPlane],
    [Admin] or [Operator], and its duration observed.

    encoding/json's strict decoder is the class [JSONDecoder]: it takes the
    input and the error at its end, and answers with a value and the rest.
    The dashboard's files are served by its own package and are [RDashboard]
    here. *)
From S2P Require Import Prelude GoStrings Messages Wire RateLimit ControlPlaneClient ClientIP Config.
From S2P Require Import Ring Metrics ServeMux AuditEvents Stores TokenStore Password Tokens AdminTokens Reserved.
From S2P Require Import Access CustomDomains ControlPlane ControlPlaneConfig Admin Operator.
From Stdlib Require Import ZArith Lia List String Ascii Bool.
From stdpp Require Import base gmap strings list relations.

Open Scope Z_scope.

(** * Decoding a body *)
Definition maxJSONBodyBytes : Z := Z.shiftl 1 20.
Definition MaxBytesError : error := Typed "http.MaxBytesError" (Errorf "http: request body too large").

Class JSONDecoder (T : Type) : Type := {
  Decode : bytes -> error -> result (T * bytes);   (* with DisallowUnknownFields *)
}.

(** What [http.MaxBytesReader] lets through, and the error at its end. *)
Definition limited (body : bytes) : bytes * error :=
  if maxJSONBodyBytes <? Z.of_nat (length body)
  then (take (Z.to_nat maxJSONBodyBytes) body, MaxBytesError) else (body, EOF).

(** [any] is the decoder of a second value of any type. *)
Definition decodeJSON {T} {D : JSONDecoder T} (any : JSONDecoder unit) (body : bytes) : result T :=
  let '(input, end_error) := limited body in
  match Decode (T := T) input end_error with
  | Err e =>
      if errors_As e "http.MaxBytesError"
      then Err (Errorf ("json body is too large: maximum " +:+ Itoa maxJSONBodyBytes +:+ " bytes"))
      else if errors_Is e EOF then Err (Errorf "json body is required")
      else Err (Wrap "invalid json" e)
  | Ok (dst, rest) =>
      match Decode (JSONDecoder := any) rest end_error with
      | Err e => if errors_Is e EOF then Ok dst else Err (Wrap "invalid json" e)
      | Ok _ => Err (Errorf "invalid json: multiple json values")
      end
  end.

(** * The routes *)
Inductive route : Type :=
| EHealthz | EReadyz | EMetrics | EDashboard | EStatus | EGateway | EEvents | EAdminTokens | EAdminToken
| ETokens | EToken | EValidate | EPolicies | EPolicy | EEvaluate | EDomains | EDomain | ELookup
| EReservations | EReservation | EAuthorize.
#[export] Instance route_eq_dec : EqDecision route.
Proof. solve_decision. Defined.

Definition control_routes : list (string * route) :=
  [("/healthz", EHealthz); ("/readyz", EReadyz); ("/metrics", EMetrics); ("/dashboard", EDashboard);
   ("/dashboard/", EDashboard); ("/api/v1/status", EStatus); (gatewayOperatorPrefix +:+ "/", EGateway);
   ("/api/v1/events", EEvents); ("/api/v1/admin-tokens", EAdminTokens); ("/api/v1/admin-tokens/", EAdminToken);
   ("/api/v1/tokens", ETokens); ("/api/v1/tokens/", EToken); ("/api/v1/tokens/validate", EValidate);
   ("/api/v1/access-policies", EPolicies); ("/api/v1/access-policies/", EPolicy);
   ("/api/v1/access-policies/evaluate", EEvaluate); ("/api/v1/custom-domains", EDomains);
   ("/api/v1/custom-domains/", EDomain); ("/api/v1/custom-domains/lookup", ELookup);
   ("/api/v1/reserved-subdomains", EReservations); ("/api/v1/reserved-subdomains/", EReservation);
   ("/api/v1/reserved-subdomains/authorize", EAuthorize)].

Inductive control_reply : Type :=
| RPlain (body : string)
| RReady (r : reply string)
| RAdmin (r : reply payload)
| RValidate (r : reply Tokens.ValidationResult)
| RAuthorize (r : reply AuthorizationResult)
| REvaluate (r : reply CheckPolicyResult)
| RLookup (r : reply lookupCustomDomainResponse)
| ROperator (r : operator_reply)
| RMetrics (r : reply (list string))
| RDashboard
| RRedirect (path : string)
| RNotFound.

Section control.
Context {U : GoUnicode} {NI : GoNetip} {H256 : SHA256} {A2 : Argon2} {GU : GoURL} {J : JSONCodec logCursor}.
Context {F : Type} {FO : FloatOps F} {FT : FloatText F}.
Context (any : JSONDecoder unit) {D1 : JSONDecoder AdminTokens.CreateTokenRequest}
  {D2 : JSONDecoder Tokens.CreateTokenRequest} {D3 : JSONDecoder CreateReservationRequest}
  {D4 : JSONDecoder CreatePolicyRequest} {D5 : JSONDecoder UpdatePolicyRequest} {D6 : JSONDecoder CreateDomainRequest}
  {D7 : JSONDecoder validateTokenRequest} {D8 : JSONDecoder authorizeReservedSubdomainRequest}
  {D9 : JSONDecoder accessPolicyEvaluationRequest} {D10 : JSONDecoder lookupCustomDomainRequest}.
Context (time_Parse : string -> option Time) (time_Format : Time -> string).
#[local] Instance token_store : TokenStore TokenStore.MemoryStore := TokenStore.memory_store Tokens.ErrTokenAlreadyExists.

Record ControlServer := mkControl {
  cs_cfg : CP.Config;
  cs_server : Server;
  requestDuration : Histogram F;
  cs_startedAt : Time;
}.
Definition set_server (c : ControlServer) (s : Server) : ControlServer :=
  mkControl (cs_cfg c) s (requestDuration c) (cs_startedAt c).

(** ** Construction *)
(** [NewServerWithAdminTokens]: a service that is nil starts on an empty
    memory store; [Some] events name the warnings. *)
Definition NewServerWithAdminTokens (cfg : CP.Config) (service : option TokenStore.MemoryStore)
    (reservationService : option Reserved.MemoryStore) (accessPolicyService : option Access.MemoryStore)
    (customDomainService : option CustomDomains.MemoryStore) (auditEventStore : option MemoryAuditEventStore)
    (adminTokenService : option TokenStore.MemoryStore) (now : Time) : ControlServer * list string :=
  let cfg := CP.mkConfig
    (if String.eqb (CP.Addr cfg) "" then CP.defaultAddr else CP.Addr cfg)
    (CP.AdminToken cfg) (CP.ValidatorToken cfg) (CP.GatewayManagementURL cfg) (CP.GatewayManagementToken cfg)
    (if CP.GatewayManagementTimeout cfg <=? 0 then CP.defaultGatewayManagementTimeout else CP.GatewayManagementTimeout cfg)
    (CP.TrustedProxies cfg) (CP.DatabaseURL cfg)
    (if String.eqb (CP.Version cfg) "" then "dev" else CP.Version cfg)%string
    (CP.AuditEventRetention cfg) (CP.AuditEventPruneInterval cfg) (CP.DNSResolverAddr cfg) (CP.ShutdownTimeout cfg)
    (CP.DBMaxOpenConns cfg) (CP.DBMaxIdleConns cfg) (CP.DBConnMaxLifetime cfg) (CP.DBConnMaxIdleTime cfg) in
  let '(trustedProxies, warnings) :=
    match ParseTrustedProxies (CP.TrustedProxies cfg) with
    | Ok trusted => (trusted, [])
    | Err _ => ([], ["control_plane.trusted_proxy_config_failed"%string])
    end in
  (mkControl cfg
     (mkServer (CP.AdminToken cfg) (CP.ValidatorToken cfg)
        (Some (default TokenStore.NewMemoryStore service))
        (Some (default Reserved.NewMemoryStore reservationService))
        (Some (default Access.NewMemoryStore accessPolicyService))
        (Some (default CustomDomains.NewMemoryStore customDomainService))
        (Some (default TokenStore.NewMemoryStore adminTokenService)) ∅
        (Some (default (NewMemoryAuditEventStore defaultAuditEventLimit) auditEventStore))
        (ClientIP.New trustedProxies))
     (NewHistogram DefaultLatencyBuckets) now, warnings).

Definition NewServerWithAuditEvents cfg service reservations policies domains events now :=
  NewServerWithAdminTokens cfg service reservations policies domains events None now.
Definition NewServerWithCustomDomains cfg service reservations policies domains now :=
  NewServerWithAuditEvents cfg service reservations policies domains None now.
Definition NewServerWithAccessPolicies cfg service reservations policies now :=
  NewServerWithCustomDomains cfg service reservations policies None now.
(** The variadic argument: only the first one counts. *)
Definition NewServer cfg service (reservationServices : list (option Reserved.MemoryStore)) now :=
  let reservationService :=
    match reservationServices with Some r :: _ => r | _ => Reserved.NewMemoryStore end in
  NewServerWithAccessPolicies cfg service (Some reservationService) None now.

(** ** Retention *)
Definition pruneAuditEvents (c : ControlServer) (now : Time) : option (Z * ControlServer) :=
  '(n, store) ← AuditEvents.PruneBefore (auditEvents (cs_server c)) (now - CP.AuditEventRetention (cs_cfg c));
  Some (n, set_server c (set_auditEvents (cs_server c) store)).
Fixpoint audit_pruner_run (ticks : list Time) (c : ControlServer) : option ControlServer :=
  match ticks with
  | [] => Some c
  | now :: ticks => '(_, c') ← pruneAuditEvents c now; audit_pruner_run ticks c'
  end.
(** At the start and then at each tick; the memory store is a pruner. *)
Definition startAuditEventPruner (ticks : list Time) (c : ControlServer) : option ControlServer :=
  if (CP.AuditEventRetention (cs_cfg c) <=? 0) || (CP.AuditEventPruneInterval (cs_cfg c) <=? 0) then Some c
  else audit_pruner_run ticks c.

(** ** metrics.go *)
Definition writeMetric (name help metricType : string) (value : Z) : list string :=
  writeSample name help metricType value.

Definition readinessGauge (s : Server) : Z := match ready s with Some _ => 0 | None => 1 end.

Definition revoked_count (l : list Tokens.TokenSummary) : Z :=
  Z.of_nat (length (List.filter (fun t => match Tokens.s_RevokedAt t with Some _ => true | None => false end) l)).

Definition writeInventoryMetrics (s : Server) : list string :=
  match Tokens.ListTokens (service s) with
  | Ok listed =>
      writeMetric "porthook_control_plane_tokens" "Current token records in the control plane." "gauge"
        (Z.of_nat (length listed)) ++
      writeMetric "porthook_control_plane_tokens_revoked" "Current revoked token records in the control plane." "gauge"
        (revoked_count listed)
  | Err _ => []
  end ++
  match ListReservations (reservations s) with
  | Ok listed => writeMetric "porthook_control_plane_reserved_subdomains"
      "Current reserved subdomain records in the control plane." "gauge" (Z.of_nat (length listed))
  | Err _ => []
  end ++
  match ListPolicies (accessPolicies s) with
  | Ok listed => writeMetric "porthook_control_plane_access_policies"
      "Current access policy records in the control plane." "gauge" (Z.of_nat (length listed))
  | Err _ => []
  end ++
  match ListDomains (customDomains s) with
  | Ok listed => writeMetric "porthook_control_plane_custom_domains"
      "Current custom domain records in the control plane." "gauge" (Z.of_nat (length listed))
  | Err _ => []
  end.

Definition control_samples (s : Server) : list string :=
  let counter name help field := writeMetric name help "counter" (default 0 (metrics s !! field)) in
  counter "porthook_control_plane_token_admin_creates_total" "Successful token create operations."
    "tokenAdminCreatesTotal" ++
  counter "porthook_control_plane_token_admin_lists_total" "Successful token list operations."
    "tokenAdminListsTotal" ++
  counter "porthook_control_plane_token_admin_revokes_total" "Successful token revoke operations."
    "tokenAdminRevokesTotal" ++
  counter "porthook_control_plane_token_validations_total" "Token validation requests handled by the control plane."
    "tokenValidationsTotal" ++
  counter "porthook_control_plane_token_validation_valid_total" "Token validation requests that returned valid=true."
    "tokenValidationValidTotal" ++
  counter "porthook_control_plane_token_validation_invalid_total" "Token validation requests that returned valid=false."
    "tokenValidationInvalidTotal" ++
  counter "porthook_control_plane_token_validation_errors_total" "Token validation requests that failed before producing a result."
    "tokenValidationErrorsTotal" ++
  counter "porthook_control_plane_reservation_admin_creates_total" "Successful reserved subdomain create operations."
    "reservationAdminCreatesTotal" ++
  counter "porthook_control_plane_reservation_admin_lists_total" "Successful reserved subdomain list operations."
    "reservationAdminListsTotal" ++
  counter "porthook_control_plane_reservation_admin_deletes_total" "Successful reserved subdomain delete operations."
    "reservationAdminDeletesTotal" ++
  counter "porthook_control_plane_reservation_authorizations_total" "Reserved subdomain authorization requests handled by the control plane."
    "reservationAuthorizationsTotal" ++
  counter "porthook_control_plane_reservation_authorization_allowed_total" "Reserved subdomain authorization requests that returned allowed=true."
    "reservationAuthorizationAllowedTotal" ++
  counter "porthook_control_plane_reservation_authorization_denied_total" "Reserved subdomain authorization requests that returned allowed=false."
    "reservationAuthorizationDeniedTotal" ++
  counter "porthook_control_plane_access_policy_admin_creates_total" "Successful access policy create operations."
    "accessPolicyAdminCreatesTotal" ++
  counter "porthook_control_plane_access_policy_admin_lists_total" "Successful access policy list operations."
    "accessPolicyAdminListsTotal" ++
  counter "porthook_control_plane_access_policy_admin_updates_total" "Successful access policy update operations."
    "accessPolicyAdminUpdatesTotal" ++
  counter "porthook_control_plane_access_policy_admin_deletes_total" "Successful access policy delete operations."
    "accessPolicyAdminDeletesTotal" ++
  counter "porthook_control_plane_access_policy_evaluations_total" "Access policy evaluation requests handled by the control plane."
    "accessPolicyEvaluationsTotal" ++
  counter "porthook_control_plane_access_policy_evaluation_allowed_total" "Access policy evaluation requests that returned allowed=true."
    "accessPolicyEvaluationAllowedTotal" ++
  counter "porthook_control_plane_access_policy_evaluation_denied_total" "Access policy evaluation requests that returned allowed=false."
    "accessPolicyEvaluationDeniedTotal" ++
  counter "porthook_control_plane_access_policy_evaluation_errors_total" "Access policy evaluation requests that failed before producing a result."
    "accessPolicyEvaluationErrorsTotal" ++
  counter "porthook_control_plane_custom_domain_admin_creates_total" "Successful custom domain create operations."
    "customDomainAdminCreatesTotal" ++
  counter "porthook_control_plane_custom_domain_admin_lists_total" "Successful custom domain list operations."
    "customDomainAdminListsTotal" ++
  counter "porthook_control_plane_custom_domain_admin_deletes_total" "Successful custom domain delete operations."
    "customDomainAdminDeletesTotal" ++
  counter "porthook_control_plane_custom_domain_lookups_total" "Custom domain lookup requests handled by the control plane."
    "customDomainLookupsTotal" ++
  counter "porthook_control_plane_custom_domain_lookup_hits_total" "Custom domain lookup requests that found a domain mapping."
    "customDomainLookupHitsTotal" ++
  counter "porthook_control_plane_custom_domain_lookup_misses_total" "Custom domain lookup requests that did not find a domain mapping."
    "customDomainLookupMissesTotal" ++
  counter "porthook_control_plane_custom_domain_lookup_errors_total" "Custom domain lookup requests that failed before producing a result."
    "customDomainLookupErrorsTotal" ++
  counter "porthook_control_plane_auth_failures_total" "Bearer authorization failures on control-plane endpoints."
    "authFailuresTotal" ++
  counter "porthook_control_plane_readiness_failures_total" "Readiness checks that failed."
    "readinessFailuresTotal".

(** The memory audit store has no connection pool, so no pool samples follow. *)
Definition handleMetrics (c : ControlServer) (r : request) (now : Time) (rt : runtimeStats) : reply (list string) :=
  if negb (String.eqb (rq_Method r) "GET") then MethodNotAllowed "GET"
  else JSON 200 (
    writeMetric "porthook_control_plane_ready" "Control-plane readiness state, 1 for ready and 0 for not ready."
      "gauge" (readinessGauge (cs_server c)) ++
    writeMetric "porthook_control_plane_uptime_seconds" "Control-plane process uptime in seconds." "gauge"
      (f_trunc (Seconds (F := F) (time_Sub now (cs_startedAt c)))) ++
    writeInventoryMetrics (cs_server c) ++
    control_samples (cs_server c) ++
    WriteTo (requestDuration c) "porthook_control_plane_request_duration_seconds" "HTTP request duration in seconds." ++
    WriteRuntimeStats "porthook_control_plane" rt).

(** ** One request *)
(** What a request brings and meets: its body and query, the clock, the draws
    of crypto/rand, DNS, the HTTP client, map orders and the runtime. *)
Record visit := mkVisit {
  v_body : bytes;
  v_rawQuery : string;
  v_query : string -> string;
  v_clock : clock;
  v_random : secretReader;
  v_dns : string -> result (list string);
  v_newRequest : string -> option error;
  v_Do : string -> Header -> result (Z * Header * bytes);
  v_order : range_order;
  v_runtime : runtimeStats;
  v_started : Time;
  v_finished : Time;
}.

Definition serve_route (c : ControlServer) (r : request) (v : visit) (e : route) : option (control_reply * Server) :=
  let s := cs_server c in
  let clk := v_clock v in
  let body {T} {D : JSONDecoder T} : result T := decodeJSON any (v_body v) in
  let admin (x : reply payload * Server) := Some (RAdmin (fst x), snd x) in
  match e with
  | EHealthz => Some (RPlain ("ok" +:+ newline), s)
  | EReadyz => let '(rep, s') := handleReady s r in Some (RReady rep, s')
  | EMetrics => Some (RMetrics (handleMetrics c r (serve_at clk) (v_runtime v)), s)
  | EDashboard => Some (RDashboard, s)
  | EStatus => admin (handleStatus s r (CP.Version (cs_cfg c)))
  | EGateway =>
      let '(rep, s') := handleGatewayOperator (v_newRequest v) (v_Do v) (cs_cfg c) s r (v_rawQuery v) clk in
      Some (ROperator rep, s')
  | EEvents =>
      '(rep, s') ← handleEvents time_Parse time_Format s r (v_query v) (v_order v) clk; Some (RAdmin rep, s')
  | EAdminTokens => admin (handleAdminTokens s r body (v_random v) clk)
  | EAdminToken => admin (handleAdminTokenByID s r clk)
  | ETokens => admin (handleTokens s r body (v_random v) clk)
  | EToken => admin (handleTokenByID s r clk)
  | EValidate => let '(rep, s') := handleValidateToken s r body (serve_at clk) (audit_at clk) in Some (RValidate rep, s')
  | EPolicies => admin (handleAccessPolicies s r body (v_random v) clk)
  | EPolicy => admin (handleAccessPolicyByID s r body (v_random v) clk)
  | EEvaluate =>
      let '(rep, s') := handleEvaluateAccessPolicy s r body (v_random v) (audit_at clk) in Some (REvaluate rep, s')
  | EDomains => admin (handleCustomDomains s r body (v_random v) clk)
  | EDomain => admin (handleCustomDomainByID s r (v_dns v) clk)
  | ELookup => let '(rep, s') := handleLookupCustomDomain s r body (audit_at clk) in Some (RLookup rep, s')
  | EReservations => admin (handleReservedSubdomains s r body (v_random v) clk)
  | EReservation => admin (handleReservedSubdomainByID s r clk)
  | EAuthorize =>
      let '(rep, s') := handleAuthorizeReservedSubdomain s r body (audit_at clk) in Some (RAuthorize rep, s')
  end.

(** [latencyMiddleware] around the mux. *)
Definition latencyMiddleware (c : ControlServer) (v : visit) (next : option (control_reply * Server))
    : option (control_reply * ControlServer) :=
  '(rep, s) ← next;
  Some (rep, mkControl (cs_cfg c) s (Observe (requestDuration c) (time_Sub (v_finished v) (v_started v))) (cs_startedAt c)).

Definition Handler (c : ControlServer) (r : request) (v : visit) : option (control_reply * ControlServer) :=
  latencyMiddleware c v
    (match mux_lookup control_routes (rq_Path r) with
     | NotFoundPage => Some (RNotFound, cs_server c)
     | RedirectTo path => Some (RRedirect path, cs_server c)
     | Serve e => serve_route c r v e
     end).

(** * Properties *)
Lemma serve_route_steps c r v e rep s' :
  serve_route c r v e = Some (rep, s') -> rtc server_step (cs_server c) s'.
Proof.
  destruct e; cbn [serve_route]; intros H.
  all: try (injection H as <- <-; first [apply rtc_refl | apply rtc_once; eapply srv_admin;
    rewrite <- surjective_pairing; constructor]).
  - pose proof (srv_ready (J := J) (cs_server c) r) as Hs. destruct (handleReady _ _) as [x y].
    injection H as <- <-. by apply rtc_once.
  - injection H as <- <-. unfold handleStatus. destruct (negb _); [apply rtc_refl|]. destruct (ready _); apply rtc_refl.
  - destruct (handleGatewayOperator _ _ _ _ _ _ _) as [x y] eqn:E. injection H as <- <-.
    unfold handleGatewayOperator in E. destruct (negb _); [simplify_eq; apply rtc_refl|].
    destruct (gatewayOperatorRoute _) as [[up scope]|]; [|simplify_eq; apply rtc_refl].
    pose proof (srv_operator (J := J) (cs_server c) r scope (v_clock v)) as Hs.
    assert (y = snd (authorizeAdminRequest (cs_server c) r [scope] (auth_at (v_clock v)) (audit_at (v_clock v)))) as ->;
      [|by apply rtc_once].
    destruct (authorizeAdminRequest _ _ _ _ _) as [[[st m]|a] s1]; cbn [snd];
      simplify_eq; try done; repeat (case_match; simplify_eq; try done).
  - destruct (handleEvents _ _ _ _ _ _ _) as [[x y]|] eqn:E; [|done]. injection H as <- <-.
    apply rtc_once. by eapply srv_events.
  - pose proof (srv_validate (J := J) (cs_server c) r (decodeJSON any (v_body v)) (serve_at (v_clock v)) (audit_at (v_clock v))) as Hs.
    destruct (handleValidateToken _ _ _ _ _) as [x y]. injection H as <- <-. by apply rtc_once.
  - pose proof (srv_evaluate (J := J) (cs_server c) r (decodeJSON any (v_body v)) (v_random v) (audit_at (v_clock v))) as Hs.
    destruct (handleEvaluateAccessPolicy _ _ _ _ _) as [x y]. injection H as <- <-. by apply rtc_once.
  - pose proof (srv_lookup (J := J) (cs_server c) r (decodeJSON any (v_body v)) (audit_at (v_clock v))) as Hs.
    destruct (handleLookupCustomDomain _ _ _ _) as [x y]. injection H as <- <-. by apply rtc_once.
  - pose proof (srv_authorize (J := J) (cs_server c) r (decodeJSON any (v_body v)) (audit_at (v_clock v))) as Hs.
    destruct (handleAuthorizeReservedSubdomain _ _ _ _) as [x y]. injection H as <- <-. by apply rtc_once.
Qed.

Lemma serve_route_answers c r v e b :
  auditEvents (cs_server c) = Some b -> wf b -> entries b <> [] -> is_Some (serve_route c r v e).
Proof.
  intros Hb Hw Hne. destruct e; cbn [serve_route]; try (by eexists);
    try (destruct (handleReady _ _) || destruct (handleGatewayOperator _ _ _ _ _ _ _) ||
         destruct (handleValidateToken _ _ _ _ _) || destruct (handleEvaluateAccessPolicy _ _ _ _ _) ||
         destruct (handleLookupCustomDomain _ _ _ _) || destruct (handleAuthorizeReservedSubdomain _ _ _ _); by eexists).
  unfold handleEvents. destruct (negb _); [by eexists|].
  destruct (authorizeAdminRequest _ _ _ _ _) as [[[st m]|a] s1] eqn:Ea; [by eexists|].
  apply authorizeAdminRequest_checked in Ea as ->. unfold checked.
  destruct (authorizeAdmin_only_admin (cs_server c) (rq_Header r) [ScopeAuditHistory] (auth_at (v_clock v))) as [st ->].
  destruct (auditEventListOptionsFromRequest _ _ _) as [opts|e]; [|by eexists].
  cbn [auditEvents set_adminTokens]. rewrite Hb, List_page_of by done. by eexists.
Qed.

(** Requests one after another, with their answers. *)
Fixpoint serve_all (c : ControlServer) (qs : list (request * visit)) : option (list control_reply * ControlServer) :=
  match qs with
  | [] => Some ([], c)
  | (r, v) :: qs =>
      '(rep, c') ← Handler c r v; '(reps, c'') ← serve_all c' qs; Some (rep :: reps, c'')
  end.

Lemma NewServer_started cfg now :
  cs_server (NewServer cfg None [] now).1 =
  Admin.NewServer (CP.AdminToken cfg) (CP.ValidatorToken cfg) (CP.TrustedProxies cfg) /\
  h_count (requestDuration (NewServer cfg None [] now).1) = 0.
Proof.
  unfold NewServer, NewServerWithAccessPolicies, NewServerWithCustomDomains, NewServerWithAuditEvents,
    NewServerWithAdminTokens, Admin.NewServer. cbn [CP.TrustedProxies]. by destruct (ParseTrustedProxies _).
Qed.

Lemma Observe_count (h : Histogram F) d n : h_count h = uint64 n -> h_count (Observe h d) = uint64 (n + 1).
Proof.
  intros Hn. unfold Observe. rewrite (fold_count h _ n Hn). f_equal. f_equal. apply observe_adds_count.
Qed.

End control.

(** The exact patterns of the gateway's questions win over the subtrees of the
    admin API, and the operator's routes reach the proxy. *)
Example control_routes_examples :
  mux_lookup control_routes "/api/v1/tokens/validate" = Serve EValidate /\
  mux_lookup control_routes "/api/v1/tokens/tok_1" = Serve EToken /\
  mux_lookup control_routes "/api/v1/custom-domains/cd_1/verify" = Serve EDomain /\
  mux_lookup control_routes "/api/v1/gateway/tunnels/tun_1" = Serve EGateway /\
  mux_lookup control_routes "/api/v1/gateway" = RedirectTo "/api/v1/gateway/" /\
  mux_lookup control_routes "/api/v1/gateway/../tokens" = RedirectTo "/api/v1/tokens" /\
  mux_lookup control_routes "/" = NotFoundPage.
Proof. by vm_compute. Qed.

(** A body is accepted only when it is one value with nothing decodable
    before the end of the input. *)
Lemma decodeJSON_one_value {T} {D : JSONDecoder T} (any : JSONDecoder unit) body dst :
  decodeJSON any body = Ok dst ->
  exists rest e, Decode (limited body).1 (limited body).2 = Ok (dst, rest) /\
    Decode (JSONDecoder := any) rest (limited body).2 = Err e /\ errors_Is e EOF = true.
Proof.
  unfold decodeJSON. destruct (limited body) as [input end_error]. cbn [fst snd].
  destruct (Decode input end_error) as [[v rest]|e]; [|by repeat case_match].
  destruct (Decode (JSONDecoder := any) rest end_error) as [|e] eqn:E; [done|].
  destruct (errors_Is e EOF) eqn:Ee; [|done]. intros [= <-]. by exists rest, e.
Qed.
