(* ===== verification/AgentConfig.v ===== *)
(** agent/internal/agent/config.go and config_file.go: the settings of the
    agent, from the environment and from the file [porthook login] saves.

    The file system is the map of the files that exist; an operation on it
    takes the outcome it had as an argument.  The file's JSON text is the class
    [ConfigJSON]. *)
From S2P Require Import Prelude GoStrings.
From Stdlib Require Import ZArith Lia List String Ascii Bool.
From stdpp Require Import base gmap strings list.

Open Scope Z_scope.

Definition millisecond : Duration := 1000000.

Definition defaultServerURL : string := "http://localhost:8081".
Definition defaultToken : string := "dev-token".
Definition defaultHandshakeTimeout : Duration := 10 * second.
Definition defaultRequestTimeout : Duration := 30 * second.
Definition defaultMaxResponseBodyBytes : Z := Z.shiftl 1 20.
Definition defaultWSMessageMaxBytes : Z := Z.shiftl 1 20.
Definition defaultStreamChunkBytes : Z := Z.shiftl 32 10.
Definition defaultWebSocketWriteTimeout : Duration := 10 * second.
Definition defaultWebSocketPingInterval : Duration := 15 * second.
Definition defaultWebSocketPongTimeout : Duration := 5 * second.
Definition defaultReconnectInitialDelay : Duration := 500 * millisecond.
Definition defaultReconnectMaxDelay : Duration := 5 * second.
Definition defaultReconnectJitter : Duration := 250 * millisecond.

Record Config := mkConfig {
  ServerURL : string;
  Token : string;
  RequestedSubdomain : string;
  Port : Z;
  LocalTarget : string;
  AgentVersion : string;
  HandshakeTimeout : Duration;
  RequestTimeout : Duration;
  MaxResponseBodyBytes : Z;
  WSMessageMaxBytes : Z;
  StreamChunkBytes : Z;
  WebSocketWriteTimeout : Duration;
  WebSocketPingInterval : Duration;
  WebSocketPongTimeout : Duration;
  ReconnectInitialDelay : Duration;
  ReconnectMaxDelay : Duration;
  ReconnectJitter : Duration;
  CACertFile : string;
  ConnectAddr : string;
}.

Definition normalizeConfig (cfg : Config) : Config :=
  let positive (v fallback : Z) : Z := if v <=? 0 then fallback else v in
  let named (v fallback : string) : string := if String.eqb v "" then fallback else v in
  let initial := positive (ReconnectInitialDelay cfg) defaultReconnectInitialDelay in
  let max := positive (ReconnectMaxDelay cfg) defaultReconnectMaxDelay in
{|
  ServerURL := named (ServerURL cfg) defaultServerURL;
  Token := named (Token cfg) defaultToken;
  RequestedSubdomain := RequestedSubdomain cfg;
  Port := Port cfg;
  LocalTarget := LocalTarget cfg;
  AgentVersion := AgentVersion cfg;
  HandshakeTimeout := positive (HandshakeTimeout cfg) defaultHandshakeTimeout;
  RequestTimeout := positive (RequestTimeout cfg) defaultRequestTimeout;
  MaxResponseBodyBytes := positive (MaxResponseBodyBytes cfg) defaultMaxResponseBodyBytes;
  WSMessageMaxBytes := positive (WSMessageMaxBytes cfg) defaultWSMessageMaxBytes;
  StreamChunkBytes := positive (StreamChunkBytes cfg) defaultStreamChunkBytes;
  WebSocketWriteTimeout := positive (WebSocketWriteTimeout cfg) defaultWebSocketWriteTimeout;
  WebSocketPingInterval := positive (WebSocketPingInterval cfg) defaultWebSocketPingInterval;
  WebSocketPongTimeout := positive (WebSocketPongTimeout cfg) defaultWebSocketPongTimeout;
  ReconnectInitialDelay := initial;
  ReconnectMaxDelay := if max <? initial then initial else max;
  ReconnectJitter := if ReconnectJitter cfg <? 0 then defaultReconnectJitter else ReconnectJitter cfg;
  CACertFile := CACertFile cfg;
  ConnectAddr := ConnectAddr cfg;
|}.

(** * The environment *)
Section env.
Context {D : GoDuration} (Getenv : string -> string).

Definition envString (name fallback : string) : string :=
  let value := Getenv name in if String.eqb value "" then fallback else value.

(** [strconv.ParseInt(value, 10, 64)] and [strconv.Atoi] agree on 64 bits. *)
Definition envInt64 (name : string) (fallback : Z) : Z :=
  let value := Getenv name in
  if String.eqb value "" then fallback else
  match Atoi value with
  | None => fallback
  | Some parsed => if parsed <=? 0 then fallback else parsed
  end.
Definition envInt : string -> Z -> Z := envInt64.

Definition envDuration (name : string) (fallback : Duration) : Duration :=
  let value := Getenv name in
  if String.eqb value "" then fallback else
  match ParseDuration value with
  | None => fallback
  | Some parsed => if parsed <=? 0 then fallback else parsed
  end.
End env.

(** * The file *)
Record ConfigFile := mkConfigFile { cf_ServerURL : string; cf_Token : string }.

(** [json.MarshalIndent] and [json.Unmarshal] at [ConfigFile]. *)
Class ConfigJSON : Type := {
  MarshalIndent : ConfigFile -> result bytes;
  UnmarshalConfig : bytes -> result ConfigFile;
}.
(** White space after a JSON value is not part of it. *)
Class ConfigJSONLaws {J : ConfigJSON} : Prop := {
  config_json_roundtrip : forall cfg data,
    MarshalIndent cfg = Ok data -> UnmarshalConfig (data ++ [chr 10]) = Ok cfg;
}.

(** What the process asks of its surroundings: [os.UserConfigDir] and
    [filepath.Join]. *)
Record Paths := mkPaths {
  UserConfigDir : result string;
  filepath_Join : list string -> string;
}.
Abbreviation Files := (gmap string bytes).

Definition ErrNotExist : error := Sentinel "os.ErrNotExist" "file does not exist".

Section file.
Context {J : ConfigJSON} (Getenv : string -> string) (paths : Paths).

Definition ConfigFilePath : result string :=
  let path := Getenv "PORTHOOK_CONFIG_PATH" in
  if negb (String.eqb path "") then Ok path
  else match UserConfigDir paths with
       | Err e => Err (Wrap "resolve user config dir" e)
       | Ok configDir => Ok (filepath_Join paths [configDir; "porthook"; "config.json"]%string)
       end.

(** [os.ReadFile]: [denied] is an error other than the file's absence. *)
Definition ReadFile (files : Files) (denied : option error) (path : string) : result bytes :=
  match denied with
  | Some e => Err e
  | None => match files !! path with None => Err ErrNotExist | Some data => Ok data end
  end.

(** [(cfg, ok, err)]: [None] is [ok = false]. *)
Definition LoadConfigFile (files : Files) (denied : option error) : result (option ConfigFile) :=
  try path <- ConfigFilePath;
  match ReadFile files denied path with
  | Err e => if errors_Is e ErrNotExist then Ok None else Err (Wrap "read config file" e)
  | Ok data =>
      match UnmarshalConfig data with
      | Err e => Err (Wrap "decode config file" e)
      | Ok cfg => Ok (Some cfg)
      end
  end.

(** [os.WriteFile] truncates the file and writes as much as it can. *)
Inductive written : Type :=
| WriteDone
| WriteRefused (e : error)                (* the file was not opened *)
| WriteCut (n : nat) (e : error).         (* it holds the first [n] bytes *)

Definition SaveConfigFile (files : Files) (mkdir : option error) (outcome : written) (cfg : ConfigFile)
    : option error * Files :=
  match ConfigFilePath with
  | Err e => (Some e, files)
  | Ok path =>
      match mkdir with
      | Some e => (Some (Wrap "create config dir" e), files)
      | None =>
          match MarshalIndent cfg with
          | Err e => (Some (Wrap "encode config file" e), files)
          | Ok data =>
              let data := data ++ [chr 10] in
              match outcome with
              | WriteDone => (None, <[path := data]> files)
              | WriteRefused e => (Some (Wrap "write config file" e), files)
              | WriteCut n e => (Some (Wrap "write config file" e), <[path := take n data]> files)
              end
          end
      end
  end.

Definition RemoveConfigFile (files : Files) (denied : option error) : option error * Files :=
  match ConfigFilePath with
  | Err e => (Some e, files)
  | Ok path =>
      match denied with
      | Some e => if errors_Is e ErrNotExist then (None, files)
                  else (Some (Wrap "remove config file" e), files)
      | None => (None, delete path files)       (* an absent file is no error *)
      end
  end.

Context {D : GoDuration}.

Definition ConfigFromEnv (files : Files) (denied : option error) : Config :=
  let '(server, token) :=
    match LoadConfigFile files denied with
    | Ok (Some f) => ((if negb (String.eqb (cf_ServerURL f) "") then cf_ServerURL f else defaultServerURL),
                      (if negb (String.eqb (cf_Token f) "") then cf_Token f else defaultToken))
    | _ => (defaultServerURL, defaultToken)
    end in
  normalizeConfig {|
    ServerURL := envString Getenv "PORTHOOK_SERVER_URL" server;
    Token := envString Getenv "PORTHOOK_TOKEN" token;
    RequestedSubdomain := "";
    Port := 0;
    LocalTarget := "";
    AgentVersion := "";
    HandshakeTimeout := envDuration Getenv "PORTHOOK_HANDSHAKE_TIMEOUT" defaultHandshakeTimeout;
    RequestTimeout := envDuration Getenv "PORTHOOK_REQUEST_TIMEOUT" defaultRequestTimeout;
    MaxResponseBodyBytes := envInt64 Getenv "PORTHOOK_MAX_RESPONSE_BODY_BYTES" defaultMaxResponseBodyBytes;
    WSMessageMaxBytes := envInt64 Getenv "PORTHOOK_WS_MESSAGE_MAX_BYTES" defaultWSMessageMaxBytes;
    StreamChunkBytes := envInt Getenv "PORTHOOK_STREAM_CHUNK_BYTES" defaultStreamChunkBytes;
    WebSocketWriteTimeout := envDuration Getenv "PORTHOOK_WS_WRITE_TIMEOUT" defaultWebSocketWriteTimeout;
    WebSocketPingInterval := envDuration Getenv "PORTHOOK_WS_PING_INTERVAL" defaultWebSocketPingInterval;
    WebSocketPongTimeout := envDuration Getenv "PORTHOOK_WS_PONG_TIMEOUT" defaultWebSocketPongTimeout;
    ReconnectInitialDelay := envDuration Getenv "PORTHOOK_RECONNECT_INITIAL_DELAY" defaultReconnectInitialDelay;
    ReconnectMaxDelay := envDuration Getenv "PORTHOOK_RECONNECT_MAX_DELAY" defaultReconnectMaxDelay;
    ReconnectJitter := envDuration Getenv "PORTHOOK_RECONNECT_JITTER" defaultReconnectJitter;
    CACertFile := Getenv "PORTHOOK_CA_FILE";
    ConnectAddr := Getenv "PORTHOOK_CONNECT_ADDR";
  |}.
End file.

(** * Properties *)
Definition usable (cfg : Config) : Prop :=
  ServerURL cfg <> ""%string /\ Token cfg <> ""%string /\
  0 < HandshakeTimeout cfg /\ 0 < RequestTimeout cfg /\ 0 < MaxResponseBodyBytes cfg /\
  0 < WSMessageMaxBytes cfg /\ 0 < StreamChunkBytes cfg /\ 0 < WebSocketWriteTimeout cfg /\
  0 < WebSocketPingInterval cfg /\ 0 < WebSocketPongTimeout cfg /\
  0 < ReconnectInitialDelay cfg <= ReconnectMaxDelay cfg /\ 0 <= ReconnectJitter cfg.

Lemma normalizeConfig_usable cfg : usable (normalizeConfig cfg).
Proof.
  unfold usable, normalizeConfig. cbn.
  unfold defaultHandshakeTimeout, defaultRequestTimeout, defaultMaxResponseBodyBytes, defaultWSMessageMaxBytes,
    defaultStreamChunkBytes, defaultWebSocketWriteTimeout, defaultWebSocketPingInterval,
    defaultWebSocketPongTimeout, defaultReconnectInitialDelay, defaultReconnectMaxDelay, defaultReconnectJitter,
    second, millisecond.
  assert (Hn : forall v d, d <> ""%string -> (if String.eqb v "" then d else v) <> ""%string)
    by (intros v d Hd; by destruct (String.eqb_spec v "")).
  assert (Hp : forall v d, 0 < d -> 0 < (if v <=? 0 then d else v))
    by (intros v d Hd; destruct (Z.leb_spec v 0); lia).
  split; [by apply Hn|]. split; [by apply Hn|]. repeat (split; [by apply Hp|]).
  split; [split; [by apply Hp|]|]; repeat case_match; to_prop; lia.
Qed.

Lemma normalizeConfig_idem cfg : normalizeConfig (normalizeConfig cfg) = normalizeConfig cfg.
Proof.
  pose proof (normalizeConfig_usable cfg) as (H1 & H2 & Hs). set (c := normalizeConfig cfg) in *.
  unfold normalizeConfig. destruct c. cbn in *.
  rewrite !(proj2 (String.eqb_neq _ _)) by done.
  repeat match goal with |- context [?v <=? 0] => rewrite (proj2 (Z.leb_gt v 0)) by lia end.
  rewrite !(proj2 (Z.ltb_ge _ _)) by lia. done.
Qed.

Section login.
Context {J : ConfigJSON} {JL : ConfigJSONLaws} {D : GoDuration}.
Context (Getenv : string -> string) (paths : Paths).

Lemma save_load files f files' :
  SaveConfigFile Getenv paths files None WriteDone f = (None, files') ->
  LoadConfigFile Getenv paths files' None = Ok (Some f).
Proof.
  unfold SaveConfigFile, LoadConfigFile. destruct (ConfigFilePath Getenv paths) as [path|]; [|done].
  destruct (MarshalIndent f) as [data|] eqn:E; [|done]. intros [= <-].
  unfold ReadFile. cbn [rbind]. rewrite lookup_insert_eq. by rewrite (config_json_roundtrip f data E).
Qed.

Lemma remove_load files files' :
  RemoveConfigFile Getenv paths files None = (None, files') ->
  LoadConfigFile Getenv paths files' None = Ok None.
Proof.
  unfold RemoveConfigFile, LoadConfigFile. destruct (ConfigFilePath Getenv paths) as [path|]; [|done].
  intros [= <-]. cbn. by rewrite lookup_delete_eq.
Qed.

(** What [porthook login] saves is what the agent uses: after a save
    that reported no error, an agent whose environment names no server and no
    token connects to the saved server with the saved token; after a logout it
    falls back to the built-in ones; and in both cases every limit and timeout
    of the configuration is usable. *)
Lemma login_logout files f files1 files2 :
  Getenv "PORTHOOK_SERVER_URL" = ""%string -> Getenv "PORTHOOK_TOKEN" = ""%string ->
  cf_ServerURL f <> ""%string -> cf_Token f <> ""%string ->
  SaveConfigFile Getenv paths files None WriteDone f = (None, files1) ->
  RemoveConfigFile Getenv paths files1 None = (None, files2) ->
  let after_login := ConfigFromEnv Getenv paths files1 None in
  let after_logout := ConfigFromEnv Getenv paths files2 None in
  (ServerURL after_login, Token after_login) = (cf_ServerURL f, cf_Token f) /\
  (ServerURL after_logout, Token after_logout) = (defaultServerURL, defaultToken) /\
  usable after_login /\ usable after_logout.
Proof.
  intros Hs Ht Hfs Hft Hsave%save_load Hrm%remove_load. cbv zeta. unfold ConfigFromEnv. rewrite Hsave, Hrm.
  split; [|split; [|split; apply normalizeConfig_usable]].
  - unfold normalizeConfig, envString. cbn. rewrite Hs, Ht. cbn.
    apply String.eqb_neq in Hfs, Hft. rewrite Hfs, Hft. cbn. by rewrite Hfs, Hft.
  - unfold normalizeConfig, envString. cbn. by rewrite Hs, Ht.
Qed.
End login.

(** ** Witness *)
Module Witness_login.
(** A codec of two lines. *)
Definition encode (f : ConfigFile) : bytes :=
  to_bytes (cf_ServerURL f) ++ [chr 10] ++ to_bytes (cf_Token f).
Definition decode (l : bytes) : result ConfigFile :=
  match Split (of_bytes l) (chr 10) with
  | [server; token; _] => Ok (mkConfigFile server token)
  | _ => Err (Errorf "unexpected end of JSON input")
  end.
#[local] Instance json : ConfigJSON := {|
  MarshalIndent f := match decode (encode f ++ [chr 10]) with
                     | Ok g => if String.eqb (cf_ServerURL g) (cf_ServerURL f) && String.eqb (cf_Token g) (cf_Token f)
                               then Ok (encode f) else Err (Errorf "unsupported value")
                     | Err e => Err e
                     end;
  UnmarshalConfig := decode;
|}.
#[local] Instance json_laws : ConfigJSONLaws.
Proof.
  split. intros [s t] data. cbn. destruct (decode _) as [[s' t']|] eqn:E; [|done]. cbn.
  destruct (String.eqb_spec s' s) as [->|], (String.eqb_spec t' t) as [->|]; try done.
  by intros [= <-].
Qed.
#[local] Instance durations : GoDuration := {| ParseDuration _ := None |}.
Definition paths : Paths := mkPaths (Ok "/home/ada/.config"%string) (fun l => GoStrings.Join l "/").
Definition environment (_ : string) : string := "".
Definition login : ConfigFile := mkConfigFile "https://tunnel.example.com" "ph_secret".

Lemma login_logout_witness :
  let files1 := snd (SaveConfigFile environment paths ∅ None WriteDone login) in
  let files2 := snd (RemoveConfigFile environment paths files1 None) in
  Token (ConfigFromEnv environment paths files1 None) = "ph_secret"%string /\
  Token (ConfigFromEnv environment paths files2 None) = "dev-token"%string.
Proof.
  intros files1 files2.
  destruct (login_logout (JL := json_laws) environment paths ∅ login files1 files2) as (H1 & H2 & _);
    [done|done|done|done|by vm_compute|by vm_compute|].
  split; [exact (f_equal snd H1)|exact (f_equal snd H2)].
Defined.
End Witness_login.
