(* ===== verification/AgentForward.v ===== *)
(** agent/internal/agent/forward.go: how the agent calls the local service and
    carries its response to the gateway.

    The HTTP client is the argument [client_Do]; a body is the sequence of
    results its [Read] calls give to a buffer that is large enough, and a
    smaller buffer splits them ([reads]).  What the code does with the gateway
    connection is recorded in [AgentSt]: every frame handed to it, with the
    outcome [conn_Write] gave. *)
From S2P Require Import Prelude GoStrings Messages Wire AgentConfig.
From Stdlib Require Import ZArith Lia List String Ascii Bool.
From stdpp Require Import base gmap strings list.

Open Scope Z_scope.

(** * The address of the local service *)
Definition joinURLPath (basePath requestPath : string) : string :=
  if String.eqb basePath "" || String.eqb basePath "/" then requestPath
  else if HasSuffix basePath "/" && HasPrefix requestPath "/"
  then basePath +:+ TrimPrefix requestPath "/"
  else if negb (HasSuffix basePath "/") && negb (HasPrefix requestPath "/")
  then basePath +:+ "/" +:+ requestPath
  else basePath +:+ requestPath.

Definition buildLocalURL {GU : GoURL} (localTarget requestPath rawQuery : string) : result string :=
  match url_Parse localTarget with
  | Err e => Err (Wrap "parse local target" e)
  | Ok base =>
      if String.eqb (Scheme base) "" || String.eqb (url_Host base) ""
      then Err (Errorf "local target must include scheme and host")
      else
        let requestPath := if String.eqb requestPath "" then "/"%string else requestPath in
        let requestPath := if negb (HasPrefix requestPath "/") then "/" +:+ requestPath else requestPath in
        Ok (url_String (mkURL (Scheme base) (User base) (url_Host base)
                          (joinURLPath (url_Path base) requestPath) rawQuery "" (url_Other base)))
  end.

Definition buildLocalWSURL {GU : GoURL} (localTarget requestPath rawQuery : string) : result string :=
  try httpURL <- buildLocalURL localTarget requestPath rawQuery;
  match url_Parse httpURL with
  | Err e => Err (Wrap "parse local websocket target" e)
  | Ok parsed =>
      let scheme := if String.eqb (Scheme parsed) "http" then "ws"%string
                    else if String.eqb (Scheme parsed) "https" then "wss"%string else Scheme parsed in
      Ok (url_String (mkURL scheme (User parsed) (url_Host parsed) (url_Path parsed) (RawQuery parsed)
                        (Fragment parsed) (url_Other parsed)))
  end.

(** * Reading a body *)

(** One element per [Read]; past the end the reader is at EOF. *)
Definition reader : Type := list (bytes * option error).

(** [data] through a buffer of [p] bytes. *)
Fixpoint pieces (fuel : nat) (p : nat) (data : bytes) : list bytes :=
  match fuel with
  | O => [data]
  | S fuel' => if (length data <=? p)%nat then [data] else take p data :: pieces fuel' p (drop p data)
  end.
(** The last piece comes with the error of the read. *)
Fixpoint last_with (ps : list bytes) (err : option error) : reader :=
  match ps with
  | [] => []
  | [d] => [(d, err)]
  | d :: ps' => (d, None) :: last_with ps' err
  end.
Definition reads (p : nat) (body : reader) : reader :=
  body ≫= fun '(data, err) => last_with (pieces (length data) p data) err.

(** [io.ReadAll(io.LimitReader(body, limit))], where [n] bytes may still be
    read.  A read cut by the limit hides the rest of it, error included, and
    the limit reader reports EOF; how [ReadAll] grows its buffer is invisible. *)
Fixpoint read_limited (n : Z) (body : reader) : bytes * option error :=
  if n <=? 0 then ([], None) else
  match body with
  | [] => ([], None)
  | (data, err) :: rest =>
      if n <? Z.of_nat (length data) then (take (Z.to_nat n) data, None)
      else
        match err with
        | Some e => (data, if bool_decide (e = EOF) then None else Some e)
        | None => let '(more, e) := read_limited (n - Z.of_nat (length data)) rest in (data ++ more, e)
        end
  end.

Definition too_large (limit : Z) : error :=
  Errorf ("local response body exceeds " +:+ Itoa limit +:+ " bytes").

Definition readLimitedResponseBody (body : reader) (limit : Z) : result bytes :=
  let limit := if limit <=? 0 then defaultMaxResponseBodyBytes else limit in
  let '(data, err) := read_limited (int64 (limit + 1)) body in
  match err with
  | Some e => Err e
  | None => if limit <? Z.of_nat (length data) then Err (too_large limit) else Ok data
  end.

(** * Writing to the gateway *)
Inductive frame : Type :=
| Sent_Envelope (env : Envelope)
| Sent_Body (typ : Type_) (streamID tunnelID : string) (data : bytes).

(** What a WebSocket of the local service gets. *)
Inductive local_write : Type :=
| LocalMessage (typ : MessageType) (data : bytes)
| LocalClose (code : Z) (reason : string).

(** One "local request" line of the log. *)
Record request_line := mkRequestLine {
  rl_stream_id : string; rl_tunnel_id : string; rl_method : string; rl_path : string;
  rl_status : Z; rl_outcome : string; rl_request_bytes : Z; rl_response_bytes : Z;
  rl_duration_ms : Z; rl_error : option error; rl_warn : bool;
}.

(** [output] is what is printed for the user, [logged] the log. *)
Record AgentSt := mkAgentSt {
  sent : list (frame * result unit);
  conn_writes : nat;
  local_out : list local_write;
  output : list string;
  logged : list request_line;
}.
Definition agent0 : AgentSt := mkAgentSt [] 0 [] [] [].
Definition add_sent (f : frame) (r : result unit) (n : nat) (s : AgentSt) : AgentSt :=
  mkAgentSt (sent s ++ [(f, r)]) (conn_writes s + n) (local_out s) (output s) (logged s).

Definition A (X : Type) : Type := AgentSt -> X * AgentSt.
Definition ret {X} (x : X) : A X := fun s => (x, s).
Definition bind {X Y} (m : A X) (k : X -> A Y) : A Y := fun s => let '(x, s') := m s in k x s'.
Declare Scope agent_scope.
Delimit Scope agent_scope with agent.
Notation "x <- m ;; k" := (bind m (fun x => k))
  (at level 100, m at level 99, right associativity) : agent_scope.
Notation "m ;;; k" := (bind m (fun _ => k)) (at level 100, right associativity) : agent_scope.
Open Scope agent_scope.

Section connection.
Context {JE : JSONCodec Envelope}.
Context (conn_Write : nat -> MessageType * bytes -> option error).

(** [Runner.write] and [Runner.writeBinaryBody]; the lock and the write
    deadline are part of the outcome. *)
Definition send (f : frame) (encoded : result (MessageType * bytes)) : A (result unit) := fun s =>
  match encoded with
  | Err e => (Err e, add_sent f (Err e) 0 s)
  | Ok m =>
      let r := match conn_Write (conn_writes s) m with Some e => Err e | None => Ok tt end in
      (r, add_sent f r 1 s)
  end.
Definition write (env : Envelope) : A (result unit) := send (Sent_Envelope env) (WriteEnvelope env).
Definition writeBinaryBody (typ : Type_) (streamID tunnelID : string) (body : bytes) : A (result unit) :=
  send (Sent_Body typ streamID tunnelID body) (WriteBinaryBody typ streamID tunnelID body).
End connection.

(** * Streaming a response body *)
Section stream_body.
Context (limit : Z) (writeChunk : bytes -> A (result unit)).

Fixpoint stream_loop (body : reader) (total : Z) : A (Z * option error) :=
  match body with
  | [] => ret (total, None)
  | (data, readErr) :: rest =>
      let after (total : Z) : A (Z * option error) :=
        match readErr with
        | Some e => if errors_Is e EOF then ret (total, None) else ret (total, Some e)
        | None => stream_loop rest total
        end in
      let n := Z.of_nat (length data) in
      if 0 <? n then
        let total := int64 (total + n) in
        if limit <? total then ret (total, Some (too_large limit))
        else
          r <- writeChunk data ;;
          match r with
          | Err e => ret (total, Some e)
          | Ok _ => after total
          end
      else after total
  end.
End stream_body.

Definition streamLimitedResponseBody (body : reader) (limit chunkBytes : Z)
    (writeChunk : bytes -> A (result unit)) : A (Z * option error) :=
  let limit := if limit <=? 0 then defaultMaxResponseBodyBytes else limit in
  let chunkBytes := if chunkBytes <=? 0 then defaultStreamChunkBytes else chunkBytes in
  stream_loop limit writeChunk (reads (Z.to_nat chunkBytes) body) 0.

(** * Calling the local service *)

(** [http.NewRequestWithContext] and the fields set on its result. *)
Record localRequest := mkLocalRequest {
  lq_Method : string; lq_URL : string; lq_Header : Header; lq_ContentLength : Z; lq_Body : reader;
  lq_BodyOpen : bool;      (* more may follow what [lq_Body] holds *)
}.
Record localResponse := mkLocalResponse { lp_StatusCode : Z; lp_Header : Header; lp_Body : reader }.
(** The HTTP client and the check of [http.NewRequestWithContext]. *)
Record Client := mkClient {
  invalid_request : string -> string -> option error;     (* method and URL *)
  client_Do : localRequest -> result localResponse;
}.

Section forward.
Context {GU : GoURL} (client : Client).

Definition ForwardHTTPRequest (localTarget : string) (req : Request) (maxResponseBodyBytes : Z)
    : result Response :=
  try targetURL <- buildLocalURL localTarget (rq_Path req) (rq_Query req);
  match invalid_request client (rq_Method req) targetURL with
  | Some e => Err (Wrap "build local request" e)
  | None =>
      match client_Do client
              (mkLocalRequest (rq_Method req) targetURL (StripHopByHopHeaders (rq_Header req))
                 (Z.of_nat (length (rq_Body req))) [(rq_Body req, None)] false) with
      | Err e => Err (Wrap "call local service" e)
      | Ok resp =>
          match readLimitedResponseBody (lp_Body resp) maxResponseBodyBytes with
          | Err e => Err (Wrap "read local response" e)
          | Ok body => Ok (mkResponse (lp_StatusCode resp) (StripHopByHopHeaders (lp_Header resp)) body)
          end
      end
  end.

(** [(status, bytes, err)]. *)
Definition ForwardHTTPStream (localTarget : string) (req : RequestStart) (body : reader) (bodyOpen : bool)
    (maxResponseBodyBytes chunkBytes : Z)
    (writeResponseStart : ResponseStart -> A (result unit)) (writeResponseBody : bytes -> A (result unit))
    : A (Z * Z * option error) :=
  match buildLocalURL localTarget (rs_Path req) (rs_Query req) with
  | Err e => ret (0, 0, Some e)
  | Ok targetURL =>
      match invalid_request client (rs_Method req) targetURL with
      | Some e => ret (0, 0, Some (Wrap "build local request" e))
      | None =>
          match client_Do client
                  (mkLocalRequest (rs_Method req) targetURL (StripHopByHopHeaders (rs_Header req))
                     (if 0 <? rs_ContentLength req then rs_ContentLength req else 0) body bodyOpen) with
          | Err e => ret (0, 0, Some (Wrap "call local service" e))
          | Ok resp =>
              r <- writeResponseStart (mkResponseStart (lp_StatusCode resp) (StripHopByHopHeaders (lp_Header resp))) ;;
              match r with
              | Err e => ret (lp_StatusCode resp, 0, Some e)
              | Ok _ =>
                  b <- streamLimitedResponseBody (lp_Body resp) maxResponseBodyBytes chunkBytes writeResponseBody ;;
                  let '(responseBytes, err) := b in
                  match err with
                  | Some e => ret (lp_StatusCode resp, responseBytes, Some (Wrap "read local response" e))
                  | None => ret (lp_StatusCode resp, responseBytes, None)
                  end
              end
          end
      end
  end.
End forward.

(** * What the two ways of reading a response give *)

(** What a body holds, and the error that ends it before EOF, if any. *)
Fixpoint content (body : reader) : bytes * option error :=
  match body with
  | [] => ([], None)
  | (data, Some e) :: _ => (data, if bool_decide (e = EOF) then None else Some e)
  | (data, None) :: rest => let '(more, e) := content rest in (data ++ more, e)
  end.

(** The body reports its end as [io.EOF] itself, as an [io.Reader] must. *)
Definition plain_eof (body : reader) : Prop :=
  Forall (fun r => forall e, r.2 = Some e -> errors_Is e EOF = true -> e = EOF) body.

Lemma pieces_spec fuel p data : (0 < p)%nat -> (length data <= fuel)%nat ->
  concat (pieces fuel p data) = data /\ Forall (fun d => (length d <= p)%nat) (pieces fuel p data)
  /\ pieces fuel p data <> [].
Proof.
  intros Hp. revert data. induction fuel as [|fuel IH]; intros data Hl; cbn.
  - split_and!; [apply app_nil_r | repeat constructor; lia | done].
  - destruct (Nat.leb_spec (length data) p) as [Hs|Hs]; cbn.
    + split_and!; [apply app_nil_r | repeat constructor; lia | done].
    + destruct (IH (drop p data)) as (Hj & Hf & _); [rewrite length_drop; lia|].
      rewrite Hj, take_drop. split_and!; [done | constructor; [rewrite length_take; lia | done] | done].
Qed.

Lemma content_app_None ps err rest : ps <> [] ->
  content (last_with ps err ++ rest) = content ((concat ps, err) :: rest).
Proof.
  induction ps as [|d ps IH]; [done|]. intros _. destruct ps as [|d' ps].
  - cbn. by rewrite app_nil_r.
  - change (last_with (d :: d' :: ps) err) with ((d, None) :: last_with (d' :: ps) err).
    cbn [app content]. rewrite IH by done. change (concat (d :: d' :: ps)) with (d ++ concat (d' :: ps)).
    cbn [content]. destruct err; [done|]. destruct (content rest). by rewrite app_assoc.
Qed.

Lemma content_reads p body : (0 < p)%nat -> content (reads p body) = content body.
Proof.
  intros Hp. induction body as [|[data err] rest IH]; [done|].
  destruct (pieces_spec (length data) p data Hp ltac:(lia)) as (Hj & _ & Hne).
  unfold reads in *. rewrite bind_cons, content_app_None, Hj by done.
  cbn [content]. by rewrite IH.
Qed.

Lemma last_with_Forall (P : bytes -> Prop) (Q : option error -> Prop) ps err :
  Q None -> Q err -> Forall P ps -> Forall (fun r => P r.1 /\ Q r.2) (last_with ps err).
Proof.
  intros Hn He. induction 1 as [|d ps Hd Hps IH]; [constructor|].
  destruct ps; constructor; cbn; auto.
Qed.

Lemma reads_spec p body : (0 < p)%nat -> plain_eof body ->
  Forall (fun r => (length r.1 <= p)%nat) (reads p body) /\ plain_eof (reads p body).
Proof.
  intros Hp Hb. unfold plain_eof. apply Forall_and. unfold reads. apply Forall_bind.
  eapply Forall_impl; [exact Hb|]. intros [data err] He.
  apply (last_with_Forall (fun d => length d <= p)%nat
           (fun err => forall e, err = Some e -> errors_Is e EOF = true -> e = EOF)); [done | exact He |].
  by apply (pieces_spec (length data) p data).
Qed.

Lemma read_limited_spec n body : plain_eof body ->
  let '(data, err) := read_limited n body in
  data = take (Z.to_nat n) (content body).1 /\
  (err = None -> Z.of_nat (length data) < n -> (content body).2 = None) /\
  (err <> None -> err = (content body).2).
Proof.
  revert n. induction body as [|[d e] rest IH]; intros n Hp; cbn.
  - destruct (n <=? 0); cbn; rewrite take_nil; done.
  - destruct (Z.leb_spec n 0) as [Hn|Hn].
    { replace (Z.to_nat n) with 0%nat by lia. cbn. split_and!; [done | lia | done]. }
    destruct (Z.ltb_spec n (Z.of_nat (length d))) as [Hl|Hl].
    + destruct e as [e|]; [|destruct (content rest)]; cbn; rewrite ?take_app_le by lia;
        (split_and!; [done | rewrite length_take; lia | done]).
    + inversion Hp as [|? ? Hd Hrest]; subst. destruct e as [e|]; cbn.
      * rewrite take_ge by lia. done.
      * specialize (IH (n - Z.of_nat (length d)) Hrest).
        destruct (read_limited _ rest) as [more e], (content rest) as [m err]. cbn in *.
        destruct IH as (-> & H1 & H2). rewrite take_app_ge by lia.
        replace (Z.to_nat (n - Z.of_nat (length d))) with (Z.to_nat n - length d)%nat in * by lia.
        split_and!; [done | | done]. intros He Hlt. rewrite length_app in Hlt. apply H1; [done | lia].
Qed.

Definition response_limit (limit : Z) : Z :=
  if limit <=? 0 then defaultMaxResponseBodyBytes else limit.

Lemma response_limit_pos limit : 0 < response_limit limit.
Proof. unfold response_limit. destruct (Z.leb_spec limit 0); [done | lia]. Qed.

Lemma readLimitedResponseBody_spec body limit data : plain_eof body -> response_limit limit < max_int64 ->
  readLimitedResponseBody body limit = Ok data
  <-> content body = (data, None) /\ Z.of_nat (length data) <= response_limit limit.
Proof.
  intros Hp Hl. pose proof (response_limit_pos limit) as Hpos.
  unfold readLimitedResponseBody. fold (response_limit limit).
  rewrite (int64_id (response_limit limit + 1)) by (unfold min_int64, max_int64 in *; lia).
  pose proof (read_limited_spec (response_limit limit + 1) body Hp) as Hs.
  destruct (read_limited _ body) as [d e], (content body) as [m err]. cbn in Hs.
  destruct Hs as (-> & H1 & H2). destruct e as [e|].
  - split; [done | intros [[= -> ->] _]]. by specialize (H2 ltac:(done)).
  - destruct (Z.ltb_spec (response_limit limit) (Z.of_nat (length (take (Z.to_nat (response_limit limit + 1)) m)))) as [Hc|Hc];
      rewrite length_take in Hc, H1.
    + split; [done | intros [[= -> ->] Hle]; lia].
    + rewrite take_ge by lia. split.
      * intros [= ->]. rewrite H1 by (done || lia). split; [done | lia].
      * by intros [[= -> ->] _].
Qed.

(** [stream_loop] with a connection that takes every chunk: [record] is what
    a write does to the state. *)
Section accepted.
Context (writeChunk : bytes -> A (result unit)) (record : AgentSt -> bytes -> AgentSt).
Hypothesis accepts : forall d s, writeChunk d s = (Ok tt, record s d).
Context (limit chunk : Z).
Hypothesis room : limit + chunk <= max_int64.

Lemma stream_loop_spec body total s :
  Forall (fun r => Z.of_nat (length r.1) <= chunk) body -> plain_eof body -> 0 <= total <= limit ->
  exists chunks t e,
    stream_loop limit writeChunk body total s = ((t, e), fold_left record chunks s)
    /\ Forall (fun d => 0 < Z.of_nat (length d) <= chunk) chunks
    /\ concat chunks `prefix_of` (content body).1
    /\ total + Z.of_nat (length (concat chunks)) <= limit
    /\ (e = None -> content body = (concat chunks, None) /\ t = total + Z.of_nat (length (concat chunks)))
    /\ ((content body).2 = None -> total + Z.of_nat (length (content body).1) <= limit -> e = None).
Proof.
  revert total s. induction body as [|[d err] rest IH]; intros total s Hc Hp Ht; cbn [stream_loop].
  { exists [], total, None. cbn. split_and!; auto with lia. }
  inversion Hc as [|? ? Hd Hcr]; inversion Hp as [|? ? He Hpr]; subst. cbn [fst snd] in *.
  set (n := Z.of_nat (length d)) in *.
  assert (Hafter : forall s, total + n <= limit ->
    exists chunks t e,
      match err with
      | Some e => if errors_Is e EOF then ret (total + n, None) else ret (total + n, Some e)
      | None => stream_loop limit writeChunk rest (total + n)
      end s = ((t, e), fold_left record chunks s)
      /\ Forall (fun d => 0 < Z.of_nat (length d) <= chunk) chunks
      /\ d ++ concat chunks `prefix_of` (content ((d, err) :: rest)).1
      /\ total + n + Z.of_nat (length (concat chunks)) <= limit
      /\ (e = None -> content ((d, err) :: rest) = (d ++ concat chunks, None)
                      /\ t = total + n + Z.of_nat (length (concat chunks)))
      /\ ((content ((d, err) :: rest)).2 = None ->
          total + Z.of_nat (length (content ((d, err) :: rest)).1) <= limit -> e = None)).
  { intros s' Hle. destruct err as [e|]; cbn [content].
    - exists [], (total + n), (if errors_Is e EOF then None else Some e). cbn. rewrite app_nil_r.
      destruct (errors_Is e EOF) eqn:HI.
      + rewrite (He e) by done. cbn. split_and!; auto with lia.
      + rewrite bool_decide_false by (intros ->; done). cbn. split_and!; auto with lia; done.
    - destruct (IH (total + n) s' Hcr Hpr ltac:(lia)) as (cs & t & e & Hr & Hf & Hpre & Hl & Hn & Hok).
      exists cs, t, e. destruct (content rest) as [m er]. cbn [fst snd] in *. split_and!; try done.
      + by apply prefix_app.
      + intros E. destruct (Hn E) as [[= -> ->] ->]. done.
      + rewrite length_app. intros E Hlen. apply Hok; [done | lia]. }
  destruct (Z.ltb_spec 0 n) as [Hn|Hn].
  - rewrite int64_id by (unfold min_int64; lia). destruct (Z.ltb_spec limit (total + n)) as [Hl|Hl].
    + exists [], (total + n), (Some (too_large limit)). cbn. split_and!; try done; try lia.
      * apply prefix_nil.
      * intros _ Hlen. exfalso. destruct err; [|destruct (content rest)]; cbn in Hlen;
          rewrite ?length_app in Hlen; lia.
    + destruct (Hafter (record s d) Hl) as (cs & t & e & Hr & Hf & Hpre & Hle & Hnone & Hok).
      exists (d :: cs), t, e. unfold bind. rewrite accepts. cbn [concat fold_left].
      rewrite length_app. split_and!; auto; try lia.
      intros E. destruct (Hnone E) as [-> ->]. split; [done | lia].
  - destruct d as [|? ?]; [|cbn in n; lia]. cbn in n. subst n. rewrite Z.add_0_r in Hafter.
    destruct (Hafter s ltac:(lia)) as (cs & t & e & H). by exists cs, t, e.
Qed.
End accepted.

Definition stream_chunk (chunkBytes : Z) : Z :=
  if chunkBytes <=? 0 then defaultStreamChunkBytes else chunkBytes.

Lemma stream_chunk_pos chunkBytes : 0 < stream_chunk chunkBytes.
Proof. unfold stream_chunk. destruct (Z.leb_spec chunkBytes 0); [done | lia]. Qed.

Lemma stream_body_spec writeChunk record body limit chunkBytes s :
  (forall d s, writeChunk d s = (Ok tt, record s d)) ->
  plain_eof body -> response_limit limit + stream_chunk chunkBytes <= max_int64 ->
  exists chunks t e,
    streamLimitedResponseBody body limit chunkBytes writeChunk s = ((t, e), fold_left record chunks s)
    /\ Forall (fun d => 0 < Z.of_nat (length d) <= stream_chunk chunkBytes) chunks
    /\ concat chunks `prefix_of` (content body).1
    /\ Z.of_nat (length (concat chunks)) <= response_limit limit
    /\ (e = None -> content body = (concat chunks, None) /\ t = Z.of_nat (length (concat chunks)))
    /\ ((content body).2 = None -> Z.of_nat (length (content body).1) <= response_limit limit -> e = None).
Proof.
  intros Hw Hp Hr. pose proof (stream_chunk_pos chunkBytes) as Hc.
  pose proof (response_limit_pos limit) as Hl.
  unfold streamLimitedResponseBody. fold (response_limit limit) (stream_chunk chunkBytes).
  destruct (reads_spec (Z.to_nat (stream_chunk chunkBytes)) body ltac:(lia) Hp) as [Hf Hpe].
  rewrite <- (content_reads (Z.to_nat (stream_chunk chunkBytes)) body) by lia.
  eapply stream_loop_spec; eauto; [|lia].
  eapply Forall_impl; [exact Hf|]. cbn. intros. lia.
Qed.

(** C29: Streaming a local response and reading it whole accept the same
    responses: whatever the sizes of the reads the body gives, when the
    gateway connection takes every chunk the stream ends without an error
    exactly when the whole-body read succeeds, and then the chunks sent,
    joined, are the body that read returns and their total is the size
    reported; otherwise a prefix of the body has been sent.  No chunk is
    empty or larger than the configured chunk, and never more than the
    response limit is sent. *)
Theorem forward_modes_agree writeChunk record body limit chunkBytes s :
  (forall d s, writeChunk d s = (Ok tt, record s d)) ->
  plain_eof body -> response_limit limit + stream_chunk chunkBytes <= max_int64 ->
  exists chunks total err,
    streamLimitedResponseBody body limit chunkBytes writeChunk s = ((total, err), fold_left record chunks s)
    /\ Forall (fun d => 0 < Z.of_nat (length d) <= stream_chunk chunkBytes) chunks
    /\ concat chunks `prefix_of` (content body).1
    /\ Z.of_nat (length (concat chunks)) <= response_limit limit
    /\ match readLimitedResponseBody body limit with
       | Ok data => err = None /\ concat chunks = data /\ total = Z.of_nat (length data)
       | Err _ => err <> None
       end.
Proof.
  intros Hw Hp Hr.
  destruct (stream_body_spec writeChunk record body limit chunkBytes s Hw Hp Hr)
    as (cs & t & e & Hs & Hf & Hpre & Hl & Hnone & Hok).
  exists cs, t, e. split_and!; try done.
  pose proof (fun d => readLimitedResponseBody_spec body limit d Hp
                ltac:(pose proof (stream_chunk_pos chunkBytes); lia)) as Hwhole.
  destruct (readLimitedResponseBody body limit) as [data|er].
  - destruct (proj1 (Hwhole data) eq_refl) as [Hc Hlen]. rewrite Hc in *. cbn in *.
    destruct Hnone as [[= ->] ->]; [by apply Hok|]. rewrite Hok; auto.
  - intros E. destruct (Hnone E) as [Hc _]. by discriminate (proj2 (Hwhole (concat cs)) (conj Hc Hl)).
Qed.

Module Witness_forward.
Definition writeChunk (d : bytes) : A (result unit) := fun s =>
  (Ok tt, add_sent (Sent_Body "" "" "" d) (Ok tt) 1 s).
Definition body : reader := [(list_ascii_of_string "hello ", None); (list_ascii_of_string "world", Some EOF)].
Lemma forward_modes_agree_witness : exists chunks total err,
  streamLimitedResponseBody body 11 4 writeChunk agent0 = ((total, err),
    fold_left (fun s d => add_sent (Sent_Body "" "" "" d) (Ok tt) 1 s)
      chunks agent0)
  /\ Forall (fun d => 0 < Z.of_nat (length d) <= 4) chunks
  /\ concat chunks `prefix_of` (content body).1 /\ Z.of_nat (length (concat chunks)) <= 11
  /\ err = None /\ concat chunks = list_ascii_of_string "hello world" /\ total = 11.
Proof.
  apply (forward_modes_agree writeChunk
    (fun s d => add_sent (Sent_Body "" "" "" d) (Ok tt) 1 s) body 11 4).
  - done.
  - repeat constructor; cbn; congruence.
  - vm_compute; congruence.
Defined.
End Witness_forward.

(** With the largest limit a Go [int64] holds, [limit+1] wraps around and the
    whole-body read takes nothing: the response is forwarded empty. *)
Lemma unlimited_response_is_empty body : readLimitedResponseBody body max_int64 = Ok [].
Proof.
  unfold readLimitedResponseBody. rewrite (proj2 (Z.leb_gt max_int64 0)) by done.
  change (int64 (max_int64 + 1)) with (-2 ^ 63). by destruct body.
Qed.
