(* ===== verification/Reconnect.v ===== *)
(** agent/internal/agent/reconnect.go and [Runner.Run] of runner.go: when the
    agent gives up and how long it waits before it dials the gateway again.

    One round of [Run] is what [runOnce] returned, whether the context ended,
    and the draw of the jitter; durations are 64-bit and [delay *= 2] wraps. *)
From S2P Require Import Prelude GoStrings Messages Wire AgentConfig AgentForward.
From Stdlib Require Import ZArith Lia List String Ascii Bool.
From stdpp Require Import base strings list.

Open Scope Z_scope.

(** * Permanent errors *)
Definition permanentError : string := "permanentError".
Definition permanent (err : error) : error := Typed permanentError err.
Definition isPermanent (err : error) : bool := errors_As err permanentError.

(** * The delay *)

(** [for i := 0; i < attempt && delay < max; i++], with [n] iterations left. *)
Fixpoint backoff (n : nat) (max delay : Duration) : Duration :=
  match n with
  | O => delay
  | S n' =>
      if delay <? max then
        let delay := int64 (delay * 2) in
        backoff n' max (if max <? delay then max else delay)
      else delay
  end.

(** The bounds the function works with. *)
Definition delay_initial (initial : Duration) : Duration :=
  if initial <=? 0 then defaultReconnectInitialDelay else initial.
Definition delay_max (initial max : Duration) : Duration :=
  let initial := delay_initial initial in
  let max := if max <=? 0 then initial else max in
  if max <? initial then initial else max.

(** [jitterFunc] may panic; [None] is a panic. *)
Definition reconnectDelay (attempt : Z) (initial max jitter : Duration)
    (jitterFunc : option (Duration -> option Duration)) : option Duration :=
  let max := delay_max initial max in
  let initial := delay_initial initial in
  let attempt := if attempt <? 0 then 0 else attempt in
  let delay := backoff (Z.to_nat attempt) max initial in
  match jitterFunc with
  | None => Some delay
  | Some jitterFunc =>
      if jitter <=? 0 then Some delay else
      let jitter := if delay <? jitter then delay else jitter in
      j ← jitterFunc jitter;
      let delay := int64 (delay + j) in
      Some (if max <? delay then max else delay)
  end.

(** [rand.Int(rand.Reader, limit+1)]: it panics for a bound that is not
    positive; [draw] is its answer, [None] an error of the reader. *)
Definition randomReconnectJitter (draw : Z -> option Z) (limit : Duration) : option Duration :=
  if limit <=? 0 then Some 0 else
  let bound := int64 (limit + 1) in
  if bound <=? 0 then None
  else Some (match draw bound with None => 0 | Some n => n end).

(** * The loop of [Run] *)

(** One round: the answer of [runOnce], [ctx.Err() != nil] after it, the
    random draw, and whether the context ended during the wait. *)
Record round := mkRound {
  rd_connected : bool;
  rd_err : option error;
  rd_ctx_done : bool;
  rd_draw : Z -> option Z;
  rd_wait_interrupted : bool;
}.

Inductive exit : Type :=
| Running                       (* no more rounds to see *)
| Panicked
| Exited (err : option error).

(** What a round shows on the output: [writeReconnectOutput]. *)
Record notice := mkNotice { nt_delay : Duration; nt_err : error; nt_disconnected : bool }.

Fixpoint run_loop (cfg : Config) (rounds : list round) (attempt : Z) (connectedBefore : bool)
    : exit * list notice :=
  match rounds with
  | [] => (Running, [])
  | rd :: rest =>
      let connectedBefore := if rd_connected rd then true else connectedBefore in
      let attempt := if rd_connected rd then 0 else attempt in
      match rd_err rd with
      | None => (Exited None, [])
      | Some err =>
          if rd_ctx_done rd then (Exited None, [])
          else if isPermanent err then (Exited (Some err), [])
          else
            match reconnectDelay attempt (ReconnectInitialDelay cfg) (ReconnectMaxDelay cfg)
                    (ReconnectJitter cfg) (Some (randomReconnectJitter (rd_draw rd))) with
            | None => (Panicked, [])
            | Some delay =>
                let attempt := int64 (attempt + 1) in
                let shown := mkNotice delay err connectedBefore in
                if rd_wait_interrupted rd then (Exited None, [shown])
                else let '(e, ns) := run_loop cfg rest attempt connectedBefore in (e, shown :: ns)
            end
      end
  end.

Definition agentWebSocketPath : string := "/agent/connect".

Definition BuildWebSocketURL {GU : GoURL} (serverURL : string) : result string :=
  match url_Parse serverURL with
  | Err e => Err (Wrap "parse server URL" e)
  | Ok parsed =>
      try scheme <-
        (if String.eqb (Scheme parsed) "http" then Ok "ws"%string
         else if String.eqb (Scheme parsed) "https" then Ok "wss"%string
         else if String.eqb (Scheme parsed) "ws" || String.eqb (Scheme parsed) "wss" then Ok (Scheme parsed)
         else Err (Errorf "server URL must use http, https, ws, or wss"));
      if String.eqb (url_Host parsed) "" then Err (Errorf "server URL must include host")
      else Ok (url_String (mkURL scheme (User parsed) (url_Host parsed)
                             (joinURLPath (url_Path parsed) agentWebSocketPath) "" "" (url_Other parsed)))
  end.

Definition Run {GU : GoURL} (cfg : Config) (rounds : string -> list round) : exit * list notice :=
  match BuildWebSocketURL (ServerURL cfg) with
  | Err e => (Exited (Some e), [])
  | Ok wsURL => run_loop cfg (rounds wsURL) 0 false
  end.

(** * Properties *)

(** Below [2 ^ 62] a doubling does not wrap. *)
Lemma double_id d : 0 <= d < 2 ^ 62 -> int64 (d * 2) = d * 2.
Proof. intros H. apply int64_id. unfold min_int64, max_int64. lia. Qed.

(** The loop is the capped geometric sequence. *)
Lemma backoff_closed n max delay :
  0 < delay <= max -> max < 2 ^ 62 -> backoff n max delay = Z.min max (delay * 2 ^ Z.of_nat n).
Proof.
  revert delay. induction n as [|n IH]; intros delay Hd Hm; cbn [backoff].
  { rewrite Z.mul_1_r. lia. }
  assert (Hp : 0 < 2 ^ Z.of_nat n) by (apply Z.pow_pos_nonneg; lia).
  assert (Hs : 2 ^ Z.of_nat (S n) = 2 * 2 ^ Z.of_nat n)
    by (rewrite Nat2Z.inj_succ, Z.pow_succ_r by lia; done).
  destruct (Z.ltb_spec delay max) as [Hlt|Hge].
  - rewrite double_id by lia. destruct (Z.ltb_spec max (delay * 2)).
    + rewrite IH by lia. nia.
    + rewrite IH by lia. f_equal. lia.
  - assert (delay = max) as -> by lia. nia.
Qed.

(** The loop stops by itself: sixty-two doublings reach any cap. *)
Lemma backoff_stops n max delay :
  0 < delay <= max -> max < 2 ^ 62 -> backoff (62 + n) max delay = backoff 62 max delay.
Proof.
  intros Hd Hm. rewrite !backoff_closed by done. rewrite !Z.min_l; [done|..].
  - change (Z.of_nat 62) with 62. nia.
  - assert (2 ^ 62 <= 2 ^ Z.of_nat (62 + n)) by (apply Z.pow_le_mono_r; lia). nia.
Qed.

Lemma delay_bounds initial max : 0 < delay_initial initial <= delay_max initial max.
Proof.
  unfold delay_max, delay_initial, defaultReconnectInitialDelay, millisecond.
  repeat case_match; to_prop; lia.
Qed.

(** What the jitter may add: nothing, or a number up to its limit. *)
Definition jitter_ok (f : Duration -> option Duration) : Prop :=
  forall limit, 0 < limit < 2 ^ 62 -> exists j, f limit = Some j /\ 0 <= j <= limit.

Definition draw_ok (draw : Z -> option Z) : Prop :=
  forall bound n, 0 < bound -> draw bound = Some n -> 0 <= n < bound.

Lemma randomReconnectJitter_ok draw : draw_ok draw -> jitter_ok (randomReconnectJitter draw).
Proof.
  intros Hd limit Hl. unfold randomReconnectJitter.
  rewrite (proj2 (Z.leb_gt _ _)) by lia. rewrite int64_id by (unfold min_int64, max_int64; lia).
  rewrite (proj2 (Z.leb_gt _ _)) by lia. eexists. split; [done|].
  destruct (draw (limit + 1)) as [n|] eqn:E; [|lia]. apply Hd in E; lia.
Qed.

(** Below a cap of 2 ^ 62 nanoseconds the delay is the closed form of an
    exponential back-off: the initial delay doubled once per failed attempt and
    capped, plus a jitter between zero and the smaller of the configured jitter
    and that delay, capped again; it never overflows and the jitter source is
    never asked for an impossible range. *)
Lemma reconnectDelay_closed attempt initial max jitter f :
  delay_max initial max < 2 ^ 62 -> jitter_ok f ->
  let m := delay_max initial max in
  let base := Z.min m (delay_initial initial * 2 ^ Z.max 0 attempt) in
  exists j, 0 <= j <= Z.min (Z.max 0 jitter) base /\
    reconnectDelay attempt initial max jitter (Some f) = Some (Z.min m (base + j)).
Proof.
  intros Hm Hf m base. pose proof (delay_bounds initial max) as Hb. fold m in Hm, Hb.
  unfold reconnectDelay. fold m.
  assert (Ha : (if attempt <? 0 then 0 else attempt) = Z.max 0 attempt) by (case_match; to_prop; lia).
  rewrite Ha. rewrite backoff_closed, Z2Nat.id by lia. fold base.
  assert (Hbase : 0 < base <= m).
  { subst base. assert (0 < 2 ^ Z.max 0 attempt) by (apply Z.pow_pos_nonneg; lia). split; [|lia].
    apply Z.min_glb_lt; nia. }
  clearbody base. destruct (Z.leb_spec jitter 0) as [Hj|Hj].
  { exists 0. split; [lia|]. by rewrite Z.add_0_r, (Z.min_r m base) by lia. }
  set (l := if base <? jitter then base else jitter).
  assert (Hl : l = Z.min jitter base) by (subst l; destruct (Z.ltb_spec base jitter); lia).
  clearbody l.
  destruct (Hf l) as (j & -> & Hr); [lia|]. exists j. split; [lia|]. cbn.
  rewrite int64_id by (unfold min_int64, max_int64; lia). f_equal.
  destruct (Z.ltb_spec m (base + j)); lia.
Qed.

(** Beyond that cap a doubling wraps, and the agent dials again at once. *)
Lemma reconnect_delay_overflow :
  reconnectDelay 70 (500 * millisecond) max_int64 0 None = Some 0.
Proof. by vm_compute. Qed.

(** When a round ends the agent, and with what: a clean close or the end of
    its context stop it without an error, a permanent error stops it with that
    error, anything else is tried again. *)
Definition stops (rd : round) : option (option error) :=
  match rd_err rd with
  | None => Some None
  | Some err =>
      if rd_ctx_done rd then Some None
      else if isPermanent err then Some (Some err)
      else if rd_wait_interrupted rd then Some None else None
  end.
Fixpoint first_stop (rounds : list round) : exit :=
  match rounds with
  | [] => Running
  | rd :: rest => match stops rd with Some err => Exited err | None => first_stop rest end
  end.

(** Failed attempts since the last connection, at each round. *)
Fixpoint attempts (a : Z) (rounds : list round) : list Z :=
  match rounds with
  | [] => []
  | rd :: rest => let a := if rd_connected rd then 0 else a in a :: attempts (a + 1) rest
  end.

(** A delay of the back-off for [a] failed attempts. *)
Definition backs_off (cfg : Config) (a : Z) (d : Duration) : Prop :=
  let base := Z.min (ReconnectMaxDelay cfg) (ReconnectInitialDelay cfg * 2 ^ a) in
  base <= d <= Z.min (ReconnectMaxDelay cfg) (base + ReconnectJitter cfg).

Lemma run_loop_spec cfg rounds a before :
  usable cfg -> ReconnectMaxDelay cfg < 2 ^ 62 ->
  Forall (fun rd => draw_ok (rd_draw rd)) rounds ->
  0 <= a -> a + Z.of_nat (length rounds) <= max_int64 ->
  fst (run_loop cfg rounds a before) = first_stop rounds /\
  forall k n, snd (run_loop cfg rounds a before) !! k = Some n ->
    exists c, attempts a rounds !! k = Some c /\ backs_off cfg c (nt_delay n).
Proof.
  intros (_ & _ & _ & _ & _ & _ & _ & _ & _ & _ & Hi & Hj) Hm.
  revert a before. induction rounds as [|rd rest IH]; intros a before HF Ha Hlen.
  { split; [done|]. intros k n H. by destruct k. }
  inv HF. cbn [run_loop first_stop attempts length] in *. unfold stops.
  destruct (rd_err rd) as [err|]; [|split; [done|intros k n H; by destruct k]].
  destruct (rd_ctx_done rd); [split; [done|intros k n H; by destruct k]|].
  destruct (isPermanent err); [split; [done|intros k n H; by destruct k]|].
  set (a' := if rd_connected rd then 0 else a). assert (Ha' : 0 <= a' <= a) by (subst a'; case_match; lia).
  set (before' := if rd_connected rd then true else before).
  assert (Hdm : delay_max (ReconnectInitialDelay cfg) (ReconnectMaxDelay cfg) = ReconnectMaxDelay cfg
                /\ delay_initial (ReconnectInitialDelay cfg) = ReconnectInitialDelay cfg).
  { unfold delay_max, delay_initial. repeat case_match; to_prop; lia. }
  destruct Hdm as [Hdm Hdi].
  destruct (reconnectDelay_closed a' (ReconnectInitialDelay cfg) (ReconnectMaxDelay cfg) (ReconnectJitter cfg)
    (randomReconnectJitter (rd_draw rd))) as (j & Hjr & ->); [by rewrite Hdm|by apply randomReconnectJitter_ok|].
  rewrite Hdm, Hdi in *. rewrite Z.max_r in * by lia.
  set (base := Z.min (ReconnectMaxDelay cfg) (ReconnectInitialDelay cfg * 2 ^ a')) in *.
  assert (Hhead : backs_off cfg a' (Z.min (ReconnectMaxDelay cfg) (base + j))).
  { unfold backs_off. fold base. assert (base <= ReconnectMaxDelay cfg) by lia. lia. }
  destruct (rd_wait_interrupted rd).
  - split; [done|]. intros [|k] n Hk; cbn in Hk; [|by destruct k].
    injection Hk as <-. by exists a'.
  - rewrite int64_id by (unfold min_int64, max_int64 in *; lia).
    destruct (IH (a' + 1) before') as [E Hn]; [done|lia|lia|]. destruct (run_loop cfg rest _ _) as [e ns]. cbn in *.
    split; [done|]. intros [|k] n Hk; cbn in Hk; [injection Hk as <-; by exists a'|by apply Hn].
Qed.


(** Two refused dials, a connection that breaks, and a rejected token. *)
Definition sample_rounds : list round :=
  let lost := Errorf "read gateway message: EOF" in
  let refused := Errorf "connect to gateway ws://localhost:8081/agent/connect: connection refused" in
  let rejected := permanent (Errorf "authentication failed: invalid token") in
  map (fun '(connected, err) => mkRound connected (Some err) false (fun _ => Some 0) false)
    [(false, refused); (false, refused); (true, lost); (false, rejected)].

