(* ===== verification/AgentHandlers.v ===== *)
(** agent/internal/agent/runner.go and wsforward.go: what the agent does for
    one stream of the gateway, from the first message of the stream to the
    line it prints for the user.

    A handler runs in a goroutine of its own.  What it cannot decide is an
    argument: the answers of the local service, the outcome of the writes to
    the gateway, what its [select]s see, whether its context has ended, and
    the readings of the clock. *)
From S2P Require Import Prelude GoStrings Messages Wire StreamDeadline AgentConfig AgentForward.
From Stdlib Require Import ZArith Lia List String Ascii Bool.
From stdpp Require Import base gmap strings list.

Open Scope Z_scope.
Open Scope agent_scope.

Definition StatusBadGateway : Z := 502.

(** * The log and the output *)
Definition requestDisplayPath (path query : string) : string :=
  if String.eqb (TrimSpace query) "" then path else path +:+ "?" +:+ query.

(** [duration.Milliseconds()]: the division truncates. *)
Definition Milliseconds (d : Duration) : Z := Z.quot d millisecond.

Definition logLocalRequestFields (streamID tunnelID method path query : string) (status : Z) (outcome : string)
    (requestBytes responseBytes : Z) (duration : Duration) (err : option error) : A unit := fun s =>
  (tt, mkAgentSt (sent s) (conn_writes s) (local_out s) (output s)
         (logged s ++ [mkRequestLine streamID tunnelID method (requestDisplayPath path query) status outcome
            requestBytes responseBytes (Milliseconds duration) err
            (match err with Some _ => true | None => 500 <=? status end)])).

Definition logLocalRequest (streamID tunnelID : string) (req : Request) (status : Z) (outcome : string)
    (responseBytes : Z) (duration : Duration) (err : option error) : A unit :=
  logLocalRequestFields streamID tunnelID (rq_Method req) (rq_Path req) (rq_Query req) status outcome
    (Z.of_nat (length (rq_Body req))) responseBytes duration err.

Definition print_line (line : string) : A unit := fun s =>
  (tt, mkAgentSt (sent s) (conn_writes s) (local_out s) (output s ++ [line]) (logged s)).

Definition writeRequestOutputFields (method path query : string) (status : Z) (duration : Duration)
    (err : option error) : A unit :=
  match err with
  | Some e =>
      print_line (method +:+ " " +:+ requestDisplayPath path query +:+ " -> error " +:+
                  Itoa (Milliseconds duration) +:+ "ms: " +:+ error_message e)
  | None =>
      print_line (method +:+ " " +:+ requestDisplayPath path query +:+ " -> " +:+ Itoa status +:+ " " +:+
                  Itoa (Milliseconds duration) +:+ "ms")
  end.
Definition writeRequestOutput (req : Request) (status : Z) (duration : Duration) (err : option error) : A unit :=
  writeRequestOutputFields (rq_Method req) (rq_Path req) (rq_Query req) status duration err.
Definition writeStreamRequestOutput (req : RequestStart) (status : Z) (duration : Duration)
    (err : option error) : A unit :=
  writeRequestOutputFields (rs_Method req) (rs_Path req) (rs_Query req) status duration err.

Definition writeWSOutput (path query : string) (duration : Duration) (err : option error) : A unit :=
  match err with
  | Some e =>
      print_line ("WS " +:+ requestDisplayPath path query +:+ " -> error " +:+ Itoa (Milliseconds duration) +:+
                  "ms: " +:+ error_message e)
  | None =>
      print_line ("WS " +:+ requestDisplayPath path query +:+ " -> completed " +:+
                  Itoa (Milliseconds duration) +:+ "ms")
  end.

(** * The request body of a stream *)
Record requestBodyChunk := mkRequestBodyChunk { ck_data : bytes; ck_end : bool }.

(** What the goroutine that fills the pipe sees in its [select]. *)
Inductive chunk_event : Type :=
| ChunkReceived (chunk : requestBodyChunk)
| ChunkCtxDone (err : error).

(** The pipe's reader, whether it is still open, and [requestBytes]. *)
Fixpoint requestBodyFromChunks (events : list chunk_event) : reader * bool * Z :=
  match events with
  | [] => ([], true, 0)
  | ChunkCtxDone err :: _ => ([([], Some err)], false, 0)
  | ChunkReceived chunk :: rest =>
      if ck_end chunk then ([([], Some EOF)], false, 0)
      else
        match ck_data chunk with
        | [] => requestBodyFromChunks rest
        | data =>
            let '(body, open, requestBytes) := requestBodyFromChunks rest in
            ((data, None) :: body, open, Z.of_nat (length data) + requestBytes)
        end
  end.

(** * Handlers of HTTP streams *)
Section handlers.
Context {GU : GoURL} {JE : JSONCodec Envelope} {JReq : JSONCodec Request} {JResp : JSONCodec Response}
  {JRespStart : JSONCodec ResponseStart} {JErr : JSONCodec ErrorPayload} {JCancel : JSONCodec StreamCancel}
  {JAccept : JSONCodec Accept} {JClose : JSONCodec Close}.
Context (cfg : Config) (client : Client).
Context (conn_Write : nat -> MessageType * bytes -> option error).
(** [time.Since(started)] where the output line is written and where the
    handler returns. *)
Context (shown returned : Duration).

(** [http.stream.error] for a local request that failed: the outcome and the
    error the handler returns. *)
Definition send_stream_error (streamID tunnelID : string) (err : error) (print : A unit)
    : A (string * option error) :=
  match NewStream TypeHTTPStreamError streamID tunnelID
          (Some (mkErrorPayload "local_request_failed" (error_message err))) with
  | Err buildErr => ret ("stream_error_build_failed"%string, Some buildErr)
  | Ok streamErr =>
      r <- write conn_Write streamErr ;;
      match r with
      | Err writeErr => ret ("stream_error_write_failed"%string, Some (Wrap "write stream error" writeErr))
      | Ok _ => print ;;; ret ("local_request_failed"%string, Some err)
      end
  end.

(** [ctx_err] is [ctx.Err()] once the local request has failed. *)
Definition handleHTTPRequest (tunnelID : string) (env : Envelope) (ctx_err : option error)
    : A (option error) :=
  r <- match DecodePayload Request env with
       | Err e => ret (mkRequest "" "" "" ∅ [], 0, "decode_failed"%string, 0, Some e)
       | Ok req =>
           match ForwardHTTPRequest client (LocalTarget cfg) req (MaxResponseBodyBytes cfg) with
           | Err err =>
               match ctx_err with
               | Some e =>
                   writeRequestOutput req 0 shown (Some e) ;;;
                   ret (req, 0, "stream_canceled"%string, 0, Some e)
               | None =>
                   o <- send_stream_error (env_StreamID env) tunnelID err
                          (writeRequestOutput req 0 shown (Some err)) ;;
                   ret (req, 0, fst o, 0, snd o)
               end
           | Ok resp =>
               let status := rp_Status resp in
               let responseBytes := Z.of_nat (length (rp_Body resp)) in
               match NewStream TypeHTTPResponse (env_StreamID env) tunnelID (Some resp) with
               | Err e => ret (req, status, "response_build_failed"%string, responseBytes, Some e)
               | Ok response =>
                   w <- write conn_Write response ;;
                   match w with
                   | Err e =>
                       ret (req, status, "response_write_failed"%string, responseBytes,
                            Some (Wrap "write http response" e))
                   | Ok _ =>
                       writeRequestOutput req (rp_Status resp) shown None ;;;
                       ret (req, status, "completed"%string, responseBytes, None)
                   end
               end
           end
       end ;;
  let '(req, status, outcome, responseBytes, err) := r in
  logLocalRequest (env_StreamID env) tunnelID req status outcome responseBytes returned err ;;;
  ret err.

Definition writeResponseStart (tunnelID : string) (env : Envelope) (resp : ResponseStart) : A (result unit) :=
  let resp := if rps_Status resp <=? 0 then mkResponseStart StatusBadGateway (rps_Header resp) else resp in
  match NewStream TypeHTTPResponseStart (env_StreamID env) tunnelID (Some resp) with
  | Err e => ret (Err e)
  | Ok start => write conn_Write start
  end.
Definition writeResponseBody (tunnelID : string) (env : Envelope) (chunk : bytes) : A (result unit) :=
  writeBinaryBody conn_Write TypeHTTPResponseBody (env_StreamID env) tunnelID chunk.

(** [chunks] is what the body's goroutine sees while the handler runs. *)
Definition handleHTTPStream (tunnelID : string) (env : Envelope) (req : RequestStart)
    (chunks : list chunk_event) (ctx_err : option error) : A (option error) :=
  let '(body, open, requestBytes) := requestBodyFromChunks chunks in
  f <- ForwardHTTPStream client (LocalTarget cfg) req body open (MaxResponseBodyBytes cfg)
         (StreamChunkBytes cfg) (writeResponseStart tunnelID env) (writeResponseBody tunnelID env) ;;
  let '(status, responseBytes, err) := f in
  r <- match err with
       | Some err =>
           match ctx_err with
           | Some e =>
               writeStreamRequestOutput req 0 shown (Some e) ;;;
               ret ("stream_canceled"%string, Some e)
           | None =>
               send_stream_error (env_StreamID env) tunnelID err
                 (writeStreamRequestOutput req 0 shown (Some err))
           end
       | None =>
           match NewStream (T := unit) TypeHTTPResponseEnd (env_StreamID env) tunnelID None with
           | Err e => ret ("response_end_build_failed"%string, Some e)
           | Ok end_ =>
               w <- write conn_Write end_ ;;
               match w with
               | Err e => ret ("response_end_write_failed"%string, Some (Wrap "write response end" e))
               | Ok _ =>
                   writeStreamRequestOutput req status shown None ;;;
                   ret ("completed"%string, None)
               end
           end
       end ;;
  let '(outcome, err) := r in
  logLocalRequestFields (env_StreamID env) tunnelID (rs_Method req) (rs_Path req) (rs_Query req) status
    outcome requestBytes responseBytes returned err ;;;
  ret err.

(** * WebSocket streams *)
Definition relayOutcome (first second : option error) : option error :=
  match first, second with
  | None, _ | _, None => None
  | Some e, Some _ => Some e
  end.

Definition sendWSError (tunnelID streamID code message : string) : A unit :=
  match NewStream TypeWSError streamID tunnelID (Some (mkErrorPayload code message)) with
  | Err _ => ret tt
  | Ok env => _ <- write conn_Write env ;; ret tt
  end.

Definition closeOrCancelForLocalReadError (tunnelID streamID : string) (err : error) (closeStatus : Z)
    : A (option error) :=
  if negb (closeStatus =? -1) then
    match NewStream TypeWSClose streamID tunnelID (Some (mkClose closeStatus "")) with
    | Err _ => ret None
    | Ok closeEnv => _ <- write conn_Write closeEnv ;; ret None
    end
  else
    match NewStream TypeWSCancel streamID tunnelID (Some (mkStreamCancel "local websocket connection failed")) with
    | Err _ => ret (Some err)
    | Ok cancelEnv => _ <- write conn_Write cancelEnv ;; ret (Some err)
    end.

(** What [localConn.Read] returns: a message, or an error with
    [websocket.CloseStatus(err)] and, once the relay's context has ended,
    [ctx.Err()]. *)
Inductive local_read : Type :=
| LocalRead (typ : MessageType) (data : bytes)
| LocalReadError (err : error) (closeStatus : Z) (ctx_err : option error).

(** What the [select] of the other direction sees. *)
Inductive inbound : Type :=
| InboundCtxDone (err : error)
| InboundClosed                       (* the channel is closed *)
| InboundMessage (msg : Message).

(** One turn of a pump's loop: the bytes it counted, and what the pump
    returns when it ends with this turn. *)
Definition pumpLocalToGateway_turn (tunnelID streamID : string) (r : local_read)
    : A (Z * option (option error)) :=
  match r with
  | LocalReadError err closeStatus ctx_err =>
      match ctx_err with
      | Some e => ret (0, Some (Some e))
      | None => o <- closeOrCancelForLocalReadError tunnelID streamID err closeStatus ;; ret (0, Some o)
      end
  | LocalRead msgType data =>
      let frameType := match msgType with MessageText => TypeWSMessageText | _ => TypeWSMessageBinary end in
      w <- writeBinaryBody conn_Write frameType streamID tunnelID data ;;
      ret (Z.of_nat (length data), match w with Err e => Some (Some e) | Ok _ => None end)
  end.

(** [localConn.Write] of the n-th message. *)
Context (local_Write : nat -> MessageType * bytes -> option error).

Definition is_message (w : local_write) : bool := match w with LocalMessage _ _ => true | _ => false end.
Definition put_local (w : local_write) : A unit := fun s =>
  (tt, mkAgentSt (sent s) (conn_writes s) (local_out s ++ [w]) (output s) (logged s)).
Definition write_local (typ : MessageType) (data : bytes) : A (option error) := fun s =>
  (local_Write (length (List.filter is_message (local_out s))) (typ, data),
   snd (put_local (LocalMessage typ data) s)).

Definition pumpGatewayToLocal_turn (i : inbound) : A (Z * option (option error)) :=
  match i with
  | InboundCtxDone e => ret (0, Some (Some e))
  | InboundClosed => ret (0, Some (Some (Errorf "gateway stream closed")))
  | InboundMessage msg =>
      let typ := env_Type (msg_Envelope msg) in
      if String.eqb typ TypeWSMessageText || String.eqb typ TypeWSMessageBinary then
        let wsType := if String.eqb typ TypeWSMessageText then MessageText else MessageBinary in
        err <- write_local wsType (msg_Body msg) ;;
        ret (Z.of_nat (length (msg_Body msg)), match err with Some e => Some (Some e) | None => None end)
      else if String.eqb typ TypeWSClose then
        match DecodePayload Close (msg_Envelope msg) with
        | Err e => ret (0, Some (Some e))
        | Ok payload => put_local (LocalClose (cl_Code payload) (cl_Reason payload)) ;;; ret (0, Some None)
        end
      else if String.eqb typ TypeWSCancel then
        let reason := match DecodePayload StreamCancel (msg_Envelope msg) with
                      | Ok payload => sc_Reason payload | Err _ => "" end in
        ret (0, Some (Some (Errorf ("gateway canceled the websocket stream: " +:+ reason))))
      else ret (0, Some (Some (Errorf ("unexpected websocket relay message " +:+ typ))))
  end.

(** The two pumps run at the same time: an event is a turn of one of them. *)
Inductive relay_event : Type :=
| FromLocal (r : local_read)
| FromGateway (i : inbound).

(** [relayWSStream]: each pump is running or has returned; [first] is what
    the first to return said.  [None]: a pump has not returned. *)
Fixpoint relay_loop (tunnelID streamID : string) (events : list relay_event)
    (localDone gatewayDone : bool) (toGateway toLocal : Z) (first : option (option error))
    : A (option (Z * Z * option error)) :=
  match events with
  | [] => ret None
  | FromLocal r :: rest =>
      if localDone then relay_loop tunnelID streamID rest localDone gatewayDone toGateway toLocal first
      else
        t <- pumpLocalToGateway_turn tunnelID streamID r ;;
        let '(n, o) := t in
        let toGateway := int64 (toGateway + n) in
        match o, first with
        | None, _ => relay_loop tunnelID streamID rest false gatewayDone toGateway toLocal first
        | Some e, None => relay_loop tunnelID streamID rest true gatewayDone toGateway toLocal (Some e)
        | Some second, Some first => ret (Some (toGateway, toLocal, relayOutcome first second))
        end
  | FromGateway i :: rest =>
      if gatewayDone then relay_loop tunnelID streamID rest localDone gatewayDone toGateway toLocal first
      else
        t <- pumpGatewayToLocal_turn i ;;
        let '(n, o) := t in
        let toLocal := int64 (toLocal + n) in
        match o, first with
        | None, _ => relay_loop tunnelID streamID rest localDone false toGateway toLocal first
        | Some e, None => relay_loop tunnelID streamID rest localDone true toGateway toLocal (Some e)
        | Some second, Some first => ret (Some (toGateway, toLocal, relayOutcome first second))
        end
  end.
Definition relayWSStream (tunnelID streamID : string) (events : list relay_event)
    : A (option (Z * Z * option error)) :=
  relay_loop tunnelID streamID events false false 0 0 None.

Definition logWSStream (streamID tunnelID path query : string) (requestBytes responseBytes : Z)
    (duration : Duration) (err : option error) : A unit :=
  let outcome := match err with Some _ => "local_websocket_failed"%string | None => "completed"%string end in
  logLocalRequestFields streamID tunnelID "WS" path query 0 outcome requestBytes responseBytes duration err ;;;
  writeWSOutput path query duration err.

(** [websocket.Dial] of the local service, which answers with the subprotocol
    chosen.  [None]: the relay is still running. *)
Definition handleWSStream (dial : string -> Header -> list string -> result string)
    (tunnelID : string) (env : Envelope) (open : Open) (events : list relay_event) : A (option unit) :=
  match buildLocalWSURL (LocalTarget cfg) (op_Path open) (op_Query open) with
  | Err err =>
      sendWSError tunnelID (env_StreamID env) "invalid_local_target" (error_message err) ;;;
      writeWSOutput (op_Path open) (op_Query open) shown (Some err) ;;;
      ret (Some tt)
  | Ok localURL =>
      match dial localURL (op_Header open) (op_Subprotocols open) with
      | Err dialErr =>
          sendWSError tunnelID (env_StreamID env) "local_dial_failed"
            ("dial local websocket endpoint: " +:+ error_message dialErr) ;;;
          writeWSOutput (op_Path open) (op_Query open) shown (Some dialErr) ;;;
          ret (Some tt)
      | Ok subprotocol =>
          match NewStream TypeWSAccept (env_StreamID env) tunnelID (Some (mkAccept subprotocol)) with
          | Err _ => ret (Some tt)
          | Ok accept =>
              w <- write conn_Write accept ;;
              match w with
              | Err _ => ret (Some tt)
              | Ok _ =>
                  o <- relayWSStream tunnelID (env_StreamID env) events ;;
                  match o with
                  | None => ret None
                  | Some (requestBytes, responseBytes, relayErr) =>
                      logWSStream (env_StreamID env) tunnelID (op_Path open) (op_Query open)
                        requestBytes responseBytes returned relayErr ;;;
                      ret (Some tt)
                  end
              end
          end
      end
  end.
End handlers.
