(* ===== verification/AgentStreams.v ===== *)
(** agent/internal/agent/runner.go: the streams an agent has open and the loop
    that reads the gateway connection.

    A stream object is shared by the table [activeStreams], by the goroutine
    that handles the stream and by the loop that fills its channel, so objects
    live in a heap ([objs]) and the table holds their addresses.  A channel is
    its queue; a send to a full channel keeps the loop waiting ([serving]).
    The loop and the goroutines interleave: [runner_step] is one step of one
    of them. *)
From S2P Require Import Prelude GoStrings Messages Wire AgentConfig AgentForward AgentHandlers.
From Stdlib Require Import ZArith Lia List String Ascii Bool.
From stdpp Require Import base gmap strings list.

Open Scope Z_scope.
Open Scope agent_scope.

(** * The state *)
Definition requestChunkBuffer : nat := 32.
Definition wsStreamPendingBuffer : nat := 64.

(** A channel that is [None] is nil; [canceled] is the stream's context. *)
Record activeStream := mkActiveStream {
  canceled : bool;
  chunks : option (list requestBodyChunk);
  wsInbound : option (list Message);
  done : bool;
}.
Definition newActiveStream (chunks : option (list requestBodyChunk)) : activeStream :=
  mkActiveStream false chunks None false.
Definition newActiveWSStream : activeStream := mkActiveStream false None (Some []) false.
Definition closeDone (s : activeStream) : activeStream :=
  mkActiveStream (canceled s) (chunks s) (wsInbound s) true.
Definition cancel (s : activeStream) : activeStream :=
  mkActiveStream true (chunks s) (wsInbound s) (done s).
Definition set_chunks (q : list requestBodyChunk) (s : activeStream) : activeStream :=
  mkActiveStream (canceled s) (Some q) (wsInbound s) (done s).
Definition set_wsInbound (q : list Message) (s : activeStream) : activeStream :=
  mkActiveStream (canceled s) (chunks s) (Some q) (done s).

(** What a goroutine was started for. *)
Inductive job : Type :=
| HTTPRequestJob (env : Envelope)
| HTTPStreamJob (env : Envelope) (req : RequestStart)
| WSJob (env : Envelope) (open : Open).

(** Where the read loop is. *)
Inductive serve_state : Type :=
| Reading
| SendingChunk (streamID : string) (oid : nat) (chunk : requestBodyChunk)
| SendingMessage (streamID : string) (oid : nat) (msg : Message)
| Returned (err : option error).

(** [running] is what [activeWG] counts: per goroutine, the address of its
    stream, the stream id it will remove and its job. *)
Record Runner := mkRunner {
  objs : gmap nat activeStream;
  activeStreams : gmap string nat;
  running : gmap nat (string * job);
  next_oid : nat;
  serving : serve_state;
  warned : list (string * string);          (* log lines: message and stream id *)
}.
Definition runner0 : Runner := mkRunner ∅ ∅ ∅ 0 Reading [].

Definition set_objs (v : gmap nat activeStream) (r : Runner) : Runner :=
  mkRunner v (activeStreams r) (running r) (next_oid r) (serving r) (warned r).
Definition set_serving (v : serve_state) (r : Runner) : Runner :=
  mkRunner (objs r) (activeStreams r) (running r) (next_oid r) v (warned r).
Definition warn (msg streamID : string) (r : Runner) : Runner :=
  mkRunner (objs r) (activeStreams r) (running r) (next_oid r) (serving r) (warned r ++ [(msg, streamID)]).

(** * The table *)
Definition addActiveStream (streamID : string) (oid : nat) (r : Runner) : Runner :=
  if String.eqb streamID "" then r
  else mkRunner (objs r) (<[streamID := oid]> (activeStreams r)) (running r) (next_oid r) (serving r) (warned r).

Definition cancelActiveStream (streamID : string) (r : Runner) : bool * Runner :=
  match activeStreams r !! streamID with
  | None => (false, r)
  | Some oid => (true, set_objs (alter (fun s => closeDone (cancel s)) oid (objs r)) r)
  end.

Definition removeActiveStream (streamID : string) (r : Runner) : Runner :=
  if String.eqb streamID "" then r
  else
    match activeStreams r !! streamID with
    | None => r
    | Some oid =>
        mkRunner (alter closeDone oid (objs r)) (delete streamID (activeStreams r))
          (running r) (next_oid r) (serving r) (warned r)
    end.

Definition stream_of (streamID : string) (r : Runner) : option (nat * activeStream) :=
  oid ← activeStreams r !! streamID; s ← objs r !! oid; Some (oid, s).

(** The lookup of a delivery; the [select] that follows is a step. *)
Definition deliverActiveStreamChunk (streamID : string) (chunk : requestBodyChunk) (warning : string)
    (r : Runner) : Runner :=
  match stream_of streamID r with
  | Some (oid, s) =>
      match chunks s with
      | None => warn warning streamID r
      | Some _ => set_serving (SendingChunk streamID oid chunk) r
      end
  | None => warn warning streamID r
  end.
Definition deliverActiveStreamMessage (streamID : string) (msg : Message) (r : Runner) : Runner :=
  match stream_of streamID r with
  | Some (oid, s) =>
      match wsInbound s with
      | None => warn "deliver ws message failed" streamID r
      | Some _ => set_serving (SendingMessage streamID oid msg) r
      end
  | None => warn "deliver ws message failed" streamID r
  end.

(** A stream object, its entry in the table and its goroutine. *)
Definition start_stream (streamID : string) (s : activeStream) (j : job) (r : Runner) : Runner :=
  let oid := next_oid r in
  let r := mkRunner (<[oid := s]> (objs r)) (activeStreams r) (running r) (S oid) (serving r) (warned r) in
  let r := addActiveStream streamID oid r in
  mkRunner (objs r) (activeStreams r) (<[oid := (streamID, j)]> (running r)) (next_oid r) (serving r) (warned r).

(** The end of a stream's goroutine: its deferred calls. *)
Definition finish_stream (oid : nat) (streamID : string) (r : Runner) : Runner :=
  let r := set_objs (alter cancel oid (objs r)) r in
  let r := removeActiveStream streamID r in
  mkRunner (objs r) (activeStreams r) (delete oid (running r)) (next_oid r) (serving r) (warned r).

(** * The read loop *)
Section serve.
Context {JE : JSONCodec Envelope} {JStart : JSONCodec RequestStart} {JChunk : JSONCodec BodyChunk}
  {JCancel : JSONCodec StreamCancel} {JOpen : JSONCodec Open}.
Context (cfg : Config) (conn_Write : nat -> MessageType * bytes -> option error).

(** The [switch] of [serve]. *)
Definition serve_message (msg : Message) (r : Runner) : A Runner :=
  let env := msg_Envelope msg in
  let typ := env_Type env in
  let sid := env_StreamID env in
  if String.eqb typ TypeHTTPRequest then
    ret (start_stream sid (newActiveStream None) (HTTPRequestJob env) r)
  else if String.eqb typ TypeHTTPRequestStart then
    match DecodePayload RequestStart env with
    | Err _ => ret (warn "decode request start failed" sid r)
    | Ok req => ret (start_stream sid (newActiveStream (Some [])) (HTTPStreamJob env req) r)
    end
  else if String.eqb typ TypeHTTPRequestBody then
    match (if msg_BinaryBody msg then Ok (msg_Body msg)
           else try payload <- DecodePayload BodyChunk env; Ok (bc_Data payload)) with
    | Err _ => ret (warn "decode request body failed" sid r)
    | Ok data =>
        if StreamChunkBytes cfg <? Z.of_nat (length data)
        then ret (snd (cancelActiveStream sid (warn "request body chunk too large" sid r)))
        else ret (deliverActiveStreamChunk sid (mkRequestBodyChunk data false) "deliver request body failed" r)
    end
  else if String.eqb typ TypeHTTPRequestEnd then
    ret (deliverActiveStreamChunk sid (mkRequestBodyChunk [] true) "deliver request end failed" r)
  else if String.eqb typ TypeHTTPStreamCancel then
    match DecodePayload StreamCancel env with
    | Err _ => ret (warn "decode stream cancel failed" sid r)
    | Ok _ =>
        let '(found, r) := cancelActiveStream sid r in
        ret (if found then warn "stream canceled by gateway" sid r else r)
    end
  else if String.eqb typ TypeWSOpen then
    match DecodePayload Open env with
    | Err _ => ret (warn "decode ws open failed" sid r)
    | Ok open => ret (start_stream sid newActiveWSStream (WSJob env open) r)
    end
  else if String.eqb typ TypeWSMessageText || String.eqb typ TypeWSMessageBinary ||
          String.eqb typ TypeWSClose || String.eqb typ TypeWSCancel then
    ret (deliverActiveStreamMessage sid msg r)
  else if String.eqb typ TypePing then
    match New (T := unit) TypePong None with
    | Err e => ret (set_serving (Returned (Some e)) r)
    | Ok pong =>
        w <- write conn_Write pong ;;
        match w with
        | Err e => ret (set_serving (Returned (Some (Wrap "write pong" e))) r)
        | Ok _ => ret r
        end
    end
  else ret (warn "unexpected gateway message" typ r).

Definition StatusNormalClosure : Z := 1000.

(** A failed read: [closeStatus] is [websocket.CloseStatus(err)]. *)
Definition serve_read_error (err : error) (ctx_done : bool) (closeStatus : Z) (r : Runner) : Runner :=
  set_serving (Returned
    (if ctx_done then None
     else if closeStatus =? StatusNormalClosure then None
     else Some (Wrap "read gateway message" err))) r.

(** * One step of the loop or of a goroutine *)
Inductive event : Type :=
| Receive (msg : Message)                                        (* the loop reads a message *)
| ReadFails (err : error) (ctx_done : bool) (closeStatus : Z)    (* or fails to *)
| Deliver                                                        (* its send goes through *)
| DeliverClosed                                                  (* it sees the stream's [done] *)
| DeliverCtx                                                     (* it sees the session's context *)
| Take (oid : nat)                                               (* a goroutine receives from its channel *)
| Finish (oid : nat)                                             (* a goroutine returns *)
| NextSession.                                                   (* [runOnce] again, after [activeWG.Wait] *)

(** [None]: the step is not possible in this state. *)
Definition deliver_step (r : Runner) : option Runner :=
  match serving r with
  | SendingChunk _ oid c =>
      s ← objs r !! oid; q ← chunks s;
      if (length q <? requestChunkBuffer)%nat
      then Some (set_serving Reading (set_objs (<[oid := set_chunks (q ++ [c]) s]> (objs r)) r))
      else None
  | SendingMessage _ oid m =>
      s ← objs r !! oid; q ← wsInbound s;
      if (length q <? wsStreamPendingBuffer)%nat
      then Some (set_serving Reading (set_objs (<[oid := set_wsInbound (q ++ [m]) s]> (objs r)) r))
      else None
  | _ => None
  end.

Definition delivery_warning (r : Runner) : option (nat * Runner) :=
  match serving r with
  | SendingChunk sid oid c =>
      Some (oid, warn (if ck_end c then "deliver request end failed" else "deliver request body failed") sid
                   (set_serving Reading r))
  | SendingMessage sid oid _ => Some (oid, warn "deliver ws message failed" sid (set_serving Reading r))
  | _ => None
  end.

Definition take_step (oid : nat) (r : Runner) : option Runner :=
  if bool_decide (is_Some (running r !! oid)) then
    s ← objs r !! oid;
    match chunks s, wsInbound s with
    | Some (_ :: q), _ => Some (set_objs (<[oid := set_chunks q s]> (objs r)) r)
    | _, Some (_ :: q) => Some (set_objs (<[oid := set_wsInbound q s]> (objs r)) r)
    | _, _ => None
    end
  else None.

Definition runner_step (ev : event) (r : Runner) : A (option Runner) :=
  match ev with
  | Receive msg =>
      match serving r with
      | Reading => r' <- serve_message msg r ;; ret (Some r')
      | _ => ret None
      end
  | ReadFails err ctx_done closeStatus =>
      match serving r with
      | Reading => ret (Some (serve_read_error err ctx_done closeStatus r))
      | _ => ret None
      end
  | Deliver => ret (deliver_step r)
  | DeliverClosed =>
      ret (w ← delivery_warning r; s ← objs r !! w.1; if done s then Some w.2 else None)
  | DeliverCtx => ret (w ← delivery_warning r; Some w.2)
  | Take oid => ret (take_step oid r)
  | Finish oid =>
      ret (g ← running r !! oid; Some (finish_stream oid g.1 r))
  | NextSession =>
      match serving r with
      | Returned _ => ret (if bool_decide (running r = ∅) then Some (set_serving Reading r) else None)
      | _ => ret None
      end
  end.

End serve.

(** * Properties *)
Section properties.
Context {JE : JSONCodec Envelope} {JStart : JSONCodec RequestStart} {JChunk : JSONCodec BodyChunk}
  {JCancel : JSONCodec StreamCancel} {JOpen : JSONCodec Open}.
Context (cfg : Config) (conn_Write : nat -> MessageType * bytes -> option error).

Definition step (ev : event) (r r' : Runner) : Prop :=
  exists s s', runner_step cfg conn_Write ev r s = (Some r', s').

Definition starts (msg : Message) : bool :=
  let typ := env_Type (msg_Envelope msg) in
  String.eqb typ TypeHTTPRequest || String.eqb typ TypeHTTPRequestStart || String.eqb typ TypeWSOpen.

(** The stream and the job a message starts. *)
Definition job_stream (j : job) : activeStream :=
  match j with
  | HTTPRequestJob _ => newActiveStream None
  | HTTPStreamJob _ _ => newActiveStream (Some [])
  | WSJob _ _ => newActiveWSStream
  end.

(** What a stream gets from a message: a chunk of its request body, or a
    frame of its WebSocket. *)
Inductive item : Type := Chunk (c : requestBodyChunk) | Frame (m : Message).

Definition chunk_of (msg : Message) : option requestBodyChunk :=
  let typ := env_Type (msg_Envelope msg) in
  if String.eqb typ TypeHTTPRequestBody then
    match (if msg_BinaryBody msg then Ok (msg_Body msg)
           else try payload <- DecodePayload BodyChunk (msg_Envelope msg); Ok (bc_Data payload)) with
    | Err _ => None
    | Ok data => if StreamChunkBytes cfg <? Z.of_nat (length data) then None else Some (mkRequestBodyChunk data false)
    end
  else if String.eqb typ TypeHTTPRequestEnd then Some (mkRequestBodyChunk [] true)
  else None.
Definition is_frame (msg : Message) : bool :=
  let typ := env_Type (msg_Envelope msg) in
  String.eqb typ TypeWSMessageText || String.eqb typ TypeWSMessageBinary ||
  String.eqb typ TypeWSClose || String.eqb typ TypeWSCancel.

Definition same_but_serving (r r' : Runner) : Prop :=
  objs r' = objs r /\ activeStreams r' = activeStreams r /\ running r' = running r /\ next_oid r' = next_oid r.

(** What a message does to the streams. *)
Inductive served (msg : Message) (r : Runner) : Runner -> Prop :=
| Served_start j : starts msg = true ->
    served msg r (start_stream (env_StreamID (msg_Envelope msg)) (job_stream j) j r)
| Served_nothing r' : same_but_serving r r' -> serving r' = serving r ->
    (forall oid st, stream_of (env_StreamID (msg_Envelope msg)) r = Some (oid, st) ->
       (is_Some (chunks st) -> chunk_of msg = None) /\ (is_Some (wsInbound st) -> is_frame msg = false)) ->
    served msg r r'
| Served_returned e : chunk_of msg = None -> is_frame msg = false ->
    served msg r (set_serving (Returned e) r)
| Served_cancel oid r' :
    activeStreams r !! env_StreamID (msg_Envelope msg) = Some oid ->
    same_but_serving (set_objs (alter (fun s => closeDone (cancel s)) oid (objs r)) r) r' ->
    serving r' = serving r -> served msg r r'
| Served_chunk oid st c : is_frame msg = false ->
    stream_of (env_StreamID (msg_Envelope msg)) r = Some (oid, st) ->
    is_Some (chunks st) -> chunk_of msg = Some c ->
    served msg r (set_serving (SendingChunk (env_StreamID (msg_Envelope msg)) oid c) r)
| Served_frame oid st : chunk_of msg = None -> is_frame msg = true ->
    stream_of (env_StreamID (msg_Envelope msg)) r = Some (oid, st) ->
    is_Some (wsInbound st) ->
    served msg r (set_serving (SendingMessage (env_StreamID (msg_Envelope msg)) oid msg) r).

Lemma served_deliver_chunk msg r c w :
  is_frame msg = false -> chunk_of msg = Some c ->
  served msg r (deliverActiveStreamChunk (env_StreamID (msg_Envelope msg)) c w r).
Proof.
  intros Hf Hc. unfold deliverActiveStreamChunk.
  destruct (stream_of _ r) as [[oid st]|] eqn:E; [destruct (chunks st) as [q|] eqn:Eq|].
  - eapply Served_chunk; eauto.
  - apply Served_nothing; [done|done|]. intros o st' E'. rewrite E in E'. simplify_eq.
    rewrite Eq. split; [by intros [? ?] | done].
  - apply Served_nothing; [done|done|]. intros o st' E'. by rewrite E in E'.
Qed.

Lemma served_deliver_frame msg r :
  is_frame msg = true -> chunk_of msg = None ->
  served msg r (deliverActiveStreamMessage (env_StreamID (msg_Envelope msg)) msg r).
Proof.
  intros Hf Hc. unfold deliverActiveStreamMessage.
  destruct (stream_of _ r) as [[oid st]|] eqn:E; [destruct (wsInbound st) as [q|] eqn:Eq|].
  - eapply Served_frame; eauto.
  - apply Served_nothing; [done|done|]. intros o st' E'. rewrite E in E'. simplify_eq.
    rewrite Eq. split; [done | by intros [? ?]].
  - apply Served_nothing; [done|done|]. intros o st' E'. by rewrite E in E'.
Qed.

Lemma served_nothing msg r r' :
  same_but_serving r r' -> serving r' = serving r ->
  chunk_of msg = None -> is_frame msg = false -> served msg r r'.
Proof. intros. by apply Served_nothing. Qed.

Lemma served_cancel msg r r0 :
  is_frame msg = false -> chunk_of msg = None ->
  same_but_serving r r0 -> serving r0 = serving r ->
  served msg r (snd (cancelActiveStream (env_StreamID (msg_Envelope msg)) r0)).
Proof.
  intros Hf Hc (Ho & Ha & Hr & Hn) Hv. unfold cancelActiveStream. rewrite Ha.
  destruct (activeStreams r !! _) as [oid|] eqn:E.
  - apply (Served_cancel _ _ oid); try done. by rewrite <- Ho.
  - by apply served_nothing.
Qed.

Ltac known_type E := unfold starts, chunk_of, is_frame; rewrite ?E; reflexivity.
Tactic Notation "on_type" constr(c) "as" ident(E) ident(N) :=
  match goal with |- context [String.eqb ?typ c] => destruct (String.eqb_spec typ c) as [E|N] end.

Lemma serve_message_served msg r s r' s' :
  serve_message cfg conn_Write msg r s = (r', s') -> served msg r r'.
Proof.
  unfold serve_message.
  on_type TypeHTTPRequest as E N1.
  { intros [= <- <-]. apply (Served_start msg r (HTTPRequestJob _)). known_type E. }
  on_type TypeHTTPRequestStart as E N2.
  { destruct (DecodePayload _ _) as [req|e]; intros [= <- <-].
    - apply (Served_start msg r (HTTPStreamJob _ req)). known_type E.
    - apply served_nothing; first [done | known_type E]. }
  on_type TypeHTTPRequestBody as E N3.
  { assert (Hc : forall d, (if msg_BinaryBody msg then Ok (msg_Body msg)
           else try payload <- DecodePayload BodyChunk (msg_Envelope msg); Ok (bc_Data payload)) = d ->
      chunk_of msg = match d with
        | Err _ => None
        | Ok data => if StreamChunkBytes cfg <? Z.of_nat (length data) then None
                     else Some (mkRequestBodyChunk data false) end)
      by (intros d Hd; unfold chunk_of; rewrite E, Hd; done).
    destruct (if msg_BinaryBody msg then _ else _) as [data|e]; specialize (Hc _ eq_refl); cbn in Hc.
    - destruct (_ <? _); intros [= <- <-].
      + apply served_cancel; first [done | known_type E].
      + apply served_deliver_chunk; first [done | known_type E].
    - intros [= <- <-]. apply served_nothing; first [done | known_type E]. }
  on_type TypeHTTPRequestEnd as E N4.
  { intros [= <- <-]. apply served_deliver_chunk; known_type E. }
  assert (Hc : chunk_of msg = None).
  { unfold chunk_of. by rewrite (proj2 (String.eqb_neq _ _) N3), (proj2 (String.eqb_neq _ _) N4). }
  on_type TypeHTTPStreamCancel as E N5.
  { destruct (DecodePayload _ _) as [p|e].
    - unfold cancelActiveStream. destruct (activeStreams r !! _) as [oid|] eqn:Eo; intros [= <- <-].
      + by apply (Served_cancel _ _ oid).
      + apply served_nothing; first [done | known_type E].
    - intros [= <- <-]. apply served_nothing; first [done | known_type E]. }
  on_type TypeWSOpen as E N6.
  { destruct (DecodePayload _ _) as [open|e]; intros [= <- <-].
    - apply (Served_start msg r (WSJob _ open)). known_type E.
    - apply served_nothing; first [done | known_type E]. }
  destruct (_ || _) eqn:Ef.
  { intros [= <- <-]. by apply served_deliver_frame. }
  on_type TypePing as E N7.
  { destruct (New _ _) as [pong|e]; [|intros [= <- <-]; by apply Served_returned].
    unfold bind. destruct (write conn_Write pong s) as [[[]|e] s1]; intros [= <- <-].
    - by apply served_nothing.
    - by apply Served_returned. }
  intros [= <- <-]. by apply served_nothing.
Qed.

(** ** The invariant *)

(** The channel of a stream the loop is sending to. *)
Definition waiting_for (r : Runner) : option (string * nat) :=
  match serving r with
  | SendingChunk sid oid _ | SendingMessage sid oid _ => Some (sid, oid)
  | _ => None
  end.
(** The loop sends to a channel of the right kind. *)
Definition has_channel (v : serve_state) (st : activeStream) : Prop :=
  match v with
  | SendingChunk _ _ _ => is_Some (chunks st)
  | SendingMessage _ _ _ => is_Some (wsInbound st)
  | _ => True
  end.

Definition within (st : activeStream) : Prop :=
  (forall q, chunks st = Some q -> (length q <= requestChunkBuffer)%nat) /\
  (forall q, wsInbound st = Some q -> (length q <= wsStreamPendingBuffer)%nat) /\
  (chunks st = None \/ wsInbound st = None).

Record runner_ok (r : Runner) : Prop := {
  ok_fresh : forall oid, (next_oid r <= oid)%nat -> objs r !! oid = None /\ running r !! oid = None;
  ok_table : forall sid oid, activeStreams r !! sid = Some oid ->
    sid <> ""%string /\ exists j, running r !! oid = Some (sid, j);
  ok_running : forall oid g, running r !! oid = Some g -> is_Some (objs r !! oid);
  ok_within : forall oid st, objs r !! oid = Some st -> within st;
  ok_waiting : forall sid oid, waiting_for r = Some (sid, oid) ->
    exists st, objs r !! oid = Some st /\ has_channel (serving r) st /\
      (done st = true \/ activeStreams r !! sid = Some oid);
}.

Lemma runner0_ok : runner_ok runner0.
Proof. by split. Qed.

(** Two states that differ in the loop only. *)
Lemma ok_same r r' : runner_ok r -> same_but_serving r r' ->
  (forall sid oid, waiting_for r' = Some (sid, oid) ->
    exists st, objs r !! oid = Some st /\ has_channel (serving r') st /\
      (done st = true \/ activeStreams r !! sid = Some oid)) -> runner_ok r'.
Proof.
  intros [H1 H2 H3 H4 H5] (Ho & Ha & Hr & Hn) Hw. split; rewrite ?Ho, ?Ha, ?Hr, ?Hn; done.
Qed.

(** A change of one object that keeps its channels and does not reopen it. *)
Definition tames (st st' : activeStream) : Prop :=
  (within st -> within st') /\ (done st = true -> done st' = true) /\
  forall v, has_channel v st -> has_channel v st'.

Lemma alter_objs (f : activeStream -> activeStream) oid (m : gmap nat activeStream) o st :
  alter f oid m !! o = Some st -> exists st0, m !! o = Some st0 /\ (st = st0 \/ st = f st0 /\ o = oid).
Proof.
  destruct (decide (oid = o)) as [->|Hn].
  - rewrite lookup_alter_eq. destruct (m !! o) as [st0|]; [|done]. intros [= <-]. eauto.
  - rewrite lookup_alter_ne by done. eauto.
Qed.

Lemma ok_alter f oid r : (forall st, objs r !! oid = Some st -> tames st (f st)) ->
  runner_ok r -> runner_ok (set_objs (alter f oid (objs r)) r).
Proof.
  intros Hf [H1 H2 H3 H4 H5]. split; cbn; auto.
  - intros o Ho. destruct (H1 o Ho) as [E ?]. split; [|done].
    destruct (decide (oid = o)) as [->|]; [rewrite lookup_alter_eq, E; done | by rewrite lookup_alter_ne].
  - intros o g Hg. apply H3 in Hg as [st Hs].
    destruct (decide (oid = o)) as [->|]; [rewrite lookup_alter_eq, Hs; eauto | rewrite lookup_alter_ne by done; eauto].
  - intros o st Hs. apply alter_objs in Hs as (st0 & Hs & [->|[-> ->]]); [by eapply H4|].
    apply Hf; [done|]. by eapply H4.
  - intros sid o Hw. destruct (H5 sid o Hw) as (st & Hs & Hc & Hd).
    destruct (decide (oid = o)) as [->|].
    + exists (f st). rewrite lookup_alter_eq, Hs. destruct (Hf st Hs) as (_ & Hd' & Hc'). naive_solver.
    + exists st. by rewrite lookup_alter_ne.
Qed.

Lemma tames_cancel st : tames st (cancel st).
Proof. split_and!; [done | done | by intros []]. Qed.
Lemma tames_closeDone st : tames st (closeDone st).
Proof. split_and!; [done | done | by intros []]. Qed.
Lemma tames_cancel_close st : tames st (closeDone (cancel st)).
Proof. split_and!; [done | done | by intros []]. Qed.
#[local] Hint Resolve tames_cancel tames_closeDone tames_cancel_close : core.

Lemma ok_insert oid st st' r : objs r !! oid = Some st -> tames st st' ->
  runner_ok r -> runner_ok (set_objs (<[oid := st']> (objs r)) r).
Proof.
  intros Hs Ht Hr. replace (<[oid := st']> (objs r)) with (alter (fun _ => st') oid (objs r)).
  - apply ok_alter; [|done]. intros st0 Hs'. by simplify_eq.
  - apply map_eq. intros o. destruct (decide (oid = o)) as [->|].
    + by rewrite lookup_alter_eq, lookup_insert_eq, Hs.
    + by rewrite lookup_alter_ne, lookup_insert_ne.
Qed.

(** A loop that waits for no stream. *)
Lemma ok_idle r v : runner_ok r -> (forall sid oid c, v <> SendingChunk sid oid c) ->
  (forall sid oid m, v <> SendingMessage sid oid m) -> runner_ok (set_serving v r).
Proof.
  intros Hr Hc Hm. apply (ok_same r); [done|done|]. cbn.
  destruct v; intros sid oid' E; cbn in E; try done; exfalso; naive_solver.
Qed.
#[local] Hint Extern 1 (_ <> _) => discriminate : core.

Lemma start_stream_eq sid st j r : start_stream sid st j r =
  mkRunner (<[next_oid r := st]> (objs r))
    (if String.eqb sid "" then activeStreams r else <[sid := next_oid r]> (activeStreams r))
    (<[next_oid r := (sid, j)]> (running r)) (S (next_oid r)) (serving r) (warned r).
Proof. unfold start_stream, addActiveStream. by destruct (String.eqb sid ""). Qed.

Ltac fields := cbn [objs activeStreams running next_oid serving warned set_objs set_serving].

Lemma ok_start sid j r : runner_ok r -> serving r = Reading -> runner_ok (start_stream sid (job_stream j) j r).
Proof.
  intros [H1 H2 H3 H4 H5] Hv. rewrite start_stream_eq.
  assert (Hfresh : forall sid' oid, activeStreams r !! sid' = Some oid -> next_oid r <> oid).
  { intros sid' oid Ha <-. destruct (H2 _ _ Ha) as (_ & j' & Hj). destruct (H1 (next_oid r)); naive_solver. }
  split; fields.
  - intros oid Ho. destruct (H1 oid ltac:(lia)). by rewrite !lookup_insert_ne by lia.
  - assert (Hold : forall sid' oid, activeStreams r !! sid' = Some oid -> sid' <> ""%string /\
      exists j', <[next_oid r := (sid, j)]> (running r) !! oid = Some (sid', j')).
    { intros sid' oid Ha. destruct (H2 _ _ Ha) as (? & j' & ?). rewrite lookup_insert_ne by eauto. eauto. }
    destruct (String.eqb_spec sid "") as [->|Hne]; [done|]. intros sid' oid Ha.
    destruct (decide (sid = sid')) as [->|]; [|rewrite lookup_insert_ne in Ha by done; eauto].
    rewrite lookup_insert_eq in Ha. injection Ha as <-. rewrite lookup_insert_eq. eauto.
  - intros oid g. destruct (decide (next_oid r = oid)) as [->|].
    + rewrite !lookup_insert_eq. eauto.
    + rewrite !lookup_insert_ne by done. eauto.
  - intros oid st. destruct (decide (next_oid r = oid)) as [->|].
    + rewrite lookup_insert_eq. intros [= <-]. destruct j; split_and!; try (intros q [= <-]; cbn; lia); auto.
    + rewrite lookup_insert_ne by done. eauto.
  - unfold waiting_for. fields. by rewrite Hv.
Qed.

Lemma finish_stream_eq oid sid r : finish_stream oid sid r =
  match activeStreams r !! sid with
  | Some o => if String.eqb sid "" then
      mkRunner (alter cancel oid (objs r)) (activeStreams r) (delete oid (running r)) (next_oid r) (serving r) (warned r)
      else mkRunner (alter closeDone o (alter cancel oid (objs r))) (delete sid (activeStreams r))
             (delete oid (running r)) (next_oid r) (serving r) (warned r)
  | None => mkRunner (alter cancel oid (objs r)) (activeStreams r) (delete oid (running r))
              (next_oid r) (serving r) (warned r)
  end.
Proof.
  unfold finish_stream, removeActiveStream. destruct (String.eqb sid ""); fields; by destruct (activeStreams r !! sid).
Qed.

(** A goroutine that is gone from the count. *)
Lemma ok_gone oid sid j r : runner_ok r -> running r !! oid = Some (sid, j) ->
  (forall sid' o, activeStreams r !! sid' = Some o -> sid' <> sid) ->
  runner_ok (mkRunner (objs r) (activeStreams r) (delete oid (running r)) (next_oid r) (serving r) (warned r)).
Proof.
  intros [H1 H2 H3 H4 H5] Hg Hn. split; fields; auto.
  - intros o Ho. destruct (H1 o Ho). split; [done|]. by apply lookup_delete_None; right.
  - intros sid' o Ha. destruct (H2 _ _ Ha) as (? & j' & Hj). split; [done|]. exists j'.
    rewrite lookup_delete_ne; [done|]. intros ->. rewrite Hg in Hj. simplify_eq. by apply (Hn sid' o).
  - intros o g Hd. apply lookup_delete_Some in Hd as [? ?]. eauto.
Qed.

(** An entry of the table that is taken out and whose object is closed. *)
Lemma ok_removed sid o r : runner_ok r -> activeStreams r !! sid = Some o ->
  runner_ok (mkRunner (alter closeDone o (objs r)) (delete sid (activeStreams r)) (running r)
    (next_oid r) (serving r) (warned r)).
Proof.
  intros Hr Ha. pose proof (ok_alter closeDone o r ltac:(auto) Hr) as [H1 H2 H3 H4 H5].
  split; fields; auto.
  - intros sid' o' Hd. apply lookup_delete_Some in Hd as [? ?]. eauto.
  - intros sid' o' Hw. destruct (ok_waiting r Hr sid' o' Hw) as (st & Hs & Hc & Hd).
    destruct (H5 sid' o' Hw) as (st' & Hs' & Hc' & Hd').
    exists st'. split_and!; [done | done |]. cbn in Hs'.
    destruct (decide (sid = sid')) as [->|].
    + destruct Hd' as [|E]; [auto|]. left. cbn in E. rewrite Ha in E. injection E as ->.
      rewrite lookup_alter_eq, Hs in Hs'. by injection Hs' as <-.
    + by rewrite lookup_delete_ne.
Qed.

Lemma ok_finish oid sid j r : runner_ok r -> running r !! oid = Some (sid, j) -> runner_ok (finish_stream oid sid r).
Proof.
  intros Hr Hg. pose proof (ok_alter cancel oid r ltac:(auto) Hr) as Hc. rewrite finish_stream_eq.
  pose proof (ok_table r Hr) as Ht. destruct (activeStreams r !! sid) as [o|] eqn:Ha.
  - destruct (Ht _ _ Ha) as [Hne _]. rewrite (proj2 (String.eqb_neq _ _) Hne).
    apply (ok_gone oid sid j _ (ok_removed sid o _ Hc Ha)); [done|].
    fields. intros sid' o' Hd. by apply lookup_delete_Some in Hd as [? _].
  - apply (ok_gone oid sid j _ Hc); [done|]. fields. intros sid' o' Hd ->. naive_solver.
Qed.

Lemma ok_deliver r r' : runner_ok r -> deliver_step r = Some r' -> runner_ok r'.
Proof.
  intros Hr. unfold deliver_step. destruct (serving r); try done.
  all: destruct (objs r !! oid) as [st|] eqn:Hs; cbn [mbind option_bind]; [|done].
  - destruct (chunks st) as [q|] eqn:Eq; cbn [mbind option_bind]; [|done].
    destruct (Nat.ltb_spec (length q) requestChunkBuffer); [|done].
    intros [= <-]. apply ok_idle; auto. apply (ok_insert oid st); [done| |done].
    split_and!; [|done|].
    + intros (H1 & H2 & [E|E]); [congruence|]. split_and!; cbn; [intros ? [= <-]; rewrite length_app; cbn; lia | done | auto].
    + intros [] Hc; cbn; done.
  - destruct (wsInbound st) as [q|] eqn:Eq; cbn [mbind option_bind]; [|done].
    destruct (Nat.ltb_spec (length q) wsStreamPendingBuffer); [|done].
    intros [= <-]. apply ok_idle; auto. apply (ok_insert oid st); [done| |done].
    split_and!; [|done|].
    + intros (H1 & H2 & [E|E]); [|congruence]. split_and!; cbn; [done | intros ? [= <-]; rewrite length_app; cbn; lia | auto].
    + intros [] Hc; cbn; done.
Qed.

Lemma ok_take oid r r' : runner_ok r -> take_step oid r = Some r' -> runner_ok r'.
Proof.
  intros Hr. unfold take_step. destruct (bool_decide _); [|done].
  destruct (objs r !! oid) as [st|] eqn:Hs; [|done]. cbn.
  destruct (ok_within r Hr oid st Hs) as (Hq & Hw & Hk).
  assert (Hchunk : forall c q, chunks st = Some (c :: q) -> tames st (set_chunks q st)).
  { intros c q E. split_and!; [|done | intros []; cbn; done]. intros _.
    split_and!; cbn; [|done|destruct Hk; [congruence|auto]].
    intros ? [= <-]. specialize (Hq _ E). cbn in Hq. lia. }
  assert (Hws : forall c q, wsInbound st = Some (c :: q) -> tames st (set_wsInbound q st)).
  { intros c q E. split_and!; [|done | intros []; cbn; done]. intros _.
    split_and!; cbn; [done| |destruct Hk; [auto|congruence]].
    intros ? [= <-]. specialize (Hw _ E). cbn in Hw. lia. }
  destruct (chunks st) as [[|c q]|]; destruct (wsInbound st) as [[|m q']|]; try done;
    intros [= <-]; eapply (ok_insert oid st); eauto.
Qed.

Lemma delivery_warning_idle r o r' : delivery_warning r = Some (o, r') ->
  same_but_serving r r' /\ serving r' = Reading.
Proof. unfold delivery_warning. destruct (serving r); intros; simplify_eq; done. Qed.

Lemma ok_served msg r r' : runner_ok r -> serving r = Reading -> served msg r r' -> runner_ok r'.
Proof.
  intros Hr Hv. destruct 1 as [j _ | r' Hsame Hs _ | e _ _ | oid r' Ha Hsame Hs | oid st c _ Hst Hq _ | oid st _ _ Hst Hq].
  - by apply ok_start.
  - apply (ok_same r); [done..|]. unfold waiting_for. by rewrite Hs, Hv.
  - apply ok_idle; auto.
  - apply (ok_same (set_objs (alter (fun s => closeDone (cancel s)) oid (objs r)) r)); [apply ok_alter; auto|done|].
    unfold waiting_for. by rewrite Hs, Hv.
  - unfold stream_of in Hst. destruct (activeStreams r !! _) as [o|] eqn:Ea; [|done]. cbn in Hst.
    destruct (objs r !! o) as [st'|] eqn:Eo; [|done]. cbn in Hst. simplify_eq.
    apply (ok_same r); [done..|]. cbn. intros sid' o [= <- <-]. eauto 6.
  - unfold stream_of in Hst. destruct (activeStreams r !! _) as [o|] eqn:Ea; [|done]. cbn in Hst.
    destruct (objs r !! o) as [st'|] eqn:Eo; [|done]. cbn in Hst. simplify_eq.
    apply (ok_same r); [done..|]. cbn. intros sid' o [= <- <-]. eauto 6.
Qed.

(** The possible steps, with the monad run. *)
Lemma step_cases ev r r' : step ev r r' ->
  match ev with
  | Receive msg => serving r = Reading /\ served msg r r'
  | ReadFails err c status => serving r = Reading /\ r' = serve_read_error err c status r
  | Deliver => deliver_step r = Some r'
  | DeliverClosed => exists oid st, delivery_warning r = Some (oid, r') /\ objs r !! oid = Some st /\ done st = true
  | DeliverCtx => exists oid, delivery_warning r = Some (oid, r')
  | Take oid => take_step oid r = Some r'
  | Finish oid => exists sid j, running r !! oid = Some (sid, j) /\ r' = finish_stream oid sid r
  | NextSession => (exists e, serving r = Returned e) /\ running r = ∅ /\ r' = set_serving Reading r
  end.
Proof.
  intros (s & s' & H). unfold runner_step, ret in H. destruct ev.
  - destruct (serving r); try done. unfold bind in H.
    destruct (serve_message cfg conn_Write msg r s) as [r1 s1] eqn:E. simplify_eq.
    split; [done|]. exact (serve_message_served _ _ _ _ _ E).
  - destruct (serving r); try done. by simplify_eq.
  - by simplify_eq.
  - destruct (delivery_warning r) as [[oid r1]|]; [|done]. cbn in H.
    destruct (objs r !! oid) as [st|] eqn:Eo; [|done]. cbn in H. destruct (done st) eqn:Ed; [|done].
    simplify_eq. eauto.
  - destruct (delivery_warning r) as [[oid r1]|]; [|done]. cbn in H. simplify_eq. eauto.
  - by simplify_eq.
  - destruct (running r !! oid) as [[sid j]|]; [|done]. cbn in H. simplify_eq. eauto.
  - destruct (serving r); try done. case_bool_decide; [|done]. simplify_eq. eauto.
Qed.

Lemma step_ok ev r r' : runner_ok r -> step ev r r' -> runner_ok r'.
Proof.
  intros Hr H%step_cases. destruct ev.
  - destruct H. by eapply ok_served.
  - destruct H as [_ ->]. apply ok_idle; auto.
  - by eapply ok_deliver.
  - destruct H as (oid & st & Hw & _). apply delivery_warning_idle in Hw as [Hs Hv].
    apply (ok_same r); [done..|]. unfold waiting_for. by rewrite Hv.
  - destruct H as (oid & Hw). apply delivery_warning_idle in Hw as [Hs Hv].
    apply (ok_same r); [done..|]. unfold waiting_for. by rewrite Hv.
  - by eapply ok_take.
  - destruct H as (sid & j & Hg & ->). by eapply ok_finish.
  - destruct H as (_ & _ & ->). apply ok_idle; auto.
Qed.

Definition reachable (r : Runner) : Prop := rtc (fun r r' => exists ev, step ev r r') runner0 r.

Lemma reachable_ok r : reachable r -> runner_ok r.
Proof.
  unfold reachable. generalize runner0_ok. generalize runner0. intros r0 H0 H. revert H0.
  induction H as [|r1 r2 r3 [ev Hs] _ IH]; [done|]. intros H1. by eapply IH, step_ok.
Qed.

(** A step that needs no write to the gateway. *)
Lemma step_intro ev r r' : (forall s, runner_step cfg conn_Write ev r s = (Some r', s)) -> step ev r r'.
Proof. intros H. exists agent0, agent0. apply H. Qed.

Lemma waiting_warning r sid oid : waiting_for r = Some (sid, oid) -> exists r', delivery_warning r = Some (oid, r').
Proof. unfold waiting_for, delivery_warning. destruct (serving r); intros; simplify_eq; eauto. Qed.

Lemma step_closed r sid oid st : waiting_for r = Some (sid, oid) -> objs r !! oid = Some st -> done st = true ->
  exists r', step DeliverClosed r r'.
Proof.
  intros Hw Hs Hd. destruct (waiting_warning r sid oid Hw) as [r' Hr']. exists r'. apply step_intro.
  intros s. cbn. rewrite Hr'. cbn. rewrite Hs. cbn. by rewrite Hd.
Qed.

(** A goroutine that returns lets a send to its stream end. *)
Lemma finish_unblocks r sid oid st j : runner_ok r -> waiting_for r = Some (sid, oid) -> objs r !! oid = Some st ->
  activeStreams r !! sid = Some oid -> running r !! oid = Some (sid, j) ->
  exists r1 r2, step (Finish oid) r r1 /\ step DeliverClosed r1 r2.
Proof.
  intros Hr Hw Hs Ha Hj. exists (finish_stream oid sid r).
  destruct (ok_table r Hr sid oid Ha) as [Hne _].
  destruct (step_closed (finish_stream oid sid r) sid oid (closeDone (cancel st))) as [r2 H2].
  - rewrite finish_stream_eq, Ha, (proj2 (String.eqb_neq _ _) Hne). done.
  - rewrite finish_stream_eq, Ha, (proj2 (String.eqb_neq _ _) Hne). fields. by rewrite !lookup_alter_eq, Hs.
  - done.
  - exists r2. split; [|done]. apply step_intro. intros s. cbn. by rewrite Hj.
Qed.

(** The loop never waits for a stream that is gone. *)
Lemma waiting_progress r sid oid : runner_ok r -> waiting_for r = Some (sid, oid) ->
  (exists r', step Deliver r r') \/ (exists r', step DeliverClosed r r') \/
  (exists j, running r !! oid = Some (sid, j)) /\ activeStreams r !! sid = Some oid /\
  (exists r1 r2, step (Take oid) r r1 /\ step Deliver r1 r2) /\
  (exists r1 r2, step (Finish oid) r r1 /\ step DeliverClosed r1 r2).
Proof.
  intros Hr Hw. destruct (ok_waiting r Hr sid oid Hw) as (st & Hs & Hc & Hd).
  destruct (done st) eqn:Ed; [right; left; by eapply step_closed|].
  destruct Hd as [|Ha]; [done|]. destruct (ok_table r Hr sid oid Ha) as (Hne & j & Hj).
  pose proof (finish_unblocks r sid oid st j Hr Hw Hs Ha Hj) as Hfin.
  destruct (ok_within r Hr oid st Hs) as (Hq & Hqw & Hk).
  assert (Htake : forall r1, take_step oid r = Some r1 -> (exists r2, deliver_step r1 = Some r2) ->
    exists r1 r2, step (Take oid) r r1 /\ step Deliver r1 r2).
  { intros r1 H1 [r2 H2]. exists r1, r2. split; apply step_intro; intros s; unfold runner_step, ret; congruence. }
  unfold waiting_for in Hw. destruct (serving r) as [|sid' oid' c|sid' oid' m|e] eqn:Ev; simplify_eq; cbn in Hc.
  - destruct Hc as [q Eq]. destruct (decide (length q < requestChunkBuffer)%nat) as [Hl|Hl].
    + left. eexists. apply step_intro. intros s. cbn [runner_step]. unfold deliver_step, ret.
      rewrite Ev, Hs. cbn [mbind option_bind]. rewrite Eq. cbn [mbind option_bind].
      by rewrite (proj2 (Nat.ltb_lt _ _) Hl).
    + right; right. split_and!; eauto. specialize (Hq _ Eq).
      destruct q as [|c0 q]; [unfold requestChunkBuffer in *; cbn in *; lia|].
      eapply (Htake (set_objs (<[oid := set_chunks q st]> (objs r)) r)).
      * unfold take_step. rewrite bool_decide_true by eauto. rewrite Hs. cbn. by rewrite Eq.
      * unfold deliver_step. fields. rewrite Ev, lookup_insert_eq. cbn [mbind option_bind set_chunks chunks].
        rewrite (proj2 (Nat.ltb_lt _ _)); [eauto|]. cbn in Hq. lia.
  - destruct Hc as [q Eq]. destruct (decide (length q < wsStreamPendingBuffer)%nat) as [Hl|Hl].
    + left. eexists. apply step_intro. intros s. cbn [runner_step]. unfold deliver_step, ret.
      rewrite Ev, Hs. cbn [mbind option_bind]. rewrite Eq. cbn [mbind option_bind].
      by rewrite (proj2 (Nat.ltb_lt _ _) Hl).
    + right; right. split_and!; eauto. specialize (Hqw _ Eq).
      destruct q as [|c0 q]; [unfold wsStreamPendingBuffer in *; cbn in *; lia|].
      eapply (Htake (set_objs (<[oid := set_wsInbound q st]> (objs r)) r)).
      * unfold take_step. rewrite bool_decide_true by eauto. rewrite Hs. cbn.
        destruct Hk as [->|]; [by rewrite Eq | congruence].
      * unfold deliver_step. fields. rewrite Ev, lookup_insert_eq. cbn [mbind option_bind set_wsInbound wsInbound].
        rewrite (proj2 (Nat.ltb_lt _ _)); [eauto|]. cbn in Hqw. lia.
Qed.

(** C3: The table of open streams is sound in every state the agent can
    reach, over any number of sessions and any interleaving of its read loop
    with the goroutines of its streams: an entry is the stream of a goroutine
    that still runs and will remove it, so once the goroutines of a session
    have ended the table is empty; no channel holds more than its buffer; and
    the read loop cannot be left waiting for ever: when it waits to hand a
    message to a stream, it can go on at once, or the stream's own goroutine
    still runs and the loop goes on as soon as that goroutine receives or
    returns. *)
Theorem streams_sound r : reachable r ->
  (forall sid oid, activeStreams r !! sid = Some oid -> exists j, running r !! oid = Some (sid, j)) /\
  (running r = ∅ -> activeStreams r = ∅) /\
  (forall oid st, objs r !! oid = Some st -> within st) /\
  (forall sid oid, waiting_for r = Some (sid, oid) ->
    (exists r', step Deliver r r') \/ (exists r', step DeliverClosed r r') \/
    (exists j, running r !! oid = Some (sid, j)) /\ activeStreams r !! sid = Some oid /\
    (exists r1 r2, step (Take oid) r r1 /\ step Deliver r1 r2) /\
    (exists r1 r2, step (Finish oid) r r1 /\ step DeliverClosed r1 r2)).
Proof.
  intros Hr%reachable_ok. split_and!.
  - intros sid oid Ha. by destruct (ok_table r Hr sid oid Ha).
  - intros E. apply map_empty. intros sid. apply eq_None_not_Some. intros [oid Ha].
    destruct (ok_table r Hr sid oid Ha) as (_ & j & Hj). by rewrite E in Hj.
  - apply (ok_within r Hr).
  - intros sid oid. by apply waiting_progress.
Qed.

(** ** A stream gets its messages in order *)
Definition items (st : activeStream) : list item :=
  map Chunk (default [] (chunks st)) ++ map Frame (default [] (wsInbound st)).
Definition queue_of (oid : nat) (r : Runner) : list item :=
  match objs r !! oid with Some st => items st | None => [] end.
(** What the loop is about to put in the channel of [oid]. *)
Definition in_hand (oid : nat) (r : Runner) : list item :=
  match serving r with
  | SendingChunk _ o c => if decide (o = oid) then [Chunk c] else []
  | SendingMessage _ o m => if decide (o = oid) then [Frame m] else []
  | _ => []
  end.
(** What a message holds for the stream [sid], a WebSocket or not. *)
Definition arrived (ws : bool) (sid : string) (ev : event) : list item :=
  match ev with
  | Receive msg =>
      if String.eqb (env_StreamID (msg_Envelope msg)) sid then
        if ws then if is_frame msg then [Frame msg] else []
        else match chunk_of msg with Some c => [Chunk c] | None => [] end
      else []
  | _ => []
  end.
(** What the goroutine of [oid] receives. *)
Definition took (oid : nat) (ev : event) (r : Runner) : list item :=
  match ev with
  | Take o => if decide (o = oid) then take 1 (queue_of oid r) else []
  | _ => []
  end.

Inductive runs (oid : nat) : list event -> Runner -> Runner -> list item -> Prop :=
| runs_nil r : runs oid [] r r []
| runs_cons ev evs r r1 r2 got : step ev r r1 -> runs oid evs r1 r2 got ->
    runs oid (ev :: evs) r r2 (took oid ev r ++ got).

Definition of_kind (ws : bool) (st : activeStream) : Prop :=
  if ws then is_Some (wsInbound st) else is_Some (chunks st).

(** [oid] is the open stream [sid]. *)
Definition open_stream (ws : bool) (sid : string) (oid : nat) (r : Runner) : Prop :=
  activeStreams r !! sid = Some oid /\ exists st, objs r !! oid = Some st /\ of_kind ws st /\ done st = false.

Definition closed_stream (oid : nat) (r : Runner) : Prop :=
  exists st, objs r !! oid = Some st /\ done st = true.

(** No other stream is started under the same id, and the session's context
    does not end. *)
Definition undisturbed (sid : string) (ev : event) : bool :=
  match ev with
  | Receive msg => negb (starts msg && String.eqb (env_StreamID (msg_Envelope msg)) sid)
  | DeliverCtx => false
  | _ => true
  end.

(** What a step does to one open stream: it stays open and nothing is lost, or
    it is closed. *)
Definition conserves (ws : bool) (sid : string) (oid : nat) (ev : event) (r r' : Runner) : Prop :=
  closed_stream oid r' \/
  open_stream ws sid oid r' /\
  took oid ev r ++ queue_of oid r' ++ in_hand oid r' = queue_of oid r ++ in_hand oid r ++ arrived ws sid ev.

Lemma table_inj r sid1 sid2 oid : runner_ok r ->
  activeStreams r !! sid1 = Some oid -> activeStreams r !! sid2 = Some oid -> sid1 = sid2.
Proof.
  intros Hr H1 H2. destruct (ok_table r Hr _ _ H1) as (_ & ? & E1), (ok_table r Hr _ _ H2) as (_ & ? & E2).
  congruence.
Qed.

(** A step that leaves the object and the entry alone. *)
Lemma conserves_same ws sid oid ev r r' : open_stream ws sid oid r ->
  objs r' !! oid = objs r !! oid -> activeStreams r' !! sid = Some oid ->
  took oid ev r = [] -> in_hand oid r' = in_hand oid r ++ arrived ws sid ev -> conserves ws sid oid ev r r'.
Proof.
  intros (_ & st & Hs & Hk & Hd) Ho Ha Ht Hh. right. unfold open_stream, queue_of.
  rewrite Ho, Ht, Hh. split; [eauto|done].
Qed.

Lemma in_hand_idle oid r : waiting_for r = None -> in_hand oid r = [].
Proof. unfold waiting_for, in_hand. by destruct (serving r). Qed.

Lemma stream_of_eq sid r oid st :
  stream_of sid r = Some (oid, st) -> activeStreams r !! sid = Some oid /\ objs r !! oid = Some st.
Proof.
  unfold stream_of. destruct (activeStreams r !! sid) as [o|]; cbn; [|done].
  destruct (objs r !! o) as [st'|] eqn:E; cbn; [|done]. intros. by simplify_eq.
Qed.
Lemma stream_of_intro sid r oid st :
  activeStreams r !! sid = Some oid -> objs r !! oid = Some st -> stream_of sid r = Some (oid, st).
Proof. unfold stream_of. intros -> E. cbn. by rewrite E. Qed.

Lemma conserves_served ws sid oid msg r r' : runner_ok r -> open_stream ws sid oid r ->
  serving r = Reading -> undisturbed sid (Receive msg) = true -> served msg r r' ->
  conserves ws sid oid (Receive msg) r r'.
Proof.
  intros Hr Hopen Hv Hu Hserved. destruct Hopen as (Ha & st & Hs & Hk & Hd) eqn:Eop. clear Eop.
  assert (Hidle : in_hand oid r = []) by (apply in_hand_idle; unfold waiting_for; by rewrite Hv).
  assert (Hother : env_StreamID (msg_Envelope msg) <> sid -> arrived ws sid (Receive msg) = []).
  { intros E. cbn. by rewrite (proj2 (String.eqb_neq _ _) E). }
  assert (Hkind : forall w1 w2, of_kind w1 st -> of_kind w2 st -> w1 = w2).
  { destruct (ok_within r Hr oid st Hs) as (_ & _ & Hx).
    intros [] [] [? E1] [? E2]; try done; destruct Hx; congruence. }
  destruct Hserved as [j Hst | r' (Ho & Hact & _) Hserv Hnone | e Hc Hf | o r' Ho (Hobj & Hact & _) Hserv
                      | o st' c Hf Hst Hq Hc | o st' Hc Hf Hst Hq].
  - cbn in Hu. rewrite Hst in Hu. cbn in Hu. apply negb_true_iff, String.eqb_neq in Hu.
    rewrite start_stream_eq. apply conserves_same; fields; [done| | |done|].
    + apply lookup_insert_ne. intros <-. destruct (ok_fresh r Hr (next_oid r)); [lia|congruence].
    + destruct (String.eqb _ ""); [done|]. by rewrite lookup_insert_ne.
    + rewrite Hidle, (Hother Hu). unfold in_hand. fields. by rewrite Hv.
  - apply conserves_same; [done|by rewrite Ho|by rewrite Hact|done|].
    assert (in_hand oid r' = []) as -> by (apply in_hand_idle; unfold waiting_for; by rewrite Hserv, Hv).
    rewrite Hidle. cbn. destruct (String.eqb_spec (env_StreamID (msg_Envelope msg)) sid) as [E|]; [|done].
    destruct (Hnone oid st) as [H1 H2]; [rewrite E; by apply stream_of_intro|].
    destruct ws; [by rewrite H2 | by rewrite H1].
  - apply conserves_same; [done..|]. rewrite Hidle. cbn.
    destruct (String.eqb _ _), ws; rewrite ?Hc, ?Hf; done.
  - destruct (decide (o = oid)) as [->|Hne].
    + left. exists (closeDone (cancel st)). rewrite Hobj. fields. by rewrite lookup_alter_eq, Hs.
    + apply conserves_same; [done| |by rewrite Hact|done|].
      * rewrite Hobj. fields. by apply lookup_alter_ne.
      * rewrite Hidle, Hother by congruence. apply in_hand_idle. unfold waiting_for. by rewrite Hserv, Hv.
  - apply stream_of_eq in Hst as [Hst1 Hst2]. apply conserves_same; [done..|]. rewrite Hidle. cbn.
    destruct (String.eqb_spec (env_StreamID (msg_Envelope msg)) sid) as [E|E].
    + rewrite E, Ha in Hst1. simplify_eq. rewrite decide_True by done.
      rewrite (Hkind ws false) by done. by rewrite Hc.
    + rewrite decide_False; [done|]. intros ->. by pose proof (table_inj r _ _ _ Hr Hst1 Ha).
  - apply stream_of_eq in Hst as [Hst1 Hst2]. apply conserves_same; [done..|]. rewrite Hidle. cbn.
    destruct (String.eqb_spec (env_StreamID (msg_Envelope msg)) sid) as [E|E].
    + rewrite E, Ha in Hst1. simplify_eq. rewrite decide_True by done.
      rewrite (Hkind ws true) by done. by rewrite Hf.
    + rewrite decide_False; [done|]. intros ->. by pose proof (table_inj r _ _ _ Hr Hst1 Ha).
Qed.

(** One object replaced, the table and the other objects kept. *)
Lemma conserves_object ws sid oid ev r st st' v : open_stream ws sid oid r -> objs r !! oid = Some st ->
  of_kind ws st' -> done st' = done st ->
  let r' := set_serving v (set_objs (<[oid := st']> (objs r)) r) in
  took oid ev r ++ items st' ++ in_hand oid r' = items st ++ in_hand oid r ++ arrived ws sid ev ->
  conserves ws sid oid ev r r'.
Proof.
  intros (Ha & st0 & Hs0 & Hk & Hd) Hs Hk' Hd' r' E. simplify_eq. right. unfold open_stream, queue_of. subst r'.
  fields. rewrite lookup_insert_eq, Hs0. split; [|done]. split; [done|]. exists st'. by rewrite Hd'.
Qed.

Lemma conserves_other ws sid oid ev r o st' v : open_stream ws sid oid r -> o <> oid -> took oid ev r = [] ->
  arrived ws sid ev = [] ->
  let r' := set_serving v (set_objs (<[o := st']> (objs r)) r) in
  in_hand oid r' = in_hand oid r -> conserves ws sid oid ev r r'.
Proof.
  intros Hopen Hne Ht Ha r' Hh. apply conserves_same; [done| | |done|].
  - unfold r'. fields. by apply lookup_insert_ne.
  - by destruct Hopen.
  - by rewrite Hh, Ha, app_nil_r.
Qed.

Lemma set_serving_id r : set_serving (serving r) r = r.
Proof. by destruct r. Qed.

Lemma items_chunks q st : chunks st = Some q -> (chunks st = None \/ wsInbound st = None) -> items st = map Chunk q.
Proof. unfold items. intros -> [|E]; [done|]. rewrite E. cbn. apply app_nil_r. Qed.
Lemma items_frames q st : wsInbound st = Some q -> (chunks st = None \/ wsInbound st = None) -> items st = map Frame q.
Proof. unfold items. intros -> [E|]; [|done]. by rewrite E. Qed.

Lemma conserves_deliver ws sid oid r r' : runner_ok r -> open_stream ws sid oid r ->
  deliver_step r = Some r' -> conserves ws sid oid Deliver r r'.
Proof.
  intros Hr Hopen. unfold deliver_step. destruct (serving r) as [|sid' o c|sid' o m|] eqn:Ev; try done.
  all: destruct (objs r !! o) as [st|] eqn:Hs; cbn [mbind option_bind]; [destruct (ok_within r Hr o st Hs) as (_ & _ & Hx)|done].
  - destruct (chunks st) as [q|] eqn:Eq; cbn [mbind option_bind]; [|done]. destruct (_ <? _)%nat; [|done].
    intros [= <-]. destruct (decide (o = oid)) as [->|Hne].
    + apply (conserves_object ws sid oid Deliver r st); try done.
      { destruct Hopen as (_ & st0 & Hs0 & Hk & _). simplify_eq. destruct ws; cbn in *; [done|eauto]. }
      unfold in_hand. fields. rewrite Ev, decide_True by done.
      rewrite (items_chunks q st Eq), (items_chunks (q ++ [c]) (set_chunks (q ++ [c]) st)); cbn; auto.
      * by rewrite map_app, !app_nil_r.
      * by destruct Hx as [|]; [congruence|auto].
      * by rewrite Eq.
    + apply conserves_other; [done..|]. unfold in_hand. fields. by rewrite Ev, decide_False.
  - destruct (wsInbound st) as [q|] eqn:Eq; cbn [mbind option_bind]; [|done]. destruct (_ <? _)%nat; [|done].
    intros [= <-]. destruct (decide (o = oid)) as [->|Hne].
    + apply (conserves_object ws sid oid Deliver r st); try done.
      { destruct Hopen as (_ & st0 & Hs0 & Hk & _). simplify_eq. destruct ws; cbn in *; [eauto|done]. }
      unfold in_hand. fields. rewrite Ev, decide_True by done.
      rewrite (items_frames q st Eq), (items_frames (q ++ [m]) (set_wsInbound (q ++ [m]) st)); cbn; auto.
      * by rewrite map_app, !app_nil_r.
      * by destruct Hx as [|]; [auto|congruence].
      * by rewrite Eq.
    + apply conserves_other; [done..|]. unfold in_hand. fields. by rewrite Ev, decide_False.
Qed.

Lemma conserves_take ws sid oid o r r' : runner_ok r -> open_stream ws sid oid r ->
  take_step o r = Some r' -> conserves ws sid oid (Take o) r r'.
Proof.
  intros Hr Hopen. unfold take_step. destruct (bool_decide _); [|done].
  destruct (objs r !! o) as [st|] eqn:Hs; cbn [mbind option_bind]; [|done].
  destruct (ok_within r Hr o st Hs) as (_ & _ & Hx).
  assert (Hput : forall st' it, done st' = done st -> (forall w, of_kind w st -> of_kind w st') ->
    items st = it :: items st' -> conserves ws sid oid (Take o) r (set_objs (<[o := st']> (objs r)) r)).
  { intros st' it Hd Hk Hi.
    rewrite <- (set_serving_id (set_objs (<[o := st']> (objs r)) r)). change (serving (set_objs _ r)) with (serving r).
    destruct (decide (o = oid)) as [->|Hne].
    - apply (conserves_object ws sid oid _ r st); try done.
      + destruct Hopen as (_ & st0 & Hs0 & Hk0 & _). simplify_eq. by apply Hk.
      + cbn. rewrite decide_True by done. unfold queue_of. rewrite Hs, Hi. cbn. by rewrite app_nil_r.
    - apply conserves_other; try done. cbn. by rewrite decide_False. }
  destruct (chunks st) as [[|c q]|] eqn:Ec; destruct (wsInbound st) as [[|m q']|] eqn:Ew; try done;
    intros [= <-]; try (destruct Hx; congruence); eapply Hput; try done.
  all: try (intros [] [? E]; cbn; eauto; congruence).
  all: unfold items; rewrite ?Ec, ?Ew; cbn; rewrite ?Ec, ?Ew; done.
Qed.

Lemma conserves_finish ws sid oid o sid' j r : runner_ok r -> open_stream ws sid oid r ->
  running r !! o = Some (sid', j) -> conserves ws sid oid (Finish o) r (finish_stream o sid' r).
Proof.
  intros Hr Hopen Hg. destruct Hopen as (Ha & st & Hs & Hk & Hd) eqn:Eop. clear Eop.
  destruct (ok_table r Hr sid oid Ha) as (Hne & j0 & Hj0). rewrite finish_stream_eq.
  destruct (decide (sid' = sid)) as [->|Hn].
  { left. rewrite Ha, (proj2 (String.eqb_neq _ _) Hne). unfold closed_stream. fields.
    rewrite lookup_alter_eq. destruct (decide (o = oid)) as [->|].
    - rewrite lookup_alter_eq, Hs. cbn. eauto.
    - rewrite lookup_alter_ne, Hs by done. cbn. eauto. }
  assert (Ho : o <> oid) by congruence.
  assert (Hobj : alter cancel o (objs r) !! oid = objs r !! oid) by by apply lookup_alter_ne.
  destruct (activeStreams r !! sid') as [o2|] eqn:Ea2; [destruct (String.eqb sid' "")|].
  - by apply conserves_same; fields; try done; rewrite app_nil_r.
  - apply conserves_same; fields; try done; try by rewrite app_nil_r.
    + rewrite lookup_alter_ne; [done|]. intros ->. apply Hn. by eapply table_inj.
    + by rewrite lookup_delete_ne.
  - by apply conserves_same; fields; try done; rewrite app_nil_r.
Qed.

Lemma step_conserves ws sid oid ev r r' : runner_ok r -> open_stream ws sid oid r ->
  undisturbed sid ev = true -> step ev r r' -> conserves ws sid oid ev r r'.
Proof.
  intros Hr Hopen Hu H%step_cases. destruct Hopen as (Ha & st & Hs & Hk & Hd) eqn:Eop. clear Eop. destruct ev.
  - destruct H. by apply conserves_served.
  - destruct H as [Hv ->]. apply conserves_same; try done. unfold serve_read_error, in_hand. fields. by rewrite Hv.
  - by apply conserves_deliver.
  - destruct H as (o & st' & Hw & Hs' & Hd'). assert (o <> oid) by congruence.
    pose proof (delivery_warning_idle _ _ _ Hw) as [(Ho & Hact & _) Hv]. apply conserves_same; try done.
    + by rewrite Ho.
    + by rewrite Hact.
    + cbn. rewrite app_nil_r. unfold in_hand, delivery_warning in *. rewrite Hv.
      destruct (serving r); simplify_eq; by rewrite ?decide_False.
  - done.
  - by apply conserves_take.
  - destruct H as (sid' & j & Hg & ->). by eapply conserves_finish.
  - destruct H as ([e Hv] & He & ->). destruct (ok_table r Hr sid oid Ha) as (_ & j & Hj).
    by rewrite He in Hj.
Qed.

(** A stream that is closed stays closed. *)
Lemma alter_done f o (m : gmap nat activeStream) oid st : (forall s, done s = true -> done (f s) = true) ->
  m !! oid = Some st -> done st = true -> exists st', alter f o m !! oid = Some st' /\ done st' = true.
Proof.
  intros Hf Hs Hd. destruct (decide (o = oid)) as [->|].
  - rewrite lookup_alter_eq, Hs. cbn. eauto.
  - rewrite lookup_alter_ne by done. eauto.
Qed.
Lemma insert_done o (m : gmap nat activeStream) oid st st0 st' : m !! oid = Some st -> done st = true ->
  m !! o = Some st0 -> done st' = done st0 -> exists st'', <[o := st']> m !! oid = Some st'' /\ done st'' = true.
Proof.
  intros Hs Hd Ho E. destruct (decide (o = oid)) as [->|].
  - rewrite lookup_insert_eq. exists st'. split; [done|]. congruence.
  - rewrite lookup_insert_ne by done. eauto.
Qed.

Lemma closed_stays oid ev r r' : runner_ok r -> step ev r r' -> closed_stream oid r -> closed_stream oid r'.
Proof.
  intros Hr H%step_cases (st & Hs & Hd). destruct ev.
  - destruct H as [_ Hserved]. destruct Hserved as [j _ | r' (Ho & _) _ _ | | o r' _ (Ho & _) _ | |];
      try (exists st; by rewrite ?Ho).
    + rewrite start_stream_eq. exists st. fields. split; [|done].
      rewrite lookup_insert_ne; [done|]. intros <-. destruct (ok_fresh r Hr (next_oid r)); [lia|congruence].
    + unfold closed_stream. rewrite Ho. fields. by eapply alter_done.
  - destruct H as [_ ->]. by exists st.
  - unfold deliver_step in H. destruct (serving r); try done.
    all: destruct (objs r !! oid0) as [st0|] eqn:Hs0; cbn [mbind option_bind] in H; [|done].
    + destruct (chunks st0) as [q|]; cbn [mbind option_bind] in H; [|done]. destruct (_ <? _)%nat; [|done].
      injection H as <-. unfold closed_stream. fields. by eapply insert_done.
    + destruct (wsInbound st0) as [q|]; cbn [mbind option_bind] in H; [|done]. destruct (_ <? _)%nat; [|done].
      injection H as <-. unfold closed_stream. fields. by eapply insert_done.
  - destruct H as (o & st' & Hw & _). apply delivery_warning_idle in Hw as [(Ho & _) _]. exists st. by rewrite Ho.
  - destruct H as (o & Hw). apply delivery_warning_idle in Hw as [(Ho & _) _]. exists st. by rewrite Ho.
  - unfold take_step in H. destruct (bool_decide _); [|done].
    destruct (objs r !! oid0) as [st0|] eqn:Hs0; cbn [mbind option_bind] in H; [|done].
    destruct (chunks st0) as [[|c q]|]; destruct (wsInbound st0) as [[|m q']|]; try done;
      injection H as <-; unfold closed_stream; fields; by eapply insert_done.
  - destruct H as (sid & j & Hg & ->). rewrite finish_stream_eq. unfold closed_stream.
    destruct (alter_done cancel oid0 (objs r) oid st ltac:(done) Hs Hd) as (st1 & Hs1 & Hd1).
    destruct (activeStreams r !! sid); [destruct (String.eqb sid "")|]; fields; eauto using alter_done.
  - destruct H as (_ & _ & ->). by exists st.
Qed.

(** A stream that is open cannot be closed too. *)
Lemma open_not_closed ws sid oid r : open_stream ws sid oid r -> closed_stream oid r -> False.
Proof. intros (_ & st & Hs & _ & Hd) (st' & Hs' & Hd'). congruence. Qed.

Lemma closed_runs oid evs r r' got : runner_ok r -> runs oid evs r r' got -> closed_stream oid r -> closed_stream oid r'.
Proof.
  intros Hr H. induction H as [|ev evs r r1 r2 got Hs _ IH]; [done|]. intros Hc.
  apply IH; [by eapply step_ok | by eapply closed_stays].
Qed.

Lemma runs_in_order ws sid oid evs r r' got : runner_ok r -> open_stream ws sid oid r ->
  forallb (undisturbed sid) evs = true -> runs oid evs r r' got -> open_stream ws sid oid r' ->
  got ++ queue_of oid r' ++ in_hand oid r' = queue_of oid r ++ in_hand oid r ++ concat (map (arrived ws sid) evs).
Proof.
  intros Hr Ho Hu H. revert Hr Ho Hu. induction H as [|ev evs r r1 r2 got Hs Hruns IH]; intros Hr Ho Hu Ho'.
  { cbn. by rewrite app_nil_r. }
  cbn in Hu. apply andb_true_iff in Hu as [Hu1 Hu2].
  assert (Hr1 : runner_ok r1) by by eapply step_ok.
  destruct (step_conserves ws sid oid ev r r1 Hr Ho Hu1 Hs) as [Hc|[Ho1 E]].
  - exfalso. eapply open_not_closed; [exact Ho'|]. by eapply closed_runs.
  - cbn. rewrite <- app_assoc, IH by done. rewrite !app_assoc. f_equal.
    rewrite <- !app_assoc. exact E.
Qed.

(** C4: While a stream is open, its handler gets what the gateway sends for
    it, complete and in order: over any interleaving with the other streams,
    what the handler has received, followed by what its channel holds and what
    the read loop is about to put there, is exactly what was there before and
    the body chunks (or WebSocket messages) that arrived since. *)
Theorem stream_in_order ws sid oid evs r r' got :
  reachable r -> open_stream ws sid oid r -> forallb (undisturbed sid) evs = true ->
  runs oid evs r r' got -> open_stream ws sid oid r' ->
  got ++ queue_of oid r' ++ in_hand oid r' = queue_of oid r ++ in_hand oid r ++ concat (map (arrived ws sid) evs).
Proof. intros Hr%reachable_ok. by apply runs_in_order. Qed.

(** A request start opens a stream with an empty channel. *)
Lemma start_opens msg req r r0 : runner_ok r ->
  env_Type (msg_Envelope msg) = TypeHTTPRequestStart -> env_StreamID (msg_Envelope msg) <> ""%string ->
  DecodePayload RequestStart (msg_Envelope msg) = Ok req -> step (Receive msg) r r0 ->
  open_stream false (env_StreamID (msg_Envelope msg)) (next_oid r) r0 /\
  queue_of (next_oid r) r0 = [] /\ in_hand (next_oid r) r0 = [] /\ serving r0 = Reading /\
  running r0 !! next_oid r = Some (env_StreamID (msg_Envelope msg), HTTPStreamJob (msg_Envelope msg) req).
Proof.
  intros Hr Et Hne Hdec (s & s' & H). cbn in H. destruct (serving r) eqn:Hv; try done.
  unfold bind, serve_message in H. rewrite Et, Hdec in H. cbn in H. unfold ret in H. simplify_eq.
  rewrite start_stream_eq, (proj2 (String.eqb_neq _ _) Hne). unfold open_stream, queue_of, in_hand. fields.
  rewrite !lookup_insert_eq, Hv. split_and!; try done. exists (newActiveStream (Some [])). split_and!; [done | by exists [] | done].
Qed.

(** A run, computed. *)
Fixpoint exec (oid : nat) (evs : list event) (r : Runner) : option (Runner * list item) :=
  match evs with
  | [] => Some (r, [])
  | ev :: evs =>
      r1 ← fst (runner_step cfg conn_Write ev r agent0);
      o ← exec oid evs r1;
      Some (o.1, took oid ev r ++ o.2)
  end.
Lemma exec_runs oid evs r r' got : exec oid evs r = Some (r', got) -> runs oid evs r r' got.
Proof.
  revert r got. induction evs as [|ev evs IH]; intros r got; cbn [exec].
  - intros [= <- <-]. constructor.
  - destruct (runner_step cfg conn_Write ev r agent0) as [[r1|] s1] eqn:E; cbn [fst mbind option_bind]; [|done].
    destruct (exec oid evs r1) as [[r2 got']|] eqn:E2; cbn [mbind option_bind]; [|done].
    intros [= <- <-]. econstructor; [by eexists _, _|]. by apply IH.
Qed.
Lemma runs_reachable oid evs r r' got : reachable r -> runs oid evs r r' got ->
  reachable r'.
Proof.
  intros Hr H. induction H as [|ev evs r r1 r2 got Hs _ IH]; [done|]. apply IH.
  eapply rtc_r; [exact Hr|by exists ev].
Qed.
End properties.

(** * Witnesses *)
Module Witness_streams.
Definition const_codec {T} (t : T) : JSONCodec T :=
  {| Marshal _ := Ok (to_bytes "{}"); Unmarshal _ := Ok t |}.
#[local] Instance je : JSONCodec Envelope := const_codec (mkEnvelope TypePing "" "" []).
#[local] Instance jstart : JSONCodec RequestStart := const_codec (mkRequestStart "POST" "/up" "" ∅ 0).
#[local] Instance jchunk : JSONCodec BodyChunk := const_codec (mkBodyChunk []).
#[local] Instance jcancel : JSONCodec StreamCancel := const_codec (mkStreamCancel "").
#[local] Instance jopen : JSONCodec Open := const_codec (mkOpen "/" "" ∅ []).
Definition conn_ok : nat -> MessageType * bytes -> option error := fun _ _ => None.
Definition cfg : Config := normalizeConfig (mkConfig "" "" "" 3000 "http://127.0.0.1:3000" "" 0 0 0 0 0 0 0 0 0 0 0 "" "").

Definition message (typ sid : string) (body : string) : Message :=
  mkMessage (mkEnvelope typ sid "tun_1" (to_bytes "{}")) (to_bytes body) true.
Definition opened : list event := [Receive (message TypeHTTPRequestStart "str_1" "")].
Definition traffic : list event :=
  [Receive (message TypeHTTPRequestBody "str_1" "hello "); Deliver;
   Receive (message TypeHTTPRequestStart "str_2" ""); Take 0;
   Receive (message TypeHTTPRequestBody "str_2" "other"); Deliver; Finish 1;
   Receive (message TypeHTTPRequestBody "str_1" "world"); Deliver;
   Receive (message TypeHTTPRequestEnd "str_1" "")].

Lemma stream_in_order_witness :
  match exec cfg conn_ok 0 opened runner0 with
  | Some (r, _) =>
      match exec cfg conn_ok 0 traffic r with
      | Some (r', got) =>
          got ++ queue_of 0 r' ++ in_hand 0 r'
          = [Chunk (mkRequestBodyChunk (to_bytes "hello ") false);
             Chunk (mkRequestBodyChunk (to_bytes "world") false); Chunk (mkRequestBodyChunk [] true)]
      | None => False
      end
  | None => False
  end.
Proof.
  destruct (exec cfg conn_ok 0 opened runner0) as [[r got0]|] eqn:E; [|by vm_compute in E].
  destruct (exec cfg conn_ok 0 traffic r) as [[r' got]|] eqn:E2; [|by vm_compute in E; injection E as <- <-; vm_compute in E2].
  etransitivity; [apply (stream_in_order cfg conn_ok false "str_1" 0 traffic r r' got)|
    by vm_compute in E; injection E as <- <-].
  - by apply (runs_reachable cfg conn_ok 0 opened runner0 r got0); [apply rtc_refl|apply exec_runs].
  - vm_compute in E. injection E as <- <-. by split; [|eexists; split_and!; [done|eexists|]].
  - done.
  - by apply exec_runs.
  - vm_compute in E. injection E as <- <-. vm_compute in E2. injection E2 as <- <-.
    by split; [|eexists; split_and!; [done|eexists|]].
Defined.

(** A body of thirty-three chunks that the local service does not read: the
    read loop waits, and the table, the bound and the way out are as stated. *)
Definition unread : list event :=
  opened ++ concat (repeat [Receive (message TypeHTTPRequestBody "str_1" "x"); Deliver] 32)
  ++ [Receive (message TypeHTTPRequestBody "str_1" "x")].
Lemma streams_sound_witness :
  match exec cfg conn_ok 0 unread runner0 with
  | Some (r, _) =>
      waiting_for r = Some ("str_1"%string, 0%nat) /\ deliver_step r = None /\
      exists r1 r2, step cfg conn_ok (Finish 0) r r1 /\ step cfg conn_ok DeliverClosed r1 r2
  | None => False
  end.
Proof.
  destruct (exec cfg conn_ok 0 unread runner0) as [[r got]|] eqn:E; [|by vm_compute in E].
  assert (Hr : reachable cfg conn_ok r)
    by (apply (runs_reachable cfg conn_ok 0 unread runner0 r got); [apply rtc_refl|by apply exec_runs]).
  destruct (streams_sound cfg conn_ok r Hr) as (_ & _ & _ & Hw).
  assert (Hwait : waiting_for r = Some ("str_1"%string, 0%nat)) by (vm_compute in E; by injection E as <- <-).
  assert (Hfull : deliver_step r = None) by (vm_compute in E; by injection E as <- <-).
  split_and!; [done|done|]. destruct (Hw _ _ Hwait) as [[r' Hs]|[[r' Hs]|(_ & _ & _ & Hfin)]]; [..|done].
  - apply step_cases in Hs. cbn in Hs. congruence.
  - apply step_cases in Hs. destruct Hs as (oid & st & Hd & Hs & Hdone). exfalso.
    vm_compute in E. injection E as <- <-. cbn in Hd. injection Hd as <- _.
    vm_compute in Hs. injection Hs as <-. done.
Defined.
End Witness_streams.
