(* ===== verification/AgentRunner.v ===== *)
(** agent/internal/agent/runner.go: the agent's side of the handshake, one
    session from dialling the gateway to the end of its streams, and the
    keepalive.

    The gateway connection is what its reads answer: [c_read] may depend on
    everything the agent has sent.  The read loop itself is the machine of
    [AgentStreams]; a session ends in a state whose loop has returned and whose
    goroutines have ended. *)
From S2P Require Import Prelude GoStrings Messages Wire AgentConfig AgentForward AgentHandlers AgentStreams Reconnect.
From Stdlib Require Import ZArith Lia List String Ascii Bool.
From stdpp Require Import base gmap strings list.

Open Scope Z_scope.

(** * Construction *)
Section new_runner.
Context {CertPool : Type}.
Context (os_ReadFile : string -> result bytes) (SystemCertPool : result CertPool) (NewCertPool : CertPool)
  (AppendCertsFromPEM : CertPool -> bytes -> option CertPool).

Definition loadCACertPool (path : string) : result (option CertPool) :=
  let path := TrimSpace path in
  if String.eqb path "" then Ok None
  else
    match os_ReadFile path with
    | Err e => Err (Wrap "read CA certificate file" e)
    | Ok pemData =>
        let pool := match SystemCertPool with Ok pool => pool | Err _ => NewCertPool end in
        match AppendCertsFromPEM pool pemData with
        | None => Err (Errorf "no valid certificates found in CA certificate file")
        | Some pool => Ok (Some pool)
        end
    end.

(** An [http.Client]: its timeout and its transport, [None] the default one;
    a transport has its root certificates and the address it always dials. *)
Record Transport := mkTransport { RootCAs : option CertPool; dial_addr : option string }.
Record HTTPClient := mkHTTPClient { hc_Timeout : Duration; hc_Transport : option Transport }.
Record RunnerClients := mkRunnerClients {
  rn_cfg : Config; httpClient : HTTPClient; gatewayHTTPClient : HTTPClient;
}.

Definition NewRunner (cfg : Config) : RunnerClients :=
  let cfg := normalizeConfig cfg in
  let transport :=
    match loadCACertPool (CACertFile cfg) with
    | Err _ => None                       (* logged and ignored *)
    | Ok (Some pool) => Some (mkTransport (Some pool) None)
    | Ok None => None
    end in
  let connectAddr := TrimSpace (ConnectAddr cfg) in
  let transport :=
    if negb (String.eqb connectAddr "") then
      let t := match transport with Some t => t | None => mkTransport None None end in
      Some (mkTransport (RootCAs t) (Some connectAddr))
    else transport in
  mkRunnerClients cfg (mkHTTPClient (RequestTimeout cfg) None) (mkHTTPClient (RequestTimeout cfg) transport).
End new_runner.

(** [contextWithTimeout]: no deadline unless the timeout is positive. *)
Definition contextWithTimeout (now : Time) (parent : option Time) (timeout : Duration) : option Time :=
  if timeout <=? 0 then parent
  else
    let d := now + timeout in
    Some (match parent with Some p => Z.min p d | None => d end).

(** * The handshake *)
Definition errorPayloadMessage (payload : ErrorPayload) : string :=
  let message := TrimSpace (ep_Message payload) in
  if negb (String.eqb message "") then message
  else if negb (String.eqb (ep_Code payload) "") then ep_Code payload
  else "unknown error".

Definition formatAuthError (payload : ErrorPayload) : error :=
  if String.eqb (ep_Code payload) "invalid_token"
  then Errorf "authentication failed: invalid token; check --token or PORTHOOK_TOKEN"
  else Errorf ("authentication failed: " +:+ errorPayloadMessage payload).

Definition formatTunnelRegistrationError (payload : ErrorPayload) : error :=
  Errorf ("tunnel registration failed: " +:+ errorPayloadMessage payload).

Definition validateAuthOK (payload : AuthOK) : option error :=
  if negb (IsProtocolVersionSupported (ao_ProtocolVersion payload)) then
    Some (Errorf ("gateway protocol version " +:+ Quote (ao_ProtocolVersion payload) +:+
                  " is not supported, minimum supported version is " +:+ Quote MinSupportedProtocolVersion))
  else
    match MissingRequiredCapabilities (ao_Capabilities payload) RequiredProtocolCapabilities with
    | [] => None
    | missing => Some (Errorf ("gateway protocol is incompatible: missing capabilities: " +:+ GoStrings.Join missing ", "))
    end.

(** The connection during the handshake: [wsjson.Write] and [wsjson.Read]. *)
Record handshake_conn := mkHandshakeConn {
  c_write : Envelope -> option error;
  c_read : list Envelope -> result Envelope;      (* after these were sent *)
}.

Section handshake.
Context {JAuth : JSONCodec AuthRequest} {JOK : JSONCodec AuthOK} {JErr : JSONCodec ErrorPayload}
  {JReg : JSONCodec TunnelRegister} {JRegd : JSONCodec TunnelRegistered}.
Context (cfg : Config) (conn : handshake_conn).

(** What was sent, and the error. *)
Definition authenticate : list Envelope * option error :=
  match Messages.New TypeAuthRequest
          (Some (mkAuthRequest (Token cfg) (AgentVersion cfg) ProtocolVersion DefaultProtocolCapabilities)) with
  | Err e => ([], Some e)
  | Ok auth =>
      match c_write conn auth with
      | Some e => ([auth], Some (Wrap "send auth request" e))
      | None =>
          ([auth],
           match c_read conn [auth] with
           | Err e => Some (Wrap "read auth response" e)
           | Ok resp =>
               if String.eqb (env_Type resp) TypeAuthOK then
                 match DecodePayload AuthOK resp with
                 | Err e => Some (permanent e)
                 | Ok payload =>
                     match validateAuthOK payload with
                     | Some e => Some (permanent e)
                     | None => None
                     end
                 end
               else if String.eqb (env_Type resp) TypeAuthError then
                 match DecodePayload ErrorPayload resp with
                 | Err e => Some (permanent e)
                 | Ok payload =>
                     if String.eqb (ep_Code payload) "auth_unavailable" then Some (formatAuthError payload)
                     else Some (permanent (formatAuthError payload))
                 end
               else Some (permanent (Errorf ("unexpected auth response " +:+ env_Type resp)))
           end)
      end
  end.

Definition registerTunnel (sent : list Envelope) : list Envelope * result TunnelRegistered :=
  match Messages.New TypeTunnelRegister
          (Some (mkTunnelRegister "http" (LocalTarget cfg) (RequestedSubdomain cfg))) with
  | Err e => (sent, Err e)
  | Ok registration =>
      match c_write conn registration with
      | Some e => (sent ++ [registration], Err (Wrap "send tunnel registration" e))
      | None =>
          let sent := sent ++ [registration] in
          (sent,
           match c_read conn sent with
           | Err e => Err (Wrap "read tunnel registration" e)
           | Ok resp =>
               if String.eqb (env_Type resp) TypeTunnelRegistered then DecodePayload TunnelRegistered resp
               else if String.eqb (env_Type resp) TypeTunnelError then
                 match DecodePayload ErrorPayload resp with
                 | Err e => Err (permanent e)
                 | Ok payload => Err (permanent (formatTunnelRegistrationError payload))
                 end
               else Err (permanent (Errorf ("unexpected tunnel registration response " +:+ env_Type resp)))
           end)
      end
  end.

(** Both, as [runOnce] calls them. *)
Definition handshake : list Envelope * result TunnelRegistered :=
  match authenticate with
  | (sent, Some e) => (sent, Err e)
  | (sent, None) => registerTunnel sent
  end.
End handshake.

(** * One session *)
Definition writeTunnelReadyOutput (cfg : Config) (restored : bool) (publicURL : string) : list string :=
  [if restored then "Tunnel restored"%string else "Tunnel established"%string;
   "Forwarding: " +:+ publicURL +:+ " -> " +:+ LocalTarget cfg].

Section session.
Context {JAuth : JSONCodec AuthRequest} {JOK : JSONCodec AuthOK} {JErr : JSONCodec ErrorPayload}
  {JReg : JSONCodec TunnelRegister} {JRegd : JSONCodec TunnelRegistered}.
Context (cfg : Config).
(** [websocket.Dial], and what the read loop of a session for a tunnel returns
    once its streams have ended. *)
Context (dial : string -> result handshake_conn) (serve : handshake_conn -> string -> option error).

(** Whether it was connected, the error, and what it printed. *)
Definition runOnce (wsURL : string) (restored : bool) : bool * option error * list string :=
  match dial wsURL with
  | Err e => (false, Some (Wrap ("connect to gateway " +:+ wsURL) e), [])
  | Ok conn =>
      match snd (handshake cfg conn) with
      | Err e => (false, Some e, [])
      | Ok registered =>
          (true, serve conn (td_TunnelID registered),
           writeTunnelReadyOutput cfg restored (td_PublicURL registered))
      end
  end.
End session.

(** * The keepalive *)

(** One tick: the ping was answered or it failed. *)
Inductive tick := Pong | PingFailed (err : error).
Inductive keepalive_end := KeepaliveOff | KeepaliveRunning | KeepaliveClosed (status : Z) (reason : string).
Definition StatusGoingAway : Z := 1001.

(** The goroutine of [startKeepalive] over its ticks. *)
Definition startKeepalive (cfg : Config) (ticks : list tick) : keepalive_end :=
  if WebSocketPingInterval cfg <=? 0 then KeepaliveOff
  else
    if existsb (fun t => match t with PingFailed _ => true | Pong => false end) ticks
    then KeepaliveClosed StatusGoingAway "websocket keepalive failed"
    else KeepaliveRunning.
