(* ===== verification/Handshake.v ===== *)
(** The handshake of an agent with the gateway: [handshake] of
    agent/internal/agent/runner.go against [handleAgentWebSocket] of
    server/gateway/internal/gateway/server.go, over a connection that carries
    every envelope. *)
From S2P Require Import Prelude GoStrings Names Messages Wire Codecs Registry Session ControlPlaneClient Config Tunnels.
From S2P Require Import AgentConfig AgentForward AgentHandlers AgentStreams Reconnect AgentRunner.
From Stdlib Require Import ZArith Lia List String Ascii Bool.
From stdpp Require Import base gmap strings list.

Open Scope Z_scope.

Section handshake.
Context {GU : GoURL} {JAuth : JSONCodec AuthRequest} {JOK : JSONCodec AuthOK}
  {JErr : JSONCodec ErrorPayload} {JReg : JSONCodec TunnelRegister} {JRegd : JSONCodec TunnelRegistered}.
Context `{!JSONLaws AuthRequest, !JSONLaws AuthOK, !JSONLaws ErrorPayload, !JSONLaws TunnelRegister,
  !JSONLaws TunnelRegistered}.
Context `{!JSONTotal AuthRequest, !JSONTotal AuthOK, !JSONTotal ErrorPayload, !JSONTotal TunnelRegister,
  !JSONTotal TunnelRegistered}.
Context (gcfg : Config.Config) (B : Backends) (acfg : AgentConfig.Config).
Context (s : Server) (m : agentMetrics) (g : generators).

(** The gateway over a connection that takes every write. *)
Definition gateway (authRead regRead : result Envelope) :=
  handleAgentWebSocket gcfg B (fun _ => None) authRead regRead s m g.

(** What the agent reads after it has sent [sent]: the gateway's next
    envelope, or the end of the connection. *)
Definition gateway_answer (sent : list Envelope) : result Envelope :=
  let answers := match sent with
                 | [auth] => snd (fst (fst (gateway (Ok auth) (Err EOF))))
                 | [auth; reg] => tail (snd (fst (fst (gateway (Ok auth) (Ok reg)))))
                 | _ => []
                 end in
  match answers with env :: _ => Ok env | [] => Err EOF end.

Definition agent_conn : handshake_conn := mkHandshakeConn (fun _ => None) gateway_answer.

Lemma auth_error_decodes code msg : env_Type (auth_error code msg) = TypeAuthError /\
  DecodePayload ErrorPayload (auth_error code msg) = Ok (mkErrorPayload code msg).
Proof.
  unfold auth_error.
  destruct (New_total TypeAuthError (mkErrorPayload code msg) ltac:(done)) as (env & -> & ? & ?). done.
Qed.

Lemma tunnel_error_decodes code msg : exists env, tunnel_error code msg = [env] /\
  env_Type env = TypeTunnelError /\ DecodePayload ErrorPayload env = Ok (mkErrorPayload code msg).
Proof.
  unfold tunnel_error.
  destruct (New_total TypeTunnelError (mkErrorPayload code msg) ltac:(done)) as (env & -> & ? & ?). eauto.
Qed.

(** What the gateway says about a registration: nothing yet when it succeeds,
    exactly one [tunnel.error] when it does not. *)
Definition announced (identity : agentIdentity) (payload : TunnelRegister)
    (out : result Registry.Session * list Envelope * Registry * generators) : Prop :=
  match out with
  | (Ok t, sent, reg', _) =>
      sent = [] /\ Registry.LocalTarget t = tr_LocalTarget payload /\
      (tr_RequestedSubdomain payload <> ""%string -> Registry.Subdomain t = tr_RequestedSubdomain payload)
  | (Err _, sent, _, _) => exists code msg, sent = tunnel_error code msg
  end.

Lemma newTunnelSession_fields payload identity sub g0 t g' :
  newTunnelSession gcfg payload identity sub g0 = (Ok t, g') ->
  Registry.Subdomain t = sub /\ Registry.LocalTarget t = tr_LocalTarget payload.
Proof. unfold newTunnelSession. destruct (next_result _) as [[id|e] ids]; [|done]. by intros [= <- <-]. Qed.

Lemma requested_announced identity payload reg g0 :
  announced identity payload (registerRequestedSubdomain gcfg B identity payload reg g0).
Proof.
  unfold registerRequestedSubdomain, announced.
  destruct (ValidateSubdomain _) as [[]|e]; [|eauto].
  destruct (AuthorizeReservedSubdomain B _ _) as [a|e]; [|eauto].
  destruct (az_Allowed a); cbn [negb]; [|destruct (reservedSubdomainDeniedError _ _); eauto].
  destruct (newTunnelSession _ _ _ _ _) as [[t|e] g'] eqn:En; [|eauto].
  apply newTunnelSession_fields in En as [E1 E2].
  destruct (Register reg (Some t)) as [[[]|e] reg']; [done|]. destruct (errors_Is e _); eauto.
Qed.

Lemma random_announced n identity payload lastErr reg g0 : tr_RequestedSubdomain payload = ""%string ->
  announced identity payload (random_attempts gcfg n identity payload lastErr reg g0).
Proof.
  intros Hr. revert lastErr reg g0. induction n as [|n IH]; intros lastErr reg g0; cbn [random_attempts];
    [unfold announced; eauto|].
  destruct (next_result _) as [[sub|e] subs]; [|unfold announced; eauto].
  destruct (ValidateSubdomain sub) as [[]|e]; [|apply IH].
  destruct (newTunnelSession _ _ _ _ _) as [[t|e] g'] eqn:En; [|unfold announced; eauto].
  apply newTunnelSession_fields in En as [E1 E2].
  destruct (Register reg (Some t)) as [[[]|e] reg']; [by unfold announced|].
  destruct (errors_Is e _); [apply IH|unfold announced; eauto].
Qed.

Lemma session_announced identity payload reg g0 :
  announced identity payload (registerTunnelSession gcfg B identity payload reg g0).
Proof.
  unfold registerTunnelSession. destruct (String.eqb_spec (tr_RequestedSubdomain payload) "") as [E|E]; cbn [negb].
  - by apply random_announced.
  - apply requested_announced.
Qed.

(** What the gateway reads when the agent has sent [sent] and, unless it goes
    on, closed the connection. *)
Definition authRead (sent : list Envelope) : result Envelope :=
  match sent with auth :: _ => Ok auth | [] => Err EOF end.
Definition regRead (sent : list Envelope) : result Envelope :=
  match sent with [_; reg] => Ok reg | _ => Err EOF end.

Definition auth_request : AuthRequest :=
  mkAuthRequest (Token acfg) (AgentVersion acfg) ProtocolVersion DefaultProtocolCapabilities.
Definition agent_identity (v : agentTokenValidation) : agentIdentity :=
  mkIdentity true (TokenID v) (AgentVersion acfg) ProtocolVersion DefaultProtocolCapabilities.
Definition auth_ok : AuthOK := mkAuthOK ProtocolVersion DefaultProtocolCapabilities.

(** The version and the capabilities of the two sides fit. *)
Lemma compatible : IsProtocolVersionSupported ProtocolVersion = true /\
  MissingRequiredCapabilities DefaultProtocolCapabilities RequiredProtocolCapabilities = [].
Proof. by vm_compute. Qed.

(** The gateway's answer to the agent's [auth.request]. *)
Lemma gateway_authenticates auth ok : env_Type auth = TypeAuthRequest ->
  DecodePayload AuthRequest auth = Ok auth_request -> Messages.New TypeAuthOK (Some auth_ok) = Ok ok ->
  authenticateAgent B (fun _ => None) (Ok auth) m =
  match ValidateAgentToken B (Token acfg) with
  | Err e => (Err (Wrap "validate token" e), [auth_error "auth_unavailable" "token validation failed"], count_validation m true)
  | Ok v =>
      if Valid v then (Ok (agent_identity v), [ok], count_validation m false)
      else (Err (Errorf "invalid token"), [auth_error "invalid_token" "invalid token"], count_validation m false)
  end.
Proof.
  intros Ht Hd Hok. destruct compatible as [Hv Hc]. unfold authenticateAgent. rewrite Ht, Hd. cbn [negb String.eqb].
  rewrite String.eqb_refl. cbn [negb ar_Token auth_request].
  destruct (ValidateAgentToken B (Token acfg)) as [v|e]; [|done]. destruct (Valid v); [|done]. cbn [negb].
  cbn [ar_ProtocolVersion ar_Capabilities auth_request ar_AgentVersion].
  rewrite Hv, Hc. cbn [negb]. rewrite bool_decide_true by done. cbn [negb]. fold auth_ok. by rewrite Hok.
Qed.

(** The gateway's answer to the agent's [tunnel.register]. *)
Lemma gateway_registers identity reg : env_Type reg = TypeTunnelRegister ->
  DecodePayload TunnelRegister reg = Ok (mkTunnelRegister "http" (LocalTarget acfg) (RequestedSubdomain acfg)) ->
  exists r sent reg' g', Tunnels.registerTunnel gcfg B (fun _ => None) identity (Ok reg) (registry s) g = (r, sent, reg', g') /\
  match r with
  | Ok t =>
      (exists env, sent = [env] /\ env_Type env = TypeTunnelRegistered /\
        DecodePayload TunnelRegistered env =
          Ok (mkTunnelRegistered (Registry.TunnelID t) (Registry.PublicURL t) (Registry.Subdomain t))) /\
      Registry.LocalTarget t = LocalTarget acfg /\
      (RequestedSubdomain acfg <> ""%string -> Registry.Subdomain t = RequestedSubdomain acfg)
  | Err _ => reg' = registry s /\ exists env code msg, sent = [env] /\ env_Type env = TypeTunnelError /\
      DecodePayload ErrorPayload env = Ok (mkErrorPayload code msg)
  end.
Proof.
  intros Ht Hd. unfold Tunnels.registerTunnel. rewrite Ht, Hd. rewrite String.eqb_refl.
  cbn [negb tr_Protocol]. rewrite String.eqb_refl. cbn [negb].
  set (payload := mkTunnelRegister _ _ _).
  pose proof (session_announced identity payload (registry s) g) as Ha.
  pose proof (registerTunnelSession_ok gcfg B identity payload (registry s) g) as Hreg.
  destruct (registerTunnelSession gcfg B identity payload (registry s) g) as [[[[t|e] sent] reg'] g'].
  - destruct Ha as (-> & Hl & Hsub).
    destruct (New_total TypeTunnelRegistered (mkTunnelRegistered (Registry.TunnelID t) (Registry.PublicURL t)
      (Registry.Subdomain t)) ltac:(done)) as (env & -> & Henv & Hdec).
    eexists _, _, _, _. split; [done|]. cbn. split_and!; eauto.
  - destruct Ha as (code & msg & ->). destruct (tunnel_error_decodes code msg) as (env & -> & ? & ?).
    eexists _, _, _, _. split; [done|]. cbn. split; [done|]. eauto 6.
Qed.

Lemma isPermanent_plain msg : isPermanent (Errorf msg) = false.
Proof. done. Qed.

(** What the agent makes of the answer to its [auth.request]. *)
Lemma agent_authenticates : exists auth ok,
  env_Type auth = TypeAuthRequest /\ DecodePayload AuthRequest auth = Ok auth_request /\
  Messages.New TypeAuthOK (Some auth_ok) = Ok ok /\
  authenticate acfg agent_conn = ([auth],
    match ValidateAgentToken B (Token acfg) with
    | Err _ => Some (Errorf "authentication failed: token validation failed")
    | Ok v => if Valid v then None
              else Some (permanent (Errorf "authentication failed: invalid token; check --token or PORTHOOK_TOKEN"))
    end).
Proof.
  destruct (New_total TypeAuthRequest auth_request ltac:(done)) as (auth & Hauth & Ht & Hd).
  destruct (New_total TypeAuthOK auth_ok ltac:(done)) as (ok & Hok & Htok & Hdok).
  exists auth, ok. split_and!; try done. unfold authenticate. fold auth_request. rewrite Hauth. cbn [c_write c_read agent_conn].
  unfold gateway_answer, gateway, handleAgentWebSocket. rewrite (gateway_authenticates auth ok) by done.
  destruct (ValidateAgentToken B (Token acfg)) as [v|e]; [destruct (Valid v)|]; cbn [fst snd].
  - cbn. rewrite Htok. cbn. rewrite Hdok. unfold validateAuthOK. cbn [ao_ProtocolVersion ao_Capabilities auth_ok].
    by destruct compatible as [-> ->].
  - destruct (auth_error_decodes "invalid_token" "invalid token") as [-> ->]. done.
  - destruct (auth_error_decodes "auth_unavailable" "token validation failed") as [-> ->]. done.
Qed.

(** C2: The agent and the gateway agree on the outcome of a handshake.  Over
    a connection that carries their envelopes the agent ends it with a tunnel
    exactly when the gateway has added a session, and then both hold the same
    tunnel id, public URL and subdomain, the session is found under that id and
    forwards to the agent's local target, and a requested subdomain is the one
    assigned.  Otherwise the gateway is left as it was, and the agent retries
    exactly when the token could not be validated: a rejected token and every
    refused registration are permanent for it. *)
Theorem handshake_agrees sent r : handshake acfg agent_conn = (sent, r) ->
  match r, gateway (authRead sent) (regRead sent) with
  | Ok registered, (Some live, _, s', _) =>
      registered = mkTunnelRegistered (Registry.TunnelID (tunnel live)) (Registry.PublicURL (tunnel live))
                     (Registry.Subdomain (tunnel live)) /\
      sessionByTunnelID s' (td_TunnelID registered) = Some live /\
      Registry.LocalTarget (tunnel live) = LocalTarget acfg /\
      (RequestedSubdomain acfg <> ""%string -> td_Subdomain registered = RequestedSubdomain acfg)
  | Err e, (None, _, s', _) =>
      s' = s /\ (isPermanent e = false <-> exists err, ValidateAgentToken B (Token acfg) = Err err)
  | _, _ => False
  end.
Proof.
  destruct agent_authenticates as (auth & ok & Ht & Hd & Hok & Ha). unfold handshake. rewrite Ha.
  pose proof (gateway_authenticates auth ok Ht Hd Hok) as Hg.
  destruct (ValidateAgentToken B (Token acfg)) as [v|e] eqn:Ev; [destruct (Valid v)|].
  2-3: intros [= <- <-]; unfold gateway, handleAgentWebSocket; cbn [authRead]; rewrite Hg;
    split; [done|]; split; [by try (intros [=]); eauto|by try (intros [? [=]])].
  destruct (New_total TypeTunnelRegister (mkTunnelRegister "http" (LocalTarget acfg) (RequestedSubdomain acfg)) ltac:(done))
    as (reg & Hreg & Htr & Hdr).
  destruct (gateway_registers (agent_identity v) reg Htr Hdr) as (r' & out & reg' & g' & Hgr & Hcase).
  unfold AgentRunner.registerTunnel. rewrite Hreg. cbn [c_write c_read agent_conn app].
  assert (Hgw : gateway (Ok auth) (Ok reg) =
    match r' with
    | Err _ => (None, ok :: out, mkServer reg' (sessions s), mkAgentMetrics
        (tokenValidationsTotal (count_validation m false)) (tokenValidationErrorsTotal (count_validation m false))
        (authFailuresTotal m) (tunnelRegistrationsTotal m) (tunnelRegistrationFailuresTotal m + 1))
    | Ok t => let live := mkLive t (newAgentSession (Registry.TunnelID t) (MaxConcurrentStreams gcfg)) in
        (Some live, ok :: out, addSession (mkServer reg' (sessions s)) live, mkAgentMetrics
        (tokenValidationsTotal (count_validation m false)) (tokenValidationErrorsTotal (count_validation m false))
        (authFailuresTotal m) (tunnelRegistrationsTotal m + 1) (tunnelRegistrationFailuresTotal m))
    end).
  { unfold gateway, handleAgentWebSocket. rewrite Hg, Hgr. by destruct r'. }
  unfold gateway_answer. rewrite Hgw. destruct r' as [t|e]; cbn [fst snd tail].
  - destruct Hcase as ((env & -> & Het & Hed) & Hl & Hsub). rewrite Het. cbn [String.eqb]. rewrite String.eqb_refl, Hed.
    intros [= <- <-]. cbn [authRead regRead]. rewrite Hgw. cbn. split_and!; try done. apply lookup_insert_eq.
  - destruct Hcase as (-> & env & code & msg & -> & Het & Hed). rewrite Het. cbn [String.eqb].
    replace (String.eqb TypeTunnelError TypeTunnelRegistered) with false by done. rewrite String.eqb_refl, Hed.
    intros [= <- <-]. cbn [authRead regRead]. rewrite Hgw. split; [by destruct s|]. split; [done|by intros [? [=]]].
Qed.
End handshake.

(** The development token is accepted, a subdomain is assigned at random. *)
Module Witness_handshake.
#[local] Existing Instance countable_codec.
#[local] Instance sha : SHA256 := {| Sum256 s := to_bytes s |}.
#[local] Instance urls : GoURL := {| url_Parse _ := Err (Errorf "unused"); url_String _ := ""%string |}.
Definition gcfg : Config.Config := Config.ConfigFromEnv (D := {| ParseDuration _ := None |}) (fun _ => ""%string).
Definition acfg : AgentConfig.Config :=
  normalizeConfig (AgentConfig.mkConfig "" "dev-token" "" 3000 "http://127.0.0.1:3000" "0.4.0" 0 0 0 0 0 0 0 0 0 0 0 "" "").
Definition s0 : Server := mkServer Registry.New ∅.
Definition m0 : agentMetrics := mkAgentMetrics 0 0 0 0 0.
Definition g0 : generators := mkGenerators [Ok "demo1234"%string] [Ok "tun_1"%string] 1.
Definition B : Backends := static_backends "dev-token".

Lemma handshake_agrees_witness :
  let out := handshake acfg (agent_conn gcfg B s0 m0 g0) in
  snd out = Ok (mkTunnelRegistered "tun_1" "http://demo1234.localhost" "demo1234") /\
  match gateway gcfg B s0 m0 g0 (authRead (fst out)) (regRead (fst out)) with
  | (Some live, _, s', _) => sessionByTunnelID s' "tun_1" = Some live
  | _ => False
  end.
Proof.
  intros out. assert (E : snd out = Ok (mkTunnelRegistered "tun_1" "http://demo1234.localhost" "demo1234"))
    by (vm_compute; reflexivity).
  split; [done|].
  pose proof (handshake_agrees gcfg B acfg s0 m0 g0 (fst out) (snd out) (surjective_pairing out)) as H.
  rewrite E in H. destruct (gateway gcfg B s0 m0 g0 _ _) as [[[[live|] ?] s'] ?]; [|done]. apply H.
Defined.
End Witness_handshake.
