(* ===== verification/EndToEnd.v ===== *)
(** A public request through the whole tunnel: the gateway's session
    ([Session]) and the agent ([AgentStreams], [AgentHandlers],
    [AgentForward]) put together over the wire format ([Wire]).

    The connection carries every message in order, and the two ends may
    interleave the stream with any others. *)
From S2P Require Import Prelude GoStrings Messages Wire Codecs StreamDeadline Session.
From S2P Require Import AgentConfig AgentForward AgentHandlers AgentStreams.
From Stdlib Require Import ZArith Lia List String Ascii Bool.
From stdpp Require Import base gmap strings list.

Open Scope Z_scope.

(** * Over the wire *)
Section wire.
Context {JE : JSONCodec Envelope}.

(** What the other side reads of a message that was written. *)
Definition arrives (encoded : result (MessageType * bytes)) : option Message :=
  match encoded with
  | Ok m => match Read (Ok m) with Some (Ok msg) => Some msg | _ => None end
  | Err _ => None
  end.
Definition agent_message (f : frame * result unit) : option Message :=
  match fst f with
  | Sent_Envelope env => arrives (WriteEnvelope env)
  | Sent_Body typ sid tid data => arrives (WriteBinaryBody typ sid tid data)
  end.
Definition gateway_message (c : call * result unit) : option Message :=
  match fst c with
  | WriteEnv env => arrives (WriteEnvelope env)
  | WriteBody typ sid tid data => arrives (WriteBinaryBody typ sid tid data)
  end.

(** Ids fit in the two length bytes of a body frame. *)
Definition id_ok (sid tid : string) : Prop := 0 < len sid <= 65535 /\ len tid <= 65535.

Lemma id_ok_nonempty sid tid : id_ok sid tid -> sid <> ""%string.
Proof. intros [[H _] _] ->. unfold len in H. cbn in H. lia. Qed.

Lemma envelope_arrives `{!JSONLaws Envelope} `{!JSONTotal Envelope} env :
  arrives (WriteEnvelope env) = Some (mkMessage env [] false).
Proof.
  unfold arrives, WriteEnvelope. destruct (marshal_total env) as [raw Hr]. rewrite Hr. cbn.
  by rewrite (unmarshal_marshal env raw Hr).
Qed.

Lemma body_arrives typ ft sid tid data : binaryBodyFrameType typ = Ok ft -> id_ok sid tid ->
  exists raw, WriteBinaryBody typ sid tid data = Ok (MessageBinary, raw) /\
  arrives (WriteBinaryBody typ sid tid data)
  = Some (mkMessage (mkEnvelope typ sid tid (to_bytes "{}")) data true).
Proof.
  intros Hft [Hs Ht]. assert (E : exists raw, WriteBinaryBody typ sid tid data = Ok (MessageBinary, raw)).
  { unfold WriteBinaryBody. rewrite NewBinaryBodyFrame_layout, Hft. cbn.
    destruct (String.eqb_spec sid "") as [->|]; [unfold len in Hs; cbn in Hs; lia|].
    destruct (Z.ltb_spec 65535 (len sid)); [lia|]. destruct (Z.ltb_spec 65535 (len tid)); [lia|]. eauto. }
  destruct E as [raw E]. exists raw. split; [done|]. unfold arrives. rewrite E.
  by rewrite (binary_body_over_the_wire _ _ _ _ _ _ E).
Qed.
End wire.

(** * The response *)
Section response.
Context {GU : GoURL} {JE : JSONCodec Envelope} {JRespStart : JSONCodec ResponseStart} {JErr : JSONCodec ErrorPayload}.
Context `{!JSONLaws Envelope, !JSONTotal Envelope, !JSONLaws ResponseStart, !JSONTotal ResponseStart}.
Context (cfg : Config) (client : Client) (shown returned : Duration).

Definition conn_ok : nat -> MessageType * bytes -> option error := fun _ _ => None.

(** What a write over a sound connection records. *)
Definition record_body (sid tid : string) (s : AgentSt) (d : bytes) : AgentSt :=
  add_sent (Sent_Body TypeHTTPResponseBody sid tid d) (Ok tt) 1 s.

Lemma sent_recorded sid tid cs s : sent (fold_left (record_body sid tid) cs s)
  = sent s ++ map (fun d => (Sent_Body TypeHTTPResponseBody sid tid d, Ok tt)) cs.
Proof.
  revert s. induction cs as [|d cs IH]; intros s; cbn [fold_left map]; [by rewrite app_nil_r|].
  rewrite IH. cbn. by rewrite <- app_assoc.
Qed.

Lemma write_ok env s : write conn_ok env s = (Ok tt, add_sent (Sent_Envelope env) (Ok tt) 1 s).
Proof. unfold write, AgentForward.send, WriteEnvelope. by destruct (marshal_total env) as [raw ->]. Qed.

Lemma write_body_ok sid tid d s : id_ok sid tid ->
  writeBinaryBody conn_ok TypeHTTPResponseBody sid tid d s = (Ok tt, record_body sid tid s d).
Proof.
  intros Hid. unfold writeBinaryBody, AgentForward.send.
  destruct (body_arrives (JE := JE) TypeHTTPResponseBody binaryResponseBody sid tid d eq_refl Hid) as (raw & -> & _). done.
Qed.

(** The local service's answer to a stream. *)
Definition local_answer (tid : string) (env : Envelope) (req : RequestStart) (body : reader)
    (resp : localResponse) (data : bytes) : Prop :=
  exists url, buildLocalURL (LocalTarget cfg) (rs_Path req) (rs_Query req) = Ok url /\
    invalid_request client (rs_Method req) url = None /\
    client_Do client (mkLocalRequest (rs_Method req) url (StripHopByHopHeaders (rs_Header req))
      (if 0 <? rs_ContentLength req then rs_ContentLength req else 0) body false) = Ok resp /\
    0 < lp_StatusCode resp /\ plain_eof (lp_Body resp) /\ content (lp_Body resp) = (data, None) /\
    Z.of_nat (length data) <= response_limit (MaxResponseBodyBytes cfg).

(** The frames a handler sends for it. *)
Lemma handler_frames tid env req chunks body n resp data ctx_err s :
  id_ok (env_StreamID env) tid -> requestBodyFromChunks chunks = (body, false, n) ->
  local_answer tid env req body resp data ->
  response_limit (MaxResponseBodyBytes cfg) + stream_chunk (StreamChunkBytes cfg) <= max_int64 ->
  exists start cs s',
    handleHTTPStream cfg client conn_ok shown returned tid env req chunks ctx_err s = (None, s') /\
    sent s' = sent s ++ (Sent_Envelope start, Ok tt)
                :: map (fun d => (Sent_Body TypeHTTPResponseBody (env_StreamID env) tid d, Ok tt)) cs
                ++ [(Sent_Envelope (msg_Envelope (end_message (env_StreamID env) tid)), Ok tt)] /\
    env_Type start = TypeHTTPResponseStart /\
    DecodePayload ResponseStart start = Ok (mkResponseStart (lp_StatusCode resp) (StripHopByHopHeaders (lp_Header resp))) /\
    concat cs = data /\
    Forall (fun d => 0 < Z.of_nat (length d) <= stream_chunk (StreamChunkBytes cfg)) cs.
Proof.
  intros Hid Hbody (url & Hurl & Hinv & Hdo & Hst & Hp & Hc & Hlim) Hroom.
  unfold handleHTTPStream. rewrite Hbody. unfold ForwardHTTPStream. rewrite Hurl, Hinv, Hdo.
  set (rs := mkResponseStart _ _).
  destruct (NewStream_total TypeHTTPResponseStart (env_StreamID env) tid rs ltac:(done)) as (start & Hstart & Ht & _ & _ & Hd).
  unfold bind at 1. unfold bind at 1. unfold AgentHandlers.writeResponseStart.
  cbn [rps_Status rps_Header]. destruct (Z.leb_spec (rps_Status rs) 0) as [|_]; [cbn in *; lia|].
  rewrite Hstart, write_ok. unfold bind at 1.
  destruct (stream_body_spec (AgentHandlers.writeResponseBody conn_ok tid env) (record_body (env_StreamID env) tid)
    (lp_Body resp) (MaxResponseBodyBytes cfg) (StreamChunkBytes cfg) (add_sent (Sent_Envelope start) (Ok tt) 1 s))
    as (cs & t & e & -> & Hf & _ & _ & Hnone & Hok); [intros d s0; by apply write_body_ok|done|done|].
  rewrite Hc in Hok, Hnone. assert (e = None) as -> by by apply Hok. destruct (Hnone eq_refl) as [[= Hcs] _].
  unfold ret at 1. unfold bind at 1.
  assert (Hend : NewStream (T := unit) TypeHTTPResponseEnd (env_StreamID env) tid None
    = Ok (msg_Envelope (end_message (env_StreamID env) tid))) by done.
  rewrite Hend.
  unfold bind at 1. rewrite write_ok. unfold bind, writeStreamRequestOutput, writeRequestOutputFields, print_line,
    logLocalRequestFields, ret.
  eexists start, cs, _. split; [done|]. cbn [sent]. split_and!; try done.
  cbn. rewrite sent_recorded. cbn. by rewrite <- !app_assoc.
Qed.

(** A stream's response as the agent sends it: an error alone, or a start,
    body chunks, and one end or error. *)
Definition answer_shape (sid tid : string) (frames : list (frame * result unit)) : Prop :=
  exists before last, frames = before ++ [(Sent_Envelope last, Ok tt)] /\
    env_StreamID last = sid /\ env_TunnelID last = tid /\
    (before = [] /\ env_Type last = TypeHTTPStreamError \/
     exists start cs, before = (Sent_Envelope start, Ok tt)
         :: map (fun d => (Sent_Body TypeHTTPResponseBody sid tid d, Ok tt)) cs /\
       env_Type start = TypeHTTPResponseStart /\ env_StreamID start = sid /\
       (env_Type last = TypeHTTPResponseEnd \/ env_Type last = TypeHTTPStreamError)).

Lemma stream_loop_records limit w sid tid body total s :
  (forall d s, w d s = (Ok tt, record_body sid tid s d)) -> exists cs out,
  stream_loop limit w body total s
  = (out, fold_left (record_body sid tid) cs s).
Proof.
  intros Hw. revert total s. induction body as [|[d e] rest IH]; intros total s; cbn [stream_loop].
  { by exists [], (total, None). }
  assert (Hafter : forall t s0, exists cs out,
    match e with
    | Some er => if errors_Is er EOF then ret (t, None) else ret (t, Some er)
    | None => stream_loop limit w rest t
    end s0 = (out, fold_left (record_body sid tid) cs s0)).
  { intros t s0. destruct e as [er|]; [|apply IH]. exists []. destruct (errors_Is er EOF); by eexists. }
  destruct (0 <? _); [|apply Hafter]. destruct (limit <? _); [by exists []; eexists|].
  unfold bind. rewrite Hw. destruct (Hafter (int64 (total + Z.of_nat (length d))) (record_body sid tid s d))
    as (cs & out & ->). by exists (d :: cs), out.
Qed.

(** The error frame. *)
Lemma stream_error_sent `{!JSONLaws ErrorPayload, !JSONTotal ErrorPayload} sid tid err print s :
  (forall s, sent (snd (print s)) = sent s /\ logged (snd (print s)) = logged s) ->
  exists last o s', send_stream_error conn_ok sid tid err print s = (o, s') /\
    sent s' = sent s ++ [(Sent_Envelope last, Ok tt)] /\ logged s' = logged s /\
    env_Type last = TypeHTTPStreamError /\ env_StreamID last = sid /\ env_TunnelID last = tid.
Proof.
  intros Hp. unfold send_stream_error.
  destruct (NewStream_total TypeHTTPStreamError sid tid (mkErrorPayload "local_request_failed" (error_message err)) ltac:(done))
    as (last & -> & ? & ? & ? & _).
  unfold bind. rewrite write_ok. destruct (print _) as [u s1] eqn:E. pose proof (Hp (add_sent (Sent_Envelope last) (Ok tt) 1 s)) as [Hp1 Hp2].
  rewrite E in Hp1, Hp2. eexists last, _, s1. split; [done|]. cbn in *. by rewrite Hp1, Hp2.
Qed.

Lemma output_keeps req status d err s :
  sent (snd (writeStreamRequestOutput req status d err s)) = sent s /\
  logged (snd (writeStreamRequestOutput req status d err s)) = logged s.
Proof. unfold writeStreamRequestOutput, writeRequestOutputFields. by destruct err. Qed.

Lemma forward_records tid env req body open s : id_ok (env_StreamID env) tid ->
  exists status n err s', ForwardHTTPStream client (LocalTarget cfg) req body open (MaxResponseBodyBytes cfg)
      (StreamChunkBytes cfg) (AgentHandlers.writeResponseStart conn_ok tid env)
      (AgentHandlers.writeResponseBody conn_ok tid env) s = ((status, n, err), s') /\ logged s' = logged s /\
    (sent s' = sent s /\ err <> None \/
     exists start cs, sent s' = sent s ++ (Sent_Envelope start, Ok tt)
         :: map (fun d => (Sent_Body TypeHTTPResponseBody (env_StreamID env) tid d, Ok tt)) cs /\
       env_Type start = TypeHTTPResponseStart /\ env_StreamID start = env_StreamID env).
Proof.
  intros Hid. unfold ForwardHTTPStream.
  destruct (buildLocalURL _ _ _) as [url|e]; [|by eexists _, _, _, s; eauto].
  destruct (invalid_request client _ url) as [e|]; [by eexists _, _, _, s; eauto|].
  destruct (client_Do client _) as [resp|e]; [|by eexists _, _, _, s; eauto].
  unfold AgentHandlers.writeResponseStart. cbn [rps_Status rps_Header].
  set (rs := if _ <=? 0 then _ else _).
  destruct (NewStream_total TypeHTTPResponseStart (env_StreamID env) tid rs ltac:(done)) as (start & -> & ? & ? & _ & _).
  unfold bind at 1. rewrite write_ok. unfold bind, streamLimitedResponseBody, AgentHandlers.writeResponseBody.
  match goal with |- context [stream_loop ?l ?w ?b ?t ?s0] =>
    destruct (stream_loop_records l w (env_StreamID env) tid b t s0) as (cs & [n err] & ->) end;
    [intros; by apply write_body_ok|].
  assert (Hlog : forall s0, logged (fold_left (record_body (env_StreamID env) tid) cs s0) = logged s0)
    by (induction cs as [|d cs IH]; [done|]; intros s0; cbn; by rewrite IH).
  assert (Hs : forall o : Z * Z * option error, exists status n0 err0 s', (o, fold_left (record_body (env_StreamID env) tid) cs
      (add_sent (Sent_Envelope start) (Ok tt) 1 s)) = ((status, n0, err0), s') /\ logged s' = logged s /\
    (sent s' = sent s /\ err0 <> None \/
     exists start cs, sent s' = sent s ++ (Sent_Envelope start, Ok tt)
         :: map (fun d => (Sent_Body TypeHTTPResponseBody (env_StreamID env) tid d, Ok tt)) cs /\
       env_Type start = TypeHTTPResponseStart /\ env_StreamID start = env_StreamID env)).
  { intros [[status n0] err0]. eexists _, _, _, _. split; [done|]. rewrite Hlog, sent_recorded. split; [done|]. right.
    exists start, cs. cbn. by rewrite <- app_assoc. }
  destruct err; apply Hs.
Qed.

(** C5: Every stream is answered: whatever the request, its body and the local
    service do, a handler that is not cancelled and whose writes succeed sends
    the gateway either one error, or one response start, body chunks and
    exactly one end or error, all under the stream's id, and leaves exactly one
    line in the log. *)
Theorem stream_always_answered `{!JSONLaws ErrorPayload, !JSONTotal ErrorPayload} tid env req chunks s :
  id_ok (env_StreamID env) tid ->
  exists err s' frames line,
    handleHTTPStream cfg client conn_ok shown returned tid env req chunks None s = (err, s') /\
    sent s' = sent s ++ frames /\ answer_shape (env_StreamID env) tid frames /\
    logged s' = logged s ++ [line] /\ rl_stream_id line = env_StreamID env /\ rl_error line = err.
Proof.
  intros Hid. unfold handleHTTPStream. destruct (requestBodyFromChunks chunks) as [[body open] n].
  unfold bind at 1. destruct (forward_records tid env req body open s Hid) as (status & k & err & s1 & -> & Hlog & Hsent).
  destruct err as [e|].
  - unfold bind at 1.
    destruct (stream_error_sent (env_StreamID env) tid e (writeStreamRequestOutput req 0 shown (Some e)) s1)
      as (last & [o err] & s2 & -> & Hs2 & Hl2 & Ht & Hsid & Htid); [apply output_keeps|].
    unfold bind, logLocalRequestFields, ret.
    destruct Hsent as [[E _]|(start & cs & E & H1 & H2)]; eexists err, _, _, _; (split; [done|]); cbn [sent logged];
      rewrite Hs2, Hl2, Hlog, E.
    + split; [done|]. split; [|done]. exists [], last. split_and!; auto.
    + rewrite <- app_assoc. split; [done|]. split; [|done]. eexists _, last. split_and!; try done. right. eauto 8.
  - destruct Hsent as [[_ []]|(start & cs & Hs1 & H1 & H2)]; [done|].
    unfold bind at 1. unfold bind at 1.
    assert (Hend : NewStream (T := unit) TypeHTTPResponseEnd (env_StreamID env) tid None
      = Ok (msg_Envelope (end_message (env_StreamID env) tid))) by done.
    rewrite Hend, write_ok. unfold bind, logLocalRequestFields, ret.
    pose proof (output_keeps req status shown None (add_sent (Sent_Envelope (msg_Envelope (end_message (env_StreamID env) tid)))
      (Ok tt) 1 s1)) as [H3 H4].
    destruct (writeStreamRequestOutput req status shown None _) as [u s2]. cbn [snd] in H3, H4.
    eexists _, _, _, _. split; [done|]. cbn [sent logged]. rewrite H3, H4. cbn [sent logged add_sent]. rewrite Hs1, Hlog, <- app_assoc.
    split; [done|]. split; [|done]. eexists _, _. split_and!; [done|done|done|]. right. eauto 8.
Qed.

(** What the gateway's end of the stream then reads. *)
Lemma frames_arrive start cs sid tid : id_ok sid tid ->
  map agent_message ((Sent_Envelope start, Ok tt)
    :: map (fun d => (Sent_Body TypeHTTPResponseBody sid tid d, Ok tt)) cs
    ++ [(Sent_Envelope (msg_Envelope (end_message sid tid)), Ok tt)])
  = map Some (mkMessage start [] false :: map (chunk_message sid tid) cs ++ [end_message sid tid]).
Proof.
  intros Hid. cbn [map]. unfold agent_message at 1. cbn [fst]. rewrite envelope_arrives. f_equal.
  rewrite !map_app, !map_map. f_equal.
  - apply map_ext. intros d. unfold agent_message. cbn [fst].
    destruct (body_arrives (JE := JE) TypeHTTPResponseBody binaryResponseBody sid tid d eq_refl Hid) as (? & _ & ->). done.
  - cbn. unfold agent_message. cbn [fst]. by rewrite envelope_arrives.
Qed.
End response.

(** * The request *)
Section request.
Context {JE : JSONCodec Envelope} {JStart : JSONCodec RequestStart} {JChunk : JSONCodec BodyChunk}
  {JCancel : JSONCodec StreamCancel} {JOpen : JSONCodec Open}.
Context (cfg : Config) (conn_Write : nat -> MessageType * bytes -> option error).

(** The messages of one stream that the agent's loop reads in a run. *)
Definition received (sid : string) (evs : list event) : list Message :=
  concat (map (fun ev => match ev with
    | Receive msg => if String.eqb (env_StreamID (msg_Envelope msg)) sid then [msg] else []
    | _ => [] end) evs).

(** The body chunks and the end of a request, as the agent reads them. *)
Definition body_message (sid tid : string) (d : bytes) : Message :=
  mkMessage (mkEnvelope TypeHTTPRequestBody sid tid (to_bytes "{}")) d true.
Definition request_end (sid tid : string) : Message :=
  mkMessage (mkEnvelope TypeHTTPRequestEnd sid tid (to_bytes "{}")) [] false.

Definition to_event (i : item) : list chunk_event :=
  match i with Chunk c => [ChunkReceived c] | Frame _ => [] end.

Definition arrived_message (msg : Message) : list item :=
  match chunk_of cfg msg with Some c => [Chunk c] | None => [] end.

Lemma arrived_received sid evs :
  concat (map (arrived cfg false sid) evs) = concat (map arrived_message (received sid evs)).
Proof.
  induction evs as [|ev evs IH]; [done|]. unfold received in *. cbn [map concat].
  rewrite map_app, concat_app, IH. f_equal. destruct ev; try done. cbn.
  destruct (String.eqb _ sid); cbn; [|done]. unfold arrived_message. destruct (chunk_of cfg msg); done.
Qed.

Lemma arrived_body sid tid datas :
  Forall (fun d => Z.of_nat (length d) <= StreamChunkBytes cfg) datas ->
  concat (map arrived_message (map (body_message sid tid) datas ++ [request_end sid tid]))
  = map (fun d => Chunk (mkRequestBodyChunk d false)) datas ++ [Chunk (mkRequestBodyChunk [] true)].
Proof.
  induction 1 as [|d datas Hd _ IH]; [done|]. cbn [map app concat]. rewrite IH. cbn.
  unfold arrived_message, chunk_of. cbn. destruct (Z.ltb_spec (StreamChunkBytes cfg) (Z.of_nat (length d))); [lia|done].
Qed.

(** The pipe holds the body, whatever its chunks. *)
Lemma body_from_chunks datas : Forall (fun d => d <> []) datas ->
  requestBodyFromChunks (concat (map to_event
    (map (fun d => Chunk (mkRequestBodyChunk d false)) datas ++ [Chunk (mkRequestBodyChunk [] true)])))
  = (map (fun d => (d, None)) datas ++ [([], Some EOF)], false, Z.of_nat (length (concat datas))).
Proof.
  induction 1 as [|d datas Hd _ IH]; [done|]. cbn [map app concat to_event requestBodyFromChunks ck_end ck_data].
  rewrite IH. destruct d as [|c d]; [done|]. f_equal. rewrite length_app. lia.
Qed.

Lemma content_chunks datas : content (map (fun d => (d, None)) datas ++ [([], Some EOF)]) = (concat datas, None).
Proof. induction datas as [|d datas IH]; [done|]. cbn. by rewrite IH. Qed.

(** A request body reaches the local service through the agent: when the
    handler has taken what arrived, its body is what the gateway sent. *)
Lemma request_body_arrives sid tid datas start req r r0 evs r' got :
  reachable cfg conn_Write r -> env_Type (msg_Envelope start) = TypeHTTPRequestStart ->
  env_StreamID (msg_Envelope start) = sid -> sid <> ""%string ->
  DecodePayload RequestStart (msg_Envelope start) = Ok req ->
  step cfg conn_Write (Receive start) r r0 ->
  Forall (fun d => d <> [] /\ Z.of_nat (length d) <= StreamChunkBytes cfg) datas ->
  received sid evs = map (body_message sid tid) datas ++ [request_end sid tid] ->
  forallb (undisturbed sid) evs = true -> runs cfg conn_Write (next_oid r) evs r0 r' got ->
  open_stream false sid (next_oid r) r' -> queue_of (next_oid r) r' = [] -> in_hand (next_oid r) r' = [] ->
  running r0 !! next_oid r = Some (sid, HTTPStreamJob (msg_Envelope start) req) /\
  exists body, requestBodyFromChunks (concat (map to_event got)) = (body, false, Z.of_nat (length (concat datas))) /\
    content body = (concat datas, None).
Proof.
  intros Hr Ht Hsid Hne Hd Hs HF Hrec Hu Hruns Hopen Hq Hh. apply reachable_ok in Hr as Hok.
  destruct (start_opens cfg conn_Write start req r r0 Hok Ht ltac:(congruence) Hd Hs) as (Ho & Hq0 & Hh0 & _ & Hrun).
  rewrite Hsid in Ho, Hrun. split; [done|].
  pose proof (runs_in_order cfg conn_Write false sid (next_oid r) evs r0 r' got
    ltac:(by eapply step_ok) Ho Hu Hruns Hopen) as E.
  rewrite Hq, Hh, Hq0, Hh0, arrived_received, Hrec, arrived_body, !app_nil_r in E
    by (eapply Forall_impl; [exact HF|]; by intros ? []). cbn in E. rewrite E.
  eexists. split; [apply body_from_chunks; eapply Forall_impl; [exact HF|]; by intros ? []|apply content_chunks].
Qed.
End request.

(** * The gateway's side of an exchange *)
Section exchange.
Context {JE : JSONCodec Envelope} {JReq : JSONCodec Request} {JStart : JSONCodec RequestStart}
  {JResp : JSONCodec Response} {JRespStart : JSONCodec ResponseStart}
  {JChunk : JSONCodec BodyChunk} {JErr : JSONCodec ErrorPayload} {JCancel : JSONCodec StreamCancel}.
Context `{!JSONLaws Envelope, !JSONTotal Envelope, !JSONLaws RequestStart, !JSONTotal RequestStart}.
(** The public client takes what is written to it. *)
Definition writer_ok : nat -> bytes -> Z * option error := fun _ d => (Z.of_nat (length d), None).

(** The chunks a request body is sent in, and a body that ends with EOF. *)
Fixpoint chunks_of (body : Session.reader) : list bytes :=
  match body with
  | [] => []
  | (d, e) :: rest =>
      match d with [] => [] | _ => [d] end ++ match e with Some _ => [] | None => chunks_of rest end
  end.
Fixpoint complete (body : Session.reader) : Prop :=
  match body with
  | [] => True
  | (_, Some e) :: _ => errors_Is e EOF = true
  | (_, None) :: rest => complete rest
  end.

Lemma chunks_of_concat body : concat (chunks_of body) = body_bytes body.
Proof.
  induction body as [|[d [e|]] rest IH]; [done|..]; cbn; destruct d; cbn; rewrite ?app_nil_r, ?IH; done.
Qed.
Lemma chunks_of_Forall (P : bytes -> Prop) body : Forall (fun rd => P (fst rd)) body ->
  Forall (fun d => d <> [] /\ P d) (chunks_of body).
Proof.
  induction 1 as [|[d [e|]] rest Hd _ IH]; cbn; [constructor|..]; destruct d; cbn; try done; by repeat constructor.
Qed.

Definition sent_body (sid tid : string) (d : bytes) : call * result unit :=
  (WriteBody TypeHTTPRequestBody sid tid d, Ok tt).

Lemma body_loop_complete sid max body n s :
  id_ok sid (tunnelID (sess s)) -> complete body -> 0 <= n -> n + Z.of_nat (length (body_bytes body)) <= max ->
  max <= max_int64 ->
  body_loop conn_ok sid max body n s =
  (Some (n + Z.of_nat (length (body_bytes body)), None),
   mkSt (sess s) (calls s ++ map (sent_body sid (tunnelID (sess s))) (chunks_of body))
     (Session.conn_writes s + length (chunks_of body)) (public s)).
Proof.
  revert n s. induction body as [|[d e] rest IH]; intros n s Hid Hc Hn Hl Hm; cbn [body_loop].
  { cbn. rewrite app_nil_r, Nat.add_0_r, Z.add_0_r. by destruct s. }
  set (tail_bytes := match e with Some _ => [] | None => body_bytes rest end).
  assert (Hbytes : body_bytes ((d, e) :: rest) = d ++ tail_bytes) by (subst tail_bytes; destruct e; cbn; by rewrite ?app_nil_r).
  rewrite Hbytes, length_app in *.
  assert (Hafter : forall n s0, sess s0 = sess s -> 0 <= n -> n + Z.of_nat (length tail_bytes) <= max ->
    match e with
    | Some er => if errors_Is er EOF then Session.ret (n, None) else Session.ret (n, Some (Wrap "read public request body" er))
    | None => body_loop conn_ok sid max rest n
    end s0 = (Some (n + Z.of_nat (length tail_bytes), None),
      mkSt (sess s) (calls s0 ++ map (sent_body sid (tunnelID (sess s))) (match e with Some _ => [] | None => chunks_of rest end))
        (Session.conn_writes s0 + length (match e with Some _ => [] | None => chunks_of rest end)) (public s0))).
  { intros n0 s0 Hs0 Hn0 Hl0. subst tail_bytes. destruct e as [er|]; cbn in Hc.
    - rewrite Hc. cbn. rewrite app_nil_r, Nat.add_0_r, Z.add_0_r, <- Hs0. by destruct s0.
    - by rewrite (IH n0 s0), Hs0 by (rewrite ?Hs0; done). }
  cbn [chunks_of]. destruct d as [|c d]; [cbn in Hl |- *; apply Hafter; [done|lia|lia]|].
  set (data := c :: d) in *. rewrite (proj2 (Z.ltb_lt 0 (Z.of_nat (length data)))) by (cbn; lia).
  rewrite int64_id by (unfold min_int64; lia). destruct (Z.ltb_spec max (n + Z.of_nat (length data))); [lia|].
  unfold bindM, Session.writeBinaryBody, Session.send.
  destruct (body_arrives (JE := JE) TypeHTTPRequestBody binaryRequestBody sid (tunnelID (sess s)) data eq_refl Hid)
    as (raw & -> & _). unfold conn_ok. cbv zeta iota. fold conn_ok.
  rewrite Hafter by first [done | lia]. cbn [sess calls Session.conn_writes public]. f_equal; [f_equal; f_equal; lia|].
  f_equal; [|cbn; lia]. cbn [app map]. by rewrite <- app_assoc.
Qed.

Definition request_calls (sid tid : string) (start : Envelope) (body : Session.reader) : list (call * result unit) :=
  (WriteEnv start, Ok tt) :: map (sent_body sid tid) (chunks_of body)
  ++ [(WriteEnv (msg_Envelope (request_end sid tid)), Ok tt)].

(** What the agent reads of a request. *)
Lemma request_arrives sid tid start body : id_ok sid tid ->
  map gateway_message (request_calls sid tid start body)
  = map Some (mkMessage start [] false :: map (body_message sid tid) (chunks_of body) ++ [request_end sid tid]).
Proof.
  intros Hid. unfold request_calls. cbn [map]. unfold gateway_message at 1. cbn [fst]. rewrite envelope_arrives. f_equal.
  rewrite !map_app, !map_map. f_equal.
  - apply map_ext. intros d. unfold gateway_message. cbn [fst sent_body].
    destruct (body_arrives (JE := JE) TypeHTTPRequestBody binaryRequestBody sid tid d eq_refl Hid) as (? & _ & ->). done.
  - cbn. unfold gateway_message. cbn [fst]. by rewrite envelope_arrives.
Qed.

Lemma gateway_write_ok env s : Session.write conn_ok env s =
  (Some (Ok tt), mkSt (sess s) (calls s ++ [(WriteEnv env, Ok tt)]) (S (Session.conn_writes s)) (public s)).
Proof. unfold Session.write, Session.send, WriteEnvelope. by destruct (marshal_total env) as [raw ->]. Qed.

(** An exchange whose upload succeeds sends the request, then reads the
    response. *)
Lemma exchange_sends sid req body max chunkBytes signals s start res s' :
  let tid := tunnelID (sess s) in
  let n := Z.of_nat (length (body_bytes body)) in
  id_ok sid tid -> complete body -> 0 < max <= max_int64 -> n <= max ->
  NewStream TypeHTTPRequestStart sid tid (Some req) = Ok start ->
  (forall k, readStreamResponse conn_ok writer_ok sid signals chunkBytes (mkResult 0 n 0)
     (mkSt (sess s) (calls s ++ request_calls sid tid start body) k (public s)) = (Some (res, None), s' k)) ->
  exists k, stream_exchange conn_ok writer_ok sid req (Some body) max chunkBytes signals s = (Some (res, None), s' k).
Proof.
  intros tid n Hid Hc Hmax Hn Hstart Hread. unfold stream_exchange, bindM at 1, tunnel_id. fold tid.
  rewrite Hstart. unfold bindM at 1. rewrite gateway_write_ok. unfold writeRequestBody.
  rewrite (proj2 (Z.leb_gt max 0)) by lia. unfold bindM at 1.
  rewrite body_loop_complete; cbn [sess calls Session.conn_writes public]; [|done|done|lia|lia|lia].
  fold tid n. rewrite Z.add_0_l.
  assert (Hend : NewStream (T := unit) TypeHTTPRequestEnd sid tid None = Ok (msg_Envelope (request_end sid tid))) by done.
  rewrite Hend. unfold bindM at 1. rewrite gateway_write_ok. cbn [sess calls Session.conn_writes public].
  unfold bindM at 1. change (set_RequestBytes zero_result n) with (mkResult 0 n 0).
  rewrite <- !app_assoc. cbn [app]. fold (request_calls sid tid start body). rewrite Hread. eexists. done.
Qed.

(** The same around the slot and the mailbox of the stream. *)
Lemma round_trip_around sid req body max chunkBytes signals s res s1 :
  fst (acquireStream (sess s)) = Ok tt ->
  (exists s2, stream_exchange conn_ok writer_ok sid req body max chunkBytes signals
     (mkSt (addPending sid (mkMailbox 32 []) (snd (acquireStream (sess s)))) (calls s) (Session.conn_writes s) (public s))
     = (Some (res, None), s2) /\ calls s2 = calls s1 /\ public s2 = public s1) ->
  exists s', streamRoundTrip conn_ok writer_ok sid req body max chunkBytes signals s = (Some (res, None), s')
    /\ calls s' = calls s1 /\ public s' = public s1.
Proof.
  intros Ha (s2 & E & Ec & Ep). unfold streamRoundTrip, bindM at 1, acquire.
  destruct (acquireStream (sess s)) as [r0 sess1]. cbn in Ha. subst r0. cbn [fst snd] in E.
  unfold deferring, bindM, on_session. cbn [sess calls Session.conn_writes public]. rewrite E. cbn. eauto.
Qed.

Lemma acquired_tunnelID s sid ch : tunnelID (addPending sid ch (snd (acquireStream s))) = tunnelID s.
Proof. unfold acquireStream. destruct (Session.done s); [done|]. destruct (streams s) as [[cap n]|]; [destruct (n <? cap)|]; done. Qed.
End exchange.

(** * The whole tunnel *)
Section tunnel.
Context {GU : GoURL} {JE : JSONCodec Envelope} {JReq : JSONCodec Request} {JStart : JSONCodec RequestStart}
  {JResp : JSONCodec Response} {JRespStart : JSONCodec ResponseStart}
  {JChunk : JSONCodec BodyChunk} {JErr : JSONCodec ErrorPayload} {JCancel : JSONCodec StreamCancel}
  {JOpen : JSONCodec Open}.
Context `{!JSONLaws Envelope, !JSONTotal Envelope, !JSONLaws RequestStart, !JSONTotal RequestStart,
  !JSONLaws ResponseStart, !JSONTotal ResponseStart}.
Context (acfg : Config) (client : Client) (shown returned : Duration).

(** The sizes the two ends are configured with fit together. *)
Record compatible_sizes (maxBodyBytes gatewayChunk : Z) : Prop := {
  max_body : 0 < maxBodyBytes <= max_int64;
  response_chunk : stream_chunk (StreamChunkBytes acfg) <= gatewayChunk;
  response_room : response_limit (MaxResponseBodyBytes acfg) + stream_chunk (StreamChunkBytes acfg) <= max_int64;
}.

(** The agent's part: a state it can reach, the request start read, a run in
    which it reads the rest of the stream, among anything else, and hands all
    of it to the stream's goroutine. *)
Record agent_run (sid : string) (messages : list Message) (r : Runner) (got : list item) : Prop := {
  run_before : reachable acfg conn_ok r;
  run_events : exists r0 evs r' start rest, messages = start :: rest /\
    step acfg conn_ok (Receive start) r r0 /\ received sid evs = rest /\
    forallb (undisturbed sid) evs = true /\ runs acfg conn_ok (next_oid r) evs r0 r' got /\
    open_stream false sid (next_oid r) r' /\ queue_of (next_oid r) r' = [] /\ in_hand (next_oid r) r' = [];
}.

End tunnel.

(** An upload of two chunks through a tunnel that carries another stream too. *)
Module Witness_tunnel.
#[local] Existing Instance countable_codec.
#[local] Instance jreq : JSONCodec Request := {| Marshal _ := Err (Errorf "unused"); Unmarshal _ := Err (Errorf "unused") |}.
#[local] Instance jresp : JSONCodec Response := {| Marshal _ := Err (Errorf "unused"); Unmarshal _ := Err (Errorf "unused") |}.
#[local] Instance jopen : JSONCodec Open := {| Marshal _ := Err (Errorf "unused"); Unmarshal _ := Err (Errorf "unused") |}.
#[local] Instance urls : GoURL := {|
  url_Parse _ := Ok (mkURL "http" "" "127.0.0.1:3000" "" "" "" "");
  url_String u := Scheme u +:+ "://" +:+ url_Host u +:+ url_Path u |}.
Definition acfg : Config :=
  normalizeConfig (mkConfig "" "dev-token" "" 3000 "http://127.0.0.1:3000" "0.4.0" 0 0 0 0 0 0 0 0 0 0 0 "" "").
Definition answer : localResponse :=
  mkLocalResponse 201 ∅ [(to_bytes "created", None); (to_bytes "!", Some EOF)].
Definition client : Client := mkClient (fun _ _ => None) (fun _ => Ok answer).
Definition req : RequestStart := mkRequestStart "POST" "/up" "" ∅ 11.
Definition body : Session.reader := [(to_bytes "hello ", None); (to_bytes "world", Some EOF)].
Definition s0 : St := mkSt (newAgentSession "tun_1" 2) [] 0 [].
Definition start : Envelope := mkEnvelope TypeHTTPRequestStart "str_1" "tun_1" (pos_bits (encode req)).
Definition messages : list Message :=
  mkMessage start [] false :: map (body_message "str_1" "tun_1") (chunks_of body) ++ [request_end "str_1" "tun_1"].
Definition other : Envelope := mkEnvelope TypeHTTPRequestStart "str_2" "tun_1" (pos_bits (encode req)).
Definition evs : list event :=
  [Receive (body_message "str_1" "tun_1" (to_bytes "hello ")); Deliver; Receive (mkMessage other [] false); Take 0;
   Receive (body_message "str_1" "tun_1" (to_bytes "world")); Deliver; Finish 1;
   Receive (request_end "str_1" "tun_1"); Take 0; Deliver; Take 0].
Definition got : list item :=
  [Chunk (mkRequestBodyChunk (to_bytes "hello ") false); Chunk (mkRequestBodyChunk (to_bytes "world") false);
   Chunk (mkRequestBodyChunk [] true)].

Definition after (evs : list event) (r : Runner) : Runner :=
  match exec acfg conn_ok 0 evs r with Some (r', _) => r' | None => r end.
Definition r0 : Runner := after [Receive (mkMessage start [] false)] runner0.
Definition r1 : Runner := after evs r0.

Lemma run_ok : agent_run acfg "str_1" messages runner0 got.
Proof.
  split; [apply rtc_refl|]. exists r0, evs, r1, (mkMessage start [] false), (tail messages).
  split; [reflexivity|]. split; [|split; [|split; [|split; [|split; [|split]]]]].
  - eexists agent0, _. vm_compute. reflexivity.
  - vm_compute. reflexivity.
  - vm_compute. reflexivity.
  - apply exec_runs. vm_compute. reflexivity.
  - split; [vm_compute; reflexivity|]. eexists. split; [vm_compute; reflexivity|]. split; [eexists|]; reflexivity.
  - vm_compute. reflexivity.
  - vm_compute. reflexivity.
Qed.

Lemma local_ok body' : local_answer acfg client "tun_1" start req body' answer (to_bytes "created!").
Proof.
  eexists. split; [reflexivity|]. split; [reflexivity|]. split; [reflexivity|]. split; [done|].
  split; [repeat constructor; cbn; congruence|]. split; [reflexivity|]. vm_compute. congruence.
Qed.

(** A local service that refuses the connection is reported. *)
Definition refusing : Client := mkClient (fun _ _ => None) (fun _ => Err (Errorf "connection refused")).
Lemma stream_always_answered_witness : exists err s' frames line,
  handleHTTPStream acfg refusing conn_ok 0 0 "tun_1" start req (concat (map to_event got)) None agent0 = (err, s') /\
  sent s' = [] ++ frames /\ answer_shape "str_1" "tun_1" frames /\
  logged s' = [] ++ [line] /\ rl_stream_id line = "str_1"%string /\ rl_error line = err.
Proof.
  apply (stream_always_answered acfg refusing 0 0 "tun_1" start req (concat (map to_event got)) agent0).
  split; [split|]; vm_compute; congruence.
Defined.

End Witness_tunnel.
