(* ===== verification/Sql.v ===== *)
(** The part of SQL the Postgres stores write: INSERT, UPDATE, DELETE and
    SELECT with conditions on columns, an order and a limit.

    A statement is a term of [statement] or [selection]; [sql_text] and
    [query_text] are the texts the stores send.  [exec] and [answers] are what
    the PostgreSQL documentation says they do to the rows: keys and
    constraints are checked before a row is written, a failed statement
    changes nothing, [timestamptz] keeps microseconds, a deleted row takes the
    rows that refer to it with it ([ON DELETE CASCADE]), and [ILIKE] compares
    without case.

    The server itself is a parameter: the class [Database], with its state,
    and [DatabaseLaws], which tie its answers to those meanings.  A server may
    refuse any statement; [up] is a server that refuses none.  Collation,
    [lower()] and the text of a [jsonb] value are the server's too
    ([SQLServer]).  That an error means that nothing was written is part of
    the laws; a connection that breaks after the commit is not modelled. *)
From S2P Require Import Prelude GoStrings.
From Stdlib Require Import ZArith Lia List String Ascii Bool Permutation.
From stdpp Require Import base gmap strings list sorting.

Open Scope Z_scope.

(** * Values and rows *)
Inductive value : Type :=
| Text (s : string)
| Instant (t : Time)
| Number (z : Z)
| Boolean (b : bool)
| NULL.
#[export] Instance value_eq_dec : EqDecision value.
Proof. solve_decision. Defined.

(** A row holds its columns in the order of the table's declaration; the first
    is the primary key. *)
Abbreviation row := (list value).

(** What the server keeps of a value: microseconds of an instant. *)
Definition micro (t : Time) : Time := t / 1000 * 1000.
Definition kept (v : value) : value := match v with Instant t => Instant (micro t) | _ => v end.

Lemma micro_idem t : micro (micro t) = micro t.
Proof. unfold micro. by rewrite Z.div_mul. Qed.
Lemma micro_mono s t : s <= t -> micro s <= micro t.
Proof. intros H. unfold micro. pose proof (Z.div_le_mono s t 1000). lia. Qed.
Lemma kept_idem v : kept (kept v) = kept v.
Proof. destruct v; cbn; [done|by rewrite micro_idem|done..]. Qed.

(** * Statements *)
Inductive expr : Type := Column (c : string) | LowerOf (c : string) | TextOf (c : string).
Inductive comparison : Type := Equals | Below | AtMost | AtLeast | ILike.
(** A condition on a row; [n] is the placeholder [$n]. *)
Inductive condition : Type :=
| Compare (e : expr) (op : comparison) (n : nat)
| IsNull (c : string)
| Both (a b : condition)
| Either (a b : condition).

(** A column with the cast of its placeholder or of its value. *)
Definition cast_column : Type := string * string.
Inductive statement : Type :=
| InsertInto (table : string) (columns : list cast_column)
| UpdateSet (table : string) (sets : list (string * nat)) (conds : list condition)
| DeleteFrom (table : string) (conds : list condition).
Inductive direction : Type := ASC | DESC.
Record selection := mkSelection {
  sel_columns : list cast_column; sel_table : string; sel_where : list condition;
  sel_order : list (string * direction); sel_limit : option nat;      (* the placeholder of the limit *)
}.

(** ** Their texts, with one blank for the white space between words *)
Definition placeholder (n : nat) : string := "$" +:+ Itoa (Z.of_nat n).
Definition expr_text (e : expr) : string :=
  match e with Column c => c | LowerOf c => "LOWER(" +:+ c +:+ ")" | TextOf c => c +:+ "::text" end.
Definition comparison_text (op : comparison) : string :=
  match op with Equals => "=" | Below => "<" | AtMost => "<=" | AtLeast => ">=" | ILike => "ILIKE" end.
Fixpoint condition_text (c : condition) : string :=
  match c with
  | Compare e op n => expr_text e +:+ " " +:+ comparison_text op +:+ " " +:+ placeholder n
  | IsNull c => c +:+ " IS NULL"
  | Both a b => "(" +:+ condition_text a +:+ " AND " +:+ condition_text b +:+ ")"
  | Either a b => "(" +:+ condition_text a +:+ " OR " +:+ condition_text b +:+ ")"
  end.
Definition where_text (conds : list condition) : string := GoStrings.Join (condition_text <$> conds) " AND ".
Definition sql_text (st : statement) : string :=
  match st with
  | InsertInto table columns =>
      "INSERT INTO " +:+ table +:+ " (" +:+ GoStrings.Join (fst <$> columns) ", " +:+ ") VALUES (" +:+
      GoStrings.Join (imap (fun i c => placeholder (S i) +:+ snd c) columns) ", " +:+ ")"
  | UpdateSet table sets conds =>
      "UPDATE " +:+ table +:+ " SET " +:+
      GoStrings.Join ((fun '(c, n) => c +:+ " = " +:+ placeholder n) <$> sets) ", " +:+ " WHERE " +:+ where_text conds
  | DeleteFrom table conds => "DELETE FROM " +:+ table +:+ " WHERE " +:+ where_text conds
  end.
Definition query_text (q : selection) : string :=
  "SELECT " +:+ GoStrings.Join ((fun c => fst c +:+ snd c) <$> sel_columns q) ", " +:+ " FROM " +:+ sel_table q +:+
  (if bool_decide (sel_where q = []) then "" else " WHERE " +:+ where_text (sel_where q)) +:+
  (if bool_decide (sel_order q = []) then "" else
     " ORDER BY " +:+
     GoStrings.Join ((fun '(c, d) => c +:+ match d with ASC => " ASC" | DESC => " DESC" end) <$> sel_order q) ", ") +:+
  match sel_limit q with None => "" | Some n => " LIMIT " +:+ placeholder n end.

(** * Schemas *)
Record table_decl := mkTableDecl {
  td_columns : list string;
  td_serial : bool;                                    (* the key is a BIGSERIAL *)
  td_nullable : list string;
  td_check : list (string * list string * string);     (* column IN (values), constraint *)
  td_pkey : string;                                    (* the constraint of the key *)
  td_unique : list (string * string);                  (* column, constraint *)
  td_refs : list (string * string * string);           (* column, table, constraint *)
}.
Abbreviation schema := (list (string * table_decl)).
Definition declared (sch : schema) (table : string) : option table_decl :=
  snd <$> List.find (fun d => String.eqb (fst d) table) sch.

Fixpoint column_index (columns : list string) (c : string) : option nat :=
  match columns with
  | [] => None
  | x :: rest => if String.eqb x c then Some O else S <$> column_index rest c
  end.
Definition column_of (d : table_decl) (c : string) (r : row) : value :=
  default NULL (i ← column_index (td_columns d) c; r !! i).
Definition with_column (d : table_decl) (c : string) (v : value) (r : row) : row :=
  match column_index (td_columns d) c with Some i => <[i := v]> r | None => r end.

(** The tables with a text key, and those with a serial one. *)
Record tables := mkTables {
  keyed : gmap string (gmap string row);
  logs : gmap string (gmap Z row);
}.
Definition keyed_rows (T : tables) (table : string) : gmap string row := default ∅ (keyed T !! table).
Definition log_rows (T : tables) (table : string) : gmap Z row := default ∅ (logs T !! table).
Definition set_keyed (T : tables) (table : string) (rows : gmap string row) : tables :=
  mkTables (<[table := rows]> (keyed T)) (logs T).
Definition set_log (T : tables) (table : string) (rows : gmap Z row) : tables :=
  mkTables (keyed T) (<[table := rows]> (logs T)).

(** * The server's functions *)
Class SQLServer : Type := {
  collate : string -> string -> bool;            (* a <= b in the collation of the database *)
  lower : string -> string;                      (* lower(), and what ILIKE folds with *)
  jsonb : string -> option string;               (* the text of a value cast to jsonb *)
}.

(** LIKE on the bytes of UTF-8 text: [%] stands for any characters and [_] for
    one, a backslash for the character after it. *)
Definition continuation (c : ascii) : bool := in_range 128 191 (byte c).
Fixpoint drop_continuation (t : bytes) : bytes :=
  match t with c :: t' => if continuation c then drop_continuation t' else t | [] => [] end.
Definition at_character (t : bytes) : bool := match t with c :: _ => negb (continuation c) | [] => true end.
Fixpoint like (p : bytes) : bytes -> bool :=
  match p with
  | [] => fun t => match t with [] => true | _ => false end
  | c :: p' =>
      if Ascii.eqb c "%" then
        fix any (t : bytes) : bool :=
          (at_character t && like p' t) || match t with [] => false | _ :: t' => any t' end
      else if Ascii.eqb c "_" then fun t => match t with [] => false | _ :: t' => like p' (drop_continuation t') end
      else if Ascii.eqb c (chr 92) then
        match p' with
        | [] => fun _ => false
        | d :: p'' => fun t => match t with x :: t' => Ascii.eqb x d && like p'' t' | [] => false end
        end
      else fun t => match t with x :: t' => Ascii.eqb x c && like p' t' | [] => false end
  end.

Section meaning.
Context {SV : SQLServer} (sch : schema).

(** * Conditions *)
(** A comparison with NULL is not true. *)
Definition compare_values (op : comparison) (v arg : value) : bool :=
  match v, arg with
  | Text a, Text b =>
      match op with
      | Equals => String.eqb a b
      | Below => collate a b && negb (collate b a)
      | AtMost => collate a b
      | AtLeast => collate b a
      | ILike => like (to_bytes (lower b)) (to_bytes (lower a))
      end
  | Instant a, Instant b | Number a, Number b =>
      match op with Equals => a =? b | Below => a <? b | AtMost => a <=? b | AtLeast => b <=? a | ILike => false end
  | Boolean a, Boolean b => match op with Equals => Bool.eqb a b | _ => false end
  | _, _ => false
  end.
Definition eval_expr (d : table_decl) (r : row) (e : expr) : value :=
  match e with
  | Column c | TextOf c => column_of d c r
  | LowerOf c => match column_of d c r with Text s => Text (lower s) | v => v end
  end.
Fixpoint satisfied (d : table_decl) (args : list value) (c : condition) (r : row) : bool :=
  match c with
  | Compare e op n => compare_values op (eval_expr d r e) (nth (pred n) args NULL)
  | IsNull c => bool_decide (column_of d c r = NULL)
  | Both a b => satisfied d args a r && satisfied d args b r
  | Either a b => satisfied d args a r || satisfied d args b r
  end.
Definition where_holds (d : table_decl) (args : list value) (conds : list condition) (r : row) : bool :=
  forallb (fun c => satisfied d args c r) conds.

(** * Constraints *)
Definition violation (what name code : string) : error :=
  Errorf ("ERROR: " +:+ what +:+ " constraint " +:+ Quote name +:+ " (SQLSTATE " +:+ code +:+ ")").
Definition unique_violation (name : string) : error := violation "duplicate key value violates unique" name "23505".
Definition check_violation (name : string) : error := violation "new row violates check" name "23514".
Definition reference_violation (name : string) : error := violation "insert or update violates foreign key" name "23503".
Definition null_violation (c : string) : error :=
  Errorf ("ERROR: null value in column " +:+ Quote c +:+ " violates not-null constraint (SQLSTATE 23502)").

(** The first constraint of the row itself that it breaks. *)
Definition row_violation (T : tables) (d : table_decl) (r : row) : option error :=
  match List.find (fun c => bool_decide (column_of d c r = NULL) && negb (existsb (String.eqb c) (td_nullable d))) (td_columns d) with
  | Some c => Some (null_violation c)
  | None =>
      match List.find (fun '(c, allowed, _) => negb (existsb (fun v => bool_decide (column_of d c r = Text v)) allowed)) (td_check d) with
      | Some (_, _, name) => Some (check_violation name)
      | None => None
      end
  end.
Definition reference_broken (T : tables) (d : table_decl) (r : row) : option error :=
  match List.find (fun '(c, table, _) => match column_of d c r with
                                          | Text k => bool_decide (keyed_rows T table !! k = None)
                                          | _ => false
                                          end) (td_refs d) with
  | Some (_, _, name) => Some (reference_violation name)
  | None => None
  end.
Definition key_of (r : row) : string := match r with Text k :: _ => k | _ => "" end.
(** The first unique constraint a new row breaks. *)
Definition duplicate (d : table_decl) (rows : gmap string row) (r : row) : option error :=
  if bool_decide (is_Some (rows !! key_of r)) then Some (unique_violation (td_pkey d))
  else match List.find (fun '(c, _) => negb (bool_decide (map_Forall (fun _ x => column_of d c x <> column_of d c r) rows))) (td_unique d) with
       | Some (_, name) => Some (unique_violation name)
       | None => None
       end.
(** The first unique constraint the rows of an update break among themselves. *)
Definition unique_column (d : table_decl) (c : string) (rows : gmap string row) : Prop :=
  map_Forall (fun i x => map_Forall (fun j y => i = j \/ column_of d c x <> column_of d c y) rows) rows.
#[export] Instance unique_column_dec d c rows : Decision (unique_column d c rows).
Proof.
  unfold unique_column. apply map_Forall_dec. intros i x. apply map_Forall_dec. intros j y. apply _.
Defined.

(** * Statements *)
Definition first_error (l : list (option error)) : option error := foldr (fun o acc => match o with Some e => Some e | None => acc end) None l.

(** The value of a column of a new row: its argument, cast, or NULL. *)
Fixpoint argument (columns : list cast_column) (args : list value) (c : string) : result value :=
  match columns, args with
  | (name, cast) :: columns', v :: args' =>
      if String.eqb name c then
        if String.eqb cast "::jsonb" then
          match v with
          | Text s => match jsonb s with Some s' => Ok (Text s') | None => Err (Errorf "ERROR: invalid input syntax for type json (SQLSTATE 22P02)") end
          | _ => Ok v
          end
        else Ok v
      else argument columns' args' c
  | _, _ => Ok NULL
  end.
Fixpoint new_row (wanted : list string) (columns : list cast_column) (args : list value) : result row :=
  match wanted with
  | [] => Ok []
  | c :: rest => try v <- argument columns args c; try vs <- new_row rest columns args; Ok (v :: vs)
  end.

Definition unknown_table (table : string) : error :=
  Errorf ("ERROR: relation " +:+ Quote table +:+ " does not exist (SQLSTATE 42P01)").

(** The rows that refer to deleted ones go with them. *)
Definition refers_to (d : table_decl) (table : string) (gone : gmap string row) (r : row) : bool :=
  existsb (fun '(c, t, _) => String.eqb t table &&
             match column_of d c r with Text k => bool_decide (is_Some (gone !! k)) | _ => false end) (td_refs d).
Definition cascade (table : string) (gone : gmap string row) (T : tables) (decl : string * table_decl) : tables :=
  let '(name, d) := decl in
  if existsb (fun '(_, t, _) => String.eqb t table) (td_refs d)
  then set_keyed T name (filter (fun '(_, r) => refers_to d table gone r = false) (keyed_rows T name))
  else T.

(** [fresh] is the next value of the serial key. *)
Definition exec (fresh : Z) (st : statement) (args : list value) (T : tables) : result (Z * tables) :=
  let args := kept <$> args in
  match st with
  | InsertInto table columns =>
      match declared sch table with
      | None => Err (unknown_table table)
      | Some d =>
          if td_serial d then
            try r <- new_row (tail (td_columns d)) columns args;
            let r := Number fresh :: r in
            match row_violation T d r with
            | Some e => Err e
            | None => Ok (1, set_log T table (<[fresh := r]> (log_rows T table)))
            end
          else
            try r <- new_row (td_columns d) columns args;
            let rows := keyed_rows T table in
            match first_error [row_violation T d r; duplicate d rows r; reference_broken T d r] with
            | Some e => Err e
            | None => Ok (1, set_keyed T table (<[key_of r := r]> rows))
            end
      end
  | UpdateSet table sets conds =>
      match declared sch table with
      | None => Err (unknown_table table)
      | Some d =>
          let rows := keyed_rows T table in
          let hit r := where_holds d args conds r in
          let change r := foldl (fun r '(c, n) => with_column d c (nth (pred n) args NULL) r) r sets in
          let rows' := (fun r => if hit r then change r else r) <$> rows in
          let changed := (map_to_list (filter (fun '(_, r) => hit r = true) rows)).*2 in
          match first_error (((fun r => row_violation T d (change r)) <$> changed) ++
                             ((fun '(c, name) => if bool_decide (unique_column d c rows') then None
                                                 else Some (unique_violation name)) <$> td_unique d) ++
                             ((fun r => reference_broken T d (change r)) <$> changed)) with
          | Some e => Err e
          | None => Ok (Z.of_nat (length changed), set_keyed T table rows')
          end
      end
  | DeleteFrom table conds =>
      match declared sch table with
      | None => Err (unknown_table table)
      | Some d =>
          let hit r := where_holds d args conds r in
          if td_serial d then
            let rows := log_rows T table in
            Ok (Z.of_nat (size (filter (fun '(_, r) => hit r = true) rows)),
                set_log T table (filter (fun '(_, r) => hit r = false) rows))
          else
            let rows := keyed_rows T table in
            let gone := filter (fun '(_, r) => hit r = true) rows in
            Ok (Z.of_nat (size gone),
                foldl (cascade table gone) (set_keyed T table (filter (fun '(_, r) => hit r = false) rows)) sch)
      end
  end.

(** * Queries *)
Definition value_le (a b : value) : bool :=
  match a, b with
  | Text x, Text y => collate x y
  | Instant x, Instant y | Number x, Number y => x <=? y
  | Boolean x, Boolean y => implb x y
  | NULL, NULL => true
  | NULL, _ => false                            (* NULLs come last *)
  | _, _ => true
  end.
Fixpoint ordered (d : table_decl) (order : list (string * direction)) (a b : row) : Prop :=
  match order with
  | [] => True
  | (c, dir) :: rest =>
      let '(x, y) := match dir with ASC => (column_of d c a, column_of d c b) | DESC => (column_of d c b, column_of d c a) end in
      value_le x y = true /\ (value_le y x = true -> ordered d rest a b)
  end.
Definition all_rows (T : tables) (table : string) (d : table_decl) : list row :=
  if td_serial d then (map_to_list (log_rows T table)).*2 else (map_to_list (keyed_rows T table)).*2.
Definition limited (q : selection) (args : list value) (l : list row) : list row :=
  match sel_limit q with
  | None => l
  | Some n => match nth (pred n) args NULL with Number z => take (Z.to_nat z) l | _ => l end
  end.
(** What may be answered: the rows that satisfy the condition, in some order
    that the ORDER BY allows, as many as the limit. *)
Definition answers (q : selection) (args : list value) (T : tables) (out : list (list value)) : Prop :=
  let args := kept <$> args in
  exists d l, declared sch (sel_table q) = Some d /\
    l ≡ₚ List.filter (where_holds d args (sel_where q)) (all_rows T (sel_table q) d) /\
    Sorted (ordered d (sel_order q)) l /\
    out = (fun r => (fun c => column_of d (fst c) r) <$> sel_columns q) <$> limited q args l.
End meaning.

(** * The server *)
Class Database (DB : Type) : Type := {
  Exec : DB -> statement -> list value -> result Z * DB;                       (* rows affected *)
  QueryRows : DB -> selection -> list value -> result (list (list value));
  PingContext : DB -> option error;
}.

(** The error of [QueryRowContext] when there is no row. *)
Definition ErrNoRows : error := Sentinel "sql.ErrNoRows" "sql: no rows in result set".

(** A serial key is positive and above every key given out. *)
Definition above (T : tables) (fresh : Z) : Prop :=
  0 < fresh /\ forall table k r, log_rows T table !! k = Some r -> k < fresh.

Class DatabaseLaws (sch : schema) (DB : Type) {SV : SQLServer} {Db : Database DB} : Type := {
  tables_of : DB -> tables;
  up : DB -> Prop;
  storable : value -> bool;                     (* text the encoding of the database holds, integers that fit *)
  Exec_ok : forall db st args n db', Exec db st args = (Ok n, db') ->
    exists fresh, above (tables_of db) fresh /\ exec sch fresh st args (tables_of db) = Ok (n, tables_of db');
  Exec_err : forall db st args e db', Exec db st args = (Err e, db') -> tables_of db' = tables_of db;
  Query_ok : forall db q args out, QueryRows db q args = Ok out -> answers sch q args (tables_of db) out;
  Query_err : forall db q args e, QueryRows db q args = Err e -> errors_Is e ErrNoRows = false;
  Exec_up : forall db st args, up db -> forallb storable args = true ->
    up (snd (Exec db st args)) /\
    exists fresh, above (tables_of db) fresh /\ fst (Exec db st args) = match exec sch fresh st args (tables_of db) with
                                                                     | Ok (n, _) => Ok n
                                                                     | Err e => Err e
                                                                     end;
  Query_up : forall db q args, up db -> forallb storable args = true -> declared sch (sel_table q) <> None ->
    exists out, QueryRows db q args = Ok out;
}.

(** [QueryRowContext]: the first row. *)
Definition QueryRow {DB} {Db : Database DB} (db : DB) (q : selection) (args : list value) : result (list value) :=
  match QueryRows db q args with
  | Err e => Err e
  | Ok [] => Err ErrNoRows
  | Ok (r :: _) => Ok r
  end.
Definition scan_error : error := Errorf "sql: Scan error: unsupported conversion".
(** [sql.NullTime] and [sql.NullString] *)
Definition null_time (v : value) : result (option Time) :=
  match v with Instant t => Ok (Some t) | NULL => Ok None | _ => Err scan_error end.
Definition null_text (v : value) : result (option string) :=
  match v with Text s => Ok (Some s) | NULL => Ok None | _ => Err scan_error end.
Definition nullable_time (t : option Time) : value := match t with Some t => Instant t | None => NULL end.
Lemma null_time_ok v o : null_time v = Ok o <-> v = nullable_time o.
Proof. destruct v, o; cbn; naive_solver. Qed.
Definition nullable_text (s : option string) : value := match s with Some s => Text s | None => NULL end.

(** * Reasoning about statements *)
(** What a statement answers on a database that is up is what [exec] does,
    whatever serial it draws. *)
Lemma exec_answers {sch DB} {SV : SQLServer} {Db : Database DB} {DL : DatabaseLaws sch DB} db st args out :
  up db -> forallb storable args = true ->
  (forall fresh, exists T', exec sch fresh st args (tables_of db) = (try n <- out; Ok (n, T'))) ->
  exists db' fresh, Exec db st args = (out, db') /\ up db' /\
    match out with
    | Ok n => exec sch fresh st args (tables_of db) = Ok (n, tables_of db')
    | Err _ => tables_of db' = tables_of db
    end.
Proof.
  intros Hup Hs HX. destruct (Exec_up db st args Hup Hs) as (Hup' & f & _ & HE). destruct (HX f) as [T' E]. rewrite E in HE.
  destruct (Exec db st args) as [res db'] eqn:EE. cbn [fst snd] in *. exists db'. destruct out as [n|e]; cbn [rbind] in HE; subst res.
  - destruct (Exec_ok _ _ _ _ _ EE) as (f' & _ & E'). by exists f'.
  - exists f. split; [done|]. split; [done|]. by eapply Exec_err.
Qed.

Lemma ok_pair {A B} (a b : A) (x y : B) : Ok (a, x) = Ok (b, y) -> a = b /\ x = y.
Proof. by intros [= -> ->]. Qed.

Section lemmas.
Context {SV : SQLServer} (sch : schema).

Lemma keyed_rows_set T table rows : keyed_rows (set_keyed T table rows) table = rows.
Proof. unfold keyed_rows, set_keyed. cbn. by rewrite lookup_insert_eq. Qed.
Lemma keyed_rows_set_ne T table rows other : table <> other -> keyed_rows (set_keyed T table rows) other = keyed_rows T other.
Proof. intros H. unfold keyed_rows, set_keyed. cbn. by rewrite lookup_insert_ne. Qed.
Lemma log_rows_set T table rows : log_rows (set_log T table rows) table = rows.
Proof. unfold log_rows, set_log. cbn. by rewrite lookup_insert_eq. Qed.

Lemma first_error_None l : first_error l = None <-> Forall (fun o => o = None) l.
Proof.
  induction l as [|[e|] l IH]; cbn [first_error foldr].
  - split; [constructor|done].
  - split; [done|]. intros H. by apply Forall_cons in H as [? _].
  - rewrite Forall_cons. unfold first_error in IH. tauto.
Qed.

Lemma find_None {A} (f : A -> bool) l : List.find f l = None <-> Forall (fun x => f x = false) l.
Proof.
  induction l as [|x l IH]; cbn; [split; [constructor|done]|]. rewrite Forall_cons, <- IH.
  destruct (f x); [|tauto]. split; [done|by intros []].
Qed.

(** A row that was inserted has a key and unique columns of its own. *)
Lemma duplicate_None d rows r :
  duplicate d rows r = None <->
  rows !! key_of r = None /\
  Forall (fun '(c, _) => forall k x, rows !! k = Some x -> column_of d c x <> column_of d c r) (td_unique d).
Proof.
  unfold duplicate. case_bool_decide as Hk.
  { split; [done|]. intros [H _]. rewrite H in Hk. by destruct Hk. }
  apply eq_None_not_Some in Hk.
  destruct (List.find _ (td_unique d)) as [[c name]|] eqn:E.
  - split; [done|]. intros [_ H]. apply find_some in E as [Hin Hb]. apply negb_true_iff, bool_decide_eq_false in Hb.
    rewrite Forall_forall in H. apply list_elem_of_In in Hin. specialize (H _ Hin). cbn in H. by destruct Hb.
  - apply find_None in E. split; [|done]. intros _. split; [done|]. eapply Forall_impl; [exact E|].
    intros [c name] Hb. apply negb_false_iff, bool_decide_eq_true in Hb. exact Hb.
Qed.

Lemma exec_insert fresh table columns args T d r :
  declared sch table = Some d -> td_serial d = false -> new_row (td_columns d) columns (kept <$> args) = Ok r ->
  exec sch fresh (InsertInto table columns) args T =
  match first_error [row_violation T d r; duplicate d (keyed_rows T table) r; reference_broken T d r] with
  | Some e => Err e
  | None => Ok (1, set_keyed T table (<[key_of r := r]> (keyed_rows T table)))
  end.
Proof. intros Hd Hs Hr. unfold exec. by rewrite Hd, Hs, Hr. Qed.

Lemma exec_insert_ok fresh table columns args T d r n T' :
  declared sch table = Some d -> td_serial d = false -> new_row (td_columns d) columns (kept <$> args) = Ok r ->
  exec sch fresh (InsertInto table columns) args T = Ok (n, T') ->
  T' = set_keyed T table (<[key_of r := r]> (keyed_rows T table)) /\ keyed_rows T table !! key_of r = None /\
  Forall (fun '(c, _) => forall k x, keyed_rows T table !! k = Some x -> column_of d c x <> column_of d c r) (td_unique d).
Proof.
  intros Hd Hs Hr. rewrite (exec_insert _ _ _ _ _ d r) by done.
  destruct (first_error _) eqn:E; [done|]. intros [= <- <-]. apply first_error_None in E.
  rewrite !Forall_cons in E. destruct E as (_ & E & _ & _). apply duplicate_None in E as [? ?]. done.
Qed.

(** Rows an update leaves. *)
Definition updated (d : table_decl) (sets : list (string * nat)) (conds : list condition) (args : list value) (r : row) : row :=
  if where_holds d args conds r then foldl (fun r '(c, n) => with_column d c (nth (pred n) args NULL) r) r sets else r.

Lemma exec_update_ok fresh table sets conds args T d n T' :
  declared sch table = Some d -> exec sch fresh (UpdateSet table sets conds) args T = Ok (n, T') ->
  T' = set_keyed T table (updated d sets conds (kept <$> args) <$> keyed_rows T table) /\
  n = Z.of_nat (size (filter (fun '(_, r) => where_holds d (kept <$> args) conds r = true) (keyed_rows T table))).
Proof.
  intros Hd. unfold exec. rewrite Hd. destruct (first_error _); [done|]. intros [= <- <-]. split; [done|].
  rewrite length_fmap. f_equal. apply length_map_to_list.
Qed.

(** A cascade leaves the tables that do not refer to the one deleted from. *)
Lemma cascade_other table gone t (sch' : schema) T :
  Forall (fun '(name, d) => name = t -> existsb (fun '(_, to, _) => String.eqb to table) (td_refs d) = false) sch' ->
  keyed_rows (foldl (cascade table gone) T sch') t = keyed_rows T t.
Proof.
  intros H. revert T. induction H as [|[name d] sch' Hd _ IH]; intros T; [done|]. cbn [foldl]. rewrite IH. unfold cascade.
  destruct (existsb _ (td_refs d)) eqn:E; [|done]. apply keyed_rows_set_ne. intros ->. discriminate (Hd eq_refl).
Qed.

(** An update that breaks no constraint takes place. *)
Lemma exec_update_total fresh table sets conds args T d :
  declared sch table = Some d ->
  (forall k r, keyed_rows T table !! k = Some r ->
     row_violation T d (updated d sets conds (kept <$> args) r) = None /\
     reference_broken T d (updated d sets conds (kept <$> args) r) = None) ->
  Forall (fun '(c, _) => unique_column d c (updated d sets conds (kept <$> args) <$> keyed_rows T table)) (td_unique d) ->
  exists n T', exec sch fresh (UpdateSet table sets conds) args T = Ok (n, T').
Proof.
  intros Hd Hr Hu. unfold exec. rewrite Hd. cbv zeta.
  match goal with |- context [first_error ?l] => assert (first_error l = None) as -> end; [|eauto].
  apply first_error_None. rewrite !Forall_app, !Forall_fmap.
  assert (Hc : forall P : row -> Prop, (forall k r, keyed_rows T table !! k = Some r ->
      where_holds d (kept <$> args) conds r = true -> P r) ->
    Forall (P ∘ snd) (map_to_list (filter (fun '(_, r) => where_holds d (kept <$> args) conds r = true) (keyed_rows T table)))).
  { intros P HP. apply Forall_forall. intros [k r] Hin%elem_of_map_to_list.
    apply map_lookup_filter_Some in Hin as [Hin Hw]. by apply (HP k). }
  split_and!.
  - apply Hc. intros k r Hk Hw. destruct (Hr _ _ Hk) as [H _]. unfold updated in H. rewrite Hw in H. exact H.
  - eapply Forall_impl; [exact Hu|]. intros [c name] H. cbn. by rewrite bool_decide_true.
  - apply Hc. intros k r Hk Hw. destruct (Hr _ _ Hk) as [_ H]. unfold updated in H. rewrite Hw in H. exact H.
Qed.

(** The rows a query without order and limit answers with. *)
Lemma answers_elem q args T out :
  answers sch q args T out -> sel_limit q = None ->
  exists d, declared sch (sel_table q) = Some d /\ forall v, v ∈ out <->
    exists r, r ∈ all_rows T (sel_table q) d /\ where_holds d (kept <$> args) (sel_where q) r = true /\
      v = (fun c => column_of d (fst c) r) <$> sel_columns q.
Proof.
  intros (d & l & Hd & Hp & _ & ->) Hl. exists d. split; [done|]. intros v. unfold limited. rewrite Hl.
  rewrite list_elem_of_fmap. split.
  - intros (r & -> & Hr). rewrite Hp, list_elem_of_In, filter_In, <- list_elem_of_In in Hr. destruct Hr. eauto.
  - intros (r & Hr & Hw & ->). exists r. split; [done|]. by rewrite Hp, list_elem_of_In, filter_In, <- list_elem_of_In.
Qed.

Lemma all_rows_keyed T table d r :
  td_serial d = false -> r ∈ all_rows T table d <-> exists k, keyed_rows T table !! k = Some r.
Proof.
  intros Hs. unfold all_rows. rewrite Hs, list_elem_of_fmap. split.
  - intros ([k x] & -> & H). exists k. by apply elem_of_map_to_list in H.
  - intros [k H]. exists (k, r). split; [done|]. by apply elem_of_map_to_list.
Qed.
End lemmas.

(** * Tables of records *)
(** What every store does with the rows it gets: [scan] reads one, and an
    error of the statement is wrapped in the words of the operation. *)
Definition plain (columns : list string) : list cast_column := (fun c => (c, ""%string)) <$> columns.
Fixpoint scan_all {R} (scan : list value -> result R) (rows : list (list value)) : result (list R) :=
  match rows with
  | [] => Ok []
  | r :: rest => try x <- scan r; try xs <- scan_all scan rest; Ok (x :: xs)
  end.
Definition list_records {R DB} {Db : Database DB} (scan : list value -> result R) (failure : string) (db : DB) (q : selection)
    : result (list R) :=
  match QueryRows db q [] with Err e => Err (Wrap failure e) | Ok rows => scan_all scan rows end.
Definition lookup_record {R DB} {Db : Database DB} (scan : list value -> result R) (failure : string) (db : DB) (q : selection)
    (v : string) : result (option R) :=
  match (try r <- QueryRow db q [Text v]; scan r) with
  | Ok x => Ok (Some x)
  | Err e => if errors_Is e ErrNoRows then Ok None else Err (Wrap failure e)
  end.
(** [NewPostgresStore]: a store is a database that is not nil. *)
Definition open_store {DB : Type} (db : option DB) : result DB :=
  match db with None => Err (Errorf "database is required") | Some db => Ok db end.
Definition exec_error {DB} (failure : string) (r : result Z * DB) : option error * DB :=
  match r with (Err e, db) => (Some (Wrap failure e), db) | (Ok _, db) => (None, db) end.

Lemma scan_all_Forall2 {R} (scan : list value -> result R) rows l :
  scan_all scan rows = Ok l <-> Forall2 (fun r x => scan r = Ok x) rows l.
Proof.
  revert l. induction rows as [|r rows IH]; intros l; cbn; [split; [by intros [= <-]|by intros H%Forall2_nil_inv_l; subst]|].
  split.
  - intros (x & Hx & (xs & Hxs & [= <-])%rbind_ok)%rbind_ok. constructor; [done|by apply IH].
  - intros (x & xs & Hx & Hxs & ->)%Forall2_cons_inv_l. rewrite Hx. cbn. apply IH in Hxs. by rewrite Hxs.
Qed.

(** Sortedness of the rows is sortedness of what was read from them. *)
Lemma Sorted_scanned {R} (scan : list value -> result R) (P : row -> row -> Prop) (Q : R -> R -> Prop) rows l :
  (forall a b x y, scan a = Ok x -> scan b = Ok y -> P a b -> Q x y) ->
  Forall2 (fun r x => scan r = Ok x) rows l -> Sorted P rows -> Sorted Q l.
Proof.
  intros HPQ HF. induction HF as [|r x rows l Hx HF IH]; [constructor|]. intros [Hs Hh]%Sorted_inv. constructor; [by apply IH|].
  destruct HF as [|r2 x2 rows l Hx2 _]; constructor. inv Hh. by eapply HPQ.
Qed.

Section records.
Context {SV : SQLServer} (sch : schema) {R : Type}.
Context (table : string) (d : table_decl) (scan : list value -> result R) (rid : R -> string).
Context (Hd : declared sch table = Some d) (Hserial : td_serial d = false).
(** A row that scans is whole, and its record has the key of the row. *)
Context (scan_whole : forall r x, scan r = Ok x ->
  key_of r = rid x /\ (fun c => column_of d (fst c) r) <$> plain (td_columns d) = r).

Definition scanned (r : row) : option R := match scan r with Ok x => Some x | Err _ => None end.
(** The records of a table, and that every row is one. *)
Definition held (T : tables) : gmap string R := omap scanned (keyed_rows T table).
Definition readable (T : tables) : Prop :=
  forall k r, keyed_rows T table !! k = Some r -> exists x, scan r = Ok x /\ rid x = k.

Lemma held_lookup T k x : held T !! k = Some x <-> exists r, keyed_rows T table !! k = Some r /\ scan r = Ok x.
Proof.
  unfold held. rewrite lookup_omap. destruct (keyed_rows T table !! k) as [r|]; cbn.
  - unfold scanned. destruct (scan r) as [y|e] eqn:E; split.
    + intros [= <-]. by exists r.
    + intros (r' & [= <-] & H). congruence.
    + done.
    + intros (r' & [= <-] & H). congruence.
  - split; [done|by intros (? & ? & _)].
Qed.
Lemma held_None T k : readable T -> held T !! k = None <-> keyed_rows T table !! k = None.
Proof.
  intros H. unfold held. rewrite lookup_omap. destruct (keyed_rows T table !! k) as [r|] eqn:E; cbn; [|done].
  destruct (H _ _ E) as (x & Hx & _). unfold scanned. by rewrite Hx.
Qed.
Lemma held_id T k x : readable T -> held T !! k = Some x -> rid x = k.
Proof. intros H (r & Hr & Hx)%held_lookup. destruct (H _ _ Hr) as (y & Hy & <-). congruence. Qed.

Lemma held_insert T r x :
  scan r = Ok x -> readable T ->
  let T' := set_keyed T table (<[key_of r := r]> (keyed_rows T table)) in
  readable T' /\ held T' = <[rid x := x]> (held T).
Proof.
  intros Hx H. destruct (scan_whole _ _ Hx) as [Hk _]. cbv zeta. split.
  - intros k y. rewrite keyed_rows_set, lookup_insert_Some. intros [[<- <-]|[_ Hy]]; [eauto|by apply H].
  - unfold held. rewrite keyed_rows_set, Hk. apply omap_insert_Some. unfold scanned. by rewrite Hx.
Qed.

Lemma held_update T f g :
  (forall r x, scan r = Ok x -> scan (f r) = Ok (g x) /\ rid (g x) = rid x) -> readable T ->
  let T' := set_keyed T table (f <$> keyed_rows T table) in
  readable T' /\ held T' = g <$> held T.
Proof.
  intros Hf H. cbv zeta. split.
  - intros k y. rewrite keyed_rows_set, lookup_fmap_Some. intros (r & <- & Hr). destruct (H _ _ Hr) as (x & Hx & Hk).
    destruct (Hf _ _ Hx) as [Hfx Hid]. exists (g x). split; [done|congruence].
  - unfold held. rewrite keyed_rows_set. apply map_eq. intros k. rewrite lookup_omap, !lookup_fmap, lookup_omap.
    destruct (keyed_rows T table !! k) as [r|] eqn:E; [|done]. cbn. destruct (H _ _ E) as (x & Hx & _).
    destruct (Hf _ _ Hx) as [Hfx _]. unfold scanned. by rewrite Hx, Hfx.
Qed.

Lemma held_delete T p (q : R -> Prop) `{!forall x, Decision (q x)} :
  (forall r x, scan r = Ok x -> p r = false <-> q x) -> readable T ->
  let T' := set_keyed T table (filter (fun '(_, r) => p r = false) (keyed_rows T table)) in
  readable T' /\ held T' = filter (fun '(_, x) => q x) (held T).
Proof.
  intros Hp Hread. cbv zeta. split.
  - intros k y. rewrite keyed_rows_set, map_lookup_filter_Some. intros [Hr _]. by apply Hread.
  - unfold held. rewrite keyed_rows_set. apply map_eq. intros k. apply option_eq. intros x.
    rewrite map_lookup_filter_Some, !lookup_omap.
    destruct (keyed_rows T table !! k) as [r|] eqn:E.
    + destruct (Hread _ _ E) as (y & Hy & _). destruct (p r) eqn:Ep.
      * rewrite map_lookup_filter_None_2; cbn; [|right; intros r' Hr'; congruence].
        unfold scanned. rewrite Hy. split; [done|]. intros [[= <-] Hq]. apply (Hp _ _ Hy) in Hq. congruence.
      * rewrite (map_lookup_filter_Some_2 _ _ _ r) by done. cbn. unfold scanned. rewrite Hy.
        split; [|by intros []]. intros [= <-]. split; [done|]. by apply (Hp _ _ Hy).
    + rewrite map_lookup_filter_None_2 by (by left). cbn. split; [done|by intros []].
Qed.

Lemma omap_values {K} `{Countable K} (f : row -> option R) (m : gmap K row) : (map_to_list (omap f m)).*2 ≡ₚ omap f (map_to_list m).*2.
Proof.
  induction m as [|k r m Hk IH] using map_ind; [by rewrite omap_empty, !map_to_list_empty|].
  rewrite (map_to_list_insert m) by done. cbn [fmap list_fmap snd omap list_omap].
  destruct (f r) as [x|] eqn:E.
  - rewrite (omap_insert_Some _ _ _ _ x) by done. rewrite map_to_list_insert by (rewrite lookup_omap, Hk; done). cbn.
    by f_equiv.
  - rewrite (omap_insert_None _ _ _ _) by done. by rewrite delete_id by (rewrite lookup_omap, Hk; done).
Qed.

(** What a query of whole rows answers, read. *)
Lemma answers_records q args T out :
  answers sch q args T out -> sel_table q = table -> sel_columns q = plain (td_columns d) -> sel_limit q = None ->
  readable T ->
  exists l, scan_all scan out = Ok l /\
    l ≡ₚ omap (fun r => if where_holds d (kept <$> args) (sel_where q) r then scanned r else None)
           (map_to_list (keyed_rows T table)).*2 /\
    Sorted (ordered d (sel_order q)) out.
Proof.
  intros (d' & rows & Hd' & Hp & Hs & ->) Ht Hc Hl Hread. rewrite Ht in *. rewrite Hd in Hd'. injection Hd' as <-.
  unfold limited. rewrite Hl, Hc. unfold all_rows in Hp. rewrite Hserial in Hp.
  assert (Hin : Forall (fun r => exists x, scan r = Ok x) rows).
  { apply Forall_forall. intros r Hr. rewrite Hp, list_elem_of_In, filter_In, <- list_elem_of_In in Hr.
    destruct Hr as [([k y] & -> & Hr)%list_elem_of_fmap _]. apply elem_of_map_to_list in Hr.
    destruct (Hread _ _ Hr) as (x & Hx & _). eauto. }
  assert (Hproj : (fun r => (fun c => column_of d (fst c) r) <$> plain (td_columns d)) <$> rows = rows).
  { clear -Hin scan_whole. induction Hin as [|r rows [x Hx] _ IH]; [done|]. cbn [fmap list_fmap]. rewrite IH.
    by rewrite (proj2 (scan_whole _ _ Hx)). }
  rewrite Hproj. exists (omap scanned rows). split; [|split; [|done]].
  - clear -Hin. induction Hin as [|r rows [x Hx] _ IH]; [done|]. cbn. unfold scanned. rewrite Hx. cbn. by rewrite IH.
  - rewrite Hp. clear. induction (map_to_list (keyed_rows T table)).*2 as [|r l IH]; [done|]. cbn.
    destruct (where_holds d (kept <$> args) (sel_where q) r); cbn; [|done]. destruct (scanned r); by rewrite IH.
Qed.
(** ** What the stores read *)
Context {DB : Type} {Db : Database DB} {DL : DatabaseLaws sch DB}.
Context (q : selection) (Hq : sel_table q = table) (Hc : sel_columns q = plain (td_columns d)) (Hl : sel_limit q = None).

Lemma lookup_record_spec failure db v o :
  readable (tables_of db) -> lookup_record scan failure db q v = Ok o ->
  match o with
  | Some x => exists r, keyed_rows (tables_of db) table !! rid x = Some r /\ scan r = Ok x /\
                where_holds d [Text v] (sel_where q) r = true
  | None => forall k r, keyed_rows (tables_of db) table !! k = Some r -> where_holds d [Text v] (sel_where q) r = false
  end.
Proof.
  intros Hread. unfold lookup_record, QueryRow. destruct (QueryRows db q [Text v]) as [out|e] eqn:E; cbn [rbind].
  2: { by rewrite (Query_err _ _ _ _ E). }
  apply Query_ok in E. destruct (answers_elem _ _ _ _ _ E Hl) as (d' & Hd' & Hin). rewrite Hq, Hd in Hd'. injection Hd' as <-.
  rewrite Hq in Hin. change (kept <$> [Text v]) with [Text v] in Hin.
  destruct out as [|r out]; cbn [rbind].
  - change (errors_Is ErrNoRows ErrNoRows) with true. intros [= <-] k r Hr.
    destruct (where_holds d [Text v] (sel_where q) r) eqn:Hw; [exfalso|done].
    assert (Hno : (fun c => column_of d (fst c) r) <$> sel_columns q ∈ ([] : list (list value))); [|by apply elem_of_nil in Hno].
    apply Hin. exists r. split; [|done]. apply all_rows_keyed; eauto.
  - destruct (proj1 (Hin r) (list_elem_of_here r out)) as (r0 & (k & Hr0)%all_rows_keyed & Hw & Er); [|done].
    destruct (Hread _ _ Hr0) as (x & Hx & Hk). rewrite Hc, (proj2 (scan_whole _ _ Hx)) in Er. subst r0. rewrite Hx.
    intros [= <-]. exists r. by rewrite Hk.
Qed.

Lemma list_records_spec failure db l :
  readable (tables_of db) -> sel_where q = [] -> list_records scan failure db q = Ok l ->
  l ≡ₚ (map_to_list (held (tables_of db))).*2 /\
  exists out, Forall2 (fun r x => scan r = Ok x) out l /\ Sorted (ordered d (sel_order q)) out.
Proof.
  intros Hread Hw. unfold list_records. destruct (QueryRows db q []) as [out|e] eqn:E; [|done].
  apply Query_ok in E. destruct (answers_records _ _ _ _ E Hq Hc Hl Hread) as (l' & Hl' & Hp & Hs).
  rewrite Hl'. intros [= <-]. split; [|by exists out; rewrite <- scan_all_Forall2].
  rewrite Hp, Hw. unfold held. by rewrite omap_values.
Qed.

Lemma lookup_record_up failure db v :
  readable (tables_of db) -> up db -> storable (Text v) = true ->
  exists o, lookup_record scan failure db q v = Ok o.
Proof.
  intros Hread Hup Hs. destruct (Query_up db q [Text v]) as [out E]; [done|cbn; by rewrite Hs|by rewrite Hq, Hd|].
  unfold lookup_record, QueryRow. rewrite E. destruct out as [|r out]; cbn; [eauto|].
  apply Query_ok in E. destruct (answers_records _ _ _ _ E Hq Hc Hl Hread) as (l & Hl' & _).
  apply scan_all_Forall2, Forall2_cons_inv_l in Hl' as (x & xs & Hx & _). rewrite Hx. eauto.
Qed.

Lemma list_records_up failure db :
  readable (tables_of db) -> up db -> exists l, list_records scan failure db q = Ok l.
Proof.
  intros Hread Hup. destruct (Query_up db q []) as [out E]; [done|done|by rewrite Hq, Hd|].
  unfold list_records. rewrite E. apply Query_ok in E. destruct (answers_records _ _ _ _ E Hq Hc Hl Hread) as (l & Hl' & _). eauto.
Qed.
End records.

(** * A server *)
(** The tables themselves, under the collation [C]. *)
Module Server.
#[export] Instance C_server : SQLServer := {| collate := String.leb; lower := smap lower_ascii; jsonb := Some |}.

#[export] Instance ordered_dec d order : RelDecision (ordered d order).
Proof.
  intros a b. induction order as [|[c dir] rest IH]; cbn; [apply _|]. destruct dir; apply _.
Defined.
Lemma value_le_total a b : value_le a b = true \/ value_le b a = true.
Proof.
  destruct a, b; cbn; auto; try (rewrite !Z.leb_le; lia).
  - apply String.leb_total.
  - destruct b0, b; auto.
Qed.
#[export] Instance ordered_total d order : Total (ordered d order).
Proof.
  intros a b. induction order as [|[c dir] rest IH]; cbn; [by left|].
  destruct dir.
  - destruct (value_le (column_of d c a) (column_of d c b)) eqn:E1, (value_le (column_of d c b) (column_of d c a)) eqn:E2; try tauto.
    + left. split; [done|]. by rewrite ?E2.
    + right. split; [done|]. by rewrite ?E1.
    + destruct (value_le_total (column_of d c a) (column_of d c b)); congruence.
  - destruct (value_le (column_of d c a) (column_of d c b)) eqn:E1, (value_le (column_of d c b) (column_of d c a)) eqn:E2; try tauto.
    + right. split; [done|]. by rewrite ?E2.
    + left. split; [done|]. by rewrite ?E1.
    + destruct (value_le_total (column_of d c a) (column_of d c b)); congruence.
Qed.

Definition next_serial (T : tables) : Z :=
  map_fold (fun _ rows acc => map_fold (fun k (_ : row) acc => Z.max acc (k + 1)) acc rows) 1 (logs T).

Section server.
Context (sch : schema).
Definition run (T : tables) (st : statement) (args : list value) : result Z * tables :=
  match exec sch (next_serial T) st args T with
  | Ok (n, T') => (Ok n, T')
  | Err e => (Err e, T)
  end.
Definition ask (T : tables) (q : selection) (args : list value) : result (list (list value)) :=
  match declared sch (sel_table q) with
  | None => Err (unknown_table (sel_table q))
  | Some d =>
      let args := kept <$> args in
      Ok ((fun r => (fun c => column_of d (fst c) r) <$> sel_columns q) <$>
          limited q args (merge_sort (ordered d (sel_order q))
                            (List.filter (where_holds d args (sel_where q)) (all_rows T (sel_table q) d))))
  end.
Definition database : Database tables := {| Exec := run; QueryRows := ask; PingContext _ := None |}.

Lemma next_serial_above T : above T (next_serial T).
Proof.
  assert (H1 : forall (rows : gmap Z row) acc,
    acc <= map_fold (fun k (_ : row) acc => Z.max acc (k + 1)) acc rows /\
    forall k r, rows !! k = Some r -> k < map_fold (fun k (_ : row) acc => Z.max acc (k + 1)) acc rows).
  { intros rows acc. apply (map_fold_weak_ind (fun x (m : gmap Z row) => acc <= x /\ forall k r, m !! k = Some r -> k < x)).
    - split; [lia|]. intros k r. by rewrite lookup_empty.
    - intros k r m x _ [Ha Hx]. split; [lia|]. intros k' r'. rewrite lookup_insert_Some.
      intros [[<- _]|[_ H]]; [lia|]. specialize (Hx _ _ H). lia. }
  split.
  { unfold next_serial. apply (map_fold_weak_ind (fun x (_ : gmap string (gmap Z row)) => 0 < x)); [lia|].
    intros t rows m x _ Hx. pose proof (proj1 (H1 rows x)). lia. }
  intros table k r. unfold log_rows, next_serial. destruct (logs T !! table) as [rows|] eqn:E; cbn; [|by rewrite lookup_empty].
  revert table rows E.
  apply (map_fold_weak_ind (fun x (m : gmap string (gmap Z row)) =>
    forall table rows, m !! table = Some rows -> rows !! k = Some r -> k < x)).
  - intros table rows. by rewrite lookup_empty.
  - intros t rows m x _ IH table rows'. rewrite lookup_insert_Some. intros [[_ <-]|[_ H]] Hk.
    + by apply (H1 rows x) in Hk.
    + specialize (IH _ _ H Hk). pose proof (proj1 (H1 rows x)). lia.
Qed.

#[program] Definition database_laws : @DatabaseLaws sch tables C_server database := {|
  tables_of T := T;
  up _ := True;
  storable _ := true;
|}.
Next Obligation.
  intros T st args n T'. cbn. unfold run. destruct (exec _ _ _ _ _) as [[m T1]|] eqn:E; [|done]. intros [= <- <-].
  exists (next_serial T). split; [apply next_serial_above|done].
Qed.
Next Obligation.
  intros T st args e T'. cbn. unfold run. destruct (exec _ _ _ _ _) as [[m T1]|]; [done|]. by intros [= _ <-].
Qed.
Next Obligation.
  intros T q args out. cbn. unfold ask. destruct (declared sch (sel_table q)) as [d|] eqn:Ed; [|done]. intros [= <-].
  unfold answers.
  exists d, (merge_sort (ordered d (sel_order q)) (List.filter (where_holds d (kept <$> args) (sel_where q)) (all_rows T (sel_table q) d))).
  split; [done|]. split; [apply merge_sort_Permutation|]. split; [|done].
  apply (Sorted_merge_sort _).
Qed.
Next Obligation.
  intros T q args e. cbn. unfold ask. destruct (declared sch (sel_table q)); [done|]. intros [= <-].
  by unfold unknown_table, ErrNoRows.
Qed.
Next Obligation.
  intros T st args _ _. split; [done|]. exists (next_serial T). split; [apply next_serial_above|]. cbn. unfold run.
  by destruct (exec _ _ _ _ _) as [[m T1]|].
Qed.
Next Obligation.
  intros T q args _ _ Hd. cbn. unfold ask. destruct (declared sch (sel_table q)); [eauto|done].
Qed.
End server.
End Server.
