(* ===== verification/Migrations.v ===== *)
(** The migrations of the Postgres stores: schema.go of each package, and
    [Migrate], [applyMigrations] and [verifySchema] of each postgres_store.go.

    Seven packages repeat the same code over their own embedded files; it is
    written once, over a [package], and each package is a value of that type.
    They share one table [schema_migrations], so a version must belong to one
    migration of one package; [embedded_packages] are the files there are.

    What a migration's SQL does is the database's: the class [MigrationDB] has
    the statements, [MigrationLaws] what they do to the recorded versions.  A
    transaction works on a copy that is kept by the commit. *)
From S2P Require Import Prelude GoStrings Sql.
From Stdlib Require Import ZArith Lia List String Ascii Bool.
From stdpp Require Import base gmap strings list sorting.

Open Scope Z_scope.

(** * The embedded files *)
Record PostgresMigration := mkMigration { mg_Version : Z; mg_Name : string; mg_SQL : string }.
(** A directory entry: its name, whether it is a directory, its text. *)
Record dir_entry := mkEntry { de_name : string; de_dir : bool; de_data : string }.

(** [what] is the package's word before "postgres migration". *)
Definition parsePostgresMigrationName (what filename : string) : result (Z * string) :=
  let bad (why : string) : result (Z * string) :=
    Err (Errorf (what +:+ "postgres migration " +:+ Quote filename +:+ " " +:+ why)) in
  if negb (HasSuffix filename ".sql") then bad "must end with .sql" else
  let base := TrimSuffix filename ".sql" in
  let '(versionText, name, ok) := Cut base "_"%char in
  if negb ok || String.eqb versionText "" || String.eqb name "" then bad "must use NNNN_name.sql" else
  match Atoi versionText with
  | None => bad "has invalid version"
  | Some version => if version <? 1 then bad "has invalid version" else Ok (version, name)
  end.

Definition by_name (a b : dir_entry) : Prop := String.leb (de_name a) (de_name b) = true.
#[export] Instance by_name_dec : RelDecision by_name.
Proof. intros a b. unfold by_name. apply _. Defined.

(** [Err] is a panic: the files are part of the program. *)
Fixpoint read_migrations (what : string) (entries : list dir_entry) : result (list PostgresMigration) :=
  match entries with
  | [] => Ok []
  | e :: rest =>
      if de_dir e then read_migrations what rest else
      try (version, name) <- parsePostgresMigrationName what (de_name e);
      try migrations <- read_migrations what rest;
      Ok (mkMigration version name (TrimSpace (de_data e)) :: migrations)
  end.
Definition PostgresMigrations (what : string) (entries : list dir_entry) : result (list PostgresMigration) :=
  read_migrations what (merge_sort by_name entries).
Definition PostgresSchemaStatements (what : string) (entries : list dir_entry) : result (list string) :=
  try migrations <- PostgresMigrations what entries; Ok (mg_SQL <$> migrations).

(** * Migrating *)
Class MigrationDB (D : Type) : Type := {
  BeginTx : D -> option error;
  create_state_table : D -> result D;               (* CREATE TABLE IF NOT EXISTS schema_migrations *)
  select_versions : D -> result (list Z);           (* SELECT version FROM schema_migrations *)
  run_sql : D -> string -> result D;
  insert_version : D -> Z -> string -> result D;    (* INSERT INTO schema_migrations ... NOW() *)
  Commit : D -> option error;
  count_columns : D -> string -> list string -> result Z;     (* information_schema.columns *)
}.

(** What differs between the packages. *)
Record package := mkPackage {
  pk_what : string;              (* in "apply WHAT migrations" and "verify WHAT schema" *)
  pk_prefix : string;            (* in the errors of file names *)
  pk_table : string;
  pk_columns : list string;
}.

Section migrate.
Context {D : Type} {M : MigrationDB D}.

(** [%04d] *)
Definition pad4 (n : Z) : string :=
  let digits := Itoa n in
  of_bytes (repeat "0"%char (4 - String.length digits)) +:+ digits.
Definition migration_name (m : PostgresMigration) : string := pad4 (mg_Version m) +:+ "_" +:+ mg_Name m.

Definition appliedPostgresMigrations (tx : D) : result (gmap Z unit) :=
  match select_versions tx with
  | Err e => Err (Wrap "list applied migrations" e)
  | Ok versions => Ok (list_to_map ((fun v => (v, ())) <$> versions))
  end.

Fixpoint apply_all (applied : gmap Z unit) (migrations : list PostgresMigration) (tx : D) : result D :=
  match migrations with
  | [] => Ok tx
  | m :: rest =>
      if bool_decide (is_Some (applied !! mg_Version m)) then apply_all applied rest tx
      else if String.eqb (TrimSpace (mg_SQL m)) "" then Err (Errorf ("migration " +:+ migration_name m +:+ " is empty"))
      else match run_sql tx (mg_SQL m) with
           | Err e => Err (Wrap ("apply migration " +:+ migration_name m) e)
           | Ok tx1 =>
               match insert_version tx1 (mg_Version m) (mg_Name m) with
               | Err e => Err (Wrap ("record migration " +:+ migration_name m) e)
               | Ok tx2 => apply_all applied rest tx2
               end
           end
  end.

(** The transaction is rolled back unless it was committed. *)
Definition applyMigrations (db : D) (migrations : list PostgresMigration) : option error * D :=
  match BeginTx db with
  | Some e => (Some (Wrap "begin migration transaction" e), db)
  | None =>
      match create_state_table db with
      | Err e => (Some (Wrap "create schema_migrations table" e), db)
      | Ok tx =>
          match (try applied <- appliedPostgresMigrations tx; apply_all applied migrations tx) with
          | Err e => (Some e, db)
          | Ok tx' =>
              match Commit tx' with
              | Some e => (Some (Wrap "commit migrations" e), db)
              | None => (None, tx')
              end
          end
      end
  end.

Definition verifySchema (p : package) (db : D) : option error :=
  match count_columns db (pk_table p) (pk_columns p) with
  | Err e => Some e
  | Ok count =>
      let required := Z.of_nat (length (pk_columns p)) in
      if negb (count =? required)
      then Some (Errorf (pk_table p +:+ " schema is missing required columns: found " +:+ Itoa count +:+ " of " +:+ Itoa required))
      else None
  end.

Definition Migrate (p : package) (migrations : list PostgresMigration) (db : D) : option error * D :=
  match applyMigrations db migrations with
  | (Some e, db') => (Some (Wrap ("apply " +:+ pk_what p +:+ " migrations") e), db')
  | (None, db') =>
      match verifySchema p db' with
      | Some e => (Some (Wrap ("verify " +:+ pk_what p +:+ " schema") e), db')
      | None => (None, db')
      end
  end.
End migrate.

(** * The packages *)
Definition tokens_package : package :=
  mkPackage "token" "" "api_tokens" ["id"; "name"; "token_hash"; "scopes_json"; "created_at"; "last_used_at"; "revoked_at"].
Definition admintokens_package : package :=
  mkPackage "admin token" "" "admin_tokens"
    ["id"; "name"; "token_hash"; "scopes_json"; "created_at"; "last_used_at"; "revoked_at"].
Definition reserved_package : package :=
  mkPackage "reserved subdomain" "" "reserved_subdomains" ["id"; "name"; "token_id"; "created_at"].
Definition access_package : package :=
  mkPackage "access policy" "" "access_policies"
    ["id"; "reserved_subdomain_id"; "mode"; "basic_username"; "secret_hash"; "ip_allowlist_json"; "created_at"; "updated_at"].
Definition customdomains_package : package :=
  mkPackage "custom domain" "" "custom_domains"
    ["id"; "hostname"; "reserved_subdomain_id"; "status"; "verification_token"; "verified_at"; "created_at"; "updated_at"].
Definition audit_package : package :=
  mkPackage "audit event" "audit " "audit_events"
    ["id"; "time"; "level"; "message"; "event"; "method"; "path"; "remote_ip"; "request_id"; "fields_json"].
Definition request_log_package : package :=
  mkPackage "request log" "request log " "gateway_request_logs"
    ["id"; "time"; "method"; "host"; "path"; "query_present"; "remote_ip"; "request_id"; "subdomain"; "custom_domain";
     "tunnel_id"; "stream_id"; "status"; "outcome"; "request_bytes"; "response_bytes"; "duration_ms"; "error"].

(** * Each package's copy *)
(** The functions above are those of package tokens; the other packages repeat
    them with their own words, table and columns. *)
Module AdminTokenMigrations.                   (* admintokens *)
Definition parsePostgresMigrationName (filename : string) : result (Z * string) :=
  parsePostgresMigrationName (pk_prefix admintokens_package) filename.
Definition PostgresMigrations (entries : list dir_entry) : result (list PostgresMigration) :=
  PostgresMigrations (pk_prefix admintokens_package) entries.
Definition PostgresSchemaStatements (entries : list dir_entry) : result (list string) :=
  PostgresSchemaStatements (pk_prefix admintokens_package) entries.
Definition applyMigrations {D} {M : MigrationDB D} (db : D) (migrations : list PostgresMigration) : option error * D :=
  applyMigrations db migrations.
Definition verifySchema {D} {M : MigrationDB D} (db : D) : option error := verifySchema admintokens_package db.
Definition Migrate {D} {M : MigrationDB D} (migrations : list PostgresMigration) (db : D) : option error * D :=
  Migrate admintokens_package migrations db.
End AdminTokenMigrations.
Module ReservedMigrations.                   (* reserved *)
Definition PostgresMigrations (entries : list dir_entry) : result (list PostgresMigration) :=
  PostgresMigrations (pk_prefix reserved_package) entries.
Definition applyMigrations {D} {M : MigrationDB D} (db : D) (migrations : list PostgresMigration) : option error * D :=
  applyMigrations db migrations.
Definition verifySchema {D} {M : MigrationDB D} (db : D) : option error := verifySchema reserved_package db.
Definition Migrate {D} {M : MigrationDB D} (migrations : list PostgresMigration) (db : D) : option error * D :=
  Migrate reserved_package migrations db.
End ReservedMigrations.
Module AccessMigrations.                   (* access *)
Definition PostgresMigrations (entries : list dir_entry) : result (list PostgresMigration) :=
  PostgresMigrations (pk_prefix access_package) entries.
Definition applyMigrations {D} {M : MigrationDB D} (db : D) (migrations : list PostgresMigration) : option error * D :=
  applyMigrations db migrations.
Definition verifySchema {D} {M : MigrationDB D} (db : D) : option error := verifySchema access_package db.
Definition Migrate {D} {M : MigrationDB D} (migrations : list PostgresMigration) (db : D) : option error * D :=
  Migrate access_package migrations db.
End AccessMigrations.
Module CustomDomainMigrations.                   (* customdomains *)
Definition PostgresMigrations (entries : list dir_entry) : result (list PostgresMigration) :=
  PostgresMigrations (pk_prefix customdomains_package) entries.
Definition applyMigrations {D} {M : MigrationDB D} (db : D) (migrations : list PostgresMigration) : option error * D :=
  applyMigrations db migrations.
Definition verifySchema {D} {M : MigrationDB D} (db : D) : option error := verifySchema customdomains_package db.
Definition Migrate {D} {M : MigrationDB D} (migrations : list PostgresMigration) (db : D) : option error * D :=
  Migrate customdomains_package migrations db.
End CustomDomainMigrations.
Module AuditMigrations.                   (* controlplane (audit_postgres_*.go) *)
Definition PostgresMigrations (entries : list dir_entry) : result (list PostgresMigration) :=
  PostgresMigrations (pk_prefix audit_package) entries.
Definition applyMigrations {D} {M : MigrationDB D} (db : D) (migrations : list PostgresMigration) : option error * D :=
  applyMigrations db migrations.
Definition verifySchema {D} {M : MigrationDB D} (db : D) : option error := verifySchema audit_package db.
Definition Migrate {D} {M : MigrationDB D} (migrations : list PostgresMigration) (db : D) : option error * D :=
  Migrate audit_package migrations db.
End AuditMigrations.
(** The store of the request log may be nil. *)
Module RequestLogMigrations.              (* gateway (request_log_postgres_*.go) *)
Definition PostgresMigrations (entries : list dir_entry) : result (list PostgresMigration) :=
  PostgresMigrations (pk_prefix request_log_package) entries.
Definition applyMigrations {D} {M : MigrationDB D} (db : D) (migrations : list PostgresMigration) : option error * D :=
  applyMigrations db migrations.
Definition verifySchema {D} {M : MigrationDB D} (db : D) : option error := verifySchema request_log_package db.
Definition Migrate {D} {M : MigrationDB D} (migrations : list PostgresMigration) (s : option D) : option error * option D :=
  match s with
  | None => (Some (Errorf "database is required"), None)
  | Some db => let '(err, db') := Migrate request_log_package migrations db in (err, Some db')
  end.
End RequestLogMigrations.

(** * The tables *)
(** ** The tables the migrations leave, with the names Postgres gives to the
    constraints; columns in the order the stores select them *)
Definition token_table (table : string) : table_decl :=
  mkTableDecl (pk_columns tokens_package) false ["last_used_at"; "revoked_at"] [] (table +:+ "_pkey")
    [("token_hash", table +:+ "_token_hash_key")] [].
Definition reserved_table : table_decl :=
  mkTableDecl (pk_columns reserved_package) false [] [] "reserved_subdomains_pkey"
    [("name", "reserved_subdomains_name_key")] [].
Definition access_table : table_decl :=
  mkTableDecl (pk_columns access_package) false []
    [("mode", ["public"; "basic_auth"; "bearer_token"; "ip_allowlist"], "access_policies_mode_check")]
    "access_policies_pkey" [("reserved_subdomain_id", "access_policies_reserved_subdomain_id_key")]
    [("reserved_subdomain_id", "reserved_subdomains", "access_policies_reserved_subdomain_id_fkey")].
Definition custom_domain_table : table_decl :=
  mkTableDecl (pk_columns customdomains_package) false ["verified_at"]
    [("status", ["pending_verification"; "active"; "verification_failed"], "custom_domains_status_check")]
    "custom_domains_pkey" [("hostname", "custom_domains_hostname_key")]
    [("reserved_subdomain_id", "reserved_subdomains", "custom_domains_reserved_subdomain_id_fkey")].
Definition audit_table : table_decl :=
  mkTableDecl (pk_columns audit_package) true ["request_id"] [] "audit_events_pkey" [] [].
Definition request_log_table : table_decl :=
  mkTableDecl (pk_columns request_log_package) true
    ["request_id"; "subdomain"; "custom_domain"; "tunnel_id"; "stream_id"; "error"] [] "gateway_request_logs_pkey" [] [].
Definition porthook_schema : schema :=
  [("api_tokens", token_table "api_tokens"); ("admin_tokens", token_table "admin_tokens");
   ("reserved_subdomains", reserved_table); ("access_policies", access_table); ("custom_domains", custom_domain_table);
   ("audit_events", audit_table); ("gateway_request_logs", request_log_table)]%string.

(** The names of the embedded files, in the order of a directory listing. *)
Definition embedded_packages : list (package * list string) :=
  [(tokens_package, ["0001_create_api_tokens.sql"; "0002_add_token_last_used_at.sql"; "0003_create_api_tokens_token_hash_idx.sql"]);
   (reserved_package, ["0004_create_reserved_subdomains.sql"]);
   (access_package, ["0005_create_access_policies.sql"]);
   (customdomains_package, ["0006_create_custom_domains.sql"; "0007_add_custom_domain_verification.sql"]);
   (audit_package, ["0008_create_audit_events.sql"]);
   (request_log_package, ["0009_create_gateway_request_logs.sql"]);
   (admintokens_package, ["0010_create_admin_tokens.sql"])]%string.

(** The migrations of every package, [contents] being the text of a file. *)
Definition package_migrations (contents : string -> string) (p : package * list string)
    : result (package * list PostgresMigration) :=
  try ms <- PostgresMigrations (pk_prefix (fst p)) ((fun n => mkEntry n false (contents n)) <$> snd p);
  Ok (fst p, ms).
Fixpoint all_migrations (contents : string -> string) (ps : list (package * list string))
    : result (list (package * list PostgresMigration)) :=
  match ps with
  | [] => Ok []
  | p :: rest => try x <- package_migrations contents p; try xs <- all_migrations contents rest; Ok (x :: xs)
  end.

(** Sort and parse the names of embedded files, whatever their contents. *)
Ltac read_embedded contents :=
  unfold all_migrations, package_migrations, PostgresMigrations;
  repeat match goal with
  | |- context [merge_sort by_name ?l] =>
      let l' := eval vm_compute in (de_name <$> merge_sort by_name l) in
      replace (merge_sort by_name l) with ((fun n => mkEntry n false (contents n)) <$> l') by reflexivity
  end;
  cbn [fst snd fmap list_fmap read_migrations de_dir de_name de_data pk_prefix];
  repeat match goal with
  | |- context [parsePostgresMigrationName ?w ?n] =>
      let r := eval vm_compute in (parsePostgresMigrationName w n) in
      change (parsePostgresMigrationName w n) with r
  end;
  cbn [rbind].

(** * Properties *)
(** [versions] are the rows of schema_migrations, [ran] the migrations whose
    SQL took effect, oldest first. *)
Class MigrationLaws (D : Type) {M : MigrationDB D} : Type := {
  versions : D -> gset Z;
  ran : D -> list string;
  create_law : forall db tx, create_state_table db = Ok tx -> versions tx = versions db /\ ran tx = ran db;
  select_law : forall tx l, select_versions tx = Ok l -> forall v, v ∈ l <-> v ∈ versions tx;
  run_law : forall tx sql tx', run_sql tx sql = Ok tx' -> versions tx' = versions tx /\ ran tx' = ran tx ++ [sql];
  insert_law : forall tx v name tx', insert_version tx v name = Ok tx' ->
    versions tx' = {[v]} ∪ versions tx /\ ran tx' = ran tx;
}.

Section properties.
Context {D : Type} {M : MigrationDB D} {L : MigrationLaws D}.

(** The migrations that are not recorded. *)
Definition pending (done_ : gset Z) (ms : list PostgresMigration) : list PostgresMigration :=
  filter (fun m => mg_Version m ∉ done_) ms.

Lemma apply_all_runs (done_ : gset Z) applied ms tx tx' :
  (forall v, is_Some (applied !! v) <-> v ∈ done_) -> apply_all applied ms tx = Ok tx' ->
  ran tx' = ran tx ++ (mg_SQL <$> pending done_ ms) /\
  versions tx' = versions tx ∪ list_to_set (mg_Version <$> pending done_ ms).
Proof.
  intros Ha. revert tx. induction ms as [|m ms IH]; intros tx; cbn [apply_all].
  { intros [= <-]. cbn. rewrite app_nil_r. set_solver. }
  unfold pending. rewrite filter_cons. case_bool_decide as Hm.
  - rewrite Ha in Hm. intros H. apply IH in H. by rewrite decide_False by tauto.
  - rewrite Ha in Hm. destruct (String.eqb _ _); [done|]. destruct (run_sql tx _) as [tx1|] eqn:E1; [|done].
    destruct (insert_version tx1 _ _) as [tx2|] eqn:E2; [|done]. intros H. apply IH in H as [H1 H2].
    apply run_law in E1 as [V1 R1]. apply insert_law in E2 as [V2 R2]. rewrite decide_True by done. cbn.
    rewrite H1, H2, R2, R1, V2, V1, <- app_assoc. split; [done|]. set_solver.
Qed.

Lemma applyMigrations_runs db ms err db' :
  applyMigrations db ms = (err, db') ->
  match err with
  | Some _ => db' = db
  | None => ran db' = ran db ++ (mg_SQL <$> pending (versions db) ms) /\
            versions db' = versions db ∪ list_to_set (mg_Version <$> pending (versions db) ms)
  end.
Proof.
  unfold applyMigrations. destruct (BeginTx db); [by intros [= <- <-]|].
  destruct (create_state_table db) as [tx|] eqn:Ec; [|by intros [= <- <-]].
  destruct (appliedPostgresMigrations tx) as [applied|] eqn:Ea; cbn [rbind]; [|by intros [= <- <-]].
  destruct (apply_all applied ms tx) as [tx'|] eqn:Ex; [|by intros [= <- <-]].
  destruct (Commit tx'); intros [= <- <-]; [done|]. apply create_law in Ec as [<- <-].
  eapply apply_all_runs in Ex; [exact Ex|]. intros v. unfold appliedPostgresMigrations in Ea.
  destruct (select_versions tx) as [l|] eqn:El; [|done]. injection Ea as <-. rewrite <- (select_law _ _ El v).
  clear. induction l as [|x l IH]; cbn.
  - rewrite lookup_empty. split; [by intros []|by intros H%elem_of_nil].
  - rewrite elem_of_cons, <- IH. destruct (decide (x = v)) as [->|].
    + rewrite lookup_insert_eq. naive_solver.
    + rewrite lookup_insert_ne by done. naive_solver.
Qed.

(** Calls to [Migrate] of the packages, in any order and as often as the
    processes start. *)
Inductive migrate_step (ps : list (package * list PostgresMigration)) : D -> D -> Prop :=
| step_migrate p ms db : (p, ms) ∈ ps -> migrate_step ps db (snd (Migrate p ms db)).

(** Every recorded version is a migration whose SQL took effect, once. *)
Definition recorded (all : list PostgresMigration) (db : D) : Prop :=
  versions db ⊆ list_to_set (mg_Version <$> all) /\
  ran db ≡ₚ mg_SQL <$> filter (fun m => mg_Version m ∈ versions db) all.

Lemma Migrate_snd p ms (db : D) : exists err, applyMigrations db ms = (err, snd (Migrate p ms db)).
Proof.
  unfold Migrate. destruct (applyMigrations db ms) as [[e|] db'] eqn:E; [by exists (Some e)|].
  exists None. by destruct (verifySchema p db').
Qed.

Lemma filter_split (l : list PostgresMigration) (old new : gset Z) :
  old ## new ->
  filter (fun m => mg_Version m ∈ old ∪ new) l ≡ₚ
  filter (fun m => mg_Version m ∈ old) l ++ filter (fun m => mg_Version m ∈ new) l.
Proof.
  intros Hd. induction l as [|m l IH]; [done|]. rewrite !filter_cons.
  destruct (decide (mg_Version m ∈ old)) as [Ho|Ho].
  - rewrite decide_True by set_solver. rewrite (decide_False (P := mg_Version m ∈ new)) by set_solver. cbn. by rewrite IH.
  - destruct (decide (mg_Version m ∈ new)) as [Hn|Hn].
    + rewrite decide_True by set_solver. rewrite IH. by rewrite Permutation_middle.
    + rewrite decide_False by set_solver. done.
Qed.

Lemma filter_every {A} (P : A -> Prop) `{!forall x, Decision (P x)} l : Forall P l -> filter P l = l.
Proof. induction 1 as [|x l Hx _ IH]; [done|]. by rewrite filter_cons, decide_True, IH. Qed.
Lemma filter_no {A} (P : A -> Prop) `{!forall x, Decision (P x)} l : Forall (fun x => ~ P x) l -> filter P l = [].
Proof. induction 1 as [|x l Hx _ IH]; [done|]. by rewrite filter_cons, decide_False. Qed.

(** Of a list with distinct versions, those whose version a sublist has are
    the sublist. *)
Lemma filter_sublist (all sub : list PostgresMigration) :
  NoDup (mg_Version <$> all) -> sub ⊆+ all ->
  filter (fun m => mg_Version m ∈ (list_to_set (mg_Version <$> sub) : gset Z)) all ≡ₚ sub.
Proof.
  intros Hn Hs. apply submseteq_Permutation in Hs as [rest Hp].
  rewrite Hp, fmap_app in Hn. apply NoDup_app in Hn as (Hn1 & Hd & Hn2). rewrite Hp, filter_app.
  rewrite (filter_every _ sub), (filter_no _ rest); [by rewrite app_nil_r|..]; apply Forall_forall; intros m Hm.
  - intros Hin. apply elem_of_list_to_set in Hin. apply (Hd _ Hin). by apply list_elem_of_fmap_2.
  - apply elem_of_list_to_set. by apply list_elem_of_fmap_2.
Qed.

Lemma migrate_recorded all p ms (db : D) :
  NoDup (mg_Version <$> all) -> ms ⊆+ all -> recorded all db -> recorded all (snd (Migrate p ms db)).
Proof.
  intros Hn Hs [Hv Hr]. destruct (Migrate_snd p ms db) as [[e|] E]; apply applyMigrations_runs in E as H; cbn in H.
  { by rewrite H. }
  destruct H as [H1 H2]. set (pend := pending (versions db) ms) in *.
  assert (Hsub : pend ⊆+ all) by (etransitivity; [apply sublist_submseteq, sublist_filter|done]).
  assert (Hd : versions db ## (list_to_set (mg_Version <$> pend) : gset Z)).
  { intros v Hv1 Hv2. apply elem_of_list_to_set, list_elem_of_fmap in Hv2 as (m & -> & Hm).
    unfold pend, pending in Hm. apply list_elem_of_filter in Hm as [Hm _]. done. }
  split.
  - rewrite H2. intros v [Hin|Hin]%elem_of_union; [by apply Hv|]. rewrite elem_of_list_to_set in *.
    apply list_elem_of_fmap in Hin as (m & -> & Hm). apply list_elem_of_fmap_2.
    by eapply elem_of_submseteq.
  - rewrite H1, H2, filter_split, fmap_app, filter_sublist by done. by rewrite Hr.
Qed.

Lemma embedded_versions contents ps :
  all_migrations contents embedded_packages = Ok ps -> mg_Version <$> (ps ≫= snd) = seqZ 1 10.
Proof. unfold embedded_packages. read_embedded contents. intros [= <-]. reflexivity. Qed.

(** Every migration runs once.  The seven packages share one table of
    versions; from an empty database, and however often and in whatever order
    their [Migrate] is called, with failures in between, the migrations that
    took effect are exactly those that are recorded, each of them once; a
    [Migrate] that succeeds leaves all of its migrations recorded, and calling
    it again runs none. *)
Lemma migrations_run_once contents ps (db0 db : D) :
  all_migrations contents embedded_packages = Ok ps ->
  versions db0 = ∅ -> ran db0 = [] -> rtc (migrate_step ps) db0 db ->
  ran db ≡ₚ mg_SQL <$> filter (fun m => mg_Version m ∈ versions db) (ps ≫= snd) /\
  forall p ms db', (p, ms) ∈ ps -> Migrate p ms db = (None, db') ->
    (forall m, m ∈ ms -> mg_Version m ∈ versions db') /\ ran (snd (Migrate p ms db')) = ran db'.
Proof.
  intros Hall Hv Hr Hsteps. apply embedded_versions in Hall as Hver.
  assert (Hn : NoDup (mg_Version <$> (ps ≫= snd))) by (rewrite Hver; apply NoDup_seqZ).
  split.
  - assert (H0 : recorded (ps ≫= snd) db0).
    { split; [set_solver|]. rewrite Hr, filter_no; [done|]. apply Forall_forall. intros m _. rewrite Hv. set_solver. }
    enough (recorded (ps ≫= snd) db) as [_ H] by exact H. clear Hv Hr. induction Hsteps as [|a b c [p ms x Hin] _ IH]; [done|].
    apply IH. apply migrate_recorded; [done| |done]. apply list_elem_of_split in Hin as (l1 & l2 & ->).
    rewrite bind_app, bind_cons. apply submseteq_inserts_l, submseteq_inserts_r. reflexivity.
  - intros p ms db' Hin HM. destruct (Migrate_snd p ms db) as [err E]. rewrite HM in E. cbn in E.
    assert (err = None) as ->.
    { unfold Migrate in HM. destruct err; [|done]. by rewrite E in HM. }
    apply applyMigrations_runs in E as [_ E2].
    assert (Hrec : forall m, m ∈ ms -> mg_Version m ∈ versions db').
    { intros m Hm. rewrite E2. destruct (decide (mg_Version m ∈ versions db)); [set_solver|]. apply elem_of_union_r.
      apply elem_of_list_to_set, list_elem_of_fmap_2. by apply list_elem_of_filter. }
    split; [done|]. destruct (Migrate_snd p ms db') as [[e|] E3]; apply applyMigrations_runs in E3; [by rewrite E3|].
    destruct E3 as [-> _]. unfold pending. rewrite filter_no; [by rewrite app_nil_r|].
    apply Forall_forall. intros m Hm Hc. by apply Hc, Hrec.
Qed.
End properties.

(** ** Witness *)
Module Witness_migrations.
(** A database that records versions and the texts that ran. *)
Record D := mkD { d_versions : list Z; d_ran : list string }.
#[local] Instance db : MigrationDB D := {|
  BeginTx _ := None;
  create_state_table := Ok;
  select_versions d := Ok (d_versions d);
  run_sql d sql := Ok (mkD (d_versions d) (d_ran d ++ [sql]));
  insert_version d v _ := Ok (mkD (v :: d_versions d) (d_ran d));
  Commit _ := None;
  count_columns _ _ columns := Ok (Z.of_nat (length columns));
|}.
#[local, program] Instance laws : MigrationLaws D := {|
  versions d := list_to_set (d_versions d); ran := d_ran;
|}.
Next Obligation. by intros d tx [= <-]. Qed.
Next Obligation. intros d l [= <-] v. by rewrite elem_of_list_to_set. Qed.
Next Obligation. by intros d sql d' [= <-]. Qed.
Next Obligation. by intros d v name d' [= <-]. Qed.

Definition contents (name : string) : string := "-- " +:+ name.
Definition packages : list (package * list PostgresMigration) :=
  match all_migrations contents embedded_packages with Ok ps => ps | Err _ => [] end.
Definition start : D := mkD [] [].
Definition tokens_ms : list PostgresMigration := default [] (snd <$> packages !! 0%nat).

Lemma migrations_run_once_witness :
  let db1 := snd (Migrate tokens_package tokens_ms start) in
  ran db1 ≡ₚ ["-- 0001_create_api_tokens.sql"; "-- 0002_add_token_last_used_at.sql"; "-- 0003_create_api_tokens_token_hash_idx.sql"]%string /\
  ran (snd (Migrate tokens_package tokens_ms db1)) = ran db1.
Proof.
  assert (Hps : all_migrations contents embedded_packages = Ok packages) by (vm_compute; reflexivity).
  assert (Hin : (tokens_package, tokens_ms) ∈ packages) by (apply (list_elem_of_lookup_2 _ 0); vm_compute; reflexivity).
  destruct (migrations_run_once contents packages start (snd (Migrate tokens_package tokens_ms start))) as [H1 H2];
    [exact Hps|reflexivity|reflexivity|apply rtc_once; by constructor|].
  split; [rewrite H1; vm_compute; reflexivity|].
  apply (H2 tokens_package tokens_ms _ Hin). vm_compute. reflexivity.
Defined.
End Witness_migrations.
