(* ===== verification/PgTokens.v ===== *)
(** server/control-plane/internal/tokens/postgres_store.go and its twin in
    admintokens: the token store on a database.  The two packages differ in
    the name of the table and in the words of their errors; both are arguments
    here.

    The store keeps the laws of the interface [TokenStore] whatever the
    database answers, with the times it holds rounded down to microseconds and
    its listing in the order of the collation, so that what is proved of the
    services holds on it too. *)
From S2P Require Import Prelude GoStrings Messages ControlPlaneClient Stores TokenStore Tokens Sql Migrations.
From Stdlib Require Import ZArith Lia List String Ascii Bool.
From stdpp Require Import base gmap strings list sorting relations.

Open Scope Z_scope.

Definition token_columns : list string := pk_columns tokens_package.

(** * Statements *)
Section statements.
Context (table : string).
Definition insert_token : statement := InsertInto table (plain token_columns).
Definition select_token (conds : list condition) (order : list (string * direction)) : selection :=
  mkSelection (plain token_columns) table conds order None.
Definition select_by_hash : selection := select_token [Compare (Column "token_hash") Equals 1] [].
Definition select_by_id : selection := select_token [Compare (Column "id") Equals 1] [].
Definition select_list : selection := select_token [] [("created_at", DESC); ("id", ASC)]%string.
Definition update_used : statement :=
  UpdateSet table [("last_used_at", 1%nat)]%string [Compare (Column "id") Equals 2; IsNull "revoked_at"].
Definition update_revoked : statement :=
  UpdateSet table [("revoked_at", 1%nat)]%string [Compare (Column "id") Equals 2].
End statements.

(** The texts of the source. *)
Lemma token_texts :
  sql_text (insert_token "api_tokens") =
    "INSERT INTO api_tokens (id, name, token_hash, scopes_json, created_at, last_used_at, revoked_at) VALUES ($1, $2, $3, $4, $5, $6, $7)"%string /\
  query_text (select_by_hash "api_tokens") =
    "SELECT id, name, token_hash, scopes_json, created_at, last_used_at, revoked_at FROM api_tokens WHERE token_hash = $1"%string /\
  query_text (select_list "api_tokens") =
    "SELECT id, name, token_hash, scopes_json, created_at, last_used_at, revoked_at FROM api_tokens ORDER BY created_at DESC, id ASC"%string /\
  sql_text (update_used "api_tokens") = "UPDATE api_tokens SET last_used_at = $1 WHERE id = $2 AND revoked_at IS NULL"%string /\
  sql_text (update_revoked "admin_tokens") = "UPDATE admin_tokens SET revoked_at = $1 WHERE id = $2"%string.
Proof. vm_compute. repeat split. Qed.

Section store.
Context {J : JSONCodec (list string)} {DB : Type} {Db : Database DB}.
Context (table word : string).       (* "api_tokens" and "token", or "admin_tokens" and "admin token" *)

(** * Records and rows *)
Definition encodeScopes (scopes : list string) : result string :=
  match Marshal scopes with Err e => Err (Wrap "encode scopes" e) | Ok data => Ok (of_bytes data) end.
Definition decodeScopes (raw : string) : result (list string) :=
  match Unmarshal (to_bytes raw) with Err e => Err (Wrap "decode scopes" e) | Ok scopes => Ok scopes end.

Definition scanTokenRecord (r : list value) : result TokenRecord :=
  match r with
  | [Text id; Text name; Text hash; Text scopesJSON; Instant created; last; revoked] =>
      try lastUsedAt <- null_time last;
      try revokedAt <- null_time revoked;
      try scopes <- decodeScopes scopesJSON;
      Ok (mkTokenRecord id name hash scopes created lastUsedAt revokedAt)
  | _ => Err scan_error
  end.

(** * Operations *)
Definition NewPostgresStore (db : option DB) : result DB := open_store db.
Definition pg_Ping (db : DB) : option error :=
  match PingContext db with Some e => Some (Wrap "ping database" e) | None => None end.

Definition pg_Create (db : DB) (record : TokenRecord) : option error * DB :=
  match encodeScopes (t_Scopes record) with
  | Err e => (Some e, db)
  | Ok scopesJSON =>
      exec_error ("insert " +:+ word) (Exec db (insert_token table)
        [Text (t_ID record); Text (t_Name record); Text (t_TokenHash record); Text scopesJSON;
         Instant (t_CreatedAt record); nullable_time (t_LastUsedAt record); nullable_time (t_RevokedAt record)])
  end.

Definition pg_List (db : DB) : result (list TokenRecord) :=
  list_records scanTokenRecord ("list " +:+ word +:+ "s") db (select_list table).
Definition pg_lookup (db : DB) (query : selection) (value : string) : result (option TokenRecord) :=
  lookup_record scanTokenRecord ("lookup " +:+ word) db query value.
Definition pg_LookupByHash (db : DB) (tokenHash : string) : result (option TokenRecord) :=
  pg_lookup db (select_by_hash table) tokenHash.
Definition pg_LookupByID (db : DB) (id : string) : result (option TokenRecord) :=
  pg_lookup db (select_by_id table) id.

Definition pg_MarkUsed (db : DB) (id : string) (usedAt : Time) : option error * DB :=
  exec_error ("mark " +:+ word +:+ " used") (Exec db (update_used table) [Instant usedAt; Text id]).
Definition pg_Revoke (db : DB) (id : string) (revokedAt : Time) : option error * DB :=
  exec_error ("revoke " +:+ word) (Exec db (update_revoked table) [Instant revokedAt; Text id]).

Definition pg_store : TokenStore DB := {|
  Ping := pg_Ping;
  Create := pg_Create;
  List_ := pg_List;
  LookupByHash := pg_LookupByHash;
  LookupByID := pg_LookupByID;
  MarkUsed := pg_MarkUsed;
  Revoke := pg_Revoke;
|}.
End store.

(** * Administrator tokens *)
(** postgres_store.go of admintokens is the same store on the table
    [admin_tokens]. *)
Module AdminTokens.
Section store.
Context {J : JSONCodec (list string)} {DB : Type} {Db : Database DB}.
Definition NewPostgresStore (db : option DB) : result DB := open_store db.
Definition encodeScopes (scopes : list string) : result string := encodeScopes scopes.
Definition decodeScopes (raw : string) : result (list string) := decodeScopes raw.
Definition scanTokenRecord (r : list value) : result TokenRecord := scanTokenRecord r.
Definition Ping_ (db : DB) : option error := pg_Ping db.
Definition Create (db : DB) (record : TokenRecord) : option error * DB := pg_Create "admin_tokens" "admin token" db record.
Definition List_ (db : DB) : result (list TokenRecord) := pg_List "admin_tokens" "admin token" db.
Definition lookup (db : DB) (query : selection) (value : string) : result (option TokenRecord) :=
  pg_lookup "admin token" db query value.
Definition LookupByHash (db : DB) (tokenHash : string) : result (option TokenRecord) :=
  pg_LookupByHash "admin_tokens" "admin token" db tokenHash.
Definition LookupByID (db : DB) (id : string) : result (option TokenRecord) := pg_LookupByID "admin_tokens" "admin token" db id.
Definition MarkUsed (db : DB) (id : string) (usedAt : Time) : option error * DB :=
  pg_MarkUsed "admin_tokens" "admin token" db id usedAt.
Definition Revoke (db : DB) (id : string) (revokedAt : Time) : option error * DB :=
  pg_Revoke "admin_tokens" "admin token" db id revokedAt.
Definition store : TokenStore DB := {|
  Ping := Ping_; TokenStore.Create := Create; TokenStore.List_ := List_; TokenStore.LookupByHash := LookupByHash;
  TokenStore.LookupByID := LookupByID; TokenStore.MarkUsed := MarkUsed; TokenStore.Revoke := Revoke;
|}.
Lemma admin_store_same : store = pg_store "admin_tokens" "admin token".
Proof. done. Qed.
End store.
End AdminTokens.

(** * It keeps the promises of the interface *)
Section laws.
Context {J : JSONCodec (list string)} {JL : JSONLaws (list string)}.
Context {DB : Type} {SV : SQLServer} {Db : Database DB} {DL : DatabaseLaws porthook_schema DB}.
Context (table word : string) (Htable : declared porthook_schema table = Some (token_table table)).
(** The database was created with the collation C. *)
Context (C_collation : forall a b, collate a b = String.leb a b).

Definition token_row (json : string) (r : TokenRecord) : row :=
  [Text (t_ID r); Text (t_Name r); Text (t_TokenHash r); Text json; Instant (t_CreatedAt r);
   nullable_time (t_LastUsedAt r); nullable_time (t_RevokedAt r)].
Lemma scan_token_row json r : decodeScopes json = Ok (t_Scopes r) -> scanTokenRecord (token_row json r) = Ok r.
Proof.
  intros H. unfold scanTokenRecord, token_row. rewrite !(proj2 (null_time_ok _ _) eq_refl). cbn. rewrite H. by destruct r.
Qed.
Lemma scan_token_inv row r :
  scanTokenRecord row = Ok r -> exists json, row = token_row json r /\ decodeScopes json = Ok (t_Scopes r).
Proof.
  unfold scanTokenRecord. repeat (case_match; try done). subst.
  intros (a & Ha & (b & Hb & (c & Hc & [= <-])%rbind_ok)%rbind_ok)%rbind_ok. apply null_time_ok in Ha, Hb. subst.
  eexists. split; [reflexivity|done].
Qed.
Lemma kept_token_row json r : kept <$> token_row json r = token_row json (kept_record micro r).
Proof. destruct r as [? ? ? ? ? [l|] [v|]]; done. Qed.
Lemma decode_encode scopes json : encodeScopes scopes = Ok json -> decodeScopes json = Ok scopes.
Proof.
  unfold encodeScopes, decodeScopes. destruct (Marshal scopes) as [data|] eqn:E; [|done]. intros [= <-].
  rewrite to_of_bytes. by rewrite (unmarshal_marshal _ _ E).
Qed.

Lemma token_whole row r : scanTokenRecord row = Ok r ->
  key_of row = t_ID r /\ (fun c => column_of (token_table table) (fst c) row) <$> plain (td_columns (token_table table)) = row.
Proof. intros (json & -> & _)%scan_token_inv. done. Qed.

Abbreviation held_tokens := (held table scanTokenRecord).
Definition pg_ok (db : DB) : Prop := readable table scanTokenRecord t_ID (tables_of db).
Definition pg_records (db : DB) : gmap string TokenRecord := held_tokens (tables_of db).

(** The outcome of a statement on the tables. *)
Lemma exec_outcome failure db st args e db' :
  exec_error failure (Exec db st args) = (e, db') ->
  match e with
  | Some _ => tables_of db' = tables_of db
  | None => exists fresh n, exec porthook_schema fresh st args (tables_of db) = Ok (n, tables_of db')
  end.
Proof.
  destruct (Exec db st args) as [[n|err] x] eqn:E; intros [= <- <-].
  - apply Exec_ok in E as (fresh & _ & E). eauto.
  - by apply Exec_err in E.
Qed.

Lemma pg_Create_law db r e db' :
  pg_ok db -> pg_Create table word db r = (e, db') ->
  pg_ok db' /\ stores (pg_records db) e (<[t_ID r := kept_record micro r]> (pg_records db)) (pg_records db') /\
  (e = None -> pg_records db !! t_ID r = None /\
     forall i x, pg_records db !! i = Some x -> t_TokenHash x <> t_TokenHash r).
Proof.
  intros Hok. unfold pg_Create. destruct (encodeScopes (t_Scopes r)) as [json|] eqn:Ej; [|by intros [= <- <-]].
  intros E%exec_outcome. destruct e as [err|].
  { unfold pg_ok, pg_records. by rewrite E. }
  destruct E as (fresh & n & E).
  change [Text (t_ID r); Text (t_Name r); Text (t_TokenHash r); Text json; Instant (t_CreatedAt r);
          nullable_time (t_LastUsedAt r); nullable_time (t_RevokedAt r)] with (token_row json r) in E.
  apply (exec_insert_ok _ _ _ _ _ _ (token_table table) (token_row json (kept_record micro r))) in E as (ET & Hk & Hu);
    [|done|done|rewrite kept_token_row; reflexivity].
  destruct (held_insert table (token_table table) scanTokenRecord t_ID token_whole (tables_of db)
    (token_row json (kept_record micro r)) (kept_record micro r)) as [H1 H2]; [by apply scan_token_row, decode_encode|done|].
  unfold pg_ok, pg_records. rewrite ET. split; [done|]. split; [done|]. intros _. split.
  - by apply (held_None table scanTokenRecord t_ID).
  - intros i x (row & Hrow & (json' & -> & _)%scan_token_inv)%held_lookup. apply Forall_cons in Hu as [Hu _].
    specialize (Hu _ _ Hrow). intros Eh. apply Hu. cbn. by rewrite Eh.
Qed.

(** An update of the row with an id. *)
Lemma pg_update_law failure db c i t conds g e db' :
  pg_ok db ->
  (forall r json, updated (token_table table) [(c, 1%nat)] conds (kept <$> [Instant t; Text i]) (token_row json r) =
     token_row json (if bool_decide (t_ID r = i) then g r else r)) ->
  (forall r, t_Scopes (g r) = t_Scopes r /\ t_ID (g r) = t_ID r) ->
  exec_error failure (Exec db (UpdateSet table [(c, 1%nat)] conds) [Instant t; Text i]) = (e, db') ->
  pg_ok db' /\ stores (pg_records db) e (alter g i (pg_records db)) (pg_records db').
Proof.
  intros Hok Hup Hg E%exec_outcome. destruct e as [err|].
  { unfold pg_ok, pg_records. by rewrite E. }
  destruct E as (fresh & n & E). apply (exec_update_ok _ _ _ _ _ _ _ (token_table table)) in E as [ET _]; [|done].
  destruct (held_update table scanTokenRecord t_ID (tables_of db)
    (updated (token_table table) [(c, 1%nat)] conds (kept <$> [Instant t; Text i]))
    (fun r => if bool_decide (t_ID r = i) then g r else r)) as [H1 H2]; [|done|].
  { intros row r (json & -> & Hs)%scan_token_inv. rewrite Hup. destruct (Hg r) as [Hg1 Hg2]. case_bool_decide.
    - split; [|done]. apply scan_token_row. by rewrite Hg1.
    - split; [|done]. by apply scan_token_row. }
  unfold pg_ok, pg_records. rewrite ET. split; [done|]. cbv beta iota delta [stores]. rewrite H2. apply map_eq. intros k. rewrite lookup_fmap.
  destruct (held_tokens (tables_of db) !! k) as [r|] eqn:Er.
  - pose proof (held_id _ _ _ _ _ _ Hok Er) as <-. cbn. case_bool_decide as Hi.
    + subst i. by rewrite lookup_alter_eq, Er.
    + by rewrite lookup_alter_ne, Er.
  - destruct (decide (i = k)) as [->|]; [rewrite lookup_alter_eq|rewrite lookup_alter_ne by done]; by rewrite Er.
Qed.

Lemma updated_used t i r json :
  updated (token_table table) [("last_used_at"%string, 1%nat)] [Compare (Column "id") Equals 2; IsNull "revoked_at"]
    (kept <$> [Instant t; Text i]) (token_row json r) =
  token_row json (if bool_decide (t_ID r = i)
                  then match t_RevokedAt r with None => set_LastUsedAt r (micro t) | Some _ => r end else r).
Proof.
  unfold updated. cbn. destruct (String.eqb_spec (t_ID r) i) as [He|Hne].
  - rewrite (bool_decide_true (t_ID r = i)) by done. destruct r as [? ? ? ? ? l [v|]]; cbn; case_bool_decide; done.
  - rewrite (bool_decide_false (t_ID r = i)) by done. done.
Qed.
Lemma updated_revoked t i r json :
  updated (token_table table) [("revoked_at"%string, 1%nat)] [Compare (Column "id") Equals 2]
    (kept <$> [Instant t; Text i]) (token_row json r) =
  token_row json (if bool_decide (t_ID r = i) then set_RevokedAt r (micro t) else r).
Proof.
  unfold updated. cbn. destruct (String.eqb_spec (t_ID r) i) as [He|Hne].
  - rewrite bool_decide_true by done. by destruct r.
  - rewrite bool_decide_false by done. done.
Qed.

Lemma token_where_hash h json r :
  where_holds (token_table table) [Text h] (sel_where (select_by_hash table)) (token_row json r) = String.eqb (t_TokenHash r) h.
Proof. cbn. by rewrite andb_true_r. Qed.
Lemma token_where_id i json r :
  where_holds (token_table table) [Text i] (sel_where (select_by_id table)) (token_row json r) = String.eqb (t_ID r) i.
Proof. cbn. by rewrite andb_true_r. Qed.

Lemma pg_LookupByHash_law db h o :
  pg_ok db -> pg_LookupByHash table word db h = Ok o ->
  match o with
  | Some r => pg_records db !! t_ID r = Some r /\ t_TokenHash r = h
  | None => forall i r, pg_records db !! i = Some r -> t_TokenHash r <> h
  end.
Proof.
  intros Hok E. apply (lookup_record_spec porthook_schema table (token_table table) scanTokenRecord t_ID Htable eq_refl token_whole
    (select_by_hash table) eq_refl eq_refl eq_refl) in E; [|done]. destruct o as [r|].
  - destruct E as (row & Hrow & Hscan & Hw). split; [apply held_lookup; eauto|].
    destruct (scan_token_inv _ _ Hscan) as (json & -> & _). rewrite token_where_hash in Hw. by apply String.eqb_eq in Hw.
  - intros i r (row & Hrow & Hscan)%held_lookup. apply E in Hrow. destruct (scan_token_inv _ _ Hscan) as (json & -> & _).
    rewrite token_where_hash in Hrow. by apply String.eqb_neq in Hrow.
Qed.

Lemma pg_LookupByID_law db i o : pg_ok db -> pg_LookupByID table word db i = Ok o -> o = pg_records db !! i.
Proof.
  intros Hok E. apply (lookup_record_spec porthook_schema table (token_table table) scanTokenRecord t_ID Htable eq_refl token_whole
    (select_by_id table) eq_refl eq_refl eq_refl) in E; [|done]. destruct o as [r|].
  - destruct E as (row & Hrow & Hscan & Hw). destruct (scan_token_inv _ _ Hscan) as (json & -> & _).
    rewrite token_where_id in Hw. apply String.eqb_eq in Hw. subst i. symmetry. apply held_lookup. eauto.
  - symmetry. destruct (pg_records db !! i) as [r|] eqn:Er; [exfalso|done].
    pose proof (held_id _ _ _ _ _ _ Hok Er) as <-. apply held_lookup in Er as (row & Hrow & Hscan). apply E in Hrow.
    destruct (scan_token_inv _ _ Hscan) as (json & -> & _). rewrite token_where_id, String.eqb_refl in Hrow. done.
Qed.

Lemma pg_List_law db l :
  pg_ok db -> pg_List table word db = Ok l -> l ≡ₚ (map_to_list (pg_records db)).*2 /\ Sorted newest_first l.
Proof.
  intros Hok E. apply (list_records_spec porthook_schema table (token_table table) scanTokenRecord t_ID Htable eq_refl token_whole
    (select_list table) eq_refl eq_refl eq_refl) in E as (Hp & out & HF & Hs); [|done|done]. split; [done|].
  eapply Sorted_scanned; [|exact HF|exact Hs].
  intros a b x y (ja & -> & _)%scan_token_inv (jb & -> & _)%scan_token_inv. cbn. intros [H1 H2]. unfold newest_first.
  rewrite C_collation in H2. apply Z.leb_le in H1.
  destruct (Z.leb_spec (t_CreatedAt x) (t_CreatedAt y)); [|by left]. right. split; [lia|]. by apply H2.
Qed.

#[program] Definition pg_laws : TokenStoreLaws DB (TS := pg_store table word) := {|
  store_ok := pg_ok;
  records := pg_records;
  keeps := micro;
|}.
Next Obligation. intros db i r Hok Hr. by apply (held_id _ _ _ _ _ _ Hok) in Hr. Qed.
Next Obligation. apply pg_Create_law. Qed.
Next Obligation. apply pg_List_law. Qed.
Next Obligation. apply pg_LookupByHash_law. Qed.
Next Obligation. apply pg_LookupByID_law. Qed.
Next Obligation.
  intros db i t e db' Hok E. eapply pg_update_law; [done| | |exact E].
  - intros r json. apply updated_used.
  - intros r. by destruct (t_RevokedAt r).
Qed.
Next Obligation.
  intros db i t e db' Hok E. eapply pg_update_law; [done| | |exact E].
  - intros r json. apply updated_revoked.
  - done.
Qed.

(** ** A database that is up *)
Lemma token_row_sound T json r :
  row_violation T (token_table table) (token_row json r) = None /\ reference_broken T (token_table table) (token_row json r) = None.
Proof. destruct r as [? ? ? ? ? [l|] [v|]]; done. Qed.

Lemma pg_MarkUsed_up db i now :
  pg_ok db -> unique_hashes (pg_records db) -> up db -> storable (Text i) = true -> storable (Instant now) = true ->
  fst (pg_MarkUsed table word db i now) = None /\ up (snd (pg_MarkUsed table word db i now)).
Proof.
  intros Hok Hu Hup Hi Hn. unfold pg_MarkUsed.
  destruct (Exec_up db (update_used table) [Instant now; Text i] Hup) as (Hup' & fresh & _ & HE); [cbn; by rewrite Hi, Hn|].
  destruct (exec_update_total porthook_schema fresh table [("last_used_at", 1%nat)]%string
    [Compare (Column "id") Equals 2; IsNull "revoked_at"] [Instant now; Text i] (tables_of db) (token_table table)) as (n & T' & E).
  - exact Htable.
  - intros k row Hrow. destruct (Hok _ _ Hrow) as (r & (json & -> & _)%scan_token_inv & _). rewrite updated_used. apply token_row_sound.
  - constructor; [|constructor]. intros k1 row1 (x1 & <- & H1)%lookup_fmap_Some k2 row2 (x2 & <- & H2)%lookup_fmap_Some.
    destruct (Hok _ _ H1) as (r1 & E1 & K1), (Hok _ _ H2) as (r2 & E2 & K2).
    destruct (decide (k1 = k2)) as [|Hne]; [by left|right].
    destruct (scan_token_inv _ _ E1) as (j1 & -> & _), (scan_token_inv _ _ E2) as (j2 & -> & _). rewrite !updated_used.
    assert (Hh : forall r, t_TokenHash (if bool_decide (t_ID r = i)
      then match t_RevokedAt r with None => set_LastUsedAt r (micro now) | Some _ => r end else r) = t_TokenHash r)
      by (intros r; case_bool_decide; [by destruct (t_RevokedAt r)|done]).
    cbn. rewrite !Hh. intros [= Eh]. apply Hne. apply (Hu k1 k2 r1 r2); [apply held_lookup; eauto..|done].
  - unfold update_used in *. rewrite E in HE. destruct (Exec db _ _) as [[m|e] db']; [done|]. done.
Qed.

Lemma pg_LookupByHash_up db h :
  pg_ok db -> up db -> storable (Text h) = true -> exists o, pg_LookupByHash table word db h = Ok o.
Proof.
  intros Hok Hup Hs. by apply (lookup_record_up porthook_schema table (token_table table) scanTokenRecord t_ID Htable eq_refl token_whole).
Qed.
End laws.

(** * The service on a database *)
Section service.
Context {H256 : SHA256} {J : JSONCodec (list string)} {JL : JSONLaws (list string)}.
Context {DB : Type} {SV : SQLServer} {Db : Database DB} {DL : DatabaseLaws porthook_schema DB}.
Context (C_collation : forall a b, collate a b = String.leb a b).
#[local] Instance store : TokenStore DB := pg_store "api_tokens" "token".
#[local] Instance store_laws : TokenStoreLaws DB := pg_laws "api_tokens" "token" eq_refl C_collation.

End service.

(** ** Witness *)
Module Witness_pg_tokens.
#[local] Instance sha : SHA256 := {| Sum256 s := to_bytes s |}.
(** The bits of a countable value for JSON text. *)
#[local] Existing Instance countable_codec.
#[local] Existing Instance Server.C_server.
#[local] Instance db : Database tables := Server.database porthook_schema.
#[local] Instance db_laws : DatabaseLaws porthook_schema tables := Server.database_laws porthook_schema.
#[local] Existing Instance store.

Definition empty : tables := mkTables ∅ ∅.
Definition random : list (option bytes) := [Some (to_bytes "secret"); Some (to_bytes "id")].
Definition created := CreateToken (Some empty) (mkCreateTokenRequest "ci" []) 10 random.

End Witness_pg_tokens.
