(* ===== verification/PgStores.v ===== *)
(** postgres_store.go of server/control-plane/internal/reserved, access and
    customdomains: the stores of reservations, access policies and custom
    domains on a database.

    On a database that is up, each answers as the memory store does: the
    lemmas [*_agree] relate the two operation by operation, and the theorem
    follows them through any sequence of calls.  What differs is stated: times
    are kept to the microsecond, a duplicate id is another error than a
    duplicate name, and a deleted reservation takes its policy and its domains
    with it. *)
From S2P Require Import Prelude GoStrings Messages ControlPlaneClient ClientIP Password Stores Sql Migrations.
From S2P Require Reserved Access CustomDomains.
From Stdlib Require Import ZArith Lia List String Ascii Bool.
From stdpp Require Import base gmap strings list sorting relations.

Open Scope Z_scope.

(** [fmt.Errorf("WORDS: %w", err)], unless the text of the error names one of
    the constraints. *)
Definition constraint_error {DB} (names : list string) (exists_ : error) (failure : string) (r : result Z * DB)
    : option error * DB :=
  match r with
  | (Err e, db) =>
      (Some (if existsb (Contains (error_message e)) names then exists_ else Wrap failure e), db)
  | (Ok _, db) => (None, db)
  end.
(** The same for an update, which finds no row or one. *)
Definition affected_error {DB} (names : list string) (exists_ missing : error) (failure : string) (r : result Z * DB)
    : option error * DB :=
  match r with
  | (Ok n, db) => (if n =? 0 then Some missing else None, db)
  | _ => constraint_error names exists_ failure r
  end.

(** * Orders of listings *)
(** By a key and, for equal keys, by the id: the comparison of the memory
    stores, and an ORDER BY of both under the collation C. *)
Definition key_order (ka ia kb ib : string) : Prop :=
  if String.eqb ka kb then String.leb ia ib = true else String.leb ka kb = true.

Lemma leb_refl a : String.leb a a = true.
Proof. by destruct (String.leb_total a a). Qed.
Lemma leb_trans a b c : String.leb a b = true -> String.leb b c = true -> String.leb a c = true.
Proof.
  unfold String.leb. revert b c. induction a as [|x a IH]; intros [|y b] [|z c]; try done. cbn.
  unfold Ascii.compare. specialize (IH b c).
  destruct (N.compare_spec (N_of_ascii x) (N_of_ascii y)), (N.compare_spec (N_of_ascii y) (N_of_ascii z)); try done;
    destruct (N.compare_spec (N_of_ascii x) (N_of_ascii z)); try done; try (exfalso; lia); auto.
Qed.
Lemma key_order_trans ka ia kb ib kc ic :
  key_order ka ia kb ib -> key_order kb ib kc ic -> key_order ka ia kc ic.
Proof.
  unfold key_order. destruct (String.eqb_spec ka kb) as [->|H1], (String.eqb_spec kb kc) as [->|H2].
  - apply leb_trans.
  - by intros _ ?.
  - intros ? _. destruct (String.eqb_spec ka kc); [congruence|done].
  - intros L1 L2. destruct (String.eqb_spec ka kc) as [->|]; [|by eapply leb_trans].
    destruct H2. by apply String.leb_antisym.
Qed.
Lemma key_order_total ka ia kb ib : key_order ka ia kb ib \/ key_order kb ib ka ia.
Proof.
  unfold key_order. rewrite (String.eqb_sym kb ka). destruct (String.eqb ka kb); apply String.leb_total.
Qed.
Lemma key_order_antisym ka ia kb ib : key_order ka ia kb ib -> key_order kb ib ka ia -> ka = kb.
Proof.
  unfold key_order. rewrite (String.eqb_sym kb ka). destruct (String.eqb_spec ka kb); [done|]. apply String.leb_antisym.
Qed.
Lemma key_order_sql ka ia kb ib :
  String.leb ka kb = true /\ (String.leb kb ka = true -> String.leb ia ib = true /\ (String.leb ib ia = true -> True)) ->
  key_order ka ia kb ib.
Proof.
  unfold key_order. intros [H1 H2]. destruct (String.eqb_spec ka kb) as [->|]; [|done]. by apply H2, leb_refl.
Qed.

(** * A table and a memory store *)
(** Records with an id and one more unique key, in a table and in the two maps
    of a memory store; [keep] rounds the times. *)
Section agreement.
Context {SV : SQLServer} {R : Type} (rid rkey : R -> string) (keep : R -> R).
Context (table : string) (d : table_decl) (scan : list value -> result R) (kc kname : string).
Context (Hd : declared porthook_schema table = Some d) (Hserial : td_serial d = false).
Context (Hunique : td_unique d = [(kc, kname)]).
Context (scan_whole : forall r x, scan r = Ok x ->
  key_of r = rid x /\ (fun c => column_of d (fst c) r) <$> plain (td_columns d) = r).
Context (scan_key : forall r x, scan r = Ok x -> column_of d kc r = Text (rkey x)).
Context (keep_rid : forall x, rid (keep x) = rid x) (keep_rkey : forall x, rkey (keep x) = rkey x).

Definition agree (byID : gmap string R) (T : tables) : Prop :=
  readable table scan rid T /\ held table scan T = keep <$> byID.

Lemma agree_lookup byID T k :
  agree byID T -> keyed_rows T table !! k = None <-> byID !! k = None.
Proof.
  intros [Hr Hh]. rewrite <- (held_None table scan rid T k Hr), Hh, lookup_fmap. by destruct (byID !! k).
Qed.
Lemma agree_row byID T k r :
  agree byID T -> keyed_rows T table !! k = Some r -> exists x, byID !! k = Some x /\ scan r = Ok (keep x).
Proof.
  intros [Hr Hh] Hk. destruct (Hr _ _ Hk) as (x & Hx & _).
  assert (Hk' : held table scan T !! k = Some x) by (apply held_lookup; eauto).
  rewrite Hh, lookup_fmap_Some in Hk'. destruct Hk' as (y & <- & Hy). eauto.
Qed.
Lemma agree_back byID T k x :
  agree byID T -> byID !! k = Some x -> exists r, keyed_rows T table !! k = Some r /\ scan r = Ok (keep x).
Proof.
  intros [Hr Hh] Hk. assert (Hk' : held table scan T !! k = Some (keep x)) by (by rewrite Hh, lookup_fmap, Hk).
  by apply held_lookup in Hk'.
Qed.

(** The constraint a new record breaks is the index that holds it already. *)
Lemma agree_duplicate byID byKey T r x :
  indexed rid rkey byID byKey -> agree byID T -> scan r = Ok (keep x) ->
  duplicate d (keyed_rows T table) r =
  if bool_decide (is_Some (byID !! rid x)) then Some (unique_violation (td_pkey d))
  else if bool_decide (is_Some (byKey !! rkey x)) then Some (unique_violation kname)
  else None.
Proof.
  intros Hi Ha Hx. destruct (scan_whole _ _ Hx) as [Hk _]. rewrite keep_rid in Hk. unfold duplicate. rewrite Hk.
  assert (Hsome : is_Some (keyed_rows T table !! rid x) <-> is_Some (byID !! rid x)).
  { rewrite <- !not_eq_None_Some. by rewrite (agree_lookup _ _ _ Ha). }
  rewrite (bool_decide_ext _ _ Hsome). destruct (bool_decide (is_Some (byID !! rid x))); [done|].
  rewrite Hunique. cbn [List.find].
  assert (Hdup : map_Forall (fun _ y => column_of d kc y <> column_of d kc r) (keyed_rows T table) <-> byKey !! rkey x = None).
  { rewrite (scan_key _ _ Hx), keep_rkey. split.
    - intros H. destruct (byKey !! rkey x) as [i|] eqn:E; [exfalso|done].
      destruct (idx_key _ _ _ _ Hi _ _ E) as (y & Hy & Ey). destruct (agree_back _ _ _ _ Ha Hy) as (ry & Hry & Hsy).
      apply (H _ _ Hry). by rewrite (scan_key _ _ Hsy), keep_rkey, Ey.
    - intros E i ry Hry Ec. destruct (agree_row _ _ _ _ Ha Hry) as (y & Hy & Hsy).
      rewrite (scan_key _ _ Hsy), keep_rkey in Ec. injection Ec as Ec.
      destruct (idx_id _ _ _ _ Hi _ _ Hy) as [_ E']. rewrite Ec in E'. congruence. }
  destruct (decide (byKey !! rkey x = None)) as [E|E].
  - rewrite (bool_decide_true (map_Forall _ _)) by (by apply Hdup). cbn [negb].
    rewrite bool_decide_false; [done|]. rewrite E. by intros [].
  - rewrite (bool_decide_false (map_Forall _ _)) by (by rewrite Hdup). cbn [negb].
    rewrite bool_decide_true; [done|]. by apply not_eq_None_Some.
Qed.

Lemma agree_insert byID T r x :
  agree byID T -> scan r = Ok (keep x) ->
  agree (<[rid x := x]> byID) (set_keyed T table (<[key_of r := r]> (keyed_rows T table))).
Proof.
  intros [Hr Hh] Hx. destruct (held_insert table d scan rid scan_whole T r (keep x) Hx Hr) as [H1 H2].
  split; [done|]. rewrite H2, Hh, keep_rid. by rewrite fmap_insert.
Qed.

(** An INSERT of a record whose own constraints hold. *)
Lemma agree_exec_insert fresh columns args byID byKey T r x :
  indexed rid rkey byID byKey -> agree byID T ->
  new_row (td_columns d) columns (kept <$> args) = Ok r -> scan r = Ok (keep x) ->
  row_violation T d r = None -> reference_broken T d r = None ->
  exec porthook_schema fresh (InsertInto table columns) args T =
  if bool_decide (is_Some (byID !! rid x)) then Err (unique_violation (td_pkey d))
  else if bool_decide (is_Some (byKey !! rkey x)) then Err (unique_violation kname)
  else Ok (1, set_keyed T table (<[key_of r := r]> (keyed_rows T table))).
Proof.
  intros Hi Ha Hr Hx Hv Hb. rewrite (exec_insert _ _ _ _ _ _ d r) by done. rewrite Hv, Hb, (agree_duplicate _ _ _ _ _ Hi Ha Hx).
  destruct (bool_decide (is_Some (byID !! rid x))); [done|]. by destruct (bool_decide (is_Some (byKey !! rkey x))).
Qed.

Lemma agree_ext byID T T' : keyed_rows T table = keyed_rows T' table -> agree byID T -> agree byID T'.
Proof. intros E. unfold agree, readable, held. by rewrite E. Qed.

(** A DELETE by id. *)
Lemma agree_exec_delete fresh conds byID T k :
  agree byID T ->
  (forall r x, scan r = Ok x -> where_holds d [Text k] conds r = String.eqb (rid x) k) ->
  Forall (fun '(name, d') => name = table -> existsb (fun '(_, to, _) => String.eqb to table) (td_refs d') = false) porthook_schema ->
  exists n T', exec porthook_schema fresh (DeleteFrom table conds) [Text k] T = Ok (n, T') /\ agree (delete k byID) T'.
Proof.
  intros [Hr Hh] Hw Hc. unfold exec. rewrite Hd, Hserial. eexists _, _. split; [reflexivity|].
  eapply agree_ext; [symmetry; by apply cascade_other|].
  destruct (held_delete table d scan rid Hserial T (where_holds d (kept <$> [Text k]) conds) (fun x => rid x <> k)) as [H1 H2].
  - intros r x Hx. change (kept <$> [Text k]) with [Text k]. rewrite (Hw _ _ Hx). apply String.eqb_neq.
  - exact Hr.
  - split; [exact H1|]. rewrite H2. apply map_eq. intros i. apply option_eq. intros x.
    rewrite map_lookup_filter_Some, Hh, !lookup_fmap_Some. split.
    + intros [(y & <- & Hy) Hne]. exists y. split; [done|]. rewrite lookup_delete_ne; [done|].
      assert (Hi : held table scan T !! i = Some (keep y)) by (by rewrite Hh, lookup_fmap, Hy).
      apply (held_id _ _ _ _ _ _ Hr) in Hi. congruence.
    + intros (y & <- & [Hne Hy]%lookup_delete_Some). split; [eauto|].
      assert (Hi : held table scan T !! i = Some (keep y)) by (by rewrite Hh, lookup_fmap, Hy).
      apply (held_id _ _ _ _ _ _ Hr) in Hi. congruence.
Qed.

(** An UPDATE of one row. *)
Section update.
Context (sets : list (string * nat)) (conds : list condition) (args : list value).
Context (byID : gmap string R) (byKey : gmap string string) (T : tables) (k : string).
Context (Hi : indexed rid rkey byID byKey) (Ha : agree byID T).
Context (Hit : forall i x r, byID !! i = Some x -> scan r = Ok (keep x) ->
  where_holds d (kept <$> args) conds r = bool_decide (i = k)).
Abbreviation upd := (updated d sets conds (kept <$> args)).

Lemma update_misses i r : keyed_rows T table !! i = Some r -> i <> k -> upd r = r.
Proof.
  intros Hr Hne. destruct (agree_row _ _ _ _ Ha Hr) as (x & Hx & Hs). unfold updated.
  by rewrite (Hit _ _ _ Hx Hs), bool_decide_false.
Qed.

Lemma agree_update_none :
  byID !! k = None -> forall fresh, exists T', exec porthook_schema fresh (UpdateSet table sets conds) args T = Ok (0, T') /\
    agree byID T'.
Proof.
  intros Hk fresh. unfold exec. rewrite Hd. cbv zeta.
  assert (Hnone : filter (fun '(_, r) => where_holds d (kept <$> args) conds r = true) (keyed_rows T table) = ∅).
  { apply map_eq. intros i. rewrite lookup_empty. apply map_lookup_filter_None_2.
    destruct (keyed_rows T table !! i) as [r|] eqn:Er; [right|by left]. intros r' [= <-].
    destruct (agree_row _ _ _ _ Ha Er) as (x & Hx & Hs). rewrite (Hit _ _ _ Hx Hs).
    rewrite bool_decide_false; [done|]. intros ->. congruence. }
  rewrite Hnone, map_to_list_empty. cbn [fmap list_fmap app].
  assert (Hid : (fun r => if where_holds d (kept <$> args) conds r
      then foldl (fun r '(c, n) => with_column d c (nth (pred n) (kept <$> args) NULL) r) r sets else r) <$> keyed_rows T table
    = keyed_rows T table).
  { apply map_eq. intros i. rewrite lookup_fmap. destruct (keyed_rows T table !! i) as [r|] eqn:Er; [|done]. cbn. f_equal.
    apply (update_misses i); [done|]. intros ->. by rewrite (proj2 (agree_lookup _ _ _ Ha)) in Er. }
  rewrite Hid, Hunique. cbn [fmap list_fmap app first_error foldr].
  rewrite bool_decide_true.
  - eexists. split; [reflexivity|]. eapply agree_ext; [|exact Ha]. by rewrite keyed_rows_set.
  - intros i r1 H1 j r2 H2. destruct (decide (i = j)); [by left|right].
    destruct (agree_row _ _ _ _ Ha H1) as (x1 & Hx1 & S1), (agree_row _ _ _ _ Ha H2) as (x2 & Hx2 & S2).
    rewrite (scan_key _ _ S1), (scan_key _ _ S2), !keep_rkey. intros [= E].
    destruct (idx_id _ _ _ _ Hi _ _ Hx1) as [_ E1], (idx_id _ _ _ _ Hi _ _ Hx2) as [_ E2]. congruence.
Qed.

Context (old y : R) (Hold : byID !! k = Some old) (Hy : rid y = k).
Context (Hnew : forall r, keyed_rows T table !! k = Some r ->
  scan (upd r) = Ok (keep y) /\ row_violation T d (upd r) = None /\ reference_broken T d (upd r) = None).

Lemma agree_updated : agree (<[k := y]> byID) (set_keyed T table (upd <$> keyed_rows T table)).
Proof.
  split.
  - intros i r. rewrite keyed_rows_set, lookup_fmap_Some. intros (r0 & <- & Hr0). destruct (decide (i = k)) as [->|Hne].
    + destruct (Hnew _ Hr0) as [Hs _]. exists (keep y). split; [done|]. by rewrite keep_rid.
    + rewrite (update_misses _ _ Hr0 Hne). by apply Ha.
  - apply map_eq. intros i. unfold held. rewrite keyed_rows_set, lookup_omap, !lookup_fmap.
    destruct (decide (i = k)) as [->|Hne].
    + rewrite lookup_insert_eq. destruct (agree_back _ _ _ _ Ha Hold) as (r & Hr & _). rewrite Hr. cbn.
      unfold scanned. by rewrite (proj1 (Hnew _ Hr)).
    + rewrite lookup_insert_ne by done. destruct (keyed_rows T table !! i) as [r|] eqn:Er.
      * cbn. rewrite (update_misses _ _ Er Hne). destruct (agree_row _ _ _ _ Ha Er) as (x & -> & Hs). unfold scanned. by rewrite Hs.
      * apply (agree_lookup _ _ _ Ha) in Er. by rewrite Er.
Qed.

(** The keys stay distinct unless another record has the new one. *)
Lemma update_unique :
  unique_column d kc (upd <$> keyed_rows T table) <-> byKey !! rkey y = None \/ byKey !! rkey y = Some k.
Proof.
  assert (Hkey : forall i r, (upd <$> keyed_rows T table) !! i = Some r ->
    exists x, (<[k := y]> byID) !! i = Some x /\ column_of d kc r = Text (rkey x)).
  { intros i r H. destruct (agree_row (<[k := y]> byID) (set_keyed T table (upd <$> keyed_rows T table)) i r) as (x & Hx & Hs);
      [apply agree_updated|by rewrite keyed_rows_set|]. exists x. split; [done|]. by rewrite (scan_key _ _ Hs), keep_rkey. }
  assert (Hback : forall i x, (<[k := y]> byID) !! i = Some x ->
    exists r, (upd <$> keyed_rows T table) !! i = Some r /\ column_of d kc r = Text (rkey x)).
  { intros i x H. destruct (agree_back (<[k := y]> byID) (set_keyed T table (upd <$> keyed_rows T table)) i x) as (r & Hr & Hs);
      [apply agree_updated|done|]. rewrite keyed_rows_set in Hr. exists r. split; [done|]. by rewrite (scan_key _ _ Hs), keep_rkey. }
  split.
  - intros Hu. destruct (byKey !! rkey y) as [j|] eqn:Ej; [right|by left]. f_equal.
    destruct (idx_key _ _ _ _ Hi _ _ Ej) as (z & Hz & Ez). destruct (decide (j = k)) as [|Hne]; [done|exfalso].
    destruct (Hback k y) as (r1 & Hr1 & C1); [by rewrite lookup_insert_eq|].
    destruct (Hback j z) as (r2 & Hr2 & C2); [by rewrite lookup_insert_ne|].
    destruct (Hu _ _ Hr1 _ _ Hr2) as [|Hc]; [congruence|]. apply Hc. by rewrite C1, C2, Ez.
  - intros Hfree i r1 H1 j r2 H2. destruct (decide (i = j)) as [|Hne]; [by left|right].
    destruct (Hkey _ _ H1) as (x1 & Hx1 & ->), (Hkey _ _ H2) as (x2 & Hx2 & ->). intros [= E].
    assert (Hmem : forall a xa, a <> k -> (<[k := y]> byID) !! a = Some xa -> byKey !! rkey xa = Some a).
    { intros a xa Hak Hxa. rewrite lookup_insert_ne in Hxa by done. by destruct (idx_id _ _ _ _ Hi _ _ Hxa). }
    destruct (decide (i = k)) as [->|Hik], (decide (j = k)) as [->|Hjk]; [done|..].
    + rewrite lookup_insert_eq in Hx1. injection Hx1 as <-. specialize (Hmem _ _ Hjk Hx2). rewrite <- E in Hmem. intuition congruence.
    + rewrite lookup_insert_eq in Hx2. injection Hx2 as <-. specialize (Hmem _ _ Hik Hx1). rewrite E in Hmem. intuition congruence.
    + pose proof (Hmem _ _ Hik Hx1). pose proof (Hmem _ _ Hjk Hx2). congruence.
Qed.

Lemma agree_exec_update fresh :
  exec porthook_schema fresh (UpdateSet table sets conds) args T =
  if bool_decide (byKey !! rkey y = None \/ byKey !! rkey y = Some k)
  then Ok (1, set_keyed T table (upd <$> keyed_rows T table))
  else Err (unique_violation kname).
Proof.
  destruct (agree_back _ _ _ _ Ha Hold) as (r & Hr & Hs). destruct (Hnew _ Hr) as (_ & Hv & Hb).
  assert (Hw : where_holds d (kept <$> args) conds r = true) by (by rewrite (Hit _ _ _ Hold Hs), bool_decide_true).
  assert (Hone : filter (fun '(_, r) => where_holds d (kept <$> args) conds r = true) (keyed_rows T table) = {[k := r]}).
  { apply map_eq. intros i. destruct (decide (i = k)) as [->|Hne].
    - rewrite lookup_singleton_eq. by apply map_lookup_filter_Some_2.
    - rewrite lookup_singleton_ne by done. apply map_lookup_filter_None_2.
      destruct (keyed_rows T table !! i) as [ri|] eqn:Ei; [right|by left]. intros r' [= <-].
      destruct (agree_row _ _ _ _ Ha Ei) as (x & Hx & Hsx). by rewrite (Hit _ _ _ Hx Hsx), bool_decide_false. }
  unfold updated in Hv, Hb. rewrite Hw in Hv, Hb.
  unfold exec. rewrite Hd. cbv zeta. rewrite Hone, map_to_list_singleton. cbn [fmap list_fmap snd app]. rewrite Hv, Hb, Hunique.
  cbn [fmap list_fmap snd app first_error foldr].
  rewrite (bool_decide_ext _ _ update_unique). by destruct (bool_decide (_ \/ _)).
Qed.
End update.

(** ** Reading *)
Context {DB : Type} {Db : Database DB} {DL : DatabaseLaws porthook_schema DB}.

Lemma agree_lookup_id failure q byID db k :
  agree byID (tables_of db) -> up db -> storable (Text k) = true ->
  sel_table q = table -> sel_columns q = plain (td_columns d) -> sel_limit q = None ->
  (forall r x, scan r = Ok x -> where_holds d [Text k] (sel_where q) r = String.eqb (rid x) k) ->
  lookup_record scan failure db q k = Ok (keep <$> byID !! k).
Proof.
  intros [Hr Hh] Hup Hs H1 H2 H3 Hw.
  destruct (lookup_record_up porthook_schema table d scan rid Hd Hserial scan_whole q H1 H2 H3 failure db k Hr Hup Hs) as [o Ho].
  rewrite Ho. f_equal. apply (lookup_record_spec porthook_schema table d scan rid Hd Hserial scan_whole q H1 H2 H3) in Ho; [|done].
  rewrite <- lookup_fmap, <- Hh. destruct o as [x|].
  - destruct Ho as (r & Hrow & Hx & Hk). rewrite (Hw _ _ Hx) in Hk. apply String.eqb_eq in Hk. subst k.
    symmetry. apply held_lookup. eauto.
  - symmetry. destruct (held table scan (tables_of db) !! k) as [x|] eqn:E; [exfalso|done].
    pose proof (held_id _ _ _ _ _ _ Hr E) as Hid. apply held_lookup in E as (r & Hrow & Hx). apply Ho in Hrow.
    rewrite (Hw _ _ Hx), Hid, String.eqb_refl in Hrow. done.
Qed.

Lemma agree_lookup_key failure q byID byKey db k :
  indexed rid rkey byID byKey -> agree byID (tables_of db) -> up db -> storable (Text k) = true ->
  sel_table q = table -> sel_columns q = plain (td_columns d) -> sel_limit q = None ->
  (forall r x, scan r = Ok x -> where_holds d [Text k] (sel_where q) r = String.eqb (rkey x) k) ->
  lookup_record scan failure db q k = Ok (keep <$> find_by byID byKey k).
Proof.
  intros Hi Ha Hup Hs H1 H2 H3 Hw. pose proof Ha as [Hr Hh].
  destruct (lookup_record_up porthook_schema table d scan rid Hd Hserial scan_whole q H1 H2 H3 failure db k Hr Hup Hs) as [o Ho].
  rewrite Ho. f_equal. apply (lookup_record_spec porthook_schema table d scan rid Hd Hserial scan_whole q H1 H2 H3) in Ho; [|done].
  destruct o as [x|].
  - destruct Ho as (r & Hrow & Hx & Hk). rewrite (Hw _ _ Hx) in Hk. apply String.eqb_eq in Hk.
    destruct (agree_row _ _ _ _ Ha Hrow) as (y & Hy & Hsy). assert (x = keep y) as -> by congruence.
    rewrite keep_rid in Hy. rewrite keep_rkey in Hk.
    rewrite (proj2 (find_by_spec rid rkey byID byKey k y Hi)); [done|]. done.
  - destruct (find_by byID byKey k) as [y|] eqn:E; [exfalso|done].
    apply (find_by_spec rid rkey) in E as [Hy Hk]; [|done]. destruct (agree_back _ _ _ _ Ha Hy) as (r & Hrow & Hx).
    apply Ho in Hrow. rewrite (Hw _ _ Hx), keep_rkey, Hk, String.eqb_refl in Hrow. done.
Qed.

(** ** Writing *)
(** The tables but this one. *)
Definition others (T T' : tables) : Prop := forall t, t <> table -> keyed_rows T' t = keyed_rows T t.

Lemma db_insert columns args byID byKey db r x :
  up db -> forallb storable args = true -> indexed rid rkey byID byKey -> agree byID (tables_of db) ->
  new_row (td_columns d) columns (kept <$> args) = Ok r -> scan r = Ok (keep x) ->
  row_violation (tables_of db) d r = None -> reference_broken (tables_of db) d r = None ->
  exists res db', Exec db (InsertInto table columns) args = (res, db') /\ up db' /\ others (tables_of db) (tables_of db') /\
    if bool_decide (is_Some (byID !! rid x)) then res = Err (unique_violation (td_pkey d)) /\ agree byID (tables_of db')
    else if bool_decide (is_Some (byKey !! rkey x)) then res = Err (unique_violation kname) /\ agree byID (tables_of db')
    else res = Ok 1 /\ agree (<[rid x := x]> byID) (tables_of db').
Proof.
  intros Hup Hs Hi Ha Hr Hx Hv Hb.
  pose proof (fun f => agree_exec_insert f columns args _ _ _ r x Hi Ha Hr Hx Hv Hb) as HX.
  destruct (bool_decide (is_Some (byID !! rid x))); [|destruct (bool_decide (is_Some (byKey !! rkey x)))].
  - destruct (exec_answers db (InsertInto table columns) args (Err (unique_violation (td_pkey d))) Hup Hs) as (db' & _ & E & Hup' & HT);
      [intros f; exists (tables_of db); apply HX|]. eexists _, db'. rewrite HT. by split_and!.
  - destruct (exec_answers db (InsertInto table columns) args (Err (unique_violation kname)) Hup Hs) as (db' & _ & E & Hup' & HT);
      [intros f; exists (tables_of db); apply HX|]. eexists _, db'. rewrite HT. by split_and!.
  - destruct (exec_answers db (InsertInto table columns) args (Ok 1) Hup Hs) as (db' & f & E & Hup' & HT);
      [intros f; eexists; apply HX|]. eexists _, db'. rewrite HX in HT. injection HT as HT. rewrite <- HT. split_and!; try done.
    + intros t Ht. by apply keyed_rows_set_ne.
    + by apply agree_insert.
Qed.

Lemma db_delete conds byID db k :
  up db -> storable (Text k) = true -> agree byID (tables_of db) ->
  (forall r x, scan r = Ok x -> where_holds d [Text k] conds r = String.eqb (rid x) k) ->
  Forall (fun '(name, d') => name = table -> existsb (fun '(_, to, _) => String.eqb to table) (td_refs d') = false) porthook_schema ->
  exists n db', Exec db (DeleteFrom table conds) [Text k] = (Ok n, db') /\ up db' /\ agree (delete k byID) (tables_of db').
Proof.
  intros Hup Hs Ha Hw Hc. pose proof (fun f => agree_exec_delete f conds byID (tables_of db) k Ha Hw Hc) as HX.
  destruct (HX 0) as (n & T' & E & _).
  assert (Hn : forall f, exists T', exec porthook_schema f (DeleteFrom table conds) [Text k] (tables_of db) = Ok (n, T')).
  { intros f. exists T'. rewrite <- E. unfold exec. by rewrite Hd, Hserial. }
  destruct (exec_answers db (DeleteFrom table conds) [Text k] (Ok n) Hup) as (db' & f & EE & Hup' & HT);
    [cbn; by rewrite Hs|exact Hn|]. exists n, db'. split_and!; [done..|].
  destruct (HX f) as (n' & T2 & E2 & Ha2). cbv beta iota in HT. rewrite E2 in HT. by injection HT as _ <-.
Qed.
Lemma db_delete_others conds args db n db' :
  Forall (fun '(name, d') => existsb (fun '(_, to, _) => String.eqb to table) (td_refs d') = false) porthook_schema ->
  Exec db (DeleteFrom table conds) args = (Ok n, db') -> others (tables_of db) (tables_of db').
Proof.
  intros Hc EE t Ht. destruct (Exec_ok _ _ _ _ _ EE) as (f & _ & E). unfold exec in E. rewrite Hd, Hserial in E.
  apply ok_pair in E as [_ E]. rewrite <- E, cascade_other.
  - by apply keyed_rows_set_ne.
  - eapply Forall_impl; [exact Hc|]. intros [name d'] H _. exact H.
Qed.

Lemma db_update_none sets conds args byID byKey db k :
  up db -> forallb storable args = true -> indexed rid rkey byID byKey -> agree byID (tables_of db) ->
  (forall i x r, byID !! i = Some x -> scan r = Ok (keep x) -> where_holds d (kept <$> args) conds r = bool_decide (i = k)) ->
  byID !! k = None ->
  exists db', Exec db (UpdateSet table sets conds) args = (Ok 0, db') /\ up db' /\ others (tables_of db) (tables_of db') /\
    agree byID (tables_of db').
Proof.
  intros Hup Hs Hi Ha Hit Hk. pose proof (agree_update_none sets conds args byID byKey (tables_of db) k Hi Ha Hit Hk) as HX.
  destruct (exec_answers db (UpdateSet table sets conds) args (Ok 0) Hup Hs) as (db' & f & E & Hup' & HT).
  { intros f. destruct (HX f) as (T' & E & _). exists T'. exact E. }
  cbv beta iota in HT. exists db'. destruct (HX f) as (T2 & E2 & Ha2). split_and!; [done..| |].
  - intros t Ht. apply (exec_update_ok _ _ _ _ _ _ _ d) in HT as [-> _]; [|done]. by apply keyed_rows_set_ne.
  - rewrite E2 in HT. by injection HT as <-.
Qed.

Lemma db_update sets conds args byID byKey db k old y :
  up db -> forallb storable args = true -> indexed rid rkey byID byKey -> agree byID (tables_of db) ->
  (forall i x r, byID !! i = Some x -> scan r = Ok (keep x) -> where_holds d (kept <$> args) conds r = bool_decide (i = k)) ->
  byID !! k = Some old -> rid y = k ->
  (forall r, scan r = Ok (keep old) ->
    let r' := updated d sets conds (kept <$> args) r in
    scan r' = Ok (keep y) /\ row_violation (tables_of db) d r' = None /\ reference_broken (tables_of db) d r' = None) ->
  exists res db', Exec db (UpdateSet table sets conds) args = (res, db') /\ up db' /\ others (tables_of db) (tables_of db') /\
    if bool_decide (byKey !! rkey y = None \/ byKey !! rkey y = Some k)
    then res = Ok 1 /\ agree (<[k := y]> byID) (tables_of db')
    else res = Err (unique_violation kname) /\ agree byID (tables_of db').
Proof.
  intros Hup Hs Hi Ha Hit Hold Hy Hnew.
  assert (Hrow : forall r, keyed_rows (tables_of db) table !! k = Some r ->
    scan (updated d sets conds (kept <$> args) r) = Ok (keep y) /\
    row_violation (tables_of db) d (updated d sets conds (kept <$> args) r) = None /\
    reference_broken (tables_of db) d (updated d sets conds (kept <$> args) r) = None).
  { intros r Hr. destruct (agree_row _ _ _ _ Ha Hr) as (x & Hx & Hsx). assert (x = old) as -> by congruence. by apply Hnew. }
  pose proof (agree_exec_update sets conds args byID byKey (tables_of db) k Hi Ha Hit old y Hold Hy Hrow) as HX.
  destruct (bool_decide (_ \/ _)).
  - destruct (exec_answers db (UpdateSet table sets conds) args (Ok 1) Hup Hs) as (db' & f & E & Hup' & HT);
      [intros f; eexists; apply HX|]. eexists _, db'. rewrite HX in HT. injection HT as HT. rewrite <- HT. split_and!; try done.
    + intros t Ht. by apply keyed_rows_set_ne.
    + by apply (agree_updated sets conds args byID (tables_of db) k Ha Hit old y Hold Hy Hrow).
  - destruct (exec_answers db (UpdateSet table sets conds) args (Err (unique_violation kname)) Hup Hs) as (db' & f & E & Hup' & HT);
      [intros f; exists (tables_of db); apply HX|]. eexists _, db'. rewrite HT. by split_and!.
Qed.

(** A listing in the order of the key. *)
Lemma agree_list failure q (le : R -> R -> Prop) `{!RelDecision le} byID byKey db :
  indexed rid rkey byID byKey -> agree byID (tables_of db) -> up db ->
  sel_table q = table -> sel_columns q = plain (td_columns d) -> sel_limit q = None -> sel_where q = [] ->
  Transitive le -> Total le -> (forall x y, le x y -> le y x -> rkey x = rkey y) -> (forall x y, le (keep x) (keep y) <-> le x y) ->
  (forall a b x y, scan a = Ok x -> scan b = Ok y -> ordered d (sel_order q) a b -> le x y) ->
  list_records scan failure db q = Ok (keep <$> merge_sort le (map_to_list byID).*2).
Proof.
  intros Hi Ha Hup H1 H2 H3 H4 Ht Htot Hanti Hk Ho. pose proof Ha as [Hr Hh].
  destruct (list_records_up porthook_schema table d scan rid Hd Hserial scan_whole q H1 H2 H3 failure db Hr Hup) as [l Hl].
  rewrite Hl. f_equal.
  apply (list_records_spec porthook_schema table d scan rid Hd Hserial scan_whole q H1 H2 H3) in Hl as (Hp & out & HF & Hs); [|done|done].
  assert (Hperm : l ≡ₚ keep <$> (map_to_list byID).*2).
  { rewrite Hp, Hh, map_to_list_fmap, <- !list_fmap_compose. done. }
  eapply (Sorted_unique_strong le).
  - intros x1 x2 Hx1 Hx2 L1 L2. rewrite Hperm in Hx1. rewrite merge_sort_Permutation in Hx2.
    apply list_elem_of_fmap in Hx1 as (y1 & -> & Hy1), Hx2 as (y2 & -> & Hy2).
    apply list_elem_of_fmap in Hy1 as ([k1 z1] & -> & Hz1), Hy2 as ([k2 z2] & -> & Hz2). cbn [snd] in *.
    apply elem_of_map_to_list in Hz1, Hz2. pose proof (Hanti _ _ L1 L2) as Hkey. rewrite !keep_rkey in Hkey.
    destruct (idx_id _ _ _ _ Hi _ _ Hz1) as [_ E1], (idx_id _ _ _ _ Hi _ _ Hz2) as [_ E2].
    rewrite Hkey in E1. assert (k1 = k2) as -> by congruence. congruence.
  - eapply Sorted_scanned; [exact Ho|exact HF|exact Hs].
  - assert (Hm : Sorted le (merge_sort le (map_to_list byID).*2)) by apply Sorted_merge_sort, _.
    clear -Hm Hk. induction Hm as [|x m Hm IH Hh]; [constructor|]. cbn. constructor; [done|].
    destruct Hh; constructor. by apply Hk.
  - rewrite Hperm. by rewrite merge_sort_Permutation.
Qed.
End agreement.

(** * Runs of calls *)
(** Two stores that answer the same call after call: [ok] is what a call must
    satisfy in the state of the first. *)
Section runs.
Context {C Reply S1 S2 : Type}.
Fixpoint run_calls {S} (step : S -> C -> Reply * S) (s : S) (calls : list C) : list Reply * S :=
  match calls with
  | [] => ([], s)
  | c :: rest => let '(r, s1) := step s c in let '(rs, s2) := run_calls step s1 rest in (r :: rs, s2)
  end.
Context (step1 : S1 -> C -> Reply * S1) (step2 : S2 -> C -> Reply * S2) (seen : Reply -> Reply).
Context (sim : S1 -> S2 -> Prop) (ok : S1 -> C -> Prop).
Fixpoint all_ok (s : S1) (calls : list C) : Prop :=
  match calls with
  | [] => True
  | c :: rest => ok s c /\ all_ok (snd (step1 s c)) rest
  end.

Lemma run_calls_sim s1 s2 calls :
  (forall a b c, sim a b -> ok a c ->
     fst (step2 b c) = seen (fst (step1 a c)) /\ sim (snd (step1 a c)) (snd (step2 b c))) ->
  sim s1 s2 -> all_ok s1 calls ->
  fst (run_calls step2 s2 calls) = seen <$> fst (run_calls step1 s1 calls) /\
  sim (snd (run_calls step1 s1 calls)) (snd (run_calls step2 s2 calls)).
Proof.
  intros Hstep. revert s1 s2. induction calls as [|c calls IH]; intros s1 s2 H Hc; [done|]. destruct Hc as [Hc Hrest].
  destruct (Hstep _ _ _ H Hc) as [E Hsim]. destruct (IH _ _ Hsim Hrest) as [E2 Hsim2].
  cbn [run_calls]. destruct (step1 s1 c) as [r1 m1], (step2 s2 c) as [r2 m2]. cbn [fst snd] in *.
  destruct (run_calls step1 m1 calls), (run_calls step2 m2 calls). cbn [fst snd] in *. by subst.
Qed.
End runs.

(** * Reservations *)
Module Reservations.
Import Reserved.
Abbreviation columns := (pk_columns reserved_package).
Definition insert : statement := InsertInto "reserved_subdomains" (plain columns).
Definition select (conds : list condition) (order : list (string * direction)) : selection :=
  mkSelection (plain columns) "reserved_subdomains" conds order None.
Definition select_list : selection := select [] [("name", ASC); ("id", ASC)]%string.
Definition select_by_id : selection := select [Compare (Column "id") Equals 1] [].
Definition select_by_name : selection := select [Compare (Column "name") Equals 1] [].
Definition delete : statement := DeleteFrom "reserved_subdomains" [Compare (Column "id") Equals 1].

Lemma reservation_texts :
  sql_text insert = "INSERT INTO reserved_subdomains (id, name, token_id, created_at) VALUES ($1, $2, $3, $4)"%string /\
  query_text select_list = "SELECT id, name, token_id, created_at FROM reserved_subdomains ORDER BY name ASC, id ASC"%string /\
  query_text select_by_name = "SELECT id, name, token_id, created_at FROM reserved_subdomains WHERE name = $1"%string /\
  sql_text delete = "DELETE FROM reserved_subdomains WHERE id = $1"%string.
Proof. vm_compute. repeat split. Qed.

Definition scanReservationRecord (r : list value) : result ReservationRecord :=
  match r with
  | [Text id; Text name; Text token; Instant created] => Ok (mkReservation id name token created)
  | _ => Err scan_error
  end.

Section store.
Context {DB : Type} {Db : Database DB}.
Definition NewPostgresStore (db : option DB) : result DB := open_store db.
Definition pg_Ping (db : DB) : option error :=
  match PingContext db with Some e => Some (Wrap "ping database" e) | None => None end.
Definition pg_Create (db : DB) (record : ReservationRecord) : option error * DB :=
  constraint_error ["reserved_subdomains_name_key"%string] ErrReservationAlreadyExists "insert reserved subdomain"
    (Exec db insert [Text (r_ID record); Text (r_Name record); Text (r_TokenID record); Instant (r_CreatedAt record)]).
Definition pg_List (db : DB) : result (list ReservationRecord) :=
  list_records scanReservationRecord "list reserved subdomains" db select_list.
Definition pg_lookup (db : DB) (query : selection) (value : string) : result (option ReservationRecord) :=
  lookup_record scanReservationRecord "lookup reserved subdomain" db query value.
Definition pg_LookupByID (db : DB) (id : string) : result (option ReservationRecord) := pg_lookup db select_by_id id.
Definition pg_LookupByName (db : DB) (name : string) : result (option ReservationRecord) := pg_lookup db select_by_name name.
Definition pg_Delete (db : DB) (id : string) : option error * DB :=
  exec_error "delete reserved subdomain" (Exec db delete [Text id]).
Definition pg_store : ReservationStore DB := {|
  res_Ping := pg_Ping; res_Create := pg_Create; res_List := pg_List; res_LookupByID := pg_LookupByID;
  res_LookupByName := pg_LookupByName; res_Delete := pg_Delete;
|}.
End store.

(** ** It agrees with the memory store *)
Definition keep_record (r : ReservationRecord) : ReservationRecord :=
  mkReservation (r_ID r) (r_Name r) (r_TokenID r) (micro (r_CreatedAt r)).
Definition record_row (r : ReservationRecord) : row :=
  [Text (r_ID r); Text (r_Name r); Text (r_TokenID r); Instant (r_CreatedAt r)].
Lemma reservation_scan_inv row r : scanReservationRecord row = Ok r <-> row = record_row r.
Proof.
  split; [|intros ->; by destruct r]. unfold scanReservationRecord. repeat (case_match; try done). by intros [= <-].
Qed.
Lemma reservation_scan_whole row r : scanReservationRecord row = Ok r ->
  key_of row = r_ID r /\ (fun c => column_of reserved_table (fst c) row) <$> plain (td_columns reserved_table) = row.
Proof. by intros ->%reservation_scan_inv. Qed.
Lemma scan_name row r : scanReservationRecord row = Ok r -> column_of reserved_table "name" row = Text (r_Name r).
Proof. by intros ->%reservation_scan_inv. Qed.

Section refinement.
Context {DB : Type} {SV : SQLServer} {Db : Database DB} {DL : DatabaseLaws porthook_schema DB}.
Context (C_collation : forall a b, collate a b = String.leb a b).

Abbreviation agrees := (agree r_ID keep_record "reserved_subdomains" scanReservationRecord).
Record sim (m : MemoryStore) (db : DB) : Prop := {
  sim_up : up db;
  sim_indexed : indexed r_ID r_Name (byID m) (byName m);
  sim_agree : agrees (byID m) (tables_of db);
}.

Lemma reservation_sim_Create m db r :
  sim m db -> byID m !! r_ID r = None -> forallb storable (record_row r) = true ->
  fst (pg_Create db r) = fst (mem_Create m r) /\ sim (snd (mem_Create m r)) (snd (pg_Create db r)).
Proof.
  intros [Hup Hi Ha] Hid Hs. unfold pg_Create.
  destruct (db_insert r_ID r_Name keep_record "reserved_subdomains" reserved_table scanReservationRecord
      "name" "reserved_subdomains_name_key" eq_refl eq_refl eq_refl reservation_scan_whole scan_name (fun _ => eq_refl) (fun _ => eq_refl)
      (plain columns) (record_row r) (byID m) (byName m) db (record_row (keep_record r)) r)
    as (res & db' & E & Hup' & _ & H); [done..|by apply reservation_scan_inv|reflexivity|reflexivity|].
  change (Exec db insert [Text (r_ID r); Text (r_Name r); Text (r_TokenID r); Instant (r_CreatedAt r)]) with
    (Exec db (InsertInto "reserved_subdomains" (plain columns)) (record_row r)).
  rewrite E. unfold mem_Create. rewrite Hid in *. change (bool_decide (is_Some (@None ReservationRecord))) with false in *.
  case_bool_decide as Hn; destruct H as [-> H]; (split; [reflexivity|]); (split; [done| |done]); [done|].
  apply eq_None_not_Some in Hn. by apply indexed_insert.
Qed.

Lemma reservation_where_id k row r : scanReservationRecord row = Ok r ->
  where_holds reserved_table [Text k] [Compare (Column "id") Equals 1] row = String.eqb (r_ID r) k.
Proof. intros ->%reservation_scan_inv. cbn. by rewrite andb_true_r. Qed.
Lemma where_name k row r : scanReservationRecord row = Ok r ->
  where_holds reserved_table [Text k] [Compare (Column "name") Equals 1] row = String.eqb (r_Name r) k.
Proof. intros ->%reservation_scan_inv. cbn. by rewrite andb_true_r. Qed.

Lemma reservation_sim_Delete m db id :
  sim m db -> storable (Text id) = true ->
  fst (pg_Delete db id) = fst (mem_Delete m id) /\ sim (snd (mem_Delete m id)) (snd (pg_Delete db id)).
Proof.
  intros [Hup Hi Ha] Hs. unfold pg_Delete, delete.
  destruct (db_delete r_ID keep_record "reserved_subdomains" reserved_table scanReservationRecord eq_refl eq_refl
      [Compare (Column "id") Equals 1] (byID m) db id) as (n & db' & -> & Hup' & Ha');
    [done..|apply reservation_where_id|repeat constructor; done|].
  unfold mem_Delete. destruct (byID m !! id) as [r|] eqn:Er; (split; [done|]); (split; [done| |]); try done.
  - by apply indexed_delete.
  - by rewrite delete_id in Ha'.
Qed.

Lemma reservation_sim_LookupByID m db id :
  sim m db -> storable (Text id) = true -> pg_LookupByID db id = Ok (keep_record <$> byID m !! id).
Proof.
  intros [Hup Hi Ha] Hs. apply (agree_lookup_id r_ID keep_record "reserved_subdomains" reserved_table scanReservationRecord
    eq_refl eq_refl reservation_scan_whole); [done..|apply reservation_where_id].
Qed.
Lemma sim_LookupByName m db name :
  sim m db -> storable (Text name) = true -> pg_LookupByName db name = Ok (keep_record <$> find_by (byID m) (byName m) name).
Proof.
  intros [Hup Hi Ha] Hs. apply (agree_lookup_key r_ID r_Name keep_record "reserved_subdomains" reserved_table scanReservationRecord
    eq_refl eq_refl reservation_scan_whole (fun _ => eq_refl) (fun _ => eq_refl)); [done..|apply where_name].
Qed.

#[local] Instance by_name_trans : Transitive by_name.
Proof. intros a b c. unfold by_name. apply key_order_trans. Qed.
#[local] Instance by_name_total : Total by_name.
Proof. intros a b. unfold by_name. apply key_order_total. Qed.

Lemma reservation_sim_List m db : sim m db -> pg_List db = Ok (keep_record <$> merge_sort by_name (map_to_list (byID m)).*2).
Proof.
  intros [Hup Hi Ha].
  apply (agree_list r_ID r_Name keep_record "reserved_subdomains" reserved_table scanReservationRecord eq_refl eq_refl reservation_scan_whole
    (fun _ => eq_refl) "list reserved subdomains" select_list by_name (byID m) (byName m)); try done; try apply _.
  - intros x y. unfold by_name. apply key_order_antisym.
  - intros a b x y ->%reservation_scan_inv ->%reservation_scan_inv. cbn. rewrite !C_collation. unfold by_name. apply key_order_sql.
Qed.

(** ** Calls and their answers *)
Inductive call : Type :=
| CallCreate (r : ReservationRecord)
| CallDelete (id : string)
| CallList
| CallByID (id : string)
| CallByName (name : string).
Inductive reply : Type :=
| Outcome (e : option error)
| Listing (l : result (list ReservationRecord))
| Found (o : result (option ReservationRecord)).
Definition answer {S} {RS : ReservationStore S} (s : S) (c : call) : reply * S :=
  match c with
  | CallCreate r => let '(e, s') := res_Create s r in (Outcome e, s')
  | CallDelete id => let '(e, s') := res_Delete s id in (Outcome e, s')
  | CallList => (Listing (res_List s), s)
  | CallByID id => (Found (res_LookupByID s id), s)
  | CallByName name => (Found (res_LookupByName s name), s)
  end.

(** The reply with its times rounded. *)
Definition rounded (r : reply) : reply :=
  match r with
  | Outcome e => Outcome e
  | Listing (Ok l) => Listing (Ok (keep_record <$> l))
  | Found (Ok o) => Found (Ok (keep_record <$> o))
  | r => r
  end.
(** Every create has an id of its own, and every text can be stored. *)
Definition created_ids (calls : list call) : list string :=
  omap (fun c => match c with CallCreate r => Some (r_ID r) | _ => None end) calls.
Definition storable_call (c : call) : bool :=
  match c with
  | CallCreate r => forallb storable (record_row r)
  | CallDelete v | CallByID v | CallByName v => storable (Text v)
  | CallList => true
  end.

Lemma reservation_answer_sim m db c :
  sim m db -> (forall r, c = CallCreate r -> byID m !! r_ID r = None) -> storable_call c = true ->
  fst (answer (RS := pg_store) db c) = rounded (fst (answer m c)) /\
  sim (snd (answer m c)) (snd (answer (RS := pg_store) db c)).
Proof.
  intros H Hnew Hs. destruct c as [r|id| |id|name]; cbn [answer storable_call] in *; cbn.
  - destruct (reservation_sim_Create m db r H (Hnew r eq_refl) Hs) as [E Hsim].
    destruct (mem_Create m r) as [e m'], (pg_Create db r) as [e' db']. cbn in *. by subst.
  - destruct (reservation_sim_Delete m db id H Hs) as [E Hsim].
    destruct (mem_Delete m id) as [e m'], (pg_Delete db id) as [e' db']. cbn in *. by subst.
  - split; [|done]. by rewrite (reservation_sim_List m db H).
  - split; [|done]. by rewrite (reservation_sim_LookupByID m db id H Hs).
  - split; [|done]. rewrite (sim_LookupByName m db name H Hs), mem_LookupByName_find. done.
Qed.

(** The records only grow by what is created. *)
Lemma answer_ids m c i : byID m !! i = None -> i ∉ created_ids [c] -> byID (snd (answer m c)) !! i = None.
Proof.
  intros Hi Hc. destruct c as [r|id| |id|name]; cbn; try done.
  - unfold mem_Create. repeat case_bool_decide; cbn; try done. rewrite lookup_insert_ne; [done|].
    cbn in Hc. set_solver.
  - unfold mem_Delete. destruct (byID m !! id) eqn:E; cbn; [|done]. destruct (decide (id = i)) as [->|];
      [by rewrite lookup_delete_eq|by rewrite lookup_delete_ne].
Qed.

(** Calls with ids of their own create records that are not there. *)
Definition fresh_call (m : MemoryStore) (c : call) : Prop :=
  (forall r, c = CallCreate r -> byID m !! r_ID r = None) /\ storable_call c = true.
Lemma created_fresh m calls :
  NoDup (created_ids calls) -> (forall i, i ∈ created_ids calls -> byID m !! i = None) ->
  Forall (fun c => storable_call c = true) calls -> all_ok answer fresh_call m calls.
Proof.
  intros Hn Hf Hs. revert m Hf. induction Hs as [|c calls Hc Hs IH]; intros m Hf; [done|].
  change (c :: calls) with ([c] ++ calls) in Hn, Hf. unfold created_ids in Hn, Hf. rewrite omap_app in Hn, Hf.
  apply NoDup_app in Hn as (_ & Hd & Hn). split; [split; [|done]|].
  - intros r ->. apply Hf. apply elem_of_app. left. cbn. by left.
  - apply IH; [done|]. intros i Hi. apply answer_ids; [apply Hf, elem_of_app; by right|]. intros Hc'. by apply (Hd i).
Qed.

End refinement.

(** ** Witness *)
Module Witness_reservations.
#[local] Instance server : SQLServer := Server.C_server.
#[local] Instance db : Database tables := Server.database porthook_schema.
#[local] Instance db_laws : DatabaseLaws porthook_schema tables := Server.database_laws porthook_schema.
Definition empty : tables := mkTables ∅ ∅.
Definition calls : list call :=
  [CallCreate (mkReservation "r1" "demo" "tok_1" 1234567); CallCreate (mkReservation "r2" "demo" "tok_2" 2000000);
   CallCreate (mkReservation "r3" "alpha" "tok_2" 3000999); CallList; CallByName "demo"; CallDelete "r1"; CallByID "r1"].

End Witness_reservations.
End Reservations.

(** * Access policies *)
Module Policies.
Import Access.
Abbreviation columns := (pk_columns access_package).
Definition insert : statement := InsertInto "access_policies" (plain columns).
Definition update : statement :=
  UpdateSet "access_policies"
    [("mode", 1%nat); ("basic_username", 2%nat); ("secret_hash", 3%nat); ("ip_allowlist_json", 4%nat); ("updated_at", 5%nat)]%string
    [Compare (Column "id") Equals 6; Compare (Column "reserved_subdomain_id") Equals 7].
Definition select (conds : list condition) (order : list (string * direction)) : selection :=
  mkSelection (plain columns) "access_policies" conds order None.
Definition select_list : selection := select [] [("reserved_subdomain_id", ASC); ("id", ASC)]%string.
Definition select_by_id : selection := select [Compare (Column "id") Equals 1] [].
Definition select_by_reservation : selection := select [Compare (Column "reserved_subdomain_id") Equals 1] [].
Definition delete : statement := DeleteFrom "access_policies" [Compare (Column "id") Equals 1].

Lemma policy_texts :
  sql_text insert =
    "INSERT INTO access_policies (id, reserved_subdomain_id, mode, basic_username, secret_hash, ip_allowlist_json, created_at, updated_at) VALUES ($1, $2, $3, $4, $5, $6, $7, $8)"%string /\
  sql_text update =
    "UPDATE access_policies SET mode = $1, basic_username = $2, secret_hash = $3, ip_allowlist_json = $4, updated_at = $5 WHERE id = $6 AND reserved_subdomain_id = $7"%string /\
  query_text select_list =
    "SELECT id, reserved_subdomain_id, mode, basic_username, secret_hash, ip_allowlist_json, created_at, updated_at FROM access_policies ORDER BY reserved_subdomain_id ASC, id ASC"%string.
Proof. vm_compute. repeat split. Qed.

Section store.
Context {J : JSONCodec (list string)} {DB : Type} {Db : Database DB}.
Definition encodeIPAllowlist (values : list string) : result string :=
  match Marshal values with Err e => Err (Wrap "encode ip allowlist" e) | Ok data => Ok (of_bytes data) end.
Definition decodeIPAllowlist (raw : string) : result (list string) :=
  if String.eqb (TrimSpace raw) "" then Ok []
  else match Unmarshal (to_bytes raw) with Err e => Err (Wrap "decode ip allowlist" e) | Ok values => Ok values end.

Definition scanPolicyRecord (r : list value) : result PolicyRecord :=
  match r with
  | [Text id; Text reservation; Text mode; Text username; Text hash; Text json; Instant created; Instant updated] =>
      try allowlist <- decodeIPAllowlist json;
      Ok (mkPolicyRecord id reservation mode username hash allowlist created updated)
  | _ => Err scan_error
  end.

Definition NewPostgresStore (db : option DB) : result DB := open_store db.
Definition pg_Ping (db : DB) : option error :=
  match PingContext db with Some e => Some (Wrap "ping database" e) | None => None end.
Definition pg_Create (db : DB) (record : PolicyRecord) : option error * DB :=
  match encodeIPAllowlist (p_IPAllowlist record) with
  | Err e => (Some e, db)
  | Ok json =>
      constraint_error ["access_policies_reserved_subdomain_id_key"; "access_policies_pkey"]%string
        ErrPolicyAlreadyExists "insert access policy"
        (Exec db insert [Text (p_ID record); Text (p_ReservedSubdomainID record); Text (p_Mode record);
           Text (p_BasicUsername record); Text (p_SecretHash record); Text json; Instant (p_CreatedAt record);
           Instant (p_UpdatedAt record)])
  end.
Definition pg_Update (db : DB) (record : PolicyRecord) : option error * DB :=
  match encodeIPAllowlist (p_IPAllowlist record) with
  | Err e => (Some e, db)
  | Ok json =>
      affected_error [] ErrPolicyNotFound ErrPolicyNotFound "update access policy"
        (Exec db update [Text (p_Mode record); Text (p_BasicUsername record); Text (p_SecretHash record); Text json;
           Instant (p_UpdatedAt record); Text (p_ID record); Text (p_ReservedSubdomainID record)])
  end.
Definition pg_List (db : DB) : result (list PolicyRecord) :=
  list_records scanPolicyRecord "list access policies" db select_list.
Definition pg_lookup (db : DB) (query : selection) (value : string) : result (option PolicyRecord) :=
  lookup_record scanPolicyRecord "lookup access policy" db query value.
Definition pg_LookupByID (db : DB) (id : string) : result (option PolicyRecord) := pg_lookup db select_by_id id.
Definition pg_LookupByReservedSubdomainID (db : DB) (reservation : string) : result (option PolicyRecord) :=
  pg_lookup db select_by_reservation reservation.
Definition pg_Delete (db : DB) (id : string) : option error * DB :=
  exec_error "delete access policy" (Exec db delete [Text id]).
Definition pg_store : PolicyStore DB := {|
  pol_Ping := pg_Ping; pol_Create := pg_Create; pol_Update := pg_Update; pol_List := pg_List;
  pol_LookupByID := pg_LookupByID; pol_LookupByReservedSubdomainID := pg_LookupByReservedSubdomainID;
  pol_Delete := pg_Delete;
|}.
End store.

(** ** It agrees with the memory store *)
Definition keep_record (r : PolicyRecord) : PolicyRecord :=
  mkPolicyRecord (p_ID r) (p_ReservedSubdomainID r) (p_Mode r) (p_BasicUsername r) (p_SecretHash r) (p_IPAllowlist r)
    (micro (p_CreatedAt r)) (micro (p_UpdatedAt r)).
Definition policy_row (json : string) (r : PolicyRecord) : row :=
  [Text (p_ID r); Text (p_ReservedSubdomainID r); Text (p_Mode r); Text (p_BasicUsername r); Text (p_SecretHash r); Text json;
   Instant (p_CreatedAt r); Instant (p_UpdatedAt r)].

Section refinement.
Context {J : JSONCodec (list string)} {JL : JSONLaws (list string)}.
Context {DB : Type} {SV : SQLServer} {Db : Database DB} {DL : DatabaseLaws porthook_schema DB}.
Context (C_collation : forall a b, collate a b = String.leb a b).
(** The text of an array has its brackets. *)
Context (array_text : forall (l : list string) data, Marshal l = Ok data -> TrimSpace (of_bytes data) <> ""%string).
(** The ids of reservations that exist. *)
Context (live : gset string).

Lemma policy_decode_encode l json : encodeIPAllowlist l = Ok json -> decodeIPAllowlist json = Ok l.
Proof.
  unfold encodeIPAllowlist, decodeIPAllowlist. destruct (Marshal l) as [data|] eqn:E; [|done]. intros [= <-].
  destruct (String.eqb_spec (TrimSpace (of_bytes data)) ""); [by apply array_text in E|].
  rewrite to_of_bytes. by rewrite (unmarshal_marshal _ _ E).
Qed.
Lemma scan_policy_row json r : decodeIPAllowlist json = Ok (p_IPAllowlist r) -> scanPolicyRecord (policy_row json r) = Ok r.
Proof. intros H. unfold scanPolicyRecord, policy_row. rewrite H. by destruct r. Qed.
Lemma scan_policy_inv row r :
  scanPolicyRecord row = Ok r -> exists json, row = policy_row json r /\ decodeIPAllowlist json = Ok (p_IPAllowlist r).
Proof.
  unfold scanPolicyRecord. repeat (case_match; try done). subst. intros (l & Hl & [= <-])%rbind_ok.
  eexists. split; [reflexivity|done].
Qed.
Lemma policy_scan_whole row r : scanPolicyRecord row = Ok r ->
  key_of row = p_ID r /\ (fun c => column_of access_table (fst c) row) <$> plain (td_columns access_table) = row.
Proof. by intros (json & -> & _)%scan_policy_inv. Qed.
Lemma scan_reservation row r :
  scanPolicyRecord row = Ok r -> column_of access_table "reserved_subdomain_id" row = Text (p_ReservedSubdomainID r).
Proof. by intros (json & -> & _)%scan_policy_inv. Qed.

(** The modes the table accepts are those of the service. *)
Lemma policy_row_accepted T json r :
  p_Mode r ∈ supportedModes -> is_Some (keyed_rows T "reserved_subdomains" !! p_ReservedSubdomainID r) ->
  row_violation T access_table (policy_row json r) = None /\ reference_broken T access_table (policy_row json r) = None.
Proof.
  intros Hm [x Hx]. destruct r as [id res mode user hash l cr up]. cbn in Hm, Hx. split.
  - unfold supportedModes in Hm. rewrite !elem_of_cons, elem_of_nil in Hm. by destruct Hm as [->|[->|[->|[->|[]]]]].
  - unfold reference_broken. cbn. rewrite Hx. by rewrite bool_decide_false.
Qed.

Lemma policy_where_id k row r : scanPolicyRecord row = Ok r ->
  where_holds access_table [Text k] [Compare (Column "id") Equals 1] row = String.eqb (p_ID r) k.
Proof. intros (json & -> & _)%scan_policy_inv. cbn. by rewrite andb_true_r. Qed.
Lemma where_reservation k row r : scanPolicyRecord row = Ok r ->
  where_holds access_table [Text k] [Compare (Column "reserved_subdomain_id") Equals 1] row = String.eqb (p_ReservedSubdomainID r) k.
Proof. intros (json & -> & _)%scan_policy_inv. cbn. by rewrite andb_true_r. Qed.

Abbreviation agrees := (agree p_ID keep_record "access_policies" scanPolicyRecord).
Record sim (m : MemoryStore) (db : DB) : Prop := {
  sim_up : up db;
  sim_indexed : indexed p_ID p_ReservedSubdomainID (byID m) (byReservation m);
  sim_agree : agrees (byID m) (tables_of db);
  sim_live : forall k, k ∈ live -> is_Some (keyed_rows (tables_of db) "reserved_subdomains" !! k);
}.
Lemma policy_live_others T T' :
  others "access_policies" T T' -> (forall k, k ∈ live -> is_Some (keyed_rows T "reserved_subdomains" !! k)) ->
  forall k, k ∈ live -> is_Some (keyed_rows T' "reserved_subdomains" !! k).
Proof. intros Ho H k Hk. rewrite Ho by done. by apply H. Qed.

(** A policy the table accepts, with a list of addresses that encodes. *)
Definition acceptable (r : PolicyRecord) : Prop :=
  (exists json, encodeIPAllowlist (p_IPAllowlist r) = Ok json /\ forallb storable (policy_row json r) = true) /\
  p_Mode r ∈ supportedModes /\ p_ReservedSubdomainID r ∈ live.

Lemma policy_sim_Create m db r :
  sim m db -> acceptable r ->
  fst (pg_Create db r) = fst (mem_Create m r) /\ sim (snd (mem_Create m r)) (snd (pg_Create db r)).
Proof.
  intros [Hup Hi Ha Hl] ((json & Ej & Hs) & Hm & Hres). unfold pg_Create. rewrite Ej.
  destruct (policy_row_accepted (tables_of db) json (keep_record r) Hm (Hl _ Hres)) as [Hv Hb].
  destruct (db_insert p_ID p_ReservedSubdomainID keep_record "access_policies" access_table scanPolicyRecord
      "reserved_subdomain_id" "access_policies_reserved_subdomain_id_key" eq_refl eq_refl eq_refl policy_scan_whole scan_reservation
      (fun _ => eq_refl) (fun _ => eq_refl)
      (plain columns) (policy_row json r) (byID m) (byReservation m) db (policy_row json (keep_record r)) r)
    as (res & db' & E & Hup' & Ho & H); [done..|by apply scan_policy_row, policy_decode_encode|done|done|].
  unfold policy_row in E. unfold insert. rewrite E. unfold mem_Create. pose proof (policy_live_others _ _ Ho Hl) as Hl'.
  case_bool_decide as H1; [|case_bool_decide as H2]; destruct H as [-> H]; (split; [reflexivity|]);
    (split; [done| |done|done]); try done.
  apply eq_None_not_Some in H1, H2. by apply indexed_insert.
Qed.

(** An update of a policy keeps its reservation and its time of creation. *)
Definition keeps_identity (m : MemoryStore) (r : PolicyRecord) : Prop :=
  forall old, byID m !! p_ID r = Some old ->
    p_ReservedSubdomainID old = p_ReservedSubdomainID r /\ micro (p_CreatedAt old) = micro (p_CreatedAt r).

Lemma policy_sim_Update m db r :
  sim m db -> acceptable r -> keeps_identity m r ->
  fst (pg_Update db r) = fst (mem_Update m r) /\ sim (snd (mem_Update m r)) (snd (pg_Update db r)).
Proof.
  intros [Hup Hi Ha Hl] ((json & Ej & Hs) & Hm & Hres) Hsame. unfold pg_Update. rewrite Ej.
  set (args := [Text (p_Mode r); Text (p_BasicUsername r); Text (p_SecretHash r); Text json; Instant (p_UpdatedAt r);
    Text (p_ID r); Text (p_ReservedSubdomainID r)]).
  assert (Hargs : forallb storable args = true).
  { unfold policy_row in Hs. cbn in Hs |- *. rewrite !andb_true_iff in *. tauto. }
  assert (Hit : forall i x row, byID m !! i = Some x -> scanPolicyRecord row = Ok (keep_record x) ->
    where_holds access_table (kept <$> args)
      [Compare (Column "id") Equals 6; Compare (Column "reserved_subdomain_id") Equals 7] row = bool_decide (i = p_ID r)).
  { intros i x row Hx (j & -> & _)%scan_policy_inv. destruct (idx_id _ _ _ _ Hi _ _ Hx) as [<- _]. cbn. rewrite andb_true_r.
    destruct (String.eqb_spec (p_ID x) (p_ID r)) as [Eid|]; [|by rewrite bool_decide_false].
    rewrite Eid in Hx. destruct (Hsame _ Hx) as [-> _]. by rewrite String.eqb_refl, bool_decide_true. }
  unfold update. destruct (byID m !! p_ID r) as [old|] eqn:Eo.
  - destruct (policy_row_accepted (tables_of db) json (keep_record r) Hm (Hl _ Hres)) as [Hv Hb].
    destruct (Hsame _ Eo) as [Hr Hc]. destruct (idx_id _ _ _ _ Hi _ _ Eo) as [Hid Hkey].
    destruct (db_update p_ID p_ReservedSubdomainID keep_record "access_policies" access_table scanPolicyRecord
      "reserved_subdomain_id" "access_policies_reserved_subdomain_id_key" eq_refl eq_refl scan_reservation
      (fun _ => eq_refl) (fun _ => eq_refl)
      [("mode", 1%nat); ("basic_username", 2%nat); ("secret_hash", 3%nat); ("ip_allowlist_json", 4%nat); ("updated_at", 5%nat)]%string
      [Compare (Column "id") Equals 6; Compare (Column "reserved_subdomain_id") Equals 7] args (byID m) (byReservation m) db
      (p_ID r) old r) as (res & db' & E & Hup' & Ho & H); [done..| |].
    { intros row (j & -> & Hj)%scan_policy_inv. unfold updated. rewrite (Hit _ old _ Eo) by (by apply scan_policy_row).
      rewrite bool_decide_true by done. cbv zeta.
      match goal with |- scanPolicyRecord ?x = _ /\ _ => assert (x = policy_row json (keep_record r)) as -> end.
      - unfold policy_row, keep_record. cbn -[micro]. by rewrite Hc, Hid, Hr.
      - split; [by apply scan_policy_row, policy_decode_encode|done]. }
    rewrite E. pose proof (policy_live_others _ _ Ho Hl) as Hl'. rewrite Hr in Hkey.
    rewrite bool_decide_true in H by (by right). destruct H as [-> H].
    unfold mem_Update. rewrite Eo, Hr, String.eqb_refl. split; [done|]. split; [done| |done|done]. by eapply indexed_rewrite.
  - destruct (db_update_none p_ID p_ReservedSubdomainID keep_record "access_policies" access_table scanPolicyRecord
      "reserved_subdomain_id" "access_policies_reserved_subdomain_id_key" eq_refl eq_refl scan_reservation (fun _ => eq_refl)
      [("mode", 1%nat); ("basic_username", 2%nat); ("secret_hash", 3%nat); ("ip_allowlist_json", 4%nat); ("updated_at", 5%nat)]%string
      [Compare (Column "id") Equals 6; Compare (Column "reserved_subdomain_id") Equals 7] args (byID m) (byReservation m) db
      (p_ID r)) as (db' & E & Hup' & Ho & H); [done..|].
    rewrite E. unfold mem_Update. rewrite Eo. split; [done|]. split; try done. by apply (policy_live_others _ _ Ho).
Qed.

Lemma policy_sim_Delete m db id :
  sim m db -> storable (Text id) = true ->
  fst (pg_Delete db id) = fst (mem_Delete m id) /\ sim (snd (mem_Delete m id)) (snd (pg_Delete db id)).
Proof.
  intros [Hup Hi Ha Hl] Hs. unfold pg_Delete, delete.
  destruct (db_delete p_ID keep_record "access_policies" access_table scanPolicyRecord eq_refl eq_refl
      [Compare (Column "id") Equals 1] (byID m) db id) as (n & db' & E & Hup' & Ha');
    [done..|apply policy_where_id|repeat constructor; done|].
  rewrite E. apply (db_delete_others "access_policies" access_table eq_refl eq_refl) in E; [|repeat constructor; done].
  pose proof (policy_live_others _ _ E Hl) as Hl'.
  unfold mem_Delete. destruct (byID m !! id) as [r|] eqn:Er; (split; [done|]); (split; [done| | |done]); try done.
  - by apply indexed_delete.
  - by rewrite delete_id in Ha'.
Qed.

Lemma policy_sim_LookupByID m db id :
  sim m db -> storable (Text id) = true -> pg_LookupByID db id = Ok (keep_record <$> byID m !! id).
Proof.
  intros [Hup Hi Ha _] Hs. apply (agree_lookup_id p_ID keep_record "access_policies" access_table scanPolicyRecord
    eq_refl eq_refl policy_scan_whole); [done..|apply policy_where_id].
Qed.
Lemma sim_LookupByReservedSubdomainID m db k :
  sim m db -> storable (Text k) = true -> pg_LookupByReservedSubdomainID db k = Ok (keep_record <$> policy_of m k).
Proof.
  intros [Hup Hi Ha _] Hs. apply (agree_lookup_key p_ID p_ReservedSubdomainID keep_record "access_policies" access_table
    scanPolicyRecord eq_refl eq_refl policy_scan_whole (fun _ => eq_refl) (fun _ => eq_refl)); [done..|apply where_reservation].
Qed.

#[local] Instance by_reservation_trans : Transitive by_reservation.
Proof. intros a b c. unfold by_reservation. apply key_order_trans. Qed.
#[local] Instance by_reservation_total : Total by_reservation.
Proof. intros a b. unfold by_reservation. apply key_order_total. Qed.

Lemma policy_sim_List m db : sim m db -> pg_List db = Ok (keep_record <$> merge_sort by_reservation (map_to_list (byID m)).*2).
Proof.
  intros [Hup Hi Ha _].
  apply (agree_list p_ID p_ReservedSubdomainID keep_record "access_policies" access_table scanPolicyRecord eq_refl eq_refl
    policy_scan_whole (fun _ => eq_refl) "list access policies" select_list by_reservation (byID m) (byReservation m)); try done; try apply _.
  - intros x y. unfold by_reservation. apply key_order_antisym.
  - intros a b x y (j1 & -> & _)%scan_policy_inv (j2 & -> & _)%scan_policy_inv. cbn. rewrite !C_collation.
    unfold by_reservation. apply key_order_sql.
Qed.

(** ** Writes, and the decisions after them *)
Inductive call : Type :=
| CallCreate (r : PolicyRecord)
| CallUpdate (r : PolicyRecord)
| CallDelete (id : string).
Definition answer {S} {PS : PolicyStore S} (s : S) (c : call) : option error * S :=
  match c with
  | CallCreate r => pol_Create s r
  | CallUpdate r => pol_Update s r
  | CallDelete id => pol_Delete s id
  end.
Definition admissible (m : MemoryStore) (c : call) : Prop :=
  match c with
  | CallCreate r => acceptable r
  | CallUpdate r => acceptable r /\ keeps_identity m r
  | CallDelete id => storable (Text id) = true
  end.

Lemma policy_answer_sim m db c :
  sim m db -> admissible m c ->
  fst (answer (PS := pg_store) db c) = fst (answer m c) /\ sim (snd (answer m c)) (snd (answer (PS := pg_store) db c)).
Proof.
  intros H Hc. destruct c as [r|r|id]; cbn [answer admissible] in *; cbn.
  - by apply policy_sim_Create.
  - destruct Hc. by apply policy_sim_Update.
  - by apply policy_sim_Delete.
Qed.

Context {U : GoUnicode} {NI : GoNetip} {H256 : SHA256} {A2 : Argon2}.

End refinement.

(** ** Witness *)
Module Witness_policies.
#[local] Instance codec : JSONCodec (list string) := countable_codec.
#[local] Instance unicode : GoUnicode := {| lower_nonascii s := s; upper_nonascii s := s |}.
#[local] Instance netip : GoNetip := text_netip.
#[local] Instance sha : SHA256 := {| Sum256 s := to_bytes s |}.
#[local] Instance argon2 : Argon2 := toy_argon2.
#[local] Instance server : SQLServer := Server.C_server.
#[local] Instance db : Database tables := Server.database porthook_schema.
#[local] Instance db_laws : DatabaseLaws porthook_schema tables := Server.database_laws porthook_schema.

Lemma codec_text (l : list string) data : Marshal l = Ok data -> TrimSpace (of_bytes data) <> ""%string.
Proof.
  cbn. intros [= <-]. generalize (encode l) as q. intros q. rewrite TrimSpace_visible; [by destruct q|].
  apply sforall_spec. rewrite to_of_bytes. induction q; cbn; by constructor.
Qed.

Definition reserved : tables :=
  set_keyed (mkTables ∅ ∅) "reserved_subdomains" {[ "rs_1" := [Text "rs_1"; Text "demo"; Text "tok_1"; Instant 0] ]}%string.
Definition policy (secret : string) (t : Time) : PolicyRecord :=
  mkPolicyRecord "ap_1" "rs_1" ModeBearerToken "" (HashSecret secret) [] 1000 t.
Definition calls : list call := [CallCreate (policy "first" 1000); CallUpdate (policy "second" 2000)].
Definition request (token : string) : CheckPolicyRequest := mkCheckPolicy "rs_1" "" "" "" token.

End Witness_policies.
End Policies.

(** * Custom domains *)
Module Domains.
Import CustomDomains.
Abbreviation columns := (pk_columns customdomains_package).
Definition insert : statement := InsertInto "custom_domains" (plain columns).
Definition update : statement :=
  UpdateSet "custom_domains"
    [("hostname", 2%nat); ("reserved_subdomain_id", 3%nat); ("status", 4%nat); ("verification_token", 5%nat);
     ("verified_at", 6%nat); ("updated_at", 7%nat)]%string [Compare (Column "id") Equals 1].
Definition select (conds : list condition) (order : list (string * direction)) : selection :=
  mkSelection (plain columns) "custom_domains" conds order None.
Definition select_list : selection := select [] [("hostname", ASC); ("id", ASC)]%string.
Definition select_by_id : selection := select [Compare (Column "id") Equals 1] [].
Definition select_by_hostname : selection := select [Compare (Column "hostname") Equals 1] [].
Definition delete : statement := DeleteFrom "custom_domains" [Compare (Column "id") Equals 1].

Lemma domain_texts :
  sql_text insert =
    "INSERT INTO custom_domains (id, hostname, reserved_subdomain_id, status, verification_token, verified_at, created_at, updated_at) VALUES ($1, $2, $3, $4, $5, $6, $7, $8)"%string /\
  sql_text update =
    "UPDATE custom_domains SET hostname = $2, reserved_subdomain_id = $3, status = $4, verification_token = $5, verified_at = $6, updated_at = $7 WHERE id = $1"%string /\
  query_text select_by_hostname =
    "SELECT id, hostname, reserved_subdomain_id, status, verification_token, verified_at, created_at, updated_at FROM custom_domains WHERE hostname = $1"%string.
Proof. vm_compute. repeat split. Qed.

Definition scanDomainRecord (r : list value) : result DomainRecord :=
  match r with
  | [Text id; Text hostname; Text reservation; Text status; Text token; verified; Instant created; Instant updated] =>
      try verifiedAt <- null_time verified;
      Ok (mkDomain id hostname reservation status token verifiedAt created updated)
  | _ => Err scan_error
  end.

Section store.
Context {DB : Type} {Db : Database DB}.
Definition NewPostgresStore (db : option DB) : result DB := open_store db.
Definition pg_Ping (db : DB) : option error :=
  match PingContext db with Some e => Some (Wrap "ping database" e) | None => None end.
Definition pg_Create (db : DB) (record : DomainRecord) : option error * DB :=
  constraint_error ["custom_domains_hostname_key"; "custom_domains_pkey"]%string ErrDomainAlreadyExists "insert custom domain"
    (Exec db insert [Text (d_ID record); Text (d_Hostname record); Text (d_ReservedSubdomainID record); Text (d_Status record);
       Text (d_VerificationToken record); nullable_time (d_VerifiedAt record); Instant (d_CreatedAt record);
       Instant (d_UpdatedAt record)]).
Definition pg_List (db : DB) : result (list DomainRecord) :=
  list_records scanDomainRecord "list custom domains" db select_list.
Definition pg_lookup (db : DB) (query : selection) (value : string) : result (option DomainRecord) :=
  lookup_record scanDomainRecord "lookup custom domain" db query value.
Definition pg_LookupByID (db : DB) (id : string) : result (option DomainRecord) := pg_lookup db select_by_id id.
Definition pg_LookupByHostname (db : DB) (hostname : string) : result (option DomainRecord) := pg_lookup db select_by_hostname hostname.
Definition pg_Update (db : DB) (record : DomainRecord) : option error * DB :=
  affected_error ["custom_domains_hostname_key"%string] ErrDomainAlreadyExists ErrDomainNotFound "update custom domain"
    (Exec db update [Text (d_ID record); Text (d_Hostname record); Text (d_ReservedSubdomainID record); Text (d_Status record);
       Text (d_VerificationToken record); nullable_time (d_VerifiedAt record); Instant (d_UpdatedAt record)]).
Definition pg_Delete (db : DB) (id : string) : option error * DB :=
  exec_error "delete custom domain" (Exec db delete [Text id]).
Definition pg_store : DomainStore DB := {|
  dom_Ping := pg_Ping; dom_Create := pg_Create; dom_List := pg_List; dom_LookupByID := pg_LookupByID;
  dom_LookupByHostname := pg_LookupByHostname; dom_Update := pg_Update; dom_Delete := pg_Delete;
|}.
End store.

(** ** It agrees with the memory store *)
Definition keep_record (r : DomainRecord) : DomainRecord :=
  mkDomain (d_ID r) (d_Hostname r) (d_ReservedSubdomainID r) (d_Status r) (d_VerificationToken r) (micro <$> d_VerifiedAt r)
    (micro (d_CreatedAt r)) (micro (d_UpdatedAt r)).
Definition record_row (r : DomainRecord) : row :=
  [Text (d_ID r); Text (d_Hostname r); Text (d_ReservedSubdomainID r); Text (d_Status r); Text (d_VerificationToken r);
   nullable_time (d_VerifiedAt r); Instant (d_CreatedAt r); Instant (d_UpdatedAt r)].
Lemma domain_scan_inv row r : scanDomainRecord row = Ok r <-> row = record_row r.
Proof.
  split.
  - unfold scanDomainRecord. repeat (case_match; try done).
    by intros (o & ->%null_time_ok & [= <-])%rbind_ok.
  - intros ->. destruct r as [? ? ? ? ? o ? ?]. by destruct o.
Qed.
Lemma domain_scan_whole row r : scanDomainRecord row = Ok r ->
  key_of row = d_ID r /\ (fun c => column_of custom_domain_table (fst c) row) <$> plain (td_columns custom_domain_table) = row.
Proof. by intros ->%domain_scan_inv. Qed.
Lemma scan_hostname row r : scanDomainRecord row = Ok r -> column_of custom_domain_table "hostname" row = Text (d_Hostname r).
Proof. by intros ->%domain_scan_inv. Qed.
Lemma domain_record_row_kept r : kept <$> record_row r = record_row (keep_record r).
Proof. by destruct r as [? ? ? ? ? [?|] ? ?]. Qed.

(** The statuses the table accepts are those the service writes. *)
Definition statuses : list string := [StatusPendingVerification; StatusActive; StatusVerificationFailed].
Lemma domain_row_accepted T r :
  d_Status r ∈ statuses -> is_Some (keyed_rows T "reserved_subdomains" !! d_ReservedSubdomainID r) ->
  row_violation T custom_domain_table (record_row r) = None /\ reference_broken T custom_domain_table (record_row r) = None.
Proof.
  intros Hs [x Hx]. destruct r as [id h res st tok ver cr up]. cbn in Hs, Hx. split.
  - unfold statuses in Hs. rewrite !elem_of_cons, elem_of_nil in Hs. destruct Hs as [->|[->|[->|[]]]]; by destruct ver.
  - unfold reference_broken. cbn. rewrite Hx. by rewrite bool_decide_false.
Qed.

(** The memory store writes an update unless another domain has the hostname. *)
Lemma mem_Update_spec m r old :
  indexed d_ID d_Hostname (byID m) (byHostname m) -> byID m !! d_ID r = Some old ->
  if bool_decide (byHostname m !! d_Hostname r = None \/ byHostname m !! d_Hostname r = Some (d_ID r))
  then fst (mem_Update m r) = None /\ byID (snd (mem_Update m r)) = <[d_ID r := r]> (byID m) /\
       indexed d_ID d_Hostname (byID (snd (mem_Update m r))) (byHostname (snd (mem_Update m r)))
  else mem_Update m r = (Some ErrDomainAlreadyExists, m).
Proof.
  intros Hi Ho. unfold mem_Update. rewrite Ho. cbv zeta. destruct (idx_id _ _ _ _ Hi _ _ Ho) as [_ Ek].
  destruct (String.eqb_spec (d_Hostname old) (d_Hostname r)) as [Eh|Hne]; cbn [negb].
  { rewrite bool_decide_true by (right; congruence). cbn. split_and!; [done..|]. by eapply indexed_rewrite. }
  destruct (byHostname m !! d_Hostname r) as [other|] eqn:Eo.
  - assert (Hother : other <> d_ID r).
    { intros ->. destruct (idx_key _ _ _ _ Hi _ _ Eo) as (x & Hx & Ex). congruence. }
    rewrite bool_decide_false by (intros [|]; congruence). by apply String.eqb_neq in Hother as ->.
  - rewrite bool_decide_true by (by left). split_and!; [done..|]. by eapply indexed_rekey.
Qed.

Section refinement.
Context {DB : Type} {SV : SQLServer} {Db : Database DB} {DL : DatabaseLaws porthook_schema DB}.
Context (C_collation : forall a b, collate a b = String.leb a b).
Lemma domain_where_id k row r : scanDomainRecord row = Ok r ->
  where_holds custom_domain_table [Text k] [Compare (Column "id") Equals 1] row = String.eqb (d_ID r) k.
Proof. intros ->%domain_scan_inv. cbn. by rewrite andb_true_r. Qed.
Lemma where_hostname k row r : scanDomainRecord row = Ok r ->
  where_holds custom_domain_table [Text k] [Compare (Column "hostname") Equals 1] row = String.eqb (d_Hostname r) k.
Proof. intros ->%domain_scan_inv. cbn. by rewrite andb_true_r. Qed.

(** The ids of reservations that exist, which the domains refer to. *)
Context (live : gset string).

Abbreviation agrees := (agree d_ID keep_record "custom_domains" scanDomainRecord).
Record sim (m : MemoryStore) (db : DB) : Prop := {
  sim_up : up db;
  sim_indexed : indexed d_ID d_Hostname (byID m) (byHostname m);
  sim_agree : agrees (byID m) (tables_of db);
  sim_live : forall k, k ∈ live -> is_Some (keyed_rows (tables_of db) "reserved_subdomains" !! k);
}.
Lemma domain_live_others T T' :
  others "custom_domains" T T' -> (forall k, k ∈ live -> is_Some (keyed_rows T "reserved_subdomains" !! k)) ->
  forall k, k ∈ live -> is_Some (keyed_rows T' "reserved_subdomains" !! k).
Proof. intros Ho H k Hk. rewrite Ho by done. by apply H. Qed.

(** A record the table accepts. *)
Definition acceptable (r : DomainRecord) : Prop :=
  forallb storable (record_row r) = true /\ d_Status r ∈ statuses /\ d_ReservedSubdomainID r ∈ live.

Lemma domain_sim_Create m db r :
  sim m db -> acceptable r ->
  fst (pg_Create db r) = fst (mem_Create m r) /\ sim (snd (mem_Create m r)) (snd (pg_Create db r)).
Proof.
  intros [Hup Hi Ha Hl] (Hs & Hst & Hres). unfold pg_Create.
  destruct (domain_row_accepted (tables_of db) (keep_record r) Hst (Hl _ Hres)) as [Hv Hb].
  destruct (db_insert d_ID d_Hostname keep_record "custom_domains" custom_domain_table scanDomainRecord
      "hostname" "custom_domains_hostname_key" eq_refl eq_refl eq_refl domain_scan_whole scan_hostname (fun _ => eq_refl) (fun _ => eq_refl)
      (plain columns) (record_row r) (byID m) (byHostname m) db (record_row (keep_record r)) r)
    as (res & db' & E & Hup' & Ho & H); [done..| |by apply domain_scan_inv|done|done|].
  { rewrite domain_record_row_kept. reflexivity. }
  unfold record_row in E. unfold insert. rewrite E. unfold mem_Create. pose proof (domain_live_others _ _ Ho Hl) as Hl'.
  case_bool_decide as H1; [|case_bool_decide as H2]; destruct H as [-> H]; (split; [reflexivity|]);
    (split; [done| |done|done]); try done.
  apply eq_None_not_Some in H1, H2. by apply indexed_insert.
Qed.

Lemma domain_sim_Update m db r :
  sim m db -> acceptable r -> (forall old, byID m !! d_ID r = Some old -> micro (d_CreatedAt old) = micro (d_CreatedAt r)) ->
  fst (pg_Update db r) = fst (mem_Update m r) /\ sim (snd (mem_Update m r)) (snd (pg_Update db r)).
Proof.
  intros [Hup Hi Ha Hl] (Hs & Hst & Hres) Hcreated. unfold pg_Update.
  set (args := [Text (d_ID r); Text (d_Hostname r); Text (d_ReservedSubdomainID r); Text (d_Status r);
       Text (d_VerificationToken r); nullable_time (d_VerifiedAt r); Instant (d_UpdatedAt r)]).
  assert (Hargs : forallb storable args = true).
  { unfold record_row in Hs. cbn in Hs |- *. rewrite !andb_true_iff in *. tauto. }
  assert (Hit : forall i x row, byID m !! i = Some x -> scanDomainRecord row = Ok (keep_record x) ->
    where_holds custom_domain_table (kept <$> args) [Compare (Column "id") Equals 1] row = bool_decide (i = d_ID r)).
  { intros i x row Hx ->%domain_scan_inv. destruct (idx_id _ _ _ _ Hi _ _ Hx) as [<- _]. cbn. rewrite andb_true_r.
    destruct (String.eqb_spec (d_ID x) (d_ID r)); [by rewrite bool_decide_true|by rewrite bool_decide_false]. }
  unfold update. destruct (byID m !! d_ID r) as [old|] eqn:Eo.
  - destruct (domain_row_accepted (tables_of db) (keep_record r) Hst (Hl _ Hres)) as [Hv Hb].
    destruct (db_update d_ID d_Hostname keep_record "custom_domains" custom_domain_table scanDomainRecord
      "hostname" "custom_domains_hostname_key" eq_refl eq_refl scan_hostname (fun _ => eq_refl) (fun _ => eq_refl)
      [("hostname", 2%nat); ("reserved_subdomain_id", 3%nat); ("status", 4%nat); ("verification_token", 5%nat);
       ("verified_at", 6%nat); ("updated_at", 7%nat)]%string [Compare (Column "id") Equals 1] args (byID m) (byHostname m) db
      (d_ID r) old r) as (res & db' & E & Hup' & Ho & H); [done..| |].
    { intros row ->%domain_scan_inv. unfold updated. rewrite (Hit _ old _ Eo) by (by apply domain_scan_inv). rewrite bool_decide_true by done.
      cbv zeta. match goal with |- scanDomainRecord ?x = _ /\ _ => assert (x = record_row (keep_record r)) as -> end;
        [|split; [by apply domain_scan_inv|done]].
      cbn -[micro]. specialize (Hcreated _ eq_refl). destruct (idx_id _ _ _ _ Hi _ _ Eo) as [Hid _].
      unfold record_row, keep_record. cbn -[micro]. rewrite Hcreated, Hid. by destruct (d_VerifiedAt r). }
    rewrite E. pose proof (domain_live_others _ _ Ho Hl) as Hl'. pose proof (mem_Update_spec m r old Hi Eo) as HM.
    case_bool_decide; destruct H as [-> H].
    + destruct HM as (HM1 & HM2 & HM3). rewrite HM1. split; [done|]. split; [done..|by rewrite HM2|done].
    + rewrite HM. split; [reflexivity|]. by split.
  - destruct (db_update_none d_ID d_Hostname keep_record "custom_domains" custom_domain_table scanDomainRecord
      "hostname" "custom_domains_hostname_key" eq_refl eq_refl scan_hostname (fun _ => eq_refl)
      [("hostname", 2%nat); ("reserved_subdomain_id", 3%nat); ("status", 4%nat); ("verification_token", 5%nat);
       ("verified_at", 6%nat); ("updated_at", 7%nat)]%string [Compare (Column "id") Equals 1] args (byID m) (byHostname m) db
      (d_ID r)) as (db' & E & Hup' & Ho & H); [done..|].
    rewrite E. unfold mem_Update. rewrite Eo. split; [done|]. split; try done. by apply (domain_live_others _ _ Ho).
Qed.

Lemma domain_sim_Delete m db id :
  sim m db -> storable (Text id) = true ->
  fst (pg_Delete db id) = fst (mem_Delete m id) /\ sim (snd (mem_Delete m id)) (snd (pg_Delete db id)).
Proof.
  intros [Hup Hi Ha Hl] Hs. unfold pg_Delete, delete.
  destruct (db_delete d_ID keep_record "custom_domains" custom_domain_table scanDomainRecord eq_refl eq_refl
      [Compare (Column "id") Equals 1] (byID m) db id) as (n & db' & E & Hup' & Ha');
    [done..|apply domain_where_id|repeat constructor; done|].
  rewrite E. apply (db_delete_others "custom_domains" custom_domain_table eq_refl eq_refl) in E; [|repeat constructor; done].
  pose proof (domain_live_others _ _ E Hl) as Hl'.
  unfold mem_Delete. destruct (byID m !! id) as [r|] eqn:Er; (split; [done|]); (split; [done| | |done]); try done.
  - by apply indexed_delete.
  - by rewrite delete_id in Ha'.
Qed.

Lemma domain_sim_LookupByID m db id :
  sim m db -> storable (Text id) = true -> pg_LookupByID db id = Ok (keep_record <$> byID m !! id).
Proof.
  intros [Hup Hi Ha _] Hs. apply (agree_lookup_id d_ID keep_record "custom_domains" custom_domain_table scanDomainRecord
    eq_refl eq_refl domain_scan_whole); [done..|apply domain_where_id].
Qed.
Lemma sim_LookupByHostname m db hostname :
  sim m db -> storable (Text hostname) = true ->
  pg_LookupByHostname db hostname = Ok (keep_record <$> find_by (byID m) (byHostname m) hostname).
Proof.
  intros [Hup Hi Ha _] Hs. apply (agree_lookup_key d_ID d_Hostname keep_record "custom_domains" custom_domain_table scanDomainRecord
    eq_refl eq_refl domain_scan_whole (fun _ => eq_refl) (fun _ => eq_refl)); [done..|apply where_hostname].
Qed.

#[local] Instance by_hostname_trans : Transitive by_hostname.
Proof. intros a b c. unfold by_hostname. apply key_order_trans. Qed.
#[local] Instance by_hostname_total : Total by_hostname.
Proof. intros a b. unfold by_hostname. apply key_order_total. Qed.

Lemma domain_sim_List m db : sim m db -> pg_List db = Ok (keep_record <$> merge_sort by_hostname (map_to_list (byID m)).*2).
Proof.
  intros [Hup Hi Ha _].
  apply (agree_list d_ID d_Hostname keep_record "custom_domains" custom_domain_table scanDomainRecord eq_refl eq_refl domain_scan_whole
    (fun _ => eq_refl) "list custom domains" select_list by_hostname (byID m) (byHostname m)); try done; try apply _.
  - intros x y. unfold by_hostname. apply key_order_antisym.
  - intros a b x y ->%domain_scan_inv ->%domain_scan_inv. cbn. rewrite !C_collation. unfold by_hostname. apply key_order_sql.
Qed.

(** ** Calls and their answers *)
Inductive call : Type :=
| CallCreate (r : DomainRecord)
| CallUpdate (r : DomainRecord)
| CallDelete (id : string)
| CallList
| CallByID (id : string)
| CallByHostname (hostname : string).
Inductive reply : Type :=
| Outcome (e : option error)
| Listing (l : result (list DomainRecord))
| Found (o : result (option DomainRecord)).
Definition answer {S} {DS : DomainStore S} (s : S) (c : call) : reply * S :=
  match c with
  | CallCreate r => let '(e, s') := dom_Create s r in (Outcome e, s')
  | CallUpdate r => let '(e, s') := dom_Update s r in (Outcome e, s')
  | CallDelete id => let '(e, s') := dom_Delete s id in (Outcome e, s')
  | CallList => (Listing (dom_List s), s)
  | CallByID id => (Found (dom_LookupByID s id), s)
  | CallByHostname hostname => (Found (dom_LookupByHostname s hostname), s)
  end.
Definition rounded (r : reply) : reply :=
  match r with
  | Outcome e => Outcome e
  | Listing (Ok l) => Listing (Ok (keep_record <$> l))
  | Found (Ok o) => Found (Ok (keep_record <$> o))
  | r => r
  end.

(** What the service sends: records with one of its statuses, for a
    reservation that exists; an update keeps the time of creation, which the
    statement does not set. *)
Definition admissible (m : MemoryStore) (c : call) : Prop :=
  match c with
  | CallCreate r => acceptable r
  | CallUpdate r => acceptable r /\ forall old, byID m !! d_ID r = Some old -> micro (d_CreatedAt old) = micro (d_CreatedAt r)
  | CallDelete v | CallByID v | CallByHostname v => storable (Text v) = true
  | CallList => True
  end.
Lemma domain_answer_sim m db c :
  sim m db -> admissible m c ->
  fst (answer (DS := pg_store) db c) = rounded (fst (answer m c)) /\
  sim (snd (answer m c)) (snd (answer (DS := pg_store) db c)).
Proof.
  intros H Hc. destruct c as [r|r|id| |id|hostname]; cbn [answer admissible] in *; cbn.
  - destruct (domain_sim_Create m db r H Hc) as [E Hsim].
    destruct (mem_Create m r) as [e m'], (pg_Create db r) as [e' db']. cbn in *. by subst.
  - destruct Hc as [Hc Hcr]. destruct (domain_sim_Update m db r H Hc Hcr) as [E Hsim].
    destruct (mem_Update m r) as [e m'], (pg_Update db r) as [e' db']. cbn in *. by subst.
  - destruct (domain_sim_Delete m db id H Hc) as [E Hsim].
    destruct (mem_Delete m id) as [e m'], (pg_Delete db id) as [e' db']. cbn in *. by subst.
  - split; [|done]. by rewrite (domain_sim_List m db H).
  - split; [|done]. by rewrite (domain_sim_LookupByID m db id H Hc).
  - split; [|done]. rewrite (sim_LookupByHostname m db hostname H Hc). unfold mem_LookupByHostname, find_by.
    by destruct (byHostname m !! hostname).
Qed.

(** Custom domains on a database that is up get the answers of the memory
    store, errors included, with times rounded to the microsecond: creating
    one whose hostname or id is taken, moving one to a hostname that is taken
    or free, updating one that is gone. *)
Lemma pg_domains_refine m db calls :
  sim m db -> all_ok answer admissible m calls ->
  fst (run_calls (answer (DS := pg_store)) db calls) = rounded <$> fst (run_calls answer m calls) /\
  sim (snd (run_calls answer m calls)) (snd (run_calls (answer (DS := pg_store)) db calls)).
Proof. apply (run_calls_sim answer answer rounded sim admissible), domain_answer_sim. Qed.
End refinement.
End Domains.

(** * A deleted reservation *)
Section cascade.
Context {DB : Type} {SV : SQLServer} {Db : Database DB} {DL : DatabaseLaws porthook_schema DB}.

(** The policies and the domains, after a reservation is deleted. *)
Lemma reservation_cascade T gone :
  let T' := foldl (cascade "reserved_subdomains" gone) T porthook_schema in
  keyed_rows T' "access_policies" =
    filter (fun '(_, r) => refers_to access_table "reserved_subdomains" gone r = false) (keyed_rows T "access_policies") /\
  keyed_rows T' "custom_domains" =
    filter (fun '(_, r) => refers_to custom_domain_table "reserved_subdomains" gone r = false) (keyed_rows T "custom_domains").
Proof.
  cbv zeta. set (policies := filter _ (keyed_rows T "access_policies")).
  pose (T1 := set_keyed T "access_policies" policies).
  assert (foldl (cascade "reserved_subdomains" gone) T porthook_schema
    = set_keyed T1 "custom_domains"
        (filter (fun '(_, r) => refers_to custom_domain_table "reserved_subdomains" gone r = false) (keyed_rows T1 "custom_domains")))
    as -> by reflexivity.
  split; [rewrite keyed_rows_set_ne by done; apply keyed_rows_set|]. rewrite keyed_rows_set. unfold T1.
  by rewrite keyed_rows_set_ne.
Qed.

(** Deleting a reservation leaves no access policy and no custom domain of it
    in the database; the memory stores keep theirs. *)
Lemma delete_reservation_cascades db id n db' k :
  readable "reserved_subdomains" Reservations.scanReservationRecord Reserved.r_ID (tables_of db) ->
  is_Some (keyed_rows (tables_of db) "reserved_subdomains" !! id) ->
  Exec db Reservations.delete [Text id] = (Ok n, db') ->
  (forall r, keyed_rows (tables_of db') "access_policies" !! k = Some r ->
     column_of access_table "reserved_subdomain_id" r <> Text id) /\
  (forall r, keyed_rows (tables_of db') "custom_domains" !! k = Some r ->
     column_of custom_domain_table "reserved_subdomain_id" r <> Text id).
Proof.
  intros Hread [x Hx] EE. destruct (Exec_ok _ _ _ _ _ EE) as (f & _ & E). unfold exec, Reservations.delete in E.
  apply ok_pair in E as [_ E]. rewrite <- E.
  set (gone := filter _ _). assert (Hgone : is_Some (gone !! id)).
  { exists x. apply map_lookup_filter_Some_2; [done|]. destruct (Hread _ _ Hx) as (r & Hr & Hid).
    change (kept <$> [Text id]) with [Text id]. rewrite (Reservations.reservation_where_id id x r Hr), Hid. apply String.eqb_refl. }
  match goal with |- context [foldl _ ?T _] => destruct (reservation_cascade T gone) as [-> ->] end.
  split; intros r; rewrite map_lookup_filter_Some; intros [_ Hr] Hc; revert Hr; unfold refers_to;
    cbn [td_refs access_table custom_domain_table existsb]; rewrite Hc; by rewrite bool_decide_true.
Qed.
End cascade.
