(* ===== verification/PgLogs.v ===== *)
(** request_log_postgres_store.go of server/gateway/internal/gateway and
    audit_postgres_store.go of server/control-plane/internal/controlplane: the
    logs of requests and of audit events on a database.

    A listing is a SELECT whose WHERE is put together from the filters that
    are set, each with the next placeholder, newest entry first and one row
    more than the page holds; the cursor of a page is the time and the id of
    its last entry.  What the filters select on the database is compared with
    what they select in memory. *)
From S2P Require Import Prelude GoStrings Base64 Messages Ring Sql Migrations.
From S2P Require RequestLog AuditEvents.
From Stdlib Require Import ZArith Lia List String Ascii Bool Btauto.
From stdpp Require Import base countable gmap strings list sorting.

Open Scope Z_scope.

(** * Conditions under construction *)
(** [where] and [args] of the two [*SQLFilters]: [add] appends a value and the
    clause with its placeholder. *)
Definition clauses : Type := list condition * list value.
Definition no_clauses : clauses := ([], []).
Definition add_clause (clause : nat -> condition) (v : value) (b : clauses) : clauses :=
  let args := snd b ++ [v] in (fst b ++ [clause (length args)], args).
Definition addLike (e : expr) (v : string) (b : clauses) : clauses :=
  if String.eqb (TrimSpace v) "" then b else add_clause (Compare e ILike) (Text ("%" +:+ v +:+ "%")) b.
(** [time >= $n] and [time <= $n], unless the time is zero *)
Definition add_bound (op : comparison) (t : Time) (b : clauses) : clauses :=
  if IsZero t then b else add_clause (Compare (Column "time") op) (Instant t) b.
(** The keyset of a cursor. *)
Definition add_cursor (c : logCursor) (b : clauses) : clauses :=
  if (0 <? cursor_ID c) && negb (IsZero (cursor_Time c)) then
    let args := snd b ++ [Instant (cursor_Time c); Number (cursor_ID c)] in
    let n := length args in
    (fst b ++ [Either (Compare (Column "time") Below (pred n))
                 (Both (Compare (Column "time") Equals (pred n)) (Compare (Column "id") Below n))], args)
  else b.

(** [nullableString] *)
Definition nullableString (s : string) : value :=
  let s := TrimSpace s in if String.eqb s "" then NULL else Text s.
(** A [sql.NullString] read into a field. *)
Definition null_string (v : value) : result string := try o <- null_text v; Ok (default ""%string o).

(** * Placeholders *)
(** Every placeholder is one of the first [n]. *)
Fixpoint placed (n : nat) (c : condition) : bool :=
  match c with
  | Compare _ _ k => (1 <=? k)%nat && (k <=? n)%nat
  | IsNull _ => true
  | Both a b | Either a b => placed n a && placed n b
  end.
Definition bound (b : clauses) : bool := forallb (placed (length (snd b))) (fst b).

Lemma placed_mono n m c : (n <= m)%nat -> placed n c = true -> placed m c = true.
Proof.
  intros Hm. induction c as [e op k|c|a IHa b IHb|a IHa b IHb]; cbn; [|done|..];
    rewrite !andb_true_iff, ?Nat.leb_le; intros []; (split; [auto with lia|auto with lia]).
Qed.
Lemma bound_app b conds more :
  bound b = true -> forallb (placed (length (snd b) + length more)) conds = true ->
  bound (fst b ++ conds, snd b ++ more) = true.
Proof.
  unfold bound. cbn. rewrite length_app, forallb_app. intros H ->. rewrite andb_true_r.
  apply forallb_forall. intros c Hc. rewrite forallb_forall in H. apply (placed_mono (length (snd b))); [lia|by apply H].
Qed.
Lemma bound_like e v b : bound b = true -> bound (addLike e v b) = true.
Proof.
  intros H. unfold addLike. destruct (String.eqb _ _); [done|]. apply bound_app; [done|].
  cbn [forallb placed]. rewrite length_app. cbn [length]. rewrite !andb_true_iff, !Nat.leb_le. lia.
Qed.
Lemma bound_compare e op v b : bound b = true -> bound (add_clause (Compare e op) v b) = true.
Proof.
  intros H. apply bound_app; [done|]. cbn [forallb placed]. rewrite length_app. cbn [length]. rewrite !andb_true_iff, !Nat.leb_le. lia.
Qed.
Lemma bound_time op t b : bound b = true -> bound (add_bound op t b) = true.
Proof. intros H. unfold add_bound. destruct (IsZero t); [done|]. by apply bound_compare. Qed.
Lemma bound_cursor c b : bound b = true -> bound (add_cursor c b) = true.
Proof.
  intros H. unfold add_cursor. destruct (_ && _); [|done]. apply bound_app; [done|].
  cbn [forallb placed]. rewrite length_app. cbn [length]. rewrite !andb_true_iff, !Nat.leb_le. lia.
Qed.
Create HintDb clauses.
Lemma bound_when (skip : bool) e op v b : bound b = true -> bound (if skip then b else add_clause (Compare e op) v b) = true.
Proof. intros H. destruct skip; [done|]. by apply bound_compare. Qed.
#[export] Hint Resolve bound_like bound_when bound_time bound_cursor : clauses.

Section meaning.
Context {SV : SQLServer} (d : table_decl).

(** Later arguments do not change what the clauses say. *)
Lemma satisfied_app args more c r :
  placed (length args) c = true -> satisfied d (args ++ more) c r = satisfied d args c r.
Proof.
  induction c as [e op n|c|a IHa b IHb|a IHa b IHb]; cbn [placed satisfied]; rewrite ?andb_true_iff, ?Nat.leb_le.
  - intros [H1 H2]. rewrite app_nth1 by lia. done.
  - done.
  - intros [Ha Hb]. by rewrite IHa, IHb.
  - intros [Ha Hb]. by rewrite IHa, IHb.
Qed.

(** What the clauses say of a row, whatever arguments follow theirs. *)
Definition holds (b : clauses) (r : row) : bool := where_holds d (kept <$> snd b) (fst b) r.
Lemma holds_more b more r :
  bound b = true -> where_holds d (kept <$> snd b ++ more) (fst b) r = holds b r.
Proof.
  unfold bound, holds, where_holds. intros H. rewrite forallb_forall in H. rewrite fmap_app.
  assert (Hin : forall c, In c (fst b) -> satisfied d ((kept <$> snd b) ++ (kept <$> more)) c r = satisfied d (kept <$> snd b) c r).
  { intros c Hc. apply satisfied_app. rewrite length_fmap. by apply H. }
  clear H. induction (fst b) as [|c l IH]; [done|]. cbn. rewrite Hin by (by left). f_equal. apply IH. intros c' Hc'. apply Hin. by right.
Qed.
Lemma holds_add clause v b r :
  bound b = true ->
  holds (add_clause clause v b) r = holds b r && satisfied d (kept <$> snd b ++ [v]) (clause (S (length (snd b)))) r.
Proof.
  intros H. unfold holds at 1, add_clause, where_holds. cbn [fst snd]. rewrite length_app, Nat.add_1_r, forallb_app.
  f_equal; [apply (holds_more b [v] r H)|]. cbn. by rewrite andb_true_r.
Qed.
Lemma nth_last (args : list value) v : nth (pred (S (length args))) (kept <$> args ++ [v]) NULL = kept v.
Proof. cbn. rewrite fmap_app, app_nth2; rewrite length_fmap; [|lia]. by rewrite Nat.sub_diag. Qed.
Lemma holds_compare e op v b r :
  bound b = true -> holds (add_clause (Compare e op) v b) r = holds b r && compare_values op (eval_expr d r e) (kept v).
Proof. intros H. rewrite holds_add by done. cbn [satisfied]. by rewrite nth_last. Qed.
Lemma holds_like e v b r :
  bound b = true ->
  holds (addLike e v b) r =
  holds b r && (String.eqb (TrimSpace v) "" || compare_values ILike (eval_expr d r e) (Text ("%" +:+ v +:+ "%"))).
Proof.
  intros H. unfold addLike. destruct (String.eqb _ _); [by rewrite andb_true_r|]. by rewrite holds_compare.
Qed.
Lemma holds_bound op t b r :
  bound b = true ->
  holds (add_bound op t b) r = holds b r && (IsZero t || compare_values op (column_of d "time" r) (Instant (micro t))).
Proof.
  intros H. unfold add_bound. destruct (IsZero t); [by rewrite andb_true_r|]. by rewrite holds_compare.
Qed.

Lemma holds_when (skip : bool) e op v b r :
  bound b = true ->
  holds (if skip then b else add_clause (Compare e op) v b) r = holds b r && (skip || compare_values op (eval_expr d r e) (kept v)).
Proof. intros H. destruct skip; [by rewrite andb_true_r|]. by rewrite holds_compare. Qed.

(** Past a cursor: older, or as old with a smaller id. *)
Definition past {Entry} {LE : LogEntry Entry} (c : logCursor) (e : Entry) : bool :=
  negb ((0 <? cursor_ID c) && negb (IsZero (cursor_Time c))) ||
  (Stamp e <? micro (cursor_Time c)) || ((Stamp e =? micro (cursor_Time c)) && (ID e <? cursor_ID c)).
Lemma holds_cursor {Entry} {LE : LogEntry Entry} c b r (e : Entry) :
  bound b = true -> column_of d "time" r = Instant (Stamp e) -> column_of d "id" r = Number (ID e) ->
  holds (add_cursor c b) r = holds b r && past c e.
Proof.
  intros H Ht Hi. unfold add_cursor, past. destruct (_ && _) eqn:E; cbn [negb orb]; [|by rewrite andb_true_r].
  unfold holds at 1, where_holds. cbn [fst snd]. rewrite forallb_app.
  f_equal; [exact (holds_more b [Instant (cursor_Time c); Number (cursor_ID c)] r H)|].
  rewrite length_app. cbn [length]. rewrite Nat.add_comm. cbn [Nat.add pred forallb satisfied eval_expr].
  rewrite fmap_app, andb_true_r, Ht, Hi. cbn [pred].
  rewrite !app_nth2; rewrite length_fmap; [|lia..]. rewrite Nat.sub_diag, Nat.sub_succ_l, Nat.sub_diag by lia. done.
Qed.
End meaning.

(** * Following the cursors of a sorted log *)
Section paging.
Context {Entry : Type} {LE : LogEntry Entry} {J : JSONCodec logCursor} {JL : JSONLaws logCursor}.
Hypothesis cursor_marshals : forall c : logCursor, is_ok (Marshal c) = true.

(** Newest first: by time and, at the same time, by id. *)
Definition precedes (x y : Entry) : Prop := Stamp y < Stamp x \/ (Stamp x = Stamp y /\ ID y < ID x).
(** An entry of the table: a key was drawn for it, and its time is one the
    table keeps. *)
Definition kept_entry (e : Entry) : Prop := 0 < ID e /\ Stamp e <> 0 /\ micro (Stamp e) = Stamp e.
Definition cursor_of (e : Entry) : logCursor := mkCursor (Stamp e) (ID e).

Lemma past_cursor_of e x : kept_entry e -> past (cursor_of e) x = true <-> precedes e x.
Proof.
  intros (H1 & H2 & H3). unfold past, precedes, cursor_of. cbn. rewrite H3. unfold IsZero.
  rewrite (proj2 (Z.ltb_lt _ _) H1), (proj2 (Z.eqb_neq _ _) H2). cbn.
  rewrite orb_true_iff, andb_true_iff, !Z.ltb_lt, Z.eqb_eq. intuition lia.
Qed.
Lemma past_precedes c e x : past c e = true -> precedes e x -> past c x = true.
Proof.
  unfold past, precedes. destruct (_ && _); [|done]. cbn.
  rewrite !orb_true_iff, !andb_true_iff, !Z.ltb_lt, !Z.eqb_eq. intuition lia.
Qed.

Lemma past_drop l n e :
  StronglySorted precedes l -> last (take n l) = Some e -> kept_entry e ->
  List.filter (past (cursor_of e)) l = drop n l.
Proof.
  intros Hs Hl He. revert n Hl. induction Hs as [|x l Hs IH HF]; intros n Hl; [by rewrite take_nil in Hl|].
  destruct n as [|n]; [done|]. cbn [take] in Hl. cbn [drop List.filter]. rewrite Forall_forall in HF.
  destruct (take n l) as [|y t] eqn:Et.
  - injection Hl as ->. destruct (past (cursor_of e) e) eqn:Ee.
    { apply (past_cursor_of _ _ He) in Ee. unfold precedes in Ee. lia. }
    assert (drop n l = l) as -> by (destruct n; [done|]; by destruct l).
    clear -HF He. induction l as [|y l IH]; [done|]. cbn.
    rewrite (proj2 (past_cursor_of e y He)) by (apply HF; by left). f_equal. apply IH. intros z Hz. apply HF. by right.
  - rewrite last_cons_cons, <- Et in Hl. assert (Hin : e ∈ l).
    { apply last_Some_elem_of in Hl. rewrite <- (take_drop n l). apply elem_of_app. by left. }
    destruct (past (cursor_of e) x) eqn:Ex; [|by apply IH].
    apply (past_cursor_of _ _ He) in Ex. specialize (HF _ Hin). unfold precedes in *. lia.
Qed.

Lemma filter_precedes_sorted (p : Entry -> bool) l : StronglySorted precedes l -> StronglySorted precedes (List.filter p l).
Proof.
  induction 1 as [|x l Hs IH HF]; cbn; [constructor|]. destruct (p x); [|done]. constructor; [done|].
  rewrite Forall_forall in *. intros y Hy. apply HF. apply list_elem_of_In in Hy. apply filter_In in Hy as [Hy _].
  by apply list_elem_of_In.
Qed.

(** When every page begins what is past its cursor, following the cursors ends
    and lists the whole log once. *)
Lemma fetch_all_sorted fuel l limit listing c :
  StronglySorted precedes l -> Forall kept_entry l -> 0 < limit ->
  (forall k c', c' = c \/ (exists e, e ∈ l /\ c' = cursor_of e) ->
     listing k c' = Some (page_of limit (List.filter (past c') l))) ->
  (length (List.filter (past c) l) < fuel)%nat ->
  fetch_all fuel listing c = Some (List.filter (past c) l).
Proof.
  intros Hs Hk Hl. revert c. induction fuel as [|fuel IH]; intros c Hpage Hf; [lia|].
  cbn [fetch_all]. rewrite Hpage by (by left). cbn [mbind option_bind]. set (sel := List.filter (past c) l) in *.
  destruct (Z.le_gt_cases (length_Z sel) limit) as [Hle|Hgt]; [by rewrite page_of_all|].
  destruct (page_of_more limit sel Hl Hgt) as (e & Elast & E). unfold page_of in E |- *. cbn [snd] in E. rewrite E.
  assert (Hin : In e l /\ past c e = true) by (apply filter_In; by eapply last_take_In).
  destruct Hin as [Hin Hpast]. rewrite <- list_elem_of_In in Hin. rewrite Forall_forall in Hk. pose proof (Hk e Hin) as He.
  destruct (cursor_roundtrip cursor_marshals e) as [-> ->]; [apply He..|]. fold (cursor_of e).
  assert (Ha : List.filter (past (cursor_of e)) l = drop (Z.to_nat limit) sel).
  { rewrite <- (past_drop sel (Z.to_nat limit) e) by (by apply filter_precedes_sorted || done). unfold sel.
    rewrite filter_filter. apply List.filter_ext. intros x. destruct (past (cursor_of e) x) eqn:Ex; [|done]. cbn.
    symmetry. apply (past_precedes c e x Hpast). by apply past_cursor_of. }
  unfold length_Z in *. rewrite IH, Ha.
  - cbn. by rewrite take_drop.
  - intros k c' [->|Hc']; apply Hpage; right; [by exists e|done].
  - rewrite Ha, length_drop. lia.
Qed.
End paging.

(** * A table of log entries *)
#[local] Instance filter_permutation {A} (p : A -> bool) : Proper ((≡ₚ) ==> (≡ₚ)) (List.filter p).
Proof.
  induction 1 as [|x l1 l2 _ IH|x y l|l1 l2 l3 _ IH1 _ IH2]; cbn; [done|by destruct (p x); rewrite IH| |by rewrite IH1].
  destruct (p x), (p y); try done. apply perm_swap.
Qed.
Section log_table.
Context {SV : SQLServer} {Entry : Type} {LE : LogEntry Entry}.
Context (table : string) (d : table_decl) (scan : list value -> result Entry) (columns : list cast_column).
Context (Hd : declared porthook_schema table = Some d) (Hserial : td_serial d = true).
Context (scan_log : forall r x, scan r = Ok x ->
  (fun c => column_of d (fst c) r) <$> columns = r /\
  column_of d "time" r = Instant (Stamp x) /\ column_of d "id" r = Number (ID x) /\ head r = Some (Number (ID x))).

Definition entry_of (r : row) : option Entry := match scan r with Ok x => Some x | Err _ => None end.
(** The entries of the table, by id; every row is one. *)
Definition log_entries (T : tables) : gmap Z Entry := omap entry_of (log_rows T table).
Definition log_readable (T : tables) : Prop :=
  forall k r, log_rows T table !! k = Some r -> exists x, scan r = Ok x /\ ID x = k.

(** The order of the listing, and the log in it. *)
Definition newest_le (x y : Entry) : Prop := Stamp y < Stamp x \/ (Stamp x = Stamp y /\ ID y <= ID x).
#[local] Instance newest_le_dec : RelDecision newest_le.
Proof. intros x y. unfold newest_le. apply _. Defined.
#[local] Instance newest_le_total : Total newest_le.
Proof. intros x y. unfold newest_le. lia. Qed.
#[local] Instance newest_le_trans : Transitive newest_le.
Proof. intros x y z. unfold newest_le. lia. Qed.
Definition newest_first (T : tables) : list Entry := merge_sort newest_le (map_to_list (log_entries T)).*2.

Lemma log_entries_lookup T k x :
  log_entries T !! k = Some x <-> exists r, log_rows T table !! k = Some r /\ scan r = Ok x.
Proof.
  unfold log_entries. rewrite lookup_omap. destruct (log_rows T table !! k) as [r|]; cbn.
  - unfold entry_of. split.
    + destruct (scan r) as [y|e] eqn:E; [|done]. intros [= <-]. by exists r.
    + intros (r' & [= <-] & ->). done.
  - split; [done|by intros (? & ? & _)].
Qed.
Lemma log_entries_id T k x : log_readable T -> log_entries T !! k = Some x -> ID x = k.
Proof. intros H (r & Hr & Hx)%log_entries_lookup. destruct (H _ _ Hr) as (y & Hy & <-). congruence. Qed.

Lemma elem_newest_first T x : x ∈ newest_first T <-> exists k, log_entries T !! k = Some x.
Proof.
  unfold newest_first. rewrite merge_sort_Permutation, list_elem_of_fmap. split.
  - intros ([k y] & -> & H%elem_of_map_to_list). eauto.
  - intros [k H]. exists (k, x). by rewrite elem_of_map_to_list.
Qed.

Lemma newest_first_sorted T : log_readable T -> StronglySorted precedes (newest_first T).
Proof.
  intros Hr. assert (Hs : StronglySorted newest_le (newest_first T)).
  { apply Sorted_StronglySorted; [apply _|]. apply Sorted_merge_sort, _. }
  assert (Hn : NoDup (ID <$> newest_first T)).
  { unfold newest_first. rewrite merge_sort_Permutation, <- list_fmap_compose.
    rewrite (list_fmap_ext _ fst); [apply NoDup_fst_map_to_list|]. intros i [k x] Hi. apply list_elem_of_lookup_2, elem_of_map_to_list in Hi. cbn. by apply (log_entries_id T). }
  induction Hs as [|x l Hs IH HF]; [constructor|]. cbn in Hn. apply NoDup_cons in Hn as [Hx Hn]. constructor; [by apply IH|].
  rewrite Forall_forall in *. intros y Hy. specialize (HF _ Hy). unfold newest_le, precedes in *.
  destruct HF as [|[Ht Hi]]; [by left|right]. split; [done|]. assert (ID y <> ID x); [|lia].
  intros E. apply Hx. rewrite <- E. by apply list_elem_of_fmap_2.
Qed.

Lemma scanned_omap rows l : Forall2 (fun r x => scan r = Ok x) rows l -> l = omap entry_of rows.
Proof. induction 1 as [|r x rows l Hx _ IH]; [done|]. cbn. unfold entry_of. rewrite Hx. cbn. by f_equal. Qed.

(** What a listing of whole rows answers, read: one row more than the limit of
    the entries its conditions select, newest first. *)
Lemma answers_log q args T out limit sel :
  answers porthook_schema q args T out -> sel_table q = table -> sel_columns q = columns ->
  sel_order q = [("time", DESC); ("id", DESC)]%string ->
  sel_limit q = Some (length args) -> last args = Some (Number limit) -> log_readable T ->
  (forall k r x, log_rows T table !! k = Some r -> scan r = Ok x -> where_holds d (kept <$> args) (sel_where q) r = sel x) ->
  scan_all scan out = Ok (take (Z.to_nat limit) (List.filter sel (newest_first T))).
Proof.
  intros (d' & rows & Hd' & Hp & Hs & ->) Ht Hc Ho Hl Hlast Hread Hw. rewrite Ht in *. rewrite Hd in Hd'. injection Hd' as <-.
  assert (Hlim : limited q (kept <$> args) rows = take (Z.to_nat limit) rows).
  { unfold limited. rewrite Hl. apply last_Some in Hlast as [args' ->]. rewrite length_app, Nat.add_1_r, nth_last. done. }
  unfold all_rows in Hp. rewrite Hserial in Hp.
  assert (Hin : Forall (fun r => exists x, scan r = Ok x) rows).
  { apply Forall_forall. intros r Hr. rewrite Hp, list_elem_of_In, filter_In, <- list_elem_of_In in Hr.
    destruct Hr as [([k y] & -> & Hr)%list_elem_of_fmap _]. apply elem_of_map_to_list in Hr.
    destruct (Hread _ _ Hr) as (x & Hx & _). eauto. }
  assert (HF : exists l, Forall2 (fun r x => scan r = Ok x) rows l).
  { clear -Hin. induction Hin as [|r rows [x Hx] _ [l IH]]; [by exists []|]. exists (x :: l). by constructor. }
  destruct HF as [l HF].
  assert (Hperm : l ≡ₚ List.filter sel (newest_first T)).
  { unfold newest_first. rewrite merge_sort_Permutation. unfold log_entries. rewrite omap_values.
    assert (HR : Forall (fun r => forall x, scan r = Ok x -> where_holds d (kept <$> args) (sel_where q) r = sel x)
      (map_to_list (log_rows T table)).*2).
    { apply Forall_forall. intros r ([k y] & -> & Hr)%list_elem_of_fmap x Hx. apply elem_of_map_to_list in Hr. by eapply Hw. }
    rewrite (scanned_omap _ _ HF), Hp. clear -HR. induction HR as [|r R Hw _ IH]; [done|]. cbn.
    unfold entry_of at 2. destruct (scan r) as [x|e] eqn:Ex.
    - rewrite (Hw _ eq_refl). cbn. destruct (sel x); [|done]. cbn. unfold entry_of at 1. rewrite Ex. cbn. by rewrite IH.
    - destruct (where_holds _ _ _ r); [|done]. cbn. unfold entry_of at 1. by rewrite Ex. }
  assert (Hl' : l = List.filter sel (newest_first T)).
  { eapply (Sorted_unique_strong newest_le).
    - intros x y Hx Hy H1 H2. rewrite Hperm in Hx. rewrite list_elem_of_In, filter_In, <- list_elem_of_In in Hx, Hy.
      destruct Hx as [[k Hx]%elem_newest_first _], Hy as [[j Hy]%elem_newest_first _].
      pose proof (log_entries_id _ _ _ Hread Hx). pose proof (log_entries_id _ _ _ Hread Hy).
      assert (k = j) as -> by (unfold newest_le in *; lia). congruence.
    - eapply Sorted_scanned; [|exact HF|exact Hs]. intros a b x y (_ & Ta & Ia & _)%scan_log (_ & Tb & Ib & _)%scan_log.
      rewrite Ho. cbn [ordered]. rewrite Ta, Tb, Ia, Ib. cbn. rewrite !Z.leb_le. unfold newest_le. intros [H1 H2].
      destruct (Z.eq_dec (Stamp x) (Stamp y)); [right|left; lia]. split; [done|]. apply H2. lia.
    - apply StronglySorted_Sorted. pose proof (filter_precedes_sorted sel _ (newest_first_sorted T Hread)) as HS.
      clear -HS. induction HS as [|x m _ IH HF]; constructor; [done|]. eapply Forall_impl; [exact HF|].
      intros y. unfold precedes, newest_le. lia.
    - done. }
  rewrite Hlim, Hc. apply scan_all_Forall2. rewrite <- Hl'. apply (Forall2_take _ _ _ (Z.to_nat limit)) in HF. clear -HF scan_log.
  induction HF as [|r x rs xs Hx _ IH]; [constructor|]. constructor; [|done]. by rewrite (proj1 (scan_log _ _ Hx)).
Qed.

(** The entries are numbered and have times the table keeps. *)
Definition log_ok (T : tables) : Prop :=
  log_readable T /\ forall k x, log_entries T !! k = Some x -> kept_entry x.
Lemma log_ok_newest T : log_ok T -> Forall kept_entry (newest_first T).
Proof. intros [_ H]. apply Forall_forall. intros x [k Hx]%elem_newest_first. by eapply H. Qed.

(** Pages that begin what is past their cursors add up to the whole selection. *)
Lemma log_paging {J : JSONCodec logCursor} {JL : JSONLaws logCursor} T limit (m : Entry -> bool) listing :
  (forall c : logCursor, is_ok (Marshal c) = true) -> log_ok T -> 0 < limit ->
  (forall n c, c = no_cursor \/ (exists k x, log_entries T !! k = Some x /\ c = cursor_of x) ->
     listing n c = Some (page_of limit (List.filter (past c) (List.filter m (newest_first T))))) ->
  fetch_all (S (size (log_entries T))) listing no_cursor = Some (List.filter m (newest_first T)).
Proof.
  intros Hc Hok Hl Hpage. set (l := List.filter m (newest_first T)) in *.
  assert (Hin : forall x, x ∈ l -> x ∈ newest_first T) by (intros x; unfold l; rewrite !list_elem_of_In, filter_In; tauto).
  assert (Hall : List.filter (past no_cursor) l = l) by (clear; induction l as [|x l IH]; [done|]; cbn; by rewrite IH).
  assert (Hlen : (length l <= size (log_entries T))%nat).
  { unfold l. etransitivity; [apply length_filter_le|]. unfold newest_first.
    rewrite merge_sort_Permutation, length_fmap, length_map_to_list. done. }
  rewrite <- Hall at 1. apply (fetch_all_sorted Hc _ l limit).
  - by apply filter_precedes_sorted, newest_first_sorted, Hok.
  - apply Forall_forall. intros x Hx. pose proof (log_ok_newest _ Hok) as HF. rewrite Forall_forall in HF. by apply HF, Hin.
  - done.
  - intros n c Hcur. apply Hpage. destruct Hcur as [->|(x & Hx & ->)]; [by left|right].
    apply Hin, elem_newest_first in Hx as [j Hx]. by exists j, x.
  - rewrite Hall. lia.
Qed.

(** A row inserted under a fresh key is a new entry. *)
Lemma log_insert T fresh cols args r x n T' :
  exec porthook_schema fresh (InsertInto table cols) args T = Ok (n, T') -> above T fresh -> log_ok T ->
  new_row (tail (td_columns d)) cols (kept <$> args) = Ok r -> scan (Number fresh :: r) = Ok x -> kept_entry x ->
  log_ok T' /\ log_entries T !! ID x = None /\ log_entries T' = <[ID x := x]> (log_entries T).
Proof.
  intros E [Hpos Habove] [Hr Hk] Hrow Hx Hkept. unfold exec in E. rewrite Hd, Hserial, Hrow in E. cbn [rbind] in E.
  destruct (row_violation T d (Number fresh :: r)); [done|]. injection E as _ <-.
  assert (Hid : ID x = fresh) by (destruct (scan_log _ _ Hx) as (_ & _ & _ & [= ->]); done).
  assert (Hnone : log_rows T table !! fresh = None).
  { destruct (log_rows T table !! fresh) eqn:E; [|done]. apply Habove in E. lia. }
  assert (He : log_entries (set_log T table (<[fresh := Number fresh :: r]> (log_rows T table))) = <[ID x := x]> (log_entries T)).
  { unfold log_entries. rewrite log_rows_set, Hid. apply omap_insert_Some. unfold entry_of. by rewrite Hx. }
  split_and!; [split| |exact He].
  - intros k y. rewrite log_rows_set, lookup_insert_Some. intros [[<- <-]|[_ Hy]]; [by exists x|by apply Hr].
  - intros k y. rewrite He, lookup_insert_Some. intros [[_ <-]|[_ Hy]]; [done|by eapply Hk].
  - unfold log_entries. by rewrite lookup_omap, Hid, Hnone.
Qed.

Lemma exec_log_insert fresh cols args T r :
  new_row (tail (td_columns d)) cols (kept <$> args) = Ok r -> row_violation T d (Number fresh :: r) = None ->
  exec porthook_schema fresh (InsertInto table cols) args T = Ok (1, set_log T table (<[fresh := Number fresh :: r]> (log_rows T table))).
Proof. intros Hr Hv. unfold exec. rewrite Hd, Hserial, Hr. cbn [rbind]. by rewrite Hv. Qed.

Lemma db_log_insert {DB} {Db : Database DB} {DL : DatabaseLaws porthook_schema DB} cols args (db : DB) r (mk : Z -> Entry) :
  up db -> forallb storable args = true -> log_ok (tables_of db) ->
  new_row (tail (td_columns d)) cols (kept <$> args) = Ok r ->
  (forall id, row_violation (tables_of db) d (Number id :: r) = None) ->
  (forall id, scan (Number id :: r) = Ok (mk id) /\ (0 < id -> kept_entry (mk id))) ->
  exists id db', Exec db (InsertInto table cols) args = (Ok 1, db') /\ up db' /\ log_ok (tables_of db') /\
    log_entries (tables_of db) !! id = None /\ log_entries (tables_of db') = <[id := mk id]> (log_entries (tables_of db)).
Proof.
  intros Hup Hs Hok Hr Hv Hscan.
  destruct (exec_answers db (InsertInto table cols) args (Ok 1) Hup Hs) as (db' & _ & E & Hup' & _).
  { intros f. eexists. by apply exec_log_insert. }
  destruct (Exec_ok _ _ _ _ _ E) as (f & Habove & Ex). pose proof Habove as [Hf _].
  destruct (Hscan f) as [Hx Hkept].
  assert (Hid : ID (mk f) = f) by (destruct (scan_log _ _ Hx) as (_ & _ & _ & H); cbn in H; congruence).
  destruct (log_insert _ _ _ _ _ _ _ _ Ex Habove Hok Hr Hx (Hkept Hf)) as (H1 & H2 & H3). rewrite Hid in H2, H3.
  by exists f, db'.
Qed.

Lemma size_entries (m : gmap Z row) : (forall k r, m !! k = Some r -> is_Some (entry_of r)) -> size (omap entry_of m) = size m.
Proof.
  intros H. rewrite <- !size_dom. f_equal. apply set_eq. intros k. rewrite !elem_of_dom, lookup_omap.
  destruct (m !! k) as [r|] eqn:E; cbn; [|by split; intros []]. split; [eauto|]. intros _. by eapply H.
Qed.
Lemma log_entries_filter (m : gmap Z row) (p : row -> bool) (b : bool) (q : Entry -> Prop) `{!forall x, Decision (q x)} :
  (forall k r, m !! k = Some r -> exists x, scan r = Ok x /\ (p r = b <-> q x)) ->
  omap entry_of (filter (fun '(_, r) => p r = b) m) = filter (fun '(_, x) => q x) (omap entry_of m).
Proof.
  intros Hm. apply map_eq. intros k. apply option_eq. intros x. rewrite map_lookup_filter_Some, !lookup_omap.
  destruct (m !! k) as [r|] eqn:E; cbn.
  - destruct (Hm _ _ E) as (y & Hy & Hq). unfold entry_of. rewrite Hy. destruct (decide (p r = b)) as [Hp|Hp].
    + rewrite (map_lookup_filter_Some_2 _ _ _ r) by done. cbn. rewrite Hy. split; [|by intros []]. intros [= <-]. split; [done|]. by apply Hq.
    + rewrite map_lookup_filter_None_2; [|right; intros r' Hr'; congruence]. cbn. split; [done|]. intros [[= <-] ?]. by destruct Hp; apply Hq.
  - rewrite map_lookup_filter_None_2 by (by left). cbn. split; [done|by intros []].
Qed.

(** Retention removes the entries before the cutoff and counts them. *)
Lemma log_prune T fresh cutoff n T' :
  exec porthook_schema fresh (DeleteFrom table [Compare (Column "time") Below 1]) [Instant cutoff] T = Ok (n, T') -> log_ok T ->
  log_ok T' /\ log_entries T' = filter (fun '(_, x) => micro cutoff <= Stamp x) (log_entries T) /\
  n = Z.of_nat (size (filter (fun '(_, x) => Stamp x < micro cutoff) (log_entries T))).
Proof.
  intros E [Hr Hk]. unfold exec in E. rewrite Hd, Hserial in E. apply ok_pair in E as [<- <-].
  set (hit := where_holds d (kept <$> [Instant cutoff]) [Compare (Column "time") Below 1]).
  assert (Hhit : forall k r, log_rows T table !! k = Some r -> exists x, scan r = Ok x /\ hit r = (Stamp x <? micro cutoff)).
  { intros k r Hkr. destruct (Hr _ _ Hkr) as (x & Hx & _). exists x. split; [done|]. destruct (scan_log _ _ Hx) as (_ & Ht & _).
    unfold hit, where_holds. cbn [forallb satisfied eval_expr]. rewrite Ht. cbn. by rewrite andb_true_r. }
  assert (He : log_entries (set_log T table (filter (fun '(_, r) => hit r = false) (log_rows T table)))
    = filter (fun '(_, x) => micro cutoff <= Stamp x) (log_entries T)).
  { unfold log_entries. rewrite log_rows_set. apply (log_entries_filter _ hit false (fun x => micro cutoff <= Stamp x)).
    intros k r Hkr. destruct (Hhit _ _ Hkr) as (x & Hx & ->). exists x. split; [done|]. rewrite Z.ltb_ge. done. }
  split_and!; [split|exact He|].
  - intros k r. rewrite log_rows_set, map_lookup_filter_Some. intros [H _]. by apply Hr.
  - intros k x. rewrite He, map_lookup_filter_Some. intros [H _]. by eapply Hk.
  - f_equal. unfold log_entries. rewrite <- (log_entries_filter _ hit true (fun x => Stamp x < micro cutoff)).
    + symmetry. apply size_entries. intros k r [Hkr _]%map_lookup_filter_Some. destruct (Hhit _ _ Hkr) as (x & Hx & _).
      unfold entry_of. rewrite Hx. eauto.
    + intros k r Hkr. destruct (Hhit _ _ Hkr) as (x & Hx & ->). exists x. split; [done|]. by rewrite Z.ltb_lt.
Qed.
End log_table.

(** * ILIKE and Contains *)
(** Text that means itself in a pattern: ASCII, no upper case, none of the
    three characters LIKE gives a meaning. *)
Definition plain_char (c : ascii) : bool :=
  lower_stable c && negb (Ascii.eqb c "%") && negb (Ascii.eqb c "_") && negb (Ascii.eqb c (chr 92)).
Definition plain_text (s : string) : bool := sforall plain_char s.

Lemma like_any t : like ["%"%char] t = true.
Proof. induction t as [|c t IH]; [done|]. cbn in IH |- *. rewrite IH. apply orb_true_r. Qed.
Lemma like_plain c p x t :
  plain_char c = true -> like (c :: p) (x :: t) = Ascii.eqb x c && like p t.
Proof.
  unfold plain_char. rewrite !andb_true_iff, !negb_true_iff. intros [[[_ H1] H2] H3]. cbn [like]. by rewrite H1, H2, H3.
Qed.
Lemma like_prefix p t :
  Forall (fun c => plain_char c = true) p -> like (p ++ ["%"%char]) t = String.prefix (of_bytes p) (of_bytes t).
Proof.
  intros H. revert t. induction H as [|c p Hc _ IH]; intros t; [rewrite like_any; by destruct (of_bytes t)|].
  destruct t as [|x t]; cbn [app].
  - unfold plain_char in Hc. rewrite !andb_true_iff, !negb_true_iff in Hc. destruct Hc as [[[_ H1] H2] H3].
    cbn [like]. by rewrite H1, H2, H3.
  - rewrite (like_plain c _ x t Hc), IH. cbn. rewrite Ascii.eqb_sym. destruct (ascii_dec c x) as [->|Hne].
    + by rewrite Ascii.eqb_refl.
    + by apply Ascii.eqb_neq in Hne as ->.
Qed.
Lemma plain_character c : plain_char c = true -> continuation c = false.
Proof.
  unfold plain_char, lower_stable, continuation, GoStrings.in_range. rewrite !andb_true_iff. intros [[[[H _] _] _] _].
  apply Z.ltb_lt in H. apply andb_false_iff. left. apply Z.leb_gt. lia.
Qed.
Lemma like_contains p t :
  p <> [] -> Forall (fun c => plain_char c = true) p -> like ("%"%char :: p ++ ["%"%char]) t = Contains (of_bytes t) (of_bytes p).
Proof.
  intros Hne H. induction t as [|x t IH].
  - cbn [Contains of_bytes]. rewrite orb_false_r. transitivity (like (p ++ ["%"%char]) [] || false); [done|].
    rewrite orb_false_r. by apply like_prefix.
  - transitivity ((at_character (x :: t) && like (p ++ ["%"%char]) (x :: t)) || like ("%"%char :: p ++ ["%"%char]) t); [done|].
    rewrite IH, like_prefix by done. cbn [of_bytes Contains]. f_equal.
    destruct H as [|c p Hc Hp]; [done|]. cbn [of_bytes String.prefix].
    destruct (ascii_dec c x) as [->|]; [|by rewrite andb_false_r]. cbn [at_character]. by rewrite (plain_character x).
Qed.

Section ilike.
Context {U : GoUnicode} {SV : SQLServer}.
(** The server folds case as Go does. *)
Context (lower_go : forall s, lower s = ToLower s).

Lemma plain_lower v : plain_text v = true -> ToLower v = v.
Proof.
  intros H. apply ToLower_stable. eapply sforall_impl; [|exact H]. intros c. unfold plain_char. rewrite !andb_true_iff. tauto.
Qed.
Lemma ilike_contains a v :
  plain_text v = true -> v <> ""%string ->
  compare_values ILike (Text a) (Text ("%" +:+ v +:+ "%")) = Contains (ToLower a) v.
Proof.
  intros Hp Hne. cbn [compare_values]. rewrite !lower_go.
  assert (ToLower ("%" +:+ v +:+ "%") = "%" +:+ v +:+ "%") as ->.
  { apply ToLower_stable. rewrite !sforall_app. rewrite (sforall_impl plain_char lower_stable v); [done| |done].
    intros c. unfold plain_char. rewrite !andb_true_iff. tauto. }
  rewrite !to_bytes_app. change (to_bytes "%") with ["%"%char]. cbn [app]. rewrite like_contains.
  - by rewrite !of_to_bytes.
  - destruct v; [done|discriminate].
  - by apply sforall_spec.
Qed.

(** A column that holds a text, or NULL for the empty one. *)
Definition reads (v : value) (s : string) : Prop := null_string v = Ok s.
Lemma reads_cases v s : reads v s <-> v = Text s \/ (v = NULL /\ s = ""%string).
Proof. unfold reads, null_string. destruct v; cbn; naive_solver. Qed.
Lemma ilike_reads v a p :
  reads v a -> plain_text p = true -> p <> ""%string ->
  compare_values ILike v (Text ("%" +:+ p +:+ "%")) = Contains (ToLower a) p.
Proof.
  intros [->|[-> ->]]%reads_cases Hp Hne; [by apply ilike_contains|]. cbn [compare_values]. by destruct p.
Qed.
Lemma lower_reads d r c a v :
  reads (column_of d c r) a -> v <> ""%string ->
  compare_values Equals (eval_expr d r (LowerOf c)) (Text v) = String.eqb (ToLower a) v.
Proof.
  intros [E|[E ->]]%reads_cases Hne; cbn [eval_expr]; rewrite E; cbn [compare_values]; [by rewrite lower_go|]. by destruct v.
Qed.

(** The early returns of a filter, as a conjunction. *)
Lemma guard (p q r : bool) : (if negb p && negb q then false else r) = (p || q) && r.
Proof. by destruct p, q. Qed.
Lemma guard_lt (p : bool) a b (r : bool) : (if negb p && (a <? b) then false else r) = (p || (b <=? a)) && r.
Proof. rewrite Z.ltb_antisym. apply guard. Qed.
Lemma filter_text v r a :
  reads v a -> plain_text r = true /\ TrimSpace r = r ->
  String.eqb (TrimSpace r) "" || compare_values ILike v (Text ("%" +:+ r +:+ "%")) =
  String.eqb r "" || Contains (ToLower a) r.
Proof.
  intros Hv [Hp ->]. destruct (String.eqb_spec r ""); [done|]. cbn [orb]. by apply ilike_reads.
Qed.
Lemma normal_blank (g : string -> string) v : g (TrimSpace v) = v -> g ""%string = ""%string -> String.eqb (TrimSpace v) "" = String.eqb v "".
Proof.
  intros E E0. destruct (String.eqb_spec v "") as [->|Hne]; [done|]. apply String.eqb_neq. intros H. rewrite H, E0 in E. done.
Qed.
End ilike.

(** * The request log *)
Module RequestLogs.
Import RequestLog.
Abbreviation columns := (pk_columns request_log_package).
Definition insert : statement := InsertInto "gateway_request_logs" (plain (tail columns)).
Definition prune : statement := DeleteFrom "gateway_request_logs" [Compare (Column "time") Below 1].
Definition select (conds : list condition) (limit : nat) : selection :=
  mkSelection (plain columns) "gateway_request_logs" conds [("time", DESC); ("id", DESC)]%string (Some limit).

Lemma request_log_texts :
  sql_text insert =
    "INSERT INTO gateway_request_logs (time, method, host, path, query_present, remote_ip, request_id, subdomain, custom_domain, tunnel_id, stream_id, status, outcome, request_bytes, response_bytes, duration_ms, error) VALUES ($1, $2, $3, $4, $5, $6, $7, $8, $9, $10, $11, $12, $13, $14, $15, $16, $17)"%string /\
  sql_text prune = "DELETE FROM gateway_request_logs WHERE time < $1"%string /\
  query_text (select (fst (add_cursor (mkCursor 5 7) (addLike (Column "host") "demo" no_clauses))) 4) =
    "SELECT id, time, method, host, path, query_present, remote_ip, request_id, subdomain, custom_domain, tunnel_id, stream_id, status, outcome, request_bytes, response_bytes, duration_ms, error FROM gateway_request_logs WHERE host ILIKE $1 AND (time < $2 OR (time = $2 AND id < $3)) ORDER BY time DESC, id DESC LIMIT $4"%string.
Proof. vm_compute. repeat split. Qed.

Definition database_required : error := Errorf "database is required".

Definition scanRequestLogEntry (r : list value) : result requestLogEntry :=
  match r with
  | [Number id; Instant time; Text method; Text host; Text path; Boolean query; Text ip; request; subdomain; custom; tunnel;
     stream; Number status; Text outcome; Number requestBytes; Number responseBytes; Number duration; err] =>
      try requestID <- null_string request;
      try subdomain <- null_string subdomain;
      try customDomain <- null_string custom;
      try tunnelID <- null_string tunnel;
      try streamID <- null_string stream;
      try error <- null_string err;
      Ok (mkEntry id time method host path query ip requestID subdomain customDomain tunnelID streamID status outcome
            requestBytes responseBytes duration error)
  | _ => Err scan_error
  end.

Section store.
Context {U : GoUnicode} {J : JSONCodec logCursor} {DB : Type} {Db : Database DB}.

Definition requestLogSQLFilters (opts : requestLogListOptions) : clauses :=
  let f := Filter_ opts in
  let b := no_clauses in
  let b := if String.eqb (TrimSpace (Subdomain f)) "" then b
           else add_clause (Compare (LowerOf "subdomain") Equals) (Text (ToLower (TrimSpace (Subdomain f)))) b in
  let b := if Status f =? 0 then b else add_clause (Compare (Column "status") Equals) (Number (Status f)) b in
  let b := addLike (Column "outcome") (Outcome f) b in
  let b := addLike (Column "request_id") (RequestID f) b in
  let b := addLike (Column "host") (Host f) b in
  let b := if String.eqb (TrimSpace (Method f)) "" then b
           else add_clause (Compare (Column "method") Equals) (Text (ToUpper (TrimSpace (Method f)))) b in
  let b := addLike (Column "path") (Path f) b in
  let b := addLike (Column "tunnel_id") (TunnelID f) b in
  let b := add_bound AtLeast (Since f) b in
  let b := add_bound AtMost (Until f) b in
  add_cursor (Cursor opts) b.

Definition NewPostgresRequestLogStore (db : option DB) : result DB := open_store db.
(** The store is nil or has a database. *)
Definition pg_Ping (s : option DB) : option error :=
  match s with
  | None => Some database_required
  | Some db => match PingContext db with Some e => Some (Wrap "ping database" e) | None => None end
  end.
Definition pg_Add (s : option DB) (now : Time) (entry : requestLogEntry) : option error * option DB :=
  match s with
  | None => (Some database_required, None)
  | Some db =>
      let time := if IsZero (entry_Time entry) then now else entry_Time entry in
      let '(err, db') := exec_error "insert gateway request log" (Exec db insert
        [Instant time; Text (entry_Method entry); Text (entry_Host entry); Text (entry_Path entry);
         Boolean (QueryPresent entry); Text (RemoteIP entry); nullableString (entry_RequestID entry);
         nullableString (entry_Subdomain entry); nullableString (CustomDomain entry); nullableString (entry_TunnelID entry);
         nullableString (entry_StreamID entry); Number (entry_Status entry); Text (entry_Outcome entry);
         Number (RequestBytes entry); Number (ResponseBytes entry); Number (DurationMS entry);
         nullableString (entry_Error entry)]) in
      (err, Some db')
  end.
Definition pg_List (s : option DB) (opts : requestLogListOptions) : result requestLogListPage :=
  match s with
  | None => Err database_required
  | Some db =>
      let limit := normalizedRequestLogLimit (Limit opts) in
      if limit <=? 0 then Ok no_page else
      let '(conds, args) := requestLogSQLFilters opts in
      let args := args ++ [Number (limit + 1)] in
      match QueryRows db (select conds (length args)) args with
      | Err e => Err (Wrap "list gateway request logs" e)
      | Ok rows => try entries <- scan_all scanRequestLogEntry rows; Ok (requestLogPage entries limit)
      end
  end.
Definition pg_PruneBefore (s : option DB) (cutoff : Time) : result Z * option DB :=
  match s with
  | None => (Err database_required, None)
  | Some db =>
      if IsZero cutoff then (Ok 0, s) else
      match Exec db prune [Instant cutoff] with
      | (Err e, db') => (Err (Wrap "prune gateway request logs" e), Some db')
      | (Ok count, db') => (Ok count, Some db')
      end
  end.
End store.

(** ** What the filters select *)
Lemma scan_entry_inv r x :
  scanRequestLogEntry r = Ok x -> exists request subdomain custom tunnel stream err,
    r = [Number (entry_ID x); Instant (entry_Time x); Text (entry_Method x); Text (entry_Host x); Text (entry_Path x);
         Boolean (QueryPresent x); Text (RemoteIP x); request; subdomain; custom; tunnel; stream; Number (entry_Status x);
         Text (entry_Outcome x); Number (RequestBytes x); Number (ResponseBytes x); Number (DurationMS x); err] /\
    reads request (entry_RequestID x) /\ reads subdomain (entry_Subdomain x) /\ reads custom (CustomDomain x) /\
    reads tunnel (entry_TunnelID x) /\ reads stream (entry_StreamID x) /\ reads err (entry_Error x).
Proof.
  unfold scanRequestLogEntry. repeat (case_match; try done). subst.
  intros (? & ? & (? & ? & (? & ? & (? & ? & (? & ? & (? & ? & [= <-])%rbind_ok)%rbind_ok)%rbind_ok)%rbind_ok)%rbind_ok)%rbind_ok.
  do 6 eexists. split; [reflexivity|]. by split_and!.
Qed.
Lemma scan_entry_log r x : scanRequestLogEntry r = Ok x ->
  (fun c => column_of request_log_table (fst c) r) <$> plain columns = r /\
  column_of request_log_table "time" r = Instant (Stamp x) /\ column_of request_log_table "id" r = Number (ID x) /\
  head r = Some (Number (ID x)).
Proof. by intros (? & ? & ? & ? & ? & ? & -> & _)%scan_entry_inv. Qed.

Section filters.
Context {U : GoUnicode} {SV : SQLServer}.
Context (lower_go : forall s, lower s = ToLower s).

(** A filter as the endpoint reads it from a request whose texts have no
    meaning in a pattern, with times the database can tell apart. *)
Definition plain_filter (f : requestLogFilter) : Prop :=
  ToLower (TrimSpace (Subdomain f)) = Subdomain f /\ ToUpper (TrimSpace (Method f)) = Method f /\
  Forall (fun v => plain_text v = true /\ TrimSpace v = v) [Outcome f; RequestID f; Host f; Path f; TunnelID f] /\
  micro (Since f) = Since f /\ micro (Until f) = Until f.

Lemma sql_filters_select opts r x :
  plain_filter (Filter_ opts) -> scanRequestLogEntry r = Ok x -> ToUpper (entry_Method x) = entry_Method x ->
  bound (requestLogSQLFilters opts) = true /\
  holds request_log_table (requestLogSQLFilters opts) r = past (Cursor opts) x && matches (Filter_ opts) x.
Proof.
  intros (Hsub & Hmeth & Htexts & Hsince & Huntil) Hx Hup. unfold requestLogSQLFilters.
  split; [auto 20 with clauses|]. destruct (scan_entry_log _ _ Hx) as (_ & Ht & Hi & _).
  rewrite (holds_cursor _ _ _ _ x) by (auto 20 with clauses || done). rewrite andb_comm. f_equal.
  rewrite !holds_bound by auto 20 with clauses.
  repeat (first [rewrite holds_like by (auto 20 with clauses) | rewrite holds_when by (auto 20 with clauses)]).
  rewrite !Forall_cons in Htexts. destruct Htexts as (Ho & Hr & Hh & Hp & Htu & _).
  rewrite Ht, Hsince, Huntil, (normal_blank _ _ Hsub), (normal_blank _ _ Hmeth), Hsub, Hmeth by done.
  destruct (scan_entry_inv _ _ Hx) as (v1 & v2 & v3 & v4 & v5 & v6 & Er & R1 & R2 & R3 & R4 & _).
  assert (Htext : forall a, reads (Text a) a) by (intros a; apply reads_cases; by left).
  unfold matches. rewrite !guard, !guard_lt, Hup, !andb_true_r.
  pose (e c := eval_expr request_log_table r (Column c)).
  assert (E1 : reads (e "outcome"%string) (entry_Outcome x) /\ reads (e "request_id"%string) (entry_RequestID x) /\ reads (e "host"%string) (entry_Host x) /\
    reads (e "path"%string) (entry_Path x) /\ reads (e "tunnel_id"%string) (entry_TunnelID x)) by (unfold e; rewrite Er; by split_and!).
  destruct E1 as (E1 & E2 & E3 & E4 & E5). unfold e in E1, E2, E3, E4, E5. clear e.
  rewrite (filter_text lower_go _ _ _ E1 Ho), (filter_text lower_go _ _ _ E2 Hr), (filter_text lower_go _ _ _ E3 Hh), (filter_text lower_go _ _ _ E4 Hp), (filter_text lower_go _ _ _ E5 Htu).
  assert (String.eqb (Subdomain (Filter_ opts)) "" || compare_values Equals (eval_expr request_log_table r (LowerOf "subdomain"))
      (kept (Text (Subdomain (Filter_ opts)))) =
    String.eqb (Subdomain (Filter_ opts)) "" || String.eqb (ToLower (entry_Subdomain x)) (Subdomain (Filter_ opts))) as ->.
  { destruct (String.eqb_spec (Subdomain (Filter_ opts)) ""); [done|]. apply (lower_reads lower_go); [|done]. by rewrite Er. }
  rewrite Er. rewrite !andb_assoc. reflexivity.
Qed.
End filters.

(** ** The store *)
Definition entry_time (now : Time) (e : requestLogEntry) : Time := if IsZero (entry_Time e) then now else entry_Time e.
Definition add_args (now : Time) (e : requestLogEntry) : list value :=
  [Instant (entry_time now e); Text (entry_Method e); Text (entry_Host e); Text (entry_Path e); Boolean (QueryPresent e);
   Text (RemoteIP e); nullableString (entry_RequestID e); nullableString (entry_Subdomain e); nullableString (CustomDomain e);
   nullableString (entry_TunnelID e); nullableString (entry_StreamID e); Number (entry_Status e); Text (entry_Outcome e);
   Number (RequestBytes e); Number (ResponseBytes e); Number (DurationMS e); nullableString (entry_Error e)].
(** What the table keeps of an entry: optional texts without the space around
    them, and the time in microseconds. *)
Definition kept_of (now : Time) (e : requestLogEntry) (id : Z) : requestLogEntry :=
  mkEntry id (micro (entry_time now e)) (entry_Method e) (entry_Host e) (entry_Path e) (QueryPresent e) (RemoteIP e)
    (TrimSpace (entry_RequestID e)) (TrimSpace (entry_Subdomain e)) (TrimSpace (CustomDomain e)) (TrimSpace (entry_TunnelID e))
    (TrimSpace (entry_StreamID e)) (entry_Status e) (entry_Outcome e) (RequestBytes e) (ResponseBytes e) (DurationMS e)
    (TrimSpace (entry_Error e)).

Lemma nullable_kept s : kept (nullableString s) = nullableString s.
Proof. unfold nullableString. by destruct (String.eqb _ _). Qed.
Lemma nullable_read s : null_string (nullableString s) = Ok (TrimSpace s).
Proof. unfold nullableString, null_string. by destruct (String.eqb_spec (TrimSpace s) "") as [->|]. Qed.

Section store_spec.
Context {U : GoUnicode} {J : JSONCodec logCursor} {JL : JSONLaws logCursor}.
Context {DB : Type} {SV : SQLServer} {Db : Database DB} {DL : DatabaseLaws porthook_schema DB}.
Abbreviation ok := (log_ok "gateway_request_logs" scanRequestLogEntry).
Abbreviation entries_in := (log_entries "gateway_request_logs" scanRequestLogEntry).
Abbreviation newest_in := (newest_first "gateway_request_logs" scanRequestLogEntry).

Lemma kept_args now e :
  kept <$> add_args now e = Instant (micro (entry_time now e)) :: tail (add_args now e).
Proof. unfold add_args. cbn [fmap list_fmap tail]. by rewrite !nullable_kept. Qed.
Lemma scan_kept now e id :
  scanRequestLogEntry (Number id :: Instant (micro (entry_time now e)) :: tail (add_args now e)) = Ok (kept_of now e id).
Proof. unfold add_args, scanRequestLogEntry. cbn [tail]. by rewrite !nullable_read. Qed.
Lemma entry_accepted T now e id :
  row_violation T request_log_table (Number id :: Instant (micro (entry_time now e)) :: tail (add_args now e)) = None.
Proof.
  unfold row_violation. match goal with |- context [List.find ?f ?l] => assert (List.find f l = None) as -> end; [|done].
  apply find_None. unfold add_args. repeat constructor; cbn -[nullableString]; by rewrite ?andb_false_r.
Qed.

Lemma pg_Add_entry db now e :
  up db -> ok (tables_of db) -> forallb storable (add_args now e) = true -> 1000 <= entry_time now e ->
  exists id db', pg_Add (Some db) now e = (None, Some db') /\ up db' /\ ok (tables_of db') /\
    entries_in (tables_of db) !! id = None /\
    entries_in (tables_of db') = <[id := kept_of now e id]> (entries_in (tables_of db)).
Proof.
  intros Hup Hok Hs Ht. unfold pg_Add.
  destruct (db_log_insert "gateway_request_logs" request_log_table scanRequestLogEntry (plain columns) eq_refl eq_refl scan_entry_log
    (plain (tail columns)) (add_args now e) db (Instant (micro (entry_time now e)) :: tail (add_args now e)) (kept_of now e))
    as (id & db' & E & H); [done..| | | |].
  - rewrite kept_args. reflexivity.
  - intros id. apply entry_accepted.
  - intros id. split; [apply scan_kept|]. intros Hid. unfold kept_entry. cbn. split; [done|]. split; [|apply micro_idem].
    unfold micro. pose proof (Z.div_le_lower_bound (entry_time now e) 1000 1). lia.
  - exists id, db'. unfold add_args in E. unfold insert. fold (entry_time now e). rewrite E. by split.
Qed.
Lemma pg_Prune_entries db cutoff :
  up db -> ok (tables_of db) -> storable (Instant cutoff) = true -> IsZero cutoff = false ->
  exists db', pg_PruneBefore (Some db) cutoff =
      (Ok (Z.of_nat (size (filter (fun '(_, x) => entry_Time x < micro cutoff) (entries_in (tables_of db))))), Some db') /\
    up db' /\ ok (tables_of db') /\
    entries_in (tables_of db') = filter (fun '(_, x) => micro cutoff <= entry_Time x) (entries_in (tables_of db)).
Proof.
  intros Hup Hok Hs Hz. unfold pg_PruneBefore, prune. rewrite Hz.
  destruct (Exec_up db (DeleteFrom "gateway_request_logs" [Compare (Column "time") Below 1]) [Instant cutoff] Hup) as (Hup' & f & _ & E);
    [cbn; by rewrite Hs|].
  destruct (Exec db _ _) as [[n|e] db'] eqn:EE; [|by unfold exec in E].
  destruct (Exec_ok _ _ _ _ _ EE) as (f' & _ & Ex).
  destruct (log_prune "gateway_request_logs" request_log_table scanRequestLogEntry (plain columns) eq_refl eq_refl scan_entry_log
    _ _ _ _ _ Ex Hok) as (H1 & H2 & H3). exists db'. by rewrite H3.
Qed.

Context (lower_go : forall s, lower s = ToLower s).

Definition with_cursor (opts : requestLogListOptions) (c : logCursor) : requestLogListOptions :=
  mkListOptions (Limit opts) (Filter_ opts) c.
(** The arguments of the query of a page. *)
Definition list_args (opts : requestLogListOptions) : list value :=
  snd (requestLogSQLFilters opts) ++ [Number (normalizedRequestLogLimit (Limit opts) + 1)].

(** A page is the page of the entries past the cursor that the memory log
    would match, newest first. *)
Lemma pg_List_page db opts :
  up db -> ok (tables_of db) -> plain_filter (Filter_ opts) ->
  (forall k x, entries_in (tables_of db) !! k = Some x -> ToUpper (entry_Method x) = entry_Method x) ->
  0 < normalizedRequestLogLimit (Limit opts) -> forallb storable (list_args opts) = true ->
  exists page, pg_List (Some db) opts = Ok page /\
    (RequestLogs page, NextCursor page) = page_of (normalizedRequestLogLimit (Limit opts))
      (List.filter (past (Cursor opts)) (List.filter (matches (Filter_ opts)) (newest_in (tables_of db)))).
Proof.
  intros Hup Hok Hf Hm Hl Hs. unfold pg_List. rewrite (proj2 (Z.leb_gt _ _) Hl).
  destruct (requestLogSQLFilters opts) as [conds args] eqn:Ef. unfold list_args in Hs. rewrite Ef in Hs. cbn [snd] in Hs.
  set (limit := normalizedRequestLogLimit (Limit opts)) in *. set (args' := args ++ [Number (limit + 1)]) in *.
  destruct (Query_up db (select conds (length args')) args' Hup Hs) as [out E]; [done|]. rewrite E. apply Query_ok in E.
  rewrite (answers_log "gateway_request_logs" request_log_table scanRequestLogEntry (plain columns) eq_refl eq_refl scan_entry_log
    (select conds (length args')) args' (tables_of db) out (limit + 1)
    (fun x => past (Cursor opts) x && matches (Filter_ opts) x)); try done.
  - cbn [rbind]. eexists. split; [reflexivity|]. change (requestLogPage ?l limit) with (requestLogPage l (normalizedRequestLogLimit (Limit opts))).
    rewrite requestLogPage_spec by done. fold limit. rewrite Z2Nat.inj_add by lia.
    rewrite (page_of_take limit) by done. rewrite filter_filter. by destruct (page_of limit _).
  - unfold args'. by rewrite last_snoc.
  - apply Hok.
  - intros k r x Hr Hx. destruct (sql_filters_select lower_go opts r x) as [Hb Hh]; [done|done| |].
    { apply (Hm k). apply log_entries_lookup. eauto. }
    rewrite Ef in Hb, Hh. rewrite <- Hh. exact (holds_more request_log_table (conds, args) [Number (limit + 1)] r Hb).
Qed.
(** A page for a cursor, as a client sees it. *)
Definition page_at (db : DB) (opts : requestLogListOptions) (c : logCursor) : option (list requestLogEntry * string) :=
  match pg_List (Some db) (with_cursor opts c) with Ok page => Some (RequestLogs page, NextCursor page) | Err _ => None end.

Hypothesis cursor_marshals : forall c : logCursor, is_ok (Marshal c) = true.

Lemma pg_paging db opts :
  up db -> ok (tables_of db) -> plain_filter (Filter_ opts) ->
  (forall k x, entries_in (tables_of db) !! k = Some x -> ToUpper (entry_Method x) = entry_Method x) ->
  0 < normalizedRequestLogLimit (Limit opts) ->
  (forall c, c = no_cursor \/ (exists k x, entries_in (tables_of db) !! k = Some x /\ c = cursor_of x) ->
     forallb storable (list_args (with_cursor opts c)) = true) ->
  fetch_all (S (size (entries_in (tables_of db)))) (fun _ => page_at db opts) no_cursor =
  Some (List.filter (matches (Filter_ opts)) (newest_in (tables_of db))).
Proof.
  intros Hup Hok Hf Hm Hl Hs. apply (log_paging _ _ _ (normalizedRequestLogLimit (Limit opts))); try done.
  intros n c Hc. unfold page_at. destruct (pg_List_page db (with_cursor opts c)) as (page & -> & E); try done; [by apply Hs|].
  by rewrite E.
Qed.

(** What requests logged one after the other leave on the database: the store
    after them, and their entries by id. *)
Fixpoint add_all (s : option DB) (now : Time) (es : list requestLogEntry) : option error * option DB :=
  match es with
  | [] => (None, s)
  | e :: rest => match pg_Add s now e with (Some err, s') => (Some err, s') | (None, s') => add_all s' now rest end
  end.
Lemma add_all_entries db now es :
  up db -> ok (tables_of db) -> Forall (fun e => forallb storable (add_args now e) = true /\ 1000 <= entry_time now e) es ->
  exists db', add_all (Some db) now es = (None, Some db') /\ up db' /\ ok (tables_of db') /\
    exists ids, Forall2 (fun id e => entries_in (tables_of db') !! id = Some (kept_of now e id)) ids es /\ NoDup ids /\
      (forall k x, entries_in (tables_of db) !! k = Some x -> entries_in (tables_of db') !! k = Some x /\ k ∉ ids) /\
      size (entries_in (tables_of db')) = (size (entries_in (tables_of db)) + length es)%nat.
Proof.
  intros Hup Hok HF. revert db Hup Hok. induction HF as [|e es [Hs Ht] _ IH]; intros db Hup Hok.
  { exists db. split_and!; [done..|]. exists []. split_and!; [constructor|constructor|set_solver|cbn; lia]. }
  destruct (pg_Add_entry db now e Hup Hok Hs Ht) as (id & db1 & E & Hup1 & Hok1 & Hnew & He).
  destruct (IH db1 Hup1 Hok1) as (db' & E' & Hup' & Hok' & ids & H2 & Hn & Hkeep & Hsize).
  exists db'. cbn [add_all]. rewrite E. split_and!; [done..|].
  destruct (Hkeep id (kept_of now e id)) as [Hid Hnot]; [by rewrite He, lookup_insert_eq|].
  exists (id :: ids). split_and!; [by constructor|by constructor| |].
  - intros k x Hx. destruct (Hkeep k x) as [H3 H4]; [|split; [done|]].
    + rewrite He, lookup_insert_ne; [done|]. intros ->. congruence.
    + rewrite elem_of_cons. intros [->|]; [congruence|done].
  - rewrite Hsize, He, map_size_insert_None by done. cbn. lia.
Qed.

(** With nothing in the log before, its entries are those of the requests. *)
Lemma added_entries (m : gmap Z requestLogEntry) ids now es :
  Forall2 (fun id e => m !! id = Some (kept_of now e id)) ids es -> NoDup ids -> size m = length es ->
  (map_to_list m).*2 ≡ₚ zip_with (kept_of now) es ids.
Proof.
  intros HF Hn Hsize. set (z := zip_with (fun id e => (id, kept_of now e id)) ids es).
  assert (Hz : z.*1 = ids /\ z.*2 = zip_with (kept_of now) es ids /\ length z = length es).
  { unfold z. clear -HF. induction HF as [|id e ids es _ _ (IH1 & IH2 & IH3)]; [done|]. cbn. by rewrite IH1, IH2, IH3. }
  destruct Hz as (Hz1 & <- & Hz3). apply Permutation_map. symmetry. apply submseteq_length_Permutation.
  - apply NoDup_submseteq; [apply (NoDup_fmap_1 fst); by rewrite Hz1|]. intros [k x] Hin. apply elem_of_map_to_list.
    unfold z in Hin. clear -HF Hin. induction HF as [|id e ids es Hid _ IH]; cbn in Hin; [by apply elem_of_nil in Hin|].
    apply elem_of_cons in Hin as [[= -> ->]|Hin]; [done|by apply IH].
  - rewrite length_map_to_list. lia.
Qed.

Lemma list_args_cursor opts c :
  storable (Instant (cursor_Time c)) = true -> storable (Number (cursor_ID c)) = true ->
  forallb storable (list_args (with_cursor opts no_cursor)) = true -> forallb storable (list_args (with_cursor opts c)) = true.
Proof.
  intros H1 H2. unfold list_args, requestLogSQLFilters, with_cursor. cbn [Filter_ Cursor Limit].
  match goal with |- context [add_cursor no_cursor ?b] => generalize b end. intros b. unfold add_cursor. cbn [cursor_ID no_cursor].
  change (0 <? 0) with false. cbn [andb]. destruct (_ && _); [|done]. cbn [snd]. rewrite !forallb_app. cbn [forallb].
  rewrite H1, H2. by rewrite !andb_true_r.
Qed.

End store_spec.

(** ** Patterns *)
(** A filter text with an underscore matches more on the database than in
    memory, where it stands for itself. *)
Lemma underscore_is_a_pattern :
  let entry := mkEntry 1 1000 "GET" "demo.example.com" "/axb" false "203.0.113.9" "" "demo" "" "" "" 200 "ok" 0 0 1 "" in
  let opts := mkListOptions 10 (mkFilter "" 0 "" "" "" "" "/a_b" "" 0 0) no_cursor in
  let U : GoUnicode := {| lower_nonascii s := s; upper_nonascii s := s |} in
  let row := Number 1 :: (kept <$> add_args 1000 entry) in
  scanRequestLogEntry row = Ok entry /\
  holds (SV := Server.C_server) request_log_table (requestLogSQLFilters opts) row = true /\
  matches (Filter_ opts) entry = false.
Proof. vm_compute. done. Qed.

(** ** Witness *)
Module Witness_pg_request_log.
#[local] Instance unicode : GoUnicode := {| lower_nonascii := smap lower_ascii; upper_nonascii s := s |}.
#[local] Instance codec : JSONCodec logCursor := countable_codec.
#[local] Instance server : SQLServer := Server.C_server.
#[local] Instance db : Database tables := Server.database porthook_schema.
#[local] Instance db_laws : DatabaseLaws porthook_schema tables := Server.database_laws porthook_schema.
Definition empty : tables := mkTables ∅ ∅.
Definition entry (path : string) (t : Time) : requestLogEntry :=
  mkEntry 0 t "GET" "demo.example.com" path false "203.0.113.9" " req " "Demo" "" "" "" 200 "ok" 0 0 1 "".
Definition requests : list requestLogEntry := [entry "/A" 5000; entry "/b" 7000; entry "/a/c" 5000; entry "/a" 0].
Definition options : requestLogListOptions := mkListOptions 1 (mkFilter "demo" 200 "" "" "" "GET" "/a" "" 0 0) no_cursor.

Lemma lowers s : lower s = ToLower s.
Proof. unfold ToLower. by destruct (is_ascii s). Qed.

End Witness_pg_request_log.
End RequestLogs.

(** * The audit log *)
Module AuditLogs.
Import AuditEvents.
Abbreviation columns := (pk_columns audit_package).
(** The fields are written as [jsonb] and read as text. *)
Definition cast_fields (cast : string) (cols : list string) : list cast_column :=
  (fun c => (c, if String.eqb c "fields_json" then cast else ""%string)) <$> cols.
Definition insert : statement := InsertInto "audit_events" (cast_fields "::jsonb" (tail columns)).
Definition prune : statement := DeleteFrom "audit_events" [Compare (Column "time") Below 1].
Definition select (conds : list condition) (limit : nat) : selection :=
  mkSelection (cast_fields "::text" columns) "audit_events" conds [("time", DESC); ("id", DESC)]%string (Some limit).

Lemma audit_texts :
  sql_text insert =
    "INSERT INTO audit_events (time, level, message, event, method, path, remote_ip, request_id, fields_json) VALUES ($1, $2, $3, $4, $5, $6, $7, $8, $9::jsonb)"%string /\
  sql_text prune = "DELETE FROM audit_events WHERE time < $1"%string /\
  query_text (select (fst (addLike (TextOf "fields_json") "tok" no_clauses)) 2) =
    "SELECT id, time, level, message, event, method, path, remote_ip, request_id, fields_json::text FROM audit_events WHERE fields_json::text ILIKE $1 ORDER BY time DESC, id DESC LIMIT $2"%string /\
  query_text (select [] 1) =
    "SELECT id, time, level, message, event, method, path, remote_ip, request_id, fields_json::text FROM audit_events ORDER BY time DESC, id DESC LIMIT $1"%string.
Proof. vm_compute. repeat split. Qed.

Section store.
Context {U : GoUnicode} {J : JSONCodec logCursor} {JF : JSONCodec (gmap string string)} {DB : Type} {Db : Database DB}.

Definition encodeAuditEventFields (fields : gmap string string) : result string :=
  match Marshal fields with Err e => Err (Wrap "encode audit event fields" e) | Ok data => Ok (of_bytes data) end.
Definition decodeAuditEventFields (raw : string) : result (gmap string string) :=
  if String.eqb (TrimSpace raw) "" then Ok ∅
  else match Unmarshal (to_bytes raw) with Err e => Err (Wrap "decode audit event fields" e) | Ok fields => Ok fields end.

Definition scanAuditEvent (r : list value) : result AuditEvent :=
  match r with
  | [Number id; Instant time; Text level; Text message; Text event; Text method; Text path; Text ip; request; Text fieldsJSON] =>
      try requestID <- null_string request;
      try fields <- decodeAuditEventFields fieldsJSON;
      Ok (mkEvent id time level message event method path ip requestID fields)
  | _ => Err scan_error
  end.

Definition auditEventSQLFilters (opts : AuditEventListOptions) : clauses :=
  let b := no_clauses in
  let b := addLike (Column "event") (o_Event opts) b in
  let b := if String.eqb (TrimSpace (o_Level opts)) "" then b
           else add_clause (Compare (Column "level") Equals) (Text (ToUpper (TrimSpace (o_Level opts)))) b in
  let b := addLike (Column "request_id") (o_RequestID opts) b in
  let b := addLike (Column "remote_ip") (o_RemoteIP opts) b in
  let b := addLike (TextOf "fields_json") (o_Field opts) b in
  let b := add_bound AtLeast (o_Since opts) b in
  let b := add_bound AtMost (o_Until opts) b in
  add_cursor (o_Cursor opts) b.

Definition NewPostgresAuditEventStore (db : option DB) : result DB := open_store db.
Definition pg_Ping (db : DB) : option error :=
  match PingContext db with Some e => Some (Wrap "ping database" e) | None => None end.
(** The request id is stored as it is unless it is blank. *)
Definition pg_Add (db : DB) (now : Time) (event : AuditEvent) : option error * DB :=
  match encodeAuditEventFields (ae_Fields event) with
  | Err e => (Some e, db)
  | Ok fieldsJSON =>
      let requestID := if String.eqb (TrimSpace (ae_RequestID event)) "" then NULL else Text (ae_RequestID event) in
      let time := if IsZero (ae_Time event) then now else ae_Time event in
      exec_error "insert audit event" (Exec db insert
        [Instant time; Text (ae_Level event); Text (ae_Message event); Text (ae_Event event); Text (ae_Method event);
         Text (ae_Path event); Text (ae_RemoteIP event); requestID; Text fieldsJSON])
  end.
Definition pg_List (db : DB) (opts : AuditEventListOptions) : result AuditEventListPage :=
  let limit := normalizedAuditEventLimit (o_Limit opts) in
  let '(conds, args) := auditEventSQLFilters opts in
  let args := args ++ [Number (limit + 1)] in
  match QueryRows db (select conds (length args)) args with
  | Err e => Err (Wrap "list audit events" e)
  | Ok rows => try events <- scan_all scanAuditEvent rows; Ok (auditEventPage events limit)
  end.
Definition pg_PruneBefore (s : option DB) (cutoff : Time) : result Z * option DB :=
  match s with
  | None => (Err (Errorf "database is required"), None)
  | Some db =>
      if IsZero cutoff then (Ok 0, s) else
      match Exec db prune [Instant cutoff] with
      | (Err e, db') => (Err (Wrap "prune audit events" e), Some db')
      | (Ok count, db') => (Ok count, Some db')
      end
  end.
End store.

(** ** What the filters select *)
Section filters.
Context {U : GoUnicode} {SV : SQLServer} {JF : JSONCodec (gmap string string)}.
Context (lower_go : forall s, lower s = ToLower s).

Lemma scan_event_inv r x :
  scanAuditEvent r = Ok x -> exists request json,
    r = [Number (ae_ID x); Instant (ae_Time x); Text (ae_Level x); Text (ae_Message x); Text (ae_Event x); Text (ae_Method x);
         Text (ae_Path x); Text (ae_RemoteIP x); request; Text json] /\
    reads request (ae_RequestID x) /\ decodeAuditEventFields json = Ok (ae_Fields x).
Proof.
  unfold scanAuditEvent. repeat (case_match; try done). subst.
  intros (? & ? & (? & ? & [= <-])%rbind_ok)%rbind_ok. do 2 eexists. split; [reflexivity|]. by split.
Qed.
Lemma scan_event_log r x : scanAuditEvent r = Ok x ->
  (fun c => column_of audit_table (fst c) r) <$> cast_fields "::text" columns = r /\
  column_of audit_table "time" r = Instant (Stamp x) /\ column_of audit_table "id" r = Number (ID x) /\
  head r = Some (Number (ID x)).
Proof. by intros (? & ? & -> & _)%scan_event_inv. Qed.

(** Options as the endpoint reads them, with plain texts in lower case and no
    filter on the fields, whose text differs between the stores. *)
Definition plain_options (opts : AuditEventListOptions) : Prop :=
  ToUpper (TrimSpace (o_Level opts)) = o_Level opts /\
  Forall (fun v => plain_text v = true /\ TrimSpace v = v) [o_Event opts; o_RequestID opts; o_RemoteIP opts] /\
  o_Field opts = ""%string /\ micro (o_Since opts) = o_Since opts /\ micro (o_Until opts) = o_Until opts.

Lemma lacks_plain v text (r : bool) :
  plain_text v = true -> (if lacks v text then false else r) = (String.eqb v "" || Contains (ToLower text) v) && r.
Proof. intros H. unfold lacks. rewrite (plain_lower v H). apply guard. Qed.

Lemma audit_filters_select order opts r x :
  plain_options opts -> scanAuditEvent r = Ok x -> ToUpper (ae_Level x) = ae_Level x ->
  bound (auditEventSQLFilters opts) = true /\
  holds audit_table (auditEventSQLFilters opts) r = past (o_Cursor opts) x && auditEventMatches order x (without_cursor opts).
Proof.
  intros (Hlev & Htexts & Hfield & Hsince & Huntil) Hx Hup. unfold auditEventSQLFilters.
  split; [auto 20 with clauses|]. destruct (scan_event_log _ _ Hx) as (_ & Ht & Hi & _).
  rewrite (holds_cursor _ _ _ _ x) by (auto 20 with clauses || done). rewrite andb_comm. f_equal.
  rewrite !holds_bound by auto 20 with clauses.
  repeat (first [rewrite holds_like by (auto 20 with clauses) | rewrite holds_when by (auto 20 with clauses)]).
  rewrite !Forall_cons in Htexts. destruct Htexts as (He & Hr & Hip & _).
  rewrite Ht, Hsince, Huntil, (normal_blank _ _ Hlev), Hlev, Hfield by done.
  destruct (scan_event_inv _ _ Hx) as (request & json & Er & R1 & _).
  unfold auditEventMatches, without_cursor. cbn [o_Cursor o_Since o_Until o_Event o_Level o_RequestID o_RemoteIP o_Field].
  change (not_past no_cursor x) with false. cbn iota. rewrite !guard_lt, !lacks_plain, Hup, guard by (apply He || apply Hr || apply Hip).
  assert (E1 : reads (eval_expr audit_table r (Column "event")) (ae_Event x) /\
    reads (eval_expr audit_table r (Column "request_id")) (ae_RequestID x) /\
    reads (eval_expr audit_table r (Column "remote_ip")) (ae_RemoteIP x)) by (rewrite Er; by split_and!).
  destruct E1 as (E1 & E2 & E3).
  rewrite (filter_text lower_go _ _ _ E1 He), (filter_text lower_go _ _ _ E2 Hr), (filter_text lower_go _ _ _ E3 Hip), Hfield.
  rewrite Er. change (lacks "" (auditEventFieldsText order (ae_Fields x))) with false.
  cbn [eval_expr column_of]. change (holds audit_table no_clauses _) with true. change (String.eqb (TrimSpace "") "") with true.
  change (compare_values Equals _ (kept (Text (o_Level opts)))) with (String.eqb (ae_Level x) (o_Level opts)).
  cbn [compare_values Stamp AuditEvent_log orb andb]. btauto.
Qed.
End filters.

(** ** The store *)
Definition event_time (now : Time) (e : AuditEvent) : Time := if IsZero (ae_Time e) then now else ae_Time e.
Definition event_request (e : AuditEvent) : value :=
  if String.eqb (TrimSpace (ae_RequestID e)) "" then NULL else Text (ae_RequestID e).
Definition event_args (now : Time) (json : string) (e : AuditEvent) : list value :=
  [Instant (event_time now e); Text (ae_Level e); Text (ae_Message e); Text (ae_Event e); Text (ae_Method e); Text (ae_Path e);
   Text (ae_RemoteIP e); event_request e; Text json].
(** What the table keeps of an event. *)
Definition kept_event (now : Time) (e : AuditEvent) (id : Z) : AuditEvent :=
  mkEvent id (micro (event_time now e)) (ae_Level e) (ae_Message e) (ae_Event e) (ae_Method e) (ae_Path e) (ae_RemoteIP e)
    (if String.eqb (TrimSpace (ae_RequestID e)) "" then ""%string else ae_RequestID e) (ae_Fields e).

Section store_spec.
Context {U : GoUnicode} {J : JSONCodec logCursor} {JL : JSONLaws logCursor} {JF : JSONCodec (gmap string string)}.
Context {DB : Type} {SV : SQLServer} {Db : Database DB} {DL : DatabaseLaws porthook_schema DB}.
Abbreviation ok := (log_ok "audit_events" scanAuditEvent).
Abbreviation events_in := (log_entries "audit_events" scanAuditEvent).
Abbreviation newest_in := (newest_first "audit_events" scanAuditEvent).

(** An event whose fields the server reads back as they were written. *)
Definition writable (e : AuditEvent) (raw json : string) : Prop :=
  encodeAuditEventFields (ae_Fields e) = Ok raw /\ jsonb raw = Some json /\ decodeAuditEventFields json = Ok (ae_Fields e).

Lemma audit_Add_event db now e raw json :
  up db -> ok (tables_of db) -> writable e raw json -> forallb storable (event_args now raw e) = true -> 1000 <= event_time now e ->
  exists id db', pg_Add db now e = (None, db') /\ up db' /\ ok (tables_of db') /\
    events_in (tables_of db) !! id = None /\
    events_in (tables_of db') = <[id := kept_event now e id]> (events_in (tables_of db)).
Proof.
  intros Hup Hok (Hraw & Hjson & Hdec) Hs Ht. unfold pg_Add. rewrite Hraw. cbv zeta.
  fold (event_request e) (event_time now e). fold (event_args now raw e).
  destruct (db_log_insert "audit_events" audit_table scanAuditEvent (cast_fields "::text" columns) eq_refl eq_refl scan_event_log
    (cast_fields "::jsonb" (tail columns)) (event_args now raw e) db
    (Instant (micro (event_time now e)) :: tail (event_args now json e)) (kept_event now e)) as (id & db' & E & H); [done..| | | |].
  - assert (kept (event_request e) = event_request e) as Hreq by (unfold event_request; by destruct (String.eqb _ _)).
    unfold event_args. cbn -[micro event_request]. rewrite Hreq, Hjson. reflexivity.
  - intros id. unfold row_violation. match goal with |- context [List.find ?f ?l] => assert (List.find f l = None) as -> end; [|done].
    apply find_None. unfold event_args. repeat constructor; cbn -[event_request]; by rewrite ?andb_false_r.
  - intros id. split.
    + unfold event_args, scanAuditEvent. cbn [tail]. rewrite Hdec. unfold event_request, kept_event. by destruct (String.eqb _ _).
    + intros Hid. unfold kept_entry. cbn. split; [done|]. split; [|apply micro_idem].
      unfold micro. pose proof (Z.div_le_lower_bound (event_time now e) 1000 1). lia.
  - exists id, db'. unfold insert. rewrite E. by split.
Qed.

Lemma audit_Prune_events db cutoff :
  up db -> ok (tables_of db) -> storable (Instant cutoff) = true -> IsZero cutoff = false ->
  exists db', pg_PruneBefore (Some db) cutoff =
      (Ok (Z.of_nat (size (filter (fun '(_, x) => ae_Time x < micro cutoff) (events_in (tables_of db))))), Some db') /\
    up db' /\ ok (tables_of db') /\
    events_in (tables_of db') = filter (fun '(_, x) => micro cutoff <= ae_Time x) (events_in (tables_of db)).
Proof.
  intros Hup Hok Hs Hz. unfold pg_PruneBefore, prune. rewrite Hz.
  destruct (Exec_up db (DeleteFrom "audit_events" [Compare (Column "time") Below 1]) [Instant cutoff] Hup) as (Hup' & f & _ & E);
    [cbn; by rewrite Hs|].
  destruct (Exec db _ _) as [[n|e] db'] eqn:EE; [|by unfold exec in E].
  destruct (Exec_ok _ _ _ _ _ EE) as (f' & _ & Ex).
  destruct (log_prune "audit_events" audit_table scanAuditEvent (cast_fields "::text" columns) eq_refl eq_refl scan_event_log
    _ _ _ _ _ Ex Hok) as (H1 & H2 & H3). exists db'. by rewrite H3.
Qed.

Context (lower_go : forall s, lower s = ToLower s).
Definition event_list_args (opts : AuditEventListOptions) : list value :=
  snd (auditEventSQLFilters opts) ++ [Number (normalizedAuditEventLimit (o_Limit opts) + 1)].

Lemma audit_List_page order db opts :
  up db -> ok (tables_of db) -> plain_options opts ->
  (forall k x, events_in (tables_of db) !! k = Some x -> ToUpper (ae_Level x) = ae_Level x) ->
  forallb storable (event_list_args opts) = true ->
  exists page, pg_List db opts = Ok page /\
    (pg_Events page, pg_NextCursor page) = page_of (normalizedAuditEventLimit (o_Limit opts))
      (List.filter (past (o_Cursor opts))
         (List.filter (fun e => auditEventMatches order e (without_cursor opts)) (newest_in (tables_of db)))).
Proof.
  intros Hup Hok Hf Hm Hs. unfold pg_List. pose proof (normalizedAuditEventLimit_bounds (o_Limit opts)) as [Hl _].
  destruct (auditEventSQLFilters opts) as [conds args] eqn:Ef. unfold event_list_args in Hs. rewrite Ef in Hs. cbn [snd] in Hs.
  set (limit := normalizedAuditEventLimit (o_Limit opts)) in *. set (args' := args ++ [Number (limit + 1)]) in *.
  destruct (Query_up db (select conds (length args')) args' Hup Hs) as [out E]; [done|]. rewrite E. apply Query_ok in E.
  rewrite (answers_log "audit_events" audit_table scanAuditEvent (cast_fields "::text" columns) eq_refl eq_refl scan_event_log
    (select conds (length args')) args' (tables_of db) out (limit + 1)
    (fun x => past (o_Cursor opts) x && auditEventMatches order x (without_cursor opts))); try done.
  - cbn [rbind]. eexists. split; [reflexivity|].
    change (auditEventPage ?l limit) with (auditEventPage l (normalizedAuditEventLimit (o_Limit opts))).
    rewrite auditEventPage_spec. fold limit. rewrite Z2Nat.inj_add by lia.
    rewrite (page_of_take limit) by done. rewrite filter_filter. by destruct (page_of limit _).
  - unfold args'. by rewrite last_snoc.
  - apply Hok.
  - intros k r x Hr Hx. destruct (audit_filters_select lower_go order opts r x) as [Hb Hh]; [done|done| |].
    { apply (Hm k). apply log_entries_lookup. eauto. }
    rewrite Ef in Hb, Hh. rewrite <- Hh. exact (holds_more audit_table (conds, args) [Number (limit + 1)] r Hb).
Qed.

(** An operator who follows the cursors of an audit log on Postgres gets every
    event the filters of the memory log match, each once and newest first. *)
Lemma audit_pg_paging order db opts :
  (forall c : logCursor, is_ok (Marshal c) = true) ->
  up db -> ok (tables_of db) -> plain_options opts ->
  (forall k x, events_in (tables_of db) !! k = Some x -> ToUpper (ae_Level x) = ae_Level x) ->
  (forall c, c = no_cursor \/ (exists k x, events_in (tables_of db) !! k = Some x /\ c = cursor_of x) ->
     forallb storable (event_list_args (with_cursor opts c)) = true) ->
  fetch_all (S (size (events_in (tables_of db))))
    (fun _ c => match pg_List db (with_cursor opts c) with
                | Ok page => Some (pg_Events page, pg_NextCursor page)
                | Err _ => None
                end) no_cursor =
  Some (List.filter (fun e => auditEventMatches order e (without_cursor opts)) (newest_in (tables_of db))).
Proof.
  intros Hc Hup Hok Hf Hm Hs. pose proof (normalizedAuditEventLimit_bounds (o_Limit opts)) as [Hl _].
  apply (log_paging _ _ _ (normalizedAuditEventLimit (o_Limit opts))); try done.
  intros n c Hcur. destruct (audit_List_page order db (with_cursor opts c)) as (page & -> & E); try done; [by apply Hs|].
  by rewrite E.
Qed.
End store_spec.
End AuditLogs.

(** * Types *)
(** The server refuses a query whose placeholders have no argument or whose
    arguments are not of the types of the columns. *)
Inductive sql_type : Type := TText | TInstant | TNumber | TBoolean | TJsonb.
#[export] Instance sql_type_eq_dec : EqDecision sql_type.
Proof. solve_decision. Defined.
Definition request_log_types : list (string * sql_type) :=
  [("id", TNumber); ("time", TInstant); ("method", TText); ("host", TText); ("path", TText); ("query_present", TBoolean);
   ("remote_ip", TText); ("request_id", TText); ("subdomain", TText); ("custom_domain", TText); ("tunnel_id", TText);
   ("stream_id", TText); ("status", TNumber); ("outcome", TText); ("request_bytes", TNumber); ("response_bytes", TNumber);
   ("duration_ms", TNumber); ("error", TText)]%string.
Definition audit_types : list (string * sql_type) :=
  [("id", TNumber); ("time", TInstant); ("level", TText); ("message", TText); ("event", TText); ("method", TText);
   ("path", TText); ("remote_ip", TText); ("request_id", TText); ("fields_json", TJsonb)]%string.

Definition column_type (types : list (string * sql_type)) (c : string) : option sql_type :=
  snd <$> List.find (fun p => String.eqb (fst p) c) types.
Definition expr_type (types : list (string * sql_type)) (e : expr) : option sql_type :=
  match e with
  | Column c => column_type types c
  | LowerOf c => t ← column_type types c; if bool_decide (t = TText) then Some TText else None
  | TextOf c => _ ← column_type types c; Some TText
  end.
Definition comparable (t : sql_type) (op : comparison) (v : value) : bool :=
  match t, v with
  | TText, Text _ => true
  | TInstant, Instant _ | TNumber, Number _ => match op with ILike => false | _ => true end
  | _, _ => false
  end.
Fixpoint typed (types : list (string * sql_type)) (args : list value) (c : condition) : bool :=
  match c with
  | Compare e op n =>
      (1 <=? n)%nat && match expr_type types e, args !! pred n with Some t, Some v => comparable t op v | _, _ => false end
  | IsNull c => bool_decide (is_Some (column_type types c))
  | Both a b | Either a b => typed types args a && typed types args b
  end.
Definition query_typed (types : list (string * sql_type)) (q : selection) (args : list value) : bool :=
  forallb (typed types args) (sel_where q) &&
  forallb (fun c => bool_decide (is_Some (column_type types (fst c)))) (sel_columns q) &&
  forallb (fun c => bool_decide (is_Some (column_type types (fst c)))) (sel_order q) &&
  match sel_limit q with
  | None => true
  | Some n => (1 <=? n)%nat && match args !! pred n with Some (Number _) => true | _ => false end
  end.

Section types.
Context (types : list (string * sql_type)).
Definition clauses_typed (b : clauses) : bool := forallb (typed types (snd b)) (fst b).

Lemma typed_app args more c : typed types args c = true -> typed types (args ++ more) c = true.
Proof.
  induction c as [e op n|c|a IHa b IHb|a IHa b IHb]; cbn [typed]; [|done|rewrite !andb_true_iff; tauto..].
  rewrite !andb_true_iff. intros [H1 H2]. split; [done|]. destruct (expr_type types e); [|done].
  destruct (args !! pred n) eqn:E; [|done]. by rewrite (lookup_app_l_Some _ _ _ _ E).
Qed.
Lemma clauses_typed_more b more : clauses_typed b = true -> forallb (typed types (snd b ++ more)) (fst b) = true.
Proof.
  unfold clauses_typed. rewrite !forallb_forall. intros H c Hc. by apply typed_app, H.
Qed.
Lemma typed_when (skip : bool) e op v b t :
  clauses_typed b = true -> expr_type types e = Some t -> comparable t op v = true ->
  clauses_typed (if skip then b else add_clause (Compare e op) v b) = true.
Proof.
  intros Hb He Hv. destruct skip; [done|]. unfold clauses_typed at 1, add_clause. cbn [fst snd].
  rewrite forallb_app, (clauses_typed_more b [v] Hb). cbn [forallb typed]. rewrite length_app, Nat.add_1_r, He. cbn [pred Nat.leb].
  rewrite lookup_app_r, Nat.sub_diag by lia. cbn. by rewrite Hv.
Qed.
Lemma typed_like e v b : clauses_typed b = true -> expr_type types e = Some TText -> clauses_typed (addLike e v b) = true.
Proof. intros Hb He. by apply (typed_when _ _ _ _ _ TText). Qed.
Lemma typed_bound op t b :
  op <> ILike -> clauses_typed b = true -> column_type types "time" = Some TInstant -> clauses_typed (add_bound op t b) = true.
Proof. intros Hop Hb He. apply (typed_when _ _ _ _ _ TInstant); [done..|]. by destruct op. Qed.
Lemma typed_cursor c b :
  clauses_typed b = true -> column_type types "time" = Some TInstant -> column_type types "id" = Some TNumber ->
  clauses_typed (add_cursor c b) = true.
Proof.
  intros Hb Ht Hi. unfold add_cursor. destruct (_ && _); [|done]. unfold clauses_typed at 1. cbn [fst snd].
  rewrite forallb_app, (clauses_typed_more b _ Hb). rewrite length_app. cbn [length]. rewrite Nat.add_comm. cbn [Nat.add].
  cbn [forallb typed expr_type pred Nat.leb andb]. rewrite Ht, Hi.
  rewrite !lookup_app_r, Nat.sub_diag, Nat.sub_succ_l, Nat.sub_diag by lia. done.
Qed.
Lemma query_typed_log conds args limit cols table order :
  clauses_typed (conds, args) = true ->
  forallb (fun c => bool_decide (is_Some (column_type types (fst c)))) cols = true ->
  forallb (fun c => bool_decide (is_Some (column_type types (fst c)))) order = true ->
  query_typed types (mkSelection cols table conds order (Some (length (args ++ [Number limit])))) (args ++ [Number limit]) = true.
Proof.
  intros Hc Hcols Horder. unfold query_typed. cbn [sel_where sel_columns sel_order sel_limit].
  rewrite (clauses_typed_more (conds, args) _ Hc), Hcols, Horder. cbn [andb]. rewrite length_app, Nat.add_1_r. cbn [pred Nat.leb].
  by rewrite lookup_app_r, Nat.sub_diag by lia.
Qed.
End types.
Ltac typed_clauses :=
  cbv zeta;
  repeat first [apply typed_cursor; [|reflexivity|reflexivity] | apply typed_bound; [discriminate| |reflexivity]
               | apply typed_like; [|reflexivity] | eapply typed_when; [|reflexivity|reflexivity]];
  reflexivity.

(** C40: every query of a log is one the server accepts.  Whatever filters and
    cursor a listing is asked for, each placeholder of its conditions and of
    its limit has an argument of the type of the column it is compared with,
    and every column it names is one of the table. *)
Theorem log_queries_typed {U : GoUnicode} opts aopts :
  (let '(conds, args) := RequestLogs.requestLogSQLFilters opts in
   let args := args ++ [Number (RequestLog.normalizedRequestLogLimit (RequestLog.Limit opts) + 1)] in
   query_typed request_log_types (RequestLogs.select conds (length args)) args = true) /\
  (let '(conds, args) := AuditLogs.auditEventSQLFilters aopts in
   let args := args ++ [Number (AuditEvents.normalizedAuditEventLimit (AuditEvents.o_Limit aopts) + 1)] in
   query_typed audit_types (AuditLogs.select conds (length args)) args = true).
Proof.
  assert (Hr : clauses_typed request_log_types (RequestLogs.requestLogSQLFilters opts) = true)
    by (unfold RequestLogs.requestLogSQLFilters; typed_clauses).
  assert (Ha : clauses_typed audit_types (AuditLogs.auditEventSQLFilters aopts) = true)
    by (unfold AuditLogs.auditEventSQLFilters; typed_clauses).
  split.
  - destruct (RequestLogs.requestLogSQLFilters opts) as [conds args]. by apply query_typed_log.
  - destruct (AuditLogs.auditEventSQLFilters aopts) as [conds args]. by apply query_typed_log.
Qed.
