(* ===== verification/UrlQuery.v ===== *)
(** net/url's [Values]: a query is written by [Encode] and read back by
    [ParseQuery], with [QueryEscape] and [QueryUnescape] byte by byte. *)
From S2P Require Import Prelude GoStrings ServeMux.
From Stdlib Require Import ZArith Lia List String Ascii Bool.
From stdpp Require Import base list strings sorting.

Open Scope Z_scope.

(** * Escaping *)
Definition query_safe (c : ascii) : bool :=
  is_upper_ascii c || is_lower_ascii c || is_digit c || bytes_mem c (to_bytes "-_.~").
Definition query_escape_byte (c : ascii) : bytes :=
  if query_safe c then [c]
  else if Ascii.eqb c " " then ["+"%char]
  else ["%"%char; upper_hex (byte c / 16); upper_hex (byte c mod 16)].
Definition QueryEscape (s : string) : string := of_bytes (to_bytes s ≫= query_escape_byte).

Fixpoint query_unescape_bytes (l : bytes) : option bytes :=
  match l with
  | [] => Some []
  | "%"%char :: l =>
      match l with
      | a :: b :: rest =>
          x ← unhex a; y ← unhex b; out ← query_unescape_bytes rest; Some (chr (16 * x + y) :: out)
      | _ => None
      end
  | "+"%char :: rest => out ← query_unescape_bytes rest; Some (" "%char :: out)
  | c :: rest => out ← query_unescape_bytes rest; Some (c :: out)
  end.
Definition QueryUnescape (s : string) : option string := of_bytes <$> query_unescape_bytes (to_bytes s).

(** * Values with one value per key *)
Definition Values : Type := list (string * string).
Definition Values_Set (q : Values) (key value : string) : Values :=
  List.filter (fun kv => negb (String.eqb (fst kv) key)) q ++ [(key, value)].
Definition Values_Get (q : Values) (key : string) : string :=
  default "" (snd <$> List.find (fun kv => String.eqb (fst kv) key) q).

Definition key_leb (a b : string * string) : Prop := String.leb (fst a) (fst b) = true.
#[export] Instance key_leb_dec : RelDecision key_leb.
Proof. intros a b. unfold key_leb. apply _. Defined.
Definition pair_text (kv : string * string) : string := QueryEscape (fst kv) +:+ "=" +:+ QueryEscape (snd kv).
Definition Encode (q : Values) : string := GoStrings.Join (map pair_text (merge_sort key_leb q)) "&".

(** [url.ParseQuery]; what does not parse is left out, as [URL.Query] does. *)
Definition parse_pair (text : string) : list (string * string) :=
  if String.eqb text "" || Contains text ";" then []
  else
    let '(k, v) := match cut_bytes "="%char (to_bytes text) with
                   | Some (k, v) => (of_bytes k, of_bytes v)
                   | None => (text, ""%string)
                   end in
    match QueryUnescape k, QueryUnescape v with
    | Some k, Some v => [(k, v)]
    | _, _ => []
    end.
Definition ParseQuery (raw : string) : Values := Split raw "&"%char ≫= parse_pair.

(** * Properties *)
Lemma query_unescape_escape_byte c l :
  query_unescape_bytes (query_escape_byte c ++ l) = (c ::.) <$> query_unescape_bytes l.
Proof.
  unfold query_escape_byte. destruct (query_safe c) eqn:Hs.
  - cbn [app query_unescape_bytes]. destruct (ascii_dec c "%"%char) as [->|]; [by vm_compute in Hs|].
    destruct (ascii_dec c "+"%char) as [->|]; [by vm_compute in Hs|].
    destruct (query_unescape_bytes l); by destruct c as [[] [] [] [] [] [] [] []].
  - destruct (Ascii.eqb_spec c " ") as [->|_]; [cbn; by destruct (query_unescape_bytes l)|].
    pose proof (byte_range c) as Hb. cbn [app query_unescape_bytes].
    rewrite !unhex_upper by (try apply Z.mod_pos_bound; try split; try apply Z.div_pos; try apply Z.div_lt_upper_bound; lia).
    cbn [mbind option_bind]. rewrite <- Z.div_mod by lia. rewrite chr_byte.
    by destruct (query_unescape_bytes l).
Qed.

Lemma QueryUnescape_QueryEscape s : QueryUnescape (QueryEscape s) = Some s.
Proof.
  unfold QueryUnescape, QueryEscape. rewrite to_of_bytes.
  assert (Hl : forall l, query_unescape_bytes (l ≫= query_escape_byte) = Some l).
  { induction l as [|c l IH]; [done|]. cbn. by rewrite query_unescape_escape_byte, IH. }
  rewrite Hl. cbn. by rewrite of_to_bytes.
Qed.

(** What escaped text is made of: no separator of a query. *)
Definition query_plain (c : ascii) : bool := query_safe c || Ascii.eqb c "+" || Ascii.eqb c "%".
Lemma upper_hex_safe z : 0 <= z < 16 -> query_safe (upper_hex z) = true.
Proof.
  intros Hz. assert (Hall : forallb (fun n => query_safe (upper_hex (Z.of_nat n))) (seq 0 16) = true) by by vm_compute.
  rewrite forallb_forall in Hall. specialize (Hall (Z.to_nat z)). rewrite in_seq, Z2Nat.id in Hall by lia. apply Hall. lia.
Qed.
Lemma QueryEscape_plain s : Forall (fun c => query_plain c = true) (to_bytes (QueryEscape s)).
Proof.
  unfold QueryEscape. rewrite to_of_bytes. induction (to_bytes s) as [|c l IH]; [constructor|].
  cbn. apply Forall_app. split; [|exact IH]. unfold query_escape_byte, query_plain.
  pose proof (byte_range c) as Hb.
  destruct (query_safe c) eqn:Hs; [by repeat constructor; rewrite Hs|].
  destruct (Ascii.eqb c " "); [by repeat constructor|].
  repeat constructor; rewrite ?upper_hex_safe; try done;
    try (split; [apply Z.div_pos|apply Z.div_lt_upper_bound]; lia); apply Z.mod_pos_bound; lia.
Qed.


Lemma parse_pair_text k v : k <> ""%string -> parse_pair (pair_text (k, v)) = [(k, v)].
Proof.
  intros Hk. unfold parse_pair, pair_text. cbn [fst snd].
  pose proof (QueryEscape_plain k) as Hpk. pose proof (QueryEscape_plain v) as Hpv.
  assert (Hne : (QueryEscape k +:+ "=" +:+ QueryEscape v =? "")%string = false).
  { apply String.eqb_neq. intros E%(f_equal len). rewrite !len_app in E. pose proof (len_nonneg (QueryEscape k)).
    pose proof (len_nonneg (QueryEscape v)). change (len "=") with 1 in E. change (len "") with 0 in E. lia. }
  assert (Hsemi : Contains (QueryEscape k +:+ "=" +:+ QueryEscape v) ";" = false).
  { apply Contains_char_false. rewrite !to_bytes_app. rewrite Forall_forall in Hpk, Hpv.
    intros [H|[H|H]%in_app_or]%in_app_or; [|by destruct H as [H|[]]|];
      [apply list_elem_of_In, Hpk in H|apply list_elem_of_In, Hpv in H]; by vm_compute in H. }
  rewrite Hne, Hsemi. cbn [orb]. rewrite !to_bytes_app. cbn [list_ascii_of_string app].
  rewrite cut_bytes_app.
  - rewrite !of_to_bytes, !QueryUnescape_QueryEscape. done.
  - rewrite Forall_forall in Hpk. intros H%list_elem_of_In%Hpk. by vm_compute in H.
Qed.

Lemma pair_text_no_amp kv : ~ In "&"%char (to_bytes (pair_text kv)).
Proof.
  unfold pair_text. rewrite !to_bytes_app.
  pose proof (QueryEscape_plain (fst kv)) as Hpk. pose proof (QueryEscape_plain (snd kv)) as Hpv.
  rewrite Forall_forall in Hpk, Hpv.
  intros [H|[H|H]%in_app_or]%in_app_or; [|by destruct H as [H|[]]|];
    [apply list_elem_of_In, Hpk in H|apply list_elem_of_In, Hpv in H]; by vm_compute in H.
Qed.

Lemma ParseQuery_Encode q :
  q <> [] -> Forall (fun kv => fst kv <> ""%string) q -> ParseQuery (Encode q) = merge_sort key_leb q.
Proof.
  intros Hne Hk. pose proof (merge_sort_Permutation key_leb q) as Hp.
  assert (Hk' : Forall (fun kv => fst kv <> ""%string) (merge_sort key_leb q)) by by rewrite Hp.
  assert (Hne' : merge_sort key_leb q <> []) by (intros E; rewrite E in Hp; by apply Permutation_nil_l in Hp).
  unfold ParseQuery, Encode. revert Hk' Hne'. generalize (merge_sort key_leb q) as l. clear. intros l Hk Hne.
  rewrite Split_Join.
  - clear Hne. induction Hk as [|[k v] l H _ IH]; [done|]. cbn [map]. rewrite bind_cons, parse_pair_text by done. cbn. by f_equal.
  - by destruct l.
  - apply Forall_map, Forall_true. intros kv. apply pair_text_no_amp.
Qed.

Lemma find_key_perm (l k : Values) key :
  l ≡ₚ k -> NoDup (fst <$> l) ->
  List.find (fun kv => String.eqb (fst kv) key) l = List.find (fun kv => String.eqb (fst kv) key) k.
Proof.
  induction 1 as [|x l k Hp IH|x y l|l1 l2 l3 H1 IH1 H2 IH2]; intros Hn.
  - done.
  - cbn in *. apply NoDup_cons in Hn as [_ Hn]. by rewrite IH.
  - cbn in *. apply NoDup_cons in Hn as [Hx _]. destruct (String.eqb_spec (fst x) key), (String.eqb_spec (fst y) key); try done.
    subst. destruct Hx. rewrite e0. by left.
  - rewrite IH1 by done. apply IH2. by rewrite <- H1.
Qed.

(** A query that was encoded is read back key by key. *)
Lemma Values_roundtrip q key :
  q <> [] -> NoDup (fst <$> q) -> Forall (fun kv => fst kv <> ""%string) q ->
  Values_Get (ParseQuery (Encode q)) key = Values_Get q key.
Proof.
  intros Hne Hn Hk. rewrite ParseQuery_Encode by done. unfold Values_Get. f_equal. f_equal.
  symmetry. apply find_key_perm; [|done]. symmetry. apply merge_sort_Permutation.
Qed.

(** ** Setting *)
Definition query_ok (q : Values) : Prop :=
  q <> [] /\ NoDup (fst <$> q) /\ Forall (fun kv => fst kv <> ""%string) q.

Lemma Values_Get_Set q k v k' :
  Values_Get (Values_Set q k v) k' = if String.eqb k k' then v else Values_Get q k'.
Proof.
  unfold Values_Get, Values_Set. induction q as [|[a b] q IH]; cbn [List.filter app List.find fst].
  - cbn. by destruct (String.eqb k k').
  - destruct (String.eqb_spec a k) as [->|Hne]; cbn [negb].
    + rewrite IH. by destruct (String.eqb_spec k k').
    + cbn [app List.find fst]. destruct (String.eqb_spec a k') as [->|]; [|exact IH].
      by destruct (String.eqb_spec k k') as [->|].
Qed.

Lemma Values_Set_ok q k v : (q = [] \/ query_ok q) -> k <> ""%string -> query_ok (Values_Set q k v).
Proof.
  intros Hq Hk. assert (H : NoDup (fst <$> q) /\ Forall (fun kv => fst kv <> ""%string) q).
  { destruct Hq as [->|(_ & H)]; [|done]. split; constructor. }
  destruct H as [Hn Hf]. unfold Values_Set. split; [by destruct (List.filter _ _)|].
  induction q as [|[a b] q IH].
  - cbn. split; [apply NoDup_singleton|by repeat constructor].
  - cbn [fmap list_fmap fst] in Hn. apply NoDup_cons in Hn as [Ha Hn]. apply Forall_cons in Hf as [H1 Hf].
    destruct IH as [IH1 IH2]; [destruct q; [by left|right; by repeat split]|done|done|].
    cbn [List.filter fst]. destruct (String.eqb_spec a k) as [->|Hne]; cbn [negb]; [done|].
    cbn [app fmap list_fmap fst]. split; [|by constructor]. apply NoDup_cons. split; [|done].
    rewrite fmap_app, elem_of_app. intros [Hin|Hin].
    + apply Ha. apply list_elem_of_fmap in Hin as (y & -> & Hy). apply list_elem_of_In, filter_In in Hy as [Hy _].
      apply list_elem_of_fmap. exists y. split; [done|]. by apply list_elem_of_In.
    + cbn in Hin. by apply list_elem_of_singleton in Hin.
Qed.
