(* ===== verification/Flags.v ===== *)
(** Go's flag package as the command line uses it: a [FlagSet] with
    [ContinueOnError], its [Parse], and which flags were set.

    A flag is its name, whether it is boolean, and the check its [Set] makes
    of a value; the values themselves are read off the assignments that a
    parse made, in order, so that the last one of a name counts.  Usage text
    that [Parse] prints is not modelled. *)
From S2P Require Import Prelude GoStrings.
From Stdlib Require Import ZArith Lia List String Ascii Bool.
From stdpp Require Import base list strings.

Open Scope Z_scope.

Record Flag := mkFlag {
  f_name : string;
  f_bool : bool;
  f_check : string -> option error;   (* the error of [Set] *)
}.
Abbreviation FlagSet := (list Flag) (only parsing).

Definition ErrHelp : error := Sentinel "flag.ErrHelp" "flag: help requested".

(** [strconv.ParseBool]. *)
Definition ParseBool (s : string) : option bool :=
  if existsb (String.eqb s) ["1"; "t"; "T"; "TRUE"; "true"; "True"]%string then Some true
  else if existsb (String.eqb s) ["0"; "f"; "F"; "FALSE"; "false"; "False"]%string then Some false
  else None.

Definition parse_error : error := Errorf "parse error".
Definition StringVar (name : string) : Flag := mkFlag name false (fun _ => None).
Definition BoolVar (name : string) : Flag :=
  mkFlag name true (fun s => match ParseBool s with Some _ => None | None => Some parse_error end).
Definition DurationVar {D : GoDuration} (name : string) : Flag :=
  mkFlag name false (fun s => match ParseDuration s with Some _ => None | None => Some parse_error end).
(** ** [strconv.ParseInt(s, 0, 64)] *)
Definition lower_byte (c : ascii) : Z := Z.lor (byte c) 32.   (* strconv's lower *)

(** The base a prefix selects, and the digits after it. *)
Definition number_base (l : bytes) : Z * bytes :=
  match l with
  | "0"%char :: rest =>
      match rest with
      | c :: ((_ :: _) as rest2) =>
          if lower_byte c =? 98 then (2, rest2)
          else if lower_byte c =? 111 then (8, rest2)
          else if lower_byte c =? 120 then (16, rest2)
          else (8, rest)
      | _ => (8, rest)
      end
  | _ => (10, l)
  end.
Definition digit_of (c : ascii) : option Z :=
  if is_digit c then Some (byte c - 48)
  else if in_range 97 122 (lower_byte c) then Some (lower_byte c - 97 + 10)
  else None.
Definition range_error : error := Errorf "value out of range".
(** The first bad digit or the first overflow of 64 bits decides. *)
Fixpoint read_digits (base acc : Z) (l : bytes) : result Z :=
  match l with
  | [] => Ok acc
  | c :: l =>
      if Ascii.eqb c "_" then read_digits base acc l
      else match digit_of c with
           | Some d =>
               if base <=? d then Err parse_error
               else if 2 ^ 64 <=? acc * base + d then Err range_error
               else read_digits base (acc * base + d) l
           | None => Err parse_error
           end
  end.

(** [underscoreOK]: what was seen last. *)
Inductive seen : Type := SBegin | SDigit | SUnderscore | SOther.
Fixpoint underscores_ok (hex : bool) (saw : seen) (l : bytes) : bool :=
  match l with
  | [] => match saw with SUnderscore => false | _ => true end
  | c :: l =>
      if is_digit c || (hex && in_range 97 102 (lower_byte c)) then underscores_ok hex SDigit l
      else if Ascii.eqb c "_" then
        match saw with SDigit => underscores_ok hex SUnderscore l | _ => false end
      else match saw with SUnderscore => false | _ => underscores_ok hex SOther l end
  end.
Definition underscoreOK (l : bytes) : bool :=
  match l with
  | "0"%char :: c :: rest =>
      if existsb (Z.eqb (lower_byte c)) [98; 111; 120] then underscores_ok (lower_byte c =? 120) SDigit rest
      else underscores_ok false SBegin l
  | _ => underscores_ok false SBegin l
  end.

Definition parse_uint0 (l : bytes) : result Z :=
  match l with
  | [] => Err parse_error
  | _ => let '(base, digits) := number_base l in
         try n <- read_digits base 0 digits;
         if bytes_mem "_"%char digits && negb (underscoreOK l) then Err parse_error else Ok n
  end.
Definition ParseInt0 (s : string) : result Z :=
  let '(sign, l) := match to_bytes s with
                    | "-"%char :: l => (-1, l)
                    | "+"%char :: l => (1, l)
                    | l => (1, l)
                    end in
  try n <- parse_uint0 l; if in_int64 (sign * n) then Ok (sign * n) else Err range_error.
Definition IntVar (name : string) : Flag :=
  mkFlag name false (fun s => match ParseInt0 s with Ok _ => None | Err e => Some e end).

Definition Var (name : string) (check : string -> option error) : Flag := mkFlag name false check.

Definition lookup_flag (fs : FlagSet) (name : string) : option Flag :=
  List.find (fun f => String.eqb (f_name f) name) fs.

(** What a word is to [parseOne]: the end of the flags (with the words that
    are left), a word it cannot read, or a flag with its name and the value
    after an equals sign. *)
Inductive word : Type :=
| NotAFlag
| Terminator
| BadSyntax
| FlagWord (name : string) (value : option string).

Definition split_value (l : bytes) : string * option string :=
  match l with
  | [] => (""%string, None)
  | c :: rest =>
      match cut_bytes "="%char rest with
      | Some (name, value) => (of_bytes (c :: name), Some (of_bytes value))
      | None => (of_bytes l, None)
      end
  end.
Definition flag_name (l : bytes) : word :=
  match l with
  | [] => BadSyntax
  | c :: _ =>
      if Ascii.eqb c "-" || Ascii.eqb c "=" then BadSyntax
      else let '(name, value) := split_value l in FlagWord name value
  end.
Definition read_word (s : string) : word :=
  match to_bytes s with
  | "-"%char :: "-"%char :: [] => Terminator
  | "-"%char :: "-"%char :: l => flag_name l
  | "-"%char :: c :: l => flag_name (c :: l)
  | _ => NotAFlag
  end.

Definition assignment : Type := string * string.

(** [Parse]: the assignments, and the arguments that are left. *)
Fixpoint Parse (fs : FlagSet) (args : list string) : result (list assignment * list string) :=
  match args with
  | [] => Ok ([], [])
  | s :: rest =>
      match read_word s with
      | NotAFlag => Ok ([], args)
      | Terminator => Ok ([], rest)
      | BadSyntax => Err (Errorf ("bad flag syntax: " +:+ s))
      | FlagWord name value =>
          match lookup_flag fs name with
          | None =>
              if String.eqb name "help" || String.eqb name "h" then Err ErrHelp
              else Err (Errorf ("flag provided but not defined: -" +:+ name))
          | Some f =>
              if f_bool f then
                let v := default "true"%string value in
                match f_check f v with
                | Some e => Err (Errorf ("invalid boolean value " +:+ Quote v +:+ " for -" +:+ name +:+ ": " +:+ error_message e))
                | None => try (sets, others) <- Parse fs rest; Ok ((name, v) :: sets, others)
                end
              else
                let set v (k : result (list assignment * list string)) :=
                  match f_check f v with
                  | Some e => Err (Errorf ("invalid value " +:+ Quote v +:+ " for flag -" +:+ name +:+ ": " +:+ error_message e))
                  | None => try (sets, others) <- k; Ok ((name, v) :: sets, others)
                  end in
                match value, rest with
                | Some v, _ => set v (Parse fs rest)
                | None, v :: rest' => set v (Parse fs rest')
                | None, [] => Err (Errorf ("flag needs an argument: -" +:+ name))
                end
          end
      end
  end.

(** ** Reading the result *)
Definition values_of (sets : list assignment) (name : string) : list string :=
  snd <$> List.filter (fun a => String.eqb (fst a) name) sets.
Definition string_flag (sets : list assignment) (name fallback : string) : string :=
  default fallback (last (values_of sets name)).
Definition bool_flag (sets : list assignment) (name : string) : bool :=
  default false (last (values_of sets name) ≫= ParseBool).
Definition duration_flag {D : GoDuration} (sets : list assignment) (name : string) (fallback : Duration) : Duration :=
  default fallback (last (values_of sets name) ≫= ParseDuration).
Definition int_flag (sets : list assignment) (name : string) (fallback : Z) : Z :=
  default fallback (last (values_of sets name) ≫= fun s => match ParseInt0 s with Ok n => Some n | Err _ => None end).
(** [fs.Visit]: the flag was given. *)
Definition visited (sets : list assignment) (name : string) : bool :=
  negb (bool_decide (values_of sets name = [])).

(** * Properties *)
(** One word of a parse: what it assigns and how many words it takes. *)
Lemma Parse_more fs more :
  (forall s rest, more = s :: rest -> read_word s = NotAFlag) ->
  Parse fs more = Ok ([], more).
Proof. intros Hm. destruct more as [|s rest]; [done|]. cbn [Parse]. by rewrite (Hm s rest eq_refl). Qed.

(** A parse that consumed every word goes on to what follows: words that are
    no flags are left. *)
Lemma Parse_app fs flags sets more :
  Parse fs flags = Ok (sets, []) ->
  (forall s rest, more = s :: rest -> read_word s = NotAFlag) ->
  Parse fs (flags ++ more) = Ok (sets, more).
Proof.
  intros HP Hm. remember (length flags) as n eqn:Hn. assert (Hle : (length flags <= n)%nat) by lia. clear Hn.
  revert flags sets HP Hle. induction n as [|n IH]; intros [|s flags] sets HP Hle; cbn [length] in Hle; try lia;
    try (injection HP as <-; by apply Parse_more).
  cbn [app Parse] in HP |- *. destruct (read_word s) as [| | |name value]; try done.
  - injection HP as <- ->. done.
  - destruct (lookup_flag fs name) as [f|]; [|by destruct (_ || _)]. destruct (f_bool f).
    + destruct (f_check f _); [done|]. apply rbind_ok in HP as ([sets' r] & E & [= <- ->]).
      by rewrite (IH flags sets' E) by lia.
    + destruct value as [v|]; [|destruct flags as [|v flags]; [done|]; cbn [app length] in *];
        (destruct (f_check f _); [done|]; apply rbind_ok in HP as ([sets' r] & E & [= <- ->]);
         by rewrite (IH flags sets' E) by lia).
Qed.

Example ParseInt0_examples :
  map ParseInt0 ["100"; "-7"; "0x1F"; "0b101"; "017"; "1_000"; "0"; "0_7"]%string =
    map Ok [100; -7; 31; 5; 15; 1000; 0; 7] /\
  map (fun s => is_ok (ParseInt0 s)) [""; "-"; "_1"; "1__0"; "1_"; "08"; "12a"; "9223372036854775808"]%string =
    repeat false 8.
Proof. by vm_compute. Qed.
