(* ===== verification/Cli.v ===== *)
(** agent/cmd/porthook/main.go and tokens.go: the command line.  The settings
    of [porthook http] and [porthook login], the secrets a command reads, the
    client of the control plane's API, and [porthook tokens].

    A command is a computation in the monad [CLI]: it answers with what it
    prints or an error, and threads the world its HTTP requests act on.  The
    HTTP client, encoding/json and the printing of times are arguments.  The
    prompt of a password and the usage text of the flag package go to standard
    error and are not modelled; help texts are [Help] with their command's
    name. *)
From S2P Require Import Prelude GoStrings Names Messages Wire ServeMux AgentConfig ControlPlaneConfig Operator Flags.
From Stdlib Require Import ZArith Lia List String Ascii Bool.
From stdpp Require Import base gmap strings list.

Open Scope Z_scope.

(** * Secrets *)
(** Standard input: what [io.ReadAll] gives, and for a terminal what
    [term.ReadPassword] gives. *)
Record Stdin := mkStdin {
  stdin_all : result bytes;
  stdin_terminal : option (result bytes);
}.

Record tokenInputConfig := mkTokenInput {
  ti_token : string; ti_tokenStdin : bool; ti_stdin : Stdin;
  ti_name : string; ti_flagName : string; ti_stdinFlagName : string;
}.

Definition readTokenInput (cfg : tokenInputConfig) : result string :=
  let token := TrimSpace (ti_token cfg) in
  if negb (String.eqb token "") && ti_tokenStdin cfg
  then Err (Errorf (ti_flagName cfg +:+ " and " +:+ ti_stdinFlagName cfg +:+ " are mutually exclusive"))
  else if negb (String.eqb token "") then Ok token
  else if ti_tokenStdin cfg then
    match stdin_all (ti_stdin cfg) with
    | Err e => Err (Wrap ("read " +:+ ti_name cfg +:+ " from stdin") e)
    | Ok data =>
        let token := TrimSpace (of_bytes data) in
        if String.eqb token "" then Err (Errorf (ti_name cfg +:+ " from stdin is empty")) else Ok token
    end
  else
    match stdin_terminal (ti_stdin cfg) with
    | Some (Err e) => Err (Wrap ("read " +:+ ti_name cfg +:+ " from terminal") e)
    | Some (Ok data) =>
        let token := TrimSpace (of_bytes data) in
        if String.eqb token "" then Err (Errorf (ti_name cfg +:+ " is required")) else Ok token
    | None =>
        Err (Errorf (ti_name cfg +:+ " is required; pass " +:+ ti_flagName cfg +:+
                     " or pipe it with " +:+ ti_stdinFlagName cfg))
    end.

(** * The settings of the agent *)
Section agent.
Context {J : ConfigJSON} {D : GoDuration}.
Context (Getenv : string -> string) (paths : Paths) (version : string).

Definition http_flags : FlagSet := [StringVar "server"; StringVar "token"; StringVar "subdomain"].

Definition http_usage : error :=
  Errorf "usage: porthook http <port> [--server URL] [--token TOKEN] [--subdomain NAME]".

(** [cfg] with the flags, the port and the version in place. *)
Definition http_config (cfg : Config) (server token subdomain : string) (port : Z) : Config := {|
  ServerURL := server;
  Token := token;
  RequestedSubdomain := subdomain;
  Port := port;
  LocalTarget := "http://localhost:" +:+ Itoa port;
  AgentVersion := version;
  HandshakeTimeout := HandshakeTimeout cfg;
  RequestTimeout := RequestTimeout cfg;
  MaxResponseBodyBytes := MaxResponseBodyBytes cfg;
  WSMessageMaxBytes := WSMessageMaxBytes cfg;
  StreamChunkBytes := StreamChunkBytes cfg;
  WebSocketWriteTimeout := WebSocketWriteTimeout cfg;
  WebSocketPingInterval := WebSocketPingInterval cfg;
  WebSocketPongTimeout := WebSocketPongTimeout cfg;
  ReconnectInitialDelay := ReconnectInitialDelay cfg;
  ReconnectMaxDelay := ReconnectMaxDelay cfg;
  ReconnectJitter := ReconnectJitter cfg;
  CACertFile := CACertFile cfg;
  ConnectAddr := ConnectAddr cfg;
|}.

(** The flags that were set and the port, from either place. *)
Definition http_words (args : list string) : result (list assignment * string) :=
  match args with
  | port :: rest =>
      if negb (HasPrefix port "-")
      then try (sets, _) <- Parse http_flags rest; Ok (sets, port)
      else try (sets, others) <- Parse http_flags args; Ok (sets, hd "" others)%string
  | [] => Ok ([], ""%string)
  end.

Definition parseHTTPConfig (files : Files) (denied : option error) (args : list string) : result Config :=
  let cfg := ConfigFromEnv Getenv paths files denied in
  try (sets, portArg) <- http_words args;
  let server := string_flag sets "server" (ServerURL cfg) in
  let token := string_flag sets "token" (Token cfg) in
  let subdomain := string_flag sets "subdomain" (RequestedSubdomain cfg) in
  if String.eqb portArg "" then Err http_usage else
  match Atoi portArg with
  | None => Err (Errorf ("invalid port " +:+ Quote portArg))
  | Some port =>
      if (port <=? 0) || (65535 <? port) then Err (Errorf ("invalid port " +:+ Quote portArg))
      else if String.eqb server "" then Err (Errorf "server URL is required")
      else if String.eqb token "" then Err (Errorf "token is required")
      else
        let done_ := Ok (http_config cfg server token subdomain port) in
        if negb (String.eqb subdomain "") then
          match ValidateSubdomain subdomain with
          | Err e => Err (Wrap ("invalid subdomain " +:+ Quote subdomain) e)
          | Ok _ => done_
          end
        else done_
  end.

Definition login_flags : FlagSet := [StringVar "server"; StringVar "token"; BoolVar "token-stdin"].

Definition parseLoginConfig (files : Files) (denied : option error) (stdin : Stdin) (args : list string)
    : result ConfigFile :=
  let defaults := ConfigFromEnv Getenv paths files denied in
  try (sets, others) <- Parse login_flags args;
  match others with
  | _ :: _ => Err (Errorf "usage: porthook login --server URL [--token TOKEN | --token-stdin]")
  | [] =>
      let serverURL := TrimSpace (string_flag sets "server" (ServerURL defaults)) in
      if String.eqb serverURL "" then Err (Errorf "server URL is required") else
      try token <- readTokenInput (mkTokenInput (string_flag sets "token" "") (bool_flag sets "token-stdin") stdin
                                     "token" "--token" "--token-stdin");
      Ok (mkConfigFile serverURL token)
  end.
End agent.

(** * Output *)
Inductive output : Type :=
| Line (text : string)
| Table (rows : list (list string))       (* text/tabwriter's cells *)
| JSONText (data : bytes)
| Help (command : string).

(** The values of a [map[string]any] that is printed. *)
Inductive jvalue : Type := JString (s : string) | JBool (b : bool).
Abbreviation json_map := (list (string * jvalue)).

(** * Commands that talk to a server *)
Record httpRequest := mkHttpRequest {
  hr_Method : string; hr_URL : string; hr_Header : Header; hr_Body : bytes;
}.
(** A response with its body and the error at the body's end. *)
Record httpResponse := mkHttpResponse {
  hp_Status : Z; hp_Header : Header; hp_Body : bytes; hp_End : error;
}.

(** [json.NewDecoder(resp.Body).Decode(out)], and the value [out] starts with. *)
Class ResponseJSON (T : Type) : Type := {
  decode_response : bytes -> error -> result T;
  zero_value : T;
}.

(** The HTTP client, with the timeout it was made with, in a world. *)
Class HTTPClient (W : Type) : Type := {
  NewRequest : string -> string -> option error;
  Do : Duration -> httpRequest -> W -> result httpResponse * W;
  StatusText : Z -> string;
}.

Section monad.
Context {W : Type}.
Definition CLI (A : Type) : Type := W -> result A * W.
Definition lift {A} (r : result A) : CLI A := fun w => (r, w).
Definition cbind {A B} (m : CLI A) (k : A -> CLI B) : CLI B :=
  fun w => match m w with (Ok a, w') => k a w' | (Err e, w') => (Err e, w') end.
End monad.
Arguments CLI W A : clear implicits.
Notation "'perform' x <- m ; k" := (cbind m (fun x => k))
  (at level 100, x pattern, m at level 99, right associativity) : go_scope.

Definition readLimitedString (body : bytes) (limit : nat) : string := of_bytes (take limit body).

(** [json.NewEncoder(w).Encode(payload)] *)
Definition encode_line {T} {J : JSONCodec T} (t : T) : result bytes := try data <- Marshal t; Ok (data ++ [chr 10]).
Definition writeJSONOutput {T} {J : JSONCodec T} (t : T) : result (list output) :=
  try data <- encode_line t; Ok [JSONText data].

Definition wantsHelp (args : list string) : bool :=
  match args with [a] => existsb (String.eqb a) ["help"; "--help"; "-h"]%string | _ => false end.
Definition help_word (a : string) : bool := existsb (String.eqb a) ["help"; "--help"; "-h"]%string.

(** ** The settings every admin command has *)
Record tokenAdminConfig := mkTokenAdminConfig {
  controlPlaneURL : string; adminToken : string; adminTokenStdin : bool; jsonOutput : bool;
}.

Section admin_config.
Context {GU : GoURL} (Getenv : string -> string).

Definition newTokenAdminFlagSet : FlagSet :=
  [StringVar "control-plane"; StringVar "admin-token"; BoolVar "admin-token-stdin"; BoolVar "json"].

Definition check_base_url (label raw : string) : result string :=
  let raw := TrimSpace raw in
  if String.eqb raw "" then Err (Errorf (label +:+ " is required"))
  else match url_Parse raw with
       | Err e => Err (Wrap ("invalid " +:+ label +:+ " " +:+ Quote raw) e)
       | Ok parsed =>
           if String.eqb (Scheme parsed) "" || String.eqb (url_Host parsed) ""
           then Err (Errorf ("invalid " +:+ label +:+ " " +:+ Quote raw +:+ ": scheme and host are required"))
           else Ok (TrimRight_slash raw)
       end.
Definition normalizeControlPlaneURL : string -> result string := check_base_url "control-plane URL".

(** The values the flags had after the parse, then the checks. *)
Definition finalizeTokenAdminConfig (sets : list assignment) (stdin : Stdin) : result tokenAdminConfig :=
  let env_url := TrimSpace (Getenv "PORTHOOK_CONTROL_PLANE_URL") in
  let env_token := TrimSpace (Getenv "PORTHOOK_CONTROL_ADMIN_TOKEN") in
  let from_stdin := bool_flag sets "admin-token-stdin" in
  let token := string_flag sets "admin-token" env_token in
  try base <- normalizeControlPlaneURL (string_flag sets "control-plane" env_url);
  let adminToken := if from_stdin && negb (visited sets "admin-token") then ""%string else token in
  try adminToken <- readTokenInput (mkTokenInput adminToken from_stdin stdin
                                      "admin token" "--admin-token" "--admin-token-stdin");
  Ok (mkTokenAdminConfig base adminToken from_stdin (bool_flag sets "json")).

(** The parses of a command with no argument and of one with one argument. *)
Definition parse_no_arg (fs : FlagSet) (usage : string) (args : list string) : result (list assignment) :=
  try (sets, others) <- Parse fs args;
  match others with [] => Ok sets | _ => Err (Errorf usage) end.
Definition parse_one_arg (fs : FlagSet) (usage missing : string) (args : list string)
    : result (list assignment * string) :=
  try (sets, others) <- Parse fs args;
  match others with
  | [arg] => let arg := TrimSpace arg in if String.eqb arg "" then Err (Errorf missing) else Ok (sets, arg)
  | _ => Err (Errorf usage)
  end.
End admin_config.

(** ** tokens.go *)
Record createTokenRequest := mkCreateToken { ct_Name : string; ct_Scopes : list string }.
Record createdToken := mkCreated {
  cd_ID : string; cd_Name : string; cd_Token : string; cd_Scopes : list string; cd_CreatedAt : Time;
}.
Record tokenSummary := mkSummary {
  sm_ID : string; sm_Name : string; sm_Scopes : list string; sm_CreatedAt : Time;
  sm_LastUsedAt : option Time; sm_RevokedAt : option Time;
}.
Record listTokensResponse := mkListTokens { lt_Tokens : list tokenSummary }.

(** [stringListFlag.Set] *)
Definition stringListFlag_Set (value : string) : option error :=
  if String.eqb (TrimSpace value) "" then Some (Errorf "scope cannot be empty") else None.
Definition list_flag (sets : list assignment) (name : string) : list string := TrimSpace <$> values_of sets name.

Definition controlPlaneStatusError (status : Z) (message : string) : error :=
  let message := TrimSpace message in
  let or_ (fallback : string) := if String.eqb message "" then fallback else message in
  if status =? 400 then Errorf ("control plane rejected request: " +:+ or_ "bad request")
  else if status =? 401 then
    Errorf "control plane rejected admin token (401 Unauthorized); check --admin-token or --admin-token-stdin"
  else if status =? 403 then
    Errorf "control plane rejected admin token (403 Forbidden); token may be missing the required admin scope"
  else if status =? 404 then
    if negb (String.eqb message "") then Errorf ("control plane returned 404: " +:+ message)
    else Errorf "control-plane endpoint not found (404); check --control-plane URL"
  else if status =? 409 then Errorf ("control plane conflict: " +:+ or_ "conflict")
  else Errorf ("control plane returned " +:+ Itoa status +:+ ": " +:+ message).

Definition defaultTokenAdminTimeout : Duration := 10 * second.
Record tokenAdminClient := mkClient { cl_baseURL : string; cl_adminToken : string; cl_timeout : Duration }.
Definition newTokenAdminClient (cfg : tokenAdminConfig) : tokenAdminClient :=
  mkClient (controlPlaneURL cfg) (adminToken cfg) defaultTokenAdminTimeout.
Definition with_timeout (c : tokenAdminClient) (timeout : Duration) : tokenAdminClient :=
  mkClient (cl_baseURL c) (cl_adminToken c) timeout.

Section commands.
Context {W : Type} {C : HTTPClient W} {GU : GoURL} (Getenv : string -> string) (time_Format : Time -> string).
Context {J1 : JSONCodec createTokenRequest} {R1 : ResponseJSON createdToken} {R2 : ResponseJSON listTokensResponse}.
Context {O1 : JSONCodec createdToken} {O2 : JSONCodec listTokensResponse} {O3 : JSONCodec json_map}.

(** [tokenAdminClient.do]: the request, and the body of a 2xx answer. *)
Definition client_request (c : tokenAdminClient) (method path : string) (payload : option bytes) : httpRequest :=
  let header := Header_Set (Header_Set ∅ "Authorization" ("Bearer " +:+ cl_adminToken c)) "Accept" "application/json" in
  mkHttpRequest method (cl_baseURL c +:+ path)
    (match payload with Some _ => Header_Set header "Content-Type" "application/json" | None => header end)
    (default [] payload).

Definition client_do (c : tokenAdminClient) (method path : string) (payload : option (result bytes))
    : CLI W (bytes * error) :=
  perform body <- lift (match payload with
                        | None => Ok None
                        | Some (Ok data) => Ok (Some data)
                        | Some (Err e) => Err (Wrap "encode request" e)
                        end);
  perform _ <- lift (match NewRequest method (cl_baseURL c +:+ path) with
                     | Some e => Err (Wrap "build request" e)
                     | None => Ok ()
                     end);
  fun w =>
    match Do (cl_timeout c) (client_request c method path body) w with
    | (Err e, w) => (Err (Wrap "control-plane request failed" e), w)
    | (Ok resp, w) =>
        if (hp_Status resp <? 200) || (300 <=? hp_Status resp) then
          let message := TrimSpace (readLimitedString (hp_Body resp) 4096) in
          let message := if String.eqb message "" then StatusText (hp_Status resp) else message in
          (Err (controlPlaneStatusError (hp_Status resp) message), w)
        else (Ok (hp_Body resp, hp_End resp), w)
    end.

(** With something to decode the body into: an empty body leaves it as it is. *)
Definition client_get {T} {R : ResponseJSON T} (c : tokenAdminClient) (method path : string)
    (payload : option (result bytes)) : CLI W T :=
  perform (body, end_) <- client_do c method path payload;
  lift (match decode_response body end_ with
        | Ok t => Ok t
        | Err e => if errors_Is e EOF then Ok zero_value else Err (Wrap "decode control-plane response" e)
        end).

Definition createToken (c : tokenAdminClient) (req : createTokenRequest) : CLI W createdToken :=
  client_get c "POST" "/api/v1/tokens" (Some (encode_line req)).
Definition listTokens (c : tokenAdminClient) : CLI W listTokensResponse :=
  client_get c "GET" "/api/v1/tokens" None.
Definition revokeToken (c : tokenAdminClient) (id : string) : CLI W unit :=
  perform _ <- client_do c "DELETE" ("/api/v1/tokens/" +:+ PathEscape id) None; lift (Ok ()).

Definition printCreatedToken (t : createdToken) : list output :=
  [Line ("Created token " +:+ cd_ID t); Line ("Name: " +:+ cd_Name t);
   Line ("Scopes: " +:+ GoStrings.Join (cd_Scopes t) ","); Line ("Created: " +:+ time_Format (cd_CreatedAt t));
   Line ("Token: " +:+ cd_Token t); Line "The token is shown only once."].

Definition optional_time (t : option Time) : string := match t with Some t => time_Format t | None => "-" end.
Definition printTokenList (tokens : list tokenSummary) : list output :=
  [Table (["ID"; "NAME"; "SCOPES"; "CREATED"; "LAST USED"; "REVOKED"]%string ::
     ((fun t => [sm_ID t; sm_Name t; GoStrings.Join (sm_Scopes t) ","; time_Format (sm_CreatedAt t);
                 optional_time (sm_LastUsedAt t); optional_time (sm_RevokedAt t)]) <$> tokens))].

Definition parseTokenCreateConfig (stdin : Stdin) (args : list string)
    : result (tokenAdminConfig * createTokenRequest) :=
  try sets <- parse_no_arg (newTokenAdminFlagSet ++ [StringVar "name"; Var "scope" stringListFlag_Set])
    "usage: porthook tokens create --control-plane URL --name NAME [--scope SCOPE] [--admin-token TOKEN | --admin-token-stdin]"
    args;
  let name := TrimSpace (string_flag sets "name" "") in
  if String.eqb name "" then Err (Errorf "token name is required") else
  try cfg <- finalizeTokenAdminConfig Getenv sets stdin;
  Ok (cfg, mkCreateToken name (list_flag sets "scope")).

Definition parseTokenListConfig (stdin : Stdin) (args : list string) : result tokenAdminConfig :=
  try sets <- parse_no_arg newTokenAdminFlagSet
    "usage: porthook tokens list --control-plane URL [--admin-token TOKEN | --admin-token-stdin]" args;
  finalizeTokenAdminConfig Getenv sets stdin.

Definition parseTokenRevokeConfig (stdin : Stdin) (args : list string) : result (tokenAdminConfig * string) :=
  try (sets, id) <- parse_one_arg newTokenAdminFlagSet
    "usage: porthook tokens revoke --control-plane URL [--admin-token TOKEN | --admin-token-stdin] TOKEN_ID"
    "token id is required" args;
  try cfg <- finalizeTokenAdminConfig Getenv sets stdin;
  Ok (cfg, id).

Definition runTokensCreate (stdin : Stdin) (args : list string) : CLI W (list output) :=
  perform (cfg, req) <- lift (parseTokenCreateConfig stdin args);
  perform created <- createToken (newTokenAdminClient cfg) req;
  lift (if jsonOutput cfg then writeJSONOutput created else Ok (printCreatedToken created)).

Definition runTokensList (stdin : Stdin) (args : list string) : CLI W (list output) :=
  perform cfg <- lift (parseTokenListConfig stdin args);
  perform listed <- listTokens (newTokenAdminClient cfg);
  lift (if jsonOutput cfg then writeJSONOutput listed else Ok (printTokenList (lt_Tokens listed))).

Definition runTokensRevoke (stdin : Stdin) (args : list string) : CLI W (list output) :=
  perform (cfg, id) <- lift (parseTokenRevokeConfig stdin args);
  perform _ <- revokeToken (newTokenAdminClient cfg) id;
  lift (if jsonOutput cfg then writeJSONOutput [("id", JString id); ("revoked", JBool true)]%string
        else Ok [Line ("Token revoked: " +:+ id)]).

Definition tokensUsageError : error := Errorf
"usage: porthook tokens create --control-plane URL --name NAME [--scope SCOPE] [--admin-token TOKEN | --admin-token-stdin] [--json]
       porthook tokens list --control-plane URL [--admin-token TOKEN | --admin-token-stdin] [--json]
       porthook tokens revoke --control-plane URL [--admin-token TOKEN | --admin-token-stdin] TOKEN_ID [--json]
       porthook tokens help".

(** One subcommand: its help or its run. *)
Definition sub (name : string) (run : Stdin -> list string -> CLI W (list output)) (stdin : Stdin)
    (args : list string) : CLI W (list output) :=
  if wantsHelp args then lift (Ok [Help name]) else run stdin args.

Definition runTokensCommand (stdin : Stdin) (args : list string) : CLI W (list output) :=
  match args with
  | [] => lift (Err tokensUsageError)
  | a :: rest =>
      if String.eqb a "create" then sub "tokens create" runTokensCreate stdin rest
      else if String.eqb a "list" then sub "tokens list" runTokensList stdin rest
      else if String.eqb a "revoke" then sub "tokens revoke" runTokensRevoke stdin rest
      else if help_word a then lift (Ok [Help "tokens"])
      else lift (Err tokensUsageError)
  end.
End commands.

(** * Properties *)
(** A secret that was read is trimmed and not empty, and comes from one place:
    the flag, or standard input when the flag was not given. *)
Lemma readTokenInput_ok cfg token :
  readTokenInput cfg = Ok token ->
  token <> ""%string /\ TrimSpace token = token /\
  if ti_tokenStdin cfg
  then TrimSpace (ti_token cfg) = ""%string /\
       exists data, stdin_all (ti_stdin cfg) = Ok data /\ token = TrimSpace (of_bytes data)
  else token = TrimSpace (ti_token cfg) \/
       (TrimSpace (ti_token cfg) = ""%string /\
        exists data, stdin_terminal (ti_stdin cfg) = Some (Ok data) /\ token = TrimSpace (of_bytes data)).
Proof.
  unfold readTokenInput. cbv zeta.
  destruct (String.eqb_spec (TrimSpace (ti_token cfg)) "") as [E|E], (ti_tokenStdin cfg); cbn [negb andb]; try done.
  - destruct (stdin_all _) as [data|e]; [|done]. destruct (String.eqb_spec (TrimSpace (of_bytes data)) ""); [done|].
    intros [= <-]. split; [done|]. split; [apply TrimSpace_idem|]. split; [done|]. by exists data.
  - destruct (stdin_terminal _) as [[data|e]|]; [|done..].
    destruct (String.eqb_spec (TrimSpace (of_bytes data)) ""); [done|].
    intros [= <-]. split; [done|]. split; [apply TrimSpace_idem|]. right. split; [done|]. by exists data.
  - intros [= <-]. split; [done|]. split; [apply TrimSpace_idem|]. by left.
Qed.

(** A word with no dash in front is left by the flag package. *)
Lemma read_word_plain s : HasPrefix s "-" = false -> read_word s = NotAFlag.
Proof.
  destruct s as [|c s]; [done|]. unfold HasPrefix. cbn. destruct (ascii_dec "-" c) as [<-|Hne]; [by destruct s|].
  intros _. unfold read_word. cbn [list_ascii_of_string]. by destruct c as [[] [] [] [] [] [] [] []].
Qed.

(** A parse that consumed every word began with a dash. *)
Lemma Parse_consumed_dash fs flag flags sets : Parse fs (flag :: flags) = Ok (sets, []) -> HasPrefix flag "-" = true.
Proof.
  destruct (HasPrefix flag "-") eqn:E; [done|]. cbn [Parse]. by rewrite (read_word_plain _ E).
Qed.

Lemma http_words_position port flags sets :
  HasPrefix port "-" = false -> Parse http_flags flags = Ok (sets, []) ->
  http_words (port :: flags) = Ok (sets, port) /\ http_words (flags ++ [port]) = Ok (sets, port).
Proof.
  intros Hp HP. cbn [http_words]. rewrite Hp, HP. split; [done|].
  assert (HA : Parse http_flags (flags ++ [port]) = Ok (sets, [port])).
  { apply Parse_app; [done|]. intros s rest [= <- <-]. by apply read_word_plain. }
  destruct flags as [|f flags].
  - injection HP as <-. cbn. by rewrite Hp.
  - apply Parse_consumed_dash in HP. cbn [app http_words] in *. by rewrite HP, HA.
Qed.

(** What [porthook http] may start an agent with. *)
Definition startable (version : string) (cfg : Config) : Prop :=
  1 <= Port cfg <= 65535 /\ LocalTarget cfg = ("http://localhost:" +:+ Itoa (Port cfg))%string /\
  ServerURL cfg <> ""%string /\ Token cfg <> ""%string /\ AgentVersion cfg = version /\
  (RequestedSubdomain cfg = ""%string \/ ValidateSubdomain (RequestedSubdomain cfg) = Ok ()) /\ usable cfg.

Section http.
Context {J : ConfigJSON} {D : GoDuration}.
Context (Getenv : string -> string) (paths : Paths) (version : string).

Lemma http_config_usable cfg server token subdomain port :
  server <> ""%string -> token <> ""%string -> usable cfg -> usable (http_config version cfg server token subdomain port).
Proof. intros Hs Ht (_ & _ & H). by split; [|split]. Qed.

Lemma ConfigFromEnv_usable files denied : usable (ConfigFromEnv Getenv paths files denied).
Proof. unfold ConfigFromEnv. destruct (match LoadConfigFile _ _ _ _ with Ok (Some f) => _ | _ => _ end). apply normalizeConfig_usable. Qed.

Lemma parseHTTPConfig_startable files denied args cfg :
  parseHTTPConfig Getenv paths version files denied args = Ok cfg -> startable version cfg.
Proof.
  unfold parseHTTPConfig. intros ([sets portArg] & _ & H)%rbind_ok. cbv zeta in H.
  destruct (String.eqb portArg ""); [done|]. destruct (Atoi portArg) as [port|]; [|done].
  destruct ((port <=? 0) || (65535 <? port)) eqn:Ep; [done|]. apply orb_false_iff in Ep as [E1 E2].
  destruct (String.eqb_spec (string_flag sets "server" (ServerURL (ConfigFromEnv Getenv paths files denied))) "") as [|Hs]; [done|].
  destruct (String.eqb_spec (string_flag sets "token" (Token (ConfigFromEnv Getenv paths files denied))) "") as [|Ht]; [done|].
  set (sub := string_flag sets "subdomain" _) in *.
  assert (Hc : cfg = http_config version (ConfigFromEnv Getenv paths files denied)
      (string_flag sets "server" (ServerURL (ConfigFromEnv Getenv paths files denied)))
      (string_flag sets "token" (Token (ConfigFromEnv Getenv paths files denied))) sub port /\
    (sub = ""%string \/ ValidateSubdomain sub = Ok ())).
  { destruct (String.eqb_spec sub ""); cbn [negb] in H; [injection H as <-; by split; [|left]|].
    destruct (ValidateSubdomain sub) as [[]|]; [|done]. injection H as <-. by split; [|right]. }
  destruct Hc as [-> Hsub]. to_prop. split_and!; cbn; try done; try lia.
  apply http_config_usable; [done..|]. apply ConfigFromEnv_usable.
Qed.

(** [porthook http] reads the same configuration whether the port comes
    before the flags or after them, and one it accepts can be run: the port is
    one of 1 to 65535 and the target is that port of localhost, the server and
    the token are not empty, a requested subdomain is valid, and every timeout
    and limit is positive. *)
Lemma http_port_position files denied port flags sets :
  HasPrefix port "-" = false -> Parse http_flags flags = Ok (sets, []) ->
  let before := parseHTTPConfig Getenv paths version files denied (port :: flags) in
  before = parseHTTPConfig Getenv paths version files denied (flags ++ [port]) /\
  forall cfg, before = Ok cfg -> startable version cfg.
Proof.
  intros Hp HP. cbv zeta. split; [|intros cfg; apply parseHTTPConfig_startable].
  unfold parseHTTPConfig. by destruct (http_words_position _ _ _ Hp HP) as [-> ->].
Qed.
End http.

Section parses.
Context {GU : GoURL} (Getenv : string -> string).

(** The settings of an admin command carry a token that is not empty. *)
Lemma finalizeTokenAdminConfig_ok sets stdin cfg :
  finalizeTokenAdminConfig Getenv sets stdin = Ok cfg ->
  adminToken cfg <> ""%string /\ TrimSpace (adminToken cfg) = adminToken cfg.
Proof.
  unfold finalizeTokenAdminConfig. cbv zeta. intros (base & _ & H)%rbind_ok. apply rbind_ok in H as (t & Ht & [= <-]).
  by apply readTokenInput_ok in Ht as (H1 & H2 & _).
Qed.

(** Flags are read up to the argument: one that follows it is a usage error,
    whatever the flag is. *)
Lemma parse_one_arg_trailing fs usage missing flags sets arg more :
  Parse fs flags = Ok (sets, []) -> HasPrefix arg "-" = false -> more <> [] ->
  parse_one_arg fs usage missing (flags ++ arg :: more) = Err (Errorf usage).
Proof.
  intros HP Ha Hm. unfold parse_one_arg. rewrite (Parse_app _ _ _ (arg :: more) HP).
  - by destruct more.
  - intros s rest [= <- <-]. by apply read_word_plain.
Qed.
End parses.

(** ** Witness *)
Module Witness_http.
#[local] Existing Instances Witness_login.json Witness_login.durations.
Definition args : list string := ["--token"; "ph_1"; "--subdomain=demo"]%string.
Definition parse (args : list string) : result Config :=
  parseHTTPConfig (fun _ => ""%string) Witness_login.paths "1.0" ∅ None args.

Lemma http_port_position_witness :
  exists cfg, parse ("3000"%string :: args) = Ok cfg /\ parse (args ++ ["3000"%string]) = Ok cfg /\
    startable "1.0" cfg /\ Port cfg = 3000 /\ RequestedSubdomain cfg = "demo"%string.
Proof.
  destruct (http_port_position (fun _ => ""%string) Witness_login.paths "1.0" ∅ None "3000" args
    [("token", "ph_1"); ("subdomain", "demo")]%string) as [H1 H2]; [by vm_compute|by vm_compute|].
  unfold parse. rewrite <- H1.
  destruct (parseHTTPConfig (fun _ => ""%string) Witness_login.paths "1.0" ∅ None ("3000"%string :: args))
    as [cfg|e] eqn:E; [|by vm_compute in E].
  exists cfg. do 2 (split; [done|]). split; [by apply H2|]. vm_compute in E. by injection E as <-.
Defined.
End Witness_http.
