(* ===== verification/CliAdmin.v ===== *)
(** agent/cmd/porthook/admin.go, reserved.go, access.go and domains.go: the
    commands that manage admin tokens, reserved subdomains, access policies
    and custom domains, on the client of [Cli].  Their printed forms and the
    requests they send are the source's; help texts are [Help]. *)
From S2P Require Import Prelude GoStrings Messages Wire ServeMux Flags Cli.
From Stdlib Require Import ZArith Lia List String Ascii Bool.
From stdpp Require Import base gmap strings list.

Open Scope Z_scope.

(** A switch over the first word: its subcommands, [help], or the usage. *)
Definition command_table {W : Type} (group : string) (usage : error)
    (table : list (string * (Stdin -> list string -> CLI W (list output)))) (stdin : Stdin) (args : list string)
    : CLI W (list output) :=
  match args with
  | [] => lift (Err usage)
  | a :: rest =>
      match List.find (fun e => String.eqb (fst e) a) table with
      | Some (name, run) => sub (group +:+ " " +:+ name) run stdin rest
      | None => if help_word a then lift (Ok [Help group]) else lift (Err usage)
      end
  end.

Definition bool_text (b : bool) : string := if b then "true" else "false".   (* %t *)

(** * admin.go *)
Record createAdminTokenRequest := mkCreateAdminToken { cat_Name : string; cat_Scopes : list string }.
Record createdAdminToken := mkCreatedAdmin {
  cad_ID : string; cad_Name : string; cad_Token : string; cad_Scopes : list string; cad_CreatedAt : Time;
}.
Record adminTokenSummary := mkAdminSummary {
  ats_ID : string; ats_Name : string; ats_Scopes : list string; ats_CreatedAt : Time;
  ats_LastUsedAt : option Time; ats_RevokedAt : option Time;
}.
Record listAdminTokensResponse := mkListAdminTokens { lat_Tokens : list adminTokenSummary }.

(** * reserved.go *)
Record createReservationRequest := mkCreateReservationCLI { crr_Name : string; crr_TokenID : string }.
Record reservationSummary := mkReservationSummary {
  rs_ID : string; rs_Name : string; rs_TokenID : string; rs_CreatedAt : Time;
}.
(** [createdReservation] has the same fields. *)
Definition createdReservation : Type := reservationSummary.
Record listReservationsResponse := mkListReservations { lr_ReservedSubdomains : list reservationSummary }.

(** * access.go *)
Record accessPolicyRequest := mkPolicyRequest {
  apr_ReservedSubdomainID : string; apr_Mode : string; apr_BasicUsername : string; apr_BasicPassword : string;
  apr_BearerToken : string; apr_IPAllowlist : list string;
}.
Record accessPolicySummary := mkPolicySummaryCLI {
  aps_ID : string; aps_ReservedSubdomainID : string; aps_Mode : string; aps_BasicUsername : string;
  aps_SecretConfigured : bool; aps_IPAllowlist : list string; aps_CreatedAt : Time; aps_UpdatedAt : Time;
}.
Record listAccessPoliciesResponse := mkListPolicies { lap_AccessPolicies : list accessPolicySummary }.

(** [ipAllowlistFlag.Set] *)
Definition ipAllowlistFlag_Set (value : string) : option error :=
  if String.eqb (TrimSpace value) "" then Some (Errorf "ip allowlist entry cannot be empty") else None.

(** * domains.go *)
Record createCustomDomainRequest := mkCreateDomainCLI { ccd_Hostname : string; ccd_ReservedSubdomainID : string }.
Record customDomainSummary := mkDomainSummaryCLI {
  cds_ID : string; cds_Hostname : string; cds_ReservedSubdomainID : string; cds_Status : string;
  cds_VerificationToken : string; cds_VerificationName : string; cds_VerifiedAt : option Time;
  cds_CreatedAt : Time; cds_UpdatedAt : Time;
}.
Record listCustomDomainsResponse := mkListDomains { lcd_CustomDomains : list customDomainSummary }.

Definition normalizeDomainTarget {U : GoUnicode} (target : string) : string :=
  TrimSuffix (ToLower (TrimSpace target)) ".".

Section commands.
Context {U : GoUnicode} {W : Type} {C : HTTPClient W} {GU : GoURL}.
Context (Getenv : string -> string) (time_Format : Time -> string).
Context {J1 : JSONCodec createAdminTokenRequest} {J2 : JSONCodec createReservationRequest}
  {J3 : JSONCodec accessPolicyRequest} {J4 : JSONCodec createCustomDomainRequest}.
Context {R1 : ResponseJSON createdAdminToken} {R2 : ResponseJSON listAdminTokensResponse}
  {R3 : ResponseJSON reservationSummary} {R4 : ResponseJSON listReservationsResponse}
  {R5 : ResponseJSON accessPolicySummary} {R6 : ResponseJSON listAccessPoliciesResponse}
  {R7 : ResponseJSON customDomainSummary} {R8 : ResponseJSON listCustomDomainsResponse}.
Context {O1 : JSONCodec createdAdminToken} {O2 : JSONCodec listAdminTokensResponse}
  {O3 : JSONCodec reservationSummary} {O4 : JSONCodec listReservationsResponse}
  {O5 : JSONCodec accessPolicySummary} {O6 : JSONCodec listAccessPoliciesResponse}
  {O7 : JSONCodec customDomainSummary} {O8 : JSONCodec listCustomDomainsResponse} {O9 : JSONCodec json_map}.

(** ** Admin tokens *)
Definition createAdminToken (c : tokenAdminClient) (req : createAdminTokenRequest) : CLI W createdAdminToken :=
  client_get c "POST" "/api/v1/admin-tokens" (Some (encode_line req)).
Definition listAdminTokens (c : tokenAdminClient) : CLI W listAdminTokensResponse :=
  client_get c "GET" "/api/v1/admin-tokens" None.
Definition revokeAdminToken (c : tokenAdminClient) (id : string) : CLI W unit :=
  perform _ <- client_do c "DELETE" ("/api/v1/admin-tokens/" +:+ PathEscape id) None; lift (Ok ()).

Definition printCreatedAdminToken (t : createdAdminToken) : list output :=
  [Line ("Created admin token " +:+ cad_ID t); Line ("Name: " +:+ cad_Name t);
   Line ("Scopes: " +:+ GoStrings.Join (cad_Scopes t) ","); Line ("Created: " +:+ time_Format (cad_CreatedAt t));
   Line ("Token: " +:+ cad_Token t); Line "The admin token is shown only once."].
Definition printAdminTokenList (tokens : list adminTokenSummary) : list output :=
  [Table (["ID"; "NAME"; "SCOPES"; "CREATED"; "LAST USED"; "REVOKED"]%string ::
     ((fun t => [ats_ID t; ats_Name t; GoStrings.Join (ats_Scopes t) ","; time_Format (ats_CreatedAt t);
                 optional_time time_Format (ats_LastUsedAt t); optional_time time_Format (ats_RevokedAt t)]) <$> tokens))].

Definition parseAdminTokenCreateConfig (stdin : Stdin) (args : list string)
    : result (tokenAdminConfig * createAdminTokenRequest) :=
  try sets <- parse_no_arg (newTokenAdminFlagSet ++ [StringVar "name"; Var "scope" stringListFlag_Set])
    "usage: porthook admin tokens create --control-plane URL --name NAME [--scope SCOPE] [--admin-token TOKEN | --admin-token-stdin]"
    args;
  let name := TrimSpace (string_flag sets "name" "") in
  if String.eqb name "" then Err (Errorf "admin token name is required") else
  try cfg <- finalizeTokenAdminConfig Getenv sets stdin;
  Ok (cfg, mkCreateAdminToken name (list_flag sets "scope")).
Definition parseAdminTokenListConfig (stdin : Stdin) (args : list string) : result tokenAdminConfig :=
  try sets <- parse_no_arg newTokenAdminFlagSet
    "usage: porthook admin tokens list --control-plane URL [--admin-token TOKEN | --admin-token-stdin]" args;
  finalizeTokenAdminConfig Getenv sets stdin.
Definition parseAdminTokenRevokeConfig (stdin : Stdin) (args : list string) : result (tokenAdminConfig * string) :=
  try (sets, id) <- parse_one_arg newTokenAdminFlagSet
    "usage: porthook admin tokens revoke --control-plane URL [--admin-token TOKEN | --admin-token-stdin] ADMIN_TOKEN_ID"
    "admin token id is required" args;
  try cfg <- finalizeTokenAdminConfig Getenv sets stdin;
  Ok (cfg, id).

Definition runAdminTokensCreate (stdin : Stdin) (args : list string) : CLI W (list output) :=
  perform (cfg, req) <- lift (parseAdminTokenCreateConfig stdin args);
  perform created <- createAdminToken (newTokenAdminClient cfg) req;
  lift (if jsonOutput cfg then writeJSONOutput created else Ok (printCreatedAdminToken created)).
Definition runAdminTokensList (stdin : Stdin) (args : list string) : CLI W (list output) :=
  perform cfg <- lift (parseAdminTokenListConfig stdin args);
  perform listed <- listAdminTokens (newTokenAdminClient cfg);
  lift (if jsonOutput cfg then writeJSONOutput listed else Ok (printAdminTokenList (lat_Tokens listed))).
Definition runAdminTokensRevoke (stdin : Stdin) (args : list string) : CLI W (list output) :=
  perform (cfg, id) <- lift (parseAdminTokenRevokeConfig stdin args);
  perform _ <- revokeAdminToken (newTokenAdminClient cfg) id;
  lift (if jsonOutput cfg then writeJSONOutput [("id", JString id); ("revoked", JBool true)]%string
        else Ok [Line ("Admin token revoked: " +:+ id)]).

Definition adminTokensUsageError : error := Errorf
"usage: porthook admin tokens create --control-plane URL --name NAME [--scope SCOPE] [--admin-token TOKEN | --admin-token-stdin] [--json]
       porthook admin tokens list --control-plane URL [--admin-token TOKEN | --admin-token-stdin] [--json]
       porthook admin tokens revoke --control-plane URL [--admin-token TOKEN | --admin-token-stdin] ADMIN_TOKEN_ID [--json]
       porthook admin tokens help".
Definition runAdminTokensCommand : Stdin -> list string -> CLI W (list output) :=
  command_table "admin tokens" adminTokensUsageError
    [("create", runAdminTokensCreate); ("list", runAdminTokensList); ("revoke", runAdminTokensRevoke)]%string.

Definition adminUsageError : error := Errorf
"usage: porthook admin tokens <create|list|revoke> [options]
       porthook admin help".
Definition runAdminCommand (stdin : Stdin) (args : list string) : CLI W (list output) :=
  match args with
  | [] => lift (Err adminUsageError)
  | a :: rest =>
      if String.eqb a "tokens" then runAdminTokensCommand stdin rest
      else if help_word a then lift (Ok [Help "admin"]) else lift (Err adminUsageError)
  end.

(** ** Reserved subdomains *)
Definition createReservation (c : tokenAdminClient) (req : createReservationRequest) : CLI W createdReservation :=
  client_get (R := R3) c "POST" "/api/v1/reserved-subdomains" (Some (encode_line req)).
Definition listReservations (c : tokenAdminClient) : CLI W listReservationsResponse :=
  client_get c "GET" "/api/v1/reserved-subdomains" None.
Definition deleteReservation (c : tokenAdminClient) (id : string) : CLI W unit :=
  perform _ <- client_do c "DELETE" ("/api/v1/reserved-subdomains/" +:+ PathEscape id) None; lift (Ok ()).

(** An id is taken as it is; a name is looked up in the list. *)
Definition resolveReservationDeleteTarget (c : tokenAdminClient) (target : string) : CLI W reservationSummary :=
  if HasPrefix target "rs_" then lift (Ok (mkReservationSummary target "" "" 0)) else
  perform listed <- listReservations c;
  lift (match List.find (fun r => String.eqb (rs_Name r) (ToLower (TrimSpace target))) (lr_ReservedSubdomains listed) with
        | Some r => Ok r
        | None => Err (Errorf ("reserved subdomain " +:+ Quote target +:+ " was not found"))
        end).

Definition printCreatedReservation (r : createdReservation) : list output :=
  [Line ("Created reserved subdomain " +:+ rs_ID r); Line ("Name: " +:+ rs_Name r);
   Line ("Token ID: " +:+ rs_TokenID r); Line ("Created: " +:+ time_Format (rs_CreatedAt r))].
Definition printReservationList (l : list reservationSummary) : list output :=
  [Table (["ID"; "NAME"; "TOKEN ID"; "CREATED"]%string ::
     ((fun r => [rs_ID r; rs_Name r; rs_TokenID r; time_Format (rs_CreatedAt r)]) <$> l))].

Definition parseReservationCreateConfig (stdin : Stdin) (args : list string)
    : result (tokenAdminConfig * createReservationRequest) :=
  try sets <- parse_no_arg (newTokenAdminFlagSet ++ [StringVar "name"; StringVar "token-id"])
    "usage: porthook reserved create --control-plane URL --name NAME --token-id TOKEN_ID [--admin-token TOKEN | --admin-token-stdin]"
    args;
  let name := TrimSpace (string_flag sets "name" "") in
  if String.eqb name "" then Err (Errorf "reserved subdomain name is required") else
  let tokenID := TrimSpace (string_flag sets "token-id" "") in
  if String.eqb tokenID "" then Err (Errorf "token ID is required") else
  try cfg <- finalizeTokenAdminConfig Getenv sets stdin;
  Ok (cfg, mkCreateReservationCLI name tokenID).
Definition parseReservationListConfig (stdin : Stdin) (args : list string) : result tokenAdminConfig :=
  try sets <- parse_no_arg newTokenAdminFlagSet
    "usage: porthook reserved list --control-plane URL [--admin-token TOKEN | --admin-token-stdin]" args;
  finalizeTokenAdminConfig Getenv sets stdin.
Definition parseReservationDeleteConfig (stdin : Stdin) (args : list string) : result (tokenAdminConfig * string) :=
  try (sets, target) <- parse_one_arg newTokenAdminFlagSet
    "usage: porthook reserved delete --control-plane URL [--admin-token TOKEN | --admin-token-stdin] ID_OR_NAME"
    "reserved subdomain id or name is required" args;
  try cfg <- finalizeTokenAdminConfig Getenv sets stdin;
  Ok (cfg, target).

Definition runReservedCreate (stdin : Stdin) (args : list string) : CLI W (list output) :=
  perform (cfg, req) <- lift (parseReservationCreateConfig stdin args);
  perform created <- createReservation (newTokenAdminClient cfg) req;
  lift (if jsonOutput cfg then writeJSONOutput (J := O3) created else Ok (printCreatedReservation created)).
Definition runReservedList (stdin : Stdin) (args : list string) : CLI W (list output) :=
  perform cfg <- lift (parseReservationListConfig stdin args);
  perform listed <- listReservations (newTokenAdminClient cfg);
  lift (if jsonOutput cfg then writeJSONOutput listed else Ok (printReservationList (lr_ReservedSubdomains listed))).

(** What a deletion says: with the name when it is known. *)
Definition deleted_output (json : bool) (what key id name : string) : result (list output) :=
  if json then writeJSONOutput [("id", JString id); (key, JString name); ("deleted", JBool true)]%string
  else if negb (String.eqb name "") then Ok [Line (what +:+ " deleted: " +:+ name +:+ " (" +:+ id +:+ ")")]
  else Ok [Line (what +:+ " deleted: " +:+ id)].

Definition runReservedDelete (stdin : Stdin) (args : list string) : CLI W (list output) :=
  perform (cfg, target) <- lift (parseReservationDeleteConfig stdin args);
  perform deleted <- resolveReservationDeleteTarget (newTokenAdminClient cfg) target;
  perform _ <- deleteReservation (newTokenAdminClient cfg) (rs_ID deleted);
  lift (deleted_output (jsonOutput cfg) "Reserved subdomain" "name" (rs_ID deleted) (rs_Name deleted)).

Definition reservedUsageError : error := Errorf
"usage: porthook reserved create --control-plane URL --name NAME --token-id TOKEN_ID [--admin-token TOKEN | --admin-token-stdin] [--json]
       porthook reserved list --control-plane URL [--admin-token TOKEN | --admin-token-stdin] [--json]
       porthook reserved delete --control-plane URL [--admin-token TOKEN | --admin-token-stdin] ID_OR_NAME [--json]
       porthook reserved help".
Definition runReservedCommand : Stdin -> list string -> CLI W (list output) :=
  command_table "reserved" reservedUsageError
    [("create", runReservedCreate); ("list", runReservedList); ("delete", runReservedDelete)]%string.

(** ** Access policies *)
Record accessPolicyConfig := mkPolicyConfig {
  ap_admin : tokenAdminConfig; ap_mode : string; ap_basicUsername : string; ap_basicPassword : string;
  ap_bearerToken : string; ap_ipAllowlist : list string;
}.

Definition newAccessPolicyFlagSet : FlagSet :=
  newTokenAdminFlagSet ++
  [StringVar "mode"; StringVar "basic-username"; StringVar "basic-password"; BoolVar "basic-password-stdin";
   StringVar "bearer-token"; BoolVar "bearer-token-stdin"; Var "ip-allowlist" ipAllowlistFlag_Set].

(** A secret of a policy: from standard input when asked for, else the flag. *)
Definition policy_secret (sets : list assignment) (stdin : Stdin) (name flag : string) : result string :=
  if bool_flag sets (flag +:+ "-stdin") then
    readTokenInput (mkTokenInput "" true stdin name ("--" +:+ flag) ("--" +:+ flag +:+ "-stdin"))
  else Ok (TrimSpace (string_flag sets flag "")).

Definition finalizeAccessPolicyConfig (sets : list assignment) (stdin : Stdin) (requireMode : bool)
    : result accessPolicyConfig :=
  let given flag := negb (String.eqb (TrimSpace (string_flag sets flag "")) "") in
  let password_stdin := bool_flag sets "basic-password-stdin" in
  let bearer_stdin := bool_flag sets "bearer-token-stdin" in
  if given "basic-password"%string && password_stdin
  then Err (Errorf "--basic-password and --basic-password-stdin are mutually exclusive")
  else if given "bearer-token"%string && bearer_stdin
  then Err (Errorf "--bearer-token and --bearer-token-stdin are mutually exclusive")
  else if password_stdin && bearer_stdin
  then Err (Errorf "--basic-password-stdin and --bearer-token-stdin are mutually exclusive")
  else if bool_flag sets "admin-token-stdin" && (password_stdin || bearer_stdin)
  then Err (Errorf "--admin-token-stdin cannot be combined with policy secret stdin flags")
  else
    try cfg <- finalizeTokenAdminConfig Getenv sets stdin;
    let mode := TrimSpace (string_flag sets "mode" "") in
    if requireMode && String.eqb mode "" then Err (Errorf "access policy mode is required") else
    try password <- policy_secret sets stdin "basic password" "basic-password";
    try bearer <- policy_secret sets stdin "bearer token" "bearer-token";
    Ok (mkPolicyConfig cfg mode (TrimSpace (string_flag sets "basic-username" "")) password bearer
          (list_flag sets "ip-allowlist")).

Definition createAccessPolicy (c : tokenAdminClient) (req : accessPolicyRequest) : CLI W accessPolicySummary :=
  client_get c "POST" "/api/v1/access-policies" (Some (encode_line req)).
Definition listAccessPolicies (c : tokenAdminClient) : CLI W listAccessPoliciesResponse :=
  client_get c "GET" "/api/v1/access-policies" None.
Definition updateAccessPolicy (c : tokenAdminClient) (id : string) (req : accessPolicyRequest) : CLI W accessPolicySummary :=
  client_get c "PUT" ("/api/v1/access-policies/" +:+ PathEscape id) (Some (encode_line req)).
Definition deleteAccessPolicy (c : tokenAdminClient) (id : string) : CLI W unit :=
  perform _ <- client_do c "DELETE" ("/api/v1/access-policies/" +:+ PathEscape id) None; lift (Ok ()).

Definition printAccessPolicy (prefix : string) (p : accessPolicySummary) : list output :=
  [Line (prefix +:+ " " +:+ aps_ID p); Line ("Reserved subdomain ID: " +:+ aps_ReservedSubdomainID p);
   Line ("Mode: " +:+ aps_Mode p)] ++
  (if negb (String.eqb (aps_BasicUsername p) "") then [Line ("Basic username: " +:+ aps_BasicUsername p)] else []) ++
  (match aps_IPAllowlist p with [] => [] | l => [Line ("IP allowlist: " +:+ GoStrings.Join l ",")] end) ++
  [Line ("Secret configured: " +:+ bool_text (aps_SecretConfigured p));
   Line ("Updated: " +:+ time_Format (aps_UpdatedAt p))].
Definition printAccessPolicyList (l : list accessPolicySummary) : list output :=
  [Table (["ID"; "RESERVED SUBDOMAIN ID"; "MODE"; "BASIC USERNAME"; "SECRET"; "IP ALLOWLIST"; "UPDATED"]%string ::
     ((fun p => [aps_ID p; aps_ReservedSubdomainID p; aps_Mode p;
                 if String.eqb (aps_BasicUsername p) "" then "-"%string else aps_BasicUsername p;
                 bool_text (aps_SecretConfigured p);
                 match aps_IPAllowlist p with [] => "-"%string | l => GoStrings.Join l "," end;
                 time_Format (aps_UpdatedAt p)]) <$> l))].

Definition parseAccessCreateConfig (stdin : Stdin) (args : list string) : result (accessPolicyConfig * string) :=
  try sets <- parse_no_arg (newAccessPolicyFlagSet ++ [StringVar "reserved-subdomain-id"])
    "usage: porthook access create --control-plane URL --reserved-subdomain-id ID --mode MODE [policy options] [--admin-token TOKEN | --admin-token-stdin]"
    args;
  let reservedSubdomainID := TrimSpace (string_flag sets "reserved-subdomain-id" "") in
  if String.eqb reservedSubdomainID "" then Err (Errorf "reserved subdomain ID is required")
  else if String.eqb (TrimSpace (string_flag sets "mode" "")) "" then Err (Errorf "access policy mode is required")
  else try cfg <- finalizeAccessPolicyConfig sets stdin true; Ok (cfg, reservedSubdomainID).
Definition parseAccessListConfig (stdin : Stdin) (args : list string) : result tokenAdminConfig :=
  try sets <- parse_no_arg newTokenAdminFlagSet
    "usage: porthook access list --control-plane URL [--admin-token TOKEN | --admin-token-stdin]" args;
  finalizeTokenAdminConfig Getenv sets stdin.
Definition parseAccessUpdateConfig (stdin : Stdin) (args : list string) : result (accessPolicyConfig * string) :=
  try (sets, id) <- parse_one_arg newAccessPolicyFlagSet
    "usage: porthook access update --control-plane URL [--admin-token TOKEN | --admin-token-stdin] [policy options] POLICY_ID"
    "access policy ID is required" args;
  try cfg <- finalizeAccessPolicyConfig sets stdin false; Ok (cfg, id).
Definition parseAccessDeleteConfig (stdin : Stdin) (args : list string) : result (tokenAdminConfig * string) :=
  try (sets, id) <- parse_one_arg newTokenAdminFlagSet
    "usage: porthook access delete --control-plane URL [--admin-token TOKEN | --admin-token-stdin] POLICY_ID"
    "access policy ID is required" args;
  try cfg <- finalizeTokenAdminConfig Getenv sets stdin; Ok (cfg, id).

Definition policy_request (cfg : accessPolicyConfig) (reservedSubdomainID : string) : accessPolicyRequest :=
  mkPolicyRequest reservedSubdomainID (ap_mode cfg) (ap_basicUsername cfg) (ap_basicPassword cfg)
    (ap_bearerToken cfg) (ap_ipAllowlist cfg).

Definition runAccessCreate (stdin : Stdin) (args : list string) : CLI W (list output) :=
  perform (cfg, reservedSubdomainID) <- lift (parseAccessCreateConfig stdin args);
  perform created <- createAccessPolicy (newTokenAdminClient (ap_admin cfg)) (policy_request cfg reservedSubdomainID);
  lift (if jsonOutput (ap_admin cfg) then writeJSONOutput created
        else Ok (printAccessPolicy "Created access policy" created)).
Definition runAccessList (stdin : Stdin) (args : list string) : CLI W (list output) :=
  perform cfg <- lift (parseAccessListConfig stdin args);
  perform listed <- listAccessPolicies (newTokenAdminClient cfg);
  lift (if jsonOutput cfg then writeJSONOutput listed else Ok (printAccessPolicyList (lap_AccessPolicies listed))).
Definition runAccessUpdate (stdin : Stdin) (args : list string) : CLI W (list output) :=
  perform (cfg, id) <- lift (parseAccessUpdateConfig stdin args);
  perform updated <- updateAccessPolicy (newTokenAdminClient (ap_admin cfg)) id (policy_request cfg "");
  lift (if jsonOutput (ap_admin cfg) then writeJSONOutput updated
        else Ok (printAccessPolicy "Updated access policy" updated)).
Definition runAccessDelete (stdin : Stdin) (args : list string) : CLI W (list output) :=
  perform (cfg, id) <- lift (parseAccessDeleteConfig stdin args);
  perform _ <- deleteAccessPolicy (newTokenAdminClient cfg) id;
  lift (if jsonOutput cfg then writeJSONOutput [("id", JString id); ("deleted", JBool true)]%string
        else Ok [Line ("Access policy deleted: " +:+ id)]).

Definition accessUsageError : error := Errorf
"usage: porthook access create --control-plane URL --reserved-subdomain-id ID --mode MODE [policy options] [--admin-token TOKEN | --admin-token-stdin] [--json]
       porthook access list --control-plane URL [--admin-token TOKEN | --admin-token-stdin] [--json]
       porthook access update --control-plane URL [--admin-token TOKEN | --admin-token-stdin] [policy options] POLICY_ID [--json]
       porthook access delete --control-plane URL [--admin-token TOKEN | --admin-token-stdin] POLICY_ID [--json]
       porthook access help".
Definition runAccessCommand : Stdin -> list string -> CLI W (list output) :=
  command_table "access" accessUsageError
    [("create", runAccessCreate); ("list", runAccessList); ("update", runAccessUpdate);
     ("delete", runAccessDelete)]%string.

(** ** Custom domains *)
Definition createCustomDomain (c : tokenAdminClient) (req : createCustomDomainRequest) : CLI W customDomainSummary :=
  client_get c "POST" "/api/v1/custom-domains" (Some (encode_line req)).
Definition listCustomDomains (c : tokenAdminClient) : CLI W listCustomDomainsResponse :=
  client_get c "GET" "/api/v1/custom-domains" None.
Definition verifyCustomDomain (c : tokenAdminClient) (id : string) : CLI W customDomainSummary :=
  client_get c "POST" ("/api/v1/custom-domains/" +:+ PathEscape id +:+ "/verify") None.
Definition deleteCustomDomain (c : tokenAdminClient) (id : string) : CLI W unit :=
  perform _ <- client_do c "DELETE" ("/api/v1/custom-domains/" +:+ PathEscape id) None; lift (Ok ()).

Definition resolveCustomDomainTarget (c : tokenAdminClient) (target : string) : CLI W customDomainSummary :=
  if HasPrefix target "cd_" then lift (Ok (mkDomainSummaryCLI target "" "" "" "" "" None 0 0)) else
  perform listed <- listCustomDomains c;
  lift (match List.find (fun d => String.eqb (cds_Hostname d) (normalizeDomainTarget target)) (lcd_CustomDomains listed) with
        | Some d => Ok d
        | None => Err (Errorf ("custom domain " +:+ Quote target +:+ " was not found"))
        end).

Definition printCustomDomain (prefix : string) (d : customDomainSummary) : list output :=
  [Line (prefix +:+ " " +:+ cds_ID d); Line ("Hostname: " +:+ cds_Hostname d);
   Line ("Reserved subdomain ID: " +:+ cds_ReservedSubdomainID d); Line ("Status: " +:+ cds_Status d)] ++
  (if negb (String.eqb (cds_VerificationName d) "")
   then [Line ("Verification TXT name: " +:+ cds_VerificationName d)] else []) ++
  (if negb (String.eqb (cds_VerificationToken d) "")
   then [Line ("Verification TXT value: porthook-domain-verification=" +:+ cds_VerificationToken d)] else []) ++
  (match cds_VerifiedAt d with Some t => [Line ("Verified: " +:+ time_Format t)] | None => [] end) ++
  [Line ("Updated: " +:+ time_Format (cds_UpdatedAt d))].
Definition customDomainVerificationSummary (d : customDomainSummary) : string :=
  match cds_VerifiedAt d with
  | Some t => time_Format t
  | None =>
      if negb (String.eqb (cds_VerificationName d) "") then cds_VerificationName d
      else if String.eqb (cds_Status d) "active" then "active" else "-"
  end.
Definition printCustomDomainList (l : list customDomainSummary) : list output :=
  [Table (["ID"; "HOSTNAME"; "RESERVED SUBDOMAIN ID"; "STATUS"; "VERIFICATION"; "UPDATED"]%string ::
     ((fun d => [cds_ID d; cds_Hostname d; cds_ReservedSubdomainID d; cds_Status d;
                 customDomainVerificationSummary d; time_Format (cds_UpdatedAt d)]) <$> l))].

Definition parseDomainCreateConfig (stdin : Stdin) (args : list string)
    : result (tokenAdminConfig * createCustomDomainRequest) :=
  try sets <- parse_no_arg (newTokenAdminFlagSet ++ [StringVar "hostname"; StringVar "reserved-subdomain-id"])
    "usage: porthook domains create --control-plane URL --hostname HOSTNAME --reserved-subdomain-id ID [--admin-token TOKEN | --admin-token-stdin]"
    args;
  let hostname := TrimSpace (string_flag sets "hostname" "") in
  if String.eqb hostname "" then Err (Errorf "custom domain hostname is required") else
  let reservedSubdomainID := TrimSpace (string_flag sets "reserved-subdomain-id" "") in
  if String.eqb reservedSubdomainID "" then Err (Errorf "reserved subdomain ID is required") else
  try cfg <- finalizeTokenAdminConfig Getenv sets stdin;
  Ok (cfg, mkCreateDomainCLI hostname reservedSubdomainID).
Definition parseDomainListConfig (stdin : Stdin) (args : list string) : result tokenAdminConfig :=
  try sets <- parse_no_arg newTokenAdminFlagSet
    "usage: porthook domains list --control-plane URL [--admin-token TOKEN | --admin-token-stdin]" args;
  finalizeTokenAdminConfig Getenv sets stdin.
Definition parseDomainDeleteConfig (stdin : Stdin) (args : list string) : result (tokenAdminConfig * string) :=
  try (sets, target) <- parse_one_arg newTokenAdminFlagSet
    "usage: porthook domains delete --control-plane URL [--admin-token TOKEN | --admin-token-stdin] ID_OR_HOSTNAME"
    "custom domain id or hostname is required" args;
  try cfg <- finalizeTokenAdminConfig Getenv sets stdin; Ok (cfg, target).
Definition parseDomainVerifyConfig (stdin : Stdin) (args : list string) : result (tokenAdminConfig * string) :=
  try (sets, target) <- parse_one_arg newTokenAdminFlagSet
    "usage: porthook domains verify --control-plane URL [--admin-token TOKEN | --admin-token-stdin] ID_OR_HOSTNAME"
    "custom domain id or hostname is required" args;
  try cfg <- finalizeTokenAdminConfig Getenv sets stdin; Ok (cfg, target).

Definition runDomainCreate (stdin : Stdin) (args : list string) : CLI W (list output) :=
  perform (cfg, req) <- lift (parseDomainCreateConfig stdin args);
  perform created <- createCustomDomain (newTokenAdminClient cfg) req;
  lift (if jsonOutput cfg then writeJSONOutput created else Ok (printCustomDomain "Created custom domain" created)).
Definition runDomainList (stdin : Stdin) (args : list string) : CLI W (list output) :=
  perform cfg <- lift (parseDomainListConfig stdin args);
  perform listed <- listCustomDomains (newTokenAdminClient cfg);
  lift (if jsonOutput cfg then writeJSONOutput listed else Ok (printCustomDomainList (lcd_CustomDomains listed))).
Definition runDomainDelete (stdin : Stdin) (args : list string) : CLI W (list output) :=
  perform (cfg, target) <- lift (parseDomainDeleteConfig stdin args);
  perform deleted <- resolveCustomDomainTarget (newTokenAdminClient cfg) target;
  perform _ <- deleteCustomDomain (newTokenAdminClient cfg) (cds_ID deleted);
  lift (deleted_output (jsonOutput cfg) "Custom domain" "hostname" (cds_ID deleted) (cds_Hostname deleted)).
Definition runDomainVerify (stdin : Stdin) (args : list string) : CLI W (list output) :=
  perform (cfg, target) <- lift (parseDomainVerifyConfig stdin args);
  perform domain <- resolveCustomDomainTarget (newTokenAdminClient cfg) target;
  perform verified <- verifyCustomDomain (newTokenAdminClient cfg) (cds_ID domain);
  lift (if jsonOutput cfg then writeJSONOutput verified else Ok (printCustomDomain "Verified custom domain" verified)).

Definition domainsUsageError : error := Errorf
"usage: porthook domains create --control-plane URL --hostname HOSTNAME --reserved-subdomain-id ID [--admin-token TOKEN | --admin-token-stdin] [--json]
       porthook domains list --control-plane URL [--admin-token TOKEN | --admin-token-stdin] [--json]
       porthook domains verify --control-plane URL [--admin-token TOKEN | --admin-token-stdin] ID_OR_HOSTNAME [--json]
       porthook domains delete --control-plane URL [--admin-token TOKEN | --admin-token-stdin] ID_OR_HOSTNAME [--json]
       porthook domains help".
Definition runDomainsCommand : Stdin -> list string -> CLI W (list output) :=
  command_table "domains" domainsUsageError
    [("create", runDomainCreate); ("list", runDomainList); ("verify", runDomainVerify);
     ("delete", runDomainDelete)]%string.
End commands.
