(* ===== verification/CliGateway.v ===== *)
(** agent/cmd/porthook/tunnels.go, doctor.go and history.go: the commands that
    look at a running system through the control plane.

    The clock is read from the world, so the duration of a check is the time
    its request took.  [encoding/json]'s untyped values are the type [Any]. *)
From S2P Require Import Prelude GoStrings Messages Wire ServeMux ControlPlaneConfig Flags Cli CliAdmin.
From Stdlib Require Import ZArith Lia List String Ascii Bool.
From stdpp Require Import base gmap strings list sorting.

Open Scope Z_scope.

(** * Durations *)
Definition minute : Duration := 60 * second.
Definition hour : Duration := 60 * minute.
Definition max_duration : Duration := max_int64.

(** [Duration.Round(time.Second)] of a positive duration: half away from zero,
    saturating at the largest duration. *)
Definition Round_second (d : Duration) : Duration :=
  let r := d mod second in
  if r + r <? second then d - r
  else let d1 := int64 (d + second - r) in if d <? d1 then d1 else max_duration.

(** The decimals of a fraction of nine digits, without trailing zeros. *)
Fixpoint drop_zeros (l : bytes) : bytes :=
  match l with "0"%char :: l => drop_zeros l | _ => l end.
Definition fraction (nanos : Z) : string :=
  if nanos =? 0 then "" else
  let digits := to_bytes (Itoa (10 ^ 9 + nanos)) in
  "." +:+ of_bytes (rev (drop_zeros (rev (tail digits)))).

(** [Duration.String] of zero and of durations of at least a second. *)
Definition Duration_String (d : Duration) : string :=
  if d =? 0 then "0s" else
  let secs := d / second in
  let s := Itoa (secs mod 60) +:+ fraction (d mod second) +:+ "s" in
  let m := secs / 60 in
  if m =? 0 then s
  else let h := m / 60 in
       if h =? 0 then Itoa m +:+ "m" +:+ s else Itoa h +:+ "h" +:+ Itoa (m mod 60) +:+ "m" +:+ s.

Definition formatTunnelDuration (value : Duration) : string :=
  if value <=? 0 then "0s" else Duration_String (Round_second value).

(** * tunnels.go *)
Record tunnelSummaryCLI := mkTunnelSummary {
  ts_TunnelID : string; ts_Subdomain : string; ts_PublicURL : string; ts_Protocol : string; ts_ConnectedAt : Time;
}.
Record listTunnelsResponse := mkListTunnels { ltr_Tunnels : list tunnelSummaryCLI }.
Record tunnelRequestRecent := mkRecent {
  rr_Count : Z; rr_LastRequestAt : option Time; rr_LastStatus : Z; rr_LastOutcome : string;
  rr_LastRequestID : string; rr_ErrorCount : Z; rr_CustomDomains : list string;
}.
Record tunnelDetailCLI := mkTunnelDetail {
  tl_TunnelID : string; tl_Subdomain : string; tl_PublicURL : string; tl_Protocol : string;
  tl_AgentVersion : string; tl_ProtocolVersion : string; tl_ConnectedAt : Time; tl_ConnectedSeconds : Z;
  tl_ActiveStreams : Z; tl_StreamCapacity : Z; tl_RecentRequests : tunnelRequestRecent;
}.
Record showTunnelResponse := mkShowTunnel { st_Tunnel : tunnelDetailCLI }.

Definition defaultString (value fallback : string) : string := if String.eqb value "" then fallback else value.
Definition defaultTunnelAPITimeout : Duration := 10 * second.

Record tunnelAPIClient := mkTunnelClient {
  tc_baseURL : string; tc_apiPrefix : string; tc_adminToken : string; tc_timeout : Duration;
}.
Definition newTunnelAPIClient (cfg : tokenAdminConfig) (timeout : Duration) : tunnelAPIClient :=
  mkTunnelClient (controlPlaneURL cfg) "/api/v1/gateway" (adminToken cfg) timeout.

Section tunnels.
Context {D : GoDuration} {W : Type} {C : HTTPClient W} {GU : GoURL}.
Context (Getenv : string -> string) (time_Format : Time -> string) (version : string).
Context {R1 : ResponseJSON listTunnelsResponse} {R2 : ResponseJSON showTunnelResponse}.
Context {O1 : JSONCodec listTunnelsResponse} {O2 : JSONCodec showTunnelResponse}.

Definition formatTunnelTime (t : Time) : string := if IsZero t then "-" else time_Format t.

Definition gatewayAPIStatusError (status : Z) (message : string) : error :=
  let message := TrimSpace message in
  let message := if String.eqb message "" then StatusText status else message in
  Errorf ("gateway returned status " +:+ Itoa status +:+ ": " +:+ message).

Definition bad_status (status : Z) : bool := (status <? 200) || (300 <=? status).

(** A GET of the operator API as [tunnelAPIClient] makes it. *)
Definition tunnel_request (c : tunnelAPIClient) (path accept agent : string) : httpRequest :=
  let header := Header_Set ∅ "Accept" accept in
  let header := if String.eqb (tc_adminToken c) "" then header
                else Header_Set header "Authorization" ("Bearer " +:+ tc_adminToken c) in
  mkHttpRequest "GET" (tc_baseURL c +:+ path) (Header_Set header "User-Agent" ("porthook/" +:+ version +:+ " " +:+ agent)) [].
Definition tunnel_fetch (c : tunnelAPIClient) (path accept agent : string) : CLI W httpResponse :=
  perform _ <- lift (match NewRequest "GET" (tc_baseURL c +:+ path) with Some e => Err e | None => Ok () end);
  perform resp <- Do (tc_timeout c) (tunnel_request c path accept agent);
  lift (if bad_status (hp_Status resp)
        then Err (gatewayAPIStatusError (hp_Status resp) (readLimitedString (hp_Body resp) 4096)) else Ok resp).

(** The value of a 2xx answer; an empty body leaves the zero value. *)
Definition decode_body {T} {R : ResponseJSON T} (what : string) (resp : httpResponse) : result T :=
  match decode_response (hp_Body resp) (hp_End resp) with
  | Ok t => Ok t
  | Err e => if errors_Is e EOF then Ok zero_value else Err (Wrap ("decode " +:+ what +:+ "response") e)
  end.
Definition tunnel_do {T} {R : ResponseJSON T} (c : tunnelAPIClient) (path : string) : CLI W T :=
  perform resp <- tunnel_fetch c path "application/json" "tunnels"; lift (decode_body "gateway " resp).

Definition listTunnels (c : tunnelAPIClient) : CLI W listTunnelsResponse := tunnel_do c (tc_apiPrefix c +:+ "/tunnels").
Definition showTunnel (c : tunnelAPIClient) (id : string) : CLI W showTunnelResponse :=
  tunnel_do c (tc_apiPrefix c +:+ "/tunnels/" +:+ PathEscape id).

Definition printTunnelList (l : list tunnelSummaryCLI) : list output :=
  [Table (["SUBDOMAIN"; "TUNNEL ID"; "PUBLIC URL"; "PROTOCOL"; "CONNECTED"]%string ::
     ((fun t => [ts_Subdomain t; ts_TunnelID t; ts_PublicURL t; defaultString (ts_Protocol t) "http";
                 formatTunnelTime (ts_ConnectedAt t)]) <$> l))].

Definition printTunnelDetail (t : tunnelDetailCLI) : list output :=
  let recent := tl_RecentRequests t in
  [Line ("Tunnel: " +:+ tl_TunnelID t); Line ("Subdomain: " +:+ tl_Subdomain t); Line ("Public URL: " +:+ tl_PublicURL t);
   Line ("Protocol: " +:+ defaultString (tl_Protocol t) "http");
   Line ("Agent version: " +:+ defaultString (tl_AgentVersion t) "-");
   Line ("Protocol version: " +:+ defaultString (tl_ProtocolVersion t) "-");
   Line ("Connected: " +:+ formatTunnelTime (tl_ConnectedAt t));
   Line ("Uptime: " +:+ formatTunnelDuration (int64 (tl_ConnectedSeconds t * second)));
   Line ("Streams: " +:+ Itoa (tl_ActiveStreams t) +:+ "/" +:+ Itoa (tl_StreamCapacity t));
   Line ("Recent requests: " +:+ Itoa (rr_Count recent)); Line ("Recent errors: " +:+ Itoa (rr_ErrorCount recent));
   Line (match rr_LastRequestAt recent with
         | Some at_ => "Last request: " +:+ time_Format at_ +:+ " status=" +:+ Itoa (rr_LastStatus recent) +:+
             " outcome=" +:+ defaultString (rr_LastOutcome recent) "-" +:+ " id=" +:+
             defaultString (rr_LastRequestID recent) "-"
         | None => "Last request: -"
         end);
   Line ("Custom domains: " +:+ defaultString (GoStrings.Join (rr_CustomDomains recent) ",") "-")].

Definition newTunnelFlagSet : FlagSet := newTokenAdminFlagSet ++ [DurationVar "timeout"].
Definition finalizeTunnelCLIConfig (sets : list assignment) (stdin : Stdin) : result (tokenAdminConfig * Duration) :=
  try cfg <- finalizeTokenAdminConfig Getenv sets stdin;
  let timeout := duration_flag sets "timeout" defaultTunnelAPITimeout in
  if timeout <=? 0 then Err (Errorf "timeout must be positive") else Ok (cfg, timeout).

Definition parseTunnelListConfig (stdin : Stdin) (args : list string) : result (tokenAdminConfig * Duration) :=
  try sets <- parse_no_arg newTunnelFlagSet
    "usage: porthook tunnels list --control-plane URL [--admin-token TOKEN | --admin-token-stdin] [--timeout DURATION] [--json]"
    args;
  finalizeTunnelCLIConfig sets stdin.
Definition parseTunnelShowConfig (stdin : Stdin) (args : list string) : result (tokenAdminConfig * Duration * string) :=
  try (sets, id) <- parse_one_arg newTunnelFlagSet
    "usage: porthook tunnels show --control-plane URL [--admin-token TOKEN | --admin-token-stdin] [--timeout DURATION] TUNNEL_ID [--json]"
    "tunnel id is required" args;
  try cfg <- finalizeTunnelCLIConfig sets stdin; Ok (cfg, id).

Definition runTunnelsList (stdin : Stdin) (args : list string) : CLI W (list output) :=
  perform (cfg, timeout) <- lift (parseTunnelListConfig stdin args);
  perform listed <- listTunnels (newTunnelAPIClient cfg timeout);
  lift (if jsonOutput cfg then writeJSONOutput listed else Ok (printTunnelList (ltr_Tunnels listed))).
Definition runTunnelsShow (stdin : Stdin) (args : list string) : CLI W (list output) :=
  perform (cfg, timeout, id) <- lift (parseTunnelShowConfig stdin args);
  perform shown <- showTunnel (newTunnelAPIClient cfg timeout) id;
  lift (if jsonOutput cfg then writeJSONOutput shown else Ok (printTunnelDetail (st_Tunnel shown))).

Definition tunnelsUsageError : error := Errorf
"usage: porthook tunnels list --control-plane URL [--admin-token TOKEN | --admin-token-stdin] [--timeout DURATION] [--json]
       porthook tunnels show --control-plane URL [--admin-token TOKEN | --admin-token-stdin] [--timeout DURATION] TUNNEL_ID [--json]
       porthook tunnels help".
Definition runTunnelsCommand : Stdin -> list string -> CLI W (list output) :=
  command_table "tunnels" tunnelsUsageError [("list", runTunnelsList); ("show", runTunnelsShow)]%string.
End tunnels.

(** * doctor.go *)
Record doctorConfig := mkDoctorConfig {
  dc_controlPlaneURL : string; dc_adminToken : string; dc_timeout : Duration; dc_jsonOutput : bool;
}.
Record doctorCheck := mkCheck {
  dk_Name : string; dk_Component : string; dk_Method : string; dk_URL : string; dk_OK : bool; dk_Skipped : bool;
  dk_Status : Z; dk_RequestID : string; dk_DurationMS : Z; dk_Detail : string; dk_Error : string;
}.
Record doctorReport := mkReport { dr_OK : bool; dr_Checks : list doctorCheck }.
Record doctorControlPlaneStatus := mkCPStatus {
  cp_Status : string; cp_Ready : bool; cp_Version : string; cp_Error : string;
}.
Record doctorTunnelList := mkDoctorTunnels { dtl_Tunnels : list bytes }.
Record doctorAuditEventList := mkDoctorEvents { del_Events : list bytes }.
Record doctorRuntimeResponse := mkDoctorRuntime {
  rt_UptimeSeconds : Z; rt_ActiveTunnels : Z; rt_ActiveStreams : Z; rt_RequestLogEntries : Z; rt_RequestLogCapacity : Z;
}.
Record doctorRequestLogList := mkDoctorLogs { dll_RequestLogs : list bytes }.

Definition report_add (r : doctorReport) (check : doctorCheck) : doctorReport :=
  mkReport (dr_OK r && dk_OK check) (dr_Checks r ++ [check]).
Definition failedCount (r : doctorReport) : Z :=
  Z.of_nat (length (List.filter (fun c => negb (dk_OK c)) (dr_Checks r))).

(** [strings.TrimSpace], [strings.Fields] and at most 240 bytes. *)
Definition compactDoctorBody (body : bytes) : string :=
  let value := GoStrings.Join (Health.Fields (TrimSpace (of_bytes body))) " " in
  if 240 <? len value then of_bytes (take 240 (to_bytes value)) +:+ "..." else value.
Definition plainDoctorDetail (_ : Z) (body : bytes) : string := compactDoctorBody body.

Definition metricsDoctorDetail (_ : Z) (body : bytes) : string :=
  let counted line := let t := TrimSpace line in negb (String.eqb t "" || HasPrefix t "#") in
  let count := length (List.filter counted (Split (of_bytes body) (chr 10))) in
  "metrics=" +:+ Itoa (Z.of_nat count) +:+ " bytes=" +:+ Itoa (Z.of_nat (length body)).

Definition defaultDoctorTimeout : Duration := 5 * second.
Definition doctorUsageText : string :=
  "usage: porthook doctor --control-plane URL [--admin-token TOKEN | --admin-token-stdin] [--timeout DURATION] [--json]".

Section doctor.
Context {D : GoDuration} {W : Type} {C : HTTPClient W} {GU : GoURL}.
Context (Getenv : string -> string) (now : W -> Time) (version : string).
Context {J1 : JSONCodec doctorTunnelList} {J2 : JSONCodec doctorControlPlaneStatus} {J3 : JSONCodec doctorAuditEventList}
  {J4 : JSONCodec doctorRuntimeResponse} {J5 : JSONCodec doctorRequestLogList} {J6 : JSONCodec doctorReport}.

(** What decodes is summed up, what does not is shown. *)
Definition json_detail {T} {J : JSONCodec T} (summary : T -> string) (_ : Z) (body : bytes) : string :=
  match Unmarshal body with Ok t => summary t | Err _ => compactDoctorBody body end.
Definition counted_detail (what : string) (l : list bytes) : string := what +:+ "=" +:+ Itoa (Z.of_nat (length l)).
Definition tunnelsDoctorDetail : Z -> bytes -> string := json_detail (fun l => counted_detail "tunnels" (dtl_Tunnels l)).
Definition auditEventsDoctorDetail : Z -> bytes -> string := json_detail (fun l => counted_detail "events" (del_Events l)).
Definition requestLogsDoctorDetail : Z -> bytes -> string :=
  json_detail (fun l => counted_detail "request_logs" (dll_RequestLogs l)).
Definition controlPlaneStatusDoctorDetail : Z -> bytes -> string :=
  json_detail (fun s =>
    let part key value := if String.eqb value "" then [] else [(key +:+ "=" +:+ value)%string] in
    GoStrings.Join (part "status" (cp_Status s) ++ [("ready=" +:+ bool_text (cp_Ready s))%string] ++
                    part "version" (cp_Version s) ++ part "error" (cp_Error s)) " ").
Definition runtimeDoctorDetail : Z -> bytes -> string :=
  json_detail (fun p =>
    "active_tunnels=" +:+ Itoa (rt_ActiveTunnels p) +:+ " active_streams=" +:+ Itoa (rt_ActiveStreams p) +:+
    " request_logs=" +:+ Itoa (rt_RequestLogEntries p) +:+ "/" +:+ Itoa (rt_RequestLogCapacity p) +:+
    " uptime=" +:+ formatTunnelDuration (int64 (rt_UptimeSeconds p * second))).

Definition Milliseconds (d : Duration) : Z := Z.quot d 1000000.
Definition doctor_request (rawURL : string) (token : option string) : httpRequest :=
  let header := Header_Set ∅ "Accept" "application/json, text/plain;q=0.9, */*;q=0.1" in
  let header := Header_Set header "User-Agent" ("porthook/" +:+ version +:+ " doctor") in
  mkHttpRequest "GET" rawURL
    (match token with Some t => Header_Set header "Authorization" ("Bearer " +:+ t) | None => header end) [].

(** One check never fails the report: an error is part of it. *)
Definition runDoctorGET (cfg : doctorConfig) (component name path : string) (auth : bool)
    (detail : Z -> bytes -> string) (w : W) : doctorCheck * W :=
  let rawURL := dc_controlPlaneURL cfg +:+ path in
  let failed ms e := mkCheck name component "GET" rawURL false false 0 "" ms "" e in
  match NewRequest "GET" rawURL with
  | Some e => (failed (Milliseconds (time_Sub (now w) (now w))) ("build request: " +:+ error_message e), w)
  | None =>
      match Do (dc_timeout cfg) (doctor_request rawURL (if auth then Some (dc_adminToken cfg) else None)) w with
      | (Err e, w') => (failed (Milliseconds (time_Sub (now w') (now w))) (error_message e), w')
      | (Ok resp, w') =>
          let body := take 4096 (hp_Body resp) in
          let ok := (200 <=? hp_Status resp) && (hp_Status resp <? 300) in
          let text := detail (hp_Status resp) body in
          (mkCheck name component "GET" rawURL ok false (hp_Status resp)
             (TrimSpace (Header_Get (hp_Header resp) "X-Request-ID"))
             (Milliseconds (time_Sub (now w') (now w)))
             (if negb ok && String.eqb text "" then StatusText (hp_Status resp) else text) "", w')
      end
  end.

(** The questions of a report: component, name, path, whether they carry the
    admin token, and how the answer is summed up. *)
Definition doctor_checks : list (string * string * string * bool * (Z -> bytes -> string)) :=
  [("gateway", "health", "/api/v1/gateway/healthz", true, plainDoctorDetail);
   ("gateway", "readiness", "/api/v1/gateway/readyz", true, plainDoctorDetail);
   ("gateway", "tunnels API", "/api/v1/gateway/tunnels", true, tunnelsDoctorDetail);
   ("gateway", "runtime API", "/api/v1/gateway/runtime", true, runtimeDoctorDetail);
   ("gateway", "request logs API", "/api/v1/gateway/request-logs?limit=1", true, requestLogsDoctorDetail);
   ("gateway", "metrics", "/api/v1/gateway/metrics", true, metricsDoctorDetail);
   ("control-plane", "health", "/healthz", false, plainDoctorDetail);
   ("control-plane", "readiness", "/readyz", false, plainDoctorDetail);
   ("control-plane", "status API", "/api/v1/status", false, controlPlaneStatusDoctorDetail);
   ("control-plane", "audit events API", "/api/v1/events?limit=1", true, auditEventsDoctorDetail)]%string.

Fixpoint run_checks (cfg : doctorConfig) (checks : list (string * string * string * bool * (Z -> bytes -> string)))
    (report : doctorReport) (w : W) : doctorReport * W :=
  match checks with
  | [] => (report, w)
  | (component, name, path, auth, detail) :: rest =>
      let '(check, w') := runDoctorGET cfg component name path auth detail w in
      run_checks cfg rest (report_add report check) w'
  end.
Definition collectDoctorReport (cfg : doctorConfig) (w : W) : doctorReport * W :=
  run_checks cfg doctor_checks (mkReport true []) w.

Definition normalizeDoctorURL (raw label : string) : result string := check_base_url label raw.
Definition doctor_flags : FlagSet :=
  [StringVar "control-plane"; StringVar "admin-token"; BoolVar "admin-token-stdin"; DurationVar "timeout"; BoolVar "json"].

Definition parseDoctorConfig (stdin : Stdin) (args : list string) : result doctorConfig :=
  try sets <- parse_no_arg doctor_flags doctorUsageText args;
  let from_stdin := bool_flag sets "admin-token-stdin" in
  let token := string_flag sets "admin-token" (TrimSpace (Getenv "PORTHOOK_CONTROL_ADMIN_TOKEN")) in
  try base <- normalizeDoctorURL
    (TrimSpace (string_flag sets "control-plane" (TrimSpace (Getenv "PORTHOOK_CONTROL_PLANE_URL")))) "control-plane URL";
  let timeout := duration_flag sets "timeout" defaultDoctorTimeout in
  if timeout <=? 0 then Err (Errorf "timeout must be positive") else
  try adminToken <-
    (if from_stdin then
       readTokenInput (mkTokenInput (if visited sets "admin-token" then token else "") true stdin
                         "admin token" "--admin-token" "--admin-token-stdin")
     else Ok (TrimSpace token));
  if String.eqb adminToken "" then Err (Errorf "admin token is required; use --admin-token or --admin-token-stdin")
  else Ok (mkDoctorConfig base adminToken timeout (bool_flag sets "json")).

Definition check_row (c : doctorCheck) : list string :=
  let status : string := if dk_Status c =? 0 then "-" else Itoa (dk_Status c) in
  let duration : string :=
    if negb (dk_DurationMS c =? 0) || (negb (dk_Skipped c) && String.eqb (dk_Error c) "")
    then Itoa (dk_DurationMS c) +:+ "ms" else "-" in
  [if dk_Skipped c then "SKIP"%string else if dk_OK c then "OK"%string else "FAIL"%string;
   dk_Component c; dk_Name c; status; defaultString (dk_RequestID c) "-"; duration;
   if String.eqb (dk_Error c) "" then dk_Detail c else dk_Error c].
Definition printDoctorReport (r : doctorReport) : list output :=
  [Table (["RESULT"; "COMPONENT"; "CHECK"; "STATUS"; "REQUEST ID"; "DURATION"; "DETAIL"]%string ::
          (check_row <$> dr_Checks r))].

(** What is printed, and the error the process ends with: a report with failed
    checks is printed first. *)
Definition runDoctorCommand (stdin : Stdin) (args : list string) (w : W) : list output * option error * W :=
  match parseDoctorConfig stdin args with
  | Err e => ([], Some e, w)
  | Ok cfg =>
      let '(report, w') := collectDoctorReport cfg w in
      match (if dc_jsonOutput cfg then writeJSONOutput report else Ok (printDoctorReport report)) with
      | Err e => ([], Some e, w')
      | Ok out =>
          (out, if dr_OK report then None
                else Some (Errorf ("doctor found " +:+ Itoa (failedCount report) +:+ " failed check(s)")), w')
      end
  end.
End doctor.

(** * Properties of the doctor *)
Section doctor_properties.
Context {D : GoDuration} {W : Type} {C : HTTPClient W} {GU : GoURL}.
Context (Getenv : string -> string) (now : W -> Time) (version : string).
Context {J1 : JSONCodec doctorTunnelList} {J2 : JSONCodec doctorControlPlaneStatus} {J3 : JSONCodec doctorAuditEventList}
  {J4 : JSONCodec doctorRuntimeResponse} {J5 : JSONCodec doctorRequestLogList} {J6 : JSONCodec doctorReport}.

(** The world a check meets when the checks before it were made. *)
Definition check_request (cfg : doctorConfig) (path : string) (auth : bool) : httpRequest :=
  doctor_request version (dc_controlPlaneURL cfg +:+ path) (if auth then Some (dc_adminToken cfg) else None).
Fixpoint answers (cfg : doctorConfig) (checks : list (string * string * string * bool * (Z -> bytes -> string))) (w : W)
    : list (result httpResponse) :=
  match checks with
  | [] => []
  | (_, _, path, auth, _) :: rest =>
      match NewRequest "GET" (dc_controlPlaneURL cfg +:+ path) with
      | Some e => Err e :: answers cfg rest w
      | None => let '(r, w') := Do (dc_timeout cfg) (check_request cfg path auth) w in r :: answers cfg rest w'
      end
  end.
Definition succeeded (r : result httpResponse) : bool :=
  match r with Ok resp => negb (bad_status (hp_Status resp)) | Err _ => false end.

Definition asks (c : string * string * string * bool * (Z -> bytes -> string)) : string * string :=
  match c with (component, name, _, _, _) => (component, name) end.
Definition names (c : doctorCheck) : string * string := (dk_Component c, dk_Name c).

Lemma not_bad status : negb (bad_status status) = (200 <=? status) && (status <? 300).
Proof.
  unfold bad_status. rewrite negb_orb. f_equal.
  - rewrite Z.leb_antisym. done.
  - rewrite (Z.ltb_antisym 300 status). done.
Qed.

Lemma run_checks_spec cfg checks : forall report w,
  let '(r, _) := run_checks now version cfg checks report w in
  exists more, dr_Checks r = dr_Checks report ++ more /\ (names <$> more) = (asks <$> checks) /\
    (dk_OK <$> more) = (succeeded <$> answers cfg checks w) /\ dr_OK r = dr_OK report && forallb dk_OK more.
Proof.
  induction checks as [|[[[[component name] path] auth] detail] checks IH]; intros report w; cbn [run_checks answers].
  { exists []. by rewrite app_nil_r, andb_true_r. }
  unfold runDoctorGET. cbv zeta. unfold check_request.
  destruct (NewRequest "GET" _) as [e|]; [|destruct (Do _ _ w) as [[resp|e] w']];
    (match goal with |- context [run_checks _ _ _ _ (report_add report ?c) ?w1] =>
       specialize (IH (report_add report c) w1); destruct (run_checks _ _ _ _ (report_add report c) w1) as [r w2];
       destruct IH as (more & H1 & H2 & H3 & H4); exists (c :: more) end);
    (split; [rewrite H1; cbn [dr_Checks report_add]; by rewrite <- app_assoc|]);
    (split; [cbn [fmap list_fmap]; by rewrite H2|]);
    (split; [cbn [fmap list_fmap]; rewrite H3; cbn [dk_OK succeeded]; by rewrite ?not_bad|]);
    rewrite H4; cbn [dr_OK report_add forallb]; by rewrite andb_assoc.
Qed.

Lemma failed_count_zero l : length (List.filter (fun c => negb (dk_OK c)) l) = length (List.filter negb (dk_OK <$> l)).
Proof. induction l as [|c l IH]; [done|]. cbn. destruct (dk_OK c); cbn; by rewrite IH. Qed.

(** The doctor asks all ten questions whatever the answers are, in the
    same order, and its verdict is theirs: it ends without an error exactly
    when every question was answered with a 2xx status, it prints the report
    in either case, and otherwise names the number of questions that were
    not. *)
Lemma doctor_verdict stdin args cfg w out err w' :
  parseDoctorConfig Getenv stdin args = Ok cfg -> dc_jsonOutput cfg = false ->
  runDoctorCommand Getenv now version stdin args w = (out, err, w') ->
  let got := answers cfg doctor_checks w in
  exists checks, out = [Table (["RESULT"; "COMPONENT"; "CHECK"; "STATUS"; "REQUEST ID"; "DURATION"; "DETAIL"]%string ::
                               (check_row <$> checks))] /\
    (names <$> checks) = (asks <$> doctor_checks) /\ (dk_OK <$> checks) = (succeeded <$> got) /\
    err = if forallb succeeded got then None
          else Some (Errorf ("doctor found " +:+ Itoa (Z.of_nat (length (List.filter (fun r => negb (succeeded r)) got))) +:+
                             " failed check(s)")).
Proof.
  intros Hp Hj. unfold runDoctorCommand. rewrite Hp, Hj. unfold collectDoctorReport.
  pose proof (run_checks_spec cfg doctor_checks (mkReport true []) w) as H.
  destruct (run_checks _ _ _ _ _ w) as [r w1]. destruct H as (more & H1 & H2 & H3 & H4).
  cbn [dr_Checks dr_OK app andb] in H1, H4. intros [= <- <- <-]. exists more. cbv zeta.
  split; [unfold printDoctorReport; by rewrite H1|]. split; [done|]. split; [done|].
  assert (Ha : forall l (k : list (result httpResponse)), (dk_OK <$> l) = (succeeded <$> k) -> forallb dk_OK l = forallb succeeded k).
  { induction l as [|c l IH]; intros [|a k] E; try done. cbn in E |- *. injection E as -> E. by rewrite (IH k E). }
  rewrite H4, (Ha _ _ H3). destruct (forallb succeeded _); [done|]. unfold failedCount. rewrite H1, failed_count_zero, H3.
  do 6 f_equal. generalize (answers cfg doctor_checks w) as k. induction k as [|a k IH]; [done|].
  cbn. destruct (succeeded a); cbn; by rewrite IH.
Qed.
End doctor_properties.

(** ** Witness *)
Module Witness_doctor.
#[local] Instance durations : GoDuration := {| ParseDuration _ := None |}.
#[local] Instance urls : GoURL := {| url_Parse s := Ok (mkURL "http" "" "cp" s "" "" ""); url_String u := url_Path u |}.
(** A system whose control plane is not ready; the world counts requests. *)
#[local] Instance client : HTTPClient Z := {|
  NewRequest _ _ := None;
  Do _ q w := (Ok (mkHttpResponse (if String.eqb (hr_URL q) "http://cp/readyz" then 503 else 200) ∅ [] EOF), w + 1);
  StatusText _ := "Service Unavailable"%string;
|}.
Definition no_codec {T} : JSONCodec T := {| Marshal _ := Err (Errorf "no"); Unmarshal _ := Err (Errorf "no") |}.
#[local] Instance j1 : JSONCodec doctorTunnelList := no_codec.
#[local] Instance j2 : JSONCodec doctorControlPlaneStatus := no_codec.
#[local] Instance j3 : JSONCodec doctorAuditEventList := no_codec.
#[local] Instance j4 : JSONCodec doctorRuntimeResponse := no_codec.
#[local] Instance j5 : JSONCodec doctorRequestLogList := no_codec.
#[local] Instance j6 : JSONCodec doctorReport := no_codec.
Definition no_env (_ : string) : string := "".
Definition args : list string := ["--control-plane"; "http://cp/"; "--admin-token"; "t"]%string.
Definition config : doctorConfig := mkDoctorConfig "http://cp" "t" defaultDoctorTimeout false.

Lemma doctor_verdict_witness :
  exists out checks, runDoctorCommand no_env (fun w => w) "1.0" (mkStdin (Ok []) None) args 0 =
      (out, Some (Errorf "doctor found 1 failed check(s)"), 10) /\
    length checks = 10%nat /\ (dk_OK <$> checks) = [true; true; true; true; true; true; true; false; true; true].
Proof.
  destruct (runDoctorCommand no_env (fun w => w) "1.0" (mkStdin (Ok []) None) args 0) as [[out err] w] eqn:E.
  destruct (doctor_verdict no_env (fun w => w) "1.0" (mkStdin (Ok []) None) args config 0 out err w)
    as (checks & _ & Hn & Hok & Herr); [by vm_compute|done|exact E|].
  exists out, checks.
  assert (w = 10) as -> by (apply (f_equal snd) in E; by vm_compute in E).
  split; [rewrite Herr; f_equal; f_equal; by vm_compute|]. split; [|rewrite Hok; by vm_compute].
  apply (f_equal length) in Hn. rewrite !length_fmap in Hn. by rewrite Hn.
Defined.
End Witness_doctor.
