(* ===== verification/CliHistory.v ===== *)
(** agent/cmd/porthook/history.go: [porthook history events] and
    [porthook history requests], with their filters written into the query of
    the request.  [time_Parse] and [format_nano] are [time.Parse] and
    [Time.Format] with [time.RFC3339Nano]; the untyped [filters] of a response
    are the type [Any]. *)
From S2P Require Import Prelude GoStrings Messages Wire ControlPlaneClient Ring RequestLog AuditEvents UrlQuery Flags Cli.
From S2P Require Import CliAdmin CliGateway.
From Stdlib Require Import ZArith Lia List String Ascii Bool.
From stdpp Require Import base gmap strings list sorting.

Open Scope Z_scope.

Definition defaultHistoryTimeout : Duration := 10 * second.
Definition defaultHistoryLimit : Z := 100.

Record historyEventConfig := mkEventConfig {
  he_admin : tokenAdminConfig; he_timeout : Duration; he_event : string; he_level : string; he_requestID : string;
  he_remoteIP : string; he_field : string; he_since : string; he_until : string; he_cursor : string; he_limit : Z;
}.
Record historyRequestConfig := mkRequestConfig {
  hq_admin : tokenAdminConfig; hq_timeout : Duration; hq_subdomain : string; hq_method : string; hq_host : string;
  hq_path : string; hq_status : Z; hq_outcome : string; hq_requestID : string; hq_tunnelID : string;
  hq_since : string; hq_until : string; hq_cursor : string; hq_limit : Z;
}.
Record historyAuditEvent := mkHistoryEvent {
  hv_Time : Time; hv_Level : string; hv_Message : string; hv_Event : string; hv_Method : string; hv_Path : string;
  hv_RemoteIP : string; hv_RequestID : string; hv_Fields : gmap string string;
}.
Record historyRequestLog := mkHistoryLog {
  hl_Time : Time; hl_Method : string; hl_Host : string; hl_Path : string; hl_QueryPresent : bool; hl_RemoteIP : string;
  hl_RequestID : string; hl_Subdomain : string; hl_CustomDomain : string; hl_TunnelID : string; hl_StreamID : string;
  hl_Status : Z; hl_Outcome : string; hl_RequestBytes : Z; hl_ResponseBytes : Z; hl_DurationMS : Z; hl_Error : string;
}.

Definition normalizeHistoryLimit (value : Z) : Z :=
  if value <=? 0 then defaultHistoryLimit else if 1000 <? value then 1000 else value.
Definition historyStatusText (status : Z) : string := if status =? 0 then "-" else Itoa status.

(** [sort.Strings] of the keys. *)
Definition historyFieldsText (fields : gmap string string) : string :=
  if bool_decide (fields = ∅) then "-"
  else GoStrings.Join ((fun kv => (fst kv +:+ "=" +:+ snd kv)%string) <$> merge_sort key_leb (map_to_list fields)) ",".

Section history.
Context {U : GoUnicode} {D : GoDuration} {W : Type} {C : HTTPClient W} {GU : GoURL} {Any : Type}.
Context (Getenv : string -> string) (version : string).
Context (time_Parse : string -> option Time) (time_Format format_nano : Time -> string).

Record historyAuditEventsResponse := mkEventsList {
  hal_Events : list historyAuditEvent; hal_NextCursor : string; hal_Filters : gmap string Any;
}.
Record historyRequestLogsResponse := mkLogsList {
  hrl_RequestLogs : list historyRequestLog; hrl_NextCursor : string; hrl_Filters : gmap string Any;
}.
Context {R1 : ResponseJSON historyAuditEventsResponse} {R2 : ResponseJSON historyRequestLogsResponse}.
Context {O1 : JSONCodec historyAuditEventsResponse} {O2 : JSONCodec historyRequestLogsResponse}.

(** ** Times *)
Definition parseOptionalHistoryTime (value name : string) : result (option Time) :=
  let value := TrimSpace value in
  if String.eqb value "" then Ok None
  else match time_Parse value with
       | Some t => Ok (Some t)
       | None => Err (Errorf (name +:+ " must be an RFC3339 timestamp"))
       end.
Definition validateHistoryWindow (since until : string) : result unit :=
  try sinceTime <- parseOptionalHistoryTime since "since";
  try untilTime <- parseOptionalHistoryTime until "until";
  match sinceTime, untilTime with
  | Some s, Some u => if negb (s <? u) then Err (Errorf "since must be before until") else Ok ()
  | _, _ => Ok ()
  end.

(** ** Settings *)
Definition event_flags : FlagSet :=
  newTokenAdminFlagSet ++
  [DurationVar "timeout"; IntVar "limit"; StringVar "event"; StringVar "level"; StringVar "request-id";
   StringVar "remote-ip"; StringVar "field"; StringVar "since"; StringVar "until"; StringVar "cursor"].
Definition request_flags : FlagSet :=
  newTokenAdminFlagSet ++
  [DurationVar "timeout"; IntVar "limit"; StringVar "subdomain"; StringVar "method"; StringVar "host";
   StringVar "path"; IntVar "status"; StringVar "outcome"; StringVar "request-id"; StringVar "tunnel-id";
   StringVar "since"; StringVar "until"; StringVar "cursor"].

Definition finalizeHistoryEventConfig (cfg : historyEventConfig) : result historyEventConfig :=
  if he_timeout cfg <=? 0 then Err (Errorf "timeout must be positive") else
  try _ <- validateHistoryWindow (he_since cfg) (he_until cfg);
  Ok (mkEventConfig (he_admin cfg) (he_timeout cfg) (TrimSpace (he_event cfg)) (ToUpper (TrimSpace (he_level cfg)))
        (TrimSpace (he_requestID cfg)) (TrimSpace (he_remoteIP cfg)) (TrimSpace (he_field cfg))
        (he_since cfg) (he_until cfg) (TrimSpace (he_cursor cfg)) (normalizeHistoryLimit (he_limit cfg))).
Definition parseHistoryEventConfig (stdin : Stdin) (args : list string) : result historyEventConfig :=
  try sets <- parse_no_arg event_flags
    "usage: porthook history events --control-plane URL [--admin-token TOKEN | --admin-token-stdin] [filters] [--json]" args;
  try admin <- finalizeTokenAdminConfig Getenv sets stdin;
  let text name := string_flag sets name "" in
  finalizeHistoryEventConfig
    (mkEventConfig admin (duration_flag sets "timeout" defaultHistoryTimeout) (text "event") (text "level")
       (text "request-id") (text "remote-ip") (text "field") (text "since") (text "until") (text "cursor")
       (int_flag sets "limit" defaultHistoryLimit))%string.

Definition finalizeHistoryRequestConfig (cfg : historyRequestConfig) : result historyRequestConfig :=
  if hq_timeout cfg <=? 0 then Err (Errorf "timeout must be positive")
  else if negb (hq_status cfg =? 0) && ((hq_status cfg <? 100) || (599 <? hq_status cfg))
  then Err (Errorf "status must be between 100 and 599")
  else
    try _ <- validateHistoryWindow (hq_since cfg) (hq_until cfg);
    Ok (mkRequestConfig (hq_admin cfg) (hq_timeout cfg) (TrimSpace (hq_subdomain cfg))
          (ToUpper (TrimSpace (hq_method cfg))) (TrimSpace (hq_host cfg)) (TrimSpace (hq_path cfg)) (hq_status cfg)
          (TrimSpace (hq_outcome cfg)) (TrimSpace (hq_requestID cfg)) (TrimSpace (hq_tunnelID cfg))
          (hq_since cfg) (hq_until cfg) (TrimSpace (hq_cursor cfg)) (normalizeHistoryLimit (hq_limit cfg))).
Definition parseHistoryRequestConfig (stdin : Stdin) (args : list string) : result historyRequestConfig :=
  try sets <- parse_no_arg request_flags
    "usage: porthook history requests --control-plane URL [--admin-token TOKEN | --admin-token-stdin] [filters] [--json]" args;
  try admin <- finalizeTokenAdminConfig Getenv sets stdin;
  let text name := string_flag sets name "" in
  finalizeHistoryRequestConfig
    (mkRequestConfig admin (duration_flag sets "timeout" defaultHistoryTimeout) (text "subdomain") (text "method")
       (text "host") (text "path") (int_flag sets "status" 0) (text "outcome") (text "request-id") (text "tunnel-id")
       (text "since") (text "until") (text "cursor") (int_flag sets "limit" defaultHistoryLimit))%string.

(** ** Queries *)
Definition appendHistoryFilter (q : Values) (name value : string) : Values :=
  if negb (String.eqb value "") then Values_Set q name value else q.
Definition appendHistoryTimeFilter (q : Values) (name value : string) : Values :=
  match parseOptionalHistoryTime value name with
  | Ok (Some t) => Values_Set q name (format_nano t)
  | _ => q
  end.
Definition history_event_values (cfg : historyEventConfig) : Values :=
  let q := Values_Set [] "limit" (Itoa (he_limit cfg)) in
  let q := appendHistoryFilter q "event" (he_event cfg) in
  let q := appendHistoryFilter q "level" (he_level cfg) in
  let q := appendHistoryFilter q "request_id" (he_requestID cfg) in
  let q := appendHistoryFilter q "remote_ip" (he_remoteIP cfg) in
  let q := appendHistoryFilter q "field" (he_field cfg) in
  let q := appendHistoryTimeFilter q "since" (he_since cfg) in
  let q := appendHistoryTimeFilter q "until" (he_until cfg) in
  appendHistoryFilter q "cursor" (he_cursor cfg).
Definition historyEventQuery (cfg : historyEventConfig) : string := Encode (history_event_values cfg).
Definition history_request_values (cfg : historyRequestConfig) : Values :=
  let q := Values_Set [] "limit" (Itoa (hq_limit cfg)) in
  let q := appendHistoryFilter q "subdomain" (hq_subdomain cfg) in
  let q := appendHistoryFilter q "method" (hq_method cfg) in
  let q := appendHistoryFilter q "host" (hq_host cfg) in
  let q := appendHistoryFilter q "path" (hq_path cfg) in
  let q := if negb (hq_status cfg =? 0) then Values_Set q "status" (Itoa (hq_status cfg)) else q in
  let q := appendHistoryFilter q "outcome" (hq_outcome cfg) in
  let q := appendHistoryFilter q "request_id" (hq_requestID cfg) in
  let q := appendHistoryFilter q "tunnel_id" (hq_tunnelID cfg) in
  let q := appendHistoryTimeFilter q "since" (hq_since cfg) in
  let q := appendHistoryTimeFilter q "until" (hq_until cfg) in
  appendHistoryFilter q "cursor" (hq_cursor cfg).
Definition historyRequestQuery (cfg : historyRequestConfig) : string := Encode (history_request_values cfg).

(** ** Requests *)
Definition listHistoryEvents (c : tokenAdminClient) (cfg : historyEventConfig) : CLI W historyAuditEventsResponse :=
  client_get c "GET" ("/api/v1/events?" +:+ historyEventQuery cfg) None.

(** [historyGatewayClient.getJSON] *)
Definition history_request (cfg : historyRequestConfig) (path : string) : httpRequest :=
  mkHttpRequest "GET" (controlPlaneURL (hq_admin cfg) +:+ path)
    (Header_Set (Header_Set (Header_Set ∅ "Accept" "application/json") "Authorization"
       ("Bearer " +:+ adminToken (hq_admin cfg))) "User-Agent" ("porthook/" +:+ version +:+ " history")) [].
Definition history_getJSON {T} {R : ResponseJSON T} (cfg : historyRequestConfig) (path : string) : CLI W T :=
  perform _ <- lift (match NewRequest "GET" (controlPlaneURL (hq_admin cfg) +:+ path) with
                     | Some e => Err (Wrap "build gateway request" e)
                     | None => Ok ()
                     end);
  perform resp <- (fun w => match Do (hq_timeout cfg) (history_request cfg path) w with
                            | (Err e, w) => (Err (Wrap "gateway request failed" e), w)
                            | (Ok resp, w) => (Ok resp, w)
                            end);
  lift (if bad_status (hp_Status resp)
        then Err (gatewayAPIStatusError (hp_Status resp) (readLimitedString (hp_Body resp) 4096))
        else decode_body "gateway " resp).
Definition listHistoryRequests (cfg : historyRequestConfig) : CLI W historyRequestLogsResponse :=
  history_getJSON cfg ("/api/v1/gateway/request-logs?" +:+ historyRequestQuery cfg).

(** ** Printing *)
Definition formatHistoryTime (t : Time) : string := if IsZero t then "-" else time_Format t.
Definition printHistoryNextCursor (cursor : string) : list output :=
  if negb (String.eqb cursor "") then [Line ("Next cursor: " +:+ cursor)] else [].
Definition printHistoryAuditEvents (listed : historyAuditEventsResponse) : list output :=
  Table (["TIME"; "LEVEL"; "EVENT"; "REQUEST ID"; "REMOTE IP"; "MESSAGE"; "FIELDS"]%string ::
    ((fun e => [formatHistoryTime (hv_Time e); defaultString (hv_Level e) "-"; defaultString (hv_Event e) "-";
                defaultString (hv_RequestID e) "-"; defaultString (hv_RemoteIP e) "-";
                defaultString (hv_Message e) "-"; historyFieldsText (hv_Fields e)]) <$> hal_Events listed))
  :: printHistoryNextCursor (hal_NextCursor listed).
Definition log_row (e : historyRequestLog) : list string :=
  [formatHistoryTime (hl_Time e); defaultString (hl_Subdomain e) "-"; defaultString (hl_Host e) "-";
   defaultString (hl_Method e) "-"; historyStatusText (hl_Status e); defaultString (hl_Outcome e) "-";
   defaultString (hl_Path e) "-"; defaultString (hl_RequestID e) "-";
   formatTunnelDuration (int64 (hl_DurationMS e * 1000000))].
Definition printHistoryRequestLogs (listed : historyRequestLogsResponse) : list output :=
  Table (["TIME"; "SUBDOMAIN"; "HOST"; "METHOD"; "STATUS"; "OUTCOME"; "PATH"; "REQUEST ID"; "DURATION"]%string ::
    (log_row <$> hrl_RequestLogs listed))
  :: printHistoryNextCursor (hrl_NextCursor listed).

Definition runHistoryEvents (stdin : Stdin) (args : list string) : CLI W (list output) :=
  perform cfg <- lift (parseHistoryEventConfig stdin args);
  perform listed <- listHistoryEvents (with_timeout (newTokenAdminClient (he_admin cfg)) (he_timeout cfg)) cfg;
  lift (if jsonOutput (he_admin cfg) then writeJSONOutput listed else Ok (printHistoryAuditEvents listed)).
Definition runHistoryRequests (stdin : Stdin) (args : list string) : CLI W (list output) :=
  perform cfg <- lift (parseHistoryRequestConfig stdin args);
  perform listed <- listHistoryRequests cfg;
  lift (if jsonOutput (hq_admin cfg) then writeJSONOutput listed else Ok (printHistoryRequestLogs listed)).

Definition historyUsageError : error := Errorf
"usage: porthook history events --control-plane URL [--admin-token TOKEN | --admin-token-stdin] [filters] [--json]
       porthook history requests --control-plane URL [--admin-token TOKEN | --admin-token-stdin] [filters] [--json]
       porthook history help".
Definition runHistoryCommand : Stdin -> list string -> CLI W (list output) :=
  command_table "history" historyUsageError [("events", runHistoryEvents); ("requests", runHistoryRequests)]%string.
End history.

(** * The filters arrive *)
Section filters.
Context {U : GoUnicode} {J : JSONCodec logCursor} (time_Parse server_Parse : string -> option Time).
Context (format_nano : Time -> string).
(** A time that was parsed is written so that the server reads it: RFC 3339
    text has no white space around it and parses to the instant it names. *)
Hypothesis times : forall t, server_Parse (format_nano t) = Some t /\
  TrimSpace (format_nano t) = format_nano t /\ format_nano t <> ""%string.

Lemma get_filter q k v k' :
  Values_Get (appendHistoryFilter q k v) k' = if String.eqb k k' && negb (String.eqb v "") then v else Values_Get q k'.
Proof.
  unfold appendHistoryFilter. destruct (String.eqb v ""); cbn [negb]; [by rewrite andb_false_r|].
  rewrite andb_true_r. apply Values_Get_Set.
Qed.
Lemma get_time q k v k' :
  Values_Get (appendHistoryTimeFilter time_Parse format_nano q k v) k' =
  match parseOptionalHistoryTime time_Parse v k with
  | Ok (Some t) => if String.eqb k k' then format_nano t else Values_Get q k'
  | _ => Values_Get q k'
  end.
Proof.
  unfold appendHistoryTimeFilter. destruct (parseOptionalHistoryTime _ _ _) as [[t|]|]; [|done..]. apply Values_Get_Set.
Qed.
Lemma filter_ok q k v : query_ok q -> k <> ""%string -> query_ok (appendHistoryFilter q k v).
Proof. intros. unfold appendHistoryFilter. destruct (negb _); [apply Values_Set_ok; auto|done]. Qed.
Lemma time_ok q k v : query_ok q -> k <> ""%string -> query_ok (appendHistoryTimeFilter time_Parse format_nano q k v).
Proof.
  intros. unfold appendHistoryTimeFilter. destruct (parseOptionalHistoryTime _ _ _) as [[t|]|]; [apply Values_Set_ok; auto|done..].
Qed.

Ltac read_query :=
  repeat first
    [ rewrite get_filter | rewrite get_time | rewrite Values_Get_Set ];
  cbn [String.eqb Ascii.eqb Bool.eqb andb].

(** A filter that is empty reads as empty. *)
Lemma or_empty v : (if negb (String.eqb v "") then v else ""%string) = v.
Proof. by destruct (String.eqb_spec v ""). Qed.

Definition named_time (v name : string) : Time :=
  match parseOptionalHistoryTime time_Parse v name with Ok (Some t) => t | _ => 0 end.

(** What the settings of [history events] promise. *)
Record event_config_ok (cfg : historyEventConfig) : Prop := {
  eo_event : TrimSpace (he_event cfg) = he_event cfg;
  eo_requestID : TrimSpace (he_requestID cfg) = he_requestID cfg;
  eo_remoteIP : TrimSpace (he_remoteIP cfg) = he_remoteIP cfg;
  eo_field : TrimSpace (he_field cfg) = he_field cfg;
  eo_cursor : TrimSpace (he_cursor cfg) = he_cursor cfg;
  eo_limit : 1 <= he_limit cfg <= 1000;
  eo_window : validateHistoryWindow time_Parse (he_since cfg) (he_until cfg) = Ok ();
}.

Lemma normalizeHistoryLimit_range n : 1 <= normalizeHistoryLimit n <= 1000.
Proof. unfold normalizeHistoryLimit, defaultHistoryLimit. repeat case_match; to_prop; lia. Qed.

Lemma finalizeHistoryEventConfig_ok cfg cfg' :
  finalizeHistoryEventConfig time_Parse cfg = Ok cfg' -> event_config_ok cfg'.
Proof.
  unfold finalizeHistoryEventConfig. destruct (_ <=? _); [done|]. intros ([] & Hw & [= <-])%rbind_ok.
  split; cbn [he_event he_requestID he_remoteIP he_field he_cursor he_limit he_since he_until];
    auto using TrimSpace_idem, normalizeHistoryLimit_range.
Qed.

(** A window the command line accepted passes at the server. *)
Lemma window_passes since until :
  validateHistoryWindow time_Parse since until = Ok () ->
  let s := named_time since "since" in let u := named_time until "until" in
  negb (IsZero s) && negb (IsZero u) && (u <? s) = false.
Proof.
  unfold validateHistoryWindow, named_time. intros (a & -> & H)%rbind_ok. apply rbind_ok in H as (b & -> & H).
  destruct a as [a|], b as [b|]; cbn; unfold IsZero; rewrite ?Z.eqb_refl, ?andb_false_r; try done.
  destruct (Z.ltb_spec a b); [|done]. destruct (Z.ltb_spec b a); [lia|]. by rewrite andb_false_r.
Qed.

(** The text of a time filter, as the server reads it. *)
Definition time_text (v name : string) : string :=
  match parseOptionalHistoryTime time_Parse v name with Ok (Some t) => format_nano t | _ => "" end.
Lemma time_text_read v name :
  (if String.eqb (TrimSpace (time_text v name)) "" then Ok 0
   else match server_Parse (TrimSpace (time_text v name)) with
        | None => Err (Errorf (name +:+ " must be an RFC3339 timestamp"))
        | Some value => Ok value
        end) = Ok (named_time v name).
Proof.
  unfold time_text, named_time. destruct (parseOptionalHistoryTime _ _ _) as [[t|]|]; [|done..].
  destruct (times t) as (Hp & Ht & Hn). rewrite Ht, Hp. by destruct (String.eqb_spec (format_nano t) "").
Qed.

Lemma event_values_ok cfg : query_ok (history_event_values time_Parse format_nano cfg).
Proof.
  unfold history_event_values. cbv zeta. repeat first [apply filter_ok; [|done] | apply time_ok; [|done]].
  apply Values_Set_ok; [by left|done].
Qed.

Lemma event_query_reads cfg :
  let query := Values_Get (ParseQuery (historyEventQuery time_Parse format_nano cfg)) in
  query "limit"%string = Itoa (he_limit cfg) /\ query "event"%string = he_event cfg /\ query "level"%string = he_level cfg /\
  query "request_id"%string = he_requestID cfg /\ query "remote_ip"%string = he_remoteIP cfg /\
  query "field"%string = he_field cfg /\ query "since"%string = time_text (he_since cfg) "since" /\
  query "until"%string = time_text (he_until cfg) "until" /\ query "cursor"%string = he_cursor cfg.
Proof.
  destruct (event_values_ok cfg) as (H1 & H2 & H3). cbv zeta. unfold historyEventQuery.
  rewrite !Values_roundtrip by done. unfold history_event_values, time_text. cbv zeta.
  repeat split; read_query;
    repeat match goal with |- context [parseOptionalHistoryTime ?f ?v ?n] => destruct (parseOptionalHistoryTime f v n) as [[?|]|] end;
    cbn; rewrite ?or_empty; done.
Qed.

Lemma Atoi_limit n : 1 <= n <= 1000 -> Atoi (Itoa n) = Some n /\ Itoa n <> ""%string.
Proof.
  intros Hn. assert (E : Atoi (Itoa n) = Some n) by (apply Atoi_Itoa; unfold max_int64; lia).
  split; [done|]. intros H. rewrite H in E. by vm_compute in E.
Qed.

(** C24: the filters of [porthook history events] are the ones the control
    plane applies: whatever settings the command line accepted, the query it
    sends is read back by the audit log's endpoint, through escaping and
    unescaping, as options with the same limit, event, level, request id,
    address, field text, time window and cursor; in particular the endpoint
    never rejects the limit or the window. *)
Theorem history_filters_arrive cfg0 cfg fallback :
  finalizeHistoryEventConfig time_Parse cfg0 = Ok cfg ->
  auditEventListOptionsFromRequest server_Parse
    (Values_Get (ParseQuery (historyEventQuery time_Parse format_nano cfg))) fallback =
  (try cursor <- (if String.eqb (he_cursor cfg) "" then Ok no_cursor else decodeAuditEventCursor (he_cursor cfg));
   Ok (mkEventOptions (he_limit cfg) (he_event cfg) (ToUpper (TrimSpace (he_level cfg))) (he_requestID cfg)
        (he_remoteIP cfg) (he_field cfg) (named_time (he_since cfg) "since") (named_time (he_until cfg) "until") cursor)).
Proof.
  intros Hok%finalizeHistoryEventConfig_ok. destruct Hok as [E1 E2 E3 E4 E5 E6 E7].
  destruct (event_query_reads cfg) as (H1 & H2 & H3 & H4 & H5 & H6 & H7 & H8 & H9).
  unfold auditEventListOptionsFromRequest, time_parameter, auditEventLimit.
  rewrite H1, H2, H3, H4, H5, H6, H7, H8, H9, !time_text_read, E1, E2, E3, E4, E5.
  cbn [rbind]. rewrite (window_passes _ _ E7). destruct (Atoi_limit _ E6) as [Ha Hn].
  apply String.eqb_neq in Hn. rewrite Hn, Ha.
  replace (if he_limit cfg <=? 0 then normalizedAuditEventLimit fallback else normalizedAuditEventLimit (he_limit cfg))
    with (he_limit cfg); [done|].
  unfold normalizedAuditEventLimit, maxAuditEventLimit. repeat case_match; to_prop; lia.
Qed.

(** The same for [porthook history requests] and the gateway's request log. *)
Record request_config_ok (cfg : historyRequestConfig) : Prop := {
  ro_subdomain : TrimSpace (hq_subdomain cfg) = hq_subdomain cfg;
  ro_host : TrimSpace (hq_host cfg) = hq_host cfg;
  ro_path : TrimSpace (hq_path cfg) = hq_path cfg;
  ro_outcome : TrimSpace (hq_outcome cfg) = hq_outcome cfg;
  ro_requestID : TrimSpace (hq_requestID cfg) = hq_requestID cfg;
  ro_tunnelID : TrimSpace (hq_tunnelID cfg) = hq_tunnelID cfg;
  ro_cursor : TrimSpace (hq_cursor cfg) = hq_cursor cfg;
  ro_status : hq_status cfg = 0 \/ 100 <= hq_status cfg <= 599;
  ro_limit : 1 <= hq_limit cfg <= 1000;
  ro_window : validateHistoryWindow time_Parse (hq_since cfg) (hq_until cfg) = Ok ();
}.
Lemma finalizeHistoryRequestConfig_ok cfg cfg' :
  finalizeHistoryRequestConfig time_Parse cfg = Ok cfg' -> request_config_ok cfg'.
Proof.
  unfold finalizeHistoryRequestConfig. destruct (_ <=? _); [done|]. destruct (_ && _) eqn:Es; [done|].
  intros ([] & Hw & [= <-])%rbind_ok.
  split; cbn [hq_subdomain hq_host hq_path hq_outcome hq_requestID hq_tunnelID hq_cursor hq_status hq_limit hq_since hq_until];
    auto using TrimSpace_idem, normalizeHistoryLimit_range.
  apply andb_false_iff in Es as [Es|Es]; [left; by apply negb_false_iff, Z.eqb_eq in Es|right].
  apply orb_false_iff in Es as [? ?]. to_prop. lia.
Qed.

Lemma request_values_ok cfg : query_ok (history_request_values time_Parse format_nano cfg).
Proof.
  unfold history_request_values. cbv zeta. repeat first [apply filter_ok; [|done] | apply time_ok; [|done]].
  destruct (negb _); [apply Values_Set_ok; [right|done]|];
    (repeat first [apply filter_ok; [|done] | apply time_ok; [|done]]; apply Values_Set_ok; [by left|done]).
Qed.

Definition status_text (status : Z) : string := if status =? 0 then "" else Itoa status.
Lemma request_query_reads cfg :
  let query := Values_Get (ParseQuery (historyRequestQuery time_Parse format_nano cfg)) in
  query "limit"%string = Itoa (hq_limit cfg) /\ query "subdomain"%string = hq_subdomain cfg /\
  query "method"%string = hq_method cfg /\ query "host"%string = hq_host cfg /\ query "path"%string = hq_path cfg /\
  query "status"%string = status_text (hq_status cfg) /\ query "outcome"%string = hq_outcome cfg /\
  query "request_id"%string = hq_requestID cfg /\ query "tunnel_id"%string = hq_tunnelID cfg /\
  query "since"%string = time_text (hq_since cfg) "since" /\
  query "until"%string = time_text (hq_until cfg) "until" /\ query "cursor"%string = hq_cursor cfg.
Proof.
  destruct (request_values_ok cfg) as (H1 & H2 & H3). cbv zeta. unfold historyRequestQuery.
  rewrite !Values_roundtrip by done. unfold history_request_values, time_text, status_text. cbv zeta.
  destruct (hq_status cfg =? 0); cbn [negb];
  repeat split; read_query;
    repeat match goal with |- context [parseOptionalHistoryTime ?f ?v ?n] => destruct (parseOptionalHistoryTime f v n) as [[?|]|] end;
    cbn; rewrite ?or_empty; done.
Qed.

Lemma status_text_read status :
  status = 0 \/ 100 <= status <= 599 ->
  (if String.eqb (TrimSpace (status_text status)) "" then Ok 0
   else match Atoi (TrimSpace (status_text status)) with
        | Some n => if (n <? 100) || (599 <? n)
                    then Err (Errorf "status must be an HTTP status code between 100 and 599") else Ok n
        | None => Err (Errorf "status must be an HTTP status code between 100 and 599")
        end) = Ok status.
Proof.
  unfold status_text. intros [->|Hs]; [done|]. destruct (Z.eqb_spec status 0); [lia|].
  assert (Ht : TrimSpace (Itoa status) = Itoa status).
  { apply TrimSpace_visible, sforall_spec. destruct (Itoa_digits status) as (c0 & l0 & -> & Hd & _); [unfold max_int64; lia|].
    eapply Forall_impl; [exact Hd|]. intros c Hc. unfold is_digit, visible, in_range in *.
    apply andb_true_iff in Hc as [? ?]. to_prop. apply andb_true_iff. split; apply Z.leb_le; lia. }
  assert (E : Atoi (Itoa status) = Some status) by (apply Atoi_Itoa; unfold max_int64; lia).
  rewrite Ht, E. destruct (String.eqb_spec (Itoa status) "") as [Ee|]; [by rewrite Ee in E; vm_compute in E|].
  destruct (Z.ltb_spec status 100), (Z.ltb_spec 599 status); try lia. done.
Qed.

Lemma request_filters_arrive cfg0 cfg fallback :
  finalizeHistoryRequestConfig time_Parse cfg0 = Ok cfg ->
  requestLogListOptionsFromRequest server_Parse
    (Values_Get (ParseQuery (historyRequestQuery time_Parse format_nano cfg))) fallback =
  (let filter := mkFilter (ToLower (hq_subdomain cfg)) (hq_status cfg) (ToLower (hq_outcome cfg))
     (ToLower (hq_requestID cfg)) (ToLower (hq_host cfg)) (ToUpper (TrimSpace (hq_method cfg))) (ToLower (hq_path cfg))
     (ToLower (hq_tunnelID cfg)) (named_time (hq_since cfg) "since") (named_time (hq_until cfg) "until") in
   if String.eqb (hq_cursor cfg) "" then Ok (mkListOptions (hq_limit cfg) filter no_cursor)
   else try cursor <- decodeRequestLogCursor (hq_cursor cfg); Ok (mkListOptions (hq_limit cfg) filter cursor)).
Proof.
  intros Hok%finalizeHistoryRequestConfig_ok. destruct Hok as [E1 E2 E3 E4 E5 E6 E7 E8 E9 E10].
  destruct (request_query_reads cfg) as (H1 & H2 & H3 & H4 & H5 & H6 & H7 & H8 & H9 & H10 & H11 & H12).
  unfold requestLogListOptionsFromRequest, requestLogFilterFromRequest, status_filter, requestLogTimeFilter, requestLogLimit.
  rewrite H1, H2, H3, H4, H5, H6, H7, H8, H9, H10, H11, H12, !time_text_read, (status_text_read _ E8), E1, E2, E3, E4, E5, E6, E7.
  cbn [rbind]. rewrite (window_passes _ _ E10). destruct (Atoi_limit _ E9) as [Ha Hn].
  apply String.eqb_neq in Hn. rewrite Hn, Ha. cbn [rbind].
  replace (if hq_limit cfg <=? 0 then normalizedRequestLogLimit fallback else normalizedRequestLogLimit (hq_limit cfg))
    with (hq_limit cfg); [done|].
  unfold normalizedRequestLogLimit, maxRequestLogLimit. repeat case_match; to_prop; lia.
Qed.
End filters.

(** A request of less than half a second is listed with a duration of zero. *)
Lemma short_request_duration time_Format e :
  0 <= hl_DurationMS e < 500 -> last (log_row time_Format e) = Some "0s"%string.
Proof.
  intros H. unfold log_row. cbn [last]. f_equal. unfold formatTunnelDuration.
  assert (Hi : int64 (hl_DurationMS e * 1000000) = hl_DurationMS e * 1000000).
  { unfold int64. rewrite Z.mod_small; lia. }
  rewrite Hi. destruct (Z.leb_spec (hl_DurationMS e * 1000000) 0); [done|].
  unfold Round_second, second. rewrite Z.mod_small by lia.
  destruct (Z.ltb_spec (hl_DurationMS e * 1000000 + hl_DurationMS e * 1000000) 1000000000); [|lia].
  by rewrite Z.sub_diag.
Qed.

(** ** Witness *)
Module Witness_history.
#[local] Instance unicode : GoUnicode := ascii_case.
#[local] Instance codec : JSONCodec logCursor := countable_codec.
(** Times as text: the bits of their code. *)
Definition write (t : Time) : string := of_bytes (pos_bits (encode t)).
Definition read (s : string) : option Time := bits_pos (to_bytes s) ≫= decode.

Lemma pos_bits_visible p : Forall (fun c => visible c = true) (pos_bits p).
Proof. induction p; cbn; repeat constructor; done. Qed.
Lemma times t : read (write t) = Some t /\ TrimSpace (write t) = write t /\ write t <> ""%string.
Proof.
  assert (Hr : read (write t) = Some t).
  { unfold read, write. rewrite to_of_bytes, bits_pos_bits. cbn. apply decode_encode. }
  split; [done|]. split.
  - apply TrimSpace_visible, sforall_spec. unfold write. rewrite to_of_bytes. apply pos_bits_visible.
  - intros E. rewrite E in Hr. by vm_compute in Hr.
Qed.

Definition typed : historyEventConfig :=
  mkEventConfig (mkTokenAdminConfig "http://cp" "t" false false) second " a&b=c " "warn" "" "10.0.0.1" "50% + x"
    (write 5) (write 9) "" 5000.
Definition sent : historyEventConfig :=
  mkEventConfig (mkTokenAdminConfig "http://cp" "t" false false) second "a&b=c" "WARN" "" "10.0.0.1" "50% + x"
    (write 5) (write 9) "" 1000.

Lemma history_filters_arrive_witness :
  auditEventListOptionsFromRequest read (Values_Get (ParseQuery (historyEventQuery read write sent))) 100 =
  Ok (mkEventOptions 1000 "a&b=c" "WARN" "" "10.0.0.1" "50% + x" 5 9 no_cursor).
Proof.
  rewrite (history_filters_arrive read read write times typed sent 100); vm_compute; reflexivity.
Defined.
End Witness_history.
