(* ===== verification/CliExport.v ===== *)
(** agent/cmd/porthook/export.go, and the dispatch of main.go: the operational
    snapshot, which asks every endpoint and records what failed, and
    [runWithIO], which hands the words of the command line to the commands.

    [json.RawMessage] is its bytes and [map[string]any] a map to [Any]. *)
From S2P Require Import Prelude GoStrings Messages Wire Metrics ServeMux ControlPlaneConfig AgentConfig Flags Cli CliAdmin.
From S2P Require Import CliGateway CliHistory.
From Stdlib Require Import ZArith Lia List String Ascii Bool.
From stdpp Require Import base gmap strings list.

Open Scope Z_scope.

Definition defaultOperationalExportTimeout : Duration := 10 * second.
Definition defaultOperationalExportLimit : Z := 100.
Definition operationalExportSchemaVersion : Z := 3.
Definition operationalExportUsageText : string :=
  "usage: porthook export --control-plane URL [--admin-token TOKEN | --admin-token-stdin] [--timeout DURATION] [--event-limit N] [--request-log-limit N] [--output FILE]".

Record operationalExportConfig := mkExportConfig {
  ec_controlPlaneURL : string; ec_adminToken : string; ec_timeout : Duration; ec_eventLimit : Z;
  ec_requestLogLimit : Z; ec_outputPath : string;
}.
Record operationalExportMetric := mkMetric { mt_Name : string; mt_Type : string; mt_Value : string; mt_Help : string }.
Record operationalExportError := mkExportError { ee_Component : string; ee_Endpoint : string; ee_Error : string }.
Record operationalExportSources := mkSources { so_ControlPlaneURL : string; so_EventLimit : Z; so_RequestLogLimit : Z }.
(** [operationalExportRequestLog] has the fields of [historyRequestLog]. *)
Definition operationalExportRequestLog : Type := historyRequestLog.

Definition normalizeOperationalExportLimit (value : Z) : Z :=
  if value <=? 0 then defaultOperationalExportLimit else if 1000 <? value then 1000 else value.
Definition pluralSuffix (count : Z) : string := if count =? 1 then "" else "s".

(** * Settings *)
Section config.
Context {D : GoDuration} {GU : GoURL} (Getenv : string -> string).

Definition newOperationalExportFlagSet : FlagSet :=
  [StringVar "control-plane"; StringVar "admin-token"; BoolVar "admin-token-stdin"; DurationVar "timeout";
   IntVar "event-limit"; IntVar "request-log-limit"; StringVar "output"].

Definition finalizeOperationalExportConfig (sets : list assignment) (stdin : Stdin) : result operationalExportConfig :=
  let env name := TrimSpace (Getenv name) in
  try base <- normalizeControlPlaneURL
    (TrimSpace (string_flag sets "control-plane" (env "PORTHOOK_CONTROL_PLANE_URL"%string)));
  let token := TrimSpace (string_flag sets "admin-token" (env "PORTHOOK_CONTROL_ADMIN_TOKEN"%string)) in
  let from_stdin := bool_flag sets "admin-token-stdin" in
  if negb (String.eqb token "") && from_stdin
  then Err (Errorf "--admin-token and --admin-token-stdin are mutually exclusive") else
  try token <-
    (if from_stdin then
       match stdin_all stdin with
       | Err e => Err (Wrap "read admin token from stdin" e)
       | Ok data => let token := TrimSpace (of_bytes data) in
                    if String.eqb token "" then Err (Errorf "admin token from stdin is empty") else Ok token
       end
     else Ok token);
  if String.eqb token "" then Err (Errorf "admin token is required; use --admin-token or --admin-token-stdin") else
  let timeout := duration_flag sets "timeout" defaultOperationalExportTimeout in
  if timeout <=? 0 then Err (Errorf "timeout must be positive") else
  Ok (mkExportConfig base token timeout
        (normalizeOperationalExportLimit (int_flag sets "event-limit" defaultOperationalExportLimit))
        (normalizeOperationalExportLimit (int_flag sets "request-log-limit" defaultOperationalExportLimit))
        (TrimSpace (string_flag sets "output" ""))).
Definition parseOperationalExportConfig (stdin : Stdin) (args : list string) : result operationalExportConfig :=
  try sets <- parse_no_arg newOperationalExportFlagSet operationalExportUsageText args;
  finalizeOperationalExportConfig sets stdin.
End config.

(** * Metrics text *)
(** What is known of a metric so far: its type and help. *)
Abbreviation metadata := (gmap string (string * string)).
Definition meta_of (m : metadata) (name : string) : string * string := default (""%string, ""%string) (m !! name).

Definition metrics_line (acc : metadata * list operationalExportMetric) (line : string)
    : metadata * list operationalExportMetric :=
  let '(meta, metrics) := acc in
  let trimmed := TrimSpace line in
  if String.eqb trimmed "" then acc
  else if HasPrefix trimmed "# HELP " then
    let '(name, help, ok) := Cut (TrimPrefix trimmed "# HELP ") " "%char in
    if ok && negb (String.eqb name "") then (<[name := (fst (meta_of meta name), help)]> meta, metrics) else acc
  else if HasPrefix trimmed "# TYPE " then
    match Health.Fields (TrimPrefix trimmed "# TYPE ") with
    | name :: typ :: _ => (<[name := (typ, snd (meta_of meta name))]> meta, metrics)
    | _ => acc
    end
  else if HasPrefix trimmed "#" then acc
  else match Health.Fields trimmed with
       | name :: value :: _ =>
           let '(typ, help) := meta_of meta (fst (fst (Cut name "{"%char))) in
           (meta, metrics ++ [mkMetric name typ value help])
       | _ => acc
       end.
Definition parseOperationalExportMetrics (text : string) : list operationalExportMetric :=
  snd (foldl metrics_line (∅, []) (Split text (chr 10))).

(** * The snapshot *)
Section export.
Context {D : GoDuration} {W : Type} {C : HTTPClient W} {GU : GoURL} {Any : Type}.
Context (Getenv : string -> string) (now : W -> Time) (version : string).

Record operationalExportControlPlane := mkExportCP {
  xc_Status : option doctorControlPlaneStatus; xc_Tokens : list tokenSummary;
  xc_ReservedSubdomains : list reservationSummary; xc_CustomDomains : list customDomainSummary;
  xc_AccessPolicies : list accessPolicySummary; xc_AuditEvents : list bytes;
  xc_AuditEventFilters : gmap string Any; xc_AuditEventCursor : string;
}.
Record operationalExportGateway := mkExportGateway {
  xg_Tunnels : list tunnelSummaryCLI; xg_TunnelDetails : list tunnelDetailCLI; xg_Runtime : gmap string Any;
  xg_Metrics : list operationalExportMetric; xg_MetricsText : string; xg_RequestLogs : list operationalExportRequestLog;
  xg_RequestLogFilters : gmap string Any; xg_RequestLogCursor : string;
}.
Record operationalExportSnapshot := mkSnapshot {
  xs_SchemaVersion : Z; xs_ExportedAt : Time; xs_Version : string; xs_Sources : operationalExportSources;
  xs_Diagnostics : doctorReport; xs_ControlPlane : operationalExportControlPlane;
  xs_Gateway : operationalExportGateway; xs_Errors : list operationalExportError;
}.
Record operationalExportAuditEventsResponse := mkExportEvents {
  xe_Events : list bytes; xe_NextCursor : string; xe_Filters : gmap string Any;
}.
Record operationalExportRequestLogsResponse := mkExportLogs {
  xl_RequestLogs : list operationalExportRequestLog; xl_NextCursor : string; xl_Filters : gmap string Any;
}.
Record runtimeResponse := mkRuntimeResponse { rp_Runtime : gmap string Any }.

Context {J1 : JSONCodec doctorTunnelList} {J2 : JSONCodec doctorControlPlaneStatus} {J3 : JSONCodec doctorAuditEventList}
  {J4 : JSONCodec doctorRuntimeResponse} {J5 : JSONCodec doctorRequestLogList}.
Context {R1 : ResponseJSON doctorControlPlaneStatus} {R2 : ResponseJSON listTokensResponse}
  {R3 : ResponseJSON listReservationsResponse} {R4 : ResponseJSON listCustomDomainsResponse}
  {R5 : ResponseJSON listAccessPoliciesResponse} {R6 : ResponseJSON operationalExportAuditEventsResponse}
  {R7 : ResponseJSON listTunnelsResponse} {R8 : ResponseJSON showTunnelResponse} {R9 : ResponseJSON runtimeResponse}
  {R10 : ResponseJSON operationalExportRequestLogsResponse}.
(** [json.MarshalIndent] of a snapshot. *)
Context (MarshalIndent : operationalExportSnapshot -> result bytes).

(** ** The questions *)
Definition export_request (rawURL bearerToken : string) : httpRequest :=
  let header := Header_Set (Header_Set ∅ "Accept" "application/json") "User-Agent" ("porthook/" +:+ version +:+ " export") in
  mkHttpRequest "GET" rawURL
    (if String.eqb bearerToken "" then header else Header_Set header "Authorization" ("Bearer " +:+ bearerToken)) [].
Definition exportGETJSON {T} {R : ResponseJSON T} (timeout : Duration) (rawURL bearerToken : string) : CLI W T :=
  perform _ <- lift (match NewRequest "GET" rawURL with Some e => Err (Wrap "build request" e) | None => Ok () end);
  perform resp <- Do timeout (export_request rawURL bearerToken);
  lift (if bad_status (hp_Status resp) then
          let message := TrimSpace (readLimitedString (hp_Body resp) 4096) in
          let message := if String.eqb message "" then StatusText (hp_Status resp) else message in
          Err (Errorf ("endpoint returned " +:+ Itoa (hp_Status resp) +:+ ": " +:+ message))
        else decode_body "" resp).
Definition listAuditEvents (c : tokenAdminClient) (limit : Z) : CLI W operationalExportAuditEventsResponse :=
  client_get c "GET" ("/api/v1/events?limit=" +:+ Itoa limit) None.
Definition getText (c : tunnelAPIClient) (path : string) : CLI W string :=
  perform resp <- tunnel_fetch version c path "text/plain, */*;q=0.1" "export";
  lift (Ok (readLimitedString (hp_Body resp) (8 * 1024 * 1024))).

(** ** Best effort: a question that fails leaves an error and its default *)
Definition addOperationalExportError (component endpoint : string) (e : error) (errors : list operationalExportError)
    : list operationalExportError := errors ++ [mkExportError component endpoint (error_message e)].
Definition ask {A} (component endpoint : string) (m : CLI W A) (st : list operationalExportError * W)
    : option A * (list operationalExportError * W) :=
  match m (snd st) with
  | (Ok a, w) => (Some a, (fst st, w))
  | (Err e, w) => (None, (addOperationalExportError component endpoint e (fst st), w))
  end.

Definition collectControlPlaneExport (cfg : operationalExportConfig) (st : list operationalExportError * W)
    : operationalExportControlPlane * (list operationalExportError * W) :=
  let client := with_timeout (newTokenAdminClient (mkTokenAdminConfig (ec_controlPlaneURL cfg) (ec_adminToken cfg) false false))
                  (ec_timeout cfg) in
  let '(status, st) := ask "control-plane" "/api/v1/status"
    (exportGETJSON (ec_timeout cfg) (ec_controlPlaneURL cfg +:+ "/api/v1/status") "") st in
  let '(tokens, st) := ask "control-plane" "/api/v1/tokens" (listTokens client) st in
  let '(reservations, st) := ask "control-plane" "/api/v1/reserved-subdomains" (listReservations client) st in
  let '(domains, st) := ask "control-plane" "/api/v1/custom-domains" (listCustomDomains client) st in
  let '(policies, st) := ask "control-plane" "/api/v1/access-policies" (listAccessPolicies client) st in
  let '(events, st) := ask "control-plane" "/api/v1/events" (listAuditEvents client (ec_eventLimit cfg)) st in
  (mkExportCP status (from_option lt_Tokens [] tokens) (from_option lr_ReservedSubdomains [] reservations)
     (from_option lcd_CustomDomains [] domains) (from_option lap_AccessPolicies [] policies)
     (from_option xe_Events [] events) (from_option xe_Filters ∅ events) (from_option xe_NextCursor ""%string events), st).

(** The details of the tunnels, one question each. *)
Fixpoint tunnel_details (c : tunnelAPIClient) (tunnels : list tunnelSummaryCLI) (st : list operationalExportError * W)
    : list tunnelDetailCLI * (list operationalExportError * W) :=
  match tunnels with
  | [] => ([], st)
  | t :: rest =>
      let '(shown, st) := ask "gateway" ("/api/v1/tunnels/" +:+ ts_TunnelID t) (showTunnel version c (ts_TunnelID t)) st in
      let '(details, st) := tunnel_details c rest st in
      (match shown with Some s => st_Tunnel s :: details | None => details end, st)
  end.

Definition collectGatewayExport (cfg : operationalExportConfig) (st : list operationalExportError * W)
    : operationalExportGateway * (list operationalExportError * W) :=
  let client := newTunnelAPIClient (mkTokenAdminConfig (ec_controlPlaneURL cfg) (ec_adminToken cfg) false false) (ec_timeout cfg) in
  let '(listed, st) := ask "gateway" "/api/v1/tunnels" (listTunnels version client) st in
  let tunnels := from_option ltr_Tunnels [] listed in
  let '(details, st) := tunnel_details client tunnels st in
  let '(runtime, st) := ask "gateway" "/api/v1/runtime"
    (tunnel_do (T := runtimeResponse) version client (tc_apiPrefix client +:+ "/runtime")) st in
  let '(text, st) := ask "gateway" "/metrics" (getText client (tc_apiPrefix client +:+ "/metrics")) st in
  let '(logs, st) := ask "gateway" "/api/v1/request-logs"
    (tunnel_do (T := operationalExportRequestLogsResponse) version client
       (tc_apiPrefix client +:+ "/request-logs?limit=" +:+ Itoa (ec_requestLogLimit cfg))) st in
  (mkExportGateway tunnels details (from_option rp_Runtime ∅ runtime)
     (from_option parseOperationalExportMetrics [] text) (default ""%string text)
     (from_option xl_RequestLogs [] logs) (from_option xl_Filters ∅ logs) (from_option xl_NextCursor ""%string logs), st).

Definition collectOperationalExport (cfg : operationalExportConfig) (w : W) : operationalExportSnapshot * W :=
  let exportedAt := now w in
  let '(diagnostics, w) := collectDoctorReport now version
    (mkDoctorConfig (ec_controlPlaneURL cfg) (ec_adminToken cfg) (ec_timeout cfg) false) w in
  let '(controlPlane, st) := collectControlPlaneExport cfg ([], w) in
  let '(gateway, (errors, w)) := collectGatewayExport cfg st in
  (mkSnapshot operationalExportSchemaVersion exportedAt version
     (mkSources (ec_controlPlaneURL cfg) (ec_eventLimit cfg) (ec_requestLogLimit cfg)) diagnostics controlPlane gateway errors, w).

Definition marshalPrettyJSON (s : operationalExportSnapshot) : result bytes :=
  match MarshalIndent s with Err e => Err (Wrap "encode export" e) | Ok data => Ok (data ++ [chr 10]) end.

(** ** The command *)
(** What it leaves: standard output, standard error, the file it wrote. *)
Record export_end := mkExportEnd {
  xx_stdout : list output; xx_stderr : list string; xx_file : option (string * bytes); xx_error : option error;
}.
(** [WriteFile] is the outcome of writing the file. *)
Definition runOperationalExportCommand (WriteFile : string -> bytes -> option error) (stdin : Stdin) (args : list string)
    (w : W) : export_end * W :=
  if wantsHelp args then (mkExportEnd [Help "export"] [] None None, w) else
  match parseOperationalExportConfig Getenv stdin args with
  | Err e => (mkExportEnd [] [] None (Some e), w)
  | Ok cfg =>
      let '(snapshot, w) := collectOperationalExport cfg w in
      match marshalPrettyJSON snapshot with
      | Err e => (mkExportEnd [] [] None (Some e), w)
      | Ok data =>
          if negb (String.eqb (ec_outputPath cfg) "") then
            match WriteFile (ec_outputPath cfg) data with
            | Some e => (mkExportEnd [] [] None (Some (Wrap "write export file" e)), w)
            | None =>
                let n := Z.of_nat (length (xs_Errors snapshot)) in
                (mkExportEnd [Line ("Wrote operational export: " +:+ ec_outputPath cfg)]
                   (if 0 <? n then [("Operational export completed with " +:+ Itoa n +:+ " error" +:+ pluralSuffix n +:+ ".")%string]
                    else []) (Some (ec_outputPath cfg, data)) None, w)
            end
          else (mkExportEnd [JSONText data] [] None None, w)
      end
  end.
End export.

(** * Reading the metrics back *)
(** A sample as the servers write it. *)
Record sample := mkSample { sa_name : string; sa_help : string; sa_type : string; sa_value : Z }.
Definition name_char (c : ascii) : bool :=
  is_upper_ascii c || is_lower_ascii c || is_digit c || Ascii.eqb c "_" || Ascii.eqb c ":".
Definition printable (c : ascii) : bool := in_range 32 126 (byte c).
Definition word (s : string) : bool := negb (String.eqb s "") && sforall visible s.
Definition sample_ok (s : sample) : bool :=
  negb (String.eqb (sa_name s) "") && sforall name_char (sa_name s) && word (sa_type s) &&
  sforall printable (sa_help s) && (match rev (to_bytes (sa_help s)) with c :: _ => visible c | [] => false end) &&
  (0 <=? sa_value s) && (sa_value s <=? max_int64).
Definition sample_lines (s : sample) : list string := writeSample (sa_name s) (sa_help s) (sa_type s) (sa_value s).
Definition text_of (lines : list string) : string := foldr String.append ""%string lines.
Definition metric_of (s : sample) : operationalExportMetric :=
  mkMetric (sa_name s) (sa_type s) (Itoa (sa_value s)) (sa_help s).

Lemma visible_ends s a z m n :
  to_bytes s = a :: m -> to_bytes s = n ++ [z] -> visible a = true -> visible z = true -> TrimSpace s = s.
Proof.
  intros Ha Hz Va Vz. unfold TrimSpace, trim_left, trim_right. unfold visible, in_range in *. to_prop.
  assert (S1 : space1 a = false /\ space1 z = false).
  { unfold space1, in_range. split; apply orb_false_iff; split; [apply andb_false_iff; right|..|apply andb_false_iff; right|]; lia. }
  rewrite (trim_front_stops space1 space2 space3 (to_bytes s)).
  - rewrite trim_front_stops; [by rewrite rev_involutive, of_to_bytes|].
    rewrite Hz, rev_app_distr. cbn [rev app starts]. rewrite (proj2 S1). cbn [orb].
    assert (S2 : forall b, space2 b z = false)
      by (intros b; unfold space2; apply andb_false_iff; right; apply orb_false_iff; lia).
    assert (S3 : forall c b, space3 c b z = false).
    { intros c b. unfold space3, in_range. rewrite ?orb_false_iff, ?andb_false_iff. repeat split; right; lia. }
    destruct (rev n) as [|b [|c l]]; [done|..]; by rewrite S2, ?S3.
  - rewrite Ha. cbn [starts]. rewrite (proj1 S1). cbn [orb].
    assert (S2 : forall b, space2 a b = false) by (intros b; unfold space2; apply andb_false_iff; left; lia).
    assert (S3 : forall b c, space3 a b c = false)
      by (intros b c; unfold space3; rewrite !orb_false_iff, !andb_false_iff; repeat split; left; try left; lia).
    destruct m as [|b [|c l]]; [done|..]; by rewrite S2, ?S3.
Qed.

Lemma fields_visible l : forall cur rest,
  Forall (fun c => visible c = true) l ->
  Health.fields_loop cur (l ++ " "%char :: rest) = Health.end_field (rev l ++ cur) ++ Health.fields_loop [] rest /\
  Health.fields_loop cur l = Health.end_field (rev l ++ cur).
Proof.
  assert (Hstep : forall a cur l, visible a = true -> Health.fields_loop cur (a :: l) = Health.fields_loop (a :: cur) l).
  { intros a cur k Ha. pose proof (visible_space1 _ Ha) as H1. unfold visible, in_range in Ha. to_prop.
    cbn [Health.fields_loop]. rewrite H1. destruct k as [|b k]; [done|].
    assert (space2 a b = false) as -> by (unfold space2; apply andb_false_iff; left; lia). destruct k as [|c k]; [done|].
    assert (space3 a b c = false) as -> by (unfold space3; rewrite !orb_false_iff, !andb_false_iff; repeat split; left; try left; lia).
    done. }
  induction l as [|a l IH]; intros cur rest Hl; [done|]. apply Forall_cons in Hl as [Ha Hl].
  cbn [app]. rewrite !Hstep by done. destruct (IH (a :: cur) rest Hl) as [-> ->].
  cbn [rev]. rewrite <- !app_assoc. done.
Qed.

Lemma Fields_words a b : word a = true -> word b = true -> Health.Fields (a +:+ " " +:+ b) = [a; b].
Proof.
  unfold word. intros [Ha1 Ha2]%andb_true_iff [Hb1 Hb2]%andb_true_iff. to_prop. apply sforall_spec in Ha2, Hb2.
  unfold Health.Fields. rewrite !to_bytes_app. cbn [list_ascii_of_string app].
  rewrite (proj1 (fields_visible _ [] (to_bytes b) Ha2)), (proj2 (fields_visible _ [] [] Hb2)), !app_nil_r.
  assert (He : forall s, s <> ""%string -> Health.end_field (rev (to_bytes s)) = [to_bytes s]).
  { intros s Hs. unfold Health.end_field. destruct (rev (to_bytes s)) as [|c r] eqn:E.
    - destruct s; [done|]. cbn in E. by destruct (rev (to_bytes s)).
    - by rewrite <- E, rev_involutive. }
  rewrite !He by (by intros ->). cbn. by rewrite !of_to_bytes.
Qed.

(** The parts of a good sample. *)
Lemma sample_ok_spec s :
  sample_ok s = true ->
  word (sa_name s) = true /\ (forall c, In c (to_bytes (sa_name s)) -> name_char c = true) /\ word (sa_type s) = true /\
  (forall c, In c (to_bytes (sa_help s)) -> printable c = true) /\
  (exists n z, to_bytes (sa_help s) = n ++ [z] /\ visible z = true) /\ word (Itoa (sa_value s)) = true.
Proof.
  unfold sample_ok. rewrite !andb_true_iff. intros ((((((H1 & H2) & H3) & H4) & H5) & H6) & H7).
  apply sforall_spec in H2, H4. rewrite Forall_forall in H2, H4. split_and!.
  - unfold word. rewrite H1. apply sforall_spec, Forall_forall. intros c Hc. apply H2 in Hc.
    unfold name_char in Hc. destruct (Ascii.eqb_spec c "_") as [E|_]; [by rewrite E|].
    destruct (Ascii.eqb_spec c ":") as [E|_]; [by rewrite E|].
    unfold visible, is_upper_ascii, is_lower_ascii, is_digit, in_range in *.
    rewrite ?orb_false_r in Hc. rewrite !orb_true_iff, !andb_true_iff in Hc. rewrite !Z.leb_le in Hc.
    apply andb_true_iff. rewrite !Z.leb_le. lia.
  - intros c Hc. apply H2. by apply list_elem_of_In.
  - done.
  - intros c Hc. apply H4. by apply list_elem_of_In.
  - destruct (rev (to_bytes (sa_help s))) as [|z r] eqn:E; [done|]. exists (rev r), z. split; [|done].
    by rewrite <- (rev_involutive (to_bytes (sa_help s))), E.
  - to_prop. destruct (Itoa_digits (sa_value s)) as (c & l & E & Hd & _); [lia|]. unfold word.
    apply andb_true_iff. split; [destruct (Itoa (sa_value s)); by cbn in *|]. apply sforall_spec. rewrite E.
    eapply Forall_impl; [exact Hd|]. intros x Hx. unfold is_digit, visible, in_range in *.
    apply andb_true_iff in Hx as [? ?]. to_prop. apply andb_true_iff. split; apply Z.leb_le; lia.
Qed.

Lemma word_ends s : word s = true ->
  exists a m n z, to_bytes s = a :: m /\ to_bytes s = n ++ [z] /\ visible a = true /\ visible z = true.
Proof.
  unfold word. intros [Hne Hv]%andb_true_iff. apply sforall_spec in Hv. rewrite Forall_forall in Hv.
  destruct (to_bytes s) as [|a m] eqn:E; [by destruct s|].
  destruct (rev (a :: m)) as [|z r] eqn:Er; [by apply (f_equal length) in Er; rewrite length_rev in Er|].
  assert (Hz : a :: m = rev r ++ [z]) by (by rewrite <- (rev_involutive (a :: m)), Er).
  exists a, m, (rev r), z. split; [done|]. split; [done|]. split; apply Hv; [by left|].
  rewrite Hz. apply elem_of_app. right. by left.
Qed.

Lemma samples_written s :
  sample_lines s =
  [("# HELP " +:+ (sa_name s +:+ " " +:+ sa_help s)) +:+ newline; ("# TYPE " +:+ (sa_name s +:+ " " +:+ sa_type s)) +:+ newline;
   (sa_name s +:+ " " +:+ Itoa (sa_value s)) +:+ newline].
Proof.
  unfold sample_lines, writeSample.
  assert (H : forall f a b x, to_bytes (Sprintf f [a; b]) = x -> Sprintf f [a; b] = of_bytes x)
    by (intros f a b x <-; by rewrite of_to_bytes).
  f_equal; [|f_equal; [|f_equal]]; f_equal; apply to_bytes_inj; unfold Sprintf; rewrite to_of_bytes, !to_bytes_app; cbn;
    by rewrite app_nil_r.
Qed.

(** A metric name does not hold a byte that no name has. *)
Lemma name_not_in s c : sample_ok s = true -> name_char c = false -> ~ In c (to_bytes (sa_name s)).
Proof. intros Hok Hc Hin. destruct (sample_ok_spec s Hok) as (_ & Hnc & _). apply Hnc in Hin. congruence. Qed.

(** The three lines of a sample, as [metrics_line] takes them. *)
Lemma help_line_read s meta metrics :
  sample_ok s = true ->
  metrics_line (meta, metrics) ("# HELP " +:+ (sa_name s +:+ " " +:+ sa_help s)) =
  (<[sa_name s := (fst (meta_of meta (sa_name s)), sa_help s)]> meta, metrics).
Proof.
  intros Hok. destruct (sample_ok_spec s Hok) as (Hn & _ & _ & _ & (n & z & Ez & Vz) & _).
  unfold metrics_line. erewrite visible_ends; [|reflexivity| |done|exact Vz].
  2: { rewrite !to_bytes_app, Ez, !app_assoc. reflexivity. }
  rewrite TrimPrefix_app, HasPrefix_app.
  change (String.eqb ("# HELP " +:+ (sa_name s +:+ " " +:+ sa_help s)) "") with false. cbv iota.
  unfold Cut. rewrite !to_bytes_app. cbn [list_ascii_of_string app]. rewrite cut_bytes_app by (by apply name_not_in).
  rewrite !of_to_bytes. unfold word in Hn. apply andb_true_iff in Hn as [-> _]. done.
Qed.

Lemma type_line_read s meta metrics :
  sample_ok s = true ->
  metrics_line (meta, metrics) ("# TYPE " +:+ (sa_name s +:+ " " +:+ sa_type s)) =
  (<[sa_name s := (sa_type s, snd (meta_of meta (sa_name s)))]> meta, metrics).
Proof.
  intros Hok. destruct (sample_ok_spec s Hok) as (Hn & _ & Ht & _).
  destruct (word_ends _ Ht) as (a & m & n & z & _ & Ez & _ & Vz).
  unfold metrics_line. erewrite visible_ends; [|reflexivity| |done|exact Vz].
  2: { rewrite !to_bytes_app, Ez, !app_assoc. reflexivity. }
  change (String.eqb ("# TYPE " +:+ (sa_name s +:+ " " +:+ sa_type s)) "") with false.
  change (HasPrefix ("# TYPE " +:+ (sa_name s +:+ " " +:+ sa_type s)) "# HELP ") with false.
  rewrite TrimPrefix_app, HasPrefix_app, Fields_words by done. reflexivity.
Qed.

Lemma value_line_read s (meta : metadata) metrics :
  sample_ok s = true -> meta !! sa_name s = Some (sa_type s, sa_help s) ->
  metrics_line (meta, metrics) (sa_name s +:+ " " +:+ Itoa (sa_value s)) = (meta, metrics ++ [metric_of s]).
Proof.
  intros Hok Hm. destruct (sample_ok_spec s Hok) as (Hn & Hnc & _ & _ & _ & Hv).
  destruct (word_ends _ Hn) as (a & m & _ & _ & Ea & _ & Va & _).
  destruct (word_ends _ Hv) as (_ & _ & n & z & _ & Ez & _ & Vz).
  unfold metrics_line. erewrite visible_ends; [| | |exact Va|exact Vz].
  2: { rewrite !to_bytes_app, Ea. reflexivity. }
  2: { rewrite !to_bytes_app, Ez, !app_assoc. reflexivity. }
  rewrite Fields_words by done.
  assert (Hp : forall p, HasPrefix (sa_name s +:+ " " +:+ Itoa (sa_value s)) (String "#" p) = false).
  { intros p. destruct (sa_name s) as [|c rest]; [done|]. unfold HasPrefix. rewrite string_cons_app. cbn [String.prefix].
    destruct (ascii_dec "#" c) as [<-|]; [|done]. specialize (Hnc "#"%char (or_introl eq_refl)). done. }
  assert ((sa_name s +:+ " " +:+ Itoa (sa_value s) =? "")%string = false) as -> by (by destruct (sa_name s)).
  rewrite !Hp. cbv iota. unfold Cut. rewrite cut_bytes_none by (by apply name_not_in).
  cbn [fst]. unfold meta_of. by rewrite Hm.
Qed.

(** The lines of a sample without their ends. *)
Definition bare_lines (s : sample) : list string :=
  ["# HELP " +:+ (sa_name s +:+ " " +:+ sa_help s); "# TYPE " +:+ (sa_name s +:+ " " +:+ sa_type s);
   sa_name s +:+ " " +:+ Itoa (sa_value s)].

Lemma sample_lines_read s meta metrics :
  sample_ok s = true ->
  exists meta', foldl metrics_line (meta, metrics) (bare_lines s) = (meta', metrics ++ [metric_of s]).
Proof.
  intros Hok. unfold bare_lines. cbn [foldl]. rewrite help_line_read, type_line_read by done. eexists.
  rewrite value_line_read; [done|done|]. unfold meta_of. by rewrite !lookup_insert_eq.
Qed.

Lemma lines_split (ls : list string) :
  Forall (fun l => ~ In (chr 10) (to_bytes l)) ls ->
  Split (text_of ((fun l => l +:+ newline) <$> ls)) (chr 10) = ls ++ [""%string].
Proof.
  induction 1 as [|l ls Hl _ IH]; [done|]. cbn [fmap list_fmap text_of foldr].
  replace ((l +:+ newline) +:+ foldr String.append ""%string ((fun l => l +:+ newline) <$> ls))
    with (l +:+ String (chr 10) (text_of ((fun l => l +:+ newline) <$> ls))).
  - rewrite Split_app by done. by rewrite IH.
  - apply to_bytes_inj. rewrite !to_bytes_app. unfold newline. cbn [list_ascii_of_string].
    by rewrite <- app_assoc.
Qed.

Lemma printable_no_newline s : (forall c, In c (to_bytes s) -> printable c = true) -> ~ In (chr 10) (to_bytes s).
Proof. intros H Hin%H. by vm_compute in Hin. Qed.
Lemma word_printable s : word s = true -> forall c, In c (to_bytes s) -> printable c = true.
Proof.
  unfold word. intros [_ H]%andb_true_iff c Hc. apply sforall_spec in H. rewrite Forall_forall in H.
  specialize (H c (proj2 (list_elem_of_In _ _) Hc)). unfold visible, printable, in_range in *.
  apply andb_true_iff in H as [? ?]. to_prop. apply andb_true_iff. split; apply Z.leb_le; lia.
Qed.
Lemma printable_app s t :
  (forall c, In c (to_bytes s) -> printable c = true) -> (forall c, In c (to_bytes t) -> printable c = true) ->
  forall c, In c (to_bytes (s +:+ t)) -> printable c = true.
Proof. intros Hs Ht c. rewrite to_bytes_app. intros [?|?]%in_app_or; auto. Qed.
Lemma literal_printable s : sforall printable s = true -> forall c, In c (to_bytes s) -> printable c = true.
Proof. intros H c Hc. apply sforall_spec in H. rewrite Forall_forall in H. apply H. by apply list_elem_of_In. Qed.

Lemma bare_lines_plain s : sample_ok s = true -> Forall (fun l => ~ In (chr 10) (to_bytes l)) (bare_lines s).
Proof.
  intros Hok. destruct (sample_ok_spec s Hok) as (Hn & _ & Ht & Hh & _ & Hv).
  pose proof (word_printable _ Hn). pose proof (word_printable _ Ht). pose proof (word_printable _ Hv).
  unfold bare_lines. rewrite !Forall_cons. split_and!; [..|constructor]; apply printable_no_newline;
    repeat first [assumption | apply literal_printable; reflexivity | apply printable_app].
Qed.

(** The metrics of a server survive the export: the text the servers
    write for any list of counters and gauges is read back by
    [porthook export] as the same list, each with its name, type, help and
    value. *)
Lemma metrics_roundtrip samples :
  forallb sample_ok samples = true ->
  parseOperationalExportMetrics (text_of (samples ≫= sample_lines)) = metric_of <$> samples.
Proof.
  intros Hall. unfold parseOperationalExportMetrics.
  assert (Hl : (samples ≫= sample_lines) = (fun l => l +:+ newline) <$> (samples ≫= bare_lines)).
  { clear Hall. induction samples as [|s l IH]; [done|]. rewrite !bind_cons, fmap_app, <- IH. f_equal.
    by rewrite samples_written. }
  rewrite Hl, lines_split, foldl_app.
  2: { clear Hl. induction samples as [|s l IH]; [constructor|]. cbn in Hall. apply andb_true_iff in Hall as [H1 H2].
       rewrite bind_cons. apply Forall_app. split; [by apply bare_lines_plain|by apply IH]. }
  cbn [foldl]. 
  assert (Hf : forall meta metrics, exists meta', foldl metrics_line (meta, metrics) (samples ≫= bare_lines) =
    (meta', metrics ++ (metric_of <$> samples))).
  { clear Hl. induction samples as [|s l IH]; intros meta metrics; [exists meta; by rewrite app_nil_r|].
    cbn in Hall. apply andb_true_iff in Hall as [H1 H2]. rewrite bind_cons, foldl_app.
    destruct (sample_lines_read s meta metrics H1) as [meta1 E1]. rewrite E1.
    destruct (IH H2 meta1 (metrics ++ [metric_of s])) as [meta2 E2]. exists meta2. rewrite E2, <- app_assoc. done. }
  destruct (Hf ∅ []) as [meta' ->]. done.
Qed.

(** A sample of a histogram has no type and no help: they were declared under
    another name. *)
Lemma histogram_loses_type :
  parseOperationalExportMetrics (text_of ((fun l => l +:+ newline) <$>
    ["# HELP d Duration."; "# TYPE d histogram"; "d_count 3"]%string)) = [mkMetric "d_count" "" "3" ""].
Proof. vm_compute. reflexivity. Qed.

(** A token in the environment alone stops [--admin-token-stdin]. *)
Lemma export_stdin_refused {D : GoDuration} {GU : GoURL} Getenv stdin args sets base :
  Parse newOperationalExportFlagSet args = Ok (sets, []) -> bool_flag sets "admin-token-stdin" = true ->
  values_of sets "admin-token" = [] -> TrimSpace (Getenv "PORTHOOK_CONTROL_ADMIN_TOKEN"%string) <> ""%string ->
  normalizeControlPlaneURL (TrimSpace (string_flag sets "control-plane" (TrimSpace (Getenv "PORTHOOK_CONTROL_PLANE_URL"%string)))) = Ok base ->
  parseOperationalExportConfig Getenv stdin args = Err (Errorf "--admin-token and --admin-token-stdin are mutually exclusive").
Proof.
  intros HP Hs Hv Ht Hb. unfold parseOperationalExportConfig, parse_no_arg. rewrite HP. cbn [rbind].
  unfold finalizeOperationalExportConfig. cbv zeta. rewrite Hb. cbn [rbind]. unfold string_flag. rewrite Hv, Hs. cbn [last default from_option id].
  rewrite TrimSpace_idem. apply String.eqb_neq in Ht. by rewrite Ht.
Qed.

Module Witness_metrics.
Definition two : list sample :=
  [mkSample "porthook_gateway_tunnels" "Active tunnels." "gauge" 3;
   mkSample "porthook_gateway_public_requests_total" "Public requests." "counter" 120].
Lemma metrics_roundtrip_witness :
  parseOperationalExportMetrics (text_of (two ≫= sample_lines)) = metric_of <$> two.
Proof. apply (metrics_roundtrip two). vm_compute. reflexivity. Defined.
End Witness_metrics.
