(* ===== verification/CliMain.v ===== *)
(** agent/cmd/porthook/main.go: [runWithIO], which hands the words of the
    command line to the commands, and [main], which turns the error into the
    process's exit status.

    A run starts with the files there are and a world, and ends with what it
    printed, the error, the files and the world after it.  The commands are a
    [Record] of operations, so that what is proved here holds for any of them;
    [porthook] is the record of the modelled ones.  The outcome of each file
    operation is an argument; a file that [export] failed to write is left as
    it was.  The agent itself is an operation of the record too: its session
    is modelled in AgentRunner and EndToEnd. *)
From S2P Require Import Prelude GoStrings Messages AgentConfig ControlPlaneConfig Flags Cli CliAdmin CliGateway CliHistory CliExport.
From Stdlib Require Import ZArith Lia List String Ascii Bool.
From stdpp Require Import base gmap strings list.

Open Scope Z_scope.

(** The lines of the constant, without their indentation's line breaks. *)
Definition usageText : string := GoStrings.Join
  ["usage: porthook login --server URL [--token TOKEN | --token-stdin]";
   "       porthook logout";
   "       porthook http <port> [--server URL] [--token TOKEN] [--subdomain NAME]";
   "       porthook tokens <create|list|revoke> [options]";
   "       porthook admin tokens <create|list|revoke> [options]";
   "       porthook reserved <create|list|delete> [options]";
   "       porthook access <create|list|update|delete> [options]";
   "       porthook domains <create|list|verify|delete> [options]";
   "       porthook tunnels <list|show> [options]";
   "       porthook history <events|requests> [options]";
   "       porthook export [options]";
   "       porthook doctor [options]";
   "       porthook version";
   "       porthook help"]%string (String (chr 10) "").
Definition usageError : error := Errorf usageText.
Definition printUsage : list output := [Line usageText].

(** * Commands *)
Record ended (W : Type) := mkEnded {
  en_stdout : list output; en_stderr : list string; en_error : option error; en_files : Files; en_world : W;
}.
Arguments mkEnded {W}. Arguments en_stdout {W}. Arguments en_stderr {W}. Arguments en_error {W}.
Arguments en_files {W}. Arguments en_world {W}.

Record Commands (W : Type) := mkCommands {
  Run : Config -> W -> list string * option error * W;       (* agent.NewRunner(cfg, ...).Run *)
  cmd_tokens : Stdin -> list string -> CLI W (list output);
  cmd_admin : Stdin -> list string -> CLI W (list output);
  cmd_reserved : Stdin -> list string -> CLI W (list output);
  cmd_access : Stdin -> list string -> CLI W (list output);
  cmd_domains : Stdin -> list string -> CLI W (list output);
  cmd_tunnels : Stdin -> list string -> CLI W (list output);
  cmd_history : Stdin -> list string -> CLI W (list output);
  cmd_export : Stdin -> list string -> W -> export_end * W;
  cmd_doctor : Stdin -> list string -> W -> list output * option error * W;
}.
Arguments Run {W}. Arguments cmd_tokens {W}. Arguments cmd_admin {W}. Arguments cmd_reserved {W}.
Arguments cmd_access {W}. Arguments cmd_domains {W}. Arguments cmd_tunnels {W}. Arguments cmd_history {W}.
Arguments cmd_export {W}. Arguments cmd_doctor {W}.

(** The outcomes of the file operations of one run. *)
Record outcomes := mkOutcomes {
  oc_read : option error;        (* reading the saved login *)
  oc_mkdir : option error;
  oc_write : written;
  oc_remove : option error;
}.
Definition all_well : outcomes := mkOutcomes None None WriteDone None.

Section main.
Context {J : ConfigJSON} {D : GoDuration} {W : Type} (cmds : Commands W).
Context (Getenv : string -> string) (paths : Paths) (version : string).

(** A command of the control plane: it prints what it returns. *)
Definition of_cli (files : Files) (m : CLI W (list output)) (w : W) : ended W :=
  match m w with
  | (Ok out, w') => mkEnded out [] None files w'
  | (Err e, w') => mkEnded [] [] (Some e) files w'
  end.
Definition of_export (files : Files) (r : export_end * W) : ended W :=
  let '(x, w') := r in
  mkEnded (xx_stdout x) (xx_stderr x) (xx_error x)
    (match xx_file x with Some (path, data) => <[path := data]> files | None => files end) w'.

Definition runWithIO (files : Files) (oc : outcomes) (stdin : Stdin) (args : list string) (w : W) : ended W :=
  let failed e := mkEnded [] [] (Some e) files w in
  match args with
  | [] => failed usageError
  | cmd :: rest =>
      let any names := existsb (String.eqb cmd) names in
      if any ["http"%string] then
        match parseHTTPConfig Getenv paths version files (oc_read oc) rest with
        | Err e => failed e
        | Ok cfg => let '(out, err, w') := Run cmds cfg w in mkEnded (Line <$> out) [] err files w'
        end
      else if any ["login"%string] then
        match parseLoginConfig Getenv paths files (oc_read oc) stdin rest with
        | Err e => failed e
        | Ok cfg =>
            match SaveConfigFile Getenv paths files (oc_mkdir oc) (oc_write oc) cfg with
            | (Some e, files') => mkEnded [] [] (Some e) files' w
            | (None, files') => mkEnded [Line "Login saved"] [] None files' w
            end
        end
      else if any ["logout"%string] then
        match rest with
        | _ :: _ => failed usageError
        | [] =>
            match RemoveConfigFile Getenv paths files (oc_remove oc) with
            | (Some e, files') => mkEnded [] [] (Some e) files' w
            | (None, files') => mkEnded [Line "Login removed"] [] None files' w
            end
        end
      else if any ["version"; "--version"; "-version"]%string then mkEnded [Line version] [] None files w
      else if any ["tokens"%string] then of_cli files (cmd_tokens cmds stdin rest) w
      else if any ["admin"%string] then of_cli files (cmd_admin cmds stdin rest) w
      else if any ["reserved"%string] then of_cli files (cmd_reserved cmds stdin rest) w
      else if any ["access"%string] then of_cli files (cmd_access cmds stdin rest) w
      else if any ["domains"%string] then of_cli files (cmd_domains cmds stdin rest) w
      else if any ["tunnels"%string] then of_cli files (cmd_tunnels cmds stdin rest) w
      else if any ["history"%string] then of_cli files (cmd_history cmds stdin rest) w
      else if any ["export"%string] then of_export files (cmd_export cmds stdin rest w)
      else if any ["doctor"%string] then
        if wantsHelp rest then mkEnded [Help "doctor"] [] None files w
        else let '(out, err, w') := cmd_doctor cmds stdin rest w in mkEnded out [] err files w'
      else if any ["help"; "--help"; "-h"]%string then mkEnded printUsage [] None files w
      else failed usageError
  end.

(** The exit status, and standard error with the error's line. *)
Definition main (files : Files) (oc : outcomes) (stdin : Stdin) (args : list string) (w : W) : Z * list string * ended W :=
  let e := runWithIO files oc stdin args w in
  match en_error e with
  | Some err => (1, en_stderr e ++ [error_message err], e)
  | None => (0, en_stderr e, e)
  end.
End main.

(** * The modelled commands *)
Section porthook.
Context {D : GoDuration} {U : GoUnicode} {W : Type} {C : HTTPClient W} {GU : GoURL} {Any : Type}.
Context (Getenv : string -> string) (version : string) (time_Format format_nano : Time -> string)
  (ParseRFC3339 : string -> option Time) (now : W -> Time).
Context (Runner : Config -> W -> list string * option error * W) (WriteFile : string -> bytes -> option error).
Context {J1 : JSONCodec createTokenRequest} {J2 : ResponseJSON createdToken} {J3 : ResponseJSON listTokensResponse}
  {J4 : JSONCodec createdToken} {J5 : JSONCodec listTokensResponse} {J6 : JSONCodec json_map}.
Context {A1 : JSONCodec createAdminTokenRequest} {A2 : ResponseJSON createdAdminToken}
  {A3 : ResponseJSON listAdminTokensResponse} {A4 : JSONCodec createdAdminToken} {A5 : JSONCodec listAdminTokensResponse}.
Context {R1 : JSONCodec createReservationRequest} {R2 : ResponseJSON reservationSummary}
  {R3 : ResponseJSON listReservationsResponse} {R4 : JSONCodec reservationSummary} {R5 : JSONCodec listReservationsResponse}.
Context {P1 : JSONCodec accessPolicyRequest} {P2 : ResponseJSON accessPolicySummary}
  {P3 : ResponseJSON listAccessPoliciesResponse} {P4 : JSONCodec accessPolicySummary} {P5 : JSONCodec listAccessPoliciesResponse}.
Context {C1 : JSONCodec createCustomDomainRequest} {C2 : ResponseJSON customDomainSummary}
  {C3 : ResponseJSON listCustomDomainsResponse} {C4 : JSONCodec customDomainSummary} {C5 : JSONCodec listCustomDomainsResponse}.
Context {T1 : ResponseJSON listTunnelsResponse} {T2 : ResponseJSON showTunnelResponse} {T3 : JSONCodec listTunnelsResponse}
  {T4 : JSONCodec showTunnelResponse}.
Context {H1 : ResponseJSON (historyAuditEventsResponse (Any := Any))} {H2 : ResponseJSON (historyRequestLogsResponse (Any := Any))}
  {H3 : JSONCodec (historyAuditEventsResponse (Any := Any))} {H4 : JSONCodec (historyRequestLogsResponse (Any := Any))}.
Context {D1 : JSONCodec doctorTunnelList} {D2 : JSONCodec doctorControlPlaneStatus} {D3 : JSONCodec doctorAuditEventList}
  {D4 : JSONCodec doctorRuntimeResponse} {D5 : JSONCodec doctorRequestLogList} {D6 : JSONCodec doctorReport}.
Context {E1 : ResponseJSON doctorControlPlaneStatus} {E2 : ResponseJSON (operationalExportAuditEventsResponse (Any := Any))}
  {E3 : ResponseJSON (runtimeResponse (Any := Any))} {E4 : ResponseJSON (operationalExportRequestLogsResponse (Any := Any))}.
Context (encode_snapshot : operationalExportSnapshot (Any := Any) -> result bytes).

Definition porthook : Commands W := {|
  Run := Runner;
  cmd_tokens := runTokensCommand Getenv time_Format;
  cmd_admin := runAdminCommand Getenv time_Format;
  cmd_reserved := runReservedCommand Getenv time_Format;
  cmd_access := runAccessCommand Getenv time_Format;
  cmd_domains := runDomainsCommand Getenv time_Format;
  cmd_tunnels := runTunnelsCommand Getenv time_Format version;
  cmd_history := runHistoryCommand (Any := Any) Getenv version ParseRFC3339 time_Format format_nano;
  cmd_export := runOperationalExportCommand Getenv now version encode_snapshot WriteFile;
  cmd_doctor := runDoctorCommand Getenv now version;
|}.
End porthook.

(** * Properties *)
Section login.
Context {J : ConfigJSON} {JL : ConfigJSONLaws} {D : GoDuration} {W : Type} (cmds : Commands W).
Context (Getenv : string -> string) (paths : Paths) (version : string).
Abbreviation run := (runWithIO cmds Getenv paths version).

(** What a run of [porthook http] ends with once it starts the agent. *)
Definition agent_ran (files : Files) (cfg : Config) (w : W) : ended W :=
  let '(out, err, w') := Run cmds cfg w in mkEnded (Line <$> out) [] err files w'.

Lemma login_words files url token stdin :
  TrimSpace url = url -> url <> ""%string -> TrimSpace token = token -> token <> ""%string ->
  parseLoginConfig Getenv paths files None stdin ["--server"; url; "--token"; token]%string = Ok (mkConfigFile url token).
Proof.
  intros Hu Hu0 Ht Ht0. unfold parseLoginConfig.
  assert (Parse login_flags ["--server"; url; "--token"; token]%string =
    Ok ([("server", url); ("token", token)], [])%string) as -> by reflexivity.
  cbn [rbind]. change (string_flag _ "server" _) with url. rewrite Hu. apply String.eqb_neq in Hu0. rewrite Hu0.
  unfold readTokenInput. cbn [ti_token ti_tokenStdin]. change (string_flag _ "token" "") with token.
  change (bool_flag _ "token-stdin") with false. rewrite Ht, andb_false_r.
  apply String.eqb_neq in Ht0. by rewrite Ht0.
Qed.

(** [porthook http] with a port alone starts the agent with the server and the
    token of [ConfigFromEnv]. *)
Lemma http_starts files stdin port n w :
  HasPrefix port "-" = false -> Atoi port = Some n -> 1 <= n <= 65535 ->
  exists cfg, startable version cfg /\ Port cfg = n /\
    (ServerURL cfg, Token cfg) =
      (ServerURL (ConfigFromEnv Getenv paths files None), Token (ConfigFromEnv Getenv paths files None)) /\
    run files all_well stdin ["http"%string; port] w = agent_ran files cfg w.
Proof.
  intros Hp Ha Hn. pose proof (ConfigFromEnv_usable Getenv paths files None) as (Hs & Ht & _).
  set (env := ConfigFromEnv Getenv paths files None) in *.
  exists (http_config version env (ServerURL env) (Token env) (RequestedSubdomain env) n).
  assert (Hsub : RequestedSubdomain env = ""%string).
  { unfold env, ConfigFromEnv. destruct (match LoadConfigFile _ _ _ _ with Ok (Some f) => _ | _ => _ end). reflexivity. }
  assert (HE : parseHTTPConfig Getenv paths version files None [port] =
    Ok (http_config version env (ServerURL env) (Token env) (RequestedSubdomain env) n)).
  { unfold parseHTTPConfig. fold env. cbn [http_words]. rewrite Hp. cbn [negb Parse rbind].
    change (string_flag [] "server" (ServerURL env)) with (ServerURL env).
    change (string_flag [] "token" (Token env)) with (Token env).
    change (string_flag [] "subdomain" (RequestedSubdomain env)) with (RequestedSubdomain env).
    rewrite Ha. destruct (String.eqb_spec port "") as [->|_]; [by vm_compute in Ha|].
    rewrite (proj2 (Z.leb_gt n 0)), (proj2 (Z.ltb_ge 65535 n)) by lia. cbn [orb].
    apply String.eqb_neq in Hs, Ht. rewrite Hs, Ht, Hsub. done. }
  split; [by eapply parseHTTPConfig_startable|]. split; [done|]. split; [done|].
  unfold runWithIO, agent_ran. cbn [existsb String.eqb Ascii.eqb Bool.eqb orb oc_read all_well]. by rewrite HE.
Qed.

Lemma login_run files url token stdin w :
  TrimSpace url = url -> url <> ""%string -> TrimSpace token = token -> token <> ""%string ->
  run files all_well stdin ["login"; "--server"; url; "--token"; token]%string w =
  match SaveConfigFile Getenv paths files None WriteDone (mkConfigFile url token) with
  | (Some e, files') => mkEnded [] [] (Some e) files' w
  | (None, files') => mkEnded [Line "Login saved"] [] None files' w
  end.
Proof.
  intros Hu Hu0 Ht Ht0. unfold runWithIO.
  cbn [existsb String.eqb Ascii.eqb Bool.eqb orb oc_read oc_mkdir oc_write all_well]. by rewrite login_words.
Qed.

End login.

(** ** Witness *)
Module Witness_main.
#[local] Existing Instances Witness_login.json Witness_login.durations.
(** Commands that do nothing; an agent that prints what it starts with. *)
Definition quiet (_ : Stdin) (_ : list string) : CLI unit (list output) := lift (Ok []).
Definition cmds : Commands unit := {|
  Run cfg w := ([ServerURL cfg; Token cfg], None, w);
  cmd_tokens := quiet; cmd_admin := quiet; cmd_reserved := quiet; cmd_access := quiet; cmd_domains := quiet;
  cmd_tunnels := quiet; cmd_history := quiet; cmd_export _ _ w := (mkExportEnd [] [] None None, w);
  cmd_doctor _ _ w := ([], None, w);
|}.
Definition stdin : Stdin := mkStdin (Ok []) None.
Definition start files args := runWithIO cmds Witness_login.environment Witness_login.paths "1.0" files all_well stdin args ().

End Witness_main.
