(* ===== verification/CliEndToEnd.v ===== *)
(** [porthook tokens] against the control plane: the command line's client on
    one side, the control plane's HTTP handler on the other, and the bytes
    between them.

    net/http carries a request to the server when its URL starts with the base
    URL, and decodes its path.  What the two sides' JSON must agree on is the
    class [WireJSON]. *)
From S2P Require Import Prelude GoStrings Messages Wire RateLimit ControlPlaneClient ClientIP Config Ring Base64.
From S2P Require Import Metrics ServeMux AuditEvents Stores TokenStore Password Tokens AdminTokens Reserved.
From S2P Require Import Access CustomDomains ControlPlane ControlPlaneConfig Admin Operator ControlServer Flags Cli.
From Stdlib Require Import ZArith Lia List String Ascii Bool.
From Stdlib Require Import QArith.
From stdpp Require Import base gmap strings list relations.

Open Scope Z_scope.

(** What a token of the control plane looks like to the command line. *)
Definition created_of (c : Tokens.CreatedToken) : createdToken :=
  mkCreated (Tokens.c_ID c) (Tokens.c_Name c) (Tokens.c_Token c) (Tokens.c_Scopes c) (Tokens.c_CreatedAt c).

(** What encoding/json carries unchanged: ASCII text (it replaces bytes that
    are not UTF-8), and times of the years 1 to 9999. *)
Definition json_time (t : Time) : bool := (0 <=? t) && (t <? 315537897600 * second).
Definition carried_request (req : createTokenRequest) : bool := is_ascii (ct_Name req) && forallb is_ascii (ct_Scopes req).
Definition carried_token (c : Tokens.CreatedToken) : bool :=
  is_ascii (Tokens.c_ID c) && is_ascii (Tokens.c_Name c) && is_ascii (Tokens.c_Token c) &&
  forallb is_ascii (Tokens.c_Scopes c) && json_time (Tokens.c_CreatedAt c).

(** encoding/json on both sides: the server reads the request the client
    wrote, and the client reads the token the server wrote. *)
Class WireJSON (any : JSONDecoder unit) (encode : payload -> bytes) {J1 : JSONCodec createTokenRequest}
    {R1 : ResponseJSON createdToken} {D2 : JSONDecoder Tokens.CreateTokenRequest} : Prop := {
  server_reads_request : forall req data, encode_line req = Ok data -> carried_request req = true ->
    decodeJSON any data = Ok (Tokens.mkCreateTokenRequest (ct_Name req) (ct_Scopes req));
  client_reads_token : forall c, carried_token c = true ->
    decode_response (encode (PTokenCreated c)) EOF = Ok (created_of c);
}.

Section composition.
Context {U : GoUnicode} {NI : GoNetip} {H256 : SHA256} {A2 : Argon2} {GU : GoURL} {J : JSONCodec logCursor}.
Context {F : Type} {FO : FloatOps F} {FT : FloatText F}.
Context (any : JSONDecoder unit) {D1 : JSONDecoder AdminTokens.CreateTokenRequest}
  {D2 : JSONDecoder Tokens.CreateTokenRequest} {D3 : JSONDecoder CreateReservationRequest}
  {D4 : JSONDecoder CreatePolicyRequest} {D5 : JSONDecoder UpdatePolicyRequest} {D6 : JSONDecoder CreateDomainRequest}
  {D7 : JSONDecoder validateTokenRequest} {D8 : JSONDecoder authorizeReservedSubdomainRequest}
  {D9 : JSONDecoder accessPolicyEvaluationRequest} {D10 : JSONDecoder lookupCustomDomainRequest}.
Context (time_Parse : string -> option Time) (time_Format : Time -> string).
Context {J1 : JSONCodec createTokenRequest} {R1 : ResponseJSON createdToken} {R2 : ResponseJSON listTokensResponse}.
Context {O1 : JSONCodec createdToken} {O2 : JSONCodec listTokensResponse} {O3 : JSONCodec json_map}.
Context (base : string) (encode : payload -> bytes) (render_other : control_reply -> httpResponse).
Context (status_text : Z -> string) (Getenv : string -> string).
Context {WJ : WireJSON any encode}.

(** The control plane and what its next requests will meet. *)
Record world := mkWorld { w_control : ControlServer (F := F); w_visits : list visit }.

Definition with_body (v : visit) (body : bytes) : visit :=
  mkVisit body (v_rawQuery v) (v_query v) (v_clock v) (v_random v) (v_dns v) (v_newRequest v) (v_Do v)
    (v_order v) (v_runtime v) (v_started v) (v_finished v).

Definition receive (q : httpRequest) : option request :=
  if HasPrefix (hr_URL q) base then
    path ← PathUnescape (TrimPrefix (hr_URL q) base);
    Some (mkRequest (hr_Method q) path (hr_Header q) "192.0.2.1:40000" "")
  else None.

Definition render (r : control_reply) : httpResponse :=
  match r with
  | RAdmin (Failure status message) => mkHttpResponse status ∅ (to_bytes message ++ [chr 10]) EOF
  | RAdmin (MethodNotAllowed allow) =>
      mkHttpResponse 405 (Header_Set ∅ "Allow" allow) (to_bytes "method not allowed" ++ [chr 10]) EOF
  | RAdmin (JSON status p) => mkHttpResponse status ∅ (encode p) EOF
  | RAdmin NoContent => mkHttpResponse 204 ∅ [] EOF
  | other => render_other other
  end.

Definition unreachable_host : error := Errorf "dial tcp: connection refused".
Definition serve (q : httpRequest) (w : world) : result httpResponse * world :=
  match receive q, w_visits w with
  | Some r, v :: vs =>
      match Handler any time_Parse time_Format (w_control w) r (with_body v (hr_Body q)) with
      | Some (rep, c) => (Ok (render rep), mkWorld c vs)
      | None => (Err EOF, mkWorld (w_control w) vs)
      end
  | _, _ => (Err unreachable_host, w)
  end.

#[local] Instance client : HTTPClient world := {|
  NewRequest _ _ := None;
  Do _ := serve;
  StatusText := status_text;
|}.

Abbreviation runs_create := (runTokensCreate (W := world) Getenv time_Format).
Abbreviation runs_revoke := (runTokensRevoke (W := world) Getenv).
Abbreviation tokens_of w := (service (cs_server (w_control w))).

(** * The way there *)

Definition request_at (c : tokenAdminClient) (method path : string) (payload : option bytes) : request :=
  mkRequest method path (hr_Header (client_request c method path payload)) "192.0.2.1:40000" "".

Lemma receive_at c method path decoded payload :
  cl_baseURL c = base -> PathUnescape path = Some decoded ->
  receive (client_request c method path payload) = Some (request_at c method decoded payload).
Proof.
  intros Hb Hp. unfold receive. cbn [client_request hr_URL hr_Method hr_Header]. rewrite Hb, HasPrefix_app, TrimPrefix_app.
  by rewrite Hp.
Qed.

Lemma request_bearer c method path payload :
  TrimSpace (cl_adminToken c) = cl_adminToken c -> cl_adminToken c <> ""%string ->
  bearerToken (rq_Header (request_at c method path payload)) = (cl_adminToken c, true).
Proof.
  intros Ht Hne. unfold bearerToken.
  assert (Header_Get (rq_Header (request_at c method path payload)) "Authorization" = "Bearer " +:+ cl_adminToken c) as ->.
  { unfold Header_Get, Header_Values, request_at, client_request. cbn [rq_Header hr_Header].
    unfold Header_Set. change (CanonicalHeaderKey "Authorization") with "Authorization"%string.
    change (CanonicalHeaderKey "Accept") with "Accept"%string.
    change (CanonicalHeaderKey "Content-Type") with "Content-Type"%string.
    by destruct payload; rewrite ?lookup_insert_ne, lookup_insert_eq by done. }
  rewrite CutPrefix_app, Ht. by destruct (String.eqb_spec (cl_adminToken c) "").
Qed.

(** A token's id names the route of a token. *)
Lemma token_path_clean id :
  id <> ""%string -> ~ In "/"%char (to_bytes id) -> id <> "."%string -> id <> ".."%string ->
  cleanPath ("/api/v1/tokens/" +:+ id) = "/api/v1/tokens/" +:+ id.
Proof. segment_clean. Qed.

Lemma token_route rest :
  ~ In "/"%char (to_bytes rest) ->
  mux_lookup control_routes ("/api/v1/tokens/" +:+ ("tok_" +:+ rest)) = Serve EToken.
Proof.
  intros Hs. unfold mux_lookup.
  rewrite token_path_clean, String.eqb_refl; [|done| |done..].
  2: { cbn. intros [H|[H|[H|[H|H]]]]; done. }
  set (path := "/api/v1/tokens/" +:+ ("tok_" +:+ rest)).
  assert (exact_match control_routes path = None) as -> by by vm_compute.
  assert (exact_match control_routes (path +:+ "/") = None) as -> by by vm_compute.
  assert (subtree_match control_routes path = Some EToken) as -> by by vm_compute.
  rewrite bool_decide_eq_false_2 by (intros [? ?]; done). by rewrite andb_false_r.
Qed.

Lemma token_path_decoded id :
  PathUnescape ("/api/v1/tokens/" +:+ PathEscape id) = Some ("/api/v1/tokens/" +:+ id).
Proof.
  pose proof (PathUnescape_PathEscape id) as H. unfold PathUnescape in *. rewrite to_bytes_app.
  cbn [list_ascii_of_string app unescape_bytes].
  destruct (unescape_bytes (to_bytes (PathEscape id))) as [l|]; [|done]. cbn in *. by injection H as <-.
Qed.

(** * The handlers *)
#[local] Instance token_store : TokenStore TokenStore.MemoryStore := TokenStore.memory_store Tokens.ErrTokenAlreadyExists.

Lemma refused_status s r scopes now at_ status message s' :
  authorizeAdminRequest s r scopes now at_ = (inl (status, message), s') -> (status <? 200) || (300 <=? status) = true.
Proof.
  unfold authorizeAdminRequest. destruct (authorizeAdmin s (rq_Header r) scopes now) as [[auth|e] s1]; [|by intros [= <- _ _]].
  destruct (Authenticated auth); cbn [negb]; [|by intros [= <- _ _]].
  destruct (Authorized auth); cbn [negb]; [done|by intros [= <- _ _]].
Qed.

(** A POST that is answered with a 2xx status created a token. *)
Lemma create_served s r body random clk rep s' :
  rq_Path r = "/api/v1/tokens"%string -> rq_Method r = "POST"%string ->
  handleTokens s r body random clk = (rep, s') ->
  let response := render (RAdmin rep) in
  (hp_Status response <? 200) || (300 <=? hp_Status response) = true \/
  exists req c, body = Ok req /\ rep = JSON 201 (PTokenCreated c) /\
    Tokens.CreateToken (service s) req (serve_at clk) random = (Ok c, service s').
Proof.
  intros Hp Hm. unfold handleTokens, get_or_post. rewrite Hp, Hm. cbn [String.eqb Ascii.eqb Bool.eqb negb orb].
  unfold admin_guard. destruct (authorizeAdminRequest _ _ _ _ _) as [[[status message]|auth] s1] eqn:Ea.
  { apply refused_status in Ea. intros [= <- _]. by left. }
  apply authorizeAdminRequest_checked in Ea as ->. unfold checked.
  destruct (authorizeAdmin_only_admin s (rq_Header r) [ScopeTokens] (auth_at clk)) as [store ->].
  destruct body as [req|e]; [|intros [= <- _]; by left].
  change (service (set_adminTokens s store)) with (service s).
  destruct (Tokens.CreateToken (service s) req (serve_at clk) random) as [[c|e] tokens] eqn:Ec.
  - intros [= <- <-]. right. by exists req, c.
  - intros [= <- _]. left. by destruct (isTokenRequestError e).
Qed.

(** The operator with the bootstrap token revokes a token by its id. *)
Lemma revoke_served s r id clk :
  rq_Path r = "/api/v1/tokens/" +:+ id -> rq_Method r = "DELETE"%string ->
  bearerToken (rq_Header r) = (AdminToken s, true) -> AdminToken s <> ""%string ->
  id <> ""%string -> id <> "validate"%string -> ~ In "/"%char (to_bytes id) -> TrimSpace id = id -> is_Some (service s) ->
  exists s', handleTokenByID s r clk = (NoContent, s') /\
    service s' = snd (Tokens.RevokeToken (service s) id (serve_at clk)).
Proof.
  intros Hp Hm Hb Ha Hne Hv Hs Ht [m Hsome]. unfold handleTokenByID, admin_guard, authorizeAdminRequest, authorizeAdmin.
  rewrite Hm, Hb. cbn [negb].
  assert (secretEqual (AdminToken s) (AdminToken s) = true) as -> by (apply secretEqual_spec; done).
  destruct (String.eqb_spec (AdminToken s) ""); [done|]. cbn [negb andb String.eqb Ascii.eqb Bool.eqb Authenticated Authorized].
  unfold path_id. rewrite Hp, TrimPrefix_app.
  destruct (String.eqb_spec id ""); [done|]. cbn [existsb]. destruct (String.eqb_spec id "validate"); [done|].
  rewrite (proj2 (Contains_char_false "/" id) Hs). cbn [orb].
  rewrite Hsome. unfold Tokens.RevokeToken. cbv zeta. rewrite Ht. destruct (String.eqb_spec id ""); [done|].
  assert (He : fst (Revoke m id (serve_at clk)) = None) by (cbn; unfold mem_Revoke; by destruct (TokenStore.byID m !! id)).
  destruct (Revoke m id (serve_at clk)) as [e m']. cbn in He. subst e. by eexists.
Qed.

(** * The client *)
Definition refused (resp : httpResponse) : bool := (hp_Status resp <? 200) || (300 <=? hp_Status resp).

Lemma client_do_served cl method path decoded data w v vs rep c :
  cl_baseURL cl = base -> PathUnescape path = Some decoded -> w_visits w = v :: vs ->
  Handler any time_Parse time_Format (w_control w) (request_at cl method decoded data)
    (with_body v (default [] data)) = Some (rep, c) ->
  refused (render rep) = false ->
  client_do cl method path (Ok <$> data) w = (Ok (hp_Body (render rep), hp_End (render rep)), mkWorld c vs).
Proof.
  intros Hb Hp Hv Hh Hr. unfold client_do, cbind, lift. cbn [NewRequest client Do].
  assert (Hs : serve (client_request cl method path data) w = (Ok (render rep), mkWorld c vs)).
  { unfold serve. rewrite (receive_at _ _ _ _ _ Hb Hp), Hv.
    change (hr_Body (client_request cl method path data)) with (default [] data). by rewrite Hh. }
  unfold refused in Hr. by destruct data; cbn [fmap option_fmap option_map]; rewrite Hs, Hr.
Qed.

Lemma client_do_ok cl method path decoded payload w body e w1 :
  cl_baseURL cl = base -> PathUnescape path = Some decoded ->
  client_do cl method path payload w = (Ok (body, e), w1) ->
  exists data v vs rep c, payload = Ok <$> data /\ w_visits w = v :: vs /\
    Handler any time_Parse time_Format (w_control w) (request_at cl method decoded data)
      (with_body v (default [] data)) = Some (rep, c) /\
    refused (render rep) = false /\ w1 = mkWorld c vs /\ body = hp_Body (render rep) /\ e = hp_End (render rep).
Proof.
  intros Hb Hp. unfold client_do, cbind, lift. cbn [NewRequest client Do].
  assert (Hd : match payload with
               | None => Ok None | Some (Ok data) => Ok (Some data) | Some (Err e) => Err (Wrap "encode request" e)
               end = @Err (option bytes) (Wrap "encode request" (default EOF (payload ≫= fun r => match r with Err e => Some e | _ => None end)))
               \/ exists data, payload = Ok <$> data /\
                 match payload with
                 | None => Ok None | Some (Ok data) => Ok (Some data) | Some (Err e) => Err (Wrap "encode request" e)
                 end = Ok data).
  { destruct payload as [[data|]|]; [right; by exists (Some data)|by left|right; by exists None]. }
  destruct Hd as [->|(data & -> & ->)]; [done|]. unfold serve. rewrite (receive_at _ _ _ _ _ Hb Hp).
  destruct (w_visits w) as [|v vs] eqn:Hv; [done|].
  change (hr_Body (client_request cl method path data)) with (default [] data).
  destruct (Handler _ _ _ _ _ _) as [[rep c]|] eqn:Hh; [|done].
  destruct (_ || _) eqn:Hr; [done|]. intros [= <- <- <-]. by exists data, v, vs, rep, c.
Qed.

Lemma created_id s req now random c s' :
  Tokens.CreateToken s req now random = (Ok c, s') ->
  exists data, Tokens.c_ID c = "tok_" +:+ RawURLEncode data.
Proof.
  unfold Tokens.CreateToken. destruct s as [m|]; [|done]. cbv zeta. destruct (String.eqb _ _); [done|].
  destruct (Tokens.randomSecret "ph_" 32 random) as [[token|] random1]; [|done].
  destruct (Tokens.randomSecret "tok_" 16 random1) as [[id|] random2] eqn:E; [|done].
  destruct (Tokens.normalizeScopes _); [|done]. destruct (Create _ _) as [[|] ?]; [done|]. intros [= <- <-].
  revert E. unfold Tokens.randomSecret, random_secret. destruct (rand_Read 16 random1) as [[data|] ?]; [|done].
  intros [= <- _]. by exists data.
Qed.

(** * The commands *)
Lemma handler_at c r v e rep s' :
  mux_lookup control_routes (rq_Path r) = Serve e ->
  serve_route any time_Parse time_Format c r v e = Some (rep, s') ->
  exists c', Handler any time_Parse time_Format c r v = Some (rep, c') /\ cs_server c' = s'.
Proof. intros Hm Hs. unfold Handler, latencyMiddleware. rewrite Hm, Hs. by eexists. Qed.

(** Encoded text and trimmed text stay ASCII. *)
Lemma visible_ascii s : sforall visible s = true -> is_ascii s = true.
Proof. apply sforall_impl. intros c. unfold visible, in_range. intros [H1 H2]%andb_true_iff. to_prop. apply Z.ltb_lt. lia. Qed.

Lemma created_carried s req now random c s' :
  Tokens.service_ok s -> Tokens.CreateToken s req now random = (Ok c, s') ->
  is_ascii (Tokens.cr_Name req) = true -> TrimSpace (Tokens.cr_Name req) = Tokens.cr_Name req -> json_time now = true ->
  carried_token c = true /\ Tokens.c_Name c = Tokens.cr_Name req.
Proof.
  intros Hok Hc Ha Ht Hn.
  destruct (Tokens.CreateToken_ok _ _ _ _ _ _ Hok Hc) as (_ & _ & _ & _ & _ & [_ Hleg] & _).
  assert (Hsc : forallb is_ascii (Tokens.c_Scopes c) = true).
  { apply forallb_forall. intros x Hx. rewrite Forall_forall in Hleg. destruct (Hleg x) as [Hk _]; [by apply list_elem_of_In|].
    apply list_elem_of_singleton in Hk as ->. done. }
  revert Hc Hsc. unfold Tokens.CreateToken. destruct s as [m|]; [|done]. cbv zeta. destruct (String.eqb _ _); [done|].
  destruct (Tokens.randomSecret "ph_" 32 random) as [[token|] random1] eqn:E1; [|done].
  destruct (Tokens.randomSecret "tok_" 16 random1) as [[id|] random2] eqn:E2; [|done].
  destruct (Tokens.normalizeScopes _); [|done]. destruct (Create _ _) as [[|] ?]; [done|]. intros [= <- <-] Hsc.
  unfold carried_token. cbn [Tokens.c_ID Tokens.c_Name Tokens.c_Token Tokens.c_Scopes Tokens.c_CreatedAt] in *.
  rewrite Ht, Ha, Hsc, Hn. split; [|done].
  revert E1 E2. unfold Tokens.randomSecret, random_secret.
  destruct (rand_Read 32 random) as [[d1|] ?]; [|done]. intros [= <- _].
  destruct (rand_Read 16 random1) as [[d2|] ?]; [|done]. intros [= <- _].
  by rewrite !visible_ascii by by rewrite sforall_app, RawURLEncode_visible.
Qed.

(** What a run of [tokens create] that printed something did. *)
Lemma create_ran stdin args w out w1 cfg req :
  Tokens.service_ok (tokens_of w) -> Forall (fun v => json_time (serve_at (v_clock v)) = true) (w_visits w) ->
  runs_create stdin args w = (Ok out, w1) -> carried_request req = true ->
  parseTokenCreateConfig Getenv stdin args = Ok (cfg, req) -> controlPlaneURL cfg = base -> jsonOutput cfg = false ->
  exists c sreq now random, out = printCreatedToken time_Format (created_of c) /\ Tokens.c_Name c = ct_Name req /\
    Tokens.CreateToken (tokens_of w) sreq now random = (Ok c, tokens_of w1).
Proof.
  intros Hok Htimes Hrun Hcar Hparse Hb Hj. unfold runTokensCreate, cbind, lift in Hrun. rewrite Hparse, Hj in Hrun.
  destruct (createToken (newTokenAdminClient cfg) req w) as [[t|e] w2] eqn:Ec; [|done]. injection Hrun as <- <-.
  unfold createToken, client_get, cbind in Ec.
  destruct (client_do _ _ _ _ _) as [[[body e]|e] w3] eqn:Ed; [|done].
  apply (client_do_ok _ _ _ "/api/v1/tokens") in Ed; [|done|done].
  destruct Ed as (data & v & vs & rep & c & Hpl & Hv & Hh & Hr & -> & -> & ->).
  unfold lift in Ec. injection Ec as Ht <-. unfold Handler, latencyMiddleware in Hh.
  change (mux_lookup control_routes (rq_Path (request_at (newTokenAdminClient cfg) "POST" "/api/v1/tokens" data))) with (Serve ETokens) in Hh.
  cbn [serve_route] in Hh.
  destruct (handleTokens _ _ _ _ _) as [rep1 s'] eqn:Eh. cbn [fst snd mbind option_bind] in Hh. injection Hh as <- <-.
  apply create_served in Eh; [|done|done]. destruct Eh as [Eh|(sreq & c & Hbody & -> & Hc)].
  { unfold refused in Hr. congruence. }
  destruct data as [data|]; [|done]. cbn in Hpl. injection Hpl as Henc. cbn [with_body v_body default] in Hbody.
  rewrite (server_reads_request _ _ Henc Hcar) in Hbody. injection Hbody as <-.
  apply andb_true_iff in Hcar as [Hname _]. rewrite Hv in Htimes. apply Forall_cons in Htimes as [Htime _].
  assert (Htrim : TrimSpace (ct_Name req) = ct_Name req).
  { unfold parseTokenCreateConfig in Hparse. apply rbind_ok in Hparse as (sets & _ & H). cbv zeta in H.
    destruct (String.eqb _ _); [done|]. apply rbind_ok in H as (? & _ & [= _ <-]). apply TrimSpace_idem. }
  destruct (created_carried _ _ _ _ _ _ Hok Hc Hname Htrim Htime) as [Hcarried Hn].
  cbn [render hp_Body hp_End] in Ht. rewrite client_reads_token in Ht by done. injection Ht as <-.
  eexists c, _, _, _. split; [done|]. split; [done|exact Hc].
Qed.

(** What [tokens revoke] does with the bootstrap token. *)
Lemma revoke_runs stdin args w id data cfg :
  parseTokenRevokeConfig Getenv stdin args = Ok (cfg, id) -> controlPlaneURL cfg = base -> jsonOutput cfg = false ->
  adminToken cfg = AdminToken (cs_server (w_control w)) -> id = "tok_" +:+ RawURLEncode data ->
  is_Some (tokens_of w) -> w_visits w <> [] ->
  exists w1 now, runs_revoke stdin args w = (Ok [Line ("Token revoked: " +:+ id)], w1) /\
    tokens_of w1 = snd (Tokens.RevokeToken (tokens_of w) id now).
Proof.
  intros Hparse Hb Hj Ha Hid Hsome Hvs. destruct (w_visits w) as [|v vs] eqn:Ev; [done|].
  assert (Hadm : adminToken cfg <> ""%string /\ TrimSpace (adminToken cfg) = adminToken cfg).
  { unfold parseTokenRevokeConfig in Hparse. apply rbind_ok in Hparse as ([sets i] & _ & H).
    apply rbind_ok in H as (cfg' & Hf & [= -> _]). by eapply finalizeTokenAdminConfig_ok. }
  destruct Hadm as [Hne Htr].
  assert (Hslash : ~ In "/"%char (to_bytes id)).
  { rewrite Hid, to_bytes_app. intros H%in_app_or. destruct H as [H|H]; [|by eapply RawURLEncode_no_slash].
    cbn in H. by destruct H as [H|[H|[H|[H|H]]]]. }
  destruct (revoke_served (cs_server (w_control w)) (request_at (newTokenAdminClient cfg) "DELETE" ("/api/v1/tokens/" +:+ id) None) id (v_clock v))
    as (s' & Hs & Htok); try done; try (by rewrite Hid).
  { rewrite request_bearer by done. cbn [newTokenAdminClient cl_adminToken]. by rewrite Ha. }
  { by rewrite <- Ha. }
  { rewrite Hid. apply TrimSpace_visible. by rewrite sforall_app, RawURLEncode_visible. }
  destruct (handler_at (w_control w) (request_at (newTokenAdminClient cfg) "DELETE" ("/api/v1/tokens/" +:+ id) None)
    (with_body v []) EToken (RAdmin NoContent) s') as (c' & Hh & Hc').
  { cbn [request_at rq_Path]. rewrite Hid. apply token_route, RawURLEncode_no_slash. }
  { cbn [serve_route with_body v_clock]. by rewrite Hs. }
  exists (mkWorld c' vs), (serve_at (v_clock v)). split; [|by rewrite <- Htok, <- Hc'].
  unfold runTokensRevoke, cbind, lift. rewrite Hparse. unfold revokeToken, cbind, lift.
  pose proof (client_do_served (newTokenAdminClient cfg) "DELETE" _ _ None w v vs _ c' Hb (token_path_decoded id) Ev Hh eq_refl) as Hd.
  cbn [fmap option_fmap option_map] in Hd. by rewrite Hd, Hj.
Qed.

(** A revoked record, whatever was revoked. *)
Lemma memory_revokes s id r now :
  Tokens.service_ok s -> Tokens.holds s id r -> TrimSpace id = id -> id <> ""%string ->
  exists r', Tokens.holds (snd (Tokens.RevokeToken s id now)) id r' /\ t_RevokedAt r' <> None /\
    t_TokenHash r' = t_TokenHash r.
Proof.
  intros Hok Hr Ht Hne. destruct s as [m|]; [|done]. unfold Tokens.RevokeToken. cbv zeta. rewrite Ht.
  destruct (String.eqb_spec id ""); [done|]. cbn in Hr |- *. unfold mem_Revoke. rewrite Hr.
  exists (set_RevokedAt r now). split; [apply lookup_insert_eq|done].
Qed.

Lemma server_steps_tokens s s' : rtc server_step s s' -> rtc Tokens.token_step (service s) (service s').
Proof. by intros [H _ _ _ _ _ _]%system_moves. Qed.

(** C22: a token managed from the command line, against the control plane's
    own HTTP handler.  When [porthook tokens create] succeeds on a control
    plane in any state it can reach, the token and the id it prints are those
    of a live token with the name asked for: validating the token names that id and its scopes.  From
    then on, after any further requests of anyone, [porthook tokens revoke] of
    the printed id with the bootstrap token succeeds and says so, and no
    sequence of later calls makes the control plane accept the token again. *)
Theorem cli_token_lifecycle admin validator proxies stdin args cfg req w out w1 :
  rtc server_step (Admin.NewServer admin validator proxies) (cs_server (w_control w)) ->
  parseTokenCreateConfig Getenv stdin args = Ok (cfg, req) -> controlPlaneURL cfg = base -> jsonOutput cfg = false ->
  carried_request req = true -> Forall (fun v => json_time (serve_at (v_clock v)) = true) (w_visits w) ->
  runs_create stdin args w = (Ok out, w1) ->
  exists t, out = printCreatedToken time_Format t /\ cd_Name t = ct_Name req /\
    (forall scope now, TrimSpace scope = ""%string \/ TrimSpace scope ∈ cd_Scopes t ->
       exists s, Tokens.ValidateToken (tokens_of w1) (cd_Token t) scope now =
         (Ok (Tokens.mkValidationResult true (cd_ID t) (cd_Scopes t)), s)) /\
    forall w2 stdin2 args2 cfg2,
      rtc server_step (cs_server (w_control w1)) (cs_server (w_control w2)) -> w_visits w2 <> [] ->
      parseTokenRevokeConfig Getenv stdin2 args2 = Ok (cfg2, cd_ID t) -> controlPlaneURL cfg2 = base ->
      jsonOutput cfg2 = false -> adminToken cfg2 = AdminToken (cs_server (w_control w2)) ->
      exists w3, runs_revoke stdin2 args2 w2 = (Ok [Line ("Token revoked: " +:+ cd_ID t)], w3) /\
        forall s scope now v s', rtc Tokens.token_step (tokens_of w3) s ->
          Tokens.ValidateToken s (cd_Token t) scope now = (Ok v, s') -> Tokens.v_Valid v = false.
Proof.
  intros Hstart Hparse Hb Hj Hcar Htimes Hrun. apply server_steps_tokens in Hstart. cbn [Admin.NewServer service] in Hstart.
  pose proof (tokens_ok _ _ Hstart Tokens_start) as Hok.
  destruct (create_ran _ _ _ _ _ _ _ Hok Htimes Hrun Hcar Hparse Hb Hj) as (c & sreq & now & random & -> & Hname & Hc).
  destruct (Tokens.CreateToken_ok _ _ _ _ _ _ Hok Hc)
    as (r & Hr & Hh & Hlive & Hsc & Hleg & _ & Htrim & Hne & Hok1).
  destruct (created_id _ _ _ _ _ _ Hc) as [data Hid].
  exists (created_of c). split; [done|]. split; [done|]. cbn [created_of cd_Token cd_ID cd_Scopes]. rewrite <- Hsc in *. split.
  { intros scope now' Hscope. by apply (Tokens.live_token_validates _ _ r). }
  intros w2 stdin2 args2 cfg2 Hsteps Hv Hparse2 Hb2 Hj2 Ha2. apply server_steps_tokens in Hsteps.
  destruct (Tokens.steps_grow _ _ _ _ Hsteps Hok1 Hr) as (Hok2 & r2 & Hr2 & _ & Hh2 & _).
  destruct (revoke_runs _ _ _ _ _ _ Hparse2 Hb2 Hj2 Ha2 Hid) as (w3 & now3 & Hrun3 & Ht3); [|done|].
  { by destruct (tokens_of w2). }
  exists w3. split; [done|]. intros s scope now' v s' Hs3 Hval.
  assert (Htid : TrimSpace (Tokens.c_ID c) = Tokens.c_ID c)
    by (rewrite Hid; apply TrimSpace_visible; by rewrite sforall_app, RawURLEncode_visible).
  destruct (memory_revokes _ _ _ now3 Hok2 Hr2 Htid) as (r3 & Hr3 & Hrev & Hh3); [by rewrite Hid|].
  rewrite <- Ht3 in Hr3. eapply Tokens.revoked_refused; [|exact Hr3|done| |exact Hs3|exact Hval].
  - rewrite Ht3. eapply tokens_ok; [|exact Hok2]. apply rtc_once. constructor.
  - rewrite Hh3, Hh2, Hh, Htrim. done.
Qed.
End composition.

(** ** Witness *)
Module Witness_cli.
#[local] Instance unicode : GoUnicode := {| lower_nonascii s := s; upper_nonascii s := s |}.
#[local] Instance netip : GoNetip := text_netip.
#[local] Instance sha : SHA256 := {| Sum256 s := to_bytes s |}.
#[local] Instance argon2 : Argon2 := toy_argon2.
#[local] Instance urls : GoURL := {| url_Parse s := Ok (mkURL "http" "" "cp" s "" "" ""); url_String u := url_Path u |}.
#[local] Instance codec : JSONCodec logCursor := countable_codec.
#[local] Instance float : FloatOps Q := exact.
#[local] Instance float_text : FloatText Q := {| FormatFloat _ := "0"; f_trunc q := Z.quot (Qnum q) (Zpos (Qden q)) |}.

Definition any : JSONDecoder unit := {| Decode rest e := match rest with [] => Err e | _ => Ok ((), []) end |}.
Definition refuse {T} : JSONDecoder T := {| Decode _ _ := Err (Errorf "invalid character") |}.
#[local] Instance d1 : JSONDecoder AdminTokens.CreateTokenRequest := refuse.
#[local] Instance d3 : JSONDecoder CreateReservationRequest := refuse.
#[local] Instance d4 : JSONDecoder CreatePolicyRequest := refuse.
#[local] Instance d5 : JSONDecoder UpdatePolicyRequest := refuse.
#[local] Instance d6 : JSONDecoder CreateDomainRequest := refuse.
#[local] Instance d7 : JSONDecoder validateTokenRequest := refuse.
#[local] Instance d8 : JSONDecoder authorizeReservedSubdomainRequest := refuse.
#[local] Instance d9 : JSONDecoder accessPolicyEvaluationRequest := refuse.
#[local] Instance d10 : JSONDecoder lookupCustomDomainRequest := refuse.

(** Codes for JSON text: the bits of a countable value, and a line end. *)
Definition bits {T} `{Countable T} (t : T) : bytes := pos_bits (encode t).
Definition unbits {T} `{Countable T} (data : bytes) : option T := bits_pos data ≫= decode.
Lemma unbits_bits {T} `{Countable T} (t : T) : unbits (bits t) = Some t.
Proof. unfold unbits, bits. rewrite bits_pos_bits. cbn. apply decode_encode. Qed.

#[local] Instance d2 : JSONDecoder Tokens.CreateTokenRequest := {|
  Decode input _ :=
    match unbits (take (length input - 1) input) with
    | Some (name, scopes) => Ok (Tokens.mkCreateTokenRequest name scopes, [])
    | None => Err (Errorf "invalid character")
    end
|}.
#[local] Instance j1 : JSONCodec createTokenRequest := {|
  Marshal req :=
    let data := bits (ct_Name req, ct_Scopes req) in
    if maxJSONBodyBytes <? Z.of_nat (length (data ++ [chr 10])) then Err (Errorf "too long") else Ok data;
  Unmarshal _ := Err (Errorf "not needed");
|}.
#[local] Instance r1 : ResponseJSON createdToken := {|
  decode_response data _ :=
    match unbits data with
    | Some (id, name, token, scopes, at_) => Ok (mkCreated id name token scopes at_)
    | None => Err (Errorf "invalid character")
    end;
  zero_value := mkCreated "" "" "" [] 0;
|}.
Definition no_codec {T} : JSONCodec T := {| Marshal _ := Err (Errorf "no"); Unmarshal _ := Err (Errorf "no") |}.
#[local] Instance o1 : JSONCodec createdToken := no_codec.
#[local] Instance o3 : JSONCodec json_map := no_codec.
Definition encode (p : payload) : bytes :=
  match p with
  | PTokenCreated c => bits (Tokens.c_ID c, Tokens.c_Name c, Tokens.c_Token c, Tokens.c_Scopes c, Tokens.c_CreatedAt c)
  | _ => []
  end.

#[local] Instance wire : WireJSON any encode.
Proof.
  split.
  - intros req data. unfold encode_line. cbn [Marshal j1]. cbv zeta.
    destruct (maxJSONBodyBytes <? _) eqn:El; [done|]. intros [= <-] _.
    unfold decodeJSON, limited. rewrite El. cbn [Decode d2].
    rewrite length_app, Nat.add_sub, take_app_length, unbits_bits. done.
  - intros c _. cbn [decode_response r1 encode]. by rewrite unbits_bits.
Qed.

Definition base : string := "http://cp".
Definition visit_at (t : Time) : visit :=
  mkVisit [] "" (fun _ => ""%string) (mkClock t t t) [Some (to_bytes "secret"); Some (to_bytes "id")]
    (fun _ => Ok []) (fun _ => None) (fun _ _ => Err EOF) map_to_list (mkRuntimeStats 1 2 3 None) 0 5.
Definition start : world :=
  mkWorld (NewServer (CP.ConfigFromEnv (D := {| ParseDuration _ := None |})
    (fun n => if String.eqb n "PORTHOOK_CONTROL_ADMIN_TOKEN" then "admin-secret" else "")) None [] 1).1
    [visit_at 10; visit_at 20].

Definition render_other (_ : control_reply) : httpResponse := mkHttpResponse 500 ∅ [] EOF.
Definition create_args : list string :=
  ["--control-plane"; "http://cp/"; "--admin-token"; "admin-secret"; "--name"; " ci "]%string.
Definition revoke_args : list string :=
  ["--control-plane=http://cp"; "--admin-token"; "admin-secret"; "tok_aWQAAAAAAAAAAAAAAAAAAA"]%string.
Definition closed : Stdin := mkStdin (Ok []) None.
#[local] Instance the_client : HTTPClient world :=
  client any (fun _ => None) Itoa base encode render_other (fun _ => ""%string).
#[local] Instance tokens : TokenStore TokenStore.MemoryStore := TokenStore.memory_store Tokens.ErrTokenAlreadyExists.
Definition no_env (_ : string) : string := "".
Definition created := runTokensCreate (W := world) no_env Itoa closed create_args start.

Definition printed : list output :=
  [Line "Created token tok_aWQAAAAAAAAAAAAAAAAAAA"; Line "Name: ci"; Line "Scopes: register_tunnel"; Line "Created: 10";
   Line "Token: ph_c2VjcmV0AAAAAAAAAAAAAAAAAAAAAAAAAAAAAAAAAAA"; Line "The token is shown only once."].

Lemma cli_token_lifecycle_witness :
  exists w1 w3, created = (Ok printed, w1) /\
    runTokensRevoke (W := world) no_env closed revoke_args w1 = (Ok [Line "Token revoked: tok_aWQAAAAAAAAAAAAAAAAAAA"], w3) /\
    forall v s', Tokens.ValidateToken (service (cs_server (w_control w3))) "ph_c2VjcmV0AAAAAAAAAAAAAAAAAAAAAAAAAAAAAAAAAAA" "" 30 = (Ok v, s') ->
      Tokens.v_Valid v = false.
Proof.
  destruct created as [r w1] eqn:E.
  assert (r = Ok printed) as -> by (apply (f_equal fst) in E; cbn [fst] in E; rewrite <- E; by vm_compute).
  assert (Hv : w_visits w1 <> []) by (apply (f_equal snd) in E; cbn [snd] in E; rewrite <- E; by vm_compute).
  assert (Ha : AdminToken (cs_server (w_control w1)) = "admin-secret"%string)
    by (apply (f_equal snd) in E; cbn [snd] in E; rewrite <- E; by vm_compute).
  destruct (cli_token_lifecycle any (fun _ => None) Itoa base encode render_other (fun _ => ""%string) no_env
    "admin-secret" "" "" closed create_args (mkTokenAdminConfig "http://cp" "admin-secret" false false)
    (mkCreateToken "ci" []) start printed w1) as (t & Hp & _ & _ & Hrevoke).
  - apply rtc_refl.
  - by vm_compute.
  - done.
  - done.
  - done.
  - by repeat constructor.
  - exact E.
  - unfold printed, printCreatedToken in Hp. injection Hp as Hid _ _ _ Htok.
    pose proof (eq_sym Hid : cd_ID t = _) as Hi. pose proof (eq_sym Htok : cd_Token t = _) as Ht.
    rewrite Hi, Ht in Hrevoke.
    destruct (Hrevoke w1 closed revoke_args (mkTokenAdminConfig "http://cp" "admin-secret" false false))
      as (w3 & Hr & Hnever); [apply rtc_refl|exact Hv|vm_compute; reflexivity|reflexivity|reflexivity|exact (eq_sym Ha)|].
    exists w1, w3. split; [reflexivity|]. split; [exact Hr|]. intros v s'. apply Hnever. apply rtc_refl.
Defined.
End Witness_cli.
