(* ===== verification/Lifecycle.v ===== *)
(** How the servers run and end: [Run] of server/gateway/internal/gateway and
    of server/control-plane/internal/controlplane, the resolver the latter asks
    for custom domains, the attributes the gateway
    writes to its process log, and the waits of the agent
    (agent/internal/agent/runner.go).

    A select is the alternative it takes, one of those that are ready; the
    listeners of net/http are their results.  Between the closing of the
    sessions and the end of [Run] the handlers go on: what they make of the
    server is an argument. *)
From S2P Require Import Prelude GoStrings Messages Wire Session ClientIP Config Routing Tunnels Gateway Management.
From S2P Require AgentRunner ControlPlaneConfig.
From Stdlib Require Import ZArith Lia List String Ascii Bool.
From stdpp Require Import base gmap strings list.

Open Scope Z_scope.

Definition ErrServerClosed : error := Sentinel "http.ErrServerClosed" "http: Server closed".
(** [errors.Join]: the errors that are not nil, [[]] for nil. *)
Definition errors_Join (errs : list (option error)) : list error := omap id errs.

(** The limits of an [http.Server]; 0 is none. *)
Record http_Server := mkHTTPServer {
  hs_Addr : string; hs_ReadHeaderTimeout : Duration; hs_ReadTimeout : Duration; hs_WriteTimeout : Duration;
  hs_IdleTimeout : Duration;
}.
(** What [serveHTTP] sends to the channel of errors. *)
Definition serveHTTP (ListenAndServe : option error) : option error :=
  match ListenAndServe with
  | Some err => if negb (errors_Is err ErrServerClosed) then Some err else None
  | None => None
  end.

(** What a select on the context and the channel of errors takes. *)
Inductive wake : Type := FromContext | FromErrCh (err : error).
Definition ready (ctx_done : bool) (errCh : list error) (k : wake) : Prop :=
  match k with FromContext => ctx_done = true | FromErrCh err => err ∈ errCh end.

(** * The gateway *)
Module GatewayRun.
Section run.
Context (cfg : Config).
Definition publicServer : http_Server :=
  mkHTTPServer (PublicAddr cfg) (ReadHeaderTimeout cfg) (ReadTimeout cfg) 0 (IdleTimeout cfg).
Definition agentServer : http_Server :=
  mkHTTPServer (AgentAddr cfg) (ReadHeaderTimeout cfg) (ReadTimeout cfg) (WriteTimeout cfg) (IdleTimeout cfg).
Definition managementServer : http_Server :=
  mkHTTPServer (ManagementAddr cfg) (ReadHeaderTimeout cfg) (ReadTimeout cfg) (WriteTimeout cfg) (IdleTimeout cfg).
Definition servers : list http_Server := [publicServer; agentServer; managementServer].

(** The close frame every session is sent, why [Run] ends, and the errors it
    returns. *)
Record ended := mkEnded { en_status : Z; en_reason : string; en_server : Server; en_errors : list error }.
Definition Run (k : wake) (out : close_outcome) (meanwhile : Server -> Server) (Shutdown : http_Server -> option error)
    (s : Server) : ended :=
  let finish (status : Z) (reason : string) (first : list (option error)) : ended :=
    let s := fst (closeSessions s out) in
    let s := meanwhile s in
    mkEnded status reason s
      (errors_Join (first ++ [Shutdown publicServer; Shutdown agentServer; Shutdown managementServer])) in
  match k with
  | FromContext => finish 1001 "gateway shutting down" []
  | FromErrCh err => finish 1011 "gateway listener stopped" [Some err]
  end.

(** [Run] ends without an error exactly when it was told to and every server
    shut down in time; the error of a listener is always reported, first; the
    sessions there were are closed. *)
Lemma gateway_run_ends k out Shutdown s :
  let e := Run k out id Shutdown s in
  (en_errors e = [] <-> k = FromContext /\ forall srv, srv ∈ servers -> Shutdown srv = None) /\
  (forall err, k = FromErrCh err -> head (en_errors e) = Some err) /\
  (forall id l, sessions (en_server e) !! id = Some l -> fst (acquireStream (agent l)) = Err agent_disconnected).
Proof.
  cbv zeta. split; [|split].
  - unfold servers. destruct k; cbn -[closeSessions].
    + destruct (Shutdown publicServer) eqn:E1, (Shutdown agentServer) eqn:E2, (Shutdown managementServer) eqn:E3; cbn; (split; [try discriminate|]).
      all: try (intros [_ H]; pose proof (H publicServer); pose proof (H agentServer); pose proof (H managementServer); set_solver).
      intros _. split; [done|]. intros srv Hs. rewrite !elem_of_cons, elem_of_nil in Hs. naive_solver.
    + split; [discriminate|]. by intros [? _].
  - by intros err ->.
  - intros id l H. eapply (closed_sessions_refuse s out). destruct k; exact H.
Qed.

(** A session that registers while the public server still waits for its
    requests is not closed by [Run]: the listener for agents is open until the
    sessions have been closed and the public server has shut down. *)
Lemma late_session_left_open k out Shutdown s l :
  sessions (en_server (Run k out (fun s => addSession s l) Shutdown s)) !! Registry.TunnelID (tunnel l) = Some l.
Proof. destruct k; cbn -[closeSessions]; unfold addSession; cbn; by rewrite lookup_insert_eq. Qed.
End run.
End GatewayRun.

(** * The control plane *)
Module ControlPlaneRun.
Definition server (cfg : ControlPlaneConfig.CP.Config) : http_Server :=
  mkHTTPServer (ControlPlaneConfig.CP.Addr cfg) (5 * 1000000000) 0 0 0.
(** The error of [Run]; a listener that stops ends it as it is. *)
Definition Run (k : wake) (Shutdown : option error) : option error :=
  match k with FromContext => Shutdown | FromErrCh err => Some err end.
End ControlPlaneRun.

(** The resolver of custom domains the control plane is started with
    (customdomains/service.go). *)
Module DomainResolver.
Section resolver.
Context {U : GoUnicode}.
(** A query of [net.Resolver]: to the servers of the system, or dialled to an
    address. *)
Context (net_LookupTXT : option string -> string -> result (list string)).

Inductive TXTResolver : Type := netTXTResolver | customTXTResolver (addr : string).
Definition NewTXTResolver (addr : string) : TXTResolver :=
  let addr := TrimSpace addr in
  if String.eqb addr "" then netTXTResolver else customTXTResolver addr.
Definition LookupTXT (r : TXTResolver) (name : string) : result (list string) :=
  match r with
  | netTXTResolver => net_LookupTXT None name
  | customTXTResolver addr => net_LookupTXT (Some addr) name
  end.
(** The resolver of a service; [None] is nil. *)
Definition NewServiceWithResolver (resolver : option TXTResolver) : TXTResolver :=
  match resolver with None => netTXTResolver | Some r => r end.
Definition NewService : TXTResolver := NewServiceWithResolver (Some netTXTResolver).
End resolver.
End DomainResolver.

(** * The gateway's process log *)
Module GatewayLog.
Inductive level : Type := LevelInfo | LevelWarn.
Inductive attr : Type :=
| AttrString (key value : string) | AttrBool (key : string) (value : bool) | AttrInt (key : string) (value : Z)
| AttrError (key : string) (err : error).

Section log.
Context {U : GoUnicode} {NI : GoNetip} (clientIPs : Resolver).

Definition requestAuditAttrs (r : HTTPRequest) (event : string) : list attr :=
  let id := request_id r in
  [AttrString "event" event; AttrString "method" (r_Method r); AttrString "path" (r_Path r);
   AttrString "remote_ip" (client_IP clientIPs r)] ++
  (if negb (String.eqb id "") then [AttrString "request_id" id] else []).

Definition logPublicRequest (r : HTTPRequest) (entry : publicRequestLog) (now : Time) : level * string * list attr :=
  let lvl := if 500 <=? log_Status entry then LevelWarn else LevelInfo in
  let attrs :=
    [AttrString "event" "gateway.public_request"; AttrString "method" (r_Method r); AttrString "host" (r_Host r);
     AttrString "path" (r_Path r); AttrBool "query_present" (negb (String.eqb (r_RawQuery r) ""));
     AttrString "remote_ip" (client_IP clientIPs r); AttrString "subdomain" (log_Subdomain entry);
     AttrString "custom_domain" (log_CustomDomain entry); AttrString "tunnel_id" (log_TunnelID entry);
     AttrString "stream_id" (log_StreamID entry); AttrInt "status" (log_Status entry);
     AttrString "outcome" (log_Outcome entry); AttrInt "request_bytes" (log_RequestBytes entry);
     AttrInt "response_bytes" (log_ResponseBytes entry);
     AttrInt "duration_ms" (Z.quot (time_Sub now (Started entry)) 1000000)] in
  let attrs := match log_Error entry with Some e => attrs ++ [AttrError "error" e] | None => attrs end in
  let id := request_id r in
  let attrs := if negb (String.eqb id "") then attrs ++ [AttrString "request_id" id] else attrs in
  (lvl, "public request"%string, attrs).

(** [withClientIPTrace] adds the client's address to the span. *)
Definition withClientIPTrace {A} (SetSpanAttributes : list attr -> A -> A) (r : HTTPRequest) (next : HTTPRequest -> A) : A :=
  SetSpanAttributes [AttrString "porthook.client_ip" (client_IP clientIPs r)] (next r).

(** The same request with another query, body and credentials. *)
Definition disguised (r r' : HTTPRequest) : Prop :=
  r_Method r = r_Method r' /\ r_Host r = r_Host r' /\ r_Path r = r_Path r' /\
  String.eqb (r_RawQuery r) "" = String.eqb (r_RawQuery r') "" /\ r_RemoteAddr r = r_RemoteAddr r' /\
  r_ContextID r = r_ContextID r' /\
  (forall k, k <> "Authorization"%string -> k <> "Cookie"%string ->
     r_Header r !! k = r_Header r' !! k).

Lemma disguised_values r r' key : disguised r r' ->
  CanonicalHeaderKey key <> "Authorization"%string -> CanonicalHeaderKey key <> "Cookie"%string ->
  Header_Values (r_Header r) key = Header_Values (r_Header r') key.
Proof. intros (_ & _ & _ & _ & _ & _ & H) H1 H2. unfold Header_Values. by rewrite (H _ H1 H2). Qed.
Lemma disguised_id r r' : disguised r r' -> request_id r = request_id r'.
Proof.
  intros H. unfold request_id, FromRequest, ClientIP.inbound, Header_Get.
  rewrite !(disguised_values r r') by (done || (vm_compute; discriminate)). by destruct H as (_ & _ & _ & _ & _ & -> & _).
Qed.
Lemma disguised_ip r r' : disguised r r' -> client_IP clientIPs r = client_IP clientIPs r'.
Proof.
  intros H. unfold client_IP, ResolveString, Resolve, forwardedChain, Header_Get.
  rewrite !(disguised_values r r') by (done || (vm_compute; discriminate)). by destruct H as (_ & _ & _ & _ & -> & _).
Qed.

(** The text of a query, the body, cookies and credentials of a public request
    do not reach the process log or the request log: two requests that differ
    only there leave the same line, the same attributes and the same entry. *)
Lemma logs_hide_secrets r r' entry event now : disguised r r' ->
  logPublicRequest r entry now = logPublicRequest r' entry now /\
  requestAuditAttrs r event = requestAuditAttrs r' event /\
  requestLogEntryFromPublicRequest r entry (client_IP clientIPs r) now =
    requestLogEntryFromPublicRequest r' entry (client_IP clientIPs r') now.
Proof.
  intros H. pose proof (disguised_id _ _ H) as Hid. pose proof (disguised_ip _ _ H) as Hip.
  destruct H as (Hm & Hh & Hp & Hq & _). unfold logPublicRequest, requestAuditAttrs, requestLogEntryFromPublicRequest.
  by rewrite Hid, Hip, Hm, Hh, Hp, Hq.
Qed.
End log.
End GatewayLog.

(** * The agent's waits *)
Module AgentWaits.
(** How a select on the context and a timer ends. *)
Inductive timer_end : Type := CtxDone (err : error) | Fired.
Definition waitForReconnect (delay : Duration) (ctx_err : option error) (race : timer_end) : option error :=
  if delay <=? 0 then ctx_err
  else match race with CtxDone err => Some err | Fired => None end.
(** [ping] of a runner: the deadline it gives the pong, [None] without one. *)
Definition ping {A} (pongTimeout : Duration) (now : Time) (parent : option Time) (conn_Ping : option Time -> A) : A :=
  conn_Ping (AgentRunner.contextWithTimeout now parent pongTimeout).
End AgentWaits.
