(* ===== verification/Processes.v ===== *)
(** The processes of the server side: main.go of
    server/control-plane/cmd/porthook-control-plane and of
    server/gateway/cmd/porthook-gateway, with server/internal/telemetry and
    server/dashboard.

    A process is a function of its arguments and its environment to what it
    prints and the error it ends with.  The database it opens, the HTTP client
    of the health check, the exporters of OpenTelemetry and the server that
    then runs are arguments.  What the two processes do to a database they
    share is followed through any sequence of starts. *)
From S2P Require Import Prelude GoStrings Wire Sql Migrations Flags.
From S2P Require Config ControlPlaneConfig ClientIP TokenStore Reserved Access CustomDomains AuditEvents.
From Stdlib Require Import ZArith Lia List String Ascii Bool.
From stdpp Require Import base gmap strings list relations.

Open Scope Z_scope.

Definition line (s : string) : string := s +:+ String (chr 10) "".

(** * server/internal/telemetry *)
Module Telemetry.
Record Config := mkConfig {
  Enabled : bool; ServiceName : string; ServiceVersion : string; Exporter : string; Protocol : string;
}.

Section config.
Context {U : GoUnicode} (Getenv : string -> string).

Fixpoint firstEnv (names : list string) : string :=
  match names with
  | [] => ""
  | name :: rest =>
      let value := TrimSpace (Getenv name) in
      if negb (String.eqb value "") then value else firstEnv rest
  end.
(** The value, and whether one was set. *)
Definition envBool (name : string) : bool * bool :=
  let value := ToLower (TrimSpace (Getenv name)) in
  if String.eqb value "" then (false, false)
  else (existsb (String.eqb value) ["1"; "t"; "true"; "yes"; "on"]%string, true).

Definition ConfigFromEnv (defaultServiceName serviceVersion : string) : Config :=
  let serviceName := firstEnv ["PORTHOOK_OTEL_SERVICE_NAME"; "OTEL_SERVICE_NAME"] in
  let serviceName := if String.eqb serviceName "" then defaultServiceName else serviceName in
  let exporter := ToLower (firstEnv ["PORTHOOK_OTEL_EXPORTER"; "OTEL_TRACES_EXPORTER"]) in
  let protocol := ToLower (firstEnv ["PORTHOOK_OTEL_PROTOCOL"; "OTEL_EXPORTER_OTLP_PROTOCOL"]) in
  let '(enabled, enabledSet) := envBool "PORTHOOK_OTEL_ENABLED" in
  let '(enabled, enabledSet, exporter) :=
    if EqualFold (TrimSpace (Getenv "OTEL_SDK_DISABLED")) "true" then (false, true, "none"%string)
    else (enabled, enabledSet, exporter) in
  let enabled := if negb enabledSet && negb (String.eqb exporter "") && negb (String.eqb exporter "none") then true else enabled in
  let exporter := if enabled && String.eqb exporter "" then "otlp"%string else exporter in
  let exporter := if String.eqb exporter "" then "none"%string else exporter in
  let protocol := if String.eqb protocol "" then "http/protobuf"%string else protocol in
  mkConfig enabled serviceName serviceVersion exporter protocol.
End config.

(** The exporters of the library; [create] is the error of making one. *)
Inductive exporter_kind : Type := StdoutExporter | OTLPHTTPExporter | OTLPGRPCExporter.
Section setup.
Context (create : exporter_kind -> option error) (resource_New : string -> string -> option error).

Definition made (kind : exporter_kind) (failure : string) : result exporter_kind :=
  match create kind with Some e => Err (Wrap failure e) | None => Ok kind end.
Definition newOTLPHTTPExporter : result exporter_kind := made OTLPHTTPExporter "create OTLP HTTP trace exporter".
Definition newOTLPGRPCExporter : result exporter_kind := made OTLPGRPCExporter "create OTLP gRPC trace exporter".
Definition newOTLPExporter (protocol : string) : result exporter_kind :=
  if existsb (String.eqb protocol) [""; "http"; "http/protobuf"]%string then newOTLPHTTPExporter
  else if String.eqb protocol "grpc" then newOTLPGRPCExporter
  else Err (Errorf ("unsupported OTLP protocol " +:+ Quote protocol)).
Definition newExporter (cfg : Config) : result exporter_kind :=
  let exporter := Exporter cfg in
  if existsb (String.eqb exporter) ["stdout"; "console"]%string then made StdoutExporter "create stdout trace exporter"
  else if String.eqb exporter "otlp" then newOTLPExporter (Protocol cfg)
  else if existsb (String.eqb exporter) ["otlp-http"; "http"; "http/protobuf"]%string then newOTLPHTTPExporter
  else if existsb (String.eqb exporter) ["otlp-grpc"; "grpc"]%string then newOTLPGRPCExporter
  else Err (Errorf ("unsupported telemetry exporter " +:+ Quote exporter)).

(** The exporter the spans go to, if any. *)
Definition Setup (cfg : Config) : result (option exporter_kind) :=
  if negb (Enabled cfg) || String.eqb (Exporter cfg) "none" then Ok None else
  try exporter <- newExporter cfg;
  match resource_New (ServiceName cfg) (ServiceVersion cfg) with
  | Some e => Err (Wrap "create telemetry resource" e)
  | None => Ok (Some exporter)
  end.
End setup.

(** ** Spans *)
Inductive attribute : Type := AString (key value : string) | AInt (key : string) (value : Z).
Inductive span_action : Type := SetAttributes (attrs : list attribute) | RecordError (e : error) | SetStatusError (text : string).
Definition SetSpanAttributes (recording : bool) (attrs : list attribute) : list span_action :=
  if recording then [SetAttributes attrs] else [].
Definition RecordSpan (recording : bool) (request_id : string) (status : Z) (outcome : string) (err : option error)
    (attrs : list attribute) : list span_action :=
  if negb recording then [] else
  let attrs := attrs ++ [AInt "http.response.status_code" status; AString "porthook.outcome" outcome] in
  let attrs := if String.eqb request_id "" then attrs else attrs ++ [AString "porthook.request_id" request_id] in
  SetAttributes attrs ::
  match err with
  | Some e => [RecordError e; SetStatusError (error_message e)]
  | None => if 500 <=? status then [SetStatusError outcome] else []
  end.

(** [otelhttp.NewHandler] and [otelhttp.NewTransport] are arguments; a handler
    answers and acts on the span of its request. *)
Definition HTTPHandler {Req Resp} (FromRequest : Req -> string)
    (NewHandler : (Req -> list span_action * Resp) -> string -> Req -> list span_action * Resp)
    (handler : Req -> Resp) (operation : string) : Req -> list span_action * Resp :=
  NewHandler (fun r =>
    let id := FromRequest r in
    ((if negb (String.eqb id "") then [SetAttributes [AString "porthook.request_id" id]] else []), handler r)) operation.
Definition HTTPTransport {T} (DefaultTransport : T) (NewTransport : T -> T) (base : option T) : T :=
  NewTransport (default DefaultTransport base).

Section properties.
Context {U : GoUnicode}.

(** With OTEL_SDK_DISABLED no exporter is made, whatever else is set. *)
Lemma disabled_exports_nothing Getenv create resource_New service version :
  EqualFold (TrimSpace (Getenv "OTEL_SDK_DISABLED"%string)) "true" = true ->
  Setup create resource_New (ConfigFromEnv Getenv service version) = Ok None.
Proof. intros H. unfold ConfigFromEnv, Setup. rewrite H. by destruct (envBool _ _). Qed.

(** Tracing is off unless it was asked for. *)
Lemma off_by_default Getenv create resource_New service version :
  (forall name, Getenv name = ""%string) -> Setup create resource_New (ConfigFromEnv Getenv service version) = Ok None.
Proof. intros H. unfold ConfigFromEnv, Setup, envBool. cbn [firstEnv]. rewrite !H. done. Qed.
End properties.
End Telemetry.

(** * server/dashboard *)
Module Dashboard.
Definition security_headers : list (string * string) :=
  [("Referrer-Policy", "no-referrer"); ("X-Content-Type-Options", "nosniff"); ("X-Frame-Options", "DENY");
   ("Content-Security-Policy", "default-src 'self'; script-src 'self'; style-src 'self'; connect-src 'self'; form-action 'none'; base-uri 'none'; frame-ancestors 'none'")]%string.
Definition setSecurityHeaders (h : Header) : Header := foldl (fun h '(k, v) => Header_Set h k v) h security_headers.

Section handler.
(** The embedded index, and the file server of [net/http] on the embedded
    files, which adds to the headers it is given. *)
Context (index : result bytes) (fileServer : string -> string -> Header -> Response).

(** [http.Error] *)
Definition http_Error (h : Header) (status : Z) (text : string) : Response :=
  mkResponse status (Header_Set (Header_Set h "Content-Type" "text/plain; charset=utf-8") "X-Content-Type-Options" "nosniff")
    (to_bytes (line text)).
Definition serveIndex (h : Header) : Response :=
  match index with
  | Err _ => http_Error h 500 "dashboard index not found"
  | Ok data => mkResponse 200 (Header_Set h "Content-Type" "text/html; charset=utf-8") data
  end.
(** [http.Redirect] to an absolute path *)
Definition Redirect (h : Header) (method url text : string) : Response :=
  let h := Header_Set h "Location" url in
  let h := if String.eqb method "GET" || String.eqb method "HEAD" then Header_Set h "Content-Type" "text/html; charset=utf-8" else h in
  mkResponse 301 h
    (if String.eqb method "GET" then to_bytes (line (line ("<a href=" +:+ Quote url +:+ ">" +:+ text +:+ "</a>."))) else []).

(** [http.StripPrefix], which looks at the escaped path too if there is one *)
Definition StripPrefix (prefix path rawPath : string) (h : Header) : Response :=
  let p := TrimPrefix path prefix in
  let rp := TrimPrefix rawPath prefix in
  if (len p <? len path) && (String.eqb rawPath "" || (len rp <? len rawPath)) then fileServer p rp h
  else http_Error h 404 "404 page not found".

Definition Handler (method path rawPath : string) : Response :=
  let h := setSecurityHeaders ∅ in
  if String.eqb path "/dashboard" then Redirect h method "/dashboard/" "Moved Permanently"
  else if String.eqb path "/dashboard/" then serveIndex h
  else if HasPrefix path "/dashboard/" then StripPrefix "/dashboard/" path rawPath h
  else http_Error h 404 "404 page not found".

(** Every answer of the dashboard carries the security headers. *)
Lemma dashboard_secured method path rawPath :
  (forall p rp h, h ⊆ rp_Header (fileServer p rp h)) ->
  Forall (fun '(k, v) => Header_Get (rp_Header (Handler method path rawPath)) k = v) security_headers.
Proof.
  intros Hfs. unfold Handler. cbv zeta. destruct (String.eqb path "/dashboard").
  { unfold Redirect. cbn [rp_Header]. destruct (_ || _); repeat constructor. }
  destruct (String.eqb path "/dashboard/"); [unfold serveIndex; destruct index; repeat constructor|].
  destruct (HasPrefix path "/dashboard/"); [|repeat constructor].
  unfold StripPrefix. cbv zeta. destruct (_ && _); [|repeat constructor].
  pose proof (Hfs (TrimPrefix path "/dashboard/") (TrimPrefix rawPath "/dashboard/") (setSecurityHeaders ∅)) as Hsub.
  set (answer := fileServer _ _ _) in *.
  assert (Hget : forall k v, setSecurityHeaders ∅ !! CanonicalHeaderKey k = Some [v] -> Header_Get (rp_Header answer) k = v)
    by (intros k v Hk; unfold Header_Get, Header_Values; by rewrite (lookup_weaken _ _ _ _ Hk Hsub)).
  unfold security_headers. repeat (apply Forall_cons; split; [apply Hget; vm_compute; reflexivity|]). by apply Forall_nil.
Qed.
End handler.
End Dashboard.

(** * What both processes do *)
Definition outcome : Type := string * option error.     (* printed, and the error *)

(** print*ConfigValidationReport *)
Definition printConfigValidationReport (report : Config.ConfigValidationReport) : string :=
  foldr (fun w rest => line ("warning: " +:+ Config.Field w +:+ ": " +:+ Config.Message w) +:+ rest)
    (foldr (fun e rest => line ("error: " +:+ Config.Field e +:+ ": " +:+ Config.Message e) +:+ rest)
       (if negb (Config.HasErrors report) then line "ok" else "") (Config.Errors report)) (Config.Warnings report).

(** runConfigCheck, for a program of that name and the words of its failure *)
Definition config_check (program failure : string) (validate : bool -> Config.ConfigValidationReport) (args : list string) : outcome :=
  match Parse [BoolVar "production"] args with
  | Err e => (""%string, Some e)
  | Ok (sets, others) =>
      if negb (bool_decide (others = [])) then (""%string, Some (Errorf ("usage: " +:+ program +:+ " configcheck [--production]")))
      else
        let report := validate (bool_flag sets "production") in
        (printConfigValidationReport report, if Config.HasErrors report then Some (Errorf failure) else None)
  end.

(** runHealthcheck; [probe] is [healthcheck.HTTP] on a URL *)
Definition health_check (url : result string) (probe : string -> option error) : outcome :=
  match url with
  | Err e => (""%string, Some e)
  | Ok url => match probe url with Some e => (""%string, Some e) | None => (line "ok", None) end
  end.

(** The arguments of [run]. *)
Definition dispatch (program version : string) (healthcheck : outcome) (configcheck : list string -> outcome)
    (serve : outcome) (args : list string) : outcome :=
  let usage := (""%string, Some (Errorf ("usage: " +:+ program +:+ " [version|--version|healthcheck|configcheck]"))) in
  match args with
  | [] => serve
  | command :: rest =>
      if existsb (String.eqb command) ["version"; "--version"; "-version"]%string then (line version, None)
      else if String.eqb command "healthcheck" then if negb (bool_decide (rest = [])) then usage else healthcheck
      else if String.eqb command "configcheck" then configcheck rest
      else usage
  end.

Lemma append_append (a b c : string) : a +:+ (b +:+ c) = (a +:+ b) +:+ c.
Proof. induction a as [|x a IH]; [done|]. by rewrite !string_cons_app, IH. Qed.

(** A check of a configuration fails exactly when the report has an error;
    otherwise its output ends with the line "ok". *)
Lemma config_check_verdict program failure validate args sets :
  Parse [BoolVar "production"] args = Ok (sets, []) ->
  let report := validate (bool_flag sets "production") in
  config_check program failure validate args =
    (printConfigValidationReport report, if bool_decide (Config.Errors report = []) then None else Some (Errorf failure)) /\
  (Config.Errors report = [] -> HasSuffix (printConfigValidationReport report) (line "ok") = true).
Proof.
  intros HP report. split.
  - unfold config_check. rewrite HP. rewrite bool_decide_true by done. cbn [negb]. fold report. f_equal. unfold Config.HasErrors.
    destruct (Config.Errors report); [by rewrite !bool_decide_true|by rewrite !bool_decide_false].
  - intros HE. unfold printConfigValidationReport, Config.HasErrors. rewrite HE. cbn [length foldr]. rewrite bool_decide_true by done.
    cbn [negb]. induction (Config.Warnings report) as [|w ws IH]; cbn [foldr]; [reflexivity|].
    apply HasSuffix_spec in IH as ->. rewrite append_append. apply HasSuffix_app.
Qed.

(** Stores opened one after the other on a database: each is constructed and
    migrated, and the first failure closes the database. *)
Fixpoint open_stores {D} {M : MigrationDB D} (packages : list (package * list PostgresMigration)) (db : D) : option error * D :=
  match packages with
  | [] => (None, db)
  | (p, migrations) :: rest =>
      match open_store (Some db) with
      | Err e => (Some e, db)
      | Ok store =>
          match Migrate p migrations store with
          | (Some e, db') => (Some e, db')
          | (None, db') => open_stores rest db'
          end
      end
  end.
(** The settings of the connection pool. *)
Record pool := mkPool { MaxOpenConns : Z; MaxIdleConns : Z; ConnMaxLifetime : Duration; ConnMaxIdleTime : Duration }.

(** * The control plane *)
Module ControlPlaneProcess.
Module CP := ControlPlaneConfig.CP.
(** The six stores: in memory, or on one database. *)
Inductive backing (D : Type) : Type :=
| InMemory (tokens adminTokens : TokenStore.MemoryStore) (reservations : Reserved.MemoryStore) (policies : Access.MemoryStore)
    (domains : CustomDomains.MemoryStore) (auditEvents : AuditEvents.MemoryAuditEventStore)
| OnDatabase (db : D) (settings : pool).
Arguments InMemory {D}.
Arguments OnDatabase {D}.

(** The packages in the order they are opened. *)
Definition packages : list (package * list string) :=
  [(tokens_package, ["0001_create_api_tokens.sql"; "0002_add_token_last_used_at.sql"; "0003_create_api_tokens_token_hash_idx.sql"]);
   (reserved_package, ["0004_create_reserved_subdomains.sql"]);
   (access_package, ["0005_create_access_policies.sql"]);
   (customdomains_package, ["0006_create_custom_domains.sql"; "0007_add_custom_domain_verification.sql"]);
   (audit_package, ["0008_create_audit_events.sql"]);
   (admintokens_package, ["0010_create_admin_tokens.sql"])]%string.

Section process.
Context {D : Type} {M : MigrationDB D} (migrations : list (package * list PostgresMigration)).
Context (Open : string -> result D).

(** The stores, and the database after with whether it was closed. *)
Definition stores (cfg : CP.Config) : result (backing D) * option (D * bool) :=
  if String.eqb (CP.DatabaseURL cfg) "" then
    (Ok (InMemory TokenStore.NewMemoryStore TokenStore.NewMemoryStore Reserved.NewMemoryStore Access.NewMemoryStore
           CustomDomains.NewMemoryStore (AuditEvents.NewMemoryAuditEventStore 500)), None)
  else
    match Open (CP.DatabaseURL cfg) with
    | Err e => (Err (Wrap "open database" e), None)
    | Ok db =>
        match open_stores migrations db with
        | (Some e, db') => (Err e, Some (db', true))
        | (None, db') =>
            (Ok (OnDatabase db' (mkPool (CP.DBMaxOpenConns cfg) (CP.DBMaxIdleConns cfg) (CP.DBConnMaxLifetime cfg)
                                   (CP.DBConnMaxIdleTime cfg))), Some (db', false))
        end
    end.

Context {U : GoUnicode} {GD : GoDuration} {GU : GoURL} {NI : ClientIP.GoNetip}.
Context (Getenv : string -> string) (version : string) (probe : Duration -> string -> option error).
Context (create : Telemetry.exporter_kind -> option error) (resource_New : string -> string -> option error).
Context (Run : CP.Config -> backing D -> option error).

Definition runConfigCheck (args : list string) : outcome :=
  config_check "porthook-control-plane" "control-plane configuration check failed" (CP.ValidateConfig (CP.ConfigFromEnv Getenv)) args.
Definition runHealthcheck : outcome :=
  let cfg := CP.ConfigFromEnv Getenv in
  health_check (ControlPlaneConfig.Health.URLFromEnvOrListenAddr Getenv (CP.Addr cfg) "/readyz") (probe (ControlPlaneConfig.Health.TimeoutFromEnv Getenv)).
Definition with_version (cfg : CP.Config) (v : string) : CP.Config :=
  CP.mkConfig (CP.Addr cfg) (CP.AdminToken cfg) (CP.ValidatorToken cfg) (CP.GatewayManagementURL cfg)
    (CP.GatewayManagementToken cfg) (CP.GatewayManagementTimeout cfg) (CP.TrustedProxies cfg) (CP.DatabaseURL cfg) v
    (CP.AuditEventRetention cfg) (CP.AuditEventPruneInterval cfg) (CP.DNSResolverAddr cfg) (CP.ShutdownTimeout cfg)
    (CP.DBMaxOpenConns cfg) (CP.DBMaxIdleConns cfg) (CP.DBConnMaxLifetime cfg) (CP.DBConnMaxIdleTime cfg).
Definition serve : outcome :=
  let cfg := with_version (CP.ConfigFromEnv Getenv) version in
  match Telemetry.Setup create resource_New (Telemetry.ConfigFromEnv Getenv "porthook-control-plane" version) with
  | Err e => (""%string, Some e)
  | Ok _ =>
      match fst (stores cfg) with
      | Err e => (""%string, Some e)
      | Ok b => (""%string, Run cfg b)
      end
  end.
Definition run (args : list string) : outcome :=
  dispatch "porthook-control-plane" version runHealthcheck runConfigCheck serve args.
(** What is printed to the two outputs, and the exit status. *)
Definition main (args : list string) : string * string * Z :=
  match run args with (out, Some e) => (out, line (error_message e), 1) | (out, None) => (out, ""%string, 0) end.
End process.
End ControlPlaneProcess.

(** * The gateway *)
Module GatewayProcess.
Definition package_ : package * list string := (request_log_package, ["0009_create_gateway_request_logs.sql"%string]).
Definition maxDuration (a b : Duration) : Duration := if b <? a then a else b.

Section process.
Context {D : Type} {M : MigrationDB D} (migrations : list PostgresMigration).
Context (Open : string -> result D).

(** The store of the request log, if a database is configured. *)
Definition openRequestLogStore (cfg : Config.Config) : result (option (D * pool)) * option (D * bool) :=
  if String.eqb (Config.RequestLogDatabaseURL cfg) "" then (Ok None, None)
  else
    match Open (Config.RequestLogDatabaseURL cfg) with
    | Err e => (Err (Wrap "open request log database" e), None)
    | Ok db =>
        match open_store (Some db) with
        | Err e => (Err e, Some (db, true))
        | Ok store =>
            match RequestLogMigrations.Migrate migrations (Some store) with
            | (Some e, db') => (Err e, Some (default db db', true))
            | (None, db') =>
                (Ok (Some (default db db', mkPool (Config.DBMaxOpenConns cfg) (Config.DBMaxIdleConns cfg)
                                             (Config.DBConnMaxLifetime cfg) (Config.DBConnMaxIdleTime cfg))),
                 Some (default db db', false))
            end
        end
    end.

Context {U : GoUnicode} {GD : GoDuration} {GU : GoURL} {NI : ClientIP.GoNetip}.
Context (Getenv : string -> string) (version : string) (probe : Duration -> string -> option error).
Context (create : Telemetry.exporter_kind -> option error) (resource_New : string -> string -> option error).
(** [Run] of the server, with what it and the process log write. *)
Context (Run : Config.Config -> option (D * pool) -> outcome).

Definition runConfigCheck (args : list string) : outcome :=
  config_check "porthook-gateway" "gateway configuration check failed" (Config.ValidateConfig (Config.ConfigFromEnv Getenv)) args.
Definition runHealthcheck : outcome :=
  let cfg := Config.ConfigFromEnv Getenv in
  health_check (ControlPlaneConfig.Health.URLFromEnvOrListenAddr Getenv (Config.ManagementAddr cfg) "/readyz")
    (probe (ControlPlaneConfig.Health.TimeoutFromEnv Getenv)).
Definition serve : outcome :=
  let cfg := Config.ConfigFromEnv Getenv in
  match Telemetry.Setup create resource_New (Telemetry.ConfigFromEnv Getenv "porthook-gateway" version) with
  | Err e => (""%string, Some e)
  | Ok _ =>
      match fst (openRequestLogStore cfg) with
      | Err e => (""%string, Some e)
      | Ok store => Run cfg store
      end
  end.
Definition run (args : list string) : outcome :=
  dispatch "porthook-gateway" version runHealthcheck runConfigCheck serve args.
Definition main (args : list string) : string * string * Z :=
  match run args with (out, Some e) => (out, line (error_message e), 1) | (out, None) => (out, ""%string, 0) end.
End process.
End GatewayProcess.

(** * The two processes on one database *)
(** A sequence that takes the elements of two others, each in its order. *)
Inductive merge {A} : list A -> list A -> list A -> Prop :=
| merge_nil : merge [] [] []
| merge_left l r out x : merge l r out -> merge (l ++ [x]) r (out ++ [x])
| merge_right l r out x : merge l r out -> merge l (r ++ [x]) (out ++ [x]).

Lemma merge_sym {A} (l r out : list A) : merge l r out -> merge r l out.
Proof. induction 1; by constructor. Qed.
Lemma merge_length {A} (l r out : list A) : merge l r out -> length out = (length l + length r)%nat.
Proof. induction 1; rewrite ?length_app; cbn; lia. Qed.
Lemma merge_app {A} (l r out more : list A) : merge l r out -> merge (l ++ more) r (out ++ more).
Proof.
  intros H. induction more as [|x more IH] using rev_ind; [by rewrite !app_nil_r|].
  rewrite !app_assoc. by apply merge_left.
Qed.
Lemma merge_Permutation {A} (l r out : list A) : merge l r out -> out ≡ₚ l ++ r.
Proof.
  induction 1 as [|l r out x _ IH|l r out x _ IH]; [done|rewrite IH..].
  - rewrite <- !app_assoc. apply Permutation_app_head. apply Permutation_app_comm.
  - by rewrite app_assoc.
Qed.

Section deployment.
Context {D : Type} {M : MigrationDB D} {L : MigrationLaws D}.

Definition sqls (ps : list (package * list PostgresMigration)) : list string := mg_SQL <$> (ps ≫= snd).
Definition vers (ps : list (package * list PostgresMigration)) : gset Z := list_to_set (mg_Version <$> (ps ≫= snd)).

(** The first [j] of the packages [ps], and all of [qs], have been applied. *)
Definition applied (ps qs : list (package * list PostgresMigration)) (j : nat) (db : D) : Prop :=
  merge (sqls (take j ps)) (sqls qs) (ran db) /\ versions db = vers (take j ps) ∪ vers qs.

Lemma sqls_app ps ps' : sqls (ps ++ ps') = sqls ps ++ sqls ps'.
Proof. unfold sqls. by rewrite bind_app, fmap_app. Qed.
Lemma vers_app ps ps' : vers (ps ++ ps') = vers ps ∪ vers ps'.
Proof. unfold vers. by rewrite bind_app, fmap_app, list_to_set_app_L. Qed.
Lemma vers_single p ms : vers [(p, ms)] = list_to_set (mg_Version <$> ms).
Proof. unfold vers. cbn. by rewrite app_nil_r. Qed.
Lemma sqls_single p ms : sqls [(p, ms)] = mg_SQL <$> ms.
Proof. unfold sqls. cbn. by rewrite app_nil_r. Qed.

(** One package of a database to which it was applied, or not. *)
Lemma migrate_applied p ms (db : D) : list_to_set (mg_Version <$> ms) ⊆ versions db -> 
  ran (snd (Migrate p ms db)) = ran db /\ versions (snd (Migrate p ms db)) = versions db.
Proof.
  intros Hs. destruct (Migrate_snd p ms db) as [[e|] E]; apply applyMigrations_runs in E; [by rewrite E|].
  unfold pending in E. rewrite filter_no in E; [cbn in E; rewrite app_nil_r in E; destruct E; set_solver|].
  apply Forall_forall. intros m Hm Hc. apply Hc, Hs, elem_of_list_to_set. by apply list_elem_of_fmap_2.
Qed.
Lemma migrate_fresh p ms (db : D) : list_to_set (mg_Version <$> ms) ## versions db ->
  let '(err, db') := Migrate p ms db in
  (ran db' = ran db ++ (mg_SQL <$> ms) /\ versions db' = versions db ∪ list_to_set (mg_Version <$> ms)) \/
  (err <> None /\ ran db' = ran db /\ versions db' = versions db).
Proof.
  intros Hd. unfold Migrate. destruct (applyMigrations db ms) as [err db'] eqn:E. apply applyMigrations_runs in E.
  destruct err as [e|]; [right; by rewrite E|]. unfold pending in E. rewrite filter_every in E.
  - destruct (verifySchema p db'); by left.
  - apply Forall_forall. intros m Hm Hc. eapply Hd; [|exact Hc]. apply elem_of_list_to_set. by apply list_elem_of_fmap_2.
Qed.

Lemma take_vers ps (i j : nat) p ms : ps !! i = Some (p, ms) -> (i < j)%nat ->
  list_to_set (mg_Version <$> ms) ⊆ vers (take j ps).
Proof.
  intros Hi Hij v Hv. unfold vers. rewrite elem_of_list_to_set, list_elem_of_fmap in *.
  destruct Hv as (m & -> & Hm). exists m. split; [done|]. apply list_elem_of_bind. exists (p, ms). split; [done|].
  apply (list_elem_of_lookup_2 _ i). by rewrite lookup_take_lt.
Qed.
Lemma fresh_vers ps qs (i : nat) p ms : NoDup (mg_Version <$> ((ps ++ qs) ≫= snd)) -> ps !! i = Some (p, ms) ->
  list_to_set (mg_Version <$> ms) ## vers (take i ps) ∪ vers qs.
Proof.
  intros Hn Hi. rewrite <- (take_drop_middle ps i _ Hi), bind_app, bind_app, bind_cons, !fmap_app in Hn. cbn [snd] in Hn.
  rewrite !NoDup_app in Hn. unfold vers. set_solver.
Qed.

(** One package where the first [j] are applied. *)
Lemma migrate_at (ps qs : list (package * list PostgresMigration)) (i j : nat) p ms (db : D) e db1 :
  NoDup (mg_Version <$> ((ps ++ qs) ≫= snd)) -> (i <= j <= length ps)%nat -> applied ps qs j db ->
  ps !! i = Some (p, ms) -> Migrate p ms db = (e, db1) ->
  exists j1, (j <= j1 <= length ps)%nat /\ applied ps qs j1 db1 /\ ran db `prefix_of` ran db1 /\ (e = None -> (S i <= j1)%nat).
Proof.
  intros Hn Hij [Hm Hv] Hi EM. pose proof (lookup_lt_Some _ _ _ Hi) as Hlt. destruct (decide (i < j)%nat) as [Hl|Hl].
  - destruct (migrate_applied p ms db) as [HR HV]; [rewrite Hv; pose proof (take_vers _ _ _ _ _ Hi Hl); set_solver|].
    rewrite EM in HR, HV. cbn in HR, HV. exists j. unfold applied. rewrite HR, HV. split; [lia|]. split; [done|]. split; [done|]. lia.
  - assert (j = i) as -> by lia. pose proof (migrate_fresh p ms db) as HF. rewrite EM in HF.
    destruct HF as [[HR HV]|(He & HR & HV)]; [rewrite Hv; eapply fresh_vers; eauto|exists (S i)|exists i].
    + unfold applied. rewrite HR, HV, (take_S_r _ _ _ Hi), sqls_app, vers_app, sqls_single, vers_single, Hv.
      split; [lia|]. split; [|split; [by apply prefix_app_r|lia]]. split; [by apply merge_app|set_solver].
    + unfold applied. rewrite HR, HV. split; [lia|]. done.
Qed.

(** Opening the stores applies packages in order, from where it was left. *)
Lemma open_stores_applied (ps qs : list (package * list PostgresMigration)) (i j : nat) (db : D) err db' :
  NoDup (mg_Version <$> ((ps ++ qs) ≫= snd)) -> (i <= j <= length ps)%nat -> applied ps qs j db ->
  open_stores (drop i ps) db = (err, db') ->
  exists j', (j <= j' <= length ps)%nat /\ applied ps qs j' db' /\ ran db `prefix_of` ran db' /\
    (err = None -> j' = length ps).
Proof.
  intros Hn. remember (drop i ps) as rest eqn:Hrest. revert i j db Hrest.
  induction rest as [|[p ms] rest IH]; intros i j db Hrest Hij Hap; cbn [open_stores].
  { intros [= <- <-]. exists j. split; [lia|]. split; [done|]. split; [done|]. intros _.
    assert (length (drop i ps) = 0%nat) by (by rewrite <- Hrest). rewrite length_drop in *. lia. }
  assert (Hi : ps !! i = Some (p, ms)) by (rewrite <- (Nat.add_0_r i), <- lookup_drop, <- Hrest; done).
  assert (Hdrop : rest = drop (S i) ps) by (by rewrite <- Nat.add_1_r, <- drop_drop, <- Hrest).
  cbn [open_store]. destruct (Migrate p ms db) as [e db1] eqn:EM.
  assert (Hstep : exists j1, (j <= j1 <= length ps)%nat /\ applied ps qs j1 db1 /\ ran db `prefix_of` ran db1 /\
    (e = None -> (S i <= j1)%nat)) by (eapply migrate_at; eauto).
  destruct Hstep as (j1 & Hj1 & Hap1 & Hp1 & Hs1). destruct e as [e|]; intros H.
  { injection H as <- <-. exists j1. done. }
  destruct (IH (S i) j1 db1 Hdrop ltac:(specialize (Hs1 eq_refl); lia) Hap1 H) as (j2 & ? & ? & ? & ?).
  exists j2. split; [lia|]. split; [done|]. split; [by etransitivity|done].
Qed.

(** ** Starts of the processes *)
(** [dp_control_plane] and [dp_gateway] tell whether a start of the process on
    the database has succeeded. *)
Record deployment := mkDeployment { dp_db : D; dp_control_plane : bool; dp_gateway : bool }.
Definition after (db : D) (opened : option (D * bool)) : D := default db (fst <$> opened).

Context (cp : list (package * list PostgresMigration)) (gw : list PostgresMigration).

(** A start opens the database as it is, or fails to; while processes serve,
    the database changes but not the migrations. *)
Inductive deployment_step : deployment -> deployment -> Prop :=
| start_control_plane d cfg Open :
    (forall url db, Open url = Ok db -> db = dp_db d) ->
    deployment_step d
      (mkDeployment (after (dp_db d) (snd (ControlPlaneProcess.stores cp Open cfg)))
         (match fst (ControlPlaneProcess.stores cp Open cfg) with
          | Ok (ControlPlaneProcess.OnDatabase _ _) => true | _ => dp_control_plane d end) (dp_gateway d))
| start_gateway d cfg Open :
    (forall url db, Open url = Ok db -> db = dp_db d) ->
    deployment_step d
      (mkDeployment (after (dp_db d) (snd (GatewayProcess.openRequestLogStore gw Open cfg))) (dp_control_plane d)
         (match fst (GatewayProcess.openRequestLogStore gw Open cfg) with Ok (Some _) => true | _ => dp_gateway d end))
| serving d db : versions db = versions (dp_db d) -> ran db = ran (dp_db d) ->
    deployment_step d (mkDeployment db (dp_control_plane d) (dp_gateway d)).

Definition gateway_packages : list (package * list PostgresMigration) := [(request_log_package, gw)].
(** The first [j] packages of the control plane and the first [g] of the
    gateway's have been applied; all of a process that started. *)
Definition deployed (j g : nat) (d : deployment) : Prop :=
  (j <= length cp)%nat /\ (g <= 1)%nat /\
  merge (sqls (take j cp)) (sqls (take g gateway_packages)) (ran (dp_db d)) /\
  versions (dp_db d) = vers (take j cp) ∪ vers (take g gateway_packages) /\
  (dp_control_plane d = true -> j = length cp) /\ (dp_gateway d = true -> g = 1%nat).

Lemma stores_after Open cfg (db : D) : (forall url db', Open url = Ok db' -> db' = db) ->
  let '(res, opened) := ControlPlaneProcess.stores cp Open cfg in
  (after db opened = db /\ forall b p, res <> Ok (ControlPlaneProcess.OnDatabase b p)) \/
  exists err, open_stores cp db = (err, after db opened) /\
    (forall b p, res = Ok (ControlPlaneProcess.OnDatabase b p) -> err = None).
Proof.
  intros HO. unfold ControlPlaneProcess.stores. destruct (String.eqb _ _); [left; split; [done|discriminate]|].
  destruct (Open _) as [db'|e] eqn:E; [|left; split; [done|discriminate]]. apply HO in E as ->.
  destruct (open_stores cp db) as [[e|] db1]; right; eexists; (split; [reflexivity|]); intros ??; [discriminate|done].
Qed.
Lemma request_log_after Open cfg (db : D) : (forall url db', Open url = Ok db' -> db' = db) ->
  let '(res, opened) := GatewayProcess.openRequestLogStore gw Open cfg in
  (after db opened = db /\ forall s, res <> Ok (Some s)) \/
  exists err, open_stores gateway_packages db = (err, after db opened) /\ (forall s, res = Ok (Some s) -> err = None).
Proof.
  intros HO. unfold GatewayProcess.openRequestLogStore. destruct (String.eqb _ _); [left; split; [done|discriminate]|].
  destruct (Open _) as [db'|e] eqn:E; [|left; split; [done|discriminate]]. apply HO in E as ->.
  cbn [open_store RequestLogMigrations.Migrate gateway_packages open_stores].
  destruct (Migrate request_log_package gw db) as [[e|] db1]; right; eexists; (split; [reflexivity|]); intros ?; [discriminate|done].
Qed.

Lemma nodup_take (ps qs : list (package * list PostgresMigration)) (k : nat) :
  NoDup (mg_Version <$> ((ps ++ qs) ≫= snd)) -> NoDup (mg_Version <$> ((ps ++ take k qs) ≫= snd)).
Proof. rewrite <- (take_drop k qs) at 1. rewrite app_assoc, (bind_app _ (ps ++ _)), fmap_app, NoDup_app. tauto. Qed.
Lemma nodup_swap (ps qs : list (package * list PostgresMigration)) :
  NoDup (mg_Version <$> ((ps ++ qs) ≫= snd)) -> NoDup (mg_Version <$> ((qs ++ ps) ≫= snd)).
Proof. rewrite !bind_app, !fmap_app. by rewrite Permutation_app_comm. Qed.

Lemma deployment_step_deployed j g d d' :
  NoDup (mg_Version <$> ((cp ++ gateway_packages) ≫= snd)) -> deployed j g d -> deployment_step d d' ->
  exists j' g', deployed j' g' d' /\ ran (dp_db d) `prefix_of` ran (dp_db d').
Proof.
  intros Hn (Hj & Hg & Hm & Hv & Hc & Hw) Hs.
  destruct Hs as [d cfg Open HO|d cfg Open HO|d db HV HR]; cbn [dp_db] in *.
  - pose proof (stores_after Open cfg _ HO) as HS. destruct (ControlPlaneProcess.stores cp Open cfg) as [res opened].
    cbn [fst snd]. destruct HS as [[HS Hres]|(err & HS & Hres)].
    { exists j, g. rewrite HS. split; [|done]. repeat (split; [done|]). split; [|done]. cbn.
      destruct res as [[]|]; [done|by edestruct Hres|done]. }
    edestruct (open_stores_applied cp (take g gateway_packages) 0 j) as (j' & ? & [Hm' Hv'] & ? & He);
      [by apply nodup_take|lia|by split|exact HS|].
    exists j', g. split; [|done]. split; [lia|]. split; [done|]. split; [done|]. split; [done|]. split; [|done]. cbn.
    destruct res as [[]|]; [intros Hd; specialize (Hc Hd); lia|by intros _; apply He; eapply Hres|intros Hd; specialize (Hc Hd); lia].
  - pose proof (request_log_after Open cfg _ HO) as HS. destruct (GatewayProcess.openRequestLogStore gw Open cfg) as [res opened].
    cbn [fst snd]. destruct HS as [[HS Hres]|(err & HS & Hres)].
    { exists j, g. rewrite HS. split; [|done]. repeat (split; [done|]). cbn.
      destruct res as [[]|]; [by edestruct Hres|done..]. }
    edestruct (open_stores_applied gateway_packages (take j cp) 0 g) as (g' & ? & [Hm' Hv'] & ? & He);
      [by apply nodup_take, nodup_swap|cbn; lia|split; [by apply merge_sym|by rewrite Hv, union_comm_L]|exact HS|].
    exists j, g'. split; [|done]. cbn in *. split; [done|]. split; [lia|]. split; [by apply merge_sym|].
    split; [by rewrite union_comm_L|]. split; [done|]. cbn.
    destruct res as [[]|]; [by intros _; apply He; eapply Hres|intros Hd; specialize (Hw Hd); lia..].
  - exists j, g. unfold deployed. cbn. by rewrite HV, HR.
Qed.

Lemma deployment_reached d0 d :
  NoDup (mg_Version <$> ((cp ++ gateway_packages) ≫= snd)) -> rtc deployment_step d0 d ->
  forall j g, deployed j g d0 -> exists j' g', deployed j' g' d.
Proof.
  intros Hn. induction 1 as [|d0 d1 d H _ IH]; intros j g H0; [by exists j, g|].
  destruct (deployment_step_deployed _ _ _ _ Hn H0 H) as (j' & g' & H1 & _). exact (IH _ _ H1).
Qed.
Lemma started_flags d d' : deployment_step d d' ->
  dp_control_plane d = true /\ dp_gateway d = true -> dp_control_plane d' = true /\ dp_gateway d' = true.
Proof.
  destruct 1; cbn; intros [-> ->]; [destruct (fst _) as [[]|]|destruct (fst _) as [[]|]|]; done.
Qed.
Lemma deployed_length j g d : deployed j g d -> dp_control_plane d = true /\ dp_gateway d = true ->
  length (ran (dp_db d)) = (length (sqls cp) + length (sqls gateway_packages))%nat /\
  versions (dp_db d) = vers cp ∪ vers gateway_packages.
Proof.
  intros (? & ? & Hm & Hv & Hc & Hw) [Fc Fw]. specialize (Hc Fc). specialize (Hw Fw). subst j g.
  rewrite (merge_length _ _ _ Hm), Hv, firstn_all. done.
Qed.
End deployment.
Arguments deployed {D M L}.

Lemma deployed_versions contents cp gw :
  all_migrations contents ControlPlaneProcess.packages = Ok cp ->
  package_migrations contents GatewayProcess.package_ = Ok (request_log_package, gw) ->
  mg_Version <$> (cp ≫= snd) = [1; 2; 3; 4; 5; 6; 7; 8; 10] /\ mg_Version <$> gw = [9].
Proof.
  unfold ControlPlaneProcess.packages, GatewayProcess.package_. read_embedded contents. intros [= <-].
  unfold package_migrations, PostgresMigrations. read_embedded contents. intros [= <-]. split; reflexivity.
Qed.

(** C35: the database of a deployment.  The control plane and the gateway are
    started any number of times, in any order, on one database that begins
    empty; a start may fail to open it, stop at any statement, or be refused
    by the schema check, and the database serves in between.  At every point
    the statements that took effect are an interleaving of those of the first
    packages of the control plane and of the gateway's: each migration once,
    none skipped, and each package after the ones whose tables it refers to.
    Once a start of each process has succeeded all ten versions are recorded,
    and no later start runs a statement. *)
Theorem deployment_migrated {D} {M : MigrationDB D} {L : MigrationLaws D} contents cp gw (db0 : D) d :
  all_migrations contents ControlPlaneProcess.packages = Ok cp ->
  package_migrations contents GatewayProcess.package_ = Ok (request_log_package, gw) ->
  versions db0 = ∅ -> ran db0 = [] -> rtc (deployment_step cp gw) (mkDeployment db0 false false) d ->
  (exists j g, merge (sqls (take j cp)) (sqls (take g [(request_log_package, gw)])) (ran (dp_db d))) /\
  (dp_control_plane d = true /\ dp_gateway d = true ->
   versions (dp_db d) = list_to_set (seqZ 1 10) /\
   forall d', deployment_step cp gw d d' -> ran (dp_db d') = ran (dp_db d)).
Proof.
  intros Hcp Hgw Hv Hr Hsteps. destruct (deployed_versions _ _ _ Hcp Hgw) as [V1 V2].
  assert (Hn : NoDup (mg_Version <$> ((cp ++ gateway_packages gw) ≫= snd))).
  { rewrite bind_app, fmap_app, V1. cbn. rewrite app_nil_r, V2. refine (bool_decide_unpack _ _). vm_compute. exact I. }
  destruct (deployment_reached cp gw _ _ Hn Hsteps 0 0) as (j & g & Hd).
  { split; [lia|]. split; [lia|]. cbn. rewrite Hr, Hv. split; [constructor|done]. }
  split; [exists j, g; apply Hd|]. intros Hf. destruct (deployed_length _ _ _ _ _ Hd Hf) as [HL HV]. split.
  - rewrite HV. unfold vers. rewrite V1. cbn [gateway_packages mbind list_bind snd]. rewrite app_nil_r, V2. vm_compute. reflexivity.
  - intros d' Hs. destruct (deployment_step_deployed _ _ _ _ _ _ Hn Hd Hs) as (j' & g' & Hd' & Hp).
    destruct (deployed_length _ _ _ _ _ Hd' (started_flags _ _ _ _ Hs Hf)) as [HL' _]. symmetry.
    apply prefix_length_eq; [done|lia].
Qed.

(** ** Witness *)
Module Witness_deployment.
Definition db : MigrationDB Witness_migrations.D := Witness_migrations.db.
Definition laws : @MigrationLaws _ db := Witness_migrations.laws.
Definition contents := Witness_migrations.contents.
Definition cp : list (package * list PostgresMigration) :=
  match all_migrations contents ControlPlaneProcess.packages with Ok ps => ps | Err _ => [] end.
Definition gw : list PostgresMigration :=
  match package_migrations contents GatewayProcess.package_ with Ok (_, ms) => ms | Err _ => [] end.
Definition cp_config : ControlPlaneConfig.CP.Config :=
  ControlPlaneConfig.CP.mkConfig ":9090" "" "" "" "" 0 "" "postgres://db" "dev" 0 0 "" 0 10 5 0 0.
Definition Open (d : Witness_migrations.D) (url : string) : result Witness_migrations.D := Ok d.
Definition start : deployment := mkDeployment (Witness_migrations.mkD [] []) false false.

Definition gw_config : Config.Config :=
  Config.mkConfig ":8080" ":8081" ":8082" "" "" "localhost" "" "" "" ""
    0 0 0 0 0 0 0 0 0 0 0 0 0 0 0 0 0 0 0 0 0 0 0 0 "postgres://db" 0 0 0 10 5 0 0.

(** The gateway starts, then the control plane. *)
Definition opened1 := GatewayProcess.openRequestLogStore (M := db) gw (Open (dp_db start)) gw_config.
Definition d1 : deployment :=
  mkDeployment (after (dp_db start) (snd opened1)) false (match fst opened1 with Ok (Some _) => true | _ => false end).
Definition opened2 := ControlPlaneProcess.stores (M := db) cp (Open (dp_db d1)) cp_config.
Definition d2 : deployment :=
  mkDeployment (after (dp_db d1) (snd opened2))
    (match fst opened2 with Ok (ControlPlaneProcess.OnDatabase _ _) => true | _ => false end) (dp_gateway d1).

Lemma deployment_migrated_witness :
  head (@ran _ db laws (dp_db d2)) = Some "-- 0009_create_gateway_request_logs.sql"%string /\
  length (@ran _ db laws (dp_db d2)) = 10%nat /\
  @versions _ db laws (dp_db d2) = list_to_set (seqZ 1 10).
Proof.
  assert (H : rtc (@deployment_step _ db laws cp gw) start d2).
  { apply (rtc_l _ _ d1); [apply (start_gateway cp gw start gw_config (Open (dp_db start))); by intros url x [= <-]|].
    apply rtc_once. apply (start_control_plane cp gw d1 cp_config (Open (dp_db d1))). by intros url x [= <-]. }
  destruct (@deployment_migrated _ db laws contents cp gw (dp_db start) d2) as [_ H2];
    [vm_compute; reflexivity|vm_compute; reflexivity|reflexivity|reflexivity|exact H|].
  split; [vm_compute; reflexivity|]. split; [vm_compute; reflexivity|]. apply H2. split; vm_compute; reflexivity.
Defined.
End Witness_deployment.
